(* ===== verification/_CoqProject ===== *)
-Q . S2P
Prelude.v
NvmeSpec.v
Iov.v
World.v
Request.v
Bdev.v
CtrlrBdev.v
Deallocate.v
NdpGrep.v
NdpEcho.v
NdpHeaan.v
HeaanAdd.v
Ctrlr.v
HostPassthru.v
Offload.v
Reservation.v
ReservationSync.v
PollGroup.v
SubsystemState.v
SubsystemProgress.v
CtrlrRegs.v
AsyncEvents.v
Discovery.v
LogPages.v
Connect.v
ConnectInv.v
ConnectLife.v
ConnectEnd.v
ConnectFun.v
ConnectTally.v
ConnectSafe.v
