(* ===== verification/Prelude.v ===== *)
(** * NDP platform: a verification of the near-data-processing path

    The platform moves computation to the storage target of NVMe over Fabrics.
    A host program (a fork of nvme-cli, [src/nvme-cli]) sends vendor-specific
    commands with the places of files on the medium; the target (a fork of
    SPDK, [src/spdk]) reads the blocks, computes, and answers or writes the
    result back.  The opcodes are 0xd1 (search a file for a keyword), 0xd0
    (read two ranges and combine them) and 0xe0 (add two ciphertexts).

    ** How the parts work together

    A transport hands a request to [spdk_nvmf_request_exec] (lib/nvmf/ctrlr.c).
    It is let in and counted ([nvmf_check_subsystem_active],
    [nvmf_check_qpair_active]), checked against controller, namespace, path
    and reservation, and given to the handler of its opcode
    ([nvmf_ctrlr_process_io_cmd]).  The handler (lib/nvmf/ctrlr_bdev.c) submits
    operations to the block-device layer (lib/bdev/bdev.c), whose callbacks run
    when the device completes them; the last callback answers the request
    ([_nvmf_request_complete]), which uncounts it and may finish a pause.
    Reservation commands run on the thread of the subsystem
    (lib/nvmf/subsystem.c); the change is then copied to every poll group
    (lib/nvmf/nvmf.c), where the check of the I/O path reads it.  A pause of
    the subsystem visits the poll groups one after the other and waits for
    the counters of the requests.  On the admin queue a host reads and writes
    the registers of its controller, keeps it alive, waits for events and reads
    the log pages that explain them (ctrlr.c, ctrlr_discovery.c).  Before all
    this a host opens a controller with a Connect command, which the threads of
    the queue pair, of the subsystem and of the controller handle in turn; the
    controller lives until its last queue pair has gone (ctrlr.c, subsystem.c,
    nvmf.c).

    ** Files, in the order of dependency

    - [Prelude]: record update, machine integers ([u8] to [u64], [i32]), byte
      strings, [slice] and [splice], little-endian words, automation.
    - [NvmeSpec]: commands, completions and codes (include/spdk/nvme_spec.h,
      nvmf_spec.h) and the direction of a transfer (nvmf_transport.h).
    - [Iov]: scatter-gather vectors (lib/util/iov.c), all functions.
    - [World]: the state of the target - requests, queue pairs, controllers, the
      subsystem, a poll group's view of it, allocated contexts, pending
      operations, the pool of I/O objects, the medium and a log of events -
      and the monad [M] of its handlers with its weakest preconditions [wp].
      Objects are in stores indexed by identity, so callbacks that share a
      context see each other's writes; [Undef] is an access the C program has
      no right to make.  [wp m w Q] says that [m] is defined from [w] and
      returns with [Q]; [answers_only w w' l] that exactly the answers [l] were
      handed to the transport between [w] and [w'].
    - [Request]: admission and completion of requests (ctrlr.c).
    - [Bdev]: the front end of the block-device layer (bdev.c, math.c).
    - [CtrlrBdev]: the standard commands (ctrlr_bdev.c); [Deallocate]: its
      dataset management.
    - [NdpGrep], [NdpEcho], [NdpHeaan]: the platform's commands 0xd1, 0xd0 and
      0xe0 (ctrlr_bdev.c); [HeaanAdd]: runs of 0xe0 from command to answer.
    - [Ctrlr]: processing of I/O commands and [spdk_nvmf_request_exec]
      (ctrlr.c), composed from the files above.
    - [HostPassthru]: [get_file_layout] and [passthru] of nvme-cli's nvme.c and
      the allocation of util/mem.c, in a monad over the interface [HostOS].
    - [Offload]: host and target together, for the addition.
    - [Reservation]: the reservation commands of subsystem.c and their abstract
      specification; [ReservationSync]: report, notification, persistence and
      propagation to the poll groups (subsystem.c, nvmf.c).
    - [PollGroup]: a poll group's view of a subsystem (nvmf.c), and its steps
      [io_step], each with the label of what happened to which request;
      [SubsystemState]: start, stop, pause and resume (subsystem.c) as a
      machine of visits, commands and queue pairs; [SubsystemProgress]: that its
      changes come to an end.
    - [CtrlrRegs]: the property commands, reset, shutdown and keep alive
      (ctrlr.c), as steps in time.
    - [AsyncEvents]: event requests, notices, masks and the logs behind them
      (ctrlr.c); [Discovery]: the discovery log (ctrlr_discovery.c);
      [LogPages]: Get Log Page (ctrlr.c).
    - [Connect]: the Connect command, the identifiers of controllers and the end
      of queue pairs and controllers (ctrlr.c, subsystem.c, nvmf.c), as a
      machine of messages between threads, [conn_step], whose handlers run in
      the monad [CM]; [None] is an access to what is gone or an assertion that
      fails.  [ConnectInv], [ConnectLife], [ConnectEnd]: the stages in the life
      of a queue pair and of a controller, and that the handlers keep them;
      [ConnectTally]: the statistics of a poll group, and that no Connect request
      is lost; [ConnectFun]: what single
      Connect commands do; [ConnectSafe]: what all runs of the machine do.

    Definitions carry the names of the C functions and types they translate; a
    C loop or a branch of a long function is a definition of its own.

    ** What the theorems show

    - Whole path: on a target whose library is built with [HEAAN_LIB] (the
      makefiles define it for the application only) an offloaded addition
      leaves the library's sum of two files in the target file and nothing else
      changed, whatever the order of the device
      ([Offload.offloaded_addition_correct]); a read is answered once,
      with the data or the device's error ([Ctrlr.exec_read_answered]), and a
      command that is refused is answered with the reason
      ([Ctrlr.exec_refused_answered]).
    - Platform commands: each does what it is for
      ([NdpGrep.grep_returns_matching_lines], [NdpEcho.echo_returns_first_range],
      [HeaanAdd.heaan_addition_correct],
      [HostPassthru.addition_payload_reaches_target]), and where it does not:
      resubmission that loses the keyword, buffers too small, requests never
      answered, use of freed memory, bytes sent where blocks are expected,
      reservations ignored.
    - Requests: one answer each, and exact counters of outstanding requests
      under admission and completion ([Request.complete_exactly_once],
      [Request.complete_accounted], [Request.check_subsystem_active_accounted]).
    - Block device and standard commands: byte and block interfaces, range
      checks without overflow, waiting for objects, reads, writes,
      compare-and-write, identification, deallocation ([Bdev], [CtrlrBdev],
      [Deallocate]).
    - Reservations: the commands refine an abstract state machine
      ([Reservation.reservation_commands_refine]), reachable states are well
      formed, updates of the poll groups terminate and afterwards every poll
      group enforces the reservation ([ReservationSync.reservation_enforced]),
      the report is a round trip, and so is persistence while the reservation's
      key is a registrant's; the check of the I/O path
      refines a table ([Ctrlr.reservation_check_refines]).
    - Pause: request handlers make the steps of the abstract group
      ([PollGroup.requests_step_the_group]); in all interleavings a paused
      subsystem is quiescent ([SubsystemState.paused_subsystem_quiescent]), and
      changes of state are answered once and in order, none kept from its end by
      anything but the commands and queue pairs its groups wait for, with no
      endless run of turns and ends of these
      ([SubsystemProgress.state_changes_answered]).
    - Controller: the registers as memory and as a state machine
      ([CtrlrRegs.properties_are_register_memory],
      [CtrlrRegs.ready_follows_enable], [CtrlrRegs.disconnections_end]); events
      once, in order and not held back
      ([AsyncEvents.events_delivered_in_order]).
    - Log pages: a read gives the window of the page, however page and buffer
      are split ([LogPages.get_log_page_window],
      [Discovery.discovery_log_window]); the discovery log shows a host only
      what it may see.
    - Connections: in all interleavings that keep the rules, pointers lead to
      live objects, no assertion fails, identifiers of controllers and queues
      are different and a Connect is answered at most once
      ([ConnectSafe.connections_safe]); when nothing is under way every Connect
      that arrived has been answered or its queue pair is gone, and nothing is
      leaked ([ConnectSafe.connections_settle]); in every state that breaks a
      rule the next step is undefined, and hosts reach such states
      ([ConnectSafe.broken_rules_undefined]).  A Connect command opens exactly
      the controller it asks for ([ConnectFun.admin_connect_opens_controller])
      under the first free identifier ([ConnectFun.cntlid_first_free]), or is
      refused without a trace ([ConnectFun.refused_connect_only_answered]).
    - Vectors: copies equal a flat memcpy ([Iov]).

    ** Assumptions

    What is not in the repository is an interface: the homomorphic library
    ([NdpHeaan.HeaanLib]), the operating system of the host
    ([HostPassthru.HostOS]), printing and parsing of UUIDs
    ([ReservationSync.Uuid]) and the store of reservations
    ([ReservationSync.ReservationOps]); witnesses instantiate them.  The device
    completes a pending operation with a result of its choice
    ([Bdev.device_complete]), and allocation may fail ([w_malloc] lists the
    outcomes to come).  One poll group runs at a time on its own thread, so a
    callback is atomic; interleavings are those of callbacks.  In
    [SubsystemState] the set of poll groups is fixed, queue pairs join active
    groups, namespaces change as [ns_change_ok] says, and the context of a
    removal that reverts a failed start can be allocated; assertions on states
    are those of a release build.  In [CtrlrRegs] a registered poller may fire
    at any time.  In [Connect] messages of one thread arrive in the order they
    were sent, a poller of [_retry_qid_check] may fire at any time, a queue pair
    has nothing outstanding any more at a time of its choice once its Connect
    is answered, and the rules of [ConnectSafe.polite] are those the safety of
    the target rests on: the data of a Connect in one buffer, no second Connect
    on a queue pair before the first is answered, no end of a controller or of
    its admin queue pair while a queue pair waits for an identifier, counters
    below their limit.  What a transport adds to a discovery entry is a function
    of the listener.

    ** Bounds and fuel

    Integers keep the width of the C types where they can wrap.  Recursion
    follows the data.  Only the loops of [iov_xfer] and [spdk_iovcpy] take
    fuel; it is computed from the vectors, and [Iov] proves that it suffices,
    so both functions are total.

    ** Not modelled

    - Identify, the features other than keep alive and event configuration,
      abort and custom administrative commands of ctrlr.c: arguments of
      [spdk_nvmf_request_exec], which takes the fabrics commands of [CtrlrRegs]
      and [Connect] as arguments as well.
    - The choice of a poll group for a new queue pair, and the data a new
      controller is identified with.
    - Creation of subsystems, namespaces, hosts and listeners, authentication,
      RPC: control plane that the I/O path does not call.
    - Transports (tcp.c, rdma.c, fc.c, vfio_user.c): socket and hardware I/O on
      either side of a request.
    - The back end of bdev.c (quality of service, splitting, emulation) and
      bdev modules, drivers, the thread and environment libraries: an
      operation is one step of the device.
    - The protection-information context, whose computation is in dif.c, and
      output for debugging and logging.
    - The JSON file of persistent reservations, behind [ReservationOps].
    - Option parsing and every other command of nvme-cli. *)
From stdpp Require Export prelude list gmap.
From Stdlib Require Export ZArith Lia.

#[global] Open Scope Z_scope.

(** ** Record update: [r <| f := v |>] *)

(** [Eta R] names the eta-expansion of a record type; a setter of a field is
    the eta-expansion with that one projection replaced. *)
Class Eta (R : Type) := eta : R -> R.
Class Setter {R T : Type} (p : R -> T) := set : (T -> T) -> R -> R.
Arguments set {R T} p {_} f r.
#[global] Typeclasses Opaque Eta Setter.

Ltac build_setter :=
  lazymatch goal with
  | |- @Setter ?R ?T ?p =>
      let eta_inst := constr:(ltac:(typeclasses eauto) : Eta R) in
      let upd := fresh "f" in
      let rec_var := fresh "r" in
      unfold Setter; intros upd rec_var;
      let expanded := eval hnf in (eta_inst rec_var) in
      let abstracted := eval pattern (p rec_var) in expanded in
      lazymatch abstracted with
      | (fun _ => ?c) _ => fail "not a field"
      | ?F _ => let updated := eval cbv beta in (F (upd (p rec_var))) in exact updated
      end
  end.
#[global] Hint Extern 1 (Setter _) => build_setter : typeclass_instances.

Declare Scope ndp_scope.
Delimit Scope ndp_scope with ndp.
#[global] Open Scope ndp_scope.
Notation "r <| p := v |>" := (set p (fun _ => v) r)
  (at level 1, p at level 99, v at level 200, left associativity,
   format "r  <| p  :=  v |>") : ndp_scope.

(** ** Machine integers *)

(** An unsigned [w]-bit C integer is a [Z] in [0, 2^w); every C operation
    that can leave the range is followed by the wrap of its width. *)
Definition u8 (x : Z) : Z := x mod 2 ^ 8.
Definition u16 (x : Z) : Z := x mod 2 ^ 16.
Definition u32 (x : Z) : Z := x mod 2 ^ 32.
Definition u64 (x : Z) : Z := x mod 2 ^ 64.

(** Conversion of an unsigned 32-bit value to [int] (two's complement). *)
Definition i32 (x : Z) : Z :=
  let y := x mod 2 ^ 32 in if y <? 2 ^ 31 then y else y - 2 ^ 32.

Definition UINT16_MAX : Z := 2 ^ 16 - 1.
Definition UINT32_MAX : Z := 2 ^ 32 - 1.
Definition UINT64_MAX : Z := 2 ^ 64 - 1.

(** The bit field of width [n] starting at bit [lo]. *)
Definition bits (lo n x : Z) : Z := Z.land (Z.shiftr x lo) (Z.ones n).

(** Boolean C conditions on integers. *)
Notation "x !=? y" := (negb (x =? y)) (at level 70, no associativity) : ndp_scope.

(** ** Bytes and buffers *)

(** A byte is a [Z] in [0, 256); a buffer is the list of its bytes. *)
Abbreviation bytes := (list Z).

Definition blen (b : bytes) : Z := Z.of_nat (length b).

(** [memcpy (dst + off, src, length src)]. *)
Definition splice (off : nat) (src dst : bytes) : bytes :=
  take off dst ++ src ++ drop (off + length src) dst.

(** The [len] bytes of [b] at offset [off]. *)
Definition slice (off len : nat) (b : bytes) : bytes := take len (drop off b).

(** Little-endian encoding of the low [n] bytes of [x], and decoding. *)
Fixpoint le_enc (n : nat) (x : Z) : bytes :=
  match n with
  | O => []
  | S n => x mod 256 :: le_enc n (x / 256)
  end.

Fixpoint le_dec (b : bytes) : Z :=
  match b with
  | [] => 0
  | x :: b => x + 256 * le_dec b
  end.

Definition byte_ok (x : Z) : Prop := 0 <= x < 256.

(** ** Error numbers *)
Definition EPERM : Z := 1.
Definition ENOENT : Z := 2.
Definition EBADF : Z := 9.
Definition ENOMEM : Z := 12.
Definition EINVAL : Z := 22.
Definition ENOTSUP : Z := 95.

(** ** Lemmas *)

#[global] Arguments firstn : simpl never.
#[global] Arguments skipn : simpl never.
#[global] Arguments Z.add : simpl never.
#[global] Arguments Z.sub : simpl never.
#[global] Arguments Z.mul : simpl never.
#[global] Arguments Z.pow : simpl never.
#[global] Arguments Z.div : simpl never.
#[global] Arguments Z.modulo : simpl never.
#[global] Arguments Z.land : simpl never.
#[global] Arguments Z.lor : simpl never.
#[global] Arguments Z.shiftl : simpl never.
#[global] Arguments Z.shiftr : simpl never.
#[global] Arguments Z.of_nat : simpl never.
#[global] Arguments Z.to_nat : simpl never.

Lemma u64_small x : 0 <= x < 2 ^ 64 -> u64 x = x.
Proof. apply Z.mod_small. Qed.
Lemma u32_small x : 0 <= x < 2 ^ 32 -> u32 x = x.
Proof. apply Z.mod_small. Qed.
Lemma u16_small x : 0 <= x < 2 ^ 16 -> u16 x = x.
Proof. apply Z.mod_small. Qed.
Lemma i32_small x : 0 <= x < 2 ^ 31 -> i32 x = x.
Proof. intros. unfold i32. rewrite Z.mod_small by lia. destruct (Z.ltb_spec x (2 ^ 31)); lia. Qed.
Lemma u64_range x : 0 <= u64 x < 2 ^ 64.
Proof. apply Z.mod_pos_bound. lia. Qed.
Lemma u32_range x : 0 <= u32 x < 2 ^ 32.
Proof. apply Z.mod_pos_bound. lia. Qed.
Lemma u16_range x : 0 <= u16 x < 2 ^ 16.
Proof. apply Z.mod_pos_bound. lia. Qed.

Lemma bits_spec lo n x : 0 <= lo -> 0 <= n -> bits lo n x = (x / 2 ^ lo) mod 2 ^ n.
Proof. intros. unfold bits. rewrite Z.land_ones, Z.shiftr_div_pow2 by lia. done. Qed.

Lemma bits_range lo n x : 0 <= lo -> 0 <= n -> 0 <= bits lo n x < 2 ^ n.
Proof.
  intros. rewrite bits_spec by lia. apply Z.mod_pos_bound, Z.pow_pos_nonneg; lia.
Qed.

(** The sum of two in-range 64-bit numbers wraps exactly when it exceeds the
    range, and then the wrapped sum is below both. *)
Lemma u64_add_cases x y : 0 <= x < 2 ^ 64 -> 0 <= y < 2 ^ 64 ->
  (x + y < 2 ^ 64 /\ u64 (x + y) = x + y) \/
  (2 ^ 64 <= x + y /\ u64 (x + y) = x + y - 2 ^ 64 /\ u64 (x + y) < x).
Proof.
  intros. unfold u64. destruct (Z.lt_ge_cases (x + y) (2 ^ 64)).
  - left. rewrite Z.mod_small; lia.
  - right. assert ((x + y) mod 2 ^ 64 = x + y - 2 ^ 64) as ->; [|lia].
    symmetry. apply Z.mod_unique with 1; lia.
Qed.

Lemma length_splice off src dst : (off + length src <= length dst)%nat ->
  length (splice off src dst) = length dst.
Proof. intros. unfold splice. rewrite !length_app, length_take, length_drop. lia. Qed.

Lemma splice_nil off dst : splice off [] dst = dst.
Proof. unfold splice. rewrite Nat.add_0_r. cbn. apply take_drop. Qed.

Lemma splice_all src dst : length src = length dst -> splice 0 src dst = src.
Proof.
  intros. unfold splice. cbn. rewrite drop_ge by lia. apply app_nil_r.
Qed.

Lemma splice_app_l off src d1 d2 : (off + length src <= length d1)%nat ->
  splice off src (d1 ++ d2) = splice off src d1 ++ d2.
Proof.
  intros. unfold splice. rewrite take_app_le, drop_app_le by lia.
  by rewrite !app_assoc.
Qed.

Lemma splice_app_r off src d1 d2 : (length d1 <= off)%nat ->
  splice off src (d1 ++ d2) = d1 ++ splice (off - length d1) src d2.
Proof.
  intros. unfold splice. rewrite take_app_ge, drop_app_ge by lia.
  rewrite <-!app_assoc. do 3 f_equal. f_equal. lia.
Qed.

(** Writing two adjacent pieces is writing their concatenation. *)
Lemma splice_splice off s1 s2 dst : (off + length s1 + length s2 <= length dst)%nat ->
  splice (off + length s1) s2 (splice off s1 dst) = splice off (s1 ++ s2) dst.
Proof.
  intros. unfold splice. rewrite length_app.
  rewrite take_app_ge by (rewrite length_take; lia).
  rewrite take_app_ge by (rewrite length_take; lia).
  rewrite length_take, Nat.min_l by lia.
  replace (off + length s1 - off - length s1)%nat with 0%nat by lia.
  rewrite take_0, app_nil_r, <-!app_assoc. do 3 f_equal.
  rewrite drop_app_ge by (rewrite length_take; lia).
  rewrite drop_app_ge by (rewrite length_take; lia).
  rewrite length_take, Nat.min_l, drop_drop by lia. f_equal. lia.
Qed.

Lemma slice_splice_same off src dst : (off + length src <= length dst)%nat ->
  slice off (length src) (splice off src dst) = src.
Proof.
  intros. unfold slice, splice.
  rewrite drop_app_ge by (rewrite length_take; lia).
  rewrite length_take, Nat.min_l by lia.
  replace (off - off)%nat with 0%nat by lia.
  rewrite drop_0, take_app_le by lia. by rewrite firstn_all.
Qed.

Lemma slice_splice_disj o n off src dst : (off + length src <= length dst)%nat ->
  (o + n <= off \/ off + length src <= o)%nat ->
  slice o n (splice off src dst) = slice o n dst.
Proof.
  intros Hl [H|H]; unfold slice, splice.
  - rewrite drop_app_le by (rewrite length_take; lia).
    rewrite take_app_le by (rewrite length_drop, length_take; lia).
    rewrite <-(take_drop off dst) at 2.
    rewrite drop_app_le by (rewrite length_take; lia).
    rewrite take_app_le by (rewrite length_drop, length_take; lia). done.
  - rewrite drop_app_ge by (rewrite length_take; lia).
    rewrite drop_app_ge by (rewrite length_take; lia).
    rewrite length_take, Nat.min_l, drop_drop by lia. do 2 f_equal. lia.
Qed.

Lemma length_slice off len b : (off + len <= length b)%nat -> length (slice off len b) = len.
Proof. intros. unfold slice. rewrite length_take, length_drop. lia. Qed.

Lemma slice_all b : slice 0 (length b) b = b.
Proof. unfold slice. rewrite drop_0. apply firstn_all. Qed.

Lemma slice_app off n m b : slice off n b ++ slice (off + n) m b = slice off (n + m) b.
Proof. unfold slice. rewrite <-drop_drop. apply take_take_drop. Qed.

Lemma blen_nat b : Z.to_nat (blen b) = length b.
Proof. apply Nat2Z.id. Qed.

Lemma take_splice_end n src b : (n + length src <= length b)%nat ->
  take (n + length src) (splice n src b) = take n b ++ src.
Proof.
  intros. unfold splice. rewrite take_app_ge by (rewrite length_take; lia). f_equal.
  rewrite length_take, Nat.min_l by lia. rewrite take_app_le by lia. apply take_ge. lia.
Qed.

(** [b] cut or padded with zeros to [n] bytes. *)
Definition padded (n : nat) (b : bytes) : bytes := take n (b ++ replicate n 0).

Lemma splice_zeros n b : splice 0 (take (length b `min` n) b) (replicate n 0) = padded n b.
Proof.
  unfold splice, padded. rewrite take_0. cbn. rewrite length_take, drop_replicate.
  destruct (Nat.le_ge_cases n (length b)).
  - rewrite Nat.min_r, Nat.min_l, Nat.sub_diag, app_nil_r, take_app_le by lia. done.
  - rewrite Nat.min_l, Nat.min_id, take_ge, take_app_ge, take_replicate by lia. by rewrite Nat.min_l by lia.
Qed.

(** *** Little-endian encodings *)

Lemma length_le_enc n x : length (le_enc n x) = n.
Proof. revert x. induction n; intros; cbn; auto. Qed.

Lemma le_enc_ok n x : Forall byte_ok (le_enc n x).
Proof.
  revert x. induction n; intros; cbn; constructor; auto.
  apply Z.mod_pos_bound. lia.
Qed.

Lemma le_dec_enc n x : le_dec (le_enc n x) = x mod 256 ^ Z.of_nat n.
Proof.
  revert x. induction n as [|n IH]; intros x; cbn [le_enc le_dec].
  - by rewrite Z.mod_1_r.
  - rewrite IH, Nat2Z.inj_succ, Z.pow_succ_r by lia.
    rewrite Z.rem_mul_r by lia. lia.
Qed.

Lemma le_enc_dec b : Forall byte_ok b -> le_enc (length b) (le_dec b) = b.
Proof.
  induction 1 as [|x b Hx _ IH]; cbn; [done|]. unfold byte_ok in Hx.
  f_equal.
  - rewrite Z.mul_comm, Z_mod_plus_full. apply Z.mod_small. lia.
  - rewrite Z.mul_comm, Z.div_add, Z.div_small by lia. rewrite Z.add_0_l. apply IH.
Qed.

Lemma le_dec_range b : Forall byte_ok b -> 0 <= le_dec b < 256 ^ Z.of_nat (length b).
Proof.
  induction 1 as [|x b Hx _ IH]; [cbn; lia|]. unfold byte_ok in Hx.
  cbn [le_dec length]. rewrite Nat2Z.inj_succ, Z.pow_succ_r by lia. lia.
Qed.

(** ** Automation *)

(** Case analysis on every boolean comparison in the goal or hypotheses. *)
Ltac zcases :=
  repeat match goal with
  | |- context [?x =? ?y] => destruct (Z.eqb_spec x y)
  | |- context [?x <? ?y] => destruct (Z.ltb_spec x y)
  | |- context [?x <=? ?y] => destruct (Z.leb_spec x y)
  | |- context [?x >? ?y] => rewrite (Z.gtb_ltb x y)
  | |- context [?x >=? ?y] => rewrite (Z.geb_leb x y)
  | H : context [?x =? ?y] |- _ => destruct (Z.eqb_spec x y)
  | H : context [?x <? ?y] |- _ => destruct (Z.ltb_spec x y)
  | H : context [?x <=? ?y] |- _ => destruct (Z.leb_spec x y)
  end.

Create HintDb ndp.
#[export] Hint Resolve u64_small u32_small u16_small u64_range u32_range u16_range
  le_enc_ok : ndp.
#[export] Hint Rewrite length_le_enc @length_app @length_take @length_drop : ndp.
