(* ===== verification/NvmeSpec.v ===== *)
(** * NVMe data: commands, completions, codes

    The parts of [spdk/include/spdk/nvme_spec.h] and
    [spdk/include/spdk/nvmf_spec.h] that the I/O path reads, and the transfer
    direction of a request ([spdk_nvmf_req_get_xfer] of
    [spdk/include/spdk/nvmf_transport.h]), which the platform extends with
    its own opcodes. *)
From S2P Require Import Prelude.

(** ** Opcodes *)
Definition SPDK_NVME_OPC_FLUSH : Z := 0x00.
Definition SPDK_NVME_OPC_WRITE : Z := 0x01.
Definition SPDK_NVME_OPC_READ : Z := 0x02.
Definition SPDK_NVME_OPC_WRITE_UNCORRECTABLE : Z := 0x04.
Definition SPDK_NVME_OPC_COMPARE : Z := 0x05.
Definition SPDK_NVME_OPC_WRITE_ZEROES : Z := 0x08.
Definition SPDK_NVME_OPC_DATASET_MANAGEMENT : Z := 0x09.
Definition SPDK_NVME_OPC_RESERVATION_REGISTER : Z := 0x0d.
Definition SPDK_NVME_OPC_RESERVATION_REPORT : Z := 0x0e.
Definition SPDK_NVME_OPC_RESERVATION_ACQUIRE : Z := 0x11.
Definition SPDK_NVME_OPC_RESERVATION_RELEASE : Z := 0x15.
Definition SPDK_NVME_OPC_COPY : Z := 0x19.
Definition SPDK_NVME_OPC_CUSTOM_ECHO : Z := 0xd0.
Definition SPDK_NVME_OPC_CUSTOM_GREP : Z := 0xd1.
Definition SPDK_NVME_OPC_CUSTOM_HEAAN_ADD : Z := 0xe0.
Definition SPDK_NVME_OPC_ASYNC_EVENT_REQUEST : Z := 0x0c.
Definition SPDK_NVME_OPC_FABRIC : Z := 0x7f.

(** Fabrics command types. *)
Definition SPDK_NVMF_FABRIC_COMMAND_PROPERTY_SET : Z := 0x00.
Definition SPDK_NVMF_FABRIC_COMMAND_CONNECT : Z := 0x01.
Definition SPDK_NVMF_FABRIC_COMMAND_PROPERTY_GET : Z := 0x04.
Definition SPDK_NVMF_FABRIC_COMMAND_AUTHENTICATION_SEND : Z := 0x05.
Definition SPDK_NVMF_FABRIC_COMMAND_AUTHENTICATION_RECV : Z := 0x06.

(** Fused-operation field. *)
Definition SPDK_NVME_CMD_FUSE_NONE : Z := 0x0.
Definition SPDK_NVME_CMD_FUSE_FIRST : Z := 0x1.
Definition SPDK_NVME_CMD_FUSE_SECOND : Z := 0x2.
Definition SPDK_NVME_CMD_FUSE_MASK : Z := 0x3.

(** ** Status *)
Definition SPDK_NVME_SCT_GENERIC : Z := 0x0.
Definition SPDK_NVME_SCT_COMMAND_SPECIFIC : Z := 0x1.
Definition SPDK_NVME_SCT_MEDIA_ERROR : Z := 0x2.
Definition SPDK_NVME_SCT_PATH : Z := 0x3.

Definition SPDK_NVME_SC_SUCCESS : Z := 0x00.
Definition SPDK_NVME_SC_INVALID_OPCODE : Z := 0x01.
Definition SPDK_NVME_SC_INVALID_FIELD : Z := 0x02.
Definition SPDK_NVME_SC_INTERNAL_DEVICE_ERROR : Z := 0x06.
Definition SPDK_NVME_SC_HOSTID_INCONSISTENT_FORMAT : Z := 0x18.
Definition SPDK_NVME_SC_ABORTED_BY_REQUEST : Z := 0x07.
Definition SPDK_NVME_SC_ABORTED_FAILED_FUSED : Z := 0x09.
Definition SPDK_NVME_SC_ABORTED_MISSING_FUSED : Z := 0x0a.
Definition SPDK_NVME_SC_INVALID_NAMESPACE_OR_FORMAT : Z := 0x0b.
Definition SPDK_NVME_SC_COMMAND_SEQUENCE_ERROR : Z := 0x0c.
Definition SPDK_NVME_SC_DATA_SGL_LENGTH_INVALID : Z := 0x0f.
Definition SPDK_NVME_SC_LBA_OUT_OF_RANGE : Z := 0x80.
Definition SPDK_NVME_SC_RESERVATION_CONFLICT : Z := 0x83.
Definition SPDK_NVME_SC_COMPARE_FAILURE : Z := 0x85.
Definition SPDK_NVME_SC_CMD_SIZE_LIMIT_SIZE_EXCEEDED : Z := 0x83.
Definition SPDK_NVMF_FABRIC_SC_AUTH_REQUIRED : Z := 0x91.

(** Path-related status. *)
Definition SPDK_NVME_SC_INTERNAL_PATH_ERROR : Z := 0x00.
Definition SPDK_NVME_SC_ASYMMETRIC_ACCESS_PERSISTENT_LOSS : Z := 0x01.
Definition SPDK_NVME_SC_ASYMMETRIC_ACCESS_INACCESSIBLE : Z := 0x02.
Definition SPDK_NVME_SC_ASYMMETRIC_ACCESS_TRANSITION : Z := 0x03.

(** ** Reservations *)
Definition SPDK_NVME_RESERVE_WRITE_EXCLUSIVE : Z := 0x1.
Definition SPDK_NVME_RESERVE_EXCLUSIVE_ACCESS : Z := 0x2.
Definition SPDK_NVME_RESERVE_WRITE_EXCLUSIVE_REG_ONLY : Z := 0x3.
Definition SPDK_NVME_RESERVE_EXCLUSIVE_ACCESS_REG_ONLY : Z := 0x4.
Definition SPDK_NVME_RESERVE_WRITE_EXCLUSIVE_ALL_REGS : Z := 0x5.
Definition SPDK_NVME_RESERVE_EXCLUSIVE_ACCESS_ALL_REGS : Z := 0x6.

Definition SPDK_NVME_RESERVE_ACQUIRE : Z := 0x0.
Definition SPDK_NVME_RESERVE_PREEMPT : Z := 0x1.
Definition SPDK_NVME_RESERVE_PREEMPT_ABORT : Z := 0x2.
Definition SPDK_NVME_RESERVE_REGISTER_KEY : Z := 0x0.
Definition SPDK_NVME_RESERVE_UNREGISTER_KEY : Z := 0x1.
Definition SPDK_NVME_RESERVE_REPLACE_KEY : Z := 0x2.
Definition SPDK_NVME_RESERVE_PTPL_NO_CHANGES : Z := 0x0.
Definition SPDK_NVME_RESERVE_PTPL_CLEAR_POWER_ON : Z := 0x2.
Definition SPDK_NVME_RESERVE_PTPL_PERSIST_POWER_LOSS : Z := 0x3.
Definition SPDK_NVME_RESERVE_RELEASE : Z := 0x0.
Definition SPDK_NVME_RESERVE_CLEAR : Z := 0x1.

(** Types of the reservation notification log. *)
Definition SPDK_NVME_REGISTRATION_PREEMPTED : Z := 0x1.
Definition SPDK_NVME_RESERVATION_RELEASED : Z := 0x2.
Definition SPDK_NVME_RESERVATION_PREEMPTED : Z := 0x3.

(** ** Commands and completions *)

(** [struct spdk_nvme_cmd]: the fields the target reads.  [sgl_type] and
    [sgl_length] are the descriptor type and the length of [dptr.sgl1]. *)
Record spdk_nvme_cmd := NvmeCmd {
  opc : Z; fuse : Z; cid : Z; nsid : Z; sgl_type : Z; sgl_length : Z;
  cdw10 : Z; cdw11 : Z; cdw12 : Z; cdw13 : Z; cdw14 : Z; cdw15 : Z }.
#[global] Instance eta_cmd : Eta spdk_nvme_cmd := fun c =>
  NvmeCmd (opc c) (fuse c) (cid c) (nsid c) (sgl_type c) (sgl_length c)
    (cdw10 c) (cdw11 c) (cdw12 c) (cdw13 c) (cdw14 c) (cdw15 c).

(** The fields of a command read from the wire are in their width. *)
Definition cmd_ok (c : spdk_nvme_cmd) : Prop :=
  0 <= opc c < 2 ^ 8 /\ 0 <= fuse c < 2 ^ 2 /\ 0 <= cid c < 2 ^ 16 /\ 0 <= nsid c < 2 ^ 32 /\
  0 <= cdw10 c < 2 ^ 32 /\ 0 <= cdw11 c < 2 ^ 32 /\ 0 <= cdw12 c < 2 ^ 32 /\
  0 <= cdw13 c < 2 ^ 32 /\ 0 <= cdw14 c < 2 ^ 32 /\ 0 <= cdw15 c < 2 ^ 32.

(** [nvmf_cmd.opcode] is the opcode byte; [nvmf_cmd.fctype] is the byte at
    offset 4, the low byte of the namespace identifier. *)
Definition fctype (c : spdk_nvme_cmd) : Z := u8 (nsid c).

Record spdk_nvme_status := NvmeStatus { st_p : Z; sc : Z; sct : Z; crd : Z; st_m : Z; dnr : Z }.
#[global] Instance eta_status : Eta spdk_nvme_status := fun s =>
  NvmeStatus (st_p s) (sc s) (sct s) (crd s) (st_m s) (dnr s).

Record spdk_nvme_cpl := NvmeCpl { cdw0 : Z; sqid : Z; cpl_cid : Z; status : spdk_nvme_status }.
#[global] Instance eta_cpl : Eta spdk_nvme_cpl := fun c =>
  NvmeCpl (cdw0 c) (sqid c) (cpl_cid c) (status c).

Definition cpl_zero : spdk_nvme_cpl := NvmeCpl 0 0 0 (NvmeStatus 0 0 0 0 0 0).

Definition spdk_nvme_cpl_is_error (c : spdk_nvme_cpl) : bool :=
  (sc (status c) !=? SPDK_NVME_SC_SUCCESS) || (sct (status c) !=? SPDK_NVME_SCT_GENERIC).

(** Command-specific bit fields. *)
Definition dsm_nr (c : spdk_nvme_cmd) : Z := bits 0 8 (cdw10 c).
Definition dsm_ad (c : spdk_nvme_cmd) : bool := Z.testbit (cdw11 c) 2.
Definition write_zeroes_deac (c : spdk_nvme_cmd) : bool := Z.testbit (cdw12 c) 25.
Definition copy_nr (c : spdk_nvme_cmd) : Z := bits 0 8 (cdw12 c).
Definition copy_df (c : spdk_nvme_cmd) : Z := bits 8 4 (cdw12 c).
Definition resv_acquire_racqa (c : spdk_nvme_cmd) : Z := bits 0 3 (cdw10 c).
Definition resv_acquire_iekey (c : spdk_nvme_cmd) : Z := bits 3 1 (cdw10 c).
Definition resv_acquire_rtype (c : spdk_nvme_cmd) : Z := bits 8 8 (cdw10 c).
Definition resv_register_rrega (c : spdk_nvme_cmd) : Z := bits 0 3 (cdw10 c).
Definition resv_register_iekey (c : spdk_nvme_cmd) : Z := bits 3 1 (cdw10 c).
Definition resv_register_cptpl (c : spdk_nvme_cmd) : Z := bits 30 2 (cdw10 c).
Definition resv_release_rrela (c : spdk_nvme_cmd) : Z := bits 0 3 (cdw10 c).
Definition resv_release_iekey (c : spdk_nvme_cmd) : Z := bits 3 1 (cdw10 c).
Definition resv_release_rtype (c : spdk_nvme_cmd) : Z := bits 8 8 (cdw10 c).
Definition resv_report_eds (c : spdk_nvme_cmd) : Z := bits 0 1 (cdw11 c).

(** [struct spdk_nvme_dsm_range] (16 bytes) and
    [struct spdk_nvme_scc_source_range] (32 bytes), as laid out in memory. *)
Definition SIZEOF_DSM_RANGE : nat := 16.
Definition dsm_range_length (b : bytes) : Z := le_dec (slice 4 4 b).
Definition dsm_range_starting_lba (b : bytes) : Z := le_dec (slice 8 8 b).
Definition SIZEOF_SCC_SOURCE_RANGE : nat := 32.
Definition scc_range_slba (b : bytes) : Z := le_dec (slice 8 8 b).
Definition scc_range_nlb (b : bytes) : Z := le_dec (slice 16 2 b).

(** ** Data-transfer direction *)
Inductive spdk_nvme_data_transfer :=
| SPDK_NVME_DATA_NONE
| SPDK_NVME_DATA_HOST_TO_CONTROLLER
| SPDK_NVME_DATA_CONTROLLER_TO_HOST
| SPDK_NVME_DATA_BIDIRECTIONAL.
#[global] Instance data_transfer_eq_dec : EqDecision spdk_nvme_data_transfer.
Proof. solve_decision. Defined.

Definition spdk_nvme_opc_get_data_transfer (opc : Z) : spdk_nvme_data_transfer :=
  let x := Z.land opc 3 in
  if x =? 0 then SPDK_NVME_DATA_NONE
  else if x =? 1 then SPDK_NVME_DATA_HOST_TO_CONTROLLER
  else if x =? 2 then SPDK_NVME_DATA_CONTROLLER_TO_HOST
  else SPDK_NVME_DATA_BIDIRECTIONAL.

Definition SPDK_NVME_SGL_TYPE_DATA_BLOCK : Z := 0x0.
Definition SPDK_NVME_SGL_TYPE_BIT_BUCKET : Z := 0x1.
Definition SPDK_NVME_SGL_TYPE_SEGMENT : Z := 0x2.
Definition SPDK_NVME_SGL_TYPE_LAST_SEGMENT : Z := 0x3.
Definition SPDK_NVME_SGL_TYPE_KEYED_DATA_BLOCK : Z := 0x4.
Definition SPDK_NVME_SGL_TYPE_TRANSPORT_DATA_BLOCK : Z := 0x5.

(** [spdk_nvmf_req_get_xfer]; [heaan_lib] is whether the translation unit is
    compiled with [HEAAN_LIB]. *)
Definition spdk_nvmf_req_get_xfer (heaan_lib : bool) (cmd : spdk_nvme_cmd) : spdk_nvme_data_transfer :=
  if opc cmd =? 0xD0 then SPDK_NVME_DATA_CONTROLLER_TO_HOST
  else if heaan_lib && (opc cmd =? 0xE0) then SPDK_NVME_DATA_HOST_TO_CONTROLLER
  else
    let xfer :=
      if opc cmd =? SPDK_NVME_OPC_FABRIC then spdk_nvme_opc_get_data_transfer (fctype cmd)
      else spdk_nvme_opc_get_data_transfer (opc cmd) in
    if bool_decide (xfer = SPDK_NVME_DATA_NONE) then xfer
    else if (sgl_type cmd =? SPDK_NVME_SGL_TYPE_DATA_BLOCK)
            || (sgl_type cmd =? SPDK_NVME_SGL_TYPE_BIT_BUCKET)
            || (sgl_type cmd =? SPDK_NVME_SGL_TYPE_SEGMENT)
            || (sgl_type cmd =? SPDK_NVME_SGL_TYPE_LAST_SEGMENT)
            || (sgl_type cmd =? SPDK_NVME_SGL_TYPE_TRANSPORT_DATA_BLOCK)
    then (if sgl_length cmd =? 0 then SPDK_NVME_DATA_NONE else xfer)
    else if sgl_type cmd =? SPDK_NVME_SGL_TYPE_KEYED_DATA_BLOCK
    then (if sgl_length cmd =? 0 then SPDK_NVME_DATA_NONE else xfer)
    else xfer.

(** ** Lemmas *)

Lemma dsm_nr_range c : 0 <= dsm_nr c < 256.
Proof. unfold dsm_nr. pose proof (bits_range 0 8 (cdw10 c)). lia. Qed.

(** The directions of the platform's opcodes when the host sends a data
    block: echo returns data, grep sends the keyword, and the ciphertext
    addition sends its extent list only if [HEAAN_LIB] is set. *)
Lemma xfer_custom heaan_lib c :
  (opc c = SPDK_NVME_OPC_CUSTOM_ECHO ->
     spdk_nvmf_req_get_xfer heaan_lib c = SPDK_NVME_DATA_CONTROLLER_TO_HOST) /\
  (opc c = SPDK_NVME_OPC_CUSTOM_GREP -> sgl_type c = SPDK_NVME_SGL_TYPE_DATA_BLOCK ->
     sgl_length c <> 0 -> spdk_nvmf_req_get_xfer heaan_lib c = SPDK_NVME_DATA_HOST_TO_CONTROLLER) /\
  (opc c = SPDK_NVME_OPC_CUSTOM_HEAAN_ADD ->
     spdk_nvmf_req_get_xfer heaan_lib c =
       if heaan_lib then SPDK_NVME_DATA_HOST_TO_CONTROLLER else SPDK_NVME_DATA_NONE).
Proof.
  unfold spdk_nvmf_req_get_xfer. repeat split; intros ->; try done.
  - intros -> H. cbn. rewrite (proj2 (Z.eqb_neq _ _) H). by destruct heaan_lib.
  - by destruct heaan_lib.
Qed.
