(* ===== verification/Iov.v ===== *)
(** * Scatter-gather buffers: [spdk/lib/util/iov.c]

    Every operation of the file: the memset over a vector, the iterator over
    several vectors and the copies built on it, and the cursor
    ([spdk_iov_xfer]) used to move data between a flat buffer and a vector. *)
From S2P Require Import Prelude.

(** ** Data *)

(** [struct iovec]: the buffer the element designates.  A NULL base has
    length zero; two elements never share memory. *)
Record iovec := Iov { iov_base : option bytes }.
#[global] Instance eta_iovec : Eta iovec := fun v => Iov (iov_base v).

Definition iov_mem (v : iovec) : bytes := default [] (iov_base v).
Definition iov_len (v : iovec) : nat := length (iov_mem v).

(** [memcpy ((char * )iov_base + off, src, length src)] *)
Definition iov_store (off : nat) (src : bytes) (v : iovec) : iovec :=
  Iov (splice off src <$> iov_base v).

(** The bytes a vector designates, in order. *)
Definition flat (iovs : list iovec) : bytes := concat (iov_mem <$> iovs).

Fixpoint spdk_iov_memset (iovs : list iovec) (iovcnt : nat) (c : Z) : list iovec :=
  match iovcnt, iovs with
  | S iovcnt, iov :: iovs =>
      Iov ((fun b => replicate (length b) (u8 c)) <$> iov_base iov)
        :: spdk_iov_memset iovs iovcnt c
  | _, _ => iovs
  end.

(** *** The iterator over several vectors *)

(** [struct spdk_single_ioviter]; [iov_base] points at byte [it_off] of
    element [it_elt] of the vector. *)
Record spdk_single_ioviter := SingleIter {
  it_iov : list iovec; it_iovcnt : nat; it_idx : nat; it_len : nat;
  it_elt : nat; it_off : nat }.
#[global] Instance eta_single : Eta spdk_single_ioviter := fun r =>
  SingleIter (it_iov r) (it_iovcnt r) (it_idx r) (it_len r) (it_elt r) (it_off r).

(** The length of element [i] as the code reads it. *)
Definition elt_len (iovs : list iovec) (i : nat) : nat := default 0%nat (iov_len <$> iovs !! i).

(** First loop of [spdk_ioviter_nextv]: [None] when an iterator is exhausted. *)
Fixpoint ioviter_min (its : list spdk_single_ioviter) (len : Z) : option Z :=
  match its with
  | [] => Some len
  | it :: its =>
      if (it_idx it =? it_iovcnt it)%nat || (it_len it =? 0)%nat then None
      else ioviter_min its (Z.min len (Z.of_nat (it_len it)))
  end.

(** Second loop of [spdk_ioviter_nextv] for one iterator. *)
Definition ioviter_advance (len : nat) (it : spdk_single_ioviter) : spdk_single_ioviter :=
  if (it_len it =? len)%nat then
    let it := it <| it_idx := S (it_idx it) |> in
    if (it_idx it =? it_iovcnt it)%nat then it
    else it <| it_len := elt_len (it_iov it) (it_idx it) |>
            <| it_elt := it_idx it |> <| it_off := 0%nat |>
  else it <| it_off := (it_off it + len)%nat |> <| it_len := (it_len it - len)%nat |>.

(** [spdk_ioviter_nextv]: the length of the next common piece (zero at the
    end), the position it has in each vector, and the advanced iterators. *)
Definition spdk_ioviter_nextv (its : list spdk_single_ioviter)
  : nat * list (nat * nat) * list spdk_single_ioviter :=
  match ioviter_min its UINT32_MAX with
  | None => (0%nat, [], its)
  | Some l =>
      let len := Z.to_nat l in
      (len, (fun it => (it_elt it, it_off it)) <$> its, ioviter_advance len <$> its)
  end.

Definition ioviter_start (iov : list iovec) (iovcnt : nat) : spdk_single_ioviter :=
  {| it_iov := iov; it_iovcnt := iovcnt; it_idx := 0; it_len := elt_len iov 0;
     it_elt := 0; it_off := 0 |}.

Definition spdk_ioviter_firstv (iovs : list (list iovec * nat)) :=
  spdk_ioviter_nextv ((fun '(iov, cnt) => ioviter_start iov cnt) <$> iovs).

(** The two-vector forms: source first, destination second. *)
Definition spdk_ioviter_first (siov : list iovec) (siovcnt : nat) (diov : list iovec) (diovcnt : nat) :=
  spdk_ioviter_firstv [(siov, siovcnt); (diov, diovcnt)].

Definition spdk_ioviter_next (its : list spdk_single_ioviter) := spdk_ioviter_nextv its.

(** [spdk_iovcpy]'s loop: [out[0]] is the source position, [out[1]] the
    destination position; the destination vector is threaded. *)
Fixpoint iovcpy_loop (fuel : nat) (siov diov : list iovec)
    (st : nat * list (nat * nat) * list spdk_single_ioviter) (total_sz : nat)
  : option (list iovec * nat) :=
  match fuel with
  | O => None
  | S fuel =>
      let '(len, out, its) := st in
      if (len =? 0)%nat then Some (diov, total_sz) else
      match out with
      | [(se, so); (de, do)] =>
          match siov !! se, diov !! de with
          | Some sv, Some dv =>
              let diov := <[de := iov_store do (slice so len (iov_mem sv)) dv]> diov in
              iovcpy_loop fuel siov diov (spdk_ioviter_next its) (total_sz + len)
          | _, _ => None
          end
      | _ => None
      end
  end.

(** Each turn of the loop copies at least one byte of the source. *)
Definition spdk_iovcpy (siov : list iovec) (siovcnt : nat) (diov : list iovec) (diovcnt : nat)
  : option (list iovec * nat) :=
  iovcpy_loop (S (length (flat siov))) siov diov
    (spdk_ioviter_first siov siovcnt diov diovcnt) 0.

(** [spdk_iovmove] is the same loop with [memmove]: elements do not overlap. *)
Definition spdk_iovmove (siov : list iovec) (siovcnt : nat) (diov : list iovec) (diovcnt : nat)
  : option (list iovec * nat) :=
  iovcpy_loop (S (length (flat siov))) siov diov
    (spdk_ioviter_first siov siovcnt diov diovcnt) 0.

(** *** The transfer cursor *)

Record spdk_iov_xfer := IovXfer {
  ix_iovs : list iovec; ix_iovcnt : nat; cur_iov_idx : nat; cur_iov_offset : nat }.
#[global] Instance eta_xfer : Eta spdk_iov_xfer := fun r =>
  IovXfer (ix_iovs r) (ix_iovcnt r) (cur_iov_idx r) (cur_iov_offset r).

Definition spdk_iov_xfer_init (iovs : list iovec) (iovcnt : nat) : spdk_iov_xfer :=
  {| ix_iovs := iovs; ix_iovcnt := iovcnt; cur_iov_idx := 0; cur_iov_offset := 0 |}.

(** The copy of one turn of the loop of [iov_xfer]: [len] bytes between the
    current element and the buffer, and the advance of the cursor. *)
Definition xfer_turn (to_buf : bool) (ix : spdk_iov_xfer) (buf : bytes) (copied_len len : nat)
    (iov : iovec) : spdk_iov_xfer * bytes :=
  let '(iovs', buf') :=
    if to_buf then
      (ix_iovs ix, splice copied_len (slice (cur_iov_offset ix) len (iov_mem iov)) buf)
    else
      (<[cur_iov_idx ix := iov_store (cur_iov_offset ix) (slice copied_len len buf) iov]> (ix_iovs ix),
       buf) in
  (ix <| ix_iovs := iovs' |> <| cur_iov_offset := (cur_iov_offset ix + len)%nat |>, buf').

(** The [while] loop of [iov_xfer]; [None] is the access [iovs[cur_iov_idx]]
    outside the array, or a fuel that is too small. *)
Fixpoint iov_xfer_loop (fuel : nat) (ix : spdk_iov_xfer) (buf : bytes)
    (buf_len copied_len : nat) (to_buf : bool) : option (spdk_iov_xfer * bytes * nat) :=
  match fuel with
  | O => None
  | S fuel =>
      if (cur_iov_idx ix <? ix_iovcnt ix)%nat then
        match ix_iovs ix !! cur_iov_idx ix with
        | None => None
        | Some iov =>
            let iov_remain_len := (iov_len iov - cur_iov_offset ix)%nat in
            if (iov_remain_len =? 0)%nat then
              iov_xfer_loop fuel
                (ix <| cur_iov_idx := S (cur_iov_idx ix) |> <| cur_iov_offset := 0%nat |>)
                buf buf_len copied_len to_buf
            else
              let len := (iov_remain_len `min` (buf_len - copied_len))%nat in
              let '(ix, buf) := xfer_turn to_buf ix buf copied_len len iov in
              let copied_len := (copied_len + len)%nat in
              if (buf_len =? copied_len)%nat then Some (ix, buf, copied_len)
              else iov_xfer_loop fuel ix buf buf_len copied_len to_buf
        end
      else Some (ix, buf, copied_len)
  end.

(** Every element is visited at most twice: once to copy, once to skip. *)
Definition iov_xfer (ix : spdk_iov_xfer) (buf : bytes) (buf_len : nat) (to_buf : bool)
  : option (spdk_iov_xfer * bytes * nat) :=
  if (buf_len =? 0)%nat then Some (ix, buf, 0%nat)
  else iov_xfer_loop (S (2 * ix_iovcnt ix)) ix buf buf_len 0 to_buf.

Definition spdk_iov_xfer_from_buf (ix : spdk_iov_xfer) (buf : bytes) (buf_len : nat) :=
  iov_xfer ix buf buf_len false.

Definition spdk_iov_xfer_to_buf (ix : spdk_iov_xfer) (buf : bytes) (buf_len : nat) :=
  iov_xfer ix buf buf_len true.

Definition spdk_copy_iovs_to_buf (buf : bytes) (buf_len : nat) (iovs : list iovec) (iovcnt : nat)
  : option bytes :=
  '(_, buf, _) ← spdk_iov_xfer_to_buf (spdk_iov_xfer_init iovs iovcnt) buf buf_len; Some buf.

Definition spdk_copy_buf_to_iovs (iovs : list iovec) (iovcnt : nat) (buf : bytes) (buf_len : nat)
  : option (list iovec) :=
  '(ix, _, _) ← spdk_iov_xfer_from_buf (spdk_iov_xfer_init iovs iovcnt) buf buf_len;
  Some (ix_iovs ix).

(** ** Lemmas *)

Lemma flat_app l1 l2 : flat (l1 ++ l2) = flat l1 ++ flat l2.
Proof. unfold flat. by rewrite fmap_app, concat_app. Qed.

Lemma memset_flat iovs : flat (spdk_iov_memset iovs (length iovs) 0) = replicate (length (flat iovs)) 0 /\
  iov_len <$> spdk_iov_memset iovs (length iovs) 0 = iov_len <$> iovs.
Proof.
  induction iovs as [|v iovs [IH1 IH2]]; [done|].
  unfold flat in *. cbn. rewrite IH1, IH2, length_app, replicate_add. unfold iov_len, iov_mem.
  destruct (iov_base v); cbn; [|done]. by rewrite length_replicate.
Qed.

Lemma flat_take_S iovs i iov : iovs !! i = Some iov ->
  flat (take (S i) iovs) = flat (take i iovs) ++ iov_mem iov.
Proof.
  intros H. rewrite (take_S_r _ _ iov) by done. rewrite flat_app.
  unfold flat at 2. cbn. by rewrite app_nil_r.
Qed.

Lemma flat_split iovs i iov : iovs !! i = Some iov ->
  flat iovs = flat (take i iovs) ++ iov_mem iov ++ flat (drop (S i) iovs).
Proof.
  intros H. rewrite <-(take_drop_middle _ _ _ H) at 1. rewrite flat_app. done.
Qed.

Lemma length_flat_take iovs i : (length (flat (take i iovs)) <= length (flat iovs))%nat.
Proof. rewrite <-(take_drop i iovs) at 2. rewrite flat_app, length_app. lia. Qed.

Lemma flat_take_mono iovs i j : (i <= j)%nat ->
  (length (flat (take i iovs)) <= length (flat (take j iovs)))%nat.
Proof.
  intros H. replace (take i iovs) with (take i (take j iovs)).
  - apply length_flat_take.
  - rewrite take_take. f_equal. lia.
Qed.

(** Storing into one element is a splice of the flat contents. *)
Lemma flat_store iovs i iov off src : iovs !! i = Some iov ->
  src <> [] -> (off + length src <= iov_len iov)%nat ->
  flat (<[i := iov_store off src iov]> iovs)
  = splice (length (flat (take i iovs)) + off) src (flat iovs).
Proof.
  intros Hi Hne Hl. pose proof (lookup_lt_Some _ _ _ Hi).
  assert (iov_mem (iov_store off src iov) = splice off src (iov_mem iov)) as Hm.
  { unfold iov_store, iov_len, iov_mem in *. destruct (iov_base iov); [done|].
    cbn in Hl. destruct src; [done|]. cbn in Hl. lia. }
  rewrite insert_take_drop by lia.
  rewrite flat_app. unfold flat at 2. rewrite fmap_cons. cbn [concat]. rewrite Hm.
  rewrite (flat_split iovs i iov Hi).
  rewrite splice_app_r by lia. rewrite Nat.add_comm, Nat.add_sub.
  rewrite splice_app_l by done. done.
Qed.

Lemma iov_store_len off src iov : (off + length src <= iov_len iov)%nat ->
  iov_len (iov_store off src iov) = iov_len iov.
Proof.
  unfold iov_store, iov_len, iov_mem. destruct (iov_base iov); cbn; intros; [|done].
  by apply length_splice.
Qed.

Lemma flat_take_len iovs iovs' i : iov_len <$> iovs' = iov_len <$> iovs ->
  length (flat (take i iovs')) = length (flat (take i iovs)).
Proof.
  intros H. assert (forall l, length (flat l) = sum_list (iov_len <$> l)) as Hs.
  { intros l. unfold flat. rewrite length_concat. induction l; cbn; auto. }
  by rewrite !Hs, !fmap_take, H.
Qed.

(** *** The cursor *)

Section Cursor.
(** Bytes before the cursor, bytes of the vector, and well-formedness. *)
Definition ix_pos (ix : spdk_iov_xfer) : nat :=
  (length (flat (take (cur_iov_idx ix) (ix_iovs ix))) + cur_iov_offset ix)%nat.
Definition ix_total (ix : spdk_iov_xfer) : nat :=
  length (flat (take (ix_iovcnt ix) (ix_iovs ix))).
Definition ix_ok (ix : spdk_iov_xfer) : Prop :=
  (ix_iovcnt ix <= length (ix_iovs ix))%nat /\
  (cur_iov_idx ix <= ix_iovcnt ix)%nat /\
  (cur_iov_idx ix < ix_iovcnt ix -> cur_iov_offset ix <= elt_len (ix_iovs ix) (cur_iov_idx ix))%nat /\
  (cur_iov_idx ix = ix_iovcnt ix -> cur_iov_offset ix = 0)%nat.
(** Turns of the loop still possible. *)
Definition ix_turns (ix : spdk_iov_xfer) : nat :=
  (2 * (ix_iovcnt ix - cur_iov_idx ix) + 1
   - if decide (cur_iov_idx ix < ix_iovcnt ix)%nat
     then if decide (cur_iov_offset ix = elt_len (ix_iovs ix) (cur_iov_idx ix)) then 1 else 0
     else 0)%nat.

Lemma ix_ok_init iovs iovcnt : (iovcnt <= length iovs)%nat -> ix_ok (spdk_iov_xfer_init iovs iovcnt).
Proof. intros. repeat split; cbn; lia. Qed.

Lemma ix_pos_init iovs iovcnt : ix_pos (spdk_iov_xfer_init iovs iovcnt) = 0%nat.
Proof. unfold ix_pos; cbn -[flat]. by rewrite take_0. Qed.

Lemma ix_pos_le ix : ix_ok ix -> (ix_pos ix <= ix_total ix)%nat.
Proof.
  intros (H1 & H2 & H3 & H4). unfold ix_pos, ix_total.
  destruct (decide (cur_iov_idx ix < ix_iovcnt ix)%nat) as [Hlt|].
  - specialize (H3 Hlt). destruct (lookup_lt_is_Some_2 (ix_iovs ix) (cur_iov_idx ix)) as [v Hv]; [lia|].
    unfold elt_len in H3. rewrite Hv in H3. cbn in H3.
    pose proof (flat_take_mono (ix_iovs ix) (S (cur_iov_idx ix)) (ix_iovcnt ix)).
    rewrite (flat_take_S _ _ _ Hv), length_app in H. unfold iov_len in *. lia.
  - rewrite H4 by lia. replace (cur_iov_idx ix) with (ix_iovcnt ix) by lia. lia.
Qed.

(** What a transfer of [n] more bytes does: [rest] of the loop's contract. *)
Definition xfer_post (to_buf : bool) (ix : spdk_iov_xfer) (buf : bytes) (copied n : nat)
    (r : spdk_iov_xfer * bytes * nat) : Prop :=
  let '(ix', buf', c') := r in
  c' = (copied + n)%nat /\ ix_ok ix' /\ ix_iovcnt ix' = ix_iovcnt ix /\
  ix_pos ix' = (ix_pos ix + n)%nat /\
  iov_len <$> ix_iovs ix' = iov_len <$> ix_iovs ix /\
  if to_buf
  then ix_iovs ix' = ix_iovs ix /\
       buf' = splice copied (slice (ix_pos ix) n (flat (ix_iovs ix))) buf
  else buf' = buf /\
       flat (ix_iovs ix') = splice (ix_pos ix) (slice copied n buf) (flat (ix_iovs ix)).

(** Skipping an exhausted element changes nothing the contract sees. *)
Lemma xfer_post_skip to_buf ix buf copied n r iov :
  ix_iovs ix !! cur_iov_idx ix = Some iov ->
  cur_iov_offset ix = iov_len iov ->
  xfer_post to_buf (ix <| cur_iov_idx := S (cur_iov_idx ix) |> <| cur_iov_offset := 0%nat |>)
    buf copied n r ->
  xfer_post to_buf ix buf copied n r.
Proof.
  intros Hv Ho. destruct r as [[ix' buf'] c']. unfold xfer_post, ix_pos. cbn.
  rewrite (flat_take_S _ _ _ Hv), length_app, Ho. unfold iov_len. rewrite Nat.add_0_r. done.
Qed.

Lemma ix_ok_skip ix iov : ix_ok ix -> (cur_iov_idx ix < ix_iovcnt ix)%nat ->
  ix_iovs ix !! cur_iov_idx ix = Some iov ->
  ix_ok (ix <| cur_iov_idx := S (cur_iov_idx ix) |> <| cur_iov_offset := 0%nat |>).
Proof. intros (H1 & H2 & H3 & H4) Hlt Hv. unfold ix_ok; cbn. repeat split; lia. Qed.

Lemma xfer_post_trans to_buf ix buf c n1 ix1 buf1 c1 n2 r :
  ix_ok ix -> (c + n1 + n2 <= length buf)%nat -> (ix_pos ix + n1 + n2 <= ix_total ix)%nat ->
  xfer_post to_buf ix buf c n1 (ix1, buf1, c1) ->
  xfer_post to_buf ix1 buf1 c1 n2 r ->
  xfer_post to_buf ix buf c (n1 + n2) r.
Proof.
  intros Hok Hb Ht (-> & Hok1 & Hc1 & Hp1 & Hl1 & H1). destruct r as [[ix2 buf2] c2].
  intros (-> & Hok2 & Hc2 & Hp2 & Hl2 & H2). unfold xfer_post.
  assert (ix_total ix <= length (flat (ix_iovs ix)))%nat by apply length_flat_take.
  split; [lia|]. split; [done|]. split; [congruence|]. split; [lia|]. split; [congruence|].
  destruct to_buf.
  - destruct H1 as [E1 ->], H2 as [E2 ->]. split; [congruence|].
    rewrite Hp1, E1. rewrite <-(slice_app (ix_pos ix) n1 n2).
    rewrite <-(splice_splice c); rewrite !length_slice; try lia. done.
  - destruct H1 as [-> E1], H2 as [-> E2]. split; [done|].
    rewrite E2, E1, Hp1, <-(slice_app c n1 n2).
    rewrite <-(splice_splice (ix_pos ix)); rewrite !length_slice; try lia. done.
Qed.

Lemma xfer_turn_post to_buf ix buf copied len iov :
  ix_ok ix -> (cur_iov_idx ix < ix_iovcnt ix)%nat ->
  ix_iovs ix !! cur_iov_idx ix = Some iov ->
  (0 < len)%nat -> (cur_iov_offset ix + len <= iov_len iov)%nat ->
  (copied + len <= length buf)%nat ->
  let r := xfer_turn to_buf ix buf copied len iov in
  xfer_post to_buf ix buf copied len (r.1, r.2, (copied + len)%nat) /\
  cur_iov_idx r.1 = cur_iov_idx ix /\ cur_iov_offset r.1 = (cur_iov_offset ix + len)%nat.
Proof.
  intros (H1 & H2 & H3 & H4) Hlt Hv Hpos Hle Hbuf.
  pose proof (lookup_lt_Some _ _ _ Hv) as Hi.
  assert (length (slice copied len buf) = len) as Hls by (rewrite length_slice; lia).
  assert (iov_len <$> <[cur_iov_idx ix := iov_store (cur_iov_offset ix) (slice copied len buf) iov]>
    (ix_iovs ix) = iov_len <$> ix_iovs ix) as Hlens.
  { rewrite list_fmap_insert, iov_store_len by lia. apply list_insert_id.
    by rewrite list_lookup_fmap, Hv. }
  destruct to_buf; cbn -[slice splice flat iov_store iov_len]; (split; [|done]).
  - split; [done|]. split.
    { unfold ix_ok, elt_len; cbn -[slice splice]. rewrite Hv; cbn. lia. }
    split; [done|]. split; [unfold ix_pos; cbn; lia|]. split; [done|]. split; [done|].
    f_equal. unfold ix_pos, slice. rewrite (flat_split _ _ _ Hv).
    rewrite drop_app_ge by lia. rewrite Nat.add_comm, Nat.add_sub.
    rewrite drop_app_le by (unfold iov_len in *; lia).
    rewrite take_app_le by (rewrite length_drop; unfold iov_len in *; lia). done.
  - split; [done|]. split.
    { unfold ix_ok, elt_len; cbn -[slice splice iov_len iov_store]. rewrite length_insert.
      rewrite list_lookup_insert_eq by lia. cbn -[iov_len iov_store slice].
      rewrite iov_store_len by lia. lia. }
    split; [done|]. split.
    { unfold ix_pos; cbn. rewrite (flat_take_len _ _ _ Hlens). lia. }
    split; [done|]. split; [done|].
    unfold ix_pos. rewrite (flat_store _ _ iov); [done|done| |lia].
    intros E. rewrite E in Hls. cbn in Hls. lia.
Qed.

(** The loop of [iov_xfer] with enough fuel moves as many bytes as both
    sides allow and leaves the cursor after them. *)
Lemma iov_xfer_loop_post fuel to_buf : forall ix buf buf_len copied,
  ix_ok ix -> (copied < buf_len)%nat -> (buf_len <= length buf)%nat ->
  (ix_turns ix <= fuel)%nat ->
  exists r, iov_xfer_loop fuel ix buf buf_len copied to_buf = Some r /\
    xfer_post to_buf ix buf copied ((buf_len - copied) `min` (ix_total ix - ix_pos ix)) r.
Proof.
  induction fuel as [|fuel IH]; intros ix buf buf_len copied Hok Hc Hb Hf.
  { unfold ix_turns in Hf. repeat case_decide; lia. }
  pose proof (ix_pos_le ix Hok) as Hpl.
  cbn [iov_xfer_loop]. destruct (Nat.ltb_spec (cur_iov_idx ix) (ix_iovcnt ix)) as [Hlt|Hge].
  2:{ eexists; split; [done|]. destruct Hok as (?&?&?&?).
      assert (ix_pos ix = ix_total ix) as ->.
      { unfold ix_pos, ix_total. rewrite H2 by lia.
        replace (cur_iov_idx ix) with (ix_iovcnt ix) by lia. lia. }
      rewrite Nat.sub_diag, Nat.min_0_r. unfold xfer_post.
      split; [lia|]. split; [repeat split; lia|]. split; [done|]. split; [lia|]. split; [done|].
      unfold slice. rewrite !take_0, splice_nil. destruct to_buf; split; try done.
      by rewrite splice_nil. }
  destruct (lookup_lt_is_Some_2 (ix_iovs ix) (cur_iov_idx ix)) as [iov Hv];
    [destruct Hok; lia|].
  rewrite Hv.
  assert (elt_len (ix_iovs ix) (cur_iov_idx ix) = iov_len iov) as Hel
    by (unfold elt_len; by rewrite Hv).
  assert (cur_iov_offset ix <= iov_len iov)%nat as Ho by (destruct Hok as (?&?&?&?); rewrite <-Hel; auto).
  destruct (Nat.eqb_spec (iov_len iov - cur_iov_offset ix) 0) as [Hz|Hz].
  - (* exhausted element *)
    set (ix' := ix <| cur_iov_idx := S (cur_iov_idx ix) |> <| cur_iov_offset := 0%nat |>).
    assert (cur_iov_offset ix = iov_len iov) as Hoff by lia.
    assert (ix_pos ix' = ix_pos ix) as Hp.
    { unfold ix', ix_pos; cbn. rewrite (flat_take_S _ _ _ Hv), length_app, Hoff. unfold iov_len. lia. }
    destruct (IH ix' buf buf_len copied) as (r & Hr & Hpost); try done.
    { by eapply ix_ok_skip. }
    { unfold ix_turns in *; cbn. rewrite decide_True in Hf by done. rewrite Hel in Hf.
      rewrite decide_True in Hf by lia. repeat case_decide; lia. }
    exists r. split; [done|]. rewrite Hp in Hpost. by eapply xfer_post_skip.
  - set (len := ((iov_len iov - cur_iov_offset ix) `min` (buf_len - copied))%nat).
    destruct (xfer_turn_post to_buf ix buf copied len iov) as (Hp1 & Hi1 & Ho1); try done; try lia.
    assert (iov_len iov - cur_iov_offset ix <= ix_total ix - ix_pos ix)%nat as Hroom.
    { pose proof (flat_take_mono (ix_iovs ix) (S (cur_iov_idx ix)) (ix_iovcnt ix)) as Hm.
      rewrite (flat_take_S _ _ _ Hv), length_app in Hm.
      unfold ix_total, ix_pos, iov_len in *. lia. }
    destruct (xfer_turn to_buf ix buf copied len iov) as [ix1 buf1] eqn:Et. cbn [fst snd] in *.
    destruct (Nat.eqb_spec buf_len (copied + len)) as [He|He].
    { eexists; split; [done|]. replace ((buf_len - copied) `min` _)%nat with len by lia. done. }
    assert (len = iov_len iov - cur_iov_offset ix)%nat as Hlen by lia.
    pose proof Hp1 as (_ & Hok1 & Hc1 & Hpos1 & Hl1 & Hb1).
    assert (length buf1 = length buf) as Hlb.
    { destruct to_buf; [destruct Hb1 as [_ ->]|destruct Hb1 as [-> _]; done]. apply length_splice.
      assert (ix_total ix <= length (flat (ix_iovs ix)))%nat by apply length_flat_take.
      rewrite length_slice; lia. }
    assert (ix_total ix1 = ix_total ix) as Htot.
    { unfold ix_total. rewrite Hc1. by apply flat_take_len. }
    assert (elt_len (ix_iovs ix1) (cur_iov_idx ix) = iov_len iov) as Hel1.
    { rewrite <-Hel. unfold elt_len. rewrite <-!list_lookup_fmap. by rewrite Hl1. }
    destruct (IH ix1 buf1 buf_len (copied + len)%nat) as (r & Hr & Hpost); try done; try lia.
    { unfold ix_turns in *. rewrite Hc1, Hi1, Ho1, Hel1. rewrite decide_True in Hf by done.
      rewrite Hel in Hf. rewrite decide_False in Hf by lia.
      rewrite decide_True by done. rewrite decide_True by lia. lia. }
    exists r. split; [done|].
    replace ((buf_len - copied) `min` (ix_total ix - ix_pos ix))%nat
      with (len + (buf_len - (copied + len)) `min` (ix_total ix1 - ix_pos ix1))%nat by lia.
    eapply xfer_post_trans; try done; lia.
Qed.

(** [iov_xfer] on a well-formed cursor always returns, and its effect. *)
Lemma iov_xfer_post to_buf ix buf buf_len :
  ix_ok ix -> (buf_len <= length buf)%nat ->
  exists r, iov_xfer ix buf buf_len to_buf = Some r /\
    xfer_post to_buf ix buf 0 (buf_len `min` (ix_total ix - ix_pos ix)) r.
Proof.
  intros Hok Hb. unfold iov_xfer. destruct (Nat.eqb_spec buf_len 0) as [->|Hne].
  - eexists; split; [done|]. cbn. unfold slice. rewrite !take_0.
    split; [done|]. split; [done|]. split; [done|]. split; [lia|]. split; [done|].
    rewrite !splice_nil. by destruct to_buf.
  - destruct (iov_xfer_loop_post (S (2 * ix_iovcnt ix)) to_buf ix buf buf_len 0) as (r & Hr & Hp);
      try done; try lia.
    { unfold ix_turns. repeat case_decide; lia. }
    exists r. split; [done|]. by rewrite Nat.sub_0_r in Hp.
Qed.
End Cursor.

(** *** The iterator *)

Section Iterator.
(** No element of the vector is empty: [spdk_ioviter_nextv] stops at one. *)
Definition nonempty (iovs : list iovec) : Prop := Forall (fun v => 0 < iov_len v)%nat iovs.

Definition it_pos (it : spdk_single_ioviter) : nat :=
  (length (flat (take (it_idx it) (it_iov it))) +
   if (it_idx it =? it_iovcnt it)%nat then 0 else it_off it)%nat.
Definition it_ok (it : spdk_single_ioviter) : Prop :=
  nonempty (it_iov it) /\ (it_iovcnt it <= length (it_iov it))%nat /\
  (it_idx it <= it_iovcnt it)%nat /\
  (it_idx it < it_iovcnt it -> it_elt it = it_idx it /\ (0 < it_len it)%nat /\
     (it_off it + it_len it = elt_len (it_iov it) (it_idx it)))%nat.
Definition it_total (it : spdk_single_ioviter) : nat :=
  length (flat (take (it_iovcnt it) (it_iov it))).

Lemma nonempty_elt iovs i : nonempty iovs -> (i < length iovs)%nat -> (0 < elt_len iovs i)%nat.
Proof.
  intros H Hi. destruct (lookup_lt_is_Some_2 iovs i Hi) as [v Hv].
  unfold elt_len. rewrite Hv. cbn. eapply Forall_lookup_1 in H; eauto.
Qed.

Lemma flat_take_elt iovs i : (i < length iovs)%nat ->
  length (flat (take (S i) iovs)) = (length (flat (take i iovs)) + elt_len iovs i)%nat.
Proof.
  intros Hi. destruct (lookup_lt_is_Some_2 iovs i Hi) as [v Hv].
  rewrite (flat_take_S _ _ _ Hv), length_app. unfold elt_len. by rewrite Hv.
Qed.

Lemma it_ok_start iovs cnt : nonempty iovs -> (cnt <= length iovs)%nat ->
  it_ok (ioviter_start iovs cnt) /\ it_pos (ioviter_start iovs cnt) = 0%nat.
Proof.
  intros Hn Hc. split.
  - split; [done|]. cbn. repeat split; try lia. intros. by apply nonempty_elt; [|lia].
  - unfold it_pos. cbn -[flat]. rewrite take_0. cbn. by destruct cnt.
Qed.

Lemma it_live it : it_ok it -> (it_idx it < it_iovcnt it)%nat ->
  (it_pos it + it_len it <= it_total it)%nat /\ (0 < it_len it)%nat.
Proof.
  intros (H1 & H2 & H3 & H4) Hlt. destruct (H4 Hlt) as (He & Hl & Ho).
  unfold it_pos, it_total. rewrite (proj2 (Nat.eqb_neq _ _)) by lia.
  pose proof (flat_take_mono (it_iov it) (S (it_idx it)) (it_iovcnt it)).
  rewrite flat_take_elt in H by lia. lia.
Qed.

Lemma it_done it : it_ok it -> it_idx it = it_iovcnt it -> it_pos it = it_total it.
Proof. intros _ E. unfold it_pos, it_total. rewrite E, Nat.eqb_refl. lia. Qed.

Lemma it_advance it len : it_ok it -> (it_idx it < it_iovcnt it)%nat ->
  (0 < len <= it_len it)%nat ->
  let it' := ioviter_advance len it in
  it_ok it' /\ it_pos it' = (it_pos it + len)%nat /\ it_total it' = it_total it /\
  it_iov it' = it_iov it /\ it_iovcnt it' = it_iovcnt it.
Proof.
  intros (H1 & H2 & H3 & H4) Hlt Hlen. destruct (H4 Hlt) as (He & Hl & Ho).
  unfold ioviter_advance, it_pos, it_ok, it_total.
  rewrite (proj2 (Nat.eqb_neq (it_idx it) _)) by lia.
  destruct (Nat.eqb_spec (it_len it) len) as [E|E]; cbn -[flat Nat.eqb].
  - destruct (Nat.eqb_spec (S (it_idx it)) (it_iovcnt it)) as [E'|E']; cbn -[flat Nat.eqb].
    + rewrite E', Nat.eqb_refl, <-E', flat_take_elt by lia. repeat split; try done; lia.
    + rewrite (proj2 (Nat.eqb_neq (S (it_idx it)) _)) by lia.
      rewrite flat_take_elt by lia. repeat split; try done; try lia.
      intros. apply nonempty_elt; [done|lia].
  - rewrite (proj2 (Nat.eqb_neq (it_idx it) _)) by lia. repeat split; try done; lia.
Qed.

(** The loop of [spdk_iovcpy]: [dit] walks the lengths of the destination
    while the destination itself changes. *)
Lemma iovcpy_loop_post fuel : forall sit dit diov total,
  it_ok sit -> it_ok dit -> iov_len <$> diov = iov_len <$> it_iov dit ->
  ((it_total sit - it_pos sit) `min` (it_total dit - it_pos dit) < fuel)%nat ->
  exists diov',
    let n := ((it_total sit - it_pos sit) `min` (it_total dit - it_pos dit))%nat in
    iovcpy_loop fuel (it_iov sit) diov (spdk_ioviter_nextv [sit; dit]) total
      = Some (diov', (total + n)%nat) /\
    iov_len <$> diov' = iov_len <$> diov /\
    flat diov' = splice (it_pos dit) (slice (it_pos sit) n (flat (it_iov sit))) (flat diov).
Proof.
  induction fuel as [|fuel IH]; intros sit dit diov total Hs Hd Hl Hf; [lia|].
  pose proof Hs as (S1 & S2 & S3 & S4). pose proof Hd as (D1 & D2 & D3 & D4).
  cbn [iovcpy_loop]. unfold spdk_ioviter_nextv at 1. cbn [ioviter_min].
  destruct (Nat.eqb_spec (it_idx sit) (it_iovcnt sit)) as [Es|Es]; cbn [orb].
  { rewrite (it_done sit) by done. rewrite Nat.sub_diag, Nat.min_0_l, Nat.add_0_r.
    eexists; split; [done|]. split; [done|]. unfold slice. by rewrite take_0, splice_nil. }
  destruct (it_live sit) as [Hsl Hsp]; [done|lia|].
  destruct (Nat.eqb_spec (it_len sit) 0); [lia|]. cbn [ioviter_min].
  destruct (Nat.eqb_spec (it_idx dit) (it_iovcnt dit)) as [Ed|Ed]; cbn [orb].
  { rewrite (it_done dit) by done. rewrite Nat.sub_diag, Nat.min_0_r, Nat.add_0_r.
    eexists; split; [done|]. split; [done|]. unfold slice. by rewrite take_0, splice_nil. }
  destruct (it_live dit) as [Hdl Hdp]; [done|lia|].
  destruct (Nat.eqb_spec (it_len dit) 0); [lia|]. cbn [ioviter_min].
  set (len := Z.to_nat _).
  assert (0 < len <= it_len sit /\ len <= it_len dit)%nat as [Hls Hld].
  { unfold len, UINT32_MAX. lia. }
  destruct (Nat.eqb_spec len 0); [lia|]. cbn [fmap list_fmap].
  destruct (it_advance sit len Hs) as (Os & Ps & Ts & Is & Cs); [lia..|].
  destruct (it_advance dit len Hd) as (Od & Pd & Td & Id & Cd); [lia..|].
  destruct (S4 ltac:(lia)) as (Se & _ & So). destruct (D4 ltac:(lia)) as (De & _ & Do).
  destruct (lookup_lt_is_Some_2 (it_iov sit) (it_elt sit)) as [sv Hsv]; [lia|].
  assert (length diov = length (it_iov dit)) as Hlen
    by (apply (f_equal length) in Hl; by rewrite !length_fmap in Hl).
  destruct (lookup_lt_is_Some_2 diov (it_elt dit)) as [dv Hdv]; [lia|].
  rewrite Hsv, Hdv.
  set (src := slice (it_off sit) len (iov_mem sv)).
  unfold elt_len in So. rewrite <-Se, Hsv in So. cbn in So.
  assert (length src = len) as Hsrc.
  { unfold src. apply length_slice. unfold iov_len in So. lia. }
  assert (iov_len dv = it_off dit + it_len dit)%nat as Hdvl.
  { rewrite Do. unfold elt_len. rewrite <-De, <-list_lookup_fmap, <-Hl, list_lookup_fmap, Hdv. done. }
  set (diov1 := <[it_elt dit := iov_store (it_off dit) src dv]> diov).
  assert (iov_len <$> diov1 = iov_len <$> diov) as Hl1.
  { unfold diov1. rewrite list_fmap_insert, iov_store_len by lia. apply list_insert_id.
    by rewrite list_lookup_fmap, Hdv. }
  assert (flat diov1 = splice (it_pos dit) (slice (it_pos sit) len (flat (it_iov sit))) (flat diov)) as Hf1.
  { unfold diov1. rewrite (flat_store _ _ dv); [|done| |lia].
    2:{ intros E0. rewrite E0 in Hsrc. cbn in Hsrc. lia. }
    unfold it_pos. rewrite (proj2 (Nat.eqb_neq (it_idx sit) _)), (proj2 (Nat.eqb_neq (it_idx dit) _)) by lia.
    rewrite De. rewrite (flat_take_len _ _ _ Hl). f_equal.
    unfold src, slice. rewrite (flat_split _ _ _ Hsv). rewrite <-Se.
    rewrite drop_app_ge by lia. rewrite Nat.add_comm, Nat.add_sub.
    rewrite drop_app_le by (unfold iov_len in *; lia).
    rewrite take_app_le by (rewrite length_drop; unfold iov_len in *; lia). done. }
  destruct (IH (ioviter_advance len sit) (ioviter_advance len dit) diov1 (total + len)%nat)
    as (diov' & Hrun & Hl' & Hf'); try done; try lia.
  { rewrite Hl1, Id. done. }
  rewrite Is in Hrun. exists diov'. cbn zeta in *. unfold spdk_ioviter_next. rewrite Hrun. split; [f_equal; f_equal; lia|].
  split; [congruence|]. rewrite Hf', Hf1, Ps, Pd, Is, Ts, Td.
  assert (it_total sit <= length (flat (it_iov sit)))%nat by apply length_flat_take.
  assert (it_total dit <= length (flat diov))%nat.
  { unfold it_total. rewrite <-(flat_take_len _ _ _ Hl). apply length_flat_take. }
  set (n' := ((it_total sit - (it_pos sit + len)) `min` (it_total dit - (it_pos dit + len)))%nat).
  replace ((it_total sit - it_pos sit) `min` (it_total dit - it_pos dit))%nat with (len + n')%nat
    by lia.
  rewrite <-(slice_app (it_pos sit) len n').
  rewrite <-(splice_splice (it_pos dit)); rewrite !length_slice; try lia. done.
Qed.
End Iterator.
(** ** Properties *)

(** Copying a buffer into a vector: the general form, for a prefix of the
    elements. *)
Lemma copy_buf_to_iovs_flat iovs iovcnt buf buf_len :
  (iovcnt <= length iovs)%nat -> (buf_len <= length buf)%nat ->
  exists iovs', spdk_copy_buf_to_iovs iovs iovcnt buf buf_len = Some iovs' /\
    iov_len <$> iovs' = iov_len <$> iovs /\
    flat iovs' = splice 0 (take (buf_len `min` length (flat (take iovcnt iovs))) buf) (flat iovs).
Proof.
  intros Hc Hb. unfold spdk_copy_buf_to_iovs, spdk_iov_xfer_from_buf.
  destruct (iov_xfer_post false (spdk_iov_xfer_init iovs iovcnt) buf buf_len)
    as ([[ix b] c] & Hr & Hp); [by apply ix_ok_init|done|].
  rewrite Hr. cbn. eexists; split; [done|].
  destruct Hp as (_ & _ & _ & _ & Hl & _ & Hf). split; [done|].
  rewrite ix_pos_init, Nat.sub_0_r in Hf. exact Hf.
Qed.

(** Reading a vector into a buffer of [buf_len] bytes. *)
Lemma copy_iovs_to_buf_flat iovs iovcnt buf buf_len :
  (iovcnt <= length iovs)%nat -> (buf_len <= length buf)%nat ->
  spdk_copy_iovs_to_buf buf buf_len iovs iovcnt
  = Some (splice 0 (take (buf_len `min` length (flat (take iovcnt iovs))) (flat iovs)) buf).
Proof.
  intros Hc Hb. unfold spdk_copy_iovs_to_buf, spdk_iov_xfer_to_buf.
  destruct (iov_xfer_post true (spdk_iov_xfer_init iovs iovcnt) buf buf_len)
    as ([[ix b] c] & Hr & Hp); [by apply ix_ok_init|done|].
  rewrite Hr. cbn. destruct Hp as (_ & _ & _ & _ & _ & _ & ->).
  by rewrite ix_pos_init, Nat.sub_0_r.
Qed.

Example iovcpy_ex :
  spdk_iovcpy [Iov (Some [1;2;3]); Iov (Some [4;5])] 2
    [Iov (Some [0;0]); Iov (Some [0]); Iov (Some [0;0;0])] 3
  = Some ([Iov (Some [1;2]); Iov (Some [3]); Iov (Some [4;5;0])], 5%nat).
Proof. vm_compute. reflexivity. Qed.

Example xfer_ex :
  spdk_copy_buf_to_iovs [Iov (Some [0;0]); Iov None; Iov (Some [0;0;0])] 3 [1;2;3;4] 4
  = Some [Iov (Some [1;2]); Iov None; Iov (Some [3;4;0])].
Proof. vm_compute. reflexivity. Qed.

(** A buffer written into a scatter-gather list and read back through
    [spdk_copy_iovs_to_buf] is unchanged whenever it fits in the list: both
    cursors walk the elements in the same order, across empty elements. *)
Theorem iov_copy_roundtrip iovs buf (H : (length buf <= length (flat iovs))%nat) :
  exists iovs', spdk_copy_buf_to_iovs iovs (length iovs) buf (length buf) = Some iovs' /\
    spdk_copy_iovs_to_buf (replicate (length buf) 0) (length buf) iovs' (length iovs) = Some buf.
Proof.
  destruct (copy_buf_to_iovs_flat iovs (length iovs) buf (length buf)) as (iovs' & H1 & H2 & H3); [lia..|].
  exists iovs'. split; [done|].
  assert (length iovs' = length iovs) as Hl by (apply (f_equal length) in H2; by rewrite !length_fmap in H2).
  rewrite copy_iovs_to_buf_flat by (rewrite ?length_replicate; lia).
  rewrite <-Hl, firstn_all, Hl in *. rewrite firstn_all in H3.
  rewrite Nat.min_l, firstn_all in H3 by done. rewrite H3, length_splice by (cbn; lia).
  rewrite Nat.min_l by done. f_equal.
  pose proof (slice_splice_same 0 buf (flat iovs) H) as Hs. unfold slice in Hs. rewrite drop_0 in Hs.
  rewrite Hs. apply splice_all. by rewrite length_replicate.
Qed.
Lemma iov_copy_roundtrip_witness :
  (2 <= 3)%nat /\ exists iovs',
    spdk_copy_buf_to_iovs [Iov (Some [7]); Iov None; Iov (Some [8; 9])] 3 [1; 2] 2 = Some iovs' /\
    spdk_copy_iovs_to_buf (replicate 2 0) 2 iovs' 3 = Some [1; 2].
Proof.
  split; [lia|].
  apply (iov_copy_roundtrip [Iov (Some [7]); Iov None; Iov (Some [8; 9])] [1; 2]). cbn. lia.
Defined.

(** C36. [spdk_iovcpy] between two lists without empty elements copies exactly
    the common length: it returns [min] of the two sizes, the destination's
    first bytes are the source's, the rest of the destination and the element
    sizes are untouched, and the loop terminates. *)
Theorem spdk_iovcpy_flat siov diov (Hs : nonempty siov) (Hd : nonempty diov) :
  let n := (length (flat siov) `min` length (flat diov))%nat in
  exists diov', spdk_iovcpy siov (length siov) diov (length diov) = Some (diov', n) /\
    iov_len <$> diov' = iov_len <$> diov /\
    flat diov' = splice 0 (take n (flat siov)) (flat diov).
Proof.
  destruct (it_ok_start siov (length siov)) as [Os Ps]; [done|done|].
  destruct (it_ok_start diov (length diov)) as [Od Pd]; [done|done|].
  destruct (iovcpy_loop_post (S (length (flat siov))) (ioviter_start siov (length siov))
    (ioviter_start diov (length diov)) diov 0) as (diov' & H1 & H2 & H3); try done.
  { unfold it_total. cbn -[flat it_pos]. rewrite !firstn_all. lia. }
  exists diov'. rewrite Ps, Pd in *. unfold it_total in *. cbn -[flat] in H1, H3.
  rewrite !firstn_all, !Nat.sub_0_r in *. unfold slice in H3. rewrite drop_0 in H3. done.
Qed.
Lemma spdk_iovcpy_flat_witness :
  exists diov', spdk_iovcpy [Iov (Some [1; 2; 3])] 1 [Iov (Some [0]); Iov (Some [0; 0; 0])] 2
    = Some (diov', 3%nat) /\ flat diov' = [1; 2; 3; 0].
Proof.
  destruct (spdk_iovcpy_flat [Iov (Some [1; 2; 3])] [Iov (Some [0]); Iov (Some [0; 0; 0])])
    as (d & H1 & _ & H3).
  - repeat constructor; cbn; lia.
  - repeat constructor; cbn; lia.
  - exists d. split; [exact H1|exact H3].
Defined.
