(* ===== verification/World.v ===== *)
(** * The state of the target and the language of its handlers

    The C code of the target mutates shared objects through pointers: the
    request, its queue pair, the poll group's view of the subsystem, contexts
    allocated for the lifetime of an asynchronous operation, and the block
    device.  [world] holds them in stores indexed by identity, so that two
    callbacks that refer to one context see each other's writes.  A handler
    is a state transformer [M A]; [Undef] is the outcome of an access the C
    program has no right to make (a freed context, a NULL pointer, a queue
    element removed twice, a failed assertion). *)
From S2P Require Import Prelude NvmeSpec Iov.

(** ** Block devices *)

Inductive spdk_bdev_io_type :=
| IO_READ | IO_WRITE | IO_UNMAP | IO_FLUSH | IO_NVME_ADMIN | IO_NVME_IO | IO_NVME_IO_MD
| IO_NVME_IOV_MD | IO_WRITE_ZEROES | IO_ZCOPY | IO_COMPARE | IO_COMPARE_AND_WRITE | IO_ABORT
| IO_COPY.
#[global] Instance io_type_eq_dec : EqDecision spdk_bdev_io_type.
Proof. solve_decision. Defined.

Inductive spdk_bdev_io_status :=
| IO_STATUS_AIO_ERROR | IO_STATUS_ABORTED | IO_STATUS_FIRST_FUSED_FAILED | IO_STATUS_MISCOMPARE
| IO_STATUS_NOMEM | IO_STATUS_SCSI_ERROR | IO_STATUS_NVME_ERROR | IO_STATUS_FAILED
| IO_STATUS_PENDING | IO_STATUS_SUCCESS.
#[global] Instance io_status_eq_dec : EqDecision spdk_bdev_io_status.
Proof. solve_decision. Defined.

(** [struct spdk_bdev]: geometry and capabilities. *)
Record spdk_bdev := Bdev {
  blocklen : Z; blockcnt : Z; acwu : Z; md_len : Z; md_interleave : bool;
  dif_type : Z; dif_is_head_of_md : bool; phys_blocklen : Z; write_unit_size : Z;
  optimal_io_boundary : Z; max_copy : Z;
  io_type_supported : spdk_bdev_io_type -> bool }.

(** [struct spdk_bdev_desc]: an open device. *)
Record spdk_bdev_desc := BdevDesc { desc_bdev : spdk_bdev; desc_write : bool }.

(** Memory a device reads or writes: the first [iovcnt] elements of the vector
    of a request, or an allocated buffer from an offset on. *)
Inductive io_buffer :=
| BufReq (rid : nat) (iovcnt : Z)
| BufHeap (l off : nat)
| BufNone.

(** The completion callbacks of [ctrlr_bdev.c], and their argument: a request
    or an allocated context. *)
Inductive spdk_bdev_io_completion_cb :=
| nvmf_bdev_ctrlr_complete_cmd_cb | nvmf_bdev_ctrlr_complete_cmd_custom_cb
| nvmf_bdev_ctrlr_complete_admin_cmd_cb | nvmf_bdev_ctrlr_complete_abort_cmd_cb
| nvmf_bdev_ctrlr_first_read_complete_cb | nvmf_bdev_ctrlr_second_read_complete_cb
| nvmf_heaan_buffer_fill_complete_cb | nvmf_heaan_cip_write_complete_cb
| nvmf_bdev_ctrlr_unmap_cpl_cb
| nvmf_bdev_ctrlr_zcopy_start_complete_cb | nvmf_bdev_ctrlr_zcopy_end_complete_cb.
Inductive cb_argument := ArgReq (rid : nat) | ArgCtx (l : nat).

(** [struct spdk_bdev_io]: the operation, its buffers and range, the fields of
    the zero-copy, pass-through and abort operations, status and callback.
    [io_iovs] is the memory a zero-copy operation lends. *)
Record spdk_bdev_io := BdevIo {
  io_type : spdk_bdev_io_type; io_desc : spdk_bdev_desc;
  io_cb : spdk_bdev_io_completion_cb; io_arg : cb_argument;
  io_buf : io_buffer; io_fused_buf : io_buffer;
  io_offset_blocks : Z; io_num_blocks : Z; io_src_offset_blocks : Z;
  io_populate : bool; io_commit : bool; io_start : bool; io_iovs : list iovec;
  io_cmd : option spdk_nvme_cmd; io_bio_cb_arg : option nat;
  io_status : spdk_bdev_io_status; io_nvme_cdw0 : Z; io_nvme_sct : Z; io_nvme_sc : Z }.
#[global] Instance eta_io : Eta spdk_bdev_io := fun i =>
  BdevIo (io_type i) (io_desc i) (io_cb i) (io_arg i) (io_buf i) (io_fused_buf i)
    (io_offset_blocks i) (io_num_blocks i) (io_src_offset_blocks i) (io_populate i) (io_commit i)
    (io_start i) (io_iovs i) (io_cmd i) (io_bio_cb_arg i) (io_status i) (io_nvme_cdw0 i)
    (io_nvme_sct i) (io_nvme_sc i).

(** Callbacks of [spdk_bdev_queue_io_wait]. *)
Inductive io_wait_cb :=
| process_io_cmd_resubmit | process_admin_cmd_resubmit | unmap_resubmit.
Record spdk_bdev_io_wait_entry := WaitEntry { we_cb : io_wait_cb; we_arg : cb_argument }.

(** The management channel: free I/O objects of the thread's cache and of the
    global pool, and the callers waiting for one. *)
Record spdk_bdev_mgmt_channel := MgmtCh {
  per_thread_cache_count : nat; bdev_io_cache_size : nat; bdev_io_pool : nat;
  io_wait_queue : list spdk_bdev_io_wait_entry }.
#[global] Instance eta_mgmt : Eta spdk_bdev_mgmt_channel := fun m =>
  MgmtCh (per_thread_cache_count m) (bdev_io_cache_size m) (bdev_io_pool m) (io_wait_queue m).

(** ** The NVMe-oF target *)

Inductive spdk_nvmf_zcopy_phase :=
| NVMF_ZCOPY_PHASE_NONE | NVMF_ZCOPY_PHASE_INIT | NVMF_ZCOPY_PHASE_EXECUTE
| NVMF_ZCOPY_PHASE_END_PENDING | NVMF_ZCOPY_PHASE_COMPLETE | NVMF_ZCOPY_PHASE_INIT_FAILED.
#[global] Instance zcopy_eq_dec : EqDecision spdk_nvmf_zcopy_phase.
Proof. solve_decision. Defined.

(** [struct spdk_nvmf_request].  [req_connect_sgroup] is whether the CONNECT
    data of the request names a subsystem of the poll group. *)
Record spdk_nvmf_request := NvmfReq {
  req_qpair : nat; req_length : Z; req_xfer : spdk_nvme_data_transfer;
  req_first_fused : bool; req_zcopy_phase : spdk_nvmf_zcopy_phase; req_iovcnt : Z;
  req_cmd : spdk_nvme_cmd; req_rsp : spdk_nvme_cpl; req_memory_domain : option nat;
  req_accel_sequence : option nat; req_iov : list iovec;
  req_first_fused_req : option nat; req_cmd_cb_fn : bool;
  req_zcopy_bdev_io : option nat; req_connect_sgroup : bool }.
#[global] Instance eta_req : Eta spdk_nvmf_request := fun r =>
  NvmfReq (req_qpair r) (req_length r) (req_xfer r) (req_first_fused r) (req_zcopy_phase r)
    (req_iovcnt r) (req_cmd r) (req_rsp r) (req_memory_domain r) (req_accel_sequence r)
    (req_iov r) (req_first_fused_req r) (req_cmd_cb_fn r) (req_zcopy_bdev_io r)
    (req_connect_sgroup r).

Inductive spdk_nvmf_qpair_state :=
| SPDK_NVMF_QPAIR_UNINITIALIZED | SPDK_NVMF_QPAIR_CONNECTING | SPDK_NVMF_QPAIR_AUTHENTICATING
| SPDK_NVMF_QPAIR_ENABLED | SPDK_NVMF_QPAIR_DEACTIVATING | SPDK_NVMF_QPAIR_ERROR.
#[global] Instance qpair_state_eq_dec : EqDecision spdk_nvmf_qpair_state.
Proof. solve_decision. Defined.

(** [struct spdk_nvmf_qpair] with the two options of its transport the I/O
    path reads. *)
Record spdk_nvmf_qpair := NvmfQpair {
  qp_state : spdk_nvmf_qpair_state; qp_qid : Z; qp_ctrlr : option nat;
  qp_first_fused_req : option nat; qp_outstanding : list nat; qp_state_cb : bool;
  qp_disable_command_passthru : bool; qp_transport_zcopy : bool }.
#[global] Instance eta_qpair : Eta spdk_nvmf_qpair := fun q =>
  NvmfQpair (qp_state q) (qp_qid q) (qp_ctrlr q) (qp_first_fused_req q) (qp_outstanding q)
    (qp_state_cb q) (qp_disable_command_passthru q) (qp_transport_zcopy q).

Inductive spdk_nvmf_subsystem_state :=
| SPDK_NVMF_SUBSYSTEM_INACTIVE | SPDK_NVMF_SUBSYSTEM_ACTIVATING | SPDK_NVMF_SUBSYSTEM_ACTIVE
| SPDK_NVMF_SUBSYSTEM_PAUSING | SPDK_NVMF_SUBSYSTEM_PAUSED | SPDK_NVMF_SUBSYSTEM_RESUMING
| SPDK_NVMF_SUBSYSTEM_DEACTIVATING.
#[global] Instance subsystem_state_eq_dec : EqDecision spdk_nvmf_subsystem_state.
Proof. solve_decision. Defined.

Inductive spdk_nvme_ana_state :=
| SPDK_NVME_ANA_OPTIMIZED_STATE | SPDK_NVME_ANA_NON_OPTIMIZED_STATE
| SPDK_NVME_ANA_INACCESSIBLE_STATE | SPDK_NVME_ANA_PERSISTENT_LOSS_STATE
| SPDK_NVME_ANA_CHANGE_STATE.
#[global] Instance ana_state_eq_dec : EqDecision spdk_nvme_ana_state.
Proof. solve_decision. Defined.

(** [struct spdk_nvmf_ns] *)
Record spdk_nvmf_ns := NvmfNs {
  ns_anagrpid : Z; ns_bdev : option spdk_bdev; ns_desc : spdk_bdev_desc; ns_zcopy : bool }.

(** [struct spdk_nvmf_subsystem]: the namespaces by [nsid - 1], the limits. *)
Record spdk_nvmf_subsystem := NvmfSubsys {
  subsys_ns : list (option spdk_nvmf_ns); subsys_ana_reporting : bool;
  subsys_max_discard_size_kib : Z; subsys_max_write_zeroes_size_kib : Z }.

(** [struct spdk_nvmf_ctrlr]: the fields the I/O path reads.  [ct_ana_state]
    is [listener->ana_state], absent when there is no listener. *)
Record spdk_nvmf_ctrlr := NvmfCtrlr {
  ct_hostid : Z; ct_cc_en : Z; ct_acre_enabled : bool; ct_visible_ns : list bool;
  ct_ana_state : option (list spdk_nvme_ana_state);
  ct_oncs_compare : bool; ct_oncs_write_zeroes : bool; ct_oncs_dsm : bool;
  ct_oncs_reservations : bool; ct_oncs_copy : bool }.

(** [struct spdk_nvmf_subsystem_pg_ns_info] and
    [struct spdk_nvmf_subsystem_poll_group]. *)
Record spdk_nvmf_subsystem_pg_ns_info := PgNsInfo {
  ni_channel : bool; ni_rtype : Z; ni_holder_id : Z; ni_reg_hostid : list Z;
  ni_io_outstanding : Z; ni_state : spdk_nvmf_subsystem_state }.
#[global] Instance eta_nsinfo : Eta spdk_nvmf_subsystem_pg_ns_info := fun n =>
  PgNsInfo (ni_channel n) (ni_rtype n) (ni_holder_id n) (ni_reg_hostid n)
    (ni_io_outstanding n) (ni_state n).

Record spdk_nvmf_subsystem_poll_group := SubsysPg {
  sg_ns_info : list spdk_nvmf_subsystem_pg_ns_info; sg_state : spdk_nvmf_subsystem_state;
  sg_mgmt_io_outstanding : Z; sg_cb_fn : bool; sg_queued : list nat }.
#[global] Instance eta_sgroup : Eta spdk_nvmf_subsystem_poll_group := fun g =>
  SubsysPg (sg_ns_info g) (sg_state g) (sg_mgmt_io_outstanding g) (sg_cb_fn g) (sg_queued g).

(** [num_ns] is the length of the array. *)
Definition sg_num_ns (g : spdk_nvmf_subsystem_poll_group) : Z := Z.of_nat (length (sg_ns_info g)).

(** ** Allocated objects *)

(** [struct custom_grep_ctx] of the grep command: the keyword buffer, the
    number of bytes copied into it, the request. *)
Record custom_grep_ctx := GrepCtx { gc_keyword : option nat; gc_keyword_len : Z; gc_req : nat }.

(** [struct custom_ctx] of the echo command. *)
Record custom_ctx := EchoCtx {
  ec_first_result : option nat; ec_first_result_len : Z; ec_req : nat; ec_desc : spdk_bdev_desc }.
#[global] Instance eta_ectx : Eta custom_ctx := fun c =>
  EchoCtx (ec_first_result c) (ec_first_result_len c) (ec_req c) (ec_desc c).

(** [heaan_ctx] of the ciphertext addition. *)
Record heaan_ctx := HeaanCtx {
  hc_input_0_buffer : option nat; hc_input_1_buffer : option nat; hc_target_buffer : option nat;
  hc_pending_fills : Z; hc_input_0_total_size : Z; hc_input_1_total_size : Z;
  hc_input_0_start_offset : Z; hc_input_1_start_offset : Z;
  hc_target_extents_count : Z; hc_target_ext : option nat; hc_req : nat; hc_desc : spdk_bdev_desc }.
#[global] Instance eta_hctx : Eta heaan_ctx := fun c =>
  HeaanCtx (hc_input_0_buffer c) (hc_input_1_buffer c) (hc_target_buffer c)
    (hc_pending_fills c) (hc_input_0_total_size c) (hc_input_1_total_size c)
    (hc_input_0_start_offset c) (hc_input_1_start_offset c)
    (hc_target_extents_count c) (hc_target_ext c) (hc_req c) (hc_desc c).

(** [struct nvmf_bdev_ctrlr_unmap] *)
Record nvmf_bdev_ctrlr_unmap_ctx := UnmapCtx {
  uc_req : nat; uc_count : Z; uc_desc : spdk_bdev_desc; uc_bdev : spdk_bdev; uc_range_index : Z }.
#[global] Instance eta_uctx : Eta nvmf_bdev_ctrlr_unmap_ctx := fun c =>
  UnmapCtx (uc_req c) (uc_count c) (uc_desc c) (uc_bdev c) (uc_range_index c).

(** What an allocation holds: raw bytes, an array of 64-bit words, or one of
    the contexts above. *)
Inductive hobj :=
| OBytes (b : bytes)
| OWords (ws : list Z)
| OGrep (c : custom_grep_ctx)
| OEcho (c : custom_ctx)
| OHeaan (c : heaan_ctx)
| OUnmap (c : nvmf_bdev_ctrlr_unmap_ctx).

(** ** The world *)

(** What leaves the target: a response handed to the transport
    ([nvmf_transport_req_complete], with the completion as it is at that
    moment), a message to the subsystem's thread, the callbacks of a paused
    subsystem and of a drained queue pair. *)
Inductive event :=
| EvReqComplete (rid : nat) (cpl : spdk_nvme_cpl)
| EvReservationMsg (rid : nat)
| EvSubsystemPaused
| EvQpairDrained (q : nat).

Record world := World {
  w_reqs : gmap nat spdk_nvmf_request; w_qpairs : gmap nat spdk_nvmf_qpair;
  w_ctrlrs : gmap nat spdk_nvmf_ctrlr; w_subsys : spdk_nvmf_subsystem;
  w_sgroup : spdk_nvmf_subsystem_poll_group;
  w_heap : gmap nat hobj; w_next : nat; w_malloc : list bool;
  w_ios : gmap nat spdk_bdev_io; w_mgmt : spdk_bdev_mgmt_channel; w_disk : bytes;
  w_completed_nvme_io : Z; w_pending_bdev_io : Z; w_log : list event }.
#[global] Instance eta_world : Eta world := fun w =>
  World (w_reqs w) (w_qpairs w) (w_ctrlrs w) (w_subsys w) (w_sgroup w) (w_heap w) (w_next w)
    (w_malloc w) (w_ios w) (w_mgmt w) (w_disk w) (w_completed_nvme_io w) (w_pending_bdev_io w)
    (w_log w).

(** The answers among the events, and that exactly [l] have been given since. *)
Definition answers_in (l : list event) : list (nat * spdk_nvme_cpl) :=
  omap (fun e => match e with EvReqComplete rid c => Some (rid, c) | _ => None end) l.
Definition answers_only (w w' : world) (l : list (nat * spdk_nvme_cpl)) : Prop :=
  exists evs, w_log w' = w_log w ++ evs /\ answers_in evs = l.

Lemma answers_only_trans w1 w2 w3 l1 l2 : answers_only w1 w2 l1 -> answers_only w2 w3 l2 -> answers_only w1 w3 (l1 ++ l2).
Proof.
  intros (e1 & E1 & <-) (e2 & E2 & <-). exists (e1 ++ e2). split; [by rewrite E2, E1, app_assoc|]. apply omap_app.
Qed.
(** Only the log counts. *)
Lemma answers_only_log w1 w1' w2 w2' l : w_log w1' = w_log w1 -> w_log w2' = w_log w2 -> answers_only w1 w2 l -> answers_only w1' w2' l.
Proof. unfold answers_only. by intros -> ->. Qed.

(** ** The monad of handlers *)

Inductive outcome (A : Type) := Ret (a : A) (w : world) | Undef.
Arguments Ret {A} a w.
Arguments Undef {A}.

Definition M (A : Type) : Type := world -> outcome A.

#[global] Instance M_ret : MRet M := fun A a w => Ret a w.
#[global] Instance M_bind : MBind M := fun A B k m w =>
  match m w with Ret a w => k a w | Undef => Undef end.

Definition undef {A} : M A := fun _ => Undef.
Definition gets {A} (f : world -> A) : M A := fun w => Ret (f w) w.
Definition modify (f : world -> world) : M unit := fun w => Ret tt (f w).
(** A pointer or an index that must be valid. *)
Definition need {A} (o : option A) : M A := match o with Some a => mret a | None => undef end.
(** [assert] *)
Definition massert (b : bool) : M unit := if b then mret tt else undef.

Definition get_req (rid : nat) : M spdk_nvmf_request := w ← gets w_reqs; need (w !! rid).
Definition put_req (rid : nat) (r : spdk_nvmf_request) : M unit :=
  modify (fun w => w <| w_reqs := <[rid := r]> (w_reqs w) |>).
Definition mod_req (rid : nat) (f : spdk_nvmf_request -> spdk_nvmf_request) : M unit :=
  r ← get_req rid; put_req rid (f r).

Definition get_qpair (q : nat) : M spdk_nvmf_qpair := w ← gets w_qpairs; need (w !! q).
Definition mod_qpair (q : nat) (f : spdk_nvmf_qpair -> spdk_nvmf_qpair) : M unit :=
  qp ← get_qpair q; modify (fun w => w <| w_qpairs := <[q := f qp]> (w_qpairs w) |>).
Definition get_ctrlr (c : nat) : M spdk_nvmf_ctrlr := w ← gets w_ctrlrs; need (w !! c).
Definition mod_sgroup (f : spdk_nvmf_subsystem_poll_group -> spdk_nvmf_subsystem_poll_group) : M unit :=
  modify (fun w => w <| w_sgroup := f (w_sgroup w) |>).

Definition emit (e : event) : M unit := modify (fun w => w <| w_log := w_log w ++ [e] |>).

(** Assignments to the response of a request. *)
Definition mod_status (rid : nat) (f : spdk_nvme_status -> spdk_nvme_status) : M unit :=
  mod_req rid (fun r =>
    r <| req_rsp := (req_rsp r) <| status := f (status (req_rsp r)) |> |>).
Definition set_sc (rid : nat) (v : Z) : M unit := mod_status rid (fun s => s <| sc := v |>).
Definition set_sct (rid : nat) (v : Z) : M unit := mod_status rid (fun s => s <| sct := v |>).
Definition set_dnr (rid : nat) (v : Z) : M unit := mod_status rid (fun s => s <| dnr := v |>).
Definition set_cdw0 (rid : nat) (v : Z) : M unit :=
  mod_req rid (fun r => r <| req_rsp := (req_rsp r) <| cdw0 := v |> |>).
(** The pair of assignments most handlers make. *)
Definition set_status (rid : nat) (sct sc : Z) : M unit := set_sct rid sct;; set_sc rid sc.

(** *** Allocation *)

(** [malloc]: the next answer of the allocator ([w_malloc], success when the
    list is empty) decides whether the object is created. *)
Definition malloc (o : hobj) : M (option nat) := fun w =>
  let ok := match w_malloc w with b :: _ => b | [] => true end in
  let w := w <| w_malloc := tail (w_malloc w) |> in
  if ok then
    Ret (Some (w_next w))
      (w <| w_heap := <[w_next w := o]> (w_heap w) |> <| w_next := S (w_next w) |>)
  else Ret None w.

(** [free]: of NULL nothing, of a live object its removal, anything else is
    undefined. *)
Definition free (p : option nat) : M unit :=
  match p with
  | None => mret tt
  | Some l => h ← gets w_heap; _ ← need (h !! l);
      modify (fun w => w <| w_heap := delete l (w_heap w) |>)
  end.

Definition load (l : nat) : M hobj := h ← gets w_heap; need (h !! l).
Definition store (l : nat) (o : hobj) : M unit :=
  load l;; modify (fun w => w <| w_heap := <[l := o]> (w_heap w) |>).

Definition load_bytes (l : nat) : M bytes :=
  o ← load l; match o with OBytes b => mret b | _ => undef end.
Definition load_words (l : nat) : M (list Z) :=
  o ← load l; match o with OWords b => mret b | _ => undef end.
Definition load_grep (l : nat) : M custom_grep_ctx :=
  o ← load l; match o with OGrep c => mret c | _ => undef end.
Definition load_echo (l : nat) : M custom_ctx :=
  o ← load l; match o with OEcho c => mret c | _ => undef end.
Definition load_heaan (l : nat) : M heaan_ctx :=
  o ← load l; match o with OHeaan c => mret c | _ => undef end.
Definition load_unmap (l : nat) : M nvmf_bdev_ctrlr_unmap_ctx :=
  o ← load l; match o with OUnmap c => mret c | _ => undef end.

(** [memcpy (p + off, src, length src)] into an allocated buffer: undefined
    outside it. *)
Definition heap_memcpy (l off : nat) (src : bytes) : M unit :=
  b ← load_bytes l;
  massert (off + length src <=? length b)%nat;;
  store l (OBytes (splice off src b)).

(** [enum spdk_nvmf_request_exec_status] *)
Inductive exec_status :=
| SPDK_NVMF_REQUEST_EXEC_STATUS_COMPLETE
| SPDK_NVMF_REQUEST_EXEC_STATUS_ASYNCHRONOUS.
#[global] Instance exec_status_eq_dec : EqDecision exec_status.
Proof. solve_decision. Defined.
Abbreviation COMPLETE := SPDK_NVMF_REQUEST_EXEC_STATUS_COMPLETE.
Abbreviation ASYNCHRONOUS := SPDK_NVMF_REQUEST_EXEC_STATUS_ASYNCHRONOUS.

(** The elements of the request's vector in use: [iov[0..iovcnt)]. *)
Definition req_iovs (r : spdk_nvmf_request) : list iovec := take (Z.to_nat (req_iovcnt r)) (req_iov r).

(** ** Reasoning about handlers *)

(** [wp m w Q]: running [m] in [w] is defined and its result satisfies [Q]. *)
Definition wp {A} (m : M A) (w : world) (Q : A -> world -> Prop) : Prop :=
  match m w with Ret a w' => Q a w' | Undef => False end.

Lemma wp_ret_iff {A} (m : M A) w Q : wp m w Q <-> exists a w', m w = Ret a w' /\ Q a w'.
Proof.
  unfold wp. destruct (m w) as [a w'|]; [|by split; [|intros (?&?&?&?)]].
  split; [by exists a, w'|]. intros (?&?&[= -> ->]&?). done.
Qed.

Section Wp.
Context {A B : Type} (w : world).
Implicit Types (Q : A -> world -> Prop).

Lemma wp_bind (m : M B) (k : B -> M A) Q :
  wp m w (fun b w' => wp (k b) w' Q) -> wp (m ≫= k) w Q.
Proof. unfold wp, mbind, M_bind. by destruct (m w). Qed.
Lemma wp_unbind (m : M B) (k : B -> M A) Q :
  wp (m ≫= k) w Q -> wp m w (fun b w' => wp (k b) w' Q).
Proof. unfold wp, mbind, M_bind. by destruct (m w). Qed.
Lemma wp_mret (a : A) Q : Q a w -> wp (mret a) w Q.
Proof. done. Qed.
Lemma wp_gets (f : world -> A) Q : Q (f w) w -> wp (gets f) w Q.
Proof. done. Qed.
Lemma wp_need (o : option A) a Q : o = Some a -> Q a w -> wp (need o) w Q.
Proof. by intros ->. Qed.
Lemma wp_mono (m : M A) Q Q' : wp m w Q -> (forall a w', Q a w' -> Q' a w') -> wp m w Q'.
Proof. unfold wp. destruct (m w); naive_solver. Qed.
End Wp.

(** [stuck m w]: running [m] in [w] is undefined behaviour. *)
Definition stuck {A} (m : M A) (w : world) : Prop := m w = Undef.

Lemma stuck_head {A B} (m : M B) (k : B -> M A) w : stuck m w -> stuck (m ≫= k) w.
Proof. unfold stuck, mbind, M_bind. by intros ->. Qed.
Lemma stuck_bind {A B} (m : M B) (k : B -> M A) w :
  wp m w (fun b w' => stuck (k b) w') -> stuck (m ≫= k) w.
Proof. unfold stuck, wp, mbind, M_bind. by destruct (m w). Qed.
Lemma stuck_massert {A} b (k : unit -> M A) w : b = false -> stuck (massert b ≫= k) w.
Proof. by intros ->. Qed.

Lemma wp_massert b w (Q : unit -> world -> Prop) : b = true -> Q tt w -> wp (massert b) w Q.
Proof. by intros ->. Qed.
Lemma wp_modify f w (Q : unit -> world -> Prop) : Q tt (f w) -> wp (modify f) w Q.
Proof. done. Qed.
Lemma wp_get_req rid r w Q : w_reqs w !! rid = Some r -> Q r w -> wp (get_req rid) w Q.
Proof. intros H ?. unfold wp, get_req, mbind, M_bind. cbn. by rewrite H. Qed.
Lemma wp_mod_req rid f r w (Q : unit -> world -> Prop) : w_reqs w !! rid = Some r ->
  Q tt (w <| w_reqs := <[rid := f r]> (w_reqs w) |>) -> wp (mod_req rid f) w Q.
Proof. intros H ?. unfold wp, mod_req, get_req, mbind, M_bind. cbn. by rewrite H. Qed.
Lemma wp_get_qpair q qp w Q : w_qpairs w !! q = Some qp -> Q qp w -> wp (get_qpair q) w Q.
Proof. intros H ?. unfold wp, get_qpair, mbind, M_bind. cbn. by rewrite H. Qed.
Lemma wp_mod_qpair q f qp w (Q : unit -> world -> Prop) : w_qpairs w !! q = Some qp ->
  Q tt (w <| w_qpairs := <[q := f qp]> (w_qpairs w) |>) -> wp (mod_qpair q f) w Q.
Proof. intros H ?. unfold wp, mod_qpair, get_qpair, mbind, M_bind. cbn. by rewrite H. Qed.
Lemma wp_get_ctrlr c ct w Q : w_ctrlrs w !! c = Some ct -> Q ct w -> wp (get_ctrlr c) w Q.
Proof. intros H ?. unfold wp, get_ctrlr, mbind, M_bind. cbn. by rewrite H. Qed.
Lemma wp_load l o w Q : w_heap w !! l = Some o -> Q o w -> wp (load l) w Q.
Proof. intros H ?. unfold wp, load, mbind, M_bind. cbn. by rewrite H. Qed.
Lemma wp_store l o0 o w (Q : unit -> world -> Prop) : w_heap w !! l = Some o0 ->
  Q tt (w <| w_heap := <[l := o]> (w_heap w) |>) -> wp (store l o) w Q.
Proof. intros H ?. unfold wp, store, load, mbind, M_bind. cbn. by rewrite H. Qed.
Lemma wp_free l o w (Q : unit -> world -> Prop) : w_heap w !! l = Some o ->
  Q tt (w <| w_heap := delete l (w_heap w) |>) -> wp (free (Some l)) w Q.
Proof. intros H ?. unfold wp, free, mbind, M_bind. cbn. by rewrite H. Qed.

Lemma wp_mod_status rid f r w (Q : unit -> world -> Prop) : w_reqs w !! rid = Some r ->
  Q tt (w <| w_reqs := <[rid := r <| req_rsp := (req_rsp r) <| status := f (status (req_rsp r)) |> |>]>
            (w_reqs w) |>) -> wp (mod_status rid f) w Q.
Proof. intros H HQ. unfold mod_status. by eapply wp_mod_req. Qed.

(** Assigning both parts of a status. *)
Definition with_status (sct' sc' : Z) (r : spdk_nvmf_request) : spdk_nvmf_request :=
  r <| req_rsp := (req_rsp r) <| status := (status (req_rsp r)) <| sct := sct' |> <| sc := sc' |> |> |>.

Lemma wp_set_status rid sct' sc' r w (Q : unit -> world -> Prop) : w_reqs w !! rid = Some r ->
  Q tt (w <| w_reqs := <[rid := with_status sct' sc' r]> (w_reqs w) |>) ->
  wp (set_status rid sct' sc') w Q.
Proof.
  intros H HQ. unfold set_status, set_sct, set_sc. apply wp_bind. eapply wp_mod_status; [done|].
  eapply wp_mod_status. { cbn. apply lookup_insert_eq. }
  cbn in *. by rewrite insert_insert_eq.
Qed.

Lemma wp_load_bytes l b w Q : w_heap w !! l = Some (OBytes b) -> Q b w -> wp (load_bytes l) w Q.
Proof. intros H ?. unfold load_bytes. apply wp_bind. eapply wp_load; done. Qed.
Lemma wp_load_words l b w Q : w_heap w !! l = Some (OWords b) -> Q b w -> wp (load_words l) w Q.
Proof. intros H ?. unfold load_words. apply wp_bind. eapply wp_load; done. Qed.
Lemma wp_load_grep l b w Q : w_heap w !! l = Some (OGrep b) -> Q b w -> wp (load_grep l) w Q.
Proof. intros H ?. unfold load_grep. apply wp_bind. eapply wp_load; done. Qed.
Lemma wp_load_echo l b w Q : w_heap w !! l = Some (OEcho b) -> Q b w -> wp (load_echo l) w Q.
Proof. intros H ?. unfold load_echo. apply wp_bind. eapply wp_load; done. Qed.
Lemma wp_load_heaan l b w Q : w_heap w !! l = Some (OHeaan b) -> Q b w -> wp (load_heaan l) w Q.
Proof. intros H ?. unfold load_heaan. apply wp_bind. eapply wp_load; done. Qed.
Lemma wp_load_unmap l b w Q : w_heap w !! l = Some (OUnmap b) -> Q b w -> wp (load_unmap l) w Q.
Proof. intros H ?. unfold load_unmap. apply wp_bind. eapply wp_load; done. Qed.

Lemma wp_heap_memcpy l off src b w (Q : unit -> world -> Prop) :
  w_heap w !! l = Some (OBytes b) -> (off + length src <= length b)%nat ->
  Q tt (w <| w_heap := <[l := OBytes (splice off src b)]> (w_heap w) |>) ->
  wp (heap_memcpy l off src) w Q.
Proof.
  intros H Hl HQ. unfold heap_memcpy. apply wp_bind. eapply wp_load_bytes; [done|]. apply wp_bind, wp_massert.
  { by apply Nat.leb_le. }
  by eapply wp_store.
Qed.

Lemma wp_malloc_some o w (Q : option nat -> world -> Prop) :
  w_malloc w = [] ->
  Q (Some (w_next w))
    (w <| w_heap := <[w_next w := o]> (w_heap w) |> <| w_next := S (w_next w) |>) ->
  wp (malloc o) w Q.
Proof. intros H HQ. destruct w; cbn in *. by subst. Qed.

(** Reduction of field accesses of updated records, and nothing else. *)
Ltac wsimp := cbn [set fst snd
  w_reqs w_qpairs w_ctrlrs w_subsys w_sgroup w_heap w_next w_malloc w_ios w_mgmt w_disk
  w_completed_nvme_io w_pending_bdev_io w_log
  req_qpair req_length req_xfer req_first_fused req_zcopy_phase req_iovcnt req_cmd req_rsp
  req_memory_domain req_accel_sequence req_iov req_first_fused_req req_cmd_cb_fn
  req_zcopy_bdev_io req_connect_sgroup
  qp_state qp_qid qp_ctrlr qp_first_fused_req qp_outstanding qp_state_cb
  qp_disable_command_passthru qp_transport_zcopy
  status sc sct st_p crd st_m dnr cdw0 sqid cpl_cid with_status
  sg_ns_info sg_state sg_mgmt_io_outstanding sg_cb_fn sg_queued
  ni_channel ni_rtype ni_holder_id ni_reg_hostid ni_io_outstanding ni_state
  per_thread_cache_count bdev_io_cache_size bdev_io_pool io_wait_queue
  io_type io_desc io_cb io_arg io_buf io_fused_buf io_offset_blocks io_num_blocks
  io_src_offset_blocks io_populate io_commit io_start io_iovs io_cmd io_bio_cb_arg io_status
  io_nvme_cdw0 io_nvme_sct io_nvme_sc
  hc_input_0_buffer hc_input_1_buffer hc_target_buffer hc_pending_fills hc_input_0_total_size
  hc_input_1_total_size hc_input_0_start_offset hc_input_1_start_offset
  hc_target_extents_count hc_target_ext hc_req hc_desc
  ec_first_result ec_first_result_len ec_req ec_desc gc_keyword gc_keyword_len gc_req
  uc_req uc_count uc_desc uc_bdev uc_range_index].

(** Solve a lookup side condition. *)
Ltac wlookup := wsimp; first [eassumption | by simplify_map_eq | by rewrite ?lookup_insert_eq].

(** One step of symbolic execution of a handler. *)
Ltac wstep :=
  lazymatch goal with
  | |- wp (mbind _ _) _ _ => apply wp_bind
  | |- wp (mret _) _ _ => apply wp_mret
  | |- wp (gets _) _ _ => apply wp_gets
  | |- wp (modify _) _ _ => apply wp_modify
  | |- wp (emit _) _ _ => apply wp_modify
  | |- wp (mod_sgroup _) _ _ => apply wp_modify
  | |- wp (need (Some _)) _ _ => eapply wp_need; [reflexivity|]
  | |- wp (need _) _ _ => eapply wp_need; [wlookup|]
  | |- wp (massert true) _ _ => apply wp_massert; [reflexivity|]
  | |- wp (get_req _) _ _ => eapply wp_get_req; [wlookup|]
  | |- wp (put_req _ _) _ _ => apply wp_modify
  | |- wp (mod_req _ _) _ _ => eapply wp_mod_req; [wlookup|]
  | |- wp (mod_status _ _) _ _ => eapply wp_mod_status; [wlookup|]
  | |- wp (set_sc _ _) _ _ => eapply wp_mod_status; [wlookup|]
  | |- wp (set_sct _ _) _ _ => eapply wp_mod_status; [wlookup|]
  | |- wp (set_dnr _ _) _ _ => eapply wp_mod_status; [wlookup|]
  | |- wp (set_cdw0 _ _) _ _ => eapply wp_mod_req; [wlookup|]
  | |- wp (set_status _ _ _) _ _ => eapply wp_set_status; [wlookup|]
  | |- wp (get_qpair _) _ _ => eapply wp_get_qpair; [wlookup|]
  | |- wp (mod_qpair _ _) _ _ => eapply wp_mod_qpair; [wlookup|]
  | |- wp (get_ctrlr _) _ _ => eapply wp_get_ctrlr; [wlookup|]
  | |- wp (load _) _ _ => eapply wp_load; [wlookup|]
  | |- wp (store _ _) _ _ => eapply wp_store; [wlookup|]
  | |- wp (load_bytes _) _ _ => eapply wp_load_bytes; [wlookup|]
  | |- wp (load_words _) _ _ => eapply wp_load_words; [wlookup|]
  | |- wp (load_grep _) _ _ => eapply wp_load_grep; [wlookup|]
  | |- wp (load_echo _) _ _ => eapply wp_load_echo; [wlookup|]
  | |- wp (load_heaan _) _ _ => eapply wp_load_heaan; [wlookup|]
  | |- wp (load_unmap _) _ _ => eapply wp_load_unmap; [wlookup|]
  | |- wp (free None) _ _ => apply wp_mret
  | |- wp (free (Some _)) _ _ => eapply wp_free; [wlookup|]
  end; cbv beta iota; wsimp.
Ltac wsteps := repeat wstep.
Ltac sstep := apply stuck_bind; wstep.
Ltac ssteps := repeat sstep.

(** ** A small target, for evaluating the definitions *)

Definition demo_bdev : spdk_bdev :=
  Bdev 512 8 1 0 false 0 false 512 1 0 8 (fun _ => true).
Definition demo_desc : spdk_bdev_desc := BdevDesc demo_bdev true.
Definition demo_cmd (opcode c10 c11 c12 : Z) : spdk_nvme_cmd :=
  NvmeCmd opcode 0 7 1 0 0 c10 c11 c12 0 0 0.
Definition demo_req (cmd : spdk_nvme_cmd) (iovs : list iovec) : spdk_nvmf_request :=
  NvmfReq 0 (blen (flat iovs)) SPDK_NVME_DATA_NONE false NVMF_ZCOPY_PHASE_NONE
    (Z.of_nat (length iovs)) cmd cpl_zero None None iovs None false None false.
(** One I/O queue pair of one controller, one active namespace of eight
    blocks, requests [0, 1, ...]. *)
Definition demo_world (reqs : list spdk_nvmf_request) (out : list nat) (io : Z)
    (st : spdk_nvmf_subsystem_state) (disk : bytes) : world :=
  World (map_seq 0 reqs)
    {[ 0%nat := NvmfQpair SPDK_NVMF_QPAIR_ENABLED 1 (Some 0%nat) None out false false false ]}
    {[ 0%nat := NvmfCtrlr 1 1 true [true] (Some [SPDK_NVME_ANA_OPTIMIZED_STATE]) true true true true true ]}
    (NvmfSubsys [Some (NvmfNs 1 (Some demo_bdev) demo_desc false)] false 0 0)
    (SubsysPg [PgNsInfo true 0 0 [] io st] st 0 true []) ∅ 0 [] ∅ (MgmtCh 4 4 4 []) disk 0 0 [].
