(* ===== verification/Request.v ===== *)
(** * Life of a request: [spdk/lib/nvmf/ctrlr.c], admission and completion

    [nvmf_check_subsystem_active] and [nvmf_check_qpair_active] let a request
    in and count it; [_nvmf_request_complete] hands its response to the
    transport, takes it off the queue pair and uncounts it, which may finish
    a pause of the subsystem. *)
From S2P Require Import Prelude NvmeSpec Iov World.

Definition nvmf_qpair_is_admin_queue (qp : spdk_nvmf_qpair) : bool := qp_qid qp =? 0.

Definition nvmf_request_is_fabric_connect (r : spdk_nvmf_request) : bool :=
  (opc (req_cmd r) =? SPDK_NVME_OPC_FABRIC)
  && (fctype (req_cmd r) =? SPDK_NVMF_FABRIC_COMMAND_CONNECT).

(** [TAILQ_REMOVE (&qpair->outstanding, req, link)]: undefined when the
    request is not on the list. *)
Definition outstanding_remove (q rid : nat) : M unit :=
  qp ← get_qpair q;
  massert (bool_decide (rid ∈ qp_outstanding qp));;
  mod_qpair q (fun qp => qp <| qp_outstanding := filter (fun r => r <> rid) (qp_outstanding qp) |>).

Definition outstanding_insert (q rid : nat) : M unit :=
  mod_qpair q (fun qp => qp <| qp_outstanding := qp_outstanding qp ++ [rid] |>).

Definition nvmf_qpair_request_cleanup (q : nat) : M unit :=
  qp ← get_qpair q;
  if bool_decide (qp_state qp = SPDK_NVMF_QPAIR_DEACTIVATING) then
    massert (qp_state_cb qp);;
    if bool_decide (qp_outstanding qp = []) then emit (EvQpairDrained q) else mret tt
  else mret tt.

Definition spdk_nvmf_request_free (rid : nat) : M unit :=
  r ← get_req rid;
  outstanding_remove (req_qpair r) rid;;
  nvmf_qpair_request_cleanup (req_qpair r).

(** Whether a namespace still holds back the pause of its group. *)
Definition ns_blocks_pause (n : spdk_nvmf_subsystem_pg_ns_info) : bool :=
  bool_decide (ni_state n = SPDK_NVMF_SUBSYSTEM_PAUSING) && (0 <? ni_io_outstanding n).

Definition ni_dec (n : spdk_nvmf_subsystem_pg_ns_info) : spdk_nvmf_subsystem_pg_ns_info :=
  n <| ni_io_outstanding := u64 (ni_io_outstanding n - 1) |>.
Definition ni_inc (n : spdk_nvmf_subsystem_pg_ns_info) : spdk_nvmf_subsystem_pg_ns_info :=
  n <| ni_io_outstanding := u64 (ni_io_outstanding n + 1) |>.

(** The last part of [_nvmf_request_complete]: uncount the request and, if
    the group is pausing and nothing holds it back, report it paused. *)
Definition sgroup_uncount (is_mgmt end_of_request : bool) (nsid : Z) : M unit :=
  sg ← gets w_sgroup;
  (if is_mgmt then
     massert (0 <? sg_mgmt_io_outstanding sg);;
     mod_sgroup (fun g => g <| sg_mgmt_io_outstanding := u64 (sg_mgmt_io_outstanding g - 1) |>)
   else if end_of_request && (u32 (nsid - 1) <? sg_num_ns sg) then
     mod_sgroup (fun g =>
       g <| sg_ns_info := alter ni_dec (Z.to_nat (u32 (nsid - 1))) (sg_ns_info g) |>)
   else mret tt);;
  sg ← gets w_sgroup;
  if bool_decide (sg_state sg = SPDK_NVMF_SUBSYSTEM_PAUSING) && (sg_mgmt_io_outstanding sg =? 0) then
    if existsb ns_blocks_pause (sg_ns_info sg) then mret tt
    else
      mod_sgroup (fun g => g <| sg_state := SPDK_NVMF_SUBSYSTEM_PAUSED |>);;
      massert (sg_cb_fn sg);;
      emit EvSubsystemPaused;;
      mod_sgroup (fun g => g <| sg_cb_fn := false |>)
  else mret tt.

(** The [switch] on the zcopy phase. *)
Definition zcopy_complete_phase (rid : nat) : M unit :=
  r ← get_req rid;
  match req_zcopy_phase r with
  | NVMF_ZCOPY_PHASE_NONE => outstanding_remove (req_qpair r) rid
  | NVMF_ZCOPY_PHASE_INIT =>
      if spdk_nvme_cpl_is_error (req_rsp r) then
        mod_req rid (fun r => r <| req_zcopy_phase := NVMF_ZCOPY_PHASE_INIT_FAILED |>);;
        outstanding_remove (req_qpair r) rid
      else mod_req rid (fun r => r <| req_zcopy_phase := NVMF_ZCOPY_PHASE_EXECUTE |>)
  | NVMF_ZCOPY_PHASE_EXECUTE => mret tt
  | NVMF_ZCOPY_PHASE_END_PENDING =>
      outstanding_remove (req_qpair r) rid;;
      mod_req rid (fun r => r <| req_zcopy_phase := NVMF_ZCOPY_PHASE_COMPLETE |>)
  | NVMF_ZCOPY_PHASE_COMPLETE | NVMF_ZCOPY_PHASE_INIT_FAILED => mret tt
  end.

Definition zcopy_phase_ends (p : spdk_nvmf_zcopy_phase) : bool :=
  match p with
  | NVMF_ZCOPY_PHASE_NONE | NVMF_ZCOPY_PHASE_COMPLETE | NVMF_ZCOPY_PHASE_INIT_FAILED => true
  | _ => false
  end.

Definition _nvmf_request_complete (rid : nat) : M unit :=
  mod_req rid (fun r =>
    r <| req_rsp := (req_rsp r) <| sqid := 0 |> <| status := (status (req_rsp r)) <| st_p := 0 |> |>
                     <| cpl_cid := cid (req_cmd r) |> |>);;
  r ← get_req rid;
  let cmd := req_cmd r in
  qp ← get_qpair (req_qpair r);
  '(sgroup, is_aer) ← match qp_ctrlr qp with
    | Some c =>
        ct ← get_ctrlr c;
        (if qp_qid qp !=? 0 then
           modify (fun w => w <| w_completed_nvme_io := u64 (w_completed_nvme_io w + 1) |>)
         else mret tt);;
        (if spdk_nvme_cpl_is_error (req_rsp r) && (dnr (status (req_rsp r)) =? 0)
            && ct_acre_enabled ct
         then mod_status rid (fun s => s <| crd := 1 |>) else mret tt);;
        mret (true, opc cmd =? SPDK_NVME_OPC_ASYNC_EVENT_REQUEST)
    | None => mret (nvmf_request_is_fabric_connect r && req_connect_sgroup r, false)
    end;
  zcopy_complete_phase rid;;
  r ← get_req rid;
  emit (EvReqComplete rid (req_rsp r));;
  (if sgroup && negb is_aer then
     sgroup_uncount ((opc cmd =? SPDK_NVME_OPC_FABRIC) || nvmf_qpair_is_admin_queue qp)
       (zcopy_phase_ends (req_zcopy_phase r)) (nsid cmd)
   else mret tt);;
  nvmf_qpair_request_cleanup (req_qpair r).

(** The message to the queue pair's thread, run by it at once. *)
Definition spdk_nvmf_request_complete (rid : nat) : M unit := _nvmf_request_complete rid.

(** Refusal of a request before it is executed: it is put on the outstanding
    list and completed. *)
Definition refuse (rid q : nat) (sct sc : Z) (with_dnr : bool) (count : M unit) : M bool :=
  set_status rid sct sc;;
  (if with_dnr then set_dnr rid 1 else mret tt);;
  outstanding_insert q rid;;
  count;;
  _nvmf_request_complete rid;;
  mret false.

Definition nvmf_check_subsystem_active (rid : nat) : M bool :=
  r ← get_req rid;
  qp ← get_qpair (req_qpair r);
  let sgroup := match qp_ctrlr qp with
    | Some _ => true
    | None => nvmf_request_is_fabric_connect r && req_connect_sgroup r
    end in
  if negb sgroup then mret true else
  sg ← gets w_sgroup;
  let queue := mod_sgroup (fun g => g <| sg_queued := sg_queued g ++ [rid] |>);; mret false in
  if (opc (req_cmd r) =? SPDK_NVME_OPC_FABRIC) || nvmf_qpair_is_admin_queue qp then
    if bool_decide (sg_state sg <> SPDK_NVMF_SUBSYSTEM_ACTIVE) then queue
    else
      mod_sgroup (fun g => g <| sg_mgmt_io_outstanding := u64 (sg_mgmt_io_outstanding g + 1) |>);;
      mret true
  else
    let i := u32 (nsid (req_cmd r) - 1) in
    if sg_num_ns sg <=? i then
      refuse rid (req_qpair r) SPDK_NVME_SCT_GENERIC SPDK_NVME_SC_INVALID_NAMESPACE_OR_FORMAT true
        (mret tt)
    else
      ns_info ← need (sg_ns_info sg !! Z.to_nat i);
      let count := mod_sgroup (fun g => g <| sg_ns_info := alter ni_inc (Z.to_nat i) (sg_ns_info g) |>) in
      if negb (ni_channel ns_info) then
        refuse rid (req_qpair r) SPDK_NVME_SCT_GENERIC SPDK_NVME_SC_INVALID_NAMESPACE_OR_FORMAT true
          count
      else if bool_decide (ni_state ns_info <> SPDK_NVMF_SUBSYSTEM_ACTIVE) then queue
      else count;; mret true.

Definition nvmf_check_qpair_active (rid : nat) : M bool :=
  r ← get_req rid;
  qp ← get_qpair (req_qpair r);
  let opcode := opc (req_cmd r) in
  let fct := fctype (req_cmd r) in
  let fail := fun sct sc => refuse rid (req_qpair r) sct sc false (mret tt) in
  match qp_state qp with
  | SPDK_NVMF_QPAIR_ENABLED => mret true
  | SPDK_NVMF_QPAIR_CONNECTING =>
      if opcode !=? SPDK_NVME_OPC_FABRIC then
        fail SPDK_NVME_SCT_GENERIC SPDK_NVME_SC_COMMAND_SEQUENCE_ERROR
      else if fct !=? SPDK_NVMF_FABRIC_COMMAND_CONNECT then
        fail SPDK_NVME_SCT_GENERIC SPDK_NVME_SC_COMMAND_SEQUENCE_ERROR
      else mret true
  | SPDK_NVMF_QPAIR_AUTHENTICATING =>
      if opcode !=? SPDK_NVME_OPC_FABRIC then
        fail SPDK_NVME_SCT_COMMAND_SPECIFIC SPDK_NVMF_FABRIC_SC_AUTH_REQUIRED
      else if (fct !=? SPDK_NVMF_FABRIC_COMMAND_AUTHENTICATION_SEND)
              && (fct !=? SPDK_NVMF_FABRIC_COMMAND_AUTHENTICATION_RECV) then
        fail SPDK_NVME_SCT_COMMAND_SPECIFIC SPDK_NVMF_FABRIC_SC_AUTH_REQUIRED
      else mret true
  | _ => fail SPDK_NVME_SCT_GENERIC SPDK_NVME_SC_COMMAND_SEQUENCE_ERROR
  end.

(** ** What a completion does *)

(** The counters after the request is uncounted. *)
Definition uncounted (is_mgmt ends : bool) (nsid : Z) (g : spdk_nvmf_subsystem_poll_group) :
  spdk_nvmf_subsystem_poll_group :=
  if is_mgmt then g <| sg_mgmt_io_outstanding := u64 (sg_mgmt_io_outstanding g - 1) |>
  else if ends && (u32 (nsid - 1) <? sg_num_ns g) then
    g <| sg_ns_info := alter ni_dec (Z.to_nat (u32 (nsid - 1))) (sg_ns_info g) |>
  else g.

(** Whether a pausing group has nothing left to wait for. *)
Definition pause_done (g : spdk_nvmf_subsystem_poll_group) : bool :=
  bool_decide (sg_state g = SPDK_NVMF_SUBSYSTEM_PAUSING) && (sg_mgmt_io_outstanding g =? 0)
  && negb (existsb ns_blocks_pause (sg_ns_info g)).

Definition paused (g : spdk_nvmf_subsystem_poll_group) : spdk_nvmf_subsystem_poll_group :=
  if pause_done g then g <| sg_state := SPDK_NVMF_SUBSYSTEM_PAUSED |> <| sg_cb_fn := false |> else g.

(** The response as it is handed to the transport. *)
Definition completed_rsp (acre : bool) (r : spdk_nvmf_request) : spdk_nvme_cpl :=
  let c := (req_rsp r) <| sqid := 0 |> <| status := (status (req_rsp r)) <| st_p := 0 |> |>
             <| cpl_cid := cid (req_cmd r) |> in
  if spdk_nvme_cpl_is_error c && (dnr (status c) =? 0) && acre
  then c <| status := (status c) <| crd := 1 |> |> else c.

Definition is_mgmt (qp : spdk_nvmf_qpair) (cmd : spdk_nvme_cmd) : bool :=
  (opc cmd =? SPDK_NVME_OPC_FABRIC) || nvmf_qpair_is_admin_queue qp.
Definition is_aer (cmd : spdk_nvme_cmd) : bool := opc cmd =? SPDK_NVME_OPC_ASYNC_EVENT_REQUEST.

(** What [nvmf_check_subsystem_active] and the pause protocol guarantee about
    the group when a request is completed. *)
Record group_ok (qp : spdk_nvmf_qpair) (cmd : spdk_nvme_cmd) (g : spdk_nvmf_subsystem_poll_group) : Prop := {
  go_mgmt : is_mgmt qp cmd = true -> 0 < sg_mgmt_io_outstanding g;
  go_cb : sg_state g = SPDK_NVMF_SUBSYSTEM_PAUSING -> sg_cb_fn g = true;
  go_drain : qp_state qp = SPDK_NVMF_QPAIR_DEACTIVATING -> qp_state_cb qp = true }.

(** A request [rid] of queue pair [q] that is being processed. *)
Record live_req (w : world) (rid q : nat) (r : spdk_nvmf_request) (qp : spdk_nvmf_qpair)
  (ct : spdk_nvmf_ctrlr) : Prop := {
  lr_req : w_reqs w !! rid = Some r; lr_q : req_qpair r = q;
  lr_qpair : w_qpairs w !! q = Some qp; lr_ctrlr : (qp_ctrlr qp ≫= fun c => w_ctrlrs w !! c) = Some ct;
  lr_out : rid ∈ qp_outstanding qp; lr_zcopy : req_zcopy_phase r = NVMF_ZCOPY_PHASE_NONE;
  lr_group : group_ok qp (req_cmd r) (w_sgroup w) }.

(** The fact survives changes elsewhere, and to the request's own response and
    data. *)
Lemma live_req_upd w w' rid q r r' qp ct :
  live_req w rid q r qp ct -> w_reqs w' !! rid = Some r' -> w_qpairs w' = w_qpairs w ->
  w_ctrlrs w' = w_ctrlrs w -> w_sgroup w' = w_sgroup w -> req_qpair r' = req_qpair r ->
  req_cmd r' = req_cmd r -> req_zcopy_phase r' = req_zcopy_phase r ->
  live_req w' rid q r' qp ct.
Proof.
  intros [Hr <- Hq Hc Hin Hz Hg] HR HQ HC HS Eq Ec Ez.
  split; rewrite ?HR, ?HQ, ?HC, ?HS, ?Eq, ?Ec, ?Ez; done.
Qed.

Definition group_after (qp : spdk_nvmf_qpair) (cmd : spdk_nvme_cmd) (g : spdk_nvmf_subsystem_poll_group) :
  spdk_nvmf_subsystem_poll_group :=
  if is_aer cmd then g else paused (uncounted (is_mgmt qp cmd) true (nsid cmd) g).

Definition qpair_without (rid : nat) (qp : spdk_nvmf_qpair) : spdk_nvmf_qpair :=
  qp <| qp_outstanding := filter (fun r => r <> rid) (qp_outstanding qp) |>.

(** Everything the completion of [rid] changes. *)
Definition completed_world (rid q : nat) (r : spdk_nvmf_request) (qp : spdk_nvmf_qpair)
    (ct : spdk_nvmf_ctrlr) (w : world) : world :=
  let rsp := completed_rsp (ct_acre_enabled ct) r in
  let g := uncounted (is_mgmt qp (req_cmd r)) true (nsid (req_cmd r)) (w_sgroup w) in
  w <| w_reqs := <[rid := r <| req_rsp := rsp |>]> (w_reqs w) |>
    <| w_qpairs := <[q := qpair_without rid qp]> (w_qpairs w) |>
    <| w_completed_nvme_io :=
         if qp_qid qp !=? 0 then u64 (w_completed_nvme_io w + 1) else w_completed_nvme_io w |>
    <| w_sgroup := group_after qp (req_cmd r) (w_sgroup w) |>
    <| w_log := w_log w ++ [EvReqComplete rid rsp]
         ++ (if negb (is_aer (req_cmd r)) && pause_done g then [EvSubsystemPaused] else [])
         ++ (if bool_decide (qp_state qp = SPDK_NVMF_QPAIR_DEACTIVATING)
                && bool_decide (qp_outstanding (qpair_without rid qp) = [])
             then [EvQpairDrained q] else []) |>.

Lemma outstanding_remove_wp w q qp rid (Q : unit -> world -> Prop) :
  w_qpairs w !! q = Some qp -> rid ∈ qp_outstanding qp ->
  Q tt (w <| w_qpairs := <[q := qpair_without rid qp]> (w_qpairs w) |>) ->
  wp (outstanding_remove q rid) w Q.
Proof.
  intros Hq Hin HQ. unfold outstanding_remove. wsteps. rewrite bool_decide_true by done. by wsteps.
Qed.

Lemma sgroup_uncount_wp mg ends n w (Q : unit -> world -> Prop) :
  let g := uncounted mg ends n (w_sgroup w) in
  (mg = true -> 0 < sg_mgmt_io_outstanding (w_sgroup w)) ->
  (sg_state (w_sgroup w) = SPDK_NVMF_SUBSYSTEM_PAUSING -> sg_cb_fn (w_sgroup w) = true) ->
  Q tt (w <| w_sgroup := paused g |>
          <| w_log := w_log w ++ (if pause_done g then [EvSubsystemPaused] else []) |>) ->
  wp (sgroup_uncount mg ends n) w Q.
Proof.
  intros g Hm Hcb HQ. unfold sgroup_uncount. wsteps.
  assert (wp (gets w_sgroup ≫= fun sg =>
     if bool_decide (sg_state sg = SPDK_NVMF_SUBSYSTEM_PAUSING) && (sg_mgmt_io_outstanding sg =? 0) then
       if existsb ns_blocks_pause (sg_ns_info sg) then mret tt
       else
         mod_sgroup (fun g => g <| sg_state := SPDK_NVMF_SUBSYSTEM_PAUSED |>);;
         massert (sg_cb_fn sg);;
         emit EvSubsystemPaused;;
         mod_sgroup (fun g => g <| sg_cb_fn := false |>)
     else mret tt) (w <| w_sgroup := g |>) Q) as Hrest.
  { wsteps. assert (sg_cb_fn g = sg_cb_fn (w_sgroup w) /\ sg_state g = sg_state (w_sgroup w)) as [Eg Es].
    { subst g. unfold uncounted. by repeat case_match. }
    unfold paused, pause_done in HQ. rewrite <- Es, <- Eg in Hcb.
    destruct (bool_decide (sg_state g = SPDK_NVMF_SUBSYSTEM_PAUSING)
              && (sg_mgmt_io_outstanding g =? 0)) eqn:E; cbn [andb] in HQ.
    - apply andb_true_iff in E as [E _]. apply bool_decide_eq_true_1 in E.
      destruct (existsb _ _); cbn [negb] in HQ; wsteps.
      + by rewrite app_nil_r in HQ; destruct w.
      + rewrite Hcb by done. wsteps. done.
    - wsteps. by rewrite app_nil_r in HQ; destruct w. }
  subst g. unfold uncounted in *. destruct mg.
  - wstep. apply wp_massert. { apply Z.ltb_lt. auto. } wsteps. done.
  - destruct (_ && _); wsteps; [done|]. by destruct w.
Qed.

Lemma request_cleanup_wp w q qp (Q : unit -> world -> Prop) :
  w_qpairs w !! q = Some qp ->
  (qp_state qp = SPDK_NVMF_QPAIR_DEACTIVATING -> qp_state_cb qp = true) ->
  Q tt (w <| w_log := w_log w ++
     (if bool_decide (qp_state qp = SPDK_NVMF_QPAIR_DEACTIVATING)
         && bool_decide (qp_outstanding qp = []) then [EvQpairDrained q] else []) |>) ->
  wp (nvmf_qpair_request_cleanup q) w Q.
Proof.
  intros Hq Hcb HQ. unfold nvmf_qpair_request_cleanup. wsteps.
  assert (Hid : forall w : world, w <| w_log := w_log w ++ [] |> = w).
  { intros []. cbn. by rewrite app_nil_r. }
  case_bool_decide; cbn [andb] in *; [|wsteps; by rewrite Hid in HQ].
  rewrite Hcb by done. wsteps. case_bool_decide; wsteps; [done|]. by rewrite Hid in HQ.
Qed.

(** The part after the response is stamped. *)
Lemma complete_tail_wp w rid r qp cmd (Q : unit -> world -> Prop) :
  w_reqs w !! rid = Some r -> req_cmd r = cmd -> w_qpairs w !! req_qpair r = Some qp -> rid ∈ qp_outstanding qp ->
  req_zcopy_phase r = NVMF_ZCOPY_PHASE_NONE -> group_ok qp cmd (w_sgroup w) ->
  Q tt (w <| w_qpairs := <[req_qpair r := qpair_without rid qp]> (w_qpairs w) |>
          <| w_sgroup := group_after qp cmd (w_sgroup w) |>
          <| w_log := w_log w ++ [EvReqComplete rid (req_rsp r)]
               ++ (if negb (is_aer cmd) && pause_done
                        (uncounted (is_mgmt qp cmd) true (nsid cmd) (w_sgroup w))
                   then [EvSubsystemPaused] else [])
               ++ (if bool_decide (qp_state qp = SPDK_NVMF_QPAIR_DEACTIVATING)
                      && bool_decide (qp_outstanding (qpair_without rid qp) = [])
                   then [EvQpairDrained (req_qpair r)] else []) |>) ->
  wp (zcopy_complete_phase rid;;
      r0 ← get_req rid;
      emit (EvReqComplete rid (req_rsp r0));;
      (if true && negb (is_aer cmd) then
         sgroup_uncount (is_mgmt qp cmd) (zcopy_phase_ends (req_zcopy_phase r0)) (nsid cmd)
       else mret tt);;
      nvmf_qpair_request_cleanup (req_qpair r0)) w Q.
Proof.
  intros Hr <- Hq Hin Hz [Hm Hcb Hd] HQ. unfold zcopy_complete_phase. wsteps. rewrite Hz.
  eapply outstanding_remove_wp; [done..|]. wsteps. rewrite Hz. cbn [zcopy_phase_ends andb].
  unfold group_after in HQ. destruct (is_aer (req_cmd r)); cbn [negb andb] in *; wsteps.
  2: apply sgroup_uncount_wp; wsimp; [done..|].
  all: eapply request_cleanup_wp; [wlookup|done|].
  all: wsimp; cbn [app] in HQ; by rewrite <- ?app_assoc in *.
Qed.

Lemma request_complete_wp w rid q r qp ct (Q : unit -> world -> Prop) :
  live_req w rid q r qp ct -> Q tt (completed_world rid q r qp ct w) ->
  wp (_nvmf_request_complete rid) w Q.
Proof.
  intros [Hr <- Hq Hc Hin Hz Hg] HQ. destruct (qp_ctrlr qp) as [c|] eqn:Ec; cbn in Hc; [|done].
  unfold _nvmf_request_complete. wsteps. rewrite Ec. wsteps.
  unfold completed_world, completed_rsp in HQ. cbv zeta in HQ. wsimp. revert HQ. wsimp.
  destruct (qp_qid qp !=? 0), (_ && ct_acre_enabled ct); intros HQ; wsteps.
  all: apply wp_unbind; eapply (complete_tail_wp _ _ _ qp (req_cmd r)); [wlookup|wsimp; done..|].
  all: wsimp; by rewrite ?insert_insert_eq.
Qed.

Lemma completed_world_log rid q r qp ct w :
  answers_only w (completed_world rid q r qp ct w) [(rid, completed_rsp (ct_acre_enabled ct) r)].
Proof. eexists. split; [reflexivity|]. by repeat case_match. Qed.

(** The rest of the target is untouched. *)
Lemma completed_world_reqs rid q r qp ct w :
  w_reqs (completed_world rid q r qp ct w) !! rid = Some (r <| req_rsp := completed_rsp (ct_acre_enabled ct) r |>).
Proof. unfold completed_world. wsimp. apply lookup_insert_eq. Qed.
Lemma completed_world_frame rid q r qp ct w : let w' := completed_world rid q r qp ct w in
  w_heap w' = w_heap w /\ w_ios w' = w_ios w /\ w_disk w' = w_disk w /\ w_mgmt w' = w_mgmt w /\ w_next w' = w_next w.
Proof. done. Qed.

(** Another request of the queue pair is not disturbed. *)
Lemma live_after_complete w a b q ra rb qp ct ct' :
  live_req w a q ra qp ct -> live_req w b q rb qp ct' -> a <> b -> is_mgmt qp (req_cmd rb) = false ->
  live_req (completed_world a q ra qp ct w) b q rb (qpair_without a qp) ct'.
Proof.
  intros [Ha <- Hq Hc Hin Hz Hg] [Hb Eq Hq' Hc' Hin' Hz' [_ Hcb Hd]] Hne Hm.
  unfold completed_world. split; wsimp; try done.
  - by rewrite lookup_insert_ne.
  - by rewrite lookup_insert_eq.
  - wsimp. apply list_elem_of_filter. split; [congruence|done].
  - split; [|clear Hz Hz'|done].
    + change (is_mgmt (qpair_without a qp) (req_cmd rb)) with (is_mgmt qp (req_cmd rb)). by rewrite Hm.
    + unfold group_after, paused, uncounted. repeat case_match; wsimp; done.
Qed.

(** ** Accounting of outstanding I/O *)

(** Whether request [rid] is an I/O request of namespace [i + 1] that is on
    the outstanding list of its queue pair. *)
Definition counts (w : world) (i : nat) (kv : nat * spdk_nvmf_request) : bool :=
  match w_qpairs w !! req_qpair kv.2 with
  | Some qp =>
      bool_decide (kv.1 ∈ qp_outstanding qp) && negb (is_mgmt qp (req_cmd kv.2))
      && (Z.to_nat (u32 (nsid (req_cmd kv.2) - 1)) =? i)%nat
  | None => false
  end.
Definition outstanding_io (w : world) (i : nat) : gmap nat spdk_nvmf_request :=
  filter (fun kv => counts w i kv = true) (w_reqs w).

(** The counter of each namespace is the number of its outstanding requests. *)
Definition accounted (w : world) : Prop :=
  Z.of_nat (size (w_reqs w)) < 2 ^ 64 /\
  forall i n, sg_ns_info (w_sgroup w) !! i = Some n ->
    ni_io_outstanding n = Z.of_nat (size (outstanding_io w i)).

Lemma not_in_qpair_without rid qp : rid ∉ qp_outstanding (qpair_without rid qp).
Proof. unfold qpair_without. wsimp. rewrite list_elem_of_filter. tauto. Qed.
Lemma in_qpair_without x rid qp : x <> rid ->
  x ∈ qp_outstanding (qpair_without rid qp) <-> x ∈ qp_outstanding qp.
Proof. unfold qpair_without. wsimp. rewrite list_elem_of_filter. tauto. Qed.

Lemma size_outstanding_io w i : (size (outstanding_io w i) <= size (w_reqs w))%nat.
Proof. apply map_subseteq_size, map_filter_subseteq. Qed.

Lemma outstanding_io_lookup w i x :
  outstanding_io w i !! x = (r ← w_reqs w !! x; if counts w i (x, r) then Some r else None).
Proof.
  unfold outstanding_io. rewrite map_lookup_filter. destruct (w_reqs w !! x) as [r|]; [|done].
  cbn. by destruct (counts _ _ _).
Qed.

(** What one request contributes to the outstanding requests. *)
Lemma outstanding_io_complete w w' rid q r r' qp i :
  w_reqs w !! rid = Some r -> req_qpair r = q -> w_qpairs w !! q = Some qp ->
  req_qpair r' = q ->
  w_reqs w' = <[rid := r']> (w_reqs w) -> w_qpairs w' = <[q := qpair_without rid qp]> (w_qpairs w) ->
  outstanding_io w' i = delete rid (outstanding_io w i).
Proof.
  intros Hr Eq Hq Eq' HR HQ. apply map_eq. intros x. rewrite outstanding_io_lookup, HR.
  destruct (decide (x = rid)) as [->|Hx].
  - rewrite lookup_delete_eq, lookup_insert_eq. cbn. unfold counts. cbn.
    rewrite HQ, Eq', lookup_insert_eq. by rewrite bool_decide_false by apply not_in_qpair_without.
  - rewrite lookup_delete_ne, outstanding_io_lookup, lookup_insert_ne by done.
    destruct (w_reqs w !! x) as [y|]; [|done]. cbn. unfold counts. cbn. rewrite HQ.
    destruct (decide (req_qpair y = q)) as [->|]; [|by rewrite lookup_insert_ne].
    rewrite lookup_insert_eq, Hq.
    by rewrite (bool_decide_ext (x ∈ qp_outstanding (qpair_without rid qp)) (x ∈ qp_outstanding qp))
      by (by apply in_qpair_without).
Qed.

Lemma group_after_ns_info qp cmd g :
  is_aer cmd = false ->
  sg_ns_info (group_after qp cmd g) =
    if is_mgmt qp cmd then sg_ns_info g
    else if u32 (nsid cmd - 1) <? sg_num_ns g
    then alter ni_dec (Z.to_nat (u32 (nsid cmd - 1))) (sg_ns_info g) else sg_ns_info g.
Proof.
  intros E. unfold group_after. rewrite E. unfold paused, uncounted. cbn [andb].
  by repeat case_match.
Qed.

Lemma counts_live w rid q r qp ct i : live_req w rid q r qp ct ->
  counts w i (rid, r)
  = negb (is_mgmt qp (req_cmd r)) && (Z.to_nat (u32 (nsid (req_cmd r) - 1)) =? i)%nat.
Proof.
  intros [Hr <- Hq _ Hin _ _]. unfold counts. cbn. by rewrite Hq, bool_decide_true.
Qed.

Lemma accounted_completed w rid q r qp ct :
  live_req w rid q r qp ct -> is_aer (req_cmd r) = false -> accounted w ->
  accounted (completed_world rid q r qp ct w).
Proof.
  intros HL Ha [Hsz Hacc]. pose proof HL as [Hr Eq Hq _ Hin _ _]. split.
  { unfold completed_world. wsimp. by rewrite map_size_insert_Some by eauto. }
  intros i n.
  change (w_sgroup (completed_world rid q r qp ct w)) with (group_after qp (req_cmd r) (w_sgroup w)). rewrite group_after_ns_info by done.
  rewrite (outstanding_io_complete w _ rid q r (r <| req_rsp := completed_rsp (ct_acre_enabled ct) r |>) qp)
    by done.
  pose proof (counts_live _ _ _ _ _ _ i HL) as Hc. intros Hn.
  assert (Hlk : outstanding_io w i !! rid
    = if counts w i (rid, r) then Some r else None).
  { by rewrite outstanding_io_lookup, Hr. }
  rewrite Hc in Hlk. destruct (is_mgmt qp (req_cmd r)); cbn [negb andb] in *.
  { rewrite delete_id by done. auto. }
  pose proof (u32_range (nsid (req_cmd r) - 1)) as Hu. revert Hlk.
  destruct (u32 (nsid (req_cmd r) - 1) <? sg_num_ns (w_sgroup w)) eqn:Elt.
  - destruct (Nat.eqb_spec (Z.to_nat (u32 (nsid (req_cmd r) - 1))) i) as [<-|Hne]; intros Hlk.
    + rewrite list_lookup_alter_eq in Hn. apply fmap_Some in Hn as (n0&Hn0&->).
      rewrite map_size_delete_Some by eauto. unfold ni_dec. wsimp. rewrite (Hacc _ _ Hn0).
      pose proof (size_outstanding_io w (Z.to_nat (u32 (nsid (req_cmd r) - 1)))).
      assert (size (outstanding_io w (Z.to_nat (u32 (nsid (req_cmd r) - 1)))) <> 0)%nat.
      { intros E0. apply map_size_empty_inv in E0. by rewrite E0 in Hlk. }
      rewrite u64_small; lia.
    + rewrite list_lookup_alter_ne in Hn by done. rewrite delete_id by done. auto.
  - rewrite (Hacc _ _ Hn). apply lookup_lt_Some in Hn. unfold sg_num_ns in Elt.
    destruct (Nat.eqb_spec (Z.to_nat (u32 (nsid (req_cmd r) - 1))) i); [lia|].
    intros Hlk. by rewrite delete_id.
Qed.

Definition qpair_with (rid : nat) (qp : spdk_nvmf_qpair) : spdk_nvmf_qpair :=
  qp <| qp_outstanding := qp_outstanding qp ++ [rid] |>.

Lemma outstanding_io_enqueue w w' rid q r r' qp i :
  w_reqs w !! rid = Some r -> req_qpair r = q -> w_qpairs w !! q = Some qp ->
  rid ∉ qp_outstanding qp -> req_qpair r' = q -> req_cmd r' = req_cmd r ->
  w_reqs w' = <[rid := r']> (w_reqs w) -> w_qpairs w' = <[q := qpair_with rid qp]> (w_qpairs w) ->
  size (outstanding_io w' i) =
    ((if negb (is_mgmt qp (req_cmd r)) && (Z.to_nat (u32 (nsid (req_cmd r) - 1)) =? i)%nat
      then 1 else 0) + size (outstanding_io w i))%nat.
Proof.
  intros Hr Eq Hq Hin Eq' Ec HR HQ.
  set (b := negb _ && _).
  assert (Hnone : outstanding_io w i !! rid = None).
  { rewrite outstanding_io_lookup, Hr. cbn. unfold counts. cbn. by rewrite Eq, Hq, bool_decide_false. }
  enough (outstanding_io w' i = if b then <[rid := r']> (outstanding_io w i) else outstanding_io w i) as ->.
  { destruct b; [|done]. by rewrite map_size_insert_None. }
  apply map_eq. intros x. destruct (decide (x = rid)) as [->|Hx].
  - rewrite outstanding_io_lookup, HR, lookup_insert_eq. cbn. unfold counts. cbn.
    rewrite HQ, Eq', lookup_insert_eq, Ec, bool_decide_true by (cbn; set_solver). cbn [andb].
    change (is_mgmt (qpair_with rid qp) (req_cmd r)) with (is_mgmt qp (req_cmd r)). fold b.
    destruct b; [by rewrite lookup_insert_eq|]. by rewrite Hnone.
  - transitivity (outstanding_io w i !! x); [|destruct b; by rewrite ?lookup_insert_ne].
    rewrite !outstanding_io_lookup, HR, lookup_insert_ne by done.
    destruct (w_reqs w !! x) as [v|]; [|done]. cbn. unfold counts. cbn. rewrite HQ.
    destruct (decide (req_qpair v = q)) as [->|]; [|by rewrite lookup_insert_ne].
    rewrite lookup_insert_eq, Hq. unfold qpair_with. wsimp.
    by rewrite (bool_decide_ext (x ∈ qp_outstanding qp ++ [rid]) (x ∈ qp_outstanding qp)) by set_solver.
Qed.

Lemma accounted_enqueue w w' rid q r r' qp :
  w_reqs w !! rid = Some r -> req_qpair r = q -> w_qpairs w !! q = Some qp ->
  rid ∉ qp_outstanding qp -> req_qpair r' = q -> req_cmd r' = req_cmd r ->
  w_reqs w' = <[rid := r']> (w_reqs w) -> w_qpairs w' = <[q := qpair_with rid qp]> (w_qpairs w) ->
  let k := u32 (nsid (req_cmd r) - 1) in
  sg_ns_info (w_sgroup w') =
    (if is_mgmt qp (req_cmd r) then sg_ns_info (w_sgroup w)
     else if k <? sg_num_ns (w_sgroup w)
     then alter ni_inc (Z.to_nat k) (sg_ns_info (w_sgroup w)) else sg_ns_info (w_sgroup w)) ->
  accounted w -> accounted w'.
Proof.
  intros Hr Eq Hq Hin Eq' Ec HR HQ k Hns [Hsz Hacc].
  assert (Hsz' : size (w_reqs w') = size (w_reqs w)) by (rewrite HR; apply map_size_insert_Some; eauto).
  split; [lia|]. intros i n Hn.
  pose proof (size_outstanding_io w' i) as Hle.
  pose proof (outstanding_io_enqueue w w' rid q r r' qp i Hr Eq Hq Hin Eq' Ec HR HQ) as E.
  rewrite E in *. clear HR HQ. rewrite Hns in Hn. fold k in E, Hle |- *.
  destruct (is_mgmt qp (req_cmd r)); cbn [negb andb] in *; [rewrite (Hacc _ _ Hn); lia|].
  pose proof (u32_range (nsid (req_cmd r) - 1)) as Hk. fold k in Hk.
  revert Hle. destruct (Nat.eqb_spec (Z.to_nat k) i) as [<-|Hne]; intros Hle; destruct (k <? _) eqn:Elt.
  - rewrite list_lookup_alter_eq in Hn. apply fmap_Some in Hn as (n0&Hn0&->). unfold ni_inc. wsimp.
    rewrite (Hacc _ _ Hn0), u64_small; lia.
  - apply lookup_lt_Some in Hn. unfold sg_num_ns in Elt. lia.
  - rewrite list_lookup_alter_ne in Hn by done. rewrite (Hacc _ _ Hn). lia.
  - rewrite (Hacc _ _ Hn). lia.
Qed.

(** A request that has arrived and is not yet admitted. *)
Record fresh_req (w : world) (rid q : nat) (r : spdk_nvmf_request) (qp : spdk_nvmf_qpair)
  (ct : spdk_nvmf_ctrlr) : Prop := {
  fr_req : w_reqs w !! rid = Some r; fr_q : req_qpair r = q;
  fr_qpair : w_qpairs w !! q = Some qp; fr_ctrlr : (qp_ctrlr qp ≫= fun c => w_ctrlrs w !! c) = Some ct;
  fr_out : rid ∉ qp_outstanding qp; fr_zcopy : req_zcopy_phase r = NVMF_ZCOPY_PHASE_NONE;
  fr_cb : sg_state (w_sgroup w) = SPDK_NVMF_SUBSYSTEM_PAUSING -> sg_cb_fn (w_sgroup w) = true;
  fr_drain : qp_state qp = SPDK_NVMF_QPAIR_DEACTIVATING -> qp_state_cb qp = true }.

(** The world after a request is given a status and put on the outstanding
    list, its namespace's counter raised when [cnt]. *)
Definition enqueued (cnt : bool) (rid q : nat) (r : spdk_nvmf_request) (qp : spdk_nvmf_qpair) (w : world) : world :=
  w <| w_reqs := <[rid := r]> (w_reqs w) |>
    <| w_qpairs := <[q := qpair_with rid qp]> (w_qpairs w) |>
    <| w_sgroup := if cnt then
         (w_sgroup w) <| sg_ns_info :=
            alter ni_inc (Z.to_nat (u32 (nsid (req_cmd r) - 1))) (sg_ns_info (w_sgroup w)) |>
       else w_sgroup w |>.

Lemma enqueued_live w cnt rid q r r' qp ct :
  fresh_req w rid q r qp ct -> req_qpair r' = q -> req_cmd r' = req_cmd r ->
  req_zcopy_phase r' = NVMF_ZCOPY_PHASE_NONE -> is_mgmt qp (req_cmd r) = false ->
  live_req (enqueued cnt rid q r' qp w) rid q r' (qpair_with rid qp) ct.
Proof.
  intros [Hr <- Hq Hc Hin Hz Hcb Hd] Eq Ec Ez Em. unfold enqueued. split; wsimp; try done.
  - by simplify_map_eq.
  - by simplify_map_eq.
  - set_solver.
  - split; [|by destruct cnt..]. rewrite Ec.
    change (is_mgmt (qpair_with rid qp) (req_cmd r)) with (is_mgmt qp (req_cmd r)). by rewrite Em.
Qed.

Lemma refuse_wp w rid q r qp ct (cnt : bool) sct' sc' (Q : bool -> world -> Prop) :
  fresh_req w rid q r qp ct -> is_mgmt qp (req_cmd r) = false ->
  let r' := (with_status sct' sc' r) in
  let r'' := r' <| req_rsp := (req_rsp r') <| status := (status (req_rsp r')) <| dnr := 1 |> |> |> in
  let count := mod_sgroup (fun g =>
     g <| sg_ns_info := alter ni_inc (Z.to_nat (u32 (nsid (req_cmd r) - 1))) (sg_ns_info g) |>) in
  Q false (completed_world rid q r'' (qpair_with rid qp) ct (enqueued cnt rid q r'' qp w)) ->
  wp (refuse rid q sct' sc' true (if cnt then count else mret tt)) w Q.
Proof.
  intros HF Em r' r'' count HQ. pose proof HF as [Hr <- Hq Hc Hin Hz Hcb Hd].
  assert (HL := enqueued_live w cnt rid _ r r'' qp ct HF eq_refl eq_refl Hz Em).
  unfold refuse. wsteps. unfold outstanding_insert. wsteps.
  destruct cnt; unfold count; wsteps; apply (request_complete_wp _ rid (req_qpair r) r'' (qpair_with rid qp) ct).
  all: rewrite ?insert_insert_eq; try exact HL; wsteps; try exact HQ.
  all: unfold enqueued in HL, HQ; by destruct w.
Qed.

Lemma accounted_ext w w' :
  w_reqs w' = w_reqs w -> w_qpairs w' = w_qpairs w ->
  sg_ns_info (w_sgroup w') = sg_ns_info (w_sgroup w) -> accounted w -> accounted w'.
Proof.
  intros HR HQ HN [Hsz Hacc]. split; [by rewrite HR|]. intros i n Hn. rewrite HN in Hn.
  rewrite (Hacc _ _ Hn). unfold outstanding_io, counts. by rewrite HR, HQ.
Qed.

(** A change of a request that leaves its queue pair and command alone does not
    disturb the accounting. *)
Lemma accounted_upd w w' rid r r' : w_reqs w !! rid = Some r -> w_reqs w' = <[rid := r']> (w_reqs w) ->
  req_qpair r' = req_qpair r -> req_cmd r' = req_cmd r -> w_qpairs w' = w_qpairs w ->
  sg_ns_info (w_sgroup w') = sg_ns_info (w_sgroup w) -> accounted w -> accounted w'.
Proof.
  intros Hr HR Eq Ec HQ HN [Hsz Hacc]. split; [rewrite HR, map_size_insert_Some by eauto; done|].
  intros i n Hn. rewrite HN in Hn. rewrite (Hacc _ _ Hn). f_equal.
  assert (HC : counts w' i (rid, r') = counts w i (rid, r)) by (unfold counts; cbn; by rewrite HQ, Eq, Ec).
  assert (HO : forall x v, counts w' i (x, v) = counts w i (x, v)) by (intros; unfold counts; by rewrite HQ).
  destruct (counts w i (rid, r)) eqn:E.
  - assert (outstanding_io w' i = <[rid := r']> (outstanding_io w i)) as ->.
    { apply map_eq. intros x. rewrite outstanding_io_lookup, HR. destruct (decide (x = rid)) as [->|Hx].
      - rewrite !lookup_insert_eq. cbn. by rewrite HC.
      - rewrite !lookup_insert_ne, outstanding_io_lookup by done. destruct (w_reqs w !! x); [|done]. cbn. by rewrite HO. }
    rewrite map_size_insert_Some; [done|]. rewrite outstanding_io_lookup, Hr. cbn. by rewrite E.
  - f_equal. apply map_eq. intros x. rewrite !outstanding_io_lookup, HR. destruct (decide (x = rid)) as [->|Hx].
    + rewrite lookup_insert_eq, Hr. cbn. by rewrite HC, E.
    + rewrite lookup_insert_ne by done. destruct (w_reqs w !! x); [|done]. cbn. by rewrite HO.
Qed.

Lemma accounted_enqueued w rid q r r' qp ct :
  fresh_req w rid q r qp ct -> req_qpair r' = q -> req_cmd r' = req_cmd r ->
  is_mgmt qp (req_cmd r) = false -> accounted w ->
  accounted (enqueued (u32 (nsid (req_cmd r) - 1) <? sg_num_ns (w_sgroup w)) rid q r' qp w).
Proof.
  intros [Hr Eq Hq Hc Hin Hz Hcb Hd] Eq' Ec Em.
  apply (accounted_enqueue _ _ rid q r r' qp); try done. rewrite Em. unfold enqueued. wsimp.
  rewrite Ec. by destruct (_ <? _).
Qed.

(** The admission of a request on an enabled queue pair. *)
Definition admission (rid q : nat) : M unit :=
  ok ← nvmf_check_subsystem_active rid; if (ok : bool) then outstanding_insert q rid else mret tt.

(** The three ways a request can go; the reason of a refusal is the type and
    the code of the status, and whether the host must not retry. *)
Definition admitted (w w' : world) (rid q : nat) (qp : spdk_nvmf_qpair) : Prop :=
  w_qpairs w' = <[q := qpair_with rid qp]> (w_qpairs w) /\
  sg_queued (w_sgroup w') = sg_queued (w_sgroup w) /\ w_log w' = w_log w.
Definition queued (w w' : world) (rid : nat) : Prop :=
  w_qpairs w' = w_qpairs w /\
  sg_queued (w_sgroup w') = (sg_queued (w_sgroup w) ++ [rid]) /\ w_log w' = w_log w.
Definition reason_of (st : spdk_nvme_status) : Z * Z * Z := (sct st, sc st, dnr st).
Definition refused (w w' : world) (rid q : nat) (reason : Z * Z * Z) : Prop :=
  exists (qp' : spdk_nvmf_qpair) (c : spdk_nvme_cpl) (evs : list event),
    w_qpairs w' = <[q := qp']> (w_qpairs w) /\ (rid ∉ qp_outstanding qp') /\
    sg_queued (w_sgroup w') = sg_queued (w_sgroup w) /\
    w_log w' = w_log w ++ (EvReqComplete rid c :: evs) /\
    reason_of (status c) = reason /\
    evs ⊆ [EvSubsystemPaused; EvQpairDrained q].

Lemma group_after_queued qp cmd g : sg_queued (group_after qp cmd g) = sg_queued g.
Proof. unfold group_after, paused, uncounted. by repeat case_match. Qed.

Lemma completed_rsp_reason acre r : reason_of (status (completed_rsp acre r)) = reason_of (status (req_rsp r)).
Proof. unfold completed_rsp. by case_match. Qed.

Lemma completed_refused w cnt rid q r qp ct :
  refused w (completed_world rid q r (qpair_with rid qp) ct (enqueued cnt rid q r qp w)) rid q
    (reason_of (status (req_rsp r))).
Proof.
  eexists (qpair_without rid (qpair_with rid qp)), _, _. unfold completed_world, enqueued. wsimp.
  split; [by rewrite insert_insert_eq|]. split; [apply not_in_qpair_without|].
  split; [rewrite group_after_queued; by destruct cnt|].
  split; [reflexivity|]. split; [apply completed_rsp_reason|].
  intros e [He|He]%elem_of_app; revert He; case_match; set_solver.
Qed.

(** ** Properties *)

(** Admission accounts for every request: a request that arrives takes
    exactly one way - it is put on the outstanding list of its queue pair, it
    waits for the subsystem, or it is answered once with an invalid-namespace
    error - and on each of them the counter of every namespace remains the
    number of its outstanding requests. *)
Theorem check_subsystem_active_accounted w rid q r qp ct
    (HF : fresh_req w rid q r qp ct) (Ha : is_aer (req_cmd r) = false) (HA : accounted w) :
  wp (admission rid q) w (fun _ w' =>
    accounted w' /\ (admitted w w' rid q qp \/ queued w w' rid
                     \/ refused w w' rid q (SPDK_NVME_SCT_GENERIC, SPDK_NVME_SC_INVALID_NAMESPACE_OR_FORMAT, 1))).
Proof.
  pose proof HF as [Hr <- Hq Hc Hin Hz Hcb Hd].
  destruct (qp_ctrlr qp) as [c|] eqn:Ec; cbn in Hc; [|done].
  unfold admission, nvmf_check_subsystem_active. wsteps. rewrite Ec. cbn [negb]. wsteps.
  fold (is_mgmt qp (req_cmd r)).
  assert (HQ : forall w', w' = w <| w_sgroup := (w_sgroup w) <| sg_queued := sg_queued (w_sgroup w) ++ [rid] |> |> ->
    accounted w' /\ queued w w' rid).
  { intros w' ->. split; [by eapply accounted_ext|by repeat split]. }
  assert (HE : forall w', w_reqs w' = w_reqs w -> w_reqs w' = <[rid := r]> (w_reqs w)).
  { intros w' ->. by rewrite insert_id. }
  unfold outstanding_insert. destruct (is_mgmt qp (req_cmd r)) eqn:Em.
  - case_bool_decide; wsteps; [by destruct (HQ _ eq_refl); auto|]. split; [|left; by repeat split].
    eapply (accounted_enqueue w _ rid _ r r qp); [done..|by apply HE|done|by rewrite Em|done].
  - destruct (_ <=? _) eqn:Ele.
    { apply (refuse_wp w rid _ r qp ct false); [done..|]. wsteps. split; [|right; right; apply completed_refused].
      apply accounted_completed; [by apply enqueued_live with r|done|].
      replace false with (u32 (nsid (req_cmd r) - 1) <? sg_num_ns (w_sgroup w)) by lia.
      by apply accounted_enqueued with ct. }
    pose proof (u32_range (nsid (req_cmd r) - 1)).
    destruct (lookup_lt_is_Some_2 (sg_ns_info (w_sgroup w)) (Z.to_nat (u32 (nsid (req_cmd r) - 1)))) as [n Hn].
    { unfold sg_num_ns in Ele. lia. }
    assert (Hlt : true = (u32 (nsid (req_cmd r) - 1) <? sg_num_ns (w_sgroup w))) by lia.
    wsteps. destruct (ni_channel n); cbn [negb].
    + case_bool_decide; wsteps; [by destruct (HQ _ eq_refl); auto|]. split; [|left; by repeat split].
      eapply (accounted_enqueue w _ rid _ r r qp); [done..|by apply HE|done|by rewrite Em, <- Hlt|done].
    + apply (refuse_wp w rid _ r qp ct true); [done..|]. wsteps.
      split; [|right; right; apply completed_refused].
      apply accounted_completed; [by apply enqueued_live with r|done|]. rewrite Hlt.
      by apply accounted_enqueued with ct.
Qed.

Definition demo_io : spdk_nvmf_request := demo_req (demo_cmd SPDK_NVME_OPC_READ 0 0 0) [].
Definition demo_qpair (out : list nat) : spdk_nvmf_qpair :=
  NvmfQpair SPDK_NVMF_QPAIR_ENABLED 1 (Some 0%nat) None out false false false.
Definition demo_ctrlr : spdk_nvmf_ctrlr :=
  NvmfCtrlr 1 1 true [true] (Some [SPDK_NVME_ANA_OPTIMIZED_STATE]) true true true true true.

Lemma demo_live st c10 opcode disk : opcode <> SPDK_NVME_OPC_FABRIC ->
  live_req (demo_world [demo_req (demo_cmd opcode c10 0 0) []] [0%nat] 1 st disk) 0 0
    (demo_req (demo_cmd opcode c10 0 0) []) (demo_qpair [0%nat]) demo_ctrlr.
Proof.
  intros Ho. split; try reflexivity; [set_solver|]. split; [|done..].
  unfold is_mgmt. cbn [opc req_cmd demo_req demo_cmd]. apply Z.eqb_neq in Ho. by rewrite Ho.
Qed.

Lemma demo_accounted st : accounted (demo_world [demo_io] [0%nat] 1 st []).
Proof. split; [done|]. intros [|i] n; [|done]. by intros [= <-]. Qed.

Lemma demo_fresh st : fresh_req (demo_world [demo_io] [] 0 st []) 0 0 demo_io (demo_qpair []) demo_ctrlr.
Proof. split; try done. set_solver. Qed.

Lemma check_subsystem_active_accounted_witness :
  wp (admission 0 0) (demo_world [demo_io] [] 0 SPDK_NVMF_SUBSYSTEM_ACTIVE []) (fun _ w' =>
    accounted w' /\ (admitted (demo_world [demo_io] [] 0 SPDK_NVMF_SUBSYSTEM_ACTIVE []) w' 0 0 (demo_qpair [])
      \/ queued (demo_world [demo_io] [] 0 SPDK_NVMF_SUBSYSTEM_ACTIVE []) w' 0
      \/ refused (demo_world [demo_io] [] 0 SPDK_NVMF_SUBSYSTEM_ACTIVE []) w' 0 0
           (SPDK_NVME_SCT_GENERIC, SPDK_NVME_SC_INVALID_NAMESPACE_OR_FORMAT, 1))).
Proof.
  eapply check_subsystem_active_accounted; [apply demo_fresh|reflexivity|].
  split; [done|]. intros [|i] n; [|done]. by intros [= <-].
Defined.

Lemma zcopy_phase_stuck w rid r qp :
  w_reqs w !! rid = Some r -> w_qpairs w !! req_qpair r = Some qp ->
  req_zcopy_phase r = NVMF_ZCOPY_PHASE_NONE -> rid ∉ qp_outstanding qp ->
  stuck (zcopy_complete_phase rid) w.
Proof.
  intros Hr Hq Hz Hin. unfold zcopy_complete_phase. ssteps. rewrite Hz. unfold outstanding_remove. ssteps.
  apply stuck_massert. by rewrite bool_decide_false.
Qed.

(** Completing a request that is not on the outstanding list removes a
    dangling list element. *)
Lemma complete_again_stuck w rid r qp c ct :
  w_reqs w !! rid = Some r -> w_qpairs w !! req_qpair r = Some qp -> qp_ctrlr qp = Some c ->
  w_ctrlrs w !! c = Some ct -> req_zcopy_phase r = NVMF_ZCOPY_PHASE_NONE -> rid ∉ qp_outstanding qp ->
  stuck (_nvmf_request_complete rid) w.
Proof.
  intros Hr Hq Ec Hc Hz Hin. unfold _nvmf_request_complete. ssteps. rewrite Ec.
  apply stuck_bind. wsteps. destruct (qp_qid qp !=? 0), (_ && ct_acre_enabled ct); wsteps.
  all: apply stuck_head; eapply zcopy_phase_stuck; [wlookup|wsimp; done..].
Qed.

(** A request is answered exactly once: completing a request that is being
    processed is defined, adds to the transport's log one response, whose
    command identifier is the request's and whose status is the one the
    handler set, takes the request off its queue pair, and completing it a
    second time is undefined behaviour. *)
Theorem complete_exactly_once w rid q r qp ct (HL : live_req w rid q r qp ct) :
  exists w' rsp evs, _nvmf_request_complete rid w = Ret tt w' /\
    w_log w' = w_log w ++ (EvReqComplete rid rsp :: evs) /\
    (forall i c, EvReqComplete i c ∉ evs) /\
    cpl_cid rsp = cid (req_cmd r) /\ sqid rsp = 0 /\ cdw0 rsp = cdw0 (req_rsp r) /\
    sc (status rsp) = sc (status (req_rsp r)) /\ sct (status rsp) = sct (status (req_rsp r)) /\
    dnr (status rsp) = dnr (status (req_rsp r)) /\
    w_qpairs w' = <[q := qpair_without rid qp]> (w_qpairs w) /\
    _nvmf_request_complete rid w' = Undef.
Proof.
  assert (HW : wp (_nvmf_request_complete rid) w (fun _ w' => w' = completed_world rid q r qp ct w)).
  { by apply request_complete_wp with q r qp ct. }
  apply wp_ret_iff in HW as ([]&w'&E&->).
  eexists _, (completed_rsp (ct_acre_enabled ct) r), _. split; [exact E|]. split; [reflexivity|].
  split. { intros i c [H|H]%elem_of_app; revert H; case_match; set_solver. }
  do 6 (split; [unfold completed_rsp; by case_match|]). split; [reflexivity|].
  destruct HL as [Hr <- Hq Hc Hin Hz Hg]. destruct (qp_ctrlr qp) as [c|] eqn:Ec; cbn in Hc; [|done].
  eapply (complete_again_stuck _ rid _ (qpair_without rid qp) c ct); unfold completed_world; wsimp;
    [by simplify_map_eq..|done|done|done|apply not_in_qpair_without].
Qed.

Lemma complete_exactly_once_witness :
  exists w' rsp evs, _nvmf_request_complete 0 (demo_world [demo_io] [0%nat] 1 SPDK_NVMF_SUBSYSTEM_ACTIVE []) = Ret tt w' /\
    w_log w' = [] ++ (EvReqComplete 0 rsp :: evs) /\
    (forall i c, EvReqComplete i c ∉ evs) /\
    cpl_cid rsp = 7 /\ sqid rsp = 0 /\ cdw0 rsp = 0 /\ sc (status rsp) = 0 /\ sct (status rsp) = 0 /\
    dnr (status rsp) = 0 /\
    w_qpairs w' = <[0%nat := qpair_without 0 (demo_qpair [0%nat])]> {[ 0%nat := demo_qpair [0%nat] ]} /\
    _nvmf_request_complete 0 w' = Undef.
Proof.
  exact (complete_exactly_once _ 0 0 demo_io (demo_qpair [0%nat]) demo_ctrlr
           (demo_live SPDK_NVMF_SUBSYSTEM_ACTIVE 0 SPDK_NVME_OPC_READ [] ltac:(done))).
Defined.

(** C13. Completion keeps the accounts: after a request other than one with the
    opcode of an asynchronous-event request is completed, the counter of every
    namespace is again the number of its outstanding requests; and a pausing
    subsystem becomes paused at that moment exactly when no administrative
    request and no I/O request of a pausing namespace is outstanding, in which
    case its callback runs. *)
Theorem complete_accounted w rid q r qp ct (HL : live_req w rid q r qp ct)
    (Ha : is_aer (req_cmd r) = false) (HA : accounted w) :
  wp (_nvmf_request_complete rid) w (fun _ w' =>
    accounted w' /\
    (sg_state (w_sgroup w) = SPDK_NVMF_SUBSYSTEM_PAUSING ->
     (sg_state (w_sgroup w') = SPDK_NVMF_SUBSYSTEM_PAUSED <->
       sg_mgmt_io_outstanding (w_sgroup w') = 0 /\
       forall i n, sg_ns_info (w_sgroup w') !! i = Some n ->
         ni_state n = SPDK_NVMF_SUBSYSTEM_PAUSING -> outstanding_io w' i = ∅) /\
     (sg_state (w_sgroup w') = SPDK_NVMF_SUBSYSTEM_PAUSED -> EvSubsystemPaused ∈ w_log w'))).
Proof.
  eapply request_complete_wp; [done|]. pose proof (accounted_completed _ _ _ _ _ _ HL Ha HA) as HA'.
  split; [done|]. intros Hp. destruct HA' as [Hsz Hacc].
  set (g := uncounted (is_mgmt qp (req_cmd r)) true (nsid (req_cmd r)) (w_sgroup w)).
  assert (Hg : w_sgroup (completed_world rid q r qp ct w) = paused g).
  { unfold completed_world, group_after. wsimp. by rewrite Ha. }
  assert (Hst : sg_state g = SPDK_NVMF_SUBSYSTEM_PAUSING).
  { subst g. unfold uncounted. by repeat case_match. }
  assert (Hsame : sg_ns_info (paused g) = sg_ns_info g /\ sg_mgmt_io_outstanding (paused g) = sg_mgmt_io_outstanding g).
  { unfold paused. by case_match. }
  destruct Hsame as [Hns Hmg]. rewrite Hg in Hacc |- *. rewrite Hns in Hacc |- *. rewrite Hmg.
  assert (Hpd : sg_state (paused g) = SPDK_NVMF_SUBSYSTEM_PAUSED <-> pause_done g = true).
  { unfold paused. destruct (pause_done g); [done|]. rewrite Hst. done. }
  split.
  - rewrite Hpd. unfold pause_done. rewrite bool_decide_true by done. cbn [andb].
    rewrite andb_true_iff, Z.eqb_eq, negb_true_iff. apply and_iff_compat_l.
    rewrite <- not_true_iff_false, existsb_exists. split.
    + intros Hno i n Hn Hs. apply map_size_empty_inv.
      destruct (size (outstanding_io (completed_world rid q r qp ct w) i)) as [|k] eqn:Ek; [done|].
      exfalso. apply Hno. exists n.
      split; [by eapply list_elem_of_In, list_elem_of_lookup_2|].
      unfold ns_blocks_pause. rewrite bool_decide_true by done. rewrite (Hacc _ _ Hn), Ek. done.
    + intros Hall (n & Hin & Hb). apply list_elem_of_In, list_elem_of_lookup in Hin as [i Hn].
      unfold ns_blocks_pause in Hb. apply andb_true_iff in Hb as [Hs%bool_decide_eq_true_1 Hb].
      rewrite (Hacc _ _ Hn), (Hall _ _ Hn Hs), map_size_empty in Hb. done.
  - rewrite Hpd. intros Hd. unfold completed_world. wsimp. rewrite Ha. fold g. rewrite Hd. cbn. set_solver.
Qed.

Lemma complete_accounted_witness :
  let w := demo_world [demo_io] [0%nat] 1 SPDK_NVMF_SUBSYSTEM_PAUSING [] in
  wp (_nvmf_request_complete 0) w (fun _ w' =>
    accounted w' /\
    (sg_state (w_sgroup w) = SPDK_NVMF_SUBSYSTEM_PAUSING ->
     (sg_state (w_sgroup w') = SPDK_NVMF_SUBSYSTEM_PAUSED <->
       sg_mgmt_io_outstanding (w_sgroup w') = 0 /\
       forall i n, sg_ns_info (w_sgroup w') !! i = Some n ->
         ni_state n = SPDK_NVMF_SUBSYSTEM_PAUSING -> outstanding_io w' i = ∅) /\
     (sg_state (w_sgroup w') = SPDK_NVMF_SUBSYSTEM_PAUSED -> EvSubsystemPaused ∈ w_log w'))).
Proof.
  intros w. apply (complete_accounted w 0 0 demo_io (demo_qpair [0%nat]) demo_ctrlr);
    [exact (demo_live SPDK_NVMF_SUBSYSTEM_PAUSING 0 SPDK_NVME_OPC_READ [] ltac:(done))|done|].
  apply demo_accounted.
Defined.

(** The opcode of an asynchronous-event request is recognised without
    looking at the queue: an I/O command with that opcode (Verify, of the NVM
    command set) leaves the outstanding list without being uncounted, so the
    counter of its namespace no longer is the number of its outstanding
    requests, and a pause of the subsystem does not finish. *)
Theorem aer_opcode_on_io_queue_leaks w rid q r qp ct (HL : live_req w rid q r qp ct)
    (Ha : is_aer (req_cmd r) = true) (Hm : is_mgmt qp (req_cmd r) = false)
    (Hn : u32 (nsid (req_cmd r) - 1) < sg_num_ns (w_sgroup w)) (HA : accounted w) :
  wp (_nvmf_request_complete rid) w (fun _ w' =>
    ~ accounted w' /\ w_sgroup w' = w_sgroup w /\
    w_qpairs w' !! q = Some (qpair_without rid qp)).
Proof.
  eapply request_complete_wp; [done|]. pose proof HL as [Hr Eq Hq _ Hin _ _].
  assert (Hg : w_sgroup (completed_world rid q r qp ct w) = w_sgroup w).
  { unfold completed_world, group_after. wsimp. by rewrite Ha. }
  rewrite Hg. split; [|split; [done|unfold completed_world; wsimp; by simplify_map_eq]].
  intros [_ Hacc']. destruct HA as [_ Hacc]. rewrite Hg in Hacc'.
  set (i := Z.to_nat (u32 (nsid (req_cmd r) - 1))).
  destruct (lookup_lt_is_Some_2 (sg_ns_info (w_sgroup w)) i) as [n Hi].
  { pose proof (u32_range (nsid (req_cmd r) - 1)). unfold sg_num_ns in Hn. lia. }
  pose proof (Hacc' _ _ Hi) as E. rewrite (Hacc _ _ Hi) in E.
  rewrite (outstanding_io_complete w (completed_world rid q r qp ct w) rid q r (r <| req_rsp := completed_rsp (ct_acre_enabled ct) r |>) qp)
    in E by done.
  assert (Hlk : outstanding_io w i !! rid = Some r).
  { rewrite outstanding_io_lookup, Hr. cbn. rewrite (counts_live _ _ _ _ _ _ _ HL), Hm.
    unfold i. by rewrite Nat.eqb_refl. }
  rewrite map_size_delete_Some in E by eauto.
  assert (size (outstanding_io w i) <> 0)%nat; [|lia].
  intros E0%map_size_empty_inv. by rewrite E0 in Hlk.
Qed.

Lemma aer_opcode_on_io_queue_leaks_witness :
  let r := demo_req (demo_cmd 12 0 0 0) [] in
  let w := demo_world [r] [0%nat] 1 SPDK_NVMF_SUBSYSTEM_PAUSING [] in
  wp (_nvmf_request_complete 0) w (fun _ w' =>
    ~ accounted w' /\ w_sgroup w' = w_sgroup w /\
    w_qpairs w' !! 0%nat = Some (qpair_without 0 (demo_qpair [0%nat]))).
Proof.
  intros r w. apply (aer_opcode_on_io_queue_leaks w 0 0 r (demo_qpair [0%nat]) demo_ctrlr);
    [exact (demo_live SPDK_NVMF_SUBSYSTEM_PAUSING 0 12 [] ltac:(done))|done..|].
  split; [done|]. intros [|i] n; [|done]. by intros [= <-].
Defined.
