(* ===== verification/Bdev.v ===== *)
(** * The block-device layer: [spdk/lib/bdev/bdev.c]

    The front end the target calls: conversion of bytes to blocks, range
    checks, the pool of I/O objects with its queue of waiting callers, the
    submission functions and the translation of a completion status to NVMe.
    A submitted operation stays in [w_ios] with status [PENDING] until the
    device completes it; what a completed operation does to memory and medium
    is [device_transfer].  A device that does not support an operation and for
    which this layer emulates it (compare, compare-and-write, write-zeroes,
    copy) is seen as supporting it. *)
From S2P Require Import Prelude NvmeSpec Iov World.

(** ** Geometry *)

Definition spdk_bdev_get_block_size (b : spdk_bdev) : Z := blocklen b.
Definition spdk_bdev_get_num_blocks (b : spdk_bdev) : Z := blockcnt b.
Definition spdk_bdev_is_md_interleaved (b : spdk_bdev) : bool := (md_len b !=? 0) && md_interleave b.
Definition spdk_bdev_is_md_separate (b : spdk_bdev) : bool := (md_len b !=? 0) && negb (md_interleave b).
Definition spdk_bdev_get_data_block_size (b : spdk_bdev) : Z :=
  if spdk_bdev_is_md_interleaved b then u32 (blocklen b - md_len b) else blocklen b.

Definition SPDK_DIF_DISABLE : Z := 0.
Definition spdk_bdev_get_dif_type (b : spdk_bdev) : Z := if md_len b !=? 0 then dif_type b else SPDK_DIF_DISABLE.
Definition spdk_bdev_is_dif_head_of_md (b : spdk_bdev) : bool :=
  if spdk_bdev_get_dif_type b !=? SPDK_DIF_DISABLE then dif_is_head_of_md b else false.

Definition spdk_bdev_io_type_supported (b : spdk_bdev) (t : spdk_bdev_io_type) : bool :=
  if io_type_supported b t then true
  else match t with IO_WRITE_ZEROES => io_type_supported b IO_WRITE | _ => false end.

Definition spdk_u32_is_pow2 (x : Z) : bool :=
  if x =? 0 then false else Z.land x (u32 (x - 1)) =? 0.
Definition spdk_u32log2 (x : Z) : Z := if x =? 0 then 0 else Z.log2 x.

(** The two results and the value returned, zero on success. *)
Definition bdev_bytes_to_blocks (b : spdk_bdev) (offset_bytes num_bytes : Z) : Z * Z * Z :=
  let block_size := blocklen b in
  if spdk_u32_is_pow2 block_size then
    let shift_cnt := spdk_u32log2 block_size in
    let offset_blocks := Z.shiftr offset_bytes shift_cnt in
    let num_blocks := Z.shiftr num_bytes shift_cnt in
    (offset_blocks, num_blocks,
     Z.lor (u64 (offset_bytes - u64 (Z.shiftl offset_blocks shift_cnt)))
           (u64 (num_bytes - u64 (Z.shiftl num_blocks shift_cnt))))
  else
    (offset_bytes / block_size, num_bytes / block_size,
     Z.lor (offset_bytes mod block_size) (num_bytes mod block_size)).

Definition bdev_io_valid_blocks (b : spdk_bdev) (offset_blocks num_blocks : Z) : bool :=
  if u64 (offset_blocks + num_blocks) <? offset_blocks then false
  else if blockcnt b <? u64 (offset_blocks + num_blocks) then false
  else true.

(** ** The pool of I/O objects *)

(** Whether an object is available, and the channel after it is taken. *)
Definition bdev_channel_get_io : M bool :=
  m ← gets w_mgmt;
  if (0 <? per_thread_cache_count m)%nat then
    modify (fun w => w <| w_mgmt := m <| per_thread_cache_count := pred (per_thread_cache_count m) |> |>);;
    mret true
  else match io_wait_queue m with
  | _ :: _ => mret false
  | [] =>
      if (0 <? bdev_io_pool m)%nat then
        modify (fun w => w <| w_mgmt := m <| bdev_io_pool := pred (bdev_io_pool m) |> |>);;
        mret true
      else mret false
  end.

(** The object goes back to the cache, or to the pool when the cache is full.
    The waiting callers its return wakes are run by [bdev_io_wait_next]. *)
Definition spdk_bdev_free_io (iod : nat) : M unit :=
  ios ← gets w_ios;
  io ← need (ios !! iod);
  massert (bool_decide (io_status io <> IO_STATUS_PENDING));;
  modify (fun w => w <| w_ios := delete iod (w_ios w) |>);;
  m ← gets w_mgmt;
  if (per_thread_cache_count m <? bdev_io_cache_size m)%nat then
    modify (fun w => w <| w_mgmt := m <| per_thread_cache_count := S (per_thread_cache_count m) |> |>)
  else
    massert (bool_decide (length (io_wait_queue m) = 0%nat));;
    modify (fun w => w <| w_mgmt := m <| bdev_io_pool := S (bdev_io_pool m) |> |>).

(** One turn of the loop of [spdk_bdev_free_io] over the waiting callers. *)
Definition bdev_io_wait_next : M (option spdk_bdev_io_wait_entry) :=
  m ← gets w_mgmt;
  if (0 <? per_thread_cache_count m)%nat then
    match io_wait_queue m with
    | e :: q => modify (fun w => w <| w_mgmt := m <| io_wait_queue := q |> |>);; mret (Some e)
    | [] => mret None
    end
  else mret None.

(** The device of a waiting entry is always the caller's. *)
Definition spdk_bdev_queue_io_wait (e : spdk_bdev_io_wait_entry) : M Z :=
  m ← gets w_mgmt;
  if (0 <? per_thread_cache_count m)%nat then mret (- EINVAL)
  else modify (fun w => w <| w_mgmt := m <| io_wait_queue := io_wait_queue m ++ [e] |> |>);; mret 0.

(** ** Submission *)

(** A cleared object of a type, as [bdev_io_init] leaves it. *)
Definition bdev_io_init (t : spdk_bdev_io_type) (desc : spdk_bdev_desc)
    (cb : spdk_bdev_io_completion_cb) (arg : cb_argument) : spdk_bdev_io :=
  BdevIo t desc cb arg BufNone BufNone 0 0 0 false false false [] None None IO_STATUS_PENDING 0 0 0.

(** Take an object, fill it, hand it to the device. *)
Definition bdev_submit (io : spdk_bdev_io) : M Z :=
  ok ← bdev_channel_get_io;
  if (ok : bool) then
    n ← gets w_next;
    modify (fun w => w <| w_ios := <[n := io]> (w_ios w) |> <| w_next := S n |>);;
    mret 0
  else mret (- ENOMEM).

Definition with_range (off n : Z) (io : spdk_bdev_io) : spdk_bdev_io :=
  io <| io_offset_blocks := off |> <| io_num_blocks := n |>.

(** [struct spdk_bdev_ext_io_opts] (packed, 52 bytes): its [size], and the
    members the front end reads. *)
Record spdk_bdev_ext_io_opts := ExtIoOpts {
  eo_size : Z; eo_memory_domain : option nat; eo_metadata : option nat;
  eo_accel_sequence : option nat }.
Definition OFFSETOF_METADATA : Z := 24.
Definition OFFSETOF_ACCEL_SEQUENCE : Z := 32.
Definition SIZEOF_EXT_IO_OPTS : Z := 52.

(** [bdev_get_ext_io_opt]: a member beyond [size] reads as its default. *)
Definition opt_memory_domain (o : spdk_bdev_ext_io_opts) : option nat :=
  if 8 + 8 <=? eo_size o then eo_memory_domain o else None.
Definition opt_accel_sequence (o : spdk_bdev_ext_io_opts) : option nat :=
  if OFFSETOF_ACCEL_SEQUENCE + 8 <=? eo_size o then eo_accel_sequence o else None.

(** [iov0] is whether the vector is there and its first element has memory. *)
Definition _bdev_io_check_opts (o : spdk_bdev_ext_io_opts) (iov0 : bool) : bool :=
  (OFFSETOF_METADATA + 8 <=? eo_size o) && (eo_size o <=? SIZEOF_EXT_IO_OPTS)
  && (bool_decide (eo_memory_domain o = None) || iov0).

(** The checks of the options that the two vectored forms share. *)
Definition ext_opts_valid (b : spdk_bdev) (o : spdk_bdev_ext_io_opts) (iov0 : bool) : bool :=
  _bdev_io_check_opts o iov0 &&
  match eo_metadata o with
  | None => true
  | Some _ => spdk_bdev_is_md_separate b && iov0 && bool_decide (opt_accel_sequence o = None)
  end.

Section Submit.
Context (desc : spdk_bdev_desc) (cb : spdk_bdev_io_completion_cb) (arg : cb_argument).

Definition bdev_read_blocks_with_md (buf : io_buffer) (offset_blocks num_blocks : Z) : M Z :=
  if negb (bdev_io_valid_blocks (desc_bdev desc) offset_blocks num_blocks) then mret (- EINVAL)
  else bdev_submit (with_range offset_blocks num_blocks (bdev_io_init IO_READ desc cb arg)
                    <| io_buf := buf |>).

Definition spdk_bdev_read_blocks (buf : io_buffer) (offset_blocks num_blocks : Z) : M Z :=
  bdev_read_blocks_with_md buf offset_blocks num_blocks.

Definition spdk_bdev_read (buf : io_buffer) (offset nbytes : Z) : M Z :=
  let '(offset_blocks, num_blocks, rc) := bdev_bytes_to_blocks (desc_bdev desc) offset nbytes in
  if rc !=? 0 then mret (- EINVAL) else spdk_bdev_read_blocks buf offset_blocks num_blocks.

Definition bdev_write_blocks_with_md (buf : io_buffer) (offset_blocks num_blocks : Z) : M Z :=
  if negb (desc_write desc) then mret (- EBADF)
  else if negb (bdev_io_valid_blocks (desc_bdev desc) offset_blocks num_blocks) then mret (- EINVAL)
  else bdev_submit (with_range offset_blocks num_blocks (bdev_io_init IO_WRITE desc cb arg)
                    <| io_buf := buf |>).

Definition spdk_bdev_write_blocks (buf : io_buffer) (offset_blocks num_blocks : Z) : M Z :=
  bdev_write_blocks_with_md buf offset_blocks num_blocks.

Definition spdk_bdev_write (buf : io_buffer) (offset nbytes : Z) : M Z :=
  let '(offset_blocks, num_blocks, rc) := bdev_bytes_to_blocks (desc_bdev desc) offset nbytes in
  if rc !=? 0 then mret (- EINVAL) else spdk_bdev_write_blocks buf offset_blocks num_blocks.

(** The vectored forms. *)
Definition bdev_readv_blocks_with_md (buf : io_buffer) (offset_blocks num_blocks : Z) : M Z :=
  if negb (bdev_io_valid_blocks (desc_bdev desc) offset_blocks num_blocks) then mret (- EINVAL)
  else bdev_submit (with_range offset_blocks num_blocks (bdev_io_init IO_READ desc cb arg)
                    <| io_buf := buf |>).

Definition bdev_writev_blocks_with_md (buf : io_buffer) (offset_blocks num_blocks : Z) : M Z :=
  if negb (desc_write desc) then mret (- EBADF)
  else if negb (bdev_io_valid_blocks (desc_bdev desc) offset_blocks num_blocks) then mret (- EINVAL)
  else bdev_submit (with_range offset_blocks num_blocks (bdev_io_init IO_WRITE desc cb arg)
                    <| io_buf := buf |>).

Definition spdk_bdev_readv_blocks_ext (buf : io_buffer) (iov0 : bool) (offset_blocks num_blocks : Z)
    (opts : spdk_bdev_ext_io_opts) : M Z :=
  if negb (ext_opts_valid (desc_bdev desc) opts iov0) then mret (- EINVAL)
  else bdev_readv_blocks_with_md buf offset_blocks num_blocks.

Definition spdk_bdev_writev_blocks_ext (buf : io_buffer) (iov0 : bool) (offset_blocks num_blocks : Z)
    (opts : spdk_bdev_ext_io_opts) : M Z :=
  if negb (ext_opts_valid (desc_bdev desc) opts iov0) then mret (- EINVAL)
  else bdev_writev_blocks_with_md buf offset_blocks num_blocks.

Definition spdk_bdev_comparev_blocks (buf : io_buffer) (offset_blocks num_blocks : Z) : M Z :=
  if negb (bdev_io_valid_blocks (desc_bdev desc) offset_blocks num_blocks) then mret (- EINVAL)
  else bdev_submit (with_range offset_blocks num_blocks (bdev_io_init IO_COMPARE desc cb arg)
                    <| io_buf := buf |>).

Definition spdk_bdev_comparev_and_writev_blocks (cmp_buf write_buf : io_buffer)
    (offset_blocks num_blocks : Z) : M Z :=
  if negb (desc_write desc) then mret (- EBADF)
  else if negb (bdev_io_valid_blocks (desc_bdev desc) offset_blocks num_blocks) then mret (- EINVAL)
  else if acwu (desc_bdev desc) <? num_blocks then mret (- EINVAL)
  else bdev_submit (with_range offset_blocks num_blocks
                      (bdev_io_init IO_COMPARE_AND_WRITE desc cb arg)
                    <| io_buf := cmp_buf |> <| io_fused_buf := write_buf |>).

Definition spdk_bdev_zcopy_start (buf : io_buffer) (offset_blocks num_blocks : Z) (populate : bool) : M Z :=
  if negb (desc_write desc) then mret (- EBADF)
  else if negb (bdev_io_valid_blocks (desc_bdev desc) offset_blocks num_blocks) then mret (- EINVAL)
  else if negb (spdk_bdev_io_type_supported (desc_bdev desc) IO_ZCOPY) then mret (- ENOTSUP)
  else bdev_submit (with_range offset_blocks num_blocks (bdev_io_init IO_ZCOPY desc cb arg)
                    <| io_buf := buf |> <| io_populate := populate |> <| io_commit := false |>
                    <| io_start := true |>).

Definition spdk_bdev_zcopy_end (iod : nat) (commit : bool) : M Z :=
  ios ← gets w_ios;
  io ← need (ios !! iod);
  if bool_decide (io_type io <> IO_ZCOPY) then mret (- EINVAL)
  else
    modify (fun w => w <| w_ios := <[iod := io <| io_commit := commit |> <| io_start := false |>
       <| io_arg := arg |> <| io_cb := cb |> <| io_status := IO_STATUS_PENDING |>]> (w_ios w) |>);;
    mret 0.

Definition spdk_bdev_write_zeroes_blocks (offset_blocks num_blocks : Z) : M Z :=
  if negb (desc_write desc) then mret (- EBADF)
  else if negb (bdev_io_valid_blocks (desc_bdev desc) offset_blocks num_blocks) then mret (- EINVAL)
  else if negb (io_type_supported (desc_bdev desc) IO_WRITE_ZEROES)
          && negb (io_type_supported (desc_bdev desc) IO_WRITE) then mret (- ENOTSUP)
  else bdev_submit (with_range offset_blocks num_blocks (bdev_io_init IO_WRITE_ZEROES desc cb arg)).

Definition spdk_bdev_unmap_blocks (offset_blocks num_blocks : Z) : M Z :=
  if negb (desc_write desc) then mret (- EBADF)
  else if negb (bdev_io_valid_blocks (desc_bdev desc) offset_blocks num_blocks) then mret (- EINVAL)
  else bdev_submit (with_range offset_blocks num_blocks (bdev_io_init IO_UNMAP desc cb arg)).

Definition spdk_bdev_flush_blocks (offset_blocks num_blocks : Z) : M Z :=
  if negb (desc_write desc) then mret (- EBADF)
  else if negb (bdev_io_valid_blocks (desc_bdev desc) offset_blocks num_blocks) then mret (- EINVAL)
  else bdev_submit (with_range offset_blocks num_blocks (bdev_io_init IO_FLUSH desc cb arg)).

Definition spdk_bdev_copy_blocks (dst_offset_blocks src_offset_blocks num_blocks : Z) : M Z :=
  if negb (desc_write desc) then mret (- EBADF)
  else if negb (bdev_io_valid_blocks (desc_bdev desc) dst_offset_blocks num_blocks)
          || negb (bdev_io_valid_blocks (desc_bdev desc) src_offset_blocks num_blocks)
  then mret (- EINVAL)
  else bdev_submit (with_range dst_offset_blocks num_blocks (bdev_io_init IO_COPY desc cb arg)
                    <| io_src_offset_blocks := src_offset_blocks |>).

Definition spdk_bdev_nvme_admin_passthru (cmd : spdk_nvme_cmd) (buf : io_buffer) : M Z :=
  if negb (desc_write desc) then mret (- EBADF)
  else if negb (io_type_supported (desc_bdev desc) IO_NVME_ADMIN) then mret (- ENOTSUP)
  else bdev_submit ((bdev_io_init IO_NVME_ADMIN desc cb arg) <| io_buf := buf |> <| io_cmd := Some cmd |>).

(** Without a metadata buffer. *)
Definition spdk_bdev_nvme_iov_passthru_md (cmd : spdk_nvme_cmd) (buf : io_buffer) : M Z :=
  if negb (desc_write desc) then mret (- EBADF)
  else if negb (io_type_supported (desc_bdev desc) IO_NVME_IO) then mret (- ENOTSUP)
  else bdev_submit ((bdev_io_init IO_NVME_IOV_MD desc cb arg) <| io_buf := buf |> <| io_cmd := Some cmd |>).

Definition spdk_bdev_abort (bio_cb_arg : option nat) : M Z :=
  match bio_cb_arg with
  | None => mret (- EINVAL)
  | Some r =>
      if negb (spdk_bdev_io_type_supported (desc_bdev desc) IO_ABORT) then mret (- ENOTSUP)
      else bdev_submit ((bdev_io_init IO_ABORT desc cb arg) <| io_bio_cb_arg := Some r |>)
  end.

End Submit.

(** ** Status of a completed operation *)

(** [cdw0], [sct], [sc] *)
Definition spdk_bdev_io_get_nvme_status (io : spdk_bdev_io) : Z * Z * Z :=
  if bool_decide (io_type io = IO_ABORT) then
    (if bool_decide (io_status io = IO_STATUS_SUCCESS) then 0 else 1,
     SPDK_NVME_SCT_GENERIC, SPDK_NVME_SC_SUCCESS)
  else
    let '(sct, sc) := match io_status io with
      | IO_STATUS_SUCCESS => (SPDK_NVME_SCT_GENERIC, SPDK_NVME_SC_SUCCESS)
      | IO_STATUS_NVME_ERROR => (io_nvme_sct io, io_nvme_sc io)
      | IO_STATUS_ABORTED => (SPDK_NVME_SCT_GENERIC, SPDK_NVME_SC_ABORTED_BY_REQUEST)
      | _ => (SPDK_NVME_SCT_GENERIC, SPDK_NVME_SC_INTERNAL_DEVICE_ERROR)
      end in
    (io_nvme_cdw0 io, sct, sc).

(** [cdw0] and the pairs of the first and of the second command of a fused
    operation. *)
Definition spdk_bdev_io_get_nvme_fused_status (io : spdk_bdev_io) : Z * (Z * Z) * (Z * Z) :=
  let '(first, second) := match io_status io with
    | IO_STATUS_NVME_ERROR =>
        if (io_nvme_sct io =? SPDK_NVME_SCT_MEDIA_ERROR)
           && (io_nvme_sc io =? SPDK_NVME_SC_COMPARE_FAILURE)
        then ((io_nvme_sct io, io_nvme_sc io),
              (SPDK_NVME_SCT_GENERIC, SPDK_NVME_SC_ABORTED_FAILED_FUSED))
        else ((SPDK_NVME_SCT_GENERIC, SPDK_NVME_SC_SUCCESS), (io_nvme_sct io, io_nvme_sc io))
    | IO_STATUS_ABORTED =>
        ((SPDK_NVME_SCT_GENERIC, SPDK_NVME_SC_ABORTED_BY_REQUEST),
         (SPDK_NVME_SCT_GENERIC, SPDK_NVME_SC_ABORTED_BY_REQUEST))
    | IO_STATUS_SUCCESS =>
        ((SPDK_NVME_SCT_GENERIC, SPDK_NVME_SC_SUCCESS), (SPDK_NVME_SCT_GENERIC, SPDK_NVME_SC_SUCCESS))
    | IO_STATUS_FIRST_FUSED_FAILED =>
        ((SPDK_NVME_SCT_GENERIC, SPDK_NVME_SC_INTERNAL_DEVICE_ERROR),
         (SPDK_NVME_SCT_GENERIC, SPDK_NVME_SC_ABORTED_FAILED_FUSED))
    | IO_STATUS_MISCOMPARE =>
        ((SPDK_NVME_SCT_MEDIA_ERROR, SPDK_NVME_SC_COMPARE_FAILURE),
         (SPDK_NVME_SCT_GENERIC, SPDK_NVME_SC_ABORTED_FAILED_FUSED))
    | _ =>
        ((SPDK_NVME_SCT_GENERIC, SPDK_NVME_SC_INTERNAL_DEVICE_ERROR),
         (SPDK_NVME_SCT_GENERIC, SPDK_NVME_SC_INTERNAL_DEVICE_ERROR))
    end in
  (io_nvme_cdw0 io, first, second).

(** ** The device *)

(** What a device reports with a completion. *)
Record device_result := DevResult { dr_status : spdk_bdev_io_status; dr_cdw0 : Z; dr_sct : Z; dr_sc : Z }.
Definition device_ok : device_result := DevResult IO_STATUS_SUCCESS 0 0 0.

(** Reading and writing [n] bytes of a buffer. *)
Definition buf_read (b : io_buffer) (n : nat) : M bytes :=
  match b with
  | BufReq rid cnt =>
      r ← get_req rid;
      let f := flat (take (Z.to_nat cnt) (req_iov r)) in
      massert (n <=? length f)%nat;; mret (take n f)
  | BufHeap l off =>
      f ← load_bytes l;
      massert (off + n <=? length f)%nat;; mret (slice off n f)
  | BufNone => massert (n =? 0)%nat;; mret []
  end.

Definition buf_write (b : io_buffer) (data : bytes) : M unit :=
  match b with
  | BufReq rid cnt =>
      r ← get_req rid;
      massert (length data <=? length (flat (take (Z.to_nat cnt) (req_iov r))))%nat;;
      iovs ← need (spdk_copy_buf_to_iovs (req_iov r) (Z.to_nat cnt) data (length data));
      put_req rid (r <| req_iov := iovs |>)
  | BufHeap l off => heap_memcpy l off data
  | BufNone => massert (length data =? 0)%nat
  end.

Definition disk_read (off n : nat) : M bytes :=
  d ← gets w_disk; massert (off + n <=? length d)%nat;; mret (slice off n d).
Definition disk_write (off : nat) (data : bytes) : M unit :=
  d ← gets w_disk; massert (off + length data <=? length d)%nat;;
  modify (fun w => w <| w_disk := splice off data (w_disk w) |>).

(** A range of blocks in bytes. *)
Definition bytes_of_blocks (b : spdk_bdev) (n : Z) : nat := Z.to_nat (n * blocklen b).

(** What a device that succeeds does, and the status of the operation: a
    comparison that differs reports it. *)
Definition device_transfer (iod : nat) (io : spdk_bdev_io) : M spdk_bdev_io_status :=
  let bd := desc_bdev (io_desc io) in
  let off := bytes_of_blocks bd (io_offset_blocks io) in
  let n := bytes_of_blocks bd (io_num_blocks io) in
  match io_type io with
  | IO_READ => d ← disk_read off n; buf_write (io_buf io) d;; mret IO_STATUS_SUCCESS
  | IO_WRITE => d ← buf_read (io_buf io) n; disk_write off d;; mret IO_STATUS_SUCCESS
  | IO_WRITE_ZEROES | IO_UNMAP => disk_write off (replicate n 0);; mret IO_STATUS_SUCCESS
  | IO_COPY =>
      d ← disk_read (bytes_of_blocks bd (io_src_offset_blocks io)) n;
      disk_write off d;; mret IO_STATUS_SUCCESS
  | IO_COMPARE =>
      d ← disk_read off n; m ← buf_read (io_buf io) n;
      mret (if bool_decide (d = m) then IO_STATUS_SUCCESS else IO_STATUS_MISCOMPARE)
  | IO_COMPARE_AND_WRITE =>
      d ← disk_read off n; m ← buf_read (io_buf io) n;
      if bool_decide (d = m) then
        x ← buf_read (io_fused_buf io) n; disk_write off x;; mret IO_STATUS_SUCCESS
      else mret IO_STATUS_MISCOMPARE
  | IO_ZCOPY =>
      if io_start io then
        (* the device lends memory through the caller's vector *)
        d ← disk_read off n;
        let iovs := [Iov (Some (if io_populate io then d else replicate n 0))] in
        (match io_buf io with
         | BufReq rid _ => mod_req rid (fun r => r <| req_iov := iovs |>)
         | _ => mret tt
         end);;
        modify (fun w => w <| w_ios := <[iod := io <| io_iovs := iovs |>]> (w_ios w) |>);;
        mret IO_STATUS_SUCCESS
      else if io_commit io then
        match io_arg io with
        | ArgReq rid => r ← get_req rid; d ← buf_read (BufReq rid (req_iovcnt r)) n;
            disk_write off d;; mret IO_STATUS_SUCCESS
        | ArgCtx _ => undef
        end
      else mret IO_STATUS_SUCCESS
  | IO_FLUSH | IO_NVME_ADMIN | IO_NVME_IO | IO_NVME_IO_MD | IO_NVME_IOV_MD | IO_ABORT =>
      mret IO_STATUS_SUCCESS
  end.

(** The device finishes a pending operation; the object then carries the
    status the callback sees.  [spdk_bdev_io_complete_nvme_status] and
    [spdk_bdev_io_complete]. *)
Definition device_complete (iod : nat) (res : device_result) : M unit :=
  ios ← gets w_ios;
  io ← need (ios !! iod);
  massert (bool_decide (io_status io = IO_STATUS_PENDING));;
  massert (bool_decide (dr_status res <> IO_STATUS_PENDING));;
  st ← (if bool_decide (dr_status res = IO_STATUS_SUCCESS) then device_transfer iod io
        else mret (dr_status res));
  ios ← gets w_ios;
  io ← need (ios !! iod);
  modify (fun w => w <| w_ios := <[iod := io <| io_status := st |> <| io_nvme_cdw0 := dr_cdw0 res |>
     <| io_nvme_sct := dr_sct res |> <| io_nvme_sc := dr_sc res |>]> (w_ios w) |>).

(** ** Lemmas *)

Lemma pow2_land x : 0 < x -> Z.land x (x - 1) = 0 -> x = 2 ^ Z.log2 x.
Proof.
  intros Hx H. pose proof (Z.log2_spec x Hx) as [Hlo Hhi]. set (k := Z.log2 x) in *.
  assert (Hk : 0 <= k) by apply Z.log2_nonneg.
  destruct (Z.eq_dec x (2 ^ k)) as [|Hne]; [done|]. exfalso.
  assert (Hl : Z.log2 (x - 1) = k). { apply Z.log2_unique; lia. }
  assert (Hb : Z.testbit (Z.land x (x - 1)) k = true).
  { rewrite Z.land_spec. unfold k at 1. rewrite Z.bit_log2 by lia. rewrite <- Hl, Z.bit_log2; [done|].
    assert (1 <= 2 ^ k) by (apply (Z.pow_le_mono_r 2 0 k); lia). lia. }
  by rewrite H, Z.bits_0 in Hb.
Qed.

Lemma u32_is_pow2_spec x : 0 <= x < 2 ^ 32 -> spdk_u32_is_pow2 x = true -> x = 2 ^ spdk_u32log2 x /\ 0 < x.
Proof.
  intros Hx. unfold spdk_u32_is_pow2, spdk_u32log2. destruct (Z.eqb_spec x 0); [done|].
  intros H%Z.eqb_eq. rewrite u32_small in H by lia. split; [|lia]. apply pow2_land; [lia|done].
Qed.

Lemma lor_zero a b : 0 <= a -> 0 <= b -> (Z.lor a b = 0 <-> a = 0 /\ b = 0).
Proof. intros. apply Z.lor_eq_0_iff. Qed.

(** The remainder left by a shift is the remainder of the division. *)
Lemma shift_remainder x k : 0 <= x < 2 ^ 64 -> 0 <= k ->
  u64 (x - u64 (Z.shiftl (Z.shiftr x k) k)) = x mod 2 ^ k.
Proof.
  intros Hx Hk. rewrite Z.shiftl_mul_pow2, Z.shiftr_div_pow2 by done.
  pose proof (Z.pow_pos_nonneg 2 k ltac:(lia) Hk).
  pose proof (Z_div_mod_eq_full x (2 ^ k)). pose proof (Z.mod_pos_bound x (2 ^ k) ltac:(lia)).
  assert (0 <= x / 2 ^ k) by (apply Z.div_pos; lia).
  assert (0 <= x / 2 ^ k * 2 ^ k <= x) by (split; [apply Z.mul_nonneg_nonneg|]; lia).
  rewrite (u64_small (x / 2 ^ k * 2 ^ k)), u64_small by lia. lia.
Qed.

(** *** The pool *)

(** The channel after an object is taken, if one can be. *)
Definition take_io (m : spdk_bdev_mgmt_channel) : option spdk_bdev_mgmt_channel :=
  match per_thread_cache_count m, io_wait_queue m, bdev_io_pool m with
  | S n, _, _ => Some (m <| per_thread_cache_count := n |>)
  | O, [], S p => Some (m <| bdev_io_pool := p |>)
  | O, _, _ => None
  end.

Definition submitted (io : spdk_bdev_io) (m : spdk_bdev_mgmt_channel) (w : world) : world :=
  w <| w_mgmt := m |> <| w_ios := <[w_next w := io]> (w_ios w) |> <| w_next := S (w_next w) |>.

Lemma get_io_wp w (Q : bool -> world -> Prop) :
  match take_io (w_mgmt w) with
  | Some m => Q true (w <| w_mgmt := m |>)
  | None => Q false w
  end -> wp bdev_channel_get_io w Q.
Proof.
  unfold take_io, bdev_channel_get_io. intros H. wsteps. revert H.
  destruct (per_thread_cache_count (w_mgmt w)) as [|n] eqn:En; cbn [Nat.ltb Nat.leb]; intros H; [|by wsteps].
  revert H. destruct (io_wait_queue (w_mgmt w)) eqn:Eq; intros H; [|by wsteps].
  revert H. destruct (bdev_io_pool (w_mgmt w)) eqn:Ep; cbn [Nat.ltb Nat.leb]; intros H; by wsteps.
Qed.

Lemma bdev_submit_wp io w (Q : Z -> world -> Prop) :
  match take_io (w_mgmt w) with
  | Some m => Q 0 (submitted io m w)
  | None => Q (- ENOMEM) w
  end -> wp (bdev_submit io) w Q.
Proof.
  intros H. unfold bdev_submit. wstep. apply get_io_wp. destruct (take_io (w_mgmt w)); by wsteps.
Qed.

(** Objects in use and free. *)
Definition pool_total (w : world) : nat :=
  (per_thread_cache_count (w_mgmt w) + bdev_io_pool (w_mgmt w) + size (w_ios w))%nat.

Lemma take_io_total m m' : take_io m = Some m' ->
  (per_thread_cache_count m' + bdev_io_pool m' + 1 = per_thread_cache_count m + bdev_io_pool m)%nat
  /\ io_wait_queue m' = io_wait_queue m.
Proof.
  unfold take_io. destruct (per_thread_cache_count m) eqn:E1; [|intros [= <-]; cbn; split; [lia|done]].
  destruct (io_wait_queue m) eqn:E2, (bdev_io_pool m) eqn:E3; intros [= <-]; cbn. split; [lia|done].
Qed.

(** The channel after an object is returned. *)
Definition put_io (m : spdk_bdev_mgmt_channel) : spdk_bdev_mgmt_channel :=
  if (per_thread_cache_count m <? bdev_io_cache_size m)%nat
  then m <| per_thread_cache_count := S (per_thread_cache_count m) |>
  else m <| bdev_io_pool := S (bdev_io_pool m) |>.
Definition freed (iod : nat) (w : world) : world :=
  w <| w_ios := delete iod (w_ios w) |> <| w_mgmt := put_io (w_mgmt w) |>.

(** A full cache has nobody waiting. *)
Definition mgmt_ok (m : spdk_bdev_mgmt_channel) : Prop :=
  (bdev_io_cache_size m <= per_thread_cache_count m)%nat -> io_wait_queue m = [].

Lemma take_io_ok m m' : take_io m = Some m' -> mgmt_ok m -> mgmt_ok m'.
Proof.
  unfold take_io, mgmt_ok. destruct (per_thread_cache_count m) eqn:E1.
  - destruct (io_wait_queue m) eqn:E2, (bdev_io_pool m); try done. intros [= <-] _ _. exact E2.
  - intros [= <-] H. cbn. intros. apply H. lia.
Qed.

Lemma free_io_wp iod io w (Q : unit -> world -> Prop) :
  w_ios w !! iod = Some io -> io_status io <> IO_STATUS_PENDING -> mgmt_ok (w_mgmt w) ->
  Q tt (freed iod w) -> wp (spdk_bdev_free_io iod) w Q.
Proof.
  intros Hio Hs Hm HQ. unfold spdk_bdev_free_io. wsteps. rewrite bool_decide_true by done. wsteps.
  unfold freed, put_io in HQ. destruct (Nat.ltb_spec (per_thread_cache_count (w_mgmt w)) (bdev_io_cache_size (w_mgmt w))).
  - by wsteps.
  - rewrite Hm by lia. rewrite bool_decide_true by done. by wsteps.
Qed.

(** *** Transfers *)

(** The range of blocks of an operation is on the medium. *)
Definition in_medium (io : spdk_bdev_io) (w : world) : Prop :=
  let bd := desc_bdev (io_desc io) in
  0 <= io_offset_blocks io /\ 0 <= io_num_blocks io /\ 0 < blocklen bd /\
  io_offset_blocks io + io_num_blocks io <= blockcnt bd /\
  Z.to_nat (blockcnt bd * blocklen bd) = length (w_disk w).

Lemma in_medium_bytes io w : in_medium io w ->
  let bd := desc_bdev (io_desc io) in
  (bytes_of_blocks bd (io_offset_blocks io) + bytes_of_blocks bd (io_num_blocks io) <= length (w_disk w))%nat.
Proof. intros (?&?&?&?&<-). unfold bytes_of_blocks. nia. Qed.

Lemma disk_read_wp w off n Q : (off + n <= length (w_disk w))%nat ->
  Q (slice off n (w_disk w)) w -> wp (disk_read off n) w Q.
Proof.
  intros H HQ. unfold disk_read. wsteps. apply wp_massert; [by apply Nat.leb_le|]. by wsteps.
Qed.
Lemma disk_write_wp w off d (Q : unit -> world -> Prop) : (off + length d <= length (w_disk w))%nat ->
  Q tt (w <| w_disk := splice off d (w_disk w) |>) -> wp (disk_write off d) w Q.
Proof.
  intros H HQ. unfold disk_write. wsteps. apply wp_massert; [by apply Nat.leb_le|]. by wsteps.
Qed.

Definition finished (io : spdk_bdev_io) (res : device_result) (st : spdk_bdev_io_status) : spdk_bdev_io :=
  io <| io_status := st |> <| io_nvme_cdw0 := dr_cdw0 res |> <| io_nvme_sct := dr_sct res |>
     <| io_nvme_sc := dr_sc res |>.

Lemma device_complete_wp w iod io res (Q : unit -> world -> Prop) :
  w_ios w !! iod = Some io -> io_status io = IO_STATUS_PENDING -> dr_status res <> IO_STATUS_PENDING ->
  (dr_status res = IO_STATUS_SUCCESS ->
     wp (device_transfer iod io) w (fun st w' => exists io', w_ios w' !! iod = Some io' /\
       Q tt (w' <| w_ios := <[iod := finished io' res st]> (w_ios w') |>))) ->
  (dr_status res <> IO_STATUS_SUCCESS ->
     Q tt (w <| w_ios := <[iod := finished io res (dr_status res)]> (w_ios w) |>)) ->
  wp (device_complete iod res) w Q.
Proof.
  intros Hio Hp Hr Hs Hf. unfold device_complete. wsteps. rewrite bool_decide_true by done. wsteps.
  rewrite bool_decide_true by done. wsteps. case_bool_decide.
  - eapply wp_mono; [by apply Hs|]. intros st w' (io' & Hio' & HQ). wsteps. exact HQ.
  - wsteps. by apply Hf.
Qed.

Section Transfer.
Context (w : world) (iod : nat) (io : spdk_bdev_io) (HM : in_medium io w).
Let bd := desc_bdev (io_desc io).
Let off := bytes_of_blocks bd (io_offset_blocks io).
Let n := bytes_of_blocks bd (io_num_blocks io).

Lemma transfer_read_heap l boff b Q :
  io_type io = IO_READ -> io_buf io = BufHeap l boff -> w_heap w !! l = Some (OBytes b) ->
  (boff + n <= length b)%nat ->
  Q IO_STATUS_SUCCESS (w <| w_heap := <[l := OBytes (splice boff (slice off n (w_disk w)) b)]> (w_heap w) |>) ->
  wp (device_transfer iod io) w Q.
Proof.
  intros Ht Hb Hl Hlen HQ. unfold device_transfer. rewrite Ht, Hb. pose proof (in_medium_bytes _ _ HM).
  wstep. apply disk_read_wp; [done|]. wstep. unfold buf_write. eapply wp_heap_memcpy; [done| |by wsteps].
  rewrite length_slice by done. done.
Qed.

Lemma transfer_read_req rid cnt r Q :
  io_type io = IO_READ -> io_buf io = BufReq rid cnt -> w_reqs w !! rid = Some r ->
  (Z.to_nat cnt <= length (req_iov r))%nat -> (n <= length (flat (take (Z.to_nat cnt) (req_iov r))))%nat ->
  (forall iovs', iov_len <$> iovs' = iov_len <$> req_iov r ->
     flat iovs' = splice 0 (slice off n (w_disk w)) (flat (req_iov r)) ->
     Q IO_STATUS_SUCCESS (w <| w_reqs := <[rid := r <| req_iov := iovs' |>]> (w_reqs w) |>)) ->
  wp (device_transfer iod io) w Q.
Proof.
  intros Ht Hb Hr Hc Hlen HQ. unfold device_transfer. rewrite Ht, Hb. pose proof (in_medium_bytes _ _ HM) as Hin.
  wstep. apply disk_read_wp; [done|]. wstep. unfold buf_write. wsteps.
  fold bd off n in Hin |- *. assert (Hsl : length (slice off n (w_disk w)) = n) by (by apply length_slice).
  apply wp_massert. { apply Nat.leb_le. by rewrite Hsl. }
  destruct (copy_buf_to_iovs_flat (req_iov r) (Z.to_nat cnt) (slice off n (w_disk w))
              (length (slice off n (w_disk w)))) as (iovs' & E & El & Ef); [done..|].
  wsteps. apply HQ; [done|]. rewrite Ef. f_equal. rewrite Nat.min_l by (by rewrite Hsl). by rewrite take_ge.
Qed.

Lemma transfer_write_heap l boff b Q :
  io_type io = IO_WRITE -> io_buf io = BufHeap l boff -> w_heap w !! l = Some (OBytes b) ->
  (boff + n <= length b)%nat ->
  Q IO_STATUS_SUCCESS (w <| w_disk := splice off (slice boff n b) (w_disk w) |>) ->
  wp (device_transfer iod io) w Q.
Proof.
  intros Ht Hb Hl Hlen HQ. unfold device_transfer. rewrite Ht, Hb. pose proof (in_medium_bytes _ _ HM).
  wstep. unfold buf_read. wsteps. apply wp_massert; [by apply Nat.leb_le|]. wsteps.
  apply disk_write_wp; [|by wsteps]. fold bd off n. rewrite length_slice by done. done.
Qed.

Lemma transfer_write_req rid cnt r Q :
  io_type io = IO_WRITE -> io_buf io = BufReq rid cnt -> w_reqs w !! rid = Some r ->
  (n <= length (flat (take (Z.to_nat cnt) (req_iov r))))%nat ->
  Q IO_STATUS_SUCCESS (w <| w_disk := splice off (take n (flat (take (Z.to_nat cnt) (req_iov r)))) (w_disk w) |>) ->
  wp (device_transfer iod io) w Q.
Proof.
  intros Ht Hb Hr Hlen HQ. unfold device_transfer. rewrite Ht, Hb. pose proof (in_medium_bytes _ _ HM).
  wstep. unfold buf_read. wsteps. apply wp_massert; [by apply Nat.leb_le|]. wsteps.
  apply disk_write_wp; [|by wsteps]. change (off + n <= length (w_disk w))%nat in H.
  fold bd off n. rewrite length_take. lia.
Qed.

End Transfer.

(** A vectored read into a request that succeeds. *)
Lemma vector_read_wp w iod io rid cnt r (Q : unit -> world -> Prop) :
  w_ios w !! iod = Some io -> io_status io = IO_STATUS_PENDING -> io_type io = IO_READ ->
  io_buf io = BufReq rid cnt -> w_reqs w !! rid = Some r -> in_medium io w ->
  (Z.to_nat cnt <= length (req_iov r))%nat ->
  (bytes_of_blocks (desc_bdev (io_desc io)) (io_num_blocks io) <= length (flat (take (Z.to_nat cnt) (req_iov r))))%nat ->
  (forall iovs', iov_len <$> iovs' = iov_len <$> req_iov r ->
     flat iovs' = splice 0 (slice (bytes_of_blocks (desc_bdev (io_desc io)) (io_offset_blocks io))
                              (bytes_of_blocks (desc_bdev (io_desc io)) (io_num_blocks io)) (w_disk w)) (flat (req_iov r)) ->
     Q tt (w <| w_reqs := <[rid := r <| req_iov := iovs' |>]> (w_reqs w) |>
             <| w_ios := <[iod := finished io device_ok IO_STATUS_SUCCESS]> (w_ios w) |>)) ->
  wp (device_complete iod device_ok) w Q.
Proof.
  intros Hio Hp Ht Hb Hr HM Hc Hl HQ. eapply device_complete_wp; [done|done|done| |done]. intros _.
  eapply (transfer_read_req _ _ _ HM rid cnt r); [done..|]. intros iovs El Ef.
  eexists. split; [exact Hio|]. by apply HQ.
Qed.

(** *** Conversion and range *)

(** A device whose geometry is in the width of its fields. *)
Definition geometry_ok (b : spdk_bdev) : Prop := 0 < blocklen b < 2 ^ 32 /\ 0 <= blockcnt b < 2 ^ 64.

(** The shift path computes the division. *)
Lemma bytes_to_blocks_div b offset nbytes :
  geometry_ok b -> 0 <= offset < 2 ^ 64 -> 0 <= nbytes < 2 ^ 64 ->
  bdev_bytes_to_blocks b offset nbytes =
    (offset / blocklen b, nbytes / blocklen b,
     Z.lor (offset mod blocklen b) (nbytes mod blocklen b)).
Proof.
  intros [Hb _] Ho Hn. unfold bdev_bytes_to_blocks.
  destruct (spdk_u32_is_pow2 (blocklen b)) eqn:E; [|done].
  destruct (u32_is_pow2_spec (blocklen b)) as [Ep _]; [lia|done|].
  set (k := spdk_u32log2 (blocklen b)) in *.
  assert (0 <= k). { unfold k, spdk_u32log2. case_match; [done|apply Z.log2_nonneg]. }
  cbv zeta. rewrite !shift_remainder by done. by rewrite !Z.shiftr_div_pow2, <- Ep by done.
Qed.

Lemma remainder_zero b x y : 0 < b ->
  Z.lor (x mod b) (y mod b) = 0 <-> (b | x) /\ (b | y).
Proof.
  intros Hb. pose proof (Z.mod_pos_bound x b Hb). pose proof (Z.mod_pos_bound y b Hb).
  rewrite lor_zero by lia. rewrite !Z.mod_divide by lia. done.
Qed.

Lemma valid_blocks_iff b offset_blocks num_blocks :
  geometry_ok b -> 0 <= offset_blocks < 2 ^ 64 -> 0 <= num_blocks < 2 ^ 64 ->
  bdev_io_valid_blocks b offset_blocks num_blocks = true <-> offset_blocks + num_blocks <= blockcnt b.
Proof.
  intros [_ Hc] Ho Hn. unfold bdev_io_valid_blocks.
  destruct (u64_add_cases offset_blocks num_blocks) as [[? ->]|(?&->&?)]; [lia|lia| |];
    zcases; split; try done; lia.
Qed.

(** A byte range that is aligned and on the device. *)
Definition byte_range_ok (b : spdk_bdev) (offset nbytes : Z) : Prop :=
  (blocklen b | offset) /\ (blocklen b | nbytes) /\ offset + nbytes <= blockcnt b * blocklen b.

Lemma aligned_range b offset nbytes : geometry_ok b -> 0 <= offset < 2 ^ 64 -> 0 <= nbytes < 2 ^ 64 ->
  (blocklen b | offset) -> (blocklen b | nbytes) ->
  bdev_io_valid_blocks b (offset / blocklen b) (nbytes / blocklen b) = true
  <-> offset + nbytes <= blockcnt b * blocklen b.
Proof.
  intros HG Ho Hn [x ->] [y ->]. pose proof HG as [Hb Hc].
  rewrite !Z.div_mul by lia. rewrite valid_blocks_iff; [|done|nia..]. nia.
Qed.

(** An accepted read or write. *)
Definition byte_io (t : spdk_bdev_io_type) (desc : spdk_bdev_desc) (cb : spdk_bdev_io_completion_cb)
    (arg : cb_argument) (buf : io_buffer) (offset nbytes : Z) : spdk_bdev_io :=
  with_range (offset / blocklen (desc_bdev desc)) (nbytes / blocklen (desc_bdev desc))
    (bdev_io_init t desc cb arg) <| io_buf := buf |>.

Section ByteIo.
Context (desc : spdk_bdev_desc) (cb : spdk_bdev_io_completion_cb) (arg : cb_argument) (buf : io_buffer).
Context (offset nbytes : Z) (w : world) (m : spdk_bdev_mgmt_channel).
Hypothesis HG : geometry_ok (desc_bdev desc).
Hypothesis Ho : 0 <= offset < 2 ^ 64.
Hypothesis Hn : 0 <= nbytes < 2 ^ 64.
Hypothesis HR : byte_range_ok (desc_bdev desc) offset nbytes.

Lemma byte_range_blocks :
  bdev_bytes_to_blocks (desc_bdev desc) offset nbytes
    = (offset / blocklen (desc_bdev desc), nbytes / blocklen (desc_bdev desc), 0) /\
  bdev_io_valid_blocks (desc_bdev desc) (offset / blocklen (desc_bdev desc))
    (nbytes / blocklen (desc_bdev desc)) = true.
Proof.
  destruct HR as (H1&H2&H3). split; [|by apply aligned_range].
  rewrite bytes_to_blocks_div by done. f_equal. destruct HG. apply remainder_zero; [lia|done].
Qed.

Lemma spdk_bdev_read_wp (Q : Z -> world -> Prop) :
  take_io (w_mgmt w) = Some m -> Q 0 (submitted (byte_io IO_READ desc cb arg buf offset nbytes) m w) ->
  wp (spdk_bdev_read desc cb arg buf offset nbytes) w Q.
Proof.
  intros Hm HQ. destruct byte_range_blocks as [E1 E2]. unfold spdk_bdev_read. rewrite E1. cbn [negb Z.eqb].
  unfold spdk_bdev_read_blocks, bdev_read_blocks_with_md. rewrite E2. cbn [negb].
  apply bdev_submit_wp. by rewrite Hm.
Qed.

Lemma spdk_bdev_write_wp (Q : Z -> world -> Prop) :
  desc_write desc = true ->
  take_io (w_mgmt w) = Some m -> Q 0 (submitted (byte_io IO_WRITE desc cb arg buf offset nbytes) m w) ->
  wp (spdk_bdev_write desc cb arg buf offset nbytes) w Q.
Proof.
  intros Hw Hm HQ. destruct byte_range_blocks as [E1 E2]. unfold spdk_bdev_write. rewrite E1. cbn [negb Z.eqb].
  unfold spdk_bdev_write_blocks, bdev_write_blocks_with_md. rewrite E2, Hw. cbn [negb].
  apply bdev_submit_wp. by rewrite Hm.
Qed.

Lemma byte_io_bytes t :
  bytes_of_blocks (desc_bdev desc) (io_offset_blocks (byte_io t desc cb arg buf offset nbytes)) = Z.to_nat offset /\
  bytes_of_blocks (desc_bdev desc) (io_num_blocks (byte_io t desc cb arg buf offset nbytes)) = Z.to_nat nbytes.
Proof.
  destruct HG as [Hb _], HR as ([x ->]&[y ->]&_). unfold bytes_of_blocks, byte_io, with_range. wsimp.
  rewrite !Z.div_mul by lia. done.
Qed.

Lemma byte_io_in_medium t (w' : world) :
  Z.to_nat (blockcnt (desc_bdev desc) * blocklen (desc_bdev desc)) = length (w_disk w') ->
  in_medium (byte_io t desc cb arg buf offset nbytes) w'.
Proof.
  intros Hd. destruct HG as [Hb Hc], HR as ([x ->]&[y ->]&H3). unfold in_medium, byte_io, with_range. wsimp.
  cbn [io_desc bdev_io_init]. rewrite !Z.div_mul by lia. repeat split; try done; nia.
Qed.

(** The device completes it. *)
Lemma complete_byte_read_wp iod l boff b (Q : unit -> world -> Prop) :
  let io := byte_io IO_READ desc cb arg buf offset nbytes in
  buf = BufHeap l boff -> w_ios w !! iod = Some io -> w_heap w !! l = Some (OBytes b) ->
  Z.to_nat (blockcnt (desc_bdev desc) * blocklen (desc_bdev desc)) = length (w_disk w) ->
  (boff + Z.to_nat nbytes <= length b)%nat ->
  Q tt (w <| w_heap := <[l := OBytes (splice boff (slice (Z.to_nat offset) (Z.to_nat nbytes) (w_disk w)) b)]> (w_heap w) |>
          <| w_ios := <[iod := finished io device_ok IO_STATUS_SUCCESS]> (w_ios w) |>) ->
  wp (device_complete iod device_ok) w Q.
Proof.
  intros io Eb Hio Hl Hd Hlen HQ. destruct (byte_io_bytes IO_READ) as [E1 E2].
  fold io in E1, E2. eapply device_complete_wp; [done..| |done]. intros _.
  eapply (transfer_read_heap _ _ _ (byte_io_in_medium IO_READ w Hd) l boff b); [done..| |].
  { change (boff + bytes_of_blocks (desc_bdev desc) (io_num_blocks io) <= length b)%nat. by rewrite E2. }
  eexists. split; [exact Hio|]. fold io. change (desc_bdev (io_desc io)) with (desc_bdev desc).
  rewrite E1, E2. exact HQ.
Qed.

Lemma complete_byte_write_wp iod l boff b (Q : unit -> world -> Prop) :
  let io := byte_io IO_WRITE desc cb arg buf offset nbytes in
  buf = BufHeap l boff -> w_ios w !! iod = Some io -> w_heap w !! l = Some (OBytes b) ->
  Z.to_nat (blockcnt (desc_bdev desc) * blocklen (desc_bdev desc)) = length (w_disk w) ->
  (boff + Z.to_nat nbytes <= length b)%nat ->
  Q tt (w <| w_disk := splice (Z.to_nat offset) (slice boff (Z.to_nat nbytes) b) (w_disk w) |>
          <| w_ios := <[iod := finished io device_ok IO_STATUS_SUCCESS]> (w_ios w) |>) ->
  wp (device_complete iod device_ok) w Q.
Proof.
  intros io Eb Hio Hl Hd Hlen HQ. destruct (byte_io_bytes IO_WRITE) as [E1 E2].
  fold io in E1, E2. eapply device_complete_wp; [done..| |done]. intros _.
  eapply (transfer_write_heap _ _ _ (byte_io_in_medium IO_WRITE w Hd) l boff b); [done..| |].
  { change (boff + bytes_of_blocks (desc_bdev desc) (io_num_blocks io) <= length b)%nat. by rewrite E2. }
  eexists. split; [exact Hio|]. fold io. change (desc_bdev (io_desc io)) with (desc_bdev desc).
  rewrite E1, E2. exact HQ.
Qed.

End ByteIo.

(** ** Properties *)

(** The fast path of the conversion from bytes to blocks agrees with
    division: on every block size, power of two or not, the results are the
    quotients, and the value returned is zero exactly when both byte counts
    are multiples of the block size. *)
Theorem bdev_bytes_to_blocks_correct b offset nbytes
    (HG : geometry_ok b) (Ho : 0 <= offset < 2 ^ 64) (Hn : 0 <= nbytes < 2 ^ 64) :
  exists rc, bdev_bytes_to_blocks b offset nbytes = (offset / blocklen b, nbytes / blocklen b, rc) /\
    (rc = 0 <-> (blocklen b | offset) /\ (blocklen b | nbytes)).
Proof.
  eexists. split; [by apply bytes_to_blocks_div|]. destruct HG as [Hb _]. apply remainder_zero. lia.
Qed.

Lemma bdev_bytes_to_blocks_correct_witness :
  exists rc, bdev_bytes_to_blocks demo_bdev 1024 513 = (1024 / 512, 513 / 512, rc) /\
    (rc = 0 <-> (512 | 1024) /\ (512 | 513)).
Proof. apply (bdev_bytes_to_blocks_correct demo_bdev); [split|..]; cbn; lia. Defined.

(** C28. The byte interface accepts exactly the ranges the device has: for any
    64-bit offset and count, a read (and, on a writable descriptor, a write)
    is refused with [-EINVAL], leaving everything as it was, if and only if
    the range is misaligned or does not end on the device, whatever the
    wrap-around of the sum; otherwise it is submitted for exactly that range,
    or refused with [-ENOMEM] when no I/O object is free. *)
Theorem bdev_byte_interface_exact desc cb arg buf offset nbytes w
    (HG : geometry_ok (desc_bdev desc)) (Ho : 0 <= offset < 2 ^ 64) (Hn : 0 <= nbytes < 2 ^ 64) :
  let b := desc_bdev desc in
  let io t := with_range (offset / blocklen b) (nbytes / blocklen b) (bdev_io_init t desc cb arg)
                <| io_buf := buf |> in
  let post t rc w' :=
    (rc = - EINVAL /\ ~ byte_range_ok b offset nbytes /\ w' = w) \/
    (rc = - ENOMEM /\ byte_range_ok b offset nbytes /\ take_io (w_mgmt w) = None /\ w' = w) \/
    (rc = 0 /\ byte_range_ok b offset nbytes /\
       exists m, take_io (w_mgmt w) = Some m /\ w' = submitted (io t) m w) in
  wp (spdk_bdev_read desc cb arg buf offset nbytes) w (post IO_READ) /\
  wp (spdk_bdev_write desc cb arg buf offset nbytes) w (fun rc w' =>
    if desc_write desc then post IO_WRITE rc w'
    else (rc = - EINVAL \/ rc = - EBADF) /\ w' = w).
Proof.
  intros b io post. pose proof HG as [Hb _]. fold b in Hb.
  unfold spdk_bdev_read, spdk_bdev_write. rewrite bytes_to_blocks_div by done. fold b.
  destruct (Z.eqb_spec (Z.lor (offset mod blocklen b) (nbytes mod blocklen b)) 0) as [E|E]; cbn [negb].
  - apply remainder_zero in E as [Hd1 Hd2]; [|lia].
    pose proof (aligned_range b offset nbytes HG Ho Hn Hd1 Hd2) as HV.
    unfold spdk_bdev_read_blocks, bdev_read_blocks_with_md, spdk_bdev_write_blocks, bdev_write_blocks_with_md.
    fold b. destruct (bdev_io_valid_blocks _ _ _); cbn [negb].
    + assert (HR : byte_range_ok b offset nbytes) by (split; [|split]; tauto).
      split; [|destruct (desc_write desc); cbn [negb]; [|wsteps; auto]].
      all: apply bdev_submit_wp; unfold post; destruct (take_io (w_mgmt w)); eauto 10.
    + assert (HR : ~ byte_range_ok b offset nbytes) by (intros (_&_&?); naive_solver).
      split; [wsteps; by left|]. destruct (desc_write desc); cbn [negb]; wsteps; [by left|auto].
  - assert (HR : ~ byte_range_ok b offset nbytes).
    { intros (H1&H2&_). apply E, remainder_zero; [lia|done]. }
    split; wsteps; [by left|]. destruct (desc_write desc); [by left|auto].
Qed.

Lemma bdev_byte_interface_exact_witness :
  let w := demo_world [] [] 0 SPDK_NVMF_SUBSYSTEM_ACTIVE [] in
  let io t := with_range (512 / 512) (1024 / 512)
                (bdev_io_init t demo_desc nvmf_bdev_ctrlr_complete_cmd_cb (ArgReq 0))
                <| io_buf := BufHeap 0 0 |> in
  let post t rc w' :=
    (rc = - EINVAL /\ ~ byte_range_ok demo_bdev 512 1024 /\ w' = w) \/
    (rc = - ENOMEM /\ byte_range_ok demo_bdev 512 1024 /\ take_io (w_mgmt w) = None /\ w' = w) \/
    (rc = 0 /\ byte_range_ok demo_bdev 512 1024 /\
       exists m, take_io (w_mgmt w) = Some m /\ w' = submitted (io t) m w) in
  wp (spdk_bdev_read demo_desc nvmf_bdev_ctrlr_complete_cmd_cb (ArgReq 0) (BufHeap 0 0) 512 1024) w (post IO_READ)
  /\ wp (spdk_bdev_write demo_desc nvmf_bdev_ctrlr_complete_cmd_cb (ArgReq 0) (BufHeap 0 0) 512 1024) w
       (fun rc w' => if desc_write demo_desc then post IO_WRITE rc w'
                     else (rc = - EINVAL \/ rc = - EBADF) /\ w' = w).
Proof. intros w. apply (bdev_byte_interface_exact demo_desc); [split|..]; cbn; lia. Defined.

(** A caller is never lost for want of an I/O object: either the operation
    is submitted, or the caller can wait and is queued behind those already
    waiting; and while others wait for the thread's empty cache a newcomer
    does not take an object of the global pool ahead of them. *)
Theorem bdev_enomem_waits w io e :
  wp (rc ← bdev_submit io; if rc =? - ENOMEM then spdk_bdev_queue_io_wait e else mret rc) w (fun rc w' =>
    let served := w_ios w' = <[w_next w := io]> (w_ios w) /\
                  io_wait_queue (w_mgmt w') = io_wait_queue (w_mgmt w) /\ pool_total w' = pool_total w in
    let waits := w_ios w' = w_ios w /\ io_wait_queue (w_mgmt w') = (io_wait_queue (w_mgmt w) ++ [e])%list in
    rc = 0 /\ (w_ios w !! w_next w = None -> served \/ waits) /\
    (io_wait_queue (w_mgmt w) <> [] -> per_thread_cache_count (w_mgmt w) = 0%nat -> waits)).
Proof.
  wstep. apply bdev_submit_wp. destruct (take_io (w_mgmt w)) as [m|] eqn:E.
  - wsteps. destruct (take_io_total _ _ E) as [Ht Hq]. split; [done|]. split.
    + intros Hf. left. split; [done|]. split; [done|]. unfold pool_total, submitted. wsimp.
      rewrite map_size_insert_None by done. lia.
    + intros Hne H0. unfold take_io in E. rewrite H0 in E. destruct (io_wait_queue (w_mgmt w)); done.
  - rewrite Z.eqb_refl. unfold spdk_bdev_queue_io_wait. wsteps.
    destruct (Nat.ltb_spec 0 (per_thread_cache_count (w_mgmt w))) as [Hlt|_].
    { exfalso. unfold take_io in E. by destruct (per_thread_cache_count (w_mgmt w)); [lia|]. }
    wsteps. split; [done|]. split; intros; [right|]; done.
Qed.


(** What is written is read back: a buffer written to an accepted range of
    the device and then read from that range into another buffer, the device
    completing both operations, arrives unchanged. *)
Theorem bdev_write_read_roundtrip w desc cb arg l l' b b' offset m m'
    (HG : geometry_ok (desc_bdev desc)) (Ho : 0 <= offset < 2 ^ 64)
    (Hn : blen b < 2 ^ 64) (HR : byte_range_ok (desc_bdev desc) offset (blen b)) (Hw : desc_write desc = true)
    (Hd : Z.to_nat (blockcnt (desc_bdev desc) * blocklen (desc_bdev desc)) = length (w_disk w))
    (Hl : w_heap w !! l = Some (OBytes b)) (Hl' : w_heap w !! l' = Some (OBytes b'))
    (Hb' : length b' = length b)
    (Hm : take_io (w_mgmt w) = Some m) (Hm' : take_io m = Some m') :
  wp (spdk_bdev_write desc cb arg (BufHeap l 0) offset (blen b);;
      device_complete (w_next w) device_ok;;
      spdk_bdev_read desc cb arg (BufHeap l' 0) offset (blen b);;
      device_complete (S (w_next w)) device_ok) w
    (fun _ w' => w_heap w' !! l' = Some (OBytes b)).
Proof.
  assert (Hn' : 0 <= blen b < 2 ^ 64) by (unfold blen in *; lia).
  assert (HRl : (Z.to_nat offset + length b <= length (w_disk w))%nat).
  { destruct HR as (_&_&HR). unfold blen in HR. lia. }
  wstep. eapply spdk_bdev_write_wp; [done..|]. unfold submitted. wsteps.
  eapply (complete_byte_write_wp desc cb arg (BufHeap l 0) offset (blen b)); try done; wsimp;
    [by simplify_map_eq|unfold blen; lia|]. wsteps.
  assert (Hb : slice 0 (Z.to_nat (blen b)) b = b). { unfold blen. rewrite Nat2Z.id. apply slice_all. }
  rewrite Hb. eapply spdk_bdev_read_wp; [done..|]. unfold submitted. wsteps.
  eapply (complete_byte_read_wp desc cb arg (BufHeap l' 0) offset (blen b)); try done; wsimp;
    [by simplify_map_eq|by rewrite length_splice|unfold blen; lia|].
  rewrite lookup_insert_eq. do 2 f_equal. unfold blen. rewrite Nat2Z.id, slice_splice_same by done.
  by apply splice_all.
Qed.

(** A target with two buffers of one block. *)
Definition demo_buffers : world :=
  (demo_world [] [] 0 SPDK_NVMF_SUBSYSTEM_ACTIVE (replicate 4096 0))
    <| w_heap := {[ 0%nat := OBytes (replicate 512 7); 1%nat := OBytes (replicate 512 0) ]} |>
    <| w_next := 2%nat |>.

Lemma bdev_write_read_roundtrip_witness :
  wp (spdk_bdev_write demo_desc nvmf_bdev_ctrlr_complete_cmd_cb (ArgReq 0) (BufHeap 0 0) 1024 512;;
      device_complete 2 device_ok;;
      spdk_bdev_read demo_desc nvmf_bdev_ctrlr_complete_cmd_cb (ArgReq 0) (BufHeap 1 0) 1024 512;;
      device_complete 3 device_ok) demo_buffers
    (fun _ w' => w_heap w' !! 1%nat = Some (OBytes (replicate 512 7))).
Proof.
  apply (bdev_write_read_roundtrip demo_buffers demo_desc nvmf_bdev_ctrlr_complete_cmd_cb (ArgReq 0) 0 1
    (replicate 512 7) (replicate 512 0) 1024 (MgmtCh 3 4 4 []) (MgmtCh 2 4 4 []));
    try reflexivity; try lia.
  - split; cbn; lia.
  - unfold byte_range_ok. change (blen (replicate 512 7)) with 512. cbn. repeat split; try lia.
    + by exists 2.
    + by exists 1.
Defined.
