(* ===== verification/CtrlrBdev.v ===== *)
(** * Standard commands on a block device: [spdk/lib/nvmf/ctrlr_bdev.c]

    One definition per handler: it checks the command against the device and
    the request, submits an operation whose callback answers the request, or
    sets a status and returns [COMPLETE] for the caller to answer.  When no
    I/O object is free the request waits and the command is processed again. *)
From S2P Require Import Prelude NvmeSpec Iov World Request Bdev.

(** ** Capabilities and identification *)

(** The namespaces that exist, in order. *)
Definition nvmf_subsystem_bdev_io_type_supported (s : spdk_nvmf_subsystem) (t : spdk_bdev_io_type) : bool :=
  forallb (fun o => match o with
    | Some ns => match ns_bdev ns with Some b => spdk_bdev_io_type_supported b t | None => true end
    | None => true
    end) (subsys_ns s).

Definition nvmf_ctrlr_dsm_supported (s : spdk_nvmf_subsystem) : bool :=
  nvmf_subsystem_bdev_io_type_supported s IO_UNMAP.
Definition nvmf_ctrlr_write_zeroes_supported (s : spdk_nvmf_subsystem) : bool :=
  nvmf_subsystem_bdev_io_type_supported s IO_WRITE_ZEROES.
Definition nvmf_ctrlr_copy_supported (s : spdk_nvmf_subsystem) : bool :=
  nvmf_subsystem_bdev_io_type_supported s IO_COPY.
Definition nvmf_bdev_zcopy_enabled (b : spdk_bdev) : bool := spdk_bdev_io_type_supported b IO_ZCOPY.

(** [struct spdk_nvme_ns_data], the members this file writes. *)
Record spdk_nvme_ns_data := NsData {
  nsze : Z; ncap : Z; nuse : Z; nlbaf : Z; flbas_format : Z; flbas_msb_format : Z;
  flbas_extended : Z; nacwu : Z; lbaf0_ms : Z; lbaf0_lbads : Z; mc_extended : Z; mc_pointer : Z;
  dps_md_start : bool; dps_pit : Z; nsfeat_optperf : Z; nsfeat_ns_atomic_write_unit : Z;
  npwg : Z; nawupf : Z; npwa : Z; npdg : Z; npda : Z; noiob : Z; nmic_can_share : Z;
  rescap_persist : Z; rescap_types : Z; nguid : bytes; eui64 : bytes; msrc : Z; mcl : Z; mssrl : Z }.
#[global] Instance eta_nsdata : Eta spdk_nvme_ns_data := fun d =>
  NsData (nsze d) (ncap d) (nuse d) (nlbaf d) (flbas_format d) (flbas_msb_format d)
    (flbas_extended d) (nacwu d) (lbaf0_ms d) (lbaf0_lbads d) (mc_extended d) (mc_pointer d)
    (dps_md_start d) (dps_pit d) (nsfeat_optperf d) (nsfeat_ns_atomic_write_unit d)
    (npwg d) (nawupf d) (npwa d) (npdg d) (npda d) (noiob d) (nmic_can_share d)
    (rescap_persist d) (rescap_types d) (nguid d) (eui64 d) (msrc d) (mcl d) (mssrl d).

(** [ptpl] is [nvmf_ns_is_ptpl_capable (ns)]; [rescap_types] are the seven
    reservation capability bits the function sets. *)
Definition nvmf_bdev_ctrlr_identify_ns (bdev : spdk_bdev) (ptpl : bool) (opt_nguid opt_eui64 : bytes)
    (nsdata : spdk_nvme_ns_data) (dif_insert_or_strip : bool) : option spdk_nvme_ns_data :=
  let num_blocks := spdk_bdev_get_num_blocks bdev in
  let d := nsdata <| nsze := num_blocks |> <| ncap := num_blocks |> <| nuse := num_blocks |>
             <| nlbaf := 0 |> <| flbas_format := 0 |> <| flbas_msb_format := 0 |>
             <| nacwu := u16 (acwu bdev - 1) |> in
  let d :=
    if negb dif_insert_or_strip then
      let d := d <| lbaf0_ms := u16 (md_len bdev) |>
                 <| lbaf0_lbads := u8 (spdk_u32log2 (spdk_bdev_get_block_size bdev)) |> in
      if lbaf0_ms d !=? 0 then
        d <| flbas_extended := 1 |> <| mc_extended := 1 |> <| mc_pointer := 0 |>
          <| dps_md_start := spdk_bdev_is_dif_head_of_md bdev |> <| dps_pit := 0 |>
      else d
    else
      d <| lbaf0_ms := 0 |>
        <| lbaf0_lbads := u8 (spdk_u32log2 (spdk_bdev_get_data_block_size bdev)) |> in
  if negb (0 <? phys_blocklen bdev) then None else
  let p := u16 (Z.shiftr (phys_blocklen bdev) (lbaf0_lbads d) - 1) in
  let d := d <| nsfeat_optperf := 1 |> <| nsfeat_ns_atomic_write_unit := 1 |>
             <| npwg := p |> <| nawupf := p |> <| npwa := p |> <| npdg := p |> <| npda := p |> in
  let d := if write_unit_size bdev =? 1 then d <| noiob := u16 (optimal_io_boundary bdev) |> else d in
  let d := d <| nmic_can_share := 1 |> in
  let d := if ptpl then d <| rescap_persist := 1 |> else d in
  let d := d <| rescap_types := 127 |> <| nguid := opt_nguid |> <| eui64 := opt_eui64 |> <| msrc := 0 |> in
  Some (if (max_copy bdev =? 0) || (UINT16_MAX <? max_copy bdev)
        then d <| mcl := UINT16_MAX |> <| mssrl := UINT16_MAX |>
        else d <| mcl := max_copy bdev |> <| mssrl := max_copy bdev |>).

(** ** Parameters of a command *)

(** First block and number of blocks. *)
Definition nvmf_bdev_ctrlr_get_rw_params (cmd : spdk_nvme_cmd) : Z * Z :=
  (cdw10 cmd + Z.shiftl (cdw11 cmd) 32, Z.land (cdw12 cmd) 0xFFFF + 1).

Definition nvmf_bdev_ctrlr_lba_in_range (bdev_num_blocks io_start_lba io_num_blocks : Z) : bool :=
  negb ((bdev_num_blocks <? u64 (io_start_lba + io_num_blocks))
        || (u64 (io_start_lba + io_num_blocks) <? io_start_lba)).

Definition spdk_nvmf_request_using_zcopy (r : spdk_nvmf_request) : bool :=
  bool_decide (req_zcopy_phase r <> NVMF_ZCOPY_PHASE_NONE).

(** [req->iov] with [req->iovcnt]. *)
Definition req_buffer (rid : nat) (r : spdk_nvmf_request) : io_buffer := BufReq rid (req_iovcnt r).
Definition req_iov0 (r : spdk_nvmf_request) : bool :=
  match req_iov r with Iov (Some _) :: _ => true | _ => false end.

(** ** Completion callbacks *)

Definition get_io (iod : nat) : M spdk_bdev_io := ios ← gets w_ios; need (ios !! iod).

Definition set_response (rid : nat) (cdw0 sct sc : Z) : M unit :=
  set_cdw0 rid cdw0;; set_sc rid sc;; set_sct rid sct.

Definition nvmf_bdev_ctrlr_complete_cmd (iod rid : nat) : M unit :=
  io ← get_io iod;
  r ← get_req rid;
  '(cdw0, sct, sc) ←
    (if req_first_fused r then
       first ← need (req_first_fused_req r);
       let '(cdw0, (first_sct, first_sc), (sct, sc)) := spdk_bdev_io_get_nvme_fused_status io in
       set_response first cdw0 first_sct first_sc;;
       spdk_nvmf_request_complete first;;
       mod_req rid (fun r => r <| req_first_fused_req := None |> <| req_first_fused := false |>);;
       mret (cdw0, sct, sc)
     else mret (spdk_bdev_io_get_nvme_status io));
  set_response rid cdw0 sct sc;;
  spdk_nvmf_request_complete rid;;
  spdk_bdev_free_io iod.

(** [cmd_cb_fn] is code of the embedding application. *)
Definition nvmf_bdev_ctrlr_complete_admin_cmd (cmd_cb_fn : nat -> M unit) (iod rid : nat) : M unit :=
  r ← get_req rid;
  (if req_cmd_cb_fn r then cmd_cb_fn rid else mret tt);;
  nvmf_bdev_ctrlr_complete_cmd iod rid.

Definition nvmf_bdev_ctrlr_complete_abort_cmd (iod rid : nat) : M unit :=
  io ← get_io iod;
  (if bool_decide (io_status io = IO_STATUS_SUCCESS) then
     r ← get_req rid; set_cdw0 rid (Z.ldiff (cdw0 (req_rsp r)) 1)
   else mret tt);;
  spdk_nvmf_request_complete rid;;
  spdk_bdev_free_io iod.

Definition nvmf_bdev_ctrl_queue_io (e : spdk_bdev_io_wait_entry) : M unit :=
  rc ← spdk_bdev_queue_io_wait e;
  massert (rc =? 0);;
  modify (fun w => w <| w_pending_bdev_io := u64 (w_pending_bdev_io w + 1) |>).

(** ** Handlers *)

(** A check that fails the command. *)
Definition fail (rid : nat) (sct sc : Z) : M exec_status := set_status rid sct sc;; mret COMPLETE.

(** What every handler does with the result of its submission: wait for an
    I/O object, report an error, or leave the answer to the callback. *)
Definition after_submit (rid : nat) (rc : Z) (on_error : M unit) : M exec_status :=
  if rc !=? 0 then
    if rc =? - ENOMEM then
      nvmf_bdev_ctrl_queue_io (WaitEntry process_io_cmd_resubmit (ArgReq rid));;
      mret ASYNCHRONOUS
    else on_error;; mret COMPLETE
  else mret ASYNCHRONOUS.

Definition internal_error (rid : nat) : M unit :=
  set_status rid SPDK_NVME_SCT_GENERIC SPDK_NVME_SC_INTERNAL_DEVICE_ERROR.

Definition nvmf_bdev_ctrlr_read_cmd (bdev : spdk_bdev) (desc : spdk_bdev_desc) (rid : nat) : M exec_status :=
  r ← get_req rid;
  let opts := ExtIoOpts (OFFSETOF_ACCEL_SEQUENCE + 8) (req_memory_domain r) None (req_accel_sequence r) in
  let '(start_lba, num_blocks) := nvmf_bdev_ctrlr_get_rw_params (req_cmd r) in
  if negb (nvmf_bdev_ctrlr_lba_in_range (spdk_bdev_get_num_blocks bdev) start_lba num_blocks) then
    fail rid SPDK_NVME_SCT_GENERIC SPDK_NVME_SC_LBA_OUT_OF_RANGE
  else if req_length r <? u64 (num_blocks * spdk_bdev_get_block_size bdev) then
    fail rid SPDK_NVME_SCT_GENERIC SPDK_NVME_SC_DATA_SGL_LENGTH_INVALID
  else
    massert (negb (spdk_nvmf_request_using_zcopy r));;
    rc ← spdk_bdev_readv_blocks_ext desc nvmf_bdev_ctrlr_complete_cmd_cb (ArgReq rid)
           (req_buffer rid r) (req_iov0 r) start_lba num_blocks opts;
    after_submit rid rc (internal_error rid).

Definition nvmf_bdev_ctrlr_write_cmd (bdev : spdk_bdev) (desc : spdk_bdev_desc) (rid : nat) : M exec_status :=
  r ← get_req rid;
  let opts := ExtIoOpts SIZEOF_EXT_IO_OPTS (req_memory_domain r) None (req_accel_sequence r) in
  let '(start_lba, num_blocks) := nvmf_bdev_ctrlr_get_rw_params (req_cmd r) in
  if negb (nvmf_bdev_ctrlr_lba_in_range (spdk_bdev_get_num_blocks bdev) start_lba num_blocks) then
    fail rid SPDK_NVME_SCT_GENERIC SPDK_NVME_SC_LBA_OUT_OF_RANGE
  else if req_length r <? u64 (num_blocks * spdk_bdev_get_block_size bdev) then
    fail rid SPDK_NVME_SCT_GENERIC SPDK_NVME_SC_DATA_SGL_LENGTH_INVALID
  else
    massert (negb (spdk_nvmf_request_using_zcopy r));;
    rc ← spdk_bdev_writev_blocks_ext desc nvmf_bdev_ctrlr_complete_cmd_cb (ArgReq rid)
           (req_buffer rid r) (req_iov0 r) start_lba num_blocks opts;
    after_submit rid rc (internal_error rid).

Definition nvmf_bdev_ctrlr_compare_cmd (bdev : spdk_bdev) (desc : spdk_bdev_desc) (rid : nat) : M exec_status :=
  r ← get_req rid;
  let '(start_lba, num_blocks) := nvmf_bdev_ctrlr_get_rw_params (req_cmd r) in
  if negb (nvmf_bdev_ctrlr_lba_in_range (spdk_bdev_get_num_blocks bdev) start_lba num_blocks) then
    fail rid SPDK_NVME_SCT_GENERIC SPDK_NVME_SC_LBA_OUT_OF_RANGE
  else if req_length r <? u64 (num_blocks * spdk_bdev_get_block_size bdev) then
    fail rid SPDK_NVME_SCT_GENERIC SPDK_NVME_SC_DATA_SGL_LENGTH_INVALID
  else
    rc ← spdk_bdev_comparev_blocks desc nvmf_bdev_ctrlr_complete_cmd_cb (ArgReq rid)
           (req_buffer rid r) start_lba num_blocks;
    after_submit rid rc (internal_error rid).

(** [cmp_rid] is the compare request, [rid] the write request. *)
Definition nvmf_bdev_ctrlr_compare_and_write_cmd (bdev : spdk_bdev) (desc : spdk_bdev_desc)
    (cmp_rid rid : nat) : M exec_status :=
  cr ← get_req cmp_rid;
  r ← get_req rid;
  let '(cmp_start_lba, cmp_num_blocks) := nvmf_bdev_ctrlr_get_rw_params (req_cmd cr) in
  let '(write_start_lba, write_num_blocks) := nvmf_bdev_ctrlr_get_rw_params (req_cmd r) in
  if (write_start_lba !=? cmp_start_lba) || (write_num_blocks !=? cmp_num_blocks) then
    fail rid SPDK_NVME_SCT_GENERIC SPDK_NVME_SC_INVALID_FIELD
  else if negb (nvmf_bdev_ctrlr_lba_in_range (spdk_bdev_get_num_blocks bdev)
                  write_start_lba write_num_blocks) then
    fail rid SPDK_NVME_SCT_GENERIC SPDK_NVME_SC_LBA_OUT_OF_RANGE
  else if req_length r <? u64 (write_num_blocks * spdk_bdev_get_block_size bdev) then
    fail rid SPDK_NVME_SCT_GENERIC SPDK_NVME_SC_DATA_SGL_LENGTH_INVALID
  else
    rc ← spdk_bdev_comparev_and_writev_blocks desc nvmf_bdev_ctrlr_complete_cmd_cb (ArgReq rid)
           (req_buffer cmp_rid cr) (req_buffer rid r) write_start_lba write_num_blocks;
    if rc !=? 0 then
      if rc =? - ENOMEM then
        nvmf_bdev_ctrl_queue_io (WaitEntry process_io_cmd_resubmit (ArgReq cmp_rid));;
        nvmf_bdev_ctrl_queue_io (WaitEntry process_io_cmd_resubmit (ArgReq rid));;
        mret ASYNCHRONOUS
      else internal_error rid;; mret COMPLETE
    else mret ASYNCHRONOUS.

Definition nvmf_bdev_ctrlr_write_zeroes_cmd (bdev : spdk_bdev) (desc : spdk_bdev_desc) (rid : nat) : M exec_status :=
  r ← get_req rid;
  qp ← get_qpair (req_qpair r);
  need (qp_ctrlr qp);;
  s ← gets w_subsys;
  let max := subsys_max_write_zeroes_size_kib s in
  let '(start_lba, num_blocks) := nvmf_bdev_ctrlr_get_rw_params (req_cmd r) in
  if (0 <? max) && (u64 (Z.shiftl max 10) / spdk_bdev_get_block_size bdev <? num_blocks) then
    fail rid SPDK_NVME_SCT_GENERIC SPDK_NVME_SC_INVALID_FIELD
  else if negb (nvmf_bdev_ctrlr_lba_in_range (spdk_bdev_get_num_blocks bdev) start_lba num_blocks) then
    fail rid SPDK_NVME_SCT_GENERIC SPDK_NVME_SC_LBA_OUT_OF_RANGE
  else if write_zeroes_deac (req_cmd r) then
    fail rid SPDK_NVME_SCT_GENERIC SPDK_NVME_SC_INVALID_FIELD
  else
    rc ← spdk_bdev_write_zeroes_blocks desc nvmf_bdev_ctrlr_complete_cmd_cb (ArgReq rid) start_lba num_blocks;
    after_submit rid rc (internal_error rid).

Definition nvmf_bdev_ctrlr_flush_cmd (bdev : spdk_bdev) (desc : spdk_bdev_desc) (rid : nat) : M exec_status :=
  if negb (spdk_bdev_io_type_supported bdev IO_FLUSH) then
    set_status rid SPDK_NVME_SCT_GENERIC SPDK_NVME_SC_SUCCESS;; mret COMPLETE
  else
    rc ← spdk_bdev_flush_blocks desc nvmf_bdev_ctrlr_complete_cmd_cb (ArgReq rid) 0
           (spdk_bdev_get_num_blocks bdev);
    after_submit rid rc (set_sc rid SPDK_NVME_SC_INTERNAL_DEVICE_ERROR).

(** *** Deallocation (Dataset Management) *)

Definition mod_unmap (l : nat) (f : nvmf_bdev_ctrlr_unmap_ctx -> nvmf_bdev_ctrlr_unmap_ctx) : M unit :=
  c ← load_unmap l; store l (OUnmap (f c)).

Definition nvmf_bdev_ctrlr_unmap_cpl (iod l : nat) : M unit :=
  c ← load_unmap l;
  let rid := uc_req c in
  mod_unmap l (fun c => c <| uc_count := u32 (uc_count c - 1) |>);;
  r ← get_req rid;
  (if (sct (status (req_rsp r)) =? SPDK_NVME_SCT_GENERIC)
      && (sc (status (req_rsp r)) =? SPDK_NVME_SC_SUCCESS) then
     io ← get_io iod;
     let '(cdw0, sct, sc) := spdk_bdev_io_get_nvme_status io in
     set_response rid cdw0 sct sc
   else mret tt);;
  c ← load_unmap l;
  (if uc_count c =? 0 then spdk_nvmf_request_complete rid;; free (Some l) else mret tt);;
  spdk_bdev_free_io iod.

(** How the loop over the ranges ends: a status is returned at once, or the
    code after the loop runs. *)
Inductive unmap_exit := UnmapReturn (s : exec_status) | UnmapLoopEnd.

(** The loop body from index [i]; [n] bounds the number of turns. *)
Fixpoint unmap_loop (n : nat) (bdev : spdk_bdev) (desc : spdk_bdev_desc) (rid l : nat)
    (max_discard_size : Z) (ix : spdk_iov_xfer) : M unmap_exit :=
  match n with
  | O => mret UnmapLoopEnd
  | S n =>
      '(ix, range, _) ← need (spdk_iov_xfer_to_buf ix (replicate SIZEOF_DSM_RANGE 0) SIZEOF_DSM_RANGE);
      let lba := dsm_range_starting_lba range in
      let lba_count := dsm_range_length range in
      if (0 <? max_discard_size)
         && (u64 (Z.shiftl max_discard_size 10) / spdk_bdev_get_block_size bdev <? lba_count) then
        set_status rid SPDK_NVME_SCT_GENERIC SPDK_NVME_SC_INVALID_FIELD;;
        mret (UnmapReturn COMPLETE)
      else
        mod_unmap l (fun c => c <| uc_count := u32 (uc_count c + 1) |>);;
        rc ← spdk_bdev_unmap_blocks desc nvmf_bdev_ctrlr_unmap_cpl_cb (ArgCtx l) lba lba_count;
        if rc !=? 0 then
          if rc =? - ENOMEM then
            nvmf_bdev_ctrl_queue_io (WaitEntry unmap_resubmit (ArgCtx l));;
            mret (UnmapReturn ASYNCHRONOUS)
          else
            set_sc rid SPDK_NVME_SC_INTERNAL_DEVICE_ERROR;;
            mod_unmap l (fun c => c <| uc_count := u32 (uc_count c - 1) |>);;
            mret UnmapLoopEnd
        else
          mod_unmap l (fun c => c <| uc_range_index := u32 (uc_range_index c + 1) |>);;
          unmap_loop n bdev desc rid l max_discard_size ix
  end.

Definition nvmf_bdev_ctrlr_unmap (bdev : spdk_bdev) (desc : spdk_bdev_desc) (rid : nat)
    (unmap_ctx : option nat) : M exec_status :=
  r ← get_req rid;
  qp ← get_qpair (req_qpair r);
  need (qp_ctrlr qp);;
  s ← gets w_subsys;
  let nr := dsm_nr (req_cmd r) + 1 in
  if req_length r <? nr * Z.of_nat SIZEOF_DSM_RANGE then
    set_sc rid SPDK_NVME_SC_DATA_SGL_LENGTH_INVALID;; mret COMPLETE
  else
    ctx ← match unmap_ctx with
      | None =>
          p ← malloc (OUnmap (UnmapCtx rid 0 desc bdev 0));
          match p with
          | None => set_sc rid SPDK_NVME_SC_INTERNAL_DEVICE_ERROR;; mret None
          | Some l => set_status rid SPDK_NVME_SCT_GENERIC SPDK_NVME_SC_SUCCESS;; mret (Some l)
          end
      | Some l => mod_unmap l (fun c => c <| uc_count := u32 (uc_count c - 1) |>);; mret (Some l)
      end;
    match ctx with
    | None => mret COMPLETE
    | Some l =>
        c ← load_unmap l;
        x ← unmap_loop (Z.to_nat (nr - uc_range_index c)) bdev desc rid l
              (subsys_max_discard_size_kib s) (spdk_iov_xfer_init (req_iov r) (Z.to_nat (req_iovcnt r)));
        match x with
        | UnmapReturn s => mret s
        | UnmapLoopEnd =>
            c ← load_unmap l;
            if uc_count c =? 0 then free (Some l);; mret COMPLETE else mret ASYNCHRONOUS
        end
    end.

(** The status the handler returns is dropped. *)
Definition nvmf_bdev_ctrlr_unmap_resubmit (l : nat) : M unit :=
  c ← load_unmap l;
  nvmf_bdev_ctrlr_unmap (uc_bdev c) (uc_desc c) (uc_req c) (Some l);;
  mret tt.

Definition nvmf_bdev_ctrlr_dsm_cmd (bdev : spdk_bdev) (desc : spdk_bdev_desc) (rid : nat) : M exec_status :=
  r ← get_req rid;
  if dsm_ad (req_cmd r) then nvmf_bdev_ctrlr_unmap bdev desc rid None
  else set_status rid SPDK_NVME_SCT_GENERIC SPDK_NVME_SC_SUCCESS;; mret COMPLETE.

(** *** Copy, pass-through, abort *)

Definition nvmf_bdev_ctrlr_copy_cmd (bdev : spdk_bdev) (desc : spdk_bdev_desc) (rid : nat) : M exec_status :=
  r ← get_req rid;
  let cmd := req_cmd r in
  let sdlba := u64 (u64 (Z.shiftl (cdw11 cmd) 32) + cdw10 cmd) in
  if req_length r !=? (copy_nr cmd + 1) * Z.of_nat SIZEOF_SCC_SOURCE_RANGE then
    fail rid SPDK_NVME_SCT_GENERIC SPDK_NVME_SC_DATA_SGL_LENGTH_INVALID
  else if 0 <? copy_nr cmd then
    fail rid SPDK_NVME_SCT_COMMAND_SPECIFIC SPDK_NVME_SC_CMD_SIZE_LIMIT_SIZE_EXCEEDED
  else if copy_df cmd !=? 0 then
    fail rid SPDK_NVME_SCT_GENERIC SPDK_NVME_SC_INVALID_FIELD
  else
    '(_, range, _) ← need (spdk_iov_xfer_to_buf
        (spdk_iov_xfer_init (req_iov r) (Z.to_nat (req_iovcnt r)))
        (replicate SIZEOF_SCC_SOURCE_RANGE 0) SIZEOF_SCC_SOURCE_RANGE);
    rc ← spdk_bdev_copy_blocks desc nvmf_bdev_ctrlr_complete_cmd_cb (ArgReq rid)
           sdlba (scc_range_slba range) (scc_range_nlb range + 1);
    after_submit rid rc (internal_error rid).

Definition nvmf_bdev_ctrlr_nvme_passthru_io (bdev : spdk_bdev) (desc : spdk_bdev_desc) (rid : nat) : M exec_status :=
  r ← get_req rid;
  rc ← spdk_bdev_nvme_iov_passthru_md desc nvmf_bdev_ctrlr_complete_cmd_cb (ArgReq rid)
         (req_cmd r) (req_buffer rid r);
  after_submit rid rc
    (set_status rid SPDK_NVME_SCT_GENERIC SPDK_NVME_SC_INVALID_OPCODE;; set_dnr rid 1).

Definition spdk_nvmf_bdev_ctrlr_nvme_passthru_admin (bdev : spdk_bdev) (desc : spdk_bdev_desc) (rid : nat)
    (has_cb_fn : bool) : M exec_status :=
  r ← get_req rid;
  if 1 <? req_iovcnt r then
    set_status rid SPDK_NVME_SCT_GENERIC SPDK_NVME_SC_INTERNAL_DEVICE_ERROR;; set_dnr rid 1;; mret COMPLETE
  else
    mod_req rid (fun r => r <| req_cmd_cb_fn := has_cb_fn |>);;
    rc ← spdk_bdev_nvme_admin_passthru desc nvmf_bdev_ctrlr_complete_admin_cmd_cb (ArgReq rid)
           (req_cmd r) (BufReq rid 1);
    if rc !=? 0 then
      if rc =? - ENOMEM then
        nvmf_bdev_ctrl_queue_io (WaitEntry process_admin_cmd_resubmit (ArgReq rid));; mret ASYNCHRONOUS
      else
        set_sct rid SPDK_NVME_SCT_GENERIC;;
        (if rc =? - ENOTSUP then set_sc rid SPDK_NVME_SC_INVALID_OPCODE
         else set_sc rid SPDK_NVME_SC_INTERNAL_DEVICE_ERROR);;
        set_dnr rid 1;; mret COMPLETE
    else mret ASYNCHRONOUS.

Definition spdk_nvmf_bdev_ctrlr_abort_cmd (bdev : spdk_bdev) (desc : spdk_bdev_desc) (rid : nat)
    (req_to_abort : option nat) : M exec_status :=
  r ← get_req rid;
  massert (Z.land (cdw0 (req_rsp r)) 1 !=? 0);;
  rc ← spdk_bdev_abort desc nvmf_bdev_ctrlr_complete_abort_cmd_cb (ArgReq rid) req_to_abort;
  if rc =? 0 then mret ASYNCHRONOUS
  else if rc =? - ENOMEM then
    nvmf_bdev_ctrl_queue_io (WaitEntry process_admin_cmd_resubmit (ArgReq rid));; mret ASYNCHRONOUS
  else mret COMPLETE.

(** *** Zero copy *)

Definition NVMF_REQ_MAX_BUFFERS : nat := 33.

Definition nvmf_bdev_ctrlr_zcopy_start_complete (iod rid : nat) : M unit :=
  io ← get_io iod;
  if bool_decide (io_status io <> IO_STATUS_SUCCESS) then
    let '(cdw0, sct, sc) := spdk_bdev_io_get_nvme_status io in
    set_response rid cdw0 sct sc;;
    spdk_bdev_free_io iod;;
    spdk_nvmf_request_complete rid
  else
    let iovcnt := length (io_iovs io) in
    massert (iovcnt <=? NVMF_REQ_MAX_BUFFERS)%nat;;
    massert (0 <? iovcnt)%nat;;
    mod_req rid (fun r => r <| req_iovcnt := Z.of_nat iovcnt |> <| req_zcopy_bdev_io := Some iod |>);;
    spdk_nvmf_request_complete rid.

Definition nvmf_bdev_ctrlr_zcopy_start (bdev : spdk_bdev) (desc : spdk_bdev_desc) (rid : nat) : M exec_status :=
  r ← get_req rid;
  let '(start_lba, num_blocks) := nvmf_bdev_ctrlr_get_rw_params (req_cmd r) in
  if negb (nvmf_bdev_ctrlr_lba_in_range (spdk_bdev_get_num_blocks bdev) start_lba num_blocks) then
    fail rid SPDK_NVME_SCT_GENERIC SPDK_NVME_SC_LBA_OUT_OF_RANGE
  else if req_length r <? u64 (num_blocks * spdk_bdev_get_block_size bdev) then
    fail rid SPDK_NVME_SCT_GENERIC SPDK_NVME_SC_DATA_SGL_LENGTH_INVALID
  else
    rc ← spdk_bdev_zcopy_start desc nvmf_bdev_ctrlr_zcopy_start_complete_cb (ArgReq rid)
           (req_buffer rid r) start_lba num_blocks (opc (req_cmd r) =? SPDK_NVME_OPC_READ);
    after_submit rid rc (internal_error rid).

Definition nvmf_bdev_ctrlr_zcopy_end_complete (iod rid : nat) : M unit :=
  io ← get_io iod;
  (if bool_decide (io_status io <> IO_STATUS_SUCCESS) then
     let '(cdw0, sct, sc) := spdk_bdev_io_get_nvme_status io in
     set_response rid cdw0 sct sc
   else mret tt);;
  spdk_bdev_free_io iod;;
  mod_req rid (fun r => r <| req_zcopy_bdev_io := None |>);;
  spdk_nvmf_request_complete rid.

Definition nvmf_bdev_ctrlr_zcopy_end (rid : nat) (commit : bool) : M unit :=
  r ← get_req rid;
  iod ← need (req_zcopy_bdev_io r);
  rc ← spdk_bdev_zcopy_end nvmf_bdev_ctrlr_zcopy_end_complete_cb (ArgReq rid) iod commit;
  massert (rc =? 0).

(** ** Lemmas *)

Lemma rw_params_range cmd : cmd_ok cmd ->
  let '(s, n) := nvmf_bdev_ctrlr_get_rw_params cmd in 0 <= s < 2 ^ 64 /\ 1 <= n <= 65536.
Proof.
  intros (_&_&_&_&H10&H11&H12&_). unfold nvmf_bdev_ctrlr_get_rw_params.
  rewrite Z.shiftl_mul_pow2 by lia. change 0xFFFF with (Z.ones 16).
  rewrite Z.land_ones by lia. pose proof (Z.mod_pos_bound (cdw12 cmd) (2 ^ 16) ltac:(lia)). lia.
Qed.

(** The range check of this file is the one of the block-device layer. *)
Lemma lba_in_range_valid_blocks b s n :
  nvmf_bdev_ctrlr_lba_in_range (spdk_bdev_get_num_blocks b) s n = bdev_io_valid_blocks b s n.
Proof.
  unfold nvmf_bdev_ctrlr_lba_in_range, bdev_io_valid_blocks, spdk_bdev_get_num_blocks.
  destruct (u64 (s + n) <? s), (blockcnt b <? u64 (s + n)); done.
Qed.

Definition waiting (e : spdk_bdev_io_wait_entry) (w : world) : world :=
  w <| w_mgmt := (w_mgmt w) <| io_wait_queue := io_wait_queue (w_mgmt w) ++ [e] |> |>
    <| w_pending_bdev_io := u64 (w_pending_bdev_io w + 1) |>.

Lemma take_io_none m : take_io m = None -> per_thread_cache_count m = 0%nat.
Proof. unfold take_io. by destruct (per_thread_cache_count m). Qed.

Lemma queue_io_wp e w (Q : unit -> world -> Prop) :
  take_io (w_mgmt w) = None -> Q tt (waiting e w) -> wp (nvmf_bdev_ctrl_queue_io e) w Q.
Proof.
  intros Hn HQ. unfold nvmf_bdev_ctrl_queue_io, spdk_bdev_queue_io_wait. wsteps.
  rewrite (take_io_none _ Hn). cbn [Nat.ltb Nat.leb]. by wsteps.
Qed.

Lemma mod_unmap_wp l f c w (Q : unit -> world -> Prop) : w_heap w !! l = Some (OUnmap c) ->
  Q tt (w <| w_heap := <[l := OUnmap (f c)]> (w_heap w) |>) -> wp (mod_unmap l f) w Q.
Proof. intros Hl HQ. unfold mod_unmap. by wsteps. Qed.

(** A submission that is refused only for want of an object. *)
Lemma submit_then_wp rid io err w (Q : exec_status -> world -> Prop) :
  match take_io (w_mgmt w) with
  | Some m => Q ASYNCHRONOUS (submitted io m w)
  | None => Q ASYNCHRONOUS (waiting (WaitEntry process_io_cmd_resubmit (ArgReq rid)) w)
  end ->
  wp (rc ← bdev_submit io; after_submit rid rc err) w Q.
Proof.
  intros H. wstep. apply bdev_submit_wp. unfold after_submit.
  destruct (take_io (w_mgmt w)) eqn:E; [by wsteps|].
  change (- ENOMEM !=? 0) with true. change (- ENOMEM =? - ENOMEM) with true. cbv iota. wsteps.
  apply queue_io_wp; [done|by wsteps].
Qed.

(** A request whose command reads or writes blocks of [bdev], and the vector
    that can hold them. *)
Record rw_req (bdev : spdk_bdev) (desc : spdk_bdev_desc) (r : spdk_nvmf_request) (s n : Z) : Prop := {
  rw_desc : desc_bdev desc = bdev; rw_geo : geometry_ok bdev; rw_cmd : cmd_ok (req_cmd r);
  rw_params : nvmf_bdev_ctrlr_get_rw_params (req_cmd r) = (s, n);
  rw_zcopy : req_zcopy_phase r = NVMF_ZCOPY_PHASE_NONE; rw_dom : req_memory_domain r = None;
  rw_len : 0 <= req_length r < 2 ^ 32 }.

Definition rw_io (t : spdk_bdev_io_type) (desc : spdk_bdev_desc) (rid : nat) (r : spdk_nvmf_request) (s n : Z) :=
  with_range s n (bdev_io_init t desc nvmf_bdev_ctrlr_complete_cmd_cb (ArgReq rid))
    <| io_buf := req_buffer rid r |>.

(** The outcome of a handler that passes its checks. *)
Definition submit_outcome (rid : nat) (io : spdk_bdev_io) (w : world) (s : exec_status) (w' : world) : Prop :=
  s = ASYNCHRONOUS /\
  match take_io (w_mgmt w) with
  | Some m => w' = submitted io m w
  | None => w' = waiting (WaitEntry process_io_cmd_resubmit (ArgReq rid)) w
  end.

Lemma ext_opts_ok bdev r z b : req_memory_domain r = None -> OFFSETOF_ACCEL_SEQUENCE + 8 <= z <= SIZEOF_EXT_IO_OPTS ->
  ext_opts_valid bdev (ExtIoOpts z (req_memory_domain r) None (req_accel_sequence r)) b = true.
Proof.
  intros Hd Hz. unfold ext_opts_valid, _bdev_io_check_opts. cbn [eo_size eo_memory_domain eo_metadata].
  rewrite Hd, bool_decide_true by done.
  unfold OFFSETOF_ACCEL_SEQUENCE, OFFSETOF_METADATA, SIZEOF_EXT_IO_OPTS in *.
  destruct (Z.leb_spec (24 + 8) z); [|lia]. destruct (Z.leb_spec z 52); [done|lia].
Qed.


Section ReadWrite.
Context (bdev : spdk_bdev) (desc : spdk_bdev_desc) (w : world) (rid : nat) (r : spdk_nvmf_request) (s n : Z).
Hypothesis HR : rw_req bdev desc r s n.
Hypothesis Hr : w_reqs w !! rid = Some r.

Lemma rw_mul : u64 (n * blocklen bdev) = n * blocklen bdev.
Proof.
  destruct HR as [_ [Hb _] Hc Hp _ _ _]. pose proof (rw_params_range _ Hc) as H. rewrite Hp in H.
  apply u64_small. nia.
Qed.

Lemma read_cmd_wp (Q : exec_status -> world -> Prop) :
  (if negb (bdev_io_valid_blocks bdev s n) then
     Q COMPLETE (w <| w_reqs := <[rid := with_status SPDK_NVME_SCT_GENERIC SPDK_NVME_SC_LBA_OUT_OF_RANGE r]> (w_reqs w) |>)
   else if req_length r <? n * blocklen bdev then
     Q COMPLETE (w <| w_reqs := <[rid := with_status SPDK_NVME_SCT_GENERIC SPDK_NVME_SC_DATA_SGL_LENGTH_INVALID r]> (w_reqs w) |>)
   else forall st w', submit_outcome rid (rw_io IO_READ desc rid r s n) w st w' -> Q st w') ->
  wp (nvmf_bdev_ctrlr_read_cmd bdev desc rid) w Q.
Proof.
  intros HQ. unfold nvmf_bdev_ctrlr_read_cmd. wsteps. rewrite (rw_params _ _ _ _ _ HR).
  rewrite lba_in_range_valid_blocks. destruct (bdev_io_valid_blocks bdev s n) eqn:Ev; cbn [negb] in *.
  2: { unfold fail. wsteps. exact HQ. }
  unfold spdk_bdev_get_block_size. rewrite rw_mul. destruct (_ <? _). { unfold fail. wsteps. exact HQ. }
  unfold spdk_nvmf_request_using_zcopy. rewrite (rw_zcopy _ _ _ _ _ HR), bool_decide_false by auto. cbn [negb]. wsteps.
  unfold spdk_bdev_readv_blocks_ext, bdev_readv_blocks_with_md.
  rewrite (rw_desc _ _ _ _ _ HR), ext_opts_ok, Ev by (apply HR || unfold OFFSETOF_ACCEL_SEQUENCE, SIZEOF_EXT_IO_OPTS; lia).
  cbn [negb]. apply wp_unbind, submit_then_wp.
  destruct (take_io (w_mgmt w)) eqn:E; apply HQ; split; try done; by rewrite E.
Qed.

Lemma write_cmd_wp (Q : exec_status -> world -> Prop) :
  desc_write desc = true ->
  (if negb (bdev_io_valid_blocks bdev s n) then
     Q COMPLETE (w <| w_reqs := <[rid := with_status SPDK_NVME_SCT_GENERIC SPDK_NVME_SC_LBA_OUT_OF_RANGE r]> (w_reqs w) |>)
   else if req_length r <? n * blocklen bdev then
     Q COMPLETE (w <| w_reqs := <[rid := with_status SPDK_NVME_SCT_GENERIC SPDK_NVME_SC_DATA_SGL_LENGTH_INVALID r]> (w_reqs w) |>)
   else forall st w', submit_outcome rid (rw_io IO_WRITE desc rid r s n) w st w' -> Q st w') ->
  wp (nvmf_bdev_ctrlr_write_cmd bdev desc rid) w Q.
Proof.
  intros Hw HQ. unfold nvmf_bdev_ctrlr_write_cmd. wsteps. rewrite (rw_params _ _ _ _ _ HR).
  rewrite lba_in_range_valid_blocks. destruct (bdev_io_valid_blocks bdev s n) eqn:Ev; cbn [negb] in *.
  2: { unfold fail. wsteps. exact HQ. }
  unfold spdk_bdev_get_block_size. rewrite rw_mul. destruct (_ <? _). { unfold fail. wsteps. exact HQ. }
  unfold spdk_nvmf_request_using_zcopy. rewrite (rw_zcopy _ _ _ _ _ HR), bool_decide_false by auto. cbn [negb]. wsteps.
  unfold spdk_bdev_writev_blocks_ext, bdev_writev_blocks_with_md.
  rewrite (rw_desc _ _ _ _ _ HR), ext_opts_ok, Ev, Hw by (apply HR || unfold OFFSETOF_ACCEL_SEQUENCE, SIZEOF_EXT_IO_OPTS; lia).
  cbn [negb]. apply wp_unbind, submit_then_wp.
  destruct (take_io (w_mgmt w)) eqn:E; apply HQ; split; try done; by rewrite E.
Qed.

End ReadWrite.

(** *** Completion of a command *)

(** The request with its response filled in. *)
Definition answered (x : Z * Z * Z) (r : spdk_nvmf_request) : spdk_nvmf_request :=
  let '(c0, sct', sc') := x in
  r <| req_rsp := (req_rsp r) <| cdw0 := c0 |>
         <| status := (status (req_rsp r)) <| sc := sc' |> <| sct := sct' |> |> |>.

Lemma set_response_wp rid x r w (Q : unit -> world -> Prop) :
  w_reqs w !! rid = Some r ->
  Q tt (w <| w_reqs := <[rid := answered x r]> (w_reqs w) |>) ->
  wp (let '(c0, sct', sc') := x in set_response rid c0 sct' sc') w Q.
Proof.
  intros Hr HQ. destruct x as [[c0 sct'] sc']. unfold set_response. wsteps.
  rewrite !insert_insert_eq. exact HQ.
Qed.

(** The world after [rid] is answered with [x] and the operation's object is
    returned. *)
Definition command_done (iod rid q : nat) (x : Z * Z * Z) (r : spdk_nvmf_request) (qp : spdk_nvmf_qpair)
    (ct : spdk_nvmf_ctrlr) (w : world) : world :=
  freed iod (completed_world rid q (answered x r) qp ct
               (w <| w_reqs := <[rid := answered x r]> (w_reqs w) |>)).

Lemma respond_and_free_wp w iod io rid q x r qp ct (Q : unit -> world -> Prop) :
  live_req w rid q r qp ct ->
  w_ios w !! iod = Some io -> io_status io <> IO_STATUS_PENDING -> mgmt_ok (w_mgmt w) ->
  Q tt (command_done iod rid q x r qp ct w) ->
  wp ((let '(c0, sct', sc') := x in set_response rid c0 sct' sc');;
      spdk_nvmf_request_complete rid;; spdk_bdev_free_io iod) w Q.
Proof.
  intros HL Hio Hp Hm HQ. pose proof (lr_req _ _ _ _ _ _ HL) as Hr.
  wstep. apply (set_response_wp rid x r); [done|]. wsteps.
  eapply request_complete_wp.
  { eapply (live_req_upd w _ rid q r (answered x r)); [done|wsimp; by rewrite lookup_insert_eq|done|done|done|..];
      by destruct x as [[??]?]. }
  eapply free_io_wp; [done..|]. exact HQ.
Qed.

Lemma complete_cmd_wp w iod io rid q r qp ct (Q : unit -> world -> Prop) :
  live_req w rid q r qp ct -> req_first_fused r = false ->
  w_ios w !! iod = Some io -> io_status io <> IO_STATUS_PENDING -> mgmt_ok (w_mgmt w) ->
  Q tt (command_done iod rid q (spdk_bdev_io_get_nvme_status io) r qp ct w) ->
  wp (nvmf_bdev_ctrlr_complete_cmd iod rid) w Q.
Proof.
  intros HL Hf Hio Hp Hm HQ. pose proof (lr_req _ _ _ _ _ _ HL) as Hr.
  unfold nvmf_bdev_ctrlr_complete_cmd, get_io. wsteps. rewrite Hf. wsteps.
  destruct (spdk_bdev_io_get_nvme_status io) as [[c0 sct'] sc'] eqn:E.
  by apply (respond_and_free_wp w iod io rid q (c0, sct', sc') r qp ct).
Qed.

(** A pair of fused requests [a] (first) and [b] (second) of one queue pair. *)
Record fused_pair (w : world) (a b q : nat) (ra rb : spdk_nvmf_request) (qp : spdk_nvmf_qpair)
  (ct : spdk_nvmf_ctrlr) : Prop := {
  fp_a : live_req w a q ra qp ct; fp_b : live_req w b q rb qp ct; fp_ne : a <> b;
  fp_io : is_mgmt qp (req_cmd rb) = false; fp_flag : req_first_fused rb = true;
  fp_first : req_first_fused_req rb = Some a }.

(** The response without the retry delay that completion may add. *)
Definition responded (x : Z * Z * Z) (c : spdk_nvme_cpl) : Prop :=
  (cdw0 c, sct (status c), sc (status c)) = x.

Lemma completed_responded acre x r : responded x (completed_rsp acre (answered x r)).
Proof. destruct x as [[??]?]. unfold completed_rsp, responded. case_match; done. Qed.

Lemma fused_complete_wp w iod io a b q ra rb qp ct c0 first second (Q : unit -> world -> Prop) :
  fused_pair w a b q ra rb qp ct ->
  w_ios w !! iod = Some io -> io_status io <> IO_STATUS_PENDING -> mgmt_ok (w_mgmt w) ->
  spdk_bdev_io_get_nvme_fused_status io = (c0, first, second) ->
  (forall w' c1 c2, answers_only w w' [(a, c1); (b, c2)] ->
     responded (c0, first.1, first.2) c1 -> responded (c0, second.1, second.2) c2 ->
     w_disk w' = w_disk w -> w_ios w' = delete iod (w_ios w) -> Q tt w') ->
  wp (nvmf_bdev_ctrlr_complete_cmd iod b) w Q.
Proof.
  intros [HA HB Hne Hio Hfl Hfr] Hiod Hp Hm.
  destruct first as [ft fc], second as [st sc']. intros E HQ.
  pose proof (lr_req _ _ _ _ _ _ HA) as Hra. pose proof (lr_req _ _ _ _ _ _ HB) as Hrb.
  unfold nvmf_bdev_ctrlr_complete_cmd, get_io. wsteps. rewrite Hfl. wsteps.
  rewrite E. wsteps. apply (set_response_wp a (c0, ft, fc) ra); [done|]. wsteps.
  set (ra' := answered (c0, ft, fc) ra).
  assert (HA' : live_req (w <| w_reqs := <[a := ra']> (w_reqs w) |>) a q ra' qp ct).
  { eapply (live_req_upd w); [done|wsimp; by rewrite lookup_insert_eq|done..]. }
  assert (HB' : live_req (w <| w_reqs := <[a := ra']> (w_reqs w) |>) b q rb qp ct).
  { eapply (live_req_upd w); [done|wsimp; by rewrite lookup_insert_ne|done..]. }
  eapply request_complete_wp; [exact HA'|].
  pose proof (live_after_complete _ _ _ _ _ _ _ _ _ HA' HB' Hne Hio) as HB''.
  pose proof (completed_world_log a q ra' qp ct (w <| w_reqs := <[a := ra']> (w_reqs w) |>)) as E1.
  match type of HB'' with live_req ?W _ _ _ _ _ =>
    assert (Ew : w_ios W = w_ios w /\ w_mgmt W = w_mgmt w /\ w_disk W = w_disk w) by done;
    revert HB'' E1 Ew; generalize W end.
  clear HA' HB'. intros w1 HB'' E1 (Ei&Em&Ed). wsimp. pose proof (lr_req _ _ _ _ _ _ HB'') as Hr1. wsteps.
  set (rb' := rb <| req_first_fused_req := None |> <| req_first_fused := false |>).
  assert (HB1 : live_req (w1 <| w_reqs := <[b := rb']> (w_reqs w1) |>) b q rb' (qpair_without a qp) ct).
  { eapply live_req_upd; [exact HB''|wsimp; by rewrite lookup_insert_eq|done..]. }
  apply wp_unbind, (respond_and_free_wp _ iod io b q (c0, st, sc') rb' (qpair_without a qp) ct);
    [done|wsimp; by rewrite Ei|done|wsimp; by rewrite Em|].
  unfold command_done.
  eapply (HQ _ (completed_rsp (ct_acre_enabled ct) ra') _); [|apply completed_responded|apply completed_responded|exact Ed|].
  - exact (answers_only_trans w w1 _ [_] [_] E1 (completed_world_log _ _ _ _ _ _)).
  - unfold freed, completed_world. wsimp. by rewrite Ei.
Qed.

(** A command whose blocks are on the device, whose vector holds them, and for
    which an I/O object is free. *)
Record rw_ready (bdev : spdk_bdev) (desc : spdk_bdev_desc) (w : world) (rid q : nat) (r : spdk_nvmf_request)
  (qp : spdk_nvmf_qpair) (ct : spdk_nvmf_ctrlr) (s n : Z) (m : spdk_bdev_mgmt_channel) : Prop := {
  rr_req : rw_req bdev desc r s n; rr_live : live_req w rid q r qp ct;
  rr_fused : req_first_fused r = false; rr_range : s + n <= blockcnt bdev;
  rr_length : n * blocklen bdev <= req_length r;
  rr_cnt : (Z.to_nat (req_iovcnt r) <= length (req_iov r))%nat;
  rr_vec : (Z.to_nat (n * blocklen bdev) <= length (flat (req_iovs r)))%nat;
  rr_take : take_io (w_mgmt w) = Some m; rr_mgmt : mgmt_ok (w_mgmt w);
  rr_disk : Z.to_nat (blockcnt bdev * blocklen bdev) = length (w_disk w);
  rr_fresh : w_ios w !! w_next w = None }.

Section RwReady.
Context (bdev : spdk_bdev) (desc : spdk_bdev_desc) (w : world) (rid q : nat) (r : spdk_nvmf_request).
Context (qp : spdk_nvmf_qpair) (ct : spdk_nvmf_ctrlr) (s n : Z) (m : spdk_bdev_mgmt_channel).
Hypothesis H : rw_ready bdev desc w rid q r qp ct s n m.

Lemma rr_params : 0 <= s < 2 ^ 64 /\ 1 <= n <= 65536.
Proof.
  pose proof (rw_params_range _ (rw_cmd _ _ _ _ _ (rr_req _ _ _ _ _ _ _ _ _ _ _ H))) as Hp.
  by rewrite (rw_params _ _ _ _ _ (rr_req _ _ _ _ _ _ _ _ _ _ _ H)) in Hp.
Qed.

Lemma rr_valid : bdev_io_valid_blocks bdev s n = true.
Proof.
  pose proof rr_params. apply valid_blocks_iff; [apply (rr_req _ _ _ _ _ _ _ _ _ _ _ H)|lia|lia|apply H].
Qed.

Lemma rr_in_medium t : in_medium (rw_io t desc rid r s n) (submitted (rw_io t desc rid r s n) m w).
Proof.
  pose proof rr_params. destruct (rr_req _ _ _ _ _ _ _ _ _ _ _ H) as [Hd [Hg _] _ _ _ _ _].
  unfold in_medium, rw_io, with_range, submitted. wsimp. cbn [io_desc bdev_io_init]. rewrite Hd.
  pose proof (rr_range _ _ _ _ _ _ _ _ _ _ _ H). repeat split; try lia. apply H.
Qed.

(** The submitted operation succeeds on the device and is reported. *)
Lemma rr_finish t w1 r1 (Q : unit -> world -> Prop) :
  live_req w1 rid q r1 qp ct -> req_first_fused r1 = false ->
  w_ios w1 = <[w_next w := finished (rw_io t desc rid r s n) device_ok IO_STATUS_SUCCESS]>
               (<[w_next w := rw_io t desc rid r s n]> (w_ios w)) -> w_mgmt w1 = m ->
  t <> IO_ABORT ->
  (forall w2, w_reqs w2 = <[rid := answered (0, 0, 0) r1 <| req_rsp :=
                     completed_rsp (ct_acre_enabled ct) (answered (0, 0, 0) r1) |>]> (<[rid := answered (0, 0, 0) r1]> (w_reqs w1)) ->
     w_disk w2 = w_disk w1 -> w_ios w2 = w_ios w ->
     answers_only w1 w2 [(rid, completed_rsp (ct_acre_enabled ct) (answered (0, 0, 0) r1))] ->
     Q tt w2) ->
  wp (nvmf_bdev_ctrlr_complete_cmd (w_next w) rid) w1 Q.
Proof.
  intros HL Hf Hios Hm Ht HQ.
  eapply complete_cmd_wp; [done|done|by rewrite Hios, lookup_insert_eq|done| |].
  { rewrite Hm. eapply take_io_ok; [apply (rr_take _ _ _ _ _ _ _ _ _ _ _ H)|apply H]. }
  assert (E : spdk_bdev_io_get_nvme_status (finished (rw_io t desc rid r s n) device_ok IO_STATUS_SUCCESS) = (0, 0, 0)).
  { unfold spdk_bdev_io_get_nvme_status. rewrite bool_decide_false; [done|]. by destruct t. }
  rewrite E. unfold command_done, freed. eapply HQ; [reflexivity..| |exact (completed_world_log _ _ _ _ _ _)].
  wsimp. unfold completed_world. wsimp. rewrite Hios.
  rewrite insert_insert_eq, delete_insert_id; [done|apply H].
Qed.

End RwReady.

(** A fused compare and write of the same blocks, the data of both at hand. *)
Record caw_ready (bdev : spdk_bdev) (desc : spdk_bdev_desc) (w : world) (a b q : nat)
  (ra rb : spdk_nvmf_request) (qp : spdk_nvmf_qpair) (ct : spdk_nvmf_ctrlr) (s n : Z)
  (m : spdk_bdev_mgmt_channel) : Prop := {
  cr_pair : fused_pair w a b q ra rb qp ct; cr_req : rw_req bdev desc rb s n;
  cr_cmp : nvmf_bdev_ctrlr_get_rw_params (req_cmd ra) = (s, n); cr_write : desc_write desc = true;
  cr_range : s + n <= blockcnt bdev; cr_acwu : n <= acwu bdev;
  cr_length : n * blocklen bdev <= req_length rb;
  cr_vec_a : (Z.to_nat (n * blocklen bdev) <= length (flat (req_iovs ra)))%nat;
  cr_vec_b : (Z.to_nat (n * blocklen bdev) <= length (flat (req_iovs rb)))%nat;
  cr_take : take_io (w_mgmt w) = Some m; cr_mgmt : mgmt_ok (w_mgmt w);
  cr_disk : Z.to_nat (blockcnt bdev * blocklen bdev) = length (w_disk w) }.

Definition caw_io (desc : spdk_bdev_desc) (a b : nat) (ra rb : spdk_nvmf_request) (s n : Z) : spdk_bdev_io :=
  with_range s n (bdev_io_init IO_COMPARE_AND_WRITE desc nvmf_bdev_ctrlr_complete_cmd_cb (ArgReq b))
    <| io_buf := req_buffer a ra |> <| io_fused_buf := req_buffer b rb |>.

Section Caw.
Context (bdev : spdk_bdev) (desc : spdk_bdev_desc) (w : world) (a b q : nat) (ra rb : spdk_nvmf_request).
Context (qp : spdk_nvmf_qpair) (ct : spdk_nvmf_ctrlr) (s n : Z) (m : spdk_bdev_mgmt_channel).
Hypothesis H : caw_ready bdev desc w a b q ra rb qp ct s n m.
Let len := Z.to_nat (n * blocklen bdev).
Let off := Z.to_nat (s * blocklen bdev).
Let io := caw_io desc a b ra rb s n.

Lemma caw_submit_wp (Q : exec_status -> world -> Prop) :
  Q ASYNCHRONOUS (submitted io m w) -> wp (nvmf_bdev_ctrlr_compare_and_write_cmd bdev desc a b) w Q.
Proof.
  intros HQ. pose proof H as [[HA HB _ _ _ _] HR Hcmp Hw Hrg Hac Hlen _ _ Htk _ _].
  pose proof (lr_req _ _ _ _ _ _ HA). pose proof (lr_req _ _ _ _ _ _ HB). pose proof HR as [Hd Hg Hc Hp _ _ _].
  pose proof (rw_params_range _ Hc) as Hpr. rewrite Hp in Hpr.
  assert (Hv : bdev_io_valid_blocks bdev s n = true) by (apply valid_blocks_iff; try done; lia).
  unfold nvmf_bdev_ctrlr_compare_and_write_cmd. wsteps. rewrite Hcmp, Hp. cbv iota.
  rewrite !Z.eqb_refl, lba_in_range_valid_blocks, Hv. cbn [negb orb].
  unfold spdk_bdev_get_block_size. rewrite (rw_mul bdev desc rb s n HR).
  destruct (Z.ltb_spec (req_length rb) (n * blocklen bdev)); [lia|].
  unfold spdk_bdev_comparev_and_writev_blocks. rewrite Hw, Hd, Hv. cbn [negb].
  destruct (Z.ltb_spec (acwu bdev) n); [lia|]. wstep. apply bdev_submit_wp. rewrite Htk. by wsteps.
Qed.

Lemma caw_transfer_wp iod (Q : spdk_bdev_io_status -> world -> Prop) w1 :
  w_reqs w1 = w_reqs w -> w_disk w1 = w_disk w ->
  (if bool_decide (slice off len (w_disk w) = take len (flat (req_iovs ra)))
   then Q IO_STATUS_SUCCESS (w1 <| w_disk := splice off (take len (flat (req_iovs rb))) (w_disk w1) |>)
   else Q IO_STATUS_MISCOMPARE w1) ->
  wp (device_transfer iod io) w1 Q.
Proof.
  intros Er Ed HQ. pose proof H as [[HA HB _ _ _ _] HR _ _ Hrg _ _ Hva Hvb _ _ Hdk].
  pose proof (lr_req _ _ _ _ _ _ HA). pose proof (lr_req _ _ _ _ _ _ HB). pose proof HR as [Hd [Hg _] Hc Hp _ _ _].
  pose proof (rw_params_range _ Hc) as Hpr. rewrite Hp in Hpr. fold len in Hva, Hvb.
  unfold device_transfer. change (io_type io) with IO_COMPARE_AND_WRITE. cbv iota.
  change (desc_bdev (io_desc io)) with (desc_bdev desc). rewrite Hd.
  change (bytes_of_blocks bdev (io_offset_blocks io)) with off.
  change (bytes_of_blocks bdev (io_num_blocks io)) with len.
  assert (Hin : (off + len <= length (w_disk w1))%nat). { rewrite Ed, <- Hdk. unfold off, len. nia. }
  wstep. apply disk_read_wp; [done|]. change (io_buf io) with (BufReq a (req_iovcnt ra)).
  wstep. unfold buf_read at 1. wstep. eapply wp_get_req; [by rewrite Er|]. wstep. apply wp_massert; [by apply Nat.leb_le|]. wsteps.
  rewrite Ed. fold (req_iovs ra). case_bool_decide; [|by wsteps].
  change (io_fused_buf io) with (BufReq b (req_iovcnt rb)). wstep. unfold buf_read.
  wstep. eapply wp_get_req; [by rewrite Er|]. wstep. apply wp_massert; [by apply Nat.leb_le|]. wsteps.
  apply disk_write_wp; [|by wsteps]. rewrite length_take. lia.
Qed.

End Caw.

(** ** Properties *)

(** The bytes of a range of blocks. *)
Definition blocks_off (bdev : spdk_bdev) (s : Z) : nat := Z.to_nat (s * blocklen bdev).
Definition disk_matches (bdev : spdk_bdev) (w : world) : Prop :=
  Z.to_nat (blockcnt bdev * blocklen bdev) = length (w_disk w).

(** Read and write decide exactly: whatever the first block and count of
    the command (64-bit sums included) and the length of the request, the
    handlers answer a range that does not end on the device with [LBA out of
    range], a request too short for its blocks with [data SGL length invalid],
    in both cases without touching the device, and otherwise submit exactly
    the blocks asked for with the request's vector, or wait for an I/O object. *)
Theorem rw_cmd_exact bdev desc w rid r s n
    (HR : rw_req bdev desc r s n) (Hr : w_reqs w !! rid = Some r) (Hw : desc_write desc = true) :
  let failed sc' w' := w' = w <| w_reqs := <[rid := with_status SPDK_NVME_SCT_GENERIC sc' r]> (w_reqs w) |> in
  let post t st w' :=
    (blockcnt bdev < s + n /\ st = COMPLETE /\ failed SPDK_NVME_SC_LBA_OUT_OF_RANGE w') \/
    (s + n <= blockcnt bdev /\ req_length r < n * blocklen bdev /\ st = COMPLETE /\
       failed SPDK_NVME_SC_DATA_SGL_LENGTH_INVALID w') \/
    (s + n <= blockcnt bdev /\ n * blocklen bdev <= req_length r /\
       submit_outcome rid (rw_io t desc rid r s n) w st w') in
  wp (nvmf_bdev_ctrlr_read_cmd bdev desc rid) w (post IO_READ) /\
  wp (nvmf_bdev_ctrlr_write_cmd bdev desc rid) w (post IO_WRITE).
Proof.
  intros failed post. pose proof (rw_params_range _ (rw_cmd _ _ _ _ _ HR)) as Hp.
  rewrite (rw_params _ _ _ _ _ HR) in Hp.
  assert (HV : if bdev_io_valid_blocks bdev s n then s + n <= blockcnt bdev else blockcnt bdev < s + n).
  { pose proof (valid_blocks_iff bdev s n (rw_geo _ _ _ _ _ HR) ltac:(lia) ltac:(lia)).
    destruct (bdev_io_valid_blocks bdev s n); [tauto|]. apply Z.nle_gt. intros ?. intuition congruence. }
  split; [apply (read_cmd_wp _ _ _ _ r s n)|apply (write_cmd_wp _ _ _ _ r s n)]; try done.
  all: destruct (bdev_io_valid_blocks bdev s n); cbn [negb]; [|by left].
  all: destruct (Z.ltb_spec (req_length r) (n * blocklen bdev)); [by right; left|].
  all: intros st w' Ho; by right; right.
Qed.

Definition demo_rw_req (opcode : Z) : spdk_nvmf_request :=
  demo_req (demo_cmd opcode 2 0 1) [Iov (Some (replicate 600 1)); Iov (Some (replicate 424 2))].

Lemma demo_rw opcode : 0 <= opcode < 256 -> rw_req demo_bdev demo_desc (demo_rw_req opcode) 2 2.
Proof. intros. split; try done; unfold cmd_ok; cbn; lia. Qed.

Lemma rw_cmd_exact_witness :
  let r := demo_rw_req SPDK_NVME_OPC_READ in
  let w := demo_world [r] [0%nat] 1 SPDK_NVMF_SUBSYSTEM_ACTIVE (replicate 4096 0) in
  let failed sc' w' := w' = w <| w_reqs := <[0%nat := with_status SPDK_NVME_SCT_GENERIC sc' r]> (w_reqs w) |> in
  let post t st w' :=
    (8 < 2 + 2 /\ st = COMPLETE /\ failed SPDK_NVME_SC_LBA_OUT_OF_RANGE w') \/
    (2 + 2 <= 8 /\ 1024 < 2 * 512 /\ st = COMPLETE /\ failed SPDK_NVME_SC_DATA_SGL_LENGTH_INVALID w') \/
    (2 + 2 <= 8 /\ 2 * 512 <= 1024 /\ submit_outcome 0 (rw_io t demo_desc 0 r 2 2) w st w') in
  wp (nvmf_bdev_ctrlr_read_cmd demo_bdev demo_desc 0) w (post IO_READ) /\
  wp (nvmf_bdev_ctrlr_write_cmd demo_bdev demo_desc 0) w (post IO_WRITE).
Proof. intros r w. apply (rw_cmd_exact demo_bdev demo_desc w 0 r 2 2); [by apply demo_rw|done..]. Defined.

(** C26. A read delivers the blocks: for a command whose blocks are on the device
    and whose vector holds them, the request is answered once, with success,
    and its vector then holds, across all of its elements, exactly the bytes
    of those blocks followed by what was there before; the medium and the pool
    of I/O objects are as before. *)
Theorem nvme_read_delivers bdev desc w rid q r qp ct s n m
    (H : rw_ready bdev desc w rid q r qp ct s n m) :
  let len := Z.to_nat (n * blocklen bdev) in
  wp (nvmf_bdev_ctrlr_read_cmd bdev desc rid;;
      device_complete (w_next w) device_ok;;
      nvmf_bdev_ctrlr_complete_cmd (w_next w) rid) w (fun _ w' =>
    exists r' c, w_reqs w' !! rid = Some r' /\
      flat (req_iov r') = splice 0 (slice (blocks_off bdev s) len (w_disk w)) (flat (req_iov r)) /\
      iov_len <$> req_iov r' = iov_len <$> req_iov r /\
      answers_only w w' [(rid, c)] /\ spdk_nvme_cpl_is_error c = false /\
      w_disk w' = w_disk w /\ w_ios w' = w_ios w).
Proof.
  intros len. pose proof H as [HR HL Hf Hrg Hlen Hcnt Hvec Htk Hmg Hd Hfr].
  pose proof (lr_req _ _ _ _ _ _ HL) as Hr. pose proof HR as [Hde _ _ _ _ _ _].
  wstep. apply (read_cmd_wp bdev desc w rid r s n); [done..|].
  rewrite (rr_valid _ _ _ _ _ _ _ _ _ _ _ H). cbn [negb].
  destruct (Z.ltb_spec (req_length r) (n * blocklen bdev)); [lia|].
  intros st w' [-> Ho]. rewrite Htk in Ho. subst w'. wsteps.
  eapply device_complete_wp; [by apply lookup_insert_eq|done|done| |done]. intros _.
  eapply (transfer_read_req _ _ _ (rr_in_medium _ _ _ _ _ _ _ _ _ _ _ H IO_READ) rid (req_iovcnt r) r); [done|done|done|done| |].
  { cbn [io_desc rw_io with_range]. change (desc_bdev _) with (desc_bdev desc). by rewrite Hde. }
  intros iovs' El Ef. eexists. split; [by apply lookup_insert_eq|].
  eapply (rr_finish _ _ _ _ _ _ _ _ _ _ _ H IO_READ _ (r <| req_iov := iovs' |>)); [|done..|].
  { eapply (live_req_upd w); [done|wsimp; by rewrite lookup_insert_eq|done..]. }
  intros w2 Hreqs Hdisk Hios Hlog. eexists _, _.
  split; [rewrite Hreqs; by rewrite lookup_insert_eq|]. split; [|split; [|split; [exact Hlog|]]].
  - cbn [req_iov set answered]. wsimp. rewrite Ef. unfold len, blocks_off.
    unfold bytes_of_blocks. change (desc_bdev (io_desc _)) with (desc_bdev desc). by rewrite Hde.
  - done.
  - split; [|split; [by rewrite Hdisk|done]]. unfold completed_rsp. case_match; done.
Qed.

Lemma demo_rw_live opcode disk :
  0 <= opcode < 256 -> opcode <> SPDK_NVME_OPC_FABRIC ->
  live_req (demo_world [demo_rw_req opcode] [0%nat] 1 SPDK_NVMF_SUBSYSTEM_ACTIVE disk) 0 0
    (demo_rw_req opcode) (demo_qpair [0%nat]) demo_ctrlr.
Proof.
  intros _ Ho. split; try reflexivity; [set_solver|]. split; [|done..].
  unfold is_mgmt. cbn [opc req_cmd demo_rw_req demo_req demo_cmd]. apply Z.eqb_neq in Ho. by rewrite Ho.
Qed.

Lemma demo_rw_ready opcode :
  0 <= opcode < 256 -> opcode <> SPDK_NVME_OPC_FABRIC ->
  rw_ready demo_bdev demo_desc
    (demo_world [demo_rw_req opcode] [0%nat] 1 SPDK_NVMF_SUBSYSTEM_ACTIVE (replicate 4096 5)) 0 0
    (demo_rw_req opcode) (demo_qpair [0%nat]) demo_ctrlr 2 2 (MgmtCh 3 4 4 []).
Proof.
  intros Ho Hf. split; try done. by apply demo_rw_live.
Qed.

Lemma nvme_read_delivers_witness :
  let r := demo_rw_req SPDK_NVME_OPC_READ in
  let w := demo_world [r] [0%nat] 1 SPDK_NVMF_SUBSYSTEM_ACTIVE (replicate 4096 5) in
  wp (nvmf_bdev_ctrlr_read_cmd demo_bdev demo_desc 0;; device_complete 0 device_ok;;
      nvmf_bdev_ctrlr_complete_cmd 0 0) w (fun _ w' =>
    exists r' c, w_reqs w' !! 0%nat = Some r' /\
      flat (req_iov r') = splice 0 (slice (blocks_off demo_bdev 2) 1024 (w_disk w)) (flat (req_iov r)) /\
      iov_len <$> req_iov r' = iov_len <$> req_iov r /\
      answers_only w w' [(0%nat, c)] /\ spdk_nvme_cpl_is_error c = false /\
      w_disk w' = w_disk w /\ w_ios w' = w_ios w).
Proof.
  intros r w. apply (nvme_read_delivers demo_bdev demo_desc w 0 0 r (demo_qpair [0%nat]) demo_ctrlr 2 2
    (MgmtCh 3 4 4 [])). by apply demo_rw_ready.
Defined.

(** C25. A write stores the blocks: under the same conditions the bytes of the
    request's vector, taken across its elements, replace exactly the blocks
    asked for and no other byte of the medium, and the request is answered
    once, with success. *)
Theorem nvme_write_stores bdev desc w rid q r qp ct s n m
    (H : rw_ready bdev desc w rid q r qp ct s n m) (Hw : desc_write desc = true) :
  let len := Z.to_nat (n * blocklen bdev) in
  wp (nvmf_bdev_ctrlr_write_cmd bdev desc rid;;
      device_complete (w_next w) device_ok;;
      nvmf_bdev_ctrlr_complete_cmd (w_next w) rid) w (fun _ w' =>
    exists c,
      w_disk w' = splice (blocks_off bdev s) (take len (flat (req_iovs r))) (w_disk w) /\
      answers_only w w' [(rid, c)] /\ spdk_nvme_cpl_is_error c = false /\
      w_ios w' = w_ios w).
Proof.
  intros len. pose proof H as [HR HL Hf Hrg Hlen Hcnt Hvec Htk Hmg Hd Hfr].
  pose proof (lr_req _ _ _ _ _ _ HL) as Hr. pose proof HR as [Hde _ _ _ _ _ _].
  wstep. apply (write_cmd_wp bdev desc w rid r s n); [done..|].
  rewrite (rr_valid _ _ _ _ _ _ _ _ _ _ _ H). cbn [negb].
  destruct (Z.ltb_spec (req_length r) (n * blocklen bdev)); [lia|].
  intros st w' [-> Ho]. rewrite Htk in Ho. subst w'. wsteps.
  eapply device_complete_wp; [by apply lookup_insert_eq|done|done| |done]. intros _.
  eapply (transfer_write_req _ _ _ (rr_in_medium _ _ _ _ _ _ _ _ _ _ _ H IO_WRITE) rid (req_iovcnt r) r); [done|done|done| |].
  { change (desc_bdev _) with (desc_bdev desc). by rewrite Hde. }
  eexists. split; [by apply lookup_insert_eq|].
  eapply (rr_finish _ _ _ _ _ _ _ _ _ _ _ H IO_WRITE _ r); [|done..|].
  { by eapply (live_req_upd w). }
  intros w2 Hreqs Hdisk Hios Hlog. eexists _. split; [|split; [exact Hlog|]].
  - rewrite Hdisk. wsimp. unfold len, blocks_off, bytes_of_blocks.
    change (desc_bdev (io_desc _)) with (desc_bdev desc). by rewrite Hde.
  - split; [|done]. unfold completed_rsp. case_match; done.
Qed.

Lemma nvme_write_stores_witness :
  let r := demo_rw_req SPDK_NVME_OPC_WRITE in
  let w := demo_world [r] [0%nat] 1 SPDK_NVMF_SUBSYSTEM_ACTIVE (replicate 4096 5) in
  wp (nvmf_bdev_ctrlr_write_cmd demo_bdev demo_desc 0;; device_complete 0 device_ok;;
      nvmf_bdev_ctrlr_complete_cmd 0 0) w (fun _ w' =>
    exists c,
      w_disk w' = splice (blocks_off demo_bdev 2) (take 1024 (flat (req_iovs r))) (w_disk w) /\
      answers_only w w' [(0%nat, c)] /\ spdk_nvme_cpl_is_error c = false /\
      w_ios w' = w_ios w).
Proof.
  intros r w. apply (nvme_write_stores demo_bdev demo_desc w 0 0 r (demo_qpair [0%nat]) demo_ctrlr 2 2
    (MgmtCh 3 4 4 [])); [by apply demo_rw_ready|done].
Defined.


Definition demo_caw_cmp (x : Z) : spdk_nvmf_request :=
  demo_req (NvmeCmd SPDK_NVME_OPC_COMPARE 1 7 1 0 0 2 0 0 0 0 0) [Iov (Some (replicate 512 x))].
Definition demo_caw_write : spdk_nvmf_request :=
  (demo_req (NvmeCmd SPDK_NVME_OPC_WRITE 2 8 1 0 0 2 0 0 0 0 0) [Iov (Some (replicate 512 6))])
    <| req_first_fused := true |> <| req_first_fused_req := Some 0%nat |>.
Definition demo_caw_world (cmp : spdk_nvmf_request) : world :=
  demo_world [cmp; demo_caw_write] [0%nat; 1%nat] 2 SPDK_NVMF_SUBSYSTEM_ACTIVE (replicate 4096 5).


(** The compare request's length is not checked: a compare buffer shorter than
    the blocks is submitted, and the device reads past its end. *)
Example caw_short_compare :
  let cmp := demo_req (NvmeCmd SPDK_NVME_OPC_COMPARE 1 7 1 0 0 2 0 0 0 0 0) [Iov (Some (replicate 8 5))] in
  wp (nvmf_bdev_ctrlr_compare_and_write_cmd demo_bdev demo_desc 0 1) (demo_caw_world cmp) (fun st w' =>
    st = ASYNCHRONOUS /\ device_complete 0 device_ok w' = Undef).
Proof. vm_compute. split; done. Qed.

(** The namespace a host sees is the device: when the block size is a power
    of two and metadata is not stripped, the reported number of blocks and
    block format give the device's capacity, the preferred write granularity
    is the physical block size in logical blocks, and the copy limits are
    those of the device or the largest the fields hold. *)
Theorem identify_ns_matches_device bdev ptpl ng eu nsdata
    (HG : geometry_ok bdev) (Hp : blocklen bdev = 2 ^ Z.log2 (blocklen bdev))
    (Hph : 0 < phys_blocklen bdev < 2 ^ 16) (Hd : (blocklen bdev | phys_blocklen bdev))
    (Hc : 0 <= max_copy bdev) :
  exists d, nvmf_bdev_ctrlr_identify_ns bdev ptpl ng eu nsdata false = Some d /\
    nsze d * 2 ^ lbaf0_lbads d = blockcnt bdev * blocklen bdev /\
    (npwg d + 1) * blocklen bdev = phys_blocklen bdev /\
    mssrl d = mcl d /\ 1 <= mssrl d <= UINT16_MAX /\ (max_copy bdev <> 0 -> mssrl d <= max_copy bdev).
Proof.
  destruct HG as [Hb Hk]. pose proof (Z.log2_nonneg (blocklen bdev)) as Hl.
  assert (Hl32 : Z.log2 (blocklen bdev) < 32) by (apply Z.log2_lt_pow2; lia).
  unfold nvmf_bdev_ctrlr_identify_ns. cbn [negb].
  destruct (Z.ltb_spec 0 (phys_blocklen bdev)) as [_|]; [|lia]. cbn [negb].
  assert (Hlb : u8 (spdk_u32log2 (spdk_bdev_get_block_size bdev)) = Z.log2 (blocklen bdev)).
  { unfold spdk_u32log2, spdk_bdev_get_block_size, u8. destruct (Z.eqb_spec (blocklen bdev) 0); [lia|].
    apply Z.mod_small. lia. }
  assert (Hnp : (u16 (Z.shiftr (phys_blocklen bdev) (Z.log2 (blocklen bdev)) - 1) + 1) * blocklen bdev
                = phys_blocklen bdev).
  { rewrite Z.shiftr_div_pow2, <- Hp by done. destruct Hd as [k Hd]. rewrite Hd, Z.div_mul by lia.
    rewrite u16_small; [lia|nia]. }
  set (x := if (max_copy bdev =? 0) || (UINT16_MAX <? max_copy bdev) then UINT16_MAX else max_copy bdev).
  assert (HM : 1 <= x <= UINT16_MAX /\ (max_copy bdev <> 0 -> x <= max_copy bdev)).
  { unfold x. zcases; cbn [orb]; unfold UINT16_MAX in *; lia. }
  unfold spdk_bdev_get_num_blocks. rewrite Hlb. unfold x in HM. clear x Hlb.
  destruct (_ !=? 0), (write_unit_size bdev =? 1), ptpl, (_ || _).
  all: eexists; split; [reflexivity|]; cbn [nsze lbaf0_lbads npwg mssrl mcl set]; rewrite <- Hp.
  all: split; [done|]; split; [exact Hnp|]; split; [done|exact HM].
Qed.

Definition demo_nsdata : spdk_nvme_ns_data :=
  NsData 0 0 0 0 0 0 0 0 0 0 0 0 false 0 0 0 0 0 0 0 0 0 0 0 0 [] [] 0 0 0.

Lemma identify_ns_matches_device_witness :
  exists d, nvmf_bdev_ctrlr_identify_ns demo_bdev true [] [] demo_nsdata false = Some d /\
    nsze d * 2 ^ lbaf0_lbads d = 8 * 512 /\ (npwg d + 1) * 512 = 512 /\
    mssrl d = mcl d /\ 1 <= mssrl d <= UINT16_MAX /\ (max_copy demo_bdev <> 0 -> mssrl d <= max_copy demo_bdev).
Proof.
  apply (identify_ns_matches_device demo_bdev); [split; cbn; lia|done|cbn; lia|by exists 1|cbn; lia].
Defined.
