(* ===== verification/Deallocate.v ===== *)
(** * Deallocation of ranges (Dataset Management)

    [nvmf_bdev_ctrlr_unmap] of [spdk/lib/nvmf/ctrlr_bdev.c] walks the ranges
    of the command's payload, one unmap per range, and answers the request
    when the last of them completes.  What it submits when no unmap has to
    wait, how the answers of the unmaps combine, and two ways in which it goes
    wrong: a range limit exceeded after an earlier range was submitted, and
    resumption after waiting for an I/O object. *)
From S2P Require Import Prelude NvmeSpec Iov World Request Bdev CtrlrBdev.

(** Range [j] of a payload. *)
Definition dsm_range (data : bytes) (j : nat) : bytes := slice (SIZEOF_DSM_RANGE * j) SIZEOF_DSM_RANGE data.

Definition range_io (desc : spdk_bdev_desc) (l : nat) (rg : bytes) : spdk_bdev_io :=
  with_range (dsm_range_starting_lba rg) (dsm_range_length rg)
    (bdev_io_init IO_UNMAP desc nvmf_bdev_ctrlr_unmap_cpl_cb (ArgCtx l)).

(** A range the handler submits. *)
Definition range_ok (bdev : spdk_bdev) (max : Z) (rg : bytes) : Prop :=
  dsm_range_starting_lba rg + dsm_range_length rg <= blockcnt bdev /\
  (max = 0 \/ dsm_range_length rg <= u64 (Z.shiftl max 10) / blocklen bdev).

(** The unmaps of the ranges [i, ..., i + k - 1] are submitted in order, and
    the context counts them. *)
Record unmaps_submitted (desc : spdk_bdev_desc) (l : nat) (data : bytes) (i k : nat)
  (c : nvmf_bdev_ctrlr_unmap_ctx) (w w' : world) : Prop := {
  us_io : forall j, (j < k)%nat -> w_ios w' !! (w_next w + j)%nat = Some (range_io desc l (dsm_range data (i + j)));
  us_others : forall x, (x < w_next w)%nat -> w_ios w' !! x = w_ios w !! x;
  us_next : w_next w' = (w_next w + k)%nat;
  us_ctx : w_heap w' !! l = Some (OUnmap (c <| uc_count := uc_count c + Z.of_nat k |>
                                            <| uc_range_index := uc_range_index c + Z.of_nat k |>));
  us_heap : forall x, x <> l -> w_heap w' !! x = w_heap w !! x;
  us_reqs : w_reqs w' = w_reqs w; us_disk : w_disk w' = w_disk w; us_log : w_log w' = w_log w }.

(** ** Lemmas *)

Lemma range_fields rg : length rg = SIZEOF_DSM_RANGE -> Forall byte_ok rg ->
  0 <= dsm_range_starting_lba rg < 2 ^ 64 /\ 0 <= dsm_range_length rg < 2 ^ 32.
Proof.
  intros Hl Hb. unfold dsm_range_starting_lba, dsm_range_length, SIZEOF_DSM_RANGE in *.
  assert (Hs : forall o n, (o + n <= 16)%nat -> 0 <= le_dec (slice o n rg) < 256 ^ Z.of_nat n).
  { intros o n Hon. pose proof (le_dec_range (slice o n rg)) as HR.
    rewrite length_slice in HR by lia. apply HR. unfold slice. by apply Forall_take, Forall_drop. }
  split; [apply (Hs 8%nat 8%nat)|apply (Hs 4%nat 4%nat)]; lia.
Qed.

(** Reading the next range of the payload. *)
Lemma next_range ix data i :
  ix_ok ix -> flat (ix_iovs ix) = data -> ix_pos ix = (SIZEOF_DSM_RANGE * i)%nat ->
  (SIZEOF_DSM_RANGE * S i <= ix_total ix)%nat -> (ix_total ix <= length data)%nat ->
  exists ix' n, spdk_iov_xfer_to_buf ix (replicate SIZEOF_DSM_RANGE 0) SIZEOF_DSM_RANGE
      = Some (ix', dsm_range data i, n) /\
    ix_ok ix' /\ ix_iovs ix' = ix_iovs ix /\ ix_iovcnt ix' = ix_iovcnt ix /\
    ix_pos ix' = (SIZEOF_DSM_RANGE * S i)%nat.
Proof.
  intros Hok Hd Hp Ht Htl.
  destruct (iov_xfer_post true ix (replicate SIZEOF_DSM_RANGE 0) SIZEOF_DSM_RANGE Hok) as ([[ix' b] c]&E&Hx).
  { by rewrite length_replicate. }
  unfold xfer_post in Hx. destruct Hx as (Ec&Hok'&Hcnt&Hpos&_&Hiovs&Hb).
  unfold SIZEOF_DSM_RANGE in *. rewrite Nat.min_l in Hpos, Hb by lia. rewrite Hd, Hp in Hb.
  exists ix', c. split; [|repeat split; try done; try apply Hok'; lia].
  unfold spdk_iov_xfer_to_buf. rewrite E. repeat f_equal. rewrite Hb. unfold dsm_range, SIZEOF_DSM_RANGE.
  apply splice_all. rewrite length_replicate, length_slice; lia.
Qed.

(** One more range in front. *)
Lemma unmaps_submitted_cons desc l data i k c m w w' :
  w_heap w !! l = Some (OUnmap c) ->
  unmaps_submitted desc l data (S i) k
    (c <| uc_count := uc_count c + 1 |> <| uc_range_index := uc_range_index c + 1 |>)
    (submitted (range_io desc l (dsm_range data i)) m
       (w <| w_heap := <[l := OUnmap (c <| uc_count := uc_count c + 1 |>)]> (w_heap w) |>)
     <| w_heap := <[l := OUnmap (c <| uc_count := uc_count c + 1 |> <| uc_range_index := uc_range_index c + 1 |>)]>
          (<[l := OUnmap (c <| uc_count := uc_count c + 1 |>)]> (w_heap w)) |>) w' ->
  unmaps_submitted desc l data i (S k) c w w'.
Proof.
  intros Hh [H1 H2 H3 H4 H5 H6 H7 H8]. unfold submitted in *. revert H1 H2 H3 H4 H5 H6 H7 H8. wsimp.
  intros H1 H2 H3 H4 H5 H6 H7 H8. split; try done.
  - intros [|j] Hj.
    + rewrite Nat.add_0_r, H2 by lia. by rewrite lookup_insert_eq, Nat.add_0_r.
    + rewrite <- Nat.add_succ_comm, H1 by lia. do 3 f_equal. lia.
  - intros x Hx. rewrite H2 by lia. by rewrite lookup_insert_ne by lia.
  - lia.
  - rewrite H4. do 2 f_equal. destruct c as [c1 c2 c3 c4 c5]. unfold set. cbn -[Z.of_nat]. f_equal; lia.
  - intros x Hx. rewrite H5 by done. by rewrite !lookup_insert_ne by done.
Qed.

Section Loop.
Context (bdev : spdk_bdev) (desc : spdk_bdev_desc) (rid l : nat) (max : Z) (data : bytes).
Hypothesis Hg : geometry_ok bdev.
Hypothesis Hd : desc_bdev desc = bdev.
Hypothesis Hw : desc_write desc = true.
Hypothesis Hdata : Forall byte_ok data.

Lemma range_submit_wp rg w (Q : Z -> world -> Prop) :
  length rg = SIZEOF_DSM_RANGE -> Forall byte_ok rg -> range_ok bdev max rg ->
  (0 < per_thread_cache_count (w_mgmt w))%nat ->
  (forall m, per_thread_cache_count m = pred (per_thread_cache_count (w_mgmt w)) ->
     Q 0 (submitted (range_io desc l rg) m w)) ->
  wp (spdk_bdev_unmap_blocks desc nvmf_bdev_ctrlr_unmap_cpl_cb (ArgCtx l)
        (dsm_range_starting_lba rg) (dsm_range_length rg)) w Q.
Proof.
  intros Hl Hb [Hr _] Hc HQ. destruct (range_fields rg Hl Hb). unfold spdk_bdev_unmap_blocks. rewrite Hw, Hd. cbn [negb].
  assert (bdev_io_valid_blocks bdev (dsm_range_starting_lba rg) (dsm_range_length rg) = true) as ->.
  { apply valid_blocks_iff; try done; lia. }
  cbn [negb]. apply bdev_submit_wp. unfold take_io.
  destruct (per_thread_cache_count (w_mgmt w)) eqn:E; [lia|]. by apply HQ.
Qed.

Lemma unmap_loop_wp k : forall i ix w c (Q : unmap_exit -> world -> Prop),
  ix_ok ix -> flat (ix_iovs ix) = data -> ix_pos ix = (SIZEOF_DSM_RANGE * i)%nat ->
  (SIZEOF_DSM_RANGE * (i + k) <= ix_total ix)%nat -> (ix_total ix <= length data)%nat ->
  w_heap w !! l = Some (OUnmap c) -> (k <= per_thread_cache_count (w_mgmt w))%nat ->
  0 <= uc_count c -> uc_count c + Z.of_nat k < 2 ^ 32 ->
  0 <= uc_range_index c -> uc_range_index c + Z.of_nat k < 2 ^ 32 ->
  (forall j, (i <= j < i + k)%nat -> range_ok bdev max (dsm_range data j)) ->
  (forall w', unmaps_submitted desc l data i k c w w' -> Q UnmapLoopEnd w') ->
  wp (unmap_loop k bdev desc rid l max ix) w Q.
Proof.
  induction k as [|k IH]; intros i ix w c Q Hok Hf Hp Ht Htl Hh Hc H1 H2 H3 H4 Hr HQ; cbn [unmap_loop].
  { wsteps. apply HQ. split; try done.
    - intros j Hj. lia.
    - rewrite Hh, !Z.add_0_r. by destruct c. }
  destruct (next_range ix data i) as (ix'&n&E&Hok'&Hiv&Hcnt&Hpos); try done; [unfold SIZEOF_DSM_RANGE in *; lia|].
  assert (Hri : range_ok bdev max (dsm_range data i)) by (apply Hr; lia). pose proof Hri as [Hri1 Hri2].
  assert (Htot : ix_total ix' = ix_total ix) by (unfold ix_total; by rewrite Hiv, Hcnt).
  rewrite E. wsteps.
  assert ((0 <? max) && (u64 (Z.shiftl max 10) / spdk_bdev_get_block_size bdev <? dsm_range_length (dsm_range data i)) = false) as ->.
  { unfold spdk_bdev_get_block_size. apply andb_false_iff. zcases; auto; lia. }
  wstep. eapply mod_unmap_wp; [done|]. wstep.
  apply range_submit_wp; [|unfold dsm_range, slice; by apply Forall_take, Forall_drop|done|wsimp; lia|].
  { unfold dsm_range. apply length_slice. unfold SIZEOF_DSM_RANGE in *. lia. }
  intros m. wsimp. intros Hm. cbn [negb Z.eqb]. wsteps. eapply mod_unmap_wp; [wlookup|].
  wsimp. rewrite (u32_small (uc_count c + 1)), (u32_small (uc_range_index c + 1)) by lia.
  eapply (IH (S i) ix' _ (c <| uc_count := uc_count c + 1 |> <| uc_range_index := uc_range_index c + 1 |>));
    wsimp; try done; try lia; try (by rewrite Hiv); try (rewrite Htot; lia).
  - by rewrite lookup_insert_eq.
  - unfold submitted. wsimp. lia.
  - intros j Hj. apply Hr. lia.
  - intros w' HU. by apply HQ, unmaps_submitted_cons with m.
Qed.

End Loop.

(** A Dataset Management command whose payload holds its ranges, all of which
    can be submitted. *)
Record dsm_ready (bdev : spdk_bdev) (desc : spdk_bdev_desc) (w : world) (rid : nat) (r : spdk_nvmf_request)
  (qp : spdk_nvmf_qpair) (c : nat) (nr : nat) : Prop := {
  dr_geo : geometry_ok bdev; dr_desc : desc_bdev desc = bdev; dr_write : desc_write desc = true;
  dr_req : w_reqs w !! rid = Some r; dr_qpair : w_qpairs w !! req_qpair r = Some qp; dr_ctrlr : qp_ctrlr qp = Some c;
  dr_ad : dsm_ad (req_cmd r) = true; dr_nr : Z.of_nat nr = dsm_nr (req_cmd r) + 1;
  dr_length : Z.of_nat (SIZEOF_DSM_RANGE * nr) <= req_length r;
  dr_cnt : (Z.to_nat (req_iovcnt r) <= length (req_iov r))%nat;
  dr_vec : (SIZEOF_DSM_RANGE * nr <= length (flat (req_iovs r)))%nat;
  dr_bytes : Forall byte_ok (flat (req_iov r));
  dr_ranges : forall j, (j < nr)%nat ->
     range_ok bdev (subsys_max_discard_size_kib (w_subsys w)) (dsm_range (flat (req_iov r)) j);
  dr_malloc : w_malloc w = []; dr_free : (nr <= per_thread_cache_count (w_mgmt w))%nat }.

(** ** Properties *)

(** C29. Deallocation submits what was asked: for a command whose payload holds
    its ranges, all of them on the device and within the discard limit, when
    there are memory and an I/O object for each range, the handler submits one unmap per range, in order, of exactly that range, with
    a context that counts them, and leaves the answer to the last completion;
    neither medium nor transport is touched yet. *)
Theorem dsm_submits_every_range bdev desc w rid r qp c nr
    (H : dsm_ready bdev desc w rid r qp c nr) :
  wp (nvmf_bdev_ctrlr_dsm_cmd bdev desc rid) w (fun st w' =>
    st = ASYNCHRONOUS /\
    (forall j, (j < nr)%nat -> w_ios w' !! (S (w_next w) + j)%nat
       = Some (range_io desc (w_next w) (dsm_range (flat (req_iov r)) j))) /\
    (forall x, (x < w_next w)%nat -> w_ios w' !! x = w_ios w !! x) /\
    w_heap w' !! w_next w = Some (OUnmap (UnmapCtx rid (Z.of_nat nr) desc bdev (Z.of_nat nr))) /\
    w_disk w' = w_disk w /\ w_log w' = w_log w).
Proof.
  pose proof H as [Hg Hd Hw Hr Hq Hc Had Hnr Hl Hcnt Hvec Hb Hrg Hma Hfr].
  pose proof (dsm_nr_range (req_cmd r)) as Hn.
  unfold nvmf_bdev_ctrlr_dsm_cmd. wsteps. rewrite Had. unfold nvmf_bdev_ctrlr_unmap. wsteps.
  destruct (Z.ltb_spec (req_length r) ((dsm_nr (req_cmd r) + 1) * Z.of_nat SIZEOF_DSM_RANGE)).
  { unfold SIZEOF_DSM_RANGE in *. lia. }
  wsteps. apply wp_malloc_some; [done|]. wsteps.
  replace (Z.to_nat (dsm_nr (req_cmd r) + 1 - 0)) with nr by lia.
  set (ix := spdk_iov_xfer_init (req_iov r) (Z.to_nat (req_iovcnt r))).
  assert (Htot : ix_total ix = length (flat (req_iovs r))) by done.
  assert (Hle : (ix_total ix <= length (flat (req_iov r)))%nat).
  { rewrite Htot. unfold req_iovs. rewrite <- (take_drop (Z.to_nat (req_iovcnt r)) (req_iov r)) at 2.
    rewrite flat_app, length_app. lia. }
  eapply (unmap_loop_wp bdev desc rid (w_next w) _ (flat (req_iov r)) Hg Hd Hw Hb nr 0 ix _ (UnmapCtx rid 0 desc bdev 0));
    try done; wsimp; try (cbn; lia).
  - by apply ix_ok_init.
  - by apply lookup_insert_eq.
  - intros j Hj. apply Hrg. lia.
  - intros w' [H1 H2 H3 H4 _ _ H7 H8]. wstep. eapply wp_load_unmap; [exact H4|]. wsimp.
    destruct (Z.eqb_spec (0 + Z.of_nat nr) 0); [lia|]. wsteps. split; [done|].
    split; [intros j Hj; exact (H1 j Hj)|]. split.
    { intros x Hx. rewrite H2; [done|]. wsimp. lia. }
    split; [|done]. rewrite H4. done.
Qed.

(** Payload of a command, and a target to run it on: two ranges split over two
    vector elements. *)
Definition range_bytes (lba n : Z) : bytes := (le_enc 4 0 ++ le_enc 4 n ++ le_enc 8 lba)%list.
Definition dsm_req (ranges : list (Z * Z)) : spdk_nvmf_request :=
  let data := concat ((fun x => range_bytes x.1 x.2) <$> ranges) in
  demo_req (NvmeCmd SPDK_NVME_OPC_DATASET_MANAGEMENT 0 7 1 0 0 (Z.of_nat (length ranges) - 1) 4 0 0 0 0)
    [Iov (Some (take 10 data)); Iov (Some (drop 10 data))].
Definition dsm_world (ranges : list (Z * Z)) (max : Z) (free : nat) : world :=
  (demo_world [dsm_req ranges] [0%nat] 1 SPDK_NVMF_SUBSYSTEM_ACTIVE (replicate 4096 9))
    <| w_mgmt := MgmtCh free 4 0 [] |>
    <| w_subsys := NvmfSubsys [Some (NvmfNs 1 (Some demo_bdev) demo_desc false)] false max 0 |>.

Lemma dsm_submits_every_range_witness :
  let w := dsm_world [(1, 2); (5, 1)] 1 3 in
  wp (nvmf_bdev_ctrlr_dsm_cmd demo_bdev demo_desc 0) w (fun st w' =>
    st = ASYNCHRONOUS /\
    (forall j, (j < 2)%nat -> w_ios w' !! (S (w_next w) + j)%nat
       = Some (range_io demo_desc (w_next w) (dsm_range (flat (req_iov (dsm_req [(1, 2); (5, 1)]))) j))) /\
    (forall x, (x < w_next w)%nat -> w_ios w' !! x = w_ios w !! x) /\
    w_heap w' !! w_next w = Some (OUnmap (UnmapCtx 0 2 demo_desc demo_bdev 2)) /\
    w_disk w' = w_disk w /\ w_log w' = w_log w).
Proof.
  intros w. apply (dsm_submits_every_range demo_bdev demo_desc w 0 (dsm_req [(1, 2); (5, 1)]) (demo_qpair [0%nat]) 0 2).
  split; try done.
  - vm_compute. repeat constructor; done.
  - intros j Hj. unfold range_ok. destruct j as [|[|j]]; [vm_compute; split; [done|by right]..|lia].
  - cbn. lia.
Defined.

(** The status of a finished unmap counts if the request has none yet. *)
Definition unmap_result (io : spdk_bdev_io) (r : spdk_nvmf_request) : spdk_nvmf_request :=
  if (sct (status (req_rsp r)) =? SPDK_NVME_SCT_GENERIC) && (sc (status (req_rsp r)) =? SPDK_NVME_SC_SUCCESS)
  then answered (spdk_bdev_io_get_nvme_status io) r else r.

Lemma unmap_result_req io r :
  req_qpair (unmap_result io r) = req_qpair r /\ req_cmd (unmap_result io r) = req_cmd r /\
  req_zcopy_phase (unmap_result io r) = req_zcopy_phase r.
Proof. unfold unmap_result, answered. by repeat case_match. Qed.

(** The unmaps of a command answer it together: a completion that is not the
    last one only counts down and records the first failure; the last one
    answers the request, once, with that status, and releases the context. *)
Theorem unmap_cpl_answers_last w iod io l c q r qp ct
    (HL : live_req w (uc_req c) q r qp ct) (Hc : w_heap w !! l = Some (OUnmap c))
    (Hk : 0 < uc_count c < 2 ^ 32)
    (Hio : w_ios w !! iod = Some io) (Hp : io_status io <> IO_STATUS_PENDING) (Hm : mgmt_ok (w_mgmt w)) :
  let r' := unmap_result io r in
  wp (nvmf_bdev_ctrlr_unmap_cpl iod l) w (fun _ w' =>
    w_ios w' = delete iod (w_ios w) /\
    if uc_count c =? 1 then
      w_heap w' = delete l (w_heap w) /\
      answers_only w w' [(uc_req c, completed_rsp (ct_acre_enabled ct) r')]
    else
      w_heap w' !! l = Some (OUnmap (c <| uc_count := uc_count c - 1 |>)) /\
      w_log w' = w_log w /\ w_reqs w' !! uc_req c = Some r').
Proof.
  intros r'. pose proof (lr_req _ _ _ _ _ _ HL) as Hr. destruct (unmap_result_req io r) as (E1&E2&E3).
  unfold nvmf_bdev_ctrlr_unmap_cpl. wsteps. eapply mod_unmap_wp; [done|]. wsteps.
  rewrite u32_small by lia.
  set (w1 := w <| w_heap := <[l := OUnmap (c <| uc_count := uc_count c - 1 |>)]> (w_heap w) |>).
  assert (HW : forall Q : unit -> world -> Prop,
    Q tt (w1 <| w_reqs := <[uc_req c := r']> (w_reqs w) |>) ->
    wp (if (sct (status (req_rsp r)) =? SPDK_NVME_SCT_GENERIC) && (sc (status (req_rsp r)) =? SPDK_NVME_SC_SUCCESS)
        then io ← get_io iod; let '(c0, sct', sc') := spdk_bdev_io_get_nvme_status io in
             set_response (uc_req c) c0 sct' sc' else mret tt) w1 Q).
  { intros Q HQ. unfold r', unmap_result in HQ. destruct (_ && _).
    - unfold get_io. wsteps. eapply set_response_wp; [wlookup|done].
    - wsteps. rewrite insert_id in HQ by done. done. }
  apply HW. clear HW. wstep. eapply wp_load_unmap; [wsimp; apply lookup_insert_eq|]. wsimp.
  set (w2 := w1 <| w_reqs := <[uc_req c := r']> (w_reqs w) |>).
  assert (HL2 : live_req w2 (uc_req c) q r' qp ct).
  { eapply (live_req_upd w); [exact HL|apply lookup_insert_eq|done..]. }
  assert (Hfree : w_ios w2 = w_ios w /\ w_mgmt w2 = w_mgmt w) by done. destruct Hfree as [Hi2 Hm2].
  destruct (Z.eqb_spec (uc_count c - 1) 0), (Z.eqb_spec (uc_count c) 1); try lia; wsteps.
  - eapply request_complete_wp; [exact HL2|]. wsteps.
    eapply free_io_wp; [done|done|done|]. pose proof (completed_world_log (uc_req c) q r' qp ct w2) as E.
    split; [done|]. unfold freed. wsimp. split; [|exact E].
    unfold completed_world, w2, w1. wsimp. by rewrite delete_insert_eq.
  - eapply free_io_wp; [done|done|done|]. split; [done|]. unfold freed, w2, w1. wsimp.
    rewrite !lookup_insert_eq. done.
Qed.

Definition demo_unmap_io : spdk_bdev_io :=
  finished (range_io demo_desc 0 (range_bytes 1 2)) device_ok IO_STATUS_SUCCESS.

Lemma unmap_cpl_answers_last_witness :
  let c := UnmapCtx 0 1 demo_desc demo_bdev 1 in
  let r := dsm_req [(1, 2)] in
  let w := (dsm_world [(1, 2)] 0 3) <| w_heap := {[ 0%nat := OUnmap c ]} |> <| w_ios := {[ 1%nat := demo_unmap_io ]} |> in
  wp (nvmf_bdev_ctrlr_unmap_cpl 1 0) w (fun _ w' =>
    w_ios w' = delete 1%nat (w_ios w) /\
    if uc_count c =? 1 then
      w_heap w' = delete 0%nat (w_heap w) /\
      answers_only w w' [(uc_req c, completed_rsp true (unmap_result demo_unmap_io r))]
    else
      w_heap w' !! 0%nat = Some (OUnmap (c <| uc_count := uc_count c - 1 |>)) /\
      w_log w' = w_log w /\ w_reqs w' !! uc_req c = Some (unmap_result demo_unmap_io r)).
Proof.
  intros c r w. apply (unmap_cpl_answers_last w 1 demo_unmap_io 0 c 0 r (demo_qpair [0%nat]) demo_ctrlr); try done.
  split; try done. set_solver.
Defined.

(** A discard limit exceeded by a later range breaks the command: with the
    first range submitted, the handler fails the command and the caller
    answers it, but the context still counts the first unmap; when that one
    completes, the request is answered a second time, after it has left its
    queue pair, which is undefined behaviour. *)
Theorem dsm_limit_answers_twice :
  let w := dsm_world [(0, 1); (1, 8)] 1 3 in
  wp (st ← nvmf_bdev_ctrlr_dsm_cmd demo_bdev demo_desc 0;
      spdk_nvmf_request_complete 0;;
      device_complete 1 device_ok;;
      mret st) w (fun st w' =>
    st = COMPLETE /\ length (w_log w') = 1%nat /\
    w_ios w' = {[ 1%nat := finished (range_io demo_desc 0 (range_bytes 0 1)) device_ok IO_STATUS_SUCCESS ]} /\
    nvmf_bdev_ctrlr_unmap_cpl 1 0 w' = Undef).
Proof. vm_compute. repeat split. Qed.

(** After waiting for an I/O object the wrong range is deallocated: the
    payload is read again from its start while the index of the range
    continues, so of the ranges (1, 2) and (5, 1) the first is deallocated
    twice, the second never, and the command is answered with success. *)
Theorem dsm_resume_repeats_first_range :
  let w := dsm_world [(1, 2); (5, 1)] 0 1 in
  wp (nvmf_bdev_ctrlr_dsm_cmd demo_bdev demo_desc 0;;
      device_complete 1 device_ok;; nvmf_bdev_ctrlr_unmap_cpl 1 0;;
      e ← bdev_io_wait_next;
      nvmf_bdev_ctrlr_unmap_resubmit 0;;
      io ← get_io 2;
      device_complete 2 device_ok;; nvmf_bdev_ctrlr_unmap_cpl 2 0;;
      mret (e, io)) w (fun x w' =>
    x = (Some (WaitEntry unmap_resubmit (ArgCtx 0)), range_io demo_desc 0 (range_bytes 1 2)) /\
    slice 2560 512 (w_disk w') = replicate 512 9 /\
    w_ios w' = ∅ /\ w_heap w' = ∅ /\
    exists c, w_log w' = [EvReqComplete 0 c] /\ spdk_nvme_cpl_is_error c = false).
Proof. vm_compute. split; [done|]. split; [done|]. split; [done|]. split; [done|]. by eexists. Qed.
