(* ===== verification/NdpGrep.v ===== *)
(** * Search on the target: opcode 0xd1 of [spdk/lib/nvmf/ctrlr_bdev.c]

    [nvmf_bdev_ctrlr_custom_grep_cmd] takes the keyword from the request's
    data, clears the vector and reads blocks into it;
    [nvmf_bdev_ctrlr_complete_cmd_custom] collects the lines that contain the
    keyword and returns them in the vector.  Lines are C strings: a search
    stops at the first zero byte. *)
From S2P Require Import Prelude NvmeSpec Iov World Request Bdev CtrlrBdev.

(** ** C strings *)

Definition NEWLINE : Z := 10.

(** The bytes before the terminator. *)
Fixpoint cstr (b : bytes) : bytes :=
  match b with
  | [] => []
  | x :: b => if x =? 0 then [] else x :: cstr b
  end.

Fixpoint is_prefix (p s : bytes) : bool :=
  match p, s with
  | [], _ => true
  | x :: p, y :: s => (x =? y) && is_prefix p s
  | _ :: _, [] => false
  end.

(** [strstr (hay, needle) != NULL] *)
Fixpoint strstr (hay needle : bytes) : bool :=
  is_prefix needle hay || match hay with [] => false | _ :: hay => strstr hay needle end.

(** ** Collecting the lines *)

(** The result buffer: where it is, the bytes in use, its capacity. *)
Record grep_result := GrepResult { gr_buf : nat; gr_size : nat; gr_cap : nat }.
#[global] Instance eta_gr : Eta grep_result := fun g => GrepResult (gr_buf g) (gr_size g) (gr_cap g).

(** [realloc] to a larger size; the bytes are kept. *)
Definition realloc (l n : nat) : M bool := fun w =>
  let ok := match w_malloc w with b :: _ => b | [] => true end in
  let w := w <| w_malloc := tail (w_malloc w) |> in
  if ok then
    (b ← load_bytes l; store l (OBytes (b ++ replicate (n - length b) 0));; mret true) w
  else Ret false w.

(** One line; [None] when the buffer cannot grow (it is then freed). *)
Definition grep_line (keyword line : bytes) (g : grep_result) : M (option grep_result) :=
  if strstr (cstr line) keyword then
    let needed_size := (gr_size g + length line + 1)%nat in
    o ← (if (gr_cap g <? needed_size)%nat then
           ok ← realloc (gr_buf g) (gr_cap g * 2);
           if (ok : bool) then mret (Some (g <| gr_cap := (gr_cap g * 2)%nat |>))
           else free (Some (gr_buf g));; mret None
         else mret (Some g));
    match o with
    | None => mret None
    | Some g =>
        heap_memcpy (gr_buf g) (gr_size g) line;;
        heap_memcpy (gr_buf g) (gr_size g + length line) [NEWLINE];;
        mret (Some (g <| gr_size := (gr_size g + (length line + 1))%nat |>))
    end
  else mret (Some g).

(** The bytes of one element from index [j] on; a line ends at a newline or at
    the end of the element. *)
Fixpoint grep_elem (keyword data : bytes) (start j : nat) (rest : bytes) (g : grep_result) :
  M (option grep_result) :=
  match rest with
  | [] => mret (Some g)
  | x :: rest =>
      if (x =? NEWLINE) || (j =? length data - 1)%nat then
        o ← grep_line keyword (slice start (j - start + 1) data) g;
        match o with
        | None => mret None
        | Some g => grep_elem keyword data (S j) (S j) rest g
        end
      else grep_elem keyword data start (S j) rest g
  end.

Fixpoint grep_iovs (keyword : bytes) (iovs : list iovec) (g : grep_result) : M (option grep_result) :=
  match iovs with
  | [] => mret (Some g)
  | v :: iovs =>
      o ← grep_elem keyword (iov_mem v) 0 0 (iov_mem v) g;
      match o with None => mret None | Some g => grep_iovs keyword iovs g end
  end.

(** [strlen], removal of a trailing newline, and the keyword. *)
Definition grep_keyword (l : nat) : M bytes :=
  b ← load_bytes l;
  massert (existsb (fun x => x =? 0) b);;
  let kw := cstr b in
  if (0 <? length kw)%nat && (nth (length kw - 1) kw 0 =? NEWLINE) then
    heap_memcpy l (length kw - 1) [0];; mret (take (length kw - 1) kw)
  else mret kw.

Definition GREP_RESULT_CAPACITY : nat := 4096.

(** The vector of an operation: the request's own, a single buffer as one
    element, or the device's buffers for zero copy. *)
Definition spdk_bdev_io_get_iovec (io : spdk_bdev_io) : M (list iovec) :=
  match io_type io with
  | IO_READ | IO_WRITE =>
      match io_buf io with
      | BufReq rid cnt => r ← get_req rid; mret (take (Z.to_nat cnt) (req_iov r))
      | BufHeap l off =>
          b ← load_bytes l;
          mret [Iov (Some (slice off (bytes_of_blocks (desc_bdev (io_desc io)) (io_num_blocks io)) b))]
      | BufNone => mret []
      end
  | IO_ZCOPY => mret (io_iovs io)
  | _ => mret []
  end.

(** What the callback does with the lines collected: the status code. *)
Definition grep_deliver (rid : nat) (g : grep_result) : M Z :=
  (if (0 <? gr_size g)%nat then
     heap_memcpy (gr_buf g) (gr_size g - 1) [0];;
     r ← get_req rid;
     let zeroed := spdk_iov_memset (req_iov r) (Z.to_nat (req_iovcnt r)) 0 in
     b ← load_bytes (gr_buf g);
     iovs ← need (spdk_copy_buf_to_iovs zeroed (Z.to_nat (req_iovcnt r)) b (gr_size g));
     mod_req rid (fun r => r <| req_iov := iovs |> <| req_xfer := SPDK_NVME_DATA_CONTROLLER_TO_HOST |>
                             <| req_length := 4096 |>);;
     free (Some (gr_buf g));;
     mret SPDK_NVME_SC_SUCCESS
   else
     mod_req rid (fun r => r <| req_length := 0 |>);;
     free (Some (gr_buf g));;
     mret SPDK_NVME_SC_INTERNAL_DEVICE_ERROR).

Definition nvmf_bdev_ctrlr_complete_cmd_custom (iod l : nat) : M unit :=
  ctx ← load_grep l;
  let rid := gc_req ctx in
  io ← get_io iod;
  iovs ← spdk_bdev_io_get_iovec io;
  sc ← (if (0 <? length iovs)%nat then
          p ← malloc (OBytes (replicate GREP_RESULT_CAPACITY 0));
          match p with
          | None => mret SPDK_NVME_SC_INTERNAL_DEVICE_ERROR
          | Some b =>
              k ← need (gc_keyword ctx);
              keyword ← grep_keyword k;
              o ← grep_iovs keyword iovs (GrepResult b 0 GREP_RESULT_CAPACITY);
              match o with
              | None => mret SPDK_NVME_SC_INTERNAL_DEVICE_ERROR
              | Some g => grep_deliver rid g
              end
          end
        else mret SPDK_NVME_SC_INTERNAL_DEVICE_ERROR);
  set_response rid 0 0 sc;;
  free (Some l);;
  spdk_nvmf_request_complete rid;;
  spdk_bdev_free_io iod.

(** ** The command *)

(** The copy of the vector into the keyword buffer. *)
Fixpoint copy_vector (l : nat) (offset : Z) (iovs : list iovec) : M unit :=
  match iovs with
  | [] => mret tt
  | v :: iovs =>
      heap_memcpy l (Z.to_nat offset) (iov_mem v);;
      copy_vector l (u32 (offset + Z.of_nat (iov_len v))) iovs
  end.

Definition nvmf_bdev_ctrlr_custom_grep_cmd (bdev : spdk_bdev) (desc : spdk_bdev_desc) (rid : nat) : M exec_status :=
  r ← get_req rid;
  let data_len := Z.land (cdw10 (req_cmd r)) 0xFFFF in
  let start_lba := cdw11 (req_cmd r) in
  let num_blocks := cdw12 (req_cmd r) in
  if (req_length r <? data_len) || (req_iovcnt r =? 0) then
    fail rid SPDK_NVME_SCT_GENERIC SPDK_NVME_SC_INVALID_FIELD
  else
    let total_len := foldl (fun t v => u32 (t + Z.of_nat (iov_len v))) 0 (req_iovs r) in
    p ← malloc (OBytes (replicate (Z.to_nat total_len) 0));
    match p with
    | None => fail rid SPDK_NVME_SCT_GENERIC SPDK_NVME_SC_INTERNAL_DEVICE_ERROR
    | Some new_buffer =>
        copy_vector new_buffer 0 (req_iovs r);;
        mod_req rid (fun r => r <| req_iov := spdk_iov_memset (req_iov r) (Z.to_nat (req_iovcnt r)) 0 |>);;
        r ← get_req rid;
        let opts := ExtIoOpts (OFFSETOF_ACCEL_SEQUENCE + 8) (req_memory_domain r) None (req_accel_sequence r) in
        if negb (nvmf_bdev_ctrlr_lba_in_range (spdk_bdev_get_num_blocks bdev) start_lba num_blocks) then
          fail rid SPDK_NVME_SCT_GENERIC SPDK_NVME_SC_LBA_OUT_OF_RANGE
        else
          c ← malloc (OGrep (GrepCtx (Some new_buffer) total_len rid));
          match c with
          | None => free (Some new_buffer);; fail rid SPDK_NVME_SCT_GENERIC SPDK_NVME_SC_INTERNAL_DEVICE_ERROR
          | Some ctx =>
              rc ← spdk_bdev_readv_blocks_ext desc nvmf_bdev_ctrlr_complete_cmd_custom_cb (ArgCtx ctx)
                     (req_buffer rid r) (req_iov0 r) start_lba num_blocks opts;
              after_submit rid rc (internal_error rid)
          end
    end.

(** ** Lines, as a specification *)

(** The lines of a buffer: each ends with its newline, the last one may lack
    it; [acc] is the line being read. *)
Fixpoint split_lines (acc b : bytes) : list bytes :=
  match b with
  | [] => if decide (acc = []) then [] else [acc]
  | x :: b => if x =? NEWLINE then (acc ++ [x]) :: split_lines [] b else split_lines (acc ++ [x]) b
  end.
Definition lines (b : bytes) : list bytes := split_lines [] b.

(** The lines that contain the keyword, each followed by a newline. *)
Definition matching (keyword : bytes) (ls : list bytes) : bytes :=
  concat ((fun l => if strstr (cstr l) keyword then l ++ [NEWLINE] else []) <$> ls).

(** ** Lemmas *)

Lemma is_prefix_iff p s : is_prefix p s = true <-> exists t, s = p ++ t.
Proof.
  revert s. induction p as [|x p IH]; intros s; cbn. { split; [by exists s|done]. }
  destruct s as [|y s]. { split; [done|by intros [??]]. }
  rewrite andb_true_iff, IH, Z.eqb_eq. split.
  - intros [-> [t ->]]. by exists t.
  - intros [t [= -> ->]]. eauto.
Qed.

Lemma strstr_iff hay needle : strstr hay needle = true <-> exists a c, hay = a ++ needle ++ c.
Proof.
  induction hay as [|x hay IH]; cbn [strstr]; rewrite orb_true_iff, is_prefix_iff.
  - split; [intros [[t ->]|?]; [by exists [], t|done]|].
    intros (a & c & E). left. exists c. by destruct a.
  - rewrite IH. split.
    + intros [[t ->]|(a & c & ->)]; [by exists [], t|by exists (x :: a), c].
    + intros ([|y a] & c & E); [left; by exists c|right]. injection E as -> ->. eauto.
Qed.

Lemma strstr_nil hay : strstr hay [] = true.
Proof. apply strstr_iff. by exists [], hay. Qed.

Lemma concat_split_lines b acc : concat (split_lines acc b) = acc ++ b.
Proof.
  revert acc. induction b as [|x b IH]; intros acc; cbn.
  { case_decide; subst; cbn; by rewrite ?app_nil_r. }
  destruct (x =? NEWLINE); cbn; rewrite IH, <- ?app_assoc; done.
Qed.

(** A line: not empty, and no newline but at its end. *)
Definition is_line (l : bytes) : Prop := exists l' x, l = l' ++ [x] /\ NEWLINE ∉ l'.

Lemma split_lines_are_lines b acc : NEWLINE ∉ acc -> Forall is_line (split_lines acc b).
Proof.
  revert acc. induction b as [|x b IH]; intros acc H; cbn.
  - case_decide as E; [done|]. apply Forall_singleton.
    destruct (exists_last E) as (l & x & ->). exists l, x. set_solver.
  - destruct (Z.eqb_spec x NEWLINE).
    + constructor; [by exists acc, x|]. apply IH. set_solver.
    + apply IH. set_solver.
Qed.

Lemma lines_are_lines b : concat (lines b) = b /\ Forall is_line (lines b).
Proof. split; [apply (concat_split_lines b [])|apply split_lines_are_lines; set_solver]. Qed.

Lemma matching_cons kw l ls :
  matching kw (l :: ls) = (if strstr (cstr l) kw then l ++ [NEWLINE] else []) ++ matching kw ls.
Proof. done. Qed.
Lemma matching_app kw l1 l2 : matching kw (l1 ++ l2) = matching kw l1 ++ matching kw l2.
Proof. unfold matching. by rewrite fmap_app, concat_app. Qed.

Lemma cstr_replicate n : cstr (replicate n 0) = [].
Proof. by destruct n. Qed.

(** The result buffer holds [out]. *)
Definition collected (g : grep_result) (out : bytes) (w : world) : Prop :=
  w_malloc w = [] /\ gr_size g = length out /\ (GREP_RESULT_CAPACITY <= gr_cap g)%nat /\ (length out <= gr_cap g)%nat /\
  exists b, w_heap w !! gr_buf g = Some (OBytes b) /\ length b = gr_cap g /\ take (length out) b = out.

(** Only the object at [l] differs. *)
Definition same_but (l : nat) (w w' : world) : Prop :=
  exists o, w' = w <| w_heap := <[l := o]> (w_heap w) |>.

Lemma same_but_trans l w1 w2 w3 : same_but l w1 w2 -> same_but l w2 w3 -> same_but l w1 w3.
Proof. intros [o ->] [o' ->]. exists o'. wsimp. by rewrite insert_insert_eq. Qed.
Lemma same_but_refl l o w : w_heap w !! l = Some o -> same_but l w w.
Proof. intros H. exists o. rewrite insert_id by done. by destruct w. Qed.

Lemma collect_store_wp g line out w (Q : option grep_result -> world -> Prop) :
  collected g out w -> (length out + length line + 1 <= gr_cap g)%nat ->
  (forall g' w', gr_buf g' = gr_buf g -> collected g' (out ++ line ++ [NEWLINE]) w' ->
     same_but (gr_buf g) w w' -> Q (Some g') w') ->
  wp (heap_memcpy (gr_buf g) (gr_size g) line;;
      heap_memcpy (gr_buf g) (gr_size g + length line) [NEWLINE];;
      mret (Some (g <| gr_size := (gr_size g + (length line + 1))%nat |>))) w Q.
Proof.
  intros (Hm & Hs & Hc & Hl & b & Hb & Hlb & Ht) Hroom HQ.
  wstep. eapply wp_heap_memcpy; [done|lia|]. wsimp.
  wstep. eapply wp_heap_memcpy; [wlookup|rewrite length_splice; cbn; lia|]. wstep.
  rewrite splice_splice by (cbn; lia). rewrite Hs, insert_insert_eq. apply HQ; [done| |by eexists].
  assert (El : length (out ++ line ++ [NEWLINE]) = (length out + length (line ++ [NEWLINE]))%nat) by by rewrite length_app.
  assert (E2 : length (line ++ [NEWLINE]) = (length line + 1)%nat) by by rewrite length_app.
  unfold collected. cbn. rewrite El. do 4 (split; [done || lia|]).
  eexists. split; [by rewrite lookup_insert_eq|]. split; [rewrite length_splice; lia|].
  rewrite take_splice_end by lia. by rewrite Ht.
Qed.

Lemma collected_grow g out w b : collected g out w -> w_heap w !! gr_buf g = Some (OBytes b) ->
  collected (g <| gr_cap := (gr_cap g * 2)%nat |>) out
    (w <| w_heap := <[gr_buf g := OBytes (b ++ replicate (gr_cap g * 2 - length b) 0)]> (w_heap w) |>).
Proof.
  intros (Hm & Hs & Hc & Hl & b' & Hb' & Hlb & Ht) Hb. simplify_eq.
  unfold collected. cbn. do 4 (split; [done || lia|]). eexists. split; [by rewrite lookup_insert_eq|].
  rewrite length_app, length_replicate, take_app_le by lia. split; [lia|done].
Qed.

Lemma realloc_wp l n b w (Q : bool -> world -> Prop) :
  w_malloc w = [] -> w_heap w !! l = Some (OBytes b) ->
  Q true (w <| w_heap := <[l := OBytes (b ++ replicate (n - length b) 0)]> (w_heap w) |>) ->
  wp (realloc l n) w Q.
Proof.
  intros Hm Hb HQ. unfold wp, realloc. rewrite Hm. cbn [tail].
  assert (w <| w_malloc := [] |> = w) as -> by (destruct w; cbn in *; by subst).
  change (wp (b ← load_bytes l; store l (OBytes (b ++ replicate (n - length b) 0));; mret true) w Q). by wsteps.
Qed.

(** A line that fits the initial capacity always fits after one doubling. *)
Lemma grep_line_wp kw line g out w (Q : option grep_result -> world -> Prop) :
  collected g out w -> (length line < GREP_RESULT_CAPACITY)%nat ->
  (forall g' w', gr_buf g' = gr_buf g -> collected g' (out ++ matching kw [line]) w' ->
     same_but (gr_buf g) w w' -> Q (Some g') w') ->
  wp (grep_line kw line g) w Q.
Proof.
  intros HC Hl HQ. pose proof HC as (Hm & Hs & Hcap & Hle & b & Hb & Hlb & Ht).
  unfold matching in HQ. cbn in HQ. rewrite app_nil_r in HQ. unfold grep_line.
  destruct (strstr (cstr line) kw); [|wsteps; rewrite app_nil_r in HQ; apply HQ; [done..|by eapply same_but_refl]].
  destruct (Nat.ltb_spec (gr_cap g) (gr_size g + length line + 1)).
  - wsteps. eapply realloc_wp; [done..|]. wsteps.
    apply wp_unbind. eapply (collect_store_wp (g <| gr_cap := (gr_cap g * 2)%nat |>)); [by apply collected_grow|cbn; lia|].
    intros g' w' Hg HC' HS. apply HQ; [done..|]. eapply same_but_trans; [by eexists|exact HS].
  - wsteps. apply wp_unbind. eapply collect_store_wp; [done|lia|done].
Qed.

Lemma grep_elem_wp kw data rest start j g out w (Q : option grep_result -> world -> Prop) :
  drop j data = rest -> (start <= j <= length data)%nat -> collected g out w ->
  Forall (fun l => length l < GREP_RESULT_CAPACITY)%nat (split_lines (slice start (j - start) data) rest) ->
  (rest = [] -> start = j) ->
  (forall g' w', gr_buf g' = gr_buf g ->
     collected g' (out ++ matching kw (split_lines (slice start (j - start) data) rest)) w' ->
     same_but (gr_buf g) w w' -> Q (Some g') w') ->
  wp (grep_elem kw data start j rest g) w Q.
Proof.
  revert start j g out w Q. induction rest as [|x rest IH]; intros start j g out w Q Hd Hj HC HF Hn HQ; cbn [grep_elem].
  { wsteps. rewrite (Hn eq_refl), Nat.sub_diag in HQ. cbn in HQ. rewrite app_nil_r in HQ.
    apply HQ; [done..|]. destruct HC as (_&_&_&_&b&Hb&_). by eapply same_but_refl. }
  assert (Hx : data !! j = Some x) by (rewrite <- (Nat.add_0_r j), <- lookup_drop, Hd; done).
  assert (Hd' : drop (S j) data = rest) by (rewrite <- Nat.add_1_r, <- drop_drop, Hd; done).
  pose proof (lookup_lt_Some _ _ _ Hx).
  assert (Es : slice start (j - start) data ++ [x] = slice start (j - start + 1) data).
  { rewrite <- slice_app. f_equal. unfold slice. rewrite Nat.add_sub_assoc, Nat.add_comm, Nat.add_sub, Hd by lia. done. }
  assert (Hlast : (j =? length data - 1)%nat = bool_decide (rest = [])).
  { apply (f_equal length) in Hd'. rewrite length_drop in Hd'.
    destruct (Nat.eqb_spec j (length data - 1)), rest; cbn in *; try done; lia. }
  assert (Ecase : (x =? NEWLINE) || (j =? length data - 1)%nat = true ->
    split_lines (slice start (j - start) data) (x :: rest) =
    slice start (j - start + 1) data :: split_lines (slice (S j) (S j - S j) data) rest).
  { rewrite Hlast, Nat.sub_diag. cbn [split_lines]. rewrite Es.
    intros E. destruct (x =? NEWLINE); [done|]. case_bool_decide as Er; [rewrite Er|done].
    cbn [split_lines]. rewrite decide_False; [done|]. intros E'. apply (f_equal length) in E'. rewrite length_slice in E'; cbn in E'; lia. }
  destruct ((x =? NEWLINE) || (j =? length data - 1)%nat) eqn:Eb.
  - rewrite Ecase in HF, HQ by done. apply Forall_cons in HF as [HF1 HF2].
    wstep. eapply grep_line_wp; [done|done|]. intros g1 w1 Hg1 HC1 HS1. cbv iota.
    eapply IH; [done|lia|exact HC1|done|done|]. intros g2 w2 Hg2 HC2 HS2.
    rewrite Hg1 in *. apply HQ; [done| |by eapply same_but_trans].
    by rewrite <- app_assoc, <- matching_app in HC2.
  - apply orb_false_iff in Eb as [E1 E2]. cbn [split_lines] in HF, HQ. rewrite E1, Es in HF, HQ.
    replace (j - start + 1)%nat with (S j - start)%nat in * by lia.
    rewrite Hlast in E2. apply bool_decide_eq_false in E2.
    eapply IH; [done|lia|done|done|done|done].
Qed.

(** Lines of a vector: those of its elements, one after the other. *)
Definition iov_lines (iovs : list iovec) : list bytes := concat (lines ∘ iov_mem <$> iovs).

Lemma grep_iovs_wp kw iovs g out w (Q : option grep_result -> world -> Prop) :
  collected g out w -> Forall (fun l => length l < GREP_RESULT_CAPACITY)%nat (iov_lines iovs) ->
  (forall g' w', gr_buf g' = gr_buf g -> collected g' (out ++ matching kw (iov_lines iovs)) w' ->
     same_but (gr_buf g) w w' -> Q (Some g') w') ->
  wp (grep_iovs kw iovs g) w Q.
Proof.
  revert g out w Q. induction iovs as [|v iovs IH]; intros g out w Q HC HF HQ; cbn [grep_iovs].
  { wsteps. cbn in HQ. rewrite app_nil_r in HQ. apply HQ; [done..|].
    destruct HC as (_&_&_&_&b&Hb&_). by eapply same_but_refl. }
  change (iov_lines (v :: iovs)) with (lines (iov_mem v) ++ iov_lines iovs) in *.
  apply Forall_app in HF as [HF1 HF2]. wstep.
  eapply grep_elem_wp; [done|lia|done|exact HF1|done|]. intros g1 w1 Hg1 HC1 HS1.
  eapply IH; [exact HC1|done|]. intros g2 w2 Hg2 HC2 HS2. rewrite Hg1 in *.
  apply HQ; [done| |by eapply same_but_trans]. by rewrite matching_app, app_assoc.
Qed.

(** The keyword in a buffer, without a trailing newline. *)
Definition keyword_of (b : bytes) : bytes :=
  let kw := cstr b in
  if (0 <? length kw)%nat && (nth (length kw - 1) kw 0 =? NEWLINE) then take (length kw - 1) kw else kw.

Lemma length_cstr b : (length (cstr b) <= length b)%nat.
Proof. induction b as [|x b IH]; cbn; [lia|]. destruct (x =? 0); cbn; lia. Qed.

Lemma grep_keyword_wp k b w (Q : bytes -> world -> Prop) :
  w_heap w !! k = Some (OBytes b) -> 0 ∈ b ->
  (forall w', same_but k w w' -> Q (keyword_of b) w') -> wp (grep_keyword k) w Q.
Proof.
  intros Hk H0 HQ. unfold grep_keyword, keyword_of in *. wstep. wstep. wstep. apply wp_massert.
  { apply existsb_exists. exists 0. by rewrite <- list_elem_of_In. }
  pose proof (length_cstr b).
  destruct (_ && _) eqn:E; [|wsteps; apply HQ; by eapply same_but_refl].
  wstep. eapply wp_heap_memcpy; [done|cbn; apply andb_true_iff in E as [E _]; apply Nat.ltb_lt in E; lia|].
  wsteps. apply HQ. by eexists.
Qed.

(** The text returned: the final newline becomes the terminator. *)
Definition terminated (out : bytes) : bytes := take (length out - 1) out ++ [0].

Lemma take_terminated out b : take (length out) b = out -> (0 < length out <= length b)%nat ->
  take (length out) (splice (length out - 1) [0] b) = terminated out.
Proof.
  intros Ht Hl. pose proof (take_splice_end (length out - 1) [0] b ltac:(cbn; lia)) as E.
  cbn [length] in E. rewrite Nat.sub_add in E by lia. rewrite E. unfold terminated. f_equal.
  transitivity (take (length out - 1) (take (length out) b)); [|by rewrite Ht].
  rewrite take_take. f_equal. lia.
Qed.

(** The request as the callback leaves it before it writes the response. *)
Definition grep_answer (out : bytes) (r r' : spdk_nvmf_request) : Prop :=
  if decide (out = []) then r' = r <| req_length := 0 |>
  else exists iovs, flat iovs = padded (length (flat (req_iov r))) (terminated out) /\
    iov_len <$> iovs = iov_len <$> req_iov r /\
    r' = r <| req_iov := iovs |> <| req_xfer := SPDK_NVME_DATA_CONTROLLER_TO_HOST |> <| req_length := 4096 |>.
Definition grep_sc (out : bytes) : Z :=
  if decide (out = []) then SPDK_NVME_SC_INTERNAL_DEVICE_ERROR else SPDK_NVME_SC_SUCCESS.

Lemma grep_deliver_wp rid g out r w (Q : Z -> world -> Prop) :
  collected g out w -> w_reqs w !! rid = Some r -> Z.to_nat (req_iovcnt r) = length (req_iov r) ->
  (forall r', grep_answer out r r' ->
     Q (grep_sc out) (w <| w_reqs := <[rid := r']> (w_reqs w) |> <| w_heap := delete (gr_buf g) (w_heap w) |>)) ->
  wp (grep_deliver rid g) w Q.
Proof.
  intros (Hm & Hs & Hc & Hl & b & Hb & Hlb & Ht) Hr Hcnt HQ. unfold grep_deliver, grep_answer, grep_sc in *.
  rewrite Hs. destruct (Nat.ltb_spec 0 (length out)); destruct (decide (out = [])) as [E|E]; subst; cbn [length] in *; try lia.
  - wstep. eapply wp_heap_memcpy; [done|cbn; lia|]. wsteps.
    set (b' := splice (length out - 1) [0] b). destruct (memset_flat (req_iov r)) as [Z1 Z2]. rewrite Hcnt.
    assert (Hlb' : length b' = length b) by (apply length_splice; cbn; lia).
    destruct (copy_buf_to_iovs_flat (spdk_iov_memset (req_iov r) (length (req_iov r)) 0) (length (req_iov r)) b' (length out))
      as (iovs & Ei & El & Ef); [|lia|].
    { apply (f_equal length) in Z2. rewrite !length_fmap in Z2. lia. }
    wsteps. rewrite delete_insert_eq. apply HQ. exists iovs. split; [|split; [by rewrite El|done]].
    rewrite Ef, Z1. rewrite take_ge with (l := spdk_iov_memset _ _ _) by (apply (f_equal length) in Z2; rewrite !length_fmap in Z2; lia).
    rewrite Z1, length_replicate, <- splice_zeros. f_equal.
    assert (Et : length (terminated out) = length out) by (unfold terminated; rewrite length_app, length_take; cbn; lia).
    rewrite Et, <- (take_terminated out b), take_take by (done || lia). f_equal. lia.
  - wsteps. by apply HQ.
  - destruct out; [done|cbn in *; lia].
Qed.

(** The state in which the read of a search has finished. *)
Record grep_ready (w : world) (iod l k rid q : nat) (r : spdk_nvmf_request) (qp : spdk_nvmf_qpair)
  (ct : spdk_nvmf_ctrlr) (io : spdk_bdev_io) (n : Z) (kwb : bytes) : Prop := {
  gy_live : live_req w rid q r qp ct;
  gy_ctx : w_heap w !! l = Some (OGrep (GrepCtx (Some k) n rid));
  gy_kw : w_heap w !! k = Some (OBytes kwb); gy_nul : 0 ∈ kwb;
  gy_io : w_ios w !! iod = Some io; gy_done : io_status io <> IO_STATUS_PENDING;
  gy_type : io_type io = IO_READ; gy_buf : io_buf io = BufReq rid (req_iovcnt r);
  gy_cnt : Z.to_nat (req_iovcnt r) = length (req_iov r); gy_pos : req_iov r <> [];
  gy_mgmt : mgmt_ok (w_mgmt w); gy_malloc : w_malloc w = []; gy_fresh : w_heap w !! w_next w = None;
  gy_lines : Forall (fun ln => length ln < GREP_RESULT_CAPACITY)%nat (iov_lines (req_iov r)) }.

(** The end of the callback, after the lines have been returned. *)
Lemma grep_finish_wp w iod io l c rid q r qp ct x (Q : unit -> world -> Prop) :
  live_req w rid q r qp ct -> w_heap w !! l = Some (OGrep c) ->
  w_ios w !! iod = Some io -> io_status io <> IO_STATUS_PENDING -> mgmt_ok (w_mgmt w) ->
  (forall w', w_reqs w' !! rid = Some ((answered x r) <| req_rsp := completed_rsp (ct_acre_enabled ct) (answered x r) |>) ->
     answers_only w w' [(rid, completed_rsp (ct_acre_enabled ct) (answered x r))] ->
     w_heap w' = delete l (w_heap w) -> w_ios w' = delete iod (w_ios w) -> w_disk w' = w_disk w -> Q tt w') ->
  wp ((let '(c0, sct', sc') := x in set_response rid c0 sct' sc');; free (Some l);;
      spdk_nvmf_request_complete rid;; spdk_bdev_free_io iod) w Q.
Proof.
  intros HL Hl Hio Hp Hm HQ. pose proof (lr_req _ _ _ _ _ _ HL) as Hr.
  wstep. apply (set_response_wp rid x r); [done|]. wsteps.
  set (w1 := w <| w_reqs := <[rid := answered x r]> (w_reqs w) |> <| w_heap := delete l (w_heap w) |>).
  pose proof (completed_world_log rid q (answered x r) qp ct w1) as Ev.
  eapply request_complete_wp.
  { eapply (live_req_upd w _ rid q r (answered x r)); [done|apply lookup_insert_eq|done|done|done|..];
      by destruct x as [[??]?]. }
  eapply free_io_wp; [done..|]. eapply HQ; try reflexivity; [|exact Ev].
  unfold freed, completed_world. wsimp. apply lookup_insert_eq.
Qed.


Section Callback.
Context (w : world) (iod l k rid q : nat) (r : spdk_nvmf_request) (qp : spdk_nvmf_qpair) (ct : spdk_nvmf_ctrlr).
Context (io : spdk_bdev_io) (n : Z) (kwb : bytes) (H : grep_ready w iod l k rid q r qp ct io n kwb).
Let out := matching (keyword_of kwb) (iov_lines (req_iov r)).

Lemma grep_callback_wp (Q : unit -> world -> Prop) :
  (forall w' r1, grep_answer out r r1 ->
     let a := answered (0, 0, grep_sc out) r1 in
     w_reqs w' !! rid = Some (a <| req_rsp := completed_rsp (ct_acre_enabled ct) a |>) ->
     answers_only w w' [(rid, completed_rsp (ct_acre_enabled ct) a)] ->
     is_Some (w_heap w' !! k) -> (forall l', l' <> k -> w_heap w' !! l' = delete l (w_heap w) !! l') ->
     w_ios w' = delete iod (w_ios w) -> w_disk w' = w_disk w -> Q tt w') ->
  wp (nvmf_bdev_ctrlr_complete_cmd_custom iod l) w Q.
Proof.
  intros HQ. destruct H as [HL Hctx Hk Hnul Hio Hst Hty Hbuf Hcnt Hpos Hm Hma Hfr Hln].
  pose proof (lr_req _ _ _ _ _ _ HL) as Hr.
  assert (l <> w_next w /\ k <> w_next w /\ l <> k) as (Nl & Nk & Nlk) by (repeat split; intros ->; congruence).
  unfold nvmf_bdev_ctrlr_complete_cmd_custom, get_io, spdk_bdev_io_get_iovec. wsteps. rewrite Hty, Hbuf. wsteps.
  rewrite Hcnt, firstn_all. destruct (Nat.ltb_spec 0 (length (req_iov r))); [|by destruct (req_iov r); cbn in *; [|lia]].
  wstep. apply wp_malloc_some; [done|]. wsteps.
  eapply grep_keyword_wp; [wsimp; by rewrite lookup_insert_ne|done|]. intros w2 [o2 ->]. wsteps.
  eapply (grep_iovs_wp _ _ _ []); [|exact Hln|].
  { unfold collected. cbn. do 4 (split; [done || lia|]). eexists.
    split; [by rewrite lookup_insert_ne, lookup_insert_eq by done|]. done. }
  intros g w3 Hg HC [o3 ->]. cbn [gr_buf app] in Hg, HC. cbv iota.
  eapply grep_deliver_wp; [exact HC|exact Hr|done|]. intros r1 Ha. fold out in Ha |- *.
  wsimp. rewrite Hg. cbn [gr_buf].
  apply (grep_finish_wp _ iod io l (GrepCtx (Some k) n rid) rid q r1 qp ct (0, 0, grep_sc out));
    [|wsimp; by rewrite lookup_delete_ne, !lookup_insert_ne by done|done..|].
  { unfold grep_answer in Ha. eapply (live_req_upd w _ rid q r r1); [done|apply lookup_insert_eq|done|done|done|..].
    all: destruct (decide (out = [])); [by subst r1|destruct Ha as (?&?&?&->); done]. }
  intros w' Hreq Hlog Hheap Hios Hdisk. eapply HQ; try eassumption; rewrite Hheap; wsimp.
  - rewrite lookup_delete_ne, lookup_delete_ne, lookup_insert_ne, lookup_insert_eq by done. done.
  - intros l' Hl'. destruct (decide (l' = l)) as [->|]; [by rewrite !lookup_delete_eq|].
    rewrite !(lookup_delete_ne _ l) by done. destruct (decide (l' = w_next w)) as [->|].
    + by rewrite lookup_delete_eq, Hfr.
    + by rewrite lookup_delete_ne, !lookup_insert_ne by done.
Qed.
End Callback.

Lemma copy_vector_wp l iovs o b w (Q : unit -> world -> Prop) :
  w_heap w !! l = Some (OBytes b) -> (o + length (flat iovs) <= length b)%nat -> blen b < 2 ^ 32 ->
  Q tt (w <| w_heap := <[l := OBytes (splice o (flat iovs) b)]> (w_heap w) |>) ->
  wp (copy_vector l (Z.of_nat o) iovs) w Q.
Proof.
  revert o b w Q. induction iovs as [|v iovs IH]; intros o b w Q Hl Hlen Hb HQ; cbn [copy_vector].
  { wsteps. cbn in HQ. rewrite splice_nil, insert_id in HQ by done. by destruct w. }
  change (flat (v :: iovs)) with (iov_mem v ++ flat iovs) in *. rewrite length_app in Hlen. unfold blen in *.
  rewrite Nat2Z.id. wstep. eapply wp_heap_memcpy; [done|lia|]. unfold iov_len.
  rewrite u32_small, <- Nat2Z.inj_add by lia.
  eapply IH; [apply lookup_insert_eq|rewrite length_splice by lia; lia|rewrite length_splice by lia; lia|].
  wsimp. by rewrite insert_insert_eq, splice_splice by lia.
Qed.

Lemma total_len_flat iovs t : 0 <= t -> t + blen (flat iovs) < 2 ^ 32 ->
  foldl (fun t v => u32 (t + Z.of_nat (iov_len v))) t iovs = t + blen (flat iovs).
Proof.
  revert t. induction iovs as [|v iovs IH]; intros t H0 H; cbn [foldl]; [unfold blen; cbn; lia|].
  change (flat (v :: iovs)) with (iov_mem v ++ flat iovs) in *. unfold blen, iov_len in *. rewrite length_app in *.
  rewrite u32_small by lia. rewrite IH by lia. lia.
Qed.

(** A search request: blocks [s .. s + n) of [bdev], the keyword in its vector. *)
Record grep_req (bdev : spdk_bdev) (desc : spdk_bdev_desc) (r : spdk_nvmf_request) (s n : Z) : Prop := {
  gq_desc : desc_bdev desc = bdev; gq_geo : geometry_ok bdev; gq_cmd : cmd_ok (req_cmd r);
  gq_start : cdw11 (req_cmd r) = s; gq_count : cdw12 (req_cmd r) = n;
  gq_len : Z.land (cdw10 (req_cmd r)) 0xFFFF <= req_length r;
  gq_cnt : req_iovcnt r = Z.of_nat (length (req_iov r)); gq_pos : req_iov r <> [];
  gq_total : blen (flat (req_iov r)) < 2 ^ 32; gq_dom : req_memory_domain r = None }.

(** The request with its vector cleared, and the world once the keyword and
    the context exist. *)
Definition cleared (r : spdk_nvmf_request) : spdk_nvmf_request :=
  r <| req_iov := spdk_iov_memset (req_iov r) (length (req_iov r)) 0 |>.
Definition grep_started (rid : nat) (r : spdk_nvmf_request) (w : world) : world :=
  w <| w_heap := <[S (w_next w) := OGrep (GrepCtx (Some (w_next w)) (blen (flat (req_iov r))) rid)]>
                   (<[w_next w := OBytes (flat (req_iov r))]> (w_heap w)) |>
    <| w_next := S (S (w_next w)) |>
    <| w_reqs := <[rid := cleared r]> (w_reqs w) |>.
Definition grep_io (desc : spdk_bdev_desc) (ctx rid : nat) (r : spdk_nvmf_request) (s n : Z) : spdk_bdev_io :=
  with_range s n (bdev_io_init IO_READ desc nvmf_bdev_ctrlr_complete_cmd_custom_cb (ArgCtx ctx))
    <| io_buf := req_buffer rid r |>.

Lemma grep_cmd_wp bdev desc w rid r s n (Q : exec_status -> world -> Prop) :
  grep_req bdev desc r s n -> w_reqs w !! rid = Some r -> w_malloc w = [] -> s + n <= blockcnt bdev ->
  (let w1 := grep_started rid r w in
   match take_io (w_mgmt w) with
   | Some m => Q ASYNCHRONOUS (submitted (grep_io desc (S (w_next w)) rid (cleared r) s n) m w1)
   | None => Q ASYNCHRONOUS (waiting (WaitEntry process_io_cmd_resubmit (ArgReq rid)) w1)
   end) ->
  wp (nvmf_bdev_ctrlr_custom_grep_cmd bdev desc rid) w Q.
Proof.
  intros [Hd Hg Hc Hs Hn Hl Hcnt Hpos Htot Hdom] Hr Hma Hrg HQ.
  assert (Hv : nvmf_bdev_ctrlr_lba_in_range (spdk_bdev_get_num_blocks bdev) s n = true).
  { rewrite lba_in_range_valid_blocks. destruct Hc as (?&?&?&?&?&?&?&?). apply valid_blocks_iff; [done|lia..]. }
  unfold nvmf_bdev_ctrlr_custom_grep_cmd. wsteps.
  destruct (Z.ltb_spec (req_length r) (Z.land (cdw10 (req_cmd r)) 0xFFFF)); [lia|].
  rewrite Hcnt. destruct (Z.eqb_spec (Z.of_nat (length (req_iov r))) 0) as [E|_]; [destruct (req_iov r); cbn in *; [done|lia]|].
  cbn [orb]. unfold req_iovs. rewrite Hcnt, Nat2Z.id, firstn_all, total_len_flat, Z.add_0_l by (unfold blen in *; lia).
  rewrite blen_nat. wstep. apply wp_malloc_some; [done|]. wstep.
  eapply (copy_vector_wp _ _ 0); [apply lookup_insert_eq|by rewrite length_replicate|unfold blen; by rewrite length_replicate|].
  rewrite splice_all by (by rewrite length_replicate). wsimp. rewrite insert_insert_eq. wsteps.
  rewrite Hs, Hn, Hv. cbn [negb]. wstep. apply wp_malloc_some; [done|]. wsimp. wstep.
  unfold spdk_bdev_readv_blocks_ext. rewrite Hd, ext_opts_ok by (done || unfold OFFSETOF_ACCEL_SEQUENCE, SIZEOF_EXT_IO_OPTS; lia).
  cbn [negb]. unfold bdev_readv_blocks_with_md. rewrite Hd, <- lba_in_range_valid_blocks, Hv. cbn [negb].
  apply wp_unbind, submit_then_wp. rewrite ?Hcnt, ?Nat2Z.id. wsimp. destruct (take_io (w_mgmt w)); exact HQ.
Qed.

(** [b] cut at the lengths [ns]. *)
Fixpoint pieces (ns : list nat) (b : bytes) : list bytes :=
  match ns with
  | [] => []
  | n :: ns => take n b :: pieces ns (drop n b)
  end.

Lemma pieces_flat iovs : iov_mem <$> iovs = pieces (iov_len <$> iovs) (flat iovs).
Proof.
  induction iovs as [|v iovs IH]; [done|].
  change (iov_mem v :: (iov_mem <$> iovs) = take (length (iov_mem v)) (iov_mem v ++ flat iovs)
    :: pieces (iov_len <$> iovs) (drop (length (iov_mem v)) (iov_mem v ++ flat iovs))).
  by rewrite take_app_length, drop_app_length, IH.
Qed.

Lemma iov_lines_pieces iovs : iov_lines iovs = concat (lines <$> pieces (iov_len <$> iovs) (flat iovs)).
Proof. unfold iov_lines. by rewrite <- pieces_flat, <- list_fmap_compose. Qed.

(** What a search looks at: the blocks, padded with zeros to the vector, cut
    at the elements of the vector and then into lines. *)
Definition search_lines (bdev : spdk_bdev) (w : world) (r : spdk_nvmf_request) (s n : Z) : list bytes :=
  concat (lines <$> pieces (iov_len <$> req_iov r)
    (padded (length (flat (req_iov r)))
       (slice (Z.to_nat (s * blocklen bdev)) (Z.to_nat (n * blocklen bdev)) (w_disk w)))).

(** A vector of one element cuts nothing: the lines are those of the blocks. *)
Lemma search_lines_one bdev w r s n v : req_iov r = [v] ->
  search_lines bdev w r s n =
  lines (padded (iov_len v) (slice (Z.to_nat (s * blocklen bdev)) (Z.to_nat (n * blocklen bdev)) (w_disk w))).
Proof.
  intros E. unfold search_lines. rewrite E. cbn [fmap list_fmap pieces concat]. rewrite app_nil_r. unfold flat. cbn [fmap list_fmap concat].
  rewrite app_nil_r. unfold iov_len. by rewrite take_ge by (unfold padded; rewrite length_take; lia).
Qed.

(** A search whose blocks are on the device and fit the vector, and whose
    keyword is terminated. *)
Record search_ready (bdev : spdk_bdev) (desc : spdk_bdev_desc) (w : world) (rid q : nat) (r : spdk_nvmf_request)
  (qp : spdk_nvmf_qpair) (ct : spdk_nvmf_ctrlr) (s n : Z) (m : spdk_bdev_mgmt_channel) : Prop := {
  sr_req : grep_req bdev desc r s n; sr_live : live_req w rid q r qp ct; sr_range : s + n <= blockcnt bdev;
  sr_vec : (Z.to_nat (n * blocklen bdev) <= length (flat (req_iov r)))%nat;
  sr_nul : 0 ∈ flat (req_iov r); sr_take : take_io (w_mgmt w) = Some m; sr_mgmt : mgmt_ok (w_mgmt w);
  sr_disk : Z.to_nat (blockcnt bdev * blocklen bdev) = length (w_disk w); sr_malloc : w_malloc w = [];
  sr_fresh : forall l, (w_next w <= l)%nat -> w_heap w !! l = None;
  sr_short : Forall (fun ln => length ln < GREP_RESULT_CAPACITY)%nat (search_lines bdev w r s n) }.

Section Search.
Context (bdev : spdk_bdev) (desc : spdk_bdev_desc) (w : world) (rid q : nat) (r : spdk_nvmf_request).
Context (qp : spdk_nvmf_qpair) (ct : spdk_nvmf_ctrlr) (s n : Z) (m : spdk_bdev_mgmt_channel).
Hypothesis H : search_ready bdev desc w rid q r qp ct s n m.
Let io := grep_io desc (S (w_next w)) rid (cleared r) s n.
Let w1 := submitted io m (grep_started rid r w).
Let len := Z.to_nat (n * blocklen bdev).
Let blocks := slice (Z.to_nat (s * blocklen bdev)) len (w_disk w).

Lemma sr_in_medium : in_medium io w1.
Proof.
  destruct H as [[Hd [Hg _] Hc Hs Hn _ _ _ _ _] _ Hrg _ _ _ _ Hdk _ _ _].
  unfold in_medium, io, w1, grep_io, with_range, submitted. wsimp. cbn [io_desc bdev_io_init]. rewrite Hd.
  destruct Hc as (_&_&_&_&_&?&?&_). change (w_disk (grep_started rid r w)) with (w_disk w). repeat split; try lia.
Qed.

(** The read fills the cleared vector. *)
Lemma search_read_wp (Q : unit -> world -> Prop) :
  (forall iovs, iov_len <$> iovs = iov_len <$> req_iov r -> flat iovs = padded (length (flat (req_iov r))) blocks ->
     Q tt (w1 <| w_reqs := <[rid := r <| req_iov := iovs |>]> (w_reqs w1) |>
              <| w_ios := <[S (S (w_next w)) := finished io device_ok IO_STATUS_SUCCESS]> (w_ios w1) |>)) ->
  wp (device_complete (S (S (w_next w))) device_ok) w1 Q.
Proof.
  intros HQ. pose proof sr_in_medium as HM.
  destruct H as [[Hd [Hg _] Hc Hs Hn _ Hcnt _ _ _] _ Hrg Hvec _ _ _ Hdk _ _ _].
  destruct (memset_flat (req_iov r)) as [Z1 Z2]. fold len in Hvec.
  assert (Hlc : length (req_iov (cleared r)) = length (req_iov r)).
  { apply (f_equal length) in Z2. by rewrite !length_fmap in Z2. }
  eapply device_complete_wp; [by apply lookup_insert_eq|done|done| |done]. intros _.
  eapply (transfer_read_req _ _ _ HM rid (req_iovcnt r) (cleared r)); [done|done|apply lookup_insert_eq| | |].
  { rewrite Hcnt, Nat2Z.id. lia. }
  { rewrite Hcnt, Nat2Z.id, <- Hlc, firstn_all. cbn [cleared req_iov set]. wsimp.
    rewrite Z1, length_replicate. change (desc_bdev (io_desc io)) with (desc_bdev desc). by rewrite Hd. }
  intros iovs El Ef. eexists. split; [by apply lookup_insert_eq|].
  assert (Hb : flat iovs = padded (length (flat (req_iov r))) blocks).
  { rewrite Ef. cbn [cleared req_iov set]. wsimp. rewrite Z1, <- splice_zeros.
    unfold bytes_of_blocks. change (desc_bdev (io_desc io)) with (desc_bdev desc). rewrite Hd.
    assert (Hbl : length blocks = len).
    { apply length_slice. pose proof (in_medium_bytes _ _ HM) as Hi. unfold bytes_of_blocks in Hi.
      change (desc_bdev (io_desc io)) with (desc_bdev desc) in Hi. by rewrite Hd in Hi. }
    rewrite Hbl, Nat.min_l, take_ge by lia. done. }
  specialize (HQ iovs ltac:(by rewrite El; exact Z2) Hb). revert HQ. wsimp.
  done.
Qed.
End Search.

(** An element without a newline is one line. *)
Lemma grep_elem_one_line kw data rest j g w : drop j data = rest -> rest <> [] -> NEWLINE ∉ data ->
  stuck (grep_line kw data g) w -> stuck (grep_elem kw data 0 j rest g) w.
Proof.
  revert j. induction rest as [|x rest IH]; intros j Hd Hne Hnl Hst; [done|]. cbn [grep_elem].
  assert (Hx : data !! j = Some x) by (rewrite <- (Nat.add_0_r j), <- lookup_drop, Hd; done).
  assert (Hd' : drop (S j) data = rest) by (rewrite <- Nat.add_1_r, <- drop_drop, Hd; done).
  pose proof (lookup_lt_Some _ _ _ Hx) as Hj.
  destruct (Z.eqb_spec x NEWLINE) as [->|_]; [exfalso; apply Hnl; by eapply list_elem_of_lookup_2|]. cbn [orb].
  destruct (Nat.eqb_spec j (length data - 1)) as [->|Hj'].
  - apply stuck_head. replace (slice 0 _ data) with data; [done|].
    replace (length data - 1 - 0 + 1)%nat with (length data) by lia. by rewrite slice_all.
  - apply IH; [done| |done..]. intros ->. apply (f_equal length) in Hd'. rewrite length_drop in Hd'. cbn in Hd'. lia.
Qed.

Lemma grep_line_overflow kw line b w : w_malloc w = [] -> w_heap w !! b = Some (OBytes (replicate GREP_RESULT_CAPACITY 0)) ->
  strstr (cstr line) kw = true -> (2 * GREP_RESULT_CAPACITY <= length line)%nat ->
  stuck (grep_line kw line (GrepResult b 0 GREP_RESULT_CAPACITY)) w.
Proof.
  intros Hm Hb Hs Hl. unfold grep_line. rewrite Hs. cbn [gr_size gr_cap gr_buf].
  destruct (Nat.ltb_spec GREP_RESULT_CAPACITY (0 + length line + 1)); [|lia].
  apply stuck_bind. wstep. eapply realloc_wp; [done..|]. wsteps. cbn [gr_size gr_buf set].
  set (b' := _ ++ _). assert (Hb' : length b' = (2 * GREP_RESULT_CAPACITY)%nat).
  { unfold b'. rewrite length_app, !length_replicate. lia. }
  destruct (decide (length line = 2 * GREP_RESULT_CAPACITY)%nat).
  - apply stuck_bind. eapply wp_heap_memcpy; [apply lookup_insert_eq|lia|].
    apply stuck_head. unfold heap_memcpy. apply stuck_bind. eapply wp_load_bytes; [apply lookup_insert_eq|].
    apply stuck_massert, Nat.leb_gt. rewrite length_splice by lia. cbn [length]. lia.
  - apply stuck_head. unfold heap_memcpy. apply stuck_bind. eapply wp_load_bytes; [apply lookup_insert_eq|].
    apply stuck_massert, Nat.leb_gt. lia.
Qed.

(** ** Properties *)


(** The keyword [ab] and a newline, and a medium whose third block has the
    lines [xaby], [c] and [ab], the last one ended by the zeros of the block. *)
Definition demo_grep_req : spdk_nvmf_request :=
  demo_req (demo_cmd 0xd1 3 2 1) [Iov (Some ([97; 98; 10] ++ replicate 1021 0))].
Definition demo_grep_disk : bytes :=
  replicate 1024 7 ++ [120; 97; 98; 121; 10; 99; 10; 97; 98] ++ replicate 3063 0.
Definition demo_grep_world : world :=
  demo_world [demo_grep_req] [0%nat] 1 SPDK_NVMF_SUBSYSTEM_ACTIVE demo_grep_disk.

Lemma demo_search_ready :
  search_ready demo_bdev demo_desc demo_grep_world 0 0 demo_grep_req (demo_qpair [0%nat]) demo_ctrlr 2 1 (MgmtCh 3 4 4 []).
Proof.
  split.
  - split; try done; unfold cmd_ok; cbn; lia.
  - split; try reflexivity; [set_solver|]. split; done.
  - done.
  - vm_compute. lia.
  - apply (bool_decide_unpack _). by vm_compute.
  - done.
  - by vm_compute.
  - by vm_compute.
  - done.
  - done.
  - apply (bool_decide_unpack _). by vm_compute.
Qed.


(** A search that has to wait for an I/O object loses its keyword: the
    vector is cleared before the read is submitted, so the command that is run
    again finds an empty keyword, which every line contains.  The keyword and
    the context of the first attempt stay allocated. *)
Theorem grep_wait_loses_keyword bdev desc w rid r s n
    (HG : grep_req bdev desc r s n) (Hr : w_reqs w !! rid = Some r) (Hma : w_malloc w = [])
    (Hrg : s + n <= blockcnt bdev) (Hn : take_io (w_mgmt w) = None) :
  wp (nvmf_bdev_ctrlr_custom_grep_cmd bdev desc rid) w (fun st w' =>
    st = ASYNCHRONOUS /\
    last (io_wait_queue (w_mgmt w')) = Some (WaitEntry process_io_cmd_resubmit (ArgReq rid)) /\
    is_Some (w_heap w' !! w_next w) /\ is_Some (w_heap w' !! S (w_next w)) /\
    exists r', w_reqs w' !! rid = Some r' /\ req_cmd r' = req_cmd r /\
      forall ls, matching (keyword_of (flat (req_iov r'))) ls = concat ((fun l => l ++ [NEWLINE]) <$> ls)).
Proof.
  eapply grep_cmd_wp; [done..|]. rewrite Hn. cbv zeta. split; [done|].
  unfold waiting, grep_started. wsimp. split; [by rewrite last_snoc|].
  split; [rewrite lookup_insert_ne, lookup_insert_eq by lia; done|]. split; [by rewrite lookup_insert_eq|].
  eexists. split; [apply lookup_insert_eq|]. split; [done|]. intros ls. unfold cleared, keyword_of. wsimp.
  destruct (memset_flat (req_iov r)) as [-> _]. rewrite cstr_replicate. cbn [length Nat.ltb Nat.leb andb].
  unfold matching. f_equal. apply list_fmap_ext. intros _ x _. by rewrite strstr_nil.
Qed.

Lemma grep_wait_loses_keyword_witness :
  let w := demo_grep_world <| w_mgmt := MgmtCh 0 4 0 [] |> in
  wp (nvmf_bdev_ctrlr_custom_grep_cmd demo_bdev demo_desc 0) w (fun st w' =>
    st = ASYNCHRONOUS /\
    last (io_wait_queue (w_mgmt w')) = Some (WaitEntry process_io_cmd_resubmit (ArgReq 0)) /\
    is_Some (w_heap w' !! 0%nat) /\ is_Some (w_heap w' !! 1%nat) /\
    exists r', w_reqs w' !! 0%nat = Some r' /\ req_cmd r' = req_cmd demo_grep_req /\
      forall ls, matching (keyword_of (flat (req_iov r'))) ls = concat ((fun l => l ++ [NEWLINE]) <$> ls)).
Proof. intros w. apply (grep_wait_loses_keyword demo_bdev demo_desc w 0 demo_grep_req 2 1); [apply demo_search_ready|done..]. Defined.

(** A long line overruns the result buffer: the buffer is doubled once,
    whatever the line needs, so that a matching line of at least twice the
    initial capacity is copied past its end (here: one element, without a
    newline, that contains the keyword). *)
Theorem grep_long_line_overflows w iod l k rid r io n kwb line
    (Hctx : w_heap w !! l = Some (OGrep (GrepCtx (Some k) n rid)))
    (Hk : w_heap w !! k = Some (OBytes kwb)) (Hnul : 0 ∈ kwb)
    (Hr : w_reqs w !! rid = Some r) (Hio : w_ios w !! iod = Some io) (Hty : io_type io = IO_READ) (Hbuf : io_buf io = BufReq rid 1)
    (Hma : w_malloc w = []) (Hfr : w_heap w !! w_next w = None)
    (Hv : req_iov r = [Iov (Some line)]) (Hnl : NEWLINE ∉ line)
    (Hlong : (2 * GREP_RESULT_CAPACITY <= length line)%nat)
    (Hm : strstr (cstr line) (keyword_of kwb) = true) :
  stuck (nvmf_bdev_ctrlr_complete_cmd_custom iod l) w.
Proof.
  assert (k <> w_next w) as Nk by (intros ->; congruence).
  unfold nvmf_bdev_ctrlr_complete_cmd_custom, get_io, spdk_bdev_io_get_iovec. sstep. apply stuck_bind. wsteps.
  apply stuck_bind. rewrite Hty, Hbuf. wsteps. rewrite Hv. change (take (Z.to_nat 1) [Iov (Some line)]) with [Iov (Some line)].
  apply stuck_head. cbn [length Nat.ltb Nat.leb]. apply stuck_bind, wp_malloc_some; [done|].
  sstep. apply stuck_bind. eapply grep_keyword_wp; [wsimp; by rewrite lookup_insert_ne|done|].
  intros w2 [o2 ->]. apply stuck_head. cbn [grep_iovs]. apply stuck_head.
  apply grep_elem_one_line; [done| |done|].
  { cbn. intros ->. cbn in Hlong. unfold GREP_RESULT_CAPACITY in Hlong. lia. }
  apply grep_line_overflow; [done| |done|done]. wsimp. by rewrite lookup_insert_ne, lookup_insert_eq by done.
Qed.

Definition demo_long_line : bytes := replicate (2 * GREP_RESULT_CAPACITY) 97.
Definition demo_long_world : world :=
  (demo_world [demo_req (demo_cmd 0xd1 3 0 16) [Iov (Some demo_long_line)]] [0%nat] 1 SPDK_NVMF_SUBSYSTEM_ACTIVE [])
    <| w_heap := {[ 0%nat := OBytes [97; 0]; 1%nat := OGrep (GrepCtx (Some 0%nat) 2 0) ]} |>
    <| w_next := 3%nat |>
    <| w_ios := {[ 2%nat := finished (grep_io demo_desc 1 0
                    (demo_req (demo_cmd 0xd1 3 0 16) [Iov (Some demo_long_line)]) 0 16) device_ok IO_STATUS_SUCCESS ]} |>.

Lemma grep_long_line_overflows_witness : stuck (nvmf_bdev_ctrlr_complete_cmd_custom 2 1) demo_long_world.
Proof.
  eapply (grep_long_line_overflows demo_long_world 2 1 0 0); [done|done| |done|done|done|done|done|done|done| | |].
  - set_solver.
  - apply (bool_decide_unpack _). by vm_compute.
  - unfold demo_long_line. rewrite length_replicate. lia.
  - by vm_compute.
Defined.
