(* ===== verification/NdpEcho.v ===== *)
(** * Read and combine: opcode 0xd0 of [spdk/lib/nvmf/ctrlr_bdev.c]

    [nvmf_bdev_ctrlr_custom_echo_cmd] reads a first range of blocks into the
    request's vector; its callback copies them aside and reads a second range;
    the callback of that read concatenates both ([ndp_calculate]) and returns
    the beginning of the result. *)
From S2P Require Import Prelude NvmeSpec Iov World Request Bdev CtrlrBdev.

(** [struct ndp_result]: its own allocation, its data, its length. *)
Record ndp_result := NdpResult { nr_self : nat; nr_data : nat; nr_length : Z }.

Definition SIZEOF_NDP_RESULT : nat := 16.

(** [None] is the NULL the function returns when an allocation fails. *)
Definition ndp_calculate (meta : nat) (meta_len : Z) (target : nat) (target_len : Z) : M (option ndp_result) :=
  result ← malloc (OBytes (replicate SIZEOF_NDP_RESULT 0));
  match result with
  | None => mret None
  | Some self =>
      let total_length := u32 (meta_len + target_len) in
      d ← malloc (OBytes (replicate (Z.to_nat total_length) 0));
      match d with
      | None => free (Some self);; mret None
      | Some data =>
          m ← load_bytes meta;
          massert (Z.to_nat meta_len <=? length m)%nat;;
          heap_memcpy data 0 (take (Z.to_nat meta_len) m);;
          t ← load_bytes target;
          massert (Z.to_nat target_len <=? length t)%nat;;
          heap_memcpy data (Z.to_nat meta_len) (take (Z.to_nat target_len) t);;
          mret (Some (NdpResult self data total_length))
      end
  end.

(** The loop that copies the vector into a buffer of [length] bytes; the
    result is [total_copied]. *)
Fixpoint copy_request_data (l : nat) (length total_copied : Z) (iovs : list iovec) : M Z :=
  match iovs with
  | [] => mret total_copied
  | v :: iovs =>
      if total_copied <? length then
        let to_copy := u32 (Z.min (length - total_copied) (Z.of_nat (iov_len v))) in
        heap_memcpy l (Z.to_nat total_copied) (take (Z.to_nat to_copy) (iov_mem v));;
        copy_request_data l length (u32 (total_copied + to_copy)) iovs
      else mret total_copied
  end.

(** [memcpy (req->iov[0].iov_base, data, min (length, iov_len))] *)
Definition fill_iov0 (rid : nat) (res : ndp_result) : M unit :=
  r ← get_req rid;
  if 0 <? req_iovcnt r then
    d ← load_bytes (nr_data res);
    v ← need (req_iov r !! 0%nat);
    let n := Z.to_nat (Z.min (nr_length res) (Z.of_nat (iov_len v))) in
    massert (n <=? length d)%nat;;
    put_req rid (r <| req_iov := <[0%nat := iov_store 0 (take n d) v]> (req_iov r) |>)
  else mret tt.

(** The branch of the callback taken on success; [true] when the result was
    returned. *)
Definition second_read_combine (rid : nat) (ctx : custom_ctx) : M bool :=
  r ← get_req rid;
  p ← malloc (OBytes (replicate (Z.to_nat (req_length r)) 0));
  match p with
  | None => internal_error rid;; mret false
  | Some second_result =>
      total_copied ← copy_request_data second_result (req_length r) 0 (req_iovs r);
      first ← need (ec_first_result ctx);
      c ← ndp_calculate first (ec_first_result_len ctx) second_result total_copied;
      match c with
      | None => free (Some second_result);; internal_error rid;; mret false
      | Some res =>
          mod_req rid (fun r => r <| req_iov := spdk_iov_memset (req_iov r) (Z.to_nat (req_iovcnt r)) 0 |>);;
          fill_iov0 rid res;;
          free (Some second_result);; free (Some (nr_data res));; free (Some (nr_self res));;
          set_status rid SPDK_NVME_SCT_GENERIC SPDK_NVME_SC_SUCCESS;; mret true
      end
  end.

Definition io_success (io : spdk_bdev_io) : bool := bool_decide (io_status io = IO_STATUS_SUCCESS).

Definition nvmf_bdev_ctrlr_second_read_complete (iod l : nat) : M unit :=
  ctx ← load_echo l;
  let rid := ec_req ctx in
  io ← get_io iod;
  (if io_success io then _ ← second_read_combine rid ctx; mret tt else internal_error rid);;
  free (ec_first_result ctx);;
  free (Some l);;
  spdk_bdev_free_io iod;;
  spdk_nvmf_request_complete rid.

Definition nvmf_bdev_ctrlr_first_read_complete (iod l : nat) : M unit :=
  ctx ← load_echo l;
  let rid := ec_req ctx in
  r ← get_req rid;
  let target_start_lba := cdw12 (req_cmd r) in
  let target_block_count := cdw13 (req_cmd r) in
  io ← get_io iod;
  if negb (io_success io) then
    internal_error rid;;
    free (ec_first_result ctx);;
    free (Some l);;
    spdk_bdev_free_io iod;;
    spdk_nvmf_request_complete rid
  else
    store l (OEcho (ctx <| ec_first_result_len := req_length r |>));;
    p ← malloc (OBytes (replicate (Z.to_nat (req_length r)) 0));
    match p with
    | None =>
        free (Some l);;
        internal_error rid;;
        spdk_bdev_free_io iod;;
        spdk_nvmf_request_complete rid
    | Some first_result =>
        store l (OEcho (ctx <| ec_first_result_len := req_length r |> <| ec_first_result := Some first_result |>));;
        _ ← copy_request_data first_result (req_length r) 0 (req_iovs r);
        let opts := ExtIoOpts (OFFSETOF_ACCEL_SEQUENCE + 8) (req_memory_domain r) None (req_accel_sequence r) in
        rc ← spdk_bdev_readv_blocks_ext (ec_desc ctx) nvmf_bdev_ctrlr_second_read_complete_cb (ArgCtx l)
               (req_buffer rid r) (req_iov0 r) target_start_lba target_block_count opts;
        if rc !=? 0 then
          free (Some first_result);;
          free (Some l);;
          internal_error rid;;
          spdk_bdev_free_io iod
        else spdk_bdev_free_io iod
    end.

Definition nvmf_bdev_ctrlr_custom_echo_cmd (bdev : spdk_bdev) (desc : spdk_bdev_desc) (rid : nat) : M exec_status :=
  r ← get_req rid;
  let meta_start_lba := cdw10 (req_cmd r) in
  let meta_block_count := cdw11 (req_cmd r) in
  c ← malloc (OEcho (EchoCtx None 0 rid desc));
  match c with
  | None => fail rid SPDK_NVME_SCT_GENERIC SPDK_NVME_SC_INTERNAL_DEVICE_ERROR
  | Some l =>
      let opts := ExtIoOpts (OFFSETOF_ACCEL_SEQUENCE + 8) (req_memory_domain r) None (req_accel_sequence r) in
      rc ← spdk_bdev_readv_blocks_ext desc nvmf_bdev_ctrlr_first_read_complete_cb (ArgCtx l)
             (req_buffer rid r) (req_iov0 r) meta_start_lba meta_block_count opts;
      if rc !=? 0 then
        free (Some l);;
        fail rid SPDK_NVME_SCT_GENERIC SPDK_NVME_SC_INTERNAL_DEVICE_ERROR
      else
        set_status rid SPDK_NVME_SCT_GENERIC SPDK_NVME_SC_SUCCESS;;
        mret ASYNCHRONOUS
  end.

(** ** Lemmas *)

Lemma copy_request_data_wp l len iovs k b w (Q : Z -> world -> Prop) :
  w_heap w !! l = Some (OBytes b) -> length b = Z.to_nat len -> 0 <= len < 2 ^ 32 -> Z.of_nat k <= len ->
  (let d := take (Z.to_nat len - k) (flat iovs) in
   Q (Z.of_nat (k + length d)) (w <| w_heap := <[l := OBytes (splice k d b)]> (w_heap w) |>)) ->
  wp (copy_request_data l len (Z.of_nat k) iovs) w Q.
Proof.
  revert k b w Q. induction iovs as [|v iovs IH]; intros k b w Q Hl Hb Hlen Hk HQ; cbn [copy_request_data].
  { change (flat []) with (@nil Z) in HQ. cbv zeta in HQ. rewrite take_nil, splice_nil, insert_id in HQ by done.
    cbn in HQ. rewrite Nat.add_0_r in HQ. wsteps. by destruct w. }
  change (flat (v :: iovs)) with (iov_mem v ++ flat iovs) in HQ.
  destruct (Z.ltb_spec (Z.of_nat k) len) as [Hlt|Hge].
  - set (c := Z.min (len - Z.of_nat k) (Z.of_nat (iov_len v))). assert (Hc : 0 <= c < 2 ^ 32) by lia.
    set (x := take (Z.to_nat c) (iov_mem v)).
    assert (Hx : length x = Z.to_nat c) by (unfold x; rewrite length_take; unfold iov_len in c; lia).
    rewrite (u32_small c) by done. rewrite Nat2Z.id. wstep. fold x. eapply wp_heap_memcpy; [done|lia|].
    rewrite u32_small by lia. replace (Z.of_nat k + c) with (Z.of_nat (k + Z.to_nat c)) by lia.
    eapply IH; [apply lookup_insert_eq|rewrite length_splice; lia|done|lia|]. wsimp. cbv zeta in HQ |- *.
    rewrite insert_insert_eq. rewrite <- Hx, splice_splice by (rewrite length_take; lia).
    replace (take (Z.to_nat len - k) (iov_mem v ++ flat iovs))
      with (x ++ take (Z.to_nat len - (k + length x)) (flat iovs)) in HQ.
    { by rewrite length_app, Nat.add_assoc in HQ. }
    unfold x at 1. rewrite Hx. destruct (Z.le_ge_cases (len - Z.of_nat k) (Z.of_nat (iov_len v))); unfold iov_len in *.
    + rewrite take_app_le by lia. replace (Z.to_nat len - (k + Z.to_nat c))%nat with 0%nat by lia.
      rewrite take_0, app_nil_r. f_equal. lia.
    + rewrite take_app_ge by lia. rewrite take_ge by lia. do 2 f_equal. lia.
  - wsteps. replace (Z.to_nat len - k)%nat with 0%nat in HQ by lia. cbv zeta in HQ.
    rewrite take_0, splice_nil, insert_id, Nat.add_0_r in HQ by done. by destruct w.
Qed.

(** The buffer after copying a vector into zeros. *)
Lemma copy_to_zeros_wp l len iovs w (Q : Z -> world -> Prop) :
  w_heap w !! l = Some (OBytes (replicate (Z.to_nat len) 0)) -> 0 <= len < 2 ^ 32 ->
  Q (Z.min len (blen (flat iovs))) (w <| w_heap := <[l := OBytes (padded (Z.to_nat len) (flat iovs))]> (w_heap w) |>) ->
  wp (copy_request_data l len 0 iovs) w Q.
Proof.
  intros Hl Hlen HQ. apply (copy_request_data_wp l len iovs 0 (replicate (Z.to_nat len) 0)); [done|by rewrite length_replicate|done|lia|].
  cbv zeta. rewrite Nat.sub_0_r. rewrite <- splice_zeros, Nat.min_comm in HQ.
  replace (take (Z.to_nat len `min` length (flat iovs)) (flat iovs)) with (take (Z.to_nat len) (flat iovs)) in HQ.
  - replace (Z.of_nat (0 + _)) with (Z.min len (blen (flat iovs))); [done|]. unfold blen. rewrite length_take. lia.
  - destruct (Nat.le_ge_cases (Z.to_nat len) (length (flat iovs))); [by rewrite Nat.min_l by lia|].
    by rewrite Nat.min_r, !take_ge by lia.
Qed.

Lemma ndp_calculate_wp a la fa b lb fb w (Q : option ndp_result -> world -> Prop) :
  w_heap w !! a = Some (OBytes fa) -> w_heap w !! b = Some (OBytes fb) -> w_malloc w = [] ->
  (a < w_next w)%nat -> (b < w_next w)%nat ->
  0 <= la <= blen fa -> 0 <= lb <= blen fb -> la + lb < 2 ^ 32 ->
  (let n := w_next w in
   Q (Some (NdpResult n (S n) (la + lb)))
     (w <| w_heap := <[S n := OBytes (take (Z.to_nat la) fa ++ take (Z.to_nat lb) fb)]>
                       (<[n := OBytes (replicate SIZEOF_NDP_RESULT 0)]> (w_heap w)) |>
        <| w_next := S (S n) |>)) ->
  wp (ndp_calculate a la b lb) w Q.
Proof.
  intros Ha Hb Hm Na Nb La Lb Hs HQ. unfold ndp_calculate, blen in *. rewrite u32_small by lia.
  wstep. apply wp_malloc_some; [done|]. wsimp. wstep. apply wp_malloc_some; [done|]. wsimp.
  wstep. eapply wp_load_bytes; [wsimp; by rewrite !lookup_insert_ne by lia|]. wstep. apply wp_massert; [apply Nat.leb_le; lia|].
  wstep. eapply wp_heap_memcpy; [apply lookup_insert_eq|rewrite length_replicate, length_take; lia|]. wsimp.
  wstep. eapply wp_load_bytes; [wsimp; by rewrite !lookup_insert_ne by lia|]. wstep. apply wp_massert; [apply Nat.leb_le; lia|].
  set (x := take (Z.to_nat la) fa). set (y := take (Z.to_nat lb) fb).
  assert (Hx : length x = Z.to_nat la) by (unfold x; rewrite length_take; lia).
  assert (Hy : length y = Z.to_nat lb) by (unfold y; rewrite length_take; lia).
  set (z := replicate _ 0). assert (Hz : length z = (length x + length y)%nat) by (unfold z; rewrite length_replicate; lia).
  wstep. eapply wp_heap_memcpy; [apply lookup_insert_eq|rewrite length_splice; lia|]. wsteps.
  pose proof (splice_splice 0 x y z ltac:(lia)) as E. cbn [Nat.add] in E. rewrite Hx in E.
  rewrite !insert_insert_eq, E, splice_all by (rewrite ?length_app; lia). exact HQ.
Qed.

(** The first element of a cleared vector overwritten by [x]. *)
Lemma fill_cleared v vs x :
  let z := spdk_iov_memset (v :: vs) (length (v :: vs)) 0 in
  (length x <= iov_len v)%nat ->
  exists v', z !! 0%nat = Some v' /\ iov_len v' = iov_len v /\
    flat (<[0%nat := iov_store 0 x v']> z) = padded (length (flat (v :: vs))) x /\
    iov_len <$> <[0%nat := iov_store 0 x v']> z = iov_len <$> (v :: vs).
Proof.
  intros z Hx. destruct (memset_flat (v :: vs)) as [Hf Hl]. fold z in Hf, Hl.
  destruct (z !! 0%nat) as [v'|] eqn:E; [|by destruct z]. exists v'. split; [done|].
  assert (Hv : iov_len v' = iov_len v).
  { apply (f_equal (fun l => l !! 0%nat)) in Hl. rewrite list_lookup_fmap, E in Hl. cbn in Hl. congruence. }
  split; [done|]. split.
  - assert (Hle : (length x <= length (flat (v :: vs)))%nat).
    { change (flat (v :: vs)) with (iov_mem v ++ flat vs). rewrite length_app. unfold iov_len in Hx. lia. }
    transitivity (splice 0 x (flat z)).
    + destruct (decide (x = [])) as [->|Hne].
      * rewrite splice_nil. unfold iov_store. rewrite list_insert_id; [done|].
        rewrite E. f_equal. destruct v' as [[]]; cbn; by rewrite ?splice_nil.
      * by rewrite (flat_store _ _ _ _ _ E Hne) by (cbn; lia).
    + rewrite Hf, <- splice_zeros, Nat.min_l, firstn_all by lia. done.
  - rewrite <- Hl. rewrite list_fmap_insert, iov_store_len by (cbn; lia).
    apply list_insert_id. by rewrite list_lookup_fmap, E.
Qed.

Lemma fill_iov0_wp rid r v vs res out w (Q : unit -> world -> Prop) :
  req_iov r = v :: vs -> req_iovcnt r = Z.of_nat (length (req_iov r)) ->
  w_reqs w !! rid = Some (r <| req_iov := spdk_iov_memset (req_iov r) (length (req_iov r)) 0 |>) ->
  w_heap w !! nr_data res = Some (OBytes out) -> nr_length res = blen out ->
  (forall iovs, flat iovs = padded (length (flat (req_iov r))) (take (iov_len v) out) ->
     iov_len <$> iovs = iov_len <$> req_iov r ->
     Q tt (w <| w_reqs := <[rid := r <| req_iov := iovs |>]> (w_reqs w) |>)) ->
  wp (fill_iov0 rid res) w Q.
Proof.
  intros Hiov Hcnt Hr Hd Hn HQ. rewrite Hiov in *. unfold fill_iov0. wsteps. rewrite Hcnt.
  destruct (Z.ltb_spec 0 (Z.of_nat (length (v :: vs)))); [|cbn in *; lia].
  destruct (fill_cleared v vs (take (Z.to_nat (Z.min (nr_length res) (Z.of_nat (iov_len v)))) out)) as (v' & Ev & Elv & Efl & Eln);
    [rewrite length_take; lia|].
  wsteps. rewrite Hn, Elv in *. apply wp_massert; [apply Nat.leb_le; unfold blen; lia|]. wsteps.
  apply HQ; [|done]. rewrite Efl. f_equal. unfold blen. destruct (Nat.le_ge_cases (length out) (iov_len v)).
  - by rewrite !take_ge by lia.
  - f_equal. lia.
Qed.

(** The three temporary buffers are released. *)
Lemma free_temporaries_wp {A} n x y z h (k : M A) w Q :
  w_heap w = <[S (S n) := z]> (<[S n := y]> (<[n := x]> h)) -> (forall l, (n <= l)%nat -> h !! l = None) ->
  wp k (w <| w_heap := h |>) Q ->
  wp (free (Some n);; free (Some (S (S n)));; free (Some (S n));; k) w Q.
Proof.
  intros Hh Hfr HQ. wstep. eapply wp_free; [rewrite Hh, !lookup_insert_ne by lia; apply lookup_insert_eq|].
  wstep. eapply wp_free; [wsimp; rewrite Hh, lookup_delete_ne by lia; apply lookup_insert_eq|]. wsimp.
  wstep. eapply wp_free; [wsimp; rewrite Hh, !lookup_delete_ne, lookup_insert_ne by lia; apply lookup_insert_eq|]. wsimp.
  rewrite Hh. replace (delete (S n) _) with h; [exact HQ|]. apply map_eq. intros i.
  destruct (decide (i = n)) as [->|]; [|destruct (decide (i = S n)) as [->|]; [|destruct (decide (i = S (S n))) as [->|]]].
  - rewrite !lookup_delete_ne, lookup_delete_eq by lia. apply Hfr. lia.
  - rewrite lookup_delete_eq. apply Hfr. lia.
  - rewrite lookup_delete_ne, lookup_delete_eq by lia. apply Hfr. lia.
  - by rewrite !lookup_delete_ne, !lookup_insert_ne by done.
Qed.

(** The state in which the second read has succeeded: [fb] was kept from the
    first one. *)
Record combine_ready (w : world) (rid f : nat) (r : spdk_nvmf_request) (v : iovec) (vs : list iovec) (fb : bytes) : Prop := {
  cb_req : w_reqs w !! rid = Some r; cb_iov : req_iov r = v :: vs;
  cb_cnt : req_iovcnt r = Z.of_nat (length (req_iov r));
  cb_len : 0 <= req_length r < 2 ^ 31; cb_first : w_heap w !! f = Some (OBytes fb);
  cb_fb : length fb = Z.to_nat (req_length r); cb_old : (f < w_next w)%nat;
  cb_malloc : w_malloc w = []; cb_fresh : forall l, (w_next w <= l)%nat -> w_heap w !! l = None }.

Lemma combine_wp w rid f r v vs fb desc (Q : bool -> world -> Prop) :
  combine_ready w rid f r v vs fb ->
  (forall iovs, flat iovs = padded (length (flat (req_iov r)))
                  (take (iov_len v) (fb ++ take (Z.to_nat (req_length r)) (flat (req_iov r)))) ->
     iov_len <$> iovs = iov_len <$> req_iov r ->
     Q true (w <| w_reqs := <[rid := with_status SPDK_NVME_SCT_GENERIC SPDK_NVME_SC_SUCCESS (r <| req_iov := iovs |>)]> (w_reqs w) |>
               <| w_next := S (S (S (w_next w))) |>)) ->
  wp (second_read_combine rid (EchoCtx (Some f) (req_length r) rid desc)) w Q.
Proof.
  intros [Hr Hiov Hcnt Hlen Hf Hfb Hold Hma Hfr] HQ.
  set (len := Z.to_nat (req_length r)) in *. set (L := Z.min (req_length r) (blen (flat (req_iov r)))).
  set (out := fb ++ take len (flat (req_iov r))) in *.
  unfold second_read_combine. wsteps. apply wp_malloc_some; [done|]. wstep. fold len.
  unfold req_iovs. rewrite Hcnt, Nat2Z.id, firstn_all.
  eapply copy_to_zeros_wp; [apply lookup_insert_eq|lia|]. wsimp. rewrite insert_insert_eq. fold len L. wsteps.
  assert (Hp : take (Z.to_nat L) (padded len (flat (req_iov r))) = take len (flat (req_iov r))).
  { unfold padded. rewrite take_take, Nat.min_l by lia. unfold L, blen. destruct (Nat.le_ge_cases len (length (flat (req_iov r)))).
    - rewrite take_app_le by lia. f_equal. lia.
    - rewrite take_app_le by lia. rewrite !take_ge by lia. done. }
  eapply ndp_calculate_wp; [wsimp; by rewrite lookup_insert_ne by lia|apply lookup_insert_eq|done|wsimp; lia|wsimp; lia
    |unfold blen; lia|unfold blen, padded, L; rewrite length_take, length_app, length_replicate; unfold blen; lia|lia|].
  wsimp. cbv zeta. rewrite Hp. replace (take (Z.to_nat (req_length r)) fb) with fb by (rewrite take_ge; [done|lia]).
  fold out. wsteps. rewrite Hcnt, Nat2Z.id.
  eapply (fill_iov0_wp _ _ v vs _ out); [done|exact Hcnt|apply lookup_insert_eq|apply lookup_insert_eq| |].
  { unfold out, L, blen. cbn [nr_length]. rewrite length_app, length_take. unfold blen. lia. }
  intros iovs Hfl Hln. eapply free_temporaries_wp; [done..|]. wsteps. rewrite !insert_insert_eq.
  by apply (HQ iovs).
Qed.

(** ** The command in flight *)

(** A read of blocks [s .. s + n) into the request's vector. *)
Definition echo_io (cb : spdk_bdev_io_completion_cb) (desc : spdk_bdev_desc) (l rid : nat) (cnt s n : Z) : spdk_bdev_io :=
  with_range s n (bdev_io_init IO_READ desc cb (ArgCtx l)) <| io_buf := BufReq rid cnt |>.

(** What has been kept from the first read: where, and the bytes. *)
Definition kept_ctx (rid : nat) (desc : spdk_bdev_desc) (kept : option (nat * bytes)) : custom_ctx :=
  EchoCtx (fst <$> kept) (match kept with Some (_, b) => blen b | None => 0 end) rid desc.
Definition kept_heap (kept : option (nat * bytes)) (h : gmap nat hobj) : gmap nat hobj :=
  match kept with Some (f, b) => <[f := OBytes b]> h | None => h end.

(** The request [r] of the command started in [w0] has one operation [io] in
    flight, and the world differs from [w0] by the command's objects only. *)
Record echo_state (desc : spdk_bdev_desc) (w0 w : world) (rid q : nat) (r : spdk_nvmf_request) (qp : spdk_nvmf_qpair)
  (ct : spdk_nvmf_ctrlr) (l iod : nat) (io : spdk_bdev_io) (kept : option (nat * bytes)) (m : spdk_bdev_mgmt_channel) : Prop := {
  es_live : live_req w rid q r qp ct;
  es_heap : w_heap w = <[l := OEcho (kept_ctx rid desc kept)]> (kept_heap kept (w_heap w0));
  es_ios : w_ios w = <[iod := io]> (w_ios w0); es_mgmt : w_mgmt w = m; es_mgmt_ok : mgmt_ok m;
  es_disk : w_disk w = w_disk w0; es_log : w_log w = w_log w0; es_malloc : w_malloc w = [];
  es_l : (w_next w0 <= l < w_next w)%nat; es_iod : (w_next w0 <= iod < w_next w)%nat;
  es_kept : match kept with Some (f, _) => (w_next w0 <= f < w_next w)%nat /\ f <> l | None => True end;
  es_fresh : forall x, (w_next w0 <= x)%nat -> w_heap w0 !! x = None /\ w_ios w0 !! x = None }.

(** A request of a combination: both ranges, its vector. *)
Record echo_req (bdev : spdk_bdev) (desc : spdk_bdev_desc) (r : spdk_nvmf_request) (v : iovec) (vs : list iovec) : Prop := {
  eq_desc : desc_bdev desc = bdev; eq_geo : geometry_ok bdev; eq_cmd : cmd_ok (req_cmd r);
  eq_iov : req_iov r = v :: vs; eq_cnt : req_iovcnt r = Z.of_nat (length (req_iov r));
  eq_len : req_length r = blen (flat (req_iov r)); eq_max : req_length r < 2 ^ 31;
  eq_dom : req_memory_domain r = None }.

Lemma echo_submit_wp bdev desc cb l rid r v vs s n w (Q : Z -> world -> Prop) :
  echo_req bdev desc r v vs -> 0 <= s < 2 ^ 32 -> 0 <= n < 2 ^ 32 ->
  (if decide (s + n <= blockcnt bdev) then
     match take_io (w_mgmt w) with
     | Some m => Q 0 (submitted (echo_io cb desc l rid (req_iovcnt r) s n) m w)
     | None => Q (- ENOMEM) w
     end
   else Q (- EINVAL) w) ->
  wp (spdk_bdev_readv_blocks_ext desc cb (ArgCtx l) (req_buffer rid r) (req_iov0 r) s n
        (ExtIoOpts (OFFSETOF_ACCEL_SEQUENCE + 8) (req_memory_domain r) None (req_accel_sequence r))) w Q.
Proof.
  intros [Hd Hg _ _ _ _ _ Hdom] Hs Hn HQ. unfold spdk_bdev_readv_blocks_ext, bdev_readv_blocks_with_md.
  rewrite Hd, ext_opts_ok by (done || unfold OFFSETOF_ACCEL_SEQUENCE, SIZEOF_EXT_IO_OPTS; lia). cbn [negb].
  pose proof (valid_blocks_iff bdev s n Hg ltac:(lia) ltac:(lia)) as Hv.
  destruct (bdev_io_valid_blocks bdev s n); case_decide; cbn [negb].
  - apply bdev_submit_wp. by destruct (take_io (w_mgmt w)).
  - intuition.
  - exfalso. apply Hv in H. done.
  - by wsteps.
Qed.

(** The request with a success status written into its response. *)
Definition ok_status (r : spdk_nvmf_request) : spdk_nvmf_request :=
  with_status SPDK_NVME_SCT_GENERIC SPDK_NVME_SC_SUCCESS r.

Lemma insert_cross (l f : nat) (a b c d e : hobj) (h : gmap nat hobj) : l <> f ->
  <[f := a]> (<[l := b]> (<[f := c]> (<[l := d]> (<[l := e]> h)))) = <[l := b]> (<[f := a]> h).
Proof.
  intros H. apply map_eq. intros i. destruct (decide (i = l)) as [->|Hl]; [|destruct (decide (i = f)) as [->|Hf]].
  - by rewrite lookup_insert_ne, !lookup_insert_eq by done.
  - by rewrite lookup_insert_eq, lookup_insert_ne, lookup_insert_eq by done.
  - by rewrite !lookup_insert_ne by done.
Qed.

(** Returning an object just taken keeps the channel consistent. *)
Lemma put_io_ok m m2 : take_io m = Some m2 -> mgmt_ok m -> mgmt_ok (put_io m2).
Proof.
  unfold take_io, put_io, mgmt_ok. destruct (per_thread_cache_count m) as [|c] eqn:E1.
  - destruct (io_wait_queue m) eqn:E2, (bdev_io_pool m); try done. intros [= <-] _. by case_match.
  - intros [= <-] H. wsimp. destruct (Nat.ltb_spec c (bdev_io_cache_size m)); wsimp; intros; apply H; lia.
Qed.

Section Phases.
Context (bdev : spdk_bdev) (desc : spdk_bdev_desc) (w0 : world) (rid q : nat) (r : spdk_nvmf_request).
Context (qp : spdk_nvmf_qpair) (ct : spdk_nvmf_ctrlr) (v : iovec) (vs : list iovec).
Hypothesis HE : echo_req bdev desc r v vs.
Let first_io l := echo_io nvmf_bdev_ctrlr_first_read_complete_cb desc l rid (req_iovcnt r) (cdw10 (req_cmd r)) (cdw11 (req_cmd r)).
Let second_io l := echo_io nvmf_bdev_ctrlr_second_read_complete_cb desc l rid (req_iovcnt r) (cdw12 (req_cmd r)) (cdw13 (req_cmd r)).

Lemma echo_cmd_wp m (Q : exec_status -> world -> Prop) :
  live_req w0 rid q r qp ct -> w_malloc w0 = [] -> mgmt_ok (w_mgmt w0) -> take_io (w_mgmt w0) = Some m ->
  cdw10 (req_cmd r) + cdw11 (req_cmd r) <= blockcnt bdev ->
  (forall x, (w_next w0 <= x)%nat -> w_heap w0 !! x = None /\ w_ios w0 !! x = None) ->
  (forall w, echo_state desc w0 w rid q (ok_status r) qp ct (w_next w0) (S (w_next w0)) (first_io (w_next w0)) None m ->
     w_next w = S (S (w_next w0)) -> Q ASYNCHRONOUS w) ->
  wp (nvmf_bdev_ctrlr_custom_echo_cmd bdev desc rid) w0 Q.
Proof.
  intros HL Hma Hmg Htk Hrg Hfr HQ. pose proof (lr_req _ _ _ _ _ _ HL) as Hr. pose proof (eq_cmd _ _ _ _ _ HE) as Hc.
  destruct Hc as (_&_&_&_&?&?&_). unfold nvmf_bdev_ctrlr_custom_echo_cmd. wsteps. apply wp_malloc_some; [done|]. wstep.
  eapply (echo_submit_wp bdev desc _ _ rid r v vs); [done|lia|lia|]. rewrite decide_True by done. wsimp. rewrite Htk.
  change (0 !=? 0) with false. cbv iota. wstep. eapply wp_set_status; [exact Hr|]. wsteps. apply HQ; [|done].
  split; try done; unfold submitted; wsimp.
  - eapply (live_req_upd w0); [done|apply lookup_insert_eq|done..].
  - by eapply take_io_ok.
  - lia.
  - lia.
Qed.

(** Either read, once the device has done it. *)
Lemma echo_read_wp w r1 l iod cb s n kept m (Q : unit -> world -> Prop) :
  let io := echo_io cb desc l rid (req_iovcnt r) s n in
  echo_state desc w0 w rid q r1 qp ct l iod io kept m ->
  iov_len <$> req_iov r1 = iov_len <$> req_iov r -> 0 <= s -> 0 <= n -> s + n <= blockcnt bdev ->
  Z.to_nat (blockcnt bdev * blocklen bdev) = length (w_disk w0) ->
  (Z.to_nat (n * blocklen bdev) <= length (flat (req_iov r)))%nat ->
  (forall w' iovs, iov_len <$> iovs = iov_len <$> req_iov r ->
     flat iovs = splice 0 (slice (Z.to_nat (s * blocklen bdev)) (Z.to_nat (n * blocklen bdev)) (w_disk w0)) (flat (req_iov r1)) ->
     echo_state desc w0 w' rid q (r1 <| req_iov := iovs |>) qp ct l iod (finished io device_ok IO_STATUS_SUCCESS) kept m ->
     w_next w' = w_next w -> Q tt w') ->
  wp (device_complete iod device_ok) w Q.
Proof.
  intros io ES Hlen Hs Hn Hrg Hdk Hvec HQ. pose proof ES as [HL Hh Hi Hm Hmo Hd Hl Hma Hnl Hni Hk Hf].
  destruct HE as [Hde [Hg _] _ Hiov Hcnt _ _ _].
  assert (Hn1 : length (req_iov r1) = length (req_iov r)) by (apply (f_equal length) in Hlen; by rewrite !length_fmap in Hlen).
  assert (Hfl : length (flat (req_iov r1)) = length (flat (req_iov r))).
  { pose proof (flat_take_len (req_iov r) (req_iov r1) (length (req_iov r)) Hlen) as E.
    rewrite firstn_all in E. by rewrite <- Hn1, firstn_all in E at 1. }
  eapply (vector_read_wp w iod io rid (req_iovcnt r) r1); try done.
  - rewrite Hi. apply lookup_insert_eq.
  - apply HL.
  - unfold in_medium, io, echo_io, with_range. wsimp. cbn [io_desc bdev_io_init]. rewrite Hde, Hd. repeat split; try done; lia.
  - rewrite Hcnt, Nat2Z.id. lia.
  - rewrite Hcnt, Nat2Z.id, <- Hn1, firstn_all, Hfl. change (desc_bdev (io_desc io)) with (desc_bdev desc). by rewrite Hde.
  - intros iovs El Ef. apply (HQ _ iovs); [by rewrite El| |split; try done|done].
    + rewrite Ef, Hd. change (desc_bdev (io_desc io)) with (desc_bdev desc). by rewrite Hde.
    + eapply (live_req_upd w); [done|apply lookup_insert_eq|done..].
    + wsimp. by rewrite Hi, insert_insert_eq.
Qed.

(** Nobody but the request is left of the command, and it has not been
    answered. *)
Definition abandoned (w : world) : Prop :=
  (exists r', live_req w rid q r' qp ct /\ spdk_nvme_cpl_is_error (req_rsp r') = true) /\ w_log w = w_log w0 /\ w_ios w = w_ios w0 /\
  w_heap w = w_heap w0 /\ io_wait_queue (w_mgmt w) = io_wait_queue (w_mgmt w0).

(** What the first callback does with the result of its submission. *)
Definition first_after (iod l f : nat) (rc : Z) : M unit :=
  if rc !=? 0 then
    free (Some f);; free (Some l);; internal_error rid;; spdk_bdev_free_io iod
  else spdk_bdev_free_io iod.

(** The world in which the first data have been kept. *)
Definition kept_world (l : nat) (b : bytes) (w : world) : world :=
  w <| w_heap := <[l := OEcho (kept_ctx rid desc (Some (w_next w, b)))]> (<[w_next w := OBytes b]> (w_heap w0)) |>
    <| w_next := S (w_next w) |>.

Section First.
Context (w : world) (r1 : spdk_nvmf_request) (v1 : iovec) (vs1 : list iovec) (l iod : nat) (m : spdk_bdev_mgmt_channel).
Hypothesis ES : echo_state desc w0 w rid q r1 qp ct l iod (finished (first_io l) device_ok IO_STATUS_SUCCESS) None m.
Hypothesis HE1 : echo_req bdev desc r1 v1 vs1.
Hypothesis Hc1 : req_cmd r1 = req_cmd r.
Hypothesis Hn1 : req_iovcnt r1 = req_iovcnt r.

Lemma first_keep_wp (Q : unit -> world -> Prop) :
  (let w1 := kept_world l (flat (req_iov r1)) w in
   if decide (cdw12 (req_cmd r) + cdw13 (req_cmd r) <= blockcnt bdev) then
     match take_io m with
     | Some m2 => wp (first_after iod l (w_next w) 0) (submitted (second_io l) m2 w1) Q
     | None => wp (first_after iod l (w_next w) (- ENOMEM)) w1 Q
     end
   else wp (first_after iod l (w_next w) (- EINVAL)) w1 Q) ->
  wp (nvmf_bdev_ctrlr_first_read_complete iod l) w Q.
Proof.
  intros HQ. pose proof ES as [HL Hh Hi Hm Hmo Hd Hl Hma Hnl Hni Hk Hf].
  pose proof (lr_req _ _ _ _ _ _ HL) as Hr. pose proof HE1 as [_ _ Hc _ Hcnt Hlen Hmax _]. rewrite Hc1 in Hc.
  destruct Hc as (_&_&_&_&_&_&?&?&_).
  assert (Hp : padded (length (flat (req_iov r1))) (flat (req_iov r1)) = flat (req_iov r1)).
  { unfold padded. by rewrite take_app_length. }
  unfold nvmf_bdev_ctrlr_first_read_complete, get_io.
  wstep. eapply wp_load_echo; [rewrite Hh; apply lookup_insert_eq|]. cbn [kept_ctx ec_req ec_first_result ec_desc fmap option_fmap option_map].
  wsteps. eapply wp_need; [rewrite Hi; apply lookup_insert_eq|]. change (io_success _) with true. cbn [negb].
  wstep. eapply wp_store; [rewrite Hh; apply lookup_insert_eq|]. wstep. apply wp_malloc_some; [done|]. wsimp.
  wstep. eapply wp_store; [wsimp; rewrite lookup_insert_ne by lia; apply lookup_insert_eq|]. wsimp.
  unfold req_iovs. rewrite Hcnt, Nat2Z.id, firstn_all.
  wstep. eapply copy_to_zeros_wp; [wsimp; rewrite lookup_insert_ne by lia; apply lookup_insert_eq|rewrite Hlen in *; unfold blen in *; lia|].
  rewrite Hlen, blen_nat, Hp. wsimp. rewrite Hh.
  match goal with |- wp _ (set w_heap (fun _ => ?h) _) _ =>
    assert (E : h = w_heap (kept_world l (flat (req_iov r1)) w));
      [unfold kept_world; wsimp; apply insert_cross; lia|rewrite E; clear E] end.
  change (wp _ _ Q) with (wp (rc ← spdk_bdev_readv_blocks_ext desc nvmf_bdev_ctrlr_second_read_complete_cb (ArgCtx l)
     (req_buffer rid r1) (req_iov0 r1) (cdw12 (req_cmd r1)) (cdw13 (req_cmd r1))
     (ExtIoOpts (OFFSETOF_ACCEL_SEQUENCE + 8) (req_memory_domain r1) None (req_accel_sequence r1));
     first_after iod l (w_next w) rc) (kept_world l (flat (req_iov r1)) w) Q).
  wstep. eapply (echo_submit_wp bdev desc _ _ rid r1 v1 vs1); [done|rewrite Hc1; lia|rewrite Hc1; lia|].
  rewrite Hc1, Hn1. change (w_mgmt (kept_world _ _ _)) with (w_mgmt w). rewrite Hm. exact HQ.
Qed.

Lemma first_accepted_wp m2 (Q : unit -> world -> Prop) :
  cdw12 (req_cmd r) + cdw13 (req_cmd r) <= blockcnt bdev -> take_io m = Some m2 ->
  (forall w', echo_state desc w0 w' rid q r1 qp ct l (S (w_next w)) (second_io l)
                (Some (w_next w, flat (req_iov r1))) (put_io m2) -> Q tt w') ->
  wp (nvmf_bdev_ctrlr_first_read_complete iod l) w Q.
Proof.
  intros Hrg Htk HQ. apply first_keep_wp. cbv zeta. rewrite decide_True, Htk by done.
  destruct ES as [HL Hh Hi Hm Hmo Hd Hl Hma Hnl Hni Hk Hf].
  unfold first_after. change (0 !=? 0) with false. cbv iota.
  eapply free_io_wp; [unfold submitted; wsimp; rewrite lookup_insert_ne by (cbn; lia); unfold kept_world; wsimp; rewrite Hi; apply lookup_insert_eq
    |done|by eapply take_io_ok|].
  apply HQ. split; try done; unfold freed, submitted, kept_world; wsimp; try (cbn; lia).
  - eapply (live_req_upd w); [done|apply HL|done..].
  - rewrite Hi, delete_insert_ne, delete_insert_id by (lia || by apply Hf; lia). done.
  - by eapply put_io_ok.
Qed.

(** A refused second submission: everything is released
    and the request is left without an answer. *)
Lemma first_refused_wp (Q : unit -> world -> Prop) :
  (blockcnt bdev < cdw12 (req_cmd r) + cdw13 (req_cmd r) \/ take_io m = None) ->
  io_wait_queue m = io_wait_queue (w_mgmt w0) ->
  (forall w', abandoned w' -> Q tt w') ->
  wp (nvmf_bdev_ctrlr_first_read_complete iod l) w Q.
Proof.
  intros Hno Hwq HQ. apply first_keep_wp. cbv zeta.
  destruct ES as [HL Hh Hi Hm Hmo Hd Hl Hma Hnl Hni Hk Hf]. pose proof (lr_req _ _ _ _ _ _ HL) as Hr.
  assert (HW : forall rc, rc <> 0 -> wp (first_after iod l (w_next w) rc) (kept_world l (flat (req_iov r1)) w) Q).
  { intros rc Hrc. unfold first_after, kept_world. destruct (Z.eqb_spec rc 0); [done|]. cbn [negb].
    wstep. eapply wp_free; [wsimp; rewrite lookup_insert_ne by lia; apply lookup_insert_eq|]. wsimp.
    wstep. eapply wp_free; [wsimp; rewrite lookup_delete_ne by lia; apply lookup_insert_eq|]. wsimp. unfold internal_error.
    wstep. eapply wp_set_status; [exact Hr|]. wsimp.
    eapply free_io_wp; [wsimp; rewrite Hi; apply lookup_insert_eq|done|wsimp; by rewrite Hm|].
    apply HQ. unfold abandoned, freed. wsimp. split; [|split; [done|split; [|split]]].
    - eexists. split; [eapply (live_req_upd w); [done|apply lookup_insert_eq|done..]|done].
    - rewrite Hi. apply delete_insert_id. apply Hf. lia.
    - rewrite delete_insert_ne, (delete_insert_id (w_heap w0) (w_next w)) by (lia || by apply Hf; lia).
      apply delete_insert_id, Hf. lia.
    - unfold put_io. rewrite Hm. case_match; done. }
  case_decide; [destruct (take_io m) eqn:E; [destruct Hno; [lia|done]|]|]; by apply HW.
Qed.
End First.
End Phases.

(** The end of the second callback. *)
Lemma echo_finish_wp w iod io l c f fb rid q r qp ct (Q : unit -> world -> Prop) :
  live_req w rid q r qp ct -> w_heap w !! l = Some (OEcho c) -> w_heap w !! f = Some (OBytes fb) -> l <> f ->
  w_ios w !! iod = Some io -> io_status io <> IO_STATUS_PENDING -> mgmt_ok (w_mgmt w) ->
  (forall w', w_reqs w' !! rid = Some (r <| req_rsp := completed_rsp (ct_acre_enabled ct) r |>) ->
     answers_only w w' [(rid, completed_rsp (ct_acre_enabled ct) r)] ->
     w_heap w' = delete l (delete f (w_heap w)) -> w_ios w' = delete iod (w_ios w) -> w_disk w' = w_disk w -> Q tt w') ->
  wp (free (Some f);; free (Some l);; spdk_bdev_free_io iod;; spdk_nvmf_request_complete rid) w Q.
Proof.
  intros HL Hl Hf Hne Hio Hp Hm HQ. wsteps. eapply free_io_wp; [done..|].
  set (w1 := freed iod _). pose proof (completed_world_log rid q r qp ct w1) as Ev.
  eapply request_complete_wp.
  { eapply (live_req_upd w); [done|apply HL|done..]. }
  eapply HQ; try reflexivity; [|exact Ev]. unfold completed_world. wsimp. apply lookup_insert_eq.
Qed.

Lemma second_complete_wp desc w0 w rid q r qp ct v vs l iod io f fb m (Q : unit -> world -> Prop) :
  echo_state desc w0 w rid q r qp ct l iod (finished io device_ok IO_STATUS_SUCCESS) (Some (f, fb)) m ->
  req_iov r = v :: vs -> req_iovcnt r = Z.of_nat (length (req_iov r)) -> 0 <= req_length r < 2 ^ 31 -> blen fb = req_length r ->
  (forall w' iovs, flat iovs = padded (length (flat (req_iov r)))
       (take (iov_len v) (fb ++ take (Z.to_nat (req_length r)) (flat (req_iov r)))) ->
     let rF := ok_status (r <| req_iov := iovs |>) in let c := completed_rsp (ct_acre_enabled ct) rF in
     w_reqs w' !! rid = Some (rF <| req_rsp := c |>) -> answers_only w0 w' [(rid, c)] ->
     w_heap w' = w_heap w0 -> w_ios w' = w_ios w0 -> w_disk w' = w_disk w0 -> Q tt w') ->
  wp (nvmf_bdev_ctrlr_second_read_complete iod l) w Q.
Proof.
  intros [HL Hh Hi Hm Hmo Hd Hlg Hma Hnl Hni [Hk Hfl] Hfr] Hiov Hcnt Hlen Hfb HQ. pose proof (lr_req _ _ _ _ _ _ HL) as Hr.
  assert (Hf : w_heap w !! f = Some (OBytes fb)) by (rewrite Hh, lookup_insert_ne by done; apply lookup_insert_eq).
  unfold nvmf_bdev_ctrlr_second_read_complete, get_io. wstep. eapply wp_load_echo; [rewrite Hh; apply lookup_insert_eq|].
  wsteps. eapply wp_need; [rewrite Hi; apply lookup_insert_eq|]. change (io_success _) with true. cbv iota.
  unfold kept_ctx. cbn [ec_req ec_first_result fmap option_fmap option_map fst]. rewrite Hfb. wstep. wstep.
  eapply (combine_wp w rid f r v vs fb).
  { split; try done; [unfold blen in Hfb; lia|lia|]. intros x Hx. rewrite Hh. cbn.
    rewrite !lookup_insert_ne by lia. apply Hfr. lia. }
  intros iovs Efl El. wstep.
  match goal with |- wp _ ?W _ =>
    eapply (echo_finish_wp W iod (finished io device_ok IO_STATUS_SUCCESS) l _ f fb rid q (ok_status (r <| req_iov := iovs |>)) qp ct)
  end.
  - eapply (live_req_upd w); [done|apply lookup_insert_eq|done..].
  - wsimp. rewrite Hh. apply lookup_insert_eq.
  - exact Hf.
  - done.
  - wsimp. rewrite Hi. apply lookup_insert_eq.
  - done.
  - wsimp. by rewrite Hm.
  - wsimp. rewrite Hh, Hi, Hd. intros w' Hreq Hlog Hheap Hios Hdisk.
    apply (HQ w' iovs); [done|exact Hreq|by refine (answers_only_log _ _ _ _ _ _ _ Hlog)| | |exact Hdisk].
    + rewrite Hheap. cbn [kept_heap]. rewrite delete_insert_ne, (delete_insert_id (w_heap w0) f) by (done || by apply Hfr; lia).
      apply delete_insert_id, Hfr. lia.
    + rewrite Hios. apply delete_insert_id, Hfr. lia.
Qed.

Lemma same_lengths v vs iovs : iov_len <$> iovs = iov_len <$> (v :: vs) ->
  exists v' vs', iovs = v' :: vs' /\ iov_len v' = iov_len v /\ length (flat iovs) = length (flat (v :: vs)).
Proof.
  intros El. pose proof (flat_take_len (v :: vs) iovs (length (v :: vs)) El) as E. rewrite firstn_all in E.
  assert (length iovs = length (v :: vs)) as Hn by (apply (f_equal length) in El; by rewrite !length_fmap in El).
  rewrite <- Hn, firstn_all in E. destruct iovs as [|v' vs']; [done|]. injection El as ? _. by exists v', vs'.
Qed.

Lemma echo_req_filled bdev desc r v vs iovs : echo_req bdev desc r v vs -> iov_len <$> iovs = iov_len <$> req_iov r ->
  exists v' vs', iov_len v' = iov_len v /\ echo_req bdev desc ((ok_status r) <| req_iov := iovs |>) v' vs'.
Proof.
  intros [Hd Hg Hc Hiov Hcnt Hlen Hmax Hdom] El. rewrite Hiov in El.
  destruct (same_lengths v vs iovs El) as (v' & vs' & E & Hv & Hf). exists v', vs'. split; [done|].
  split; try done.
  - change (req_iovcnt r = Z.of_nat (length iovs)). rewrite Hcnt, Hiov. apply (f_equal length) in El. rewrite !length_fmap in El. by rewrite El.
  - change (req_length r = blen (flat iovs)). rewrite Hlen, Hiov. unfold blen. by rewrite Hf.
Qed.

(** A combination whose ranges are on the device and fit the vector, started
    with two I/O objects available. *)
Record echo_ready (bdev : spdk_bdev) (desc : spdk_bdev_desc) (w : world) (rid q : nat) (r : spdk_nvmf_request)
  (qp : spdk_nvmf_qpair) (ct : spdk_nvmf_ctrlr) (v : iovec) (vs : list iovec) (m : spdk_bdev_mgmt_channel) : Prop := {
  ey_req : echo_req bdev desc r v vs; ey_live : live_req w rid q r qp ct; ey_malloc : w_malloc w = [];
  ey_mgmt : mgmt_ok (w_mgmt w); ey_take : take_io (w_mgmt w) = Some m;
  ey_meta : cdw10 (req_cmd r) + cdw11 (req_cmd r) <= blockcnt bdev;
  ey_meta_vec : (Z.to_nat (cdw11 (req_cmd r) * blocklen bdev) <= length (flat (req_iov r)))%nat;
  ey_disk : Z.to_nat (blockcnt bdev * blocklen bdev) = length (w_disk w);
  ey_fresh : forall x, (w_next w <= x)%nat -> w_heap w !! x = None /\ w_ios w !! x = None }.

(** The vector after the first read. *)
Definition meta_data (bdev : spdk_bdev) (w : world) (r : spdk_nvmf_request) : bytes :=
  splice 0 (slice (Z.to_nat (cdw10 (req_cmd r) * blocklen bdev)) (Z.to_nat (cdw11 (req_cmd r) * blocklen bdev)) (w_disk w))
    (flat (req_iov r)).

(** In the first element: what it holds of the range, then what it held. *)
Lemma meta_data_first bdev w r v vs : req_iov r = v :: vs ->
  take (iov_len v) (meta_data bdev w r) =
  (let range := slice (Z.to_nat (cdw10 (req_cmd r) * blocklen bdev)) (Z.to_nat (cdw11 (req_cmd r) * blocklen bdev)) (w_disk w) in
   take (iov_len v) range ++ drop (length range) (iov_mem v)).
Proof.
  intros E. cbv zeta. unfold meta_data, iov_len. rewrite E. generalize (slice (Z.to_nat (cdw10 (req_cmd r) * blocklen bdev)) (Z.to_nat (cdw11 (req_cmd r) * blocklen bdev)) (w_disk w)).
  intros b. change (flat (v :: vs)) with (iov_mem v ++ flat vs). unfold splice. rewrite take_0, Nat.add_0_l. cbn [app].
  rewrite take_app. f_equal. rewrite skipn_app, take_app_le; [|rewrite length_drop; lia]. apply take_ge. rewrite length_drop. lia.
Qed.

Section Start.
Context (bdev : spdk_bdev) (desc : spdk_bdev_desc) (w : world) (rid q : nat) (r : spdk_nvmf_request).
Context (qp : spdk_nvmf_qpair) (ct : spdk_nvmf_ctrlr) (v : iovec) (vs : list iovec) (m : spdk_bdev_mgmt_channel).
Hypothesis H : echo_ready bdev desc w rid q r qp ct v vs m.
Let n := w_next w.

(** The command and its first read. *)
Lemma echo_start_wp {A} (k : M A) (Q : A -> world -> Prop) :
  (forall w1 iovs v1 vs1, iov_len <$> iovs = iov_len <$> req_iov r -> flat iovs = meta_data bdev w r ->
     let r1 := (ok_status r) <| req_iov := iovs |> in
     iov_len v1 = iov_len v -> echo_req bdev desc r1 v1 vs1 -> w_next w1 = S (S n) ->
     echo_state desc w w1 rid q r1 qp ct n (S n)
       (finished (echo_io nvmf_bdev_ctrlr_first_read_complete_cb desc n rid (req_iovcnt r)
                    (cdw10 (req_cmd r)) (cdw11 (req_cmd r))) device_ok IO_STATUS_SUCCESS) None m ->
     wp k w1 Q) ->
  wp (nvmf_bdev_ctrlr_custom_echo_cmd bdev desc rid;; device_complete (S n) device_ok;; k) w Q.
Proof.
  intros HQ. destruct H as [HE HL Hma Hmg Htk Hrg Hvec Hdk Hfr]. pose proof (eq_cmd _ _ _ _ _ HE) as (_&_&_&_&?&?&_).
  wstep. eapply (echo_cmd_wp bdev desc w rid q r qp ct v vs HE m); [done..|]. intros w1 ES Hnx.
  wstep. eapply (echo_read_wp bdev desc w rid q r qp ct v vs HE); [exact ES|done|lia|lia|done|done|done|].
  intros w2 iovs El Ef ES2 Hnx2. destruct (echo_req_filled bdev desc r v vs iovs HE El) as (v1 & vs1 & Hv1 & HE1).
  eapply HQ; [exact El|exact Ef|exact Hv1|exact HE1| |exact ES2]. by rewrite Hnx2, Hnx.
Qed.
End Start.

(** ** Properties *)

(** C23. A combination of two ranges that are on the device and fit the vector,
    with objects for both reads, hands one answer to the transport, with
    success, releases everything it allocated and returns nothing of the second
    range: the first element of the request's vector holds what the first read left there - the beginning of
    the first range when the range is no shorter than the element, else the
    whole range followed by the bytes the vector held before - and the rest of
    the vector is zero.  The blocks of the second range are read and
    concatenated but, since the copy of the first data alone is as long as the
    whole vector and only the first element is filled, never reach the host. *)
Theorem echo_returns_first_range bdev desc w rid q r qp ct v vs m m2
    (H : echo_ready bdev desc w rid q r qp ct v vs m) (Htk2 : take_io m = Some m2)
    (Hrg2 : cdw12 (req_cmd r) + cdw13 (req_cmd r) <= blockcnt bdev)
    (Hvec2 : (Z.to_nat (cdw13 (req_cmd r) * blocklen bdev) <= length (flat (req_iov r)))%nat) :
  let n := w_next w in
  wp (nvmf_bdev_ctrlr_custom_echo_cmd bdev desc rid;; device_complete (S n) device_ok;;
      nvmf_bdev_ctrlr_first_read_complete (S n) n;; device_complete (S (S (S n))) device_ok;;
      nvmf_bdev_ctrlr_second_read_complete (S (S (S n))) n) w (fun _ w' =>
    exists r' c, w_reqs w' !! rid = Some r' /\
      flat (req_iov r') = padded (length (flat (req_iov r))) (take (iov_len v) (meta_data bdev w r)) /\
      take (iov_len v) (meta_data bdev w r) =
        (let range := slice (Z.to_nat (cdw10 (req_cmd r) * blocklen bdev)) (Z.to_nat (cdw11 (req_cmd r) * blocklen bdev)) (w_disk w) in
         take (iov_len v) range ++ drop (length range) (iov_mem v)) /\
      answers_only w w' [(rid, c)] /\ spdk_nvme_cpl_is_error c = false /\
      w_heap w' = w_heap w /\ w_ios w' = w_ios w /\ w_disk w' = w_disk w).
Proof.
  intros n. pose proof H as [HE HL Hma Hmg Htk Hrg Hvec Hdk Hfr]. pose proof HE as [_ _ Hc Hiov Hcnt Hlen Hmax _].
  destruct Hc as (_&_&_&_&_&_&?&?&_).
  apply (echo_start_wp bdev desc w rid q r qp ct v vs m H). intros w1 iovs v1 vs1 El Ef r1 Hv1 HE1 Hnx ES1. fold n in Hnx, ES1.
  wstep. eapply (first_accepted_wp bdev desc w rid q r qp ct w1 r1 v1 vs1); [exact ES1|exact HE1|done|done|done|exact Htk2|].
  intros w2 ES2. rewrite Hnx in ES2. wstep.
  eapply (echo_read_wp bdev desc w rid q r qp ct v vs HE); [exact ES2|exact El|lia|lia|done|done|done|].
  intros w3 iovs3 El3 _ ES3 _. pose proof El3 as El3'. rewrite Hiov in El3'.
  destruct (same_lengths v vs iovs3 El3') as (v3 & vs3 & E3 & Hv3 & Hf3). rewrite <- Hiov in Hf3.
  assert (Hl1 : length (flat iovs) = length (flat (req_iov r))).
  { rewrite Hiov in El. destruct (same_lengths v vs iovs El) as (?&?&?&?&E). by rewrite E, <- Hiov. }
  assert (Hle : (iov_len v <= length (flat iovs))%nat).
  { rewrite Hl1, Hiov. change (flat (v :: vs)) with (iov_mem v ++ flat vs). rewrite length_app. unfold iov_len. lia. }
  change (flat (req_iov r1)) with (flat iovs) in *.
  eapply (second_complete_wp _ _ _ _ _ _ _ _ v3 vs3); [exact ES3|exact E3| | | |].
  { change (req_iovcnt r = Z.of_nat (length iovs3)). rewrite Hcnt. apply (f_equal length) in El3. by rewrite !length_fmap in El3; rewrite El3. }
  { change (0 <= req_length r < 2 ^ 31). unfold blen in *. lia. }
  { change (blen (flat iovs) = req_length r). unfold blen in *. lia. }
  intros w' iv Efl rF c Hreq Hlog Hheap Hios Hdisk. eexists _, c. split; [exact Hreq|]. split.
  - transitivity (flat iv); [done|]. rewrite Efl, <- Ef, Hv3, take_app_le by done.
    change (req_iov (r1 <| req_iov := iovs3 |>)) with iovs3. by rewrite Hf3.
  - split; [by apply meta_data_first with vs|]. split; [exact Hlog|]. split; [|done]. unfold c, completed_rsp. case_match; done.
Qed.

Definition demo_echo_req (c12 c13 : Z) : spdk_nvmf_request :=
  demo_req (NvmeCmd 0xd0 0 7 1 0 0 2 1 c12 c13 0 0) [Iov (Some (replicate 512 9)); Iov (Some (replicate 512 9))].
Definition demo_echo_world (c12 c13 : Z) : world :=
  demo_world [demo_echo_req c12 c13] [0%nat] 1 SPDK_NVMF_SUBSYSTEM_ACTIVE
    (replicate 1024 0 ++ replicate 512 5 ++ replicate 512 6 ++ replicate 2048 0).

Lemma demo_echo_ready c12 c13 : 0 <= c12 < 2 ^ 32 -> 0 <= c13 < 2 ^ 32 ->
  echo_ready demo_bdev demo_desc (demo_echo_world c12 c13) 0 0 (demo_echo_req c12 c13) (demo_qpair [0%nat]) demo_ctrlr
    (Iov (Some (replicate 512 9))) [Iov (Some (replicate 512 9))] (MgmtCh 3 4 4 []).
Proof.
  intros H1 H2. split; try done.
  - split; try reflexivity; [set_solver|]. split; done.
  - vm_compute. lia.
Qed.

Lemma echo_returns_first_range_witness :
  let w := demo_echo_world 3 1 in
  let n := w_next w in
  wp (nvmf_bdev_ctrlr_custom_echo_cmd demo_bdev demo_desc 0;; device_complete (S n) device_ok;;
      nvmf_bdev_ctrlr_first_read_complete (S n) n;; device_complete (S (S (S n))) device_ok;;
      nvmf_bdev_ctrlr_second_read_complete (S (S (S n))) n) w (fun _ w' =>
    exists r', w_reqs w' !! 0%nat = Some r' /\ flat (req_iov r') = replicate 512 5 ++ replicate 512 0).
Proof.
  intros w n.
  pose proof (echo_returns_first_range demo_bdev demo_desc (demo_echo_world 3 1) 0 0 _ _ _ _ _ _ (MgmtCh 2 4 4 [])
    (demo_echo_ready 3 1 ltac:(lia) ltac:(lia)) eq_refl ltac:(by vm_compute) ltac:(vm_compute; lia)) as W.
  cbv zeta in W. eapply wp_mono; [exact W|]. intros _ w' (r' & c & Hr & Hf & _).
  exists r'. split; [exact Hr|]. rewrite Hf. by vm_compute.
Defined.

(** A combination whose second read cannot be submitted is never answered:
    when the second range is not on the device, or no I/O object is left for
    it, the first callback writes an error status and releases everything, but
    completes nothing; no operation, context or waiter of the command is left
    that could, and the request stays outstanding. *)
Theorem echo_refused_never_answered bdev desc w rid q r qp ct v vs m
    (H : echo_ready bdev desc w rid q r qp ct v vs m)
    (Hno : blockcnt bdev < cdw12 (req_cmd r) + cdw13 (req_cmd r) \/ take_io m = None) :
  let n := w_next w in
  wp (nvmf_bdev_ctrlr_custom_echo_cmd bdev desc rid;; device_complete (S n) device_ok;;
      nvmf_bdev_ctrlr_first_read_complete (S n) n) w (fun _ w' => abandoned w rid q qp ct w').
Proof.
  intros n. pose proof H as [HE HL Hma Hmg Htk Hrg Hvec Hdk Hfr].
  apply (echo_start_wp bdev desc w rid q r qp ct v vs m H). intros w1 iovs v1 vs1 El Ef r1 Hv1 HE1 Hnx ES1.
  eapply (first_refused_wp bdev desc w rid q r qp ct w1 r1 v1 vs1); [exact ES1|exact HE1|done|done|done| |done].
  revert Htk. unfold take_io. repeat case_match; intros; by simplify_eq.
Qed.

Lemma echo_refused_never_answered_witness :
  let w := demo_echo_world 7 2 in
  let n := w_next w in
  wp (nvmf_bdev_ctrlr_custom_echo_cmd demo_bdev demo_desc 0;; device_complete (S n) device_ok;;
      nvmf_bdev_ctrlr_first_read_complete (S n) n) w (fun _ w' => abandoned w 0 0 (demo_qpair [0%nat]) demo_ctrlr w').
Proof.
  intros w n.
  apply (echo_refused_never_answered demo_bdev demo_desc (demo_echo_world 7 2) 0 0 _ _ _ _ _ _
    (demo_echo_ready 7 2 ltac:(lia) ltac:(lia))). left. by vm_compute.
Defined.
