(* ===== verification/NdpHeaan.v ===== *)
(** * Ciphertext addition: opcode 0xe0 of [spdk/lib/nvmf/ctrlr_bdev.c]

    The request carries the extents of two input files and of a target file.
    [nvmf_bdev_ctrlr_custom_heaan_cipadd_cmd] reads the inputs into memory,
    one operation per extent; the last [nvmf_heaan_buffer_fill_complete] adds
    the ciphertexts and writes the result, one operation per target extent; the
    last [nvmf_heaan_cip_write_complete] answers.  The homomorphic encryption
    library is not part of the repository: it is the interface [HeaanLib]. *)
From S2P Require Import Prelude NvmeSpec Iov World Request Bdev CtrlrBdev NdpEcho.

(** The functions of the library that the target calls.  A buffer is given by
    its bytes, [None] for NULL; [ciphertextAdd] returns its status and the
    target ciphertext; [writeCiphertextToMem] is the bytes it stores. *)
Class HeaanLib := {
  Ciphertext : Type;
  readCiphertextFromMem : option bytes -> Z -> Z -> Ciphertext;
  create_Ciphertext : Ciphertext;
  ciphertextAdd : Ciphertext -> Ciphertext -> Ciphertext -> Z * Ciphertext;
  writeCiphertextToMem : Ciphertext -> bytes }.

(** ** Memory *)

(** [spdk_dma_zmalloc]: nothing for a size of zero. *)
Definition spdk_dma_zmalloc (n : Z) : M (option nat) :=
  if n =? 0 then mret None else malloc (OBytes (replicate (Z.to_nat n) 0)).

(** [u64data[i]]: a word of the first element of the vector. *)
Definition u64data (b : bytes) (i : nat) : M Z :=
  massert (8 * i + 8 <=? length b)%nat;; mret (le_dec (slice (8 * i) 8 b)).

Definition store_word (l i : nat) (v : Z) : M unit :=
  ws ← load_words l; massert (i <? length ws)%nat;; store l (OWords (<[i := v]> ws)).

Definition mod_heaan (l : nat) (f : heaan_ctx -> heaan_ctx) : M unit :=
  c ← load_heaan l; store l (OHeaan (f c)).

(** ** The callbacks *)

Definition nvmf_heaan_cip_write_complete (iod l : nat) : M unit :=
  ctx ← load_heaan l;
  let rid := hc_req ctx in
  io ← get_io iod;
  (if negb (io_success io) then
     set_sc rid SPDK_NVME_SC_INTERNAL_DEVICE_ERROR;;
     mod_heaan l (fun c => c <| hc_pending_fills := -1 |>)
   else mod_heaan l (fun c => c <| hc_pending_fills := hc_pending_fills c - 1 |>));;
  ctx ← load_heaan l;
  if hc_pending_fills ctx <=? 0 then
    if hc_pending_fills ctx <? 0 then
      set_status rid SPDK_NVME_SCT_GENERIC SPDK_NVME_SC_INTERNAL_DEVICE_ERROR;;
      spdk_bdev_free_io iod;;
      spdk_nvmf_request_complete rid;;
      free (hc_target_buffer ctx);;
      free (Some l)
    else
      set_status rid SPDK_NVME_SCT_GENERIC SPDK_NVME_SC_SUCCESS;;
      free (hc_target_buffer ctx);;
      free (Some l);;
      spdk_bdev_free_io iod;;
      spdk_nvmf_request_complete rid
  else mret tt.

(** The buffer at [off] of an allocation, as the argument of a transfer. *)
Definition heap_buffer (p : option nat) (off : Z) : io_buffer :=
  match p with Some l => BufHeap l (Z.to_nat off) | None => BufNone end.

(** The loop that submits the writes; what [spdk_bdev_write] returns is not
    looked at. *)
Fixpoint submit_writes (ctx : heaan_ctx) (l : nat) (off : Z) (iter n : nat) : M unit :=
  match n with
  | O => mret tt
  | S n =>
      e ← need (hc_target_ext ctx);
      ws ← load_words e;
      start ← need (ws !! (2 * iter)%nat);
      len ← need (ws !! (2 * iter + 1)%nat);
      _ ← spdk_bdev_write (hc_desc ctx) nvmf_heaan_cip_write_complete_cb (ArgCtx l)
            (heap_buffer (hc_target_buffer ctx) off) start len;
      submit_writes ctx l (u64 (off + len)) (S iter) n
  end.

(** The bytes of a buffer the library reads. *)
Definition buffer_bytes (p : option nat) : M (option bytes) :=
  match p with Some l => b ← load_bytes l; mret (Some b) | None => mret None end.

(** What the library stores at the start of the target buffer. *)
Definition write_target (p : option nat) (data : bytes) : M unit :=
  match p with Some l => heap_memcpy l 0 data | None => massert (length data =? 0)%nat end.

Section Library.
Context `{HeaanLib}.

(** All inputs are in memory: add, and submit the writes. *)
Definition heaan_add_and_write (iod l : nat) (ctx : heaan_ctx) : M unit :=
  let rid := hc_req ctx in
  b0 ← buffer_bytes (hc_input_0_buffer ctx);
  b1 ← buffer_bytes (hc_input_1_buffer ctx);
  let input_0_ciphertext := readCiphertextFromMem b0 (hc_input_0_total_size ctx) (hc_input_0_start_offset ctx) in
  let input_1_ciphertext := readCiphertextFromMem b1 (hc_input_1_total_size ctx) (hc_input_1_start_offset ctx) in
  let '(rc, target_ciphertext) := ciphertextAdd create_Ciphertext input_0_ciphertext input_1_ciphertext in
  if rc !=? 0 then
    set_status rid SPDK_NVME_SCT_GENERIC SPDK_NVME_SC_INTERNAL_DEVICE_ERROR;;
    free (hc_input_0_buffer ctx);;
    free (hc_input_1_buffer ctx);;
    free (hc_target_buffer ctx);;
    free (Some l);;
    spdk_bdev_free_io iod;;
    spdk_nvmf_request_complete rid
  else
    write_target (hc_target_buffer ctx) (writeCiphertextToMem target_ciphertext);;
    free (hc_input_0_buffer ctx);;
    free (hc_input_1_buffer ctx);;
    mod_heaan l (fun c => c <| hc_pending_fills := i32 (hc_target_extents_count c) |>);;
    submit_writes ctx l 0 0 (Z.to_nat (hc_target_extents_count ctx)).

Definition nvmf_heaan_buffer_fill_complete (iod l : nat) : M unit :=
  ctx ← load_heaan l;
  let rid := hc_req ctx in
  io ← get_io iod;
  (if negb (io_success io) then
     set_sc rid SPDK_NVME_SC_INTERNAL_DEVICE_ERROR;;
     mod_heaan l (fun c => c <| hc_pending_fills := -1 |>)
   else mod_heaan l (fun c => c <| hc_pending_fills := hc_pending_fills c - 1 |>));;
  ctx ← load_heaan l;
  if hc_pending_fills ctx <=? 0 then
    if hc_pending_fills ctx <? 0 then
      spdk_bdev_free_io iod;;
      spdk_nvmf_request_complete rid;;
      free (hc_input_0_buffer ctx);;
      free (hc_input_1_buffer ctx);;
      free (hc_target_buffer ctx);;
      free (Some l);;
      set_status rid SPDK_NVME_SCT_GENERIC SPDK_NVME_SC_INTERNAL_DEVICE_ERROR
    else heaan_add_and_write iod l ctx
  else mret tt.
End Library.

(** ** The command *)

(** One list of [n] extents of the payload, from word [bufnum] on; [None] when
    one of them is not on the device.  The extents of the target are also
    copied into [dst]. *)
Fixpoint parse_extents (num_blocks block_size : Z) (b : bytes) (dst : option (option nat)) (iter bufnum n : nat) :
  M (option (list (Z * Z))) :=
  match n with
  | O => mret (Some [])
  | S n =>
      start ← u64data b bufnum;
      len ← u64data b (bufnum + 1);
      if negb (nvmf_bdev_ctrlr_lba_in_range num_blocks (start / block_size) (len / block_size)) then mret None
      else
        (match dst with
         | Some p => l ← need p; store_word l (2 * iter) start;; store_word l (2 * iter + 1) len
         | None => mret tt
         end);;
        o ← parse_extents num_blocks block_size b dst (S iter) (bufnum + 2) n;
        mret (cons (start, len) <$> o)
  end.

Definition extents_size (es : list (Z * Z)) : Z := foldl (fun t e => u64 (t + e.2)) 0 es.

(** The loop that submits the reads of one input: the first result that is not
    zero, or zero. *)
Fixpoint submit_reads (desc : spdk_bdev_desc) (l : nat) (buf : option nat) (off : Z) (es : list (Z * Z)) : M Z :=
  match es with
  | [] => mret 0
  | (start, len) :: es =>
      rc ← spdk_bdev_read desc nvmf_heaan_buffer_fill_complete_cb (ArgCtx l) (heap_buffer buf off) start len;
      if rc !=? 0 then mret rc else submit_reads desc l buf (u64 (off + len)) es
  end.

(** Out of range: only the context is freed. *)
Definition heaan_out_of_range (rid l : nat) : M exec_status :=
  free (Some l);; fail rid SPDK_NVME_SCT_GENERIC SPDK_NVME_SC_LBA_OUT_OF_RANGE.

(** A read that cannot be submitted: the buffers and the context are freed. *)
Definition heaan_load_error (rid l : nat) : M exec_status :=
  ctx ← load_heaan l;
  free (hc_input_0_buffer ctx);;
  free (hc_input_1_buffer ctx);;
  free (hc_target_buffer ctx);;
  free (Some l);;
  fail rid SPDK_NVME_SCT_GENERIC SPDK_NVME_SC_INTERNAL_DEVICE_ERROR.

(** The buffers, and the reads of both inputs. *)
Definition heaan_load (desc : spdk_bdev_desc) (rid l : nat) (es0 es1 est : list (Z * Z)) : M exec_status :=
  mod_heaan l (fun c => c <| hc_input_0_total_size := extents_size es0 |>
                          <| hc_input_1_total_size := extents_size es1 |>);;
  p0 ← spdk_dma_zmalloc (extents_size es0);
  mod_heaan l (fun c => c <| hc_input_0_buffer := p0 |>);;
  p1 ← spdk_dma_zmalloc (extents_size es1);
  mod_heaan l (fun c => c <| hc_input_1_buffer := p1 |>);;
  pt ← spdk_dma_zmalloc (extents_size est);
  mod_heaan l (fun c => c <| hc_target_buffer := pt |>);;
  load_result ← submit_reads desc l p0 0 es0;
  if load_result !=? 0 then heaan_load_error rid l
  else
    load_result ← submit_reads desc l p1 0 es1;
    if load_result !=? 0 then heaan_load_error rid l else mret ASYNCHRONOUS.

Definition nvmf_bdev_ctrlr_custom_heaan_cipadd_cmd (bdev : spdk_bdev) (desc : spdk_bdev_desc) (rid : nat) : M exec_status :=
  r ← get_req rid;
  let num_blocks := spdk_bdev_get_num_blocks bdev in
  let block_size := spdk_bdev_get_block_size bdev in
  let n0 := cdw11 (req_cmd r) in
  let n1 := cdw12 (req_cmd r) in
  let nt := cdw13 (req_cmd r) in
  p ← malloc (OHeaan (HeaanCtx None None None 0 0 0 0 0 0 None rid desc));
  l ← need p;
  mod_heaan l (fun c => c <| hc_pending_fills := i32 (n0 + n1) |> <| hc_target_extents_count := nt |>);;
  ext ← malloc (OWords (replicate (Z.to_nat (2 * nt)) 0));
  mod_heaan l (fun c => c <| hc_target_ext := ext |>);;
  v ← need (req_iov r !! 0%nat);
  let total_data_len := u32 (Z.of_nat (iov_len v * NVMF_REQ_MAX_BUFFERS)) in
  if (total_data_len =? 0) || (req_iovcnt r =? 0) || bool_decide (iov_base v = None) then
    free (Some l);; fail rid SPDK_NVME_SCT_GENERIC SPDK_NVME_SC_INTERNAL_DEVICE_ERROR
  else
    let b := iov_mem v in
    _ ← u64data b 0;
    o0 ← parse_extents num_blocks block_size b None 0 1 (Z.to_nat n0);
    match o0 with
    | None => heaan_out_of_range rid l
    | Some es0 =>
        let i1 := (1 + 2 * Z.to_nat n0)%nat in
        _ ← u64data b i1;
        o1 ← parse_extents num_blocks block_size b None 0 (i1 + 1) (Z.to_nat n1);
        match o1 with
        | None => heaan_out_of_range rid l
        | Some es1 =>
            let it := (i1 + 1 + 2 * Z.to_nat n1)%nat in
            _ ← u64data b it;
            ot ← parse_extents num_blocks block_size b (Some ext) 0 (it + 1) (Z.to_nat nt);
            match ot with
            | None => heaan_out_of_range rid l
            | Some est => heaan_load desc rid l es0 es1 est
            end
        end
    end.

(** The device serves operations in the given order, and calls back after each. *)
Fixpoint serve (cb : nat -> M unit) (iods : list nat) : M unit :=
  match iods with
  | [] => mret tt
  | iod :: iods => device_complete iod device_ok;; cb iod;; serve cb iods
  end.

(** ** The payload *)

(** An extent as the two words that describe it. *)
Definition flatten (es : list (Z * Z)) : list Z := concat ((fun e => [e.1; e.2]) <$> es).

(** Little-endian 64-bit words. *)
Definition encode_words (ws : list Z) : bytes := concat (le_enc 8 <$> ws).

(** Start offset and extents of the inputs and of the target. *)
Definition heaan_words (o0 : Z) (es0 : list (Z * Z)) (o1 : Z) (es1 : list (Z * Z)) (ot : Z) (est : list (Z * Z)) : list Z :=
  o0 :: flatten es0 ++ o1 :: flatten es1 ++ ot :: flatten est.

(** ** Lemmas *)

Lemma length_flatten es : length (flatten es) = (2 * length es)%nat.
Proof. unfold flatten. induction es as [|e es IH]; cbn in *; lia. Qed.

Lemma length_encode_words ws : length (encode_words ws) = (8 * length ws)%nat.
Proof. unfold encode_words. induction ws as [|x ws IH]; [done|]. cbn [fmap list_fmap concat]. rewrite length_app, length_le_enc, IH. cbn. lia. Qed.

Lemma encode_words_app a b : encode_words (a ++ b) = encode_words a ++ encode_words b.
Proof. unfold encode_words. by rewrite fmap_app, concat_app. Qed.

Lemma u64data_wp ws rest i x w (Q : Z -> world -> Prop) :
  ws !! i = Some x -> 0 <= x < 2 ^ 64 -> Q x w -> wp (u64data (encode_words ws ++ rest) i) w Q.
Proof.
  intros Hi Hx HQ. pose proof (lookup_lt_Some _ _ _ Hi) as Hl.
  assert (E : slice (8 * i) 8 (encode_words ws ++ rest) = le_enc 8 x).
  { rewrite <- (take_drop_middle ws i x Hi). unfold encode_words. rewrite fmap_app, concat_app. cbn [fmap list_fmap concat].
    pose proof (length_encode_words (take i ws)) as Ht. unfold encode_words in Ht. rewrite length_take, Nat.min_l in Ht by lia.
    unfold slice. rewrite <- !app_assoc, drop_app_ge, Ht, Nat.sub_diag, drop_0 by lia.
    rewrite take_app_le by (by rewrite length_le_enc). apply take_ge. by rewrite length_le_enc. }
  unfold u64data. wstep. apply wp_massert.
  { apply Nat.leb_le. rewrite length_app, length_encode_words. lia. }
  wstep. rewrite E, le_dec_enc, Z.mod_small by done. exact HQ.
Qed.

Lemma insert_splice i v (ws : list Z) : (i < length ws)%nat -> <[i := v]> ws = splice i [v] ws.
Proof. intros. unfold splice. rewrite insert_take_drop by done. cbn. by rewrite Nat.add_1_r. Qed.

Lemma store_word_wp l i v ws w (Q : unit -> world -> Prop) :
  w_heap w !! l = Some (OWords ws) -> (i < length ws)%nat ->
  Q tt (w <| w_heap := <[l := OWords (splice i [v] ws)]> (w_heap w) |>) -> wp (store_word l i v) w Q.
Proof.
  intros Hl Hi HQ. unfold store_word. wsteps. apply wp_massert; [by apply Nat.ltb_lt|]. wsteps. by rewrite insert_splice.
Qed.

Lemma mod_heaan_wp l f c w (Q : unit -> world -> Prop) :
  w_heap w !! l = Some (OHeaan c) -> Q tt (w <| w_heap := <[l := OHeaan (f c)]> (w_heap w) |>) -> wp (mod_heaan l f) w Q.
Proof. intros Hl HQ. unfold mod_heaan. by wsteps. Qed.

(** An extent the command accepts: its words fit, it is on the device. *)
Definition extent_ok (bdev : spdk_bdev) (e : Z * Z) : Prop :=
  0 <= e.1 < 2 ^ 64 /\ 0 < e.2 < 2 ^ 64 /\ byte_range_ok bdev e.1 e.2.

Lemma extent_in_range bdev e : geometry_ok bdev -> extent_ok bdev e ->
  nvmf_bdev_ctrlr_lba_in_range (spdk_bdev_get_num_blocks bdev) (e.1 / spdk_bdev_get_block_size bdev)
    (e.2 / spdk_bdev_get_block_size bdev) = true.
Proof.
  intros HG (H1&H2&H3&H4&H5). rewrite lba_in_range_valid_blocks. apply aligned_range; try done; lia.
Qed.

Section Parse.
Context (bdev : spdk_bdev) (ws : list Z) (rest : bytes).
Hypothesis HG : geometry_ok bdev.
Let b := encode_words ws ++ rest.
Let nb := spdk_bdev_get_num_blocks bdev.
Let bs := spdk_bdev_get_block_size bdev.

(** Words [i ..] of the payload are the extents [es]. *)
Definition extents_at (i : nat) (es : list (Z * Z)) : Prop := exists a c, ws = a ++ flatten es ++ c /\ length a = i.

Lemma extents_at_cons i e es : extents_at i (e :: es) ->
  ws !! i = Some e.1 /\ ws !! (i + 1)%nat = Some e.2 /\ extents_at (i + 2) es.
Proof.
  intros (a & c & E & Ha). change (flatten (e :: es)) with (e.1 :: e.2 :: flatten es) in E. subst i. split; [|split].
  - rewrite E, lookup_app_r, Nat.sub_diag by lia. done.
  - rewrite E, lookup_app_r by lia. replace (length a + 1 - length a)%nat with 1%nat by lia. done.
  - exists (a ++ [e.1; e.2]), c. rewrite length_app, <- app_assoc. done.
Qed.

(** The inputs' extents. *)
Lemma parse_inputs_wp es i k w (Q : option (list (Z * Z)) -> world -> Prop) :
  extents_at i es -> Forall (extent_ok bdev) es -> Q (Some es) w -> wp (parse_extents nb bs b None k i (length es)) w Q.
Proof.
  revert i k Q. induction es as [|[s n] es IH]; intros i k Q Hat HF HQ; cbn [length parse_extents]; [by wsteps|].
  apply extents_at_cons in Hat as (H1 & H2 & H3). cbn [fst snd] in H1, H2. apply Forall_cons in HF as [HF1 HF2].
  pose proof HF1 as (?&?&_). cbn [fst snd] in *.
  wstep. eapply u64data_wp; [done|lia|]. wstep. eapply u64data_wp; [done|lia|].
  pose proof (extent_in_range bdev (s, n) HG HF1) as E. cbn [fst snd] in E. fold nb bs in E. rewrite E. cbn [negb]. wsteps. apply IH; [done..|]. by wsteps.
Qed.

(** The target's extents, copied into the array at [l]. *)
Lemma parse_target_wp es i k l arr w (Q : option (list (Z * Z)) -> world -> Prop) :
  extents_at i es -> Forall (extent_ok bdev) es -> w_heap w !! l = Some (OWords arr) ->
  (2 * (k + length es) <= length arr)%nat ->
  Q (Some es) (w <| w_heap := <[l := OWords (splice (2 * k) (flatten es) arr)]> (w_heap w) |>) ->
  wp (parse_extents nb bs b (Some (Some l)) k i (length es)) w Q.
Proof.
  revert i k arr w Q. induction es as [|[s n] es IH]; intros i k arr w Q Hat HF Hl Hk HQ; cbn [length parse_extents] in *.
  { wsteps. change (flatten []) with (@nil Z) in HQ. rewrite splice_nil, insert_id in HQ by done. by destruct w. }
  apply extents_at_cons in Hat as (H1 & H2 & H3). cbn [fst snd] in H1, H2. apply Forall_cons in HF as [HF1 HF2].
  pose proof HF1 as (?&?&_). cbn [fst snd] in *.
  wstep. eapply u64data_wp; [done|lia|]. wstep. eapply u64data_wp; [done|lia|].
  pose proof (extent_in_range bdev (s, n) HG HF1) as E. cbn [fst snd] in E. fold nb bs in E. rewrite E. cbn [negb]. wsteps.
  eapply store_word_wp; [done|lia|]. eapply store_word_wp; [apply lookup_insert_eq|rewrite length_splice; cbn; lia|].
  wsimp. rewrite insert_insert_eq. 
  pose proof (splice_splice (2 * k) [s] [n] arr ltac:(cbn; lia)) as E2. cbn [length app] in E2. rewrite E2. wstep.
  eapply IH; [done|done|apply lookup_insert_eq|rewrite length_splice; cbn; lia|]. wsteps. rewrite insert_insert_eq.
  replace (2 * S k)%nat with (2 * k + length [s; n])%nat by (cbn; lia).
  rewrite splice_splice by (rewrite length_flatten; cbn; lia). exact HQ.
Qed.
End Parse.

(** ** Batches of operations *)

(** The objects of the pool after [n] of them are taken. *)
Fixpoint take_n (n : nat) (m : spdk_bdev_mgmt_channel) : option spdk_bdev_mgmt_channel :=
  match n with
  | O => Some m
  | S n => m ← take_io m; take_n n m
  end.

Lemma take_n_add a b m : take_n (a + b) m = (m ← take_n a m; take_n b m).
Proof. revert m. induction a as [|a IH]; intros m; cbn; [done|]. destruct (take_io m); cbn; auto. Qed.

Lemma take_n_ok n m m' : take_n n m = Some m' -> mgmt_ok m -> mgmt_ok m'.
Proof.
  revert m. induction n as [|n IH]; intros m; cbn; [by intros [= ->]|].
  destruct (take_io m) as [m1|] eqn:E; cbn; [|done]. intros Ht Hm. eapply IH; [done|]. by eapply take_io_ok.
Qed.

(** The world after [ios] are submitted, one after the other. *)
Definition submitted_all (ios : list spdk_bdev_io) (m : spdk_bdev_mgmt_channel) (w : world) : world :=
  w <| w_mgmt := m |> <| w_ios := map_seq (w_next w) ios ∪ w_ios w |> <| w_next := (w_next w + length ios)%nat |>.

Lemma submitted_all_nil w : submitted_all [] (w_mgmt w) w = w.
Proof. unfold submitted_all. cbn. rewrite (left_id_L ∅ (∪)), Nat.add_0_r. by destruct w. Qed.

Lemma submitted_all_cons io ios m1 m w :
  submitted_all ios m (submitted io m1 w) = submitted_all (io :: ios) m w.
Proof.
  unfold submitted_all, submitted. wsimp. cbn [length map_seq].
  assert (E : map_seq (S (w_next w)) ios ∪ <[w_next w := io]> (w_ios w) = <[w_next w := io]> (map_seq (S (w_next w)) ios) ∪ w_ios w).
  { rewrite <- insert_union_l, insert_union_r; [done|]. apply map_seq_cons_disjoint. }
  rewrite E, Nat.add_succ_r. done.
Qed.

Lemma submitted_all_lookup ios m w k io : ios !! k = Some io ->
  w_ios (submitted_all ios m w) !! (w_next w + k)%nat = Some io.
Proof.
  intros H. unfold submitted_all. wsimp. apply lookup_union_Some_l, lookup_map_seq_Some. split; [lia|]. by rewrite Nat.add_comm, Nat.add_sub.
Qed.

(** The bytes an extent list covers, and the offset of the [k]-th in a buffer. *)
Definition ext_len (e : Z * Z) : nat := Z.to_nat e.2.
Definition total (es : list (Z * Z)) : nat := sum_list (ext_len <$> es).
Definition ext_off (es : list (Z * Z)) (k : nat) : nat := total (take k es).

Lemma total_cons e es : total (e :: es) = (ext_len e + total es)%nat.
Proof. done. Qed.
Lemma total_app es1 es2 : total (es1 ++ es2) = (total es1 + total es2)%nat.
Proof. induction es1 as [|e es1 IH]; [done|]. cbn [app]. rewrite !total_cons, IH. lia. Qed.

(** One operation per extent, on consecutive parts of the buffer [bl]. *)
Fixpoint ext_ios (t : spdk_bdev_io_type) (cb : spdk_bdev_io_completion_cb) (desc : spdk_bdev_desc) (l bl off : nat)
    (es : list (Z * Z)) : list spdk_bdev_io :=
  match es with
  | [] => []
  | e :: es => byte_io t desc cb (ArgCtx l) (BufHeap bl off) e.1 e.2 :: ext_ios t cb desc l bl (off + ext_len e) es
  end.

Lemma length_ext_ios t cb desc l bl off es : length (ext_ios t cb desc l bl off es) = length es.
Proof. revert off. induction es as [|e es IH]; intros; cbn; [done|]. by rewrite IH. Qed.

Lemma ext_ios_lookup t cb desc l bl off es k e : es !! k = Some e ->
  ext_ios t cb desc l bl off es !! k = Some (byte_io t desc cb (ArgCtx l) (BufHeap bl (off + ext_off es k)) e.1 e.2).
Proof.
  revert off k. induction es as [|e' es IH]; intros off k Hk; [done|]. destruct k as [|k]; cbn in *.
  - injection Hk as ->. unfold ext_off. rewrite take_0. by rewrite Nat.add_0_r.
  - rewrite (IH _ _ Hk). unfold ext_off. rewrite firstn_cons, total_cons. by rewrite Nat.add_assoc.
Qed.

Lemma extents_size_total es t : 0 <= t -> Forall (fun e => 0 <= e.2) es -> t + Z.of_nat (total es) < 2 ^ 64 ->
  foldl (fun t e => u64 (t + e.2)) t es = t + Z.of_nat (total es).
Proof.
  revert t. induction es as [|e es IH]; intros t Ht HF Hs; cbn [foldl]; [unfold total; cbn; lia|].
  apply Forall_cons in HF as [He HF]. rewrite total_cons in *. unfold ext_len in *. rewrite u64_small by lia. rewrite IH by (done || lia). lia.
Qed.

Section Submissions.
Context (desc : spdk_bdev_desc) (l bl : nat).
Hypothesis HG : geometry_ok (desc_bdev desc).

Lemma submit_reads_wp es o w m (Q : Z -> world -> Prop) :
  Forall (extent_ok (desc_bdev desc)) es -> Z.of_nat (o + total es) < 2 ^ 64 -> take_n (length es) (w_mgmt w) = Some m ->
  Q 0 (submitted_all (ext_ios IO_READ nvmf_heaan_buffer_fill_complete_cb desc l bl o es) m w) ->
  wp (submit_reads desc l (Some bl) (Z.of_nat o) es) w Q.
Proof.
  revert o w. induction es as [|[s n] es IH]; intros o w HF Hs Ht HQ; cbn [submit_reads length take_n] in *.
  { injection Ht as <-. wsteps. cbn [ext_ios] in HQ. by rewrite submitted_all_nil in HQ. }
  destruct (take_io (w_mgmt w)) as [m1|] eqn:Em; cbn in Ht; [|done].
  apply Forall_cons in HF as [(H1&H2&H3) HF2]. rewrite total_cons in Hs.
  cbn [fst snd] in *. change (ext_len (s, n)) with (Z.to_nat n) in Hs.
  wstep. cbn [heap_buffer]. rewrite Nat2Z.id. eapply spdk_bdev_read_wp; [done|lia|lia|done|done|].
  change (0 !=? 0) with false. cbv iota. rewrite u64_small by lia.
  replace (Z.of_nat o + n) with (Z.of_nat (o + Z.to_nat n)) by lia.
  apply IH; [done|lia|exact Ht|]. rewrite submitted_all_cons. exact HQ.
Qed.

Lemma submit_writes_wp ctx est ext done_ es w m (Q : unit -> world -> Prop) :
  hc_desc ctx = desc -> hc_target_buffer ctx = Some bl -> hc_target_ext ctx = Some ext ->
  w_heap w !! ext = Some (OWords (flatten est)) -> est = done_ ++ es -> desc_write desc = true ->
  Forall (extent_ok (desc_bdev desc)) es -> Z.of_nat (total est) < 2 ^ 64 -> take_n (length es) (w_mgmt w) = Some m ->
  Q tt (submitted_all (ext_ios IO_WRITE nvmf_heaan_cip_write_complete_cb desc l bl (total done_) es) m w) ->
  wp (submit_writes ctx l (Z.of_nat (total done_)) (length done_) (length es)) w Q.
Proof.
  intros Hd Hb He. revert done_ w. induction es as [|[s n] es IH]; intros done_ w Hh Hest Hw HF Hs Ht HQ;
    cbn [submit_writes length take_n] in *.
  { injection Ht as <-. wsteps. cbn [ext_ios] in HQ. by rewrite submitted_all_nil in HQ. }
  destruct (take_io (w_mgmt w)) as [m1|] eqn:Em; cbn in Ht; [|done].
  apply Forall_cons in HF as [(H1&H2&H3) HF2]. cbn [fst snd] in *.
  assert (Hlk : flatten est !! (2 * length done_)%nat = Some s /\ flatten est !! (2 * length done_ + 1)%nat = Some n).
  { rewrite Hest. unfold flatten. rewrite fmap_app, concat_app. fold (flatten done_).
    split; rewrite lookup_app_r by (rewrite length_flatten; lia); rewrite length_flatten.
    - by rewrite Nat.sub_diag.
    - by rewrite Nat.add_comm, Nat.add_sub. }
  destruct Hlk as [L1 L2].
  assert (Htot : (total done_ + Z.to_nat n <= total est)%nat).
  { rewrite Hest, total_app, total_cons. change (ext_len (s, n)) with (Z.to_nat n). lia. }
  rewrite He, Hd, Hb. wsteps. cbn [heap_buffer]. rewrite Nat2Z.id.
  eapply spdk_bdev_write_wp; [done|lia|lia|done|done|done|]. rewrite u64_small by lia.
  assert (Hsn : total (done_ ++ [(s, n)]) = (total done_ + Z.to_nat n)%nat).
  { rewrite total_app, total_cons. change (ext_len (s, n)) with (Z.to_nat n). change (total []) with 0%nat. lia. }
  replace (Z.of_nat (total done_) + n) with (Z.of_nat (total (done_ ++ [(s, n)]))) by lia.
  replace (S (length done_)) with (length (done_ ++ [(s, n)])) by (rewrite length_app; cbn; lia).
  apply IH; [exact Hh|by rewrite <- app_assoc|done|done|done|exact Ht|]. rewrite submitted_all_cons, Hsn. exact HQ.
Qed.
End Submissions.

(** *** Buffers filled in any order *)

(** The bytes of an extent on the medium, and a buffer in which the extents
    whose index (counted from [o]) is in [done] have been read. *)
Definition piece (d : bytes) (e : Z * Z) : bytes := slice (Z.to_nat e.1) (ext_len e) d.
Definition filled (d : bytes) (done : gset nat) (o : nat) (es : list (Z * Z)) : bytes :=
  concat (imap (fun i e => if decide ((o + i)%nat ∈ done) then piece d e else replicate (ext_len e) 0) es).

Lemma splice_concat (ls : list bytes) i x y : ls !! i = Some y -> length x = length y ->
  splice (length (concat (take i ls))) x (concat ls) = concat (<[i := x]> ls).
Proof.
  intros Hi Hx. rewrite insert_take_drop by (by eapply lookup_lt_Some). rewrite <- (take_drop_middle ls i y Hi) at 2.
  rewrite !concat_app. cbn [concat]. unfold splice. rewrite take_app_length. f_equal. f_equal.
  rewrite drop_app_ge by lia. rewrite Nat.add_comm, Nat.add_sub, Hx. by rewrite drop_app_length.
Qed.

Section Filled.
Context (d : bytes) (es : list (Z * Z)) (o : nat).
Hypothesis Hd : Forall (fun e => Z.to_nat e.1 + ext_len e <= length d)%nat es.

Lemma length_piece e : (Z.to_nat e.1 + ext_len e <= length d)%nat -> length (piece d e) = ext_len e.
Proof. intros. by apply length_slice. Qed.

Lemma filled_lengths (done : gset nat) (k : nat) : length (concat (take k (imap (fun i e =>
    if decide ((o + i)%nat ∈ done) then piece d e else replicate (ext_len e) 0) es))) = ext_off es k.
Proof.
  unfold ext_off. revert k o Hd. induction es as [|e es' IH]; intros k o' HF; [by destruct k|].
  destruct k as [|k]; [done|]. apply Forall_cons in HF as [H1 H2]. cbn [imap]. rewrite !firstn_cons, total_cons. cbn [concat].
  rewrite length_app. f_equal.
  - case_decide; [by apply length_piece|apply length_replicate].
  - rewrite <- (IH k (S o') H2). do 3 f_equal. apply imap_ext. intros i x _. cbn. by rewrite Nat.add_succ_r.
Qed.

Lemma length_filled (done : gset nat) : length (filled d done o es) = total es.
Proof.
  pose proof (filled_lengths done (length es)) as E. unfold ext_off in E. rewrite firstn_all in E.
  rewrite take_ge in E by (by rewrite length_imap). exact E.
Qed.

Lemma filled_step done k e : es !! k = Some e -> (o + k)%nat ∉ done ->
  splice (ext_off es k) (piece d e) (filled d done o es) = filled d (done ∪ {[(o + k)%nat]}) o es.
Proof.
  intros Hk Hn. unfold filled. rewrite <- (filled_lengths done k).
  assert (He : (Z.to_nat e.1 + ext_len e <= length d)%nat) by (eapply Forall_lookup_1 in Hd; eauto).
  erewrite splice_concat; [|rewrite list_lookup_imap, Hk; reflexivity|rewrite decide_False by done; by rewrite length_replicate, length_piece].
  f_equal. apply list_eq. intros i. destruct (decide (i = k)) as [->|Hi].
  - rewrite list_lookup_insert_eq by (rewrite length_imap; by eapply lookup_lt_Some).
    rewrite list_lookup_imap, Hk. cbn. by rewrite decide_True by set_solver.
  - rewrite list_lookup_insert_ne by done. rewrite !list_lookup_imap. destruct (es !! i); [|done]. cbn. f_equal.
    destruct (decide ((o + i)%nat ∈ done)); [by rewrite decide_True by set_solver|].
    rewrite decide_False; [done|]. set_unfold. intros [?|?]; [done|lia].
Qed.

Lemma filled_other done k : (forall i, (i < length es)%nat -> k <> (o + i)%nat) ->
  filled d (done ∪ {[k]}) o es = filled d done o es.
Proof.
  intros H. unfold filled. f_equal. apply imap_ext. intros i e Hi. apply lookup_lt_Some in Hi.
  destruct (decide ((o + i)%nat ∈ done)); [by rewrite decide_True by set_solver|].
  rewrite decide_False; [done|]. set_unfold. intros [?|?]; [done|]. by apply (H i).
Qed.

Lemma filled_all done : (forall i, (i < length es)%nat -> (o + i)%nat ∈ done) -> filled d done o es = concat (piece d <$> es).
Proof.
  intros H. unfold filled. f_equal. rewrite <- imap_const. apply imap_ext. intros i e Hi.
  apply lookup_lt_Some in Hi. by rewrite decide_True by auto.
Qed.
End Filled.

Lemma filled_none d o es : filled d ∅ o es = replicate (total es) 0.
Proof.
  unfold filled. revert o. induction es as [|e es IH]; intros o; [done|]. cbn [imap concat].
  rewrite total_cons, replicate_add, decide_False by set_solver. f_equal. rewrite <- (IH (S o)).
  by f_equal.
Qed.

(** Lookups in a heap built by insertions at distinct places. *)
Ltac hlook := wsimp; repeat first [rewrite lookup_insert_eq | rewrite lookup_insert_ne by lia]; first [reflexivity | eassumption].

Lemma submitted_all_app ios1 ios2 m1 m2 w :
  submitted_all ios2 m2 (submitted_all ios1 m1 w) = submitted_all (ios1 ++ ios2) m2 w.
Proof.
  unfold submitted_all. wsimp. rewrite map_seq_app, length_app, Nat.add_assoc.
  rewrite (map_union_comm (map_seq (w_next w) ios1) (map_seq (w_next w + length ios1) ios2)) by apply map_seq_app_disjoint.
  by rewrite (assoc_L (∪) (map_seq (w_next w + length ios1) ios2)).
Qed.

Lemma dma_zmalloc_wp n w (Q : option nat -> world -> Prop) : 0 < n -> w_malloc w = [] ->
  Q (Some (w_next w)) (w <| w_heap := <[w_next w := OBytes (replicate (Z.to_nat n) 0)]> (w_heap w) |> <| w_next := S (w_next w) |>) ->
  wp (spdk_dma_zmalloc n) w Q.
Proof.
  intros Hn Hm HQ. unfold spdk_dma_zmalloc. destruct (Z.eqb_spec n 0); [lia|]. by apply wp_malloc_some.
Qed.

