(* ===== verification/HeaanAdd.v ===== *)
(** * The ciphertext addition from command to answer

    The definitions of [NdpHeaan] run to completion: the reads of the inputs
    and the writes of the result complete in any order, the library is the
    interface [HeaanLib].  Then what happens when an operation fails. *)
From S2P Require Import Prelude NvmeSpec Iov World Request Bdev CtrlrBdev NdpEcho NdpHeaan.

(** ** One addition *)

(** A request of an addition: the payload, and extents that are aligned, not
    empty and on the device. *)
Record heaan_req (bdev : spdk_bdev) (desc : spdk_bdev_desc) (r : spdk_nvmf_request) (o0 o1 ot : Z)
  (es0 es1 est : list (Z * Z)) : Prop := {
  hq_desc : desc_bdev desc = bdev; hq_write : desc_write desc = true; hq_geo : geometry_ok bdev;
  hq_n0 : cdw11 (req_cmd r) = Z.of_nat (length es0); hq_n1 : cdw12 (req_cmd r) = Z.of_nat (length es1);
  hq_nt : cdw13 (req_cmd r) = Z.of_nat (length est);
  hq_n : Z.of_nat (length es0 + length es1) < 2 ^ 31 /\ Z.of_nat (length est) < 2 ^ 31;
  hq_iov : exists vs rest, req_iov r = Iov (Some (encode_words (heaan_words o0 es0 o1 es1 ot est) ++ rest)) :: vs /\
    Z.of_nat (length (encode_words (heaan_words o0 es0 o1 es1 ot est) ++ rest) * NVMF_REQ_MAX_BUFFERS) < 2 ^ 32;
  hq_cnt : req_iovcnt r <> 0; hq_off : 0 <= o0 < 2 ^ 64 /\ 0 <= o1 < 2 ^ 64 /\ 0 <= ot < 2 ^ 64;
  hq_es0 : Forall (extent_ok bdev) es0 /\ es0 <> []; hq_es1 : Forall (extent_ok bdev) es1 /\ es1 <> [];
  hq_est : Forall (extent_ok bdev) est /\ est <> [];
  hq_tot : Z.of_nat (total es0) < 2 ^ 64 /\ Z.of_nat (total es1) < 2 ^ 64 /\ Z.of_nat (total est) < 2 ^ 64 }.

Lemma extent_nonneg bdev es : Forall (extent_ok bdev) es -> Forall (fun e => 0 <= e.2) es.
Proof. intros H. eapply Forall_impl; [exact H|]. intros e (_&?&_). lia. Qed.

Lemma total_pos bdev es : Forall (extent_ok bdev) es -> es <> [] -> (0 < total es)%nat.
Proof.
  intros HF Hn. destruct es as [|e es]; [done|]. apply Forall_cons in HF as [(_&?&_) _]. rewrite total_cons. unfold ext_len. lia.
Qed.

Lemma extents_size_eq bdev es : Forall (extent_ok bdev) es -> Z.of_nat (total es) < 2 ^ 64 -> extents_size es = Z.of_nat (total es).
Proof. intros HF Hs. unfold extents_size. rewrite extents_size_total; [lia|lia|by eapply extent_nonneg|lia]. Qed.

(** Where the words of a payload are. *)
Lemma words_positions o0 es0 o1 es1 ot est :
  let ws := heaan_words o0 es0 o1 es1 ot est in
  let i1 := (1 + 2 * length es0)%nat in
  let it := (i1 + 1 + 2 * length es1)%nat in
  ws !! 0%nat = Some o0 /\ ws !! i1 = Some o1 /\ ws !! it = Some ot /\
  extents_at ws 1 es0 /\ extents_at ws (i1 + 1) es1 /\ extents_at ws (it + 1) est /\
  length ws = (it + 1 + 2 * length est)%nat.
Proof.
  intros ws i1 it. set (p1 := o0 :: flatten es0). set (p2 := p1 ++ o1 :: flatten es1).
  assert (L1 : length p1 = i1) by (unfold p1, i1; cbn [length]; rewrite length_flatten; lia).
  assert (L2 : length p2 = it) by (unfold p2; rewrite length_app, L1; cbn [length]; rewrite length_flatten; lia).
  assert (W1 : ws = p1 ++ o1 :: flatten es1 ++ ot :: flatten est) by done.
  assert (W2 : ws = p2 ++ ot :: flatten est) by (rewrite W1; unfold p2; rewrite <- app_assoc; done).
  split; [done|]. split; [rewrite W1, lookup_app_r, L1, Nat.sub_diag by lia; done|].
  split; [rewrite W2, lookup_app_r, L2, Nat.sub_diag by lia; done|]. split; [by exists [o0], (o1 :: flatten es1 ++ ot :: flatten est)|].
  split; [exists (p1 ++ [o1]), (ot :: flatten est); rewrite W1, length_app, <- app_assoc, L1; done|].
  split; [exists (p2 ++ [ot]), []; rewrite W2, length_app, <- app_assoc, app_nil_r, L2; done|].
  rewrite W2, length_app, L2. cbn [length]. rewrite length_flatten. lia.
Qed.

(** The operations of [0 .. n) still to come, in the order they will. *)
Definition remaining (n : nat) (dn : gset nat) (ks : list nat) : Prop :=
  NoDup ks /\ forall k, k ∈ ks <-> (k < n)%nat /\ k ∉ dn.

Lemma remaining_cons n dn k ks : remaining n dn (k :: ks) -> (k < n)%nat /\ k ∉ dn /\ remaining n (dn ∪ {[k]}) ks.
Proof.
  intros [Hnd Hks]. apply NoDup_cons in Hnd as [Hnk Hnd]. destruct (proj1 (Hks k)) as [Hk Hkn]; [left|].
  split; [done|]. split; [done|]. split; [done|]. intros x. rewrite not_elem_of_union, not_elem_of_singleton. split.
  - intros Hx. destruct (proj1 (Hks x)) as [? ?]; [by right|]. split; [done|]. split; [done|]. by intros ->.
  - intros (Hx & Hxn & Hne). assert (x ∈ k :: ks) as Hin by (by apply Hks). apply list_elem_of_In in Hin as [->|Hin]; [done|].
    by apply list_elem_of_In.
Qed.

Lemma remaining_nil n dn : remaining n dn [] -> forall k, (k < n)%nat -> k ∈ dn.
Proof.
  intros [_ H] k Hk. destruct (decide (k ∈ dn)) as [|Hn]; [done|]. by destruct (not_elem_of_nil k (proj2 (H k) (conj Hk Hn))).
Qed.

Lemma remaining_perm n ks : ks ≡ₚ seq 0 n -> remaining n ∅ ks.
Proof.
  intros HP. split; [rewrite HP; apply NoDup_seq|]. intros k. rewrite HP, elem_of_seq. split; [|lia].
  intros. split; [lia|]. apply not_elem_of_empty.
Qed.

(** The I/O objects a channel can hand out. *)
Definition free_ios (m : spdk_bdev_mgmt_channel) : nat := (per_thread_cache_count m + bdev_io_pool m)%nat.

Lemma take_n_free n m m' : take_n n m = Some m' -> free_ios m = (n + free_ios m')%nat.
Proof.
  revert m. induction n as [|n IH]; intros m; cbn [take_n]; [by intros [= ->]|].
  destruct (take_io m) as [m1|] eqn:E; [|done]. intros Ht. apply IH in Ht. cbn in Ht. rewrite Nat.add_succ_l, <- Ht.
  revert E. unfold take_io, free_ios. repeat case_match; intros [= <-]; cbn; lia.
Qed.

Lemma put_io_free m : free_ios (put_io m) = S (free_ios m).
Proof. unfold put_io, free_ios. case_match; cbn; lia. Qed.

Section Addition.
Context (bdev : spdk_bdev) (desc : spdk_bdev_desc) (w : world) (rid q : nat) (r : spdk_nvmf_request).
Context (qp : spdk_nvmf_qpair) (ct : spdk_nvmf_ctrlr) (o0 o1 ot : Z) (es0 es1 est : list (Z * Z)).
Context (mr mw : spdk_bdev_mgmt_channel).

(** Where the command's objects are. *)
Let l := w_next w.
Let ext := S l.
Let b0 := S ext.
Let b1 := S b0.
Let bt := S b1.
Let base := S bt.
Let N := (length es0 + length es1)%nat.

Lemma places : ext = S l /\ b0 = S ext /\ b1 = S b0 /\ bt = S b1 /\ base = S bt.
Proof. done. Qed.

Definition add_ctx (pending : Z) : heaan_ctx :=
  HeaanCtx (Some b0) (Some b1) (Some bt) pending (Z.of_nat (total es0)) (Z.of_nat (total es1)) 0 0
    (Z.of_nat (length est)) (Some ext) rid desc.

Definition read_ios : list spdk_bdev_io :=
  ext_ios IO_READ nvmf_heaan_buffer_fill_complete_cb desc l b0 0 es0 ++
  ext_ios IO_READ nvmf_heaan_buffer_fill_complete_cb desc l b1 0 es1.
Definition write_ios : list spdk_bdev_io :=
  ext_ios IO_WRITE nvmf_heaan_cip_write_complete_cb desc l bt 0 est.

(** The operations of a batch: those in [done] have succeeded. *)
Definition batch (first : nat) (ios : list spdk_bdev_io) (done : gset nat) (w' : world) : Prop :=
  forall k io, ios !! k = Some io ->
    w_ios w' !! (first + k)%nat = Some (if decide (k ∈ done) then finished io device_ok IO_STATUS_SUCCESS else io).

(** Requests, queue pairs and the poll group are as at the arrival. *)
Definition same_requests (w' : world) : Prop :=
  w_reqs w' = w_reqs w /\ w_qpairs w' = w_qpairs w /\ w_sgroup w' = w_sgroup w.

(** The extents in [done] are in memory, [pending] fills are expected. *)
Record fill_state (pending : Z) (done : gset nat) (w' : world) : Prop := {
  fs_live : live_req w' rid q r qp ct;
  fs_ctx : w_heap w' !! l = Some (OHeaan (add_ctx pending));
  fs_b0 : w_heap w' !! b0 = Some (OBytes (filled (w_disk w) done 0 es0));
  fs_b1 : w_heap w' !! b1 = Some (OBytes (filled (w_disk w) done (length es0) es1));
  fs_bt : w_heap w' !! bt = Some (OBytes (replicate (total est) 0));
  fs_ext : w_heap w' !! ext = Some (OWords (flatten est));
  fs_ios : batch base read_ios done w'; fs_mgmt : w_mgmt w' = mr; fs_disk : w_disk w' = w_disk w;
  fs_log : w_log w' = w_log w; fs_next : w_next w' = (base + N)%nat; fs_same : same_requests w' }.

(** The buffers are allocated and the reads submitted. *)
Lemma heaan_load_wp w1 (Q : exec_status -> world -> Prop) :
  heaan_req bdev desc r o0 o1 ot es0 es1 est -> live_req w1 rid q r qp ct -> w_malloc w1 = [] ->
  take_n N (w_mgmt w1) = Some mr -> w_disk w1 = w_disk w -> w_log w1 = w_log w -> w_next w1 = b0 -> same_requests w1 ->
  w_heap w1 !! l = Some (OHeaan (HeaanCtx None None None (Z.of_nat N) 0 0 0 0 (Z.of_nat (length est)) (Some ext) rid desc)) ->
  w_heap w1 !! ext = Some (OWords (flatten est)) ->
  (forall w', fill_state (Z.of_nat N) ∅ w' -> Q ASYNCHRONOUS w') ->
  wp (heaan_load desc rid l es0 es1 est) w1 Q.
Proof.
  intros HR HL Hma Htk Hd Hlg Hnx Hsm Hl He HQ. pose proof places as (E1 & E2 & E3 & E4 & E5).
  pose proof HR as [Hde _ HG _ _ _ _ _ _ _ [H0 P0] [H1 P1] [Ht Pt] (T0&T1&Tt)].
  pose proof (total_pos _ _ H0 P0). pose proof (total_pos _ _ H1 P1). pose proof (total_pos _ _ Ht Pt).
  unfold heaan_load. rewrite !(extents_size_eq bdev) by done.
  unfold N in Htk. rewrite take_n_add in Htk. destruct (take_n (length es0) (w_mgmt w1)) as [ma|] eqn:Ea; cbn in Htk; [|done].
  wstep. eapply mod_heaan_wp; [exact Hl|]. wstep. apply dma_zmalloc_wp; [lia|done|]. wsimp. rewrite Hnx, Nat2Z.id.
  wstep. eapply mod_heaan_wp; [hlook|]. wstep. apply dma_zmalloc_wp; [lia|done|]. wsimp. rewrite Nat2Z.id. fold b1.
  wstep. eapply mod_heaan_wp; [hlook|]. wstep. apply dma_zmalloc_wp; [lia|done|]. wsimp. rewrite Nat2Z.id. fold bt.
  wstep. eapply mod_heaan_wp; [hlook|]. wsimp.
  wstep. eapply (submit_reads_wp desc l b0 ltac:(by rewrite Hde) es0 0); [by rewrite Hde|done|exact Ea|].
  change (0 !=? 0) with false. cbv iota. wstep.
  eapply (submit_reads_wp desc l b1 ltac:(by rewrite Hde) es1 0); [by rewrite Hde|done|exact Htk|].
  change (0 !=? 0) with false. cbv iota. wstep. rewrite submitted_all_app. apply HQ.
  split; unfold submitted_all; wsimp; try done.
  - eapply (live_req_upd w1); [done|apply HL|done..].
  - unfold add_ctx. hlook.
  - rewrite filled_none. hlook.
  - rewrite filled_none. hlook.
  - hlook.
  - hlook.
  - intros k io Hk. rewrite decide_False by set_solver. fold base. 
    apply lookup_union_Some_l, lookup_map_seq_Some. split; [lia|]. by rewrite Nat.add_comm, Nat.add_sub.
  - rewrite length_app, !length_ext_ios. done.
Qed.

(** A command that can run: its request, and objects for all of its
    operations, none of which is returned before the last one. *)
Record heaan_ready : Prop := {
  hy_req : heaan_req bdev desc r o0 o1 ot es0 es1 est; hy_live : live_req w rid q r qp ct;
  hy_malloc : w_malloc w = []; hy_mgmt : mgmt_ok (w_mgmt w);
  hy_take : take_n N (w_mgmt w) = Some mr; hy_take2 : take_n (length est) mr = Some mw;
  hy_disk : Z.to_nat (blockcnt bdev * blocklen bdev) = length (w_disk w) }.
Hypothesis HY : heaan_ready.

Lemma heaan_cmd_wp (Q : exec_status -> world -> Prop) :
  (forall w', fill_state (Z.of_nat N) ∅ w' -> Q ASYNCHRONOUS w') ->
  wp (nvmf_bdev_ctrlr_custom_heaan_cipadd_cmd bdev desc rid) w Q.
Proof.
  intros HQ. destruct HY as [HR HL Hma Hmg Htk _ Hdk]. pose proof (lr_req _ _ _ _ _ _ HL) as Hr.
  pose proof HR as [Hde _ HG Hn0 Hn1 Hnt [Hn Hn'] (vs & rest & Hiov & Hlen) Hcnt (O0&O1&Ot) [H0 _] [H1 _] [Ht _] _].
  destruct (words_positions o0 es0 o1 es1 ot est) as (A0 & A1 & At & X0 & X1 & Xt & Lw).
  set (ws := heaan_words o0 es0 o1 es1 ot est) in *. set (b := encode_words ws ++ rest) in *.
  pose proof places as (E1 & E2 & _).
  unfold nvmf_bdev_ctrlr_custom_heaan_cipadd_cmd. wsteps. apply wp_malloc_some; [done|]. wsteps.
  eapply mod_heaan_wp; [hlook|]. wsimp. wstep. apply wp_malloc_some; [done|]. wsimp. wstep.
  eapply mod_heaan_wp; [hlook|]. wsimp. rewrite Hiov. wstep. eapply wp_need; [reflexivity|].
  change (iov_len (Iov (Some b))) with (length b). change (iov_mem (Iov (Some b))) with b.
  rewrite Hn0, Hn1, Hnt, (u32_small (Z.of_nat (length b * _))), i32_small, <- Nat2Z.inj_add by lia.
  destruct (Z.eqb_spec (Z.of_nat (length b * NVMF_REQ_MAX_BUFFERS)) 0) as [Ez|_].
  { exfalso. unfold b in Ez. rewrite length_app, length_encode_words, Lw in Ez. unfold NVMF_REQ_MAX_BUFFERS in Ez. lia. }
  destruct (Z.eqb_spec (req_iovcnt r) 0) as [|_]; [done|]. rewrite bool_decide_false by done. cbn [orb].
  rewrite !Nat2Z.id. unfold b. wstep. eapply u64data_wp; [exact A0|done|]. wstep.
  eapply (parse_inputs_wp bdev ws rest HG es0); [exact X0|done|].
  wstep. eapply u64data_wp; [exact A1|done|]. wstep. eapply (parse_inputs_wp bdev ws rest HG es1); [exact X1|done|].
  wstep. eapply u64data_wp; [exact At|done|]. wstep.
  eapply (parse_target_wp bdev ws rest HG est); [exact Xt|done|hlook|rewrite length_replicate; lia|].
  wsimp. rewrite splice_all by (rewrite length_flatten, length_replicate; lia).
  apply heaan_load_wp; try done.
  - eapply (live_req_upd w); [done|apply HL|done..].
  - hlook.
  - apply lookup_insert_eq.
Qed.

Lemma extent_on_disk e : extent_ok bdev e -> (Z.to_nat e.1 + ext_len e <= length (w_disk w))%nat.
Proof.
  intros (H1&H2&_&_&H3). destruct HY as [_ _ _ _ _ _ Hdk]. rewrite <- Hdk. unfold ext_len. lia.
Qed.

Lemma extents_on_disk es : Forall (extent_ok bdev) es -> Forall (fun e => Z.to_nat e.1 + ext_len e <= length (w_disk w))%nat es.
Proof. intros HF. eapply Forall_impl; [exact HF|]. intros e He. by apply extent_on_disk. Qed.

(** The [k]-th read belongs to one of the inputs. *)
Lemma read_io_cases k : (k < N)%nat -> exists bl es o e,
  read_ios !! k = Some (byte_io IO_READ desc nvmf_heaan_buffer_fill_complete_cb (ArgCtx l) (BufHeap bl (ext_off es (k - o))) e.1 e.2) /\
  es !! (k - o)%nat = Some e /\ (o <= k)%nat /\ ((bl, es, o) = (b0, es0, 0%nat) \/ (bl, es, o) = (b1, es1, length es0)).
Proof.
  intros Hk. unfold read_ios. destruct (decide (k < length es0)%nat) as [Hlt|Hge].
  - destruct (lookup_lt_is_Some_2 es0 k Hlt) as [e He]. exists b0, es0, 0%nat, e. rewrite Nat.sub_0_r.
    split; [|split; [done|split; [lia|by left]]]. rewrite lookup_app_l by (by rewrite length_ext_ios).
    by rewrite (ext_ios_lookup _ _ _ _ _ _ _ _ _ He).
  - destruct (lookup_lt_is_Some_2 es1 (k - length es0)) as [e He]; [unfold N in Hk; lia|]. exists b1, es1, (length es0), e.
    split; [|split; [done|split; [lia|by right]]]. rewrite lookup_app_r by (rewrite length_ext_ios; lia).
    rewrite length_ext_ios. by rewrite (ext_ios_lookup _ _ _ _ _ _ _ _ _ He).
Qed.

Lemma batch_step first ios (done : gset nat) w' w'' k io : batch first ios done w' -> ios !! k = Some io ->
  w_ios w'' = <[(first + k)%nat := finished io device_ok IO_STATUS_SUCCESS]> (w_ios w') -> batch first ios (done ∪ {[k]}) w''.
Proof.
  intros HB Hk E k' io' Hk'. rewrite E. destruct (decide (k' = k)) as [->|Hne].
  - rewrite lookup_insert_eq, decide_True by set_solver. congruence.
  - rewrite lookup_insert_ne by lia. rewrite (HB _ _ Hk'). do 2 f_equal.
    destruct (decide (k' ∈ done)); [by rewrite decide_True by set_solver|]. by rewrite decide_False by set_solver.
Qed.

(** The device does one of the reads. *)
Lemma fill_read_wp pending (done : gset nat) k w' (Q : unit -> world -> Prop) :
  fill_state pending done w' -> (k < N)%nat -> k ∉ done ->
  (forall w'', fill_state pending (done ∪ {[k]}) w'' -> Q tt w'') ->
  wp (device_complete (base + k) device_ok) w' Q.
Proof.
  intros FS Hk Hn HQ. pose proof FS as [HL Hc H0 H1 Ht He Hi Hm Hd Hlg Hnx Hsm]. pose proof places as (E1 & E2 & E3 & E4 & E5).
  destruct HY as [HR _ _ _ _ _ Hdk]. pose proof HR as [Hde _ HG _ _ _ _ _ _ _ [F0 _] [F1 _] _ _].
  destruct (read_io_cases k Hk) as (bl & es & o & e & Hio & Hes & Ho & Hcase).
  assert (HF : Forall (extent_ok bdev) es) by (by destruct Hcase as [[= -> -> ->]|[= -> -> ->]]).
  assert (Hb : w_heap w' !! bl = Some (OBytes (filled (w_disk w) done o es))) by (by destruct Hcase as [[= -> -> ->]|[= -> -> ->]]).
  assert (HE : extent_ok bdev e) by (eapply Forall_lookup_1 in HF; eauto). pose proof HE as (?&?&?).
  pose proof (Hi _ _ Hio) as Hiod. rewrite decide_False in Hiod by done.
  eapply (complete_byte_read_wp desc _ _ _ e.1 e.2 w'); [by rewrite Hde|lia|lia|by rewrite Hde|reflexivity|exact Hiod|exact Hb|by rewrite Hde, Hd| |].
  { rewrite length_filled by (by apply extents_on_disk). unfold ext_off. change (Z.to_nat e.2) with (ext_len e).
    rewrite <- (take_drop_middle es _ _ Hes) at 2. rewrite total_app, total_cons. lia. }
  apply HQ. rewrite Hd. change (slice (Z.to_nat e.1) (Z.to_nat e.2) (w_disk w)) with (piece (w_disk w) e).
  assert (Ek : (o + (k - o))%nat = k) by lia. rewrite filled_step by (rewrite ?Ek; done || by apply extents_on_disk). rewrite Ek.
  split; try done; wsimp.
  - eapply (live_req_upd w'); [done|apply HL|done..].
  - rewrite lookup_insert_ne; [done|]. destruct Hcase as [[= -> -> ->]|[= -> -> ->]]; lia.
  - destruct Hcase as [[= -> -> ->]|[= -> -> ->]]; [by rewrite lookup_insert_eq|]. rewrite lookup_insert_ne by lia.
    rewrite filled_other; [done|by apply extents_on_disk|]. intros i Hi'. lia.
  - destruct Hcase as [[= -> -> ->]|[= -> -> ->]]; [|by rewrite lookup_insert_eq]. rewrite lookup_insert_ne by lia.
    rewrite filled_other; [done|by apply extents_on_disk|]. apply lookup_lt_Some in Hes. intros i Hi'. lia.
  - rewrite lookup_insert_ne; [done|]. destruct Hcase as [[= -> -> ->]|[= -> -> ->]]; lia.
  - rewrite lookup_insert_ne; [done|]. destruct Hcase as [[= -> -> ->]|[= -> -> ->]]; lia.
  - by eapply batch_step.
Qed.

(** *** The result *)

Context `{HeaanLib}.

(** The input ciphertexts, read at offset 0 of the data of their extents, and
    the bytes of the result. *)
Definition input_data (es : list (Z * Z)) : bytes := concat (piece (w_disk w) <$> es).
Definition input_ct (es : list (Z * Z)) : Ciphertext := readCiphertextFromMem (Some (input_data es)) (Z.of_nat (total es)) 0.
Definition sum_ct : Z * Ciphertext := ciphertextAdd create_Ciphertext (input_ct es0) (input_ct es1).
Definition sum_bytes : bytes := writeCiphertextToMem sum_ct.2.
Definition target_data : bytes := padded (total est) sum_bytes.

(** The medium once the target extents in [done] are written. *)
Definition written (done : gset nat) (d : bytes) : Prop :=
  length d = length (w_disk w) /\
  (forall k e, est !! k = Some e -> k ∈ done -> piece d e = slice (ext_off est k) (ext_len e) target_data) /\
  (forall o n, (forall k e, est !! k = Some e -> k ∈ done -> (o + n <= Z.to_nat e.1 \/ Z.to_nat e.1 + ext_len e <= o)%nat) ->
     slice o n d = slice o n (w_disk w)).

(** The result is in the target buffer; the writes in [done] have been done. *)
Record write_state (pending : Z) (done : gset nat) (w' : world) : Prop := {
  wr_live : live_req w' rid q r qp ct;
  wr_ctx : w_heap w' !! l = Some (OHeaan (add_ctx pending));
  wr_bt : w_heap w' !! bt = Some (OBytes target_data);
  wr_ext : w_heap w' !! ext = Some (OWords (flatten est));
  wr_ios : batch (base + N) write_ios done w'; wr_mgmt : w_mgmt w' = mw;
  wr_disk : written done (w_disk w'); wr_log : w_log w' = w_log w; wr_same : same_requests w' }.

Lemma written_none : written ∅ (w_disk w).
Proof. split; [done|]. split; [|done]. intros k e _ Hk. set_solver. Qed.

(** *** A read that fails *)

Lemma fill_release_wp wc rc x0 x1 xt xl y z (Q : unit -> world -> Prop) :
  w_reqs wc !! rid = Some rc -> w_heap wc !! b0 = Some x0 -> w_heap wc !! b1 = Some x1 -> w_heap wc !! bt = Some xt ->
  w_heap wc !! l = Some xl ->
  (forall w', w_heap w' = delete l (delete bt (delete b1 (delete b0 (w_heap wc)))) -> w_log w' = w_log wc ->
     w_disk w' = w_disk wc -> w_ios w' = w_ios wc -> Q tt w') ->
  wp (free (Some b0);; free (Some b1);; free (Some bt);; free (Some l);; set_status rid y z) wc Q.
Proof.
  intros Hr H0 H1 Ht Hl HQ. pose proof places as (E1 & E2 & E3 & E4 & E5). wstep. eapply wp_free; [exact H0|]. wstep.
  eapply wp_free; [wsimp; rewrite lookup_delete_ne by lia; exact H1|]. wsimp. wstep.
  eapply wp_free; [wsimp; rewrite !lookup_delete_ne by lia; exact Ht|]. wsimp. wstep.
  eapply wp_free; [wsimp; rewrite !lookup_delete_ne by lia; exact Hl|]. wsimp.
  eapply wp_set_status; [wsimp; exact Hr|]. by apply HQ.
Qed.

(** The command is answered and its memory released. *)
Record add_failed (w' : world) : Prop := {
  af_log : exists c, answers_only w w' [(rid, c)] /\ sc (status c) = SPDK_NVME_SC_INTERNAL_DEVICE_ERROR;
  af_heap : Forall (fun x => w_heap w' !! x = None) [l; b0; b1; bt];
  af_disk : w_disk w' = w_disk w }.

Lemma fill_failed_wp pending k res w' (Q : unit -> world -> Prop) :
  fill_state pending ∅ w' -> (k < N)%nat -> dr_status res <> IO_STATUS_PENDING -> dr_status res <> IO_STATUS_SUCCESS ->
  (forall w'', add_failed w'' ->
     (forall j io, j <> k -> read_ios !! j = Some io -> w_ios w'' !! (base + j)%nat = Some io) -> Q tt w'') ->
  wp (device_complete (base + k) res;; nvmf_heaan_buffer_fill_complete (base + k) l) w' Q.
Proof.
  intros [HL Hc H0 H1 Ht He Hi Hm Hd Hlg Hnx Hsm] Hk Hp Hs HQ. pose proof places as (E1 & E2 & E3 & E4 & E5).
  destruct (read_io_cases k Hk) as (bl & es & o & e & Hio & _). pose proof (Hi _ _ Hio) as Hiod. rewrite decide_False in Hiod by set_solver.
  pose proof (lr_req _ _ _ _ _ _ HL) as Hr. pose proof HY as [_ _ _ Hmg Htk _ _]. pose proof (take_n_ok _ _ _ Htk Hmg) as Hmo.
  wstep. eapply device_complete_wp; [exact Hiod|done|done|done|]. intros _.
  unfold nvmf_heaan_buffer_fill_complete, get_io. wstep. eapply wp_load_heaan; [exact Hc|]. wsteps.
  unfold io_success. rewrite bool_decide_false by done. cbn [negb].
  change (hc_req (add_ctx pending)) with rid. wsteps.
  eapply mod_heaan_wp; [exact Hc|]. wstep. eapply wp_load_heaan; [apply lookup_insert_eq|]. wsimp. cbv beta.
  cbn [Z.leb Z.ltb Z.compare]. wstep.
  eapply free_io_wp; [wsimp; apply lookup_insert_eq|done|wsimp; rewrite Hm; exact Hmo|]. wstep. unfold spdk_nvmf_request_complete.
  set (rF := r <| req_rsp := (req_rsp r) <| status := (status (req_rsp r)) <| sc := SPDK_NVME_SC_INTERNAL_DEVICE_ERROR |> |> |>).
  eapply (request_complete_wp _ rid q rF qp ct); [eapply (live_req_upd w'); [done|wsimp; apply lookup_insert_eq|done..]|].
  match goal with |- context [completed_world _ _ _ _ _ ?W] => pose proof (completed_world_log rid q rF qp ct W) as Hev end.
  match goal with |- wp _ (completed_world _ _ _ _ _ ?W) _ => pose proof (completed_world_reqs rid q rF qp ct W) as Hrc;
    destruct (completed_world_frame rid q rF qp ct W) as (Hh & Hio' & Hd' & _); set (wc := completed_world rid q rF qp ct W) in *; clearbody wc end.
  assert (Hh2 : w_heap wc = <[l := OHeaan (add_ctx (-1))]> (w_heap w')) by (rewrite Hh; reflexivity). clear Hh.
  assert (HF : sc (status (completed_rsp (ct_acre_enabled ct) rF)) = SPDK_NVME_SC_INTERNAL_DEVICE_ERROR) by (unfold completed_rsp; by case_match).
  eapply fill_release_wp; [exact Hrc|rewrite Hh2, ?lookup_insert_ne by lia; first [eassumption|apply lookup_insert_eq]..|].
  intros w'' Eh El Ed Ei. apply HQ; [split|].
  - exists (completed_rsp (ct_acre_enabled ct) rF). split; [by refine (answers_only_log _ _ _ _ _ _ _ Hev)|exact HF].
  - rewrite Eh, Hh2. repeat constructor; rewrite ?lookup_delete_ne by lia; apply lookup_delete_eq.
  - rewrite Ed, Hd'. exact Hd.
  - intros j io Hj Hjo. rewrite Ei, Hio'. unfold freed. wsimp.
    rewrite lookup_delete_ne, lookup_insert_ne by lia. rewrite (Hi _ _ Hjo). by rewrite decide_False by set_solver.
Qed.

Hypothesis Hsum : sum_ct.1 = 0.
Hypothesis Hfit : (length sum_bytes <= total est)%nat.

(** Both inputs are complete: the sum is computed and its writes submitted. *)
Lemma add_and_write_wp iod (done : gset nat) w' (Q : unit -> world -> Prop) :
  fill_state 0 done w' -> (forall k, (k < N)%nat -> k ∈ done) ->
  (forall w'', write_state (Z.of_nat (length est)) ∅ w'' -> Q tt w'') ->
  wp (heaan_add_and_write iod l (add_ctx 0)) w' Q.
Proof.
  intros [HL Hc H0 H1 Ht He Hi Hm Hd Hlg Hnx Hsm] Hall HQ. pose proof places as (E1 & E2 & E3 & E4 & E5).
  destruct HY as [HR _ _ _ _ Htk2 Hdk]. pose proof HR as [Hde Hw HG _ _ _ [_ Hn'] _ _ _ [F0 P0] [F1 P1] [Ft Pt] (_&_&Tt)].
  rewrite filled_all in H0 by (try (by apply extents_on_disk); intros i Hi'; apply Hall; unfold N; cbn; lia).
  rewrite filled_all in H1 by (try (by apply extents_on_disk); intros i Hi'; apply Hall; unfold N; cbn; lia).
  unfold heaan_add_and_write, buffer_bytes, add_ctx. cbn [hc_req hc_input_0_buffer hc_input_1_buffer hc_target_buffer
    hc_input_0_total_size hc_input_1_total_size hc_input_0_start_offset hc_input_1_start_offset hc_target_extents_count].
  wsteps. fold (input_data es0) (input_data es1). fold (input_ct es0) (input_ct es1). fold sum_ct.
  destruct sum_ct as [rc c] eqn:Ec. assert (rc = 0) as -> by exact Hsum.
  assert (Hs : writeCiphertextToMem c = sum_bytes) by (unfold sum_bytes; by rewrite Ec). rewrite Hs.
  change (0 !=? 0) with false. cbv iota. unfold write_target.
  wstep. eapply wp_heap_memcpy; [exact Ht|by rewrite length_replicate|].
  assert (Hsp : splice 0 sum_bytes (replicate (total est) 0) = target_data).
  { unfold target_data. rewrite <- splice_zeros, Nat.min_l by done. by rewrite firstn_all. }
  rewrite Hsp. wstep. eapply wp_free; [hlook|]. wsimp. wstep.
  eapply wp_free; [wsimp; rewrite lookup_delete_ne by lia; hlook|]. wsimp. wstep.
  eapply mod_heaan_wp; [wsimp; rewrite !lookup_delete_ne by lia; hlook|]. cbv beta. wsimp.
  unfold add_ctx. wsimp. rewrite i32_small, Nat2Z.id by lia.
  eapply (submit_writes_wp desc l bt ltac:(by rewrite Hde) _ est ext [] est); try done.
  - wsimp. rewrite lookup_insert_ne by lia. rewrite !lookup_delete_ne by lia. hlook.
  - by rewrite Hde.
  - wsimp. by rewrite Hm.
  - apply HQ. split; unfold submitted_all; wsimp; try done.
    + eapply (live_req_upd w'); [done|apply HL|done..].
    + hlook.
    + rewrite lookup_insert_ne by lia. rewrite !lookup_delete_ne by lia. hlook.
    + rewrite lookup_insert_ne by lia. rewrite !lookup_delete_ne by lia. hlook.
    + intros k io Hk. rewrite decide_False by set_solver. rewrite Hnx.
      apply lookup_union_Some_l, lookup_map_seq_Some. split; [lia|]. by rewrite Nat.add_comm, Nat.add_sub.
    + rewrite Hd. apply written_none.
Qed.

Lemma fill_callback_wp pending (done : gset nat) k w' (Q : unit -> world -> Prop) :
  fill_state pending done w' -> (k < N)%nat -> k ∈ done -> 0 < pending ->
  (if decide (pending = 1) then
     (forall k, (k < N)%nat -> k ∈ done) /\ forall w'', write_state (Z.of_nat (length est)) ∅ w'' -> Q tt w''
   else forall w'', fill_state (pending - 1) done w'' -> Q tt w'') ->
  wp (nvmf_heaan_buffer_fill_complete (base + k) l) w' Q.
Proof.
  intros FS Hk Hin Hp HQ. pose proof FS as [HL Hc H0 H1 Ht He Hi Hm Hd Hlg Hnx Hsm]. pose proof places as (E1 & E2 & E3 & E4 & E5).
  destruct (read_io_cases k Hk) as (bl & es & o & e & Hio & _). pose proof (Hi _ _ Hio) as Hiod. rewrite decide_True in Hiod by done.
  unfold nvmf_heaan_buffer_fill_complete, get_io. wstep. eapply wp_load_heaan; [exact Hc|]. wsteps.
  change (io_success _) with true. cbn [negb].
  eapply mod_heaan_wp; [exact Hc|]. wstep. eapply wp_load_heaan; [apply lookup_insert_eq|]. wsimp. cbv beta.
  assert (FS' : fill_state (pending - 1) done (w' <| w_heap := <[l := OHeaan (add_ctx (pending - 1))]> (w_heap w') |>)).
  { split; try done; wsimp.
    - eapply (live_req_upd w'); [done|apply HL|done..].
    - apply lookup_insert_eq.
    - rewrite lookup_insert_ne by lia. done.
    - rewrite lookup_insert_ne by lia. done.
    - rewrite lookup_insert_ne by lia. done.
    - rewrite lookup_insert_ne by lia. done. }
  change (set hc_pending_fills _ (add_ctx pending)) with (add_ctx (pending - 1)).
  change (hc_pending_fills (add_ctx pending)) with pending.
  case_decide as Hd1.
  - subst pending. change (1 - 1) with 0 in *. cbn [Z.leb Z.ltb Z.compare]. destruct HQ as [Hall HQ].
    by eapply add_and_write_wp.
  - destruct (Z.leb_spec (pending - 1) 0); [lia|]. wsteps. by apply HQ.
Qed.

(** The reads complete in any order. *)
Lemma serve_reads_wp ks (dn : gset nat) w' (Q : unit -> world -> Prop) :
  fill_state (Z.of_nat (length ks)) dn w' -> remaining N dn ks -> ks <> [] ->
  (forall w'', write_state (Z.of_nat (length est)) ∅ w'' -> Q tt w'') ->
  wp (serve (fun iod => nvmf_heaan_buffer_fill_complete iod l) (Nat.add base <$> ks)) w' Q.
Proof.
  revert dn w'. induction ks as [|k ks IH]; intros dn w' FS Hks Hne HQ; [done|].
  apply remaining_cons in Hks as (Hk & Hkn & Hks). cbn [fmap list_fmap serve].
  wstep. eapply fill_read_wp; [exact FS|done|done|]. intros w1 FS1. wstep.
  eapply fill_callback_wp; [exact FS1|done|set_solver|cbn [length]; lia|]. cbn [length].
  destruct ks as [|k' ks].
  - rewrite decide_True by done. split; [by apply remaining_nil|]. intros w2 WS. wsteps. by apply HQ.
  - rewrite decide_False by (cbn [length]; lia). intros w2 FS2.
    replace (Z.of_nat (S (length (k' :: ks))) - 1) with (Z.of_nat (length (k' :: ks))) in FS2 by (cbn [length]; lia).
    by eapply IH.
Qed.

Lemma length_target_data : length target_data = total est.
Proof. unfold target_data, padded. rewrite length_take, length_app, length_replicate. lia. Qed.

(** Once all extents are written they hold the result. *)
Lemma written_all (dn : gset nat) d : written dn d -> (forall k, (k < length est)%nat -> k ∈ dn) ->
  concat (piece d <$> est) = target_data.
Proof.
  intros (_ & Hd & _) Hall.
  cut (forall es o, (forall k e, es !! k = Some e -> piece d e = slice (o + ext_off es k) (ext_len e) target_data) ->
    concat (piece d <$> es) = slice o (total es) target_data).
  { intros HC. rewrite (HC est 0%nat).
    - unfold slice. rewrite drop_0, <- length_target_data. by rewrite firstn_all.
    - intros k e He. apply Hd; [done|]. apply Hall. by eapply lookup_lt_Some. }
  clear. induction es as [|e es IH]; intros o HC; [done|]. cbn [fmap list_fmap concat].
  rewrite (HC 0%nat e eq_refl). rewrite (IH (o + ext_len e)%nat).
  - unfold ext_off. cbn [take]. rewrite total_cons, Nat.add_0_r. apply slice_app.
  - intros k e' He'. rewrite (HC (S k) e' He'). unfold ext_off. change (take (S k) (e :: es)) with (e :: take k es).
    rewrite total_cons, Nat.add_assoc. done.
Qed.

(** *** The writes *)

Hypothesis Hdisj : forall i j e e', est !! i = Some e -> est !! j = Some e' -> i <> j ->
  (Z.to_nat e.1 + ext_len e <= Z.to_nat e'.1 \/ Z.to_nat e'.1 + ext_len e' <= Z.to_nat e.1)%nat.

Lemma ext_off_le k e : est !! k = Some e -> (ext_off est k + ext_len e <= total est)%nat.
Proof. intros He. rewrite <- (take_drop_middle est k e He) at 2. rewrite total_app, total_cons. unfold ext_off. lia. Qed.

Lemma written_step (dn : gset nat) d k e : written dn d -> est !! k = Some e -> extent_ok bdev e ->
  written (dn ∪ {[k]}) (splice (Z.to_nat e.1) (slice (ext_off est k) (ext_len e) target_data) d).
Proof.
  intros (Hl & Hd & Ho) He HE. pose proof (ext_off_le k e He) as Hle. pose proof (extent_on_disk e HE) as Hdk.
  set (x := slice (ext_off est k) (ext_len e) target_data).
  assert (Hx : length x = ext_len e) by (apply length_slice; by rewrite length_target_data).
  split; [|split].
  - rewrite length_splice; [done|lia].
  - intros k' e' He' Hin. destruct (decide (k' = k)) as [->|Hne].
    + assert (e' = e) as -> by congruence. unfold piece. rewrite <- Hx at 1. apply slice_splice_same. fold x. lia.
    + unfold piece. pose proof (Hdisj k' k e' e He' He Hne) as Hdj.
      rewrite slice_splice_disj; [apply Hd; [done|set_solver]|lia|rewrite Hx; lia].
  - intros o n Hon. rewrite slice_splice_disj; [apply Ho; intros k' e' He' Hin; eapply Hon; [done|set_solver]|lia|].
    rewrite Hx. eapply Hon; [done|set_solver].
Qed.

Lemma write_io_wp pending (dn : gset nat) k w' (Q : unit -> world -> Prop) :
  write_state pending dn w' -> (k < length est)%nat -> k ∉ dn ->
  (forall w'', write_state pending (dn ∪ {[k]}) w'' -> Q tt w'') ->
  wp (device_complete (base + N + k) device_ok) w' Q.
Proof.
  intros WS Hk Hn HQ. pose proof WS as [HL Hc Hbt He Hi Hm Hd Hlg Hsm].
  destruct HY as [HR _ _ _ _ _ Hdk]. pose proof HR as [Hde _ HG _ _ _ _ _ _ _ _ _ [Ft _] _].
  destruct (lookup_lt_is_Some_2 est k Hk) as [e Hes].
  pose proof (ext_ios_lookup IO_WRITE nvmf_heaan_cip_write_complete_cb desc l bt 0 est k e Hes) as Hio.
  assert (HE : extent_ok bdev e) by (eapply Forall_lookup_1 in Ft; eauto). pose proof HE as (?&?&?).
  pose proof (Hi _ _ Hio) as Hiod. rewrite decide_False in Hiod by done.
  eapply (complete_byte_write_wp desc _ _ _ e.1 e.2 w'); [by rewrite Hde|lia|lia|by rewrite Hde|reflexivity|exact Hiod|exact Hbt| | |].
  { rewrite Hde. by rewrite (proj1 Hd). }
  { rewrite length_target_data. by apply ext_off_le. }
  apply HQ. split; try done; wsimp.
  - eapply (live_req_upd w'); [done|apply HL|done..].
  - by eapply batch_step.
  - by apply written_step.
Qed.

(** The answered command: the target extents hold the sum, the context and the
    buffers are released; the list of target extents and the objects of all
    operations but the last are not. *)
Record add_answered (w' : world) : Prop := {
  aa_log : exists c, answers_only w w' [(rid, c)] /\ spdk_nvme_cpl_is_error c = false;
  aa_disk : exists dn, written dn (w_disk w') /\ forall k, (k < length est)%nat -> k ∈ dn;
  aa_heap : Forall (fun x => w_heap w' !! x = None) [l; bt];
  aa_leak : w_heap w' !! ext = Some (OWords (flatten est));
  aa_ios : (free_ios (w_mgmt w') + (N + length est) = free_ios (w_mgmt w) + 1)%nat;
  aa_out : exists qp', w_qpairs w' !! q = Some qp' /\ rid ∉ qp_outstanding qp';
  aa_acc : is_aer (req_cmd r) = false -> accounted w -> accounted w' }.

Lemma write_callback_wp pending (dn : gset nat) k w' (Q : unit -> world -> Prop) :
  write_state pending dn w' -> (k < length est)%nat -> k ∈ dn -> 0 < pending ->
  (if decide (pending = 1) then
     (forall k, (k < length est)%nat -> k ∈ dn) /\ forall w'', add_answered w'' -> Q tt w''
   else forall w'', write_state (pending - 1) dn w'' -> Q tt w'') ->
  wp (nvmf_heaan_cip_write_complete (base + N + k) l) w' Q.
Proof.
  intros WS Hk Hin Hp HQ. pose proof WS as [HL Hc Hbt He Hi Hm Hd Hlg Hsm]. pose proof places as (E1 & E2 & E3 & E4 & E5).
  pose proof HY as [_ _ _ Hmg Htk Htk2 _].
  assert (Hmo : mgmt_ok mw) by (eapply take_n_ok; [exact Htk2|]; by eapply take_n_ok).
  destruct (lookup_lt_is_Some_2 est k Hk) as [e Hes].
  pose proof (ext_ios_lookup IO_WRITE nvmf_heaan_cip_write_complete_cb desc l bt 0 est k e Hes) as Hio.
  pose proof (Hi _ _ Hio) as Hiod. rewrite decide_True in Hiod by done.
  unfold nvmf_heaan_cip_write_complete, get_io. wstep. eapply wp_load_heaan; [exact Hc|]. wsteps.
  change (io_success _) with true. cbn [negb].
  eapply mod_heaan_wp; [exact Hc|]. wstep. eapply wp_load_heaan; [apply lookup_insert_eq|]. wsimp. cbv beta.
  change (hc_pending_fills (add_ctx pending)) with pending.
  case_decide as Hd1.
  - subst pending. change (1 - 1) with 0 in *. cbn [Z.leb Z.ltb Z.compare]. destruct HQ as [Hall HQ].
    change (hc_req (add_ctx 1)) with rid. change (hc_target_buffer (add_ctx 1)) with (Some bt).
    pose proof (lr_req _ _ _ _ _ _ HL) as Hr. unfold set_status. wsteps. rewrite ?insert_insert_eq.
    eapply wp_free; [wsimp; rewrite lookup_insert_ne by lia; exact Hbt|]. wsimp. wstep.
    eapply wp_free; [wsimp; rewrite lookup_delete_ne by lia; apply lookup_insert_eq|]. wsimp. wstep.
    eapply free_io_wp; [wsimp; exact Hiod|done|wsimp; rewrite Hm; exact Hmo|]. unfold spdk_nvmf_request_complete.
    eapply (request_complete_wp _ rid q (ok_status r) qp ct); [eapply (live_req_upd w'); [done|wsimp; apply lookup_insert_eq|done..]|].
    match goal with |- Q tt (completed_world _ _ _ _ _ ?W) => pose proof (completed_world_log rid q (ok_status r) qp ct W) as Hev end.
    apply HQ. split.
    + exists (completed_rsp (ct_acre_enabled ct) (ok_status r)). split; [by refine (answers_only_log _ _ _ _ _ _ _ Hev)|]. unfold completed_rsp. case_match; done.
    + exists dn. by split.
    + repeat constructor; cbn. apply lookup_delete_eq. rewrite lookup_delete_ne by lia. apply lookup_delete_eq.
    + cbn. rewrite !lookup_delete_ne by lia. rewrite lookup_insert_ne by lia. exact He.
    + cbn. rewrite put_io_free, Hm. apply take_n_free in Htk, Htk2. lia.
    + eexists. split; [unfold completed_world; wsimp; apply lookup_insert_eq|apply not_in_qpair_without].
    + intros Ha HA. destruct Hsm as (Sr & Sq & Sg). apply accounted_completed; [|done|].
      * eapply (live_req_upd w'); [done|wsimp; apply lookup_insert_eq|done..].
      * eapply (accounted_upd w' _ rid r (ok_status r)); [done..|]. apply (accounted_ext w); [done|done|by rewrite Sg|done].
  - destruct (Z.leb_spec (pending - 1) 0); [lia|]. wsteps. apply HQ. split; try done; wsimp.
    + eapply (live_req_upd w'); [done|apply HL|done..].
    + apply lookup_insert_eq.
    + rewrite lookup_insert_ne by lia. done.
    + rewrite lookup_insert_ne by lia. done.
Qed.

Lemma serve_writes_wp ks (dn : gset nat) w' (Q : unit -> world -> Prop) :
  write_state (Z.of_nat (length ks)) dn w' -> remaining (length est) dn ks -> ks <> [] ->
  (forall w'', add_answered w'' -> Q tt w'') ->
  wp (serve (fun iod => nvmf_heaan_cip_write_complete iod l) (Nat.add (base + N) <$> ks)) w' Q.
Proof.
  revert dn w'. induction ks as [|k ks IH]; intros dn w' WS Hks Hne HQ; [done|].
  apply remaining_cons in Hks as (Hk & Hkn & Hks). cbn [fmap list_fmap serve].
  wstep. eapply write_io_wp; [exact WS|done|done|]. intros w1 WS1. wstep.
  eapply write_callback_wp; [exact WS1|done|set_solver|cbn [length]; lia|]. cbn [length].
  destruct ks as [|k' ks].
  - rewrite decide_True by done. split; [by apply remaining_nil|]. intros w2 AA. wsteps. by apply HQ.
  - rewrite decide_False by (cbn [length]; lia). intros w2 WS2.
    replace (Z.of_nat (S (length (k' :: ks))) - 1) with (Z.of_nat (length (k' :: ks))) in WS2 by (cbn [length]; lia).
    by eapply IH.
Qed.
(** All operations of a command, the reads and then the writes, in any order. *)
Lemma serve_all_wp ks js w' (Q : unit -> world -> Prop) :
  fill_state (Z.of_nat N) ∅ w' -> ks ≡ₚ seq 0 N -> js ≡ₚ seq 0 (length est) -> (forall w'', add_answered w'' -> Q tt w'') ->
  wp (serve (fun iod => nvmf_heaan_buffer_fill_complete iod l) (Nat.add base <$> ks);;
      serve (fun iod => nvmf_heaan_cip_write_complete iod l) (Nat.add (base + N) <$> js)) w' Q.
Proof.
  intros FS Hks Hjs HQ. pose proof HY as [[_ _ _ _ _ _ _ _ _ _ [_ P0] _ [_ Pt] _] _ _ _ _ _ _]. wstep.
  eapply (serve_reads_wp ks ∅); [by rewrite Hks, length_seq|by apply remaining_perm| |].
  { intros ->. apply Permutation_length in Hks. rewrite length_seq in Hks. apply P0, length_zero_iff_nil. unfold N in Hks. cbn in Hks. lia. }
  intros w2 WS. eapply (serve_writes_wp js ∅); [by rewrite Hjs, length_seq|by apply remaining_perm| |done].
  intros ->. apply Permutation_length in Hjs. rewrite length_seq in Hjs. apply Pt, length_zero_iff_nil. by rewrite <- Hjs.
Qed.

(** What an answered command has done to the medium. *)
Lemma answered_medium w' : add_answered w' ->
  concat (piece (w_disk w') <$> est) = padded (total est) sum_bytes /\
  (forall o n, (forall e, e ∈ est -> (o + n <= Z.to_nat e.1 \/ Z.to_nat e.1 + ext_len e <= o)%nat) ->
     slice o n (w_disk w') = slice o n (w_disk w)).
Proof.
  intros [_ (dn & Hwr & Hdn) _ _ _ _ _]. split; [by eapply written_all|].
  intros o n Ho. apply Hwr. intros k e He _. apply Ho. by eapply list_elem_of_lookup_2.
Qed.
End Addition.

Lemma stuck_disk_read {A} off n (f : bytes -> M A) w : (forall d, stuck (f d) w) -> stuck (disk_read off n ≫= f) w.
Proof.
  intros Hf. unfold stuck, disk_read, mbind, M_bind, gets, massert. destruct (_ <=? _)%nat; [|done]. apply Hf.
Qed.

(** A read into memory that has been released. *)
Lemma read_into_freed_stuck desc cb arg bl off (e : Z * Z) iod w :
  w_ios w !! iod = Some (byte_io IO_READ desc cb arg (BufHeap bl off) e.1 e.2) -> w_heap w !! bl = None ->
  stuck (device_complete iod device_ok) w.
Proof.
  intros Hio Hh. unfold device_complete. do 2 sstep. apply stuck_bind, wp_massert; [done|]. apply stuck_bind, wp_massert; [done|].
  apply stuck_head. change (bool_decide (dr_status device_ok = IO_STATUS_SUCCESS)) with true. cbv iota.
  apply stuck_disk_read. intros d. apply stuck_head. apply stuck_head. unfold stuck, load_bytes, load, gets, mbind, M_bind. cbn. by rewrite Hh.
Qed.

(** ** Theorems *)


(** C37. When a read of an addition fails while another one is outstanding, the
    command is answered with an error and its context and buffers are freed at
    once, and the outstanding read then uses freed memory: if the device
    completes it the data goes to a freed buffer, and if it fails too its
    callback reads the freed context. *)
Theorem heaan_read_failure_use_after_free `{HeaanLib} bdev desc w rid q r qp ct o0 o1 ot es0 es1 est mr mw k j res
    (HY : heaan_ready bdev desc w rid q r qp ct o0 o1 ot es0 es1 est mr mw)
    (Hk : (k < length es0 + length es1)%nat) (Hj : (j < length es0 + length es1)%nat) (Hkj : j <> k)
    (Hp : dr_status res <> IO_STATUS_PENDING) (Hs : dr_status res <> IO_STATUS_SUCCESS) :
  let l := w_next w in
  wp (nvmf_bdev_ctrlr_custom_heaan_cipadd_cmd bdev desc rid;;
      device_complete (l + 5 + k) res;; nvmf_heaan_buffer_fill_complete (l + 5 + k) l) w (fun _ w' =>
    (exists c, answers_only w w' [(rid, c)] /\
       sc (status c) = SPDK_NVME_SC_INTERNAL_DEVICE_ERROR) /\
    stuck (device_complete (l + 5 + j) device_ok) w' /\
    (forall res', dr_status res' <> IO_STATUS_PENDING -> dr_status res' <> IO_STATUS_SUCCESS ->
       wp (device_complete (l + 5 + j) res') w' (fun _ w'' => stuck (nvmf_heaan_buffer_fill_complete (l + 5 + j) l) w''))).
Proof.
  intros l. rewrite (Nat.add_comm l 5). wstep. apply (heaan_cmd_wp _ _ _ _ _ _ _ _ _ _ _ _ _ _ _ _ HY). intros w1 FS.
  eapply (fill_failed_wp _ _ _ _ _ _ _ _ _ _ _ _ _ _ _ _ HY); [exact FS|done..|].
  intros w2 [Hlog Hh _] Hios. split; [done|].
  rewrite !Forall_cons in Hh. destruct Hh as (Hl & Hb0 & Hb1 & _).
  destruct (read_io_cases desc w es0 es1 j Hj) as (bl & es & o & e & Hio & _ & _ & Hcase). specialize (Hios _ _ Hkj Hio). split.
  - eapply read_into_freed_stuck; [exact Hios|]. by destruct Hcase as [[= -> _ _]|[= -> _ _]].
  - intros res' Hp' Hs'. eapply device_complete_wp; [exact Hios|done|done|done|]. intros _.
    unfold nvmf_heaan_buffer_fill_complete, load_heaan, load. apply stuck_head, stuck_head. unfold stuck, gets, mbind, M_bind.
    cbn. unfold l. by rewrite Hl.
Qed.

(** ** A small library and device *)

(** A ciphertext is its bytes, addition is byte by byte. *)
Definition demo_lib : HeaanLib :=
  {| Ciphertext := bytes; readCiphertextFromMem := fun b n off => slice (Z.to_nat off) (Z.to_nat n) (default [] b);
     create_Ciphertext := []; ciphertextAdd := fun _ a b => (0, zip_with (fun x y => u8 (x + y)) a b);
     writeCiphertextToMem := id |}.

(** Two extents and one extent added into two extents; the offsets of the
    payload are not zero. *)
Definition demo_in0 : list (Z * Z) := [(512, 512); (1024, 512)].
Definition demo_in1 : list (Z * Z) := [(1536, 1024)].
Definition demo_out : list (Z * Z) := [(3584, 512); (2560, 512)].
Definition demo_add_req : spdk_nvmf_request :=
  demo_req (NvmeCmd 0xe0 0 7 1 0 0 0 2 1 2 0 0) [Iov (Some (encode_words (heaan_words 8 demo_in0 16 demo_in1 24 demo_out)))].
Definition demo_add_world : world :=
  demo_world [demo_add_req] [0%nat] 1 SPDK_NVMF_SUBSYSTEM_ACTIVE
    (replicate 512 0 ++ replicate 512 1 ++ replicate 512 2 ++ replicate 512 10 ++ replicate 2048 20).

Lemma demo_extents : Forall (extent_ok demo_bdev) demo_in0 /\ Forall (extent_ok demo_bdev) demo_in1 /\
  Forall (extent_ok demo_bdev) demo_out.
Proof.
  unfold demo_in0, demo_in1, demo_out. rewrite !Forall_cons, !Forall_nil. unfold extent_ok, byte_range_ok. cbn.
  repeat split; first [lia|apply Z.mod_divide; done].
Qed.

Lemma demo_add_ready :
  heaan_ready demo_bdev demo_desc demo_add_world 0 0 demo_add_req (demo_qpair [0%nat]) demo_ctrlr 8 16 24 demo_in0 demo_in1 demo_out
    (MgmtCh 1 4 4 []) (MgmtCh 0 4 3 []).
Proof.
  split; try done.
  - split; try done.
    + exists [], []. done.
    + by split; [apply demo_extents|].
    + by split; [apply demo_extents|].
    + by split; [apply demo_extents|].
  - split; try reflexivity; [set_solver|]. split; done.
Qed.

Lemma demo_out_disjoint i j e e' : demo_out !! i = Some e -> demo_out !! j = Some e' -> i <> j ->
  (Z.to_nat e.1 + ext_len e <= Z.to_nat e'.1 \/ Z.to_nat e'.1 + ext_len e' <= Z.to_nat e.1)%nat.
Proof.
  destruct i as [|[|i]], j as [|[|j]]; cbn; intros [= <-] [= <-] Hn; try done; [right|left]; unfold ext_len; cbn; lia.
Qed.


Lemma heaan_read_failure_use_after_free_witness :
  let lib := demo_lib in
  wp (nvmf_bdev_ctrlr_custom_heaan_cipadd_cmd demo_bdev demo_desc 0;;
      device_complete 6 (DevResult IO_STATUS_FAILED 0 0 0);; nvmf_heaan_buffer_fill_complete 6 0) demo_add_world (fun _ w' =>
    stuck (device_complete 7 device_ok) w').
Proof.
  intros lib.
  pose proof (@heaan_read_failure_use_after_free demo_lib demo_bdev demo_desc demo_add_world 0 0 _ _ _ _ _ _ _ _ _ _ _ 1 2
    (DevResult IO_STATUS_FAILED 0 0 0) demo_add_ready ltac:(cbn; lia) ltac:(cbn; lia) ltac:(done) ltac:(done) ltac:(done)) as W.
  cbv zeta in W. eapply wp_mono; [exact W|]. intros _ w' (_ & Hst & _). exact Hst.
Defined.
