(* ===== verification/Ctrlr.v ===== *)
(** * Processing of I/O commands

    [nvmf_ctrlr_process_io_cmd] of lib/nvmf/ctrlr.c: an I/O command is checked
    against its controller, namespace, path and the reservation of the
    namespace, paired with the fused command before it, and given to the
    handler of its opcode - the standard ones of [CtrlrBdev], the searches and
    ciphertext operations of [NdpGrep], [NdpEcho] and [NdpHeaan].
    [spdk_nvmf_request_exec] puts admission ([Request]), processing and
    completion together. *)
From S2P Require Import Prelude NvmeSpec Iov World Request Bdev CtrlrBdev NdpGrep NdpEcho NdpHeaan HeaanAdd.

(** ** Namespaces and paths *)

(** A bit beyond the array reads as zero. *)
Definition nvmf_ctrlr_ns_is_visible (ct : spdk_nvmf_ctrlr) (nsid : Z) : bool :=
  default false (ct_visible_ns ct !! Z.to_nat (u32 (nsid - 1))).

Definition _nvmf_subsystem_get_ns (s : spdk_nvmf_subsystem) (nsid : Z) : option spdk_nvmf_ns :=
  if Z.of_nat (length (subsys_ns s)) <=? u32 (nsid - 1) then None
  else subsys_ns s !! Z.to_nat (u32 (nsid - 1)) ≫= id.

Definition nvmf_ctrlr_get_ns (s : spdk_nvmf_subsystem) (ct : spdk_nvmf_ctrlr) (nsid : Z) : option spdk_nvmf_ns :=
  match _nvmf_subsystem_get_ns s nsid with
  | Some ns => if nvmf_ctrlr_ns_is_visible ct nsid then Some ns else None
  | None => None
  end.

Definition nvmf_ctrlr_get_ana_state (ct : spdk_nvmf_ctrlr) (anagrpid : Z) : M spdk_nvme_ana_state :=
  s ← gets w_subsys;
  if negb (subsys_ana_reporting s) then mret SPDK_NVME_ANA_OPTIMIZED_STATE
  else match ct_ana_state ct with
       | None => mret SPDK_NVME_ANA_INACCESSIBLE_STATE
       | Some st =>
           massert (u32 (anagrpid - 1) <? Z.of_nat (length (subsys_ns s)));;
           need (st !! Z.to_nat (u32 (anagrpid - 1)))
       end.

Definition _nvme_ana_state_to_path_status (st : spdk_nvme_ana_state) : Z :=
  match st with
  | SPDK_NVME_ANA_INACCESSIBLE_STATE => SPDK_NVME_SC_ASYMMETRIC_ACCESS_INACCESSIBLE
  | SPDK_NVME_ANA_PERSISTENT_LOSS_STATE => SPDK_NVME_SC_ASYMMETRIC_ACCESS_PERSISTENT_LOSS
  | SPDK_NVME_ANA_CHANGE_STATE => SPDK_NVME_SC_ASYMMETRIC_ACCESS_TRANSITION
  | _ => SPDK_NVME_SC_INTERNAL_PATH_ERROR
  end.

(** ** Reservations *)

Definition SPDK_NVMF_MAX_NUM_REGISTRANTS : nat := 16.

Definition nvmf_ns_info_ctrlr_is_registrant (ni : spdk_nvmf_subsystem_pg_ns_info) (ct : spdk_nvmf_ctrlr) : bool :=
  existsb (fun h => h =? ct_hostid ct) (take SPDK_NVMF_MAX_NUM_REGISTRANTS (ni_reg_hostid ni)).

(** The [switch] for a host that does not hold the reservation. *)
Definition reservation_status (rtype : Z) (is_registrant : bool) (cmd : spdk_nvme_cmd) : Z :=
  let conflict (b : bool) := if b then SPDK_NVME_SC_RESERVATION_CONFLICT else SPDK_NVME_SC_SUCCESS in
  let op := opc cmd in
  if (op =? SPDK_NVME_OPC_READ) || (op =? SPDK_NVME_OPC_COMPARE) then
    if rtype =? SPDK_NVME_RESERVE_EXCLUSIVE_ACCESS then SPDK_NVME_SC_RESERVATION_CONFLICT
    else conflict (((rtype =? SPDK_NVME_RESERVE_EXCLUSIVE_ACCESS_REG_ONLY)
                    || (rtype =? SPDK_NVME_RESERVE_EXCLUSIVE_ACCESS_ALL_REGS)) && negb is_registrant)
  else if (op =? SPDK_NVME_OPC_FLUSH) || (op =? SPDK_NVME_OPC_WRITE) || (op =? SPDK_NVME_OPC_WRITE_UNCORRECTABLE)
          || (op =? SPDK_NVME_OPC_WRITE_ZEROES) || (op =? SPDK_NVME_OPC_DATASET_MANAGEMENT) then
    if (rtype =? SPDK_NVME_RESERVE_WRITE_EXCLUSIVE) || (rtype =? SPDK_NVME_RESERVE_EXCLUSIVE_ACCESS)
    then SPDK_NVME_SC_RESERVATION_CONFLICT
    else conflict (negb is_registrant)
  else if op =? SPDK_NVME_OPC_RESERVATION_ACQUIRE then
    if resv_acquire_racqa cmd =? SPDK_NVME_RESERVE_ACQUIRE then SPDK_NVME_SC_RESERVATION_CONFLICT
    else conflict (negb is_registrant)
  else if op =? SPDK_NVME_OPC_RESERVATION_RELEASE then conflict (negb is_registrant)
  else SPDK_NVME_SC_SUCCESS.

Definition nvmf_ns_reservation_request_check (ni : spdk_nvmf_subsystem_pg_ns_info) (ct : spdk_nvmf_ctrlr) (rid : nat) : M Z :=
  r ← get_req rid;
  let rtype := ni_rtype ni in
  if rtype =? 0 then mret 0
  else
    let is_registrant := nvmf_ns_info_ctrlr_is_registrant ni ct in
    if ((rtype =? SPDK_NVME_RESERVE_WRITE_EXCLUSIVE_ALL_REGS)
        || (rtype =? SPDK_NVME_RESERVE_EXCLUSIVE_ACCESS_ALL_REGS)) && is_registrant then mret 0
    else if ni_holder_id ni =? ct_hostid ct then mret 0
    else
      let st := reservation_status rtype is_registrant (req_cmd r) in
      set_status rid SPDK_NVME_SCT_GENERIC st;;
      mret (if st =? SPDK_NVME_SC_RESERVATION_CONFLICT then - EPERM else 0).

(** ** Fused commands *)

(** The first half of a pair is given up: it is answered with "missing fused
    command". *)
Definition abort_first_fused (first : nat) : M unit :=
  set_sc first SPDK_NVME_SC_ABORTED_MISSING_FUSED;;
  set_sct first SPDK_NVME_SCT_GENERIC;;
  _nvmf_request_complete first.

Definition set_first_fused (q : nat) (v : option nat) : M unit :=
  mod_qpair q (fun qp => qp <| qp_first_fused_req := v |>).

Definition nvmf_ctrlr_process_io_fused_cmd (bdev : spdk_bdev) (desc : spdk_bdev_desc) (rid : nat) : M exec_status :=
  r ← get_req rid;
  let q := req_qpair r in
  let cmd := req_cmd r in
  qp ← get_qpair q;
  let first_fused_req := qp_first_fused_req qp in
  if fuse cmd =? SPDK_NVME_CMD_FUSE_FIRST then
    match first_fused_req with
    | Some first => abort_first_fused first;; set_first_fused q (Some rid);; mret ASYNCHRONOUS
    | None =>
        if opc cmd !=? SPDK_NVME_OPC_COMPARE then fail rid SPDK_NVME_SCT_GENERIC SPDK_NVME_SC_INVALID_OPCODE
        else set_first_fused q (Some rid);; mret ASYNCHRONOUS
    end
  else if fuse cmd =? SPDK_NVME_CMD_FUSE_SECOND then
    match first_fused_req with
    | None => fail rid SPDK_NVME_SCT_GENERIC SPDK_NVME_SC_ABORTED_MISSING_FUSED
    | Some first =>
        if opc cmd !=? SPDK_NVME_OPC_WRITE then
          abort_first_fused first;;
          set_status rid SPDK_NVME_SCT_GENERIC SPDK_NVME_SC_INVALID_OPCODE;;
          set_first_fused q None;;
          mret COMPLETE
        else
          mod_req rid (fun r => r <| req_first_fused_req := Some first |> <| req_first_fused := true |>);;
          set_first_fused q None;;
          rc ← nvmf_bdev_ctrlr_compare_and_write_cmd bdev desc first rid;
          r ← get_req rid;
          (if bool_decide (rc = COMPLETE) && spdk_nvme_cpl_is_error (req_rsp r) then
             mod_status first (fun _ => status (req_rsp r));;
             set_status rid SPDK_NVME_SCT_GENERIC SPDK_NVME_SC_ABORTED_FAILED_FUSED;;
             _nvmf_request_complete first;;
             mod_req rid (fun r => r <| req_first_fused_req := None |> <| req_first_fused := false |>)
           else mret tt);;
          mret rc
    end
  else fail rid SPDK_NVME_SCT_GENERIC SPDK_NVME_SC_INVALID_FIELD.

(** ** Zero copy *)

Definition nvmf_ctrlr_use_zcopy (rid : nat) : M bool :=
  r ← get_req rid;
  qp ← get_qpair (req_qpair r);
  massert (bool_decide (req_zcopy_phase r = NVMF_ZCOPY_PHASE_NONE));;
  if negb (qp_transport_zcopy qp) then mret false
  else if nvmf_qpair_is_admin_queue qp then mret false
  else if (opc (req_cmd r) !=? SPDK_NVME_OPC_WRITE) && (opc (req_cmd r) !=? SPDK_NVME_OPC_READ) then mret false
  else if fuse (req_cmd r) !=? SPDK_NVME_CMD_FUSE_NONE then mret false
  else
    c ← need (qp_ctrlr qp);
    ct ← get_ctrlr c;
    s ← gets w_subsys;
    match nvmf_ctrlr_get_ns s ct (nsid (req_cmd r)) with
    | Some ns =>
        if bool_decide (ns_bdev ns = None) || negb (ns_zcopy ns) then mret false
        else mod_req rid (fun r => r <| req_zcopy_phase := NVMF_ZCOPY_PHASE_INIT |>);; mret true
    | None => mret false
    end.

Definition spdk_nvmf_request_zcopy_end (rid : nat) (commit : bool) : M unit :=
  r ← get_req rid;
  massert (bool_decide (req_zcopy_phase r = NVMF_ZCOPY_PHASE_EXECUTE));;
  mod_req rid (fun r => r <| req_zcopy_phase := NVMF_ZCOPY_PHASE_END_PENDING |>);;
  nvmf_bdev_ctrlr_zcopy_end rid commit.

(** ** The command *)

Definition invalid_opcode (rid : nat) : M exec_status :=
  set_status rid SPDK_NVME_SCT_GENERIC SPDK_NVME_SC_INVALID_OPCODE;; set_dnr rid 1;; mret COMPLETE.

(** The [switch] on the opcode; [heaan_lib] is whether the file is compiled
    with [HEAAN_LIB]. *)
Definition dispatch_opcode (heaan_lib : bool) (qp : spdk_nvmf_qpair) (ct : spdk_nvmf_ctrlr) (bdev : spdk_bdev)
    (desc : spdk_bdev_desc) (rid : nat) (op : Z) : M exec_status :=
  let supported (b : bool) (m : M exec_status) := if b then m else invalid_opcode rid in
  if op =? SPDK_NVME_OPC_READ then nvmf_bdev_ctrlr_read_cmd bdev desc rid
  else if op =? SPDK_NVME_OPC_WRITE then nvmf_bdev_ctrlr_write_cmd bdev desc rid
  else if op =? SPDK_NVME_OPC_FLUSH then nvmf_bdev_ctrlr_flush_cmd bdev desc rid
  else if op =? SPDK_NVME_OPC_CUSTOM_ECHO then nvmf_bdev_ctrlr_custom_echo_cmd bdev desc rid
  else if op =? SPDK_NVME_OPC_CUSTOM_GREP then nvmf_bdev_ctrlr_custom_grep_cmd bdev desc rid
  else if heaan_lib && (op =? SPDK_NVME_OPC_CUSTOM_HEAAN_ADD) then nvmf_bdev_ctrlr_custom_heaan_cipadd_cmd bdev desc rid
  else if op =? SPDK_NVME_OPC_COMPARE then
    supported (ct_oncs_compare ct) (nvmf_bdev_ctrlr_compare_cmd bdev desc rid)
  else if op =? SPDK_NVME_OPC_WRITE_ZEROES then
    supported (ct_oncs_write_zeroes ct) (nvmf_bdev_ctrlr_write_zeroes_cmd bdev desc rid)
  else if op =? SPDK_NVME_OPC_DATASET_MANAGEMENT then
    supported (ct_oncs_dsm ct) (nvmf_bdev_ctrlr_dsm_cmd bdev desc rid)
  else if (op =? SPDK_NVME_OPC_RESERVATION_REGISTER) || (op =? SPDK_NVME_OPC_RESERVATION_ACQUIRE)
          || (op =? SPDK_NVME_OPC_RESERVATION_RELEASE) || (op =? SPDK_NVME_OPC_RESERVATION_REPORT) then
    supported (ct_oncs_reservations ct) (emit (EvReservationMsg rid);; mret ASYNCHRONOUS)
  else if op =? SPDK_NVME_OPC_COPY then
    supported (ct_oncs_copy ct) (nvmf_bdev_ctrlr_copy_cmd bdev desc rid)
  else supported (negb (qp_disable_command_passthru qp)) (nvmf_bdev_ctrlr_nvme_passthru_io bdev desc rid).

(** A command that is not fused gives up a first half that is waiting. *)
Definition drop_first_fused (q : nat) (qp : spdk_nvmf_qpair) : M unit :=
  match qp_first_fused_req qp with
  | Some first => abort_first_fused first;; set_first_fused q None
  | None => mret tt
  end.

(** The command has passed its checks. *)
Definition run_io_cmd (heaan_lib : bool) (q : nat) (qp : spdk_nvmf_qpair) (ct : spdk_nvmf_ctrlr) (bdev : spdk_bdev)
    (desc : spdk_bdev_desc) (rid : nat) (cmd : spdk_nvme_cmd) : M exec_status :=
  if Z.land (fuse cmd) SPDK_NVME_CMD_FUSE_MASK !=? 0 then nvmf_ctrlr_process_io_fused_cmd bdev desc rid
  else
    drop_first_fused q qp;;
    r ← get_req rid;
    if spdk_nvmf_request_using_zcopy r then
      massert (bool_decide (req_zcopy_phase r = NVMF_ZCOPY_PHASE_INIT));;
      nvmf_bdev_ctrlr_zcopy_start bdev desc rid
    else dispatch_opcode heaan_lib qp ct bdev desc rid (opc cmd).

Definition nvmf_ctrlr_process_io_cmd (heaan_lib : bool) (rid : nat) : M exec_status :=
  set_sc rid SPDK_NVME_SC_SUCCESS;;
  r ← get_req rid;
  let cmd := req_cmd r in
  qp ← get_qpair (req_qpair r);
  c ← need (qp_ctrlr qp);
  ct ← get_ctrlr c;
  if ct_cc_en ct !=? 1 then fail rid SPDK_NVME_SCT_GENERIC SPDK_NVME_SC_COMMAND_SEQUENCE_ERROR
  else
    s ← gets w_subsys;
    match nvmf_ctrlr_get_ns s ct (nsid cmd) with
    | Some (NvmfNs anagrpid (Some bdev) desc _) =>
        st ← nvmf_ctrlr_get_ana_state ct anagrpid;
        if bool_decide (st <> SPDK_NVME_ANA_OPTIMIZED_STATE) && bool_decide (st <> SPDK_NVME_ANA_NON_OPTIMIZED_STATE) then
          fail rid SPDK_NVME_SCT_PATH (_nvme_ana_state_to_path_status st)
        else
          sg ← gets w_sgroup;
          ni ← need (sg_ns_info sg !! Z.to_nat (u32 (nsid cmd - 1)));
          rc ← nvmf_ns_reservation_request_check ni ct rid;
          if rc !=? 0 then mret COMPLETE
          else run_io_cmd heaan_lib (req_qpair r) qp ct bdev desc rid cmd
    | _ => set_sc rid SPDK_NVME_SC_INVALID_NAMESPACE_OR_FORMAT;; set_dnr rid 1;; mret COMPLETE
    end.

(** A command that has waited for an I/O object is processed again. *)
Definition nvmf_ctrlr_process_io_cmd_resubmit (heaan_lib : bool) (rid : nat) : M unit :=
  rc ← nvmf_ctrlr_process_io_cmd heaan_lib rid;
  if bool_decide (rc = COMPLETE) then spdk_nvmf_request_complete rid else mret tt.

(** ** Execution of a request *)

Section Exec.
(** The other two command sets: fabrics commands and administrative commands. *)
Context (heaan_lib : bool) (nvmf_ctrlr_process_fabrics_cmd nvmf_ctrlr_process_admin_cmd : nat -> M exec_status).

Definition spdk_nvmf_request_exec (rid : nat) : M unit :=
  r ← get_req rid;
  let q := req_qpair r in
  ok ← nvmf_check_subsystem_active rid;
  if negb ok then mret tt
  else
    ok ← nvmf_check_qpair_active rid;
    if negb ok then mret tt
    else
      outstanding_insert q rid;;
      qp ← get_qpair q;
      status ← (if opc (req_cmd r) =? SPDK_NVME_OPC_FABRIC then nvmf_ctrlr_process_fabrics_cmd rid
                else if nvmf_qpair_is_admin_queue qp then nvmf_ctrlr_process_admin_cmd rid
                else nvmf_ctrlr_process_io_cmd heaan_lib rid);
      if bool_decide (status = COMPLETE) then _nvmf_request_complete rid else mret tt.

Definition spdk_nvmf_request_zcopy_start (rid : nat) : M unit :=
  r ← get_req rid;
  massert (bool_decide (req_zcopy_phase r = NVMF_ZCOPY_PHASE_INIT));;
  mod_req rid (fun r => r <| req_iovcnt := Z.of_nat NVMF_REQ_MAX_BUFFERS |>);;
  spdk_nvmf_request_exec rid.
End Exec.

(** ** Specification of the access checks *)

(** What the NVMe specification grants under a reservation: the holder reads
    and writes; a registrant and any other host by the type. *)
Inductive host_role := Holder | Registrant | OtherHost.
#[global] Instance host_role_eq_dec : EqDecision host_role.
Proof. solve_decision. Defined.
Inductive access := ReadAccess | WriteAccess.

Definition reservation_grants (rtype : Z) (role : host_role) (a : access) : bool :=
  match role, a with
  | Holder, _ => true
  | Registrant, ReadAccess => rtype !=? SPDK_NVME_RESERVE_EXCLUSIVE_ACCESS
  | Registrant, WriteAccess =>
      (rtype !=? SPDK_NVME_RESERVE_WRITE_EXCLUSIVE) && (rtype !=? SPDK_NVME_RESERVE_EXCLUSIVE_ACCESS)
  | OtherHost, ReadAccess =>
      (rtype =? SPDK_NVME_RESERVE_WRITE_EXCLUSIVE) || (rtype =? SPDK_NVME_RESERVE_WRITE_EXCLUSIVE_REG_ONLY)
      || (rtype =? SPDK_NVME_RESERVE_WRITE_EXCLUSIVE_ALL_REGS)
  | OtherHost, WriteAccess => false
  end.

(** Every registrant holds a reservation of the "all registrants" types. *)
Definition role_of (ni : spdk_nvmf_subsystem_pg_ns_info) (ct : spdk_nvmf_ctrlr) : host_role :=
  let reg := nvmf_ns_info_ctrlr_is_registrant ni ct in
  if ni_holder_id ni =? ct_hostid ct then Holder
  else if reg && ((ni_rtype ni =? SPDK_NVME_RESERVE_WRITE_EXCLUSIVE_ALL_REGS)
                  || (ni_rtype ni =? SPDK_NVME_RESERVE_EXCLUSIVE_ACCESS_ALL_REGS)) then Holder
  else if reg then Registrant else OtherHost.

(** The access a standard command makes. *)
Definition access_of (op : Z) : option access :=
  if (op =? SPDK_NVME_OPC_READ) || (op =? SPDK_NVME_OPC_COMPARE) then Some ReadAccess
  else if (op =? SPDK_NVME_OPC_FLUSH) || (op =? SPDK_NVME_OPC_WRITE) || (op =? SPDK_NVME_OPC_WRITE_UNCORRECTABLE)
          || (op =? SPDK_NVME_OPC_WRITE_ZEROES) || (op =? SPDK_NVME_OPC_DATASET_MANAGEMENT) then Some WriteAccess
  else None.

(** The path state of a namespace; [None] where the code has none to read. *)
Definition ana_state_of (s : spdk_nvmf_subsystem) (ct : spdk_nvmf_ctrlr) (anagrpid : Z) : option spdk_nvme_ana_state :=
  if negb (subsys_ana_reporting s) then Some SPDK_NVME_ANA_OPTIMIZED_STATE
  else match ct_ana_state ct with
       | None => Some SPDK_NVME_ANA_INACCESSIBLE_STATE
       | Some st => if u32 (anagrpid - 1) <? Z.of_nat (length (subsys_ns s)) then st !! Z.to_nat (u32 (anagrpid - 1)) else None
       end.
Definition accessible (st : spdk_nvme_ana_state) : bool :=
  bool_decide (st = SPDK_NVME_ANA_OPTIMIZED_STATE) || bool_decide (st = SPDK_NVME_ANA_NON_OPTIMIZED_STATE).

(** The host holds the reservation, or there is none. *)
Definition holds (ni : spdk_nvmf_subsystem_pg_ns_info) (ct : spdk_nvmf_ctrlr) : bool :=
  (ni_rtype ni =? 0) || bool_decide (role_of ni ct = Holder).
Definition conflicts (ni : spdk_nvmf_subsystem_pg_ns_info) (ct : spdk_nvmf_ctrlr) (cmd : spdk_nvme_cmd) : bool :=
  negb (holds ni ct)
  && (reservation_status (ni_rtype ni) (nvmf_ns_info_ctrlr_is_registrant ni ct) cmd =? SPDK_NVME_SC_RESERVATION_CONFLICT).

(** The reasons for which a command does not reach its handler, and the status
    it is answered with. *)
Inductive io_refusal (w : world) (r : spdk_nvmf_request) (ct : spdk_nvmf_ctrlr) : spdk_nvme_status -> Prop :=
| refuse_disabled : ct_cc_en ct <> 1 ->
    io_refusal w r ct ((status (req_rsp r)) <| sct := SPDK_NVME_SCT_GENERIC |> <| sc := SPDK_NVME_SC_COMMAND_SEQUENCE_ERROR |>)
| refuse_namespace : ct_cc_en ct = 1 ->
    (forall ns, nvmf_ctrlr_get_ns (w_subsys w) ct (nsid (req_cmd r)) = Some ns -> ns_bdev ns = None) ->
    io_refusal w r ct ((status (req_rsp r)) <| sc := SPDK_NVME_SC_INVALID_NAMESPACE_OR_FORMAT |> <| dnr := 1 |>)
| refuse_path ns st : ct_cc_en ct = 1 ->
    nvmf_ctrlr_get_ns (w_subsys w) ct (nsid (req_cmd r)) = Some ns -> ns_bdev ns <> None ->
    ana_state_of (w_subsys w) ct (ns_anagrpid ns) = Some st -> accessible st = false ->
    io_refusal w r ct ((status (req_rsp r)) <| sct := SPDK_NVME_SCT_PATH |> <| sc := _nvme_ana_state_to_path_status st |>)
| refuse_conflict ns st ni : ct_cc_en ct = 1 ->
    nvmf_ctrlr_get_ns (w_subsys w) ct (nsid (req_cmd r)) = Some ns -> ns_bdev ns <> None ->
    ana_state_of (w_subsys w) ct (ns_anagrpid ns) = Some st -> accessible st = true ->
    sg_ns_info (w_sgroup w) !! Z.to_nat (u32 (nsid (req_cmd r) - 1)) = Some ni -> conflicts ni ct (req_cmd r) = true ->
    io_refusal w r ct ((status (req_rsp r)) <| sct := SPDK_NVME_SCT_GENERIC |> <| sc := SPDK_NVME_SC_RESERVATION_CONFLICT |>).

(** What lets a command reach its handler. *)
Record io_cleared (w : world) (r : spdk_nvmf_request) (ct : spdk_nvmf_ctrlr) (bdev : spdk_bdev) (desc : spdk_bdev_desc)
  (ni : spdk_nvmf_subsystem_pg_ns_info) : Prop := {
  cl_en : ct_cc_en ct = 1;
  cl_ns : exists g z st, nvmf_ctrlr_get_ns (w_subsys w) ct (nsid (req_cmd r)) = Some (NvmfNs g (Some bdev) desc z) /\
            ana_state_of (w_subsys w) ct g = Some st /\ accessible st = true;
  cl_ni : sg_ns_info (w_sgroup w) !! Z.to_nat (u32 (nsid (req_cmd r) - 1)) = Some ni;
  cl_resv : conflicts ni ct (req_cmd r) = false }.

(** ** Lemmas *)

Lemma ana_state_wp s ct g st w (Q : spdk_nvme_ana_state -> world -> Prop) :
  w_subsys w = s -> ana_state_of s ct g = Some st -> Q st w -> wp (nvmf_ctrlr_get_ana_state ct g) w Q.
Proof.
  intros <- Ha HQ. unfold nvmf_ctrlr_get_ana_state. wsteps. revert Ha. unfold ana_state_of.
  destruct (subsys_ana_reporting _); cbn [negb]; [|intros [= <-]; by wsteps].
  destruct (ct_ana_state ct) as [l|]; [|intros [= <-]; by wsteps].
  destruct (_ <? _) eqn:E; [|done]. intros Hl. by wsteps.
Qed.

(** The check on a host that holds the reservation does nothing; on another it
    writes the status. *)
Lemma reservation_check_wp ni ct rid r cmd w (Q : Z -> world -> Prop) : w_reqs w !! rid = Some r -> req_cmd r = cmd ->
  Q (if conflicts ni ct cmd then - EPERM else 0)
    (if holds ni ct then w else
       w <| w_reqs := <[rid := with_status SPDK_NVME_SCT_GENERIC
              (reservation_status (ni_rtype ni) (nvmf_ns_info_ctrlr_is_registrant ni ct) cmd) r]> (w_reqs w) |>) ->
  wp (nvmf_ns_reservation_request_check ni ct rid) w Q.
Proof.
  intros Hr <-. unfold nvmf_ns_reservation_request_check, conflicts, holds, role_of. intros HQ. wsteps.
  destruct (ni_rtype ni =? 0); [by wsteps|]. cbn [orb] in HQ.
  destruct (nvmf_ns_info_ctrlr_is_registrant ni ct) eqn:Er, (ni_holder_id ni =? ct_hostid ct),
    ((ni_rtype ni =? SPDK_NVME_RESERVE_WRITE_EXCLUSIVE_ALL_REGS) || (ni_rtype ni =? SPDK_NVME_RESERVE_EXCLUSIVE_ACCESS_ALL_REGS));
    cbn [andb orb negb] in *; wsteps; exact HQ.
Qed.

Lemma reservation_status_cases rtype reg cmd :
  reservation_status rtype reg cmd = SPDK_NVME_SC_RESERVATION_CONFLICT \/ reservation_status rtype reg cmd = SPDK_NVME_SC_SUCCESS.
Proof. unfold reservation_status. repeat case_match; auto. Qed.

(** The response of a command before its handler runs. *)
Definition checked (ni : spdk_nvmf_subsystem_pg_ns_info) (ct : spdk_nvmf_ctrlr) (r : spdk_nvmf_request) : spdk_nvmf_request :=
  let s := status (req_rsp r) in
  let s := s <| sc := SPDK_NVME_SC_SUCCESS |> in
  r <| req_rsp := (req_rsp r) <| status := if holds ni ct then s else s <| sct := SPDK_NVME_SCT_GENERIC |> |> |>.
Definition put_reqs (rid : nat) (r : spdk_nvmf_request) (w : world) : world := w <| w_reqs := <[rid := r]> (w_reqs w) |>.
Definition with_rsp_status (st : spdk_nvme_status) (r : spdk_nvmf_request) : spdk_nvmf_request :=
  r <| req_rsp := (req_rsp r) <| status := st |> |>.

Section Process.
Context `{HeaanLib} (heaan_lib : bool) (w : world) (rid q : nat) (r : spdk_nvmf_request) (qp : spdk_nvmf_qpair) (ct : spdk_nvmf_ctrlr).
Hypothesis HL : live_req w rid q r qp ct.

(** The namespace is there and its path is usable: the reservation decides. *)
Lemma process_found_wp bdev desc g z st ni (Q : exec_status -> world -> Prop) :
  ct_cc_en ct = 1 -> nvmf_ctrlr_get_ns (w_subsys w) ct (nsid (req_cmd r)) = Some (NvmfNs g (Some bdev) desc z) ->
  ana_state_of (w_subsys w) ct g = Some st -> accessible st = true ->
  sg_ns_info (w_sgroup w) !! Z.to_nat (u32 (nsid (req_cmd r) - 1)) = Some ni ->
  (if conflicts ni ct (req_cmd r) then
     Q COMPLETE (put_reqs rid (with_status SPDK_NVME_SCT_GENERIC SPDK_NVME_SC_RESERVATION_CONFLICT r) w)
   else wp (run_io_cmd heaan_lib q qp ct bdev desc rid (req_cmd r)) (put_reqs rid (checked ni ct r) w) Q) ->
  wp (nvmf_ctrlr_process_io_cmd heaan_lib rid) w Q.
Proof.
  intros Hen Hns Ha Hac Hni HQ. destruct HL as [Hr Eq Hq Hc _ _ _]. destruct (qp_ctrlr qp) as [c|] eqn:Ec; cbn in Hc; [|done].
  unfold nvmf_ctrlr_process_io_cmd, put_reqs in *. wsteps. rewrite Eq. wsteps.
  rewrite Hen. change (1 !=? 1) with false. cbv iota. wsteps. rewrite Hns. wstep.
  eapply ana_state_wp; [reflexivity|exact Ha|].
  assert (bool_decide (st <> SPDK_NVME_ANA_OPTIMIZED_STATE) && bool_decide (st <> SPDK_NVME_ANA_NON_OPTIMIZED_STATE) = false) as ->.
  { unfold accessible in Hac. apply orb_true_iff in Hac. rewrite !bool_decide_not. destruct Hac as [-> | ->]; [done|]. apply andb_false_r. }
  wsteps. eapply reservation_check_wp; [apply lookup_insert_eq|done|].
  revert HQ. unfold conflicts, checked. wsimp.
  destruct (reservation_status_cases (ni_rtype ni) (nvmf_ns_info_ctrlr_is_registrant ni ct) (req_cmd r)) as [E|E];
    rewrite E; destruct (holds ni ct); intros HQ; cbn [negb andb Z.eqb Pos.eqb] in *; [exact HQ| |exact HQ|].
  - change (- EPERM !=? 0) with true. cbv iota. wsteps. by rewrite insert_insert_eq.
  - change (0 !=? 0) with false. cbv iota. by rewrite insert_insert_eq.
Qed.

(** A refused command changes nothing but its response. *)
Lemma process_refused_wp st' (Q : exec_status -> world -> Prop) : io_refusal w r ct st' ->
  Q COMPLETE (put_reqs rid (with_rsp_status st' r) w) -> wp (nvmf_ctrlr_process_io_cmd heaan_lib rid) w Q.
Proof.
  intros HR HQ. destruct HR as [Hen|Hen Hns|[g b d z] st Hen Hns Hb Ha Hac|[g [b|] d z] st ni Hen Hns Hb Ha Hac Hni Hcf]; [..|done].
  4: { eapply process_found_wp; [done..|]. by rewrite Hcf. }
  all: destruct HL as [Hr Eq Hq Hc _ _ _]; destruct (qp_ctrlr qp) as [c|] eqn:Ec; cbn in Hc; [|done].
  all: unfold nvmf_ctrlr_process_io_cmd, put_reqs in *; wsteps; rewrite Eq; wsteps; unfold fail.
  - rewrite (proj2 (Z.eqb_neq _ _) Hen). cbn [negb]. wsteps. by rewrite !insert_insert_eq.
  - rewrite Hen. change (1 !=? 1) with false. cbv iota. wsteps.
    destruct (nvmf_ctrlr_get_ns _ _ _) as [[g b d z]|]; [pose proof (Hns _ eq_refl) as Hb; cbn in Hb; subst b|]; wsteps;
      by rewrite !insert_insert_eq.
  - rewrite Hen. change (1 !=? 1) with false. cbv iota. wsteps. rewrite Hns. destruct b as [b|]; [|done]. wstep.
    eapply ana_state_wp; [reflexivity|exact Ha|]. unfold accessible in Hac. apply orb_false_iff in Hac as [E1 E2].
    rewrite !bool_decide_not, E1, E2. cbn [negb andb]. wsteps. by rewrite !insert_insert_eq.
Qed.

(** A command that is cleared is run with a fresh status. *)
Lemma process_cleared_wp bdev desc ni (Q : exec_status -> world -> Prop) : io_cleared w r ct bdev desc ni ->
  wp (run_io_cmd heaan_lib q qp ct bdev desc rid (req_cmd r)) (put_reqs rid (checked ni ct r) w) Q ->
  wp (nvmf_ctrlr_process_io_cmd heaan_lib rid) w Q.
Proof.
  intros [Hen (g & z & st & Hns & Ha & Hac) Hni Hcf] HQ. eapply process_found_wp; [done..|]. by rewrite Hcf.
Qed.
End Process.

(** ** Admission, processing and completion together *)

(** A request of an I/O queue whose namespace is open. *)
Record io_arrival (w : world) (rid q : nat) (r : spdk_nvmf_request) (qp : spdk_nvmf_qpair) (ct : spdk_nvmf_ctrlr)
  (ni : spdk_nvmf_subsystem_pg_ns_info) : Prop := {
  ia_fresh : fresh_req w rid q r qp ct; ia_io : is_mgmt qp (req_cmd r) = false;
  ia_enabled : qp_state qp = SPDK_NVMF_QPAIR_ENABLED;
  ia_ni : sg_ns_info (w_sgroup w) !! Z.to_nat (u32 (nsid (req_cmd r) - 1)) = Some ni;
  ia_channel : ni_channel ni = true; ia_active : ni_state ni = SPDK_NVMF_SUBSYSTEM_ACTIVE }.

Section Arrival.
Context `{HeaanLib} (heaan_lib : bool) (fabrics admin : nat -> M exec_status).
Context (w : world) (rid q : nat) (r : spdk_nvmf_request) (qp : spdk_nvmf_qpair) (ct : spdk_nvmf_ctrlr).
Context (ni : spdk_nvmf_subsystem_pg_ns_info).
Hypothesis HA : io_arrival w rid q r qp ct ni.

Lemma arrival_in_group : (u32 (nsid (req_cmd r) - 1) <? sg_num_ns (w_sgroup w)) = true.
Proof.
  destruct HA as [_ _ _ Hni _ _]. apply lookup_lt_Some in Hni. pose proof (u32_range (nsid (req_cmd r) - 1)).
  unfold sg_num_ns. lia.
Qed.

Lemma arrival_live : live_req (enqueued true rid q r qp w) rid q r (qpair_with rid qp) ct.
Proof.
  destruct HA as [HF Hm _ _ _ _]. pose proof HF as [_ Eq _ _ _ Hz _ _]. by apply (enqueued_live w true rid q r r qp ct HF).
Qed.

Lemma exec_admitted_wp (Q : unit -> world -> Prop) :
  wp (st ← nvmf_ctrlr_process_io_cmd heaan_lib rid; if bool_decide (st = COMPLETE) then _nvmf_request_complete rid else mret tt)
    (enqueued true rid q r qp w) Q ->
  wp (spdk_nvmf_request_exec heaan_lib fabrics admin rid) w Q.
Proof.
  intros HQ. pose proof arrival_in_group as Hg. destruct HA as [HF Hm Hen Hni Hch Hac]. pose proof HF as [Hr Eq Hq Hc Hin Hz Hcb Hd].
  destruct (qp_ctrlr qp) as [c|] eqn:Ec; cbn in Hc; [|done]. apply orb_false_iff in Hm as [Hf Ha].
  unfold spdk_nvmf_request_exec, nvmf_check_subsystem_active. wsteps. rewrite Eq. wsteps. rewrite Ec. cbn [negb]. wsteps.
  rewrite Hf, Ha. cbn [orb]. destruct (sg_num_ns (w_sgroup w) <=? u32 (nsid (req_cmd r) - 1)) eqn:E; [lia|]. wsteps.
  rewrite Hch, Hac. cbn [negb]. rewrite bool_decide_false by auto. wsteps. cbn [negb].
  unfold nvmf_check_qpair_active. wsteps. rewrite Eq. wsteps. rewrite Hen. wsteps. cbn [negb]. unfold outstanding_insert. wsteps.
  change (nvmf_qpair_is_admin_queue (qp <| qp_outstanding := qp_outstanding qp ++ [rid] |>)) with (nvmf_qpair_is_admin_queue qp).
  rewrite Ha. apply wp_unbind. revert HQ. unfold enqueued. rewrite (insert_id (w_reqs w)) by done. by destruct w.
Qed.

Lemma refusal_enqueued st' : io_refusal w r ct st' -> io_refusal (enqueued true rid q r qp w) r ct st'.
Proof.
  intros [?|?|? ? ?|ns st ni' ? ? ? ? ? Hni ?]; [by apply refuse_disabled|by apply refuse_namespace|by eapply refuse_path|].
  eapply (refuse_conflict _ _ _ ns st (ni_inc ni')); try done. unfold enqueued. wsimp.
  by rewrite list_lookup_alter_eq, Hni.
Qed.

Lemma exec_refused_wp st' (Q : unit -> world -> Prop) : io_refusal w r ct st' ->
  let r' := with_rsp_status st' r in
  Q tt (completed_world rid q r' (qpair_with rid qp) ct (enqueued true rid q r' qp w)) ->
  wp (spdk_nvmf_request_exec heaan_lib fabrics admin rid) w Q.
Proof.
  intros HR r' HQ. apply exec_admitted_wp. wstep. eapply process_refused_wp; [exact arrival_live|by apply refusal_enqueued|].
  rewrite bool_decide_true by done. fold r'.
  assert (E : put_reqs rid r' (enqueued true rid q r qp w) = enqueued true rid q r' qp w).
  { unfold put_reqs, enqueued. wsimp. by rewrite insert_insert_eq. }
  rewrite E. eapply request_complete_wp; [|exact HQ]. destruct HA as [HF Hm _ _ _ _]. pose proof HF as [_ Eq _ _ _ Hz _ _].
  by apply (enqueued_live w true rid q r r' qp ct HF).
Qed.
End Arrival.

(** The commands the reservation check does not know are never in conflict. *)
Lemma unknown_no_conflict ni ct cmd :
  opc cmd ∈ [SPDK_NVME_OPC_CUSTOM_ECHO; SPDK_NVME_OPC_CUSTOM_GREP; SPDK_NVME_OPC_CUSTOM_HEAAN_ADD; SPDK_NVME_OPC_COPY] ->
  conflicts ni ct cmd = false.
Proof.
  intros Hop. unfold conflicts, reservation_status. rewrite !elem_of_cons, elem_of_nil in Hop.
  destruct Hop as [->|[->|[->|[->|[]]]]]; apply andb_false_r.
Qed.

(** A plain command with no first half waiting goes to the handler of its
    opcode. *)
Lemma run_plain_wp `{HeaanLib} heaan_lib q qp ct bdev desc rid r w (Q : exec_status -> world -> Prop) :
  w_reqs w !! rid = Some r -> req_zcopy_phase r = NVMF_ZCOPY_PHASE_NONE -> fuse (req_cmd r) = SPDK_NVME_CMD_FUSE_NONE ->
  qp_first_fused_req qp = None -> wp (dispatch_opcode heaan_lib qp ct bdev desc rid (opc (req_cmd r))) w Q ->
  wp (run_io_cmd heaan_lib q qp ct bdev desc rid (req_cmd r)) w Q.
Proof.
  intros Hr Hz Hf Hq HQ. unfold run_io_cmd, drop_first_fused. rewrite Hf, Hq. change (_ !=? 0) with false. cbv iota. wsteps.
  unfold spdk_nvmf_request_using_zcopy. by rewrite Hz, bool_decide_false by auto.
Qed.

(** An arriving command that is cleared, is not fused and has no fused command
    before it reaches the handler of its opcode. *)
Record io_plain (w : world) (rid q : nat) (r : spdk_nvmf_request) (qp : spdk_nvmf_qpair) (ct : spdk_nvmf_ctrlr)
  (ni : spdk_nvmf_subsystem_pg_ns_info) (bdev : spdk_bdev) (desc : spdk_bdev_desc) : Prop := {
  pl_arrival : io_arrival w rid q r qp ct ni; pl_cleared : io_cleared w r ct bdev desc ni;
  pl_fuse : fuse (req_cmd r) = SPDK_NVME_CMD_FUSE_NONE; pl_first : qp_first_fused_req qp = None }.

(** The world in which the handler runs. *)
Definition at_handler (w : world) (rid q : nat) (r : spdk_nvmf_request) (qp : spdk_nvmf_qpair) (ct : spdk_nvmf_ctrlr)
  (ni : spdk_nvmf_subsystem_pg_ns_info) : world := enqueued true rid q (checked ni ct r) qp w.

Lemma at_handler_live w rid q r qp ct ni : io_arrival w rid q r qp ct ni ->
  live_req (at_handler w rid q r qp ct ni) rid q (checked ni ct r) (qpair_with rid qp) ct.
Proof.
  intros [HF Hm _ _ _ _]. pose proof HF as [_ Eq _ _ _ Hz _ _]. by apply (enqueued_live w true rid q r _ qp ct HF).
Qed.

Lemma accounted_at_handler w rid q r qp ct ni : io_arrival w rid q r qp ct ni -> accounted w ->
  accounted (at_handler w rid q r qp ct ni).
Proof.
  intros HA Hacc. unfold at_handler. rewrite <- (arrival_in_group _ _ _ _ _ _ _ HA).
  pose proof HA as [HF Hm _ _ _ _]. pose proof HF as [_ Eq _ _ _ _ _ _]. by apply (accounted_enqueued w rid q r _ qp ct HF).
Qed.

Lemma exec_plain_wp `{HeaanLib} heaan_lib fabrics admin w rid q r qp ct ni bdev desc (Q : unit -> world -> Prop) :
  io_plain w rid q r qp ct ni bdev desc ->
  wp (st ← dispatch_opcode heaan_lib (qpair_with rid qp) ct bdev desc rid (opc (req_cmd r));
      if bool_decide (st = COMPLETE) then _nvmf_request_complete rid else mret tt) (at_handler w rid q r qp ct ni) Q ->
  wp (spdk_nvmf_request_exec heaan_lib fabrics admin rid) w Q.
Proof.
  intros [HA [Hen Hns Hni Hcf] Hf Hff] HQ. pose proof HA as [HF _ _ _ _ _]. pose proof HF as [_ _ _ _ _ Hz _ _].
  eapply exec_admitted_wp; [exact HA|]. wstep.
  eapply (process_cleared_wp _ _ _ _ _ _ _ (arrival_live _ _ _ _ _ _ _ HA) bdev desc (ni_inc ni)).
  { split; [done|done| |done]. unfold enqueued. wsimp. by rewrite list_lookup_alter_eq, Hni. }
  change (checked (ni_inc ni) ct r) with (checked ni ct r).
  assert (E : put_reqs rid (checked ni ct r) (enqueued true rid q r qp w) = at_handler w rid q r qp ct ni).
  { unfold put_reqs, at_handler, enqueued. wsimp. by rewrite insert_insert_eq. }
  rewrite E. change (req_cmd r) with (req_cmd (checked ni ct r)).
  eapply run_plain_wp; [apply (at_handler_live _ _ _ _ _ _ _ HA)|done..|]. by apply wp_unbind.
Qed.

Lemma accounted_command_done iod rid q x r qp ct w : live_req w rid q r qp ct -> is_aer (req_cmd r) = false ->
  accounted w -> accounted (command_done iod rid q x r qp ct w).
Proof.
  intros HL Ha HA. unfold command_done, freed. set (w1 := w <| w_reqs := <[rid := answered x r]> (w_reqs w) |>).
  apply (accounted_ext (completed_world rid q (answered x r) qp ct w1)); [reflexivity|reflexivity|reflexivity|].
  assert (Ex : req_qpair (answered x r) = req_qpair r /\ req_cmd (answered x r) = req_cmd r /\
    req_zcopy_phase (answered x r) = req_zcopy_phase r) by (by destruct x as [[??]?]). destruct Ex as (E1 & E2 & E3).
  apply accounted_completed; [|by rewrite E2|].
  - eapply (live_req_upd w); [done|unfold w1; wsimp; apply lookup_insert_eq|done..].
  - eapply (accounted_upd w _ rid r); [apply HL|done..].
Qed.

(** The blocks of a read or write are on the device and fit the vector, and an
    I/O object is free. *)
Record rw_fits (bdev : spdk_bdev) (desc : spdk_bdev_desc) (w : world) (r : spdk_nvmf_request) (s n : Z)
  (m : spdk_bdev_mgmt_channel) : Prop := {
  rf_req : rw_req bdev desc r s n; rf_fused : req_first_fused r = false; rf_range : s + n <= blockcnt bdev;
  rf_length : n * blocklen bdev <= req_length r; rf_cnt : (Z.to_nat (req_iovcnt r) <= length (req_iov r))%nat;
  rf_vec : (Z.to_nat (n * blocklen bdev) <= length (flat (req_iovs r)))%nat;
  rf_take : take_io (w_mgmt w) = Some m; rf_mgmt : mgmt_ok (w_mgmt w);
  rf_disk : Z.to_nat (blockcnt bdev * blocklen bdev) = length (w_disk w); rf_fresh : w_ios w !! w_next w = None }.

Lemma rw_fits_ready bdev desc w rid q r qp ct ni s n m : io_arrival w rid q r qp ct ni -> rw_fits bdev desc w r s n m ->
  rw_ready bdev desc (at_handler w rid q r qp ct ni) rid q (checked ni ct r) (qpair_with rid qp) ct s n m.
Proof.
  intros HA [[] ? ? ? ? ? ? ? ? ?]. split; try done. by apply at_handler_live.
Qed.

(** The callback of a plain command returns the object, answers the request and
    keeps the accounts. *)
Lemma complete_plain_wp w w1 iod io rid q r qp ct m :
  live_req w1 rid q r qp ct -> req_first_fused r = false -> is_aer (req_cmd r) = false ->
  w_ios w1 !! iod = Some io -> io_status io <> IO_STATUS_PENDING -> delete iod (w_ios w1) = w_ios w ->
  take_io (w_mgmt w) = Some m -> mgmt_ok (w_mgmt w) -> w_mgmt w1 = m -> w_log w1 = w_log w -> w_disk w1 = w_disk w -> accounted w1 ->
  wp (nvmf_bdev_ctrlr_complete_cmd iod rid) w1 (fun _ w' =>
    exists r' qp' c, w_reqs w' !! rid = Some r' /\ w_qpairs w' !! q = Some qp' /\ rid ∉ qp_outstanding qp' /\
      answers_only w w' [(rid, c)] /\ responded (spdk_bdev_io_get_nvme_status io) c /\
      flat (req_iov r') = flat (req_iov r) /\
      accounted w' /\ w_disk w' = w_disk w /\ w_ios w' = w_ios w /\ free_ios (w_mgmt w') = free_ios (w_mgmt w)).
Proof.
  intros HL Hf Ha Hio Hp Hios Htk Hmg Em El Ed Hacc.
  eapply complete_cmd_wp; [done|done|done|done|rewrite Em; by eapply take_io_ok|].
  set (x := spdk_bdev_io_get_nvme_status io). pose proof (accounted_command_done iod rid q x r qp ct w1 HL Ha Hacc) as HAc.
  unfold command_done in *. set (wa := w1 <| w_reqs := <[rid := answered x r]> (w_reqs w1) |>) in *.
  pose proof (completed_world_log rid q (answered x r) qp ct wa) as Hev. pose proof (completed_world_reqs rid q (answered x r) qp ct wa) as Hrq.
  destruct (completed_world_frame rid q (answered x r) qp ct wa) as (_ & Fi & Fd & Fm & _).
  exists ((answered x r) <| req_rsp := completed_rsp (ct_acre_enabled ct) (answered x r) |>), (qpair_without rid qp),
    (completed_rsp (ct_acre_enabled ct) (answered x r)).
  split; [exact Hrq|]. split; [unfold completed_world; wsimp; apply lookup_insert_eq|]. split; [apply not_in_qpair_without|].
  split; [exact (answers_only_log wa w _ _ _ (eq_sym El) eq_refl Hev)|]. split; [apply completed_responded|].
  split; [by destruct x as [[??]?]|]. split; [exact HAc|].
  split; [by rewrite <- Ed|]. split; [by rewrite <- Hios|].
  assert (E1 : take_n 1 (w_mgmt w) = Some m) by (cbn; by rewrite Htk). apply take_n_free in E1. rewrite E1, <- Em. apply put_io_free.
Qed.

(** ** Properties *)

(** The decision of the check is the access table. *)
Lemma conflicts_granted ni ct cmd a : access_of (opc cmd) = Some a -> 1 <= ni_rtype ni <= 6 ->
  conflicts ni ct cmd = negb (reservation_grants (ni_rtype ni) (role_of ni ct) a).
Proof.
  intros Ha Ht. unfold conflicts, holds, role_of, reservation_status. destruct (nvmf_ns_info_ctrlr_is_registrant ni ct).
  all: assert (ni_rtype ni = 1 \/ ni_rtype ni = 2 \/ ni_rtype ni = 3 \/ ni_rtype ni = 4 \/ ni_rtype ni = 5 \/ ni_rtype ni = 6) as Hc by lia.
  all: unfold access_of in Ha; destruct (_ || _); [injection Ha as <-|destruct (_ || _); [injection Ha as <-|done]].
  all: destruct (ni_holder_id ni =? ct_hostid ct); destruct Hc as [-> | [-> | [-> | [-> | [-> | ->]]]]]; reflexivity.
Qed.

(** C30. The reservation check implements the access table of the NVMe
    specification: for a standard command that reads or writes, a namespace
    with a reservation of any of the six types, and any host, the check lets
    the command pass exactly when the table grants the host's role that
    access; otherwise the command's status is "reservation conflict", and in
    either case nothing but the command's status has changed. *)
Theorem reservation_check_refines ni ct rid r w a (Hr : w_reqs w !! rid = Some r)
    (Ha : access_of (opc (req_cmd r)) = Some a) (Ht : 1 <= ni_rtype ni <= 6) :
  let granted := reservation_grants (ni_rtype ni) (role_of ni ct) a in
  wp (nvmf_ns_reservation_request_check ni ct rid) w (fun rc w' =>
    (rc = 0 <-> granted = true) /\
    exists st, w' = put_reqs rid (with_rsp_status st r) w /\
      (granted = false -> sct st = SPDK_NVME_SCT_GENERIC /\ sc st = SPDK_NVME_SC_RESERVATION_CONFLICT)).
Proof.
  intros granted. eapply reservation_check_wp; [done..|].
  assert (HC : conflicts ni ct (req_cmd r) = negb granted) by (by apply conflicts_granted).
  rewrite HC. split; [destruct granted; done|]. destruct (holds ni ct) eqn:Eh.
  - exists (status (req_rsp r)). split; [|unfold conflicts in HC; rewrite Eh in HC; by destruct granted].
    unfold put_reqs, with_rsp_status. rewrite insert_id; [by destruct w|]. rewrite Hr. by destruct r as [?????? ? []].
  - eexists. split; [reflexivity|]. intros Hg. split; [reflexivity|]. rewrite Hg in HC. unfold conflicts in HC.
    rewrite Eh in HC. by apply Z.eqb_eq in HC.
Qed.

(** The namespace of the small target, reserved by host [h] with type [t]. *)
Definition demo_ni (t h : Z) (regs : list Z) : spdk_nvmf_subsystem_pg_ns_info :=
  PgNsInfo true t h regs 0 SPDK_NVMF_SUBSYSTEM_ACTIVE.

Lemma reservation_check_refines_witness :
  let w := demo_world [demo_rw_req SPDK_NVME_OPC_WRITE] [0%nat] 1 SPDK_NVMF_SUBSYSTEM_ACTIVE [] in
  wp (nvmf_ns_reservation_request_check (demo_ni SPDK_NVME_RESERVE_WRITE_EXCLUSIVE 2 [2; 1]) demo_ctrlr 0) w (fun rc w' => rc <> 0) /\
  wp (nvmf_ns_reservation_request_check (demo_ni SPDK_NVME_RESERVE_WRITE_EXCLUSIVE_REG_ONLY 2 [2; 1]) demo_ctrlr 0) w (fun rc w' => rc = 0).
Proof.
  intros w. split.
  - pose proof (reservation_check_refines (demo_ni SPDK_NVME_RESERVE_WRITE_EXCLUSIVE 2 [2; 1]) demo_ctrlr 0 _ w WriteAccess
      eq_refl eq_refl ltac:(split; done)) as W. cbv zeta in W. eapply wp_mono; [exact W|]. intros rc w' [E _] H. by apply E in H.
  - pose proof (reservation_check_refines (demo_ni SPDK_NVME_RESERVE_WRITE_EXCLUSIVE_REG_ONLY 2 [2; 1]) demo_ctrlr 0 _ w WriteAccess
      eq_refl eq_refl ltac:(split; done)) as W. cbv zeta in W. eapply wp_mono; [exact W|]. intros rc w' [E _]. by apply E.
Defined.

(** C35. A command that does not reach its handler is answered once and leaves no
    trace.  When an I/O command without the opcode of an asynchronous-event
    request is admitted and the controller is disabled, the namespace is absent,
    its path is not usable, or its reservation forbids the command, the execution of
    the request - admission, processing, completion - hands exactly one
    response to the transport, with the type, the code and the do-not-retry
    bit of that reason; the request is no longer outstanding, every namespace's counter is again the number of
    its outstanding requests, and medium, memory and device are untouched. *)
Theorem exec_refused_answered `{HeaanLib} heaan_lib fabrics admin w rid q r qp ct ni st
    (HA : io_arrival w rid q r qp ct ni) (Haer : is_aer (req_cmd r) = false) (HR : io_refusal w r ct st) (Hacc : accounted w) :
  wp (spdk_nvmf_request_exec heaan_lib fabrics admin rid) w (fun _ w' =>
    refused w w' rid q (reason_of st) /\ accounted w' /\
    w_disk w' = w_disk w /\ w_heap w' = w_heap w /\ w_ios w' = w_ios w /\ w_mgmt w' = w_mgmt w).
Proof.
  eapply exec_refused_wp; [exact HA|exact HR|]. pose proof HA as [HF Hm _ _ _ _]. pose proof HF as [_ Eq _ _ _ Hz _ _].
  split; [apply (completed_refused w true)|]. split; [|done].
  apply accounted_completed; [by apply (enqueued_live w true rid q r _ qp ct HF)|done|].
  rewrite <- (arrival_in_group _ _ _ _ _ _ _ HA). by apply (accounted_enqueued w rid q r _ qp ct HF).
Qed.

(** The small target with one request that has just arrived. *)
Definition demo_arrival (r : spdk_nvmf_request) (ni : spdk_nvmf_subsystem_pg_ns_info) (disk : bytes) : world :=
  (demo_world [r] [] 0 SPDK_NVMF_SUBSYSTEM_ACTIVE disk)
    <| w_sgroup := SubsysPg [ni] SPDK_NVMF_SUBSYSTEM_ACTIVE 0 true [] |>.

Lemma demo_io_arrival r t h regs disk : req_qpair r = 0%nat -> nsid (req_cmd r) = 1 -> opc (req_cmd r) <> SPDK_NVME_OPC_FABRIC ->
  req_zcopy_phase r = NVMF_ZCOPY_PHASE_NONE ->
  io_arrival (demo_arrival r (demo_ni t h regs) disk) 0 0 r (demo_qpair []) demo_ctrlr (demo_ni t h regs).
Proof.
  intros Eq En Ho Hz. split; try done.
  - split; try done. apply not_elem_of_nil.
  - unfold is_mgmt. apply Z.eqb_neq in Ho. by rewrite Ho.
  - by rewrite En.
Qed.

Lemma demo_io_plain r disk : req_qpair r = 0%nat -> nsid (req_cmd r) = 1 -> opc (req_cmd r) <> SPDK_NVME_OPC_FABRIC ->
  req_zcopy_phase r = NVMF_ZCOPY_PHASE_NONE -> fuse (req_cmd r) = SPDK_NVME_CMD_FUSE_NONE ->
  io_plain (demo_arrival r (demo_ni 0 0 []) disk) 0 0 r (demo_qpair []) demo_ctrlr (demo_ni 0 0 []) demo_bdev demo_desc.
Proof.
  intros Eq En Ho Hz Hf. split; [by apply demo_io_arrival| |done|done]. split; [done| |by rewrite En|done].
  rewrite En. by exists 1, false, SPDK_NVME_ANA_OPTIMIZED_STATE.
Qed.

Lemma demo_arrival_accounted r t h regs disk : accounted (demo_arrival r (demo_ni t h regs) disk).
Proof.
  split; [by vm_compute|]. intros [|i] n; [|done]. intros [= <-].
  assert (outstanding_io (demo_arrival r (demo_ni t h regs) disk) 0 = ∅) as ->; [|done].
  apply map_eq. intros x. rewrite outstanding_io_lookup, lookup_empty. destruct (w_reqs _ !! x) as [v|]; [|done]. cbn.
  unfold counts. destruct (w_qpairs _ !! _) as [qp|] eqn:E; [|done].
  change (w_qpairs (demo_arrival r (demo_ni t h regs) disk)) with ({[0%nat := demo_qpair []]} : gmap nat spdk_nvmf_qpair) in E.
  apply lookup_singleton_Some in E as [_ <-]. by rewrite bool_decide_false by apply not_elem_of_nil.
Qed.

Definition demo_no_cmds : nat -> M exec_status := fun _ => mret COMPLETE.

Lemma exec_refused_answered_witness :
  let lib := demo_lib in
  let ni := demo_ni SPDK_NVME_RESERVE_EXCLUSIVE_ACCESS 2 [2] in
  let w := demo_arrival (demo_rw_req SPDK_NVME_OPC_READ) ni (replicate 4096 0) in
  wp (spdk_nvmf_request_exec false demo_no_cmds demo_no_cmds 0) w (fun _ w' =>
    refused w w' 0 0 (SPDK_NVME_SCT_GENERIC, SPDK_NVME_SC_RESERVATION_CONFLICT, 0) /\ accounted w').
Proof.
  intros lib ni w.
  pose proof (refuse_conflict w (demo_rw_req SPDK_NVME_OPC_READ) demo_ctrlr (NvmfNs 1 (Some demo_bdev) demo_desc false)
    SPDK_NVME_ANA_OPTIMIZED_STATE ni eq_refl eq_refl ltac:(done) eq_refl eq_refl eq_refl eq_refl) as HR.
  pose proof (@exec_refused_answered demo_lib false demo_no_cmds demo_no_cmds w 0 0 _ _ _ ni _
    (demo_io_arrival (demo_rw_req SPDK_NVME_OPC_READ) SPDK_NVME_RESERVE_EXCLUSIVE_ACCESS 2 [2] _ eq_refl eq_refl ltac:(done) eq_refl)
    eq_refl HR (demo_arrival_accounted _ _ _ _ _)) as W.
  eapply wp_mono; [exact W|]. intros _ w' (H1 & H2 & _). by split.
Defined.

(** The platform's search ignores reservations.  On a namespace another host
    has reserved for exclusive access every read of a host that is not
    registered is refused, yet a search by the same host is accepted: its
    execution submits a read of the blocks to the device, and the callback
    will return the matching lines.  The same holds of the combination, the
    ciphertext addition and the standard copy, none of which the check knows. *)
Theorem search_ignores_reservation `{HeaanLib} heaan_lib fabrics admin w rid q r qp ct ni bdev desc g z ana s n m
    (HA : io_arrival w rid q r qp ct ni) (Hen : ct_cc_en ct = 1)
    (Hns : nvmf_ctrlr_get_ns (w_subsys w) ct (nsid (req_cmd r)) = Some (NvmfNs g (Some bdev) desc z))
    (Hana : ana_state_of (w_subsys w) ct g = Some ana) (Hac : accessible ana = true)
    (Hf : fuse (req_cmd r) = SPDK_NVME_CMD_FUSE_NONE) (Hff : qp_first_fused_req qp = None)
    (Hop : opc (req_cmd r) = SPDK_NVME_OPC_CUSTOM_GREP) (HG : grep_req bdev desc r s n) (Hrg : s + n <= blockcnt bdev)
    (Hma : w_malloc w = []) (Htk : take_io (w_mgmt w) = Some m)
    (Hrt : ni_rtype ni = SPDK_NVME_RESERVE_EXCLUSIVE_ACCESS) (Hho : ni_holder_id ni <> ct_hostid ct)
    (Hre : nvmf_ns_info_ctrlr_is_registrant ni ct = false) :
  (forall cmd, opc cmd = SPDK_NVME_OPC_READ -> conflicts ni ct cmd = true) /\
  (forall cmd, opc cmd ∈ [SPDK_NVME_OPC_CUSTOM_ECHO; SPDK_NVME_OPC_CUSTOM_GREP; SPDK_NVME_OPC_CUSTOM_HEAAN_ADD; SPDK_NVME_OPC_COPY] ->
     conflicts ni ct cmd = false) /\
  wp (spdk_nvmf_request_exec heaan_lib fabrics admin rid) w (fun _ w' =>
    exists io, w_ios w' !! S (S (w_next w)) = Some io /\
      io_type io = IO_READ /\ io_offset_blocks io = s /\ io_num_blocks io = n /\ w_log w' = w_log w).
Proof.
  split; [|split; [apply unknown_no_conflict|]].
  { intros cmd Ho. unfold conflicts, holds, role_of, reservation_status. rewrite Ho, Hrt, Hre, (proj2 (Z.eqb_neq _ _) Hho). reflexivity. }
  eapply (exec_plain_wp _ _ _ w rid q r qp ct ni bdev desc).
  { split; [done| |done|done]. split; [done| |apply HA|].
    - by exists g, z, ana.
    - apply unknown_no_conflict. rewrite Hop. set_solver. }
  rewrite Hop. change (dispatch_opcode _ _ _ bdev desc rid SPDK_NVME_OPC_CUSTOM_GREP) with (nvmf_bdev_ctrlr_custom_grep_cmd bdev desc rid).
  wstep. eapply (grep_cmd_wp bdev desc _ rid (checked ni ct r) s n).
  - by destruct HG.
  - apply (at_handler_live _ _ _ _ _ _ _ HA).
  - done.
  - done.
  - change (w_mgmt (at_handler w rid q r qp ct ni)) with (w_mgmt w). rewrite Htk. cbv zeta. rewrite bool_decide_false by done. wsteps.
    eexists. split; [apply lookup_insert_eq|]. done.
Qed.

Lemma search_ignores_reservation_witness :
  let lib := demo_lib in
  let w := demo_arrival demo_grep_req (demo_ni SPDK_NVME_RESERVE_EXCLUSIVE_ACCESS 2 [2]) demo_grep_disk in
  wp (spdk_nvmf_request_exec false demo_no_cmds demo_no_cmds 0) w (fun _ w' =>
    exists io, w_ios w' !! 2%nat = Some io /\ io_type io = IO_READ /\ io_offset_blocks io = 2).
Proof.
  intros lib w.
  pose proof (@search_ignores_reservation demo_lib false demo_no_cmds demo_no_cmds w 0 0 demo_grep_req _ demo_ctrlr _ demo_bdev demo_desc 1 false
    SPDK_NVME_ANA_OPTIMIZED_STATE 2 1 (MgmtCh 3 4 4 [])
    (demo_io_arrival demo_grep_req SPDK_NVME_RESERVE_EXCLUSIVE_ACCESS 2 [2] _ eq_refl eq_refl ltac:(done) eq_refl)
    eq_refl eq_refl eq_refl eq_refl eq_refl eq_refl eq_refl (sr_req _ _ _ _ _ _ _ _ _ _ _ demo_search_ready) ltac:(done) eq_refl eq_refl
    eq_refl ltac:(done) eq_refl) as (_ & _ & W).
  eapply wp_mono; [exact W|]. intros _ w' (io & Hi & Ht & Ho & _). by exists io.
Defined.

(** C12. A read, from its arrival to its answer: the request of a host that may
    read is admitted, checked, given to the device, and answered once.  When
    the device reports success the request's vector holds the blocks and the
    status is success; when the device reports a failure the status is the
    one the block-device layer derives from it and the vector is as it was.
    Either way the request is no longer outstanding, the counter of every
    namespace is again the number of its outstanding requests, and the I/O
    object is back. *)
Theorem exec_read_answered `{HeaanLib} heaan_lib fabrics admin w rid q r qp ct ni bdev desc s n m res
    (HP : io_plain w rid q r qp ct ni bdev desc) (Hop : opc (req_cmd r) = SPDK_NVME_OPC_READ)
    (HF : rw_fits bdev desc w r s n m) (Hacc : accounted w)
    (Hres : res = device_ok \/ (dr_status res <> IO_STATUS_PENDING /\ dr_status res <> IO_STATUS_SUCCESS)) :
  let iod := w_next w in
  let io := finished (rw_io IO_READ desc rid r s n) res (dr_status res) in
  wp (spdk_nvmf_request_exec heaan_lib fabrics admin rid;; device_complete iod res;; nvmf_bdev_ctrlr_complete_cmd iod rid) w (fun _ w' =>
    exists r' qp' c, w_reqs w' !! rid = Some r' /\ w_qpairs w' !! q = Some qp' /\ rid ∉ qp_outstanding qp' /\
      answers_only w w' [(rid, c)] /\ responded (spdk_bdev_io_get_nvme_status io) c /\
      flat (req_iov r') = (if bool_decide (dr_status res = IO_STATUS_SUCCESS)
        then splice 0 (slice (blocks_off bdev s) (Z.to_nat (n * blocklen bdev)) (w_disk w)) (flat (req_iov r)) else flat (req_iov r)) /\
      accounted w' /\ w_disk w' = w_disk w /\ w_ios w' = w_ios w /\ free_ios (w_mgmt w') = free_ios (w_mgmt w)).
Proof.
  intros iod io. pose proof HP as [HA _ _ _]. pose proof (rw_fits_ready _ _ _ _ _ _ _ _ _ _ _ _ HA HF) as HR.
  set (wh := at_handler w rid q r qp ct ni) in *. set (r1 := checked ni ct r) in *. pose proof HR as [HQ HL Hff Hrg Hlen Hcnt Hvec Htk Hmg Hd Hfr].
  wstep. eapply (exec_plain_wp _ _ _ w rid q r qp ct ni bdev desc); [done|]. fold wh. rewrite Hop.
  change (dispatch_opcode _ _ _ bdev desc rid SPDK_NVME_OPC_READ) with (nvmf_bdev_ctrlr_read_cmd bdev desc rid).
  wstep. eapply (read_cmd_wp bdev desc wh rid r1 s n HQ (lr_req _ _ _ _ _ _ HL)). rewrite (rr_valid _ _ _ _ _ _ _ _ _ _ _ HR). cbn [negb].
  destruct (Z.ltb_spec (req_length r1) (n * blocklen bdev)); [lia|].
  intros st w' [-> Ho]. rewrite Htk in Ho. subst w'. rewrite bool_decide_false by done. wsteps.
  assert (Haer : is_aer (req_cmd r) = false) by (unfold is_aer; by rewrite Hop).
  assert (Hwh : accounted (submitted (rw_io IO_READ desc rid r1 s n) m wh)).
  { apply (accounted_ext wh); [done..|]. by apply accounted_at_handler. }
  destruct HF as [_ _ _ _ _ _ Htk0 Hmg0 _ Hfr0].
  destruct Hres as [->|[Hp Hs]].
  - eapply device_complete_wp; [by apply lookup_insert_eq|done|done| |done]. intros _.
    eapply (transfer_read_req _ _ _ (rr_in_medium _ _ _ _ _ _ _ _ _ _ _ HR IO_READ) rid (req_iovcnt r) r1); [done|done|apply HL|done| |].
    { cbn [io_desc rw_io with_range]. change (desc_bdev _) with (desc_bdev desc). by rewrite (rw_desc _ _ _ _ _ HQ). }
    intros iovs' El Ef. eexists. split; [by apply lookup_insert_eq|].
    rewrite bool_decide_true by done.
    eapply wp_mono; [eapply (complete_plain_wp w _ iod io rid q (r1 <| req_iov := iovs' |>) (qpair_with rid qp) ct m)|]; try done.
    + eapply (live_req_upd wh); [done|wsimp; by rewrite lookup_insert_eq|done..].
    + wsimp. apply lookup_insert_eq.
    + transitivity (delete iod (<[iod := io]> (<[iod := rw_io IO_READ desc rid r1 s n]> (w_ios w)))); [reflexivity|].
      rewrite !delete_insert_eq. exact (delete_id _ _ Hfr0).
    + eapply (accounted_upd _ _ rid r1 (r1 <| req_iov := iovs' |>)); [apply HL|reflexivity|done|done|reflexivity|reflexivity|exact Hwh].
    + intros _ w' (r' & qp' & c & H1 & H2 & H3 & H4 & H5 & H6 & H7). exists r', qp', c. repeat (split; [done|]).
      split; [|done]. rewrite H6. cbn [req_iov set]. wsimp. rewrite Ef. unfold blocks_off, bytes_of_blocks.
      change (desc_bdev (io_desc _)) with (desc_bdev desc). by rewrite (rw_desc _ _ _ _ _ HQ).
  - eapply device_complete_wp; [by apply lookup_insert_eq|done|done|done|]. intros _. rewrite bool_decide_false by done.
    eapply (complete_plain_wp w _ iod io rid q r1 (qpair_with rid qp) ct m); try done.
    + eapply (live_req_upd wh); [done|apply HL|done..].
    + wsimp. apply lookup_insert_eq.
    + transitivity (delete iod (<[iod := io]> (<[iod := rw_io IO_READ desc rid r1 s n]> (w_ios w)))); [reflexivity|].
      rewrite !delete_insert_eq. exact (delete_id _ _ Hfr0).
Qed.

Lemma demo_fits disk : length disk = 4096%nat ->
  rw_fits demo_bdev demo_desc (demo_arrival (demo_rw_req SPDK_NVME_OPC_READ) (demo_ni 0 0 []) disk)
    (demo_rw_req SPDK_NVME_OPC_READ) 2 2 (MgmtCh 3 4 4 []).
Proof.
  intros Hd. by split.
Qed.

Lemma exec_read_answered_witness :
  let lib := demo_lib in
  let w := demo_arrival (demo_rw_req SPDK_NVME_OPC_READ) (demo_ni 0 0 []) (replicate 4096 5) in
  wp (spdk_nvmf_request_exec false demo_no_cmds demo_no_cmds 0;; device_complete 0 device_ok;; nvmf_bdev_ctrlr_complete_cmd 0 0) w (fun _ w' =>
    exists r', w_reqs w' !! 0%nat = Some r' /\ flat (req_iov r') = replicate 1024 5 /\ accounted w').
Proof.
  intros lib w.
  pose proof (@exec_read_answered demo_lib false demo_no_cmds demo_no_cmds w 0 0 _ _ _ _ _ _ 2 2 (MgmtCh 3 4 4 []) device_ok
    (demo_io_plain (demo_rw_req SPDK_NVME_OPC_READ) (replicate 4096 5) eq_refl eq_refl ltac:(done) eq_refl eq_refl) eq_refl (demo_fits (replicate 4096 5) eq_refl) (demo_arrival_accounted _ _ _ _ _) (or_introl eq_refl)) as W. cbv zeta in W.
  eapply wp_mono; [exact W|]. intros _ w' (r' & qp' & c & Hr & _ & _ & _ & _ & Hf & Ha & _).
  exists r'. split; [exact Hr|]. split; [|exact Ha]. rewrite Hf. by vm_compute.
Defined.
