(* ===== verification/HostPassthru.v ===== *)
(** * The host: file layouts and pass-through commands

    nvme.c of nvme-cli: [get_file_layout] asks the file system where a file
    is on the medium, and [passthru] sends the platform's commands - the
    search 0xd1 of a file, the ciphertext addition 0xe0 of three files, the
    combination 0xd0 - with those places in the command or in the data.  The
    operating system is the interface [HostOS]. *)
From Stdlib Require Import Ascii.
From stdpp Require Import strings.
From S2P Require Import Prelude NvmeSpec Iov World Request Bdev CtrlrBdev NdpGrep NdpEcho NdpHeaan HeaanAdd.

(** ** The operating system *)

Record fiemap_extent := FiemapExtent { fe_logical : Z; fe_physical : Z; fe_length : Z }.
(** [struct fiemap]: the request's fields, and the extents the call stores. *)
Record fiemap := Fiemap {
  fm_start : Z; fm_length : Z; fm_flags : Z; fm_mapped_extents : Z; fm_extent_count : Z; fm_extents : list fiemap_extent }.

(** [struct passthru_config], without the options that only affect output. *)
Record passthru_config := PassthruConfig {
  pc_opcode : Z; pc_flags : Z; pc_rsvd : Z; pc_namespace_id : Z; pc_data_len : Z; pc_metadata_len : Z;
  pc_cdw2 : Z; pc_cdw3 : Z; pc_cdw10 : Z; pc_cdw11 : Z; pc_cdw12 : Z; pc_cdw13 : Z; pc_cdw14 : Z; pc_cdw15 : Z;
  pc_input_file : string; pc_metadata : string; pc_raw_binary : bool; pc_dry_run : bool;
  pc_read : bool; pc_write : bool; pc_prefill : Z; pc_target_file : string }.
#[global] Instance eta_pc : Eta passthru_config := fun c =>
  PassthruConfig (pc_opcode c) (pc_flags c) (pc_rsvd c) (pc_namespace_id c) (pc_data_len c) (pc_metadata_len c)
    (pc_cdw2 c) (pc_cdw3 c) (pc_cdw10 c) (pc_cdw11 c) (pc_cdw12 c) (pc_cdw13 c) (pc_cdw14 c) (pc_cdw15 c)
    (pc_input_file c) (pc_metadata c) (pc_raw_binary c) (pc_dry_run c) (pc_read c) (pc_write c) (pc_prefill c) (pc_target_file c).

(** The calls the program makes, on an abstract state: descriptors are
    negative on failure, [os_garbage] is what fresh memory of a size holds,
    [os_fiemap] is the FIEMAP ioctl on the given request,
    [os_read] the bytes it got, [os_submit] the pass-through ioctl with the
    data and metadata buffers (its error, and the buffers afterwards). *)
Class HostOS := {
  os : Type;
  os_malloc : os -> bool * os; os_garbage : nat -> os -> bytes * os; os_memalign : os -> bool * os; os_hugetlb : os -> bool * os; os_madvise : os -> bool * os;
  os_open : string -> Z -> os -> Z * os; os_close : Z -> os -> os; os_fsync : Z -> os -> os;
  os_fiemap : Z -> fiemap -> os -> option fiemap * os;
  os_fallocate : Z -> Z -> os -> Z * os;
  os_read : Z -> nat -> os -> option bytes * os; os_write : Z -> bytes -> os -> os; os_errno : os -> Z;
  os_print : bytes -> os -> os; os_hexdump : bytes -> os -> os;
  os_submit : bool -> passthru_config -> option bytes -> option bytes -> os -> (Z * option bytes * option bytes) * os }.

Definition O_RDONLY : Z := 0.
Definition O_WRONLY : Z := 1.
Definition O_RDWR : Z := 2.
Definition O_CREAT : Z := 64.
Definition FIEMAP_MAX_OFFSET : Z := UINT64_MAX.
Definition MAX_EXTENTS : nat := 1024.

Section Host.
Context `{HostOS}.

(** ** Programs of the host *)

(** A result and the state, or undefined behaviour. *)
Inductive hres (A : Type) := HRet (a : A) (s : os) | HUndef.
#[global] Arguments HRet {A} a s.
#[global] Arguments HUndef {A}.
Definition Host (A : Type) : Type := os -> hres A.
#[global] Instance Host_ret : MRet Host := fun A a s => HRet a s.
#[global] Instance Host_bind : MBind Host := fun A B k m s => match m s with HRet a s => k a s | HUndef => HUndef end.

Definition call {A} (f : os -> A * os) : Host A := fun s => let '(a, s) := f s in HRet a s.
Definition act (f : os -> os) : Host unit := fun s => HRet tt (f s).
Definition hneed {A} (o : option A) : Host A := fun s => match o with Some a => HRet a s | None => HUndef end.
Definition hassert (b : bool) : Host unit := fun s => if b then HRet tt s else HUndef.

(** A stage of [passthru]: it returns from the function with a code, or goes
    on. *)
Definition andthen {A B} (m : Host (Z + A)) (k : A -> Host (Z + B)) : Host (Z + B) :=
  x ← m; match x with inl rc => mret (inl rc) | inr a => k a end.

(** ** Buffers (util/mem.c) *)

Definition ROUND_UP (n s : Z) : Z := u64 (u64 (n + s - 1) / s * s).
Definition HUGE_MIN : Z := 0x80000.

Definition nvme_alloc (len : Z) : Host (option bytes) :=
  let len := ROUND_UP len 0x1000 in
  ok ← call os_memalign;
  mret (if (ok : bool) then Some (replicate (Z.to_nat len) 0) else None).

(** The buffer and how it was obtained is freed on every exit of the caller. *)
Definition nvme_alloc_huge (len : Z) : Host (option bytes) :=
  let len := ROUND_UP len 0x1000 in
  if len <? HUGE_MIN then nvme_alloc len
  else
    ok ← call os_hugetlb;
    if (ok : bool) then mret (Some (replicate (Z.to_nat len) 0))
    else
      let len := ROUND_UP len 0x200000 in
      ok ← call os_memalign;
      if negb ok then mret None
      else
        ok ← call os_madvise;
        mret (if (ok : bool) then Some (replicate (Z.to_nat len) 0) else None).

(** [memset] of the first [n] bytes. *)
Definition hmemset (b : bytes) (v : Z) (n : Z) : Host bytes :=
  hassert (Z.to_nat n <=? length b)%nat;; mret (splice 0 (replicate (Z.to_nat n) v) b).

(** ** The layout of a file *)

(** [extent_info_t] and [file_layout_t]. *)
Record extent_info_t := ExtentInfo {
  ei_logical_offset : Z; ei_physical_offset : Z; ei_length : Z; ei_lba_start : Z; ei_lba_count : Z }.
Record file_layout_t := FileLayout {
  fl_extent_count : Z; fl_start_offset : Z; fl_total_length : Z; fl_extents : list extent_info_t }.

(** The loop over the extents of the answer. *)
Fixpoint copy_extents (fm : list fiemap_extent) (i n : nat) (total : Z) (out : list extent_info_t) : Host (list extent_info_t * Z) :=
  match n with
  | O => mret (out, total)
  | S n =>
      e ← hneed (fm !! i);
      hassert (i <? MAX_EXTENTS)%nat;;
      copy_extents fm (S i) n (u64 (total + fe_length e))
        (out ++ [ExtentInfo (fe_logical e) (fe_physical e) (fe_length e) (fe_physical e) (fe_length e)])
  end.

Definition get_file_layout (filename : string) : Host (option file_layout_t) :=
  layout ← call os_malloc; hassert layout;;
  _ ← call os_malloc;
  extents ← call os_malloc;
  fm ← call os_malloc; hassert fm;;
  let req := Fiemap 0 FIEMAP_MAX_OFFSET 0 0 (Z.of_nat MAX_EXTENTS) [] in
  fd ← call (os_open filename O_RDONLY);
  if fd <? 0 then mret None
  else
    act (os_fsync fd);;
    ans ← call (os_fiemap fd req);
    match ans with
    | None => act (os_close fd);; mret None
    | Some fm =>
        let extent_count := i32 (fm_mapped_extents fm) in
        hassert (extents || (extent_count <=? 0));;
        '(es, total) ← copy_extents (fm_extents fm) 0 (Z.to_nat extent_count) 0 [];
        act (os_close fd);;
        mret (Some (FileLayout extent_count (fm_start fm) total es))
    end.

(** ** Paths *)

(** [strrchr (s, '/')] as a position. *)
Fixpoint last_slash (s : string) : option nat :=
  match s with
  | EmptyString => None
  | String a s =>
      match last_slash s with
      | Some i => Some (S i)
      | None => if Ascii.eqb a "/"%char then Some 0%nat else None
      end
  end.

(** The directory with its separator, and the name; [None] for a component
    whose memory could not be allocated. *)
Definition split_path (full_path : string) : Host (option string * option string) :=
  match last_slash full_path with
  | None =>
      p ← call os_malloc; n ← call os_malloc;
      mret (if (p : bool) then Some "./"%string else None, if (n : bool) then Some full_path else None)
  | Some i =>
      let path_len := S i in
      p ← call os_malloc; n ← call os_malloc;
      mret (if (p : bool) then Some (String.substring 0 path_len full_path) else None,
            if (n : bool) then Some (String.substring path_len (String.length full_path - path_len) full_path) else None)
  end.

(** ** The command *)

(** The state of [passthru] between its stages. *)
Record pstate := PState { ps_cfg : passthru_config; ps_data : option bytes; ps_mdata : option bytes; ps_dfd : Z; ps_mfd : Z }.

(** The direction bits of the opcode.  [flags] is assigned in these branches
    only: [flags0] is whatever is in the variable before. *)
Definition direction (flags0 : Z) (cfg : passthru_config) : passthru_config * Z * Z :=
  let '(cfg, flags, fd) :=
    if Z.land (pc_opcode cfg) 0x01 !=? 0 then (cfg <| pc_write := true |>, O_RDONLY, 0) else (cfg, flags0, -1) in
  if Z.land (pc_opcode cfg) 0x02 !=? 0 then (cfg <| pc_read := true |>, Z.lor O_WRONLY O_CREAT, 1) else (cfg, flags, fd).

Definition open_files (flags0 : Z) (cfg : passthru_config) : Host (Z + pstate) :=
  let '(cfg, flags, fd) := direction flags0 cfg in
  dfd ← (if (pc_opcode cfg =? 0xe0) || bool_decide (pc_input_file cfg = EmptyString) then mret fd
         else call (os_open (pc_input_file cfg) flags));
  if (dfd <? 0) && negb ((pc_opcode cfg =? 0xe0) || bool_decide (pc_input_file cfg = EmptyString)) then mret (inl (- EINVAL))
  else
    mfd ← (if bool_decide (pc_metadata cfg = EmptyString) then mret fd else call (os_open (pc_metadata cfg) flags));
    if (mfd <? 0) && negb (bool_decide (pc_metadata cfg = EmptyString)) then mret (inl (- EINVAL))
    else mret (inr (PState cfg None None dfd mfd)).

(** Opcode 0xd1: the place of the file goes into the command. *)
Definition search_fields (cfg : passthru_config) (es : list extent_info_t) : passthru_config :=
  foldl (fun cfg e => cfg <| pc_cdw11 := u32 (ei_lba_start e) |> <| pc_cdw12 := u32 (ei_lba_count e) |>) cfg es.

Definition offload_search (ps : pstate) : Host (Z + pstate) :=
  let cfg := ps_cfg ps in
  if pc_opcode cfg !=? 0xd1 then mret (inr ps)
  else
    l ← get_file_layout (pc_target_file cfg);
    match l with
    | None => mret (inl 1)
    | Some layout =>
        let cfg := search_fields cfg (fl_extents layout) in
        mret (inr (PState (cfg <| pc_data_len := 8192 |>) (ps_data ps) (ps_mdata ps) (ps_dfd ps) (ps_mfd ps)))
    end.

(** [u64data[i] = v] *)
Definition store_u64 (b : bytes) (i : Z) (v : Z) : Host bytes :=
  hassert (8 * Z.to_nat i + 8 <=? length b)%nat;; mret (splice (8 * Z.to_nat i) (le_enc 8 v) b).

(** The loop over the extents of a layout, [i] and [bufnum] being unsigned. *)
Fixpoint put_extents (es : list extent_info_t) (i n : nat) (b : bytes) (bufnum : Z) : Host (bytes * Z) :=
  match n with
  | O => mret (b, bufnum)
  | S n =>
      ext ← hneed (es !! i);
      b ← store_u64 b bufnum (ei_lba_start ext);
      b ← store_u64 b (u32 (bufnum + 1)) (ei_lba_count ext);
      put_extents es (S i) n b (u32 (u32 (bufnum + 1) + 1))
  end.

Definition put_layout (l : file_layout_t) (b : bytes) (bufnum : Z) : Host (bytes * Z) :=
  b ← store_u64 b bufnum (fl_start_offset l);
  put_extents (fl_extents l) 0 (Z.to_nat (u32 (fl_extent_count l))) b (u32 (bufnum + 1)).

(** Opcode 0xe0: the places of the three files go into the data. *)
Definition offload_add (ps : pstate) : Host (Z + pstate) :=
  let cfg := (ps_cfg ps) <| pc_write := true |> in
  l0 ← get_file_layout (pc_input_file cfg);
  match l0 with
  | None => mret (inl 1)
  | Some input_0_layout =>
      let cfg := cfg <| pc_cdw11 := u32 (fl_extent_count input_0_layout) |> in
      let cip_size := fl_total_length input_0_layout in
      l1 ← get_file_layout (pc_metadata cfg);
      match l1 with
      | None => mret (inl 1)
      | Some input_1_layout =>
          let cfg := cfg <| pc_cdw12 := u32 (fl_extent_count input_1_layout) |> in
          target_fd ← call (os_open (pc_target_file cfg) (Z.lor O_RDWR O_CREAT));
          rc ← call (os_fallocate target_fd cip_size);
          if rc !=? 0 then mret (inl 1)
          else
            lt ← get_file_layout (pc_target_file cfg);
            match lt with
            | None => mret (inl 1)
            | Some target_layout =>
                let cfg := cfg <| pc_cdw13 := u32 (fl_extent_count target_layout) |> <| pc_data_len := 4096 |> in
                p ← nvme_alloc_huge 4096;
                match p with
                | None => mret (inl (- ENOMEM))
                | Some data =>
                    data ← hmemset data (pc_prefill cfg) 4096;
                    '(data, bufnum) ← put_layout input_0_layout data 0;
                    '(data, bufnum) ← put_layout input_1_layout data bufnum;
                    '(data, _) ← put_layout target_layout data bufnum;
                    mret (inr (PState cfg (Some data) None (ps_dfd ps) (ps_mfd ps)))
                end
            end
      end
  end.

(** The buffers of any other command. *)
Definition fill_buffers (ps : pstate) : Host (Z + pstate) :=
  let cfg := ps_cfg ps in
  andthen
    (if pc_data_len cfg =? 0 then mret (inr ps)
     else
       p ← nvme_alloc_huge (pc_data_len cfg);
       match p with
       | None => mret (inl (- ENOMEM))
       | Some data =>
           data ← hmemset data (pc_prefill cfg) (pc_data_len cfg);
           if negb (pc_read cfg) && negb (pc_write cfg) then mret (inl (- EINVAL))
           else if pc_write cfg then
             x ← call (os_read (ps_dfd ps) (Z.to_nat (pc_data_len cfg)));
             match x with
             | None => fun s => HRet (inl (- os_errno s)) s
             | Some got => hassert (length got <=? length data)%nat;;
                 mret (inr (PState cfg (Some (splice 0 got data)) None (ps_dfd ps) (ps_mfd ps)))
             end
           else mret (inr (PState cfg (Some data) None (ps_dfd ps) (ps_mfd ps)))
       end)
    (fun ps =>
       if pc_metadata_len cfg =? 0 then mret (inr ps)
       else
         ok ← call os_malloc;
         mdata ← call (os_garbage (Z.to_nat (pc_metadata_len cfg)));
         if negb ok then mret (inl (- ENOMEM))
         else if pc_write cfg then
           x ← call (os_read (ps_mfd ps) (Z.to_nat (pc_metadata_len cfg)));
           match x with
           | None => fun s => HRet (inl (- os_errno s)) s
           | Some got =>
               hassert (length got <=? length mdata)%nat;;
               mret (inr (PState cfg (ps_data ps) (Some (splice 0 got mdata)) (ps_dfd ps) (ps_mfd ps)))
           end
         else mret (inr (PState cfg (ps_data ps) (Some (replicate (Z.to_nat (pc_metadata_len cfg)) (pc_prefill cfg)))
                           (ps_dfd ps) (ps_mfd ps)))).

(** What is done with the data that came back. *)
Definition passthru_print_read_output (ps : pstate) (err : Z) : Host unit :=
  let cfg := ps_cfg ps in
  let show (b : bytes) (n : Z) :=
    if pc_raw_binary cfg then hassert (Z.to_nat n <=? length b)%nat;; act (os_print (take (Z.to_nat n) b))
    else if err =? 0 then hassert (Z.to_nat n <=? length b)%nat;; act (os_hexdump (take (Z.to_nat n) b)) else mret tt in
  (if bool_decide (pc_input_file cfg <> EmptyString) then
     act (os_write (ps_dfd ps) (take (Z.to_nat (pc_data_len cfg)) (default [] (ps_data ps))))
   else match ps_data ps with Some b => show b (pc_data_len cfg) | None => mret tt end);;
  (if pc_metadata_len cfg !=? 0 then
     if bool_decide (pc_metadata cfg <> EmptyString) then
       act (os_write (ps_mfd ps) (take (Z.to_nat (pc_metadata_len cfg)) (default [] (ps_mdata ps))))
     else match ps_mdata ps with
          | Some b => show b (pc_metadata_len cfg)
          | None => hassert (negb (pc_raw_binary cfg) && (err !=? 0))
          end
   else mret tt).

(** The command is sent, and its answer shown. *)
Definition send (admin : bool) (ps : pstate) : Host Z :=
  let cfg := ps_cfg ps in
  if pc_dry_run cfg then mret 0
  else
    '(err, data, mdata) ← call (os_submit admin cfg (ps_data ps) (ps_mdata ps));
    (if err =? 0 then
       let ps := PState cfg data mdata (ps_dfd ps) (ps_mfd ps) in
       (if (pc_opcode cfg =? 0xD0) || (pc_opcode cfg =? 0xD1) then
          match data with
          | Some b => hassert (Z.to_nat (pc_data_len cfg) <=? length b)%nat;; act (os_print (take (Z.to_nat (pc_data_len cfg)) b))
          | None => hassert (pc_data_len cfg =? 0)
          end
        else mret tt);;
       (if pc_read cfg then passthru_print_read_output ps err else mret tt)
     else mret tt);;
    mret err.

(** [passthru] after its options have been parsed and the device opened. *)
Definition passthru (admin : bool) (flags0 : Z) (cfg : passthru_config) : Host Z :=
  x ← andthen (open_files flags0 cfg) (fun ps =>
        andthen (offload_search ps) (fun ps =>
          if pc_opcode (ps_cfg ps) =? 0xe0 then offload_add ps else fill_buffers ps));
  match x with inl rc => mret rc | inr ps => send admin ps end.
End Host.

(** ** Specification of the layouts *)

(** The places of a file as the target's payload has them. *)
Definition extent_pair (e : extent_info_t) : Z * Z := (ei_lba_start e, ei_lba_count e).
Definition places_of (l : file_layout_t) : list (Z * Z) := extent_pair <$> fl_extents l.
Definition words_of (l : file_layout_t) : list Z := fl_start_offset l :: flatten (places_of l).

(** A layout that [get_file_layout] returns when the file system's answer is
    as documented: no more extents than there was room for. *)
Definition layout_ok (l : file_layout_t) : Prop :=
  fl_extent_count l = Z.of_nat (length (fl_extents l)) /\ (length (fl_extents l) <= MAX_EXTENTS)%nat.
Definition fiemap_ok (fm : fiemap) : Prop :=
  0 <= fm_mapped_extents fm <= Z.of_nat MAX_EXTENTS /\ fm_mapped_extents fm <= Z.of_nat (length (fm_extents fm)).

Definition info_of (e : fiemap_extent) : extent_info_t :=
  ExtentInfo (fe_logical e) (fe_physical e) (fe_length e) (fe_physical e) (fe_length e).
Definition layout_of (fm : fiemap) : file_layout_t :=
  let es := take (Z.to_nat (fm_mapped_extents fm)) (fm_extents fm) in
  FileLayout (fm_mapped_extents fm) (fm_start fm) (foldl (fun t e => u64 (t + fe_length e)) 0 es) (info_of <$> es).

(** ** Lemmas *)

Lemma splice_words k ws1 ws2 b : (8 * (k + length ws1 + length ws2) <= length b)%nat ->
  splice (8 * (k + length ws1)) (encode_words ws2) (splice (8 * k) (encode_words ws1) b) = splice (8 * k) (encode_words (ws1 ++ ws2)) b.
Proof.
  intros Hb. rewrite encode_words_app. rewrite <- splice_splice by (rewrite !length_encode_words; lia).
  rewrite length_encode_words. by rewrite Nat.mul_add_distr_l.
Qed.
Lemma le_enc_word x : le_enc 8 x = encode_words [x].
Proof. unfold encode_words. cbn [fmap list_fmap concat]. by rewrite app_nil_r. Qed.

Section HostLemmas.
Context `{HostOS}.

Lemma bind_ret {A B} (m : Host A) (k : A -> Host B) s a s' : m s = HRet a s' -> (m ≫= k) s = k a s'.
Proof. unfold mbind, Host_bind. by intros ->. Qed.
Lemma bind_undef {A B} (m : Host A) (k : A -> Host B) s : m s = HUndef -> (m ≫= k) s = HUndef.
Proof. unfold mbind, Host_bind. by intros ->. Qed.

Lemma call_ret {A} (f : os -> A * os) s a s' : f s = (a, s') -> call f s = HRet a s'.
Proof. unfold call. by intros ->. Qed.

Lemma store_u64_ok b i v s : (8 * Z.to_nat i + 8 <= length b)%nat ->
  store_u64 b i v s = HRet (splice (8 * Z.to_nat i) (le_enc 8 v) b) s.
Proof. intros Hi. unfold store_u64, hassert, mbind, Host_bind. by rewrite (proj2 (Nat.leb_le _ _) Hi). Qed.
Lemma store_u64_undef b i v s : (length b < 8 * Z.to_nat i + 8)%nat -> store_u64 b i v s = HUndef.
Proof. intros Hi. unfold store_u64, hassert, mbind, Host_bind. by rewrite (proj2 (Nat.leb_gt _ _) Hi). Qed.

Lemma hmemset_ok b v n s : (Z.to_nat n <= length b)%nat -> hmemset b v n s = HRet (splice 0 (replicate (Z.to_nat n) v) b) s.
Proof. intros Hn. unfold hmemset, hassert, mbind, Host_bind. by rewrite (proj2 (Nat.leb_le _ _) Hn). Qed.

(** The words of the remaining extents are stored one after the other. *)
Lemma put_extents_ok es n i k b s : (i + n = length es)%nat -> (8 * (k + 2 * n) <= length b)%nat -> Z.of_nat (k + 2 * n) < 2 ^ 32 ->
  put_extents es i n b (Z.of_nat k) s =
  HRet (splice (8 * k) (encode_words (flatten (extent_pair <$> drop i es))) b, Z.of_nat (k + 2 * n)) s.
Proof.
  revert i k b. induction n as [|n IH]; intros i k b Hn Hb Hk; cbn [put_extents].
  - rewrite drop_ge by lia. cbn [fmap list_fmap flatten]. rewrite splice_nil. by rewrite Nat.mul_0_r, Nat.add_0_r.
  - destruct (lookup_lt_is_Some_2 es i) as [e He]; [lia|].
    erewrite bind_ret by (unfold hneed; by rewrite He). erewrite bind_ret by (apply store_u64_ok; rewrite Nat2Z.id; lia).
    rewrite (u32_small (Z.of_nat k + 1)), Nat2Z.id by lia.
    erewrite bind_ret by (apply store_u64_ok; rewrite length_splice by (rewrite length_le_enc; lia); lia).
    rewrite u32_small by lia. replace (Z.of_nat k + 1 + 1) with (Z.of_nat (k + 2)) by lia.
    rewrite IH; [|lia| |lia].
    + f_equal. f_equal; [|lia]. rewrite (drop_S _ _ _ He). cbn [fmap list_fmap flatten].
      change (flatten (extent_pair e :: (extent_pair <$> drop (S i) es)))
        with ([ei_lba_start e] ++ [ei_lba_count e] ++ flatten (extent_pair <$> drop (S i) es)).
      rewrite !le_enc_word. replace (Z.to_nat (Z.of_nat k + 1)) with (k + length [ei_lba_start e])%nat by (cbn; lia).
      assert (Hf : length (flatten (extent_pair <$> drop (S i) es)) = (2 * n)%nat) by (rewrite length_flatten, length_fmap, length_drop; lia).
      rewrite splice_words by (cbn; lia). rewrite app_assoc.
      change (k + 2)%nat with (k + length ([ei_lba_start e] ++ [ei_lba_count e]))%nat.
      apply splice_words. rewrite Hf. cbn. lia.
    + rewrite !length_splice; rewrite ?length_splice; rewrite ?length_le_enc; lia.
Qed.

Lemma layout_count l : layout_ok l -> Z.to_nat (u32 (fl_extent_count l)) = length (fl_extents l).
Proof. intros [E Hl]. unfold MAX_EXTENTS in Hl. rewrite E, u32_small by lia. lia. Qed.

Lemma length_words_of l : length (words_of l) = (1 + 2 * length (fl_extents l))%nat.
Proof. unfold words_of. cbn [length]. rewrite length_flatten. unfold places_of. by rewrite length_fmap. Qed.

Lemma put_layout_ok l b k s : layout_ok l -> (8 * (k + length (words_of l)) <= length b)%nat -> Z.of_nat (length b) < 2 ^ 32 ->
  put_layout l b (Z.of_nat k) s = HRet (splice (8 * k) (encode_words (words_of l)) b, Z.of_nat (k + length (words_of l))) s.
Proof.
  intros HL Hb Hs. rewrite length_words_of in *. unfold put_layout.
  erewrite bind_ret by (apply store_u64_ok; rewrite Nat2Z.id; lia). rewrite (layout_count l HL), u32_small, Nat2Z.id by lia.
  replace (Z.of_nat k + 1) with (Z.of_nat (k + 1)) by lia.
  rewrite put_extents_ok; [|lia|rewrite length_splice; rewrite ?length_le_enc; lia|lia].
  rewrite drop_0, le_enc_word. change (k + 1)%nat with (k + length [fl_start_offset l])%nat.
  rewrite splice_words by (rewrite length_flatten, length_fmap; cbn; lia). do 2 f_equal. cbn. lia.
Qed.

Lemma put_extents_undef es n i k b s : (i + n = length es)%nat -> (8 * k <= length b)%nat -> (length b < 8 * (k + 2 * n))%nat ->
  Z.of_nat (length b) < 2 ^ 32 -> put_extents es i n b (Z.of_nat k) s = HUndef.
Proof.
  revert i k b. induction n as [|n IH]; intros i k b Hn Hk Hb Hs; [lia|]. cbn [put_extents].
  destruct (lookup_lt_is_Some_2 es i) as [e He]; [lia|]. erewrite bind_ret by (unfold hneed; by rewrite He).
  destruct (decide (length b < 8 * k + 8)%nat) as [Hlt|Hge].
  { apply bind_undef, store_u64_undef. by rewrite Nat2Z.id. }
  erewrite bind_ret by (apply store_u64_ok; rewrite Nat2Z.id; lia). rewrite (u32_small (Z.of_nat k + 1)), Nat2Z.id by lia.
  set (b1 := splice (8 * k) _ b). assert (Hb1 : length b1 = length b) by (apply length_splice; rewrite length_le_enc; lia).
  replace (Z.of_nat k + 1) with (Z.of_nat (k + 1)) by lia.
  destruct (decide (length b < 8 * k + 16)%nat) as [Hlt|Hge2]; [apply bind_undef, store_u64_undef; lia|].
  erewrite bind_ret by (apply store_u64_ok; rewrite Nat2Z.id; lia). rewrite u32_small by lia.
  replace (Z.of_nat (k + 1) + 1) with (Z.of_nat (k + 2)) by lia.
  assert (Hb2 : forall v, length (splice (8 * Z.to_nat (Z.of_nat (k + 1))) (le_enc 8 v) b1) = length b).
  { intros v. rewrite length_splice; [done|]. rewrite length_le_enc. lia. }
  apply IH; rewrite ?Hb2; lia.
Qed.

Lemma put_layout_undef l b k s : layout_ok l -> (8 * k <= length b)%nat -> (length b < 8 * (k + length (words_of l)))%nat ->
  Z.of_nat (length b) < 2 ^ 32 -> put_layout l b (Z.of_nat k) s = HUndef.
Proof.
  intros HL Hk Hb Hs. rewrite length_words_of in Hb. unfold put_layout.
  destruct (decide (length b < 8 * k + 8)%nat) as [Hlt|Hge].
  { apply bind_undef, store_u64_undef. by rewrite Nat2Z.id. }
  erewrite bind_ret by (apply store_u64_ok; rewrite Nat2Z.id; lia). rewrite (layout_count l HL), u32_small by lia.
  replace (Z.of_nat k + 1) with (Z.of_nat (k + 1)) by lia.
  assert (Hb1 : forall o v, (o + 8 <= length b)%nat -> length (splice o (le_enc 8 v) b) = length b).
  { intros o v Ho. apply length_splice. by rewrite length_le_enc. }
  apply put_extents_undef; rewrite ?Hb1; rewrite ?Nat2Z.id; lia.
Qed.

(** The answer of the file system becomes a layout. *)
Lemma copy_extents_ok fm n i total out s : (i + n <= length fm)%nat -> (i + n <= MAX_EXTENTS)%nat ->
  copy_extents fm i n total out s =
  HRet (out ++ (info_of <$> take n (drop i fm)), foldl (fun t e => u64 (t + fe_length e)) total (take n (drop i fm))) s.
Proof.
  revert i total out. induction n as [|n IH]; intros i total out Hn Hm; cbn [copy_extents]; [cbn; by rewrite app_nil_r|].
  destruct (lookup_lt_is_Some_2 fm i) as [e He]; [lia|]. erewrite bind_ret by (unfold hneed; by rewrite He).
  erewrite bind_ret by (unfold hassert; by rewrite (proj2 (Nat.ltb_lt _ _)) by lia).
  rewrite IH by lia. rewrite (drop_S _ _ _ He). cbn [take fmap list_fmap foldl]. by rewrite <- app_assoc.
Qed.

(** The file system finds the file and answers with [fm]. *)
Definition layout_request : fiemap := Fiemap 0 FIEMAP_MAX_OFFSET 0 0 (Z.of_nat MAX_EXTENTS) [].
Definition file_found (name : string) (fm : fiemap) (s s' : os) : Prop :=
  exists b fd s1 s2 s3 s4 s5 s6, os_malloc s = (true, s1) /\ os_malloc s1 = (b, s2) /\ os_malloc s2 = (true, s3) /\
    os_malloc s3 = (true, s4) /\ os_open name O_RDONLY s4 = (fd, s5) /\ 0 <= fd /\
    os_fiemap fd layout_request (os_fsync fd s5) = (Some fm, s6) /\ s' = os_close fd s6.

Lemma get_file_layout_found name fm s s' : file_found name fm s s' -> fiemap_ok fm ->
  get_file_layout name s = HRet (Some (layout_of fm)) s'.
Proof.
  intros (b & fd & s1 & s2 & s3 & s4 & s5 & s6 & M1 & M2 & M3 & M4 & Ho & Hfd & Hf & ->) [[H0 H1] H2].
  assert (Hc : i32 (fm_mapped_extents fm) = fm_mapped_extents fm) by (apply i32_small; unfold MAX_EXTENTS in *; lia).
  unfold get_file_layout. erewrite bind_ret by (apply call_ret; exact M1). erewrite bind_ret by done.
  erewrite bind_ret by (apply call_ret; exact M2). erewrite bind_ret by (apply call_ret; exact M3).
  erewrite bind_ret by (apply call_ret; exact M4). erewrite bind_ret by done. erewrite bind_ret by (apply call_ret; exact Ho).
  destruct (Z.ltb_spec fd 0); [lia|]. erewrite bind_ret by done. fold layout_request. erewrite bind_ret by (apply call_ret; exact Hf).
  cbv beta iota zeta. rewrite Hc. erewrite bind_ret by done. erewrite bind_ret by (apply copy_extents_ok; lia). cbv beta iota.
  by erewrite bind_ret by done.
Qed.

Lemma layout_of_ok fm : fiemap_ok fm -> layout_ok (layout_of fm).
Proof.
  intros [[H0 H1] H2]. unfold layout_ok, layout_of. cbn [fl_extent_count fl_extents]. rewrite length_fmap, length_take. unfold MAX_EXTENTS in *. lia.
Qed.

(** The files of an addition and the answers about them, up to the buffer. *)
Record files_found (cfg : passthru_config) (fm0 fm1 fmt : fiemap) (s s' : os) : Prop := {
  ff_run : exists s1 s2 fd s3 s4 s5, file_found (pc_input_file cfg) fm0 s s1 /\ file_found (pc_metadata cfg) fm1 s1 s2 /\
    os_open (pc_target_file cfg) (Z.lor O_RDWR O_CREAT) s2 = (fd, s3) /\
    os_fallocate fd (fl_total_length (layout_of fm0)) s3 = (0, s4) /\ file_found (pc_target_file cfg) fmt s4 s5 /\
    os_memalign s5 = (true, s');
  ff_ok : fiemap_ok fm0 /\ fiemap_ok fm1 /\ fiemap_ok fmt }.

(** The words of the payload. *)
Definition payload_words (fm0 fm1 fmt : fiemap) : list Z :=
  words_of (layout_of fm0) ++ words_of (layout_of fm1) ++ words_of (layout_of fmt).

(** What is left to do once the files are found. *)
Definition fill_payload (l0 l1 lt : file_layout_t) (b : bytes) : Host bytes :=
  '(b, bufnum) ← put_layout l0 b 0;
  '(b, bufnum) ← put_layout l1 b bufnum;
  '(b, _) ← put_layout lt b bufnum;
  mret b.

Definition addition_cfg (cfg : passthru_config) (l0 l1 lt : file_layout_t) : passthru_config :=
  cfg <| pc_write := true |> <| pc_cdw11 := u32 (fl_extent_count l0) |> <| pc_cdw12 := u32 (fl_extent_count l1) |>
      <| pc_cdw13 := u32 (fl_extent_count lt) |> <| pc_data_len := 4096 |>.

Lemma offload_add_found ps fm0 fm1 fmt s s' : files_found (ps_cfg ps) fm0 fm1 fmt s s' ->
  offload_add ps s =
  (b ← fill_payload (layout_of fm0) (layout_of fm1) (layout_of fmt) (replicate 4096 (pc_prefill (ps_cfg ps)));
   mret (inr (PState (addition_cfg (ps_cfg ps) (layout_of fm0) (layout_of fm1) (layout_of fmt)) (Some b) None (ps_dfd ps) (ps_mfd ps)))) s'.
Proof.
  intros [(s1 & s2 & fd & s3 & s4 & s5 & F0 & F1 & Ho & Hfa & Ft & Hm) (K0 & K1 & Kt)]. unfold offload_add. wsimp.
  erewrite bind_ret by (by apply get_file_layout_found). cbv beta iota. wsimp.
  erewrite bind_ret by (by apply get_file_layout_found). cbv beta iota. wsimp.
  erewrite bind_ret by (apply call_ret; exact Ho). erewrite bind_ret by (apply call_ret; exact Hfa).
  change (0 !=? 0) with false. cbv iota. erewrite bind_ret by (by apply get_file_layout_found). cbv beta iota. wsimp.
  assert (Ha : nvme_alloc_huge 4096 s5 = HRet (Some (replicate 4096 0)) s').
  { unfold nvme_alloc_huge, nvme_alloc. change (ROUND_UP 4096 0x1000) with 4096. change (4096 <? HUGE_MIN) with true. cbv iota.
    change (ROUND_UP 4096 0x1000) with 4096. erewrite bind_ret by (apply call_ret; exact Hm). done. }
  erewrite bind_ret by exact Ha. cbv iota.
  erewrite bind_ret by (apply hmemset_ok; by rewrite length_replicate). rewrite splice_all by (by rewrite !length_replicate).
  change (pc_prefill (_ <| pc_data_len := 4096 |>)) with (pc_prefill (ps_cfg ps)). fold (addition_cfg (ps_cfg ps) (layout_of fm0) (layout_of fm1) (layout_of fmt)).
  unfold fill_payload, mbind, Host_bind. destruct (put_layout _ _ _ _) as [[b1 k1] sb|]; [|done].
  destruct (put_layout _ _ _ _) as [[b2 k2] sb2|]; [|done]. by destruct (put_layout _ _ _ _) as [[b3 k3] sb3|].
Qed.

Lemma fill_payload_ok fm0 fm1 fmt b s : fiemap_ok fm0 -> fiemap_ok fm1 -> fiemap_ok fmt ->
  let ws := payload_words fm0 fm1 fmt in
  (8 * length ws <= length b)%nat -> Z.of_nat (length b) < 2 ^ 32 ->
  fill_payload (layout_of fm0) (layout_of fm1) (layout_of fmt) b s = HRet (encode_words ws ++ drop (8 * length ws) b) s.
Proof.
  intros K0 K1 Kt ws Hb Hs. unfold ws, payload_words in *. rewrite !length_app in *.
  set (w0 := words_of (layout_of fm0)) in *. set (w1 := words_of (layout_of fm1)) in *. set (wt := words_of (layout_of fmt)) in *.
  assert (Hsp : forall k a c, (8 * (k + length a) <= length c)%nat -> length (splice (8 * k) (encode_words a) c) = length c).
  { intros k a c Hk. apply length_splice. rewrite length_encode_words. lia. }
  unfold fill_payload. change 0 with (Z.of_nat 0).
  erewrite bind_ret by (apply put_layout_ok; [by apply layout_of_ok|fold w0; lia|done]). cbv beta iota. fold w0.
  erewrite bind_ret by (apply put_layout_ok; [by apply layout_of_ok|fold w1; rewrite Hsp; lia|rewrite Hsp; lia]). cbv beta iota. fold w1.
  erewrite bind_ret by (apply put_layout_ok; [by apply layout_of_ok|fold wt; rewrite !Hsp; rewrite ?Hsp; lia|rewrite !Hsp; rewrite ?Hsp; lia]).
  cbv beta iota. fold wt. rewrite splice_words by (rewrite Hsp; lia).
  rewrite splice_words by (rewrite length_app; lia). unfold mret, Host_ret. f_equal.
  unfold splice. rewrite Nat.mul_0_r. cbn [take app]. by rewrite length_encode_words, !length_app, Nat.add_0_l.
Qed.

Lemma fill_payload_undef fm0 fm1 fmt b s : fiemap_ok fm0 -> fiemap_ok fm1 -> fiemap_ok fmt ->
  (length b < 8 * length (payload_words fm0 fm1 fmt))%nat -> Z.of_nat (length b) < 2 ^ 32 ->
  fill_payload (layout_of fm0) (layout_of fm1) (layout_of fmt) b s = HUndef.
Proof.
  intros K0 K1 Kt Hb Hs. unfold payload_words in *. rewrite !length_app in *.
  set (w0 := words_of (layout_of fm0)) in *. set (w1 := words_of (layout_of fm1)) in *. set (wt := words_of (layout_of fmt)) in *.
  assert (Hsp : forall k a c, (8 * (k + length a) <= length c)%nat -> length (splice (8 * k) (encode_words a) c) = length c).
  { intros k a c Hk. apply length_splice. rewrite length_encode_words. lia. }
  unfold fill_payload. change 0 with (Z.of_nat 0).
  destruct (decide (length b < 8 * (0 + length w0))%nat) as [H0|H0].
  { apply bind_undef, put_layout_undef; [by apply layout_of_ok|lia|done|done]. }
  erewrite bind_ret by (apply put_layout_ok; [by apply layout_of_ok|fold w0; lia|done]). cbv beta iota. fold w0.
  destruct (decide (length b < 8 * (0 + length w0 + length w1))%nat) as [H1|H1].
  { apply bind_undef, put_layout_undef; [by apply layout_of_ok|rewrite Hsp; lia|fold w1; rewrite Hsp; lia|rewrite Hsp; lia]. }
  erewrite bind_ret by (apply put_layout_ok; [by apply layout_of_ok|fold w1; rewrite Hsp; lia|rewrite Hsp; lia]). cbv beta iota. fold w1.
  apply bind_undef, put_layout_undef; [by apply layout_of_ok|..]; try (fold wt); rewrite !Hsp; rewrite ?Hsp; lia.
Qed.
End HostLemmas.

(** The target refuses a search outside the device before it submits anything. *)
Lemma grep_out_of_range_wp bdev desc w rid r s n (Q : exec_status -> world -> Prop) :
  grep_req bdev desc r s n -> w_reqs w !! rid = Some r -> w_malloc w = [] -> blockcnt bdev < s + n ->
  (forall w' r', w_reqs w' !! rid = Some r' -> sc (status (req_rsp r')) = SPDK_NVME_SC_LBA_OUT_OF_RANGE ->
     w_ios w' = w_ios w -> Q COMPLETE w') ->
  wp (nvmf_bdev_ctrlr_custom_grep_cmd bdev desc rid) w Q.
Proof.
  intros [Hd Hg Hc Hs Hn Hl Hcnt Hpos Htot Hdom] Hr Hma Hrg HQ.
  assert (Hv : nvmf_bdev_ctrlr_lba_in_range (spdk_bdev_get_num_blocks bdev) s n = false).
  { rewrite lba_in_range_valid_blocks. destruct Hc as (?&?&?&?&?&?&?&?).
    destruct (bdev_io_valid_blocks bdev s n) eqn:E; [|done]. apply valid_blocks_iff in E; [lia|done|lia..]. }
  unfold nvmf_bdev_ctrlr_custom_grep_cmd. wsteps.
  destruct (Z.ltb_spec (req_length r) (Z.land (cdw10 (req_cmd r)) 0xFFFF)); [lia|].
  rewrite Hcnt. destruct (Z.eqb_spec (Z.of_nat (length (req_iov r))) 0) as [E|_]; [destruct (req_iov r); cbn in *; [done|lia]|].
  cbn [orb]. unfold req_iovs. rewrite Hcnt, Nat2Z.id, firstn_all, total_len_flat, Z.add_0_l by (unfold blen in *; lia).
  rewrite blen_nat. wstep. apply wp_malloc_some; [done|]. wstep.
  eapply (copy_vector_wp _ _ 0); [apply lookup_insert_eq|by rewrite length_replicate|unfold blen; by rewrite length_replicate|].
  rewrite splice_all by (by rewrite length_replicate). wsimp. rewrite insert_insert_eq. wsteps.
  rewrite Hs, Hn, Hv. cbn [negb]. unfold fail. wsteps. eapply HQ; [apply lookup_insert_eq|done|done].
Qed.

(** ** Properties *)

(** The request the target gets from a command with its data: the words of the
    command, and the data as the first element of the vector. *)
Record received (cfg : passthru_config) (data : bytes) (r : spdk_nvmf_request) : Prop := {
  rc_opc : opc (req_cmd r) = pc_opcode cfg; rc_cdw10 : cdw10 (req_cmd r) = pc_cdw10 cfg;
  rc_cdw11 : cdw11 (req_cmd r) = pc_cdw11 cfg;
  rc_cdw12 : cdw12 (req_cmd r) = pc_cdw12 cfg; rc_cdw13 : cdw13 (req_cmd r) = pc_cdw13 cfg;
  rc_iov : req_iov r = [Iov (Some data)]; rc_cnt : req_iovcnt r = 1 }.

(** The extents of a file are byte ranges of the device, in whole blocks. *)
Definition file_on (bdev : spdk_bdev) (fm : fiemap) : Prop :=
  0 <= fm_start fm < 2 ^ 64 /\ Forall (extent_ok bdev) (places_of (layout_of fm)) /\ places_of (layout_of fm) <> [] /\
  Z.of_nat (total (places_of (layout_of fm))) < 2 ^ 64.

(** A run of the host program that gets as far as the layouts: 0xe0 needs its
    second input as the metadata file, which is opened first. *)
Record add_run `{HostOS} (flags0 : Z) (cfg : passthru_config) (fm0 fm1 fmt : fiemap) (s s' : os) : Prop := {
  ar_opcode : pc_opcode cfg = 0xe0; ar_read : pc_read cfg = false; ar_dry : pc_dry_run cfg = false;
  ar_meta : pc_metadata cfg <> EmptyString;
  ar_open : exists mfd s0, os_open (pc_metadata cfg) flags0 s = (mfd, s0) /\ 0 <= mfd /\ files_found cfg fm0 fm1 fmt s0 s' }.

Lemma add_run_passthru `{HostOS} flags0 cfg fm0 fm1 fmt s s' :
  add_run flags0 cfg fm0 fm1 fmt s s' ->
  let cfg' := addition_cfg cfg (layout_of fm0) (layout_of fm1) (layout_of fmt) in
  passthru false flags0 cfg s =
  (b ← fill_payload (layout_of fm0) (layout_of fm1) (layout_of fmt) (replicate 4096 (pc_prefill cfg));
   '(err, _, _) ← call (os_submit false cfg' (Some b) None); mret err) s'.
Proof.
  intros [Hop Hrd Hdry Hme (mfd & s0 & Ho & Hfd & HF)] cfg'. unfold passthru.
  assert (Hdir : direction flags0 cfg = (cfg, flags0, -1)).
  { unfold direction. rewrite Hop. change (Z.land 0xe0 0x01 !=? 0) with false. cbv beta iota. by rewrite Hop. }
  assert (Hof : open_files flags0 cfg s = HRet (inr (PState cfg None None (-1) mfd)) s0).
  { unfold open_files. rewrite Hdir, Hop. change (0xe0 =? 0xe0) with true. cbn [orb]. erewrite bind_ret by done. cbn [negb andb].
    rewrite andb_false_r. rewrite bool_decide_false by done. erewrite bind_ret by (apply call_ret; exact Ho).
    destruct (Z.ltb_spec mfd 0); [lia|]. done. }
  assert (Hos : offload_search (PState cfg None None (-1) mfd) s0 = HRet (inr (PState cfg None None (-1) mfd)) s0).
  { unfold offload_search. cbn [ps_cfg]. by rewrite Hop. }
  assert (Hst : andthen (open_files flags0 cfg) (fun ps => andthen (offload_search ps) (fun ps =>
            if pc_opcode (ps_cfg ps) =? 0xe0 then offload_add ps else fill_buffers ps)) s = offload_add (PState cfg None None (-1) mfd) s0).
  { unfold andthen. erewrite bind_ret by exact Hof. cbv beta iota. erewrite bind_ret by exact Hos. cbv beta iota. cbn [ps_cfg]. by rewrite Hop. }
  rewrite (offload_add_found (PState cfg None None (-1) mfd) _ _ _ _ _ HF) in Hst. cbn [ps_cfg ps_dfd ps_mfd] in Hst. revert Hst. unfold mbind, Host_bind.
  intros ->. destruct (fill_payload _ _ _ _ _) as [b sb|]; [|done]. cbn [mret Host_ret]. unfold send. cbn [ps_cfg ps_data ps_mdata].
  change (pc_dry_run (addition_cfg _ _ _ _)) with (pc_dry_run cfg). rewrite Hdry. unfold call, mbind, Host_bind. fold cfg'.
  destruct (os_submit false cfg' (Some b) None sb) as [[[err d] m] sc]. cbn.
  change (pc_opcode cfg') with (pc_opcode cfg). change (pc_read cfg') with (pc_read cfg). rewrite Hop, Hrd. by destruct (err =? 0).
Qed.

(** The data of an addition: the words, and the rest of the page. *)
Definition payload (cfg : passthru_config) (fm0 fm1 fmt : fiemap) : bytes :=
  let ws := payload_words fm0 fm1 fmt in encode_words ws ++ drop (8 * length ws) (replicate 4096 (pc_prefill cfg)).

Lemma length_payload cfg fm0 fm1 fmt : (8 * length (payload_words fm0 fm1 fmt) <= 4096)%nat -> length (payload cfg fm0 fm1 fmt) = 4096%nat.
Proof. intros Hf. unfold payload. rewrite length_app, length_encode_words, length_drop, length_replicate. lia. Qed.

(** The one command an addition submits. *)
Lemma addition_submits `{HostOS} flags0 cfg fm0 fm1 fmt s s' :
  add_run flags0 cfg fm0 fm1 fmt s s' -> (8 * length (payload_words fm0 fm1 fmt) <= 4096)%nat ->
  passthru false flags0 cfg s =
  ('(err, _, _) ← call (os_submit false (addition_cfg cfg (layout_of fm0) (layout_of fm1) (layout_of fmt))
      (Some (payload cfg fm0 fm1 fmt)) None); mret err) s'.
Proof.
  intros HR Hfit. pose proof HR as [_ _ _ _ (mfd & s0 & _ & _ & [_ (K0 & K1 & Kt)])].
  rewrite (add_run_passthru _ _ _ _ _ _ _ HR). cbv zeta. erewrite bind_ret; [reflexivity|].
  apply fill_payload_ok; [done..|by rewrite length_replicate|rewrite length_replicate; lia].
Qed.

Lemma layout_extents fm : fiemap_ok fm ->
  u32 (fl_extent_count (layout_of fm)) = Z.of_nat (length (places_of (layout_of fm))) /\ (length (places_of (layout_of fm)) <= 1024)%nat.
Proof.
  intros Hf. pose proof (layout_of_ok fm Hf) as HL. pose proof (layout_count _ HL) as E. destruct HL as [_ Hm].
  pose proof (u32_range (fl_extent_count (layout_of fm))). unfold places_of. rewrite length_fmap. unfold MAX_EXTENTS in Hm. lia.
Qed.

(** The command the target receives satisfies the precondition of the
    addition. *)
Lemma received_heaan_req bdev desc cfg fm0 fm1 fmt r :
  fiemap_ok fm0 -> fiemap_ok fm1 -> fiemap_ok fmt -> (8 * length (payload_words fm0 fm1 fmt) <= 4096)%nat ->
  desc_bdev desc = bdev -> desc_write desc = true -> geometry_ok bdev -> file_on bdev fm0 -> file_on bdev fm1 -> file_on bdev fmt ->
  received (addition_cfg cfg (layout_of fm0) (layout_of fm1) (layout_of fmt)) (payload cfg fm0 fm1 fmt) r ->
  heaan_req bdev desc r (fm_start fm0) (fm_start fm1) (fm_start fmt)
    (places_of (layout_of fm0)) (places_of (layout_of fm1)) (places_of (layout_of fmt)).
Proof.
  intros K0 K1 Kt Hfit Hde Hw HG (? & ? & ? & ?) (? & ? & ? & ?) (? & ? & ? & ?) [_ _ E11 E12 E13 Ei Ec].
  destruct (layout_extents fm0 K0), (layout_extents fm1 K1), (layout_extents fmt Kt).
  split; try done; try (rewrite ?E11, ?E12, ?E13; done); try lia.
  exists [], (drop (8 * length (payload_words fm0 fm1 fmt)) (replicate 4096 (pc_prefill cfg))). split; [exact Ei|].
  change (Z.of_nat (length (payload cfg fm0 fm1 fmt) * NVMF_REQ_MAX_BUFFERS) < 2 ^ 32). rewrite length_payload by done.
  unfold NVMF_REQ_MAX_BUFFERS. lia.
Qed.

(** ** A small host *)

(** Every call succeeds; a file's descriptor is the length of its name, and
    [fms] is what the file system says about a descriptor.  The device answers
    with success and leaves the buffers alone. *)
Definition demo_os (fms : Z -> fiemap) : HostOS :=
  {| os := unit; os_malloc := fun s => (true, s); os_garbage := fun n s => (replicate n 0, s); os_memalign := fun s => (true, s);
     os_hugetlb := fun s => (true, s); os_madvise := fun s => (true, s);
     os_open := fun name _ s => (Z.of_nat (String.length name), s); os_close := fun _ s => s; os_fsync := fun _ s => s;
     os_fiemap := fun fd _ s => (Some (fms fd), s); os_fallocate := fun _ _ s => (0, s);
     os_read := fun _ n s => (Some (replicate n 0), s); os_write := fun _ _ s => s; os_errno := fun _ => 0;
     os_print := fun _ s => s; os_hexdump := fun _ s => s; os_submit := fun _ _ d m s => ((0, d, m), s) |}.

Definition demo_pc (opcode : Z) : passthru_config :=
  PassthruConfig opcode 0 0 1 0 0 0 0 0 0 0 0 0 0 "a" "bb" false false false false 0 "ccc".
Definition demo_fm (es : list (Z * Z)) : fiemap :=
  Fiemap 0 FIEMAP_MAX_OFFSET 0 (Z.of_nat (length es)) 1024 ((fun e => FiemapExtent 0 e.1 e.2) <$> es).
Definition demo_files (e0 e1 et : list (Z * Z)) (fd : Z) : fiemap :=
  demo_fm (if fd =? 1 then e0 else if fd =? 2 then e1 else et).

Lemma demo_fm_ok es : (length es <= MAX_EXTENTS)%nat -> fiemap_ok (demo_fm es).
Proof. intros Hl. unfold fiemap_ok, demo_fm. cbn [fm_mapped_extents fm_extents]. rewrite length_fmap. lia. Qed.
Lemma demo_file_found e0 e1 et name :
  @file_found (demo_os (demo_files e0 e1 et)) name (demo_files e0 e1 et (Z.of_nat (String.length name))) tt tt.
Proof. exists true, (Z.of_nat (String.length name)), tt, tt, tt, tt, tt, tt. repeat split. lia. Qed.

Lemma demo_add_run e0 e1 et : (length e0 <= MAX_EXTENTS)%nat -> (length e1 <= MAX_EXTENTS)%nat -> (length et <= MAX_EXTENTS)%nat ->
  @add_run (demo_os (demo_files e0 e1 et)) 0 (demo_pc 0xe0) (demo_fm e0) (demo_fm e1) (demo_fm et) tt tt.
Proof.
  intros H0 H1 Ht. split; try done. exists 2, tt. split; [done|]. split; [lia|]. split.
  - exists tt, tt, 3, tt, tt, tt. repeat split; apply demo_file_found.
  - split; [|split]; by apply demo_fm_ok.
Qed.

(** C24. What the host sends for a ciphertext addition is what the target expects.
    When the file system finds the two inputs and the target and the payload
    fits the buffer, [passthru] submits one command; the request the target
    receives satisfies the precondition of the addition, with exactly the
    extents the file system reported as the places of the inputs and of the
    result.  Extent lists survive the encoding into little-endian words in a
    page and the decoding on the target. *)
Theorem addition_payload_reaches_target `{HostOS} flags0 cfg fm0 fm1 fmt s s' bdev desc
    (HR : add_run flags0 cfg fm0 fm1 fmt s s') (Hfit : (8 * length (payload_words fm0 fm1 fmt) <= 4096)%nat)
    (Hde : desc_bdev desc = bdev) (Hw : desc_write desc = true) (HG : geometry_ok bdev)
    (F0 : file_on bdev fm0) (F1 : file_on bdev fm1) (Ft : file_on bdev fmt) :
  exists cfg' data,
    passthru false flags0 cfg s = ('(err, _, _) ← call (os_submit false cfg' (Some data) None); mret err) s' /\
    length data = 4096%nat /\
    forall r, received cfg' data r ->
      heaan_req bdev desc r (fm_start fm0) (fm_start fm1) (fm_start fmt)
        (places_of (layout_of fm0)) (places_of (layout_of fm1)) (places_of (layout_of fmt)).
Proof.
  pose proof HR as [_ _ _ _ (mfd & s0 & _ & _ & [_ (K0 & K1 & Kt)])].
  exists (addition_cfg cfg (layout_of fm0) (layout_of fm1) (layout_of fmt)), (payload cfg fm0 fm1 fmt).
  split; [by apply addition_submits|]. split; [by apply length_payload|]. intros r Hr. by eapply received_heaan_req.
Qed.

Lemma addition_payload_reaches_target_witness :
  let host := demo_os (demo_files demo_in0 demo_in1 demo_out) in
  exists cfg' data,
    @passthru host false 0 (demo_pc 0xe0) tt = HRet 0 tt /\
    length data = 4096%nat /\
    (forall r, received cfg' data r -> heaan_req demo_bdev demo_desc r 0 0 0 demo_in0 demo_in1 demo_out).
Proof.
  intros host.
  assert (HF : forall es, Forall (extent_ok demo_bdev) es -> (length es = 1 \/ length es = 2)%nat -> (total es = 1024)%nat ->
    file_on demo_bdev (demo_fm es) /\ places_of (layout_of (demo_fm es)) = es).
  { intros es He Hl Ht. assert (Hp : places_of (layout_of (demo_fm es)) = es).
    { destruct es as [|[] [|[] [|]]]; cbn in *; try done; lia. }
    split; [|done]. unfold file_on. rewrite Hp, Ht. repeat split; try done; try (cbn; lia). by intros ->; cbn in Hl; lia. }
  destruct demo_extents as (E0 & E1 & Et).
  destruct (HF _ E0 ltac:(by right) eq_refl) as [F0 P0], (HF _ E1 ltac:(by left) eq_refl) as [F1 P1], (HF _ Et ltac:(by right) eq_refl) as [Ft Pt].
  destruct (@addition_payload_reaches_target host 0 (demo_pc 0xe0) _ _ _ tt tt demo_bdev demo_desc
    (demo_add_run demo_in0 demo_in1 demo_out ltac:(vm_compute; lia) ltac:(vm_compute; lia) ltac:(vm_compute; lia))
    ltac:(vm_compute; lia) eq_refl eq_refl ltac:(by split) F0 F1 Ft) as (cfg' & data & Hp & Hl & HQ).
  rewrite P0, P1, Pt in HQ. exists cfg', data. split; [|split].
  - rewrite Hp. reflexivity.
  - exact Hl.
  - exact HQ.
Defined.

(** C39. The page for the payload is not checked against the number of extents:
    when the three files have so many that the words do not fit, [passthru]
    writes past its 4096-byte buffer. *)
Theorem addition_payload_overflow `{HostOS} flags0 cfg fm0 fm1 fmt s s'
    (HR : add_run flags0 cfg fm0 fm1 fmt s s') (Hbig : (4096 < 8 * length (payload_words fm0 fm1 fmt))%nat) :
  passthru false flags0 cfg s = HUndef.
Proof.
  pose proof HR as [_ _ _ _ (mfd & s0 & _ & _ & [_ (K0 & K1 & Kt)])].
  rewrite (add_run_passthru _ _ _ _ _ _ _ HR). cbv zeta. apply bind_undef.
  apply fill_payload_undef; [done..| |]; rewrite length_replicate; lia.
Qed.

Lemma addition_payload_overflow_witness :
  let many := replicate 255 (512, 512) in
  @passthru (demo_os (demo_files many [(512, 512)] [(1024, 512)])) false 0 (demo_pc 0xe0) tt = HUndef.
Proof.
  intros many. apply (@addition_payload_overflow (demo_os (demo_files many [(512, 512)] [(1024, 512)])) 0 (demo_pc 0xe0)
     (demo_fm many) (demo_fm [(512, 512)]) (demo_fm [(1024, 512)]) tt tt).
  - apply demo_add_run; vm_compute; lia.
  - vm_compute. lia.
Defined.

(** C38. A search looks in the wrong place.  The host puts the byte offset and
    the byte length of the file's last extent into the words of the command
    that the target takes as a block number and a block count (the other
    extents are overwritten and never sent).  So for every file whose last
    extent starts no earlier than its own length, below the 2^32 bytes that the
    word can hold, on every device with blocks of two bytes or more, the target
    reads no byte of that extent: what it submits, if anything, starts at its end
    or beyond. *)
Theorem search_misses_the_file `{HostOS} ps fm p n s s' (Hop : pc_opcode (ps_cfg ps) = 0xd1)
    (HF : file_found (pc_target_file (ps_cfg ps)) fm s s') (Hok : fiemap_ok fm)
    (Hlast : last (places_of (layout_of fm)) = Some (p, n)) (Hn : 0 < n <= p) (Hp : p < 2 ^ 32) :
  exists ps', offload_search ps s = HRet (inr ps') s' /\
    forall data bdev desc w rid r, received (ps_cfg ps') data r -> grep_req bdev desc r (cdw11 (req_cmd r)) (cdw12 (req_cmd r)) ->
      2 <= blocklen bdev -> w_reqs w !! rid = Some r -> w_malloc w = [] ->
      wp (nvmf_bdev_ctrlr_custom_grep_cmd bdev desc rid) w (fun _ w' => forall iod io, w_ios w' !! iod = Some io ->
        w_ios w !! iod = Some io \/ (io_type io = IO_READ /\ p + n <= io_offset_blocks io * blocklen bdev)).
Proof.
  eexists. split.
  { unfold offload_search. rewrite Hop. change (0xd1 !=? 0xd1) with false. cbv iota.
    erewrite bind_ret by (by apply get_file_layout_found). reflexivity. }
  cbn [ps_cfg]. set (cfg := (search_fields _ _) <| pc_data_len := 8192 |>).
  assert (Hc : pc_cdw11 cfg = p /\ pc_cdw12 cfg = n).
  { unfold cfg, search_fields. cbn [pc_cdw11 pc_cdw12]. revert Hlast. unfold places_of.
    destruct (fl_extents (layout_of fm)) as [|e es _] using rev_ind; [done|]. rewrite fmap_last, last_snoc, foldl_app. cbn [fmap option_fmap option_map foldl].
    unfold extent_pair. intros [= <- <-]. wsimp. rewrite !u32_small by lia. done. }
  destruct Hc as [C11 C12]. intros data bdev desc w rid r [_ _ E11 E12 _ _ _] HG Hbl Hr Hma.
  rewrite E11, E12, C11, C12 in HG. destruct (decide (blockcnt bdev < p + n)) as [Hlt|Hge].
  - eapply grep_out_of_range_wp; [done..|]. intros w' r' _ _ ->. by left.
  - eapply grep_cmd_wp; [done..|lia|]. cbv zeta. destruct (take_io (w_mgmt w)) as [m|]; [|by left].
    intros iod io. unfold submitted, grep_started. wsimp. destruct (decide (iod = S (S (w_next w)))) as [->|Hne].
    + rewrite lookup_insert_eq. intros [= <-]. right. split; [done|]. change (p + n <= p * blocklen bdev). nia.
    + rewrite lookup_insert_ne by done. by left.
Qed.

Lemma search_misses_the_file_witness :
  let host := demo_os (demo_files [] [] [(512, 512); (2048, 512)]) in
  exists ps', @offload_search host (PState (demo_pc 0xd1) None None 0 0) tt = HRet (inr ps') tt /\
    pc_cdw11 (ps_cfg ps') = 2048 /\ pc_cdw12 (ps_cfg ps') = 512 /\ byte_range_ok demo_bdev 2048 512 /\
    let r := demo_req (demo_cmd 0xd1 0 2048 512) [Iov (Some (replicate 8192 0))] in
    let w := demo_world [r] [0%nat] 1 SPDK_NVMF_SUBSYSTEM_ACTIVE demo_grep_disk in
    wp (nvmf_bdev_ctrlr_custom_grep_cmd demo_bdev demo_desc 0) w (fun _ w' => forall iod io, w_ios w' !! iod = Some io ->
      w_ios w !! iod = Some io \/ (io_type io = IO_READ /\ 2560 <= io_offset_blocks io * 512)).
Proof.
  intros host.
  destruct (@search_misses_the_file host (PState (demo_pc 0xd1) None None 0 0) (demo_fm [(512, 512); (2048, 512)]) 2048 512 tt tt
    eq_refl (demo_file_found [] [] [(512, 512); (2048, 512)] "ccc") ltac:(apply demo_fm_ok; vm_compute; lia) eq_refl
    ltac:(lia) ltac:(lia)) as (ps' & Hs & HQ).
  exists ps'. split; [exact Hs|]. vm_compute in Hs. injection Hs as <-. split; [done|]. split; [done|]. split.
  - unfold byte_range_ok. cbn. repeat split; first [lia|apply Z.mod_divide; done].
  - intros r w. apply (HQ (replicate 8192 0) demo_bdev demo_desc w 0%nat r).
    + split; done.
    + split; try done; unfold cmd_ok; cbn; lia.
    + done.
    + done.
    + done.
Defined.
