(* ===== verification/Offload.v ===== *)
(** * An offloaded addition from the host's files to the target's medium

    The parts put together: [passthru] of the host ([HostPassthru]) looks up
    where three files are and submits one command; the target lets it in,
    checks and dispatches it ([Ctrlr]), reads the inputs, adds them and writes
    the sum ([NdpHeaan], [HeaanAdd]), and answers ([Request]). *)
From S2P Require Import Prelude NvmeSpec Iov World Request Bdev CtrlrBdev NdpHeaan HeaanAdd Ctrlr HostPassthru.

(** ** Files on the medium *)

(** Where a file is: the byte ranges the file system reports. *)
Definition extents_of (fm : fiemap) : list (Z * Z) := places_of (layout_of fm).

(** The bytes of a file on a medium. *)
Definition file_data (disk : bytes) (fm : fiemap) : bytes := concat (piece disk <$> extents_of fm).

(** What the library makes of two files: its status and the bytes of the sum. *)
Definition sum_of_files `{HeaanLib} (disk : bytes) (fm0 fm1 : fiemap) : Z * bytes :=
  let ct fm := readCiphertextFromMem (Some (file_data disk fm)) (Z.of_nat (total (extents_of fm))) 0 in
  let '(rc, c) := ciphertextAdd create_Ciphertext (ct fm0) (ct fm1) in
  (rc, writeCiphertextToMem c).

(** The ranges of a file do not overlap. *)
Definition file_disjoint (fm : fiemap) : Prop :=
  forall i j e e', extents_of fm !! i = Some e -> extents_of fm !! j = Some e' -> i <> j ->
    (Z.to_nat e.1 + ext_len e <= Z.to_nat e'.1 \/ Z.to_nat e'.1 + ext_len e' <= Z.to_nat e.1)%nat.

(** A range of the medium that is outside a file. *)
Definition outside (fm : fiemap) (o n : nat) : Prop :=
  forall e, e ∈ extents_of fm -> (o + n <= Z.to_nat e.1 \/ Z.to_nat e.1 + ext_len e <= o)%nat.

(** A target with memory and an I/O object for every extent of the files. *)
Record target_idle (bdev : spdk_bdev) (w : world) (fm0 fm1 fmt : fiemap) (mr mw : spdk_bdev_mgmt_channel) : Prop := {
  ti_malloc : w_malloc w = []; ti_mgmt : mgmt_ok (w_mgmt w);
  ti_reads : take_n (length (extents_of fm0) + length (extents_of fm1)) (w_mgmt w) = Some mr;
  ti_writes : take_n (length (extents_of fmt)) mr = Some mw;
  ti_disk : Z.to_nat (blockcnt bdev * blocklen bdev) = length (w_disk w) }.

(** The three files of an addition: readable by the host, on the device, and
    their places fit the page of the payload. *)
Record addition_files (bdev : spdk_bdev) (fm0 fm1 fmt : fiemap) : Prop := {
  fl_payload : (8 * length (payload_words fm0 fm1 fmt) <= 4096)%nat;
  fl_in0 : file_on bdev fm0; fl_in1 : file_on bdev fm1; fl_out : file_on bdev fmt; fl_disjoint : file_disjoint fmt }.

(** ** The target's part *)

Lemma sum_of_files_eq `{HeaanLib} w fm0 fm1 :
  sum_of_files (w_disk w) fm0 fm1 = ((sum_ct w (extents_of fm0) (extents_of fm1)).1, sum_bytes w (extents_of fm0) (extents_of fm1)).
Proof. unfold sum_of_files, sum_bytes, sum_ct, input_ct, input_data, file_data. by destruct (ciphertextAdd _ _ _). Qed.

Lemma heaan_req_checked bdev desc r ni ct o0 o1 ot es0 es1 est :
  heaan_req bdev desc r o0 o1 ot es0 es1 est -> heaan_req bdev desc (checked ni ct r) o0 o1 ot es0 es1 est.
Proof. intros []. by split. Qed.

Lemma addition_ready bdev desc w rid q r qp ct ni o0 o1 ot fm0 fm1 fmt mr mw :
  io_arrival w rid q r qp ct ni -> heaan_req bdev desc r o0 o1 ot (extents_of fm0) (extents_of fm1) (extents_of fmt) ->
  target_idle bdev w fm0 fm1 fmt mr mw ->
  heaan_ready bdev desc (at_handler w rid q r qp ct ni) rid q (checked ni ct r) (qpair_with rid qp) ct o0 o1 ot
    (extents_of fm0) (extents_of fm1) (extents_of fmt) mr mw.
Proof. intros HA HR []. split; try done; [by apply heaan_req_checked|by apply at_handler_live]. Qed.

(** The target's side of an addition, from the arrival of the command to its
    answer. *)
Lemma exec_addition_wp `{HeaanLib} fabrics admin bdev desc w rid q r qp ct ni o0 o1 ot fm0 fm1 fmt mr mw ks js (Q : unit -> world -> Prop) :
  io_plain w rid q r qp ct ni bdev desc -> opc (req_cmd r) = SPDK_NVME_OPC_CUSTOM_HEAAN_ADD ->
  heaan_req bdev desc r o0 o1 ot (extents_of fm0) (extents_of fm1) (extents_of fmt) -> target_idle bdev w fm0 fm1 fmt mr mw ->
  file_disjoint fmt -> (sum_of_files (w_disk w) fm0 fm1).1 = 0 ->
  (length (sum_of_files (w_disk w) fm0 fm1).2 <= total (extents_of fmt))%nat ->
  ks ≡ₚ seq 0 (length (extents_of fm0) + length (extents_of fm1)) -> js ≡ₚ seq 0 (length (extents_of fmt)) ->
  let l := w_next w in
  let N := (length (extents_of fm0) + length (extents_of fm1))%nat in
  (forall w', add_answered (at_handler w rid q r qp ct ni) rid q (checked ni ct r) (extents_of fm0) (extents_of fm1) (extents_of fmt) w' -> Q tt w') ->
  wp (spdk_nvmf_request_exec true fabrics admin rid;;
      serve (fun iod => nvmf_heaan_buffer_fill_complete iod l) (Nat.add (l + 5) <$> ks);;
      serve (fun iod => nvmf_heaan_cip_write_complete iod l) (Nat.add (l + 5 + N) <$> js)) w Q.
Proof.
  intros HP Hop HR HT Hdj Hs Hf Hks Hjs l N HQ. pose proof HP as [HA _ _ _]. rewrite sum_of_files_eq in Hs, Hf.
  pose proof (addition_ready _ _ _ _ _ _ _ _ _ _ _ _ _ _ _ _ _ HA HR HT) as HY.
  wstep. eapply (exec_plain_wp _ _ _ w rid q r qp ct ni bdev desc); [done|]. rewrite Hop.
  change (dispatch_opcode _ _ _ bdev desc rid SPDK_NVME_OPC_CUSTOM_HEAAN_ADD) with (nvmf_bdev_ctrlr_custom_heaan_cipadd_cmd bdev desc rid).
  wstep. apply (heaan_cmd_wp _ _ _ _ _ _ _ _ _ _ _ _ _ _ _ _ HY). intros w1 FS. rewrite bool_decide_false by done. wsteps.
  rewrite <- (Nat.add_comm 5 l).
  apply wp_unbind. by eapply (serve_all_wp _ _ _ _ _ _ _ _ _ _ _ _ _ _ _ _ HY Hs Hf Hdj ks js w1 Q FS).
Qed.

(** ** Theorems *)

(** C1. An addition from the host's files to the target's medium, on a target
    built with [HEAAN_LIB] (without it the opcode is one of those passed through
    to the device).  When the file system finds two inputs and a target on the
    device and their places fit the page, the host submits one command; and for
    every such target that receives it, lets it in and has the resources, whose
    library adds the two inputs without error to a ciphertext that fits the target
    file, and every order in which the device completes the reads and then the
    writes: one answer is handed to the transport, to this command and with
    success, the target file's ranges on the medium hold the bytes the library
    makes of the sum of the two input files, padded with zeros, every range
    outside the target file is as it was, the request is no longer outstanding,
    and the counter of every namespace is again the number of its outstanding
    requests. *)
Theorem offloaded_addition_correct `{HostOS} `{HeaanLib} flags0 cfg fm0 fm1 fmt s s' bdev desc
    (HR : add_run flags0 cfg fm0 fm1 fmt s s') (HF : addition_files bdev fm0 fm1 fmt)
    (Hde : desc_bdev desc = bdev) (Hw : desc_write desc = true) (HG : geometry_ok bdev) :
  let cfg' := addition_cfg cfg (layout_of fm0) (layout_of fm1) (layout_of fmt) in
  let data := payload cfg fm0 fm1 fmt in
  passthru false flags0 cfg s = ('(err, _, _) ← call (os_submit false cfg' (Some data) None); mret err) s' /\
  forall fabrics admin w rid q r qp ct ni mr mw ks js,
    received cfg' data r -> io_plain w rid q r qp ct ni bdev desc -> accounted w -> target_idle bdev w fm0 fm1 fmt mr mw ->
    (sum_of_files (w_disk w) fm0 fm1).1 = 0 -> (length (sum_of_files (w_disk w) fm0 fm1).2 <= total (extents_of fmt))%nat ->
    ks ≡ₚ seq 0 (length (extents_of fm0) + length (extents_of fm1)) -> js ≡ₚ seq 0 (length (extents_of fmt)) ->
    let l := w_next w in
    let N := (length (extents_of fm0) + length (extents_of fm1))%nat in
    wp (spdk_nvmf_request_exec true fabrics admin rid;;
        serve (fun iod => nvmf_heaan_buffer_fill_complete iod l) (Nat.add (l + 5) <$> ks);;
        serve (fun iod => nvmf_heaan_cip_write_complete iod l) (Nat.add (l + 5 + N) <$> js)) w (fun _ w' =>
      (exists c, answers_only w w' [(rid, c)] /\ spdk_nvme_cpl_is_error c = false) /\
      file_data (w_disk w') fmt = padded (total (extents_of fmt)) (sum_of_files (w_disk w) fm0 fm1).2 /\
      (forall o n, outside fmt o n -> slice o n (w_disk w') = slice o n (w_disk w)) /\
      (exists qp', w_qpairs w' !! q = Some qp' /\ rid ∉ qp_outstanding qp') /\ accounted w').
Proof.
  intros cfg' data. pose proof HR as [Hop _ _ _ (mfd & s0 & _ & _ & [_ (K0 & K1 & Kt)])]. destruct HF as [Hfit F0 F1 Ft Hdj].
  split; [by apply addition_submits|].
  intros fabrics admin w rid q r qp ct ni mr mw ks js Hr HP Hacc HT Hs Hf Hks Hjs l N.
  assert (Ho : opc (req_cmd r) = SPDK_NVME_OPC_CUSTOM_HEAAN_ADD) by (rewrite (rc_opc _ _ _ Hr); exact Hop).
  pose proof (received_heaan_req bdev desc cfg fm0 fm1 fmt r K0 K1 Kt Hfit Hde Hw HG F0 F1 Ft Hr) as HQ.
  eapply exec_addition_wp; [done..|]. intros w' AA. pose proof AA as [Hlog _ _ _ _ Hout Hac]. split; [exact Hlog|].
  rewrite sum_of_files_eq in Hf |- *.
  destruct (answered_medium (at_handler w rid q r qp ct ni) _ _ _ _ _ _ Hf _ AA) as [Hm Hn]. split; [exact Hm|]. split; [exact Hn|].
  split; [exact Hout|]. apply Hac; [unfold is_aer; cbn; by rewrite Ho|]. by apply accounted_at_handler; [apply HP|].
Qed.

(** ** A small system *)

Definition demo_offload_req : spdk_nvmf_request :=
  demo_req (NvmeCmd 0xe0 0 7 1 0 0 0 2 1 2 0 0)
    [Iov (Some (payload (demo_pc 0xe0) (demo_fm demo_in0) (demo_fm demo_in1) (demo_fm demo_out)))].
Definition demo_offload_world : world := demo_arrival demo_offload_req (demo_ni 0 0 []) (w_disk demo_add_world).

Lemma demo_addition_on_device : addition_files demo_bdev (demo_fm demo_in0) (demo_fm demo_in1) (demo_fm demo_out).
Proof.
  destruct demo_extents as (E0 & E1 & Et).
  split; [vm_compute; lia| | | |exact demo_out_disjoint]; unfold file_on.
  - by repeat split.
  - by repeat split.
  - by repeat split.
Qed.

Lemma demo_target_idle r disk : length disk = 4096%nat ->
  target_idle demo_bdev (demo_arrival r (demo_ni 0 0 []) disk) (demo_fm demo_in0) (demo_fm demo_in1) (demo_fm demo_out)
    (MgmtCh 1 4 4 []) (MgmtCh 0 4 3 []).
Proof. intros Hd. by split. Qed.

Lemma offloaded_addition_correct_witness :
  let host := demo_os (demo_files demo_in0 demo_in1 demo_out) in
  let lib := demo_lib in
  @passthru host false 0 (demo_pc 0xe0) tt = HRet 0 tt /\
  wp (spdk_nvmf_request_exec true demo_no_cmds demo_no_cmds 0;;
      serve (fun iod => nvmf_heaan_buffer_fill_complete iod 0) [7; 5; 6]%nat;;
      serve (fun iod => nvmf_heaan_cip_write_complete iod 0) [9; 8]%nat) demo_offload_world (fun _ w' =>
    file_data (w_disk w') (demo_fm demo_out) = replicate 512 11 ++ replicate 512 22 /\ accounted w').
Proof.
  intros host lib.
  destruct (@offloaded_addition_correct host demo_lib 0 (demo_pc 0xe0) (demo_fm demo_in0) (demo_fm demo_in1) (demo_fm demo_out) tt tt
    demo_bdev demo_desc (demo_add_run demo_in0 demo_in1 demo_out ltac:(vm_compute; lia) ltac:(vm_compute; lia) ltac:(vm_compute; lia))
    demo_addition_on_device eq_refl eq_refl ltac:(by split)) as [Hp W].
  split; [rewrite Hp; reflexivity|].
  eapply wp_mono; [apply (W demo_no_cmds demo_no_cmds demo_offload_world 0 0 demo_offload_req (demo_qpair []) demo_ctrlr (demo_ni 0 0 [])
    (MgmtCh 1 4 4 []) (MgmtCh 0 4 3 []) [2; 0; 1] [1; 0])%nat|].
  - split; reflexivity.
  - apply demo_io_plain; first [reflexivity|discriminate].
  - apply demo_arrival_accounted.
  - by apply demo_target_idle.
  - done.
  - vm_compute. lia.
  - by apply (Permutation_app_comm [2%nat] [0; 1]%nat).
  - by apply (Permutation_app_comm [1%nat] [0%nat]).
  - intros _ w' (_ & Hd & _ & _ & Ha). split; [|exact Ha]. rewrite Hd. by vm_compute.
Defined.
