(* ===== verification/Reservation.v ===== *)
(** * Reservations: the state machine of a namespace (subsystem.c)

    The registrants of a namespace, the reservation one of them holds, and the
    commands that change them: register, acquire, release and report.  The
    abstract specification at the end keeps a map from hosts to keys and the
    reservation; the theorems show that the commands implement it, keep the
    state well formed and never fail an assertion. *)
From S2P Require Import Prelude NvmeSpec Iov World Ctrlr.

(** ** State *)

(** [struct spdk_nvmf_registrant]; [rg_ptr] is its address. *)
Record spdk_nvmf_registrant := NvmfRegistrant { rg_ptr : nat; rg_hostid : Z; rg_rkey : Z }.
#[global] Instance eta_registrant : Eta spdk_nvmf_registrant := fun g => NvmfRegistrant (rg_ptr g) (rg_hostid g) (rg_rkey g).

(** The reservation fields of [struct spdk_nvmf_ns]: the registrants in the
    order of their list, the holder as an address.  [rs_fresh] is the next
    address that is not in use. *)
Record ns_resv := NsResv {
  rs_gen : Z; rs_registrants : list spdk_nvmf_registrant; rs_crkey : Z; rs_rtype : Z; rs_holder : option nat;
  rs_ptpl_activated : bool; rs_fresh : nat }.
#[global] Instance eta_resv : Eta ns_resv := fun s =>
  NsResv (rs_gen s) (rs_registrants s) (rs_crkey s) (rs_rtype s) (rs_holder s) (rs_ptpl_activated s) (rs_fresh s).

(** A namespace that was just added. *)
Definition resv_init : ns_resv := NsResv 0 [] 0 0 None false 0.

(** The result of a command: the state, the notifications (hosts and type of
    each call), the status code, and whether the poll groups are updated.
    Undefined behaviour and failed assertions are [None]. *)
Record resv_result := ResvResult { rr_ns : ns_resv; rr_notices : list (list Z * Z); rr_status : Z; rr_update : bool }.

(** ** Registrants *)

Definition nvmf_ns_reservation_get_registrant (ns : ns_resv) (uuid : Z) : option spdk_nvmf_registrant :=
  List.find (fun reg => rg_hostid reg =? uuid) (rs_registrants ns).

Fixpoint other_hostids (l : list spdk_nvmf_registrant) (max_num_hostid : nat) (current_hostid : Z) (acc : list Z) : option (list Z) :=
  match l with
  | [] => Some acc
  | reg :: l =>
      if rg_hostid reg !=? current_hostid then
        if (length acc =? max_num_hostid)%nat then None
        else other_hostids l max_num_hostid current_hostid (acc ++ [rg_hostid reg])
      else other_hostids l max_num_hostid current_hostid acc
  end.
Definition nvmf_ns_reservation_get_all_other_hostid (ns : ns_resv) (max_num_hostid : nat) (current_hostid : Z) : option (list Z) :=
  other_hostids (rs_registrants ns) max_num_hostid current_hostid [].

Definition nvmf_ns_reservation_get_unregistered_hostid (old_hostid_list remaining_hostid_list : list Z) : list Z :=
  if (length remaining_hostid_list =? 0)%nat then old_hostid_list
  else List.filter (fun h => negb (existsb (fun h' => h =? h') remaining_hostid_list)) old_hostid_list.

Definition nvmf_ns_reservation_all_registrants_type (ns : ns_resv) : bool :=
  (rs_rtype ns =? SPDK_NVME_RESERVE_WRITE_EXCLUSIVE_ALL_REGS) || (rs_rtype ns =? SPDK_NVME_RESERVE_EXCLUSIVE_ACCESS_ALL_REGS).

Definition nvmf_ns_reservation_registrant_is_holder (ns : ns_resv) (reg : nat) : bool :=
  if nvmf_ns_reservation_all_registrants_type ns then true else bool_decide (rs_holder ns = Some reg).

(** [mem] says whether the allocation succeeds. *)
Definition nvmf_ns_reservation_add_registrant (mem : bool) (ns : ns_resv) (hostid nrkey : Z) : Z * ns_resv :=
  if negb mem then (- ENOMEM, ns)
  else (0, ns <| rs_registrants := rs_registrants ns ++ [NvmfRegistrant (rs_fresh ns) hostid nrkey] |>
              <| rs_fresh := S (rs_fresh ns) |> <| rs_gen := u32 (rs_gen ns + 1) |>).

Definition nvmf_ns_reservation_release_reservation (ns : ns_resv) : ns_resv :=
  ns <| rs_rtype := 0 |> <| rs_crkey := 0 |> <| rs_holder := None |>.

Definition nvmf_ns_reservation_check_release_on_remove_registrant (ns : ns_resv) (reg : nat) : option ns_resv :=
  match rs_holder ns with
  | None => if rs_rtype ns =? 0 then Some ns else None
  | Some _ =>
      match head (rs_registrants ns) with
      | Some next_reg =>
          if nvmf_ns_reservation_all_registrants_type ns then Some (ns <| rs_holder := Some (rg_ptr next_reg) |>)
          else if nvmf_ns_reservation_registrant_is_holder ns reg then Some (nvmf_ns_reservation_release_reservation ns)
          else Some ns
      | None =>
          if nvmf_ns_reservation_registrant_is_holder ns reg then Some (nvmf_ns_reservation_release_reservation ns) else Some ns
      end
  end.

Definition nvmf_ns_reservation_remove_registrant (ns : ns_resv) (reg : nat) : option ns_resv :=
  if existsb (fun g => rg_ptr g =? reg)%nat (rs_registrants ns) then
    ns ← nvmf_ns_reservation_check_release_on_remove_registrant
           (ns <| rs_registrants := List.filter (fun g => negb (rg_ptr g =? reg)%nat) (rs_registrants ns) |>) reg;
    Some (ns <| rs_gen := u32 (rs_gen ns + 1) |>)
  else None.

(** The loops over the list: the next element is read before the current one
    is removed, so they visit the elements the list had. *)
Fixpoint remove_where (p : spdk_nvmf_registrant -> bool) (l : list spdk_nvmf_registrant) (ns : ns_resv) (count : Z)
  : option (ns_resv * Z) :=
  match l with
  | [] => Some (ns, count)
  | reg :: l =>
      if p reg then
        ns ← nvmf_ns_reservation_remove_registrant ns (rg_ptr reg);
        remove_where p l ns (u32 (count + 1))
      else remove_where p l ns count
  end.

Definition nvmf_ns_reservation_remove_registrants_by_key (ns : ns_resv) (rkey : Z) : option (ns_resv * Z) :=
  remove_where (fun reg => rg_rkey reg =? rkey) (rs_registrants ns) ns 0.

Definition nvmf_ns_reservation_remove_all_other_registrants (ns : ns_resv) (reg : nat) : option (ns_resv * Z) :=
  remove_where (fun g => negb (rg_ptr g =? reg)%nat) (rs_registrants ns) ns 0.

Definition nvmf_ns_reservation_clear_all_registrants (ns : ns_resv) : option (ns_resv * Z) :=
  remove_where (fun _ => true) (rs_registrants ns) ns 0.

Definition nvmf_ns_reservation_acquire_reservation (ns : ns_resv) (rkey rtype : Z) (holder : nat) : option ns_resv :=
  match rs_holder ns with
  | Some _ => None
  | None => Some (ns <| rs_rtype := rtype |> <| rs_crkey := rkey |> <| rs_holder := Some holder |>)
  end.

(** ** Commands *)

(** The structure of [n] bytes a command brings; no bytes when the request
    has none or is too short. *)
Definition read_key (n : nat) (req : spdk_nvmf_request) : option (option bytes) :=
  if (0 <? req_iovcnt req) && (Z.of_nat n <=? req_length req)
  then Some <$> spdk_copy_iovs_to_buf (replicate n 0) n (req_iov req) (Z.to_nat (req_iovcnt req))
  else Some None.
Definition key0 (b : bytes) : Z := le_dec (slice 0 8 b).
Definition key1 (b : bytes) : Z := le_dec (slice 8 8 b).

(** The change of the persistence state: whether it is refused, the state, and
    whether it changed. *)
Definition register_ptpl (capable : bool) (ns : ns_resv) (cptpl : Z) : bool * ns_resv * bool :=
  if cptpl =? SPDK_NVME_RESERVE_PTPL_CLEAR_POWER_ON then
    if rs_ptpl_activated ns then (false, ns <| rs_ptpl_activated := false |>, true) else (false, ns, false)
  else if cptpl =? SPDK_NVME_RESERVE_PTPL_PERSIST_POWER_LOSS then
    if negb capable then (true, ns, false)
    else if negb (rs_ptpl_activated ns) then (false, ns <| rs_ptpl_activated := true |>, true)
    else (false, ns, false)
  else (false, ns, false).

Definition register_action (mem : bool) (ns : ns_resv) (hostid rrega iekey crkey nrkey : Z) (update_sgroup : bool) : option resv_result :=
  let reg := nvmf_ns_reservation_get_registrant ns hostid in
  let exit (ns : ns_resv) (st : Z) (u : bool) := Some (ResvResult ns [] st u) in
  if rrega =? SPDK_NVME_RESERVE_REGISTER_KEY then
    match reg with
    | None =>
        if nrkey =? 0 then exit ns SPDK_NVME_SC_INVALID_FIELD update_sgroup
        else
          let '(rc, ns) := nvmf_ns_reservation_add_registrant mem ns hostid nrkey in
          if rc <? 0 then exit ns SPDK_NVME_SC_INTERNAL_DEVICE_ERROR update_sgroup
          else exit ns SPDK_NVME_SC_SUCCESS true
    | Some reg =>
        if rg_rkey reg !=? nrkey then exit ns SPDK_NVME_SC_RESERVATION_CONFLICT update_sgroup
        else exit ns SPDK_NVME_SC_SUCCESS update_sgroup
    end
  else if rrega =? SPDK_NVME_RESERVE_UNREGISTER_KEY then
    match reg with
    | None => exit ns SPDK_NVME_SC_RESERVATION_CONFLICT update_sgroup
    | Some reg =>
        if (iekey =? 0) && (rg_rkey reg !=? crkey) then exit ns SPDK_NVME_SC_RESERVATION_CONFLICT update_sgroup
        else
          let rtype := rs_rtype ns in
          hostid_list ← nvmf_ns_reservation_get_all_other_hostid ns SPDK_NVMF_MAX_NUM_REGISTRANTS hostid;
          ns ← nvmf_ns_reservation_remove_registrant ns (rg_ptr reg);
          let notices :=
            if (rs_rtype ns =? 0) && negb (length hostid_list =? 0)%nat
               && ((rtype =? SPDK_NVME_RESERVE_WRITE_EXCLUSIVE_REG_ONLY) || (rtype =? SPDK_NVME_RESERVE_EXCLUSIVE_ACCESS_REG_ONLY))
            then [(hostid_list, SPDK_NVME_RESERVATION_RELEASED)] else [] in
          Some (ResvResult ns notices SPDK_NVME_SC_SUCCESS true)
    end
  else if rrega =? SPDK_NVME_RESERVE_REPLACE_KEY then
    if nrkey =? 0 then exit ns SPDK_NVME_SC_INVALID_FIELD update_sgroup
    else match reg with
         | Some reg =>
             if (iekey =? 0) && (rg_rkey reg !=? crkey) then exit ns SPDK_NVME_SC_RESERVATION_CONFLICT update_sgroup
             else if rg_rkey reg =? nrkey then exit ns SPDK_NVME_SC_SUCCESS update_sgroup
             else exit (ns <| rs_registrants := (fun g => if (rg_ptr g =? rg_ptr reg)%nat then g <| rg_rkey := nrkey |> else g)
                                                 <$> rs_registrants ns |>) SPDK_NVME_SC_SUCCESS true
         | None =>
             if iekey !=? 0 then
               let '(rc, ns) := nvmf_ns_reservation_add_registrant mem ns hostid nrkey in
               if rc <? 0 then exit ns SPDK_NVME_SC_INTERNAL_DEVICE_ERROR update_sgroup
               else exit ns SPDK_NVME_SC_SUCCESS true
             else exit ns SPDK_NVME_SC_RESERVATION_CONFLICT update_sgroup
         end
  else exit ns SPDK_NVME_SC_INVALID_FIELD update_sgroup.

Definition nvmf_ns_reservation_register (capable mem : bool) (ns : ns_resv) (hostid : Z) (req : spdk_nvmf_request) : option resv_result :=
  let cmd := req_cmd req in
  key ← read_key 16 req;
  match key with
  | None => Some (ResvResult ns [] SPDK_NVME_SC_INVALID_FIELD false)
  | Some key =>
      let '(refused, ns, update_sgroup) := register_ptpl capable ns (resv_register_cptpl cmd) in
      if (refused : bool) then Some (ResvResult ns [] SPDK_NVME_SC_INVALID_FIELD update_sgroup)
      else register_action mem ns hostid (resv_register_rrega cmd) (resv_register_iekey cmd) (key0 key) (key1 key) update_sgroup
  end.

(** What an acquire action leaves: the state, the status, whether the poll
    groups are updated, the other registrants before, and whether a
    reservation was released. *)
Record acquire_out := AcquireOut { ao_ns : ns_resv; ao_status : Z; ao_update : bool; ao_hostids : list Z; ao_released : bool }.

Definition acquire_preempt (ns : ns_resv) (hostid : Z) (reg : nat) (crkey prkey rtype : Z) : option acquire_out :=
  let all_regs := nvmf_ns_reservation_all_registrants_type ns in
  match rs_holder ns with
  | None =>
      '(ns, _) ← nvmf_ns_reservation_remove_registrants_by_key ns prkey;
      Some (AcquireOut ns SPDK_NVME_SC_SUCCESS true [] false)
  | Some holder =>
      hostid_list ← nvmf_ns_reservation_get_all_other_hostid ns SPDK_NVMF_MAX_NUM_REGISTRANTS hostid;
      if negb all_regs then
        if nvmf_ns_reservation_registrant_is_holder ns reg && (rs_crkey ns =? prkey) then
          Some (AcquireOut (ns <| rs_rtype := rtype |>) SPDK_NVME_SC_SUCCESS true hostid_list true)
        else if rs_crkey ns =? prkey then
          ns ← nvmf_ns_reservation_remove_registrant ns holder;
          ns ← nvmf_ns_reservation_acquire_reservation ns crkey rtype reg;
          Some (AcquireOut ns SPDK_NVME_SC_SUCCESS true hostid_list true)
        else if prkey !=? 0 then
          '(ns, _) ← nvmf_ns_reservation_remove_registrants_by_key ns prkey;
          Some (AcquireOut ns SPDK_NVME_SC_SUCCESS true hostid_list false)
        else Some (AcquireOut ns SPDK_NVME_SC_RESERVATION_CONFLICT false hostid_list false)
      else if prkey =? 0 then
        '(ns, _) ← nvmf_ns_reservation_remove_all_other_registrants ns reg;
        if bool_decide (rs_holder ns = Some reg) then Some (AcquireOut ns SPDK_NVME_SC_SUCCESS true hostid_list false) else None
      else
        '(ns, count) ← nvmf_ns_reservation_remove_registrants_by_key ns prkey;
        if count =? 0 then Some (AcquireOut ns SPDK_NVME_SC_RESERVATION_CONFLICT false hostid_list false)
        else Some (AcquireOut ns SPDK_NVME_SC_SUCCESS true hostid_list false)
  end.

Definition acquire_action (ns : ns_resv) (hostid racqa iekey rtype crkey prkey : Z) : option acquire_out :=
  if (iekey !=? 0) || (SPDK_NVME_RESERVE_EXCLUSIVE_ACCESS_ALL_REGS <? rtype) then
    Some (AcquireOut ns SPDK_NVME_SC_INVALID_FIELD false [] false)
  else match nvmf_ns_reservation_get_registrant ns hostid with
       | None => Some (AcquireOut ns SPDK_NVME_SC_RESERVATION_CONFLICT false [] false)
       | Some reg =>
           if rg_rkey reg !=? crkey then Some (AcquireOut ns SPDK_NVME_SC_RESERVATION_CONFLICT false [] false)
           else if racqa =? SPDK_NVME_RESERVE_ACQUIRE then
             if nvmf_ns_reservation_registrant_is_holder ns (rg_ptr reg) && (rs_rtype ns =? rtype) then
               Some (AcquireOut ns SPDK_NVME_SC_SUCCESS false [] false)
             else match rs_holder ns with
                  | None =>
                      ns ← nvmf_ns_reservation_acquire_reservation ns crkey rtype (rg_ptr reg);
                      Some (AcquireOut ns SPDK_NVME_SC_SUCCESS true [] false)
                  | Some _ => Some (AcquireOut ns SPDK_NVME_SC_RESERVATION_CONFLICT false [] false)
                  end
           else if racqa =? SPDK_NVME_RESERVE_PREEMPT then acquire_preempt ns hostid (rg_ptr reg) crkey prkey rtype
           else Some (AcquireOut ns SPDK_NVME_SC_INVALID_FIELD false [] false)
       end.

(** The common exit: the notifications of a preemption. *)
Definition acquire_exit (hostid racqa : Z) (o : acquire_out) : option resv_result :=
  if ao_update o && (racqa =? SPDK_NVME_RESERVE_PREEMPT) then
    new_hostid_list ← nvmf_ns_reservation_get_all_other_hostid (ao_ns o) SPDK_NVMF_MAX_NUM_REGISTRANTS hostid;
    let gone := nvmf_ns_reservation_get_unregistered_hostid (ao_hostids o) new_hostid_list in
    Some (ResvResult (ao_ns o)
      ((if negb (length gone =? 0)%nat then [(gone, SPDK_NVME_REGISTRATION_PREEMPTED)] else [])
       ++ (if ao_released o && negb (length new_hostid_list =? 0)%nat
           then [(new_hostid_list, SPDK_NVME_RESERVATION_RELEASED)] else []))
      (ao_status o) (ao_update o))
  else Some (ResvResult (ao_ns o) [] (ao_status o) (ao_update o)).

Definition nvmf_ns_reservation_acquire (ns : ns_resv) (hostid : Z) (req : spdk_nvmf_request) : option resv_result :=
  let cmd := req_cmd req in
  key ← read_key 16 req;
  o ← match key with
      | None => Some (AcquireOut ns SPDK_NVME_SC_INVALID_FIELD true [] false)
      | Some key =>
          acquire_action ns hostid (resv_acquire_racqa cmd) (resv_acquire_iekey cmd) (resv_acquire_rtype cmd) (key0 key) (key1 key)
      end;
  acquire_exit hostid (resv_acquire_racqa cmd) o.

Definition release_action (ns : ns_resv) (hostid rrela iekey rtype crkey : Z) : option resv_result :=
  let exit (st : Z) := Some (ResvResult ns [] st false) in
  if iekey !=? 0 then exit SPDK_NVME_SC_INVALID_FIELD
  else match nvmf_ns_reservation_get_registrant ns hostid with
       | None => exit SPDK_NVME_SC_RESERVATION_CONFLICT
       | Some reg =>
           if rg_rkey reg !=? crkey then exit SPDK_NVME_SC_RESERVATION_CONFLICT
           else
             hostid_list ← nvmf_ns_reservation_get_all_other_hostid ns SPDK_NVMF_MAX_NUM_REGISTRANTS hostid;
             let others := negb (length hostid_list =? 0)%nat in
             if rrela =? SPDK_NVME_RESERVE_RELEASE then
               match rs_holder ns with
               | None => exit SPDK_NVME_SC_SUCCESS
               | Some _ =>
                   if rs_rtype ns !=? rtype then exit SPDK_NVME_SC_INVALID_FIELD
                   else if negb (nvmf_ns_reservation_registrant_is_holder ns (rg_ptr reg)) then exit SPDK_NVME_SC_SUCCESS
                   else
                     let rtype := rs_rtype ns in
                     Some (ResvResult (nvmf_ns_reservation_release_reservation ns)
                       (if others && (rtype !=? SPDK_NVME_RESERVE_WRITE_EXCLUSIVE) && (rtype !=? SPDK_NVME_RESERVE_EXCLUSIVE_ACCESS)
                        then [(hostid_list, SPDK_NVME_RESERVATION_RELEASED)] else [])
                       SPDK_NVME_SC_SUCCESS true)
               end
             else if rrela =? SPDK_NVME_RESERVE_CLEAR then
               '(ns, _) ← nvmf_ns_reservation_clear_all_registrants ns;
               Some (ResvResult ns (if others then [(hostid_list, SPDK_NVME_RESERVATION_PREEMPTED)] else []) SPDK_NVME_SC_SUCCESS true)
             else exit SPDK_NVME_SC_INVALID_FIELD
       end.

Definition nvmf_ns_reservation_release (ns : ns_resv) (hostid : Z) (req : spdk_nvmf_request) : option resv_result :=
  let cmd := req_cmd req in
  key ← read_key 8 req;
  match key with
  | None => Some (ResvResult ns [] SPDK_NVME_SC_INVALID_FIELD true)
  | Some key => release_action ns hostid (resv_release_rrela cmd) (resv_release_iekey cmd) (resv_release_rtype cmd) (key0 key)
  end.

(** The [switch] of [nvmf_ns_reservation_request] over the commands that change
    the state. *)
Definition reservation_dispatch (capable mem : bool) (ns : ns_resv) (hostid : Z) (req : spdk_nvmf_request) : option resv_result :=
  let op := opc (req_cmd req) in
  if op =? SPDK_NVME_OPC_RESERVATION_REGISTER then nvmf_ns_reservation_register capable mem ns hostid req
  else if op =? SPDK_NVME_OPC_RESERVATION_ACQUIRE then nvmf_ns_reservation_acquire ns hostid req
  else if op =? SPDK_NVME_OPC_RESERVATION_RELEASE then nvmf_ns_reservation_release ns hostid req
  else Some (ResvResult ns [] (sc (status (req_rsp req))) false).

(** ** Specification *)

(** The registered hosts with their keys; the reservation with its type, the
    key it was acquired with and its holder ([None]: every registrant); and
    whether the state persists. *)
Record aresv := AResv { a_regs : gmap Z Z; a_resv : option (Z * Z * option Z); a_ptpl : bool }.
#[global] Instance eta_aresv : Eta aresv := fun a => AResv (a_regs a) (a_resv a) (a_ptpl a).

Definition all_registrants (t : Z) : bool :=
  (t =? SPDK_NVME_RESERVE_WRITE_EXCLUSIVE_ALL_REGS) || (t =? SPDK_NVME_RESERVE_EXCLUSIVE_ACCESS_ALL_REGS).
Definition held_by (t h : Z) : option Z := if all_registrants t then None else Some h.

(** Unregistering the hosts [gone]: the reservation stays as long as its holder
    is registered, or anyone when all registrants hold it. *)
Definition a_drop (gone : Z -> Z -> bool) (a : aresv) : aresv :=
  let regs := filter (fun kv => gone kv.1 kv.2 = false) (a_regs a) in
  AResv regs
    (match a_resv a with
     | Some (t, k, Some h) => if bool_decide (is_Some (regs !! h)) then Some (t, k, Some h) else None
     | Some (t, k, None) => if bool_decide (regs = ∅) then None else Some (t, k, None)
     | None => None
     end) (a_ptpl a).

Definition a_holds (a : aresv) (h : Z) : bool :=
  match a_resv a with
  | Some (_, _, Some h') => h' =? h
  | Some (_, _, None) => bool_decide (is_Some (a_regs a !! h))
  | None => false
  end.
Definition a_type (a : aresv) : Z := match a_resv a with Some (t, _, _) => t | None => 0 end.

Inductive reg_action := RegisterKey (nrkey : Z) | UnregisterKey (ignore : bool) (crkey : Z) | ReplaceKey (ignore : bool) (crkey nrkey : Z).
Inductive resv_cmd :=
| CRegister (ptpl : option bool) (act : option reg_action)
| CAcquire (crkey rtype : Z) | CPreempt (crkey prkey rtype : Z)
| CRelease (crkey rtype : Z) | CClear (crkey : Z) | CUnsupported (crkey : Z) | CInvalid.

Definition a_register (mem : bool) (a : aresv) (h nrkey : Z) : aresv * Z :=
  if mem then (a <| a_regs := <[h := nrkey]> (a_regs a) |>, SPDK_NVME_SC_SUCCESS) else (a, SPDK_NVME_SC_INTERNAL_DEVICE_ERROR).

Definition a_action (mem : bool) (a : aresv) (h : Z) (act : reg_action) : aresv * Z :=
  match act, a_regs a !! h with
  | RegisterKey nk, None => if nk =? 0 then (a, SPDK_NVME_SC_INVALID_FIELD) else a_register mem a h nk
  | RegisterKey nk, Some k => (a, if k =? nk then SPDK_NVME_SC_SUCCESS else SPDK_NVME_SC_RESERVATION_CONFLICT)
  | UnregisterKey ign ck, Some k =>
      if ign || (k =? ck) then (a_drop (fun h' _ => h' =? h) a, SPDK_NVME_SC_SUCCESS) else (a, SPDK_NVME_SC_RESERVATION_CONFLICT)
  | UnregisterKey _ _, None => (a, SPDK_NVME_SC_RESERVATION_CONFLICT)
  | ReplaceKey ign ck nk, o =>
      if nk =? 0 then (a, SPDK_NVME_SC_INVALID_FIELD)
      else match o with
           | Some k => if ign || (k =? ck) then (a <| a_regs := <[h := nk]> (a_regs a) |>, SPDK_NVME_SC_SUCCESS)
                       else (a, SPDK_NVME_SC_RESERVATION_CONFLICT)
           | None => if ign then a_register mem a h nk else (a, SPDK_NVME_SC_RESERVATION_CONFLICT)
           end
  end.

Definition a_preempt (a : aresv) (h ck pk t : Z) : aresv * Z :=
  match a_resv a with
  | None => (a_drop (fun _ k => k =? pk) a, SPDK_NVME_SC_SUCCESS)
  | Some (t0, k0, Some h0) =>
      if k0 =? pk then
        if h0 =? h then (a <| a_resv := Some (t, k0, held_by t h) |>, SPDK_NVME_SC_SUCCESS)
        else ((a_drop (fun h' _ => h' =? h0) a) <| a_resv := Some (t, ck, held_by t h) |>, SPDK_NVME_SC_SUCCESS)
      else if pk =? 0 then (a, SPDK_NVME_SC_RESERVATION_CONFLICT)
      else (a_drop (fun _ k => k =? pk) a, SPDK_NVME_SC_SUCCESS)
  | Some (_, _, None) =>
      if pk =? 0 then (a_drop (fun h' _ => negb (h' =? h)) a, SPDK_NVME_SC_SUCCESS)
      else if bool_decide (map_Forall (fun _ k => k <> pk) (a_regs a)) then (a, SPDK_NVME_SC_RESERVATION_CONFLICT)
      else (a_drop (fun _ k => k =? pk) a, SPDK_NVME_SC_SUCCESS)
  end.

(** A command by a registered host that gives its key; any other is in
    conflict. *)
Definition with_key (a : aresv) (h ck : Z) (x : aresv * Z) : aresv * Z :=
  if bool_decide (a_regs a !! h = Some ck) then x else (a, SPDK_NVME_SC_RESERVATION_CONFLICT).

Definition a_step (capable mem : bool) (a : aresv) (h : Z) (c : resv_cmd) : aresv * Z :=
  match c with
  | CInvalid => (a, SPDK_NVME_SC_INVALID_FIELD)
  | CRegister ptpl act =>
      if negb capable && bool_decide (ptpl = Some true) then (a, SPDK_NVME_SC_INVALID_FIELD)
      else
        let a := a <| a_ptpl := default (a_ptpl a) ptpl |> in
        match act with Some act => a_action mem a h act | None => (a, SPDK_NVME_SC_INVALID_FIELD) end
  | CAcquire ck t =>
      with_key a h ck
        (match a_resv a with
         | None => (a <| a_resv := Some (t, ck, held_by t h) |>, SPDK_NVME_SC_SUCCESS)
         | Some (t', _, _) => (a, if a_holds a h && (t' =? t) then SPDK_NVME_SC_SUCCESS else SPDK_NVME_SC_RESERVATION_CONFLICT)
         end)
  | CPreempt ck pk t => with_key a h ck (a_preempt a h ck pk t)
  | CRelease ck t =>
      with_key a h ck
        (match a_resv a with
         | None => (a, SPDK_NVME_SC_SUCCESS)
         | Some (t', _, _) =>
             if t' !=? t then (a, SPDK_NVME_SC_INVALID_FIELD)
             else (if a_holds a h then a <| a_resv := None |> else a, SPDK_NVME_SC_SUCCESS)
         end)
  | CUnsupported ck => with_key a h ck (a, SPDK_NVME_SC_INVALID_FIELD)
  | CClear ck => with_key a h ck (a <| a_regs := ∅ |> <| a_resv := None |>, SPDK_NVME_SC_SUCCESS)
  end.

(** The command a request carries: the action in the command, the keys in the
    first words of its data. *)
Definition decode_cmd (r : spdk_nvmf_request) : resv_cmd :=
  let cmd := req_cmd r in
  let b := flat (req_iovs r) in
  let has n := (0 <? req_iovcnt r) && (n <=? req_length r) in
  let ck := key0 b in let k1 := key1 b in
  if opc cmd =? SPDK_NVME_OPC_RESERVATION_REGISTER then
    if negb (has 16) then CInvalid
    else
      let ign := resv_register_iekey cmd !=? 0 in
      let a := resv_register_rrega cmd in
      CRegister (if resv_register_cptpl cmd =? 2 then Some false else if resv_register_cptpl cmd =? 3 then Some true else None)
        (if a =? 0 then Some (RegisterKey k1) else if a =? 1 then Some (UnregisterKey ign ck)
         else if a =? 2 then Some (ReplaceKey ign ck k1) else None)
  else if opc cmd =? SPDK_NVME_OPC_RESERVATION_ACQUIRE then
    let t := resv_acquire_rtype cmd in let a := resv_acquire_racqa cmd in
    if negb (has 16) || (resv_acquire_iekey cmd !=? 0) || (6 <? t) then CInvalid
    else if a =? 0 then CAcquire ck t else if a =? 1 then CPreempt ck k1 t else CUnsupported ck
  else
    let a := resv_release_rrela cmd in
    if negb (has 8) || (resv_release_iekey cmd !=? 0) then CInvalid
    else if a =? 0 then CRelease ck (resv_release_rtype cmd) else if a =? 1 then CClear ck else CUnsupported ck.

(** ** The state and its abstraction *)

Definition reg_map (l : list spdk_nvmf_registrant) : gmap Z Z := list_to_map ((fun g => (rg_hostid g, rg_rkey g)) <$> l).
Definition host_of (ns : ns_resv) (p : nat) : option Z := rg_hostid <$> List.find (fun g => rg_ptr g =? p)%nat (rs_registrants ns).

Definition abs (ns : ns_resv) : aresv :=
  AResv (reg_map (rs_registrants ns))
    (match rs_holder ns with
     | Some p => Some (rs_rtype ns, rs_crkey ns, if all_registrants (rs_rtype ns) then None else host_of ns p)
     | None => None
     end) (rs_ptpl_activated ns).

(** Addresses and hosts are distinct, keys are 64-bit and not zero, the holder
    is a registrant, and there is a key exactly when there is a holder and no
    type without one. *)
Record resv_wf (ns : ns_resv) : Prop := {
  wf_ptrs : NoDup (rg_ptr <$> rs_registrants ns); wf_fresh : forall g, g ∈ rs_registrants ns -> (rg_ptr g < rs_fresh ns)%nat;
  wf_hosts : NoDup (rg_hostid <$> rs_registrants ns); wf_keys : forall g, g ∈ rs_registrants ns -> 0 < rg_rkey g < 2 ^ 64;
  wf_holder : forall p, rs_holder ns = Some p -> exists g, g ∈ rs_registrants ns /\ rg_ptr g = p;
  wf_none : rs_holder ns = None -> rs_rtype ns = 0 /\ rs_crkey ns = 0;
  wf_type : 0 <= rs_rtype ns <= 6; wf_crkey : 0 <= rs_crkey ns < 2 ^ 64; wf_gen : 0 <= rs_gen ns < 2 ^ 32;
  wf_held : rs_holder ns <> None -> rs_crkey ns <> 0 }.

(** A request whose vector holds the data its length promises. *)
Record key_request (r : spdk_nvmf_request) : Prop := {
  kr_cnt : req_iovcnt r <= Z.of_nat (length (req_iov r)); kr_len : req_length r <= blen (flat (req_iovs r));
  kr_bytes : Forall byte_ok (flat (req_iovs r)) }.

Ltac rsimp := cbn [set fst snd rs_gen rs_registrants rs_crkey rs_rtype rs_holder rs_ptpl_activated rs_fresh
  rg_ptr rg_hostid rg_rkey a_regs a_resv a_ptpl rr_ns rr_notices rr_status rr_update
  ao_ns ao_status ao_update ao_hostids ao_released mbind option_bind].

(** ** Lemmas *)

Lemma elem_of_List_filter {A} (p : A -> bool) l x : x ∈ List.filter p l <-> x ∈ l /\ p x = true.
Proof. rewrite !list_elem_of_In. apply filter_In. Qed.
Lemma List_filter_sublist {A} (p : A -> bool) l : List.filter p l `sublist_of` l.
Proof. induction l as [|x l IH]; cbn; [done|]. destruct (p x); by constructor. Qed.
Lemma NoDup_filter_fmap {A B} (f : A -> B) (p : A -> bool) l : NoDup (f <$> l) -> NoDup (f <$> List.filter p l).
Proof. intros H. eapply sublist_NoDup; [exact H|]. apply fmap_sublist, List_filter_sublist. Qed.

(** Elements with the same image under an injective key are equal. *)
Lemma NoDup_fmap_inj {A B} (f : A -> B) l x y : NoDup (f <$> l) -> x ∈ l -> y ∈ l -> f x = f y -> x = y.
Proof.
  intros Hn Hx Hy E. apply list_elem_of_lookup in Hx as [i Hi]. apply list_elem_of_lookup in Hy as [j Hj].
  assert (i = j) as ->; [|by simplify_eq]. eapply (NoDup_lookup _ _ _ (f x) Hn); rewrite list_lookup_fmap; [by rewrite Hi|by rewrite Hj, E].
Qed.

Lemma find_unique {A B} (f : A -> B) `{EqDecision B} (q : A -> bool) l x :
  NoDup (f <$> l) -> (forall y, q y = true <-> f y = f x) -> x ∈ l -> List.find q l = Some x.
Proof.
  intros Hn Hq Hx. destruct (List.find q l) as [y|] eqn:E.
  - apply find_some in E as [Hy Eq]. f_equal. eapply NoDup_fmap_inj; [done|by apply list_elem_of_In|done|by apply Hq].
  - exfalso. apply list_elem_of_In in Hx. pose proof (find_none _ _ E x Hx) as Hf. rewrite (proj2 (Hq x) eq_refl) in Hf. done.
Qed.

Lemma reg_map_lookup l h k : NoDup (rg_hostid <$> l) ->
  reg_map l !! h = Some k <-> exists g, g ∈ l /\ rg_hostid g = h /\ rg_rkey g = k.
Proof.
  intros Hn. unfold reg_map. rewrite <- elem_of_list_to_map.
  - rewrite list_elem_of_fmap. split; [intros (g & [= -> ->] & ?)|intros (g & ? & <- & <-)]; eauto.
  - by rewrite <- list_fmap_compose.
Qed.
Lemma reg_map_none l h : NoDup (rg_hostid <$> l) -> reg_map l !! h = None <-> forall g, g ∈ l -> rg_hostid g <> h.
Proof.
  intros Hn. rewrite eq_None_not_Some. split.
  - intros H g Hg E. apply H. exists (rg_rkey g). apply reg_map_lookup; eauto.
  - intros H [k (g & Hg & E & _)%reg_map_lookup]; [|done]. by apply (H g).
Qed.
Lemma reg_map_filter l (p : spdk_nvmf_registrant -> bool) (gone : Z -> Z -> bool) : NoDup (rg_hostid <$> l) ->
  (forall g, g ∈ l -> p g = negb (gone (rg_hostid g) (rg_rkey g))) ->
  reg_map (List.filter p l) = filter (fun kv => gone kv.1 kv.2 = false) (reg_map l).
Proof.
  intros Hn Hp. apply map_eq. intros h. apply option_eq. intros k.
  rewrite reg_map_lookup, map_lookup_filter_Some, reg_map_lookup by (try apply NoDup_filter_fmap; done). cbn. split.
  - intros (g & [Hg E]%elem_of_List_filter & <- & <-). split; [eauto|]. rewrite Hp in E by done. by destruct (gone _ _).
  - intros [(g & Hg & <- & <-) E]. exists g. rewrite elem_of_List_filter, Hp, E by done. done.
Qed.

Lemma get_registrant_some ns h g : resv_wf ns ->
  nvmf_ns_reservation_get_registrant ns h = Some g -> g ∈ rs_registrants ns /\ rg_hostid g = h /\ a_regs (abs ns) !! h = Some (rg_rkey g).
Proof.
  intros W E. apply find_some in E as [Hg E]. apply list_elem_of_In in Hg. apply Z.eqb_eq in E. split; [done|]. split; [done|].
  apply reg_map_lookup; [apply W|]. eauto.
Qed.
Lemma get_registrant_none ns h : resv_wf ns -> nvmf_ns_reservation_get_registrant ns h = None -> a_regs (abs ns) !! h = None.
Proof.
  intros W E. apply reg_map_none; [apply W|]. intros g Hg Eh. apply list_elem_of_In in Hg.
  pose proof (find_none _ _ E g Hg) as F. cbn in F. by rewrite Eh, Z.eqb_refl in F.
Qed.
Lemma host_of_elem ns g : resv_wf ns -> g ∈ rs_registrants ns -> host_of ns (rg_ptr g) = Some (rg_hostid g).
Proof.
  intros W Hg. unfold host_of. erewrite (find_unique rg_ptr); [done|apply W| |done]. intros y. apply Nat.eqb_eq.
Qed.

Lemma other_hostids_spec l m h acc :
  (length acc + length (List.filter (fun g => negb (rg_hostid g =? h)%Z) l) <= m)%nat ->
  other_hostids l m h acc = Some (acc ++ (rg_hostid <$> List.filter (fun g => negb (rg_hostid g =? h)) l)).
Proof.
  revert acc. induction l as [|g l IH]; intros acc Hl; cbn [other_hostids List.filter]; [cbn; by rewrite app_nil_r|].
  cbn [List.filter] in Hl. destruct (rg_hostid g =? h) eqn:E; cbn [negb] in *; [by apply IH|]. cbn [length] in Hl.
  rewrite (proj2 (Nat.eqb_neq _ _)) by lia. rewrite IH by (rewrite length_app; cbn; lia). by rewrite <- app_assoc.
Qed.
Lemma other_hostid_ok ns h : (length (rs_registrants ns) <= SPDK_NVMF_MAX_NUM_REGISTRANTS)%nat ->
  exists l, nvmf_ns_reservation_get_all_other_hostid ns SPDK_NVMF_MAX_NUM_REGISTRANTS h = Some l.
Proof.
  intros Hl. eexists. apply other_hostids_spec. cbn [length]. pose proof (filter_length_le (fun g => negb (rg_hostid g =? h)) (rs_registrants ns)). lia.
Qed.

(** Unregistering is done in any grouping. *)
Lemma a_drop_drop p q a : a_drop q (a_drop p a) = a_drop (fun h k => p h k || q h k) a.
Proof.
  assert (E : forall m : gmap Z Z, filter (fun kv => q kv.1 kv.2 = false) (filter (fun kv => p kv.1 kv.2 = false) m) =
    filter (fun kv => p kv.1 kv.2 || q kv.1 kv.2 = false) m).
  { intros m. rewrite map_filter_filter. apply map_filter_ext. intros i x _. cbn. rewrite orb_false_iff. tauto. }
  unfold a_drop. cbn. rewrite E. f_equal. destruct (a_resv a) as [[[t k] [h|]]|]; [|case_bool_decide as Hm; [|done]|done].
  - rewrite <- E. case_bool_decide as Hp; [done|]. rewrite bool_decide_false; [done|]. intros [x Hx]. apply Hp.
    apply map_lookup_filter_Some in Hx as [Hx _]. by exists x.
  - rewrite <- E, Hm, map_filter_empty. by rewrite bool_decide_true.
Qed.
Lemma a_drop_ext p q a : (forall h k, a_regs a !! h = Some k -> p h k = q h k) -> a_drop p a = a_drop q a.
Proof.
  intros H. unfold a_drop. assert (E : filter (fun kv => p kv.1 kv.2 = false) (a_regs a) = filter (fun kv => q kv.1 kv.2 = false) (a_regs a)).
  { apply map_filter_ext. intros h k Hk. cbn. by rewrite (H h k Hk). }
  by rewrite E.
Qed.
(** Nobody is unregistered. *)
Lemma a_drop_none p ns : resv_wf ns -> (forall g, g ∈ rs_registrants ns -> p (rg_hostid g) (rg_rkey g) = false) -> a_drop p (abs ns) = abs ns.
Proof.
  intros W H. assert (E : filter (fun kv => p kv.1 kv.2 = false) (a_regs (abs ns)) = a_regs (abs ns)).
  { apply map_filter_id. intros h k Hk. apply reg_map_lookup in Hk as (g & Hg & <- & <-); [by apply H|apply W]. }
  unfold a_drop. rewrite E. cbn [abs a_regs a_resv a_ptpl]. destruct (rs_holder ns) as [hp|] eqn:Eh; [|by unfold abs; rewrite Eh].
  destruct (wf_holder _ W _ Eh) as (g & Hg & <-). unfold abs. rewrite Eh. f_equal. destruct (all_registrants (rs_rtype ns)).
  - rewrite bool_decide_false; [done|]. intros Em. eapply (lookup_empty_Some (rg_hostid g) (rg_rkey g)). rewrite <- Em.
    apply reg_map_lookup; [apply W|]. eauto.
  - rewrite host_of_elem by done. rewrite bool_decide_true; [done|]. exists (rg_rkey g). apply reg_map_lookup; [apply W|]. eauto.
Qed.

(** The state once a registrant is off the list. *)
Definition without_registrant (g : spdk_nvmf_registrant) (ns : ns_resv) : ns_resv :=
  ns <| rs_registrants := List.filter (fun x => negb (rg_ptr x =? rg_ptr g)%nat) (rs_registrants ns) |>.

Lemma without_elem g ns x : x ∈ rs_registrants (without_registrant g ns) <-> x ∈ rs_registrants ns /\ rg_ptr x <> rg_ptr g.
Proof. unfold without_registrant. rsimp. rewrite elem_of_List_filter, negb_true_iff, Nat.eqb_neq. done. Qed.

Lemma without_regs g ns : resv_wf ns -> g ∈ rs_registrants ns ->
  reg_map (rs_registrants (without_registrant g ns)) = filter (fun kv => (kv.1 =? rg_hostid g) = false) (reg_map (rs_registrants ns)).
Proof.
  intros W Hg. apply (reg_map_filter _ _ (fun h _ => h =? rg_hostid g)); [apply W|]. intros x Hx. f_equal.
  apply eq_true_iff_eq. rewrite Nat.eqb_eq, Z.eqb_eq. split; intros E.
  - by rewrite (NoDup_fmap_inj rg_ptr _ x g (wf_ptrs _ W) Hx Hg E).
  - by rewrite (NoDup_fmap_inj rg_hostid _ x g (wf_hosts _ W) Hx Hg E).
Qed.

(** A state with fewer registrants is well formed when its holder is one of
    them and its type and key are kept or given up. *)
Lemma wf_fewer ns ns' : resv_wf ns -> rs_registrants ns' `sublist_of` rs_registrants ns -> rs_fresh ns' = rs_fresh ns ->
  0 <= rs_gen ns' < 2 ^ 32 ->
  (forall p, rs_holder ns' = Some p -> (exists g, g ∈ rs_registrants ns' /\ rg_ptr g = p) /\ rs_rtype ns' = rs_rtype ns /\ rs_crkey ns' = rs_crkey ns /\ rs_holder ns <> None) ->
  (rs_holder ns' = None -> rs_rtype ns' = 0 /\ rs_crkey ns' = 0) -> resv_wf ns'.
Proof.
  intros W Hs Hf Hg Hh Hn. assert (Hsub : forall g, g ∈ rs_registrants ns' -> g ∈ rs_registrants ns).
  { intros g Hin. eapply elem_of_submseteq; [exact Hin|by apply sublist_submseteq]. }
  pose proof (wf_type _ W). pose proof (wf_crkey _ W). split.
  - eapply sublist_NoDup; [apply (wf_ptrs _ W)|]. by apply fmap_sublist.
  - intros g Hin. rewrite Hf. by apply W, Hsub.
  - eapply sublist_NoDup; [apply (wf_hosts _ W)|]. by apply fmap_sublist.
  - intros g Hin. by apply W, Hsub.
  - intros p E. by apply Hh.
  - done.
  - destruct (rs_holder ns') eqn:E; [destruct (Hh _ eq_refl) as (_ & -> & _); lia|destruct Hn; [done|lia]].
  - destruct (rs_holder ns') eqn:E; [destruct (Hh _ eq_refl) as (_ & _ & -> & _); lia|destruct Hn; [done|lia]].
  - done.
  - intros Hne. destruct (rs_holder ns') eqn:E; [|done]. destruct (Hh _ eq_refl) as (_ & _ & -> & Ho). by apply W.
Qed.

Lemma u32_gen x : 0 <= u32 x < 2 ^ 32.
Proof. apply u32_range. Qed.

Lemma reg_map_empty l : reg_map l = ∅ <-> l = [].
Proof. destruct l as [|g l]; [done|]. split; [|done]. intros E. unfold reg_map in E. cbn in E. by apply insert_non_empty in E. Qed.

(** The registrant leaves; the reservation it held passes to the others or ends. *)
Lemma remove_registrant_spec ns g : resv_wf ns -> g ∈ rs_registrants ns ->
  exists ns', nvmf_ns_reservation_remove_registrant ns (rg_ptr g) = Some ns' /\ resv_wf ns' /\
    abs ns' = a_drop (fun h _ => h =? rg_hostid g) (abs ns) /\
    rs_registrants ns' = rs_registrants (without_registrant g ns) /\ (rs_holder ns = Some (rg_ptr g) -> all_registrants (rs_rtype ns) = false -> rs_holder ns' = None).
Proof.
  intros W Hg. unfold nvmf_ns_reservation_remove_registrant.
  rewrite (proj2 (existsb_exists _ _)) by (exists g; split; [by apply list_elem_of_In|by apply Nat.eqb_eq]).
  fold (without_registrant g ns). pose proof (without_regs g ns W Hg) as Em. set (nw := without_registrant g ns) in *.
  assert (Hs : rs_registrants nw `sublist_of` rs_registrants ns) by apply List_filter_sublist.
  assert (Hw : forall x, x ∈ rs_registrants nw <-> x ∈ rs_registrants ns /\ rg_ptr x <> rg_ptr g) by (intros x; apply without_elem).
  assert (Hnd : NoDup (rg_ptr <$> rs_registrants nw)) by (eapply sublist_NoDup; [apply (wf_ptrs _ W)|by apply fmap_sublist]).
  unfold nvmf_ns_reservation_check_release_on_remove_registrant, nvmf_ns_reservation_registrant_is_holder.
  change (rs_holder nw) with (rs_holder ns). change (rs_rtype nw) with (rs_rtype ns).
  change (nvmf_ns_reservation_all_registrants_type nw) with (all_registrants (rs_rtype ns)).
  destruct (rs_holder ns) as [p|] eqn:Eh.
  2: { destruct (wf_none _ W Eh) as [-> E2]. cbn [Z.eqb]. eexists. split; [reflexivity|]. split.
       { eapply wf_fewer; [exact W|exact Hs|done|apply u32_gen|by intros ? ?; simplify_eq/=|]. intros _. rsimp. apply W, Eh. }
       split; [|done]. unfold abs, a_drop. rsimp. by rewrite (eq_refl : rs_holder nw = rs_holder ns), Eh, Em. }
  destruct (wf_holder _ W _ Eh) as (gh & Hgh & <-).
  destruct (all_registrants (rs_rtype ns)) eqn:Ea.
  - destruct (head (rs_registrants nw)) as [n|] eqn:El.
    + apply head_Some_elem_of in El. eexists. split; [reflexivity|]. split.
      { eapply wf_fewer; [exact W|exact Hs|done|apply u32_gen| |done]. rsimp. intros p [= <-]. split; [by exists n|]. by rewrite Eh. }
      split; [|done]. unfold abs, a_drop. rsimp. change (rs_rtype nw) with (rs_rtype ns). rewrite Eh, Ea, <- Em.
      rewrite bool_decide_false; [done|]. intros Ee%reg_map_empty. rewrite Ee in El. by apply not_elem_of_nil in El.
    + apply head_None in El. eexists. split; [reflexivity|]. split.
      { eapply wf_fewer; [exact W|exact Hs|done|apply u32_gen|by intros ? ?; simplify_eq/=|done]. }
      split; [|done]. unfold abs, a_drop, nvmf_ns_reservation_release_reservation. rsimp. rewrite Eh, Ea, <- Em.
      by rewrite bool_decide_true by (by apply reg_map_empty).
  - cbv iota. assert (Hif : forall (o : option spdk_nvmf_registrant) (x : option ns_resv), match o with Some _ => x | None => x end = x) by (by intros []).
    rewrite Hif. case_bool_decide as Ep.
    + injection Ep as Ep. assert (gh = g) as -> by (by apply (NoDup_fmap_inj rg_ptr _ gh g (wf_ptrs _ W))). eexists. split; [reflexivity|]. split.
      { eapply wf_fewer; [exact W|exact Hs|done|apply u32_gen|by intros ? ?; simplify_eq/=|done]. }
      split; [|done]. unfold abs, a_drop, nvmf_ns_reservation_release_reservation. rsimp. change (rs_rtype nw) with (rs_rtype ns). change (rs_holder nw) with (rs_holder ns). rewrite ?Eh, Ea, <- Em, host_of_elem by done.
      rewrite bool_decide_false; [done|]. rewrite Em. intros [k [_ Hk]%map_lookup_filter_Some]. cbn in Hk. by rewrite Z.eqb_refl in Hk.
    + assert (Hne : rg_ptr gh <> rg_ptr g) by congruence. assert (Hgw : gh ∈ rs_registrants nw) by (by apply Hw).
      eexists. split; [reflexivity|]. split.
      { eapply wf_fewer; [exact W|exact Hs|done|apply u32_gen| |]; rsimp; change (rs_holder nw) with (rs_holder ns); rewrite Eh; [|done]. intros p [= <-]. split; [by exists gh|done]. }
      split; [|split; [done|congruence]]. unfold abs, a_drop, nvmf_ns_reservation_release_reservation. rsimp. change (rs_rtype nw) with (rs_rtype ns). change (rs_holder nw) with (rs_holder ns). rewrite ?Eh, Ea, <- Em, (host_of_elem ns) by done.
      rewrite bool_decide_true.
      * do 3 f_equal. unfold host_of. rsimp. rewrite (find_unique rg_ptr _ _ gh); [done|done| |done]. intros y. apply Nat.eqb_eq.
      * exists (rg_rkey gh). apply reg_map_lookup; [|by exists gh]. eapply sublist_NoDup; [apply (wf_hosts _ W)|by apply fmap_sublist].
Qed.

Definition among (p : spdk_nvmf_registrant -> bool) (l : list spdk_nvmf_registrant) (h : Z) : bool :=
  existsb (fun g => p g && (rg_hostid g =? h)) l.

(** The loops unregister the hosts of the elements they select. *)
Lemma remove_where_spec p l ns c : resv_wf ns -> NoDup (rg_ptr <$> l) -> (forall g, g ∈ l -> g ∈ rs_registrants ns) ->
  0 <= c -> c + Z.of_nat (length l) < 2 ^ 32 ->
  exists ns', remove_where p l ns c = Some (ns', c + Z.of_nat (length (List.filter p l))) /\ resv_wf ns' /\
    abs ns' = a_drop (fun h _ => among p l h) (abs ns) /\
    rs_registrants ns' `sublist_of` rs_registrants ns /\
    (forall x, x ∈ rs_registrants ns' <-> x ∈ rs_registrants ns /\ ~ (x ∈ l /\ p x = true)).
Proof.
  revert ns c. induction l as [|g l IH]; intros ns c W Hn Hin H0 Hc; cbn [remove_where List.filter].
  - exists ns. rewrite Z.add_0_r. split; [done|]. split; [done|]. split; [by rewrite a_drop_none|]. split; [done|].
    intros x. split; [|tauto]. intros Hx. split; [done|]. by intros [?%not_elem_of_nil _].
  - cbn in Hn. apply NoDup_cons in Hn as [Hg Hn]. cbn [length] in Hc.
    assert (Hne : forall x, x ∈ l -> rg_ptr x <> rg_ptr g). { intros x Hx E. apply Hg. rewrite <- E. by apply list_elem_of_fmap_2. }
    destruct (p g) eqn:Ep.
    + destruct (remove_registrant_spec ns g W) as (n1 & -> & W1 & E1 & R1 & _); [apply Hin; left|]. cbn [mbind option_bind].
      assert (Hr1 : forall x, x ∈ rs_registrants n1 <-> x ∈ rs_registrants ns /\ rg_ptr x <> rg_ptr g) by (intros x; rewrite R1; apply without_elem).
      destruct (IH n1 (u32 (c + 1)) W1 Hn) as (n2 & -> & W2 & E2 & S2 & R2).
      { intros x Hx. apply Hr1. split; [apply Hin; by right|by apply Hne]. } { apply u32_range. } { rewrite u32_small; lia. }
      exists n2. rewrite u32_small by lia. split; [do 2 f_equal; cbn [length]; lia|]. split; [done|]. split; [|split].
      * rewrite E2, E1, a_drop_drop. apply a_drop_ext. intros h k _. unfold among. cbn [existsb]. rewrite Ep. cbn [andb]. by rewrite (Z.eqb_sym h).
      * rewrite R1 in S2. etrans; [exact S2|apply List_filter_sublist].
      * intros x. rewrite R2, Hr1, elem_of_cons. split.
        -- intros [[Hx Hp] Hl]. split; [done|]. intros [[->|Hxl] Hpx]; [done|by apply Hl].
        -- intros [Hx Hl]. split; [split; [done|]|by intros [? ?]; apply Hl; auto]. intros E. apply Hl.
           assert (x = g) as -> by (apply (NoDup_fmap_inj rg_ptr _ x g (wf_ptrs _ W) Hx); [apply Hin; left|done]). auto.
    + destruct (IH ns c W Hn) as (n2 & -> & W2 & E2 & S2 & R2); [by intros x Hx; apply Hin; right|done|lia|].
      exists n2. split; [done|]. split; [done|]. split; [|split; [done|]].
      * rewrite E2. apply a_drop_ext. intros h k _. unfold among. cbn [existsb]. by rewrite Ep.
      * intros x. rewrite R2, elem_of_cons. split; intros [Hx Hl]; (split; [done|]); [intros [[->|?] ?]; [congruence|by apply Hl]|].
        intros [? ?]. apply Hl. auto.
Qed.

(** Over the whole list, by a condition on the host and its key. *)
Lemma remove_all_spec p q ns : resv_wf ns -> Z.of_nat (length (rs_registrants ns)) < 2 ^ 32 ->
  (forall g, g ∈ rs_registrants ns -> p g = q (rg_hostid g) (rg_rkey g)) ->
  exists ns', remove_where p (rs_registrants ns) ns 0 = Some (ns', Z.of_nat (length (List.filter p (rs_registrants ns)))) /\ resv_wf ns' /\
    abs ns' = a_drop q (abs ns) /\ rs_registrants ns' `sublist_of` rs_registrants ns /\
    (forall x, x ∈ rs_registrants ns' <-> x ∈ rs_registrants ns /\ p x = false).
Proof.
  intros W Hl Hq. destruct (remove_where_spec p (rs_registrants ns) ns 0 W (wf_ptrs _ W)) as (n & E & Wn & Ea & Es & Er); [done|lia|lia|].
  exists n. split; [done|]. split; [done|]. split; [|split; [done|]].
  - rewrite Ea. apply a_drop_ext. intros h k Hk. apply reg_map_lookup in Hk as (g & Hg & <- & <-); [|apply W].
    rewrite <- Hq by done. unfold among. apply eq_true_iff_eq. rewrite existsb_exists. split.
    + intros (x & Hx & [Hp Eh%Z.eqb_eq]%andb_true_iff). apply list_elem_of_In in Hx.
      by rewrite <- (NoDup_fmap_inj rg_hostid _ x g (wf_hosts _ W) Hx Hg Eh).
    + intros Hp. exists g. rewrite Hp, Z.eqb_refl. split; [by apply list_elem_of_In|done].
  - intros x. rewrite Er. split; intros [Hx H]; (split; [done|]); [by apply not_true_iff_false; intros ?; apply H|]. rewrite H. by intros [_ ?].
Qed.

Lemma read_key_ok n r : key_request r -> (0 <? req_iovcnt r) && (Z.of_nat n <=? req_length r) = true ->
  read_key n r = Some (Some (take n (flat (req_iovs r)))).
Proof.
  intros [Hc Hl Hb] Hh. unfold read_key. rewrite Hh. apply andb_true_iff in Hh as [H0%Z.ltb_lt Hn%Z.leb_le].
  assert (Hs : (n <= length (flat (req_iovs r)))%nat) by (unfold blen in Hl; lia).
  rewrite copy_iovs_to_buf_flat; [|lia|by rewrite length_replicate]. fold (req_iovs r). rewrite Nat.min_l by done. cbn. do 2 f_equal.
  assert (Ef : flat (req_iov r) = flat (req_iovs r) ++ flat (drop (Z.to_nat (req_iovcnt r)) (req_iov r))).
  { unfold req_iovs. by rewrite <- flat_app, take_drop. }
  rewrite Ef, take_app_le by done. apply splice_all. rewrite length_replicate, length_take. lia.
Qed.

Lemma key0_take n b : (8 <= n)%nat -> key0 (take n b) = key0 b.
Proof. intros Hn. unfold key0, slice. rewrite !drop_0, take_take. by rewrite Nat.min_l. Qed.
Lemma key1_take n b : (16 <= n)%nat -> key1 (take n b) = key1 b.
Proof. intros Hn. unfold key1, slice. rewrite skipn_firstn_comm, take_take. by rewrite Nat.min_l by lia. Qed.
Lemma word_range off b : Forall byte_ok b -> 0 <= le_dec (slice off 8 b) < 2 ^ 64.
Proof.
  intros Hb. pose proof (le_dec_range (slice off 8 b)) as H. unfold slice in *. 
  assert (Hf : Forall byte_ok (take 8 (drop off b))) by (by apply Forall_take, Forall_drop). specialize (H Hf). 
  split; [lia|]. eapply Z.lt_le_trans; [apply H|]. change (2 ^ 64) with (256 ^ 8). apply Z.pow_le_mono_r; [lia|]. rewrite length_take. lia.
Qed.

(** What a handler has to do for a command: its result is defined, its status
    and state are those of the specification, and it stays well formed. *)
Definition meets (res : option resv_result) (spec : aresv * Z) : Prop :=
  exists r, res = Some r /\ resv_wf (rr_ns r) /\ (abs (rr_ns r), rr_status r) = spec.

Lemma wf_ptpl b ns : resv_wf ns -> resv_wf (ns <| rs_ptpl_activated := b |>).
Proof. intros []. by split. Qed.

Lemma meets_intro r spec : resv_wf (rr_ns r) -> (abs (rr_ns r), rr_status r) = spec -> meets (Some r) spec.
Proof. intros W <-. by exists r. Qed.

(** A new registrant. *)
Lemma add_registrant_wf ns h nk : resv_wf ns -> nvmf_ns_reservation_get_registrant ns h = None -> 0 < nk < 2 ^ 64 ->
  resv_wf (nvmf_ns_reservation_add_registrant true ns h nk).2 /\
  abs (nvmf_ns_reservation_add_registrant true ns h nk).2 = (abs ns) <| a_regs := <[h := nk]> (a_regs (abs ns)) |>.
Proof.
  intros W Hn Hk. pose proof (get_registrant_none _ _ W Hn) as Hm. cbn [nvmf_ns_reservation_add_registrant negb snd].
  assert (Hno : forall g, g ∈ rs_registrants ns -> rg_hostid g <> h) by (apply reg_map_none; [apply W|exact Hm]).
  assert (Hp : NoDup (rg_ptr <$> rs_registrants ns ++ [NvmfRegistrant (rs_fresh ns) h nk])).
  { rewrite fmap_app. apply NoDup_app. split; [apply W|]. split; [|apply NoDup_singleton].
    intros x (g & -> & Hg)%list_elem_of_fmap Hx%list_elem_of_singleton. pose proof (wf_fresh _ W g Hg). cbn in Hx. lia. }
  split.
  - split; rsimp.
    + done.
    + intros g [Hg| ->%list_elem_of_singleton]%elem_of_app; [pose proof (wf_fresh _ W g Hg); lia|rsimp; lia].
    + rewrite fmap_app. apply NoDup_app. split; [apply W|]. split; [|apply NoDup_singleton].
      intros x (g & -> & Hg)%list_elem_of_fmap Hx%list_elem_of_singleton. by apply (Hno g).
    + intros g [Hg| ->%list_elem_of_singleton]%elem_of_app; [by apply W|done].
    + intros p Ep. destruct (wf_holder _ W p Ep) as (g & Hg & <-). exists g. split; [apply elem_of_app; by left|done].
    + apply W.
    + apply W.
    + apply W.
    + apply u32_range.
    + apply W.
  - unfold abs, set. rsimp. f_equal.
    + unfold reg_map. rewrite fmap_app, list_to_map_app. cbn. rewrite <- insert_union_r by exact Hm.
      by rewrite (right_id_L ∅ (∪)).
    + destruct (rs_holder ns) as [p|] eqn:Eh; [|done]. do 2 f_equal. destruct (all_registrants _); [done|].
      destruct (wf_holder _ W _ Eh) as (g & Hg & <-). rewrite (host_of_elem ns) by done. unfold host_of. rsimp.
      rewrite (find_unique rg_ptr _ _ g); [done|done| |apply elem_of_app; by left]. intros y. apply Nat.eqb_eq.
Qed.

(** A registrant changes its key. *)
Definition rekey (g : spdk_nvmf_registrant) (nk : Z) (x : spdk_nvmf_registrant) : spdk_nvmf_registrant :=
  if (rg_ptr x =? rg_ptr g)%nat then x <| rg_rkey := nk |> else x.

Lemma rekey_same g nk x : rg_ptr (rekey g nk x) = rg_ptr x /\ rg_hostid (rekey g nk x) = rg_hostid x.
Proof. unfold rekey. by destruct (_ =? _)%nat. Qed.
Lemma rekey_fmap {B} (f : spdk_nvmf_registrant -> B) g nk (l : list spdk_nvmf_registrant) : (forall x, f (rekey g nk x) = f x) -> f <$> (rekey g nk <$> l) = f <$> l.
Proof. intros H. rewrite <- list_fmap_compose. apply list_fmap_ext. intros i x _. apply H. Qed.

Lemma replace_key_spec ns g nk : resv_wf ns -> g ∈ rs_registrants ns -> 0 < nk < 2 ^ 64 ->
  let ns' := ns <| rs_registrants := rekey g nk <$> rs_registrants ns |> in
  resv_wf ns' /\ abs ns' = (abs ns) <| a_regs := <[rg_hostid g := nk]> (a_regs (abs ns)) |>.
Proof.
  intros W Hg Hk ns'. assert (Hp : rg_ptr <$> rs_registrants ns' = rg_ptr <$> rs_registrants ns) by (apply rekey_fmap; intros x; apply rekey_same).
  assert (Hh : rg_hostid <$> rs_registrants ns' = rg_hostid <$> rs_registrants ns) by (apply rekey_fmap; intros x; apply rekey_same).
  assert (Hin : forall x, x ∈ rs_registrants ns -> rekey g nk x ∈ rs_registrants ns') by (intros x Hx; by apply list_elem_of_fmap_2).
  split.
  - split.
    + rewrite Hp. apply W.
    + intros x (y & -> & Hy)%list_elem_of_fmap. rewrite (proj1 (rekey_same _ _ _)). by apply W.
    + rewrite Hh. apply W.
    + intros x (y & -> & Hy)%list_elem_of_fmap. unfold rekey. destruct (_ =? _)%nat; [done|by apply W].
    + intros p Ep. destruct (wf_holder _ W p Ep) as (x & Hx & <-). exists (rekey g nk x). split; [by apply Hin|apply rekey_same].
    + apply W.
    + apply W.
    + apply W.
    + apply W.
    + apply W.
  - unfold abs, ns', set. rsimp. f_equal.
    + apply map_eq. intros h. apply option_eq. intros k. rewrite reg_map_lookup by (change (NoDup (rg_hostid <$> rs_registrants ns')); rewrite Hh; apply W).
      destruct (decide (h = rg_hostid g)) as [->|Hne].
      * rewrite lookup_insert_eq. split.
        -- intros (x & (y & -> & Hy)%list_elem_of_fmap & E & <-). rewrite (proj2 (rekey_same _ _ _)) in E.
           rewrite (NoDup_fmap_inj rg_hostid _ y g (wf_hosts _ W) Hy Hg E). unfold rekey. by rewrite Nat.eqb_refl.
        -- intros [= <-]. exists (rekey g nk g). split; [by apply Hin|]. unfold rekey. by rewrite Nat.eqb_refl.
      * rewrite lookup_insert_ne, reg_map_lookup by (try apply W; done). split.
        -- intros (x & (y & -> & Hy)%list_elem_of_fmap & E & <-). rewrite (proj2 (rekey_same _ _ _)) in E. exists y. split; [done|]. split; [done|].
           unfold rekey. destruct (Nat.eqb_spec (rg_ptr y) (rg_ptr g)) as [Ep|_]; [|done].
           by rewrite (NoDup_fmap_inj rg_ptr _ y g (wf_ptrs _ W) Hy Hg Ep) in E.
        -- intros (y & Hy & E & <-). exists (rekey g nk y). split; [by apply Hin|]. rewrite (proj2 (rekey_same _ _ _)). split; [done|].
           unfold rekey. destruct (Nat.eqb_spec (rg_ptr y) (rg_ptr g)) as [Ep|_]; [|done].
           by rewrite (NoDup_fmap_inj rg_ptr _ y g (wf_ptrs _ W) Hy Hg Ep) in E.
    + destruct (rs_holder ns) as [p|] eqn:Eh; [|done]. do 2 f_equal. destruct (all_registrants _); [done|].
      destruct (wf_holder _ W _ Eh) as (x & Hx & <-). rewrite (host_of_elem ns) by done. unfold host_of. rsimp.
      rewrite (find_unique rg_ptr _ _ (rekey g nk x)); [cbn; by rewrite (proj2 (rekey_same _ _ _))|exact (eq_ind_r NoDup (wf_ptrs _ W) Hp)| |by apply Hin].
      intros y. rewrite (proj1 (rekey_same _ _ _)). apply Nat.eqb_eq.
Qed.

Lemma meets_exit ns st spec : resv_wf ns -> (abs ns, st) = spec -> forall notices u, meets (Some (ResvResult ns notices st u)) spec.
Proof. intros W E notices u. by apply meets_intro. Qed.

Definition action_of (rrega iekey ck nk : Z) : option reg_action :=
  if rrega =? 0 then Some (RegisterKey nk) else if rrega =? 1 then Some (UnregisterKey (iekey !=? 0) ck)
  else if rrega =? 2 then Some (ReplaceKey (iekey !=? 0) ck nk) else None.

Lemma register_action_meets mem ns h rrega iekey ck nk u : resv_wf ns ->
  (length (rs_registrants ns) <= SPDK_NVMF_MAX_NUM_REGISTRANTS)%nat -> 0 <= nk < 2 ^ 64 ->
  meets (register_action mem ns h rrega iekey ck nk u)
    (match action_of rrega iekey ck nk with Some act => a_action mem (abs ns) h act | None => (abs ns, SPDK_NVME_SC_INVALID_FIELD) end).
Proof.
  intros W Hl Hk. unfold register_action, action_of. change SPDK_NVME_RESERVE_REGISTER_KEY with 0.
  change SPDK_NVME_RESERVE_UNREGISTER_KEY with 1. change SPDK_NVME_RESERVE_REPLACE_KEY with 2.
  assert (Hadd : nvmf_ns_reservation_get_registrant ns h = None -> nk <> 0 ->
    meets (let '(rc, ns) := nvmf_ns_reservation_add_registrant mem ns h nk in
           if rc <? 0 then Some (ResvResult ns [] SPDK_NVME_SC_INTERNAL_DEVICE_ERROR u) else Some (ResvResult ns [] SPDK_NVME_SC_SUCCESS true))
      (a_register mem (abs ns) h nk)).
  { intros Hn Hz. destruct mem; [|by apply meets_exit].
    destruct (add_registrant_wf ns h nk W Hn) as [W' E']; [lia|]. apply meets_exit; [exact W'|]. unfold a_register. by rewrite <- E'. }
  destruct (nvmf_ns_reservation_get_registrant ns h) as [g|] eqn:Eg.
  - destruct (get_registrant_some _ _ _ W Eg) as (Hg & <- & Hm).
    destruct (rrega =? 0); [|destruct (rrega =? 1); [|destruct (rrega =? 2); [|by apply meets_exit]]]; cbn [a_action]; rewrite Hm.
    + destruct (rg_rkey g =? nk); by apply meets_exit.
    + destruct (iekey =? 0); cbn [andb negb orb]; [destruct (rg_rkey g =? ck); cbn [negb]; [|by apply meets_exit]|].
      all: destruct (other_hostid_ok ns (rg_hostid g) Hl) as [l ->]; cbn [mbind option_bind].
      all: destruct (remove_registrant_spec ns g W Hg) as (n' & -> & W' & E' & _); cbn [mbind option_bind].
      all: apply meets_exit; [done|]; by rewrite E'.
    + destruct (nk =? 0) eqn:Ez; [by apply meets_exit|]. apply Z.eqb_neq in Ez.
      destruct (replace_key_spec ns g nk W Hg) as [W' E']; [lia|].
      assert (Hs : rg_rkey g = nk -> abs ns = (abs ns) <| a_regs := <[rg_hostid g := nk]> (a_regs (abs ns)) |>).
      { intros <-. rewrite insert_id by done. by destruct (abs ns). }
      destruct (iekey =? 0); cbn [andb negb orb]; [destruct (rg_rkey g =? ck); cbn [negb]; [|by apply meets_exit]|].
      all: destruct (Z.eqb_spec (rg_rkey g) nk) as [Ek|_]; (apply meets_exit; [done|]); [by rewrite <- Hs|].
      all: rewrite <- E'; done.
  - pose proof (get_registrant_none _ _ W Eg) as Hm.
    destruct (rrega =? 0); [|destruct (rrega =? 1); [|destruct (rrega =? 2); [|by apply meets_exit]]]; cbn [a_action]; rewrite Hm.
    + destruct (nk =? 0) eqn:Ez; [by apply meets_exit|]. apply Z.eqb_neq in Ez. by apply Hadd.
    + by apply meets_exit.
    + destruct (nk =? 0) eqn:Ez; [by apply meets_exit|]. apply Z.eqb_neq in Ez. destruct (iekey =? 0); cbn [negb]; [by apply meets_exit|by apply Hadd].
Qed.

Lemma is_holder_spec ns g : resv_wf ns -> g ∈ rs_registrants ns ->
  nvmf_ns_reservation_registrant_is_holder ns (rg_ptr g) = a_holds (abs ns) (rg_hostid g).
Proof.
  intros W Hg. unfold nvmf_ns_reservation_registrant_is_holder, a_holds. cbn [abs a_resv a_regs].
  change (nvmf_ns_reservation_all_registrants_type ns) with (all_registrants (rs_rtype ns)).
  destruct (rs_holder ns) as [p|] eqn:Eh.
  - destruct (all_registrants _).
    + symmetry. apply bool_decide_eq_true. exists (rg_rkey g). apply reg_map_lookup; [apply W|]. eauto.
    + destruct (wf_holder _ W _ Eh) as (x & Hx & <-). rewrite host_of_elem by done. apply eq_true_iff_eq. rewrite bool_decide_eq_true, Z.eqb_eq.
      split; [intros [= E]; by rewrite (NoDup_fmap_inj rg_ptr _ x g (wf_ptrs _ W) Hx Hg E)|].
      intros E. by rewrite (NoDup_fmap_inj rg_hostid _ x g (wf_hosts _ W) Hx Hg E).
  - destruct (wf_none _ W Eh) as [-> _]. done.
Qed.

(** A registrant takes the reservation, or changes the type of its own. *)
Lemma hold_spec ns g ck t : resv_wf ns -> g ∈ rs_registrants ns -> 0 <= t <= 6 -> 0 < ck < 2 ^ 64 ->
  let ns' := ns <| rs_rtype := t |> <| rs_crkey := ck |> <| rs_holder := Some (rg_ptr g) |> in
  resv_wf ns' /\ abs ns' = (abs ns) <| a_resv := Some (t, ck, held_by t (rg_hostid g)) |>.
Proof.
  intros W Hg Ht Hk ns'. split.
  - destruct W. split; unfold ns', set; rsimp; try done; try lia. intros p [= <-]. eauto.
  - unfold abs, ns', set, held_by. rsimp. f_equal. do 2 f_equal. destruct (all_registrants t); [done|]. by rewrite <- (host_of_elem ns g W Hg).
Qed.
Lemma hold_ext ns g t : rs_holder ns = Some (rg_ptr g) ->
  ns <| rs_rtype := t |> = ns <| rs_rtype := t |> <| rs_crkey := rs_crkey ns |> <| rs_holder := Some (rg_ptr g) |>.
Proof. intros <-. by destruct ns. Qed.

(** What the action of an acquire command has to do. *)
Definition acquires (res : option acquire_out) (spec : aresv * Z) : Prop :=
  exists o, res = Some o /\ resv_wf (ao_ns o) /\ (abs (ao_ns o), ao_status o) = spec /\
    (length (rs_registrants (ao_ns o)) <= SPDK_NVMF_MAX_NUM_REGISTRANTS)%nat.

Lemma acquires_exit ns st spec u hs rel : resv_wf ns -> (length (rs_registrants ns) <= SPDK_NVMF_MAX_NUM_REGISTRANTS)%nat ->
  (abs ns, st) = spec -> acquires (Some (AcquireOut ns st u hs rel)) spec.
Proof. intros W Hl E. by eexists. Qed.

Lemma acquire_exit_meets h racqa res spec : acquires res spec -> meets (o ← res; acquire_exit h racqa o) spec.
Proof.
  intros (o & -> & W & E & Hl). cbn [mbind option_bind]. unfold acquire_exit. destruct (_ && _); [|by apply meets_exit].
  destruct (other_hostid_ok (ao_ns o) h Hl) as [l ->]. cbn [mbind option_bind]. by apply meets_exit.
Qed.

(** The length bound is kept by removals. *)
Lemma by_key_spec ns pk : resv_wf ns -> (length (rs_registrants ns) <= SPDK_NVMF_MAX_NUM_REGISTRANTS)%nat ->
  exists ns', nvmf_ns_reservation_remove_registrants_by_key ns pk =
      Some (ns', Z.of_nat (length (List.filter (fun g => rg_rkey g =? pk) (rs_registrants ns)))) /\
    resv_wf ns' /\ abs ns' = a_drop (fun _ k => k =? pk) (abs ns) /\ (length (rs_registrants ns') <= SPDK_NVMF_MAX_NUM_REGISTRANTS)%nat.
Proof.
  intros W Hl. unfold SPDK_NVMF_MAX_NUM_REGISTRANTS in *.
  destruct (remove_all_spec (fun g => rg_rkey g =? pk) (fun _ k => k =? pk) ns W) as (n & E & Wn & Ea & Es & _); [lia|done|].
  exists n. split; [exact E|]. split; [done|]. split; [done|]. apply sublist_length in Es. lia.
Qed.

(** Unregistering every other host leaves the issuer as the holder. *)
Lemma all_other_spec ns g : resv_wf ns -> (length (rs_registrants ns) <= SPDK_NVMF_MAX_NUM_REGISTRANTS)%nat ->
  g ∈ rs_registrants ns -> rs_holder ns <> None -> all_registrants (rs_rtype ns) = true ->
  exists ns' c, nvmf_ns_reservation_remove_all_other_registrants ns (rg_ptr g) = Some (ns', c) /\ resv_wf ns' /\
    abs ns' = a_drop (fun h _ => negb (h =? rg_hostid g)) (abs ns) /\ (length (rs_registrants ns') <= SPDK_NVMF_MAX_NUM_REGISTRANTS)%nat /\
    rs_holder ns' = Some (rg_ptr g).
Proof.
  intros W Hl Hg Hh Ha. unfold SPDK_NVMF_MAX_NUM_REGISTRANTS in *.
  destruct (remove_all_spec (fun x => negb (rg_ptr x =? rg_ptr g)%nat) (fun h _ => negb (h =? rg_hostid g)) ns W) as (n & E & Wn & An & Sn & Rn); [lia| |].
  { intros x Hx. f_equal. apply eq_true_iff_eq. rewrite Nat.eqb_eq, Z.eqb_eq. split; intros Eq.
    - by rewrite (NoDup_fmap_inj rg_ptr _ x g (wf_ptrs _ W) Hx Hg Eq).
    - by rewrite (NoDup_fmap_inj rg_hostid _ x g (wf_hosts _ W) Hx Hg Eq). }
  eexists n, _. split; [exact E|]. split; [done|]. split; [done|]. split; [apply sublist_length in Sn; lia|].
  destruct (rs_holder n) as [p|] eqn:En.
  - destruct (wf_holder _ Wn _ En) as (x & [Hx Hp]%Rn & <-). apply negb_false_iff, Nat.eqb_eq in Hp. by rewrite Hp.
  - exfalso. assert (Hg' : g ∈ rs_registrants n) by (apply Rn; by rewrite Nat.eqb_refl). apply (f_equal a_resv) in An as Ar. revert Ar.
    unfold a_drop. cbn [a_resv abs a_regs]. rewrite En. destruct (rs_holder ns) as [p|]; [|done]. rewrite Ha.
    rewrite bool_decide_false; [done|]. intros Ee. apply (f_equal a_regs) in An. cbn [a_regs abs a_drop] in An. rewrite Ee in An.
    apply reg_map_empty in An. rewrite An in Hg'. by apply not_elem_of_nil in Hg'.
Qed.

Lemma acquire_preempt_all ns g pk l : resv_wf ns -> (length (rs_registrants ns) <= SPDK_NVMF_MAX_NUM_REGISTRANTS)%nat ->
  g ∈ rs_registrants ns -> rs_holder ns <> None -> all_registrants (rs_rtype ns) = true ->
  acquires
    (if pk =? 0 then
       '(ns, _) ← nvmf_ns_reservation_remove_all_other_registrants ns (rg_ptr g);
       if bool_decide (rs_holder ns = Some (rg_ptr g)) then Some (AcquireOut ns SPDK_NVME_SC_SUCCESS true l false) else None
     else
       '(ns, count) ← nvmf_ns_reservation_remove_registrants_by_key ns pk;
       if count =? 0 then Some (AcquireOut ns SPDK_NVME_SC_RESERVATION_CONFLICT false l false)
       else Some (AcquireOut ns SPDK_NVME_SC_SUCCESS true l false))
    (if pk =? 0 then (a_drop (fun h' _ => negb (h' =? rg_hostid g)) (abs ns), SPDK_NVME_SC_SUCCESS)
     else if bool_decide (map_Forall (fun _ k => k <> pk) (a_regs (abs ns))) then (abs ns, SPDK_NVME_SC_RESERVATION_CONFLICT)
     else (a_drop (fun _ k => k =? pk) (abs ns), SPDK_NVME_SC_SUCCESS)).
Proof.
  intros W Hl Hg Hh Ha. destruct (pk =? 0).
  - destruct (all_other_spec ns g W Hl Hg Hh Ha) as (n & c & -> & Wn & An & Ln & Hn). cbn [mbind option_bind].
    rewrite bool_decide_true by done. apply acquires_exit; [done..|by rewrite An].
  - destruct (by_key_spec ns pk W Hl) as (nk & -> & Wk & Ak & Lk). cbn [mbind option_bind].
    destruct (List.filter (fun g => rg_rkey g =? pk) (rs_registrants ns)) as [|x xs] eqn:Ef.
    + assert (Hno : forall x, x ∈ rs_registrants ns -> (rg_rkey x =? pk) = false).
      { intros x Hx. apply not_true_iff_false. intros Hp. apply (not_elem_of_nil x). rewrite <- Ef. by apply elem_of_List_filter. }
      rewrite a_drop_none in Ak by done. change (Z.of_nat (length []) =? 0) with true. cbv iota. rewrite bool_decide_true.
      * apply acquires_exit; [done..|by rewrite Ak].
      * intros h k Hk. apply reg_map_lookup in Hk as (x & Hx & _ & <-); [|apply W]. by apply Z.eqb_neq, Hno.
    + assert (Hx : x ∈ List.filter (fun g => rg_rkey g =? pk) (rs_registrants ns)) by (rewrite Ef; left).
      apply elem_of_List_filter in Hx as [Hx Hp%Z.eqb_eq]. rewrite (proj2 (Z.eqb_neq _ _)) by (cbn [length]; lia). rewrite bool_decide_false.
      * apply acquires_exit; [done..|by rewrite Ak].
      * intros HF. eapply (HF (rg_hostid x) (rg_rkey x)); [|done]. apply reg_map_lookup; [apply W|]. eauto.
Qed.

Lemma acquire_preempt_spec ns g ck pk t : resv_wf ns -> (length (rs_registrants ns) <= SPDK_NVMF_MAX_NUM_REGISTRANTS)%nat ->
  g ∈ rs_registrants ns -> 0 <= t <= 6 -> 0 < ck < 2 ^ 64 ->
  acquires (acquire_preempt ns (rg_hostid g) (rg_ptr g) ck pk t) (a_preempt (abs ns) (rg_hostid g) ck pk t).
Proof.
  intros W Hl Hg Ht Hk. unfold acquire_preempt, a_preempt. cbn [abs a_resv].
  destruct (by_key_spec ns pk W Hl) as (nk & Ek & Wk & Ak & Lk).
  destruct (rs_holder ns) as [p|] eqn:Eh.
  2: { rewrite Ek. cbn [mbind option_bind]. apply acquires_exit; [done..|by rewrite Ak]. }
  destruct (other_hostid_ok ns (rg_hostid g) Hl) as [l ->]. cbn [mbind option_bind].
  destruct (wf_holder _ W _ Eh) as (x & Hx & <-).
  change (nvmf_ns_reservation_all_registrants_type ns) with (all_registrants (rs_rtype ns)).
  destruct (all_registrants (rs_rtype ns)) eqn:Ea; cbn [negb].
  - apply acquire_preempt_all; [done..|by rewrite Eh|done].
  - rewrite host_of_elem, is_holder_spec by done. unfold a_holds. cbn [abs a_resv]. rewrite Eh, Ea, host_of_elem by done.
    destruct (rs_crkey ns =? pk) eqn:Ec; [rewrite andb_true_r|rewrite andb_false_r].
    + destruct (Z.eqb_spec (rg_hostid x) (rg_hostid g)) as [E|Hne].
      * assert (x = g) as -> by (by apply (NoDup_fmap_inj rg_hostid _ x g (wf_hosts _ W))). rewrite (hold_ext ns g t Eh).
        pose proof (wf_crkey _ W). pose proof (wf_held _ W ltac:(by rewrite Eh)).
        destruct (hold_spec ns g (rs_crkey ns) t W Hg Ht) as [W' E']; [lia|]. apply acquires_exit; [done..|]. by rewrite E'.
      * destruct (remove_registrant_spec ns x W Hx) as (n1 & -> & W1 & A1 & R1 & H1). cbn [mbind option_bind].
        unfold nvmf_ns_reservation_acquire_reservation. rewrite (H1 Eh Ea). cbn [mbind option_bind].
        assert (Hg1 : g ∈ rs_registrants n1). { rewrite R1. apply without_elem. split; [done|]. intros E. apply Hne. by rewrite (NoDup_fmap_inj rg_ptr _ g x (wf_ptrs _ W) Hg Hx E). }
        destruct (hold_spec n1 g ck t W1 Hg1 Ht Hk) as [W' E']. apply acquires_exit; [done| |by rewrite E', A1].
        unfold set. rsimp. rewrite R1. etrans; [|exact Hl]. apply sublist_length, List_filter_sublist.
    + destruct (pk =? 0); cbn [negb]; [by apply acquires_exit|]. rewrite Ek. cbn [mbind option_bind]. apply acquires_exit; [done..|by rewrite Ak].
Qed.

(** A host that is not registered with the key it gives is in conflict. *)
Lemma with_key_conflict ns h ck x : resv_wf ns -> (forall g, nvmf_ns_reservation_get_registrant ns h = Some g -> rg_rkey g <> ck) ->
  with_key (abs ns) h ck x = (abs ns, SPDK_NVME_SC_RESERVATION_CONFLICT).
Proof.
  intros W Hn. unfold with_key. rewrite bool_decide_false; [done|]. destruct (nvmf_ns_reservation_get_registrant ns h) as [g|] eqn:Eg.
  - destruct (get_registrant_some _ _ _ W Eg) as (_ & _ & ->). intros [= E]. by apply (Hn g).
  - by rewrite (get_registrant_none _ _ W Eg).
Qed.

Lemma acquire_action_spec ns h racqa iekey t ck pk : resv_wf ns -> (length (rs_registrants ns) <= SPDK_NVMF_MAX_NUM_REGISTRANTS)%nat ->
  0 <= t -> 0 <= ck < 2 ^ 64 ->
  acquires (acquire_action ns h racqa iekey t ck pk)
    (if (iekey !=? 0) || (6 <? t) then (abs ns, SPDK_NVME_SC_INVALID_FIELD)
     else (a_step false false (abs ns) h (if racqa =? 0 then CAcquire ck t else if racqa =? 1 then CPreempt ck pk t else CUnsupported ck))).
Proof.
  intros W Hl Ht Hk. unfold acquire_action. change SPDK_NVME_RESERVE_EXCLUSIVE_ACCESS_ALL_REGS with 6.
  destruct ((iekey !=? 0) || (6 <? t)) eqn:Ei; [by apply acquires_exit|]. apply orb_false_iff in Ei as [_ Et%Z.ltb_ge].
  change SPDK_NVME_RESERVE_ACQUIRE with 0. change SPDK_NVME_RESERVE_PREEMPT with 1.
  assert (Hno : (forall g, nvmf_ns_reservation_get_registrant ns h = Some g -> rg_rkey g <> ck) ->
    a_step false false (abs ns) h (if racqa =? 0 then CAcquire ck t else if racqa =? 1 then CPreempt ck pk t else CUnsupported ck)
    = (abs ns, SPDK_NVME_SC_RESERVATION_CONFLICT)).
  { intros Hn. destruct (racqa =? 0); [|destruct (racqa =? 1)]; by apply with_key_conflict. }
  destruct (nvmf_ns_reservation_get_registrant ns h) as [g|] eqn:Eg; [|rewrite Hno by done; by apply acquires_exit].
  destruct (get_registrant_some _ _ _ W Eg) as (Hg & <- & Hm).
  destruct (Z.eqb_spec (rg_rkey g) ck) as [<-|Hne]; cbn [negb]; [|rewrite Hno by (by intros ? [= <-]); by apply acquires_exit].
  destruct (racqa =? 0); [|destruct (racqa =? 1)]; cbn [a_step]; unfold with_key; rewrite (bool_decide_true _ Hm).
  - rewrite is_holder_spec by done. cbn [abs a_resv]. destruct (rs_holder ns) as [p|] eqn:Eh.
    + destruct (_ && _); by apply acquires_exit.
    + replace (a_holds (abs ns) (rg_hostid g)) with false by (unfold a_holds; cbn [abs a_resv]; by rewrite Eh). cbn [andb].
      unfold nvmf_ns_reservation_acquire_reservation. rewrite Eh. cbn [mbind option_bind].
      destruct (hold_spec ns g (rg_rkey g) t W Hg) as [W' E']; [lia|by apply W|]. apply acquires_exit; [done..|]. by rewrite E'.
  - apply acquire_preempt_spec; [done..|lia|by apply W].
  - by apply acquires_exit.
Qed.

Lemma release_action_meets ns h rrela iekey t ck : resv_wf ns -> (length (rs_registrants ns) <= SPDK_NVMF_MAX_NUM_REGISTRANTS)%nat ->
  meets (release_action ns h rrela iekey t ck)
    (if iekey !=? 0 then (abs ns, SPDK_NVME_SC_INVALID_FIELD)
     else a_step false false (abs ns) h (if rrela =? 0 then CRelease ck t else if rrela =? 1 then CClear ck else CUnsupported ck)).
Proof.
  intros W Hl. unfold release_action. destruct (iekey !=? 0); [by apply meets_exit|].
  change SPDK_NVME_RESERVE_RELEASE with 0. change SPDK_NVME_RESERVE_CLEAR with 1.
  assert (Hno : (forall g, nvmf_ns_reservation_get_registrant ns h = Some g -> rg_rkey g <> ck) ->
    a_step false false (abs ns) h (if rrela =? 0 then CRelease ck t else if rrela =? 1 then CClear ck else CUnsupported ck)
    = (abs ns, SPDK_NVME_SC_RESERVATION_CONFLICT)).
  { intros Hn. destruct (rrela =? 0); [|destruct (rrela =? 1)]; by apply with_key_conflict. }
  destruct (nvmf_ns_reservation_get_registrant ns h) as [g|] eqn:Eg; [|rewrite Hno by done; by apply meets_exit].
  destruct (get_registrant_some _ _ _ W Eg) as (Hg & <- & Hm).
  destruct (Z.eqb_spec (rg_rkey g) ck) as [<-|Hne]; cbn [negb]; [|rewrite Hno by (by intros ? [= <-]); by apply meets_exit].
  destruct (other_hostid_ok ns (rg_hostid g) Hl) as [l ->]. cbn [mbind option_bind].
  destruct (rrela =? 0); [|destruct (rrela =? 1)]; cbn [a_step]; unfold with_key; rewrite (bool_decide_true _ Hm).
  - rewrite is_holder_spec by done. cbn [abs a_resv]. destruct (rs_holder ns) as [p|] eqn:Eh; [|by apply meets_exit].
    destruct (rs_rtype ns =? t); cbn [negb]; [|by apply meets_exit]. destruct (a_holds (abs ns) (rg_hostid g)); cbn [negb]; [|by apply meets_exit].
    apply meets_exit; [|done]. destruct W. split; unfold nvmf_ns_reservation_release_reservation, set; rsimp; done.
  - destruct (remove_all_spec (fun _ => true) (fun _ _ => true) ns W) as (n & E & Wn & An & _); [unfold SPDK_NVMF_MAX_NUM_REGISTRANTS in Hl; lia|done|].
    unfold nvmf_ns_reservation_clear_all_registrants. rewrite E. cbn [mbind option_bind]. apply meets_exit; [done|]. rewrite An. f_equal.
    assert (Ee : filter (fun kv : Z * Z => true = false) (a_regs (abs ns)) = ∅).
    { apply map_eq. intros i. rewrite lookup_empty. apply eq_None_not_Some. by intros [x [_ ?]%map_lookup_filter_Some]. }
    unfold a_drop, set. rewrite Ee. rsimp. f_equal. destruct (a_resv (abs ns)) as [[[? ?] [h'|]]|]; [|by rewrite bool_decide_true|done].
    by rewrite bool_decide_false by (rewrite lookup_empty; by intros [? ?]).
  - by apply meets_exit.
Qed.

Lemma no_key_read n r : (0 <? req_iovcnt r) && (Z.of_nat n <=? req_length r) = false -> read_key n r = Some None.
Proof. unfold read_key. by intros ->. Qed.

(** The persistence flag, then the action on the registrants. *)
Lemma register_meets capable mem ns h cptpl rrega iekey ck nk : resv_wf ns ->
  (length (rs_registrants ns) <= SPDK_NVMF_MAX_NUM_REGISTRANTS)%nat -> 0 <= nk < 2 ^ 64 ->
  meets (let '(refused, ns, update_sgroup) := register_ptpl capable ns cptpl in
         if (refused : bool) then Some (ResvResult ns [] SPDK_NVME_SC_INVALID_FIELD update_sgroup)
         else register_action mem ns h rrega iekey ck nk update_sgroup)
    (a_step capable mem (abs ns) h
       (CRegister (if cptpl =? 2 then Some false else if cptpl =? 3 then Some true else None) (action_of rrega iekey ck nk))).
Proof.
  intros W Hl Hk. assert (Hp : forall p u, meets (register_action mem (ns <| rs_ptpl_activated := p |>) h rrega iekey ck nk u)
    (let a := (abs ns) <| a_ptpl := p |> in
     match action_of rrega iekey ck nk with Some act => a_action mem a h act | None => (a, SPDK_NVME_SC_INVALID_FIELD) end)).
  { intros p u. cbv zeta. change ((abs ns) <| a_ptpl := p |>) with (abs (ns <| rs_ptpl_activated := p |>)).
    apply register_action_meets; [by apply wf_ptpl|done|done]. }
  assert (Hs : forall p, rs_ptpl_activated ns = p -> ns <| rs_ptpl_activated := p |> = ns) by (intros p <-; by destruct ns).
  unfold register_ptpl. cbn [a_step]. change SPDK_NVME_RESERVE_PTPL_CLEAR_POWER_ON with 2. change SPDK_NVME_RESERVE_PTPL_PERSIST_POWER_LOSS with 3.
  destruct (cptpl =? 2); [|destruct (cptpl =? 3)].
  - rewrite bool_decide_false, andb_false_r by done. cbn [default].
    destruct (rs_ptpl_activated ns) eqn:Ep; [apply Hp|]. specialize (Hp false false). by rewrite Hs in Hp.
  - rewrite bool_decide_true, andb_true_r by done. destruct capable; cbn [negb]; [|by apply meets_exit]. cbn [default].
    destruct (rs_ptpl_activated ns) eqn:Ep; cbn [negb]; [|apply Hp]. specialize (Hp true false). by rewrite Hs in Hp.
  - rewrite bool_decide_false, andb_false_r by done. cbn [default]. specialize (Hp (rs_ptpl_activated ns) false). by rewrite Hs in Hp.
Qed.

(** The states that the commands of some hosts lead to, in any order and with
    any content, each answered before the next. *)
Inductive resv_reachable (hosts : list Z) : ns_resv -> Prop :=
| reach_init : resv_reachable hosts resv_init
| reach_command capable mem ns h r res : resv_reachable hosts ns -> h ∈ hosts -> key_request r ->
    reservation_dispatch capable mem ns h r = Some res -> resv_reachable hosts (rr_ns res).

(** A command registers no host but its issuer. *)
Lemma a_drop_hosts p a x : is_Some (a_regs (a_drop p a) !! x) -> is_Some (a_regs a !! x).
Proof. intros [k [Hk _]%map_lookup_filter_Some]. by exists k. Qed.
Lemma insert_hosts (m : gmap Z Z) h k x : is_Some (<[h := k]> m !! x) -> is_Some (m !! x) \/ x = h.
Proof. destruct (decide (x = h)) as [->|Hne]; [by right|]. rewrite lookup_insert_ne by done. by left. Qed.
#[local] Hint Resolve a_drop_hosts insert_hosts : core.

Lemma a_action_hosts mem a h act x : is_Some (a_regs (a_action mem a h act).1 !! x) -> is_Some (a_regs a !! x) \/ x = h.
Proof.
  unfold a_action, a_register, set. intros H. destruct act, (a_regs a !! h); repeat case_match; cbn [fst a_regs] in H; eauto.
Qed.
Lemma a_step_hosts capable mem a h c x : is_Some (a_regs (a_step capable mem a h c).1 !! x) -> is_Some (a_regs a !! x) \/ x = h.
Proof.
  assert (Hw : forall ck y, (is_Some (a_regs y.1 !! x) -> is_Some (a_regs a !! x)) -> is_Some (a_regs (with_key a h ck y).1 !! x) -> is_Some (a_regs a !! x)).
  { intros ck y Hy. unfold with_key. case_bool_decide; eauto. }
  destruct c as [p act| | | | | |]; cbn [a_step]; intros H; [|left; revert H; apply Hw..|by left].
  - destruct (negb capable && _); [by left|]. destruct act; [by apply a_action_hosts in H|by left].
  - by destruct (a_resv a) as [[[]]|].
  - unfold a_preempt. repeat case_match; cbn [fst set a_regs]; eauto.
  - destruct (a_resv a) as [[[]]|]; [|done]. destruct (_ !=? _); [done|]. by destruct (a_holds a h).
  - cbn. by intros [? ?].
  - done.
Qed.

Lemma other_opcode capable mem ns h r :
  opc (req_cmd r) ∉ [SPDK_NVME_OPC_RESERVATION_REGISTER; SPDK_NVME_OPC_RESERVATION_ACQUIRE; SPDK_NVME_OPC_RESERVATION_RELEASE] ->
  exists st, reservation_dispatch capable mem ns h r = Some (ResvResult ns [] st false).
Proof.
  rewrite !not_elem_of_cons. intros (H1 & H2 & H3 & _). unfold reservation_dispatch.
  rewrite (proj2 (Z.eqb_neq _ _) H1), (proj2 (Z.eqb_neq _ _) H2), (proj2 (Z.eqb_neq _ _) H3). eauto.
Qed.

Lemma registrants_bound ns hosts : resv_wf ns -> (forall g, g ∈ rs_registrants ns -> rg_hostid g ∈ hosts) ->
  (length (rs_registrants ns) <= length hosts)%nat.
Proof.
  intros W H. rewrite <- (length_fmap rg_hostid). apply NoDup_incl_length; [apply NoDup_ListNoDup, W|].
  intros x Hx. apply list_elem_of_In in Hx as (g & -> & Hg)%list_elem_of_fmap. by apply list_elem_of_In, H.
Qed.

Lemma dispatch_meets capable mem ns h r : resv_wf ns -> (length (rs_registrants ns) <= SPDK_NVMF_MAX_NUM_REGISTRANTS)%nat -> key_request r ->
  opc (req_cmd r) ∈ [SPDK_NVME_OPC_RESERVATION_REGISTER; SPDK_NVME_OPC_RESERVATION_ACQUIRE; SPDK_NVME_OPC_RESERVATION_RELEASE] ->
  meets (reservation_dispatch capable mem ns h r) (a_step capable mem (abs ns) h (decode_cmd r)).
Proof.
  intros W Hl K Hop. set (b := flat (req_iovs r)). assert (Hb : forall off, 0 <= le_dec (slice off 8 b) < 2 ^ 64) by (intros off; apply word_range, K).
  unfold reservation_dispatch, decode_cmd. fold b.
  rewrite !elem_of_cons, elem_of_nil in Hop. destruct Hop as [-> |[-> |[-> |[]]]]; cbn [Z.eqb].
  - change (_ =? SPDK_NVME_OPC_RESERVATION_REGISTER) with true. cbv iota. unfold nvmf_ns_reservation_register.
    destruct ((0 <? req_iovcnt r) && (16 <=? req_length r)) eqn:Eh; [|rewrite (no_key_read 16 r Eh); by apply meets_exit].
    rewrite (read_key_ok 16 r K Eh). cbn [mbind option_bind negb]. fold b. rewrite key0_take, key1_take by lia.
    apply register_meets; [done..|apply Hb].
  - change (_ =? SPDK_NVME_OPC_RESERVATION_REGISTER) with false. change (_ =? SPDK_NVME_OPC_RESERVATION_ACQUIRE) with true. cbv iota.
    unfold nvmf_ns_reservation_acquire. destruct ((0 <? req_iovcnt r) && (16 <=? req_length r)) eqn:Eh.
    2: { rewrite (no_key_read 16 r Eh). apply (acquire_exit_meets h _ (Some _)). by apply acquires_exit. }
    rewrite (read_key_ok 16 r K Eh). cbn [mbind option_bind negb orb]. fold b. rewrite key0_take, key1_take by lia.
    apply acquire_exit_meets. pose proof (bits_range 8 8 (cdw10 (req_cmd r)) ltac:(lia) ltac:(lia)) as Ht.
    eassert (A : _); [apply (acquire_action_spec ns h (resv_acquire_racqa (req_cmd r)) (resv_acquire_iekey (req_cmd r)) _ (key0 b) (key1 b) W Hl (proj1 Ht) (Hb 0%nat))|].
    fold (resv_acquire_rtype (req_cmd r)) in A. destruct (_ || _); [exact A|]. by destruct (_ =? 0); [|destruct (_ =? 1)].
  - change (_ =? SPDK_NVME_OPC_RESERVATION_REGISTER) with false. change (_ =? SPDK_NVME_OPC_RESERVATION_ACQUIRE) with false.
    change (_ =? SPDK_NVME_OPC_RESERVATION_RELEASE) with true. cbv iota.
    unfold nvmf_ns_reservation_release. destruct ((0 <? req_iovcnt r) && (8 <=? req_length r)) eqn:Eh; [|rewrite (no_key_read 8 r Eh); by apply meets_exit].
    rewrite (read_key_ok 8 r K Eh). cbn [mbind option_bind negb orb]. fold b. rewrite key0_take by lia.
    pose proof (release_action_meets ns h (resv_release_rrela (req_cmd r)) (resv_release_iekey (req_cmd r)) (resv_release_rtype (req_cmd r)) (key0 b) W Hl) as A.
    destruct (resv_release_iekey _ !=? 0); [exact A|]. by destruct (_ =? 0); [|destruct (_ =? 1)].
Qed.

Lemma reachable_ok hosts ns : (length hosts <= SPDK_NVMF_MAX_NUM_REGISTRANTS)%nat -> resv_reachable hosts ns ->
  resv_wf ns /\ (forall g, g ∈ rs_registrants ns -> rg_hostid g ∈ hosts).
Proof.
  intros Hh. induction 1 as [|capable mem ns h r res _ [W IH] Hi K E].
  { split; [|by intros g ?%not_elem_of_nil]. split; cbn; try lia; try done; try apply NoDup_nil_2; by intros g ?%not_elem_of_nil. }
  destruct (decide (opc (req_cmd r) ∈ [SPDK_NVME_OPC_RESERVATION_REGISTER; SPDK_NVME_OPC_RESERVATION_ACQUIRE; SPDK_NVME_OPC_RESERVATION_RELEASE])) as [Ho|Ho].
  2: { destruct (other_opcode capable mem ns h r Ho) as [st E']. by simplify_eq/=. }
  destruct (dispatch_meets capable mem ns h r W) as (x & Ex & Wx & Ax); [|done|done|].
  { etrans; [by eapply registrants_bound|done]. }
  simplify_eq. split; [done|]. intros g Hg.
  assert (Hr : is_Some (a_regs (abs (rr_ns res)) !! rg_hostid g)) by (exists (rg_rkey g); apply reg_map_lookup; [apply Wx|]; eauto).
  apply (f_equal fst) in Ax. cbn [fst] in Ax. rewrite Ax in Hr. apply a_step_hosts in Hr as [[k Hk]| ->]; [|done].
  apply reg_map_lookup in Hk as (y & Hy & <- & _); [by apply IH|apply W].
Qed.

(** ** Two hosts *)

(** A command with the given action bits and two keys. *)
Definition demo_resv_req (op bits10 k0 k1 : Z) : spdk_nvmf_request :=
  demo_req (demo_cmd op bits10 0 0) [Iov (Some (le_enc 8 k0 ++ le_enc 8 k1))].
(** Hosts 1 and 2 are registered with the keys 5 and 7; host 1 holds a "write
    exclusive" reservation. *)
Definition demo_ns : ns_resv := NsResv 2 [NvmfRegistrant 0 1 5; NvmfRegistrant 1 2 7] 5 1 (Some 0%nat) false 2.

Lemma demo_key_request op b k0 k1 : key_request (demo_resv_req op b k0 k1).
Proof.
  split; [done|done|]. unfold demo_resv_req, req_iovs, demo_req. cbn [req_iovcnt req_iov length]. change (take _ _) with [Iov (Some (le_enc 8 k0 ++ le_enc 8 k1))].
  unfold flat. cbn [fmap list_fmap concat iov_mem iov_base default]. rewrite app_nil_r. apply Forall_app. split; apply le_enc_ok.
Qed.

Lemma demo_reachable : resv_reachable [1; 2] demo_ns.
Proof.
  apply (reach_command _ false true (NsResv 2 [NvmfRegistrant 0 1 5; NvmfRegistrant 1 2 7] 0 0 None false 2) 1
    (demo_resv_req SPDK_NVME_OPC_RESERVATION_ACQUIRE 0x100 5 0) (ResvResult demo_ns [] 0 true)); [|by left|apply demo_key_request|by vm_compute].
  apply (reach_command _ false true (NsResv 1 [NvmfRegistrant 0 1 5] 0 0 None false 1) 2
    (demo_resv_req SPDK_NVME_OPC_RESERVATION_REGISTER 0 0 7)
    (ResvResult (NsResv 2 [NvmfRegistrant 0 1 5; NvmfRegistrant 1 2 7] 0 0 None false 2) [] 0 true)); [|right; by left|apply demo_key_request|by vm_compute].
  apply (reach_command _ false true resv_init 1 (demo_resv_req SPDK_NVME_OPC_RESERVATION_REGISTER 0 0 5)
    (ResvResult (NsResv 1 [NvmfRegistrant 0 1 5] 0 0 None false 1) [] 0 true)); [apply reach_init|by left|apply demo_key_request|by vm_compute].
Qed.

(** ** Properties *)

(** C6. The reservation commands implement their specification.  For every
    well-formed state with no more registrants than the code has room for, and
    every register, acquire or release command of any host, the handler is
    defined - no assertion fails, no freed registrant is used -, answers with
    the status of the abstract step, leaves the abstract state the step gives -
    the map of keys, the reservation with its type, key and holder, and the
    persistence flag -, and keeps the state well formed. *)
Theorem reservation_commands_refine capable mem ns h r (W : resv_wf ns)
    (Hl : (length (rs_registrants ns) <= SPDK_NVMF_MAX_NUM_REGISTRANTS)%nat) (K : key_request r)
    (Hop : opc (req_cmd r) ∈ [SPDK_NVME_OPC_RESERVATION_REGISTER; SPDK_NVME_OPC_RESERVATION_ACQUIRE; SPDK_NVME_OPC_RESERVATION_RELEASE]) :
  exists res, reservation_dispatch capable mem ns h r = Some res /\ resv_wf (rr_ns res) /\
    (abs (rr_ns res), rr_status res) = a_step capable mem (abs ns) h (decode_cmd r).
Proof. exact (dispatch_meets capable mem ns h r W Hl K Hop). Qed.

(** Host 2 preempts the reservation of host 1 and holds "exclusive access". *)
Lemma reservation_commands_refine_witness :
  exists res, reservation_dispatch false true demo_ns 2 (demo_resv_req SPDK_NVME_OPC_RESERVATION_ACQUIRE 0x201 7 5) = Some res /\
    resv_wf (rr_ns res) /\ (abs (rr_ns res), rr_status res) = (AResv {[2 := 7]} (Some (2, 7, Some 2)) false, 0).
Proof.
  destruct (reservation_commands_refine false true demo_ns 2 (demo_resv_req SPDK_NVME_OPC_RESERVATION_ACQUIRE 0x201 7 5)) as (res & E & W & A).
  - apply (reachable_ok [1; 2]); [vm_compute; lia|apply demo_reachable].
  - vm_compute. lia.
  - apply demo_key_request.
  - right. by left.
  - exists res. split; [exact E|]. split; [exact W|]. rewrite A. by vm_compute.
Defined.

(** C31. The reservation state is well formed whatever the hosts do.  After any
    sequence of commands by at most sixteen hosts, with any keys, types,
    actions and failing allocations: registrants are distinct hosts with
    non-zero 64-bit keys, the holder is one of them, there is no type or key
    without a holder, the fields are in their ranges; and the next command of
    any of the hosts is defined, so no assertion of the code fails. *)
Theorem reservation_reachable_wf hosts ns (Hh : (length hosts <= SPDK_NVMF_MAX_NUM_REGISTRANTS)%nat) (R : resv_reachable hosts ns) :
  resv_wf ns /\ (length (rs_registrants ns) <= SPDK_NVMF_MAX_NUM_REGISTRANTS)%nat /\
  forall capable mem h r, key_request r -> exists res, reservation_dispatch capable mem ns h r = Some res.
Proof.
  destruct (reachable_ok hosts ns Hh R) as [W Hr]. pose proof (registrants_bound ns hosts W Hr) as Hb.
  split; [done|]. split; [lia|]. intros capable mem h r K.
  destruct (decide (opc (req_cmd r) ∈ [SPDK_NVME_OPC_RESERVATION_REGISTER; SPDK_NVME_OPC_RESERVATION_ACQUIRE; SPDK_NVME_OPC_RESERVATION_RELEASE])) as [Ho|Ho].
  - destruct (dispatch_meets capable mem ns h r W) as (x & Ex & _); [lia|done|done|]. eauto.
  - destruct (other_opcode capable mem ns h r Ho) as [st E']. eauto.
Qed.

Lemma reservation_reachable_wf_witness :
  resv_reachable [1; 2] demo_ns /\ resv_wf demo_ns /\
  exists res, reservation_dispatch false true demo_ns 1 (demo_resv_req SPDK_NVME_OPC_RESERVATION_RELEASE 0x001 5 0) = Some res.
Proof.
  destruct (reservation_reachable_wf [1; 2] demo_ns ltac:(vm_compute; lia) demo_reachable) as (W & _ & H).
  split; [apply demo_reachable|]. split; [exact W|]. apply H, demo_key_request.
Defined.
