(* ===== verification/ReservationSync.v ===== *)
(** * Reservations: from a command to every poll group

    What surrounds the state machine of [Reservation]: the report of the
    state, the notifications, its persistence and restoration (subsystem.c), the
    copy each poll group keeps (nvmf.c), and the handler that runs a command,
    spreads the change over the poll groups and answers.  The theorems compose
    it with the access check of [Ctrlr]. *)
From stdpp Require Import strings.
From S2P Require Import Prelude NvmeSpec Iov World Ctrlr Reservation.

(** ** Report *)

(** [struct spdk_nvme_reservation_status_extended_data], 64 bytes. *)
Definition status_extended_data (gen rtype regctl ptpls : Z) : bytes :=
  le_enc 4 gen ++ le_enc 1 rtype ++ le_enc 2 regctl ++ replicate 2 0 ++ le_enc 1 ptpls ++ replicate 14 0 ++ replicate 40 0.
(** [struct spdk_nvme_registered_ctrlr_extended_data], 64 bytes. *)
Definition registered_ctrlr_extended_data (cntlid status rkey hostid : Z) : bytes :=
  le_enc 2 cntlid ++ le_enc 1 status ++ replicate 5 0 ++ le_enc 8 rkey ++ le_enc 16 hostid ++ replicate 32 0.

Definition registrant_entry (ns : ns_resv) (reg : spdk_nvmf_registrant) : bytes :=
  registered_ctrlr_extended_data 0xffff (if bool_decide (rs_holder ns = Some (rg_ptr reg)) then 1 else 0) (rg_rkey reg) (rg_hostid reg).

Fixpoint report_registrants (ns : ns_resv) (l : list spdk_nvmf_registrant) (ix : spdk_iov_xfer) : option spdk_iov_xfer :=
  match l with
  | [] => Some ix
  | reg :: l =>
      '(ix, _, _) ← spdk_iov_xfer_from_buf ix (registrant_entry ns reg) 64;
      report_registrants ns l ix
  end.

(** The vector of the request and the status; [None] is undefined behaviour. *)
Definition nvmf_ns_reservation_report (ns : ns_resv) (req : spdk_nvmf_request) : option (list iovec * Z) :=
  if req_iovcnt req =? 0 then Some (req_iov req, SPDK_NVME_SC_INVALID_FIELD)
  else if resv_report_eds (req_cmd req) =? 0 then Some (req_iov req, SPDK_NVME_SC_HOSTID_INCONSISTENT_FORMAT)
  else
    let transfer_len := u32 (u32 (cdw10 (req_cmd req) + 1) * 4) in
    if transfer_len <? 64 then Some (req_iov req, SPDK_NVME_SC_INTERNAL_DEVICE_ERROR)
    else
      let ix := spdk_iov_xfer_init (req_iov req) (Z.to_nat (req_iovcnt req)) in
      let regctl := u32 (Z.of_nat (length (rs_registrants ns))) in
      let status_data := status_extended_data (rs_gen ns) (u8 (rs_rtype ns)) (u16 regctl) (if rs_ptpl_activated ns then 1 else 0) in
      '(ix, _, _) ← spdk_iov_xfer_from_buf ix status_data 64;
      ix ← report_registrants ns (rs_registrants ns) ix;
      Some (ix_iovs ix, SPDK_NVME_SC_SUCCESS).

(** ** Notifications *)

Definition SPDK_NVME_REGISTRATION_PREEMPTED_MASK : Z := 2.
Definition SPDK_NVME_RESERVATION_RELEASED_MASK : Z := 4.
Definition SPDK_NVME_RESERVATION_PREEMPTED_MASK : Z := 8.

(** The log entry sent to a controller, if its type is not masked and memory
    for it is found. *)
Definition nvmf_ctrlr_reservation_notice_log (mask : Z) (mem : bool) (type : Z) : bool :=
  let wanted (m : Z) := Z.land mask m =? 0 in
  (if type =? SPDK_NVME_REGISTRATION_PREEMPTED then wanted SPDK_NVME_REGISTRATION_PREEMPTED_MASK
   else if type =? SPDK_NVME_RESERVATION_RELEASED then wanted SPDK_NVME_RESERVATION_RELEASED_MASK
   else if type =? SPDK_NVME_RESERVATION_PREEMPTED then wanted SPDK_NVME_RESERVATION_PREEMPTED_MASK
   else false) && mem.

(** The controllers [ctrlrs], with their host, that get an entry; [mem c] says
    whether the entry for controller [c] can be allocated. *)
Definition nvmf_subsystem_gen_ctrlr_notification (mask : Z) (mem : nat -> bool) (ctrlrs : list (nat * Z)) (hostid_list : list Z) (type : Z)
  : list (nat * Z) :=
  flat_map (fun h => flat_map (fun '(c, hostid) =>
    if (hostid =? h) && nvmf_ctrlr_reservation_notice_log mask (mem c) type then [(c, type)] else []) ctrlrs) hostid_list.

(** ** Persistence *)

(** libuuid: the text of an identifier and back. *)
Class Uuid := { uuid_unparse_lower : Z -> string; uuid_parse : string -> option Z }.

(** [struct spdk_nvmf_reservation_info] *)
Record spdk_nvmf_reservation_info := ResvInfo {
  in_crkey : Z; in_rtype : Z; in_ptpl_activated : bool; in_bdev_uuid : string; in_holder_uuid : string; in_num_regs : Z;
  in_registrants : list (Z * string) }.

Section Persist.
Context `{Uuid}.

(** [spdk_uuid_parse]: the target keeps what it held when the text is not an
    identifier. *)
Definition parse_into (old : Z) (s : string) : Z := default old (uuid_parse s).

Fixpoint info_registrants (l : list spdk_nvmf_registrant) (acc : list (Z * string)) : option (list (Z * string)) :=
  match l with
  | [] => Some acc
  | reg :: l =>
      if (length acc <? SPDK_NVMF_MAX_NUM_REGISTRANTS)%nat
      then info_registrants l (acc ++ [(rg_rkey reg, uuid_unparse_lower (rg_hostid reg))])
      else None
  end.

(** [nvmf_ns_update_reservation_info] up to the call of the operation that
    stores the information. *)
Definition reservation_info (ns : ns_resv) (bdev_uuid : Z) : option spdk_nvmf_reservation_info :=
  '(rtype, crkey, holder) ←
     (if rs_rtype ns =? 0 then Some (0, 0, EmptyString)
      else if nvmf_ns_reservation_all_registrants_type ns then Some (u8 (rs_rtype ns), rs_crkey ns, EmptyString)
      else
        p ← rs_holder ns; h ← host_of ns p;
        Some (u8 (rs_rtype ns), rs_crkey ns, uuid_unparse_lower h));
  regs ← info_registrants (rs_registrants ns) [];
  Some (ResvInfo crkey rtype (rs_ptpl_activated ns) (uuid_unparse_lower bdev_uuid) holder (u8 (Z.of_nat (length regs))) regs).

(** The registrants of the stored information, one by one; [mem] are the
    outcomes of the allocations. *)
Fixpoint restore_registrants (regs : list (Z * string)) (mem : list bool) (crkey holder_uuid : Z) (ns : ns_resv) (holder : option nat)
  : Z * ns_resv * option nat :=
  match regs with
  | [] => (0, ns, holder)
  | (rkey, host_uuid) :: regs =>
      if default true (head mem) then
        let hostid := parse_into 0 host_uuid in
        let reg := NvmfRegistrant (rs_fresh ns) hostid rkey in
        restore_registrants regs (tail mem) crkey holder_uuid
          (ns <| rs_registrants := rs_registrants ns ++ [reg] |> <| rs_fresh := S (rs_fresh ns) |>)
          (if (crkey !=? 0) && (holder_uuid =? hostid) then Some (rg_ptr reg) else holder)
      else (- ENOMEM, ns, holder)
  end.

(** [junk0] and [junk1] are what the identifiers on the stack held before. *)
Definition nvmf_ns_reservation_restore (mem : list bool) (junk0 junk1 : Z) (ns : ns_resv) (info : spdk_nvmf_reservation_info) (bdev_uuid : Z)
  : option (Z * ns_resv) :=
  if negb (in_ptpl_activated info) || (in_num_regs info =? 0) then Some (0, ns)
  else if (Z.of_nat (length (in_registrants info)) <? in_num_regs info) then None
  else
    let regs := take (Z.to_nat (in_num_regs info)) (in_registrants info) in
    let rkey_flag := existsb (fun '(rkey, _) => in_crkey info =? rkey) regs in
    if negb rkey_flag && (in_crkey info !=? 0) then Some (- EINVAL, ns)
    else if parse_into junk0 (in_bdev_uuid info) !=? bdev_uuid then Some (- EINVAL, ns)
    else
      let ns := ns <| rs_crkey := in_crkey info |> <| rs_rtype := in_rtype info |> <| rs_ptpl_activated := in_ptpl_activated info |> in
      let holder_uuid := parse_into junk1 (in_holder_uuid info) in
      let '(rc, ns, holder) := restore_registrants regs mem (in_crkey info) holder_uuid ns None in
      if rc !=? 0 then Some (rc, ns)
      else if nvmf_ns_reservation_all_registrants_type ns
      then Some (0, ns <| rs_holder := rg_ptr <$> head (rs_registrants ns) |>)
      else Some (0, ns <| rs_holder := holder |>).
End Persist.

(** ** The copy of a poll group *)

(** The reservation part of [poll_group_update_subsystem] for one namespace. *)
Definition update_ns_info (ns : ns_resv) (ni : spdk_nvmf_subsystem_pg_ns_info) : option (spdk_nvmf_subsystem_pg_ns_info * Z) :=
  ni ← match rs_holder ns with
       | Some p => h ← host_of ns p; Some (ni <| ni_rtype := rs_rtype ns |> <| ni_holder_id := h |>)
       | None => Some (ni <| ni_rtype := rs_rtype ns |>)
       end;
  let hosts := rg_hostid <$> rs_registrants ns in
  let fit := take SPDK_NVMF_MAX_NUM_REGISTRANTS hosts in
  let ni := ni <| ni_reg_hostid := fit ++ replicate (SPDK_NVMF_MAX_NUM_REGISTRANTS - length fit) 0 |> in
  Some (ni, if (SPDK_NVMF_MAX_NUM_REGISTRANTS <? length hosts)%nat then - EINVAL else 0).

(** ** A command from its arrival to its answer *)

(** [struct spdk_nvmf_ns_reservation_ops], on a store of its own: whether it
    persists at all, storing (an error number) and loading. *)
Class ReservationOps := {
  ro_store : Type; ro_capable : ro_store -> bool;
  ro_update : spdk_nvmf_reservation_info -> ro_store -> Z * ro_store; ro_load : ro_store -> Z * spdk_nvmf_reservation_info }.

Section Request.
Context `{Uuid} `{ReservationOps} (bdev_uuid : Z).

(** [nvmf_ns_update_reservation_info]: the error number and the store. *)
Definition nvmf_ns_update_reservation_info (ns : ns_resv) (store : ro_store) : option (Z * ro_store) :=
  if negb (ro_capable store) then Some (0, store)
  else info ← reservation_info ns bdev_uuid; Some (ro_update info store).

(** What [nvmf_ns_reservation_request] leaves: [qo_started] when the update of
    the poll groups has begun, so that the answer comes at its end;
    [qo_skipped] when one was due and could not be begun. *)
Record request_out := RequestOut {
  qo_ns : ns_resv; qo_store : ro_store; qo_req : spdk_nvmf_request; qo_notices : list (list Z * Z); qo_started : bool; qo_skipped : bool }.

Definition handled (op : Z) : bool :=
  (op =? SPDK_NVME_OPC_RESERVATION_REGISTER) || (op =? SPDK_NVME_OPC_RESERVATION_ACQUIRE)
  || (op =? SPDK_NVME_OPC_RESERVATION_RELEASE) || (op =? SPDK_NVME_OPC_RESERVATION_REPORT).

Definition nvmf_ns_reservation_request (mem_reg mem_ctx : bool) (ns : ns_resv) (store : ro_store) (hostid : Z) (req : spdk_nvmf_request)
  : option request_out :=
  let op := opc (req_cmd req) in
  '(res, req) ←
    (if op =? SPDK_NVME_OPC_RESERVATION_REPORT then
       '(iovs, st) ← nvmf_ns_reservation_report ns req;
       Some (ResvResult ns [] st false, req <| req_iov := iovs |>)
     else
       res ← reservation_dispatch (ro_capable store) mem_reg ns hostid req;
       Some (res, req));
  let req := if handled op then with_status SPDK_NVME_SCT_GENERIC (rr_status res) req else req in
  let ns := rr_ns res in
  if rr_update res then
    '(rc, store) ← (if rs_ptpl_activated ns || (op =? SPDK_NVME_OPC_RESERVATION_REGISTER)
                    then nvmf_ns_update_reservation_info ns store else Some (0, store));
    let req := if rc !=? 0 then with_rsp_status ((status (req_rsp req)) <| sc := SPDK_NVME_SC_INTERNAL_DEVICE_ERROR |>) req else req in
    Some (RequestOut ns store req (rr_notices res) mem_ctx (negb mem_ctx))
  else Some (RequestOut ns store req (rr_notices res) false false).

(** The namespace, its stored information, the copies of the poll groups, the
    updates under way with the next poll group each will visit, and the
    requests answered.  [y_lost] is set when an update was due and not made. *)
Record rsys := RSys {
  y_ns : ns_resv; y_store : ro_store; y_pgs : list spdk_nvmf_subsystem_pg_ns_info; y_iters : list (spdk_nvmf_request * nat);
  y_answered : list spdk_nvmf_request; y_lost : bool }.

(** The update of the poll groups: [subsystem_update_ns_on_pg] on one of them
    after the other, [subsystem_update_ns_done] and the answer; an error ends
    the round. *)
Inductive update_step : rsys -> rsys -> Prop :=
| visit_next ns store pgs l1 req j l2 ans lost ni ni' : pgs !! j = Some ni -> update_ns_info ns ni = Some (ni', 0) ->
    update_step (RSys ns store pgs (l1 ++ (req, j) :: l2) ans lost)
                (RSys ns store (<[j := ni']> pgs) (l1 ++ (req, S j) :: l2) ans lost)
| visit_failed ns store pgs l1 req j l2 ans lost ni ni' rc : pgs !! j = Some ni -> update_ns_info ns ni = Some (ni', rc) -> rc <> 0 ->
    update_step (RSys ns store pgs (l1 ++ (req, j) :: l2) ans lost)
                (RSys ns store (<[j := ni']> pgs) (l1 ++ l2) (ans ++ [req]) true)
| visit_done ns store pgs l1 req l2 ans lost :
    update_step (RSys ns store pgs (l1 ++ (req, length pgs) :: l2) ans lost) (RSys ns store pgs (l1 ++ l2) (ans ++ [req]) lost).

(** A command of a host handled on the thread of the subsystem. *)
Inductive command_step (hosts : list Z) : rsys -> rsys -> Prop :=
| command_handled y h req mem_reg mem_ctx out : h ∈ hosts -> key_request req ->
    nvmf_ns_reservation_request mem_reg mem_ctx (y_ns y) (y_store y) h req = Some out ->
    command_step hosts y
      (RSys (qo_ns out) (qo_store out) (y_pgs y)
         (if qo_started out then y_iters y ++ [(qo_req out, 0%nat)] else y_iters y)
         (if qo_started out then y_answered y else y_answered y ++ [qo_req out])
         (y_lost y || qo_skipped out)).

(** Updates and commands interleave in any way. *)
Inductive sys_reachable (hosts : list Z) (pgs : list spdk_nvmf_subsystem_pg_ns_info) (store : ro_store) : rsys -> Prop :=
| sys_init : sys_reachable hosts pgs store (RSys resv_init store pgs [] [] false)
| sys_update y y' : sys_reachable hosts pgs store y -> update_step y y' -> sys_reachable hosts pgs store y'
| sys_command y y' : sys_reachable hosts pgs store y -> command_step hosts y y' -> sys_reachable hosts pgs store y'.
End Request.

(** ** Specification *)

(** A copy agrees with the namespace. *)
Record synced (ns : ns_resv) (ni : spdk_nvmf_subsystem_pg_ns_info) : Prop := {
  sy_rtype : ni_rtype ni = rs_rtype ns;
  sy_holder : forall p, rs_holder ns = Some p -> host_of ns p = Some (ni_holder_id ni);
  sy_hosts : ni_reg_hostid ni = (rg_hostid <$> rs_registrants ns) ++ replicate (SPDK_NVMF_MAX_NUM_REGISTRANTS - length (rs_registrants ns)) 0 }.

(** The role of a host, and what it may do, in terms of the abstract state. *)
Definition a_role (a : aresv) (h : Z) : host_role :=
  if a_holds a h then Holder else if bool_decide (is_Some (a_regs a !! h)) then Registrant else OtherHost.
Definition a_grants (a : aresv) (h : Z) (acc : access) : bool :=
  if a_type a =? 0 then true else reservation_grants (a_type a) (a_role a h) acc.

(** What a host reads in a report: the generation, the type, the persistence
    state and, for each registrant, whether it holds the reservation, its key
    and its identifier. *)
Definition parse_report (b : bytes) : Z * Z * Z * list (Z * Z * Z) :=
  let n := Z.to_nat (le_dec (slice 5 2 b)) in
  (le_dec (slice 0 4 b), le_dec (slice 4 1 b), le_dec (slice 9 1 b),
   (fun i => (le_dec (slice (64 * S i + 2) 1 b), le_dec (slice (64 * S i + 8) 8 b), le_dec (slice (64 * S i + 16) 16 b))) <$> seq 0 n).

(** ** Lemmas *)

Lemma update_synced ns ni ni' : resv_wf ns -> update_ns_info ns ni = Some (ni', 0) -> synced ns ni'.
Proof.
  intros W. unfold update_ns_info. cbn [mbind option_bind].
  destruct (Nat.ltb_spec SPDK_NVMF_MAX_NUM_REGISTRANTS (length (rg_hostid <$> rs_registrants ns))) as [|Hl]; [by destruct (rs_holder ns) as [p|]; [destruct (host_of ns p)|]|].
  rewrite length_fmap in Hl. assert (Ef : take SPDK_NVMF_MAX_NUM_REGISTRANTS (rg_hostid <$> rs_registrants ns) = rg_hostid <$> rs_registrants ns) by (apply take_ge; by rewrite length_fmap).
  rewrite Ef, length_fmap. destruct (rs_holder ns) as [p|] eqn:Eh.
  - destruct (host_of ns p) as [h|] eqn:Ep; [|done]. intros [= <-]. split; [done| |done]. intros p' E. simplify_eq. exact Ep.
  - intros [= <-]. split; [done| |done]. intros p. by rewrite Eh.
Qed.

Lemma update_defined ns ni : resv_wf ns -> exists ni' rc, update_ns_info ns ni = Some (ni', rc).
Proof.
  intros W. unfold update_ns_info. destruct (rs_holder ns) as [p|] eqn:Eh; [|eauto].
  destruct (wf_holder _ W _ Eh) as (g & Hg & <-). rewrite host_of_elem by done. cbn. eauto.
Qed.

(** A command that updates nothing changes nothing. *)
Lemma remove_where_nothing p l ns c : List.filter p l = [] -> remove_where p l ns c = Some (ns, c).
Proof. induction l as [|g l IH]; cbn; [done|]. destruct (p g); [done|apply IH]. Qed.

Ltac decompose_option :=
  repeat match goal with
    | H : context [mbind (M := option) _ ?x] |- _ => let E := fresh "E" in destruct x eqn:E; cbn [mbind option_bind] in H; [|done]
    | H : (if ?b then _ else _) = Some _ |- _ => destruct b eqn:?
    | H : match ?x with _ => _ end = Some _ |- _ => destruct x eqn:?
    | H : Some _ = Some _ |- _ => injection H as <-
    end; cbn [rr_update rr_ns ao_update ao_ns] in *.

Lemma register_action_update mem ns h rrega iekey ck nk u res : register_action mem ns h rrega iekey ck nk u = Some res ->
  rr_update res = false -> u = false /\ rr_ns res = ns.
Proof.
  unfold register_action, nvmf_ns_reservation_add_registrant. intros E Hu. destruct mem; cbn [negb] in E; decompose_option; done.
Qed.
Lemma acquire_action_update ns h racqa iekey t ck pk o : resv_wf ns -> (length (rs_registrants ns) <= SPDK_NVMF_MAX_NUM_REGISTRANTS)%nat ->
  acquire_action ns h racqa iekey t ck pk = Some o -> ao_update o = false -> ao_ns o = ns.
Proof.
  intros W Hl. unfold acquire_action, acquire_preempt. intros E Hu. decompose_option; try done.
  match goal with H : nvmf_ns_reservation_remove_registrants_by_key _ _ = _ |- _ => rename H into Er end.
  destruct (by_key_spec ns pk W Hl) as (n' & En & _). rewrite En in Er. simplify_eq.
  unfold nvmf_ns_reservation_remove_registrants_by_key in En. rewrite remove_where_nothing in En; [congruence|].
  match goal with H : (Z.of_nat _ =? 0) = true |- _ => apply Z.eqb_eq in H; apply length_zero_iff_nil; lia end.
Qed.

Lemma dispatch_update capable mem ns h r res : resv_wf ns -> (length (rs_registrants ns) <= SPDK_NVMF_MAX_NUM_REGISTRANTS)%nat ->
  reservation_dispatch capable mem ns h r = Some res -> rr_update res = false -> rr_ns res = ns.
Proof.
  intros W Hl. unfold reservation_dispatch, nvmf_ns_reservation_register, nvmf_ns_reservation_acquire, nvmf_ns_reservation_release.
  intros E Hu. destruct (_ =? _); [|destruct (_ =? _); [|destruct (_ =? _); [|by simplify_eq]]].
  - destruct (read_key 16 r) as [[key|]|]; cbn [mbind option_bind] in E; [|by simplify_eq|done].
    destruct (register_ptpl capable ns _) as [[refused n] u] eqn:Ep. assert (Hn : u = false -> n = ns).
    { revert Ep. unfold register_ptpl. by destruct (_ =? _); [destruct (rs_ptpl_activated ns)|destruct (_ =? _); [destruct capable, (rs_ptpl_activated ns)|]]; intros [= <- <- <-]. }
    destruct refused; [simplify_eq/=; by apply Hn|]. apply register_action_update in E as [Eu ->]; [by apply Hn|done].
  - destruct (read_key 16 r) as [key|]; cbn [mbind option_bind] in E; [|done].
    destruct (match key with Some _ => _ | None => _ end) as [o|] eqn:Eo; cbn [mbind option_bind] in E; [|done].
    assert (Eu : rr_update res = ao_update o /\ rr_ns res = ao_ns o). { unfold acquire_exit in E. decompose_option; done. }
    destruct Eu as [Eu ->]. rewrite Eu in Hu. destruct key; [by eapply acquire_action_update|by simplify_eq].
  - destruct (read_key 8 r) as [[key|]|]; cbn [mbind option_bind] in E; [|by simplify_eq|done]. unfold release_action in E. decompose_option; done.
Qed.

(** The host is among the copied identifiers exactly when it is registered;
    the unused entries are the null identifier. *)
Lemma synced_registrant ns ni ct : resv_wf ns -> (length (rs_registrants ns) <= SPDK_NVMF_MAX_NUM_REGISTRANTS)%nat -> synced ns ni -> ct_hostid ct <> 0 ->
  nvmf_ns_info_ctrlr_is_registrant ni ct = bool_decide (is_Some (a_regs (abs ns) !! ct_hostid ct)).
Proof.
  intros W Hl [_ _ Hh] H0. unfold nvmf_ns_info_ctrlr_is_registrant. rewrite Hh, take_ge by (rewrite length_app, length_fmap, length_replicate; lia).
  apply eq_true_iff_eq. rewrite existsb_exists, bool_decide_eq_true. split.
  - intros (x & Hx & ->%Z.eqb_eq). apply list_elem_of_In, elem_of_app in Hx as [(g & Eg & Hg)%list_elem_of_fmap|[E _]%elem_of_replicate]; [|done].
    exists (rg_rkey g). apply reg_map_lookup; [apply W|]. eauto.
  - intros [k (g & Hg & E & _)%reg_map_lookup]; [|apply W]. exists (ct_hostid ct). rewrite Z.eqb_refl. split; [|done].
    apply list_elem_of_In, elem_of_app. left. rewrite <- E. by apply list_elem_of_fmap_2.
Qed.

(** The check on an up-to-date copy decides by the abstract reservation. *)
Lemma synced_grants ns ni ct cmd acc : resv_wf ns -> (length (rs_registrants ns) <= SPDK_NVMF_MAX_NUM_REGISTRANTS)%nat -> synced ns ni ->
  ct_hostid ct <> 0 -> access_of (opc cmd) = Some acc -> conflicts ni ct cmd = negb (a_grants (abs ns) (ct_hostid ct) acc).
Proof.
  intros W Hl S H0 Ha. pose proof (synced_registrant ns ni ct W Hl S H0) as Hr. destruct S as [St Sh _].
  pose proof (wf_type _ W) as Hty. unfold a_grants, a_type. cbn [abs a_resv].
  destruct (Z.eqb_spec (rs_rtype ns) 0) as [Ez|Hz].
  { unfold conflicts, holds. rewrite St, Ez. by destruct (rs_holder ns). }
  destruct (rs_holder ns) as [p|] eqn:Eh; [|destruct (wf_none _ W Eh); lia]. rewrite (proj2 (Z.eqb_neq _ _) Hz).
  rewrite (conflicts_granted ni ct cmd acc Ha) by (rewrite St; lia). rewrite St. do 2 f_equal.
  destruct (wf_holder _ W _ Eh) as (g & Hg & <-). specialize (Sh _ eq_refl). rewrite host_of_elem in Sh by done. injection Sh as Sh.
  unfold role_of, a_role, a_holds. rewrite Hr, St, <- Sh. cbn [abs a_resv a_regs]. rewrite Eh, host_of_elem by done.
  change ((rs_rtype ns =? SPDK_NVME_RESERVE_WRITE_EXCLUSIVE_ALL_REGS) || (rs_rtype ns =? SPDK_NVME_RESERVE_EXCLUSIVE_ACCESS_ALL_REGS))
    with (all_registrants (rs_rtype ns)).
  assert (Hreg : is_Some (reg_map (rs_registrants ns) !! rg_hostid g)) by (exists (rg_rkey g); apply reg_map_lookup; [apply W|]; eauto).
  destruct (all_registrants (rs_rtype ns)); [|rewrite andb_false_r; done]. rewrite andb_true_r.
  destruct (Z.eqb_spec (rg_hostid g) (ct_hostid ct)) as [<-|]; [by rewrite bool_decide_true|by case_bool_decide].
Qed.

Section System.
Context `{Uuid} `{ReservationOps} (bdev_uuid : Z) (hosts : list Z) (Hhosts : (length hosts <= SPDK_NVMF_MAX_NUM_REGISTRANTS)%nat).

Lemma request_ns mem_reg mem_ctx ns store h req out : resv_reachable hosts ns -> h ∈ hosts -> key_request req ->
  nvmf_ns_reservation_request bdev_uuid mem_reg mem_ctx ns store h req = Some out ->
  resv_reachable hosts (qo_ns out) /\ (qo_started out = false -> qo_skipped out = false -> qo_ns out = ns).
Proof.
  intros R Hh K. destruct (reachable_ok hosts ns Hhosts R) as [W Hr]. pose proof (registrants_bound ns hosts W Hr) as Hb.
  unfold nvmf_ns_reservation_request. destruct (_ =? SPDK_NVME_OPC_RESERVATION_REPORT).
  - destruct (nvmf_ns_reservation_report ns req) as [[iovs st]|]; [|done]. cbn. intros [= <-]. by split.
  - destruct (reservation_dispatch _ _ _ _ _) as [res|] eqn:E; [|done]. cbn [mbind option_bind].
    assert (R' : resv_reachable hosts (rr_ns res)) by (by eapply reach_command).
    assert (Hu : rr_update res = false -> rr_ns res = ns) by (eapply dispatch_update; [done|lia|exact E]).
    destruct (rr_update res).
    + destruct (if _ || _ then _ else _) as [[rc st]|]; [|done]. cbn. intros [= <-]. cbn. by destruct mem_ctx.
    + intros [= <-]. split; [done|by intros _ _; apply Hu].
Qed.

(** Every copy is up to date or still to be visited. *)
Record sys_ok (y : rsys) : Prop := {
  ok_ns : resv_reachable hosts (y_ns y); ok_iters : forall it, it ∈ y_iters y -> (it.2 <= length (y_pgs y))%nat;
  ok_copies : y_lost y = false -> forall j ni, y_pgs y !! j = Some ni ->
    synced (y_ns y) ni \/ exists it, it ∈ y_iters y /\ (it.2 <= j)%nat }.

Lemma update_ok y y' : sys_ok y -> update_step y y' -> sys_ok y'.
Proof.
  intros [R I C] S. destruct (reachable_ok _ _ Hhosts R) as [W _].
  destruct S as [ns store pgs l1 req j l2 ans lost ni ni' Hj E|ns store pgs l1 req j l2 ans lost ni ni' rc Hj E Hrc|ns store pgs l1 req l2 ans lost]; cbn in *.
  - split; [done| |]; cbn.
    + intros it Hit. rewrite length_insert. apply lookup_lt_Some in Hj. apply elem_of_app in Hit as [Hit|[->|Hit]%elem_of_cons]; [|cbn; lia|];
        apply I, elem_of_app; [by left|right; by right].
    + intros Hlost j' n Hn. destruct (decide (j' = j)) as [->|Hne].
      * left. rewrite list_lookup_insert_eq in Hn by (by eapply lookup_lt_Some). simplify_eq. by eapply update_synced.
      * rewrite list_lookup_insert_ne in Hn by done. destruct (C Hlost j' n Hn) as [?|(it & Hit & Hle)]; [by left|right].
        apply elem_of_app in Hit as [Hit|[->|Hit]%elem_of_cons].
        -- exists it. split; [apply elem_of_app; by left|done].
        -- exists (req, S j). split; [apply elem_of_app; right; left|cbn in *; lia].
        -- exists it. split; [apply elem_of_app; right; by right|done].
  - split; [done| |done]. cbn. intros it Hit. rewrite length_insert. apply I. apply elem_of_app in Hit as [Hit|Hit]; apply elem_of_app; [by left|right; by right].
  - split; [done| |]; cbn.
    + intros it Hit. apply I. apply elem_of_app in Hit as [Hit|Hit]; apply elem_of_app; [by left|right; by right].
    + intros Hlost j n Hn. destruct (C Hlost j n Hn) as [?|(it & Hit & Hle)]; [by left|right]. exists it. split; [|done].
      apply elem_of_app in Hit as [Hit|[->|Hit]%elem_of_cons]; apply elem_of_app; [by left| |by right]. apply lookup_lt_Some in Hn. cbn in Hle. lia.
Qed.

Lemma command_ok y y' : sys_ok y -> command_step bdev_uuid hosts y y' -> sys_ok y'.
Proof.
  intros HO S. destruct S as [y h req mem_reg mem_ctx out Hh K E]. destruct HO as [R I C]. destruct (request_ns _ _ _ _ _ _ _ R Hh K E) as [R' Hsame]. split; cbn.
  - done.
  - destruct (qo_started out); [|done]. intros it [Hit| ->%list_elem_of_singleton]%elem_of_app; [by apply I|cbn; lia].
  - intros [Hlost Hsk]%orb_false_iff j ni Hj. destruct (qo_started out).
    + right. exists (qo_req out, 0%nat). split; [apply elem_of_app; right; by apply list_elem_of_singleton|cbn; lia].
    + rewrite Hsame by done. by apply C.
Qed.

Lemma reachable_sys_ok pgs store y : Forall (synced resv_init) pgs -> sys_reachable bdev_uuid hosts pgs store y -> sys_ok y.
Proof.
  intros HF. induction 1 as [|y y' _ IH S|y y' _ IH S]; [|by eapply update_ok|by eapply command_ok].
  split; cbn; [apply reach_init|by intros it ?%not_elem_of_nil|]. intros _ j ni Hj. left. by eapply Forall_lookup_1.
Qed.
(** The poll groups the updates under way still have to visit, and their ends. *)
Definition pending (y : rsys) : nat := sum_list_with (fun it => S (length (y_pgs y)) - it.2)%nat (y_iters y).

Lemma update_decreases y y' : sys_ok y -> update_step y y' -> (pending y' < pending y)%nat.
Proof.
  intros [_ I _] S. destruct S as [ns store pgs l1 req j l2 ans lost ni ni' Hj E|ns store pgs l1 req j l2 ans lost ni ni' rc Hj E Hrc|ns store pgs l1 req l2 ans lost];
    unfold pending; cbn [y_iters y_pgs]; rewrite ?length_insert, !sum_list_with_app; cbn [sum_list_with snd].
  - apply lookup_lt_Some in Hj. lia.
  - apply lookup_lt_Some in Hj. lia.
  - lia.
Qed.

Lemma update_progress y : sys_ok y -> y_iters y <> [] -> exists y', update_step y y'.
Proof.
  intros [R I _] Hne. destruct (reachable_ok _ _ Hhosts R) as [W _]. destruct y as [ns store pgs [|[req j] l] ans lost]; [done|]. cbn in *.
  destruct (decide (j = length pgs)) as [->|Hj]; [eexists; by apply (visit_done _ _ _ [])|].
  specialize (I (req, j) ltac:(left)). cbn in I. destruct (lookup_lt_is_Some_2 pgs j) as [ni Hni]; [lia|].
  destruct (update_defined ns ni W) as (ni' & rc & E). destruct (decide (rc = 0)) as [->|Hrc].
  - eexists. by eapply (visit_next _ _ _ []).
  - eexists. by eapply (visit_failed _ _ _ []).
Qed.

(** An update step answers the request whose round it ends. *)
Lemma update_keeps y y' : update_step y y' -> y_answered y' ++ (fst <$> y_iters y') ≡ₚ y_answered y ++ (fst <$> y_iters y).
Proof.
  intros S. destruct S; cbn [y_answered y_iters]; rewrite !fmap_app; [done|..]; cbn [fmap list_fmap fst]; rewrite <- !app_assoc; f_equiv;
    cbn [app]; by rewrite Permutation_middle.
Qed.
End System.

(** *** Restoring *)

(** The registrants as they are allocated anew. *)
Fixpoint renumber (n : nat) (l : list spdk_nvmf_registrant) : list spdk_nvmf_registrant :=
  match l with [] => [] | g :: l => NvmfRegistrant n (rg_hostid g) (rg_rkey g) :: renumber (S n) l end.

Lemma renumber_fmap {B} (f : Z -> Z -> B) n l : (fun g => f (rg_hostid g) (rg_rkey g)) <$> renumber n l = (fun g => f (rg_hostid g) (rg_rkey g)) <$> l.
Proof. revert n. induction l as [|g l IH]; intros n; cbn; [done|]. f_equal. apply IH. Qed.
Lemma renumber_ptrs n l : rg_ptr <$> renumber n l = seq n (length l).
Proof. revert n. induction l as [|g l IH]; intros n; cbn; [done|]. f_equal. apply IH. Qed.
Lemma renumber_elem n l x : x ∈ renumber n l -> exists g, g ∈ l /\ rg_hostid g = rg_hostid x /\ rg_rkey g = rg_rkey x.
Proof.
  revert n. induction l as [|g l IH]; intros n; cbn; [by intros ?%not_elem_of_nil|]. intros [->|Hx]%elem_of_cons.
  - exists g. split; [left|done].
  - destruct (IH _ Hx) as (y & Hy & ?). exists y. split; [by right|done].
Qed.
Lemma renumber_find n l g : g ∈ l -> exists x, x ∈ renumber n l /\ rg_hostid x = rg_hostid g /\ rg_rkey x = rg_rkey g.
Proof.
  revert n. induction l as [|y l IH]; intros n; [by intros ?%not_elem_of_nil|]. intros [->|Hg]%elem_of_cons; cbn.
  - eexists. split; [left|done].
  - destruct (IH (S n) Hg) as (x & Hx & ?). exists x. split; [by right|done].
Qed.

Section Restore.
Context `{Uuid}.

Definition stored (g : spdk_nvmf_registrant) : Z * string := (rg_rkey g, uuid_unparse_lower (rg_hostid g)).

Lemma info_registrants_ok l acc : (length acc + length l <= SPDK_NVMF_MAX_NUM_REGISTRANTS)%nat -> info_registrants l acc = Some (acc ++ (stored <$> l)).
Proof.
  revert acc. induction l as [|g l IH]; intros acc Hl; cbn [info_registrants]; [cbn; by rewrite app_nil_r|]. cbn [length] in Hl.
  rewrite (proj2 (Nat.ltb_lt _ _)) by lia. rewrite IH by (rewrite length_app; cbn; lia). cbn. by rewrite <- app_assoc.
Qed.

(** The holder among restored registrants: the last with its identifier. *)
Fixpoint restored_holder (crkey hu : Z) (l : list spdk_nvmf_registrant) (holder : option nat) : option nat :=
  match l with
  | [] => holder
  | g :: l => restored_holder crkey hu l (if (crkey !=? 0) && (hu =? rg_hostid g) then Some (rg_ptr g) else holder)
  end.

Lemma restored_holder_none crkey hu l o : (forall g, g ∈ l -> rg_hostid g <> hu) -> restored_holder crkey hu l o = o.
Proof.
  revert o. induction l as [|g l IH]; intros o Hn; cbn; [done|]. rewrite (proj2 (Z.eqb_neq hu (rg_hostid g))) by (intros ->; apply (Hn g); [left|done]).
  rewrite andb_false_r. apply IH. intros x Hx. apply Hn. by right.
Qed.
Lemma restored_holder_some crkey l o g : crkey <> 0 -> NoDup (rg_hostid <$> l) -> g ∈ l -> restored_holder crkey (rg_hostid g) l o = Some (rg_ptr g).
Proof.
  intros Hc. revert o. induction l as [|x l IH]; intros o Hn Hg; [by apply not_elem_of_nil in Hg|]. cbn in Hn. apply NoDup_cons in Hn as [Hx Hn].
  apply elem_of_cons in Hg as [<-|Hg]; cbn.
  - rewrite (proj2 (Z.eqb_neq _ _) Hc), Z.eqb_refl. cbn. apply restored_holder_none. intros y Hy E. apply Hx. rewrite <- E. by apply list_elem_of_fmap_2.
  - by apply IH.
Qed.

Lemma restore_registrants_ok l ck hu ns o : (forall g, g ∈ l -> uuid_parse (uuid_unparse_lower (rg_hostid g)) = Some (rg_hostid g)) ->
  restore_registrants (stored <$> l) [] ck hu ns o =
  (0, ns <| rs_registrants := rs_registrants ns ++ renumber (rs_fresh ns) l |> <| rs_fresh := (rs_fresh ns + length l)%nat |>,
   restored_holder ck hu (renumber (rs_fresh ns) l) o).
Proof.
  revert ns o. induction l as [|g l IH]; intros ns o Hu; cbn [fmap list_fmap restore_registrants renumber restored_holder].
  - rewrite app_nil_r. cbn [length]. rewrite Nat.add_0_r. by destruct ns.
  - unfold stored at 1. cbn [head default tail]. unfold parse_into. rewrite (Hu g) by left. cbn [default]. rewrite IH by (intros x Hx; apply Hu; by right).
    unfold set. rsimp. rewrite <- app_assoc. cbn [app length]. do 3 f_equal. lia.
Qed.
(** The state that restoring gives. *)
Definition restored (ns : ns_resv) (holder : option nat) : ns_resv :=
  NsResv 0 (renumber 0 (rs_registrants ns)) (rs_crkey ns) (rs_rtype ns) holder true (length (rs_registrants ns)).

Lemma renumbered_hosts ns : rg_hostid <$> renumber 0 (rs_registrants ns) = rg_hostid <$> rs_registrants ns.
Proof. apply (renumber_fmap (fun h _ => h)). Qed.
Lemma renumbered_map ns : reg_map (renumber 0 (rs_registrants ns)) = reg_map (rs_registrants ns).
Proof. unfold reg_map. f_equal. apply (renumber_fmap (fun h k => (h, k))). Qed.

Lemma restored_wf ns holder : resv_wf ns -> (forall p, holder = Some p -> exists g, g ∈ renumber 0 (rs_registrants ns) /\ rg_ptr g = p) ->
  (holder = None -> rs_rtype ns = 0 /\ rs_crkey ns = 0) -> (holder <> None -> rs_crkey ns <> 0) -> resv_wf (restored ns holder).
Proof.
  intros W Hh Hn Hc. split; unfold restored; rsimp; try done; try apply W.
  - rewrite renumber_ptrs. apply NoDup_ListNoDup, seq_NoDup.
  - intros g Hg. assert (Hp : rg_ptr g ∈ rg_ptr <$> renumber 0 (rs_registrants ns)) by (by apply list_elem_of_fmap_2).
    rewrite renumber_ptrs in Hp. apply elem_of_seq in Hp. cbn. lia.
  - cbn. rewrite renumbered_hosts. apply W.
  - intros g (x & Hx & _ & <-)%renumber_elem. by apply W.
Qed.

Lemma restored_abs ns holder : resv_wf ns -> rs_ptpl_activated ns = true ->
  match rs_holder ns, holder with
  | None, None => True
  | Some p, Some q => all_registrants (rs_rtype ns) = true \/ exists g x, g ∈ rs_registrants ns /\ rg_ptr g = p /\
      x ∈ renumber 0 (rs_registrants ns) /\ rg_ptr x = q /\ rg_hostid x = rg_hostid g
  | _, _ => False
  end -> abs (restored ns holder) = abs ns.
Proof.
  intros W Hp Hm. unfold abs, restored. rsimp. rewrite renumbered_map, Hp. f_equal.
  destruct (rs_holder ns) as [p|], holder as [q|]; [|done..]. do 2 f_equal.
  destruct (all_registrants (rs_rtype ns)); [done|]. destruct Hm as [|(g & x & Hg & <- & Hx & <- & E)]; [done|].
  rewrite (host_of_elem ns g W Hg). unfold host_of. rsimp. rewrite (find_unique rg_ptr _ _ x); [cbn; by rewrite E| | |done].
  - rewrite renumber_ptrs. apply NoDup_ListNoDup, seq_NoDup.
  - intros y. apply Nat.eqb_eq.
Qed.

(** The stored information of a well-formed state. *)
Lemma reservation_info_ok ns bdev_uuid : resv_wf ns -> (length (rs_registrants ns) <= SPDK_NVMF_MAX_NUM_REGISTRANTS)%nat ->
  (rs_holder ns <> None -> rs_rtype ns <> 0) ->
  reservation_info ns bdev_uuid =
  Some (ResvInfo (rs_crkey ns) (rs_rtype ns) (rs_ptpl_activated ns) (uuid_unparse_lower bdev_uuid)
    (match rs_holder ns with
     | Some p => if all_registrants (rs_rtype ns) then EmptyString else default EmptyString (uuid_unparse_lower <$> host_of ns p)
     | None => EmptyString
     end) (Z.of_nat (length (rs_registrants ns))) (stored <$> rs_registrants ns)).
Proof.
  intros W Hl Ht. unfold reservation_info. rewrite info_registrants_ok by (cbn; lia). pose proof (wf_type _ W).
  assert (E8 : u8 (rs_rtype ns) = rs_rtype ns) by (apply Z.mod_small; lia).
  assert (En : u8 (Z.of_nat (length (stored <$> rs_registrants ns))) = Z.of_nat (length (rs_registrants ns)))
    by (rewrite length_fmap; unfold SPDK_NVMF_MAX_NUM_REGISTRANTS in Hl; apply Z.mod_small; lia).
  cbn [app mbind option_bind]. rewrite E8. destruct (rs_holder ns) as [p|] eqn:Eh.
  - rewrite (proj2 (Z.eqb_neq (rs_rtype ns) 0)) by (by apply Ht). destruct (wf_holder _ W _ Eh) as (g & Hg & <-).
    change (nvmf_ns_reservation_all_registrants_type ns) with (all_registrants (rs_rtype ns)).
    destruct (all_registrants (rs_rtype ns)); [by rewrite En|]. cbn [mbind option_bind]. rewrite !(host_of_elem ns g W Hg), En. done.
  - destruct (wf_none _ W Eh) as [-> ->]. cbn [mbind option_bind Z.eqb]. by rewrite En.
Qed.

(** Restoring from the information of a state whose key is still registered,
    with a holder where the reservation has one. *)
Lemma restore_ok ns bdev_uuid junk0 junk1 hu : resv_wf ns -> (length (rs_registrants ns) <= SPDK_NVMF_MAX_NUM_REGISTRANTS)%nat ->
  rs_registrants ns <> [] -> rs_ptpl_activated ns = true ->
  (forall u, u = bdev_uuid \/ u ∈ rg_hostid <$> rs_registrants ns -> uuid_parse (uuid_unparse_lower u) = Some u) ->
  let info := ResvInfo (rs_crkey ns) (rs_rtype ns) true (uuid_unparse_lower bdev_uuid) hu (Z.of_nat (length (rs_registrants ns))) (stored <$> rs_registrants ns) in
  nvmf_ns_reservation_restore [] junk0 junk1 resv_init info bdev_uuid =
  if bool_decide (rs_crkey ns ∈ 0 :: (rg_rkey <$> rs_registrants ns)) then
    Some (0, restored ns (if all_registrants (rs_rtype ns) then Some 0%nat
                          else restored_holder (rs_crkey ns) (parse_into junk1 hu) (renumber 0 (rs_registrants ns)) None))
  else Some (- EINVAL, resv_init).
Proof.
  intros W Hl Hne Hp Hu info. unfold nvmf_ns_reservation_restore, info. cbn [in_ptpl_activated in_num_regs in_registrants in_crkey in_bdev_uuid in_rtype in_holder_uuid negb orb].
  assert (Hz : (Z.of_nat (length (rs_registrants ns)) =? 0) = false) by (apply Z.eqb_neq; destruct (rs_registrants ns); cbn; [done|lia]). rewrite Hz.
  rewrite length_fmap, Z.ltb_irrefl, Nat2Z.id, take_ge by (by rewrite length_fmap). unfold parse_into at 1. rewrite (Hu bdev_uuid) by (by left).
  cbn [default]. rewrite Z.eqb_refl. cbn [negb].
  assert (Hf : existsb (fun '(rkey, _) => rs_crkey ns =? rkey) (stored <$> rs_registrants ns) = true <-> rs_crkey ns ∈ rg_rkey <$> rs_registrants ns).
  { rewrite existsb_exists, list_elem_of_fmap. split.
    - intros ([k t] & (g & Eg & Hg)%list_elem_of_In%list_elem_of_fmap & E%Z.eqb_eq). unfold stored in Eg. exists g. by simplify_eq.
    - intros (g & E & Hg). exists (stored g). split; [by apply list_elem_of_In, list_elem_of_fmap_2|]. unfold stored. by apply Z.eqb_eq. }
  case_bool_decide as Hd; rewrite elem_of_cons in Hd.
  - assert (Hc : negb (existsb (fun '(rkey, _) => rs_crkey ns =? rkey) (stored <$> rs_registrants ns)) && (rs_crkey ns !=? 0) = false).
    { destruct Hd as [E|Hd]; [rewrite E, andb_comm; done|]. by rewrite (proj2 Hf Hd). }
    rewrite Hc. rewrite restore_registrants_ok by (intros g Hg; apply Hu; right; by apply list_elem_of_fmap_2).
    change (0 !=? 0) with false. cbv beta iota zeta. unfold resv_init, set. rsimp. unfold nvmf_ns_reservation_all_registrants_type. rsimp.
    cbn [app]. rewrite Nat.add_0_l. unfold restored. destruct (rs_registrants ns) as [|g l]; [done|].
    unfold all_registrants. by destruct (_ || _).
  - rewrite (proj2 (Z.eqb_neq (rs_crkey ns) 0)) by tauto. destruct (existsb _ _); [exfalso; apply Hd; right; by apply Hf|done].
Qed.
End Restore.

(** *** The report *)

Lemma length_entry ns g : length (registrant_entry ns g) = 64%nat.
Proof. done. Qed.

Lemma length_entries ns l : length (concat (registrant_entry ns <$> l)) = (64 * length l)%nat.
Proof. induction l as [|g l IH]; cbn [fmap list_fmap concat length]; [done|]. rewrite length_app, length_entry. fold (registrant_entry ns <$> l). lia. Qed.

(** Consecutive copies into the vector are one copy. *)
Lemma from_buf_ok ix b : ix_ok ix -> (ix_pos ix + length b <= ix_total ix)%nat ->
  exists ix' b' c, spdk_iov_xfer_from_buf ix b (length b) = Some (ix', b', c) /\ ix_ok ix' /\ ix_pos ix' = (ix_pos ix + length b)%nat /\
    ix_total ix' = ix_total ix /\ flat (ix_iovs ix') = splice (ix_pos ix) b (flat (ix_iovs ix)).
Proof.
  intros Hok Hl. destruct (iov_xfer_post false ix b (length b) Hok) as ([[ix' b'] c] & E & P); [done|].
  rewrite Nat.min_l in P by lia. destruct P as (_ & Ok' & Ec & Ep & Hlen & _ & Hf). exists ix', b', c. split; [exact E|]. split; [done|].
  split; [done|]. split; [|by rewrite slice_all in Hf]. unfold ix_total. rewrite Ec. by apply flat_take_len.
Qed.

Lemma report_registrants_ok ns l ix : ix_ok ix -> (ix_pos ix + 64 * length l <= ix_total ix)%nat ->
  exists ix', report_registrants ns l ix = Some ix' /\
    flat (ix_iovs ix') = splice (ix_pos ix) (concat (registrant_entry ns <$> l)) (flat (ix_iovs ix)).
Proof.
  revert ix. induction l as [|g l IH]; intros ix Hok Hl; cbn [report_registrants fmap list_fmap concat]; [exists ix; by rewrite splice_nil|].
  cbn [length] in Hl. destruct (from_buf_ok ix (registrant_entry ns g) Hok) as (ix1 & b1 & c1 & E1 & O1 & P1 & T1 & F1); [rewrite length_entry; lia|].
  rewrite length_entry in *. rewrite E1. cbn [mbind option_bind]. destruct (IH ix1 O1) as (ix2 & E2 & F2); [rewrite P1, T1; lia|].
  exists ix2. split; [exact E2|]. rewrite F2, F1, P1. change 64%nat with (length (registrant_entry ns g)). apply splice_splice.
  rewrite length_entries, length_entry. etrans; [|apply length_flat_take with (i := ix_iovcnt ix)]. fold (ix_total ix). lia.
Qed.

(** A field of the i-th entry. *)
Lemma slice_entries l i e o n : Forall (fun b => length b = 64%nat) l -> l !! i = Some e -> (o + n <= 64)%nat ->
  slice (64 * i + o) n (concat l : bytes) = slice o n e.
Proof.
  intros HF. revert i. induction HF as [|b l Hb HF IH]; intros i Hi Ho; [done|]. cbn [concat]. destruct i as [|i]; cbn in Hi.
  - injection Hi as ->. rewrite Nat.mul_0_r, Nat.add_0_l. unfold slice. rewrite drop_app_le, take_app_le by (rewrite ?length_drop; lia). done.
  - unfold slice. rewrite drop_app_ge by lia. replace (64 * S i + o - length b)%nat with (64 * i + o)%nat by lia. by apply IH.
Qed.

(** The bytes of a report. *)
Definition report_bytes (ns : ns_resv) : bytes :=
  status_extended_data (rs_gen ns) (rs_rtype ns) (Z.of_nat (length (rs_registrants ns))) (if rs_ptpl_activated ns then 1 else 0)
  ++ concat (registrant_entry ns <$> rs_registrants ns).

Lemma le_dec_small n x : 0 <= x < 256 ^ Z.of_nat n -> le_dec (le_enc n x) = x.
Proof. intros Hx. rewrite le_dec_enc. by apply Z.mod_small. Qed.

Lemma parse_report_bytes ns rest : resv_wf ns -> (length (rs_registrants ns) <= SPDK_NVMF_MAX_NUM_REGISTRANTS)%nat ->
  (forall g, g ∈ rs_registrants ns -> 0 <= rg_hostid g < 2 ^ 128) ->
  parse_report (report_bytes ns ++ rest) =
  (rs_gen ns, rs_rtype ns, if rs_ptpl_activated ns then 1 else 0,
   (fun g => (if bool_decide (rs_holder ns = Some (rg_ptr g)) then 1 else 0, rg_rkey g, rg_hostid g)) <$> rs_registrants ns).
Proof.
  intros W Hl Hh. unfold SPDK_NVMF_MAX_NUM_REGISTRANTS in Hl.
  set (hdr := status_extended_data (rs_gen ns) (rs_rtype ns) (Z.of_nat (length (rs_registrants ns))) (if rs_ptpl_activated ns then 1 else 0)).
  set (es := registrant_entry ns <$> rs_registrants ns).
  assert (Hs : forall o n, (o + n <= 64)%nat -> slice o n (report_bytes ns ++ rest) = slice o n hdr).
  { intros o n Ho. unfold report_bytes. fold hdr es. rewrite <- app_assoc. unfold slice. rewrite drop_app_le, take_app_le; [done|..]; rewrite ?length_drop; change (length hdr) with 64%nat; lia. }
  assert (Hn : le_dec (slice 5 2 (report_bytes ns ++ rest)) = Z.of_nat (length (rs_registrants ns))).
  { rewrite Hs by lia. change (slice 5 2 hdr) with (le_enc 2 (Z.of_nat (length (rs_registrants ns)))). apply le_dec_small. lia. }
  unfold parse_report. rewrite Hn, Nat2Z.id, !Hs by lia.
  change (slice 0 4 hdr) with (le_enc 4 (rs_gen ns)). change (slice 4 1 hdr) with (le_enc 1 (rs_rtype ns)).
  change (slice 9 1 hdr) with (le_enc 1 (if rs_ptpl_activated ns then 1 else 0)).
  pose proof (wf_gen _ W). pose proof (wf_type _ W). rewrite !le_dec_small by (first [lia|destruct (rs_ptpl_activated ns); lia]). f_equal.
  apply list_eq. intros i. rewrite !list_lookup_fmap. destruct (rs_registrants ns !! i) as [g|] eqn:Eg.
  2: { rewrite lookup_seq_ge; [done|]. by apply lookup_ge_None. }
  rewrite lookup_seq_lt by (by eapply lookup_lt_Some). cbn [fmap option_fmap option_map]. rewrite Nat.add_0_l. f_equal.
  assert (Hge : g ∈ rs_registrants ns) by (by eapply list_elem_of_lookup_2). pose proof (wf_keys _ W g Hge). pose proof (Hh g Hge).
  assert (He : forall o n, (o + n <= 64)%nat -> slice (64 * S i + o) n (report_bytes ns ++ rest) = slice o n (registrant_entry ns g)).
  { intros o n Ho. unfold report_bytes. fold hdr es. rewrite <- app_assoc. replace (64 * S i + o)%nat with (length hdr + (64 * i + o))%nat by (change (length hdr) with 64%nat; lia).
    unfold slice at 1. rewrite drop_app_add. assert (Hlt : (64 * i + o + n <= length (concat es))%nat).
    { unfold es. rewrite length_entries. apply lookup_lt_Some in Eg. lia. }
    rewrite drop_app_le, take_app_le by (rewrite ?length_drop; lia). apply (slice_entries es i); [|by unfold es; rewrite list_lookup_fmap, Eg|done].
    apply Forall_fmap, Forall_forall. intros x _. apply length_entry. }
  rewrite !He by lia. change (slice 2 1 (registrant_entry ns g)) with (le_enc 1 (if bool_decide (rs_holder ns = Some (rg_ptr g)) then 1 else 0)).
  change (slice 8 8 (registrant_entry ns g)) with (le_enc 8 (rg_rkey g)). change (slice 16 16 (registrant_entry ns g)) with (le_enc 16 (rg_hostid g)).
  rewrite !le_dec_small; [done|change (256 ^ Z.of_nat 16) with (2 ^ 128); lia|lia|case_bool_decide; lia].
Qed.

(** ** One poll group, one host *)

(** Identifiers below 256 as one character, and a store that never fails. *)
Definition demo_uuid : Uuid :=
  {| uuid_unparse_lower := fun u => String (Ascii.ascii_of_N (Z.to_N u)) EmptyString;
     uuid_parse := fun s => match s with String a EmptyString => Some (Z.of_N (Ascii.N_of_ascii a)) | _ => None end |}.
Definition demo_ops : ReservationOps :=
  {| ro_store := option spdk_nvmf_reservation_info; ro_capable := fun _ => true; ro_update := fun i _ => (0, Some i);
     ro_load := fun s => (0, default (ResvInfo 0 0 false EmptyString EmptyString 0 []) s) |}.

Definition demo_copy (rtype holder h : Z) : spdk_nvmf_subsystem_pg_ns_info :=
  PgNsInfo true rtype holder (h :: replicate 15 0) 0 SPDK_NVMF_SUBSYSTEM_ACTIVE.
(** Host 1 registers with the key 5 and acquires "exclusive access". *)
Definition demo_register : spdk_nvmf_request := demo_resv_req SPDK_NVME_OPC_RESERVATION_REGISTER 0 0 5.
Definition demo_acquire : spdk_nvmf_request := demo_resv_req SPDK_NVME_OPC_RESERVATION_ACQUIRE 0x200 5 0.
Definition demo_regs : list spdk_nvmf_registrant := [NvmfRegistrant 0 1 5].
Definition demo_ns1 : ns_resv := NsResv 1 demo_regs 0 0 None false 1.
Definition demo_ns2 : ns_resv := NsResv 1 demo_regs 5 2 (Some 0%nat) false 1.
Definition demo_info : spdk_nvmf_reservation_info :=
  ResvInfo 0 0 false (@uuid_unparse_lower demo_uuid 9) EmptyString 1 [(5, @uuid_unparse_lower demo_uuid 1)].

Section Demo.
#[local] Existing Instance demo_uuid.
#[local] Existing Instance demo_ops.

Lemma demo_synced : Forall (synced resv_init) [demo_copy 0 0 0].
Proof. apply Forall_singleton. by split. Qed.

Lemma demo_registering :
  sys_reachable 9 [1] [demo_copy 0 0 0] None (RSys demo_ns1 (Some demo_info) [demo_copy 0 0 0] [(demo_register, 0%nat)] [] false).
Proof.
  eapply sys_command; [apply sys_init|]. eapply (command_handled 9 [1] (@RSys demo_ops resv_init _ _ [] [] false) 1 demo_register true true
    (@RequestOut demo_ops demo_ns1 (Some demo_info) demo_register [] true false)); [by left|apply demo_key_request|by vm_compute].
Qed.
Lemma demo_registered :
  sys_reachable 9 [1] [demo_copy 0 0 0] None (RSys demo_ns1 (Some demo_info) [demo_copy 0 0 1] [] [demo_register] false).
Proof.
  eapply sys_update; [eapply sys_update; [exact demo_registering|]|].
  - eapply (visit_next _ _ _ [] _ 0 [] _ _ (demo_copy 0 0 0) (demo_copy 0 0 1)); [done|by vm_compute].
  - apply (visit_done _ _ [demo_copy 0 0 1] [] demo_register [] [] false).
Qed.
Lemma demo_acquired :
  sys_reachable 9 [1] [demo_copy 0 0 0] None (RSys demo_ns2 (Some demo_info) [demo_copy 2 1 1] [] [demo_register; demo_acquire] false).
Proof.
  eapply sys_update; [eapply sys_update; [eapply sys_command; [exact demo_registered|]|]|].
  - eapply (command_handled 9 [1] (@RSys demo_ops demo_ns1 _ _ [] _ false) 1 demo_acquire true true (@RequestOut demo_ops demo_ns2 (Some demo_info) demo_acquire [] true false));
      [by left|apply demo_key_request|by vm_compute].
  - eapply (visit_next _ _ _ [] _ 0 [] _ _ (demo_copy 0 0 1) (demo_copy 2 1 1)); [done|by vm_compute].
  - apply (visit_done _ _ [demo_copy 2 1 1] [] demo_acquire [] [demo_register] false).
Qed.
End Demo.

(** ** Properties *)

(** C7. Reservations are enforced on every poll group.  In every state that
    commands of at most sixteen hosts and the updates they cause lead to, in any
    interleaving, once no update is under way and none was lost for want of
    memory: the access check of [Ctrlr], on any poll group and for any host
    other than the null identifier, lets a read or write pass exactly when the
    abstract reservation of the namespace grants it to that host. *)
Theorem reservation_enforced `{Uuid} `{ReservationOps} bdev_uuid hosts pgs store y ni ct rid r w acc
    (Hh : (length hosts <= SPDK_NVMF_MAX_NUM_REGISTRANTS)%nat) (Hpgs : Forall (synced resv_init) pgs)
    (R : sys_reachable bdev_uuid hosts pgs store y) (Hq : y_iters y = []) (Hlost : y_lost y = false) (Hni : ni ∈ y_pgs y)
    (Hnull : ct_hostid ct <> 0) (Hr : w_reqs w !! rid = Some r) (Ha : access_of (opc (req_cmd r)) = Some acc) :
  wp (nvmf_ns_reservation_request_check ni ct rid) w (fun rc _ => rc = 0 <-> a_grants (abs (y_ns y)) (ct_hostid ct) acc = true).
Proof.
  destruct (reachable_sys_ok _ _ Hh _ _ _ Hpgs R) as [Rn _ C]. destruct (reachable_ok _ _ Hh Rn) as [W Hr'].
  pose proof (registrants_bound _ _ W Hr') as Hb. apply list_elem_of_lookup in Hni as [j Hj].
  destruct (C Hlost j ni Hj) as [S|(it & Hit & _)]; [|rewrite Hq in Hit; by apply not_elem_of_nil in Hit].
  eapply reservation_check_wp; [done..|]. rewrite (synced_grants (y_ns y) ni ct (req_cmd r) acc W ltac:(lia) S Hnull Ha).
  by destruct (a_grants _ _ _).
Qed.

(** Host 2 may not read what host 1 has reserved; host 1 may. *)
Lemma reservation_enforced_witness :
  let r := demo_req (demo_cmd SPDK_NVME_OPC_READ 0 0 0) [] in
  let w := demo_world [r] [] 0 SPDK_NVMF_SUBSYSTEM_ACTIVE [] in
  let ct h := NvmfCtrlr h 1 true [true] None true true true true true in
  wp (nvmf_ns_reservation_request_check (demo_copy 2 1 1) (ct 2) 0) w (fun rc _ => rc <> 0) /\
  wp (nvmf_ns_reservation_request_check (demo_copy 2 1 1) (ct 1) 0) w (fun rc _ => rc = 0).
Proof.
  intros r w ct. pose proof (fun h Hn => @reservation_enforced demo_uuid demo_ops 9 [1] _ None _ (demo_copy 2 1 1) (ct h) 0%nat r w ReadAccess
    ltac:(vm_compute; lia) demo_synced demo_acquired eq_refl eq_refl ltac:(left) Hn eq_refl eq_refl) as W. split.
  - eapply wp_mono; [apply (W 2); done|]. intros rc _ [E _] ->. specialize (E eq_refl). by vm_compute in E.
  - eapply wp_mono; [apply (W 1); done|]. intros rc _ [_ E]. apply E. by vm_compute.
Defined.

(** C32. Every reservation command is answered.  In every state that commands of
    at most sixteen hosts and their updates lead to, whatever order the poll
    groups then run in: there are at most [pending] steps of the updates under
    way, the requests answered and those still waiting remain the same, each
    once, and as long as one waits an update can take a step - so that every
    run of the updates ends, with exactly the requests that waited answered. *)
Theorem reservation_updates_terminate `{Uuid} `{ReservationOps} bdev_uuid hosts pgs store y
    (Hh : (length hosts <= SPDK_NVMF_MAX_NUM_REGISTRANTS)%nat) (Hpgs : Forall (synced resv_init) pgs)
    (R : sys_reachable bdev_uuid hosts pgs store y) :
  forall n y', nsteps update_step n y y' ->
    (n <= pending y)%nat /\ y_answered y' ++ (fst <$> y_iters y') ≡ₚ y_answered y ++ (fst <$> y_iters y) /\
    (y_iters y' <> [] -> exists y'', update_step y' y'').
Proof.
  pose proof (reachable_sys_ok _ _ Hh _ _ _ Hpgs R) as O. intros n y' Hn. induction Hn as [y|n y y1 y' S Hn IH].
  - split; [lia|]. split; [done|]. by eapply update_progress.
  - assert (pending y1 < pending y)%nat by (by eapply update_decreases). assert (R1 : sys_reachable bdev_uuid hosts pgs store y1) by (by eapply sys_update).
    assert (O1 : sys_ok hosts y1) by (by eapply update_ok). destruct (IH R1 O1) as (? & HP & ?). split; [lia|]. split; [|done].
    by rewrite HP, (update_keeps _ _ S).
Qed.

Lemma reservation_updates_terminate_witness :
  let y := @RSys demo_ops demo_ns1 (Some demo_info) [demo_copy 0 0 0] [(demo_register, 0%nat)] [] false in
  (exists y'', @update_step demo_ops y y'') /\
  (forall n y', nsteps (@update_step demo_ops) n y y' -> (n <= 2)%nat /\ y_answered y' ++ (fst <$> y_iters y') ≡ₚ [demo_register]).
Proof.
  intros y.
  pose proof (@reservation_updates_terminate demo_uuid demo_ops 9 [1] _ None y ltac:(vm_compute; lia) demo_synced demo_registering) as H. split.
  - destruct (H 0%nat y) as (_ & _ & H3); [constructor|]. by apply H3.
  - intros n y' Hn. destruct (H n y' Hn) as (H1 & H2 & _). split; [exact H1|exact H2].
Defined.

(** The restart of a state whose reservation, if any, has a type. *)
Lemma typed_restart `{Uuid} ns bdev_uuid junk0 junk1 (W : resv_wf ns)
    (Hl : (length (rs_registrants ns) <= SPDK_NVMF_MAX_NUM_REGISTRANTS)%nat) (Hne : rs_registrants ns <> [])
    (Hp : rs_ptpl_activated ns = true) (Ht : rs_holder ns <> None -> rs_rtype ns <> 0)
    (Hu : forall u, u = bdev_uuid \/ u ∈ rg_hostid <$> rs_registrants ns -> uuid_parse (uuid_unparse_lower u) = Some u) :
  exists info, reservation_info ns bdev_uuid = Some info /\
    if bool_decide (rs_holder ns = None \/ rs_crkey ns ∈ rg_rkey <$> rs_registrants ns)
    then exists ns', nvmf_ns_reservation_restore [] junk0 junk1 resv_init info bdev_uuid = Some (0, ns') /\ resv_wf ns' /\ abs ns' = abs ns
    else nvmf_ns_reservation_restore [] junk0 junk1 resv_init info bdev_uuid = Some (- EINVAL, resv_init).
Proof.
  eexists. split; [by apply reservation_info_ok|]. rewrite Hp, restore_ok by done.
  destruct (rs_holder ns) as [p|] eqn:Eh.
  - destruct (wf_holder _ W _ Eh) as (g & Hg & <-). pose proof (wf_held _ W ltac:(by rewrite Eh)) as Hc.
    destruct (decide (rs_crkey ns ∈ rg_rkey <$> rs_registrants ns)) as [Hin|Hno].
    2: { rewrite !bool_decide_false; [done|by intros [?|?]%elem_of_cons|by intros [?|?]]. }
    rewrite !bool_decide_true by (by right). destruct (renumber_find 0 _ _ Hg) as (x & Hx & Eh' & _).
    eexists. split; [reflexivity|]. rewrite host_of_elem by done. cbn [fmap option_fmap option_map default].
    destruct (all_registrants (rs_rtype ns)) eqn:Ea.
    + split; [apply restored_wf; [done| |done|done]|apply restored_abs; [done|done|rewrite Eh; by left]]. intros p [= <-].
      destruct (rs_registrants ns) as [|z l]; [done|]. cbn. eexists. split; [left|done].
    + unfold parse_into. change (id _) with (uuid_unparse_lower (rg_hostid g)). rewrite (Hu (rg_hostid g)) by (right; by apply list_elem_of_fmap_2). cbn [default].
      rewrite <- Eh'. change (id (rg_hostid x)) with (rg_hostid x). rewrite restored_holder_some; [|done|rewrite renumbered_hosts; apply W|done].
      split; [apply restored_wf; [done| |done|done]; intros p [= <-]; eauto|]. apply restored_abs; [done..|]. rewrite Eh. right. exists g, x. done.
  - destruct (wf_none _ W Eh) as [E1 E2]. rewrite E1, E2. rewrite !bool_decide_true by (left; done).
    eexists. split; [reflexivity|]. change (all_registrants 0) with false. cbv iota.
    assert (En : forall l hu, restored_holder 0 hu l None = None) by (by intros l hu; induction l). rewrite En.
    split; [by apply restored_wf|apply restored_abs; [done|done|by rewrite Eh]].
Qed.



(** C34. The report tells the state.  When the vector has room for it, a host
    that parses the bytes a report leaves in the vector reads back the
    generation, the type, the persistence flag and every registrant in order,
    with its key, its identifier and whether it is the holder - across any
    fragmentation of the vector. *)
Theorem reservation_report_roundtrip ns req (W : resv_wf ns)
    (Hl : (length (rs_registrants ns) <= SPDK_NVMF_MAX_NUM_REGISTRANTS)%nat)
    (Hh : forall g, g ∈ rs_registrants ns -> 0 <= rg_hostid g < 2 ^ 128)
    (Hc : 0 < req_iovcnt req <= Z.of_nat (length (req_iov req))) (He : resv_report_eds (req_cmd req) <> 0)
    (Hn : 15 <= cdw10 (req_cmd req) < 2 ^ 30 - 1) (Hr : (64 * S (length (rs_registrants ns)) <= length (flat (req_iovs req)))%nat) :
  exists iovs, nvmf_ns_reservation_report ns req = Some (iovs, SPDK_NVME_SC_SUCCESS) /\
    parse_report (flat iovs) =
    (rs_gen ns, rs_rtype ns, if rs_ptpl_activated ns then 1 else 0,
     (fun g => (if bool_decide (rs_holder ns = Some (rg_ptr g)) then 1 else 0, rg_rkey g, rg_hostid g)) <$> rs_registrants ns).
Proof.
  unfold nvmf_ns_reservation_report. rewrite (proj2 (Z.eqb_neq (req_iovcnt req) 0)), (proj2 (Z.eqb_neq _ _) He) by lia.
  rewrite (u32_small (cdw10 _ + 1)), u32_small by lia. rewrite (proj2 (Z.ltb_ge _ _)) by lia.
  assert (E16 : u16 (u32 (Z.of_nat (length (rs_registrants ns)))) = Z.of_nat (length (rs_registrants ns))).
  { unfold SPDK_NVMF_MAX_NUM_REGISTRANTS in Hl. rewrite u32_small, u16_small by lia. done. }
  assert (E8 : u8 (rs_rtype ns) = rs_rtype ns) by (pose proof (wf_type _ W); apply Z.mod_small; lia). rewrite E16, E8.
  set (hdr := status_extended_data _ _ _ _). set (ix0 := spdk_iov_xfer_init _ _).
  assert (O0 : ix_ok ix0) by (apply ix_ok_init; lia). assert (P0 : ix_pos ix0 = 0%nat) by apply ix_pos_init.
  assert (T0 : ix_total ix0 = length (flat (req_iovs req))) by done.
  destruct (from_buf_ok ix0 hdr O0) as (ix1 & b1 & c1 & E1 & O1 & P1 & T1 & F1); [rewrite P0, T0; change (length hdr) with 64%nat; lia|].
  change (length hdr) with 64%nat in *. rewrite E1. cbn [mbind option_bind].
  destruct (report_registrants_ok ns (rs_registrants ns) ix1 O1) as (ix2 & E2 & F2); [rewrite P1, P0, T1, T0; lia|].
  rewrite E2. cbn [mbind option_bind]. eexists. split; [reflexivity|].
  assert (Hfl : (length (flat (req_iovs req)) <= length (flat (req_iov req)))%nat) by apply length_flat_take.
  rewrite F2, F1, P1, P0, Nat.add_0_l. change 64%nat with (0 + length hdr)%nat. rewrite splice_splice.
  - unfold splice. rewrite take_0. cbn [app]. by apply parse_report_bytes.
  - rewrite length_entries. change (length hdr) with 64%nat. change (ix_iovs ix0) with (req_iov req). lia.
Qed.

Lemma reservation_report_roundtrip_witness :
  let r := demo_req (demo_cmd SPDK_NVME_OPC_RESERVATION_REPORT 47 1 0) [Iov (Some (replicate 100 255)); Iov (Some (replicate 100 255))] in
  exists iovs, nvmf_ns_reservation_report demo_ns r = Some (iovs, 0) /\ parse_report (flat iovs) = (2, 1, 0, [(1, 5, 1); (0, 7, 2)]).
Proof.
  intros r. destruct (reservation_report_roundtrip demo_ns r) as (iovs & E & P).
  - apply (reachable_ok [1; 2]); [vm_compute; lia|apply demo_reachable].
  - vm_compute. lia.
  - intros g Hg. cbn in Hg. rewrite !elem_of_cons in Hg. destruct Hg as [->|[->|Hg]]; [cbn; lia..|by apply not_elem_of_nil in Hg].
  - vm_compute. done.
  - by vm_compute.
  - by vm_compute.
  - vm_compute. lia.
  - exists iovs. split; [exact E|]. rewrite P. by vm_compute.
Defined.
