(* ===== verification/PollGroup.v ===== *)
(** * A subsystem in a poll group: nvmf.c

    Each poll group keeps its own view of a subsystem: a state, and for every
    namespace a channel, a copy of its identity and reservation, a state and
    the number of outstanding commands.  Here are the operations that change
    the view - add, remove, pause, resume, update - and what the commands of
    the group do to it ([Request]), as steps of the group. *)
From S2P Require Import Prelude NvmeSpec Iov World Request Ctrlr Reservation ReservationSync.

(** ** State *)

Definition SPDK_NVME_GLOBAL_NS_TAG : Z := 0xFFFFFFFF.

(** What the groups read of a namespace of the subsystem: the identifier and
    the size of its block device, and its reservation. *)
Record ns_conf := NsConf { nc_uuid : Z; nc_num_blocks : Z; nc_resv : ns_resv }.

(** The identity part of [struct spdk_nvmf_subsystem_pg_ns_info]; the other
    fields are in [World]. *)
Record ns_view := NsView { nv_uuid : Z; nv_num_blocks : Z; nv_crkey : Z }.

(** The view of one group.  [pg_views] runs parallel to [sg_ns_info];
    [pg_qpairs] are the queue pairs of the subsystem on this group;
    [pg_removing] the pending [nvmf_poll_group_remove_subsystem_msg], [true] for
    one that ends with the callback of the state change. *)
Record poll_group := PollGroup {
  pg_sg : spdk_nvmf_subsystem_poll_group; pg_views : list ns_view; pg_qpairs : list nat; pg_removing : list bool }.
#[global] Instance eta_pg : Eta poll_group := fun p => PollGroup (pg_sg p) (pg_views p) (pg_qpairs p) (pg_removing p).

(** Entries after [calloc] or [memset]. *)
Definition ni_zero : spdk_nvmf_subsystem_pg_ns_info :=
  PgNsInfo false 0 0 (replicate SPDK_NVMF_MAX_NUM_REGISTRANTS 0) 0 SPDK_NVMF_SUBSYSTEM_INACTIVE.
Definition nv_zero : ns_view := NsView 0 0 0.

Definition set_ns_state (st : spdk_nvmf_subsystem_state) (n : spdk_nvmf_subsystem_pg_ns_info) : spdk_nvmf_subsystem_pg_ns_info :=
  n <| ni_state := st |>.

(** ** Update *)

(** The first part of the loop of [poll_group_update_subsystem] for one
    namespace: the channel.  [ch] says whether one can be had; the result is
    the entry, whether the namespace changed, and [false] when the loop ends
    with [-ENOMEM]. *)
Definition update_channel (ch : bool) (ns : option ns_conf) (n : spdk_nvmf_subsystem_pg_ns_info) (v : ns_view)
  : spdk_nvmf_subsystem_pg_ns_info * bool * bool :=
  match ns with
  | None => (n <| ni_channel := false |>, ni_channel n, true)
  | Some c =>
      if negb (ni_channel n) then (if ch then n <| ni_channel := true |> else n, true, ch)
      else if nv_uuid v !=? nc_uuid c then (ni_zero <| ni_channel := ch |>, true, ch)
      else (n, nv_num_blocks v !=? nc_num_blocks c, true)
  end.

(** One turn of the loop: the entry, the error number, whether it changed.
    [None] when the holder of the reservation is a dangling pointer. *)
Definition update_ns (ch : bool) (ns : option ns_conf) (n : spdk_nvmf_subsystem_pg_ns_info) (v : ns_view)
  : option (spdk_nvmf_subsystem_pg_ns_info * ns_view * Z * bool) :=
  let '(n', changed, ok) := update_channel ch ns n v in
  if negb ok then Some (n', if ni_channel n then nv_zero else v, - ENOMEM, changed)
  else match ns with
       | None => Some (ni_zero, nv_zero, 0, changed)
       | Some c =>
           '(n', rc) ← update_ns_info (nc_resv c) n';
           Some (n', NsView (nc_uuid c) (nc_num_blocks c) (rs_crkey (nc_resv c)), rc, changed)
       end.

(** The loop: it ends at the first error and leaves the entries after it. *)
Fixpoint update_loop (chans : list bool) (nss : list (option ns_conf)) (ns : list spdk_nvmf_subsystem_pg_ns_info) (vs : list ns_view)
  {struct ns} : option (list spdk_nvmf_subsystem_pg_ns_info * list ns_view * Z * bool) :=
  match ns, vs with
  | n :: ns, v :: vs =>
      match nss with
      | [] => None
      | c :: nss =>
          '(n', v', rc, changed) ← update_ns (default true (head chans)) c n v;
          if rc !=? 0 then Some (n' :: ns, v' :: vs, rc, changed)
          else
            '(ns, vs, rc, changed') ← update_loop (tail chans) nss ns vs;
            Some (n' :: ns, v' :: vs, rc, changed || changed')
      end
  | _, _ => Some (ns, vs, 0, false)
  end.

(** [mem] is the answer of [calloc]; [chans] the answers of
    [spdk_bdev_get_io_channel], success when the list is too short.  The flag
    of the result says that the controllers of the group get notices. *)
Definition poll_group_update_subsystem (mem : bool) (chans : list bool) (nss : list (option ns_conf)) (p : poll_group)
  : option (poll_group * Z * bool) :=
  let sg := pg_sg p in
  let first := (length (sg_ns_info sg) =? 0)%nat && negb (length nss =? 0)%nat in
  if first && negb mem then Some (p, - ENOMEM, false)
  else
    let ns := if first then replicate (length nss) ni_zero else sg_ns_info sg in
    let vs := if first then replicate (length nss) nv_zero else pg_views p in
    '(ns, vs, rc, changed) ← update_loop chans nss ns vs;
    Some (p <| pg_sg := sg <| sg_ns_info := ns |> |> <| pg_views := vs |>, rc, if rc =? 0 then changed else false).

(** ** Remove and add *)

Definition _nvmf_poll_group_remove_subsystem_cb (p : poll_group) : poll_group :=
  p <| pg_sg := (pg_sg p) <| sg_ns_info := [] |> |> <| pg_views := [] |>.

(** The message: with no queue pair left the entries are released, and the
    result says that the callback runs; otherwise the queue pairs are
    disconnected and the message is sent again. *)
Definition nvmf_poll_group_remove_subsystem_msg (cb : bool) (p : poll_group) : poll_group * bool :=
  match pg_qpairs p with
  | [] => (_nvmf_poll_group_remove_subsystem_cb p, true)
  | _ => (p <| pg_removing := pg_removing p ++ [cb] |>, false)
  end.

(** The result of an operation with a callback: the status it is called with,
    [None] while it waits. *)
Definition nvmf_poll_group_remove_subsystem (mem cb : bool) (p : poll_group) : poll_group * option Z :=
  if negb mem then (p, Some (-1))
  else
    let sg := pg_sg p in
    let p := p <| pg_sg := sg <| sg_state := SPDK_NVMF_SUBSYSTEM_INACTIVE |>
                              <| sg_ns_info := set_ns_state SPDK_NVMF_SUBSYSTEM_INACTIVE <$> sg_ns_info sg |> |> in
    let '(p, finished) := nvmf_poll_group_remove_subsystem_msg cb p in
    (p, if finished then Some 0 else None).

(** All namespaces and the group become active. *)
Definition activate (p : poll_group) : poll_group :=
  p <| pg_sg := (pg_sg p) <| sg_ns_info := set_ns_state SPDK_NVMF_SUBSYSTEM_ACTIVE <$> sg_ns_info (pg_sg p) |>
                          <| sg_state := SPDK_NVMF_SUBSYSTEM_ACTIVE |> |>.

(** Requests that wait are freed unanswered (with assertions compiled in the
    program ends there).  [mem'] is for the context of the removal. *)
Definition nvmf_poll_group_add_subsystem (mem mem' : bool) (chans : list bool) (nss : list (option ns_conf)) (p : poll_group)
  : option (poll_group * option Z) :=
  let p := p <| pg_sg := (pg_sg p) <| sg_queued := [] |> |> in
  '(p, rc, _) ← poll_group_update_subsystem mem chans nss p;
  if rc !=? 0 then Some ((nvmf_poll_group_remove_subsystem mem' false p).1, Some rc)
  else Some (activate p, Some 0).

(** ** Pause and resume *)

(** The namespaces a pause names. *)
Definition selects (nsid : Z) (i : nat) : bool := (nsid =? SPDK_NVME_GLOBAL_NS_TAG) || (u32 (nsid - 1) =? Z.of_nat i).

Definition mark_pausing (nsid : Z) (ns : list spdk_nvmf_subsystem_pg_ns_info) : list spdk_nvmf_subsystem_pg_ns_info :=
  if nsid =? SPDK_NVME_GLOBAL_NS_TAG then set_ns_state SPDK_NVMF_SUBSYSTEM_PAUSING <$> ns
  else if u32 (nsid - 1) <? Z.of_nat (length ns)
  then alter (set_ns_state SPDK_NVMF_SUBSYSTEM_PAUSING) (Z.to_nat (u32 (nsid - 1))) ns
  else ns.

Definition ns_busy (nsid : Z) (ns : list spdk_nvmf_subsystem_pg_ns_info) : bool :=
  if nsid =? SPDK_NVME_GLOBAL_NS_TAG then existsb (fun n => 0 <? ni_io_outstanding n) ns
  else match ns !! Z.to_nat (u32 (nsid - 1)) with
       | Some n => 0 <? ni_io_outstanding n
       | None => false
       end.

(** [None] when the assertion that no callback is kept fails. *)
Definition nvmf_poll_group_pause_subsystem (nsid : Z) (p : poll_group) : option (poll_group * option Z) :=
  let sg := pg_sg p in
  if bool_decide (sg_state sg = SPDK_NVMF_SUBSYSTEM_PAUSED) then Some (p, Some 0)
  else
    let sg := sg <| sg_state := SPDK_NVMF_SUBSYSTEM_PAUSING |> <| sg_ns_info := mark_pausing nsid (sg_ns_info sg) |> in
    if (0 <? sg_mgmt_io_outstanding sg) || ns_busy nsid (sg_ns_info sg) then
      if sg_cb_fn sg then None else Some (p <| pg_sg := sg <| sg_cb_fn := true |> |>, None)
    else Some (p <| pg_sg := sg <| sg_state := SPDK_NVMF_SUBSYSTEM_PAUSED |> |>, Some 0).

(** The last component is the requests released, in the order in which they
    are executed again. *)
Definition nvmf_poll_group_resume_subsystem (mem : bool) (chans : list bool) (nss : list (option ns_conf)) (p : poll_group)
  : option (poll_group * option Z * list nat) :=
  if bool_decide (sg_state (pg_sg p) = SPDK_NVMF_SUBSYSTEM_ACTIVE) then Some (p, Some 0, [])
  else
    '(p, rc, _) ← poll_group_update_subsystem mem chans nss p;
    if rc !=? 0 then Some (p, Some rc, [])
    else
      let p := activate p in
      Some (p <| pg_sg := (pg_sg p) <| sg_queued := [] |> |>, Some 0, sg_queued (pg_sg p)).

(** ** The commands of the group *)

(** What happens to a request of the group: it starts, waits, ends, or is
    refused, as a management command or a command of a namespace; requests that
    wait are taken off the list when their queue pair goes. *)
Inductive io_label :=
| IoMgmtStarts | IoStarts (i : nat) | IoWaits (rid : nat) | IoCleaned (l : list nat) | IoMgmtEnds | IoEnds (i : nat) | IoRefused (i : nat).

(** What that does to the view; the flag says that the kept callback of a pause
    runs.  A refused request is counted and uncounted at once. *)
Inductive io_step (g : spdk_nvmf_subsystem_poll_group) : io_label -> spdk_nvmf_subsystem_poll_group -> bool -> Prop :=
| io_mgmt_starts : sg_state g = SPDK_NVMF_SUBSYSTEM_ACTIVE ->
    io_step g IoMgmtStarts (g <| sg_mgmt_io_outstanding := u64 (sg_mgmt_io_outstanding g + 1) |>) false
| io_starts i n : sg_ns_info g !! i = Some n -> ni_channel n = true -> ni_state n = SPDK_NVMF_SUBSYSTEM_ACTIVE ->
    io_step g (IoStarts i) (g <| sg_ns_info := alter ni_inc i (sg_ns_info g) |>) false
| io_waits rid : io_step g (IoWaits rid) (g <| sg_queued := sg_queued g ++ [rid] |>) false
| io_cleaned l : l ⊆ sg_queued g -> io_step g (IoCleaned l) (g <| sg_queued := l |>) false
| io_mgmt_ends : 0 < sg_mgmt_io_outstanding g ->
    let g' := g <| sg_mgmt_io_outstanding := u64 (sg_mgmt_io_outstanding g - 1) |> in io_step g IoMgmtEnds (paused g') (pause_done g')
| io_ends i n : sg_ns_info g !! i = Some n -> 0 < ni_io_outstanding n ->
    let g' := g <| sg_ns_info := alter ni_dec i (sg_ns_info g) |> in io_step g (IoEnds i) (paused g') (pause_done g')
| io_absent_ends i : sg_ns_info g !! i = None -> io_step g (IoEnds i) (paused g) (pause_done g)
| io_refused i : (forall n, sg_ns_info g !! i = Some n -> ni_channel n = false) -> io_step g (IoRefused i) (paused g) (pause_done g).

(** What happened determines the step. *)
Lemma io_step_det g l g1 g2 b1 b2 : io_step g l g1 b1 -> io_step g l g2 b2 -> g1 = g2 /\ b1 = b2.
Proof. intros H1 H2. destruct H1; inversion H2; subst; by simplify_eq. Qed.

(** ** Invariants of a group *)

Ltac gsimp := cbn [set fst snd pg_sg pg_views pg_qpairs pg_removing sg_ns_info sg_state sg_mgmt_io_outstanding sg_cb_fn sg_queued
  ni_channel ni_rtype ni_holder_id ni_reg_hostid ni_io_outstanding ni_state nv_uuid nv_num_blocks nv_crkey].

Definition active (n : spdk_nvmf_subsystem_pg_ns_info) : Prop := ni_state n = SPDK_NVMF_SUBSYSTEM_ACTIVE.

(** Counters are in range, a paused group has no management command, and a
    callback is kept exactly while the group waits for something. *)
Record group_inv (g : spdk_nvmf_subsystem_poll_group) : Prop := {
  gi_counts : Forall (fun n => 0 <= ni_io_outstanding n < 2 ^ 64) (sg_ns_info g);
  gi_mgmt : 0 <= sg_mgmt_io_outstanding g < 2 ^ 64;
  gi_paused : sg_state g = SPDK_NVMF_SUBSYSTEM_PAUSED -> sg_mgmt_io_outstanding g = 0;
  gi_cb : sg_cb_fn g = true <-> sg_state g = SPDK_NVMF_SUBSYSTEM_PAUSING;
  gi_waits : sg_state g = SPDK_NVMF_SUBSYSTEM_PAUSING -> pause_done g = false }.

(** The namespaces a pause names have stopped, or are marked. *)
Definition quiet (nsid : Z) (g : spdk_nvmf_subsystem_poll_group) : Prop :=
  forall i n, sg_ns_info g !! i = Some n -> selects nsid i = true -> ~ active n /\ ni_io_outstanding n = 0.
Definition marked (nsid : Z) (g : spdk_nvmf_subsystem_poll_group) : Prop :=
  forall i n, sg_ns_info g !! i = Some n -> selects nsid i = true ->
    ni_state n = SPDK_NVMF_SUBSYSTEM_PAUSING \/ (~ active n /\ ni_io_outstanding n = 0).

(** No command can be outstanding or start on an idle entry. *)
Definition idle (n : spdk_nvmf_subsystem_pg_ns_info) : Prop := (~ active n \/ ni_channel n = false) /\ ni_io_outstanding n = 0.

(** The channel of an entry is to the namespace of the subsystem. *)
Definition agrees (c : option ns_conf) (n : spdk_nvmf_subsystem_pg_ns_info) (v : ns_view) : Prop :=
  match c with Some c => ni_channel n = true /\ nv_uuid v = nc_uuid c | None => False end.

Record pg_inv (nss : list (option ns_conf)) (p : poll_group) : Prop := {
  pi_group : group_inv (pg_sg p); pi_views : length (pg_views p) = length (sg_ns_info (pg_sg p));
  pi_len : sg_ns_info (pg_sg p) = [] \/ length (sg_ns_info (pg_sg p)) = length nss;
  pi_agree : forall i c n v, nss !! i = Some c -> sg_ns_info (pg_sg p) !! i = Some n -> pg_views p !! i = Some v ->
    agrees c n v \/ idle n }.

(** *** Commands *)

Lemma lookup_alter_Some {A} (f : A -> A) i j (l : list A) x : alter f i l !! j = Some x ->
  exists y, l !! j = Some y /\ x = (if decide (i = j) then f y else y).
Proof.
  intros Hx. destruct (decide (i = j)) as [->|Hne].
  - rewrite list_lookup_alter_eq in Hx. destruct (l !! j) as [y|]; [|done]. injection Hx as <-. by exists y.
  - rewrite list_lookup_alter_ne in Hx by done. by exists x.
Qed.

Lemma paused_ns g : sg_ns_info (paused g) = sg_ns_info g.
Proof. unfold paused. by case_match. Qed.
Lemma paused_mgmt g : sg_mgmt_io_outstanding (paused g) = sg_mgmt_io_outstanding g.
Proof. unfold paused. by case_match. Qed.

(** The end of a command: the group waits on, or is paused. *)
Lemma paused_inv g :
  Forall (fun n => 0 <= ni_io_outstanding n < 2 ^ 64) (sg_ns_info g) -> 0 <= sg_mgmt_io_outstanding g < 2 ^ 64 ->
  (sg_state g = SPDK_NVMF_SUBSYSTEM_PAUSED -> sg_mgmt_io_outstanding g = 0) ->
  (sg_cb_fn g = true <-> sg_state g = SPDK_NVMF_SUBSYSTEM_PAUSING) -> group_inv (paused g).
Proof.
  intros Hc Hm Hp Hb. split; rewrite ?paused_ns, ?paused_mgmt; try done; unfold paused; destruct (pause_done g) eqn:E; try done.
  intros _. unfold pause_done in E. lia.
Qed.

Lemma group_inv_ext g g' : sg_ns_info g' = sg_ns_info g -> sg_state g' = sg_state g ->
  sg_mgmt_io_outstanding g' = sg_mgmt_io_outstanding g -> sg_cb_fn g' = sg_cb_fn g -> group_inv g -> group_inv g'.
Proof.
  intros E1 E2 E3 E4 [H1 H2 H3 H4 H5]. split; rewrite ?E1, ?E2, ?E3, ?E4; try done.
  intros Hs. specialize (H5 Hs). revert H5. unfold pause_done. by rewrite E1, E2, E3.
Qed.

Lemma ni_inc_range n : 0 <= ni_io_outstanding (ni_inc n) < 2 ^ 64.
Proof. apply u64_range. Qed.
Lemma ni_dec_range n : 0 <= ni_io_outstanding (ni_dec n) < 2 ^ 64.
Proof. apply u64_range. Qed.

Lemma counts_alter (f : spdk_nvmf_subsystem_pg_ns_info -> spdk_nvmf_subsystem_pg_ns_info) i l : (forall n, 0 <= ni_io_outstanding (f n) < 2 ^ 64) ->
  Forall (fun n => 0 <= ni_io_outstanding n < 2 ^ 64) l -> Forall (fun n => 0 <= ni_io_outstanding n < 2 ^ 64) (alter f i l).
Proof.
  intros Hf Hl. apply Forall_lookup. intros j x (y & Hy & ->)%lookup_alter_Some. case_decide; [done|]. by eapply Forall_lookup_1 in Hl.
Qed.

(** A namespace that holds back the pause still does when an active one
    starts a command. *)
Lemma blocks_inc i l n : l !! i = Some n -> active n -> existsb ns_blocks_pause (alter ni_inc i l) = existsb ns_blocks_pause l.
Proof.
  revert i. induction l as [|x l IH]; intros [|i] Hi Ha; try done; cbn.
  - injection Hi as ->. f_equal. unfold ns_blocks_pause. change (ni_state (ni_inc n)) with (ni_state n). rewrite Ha. done.
  - f_equal. by apply IH.
Qed.

Lemma io_step_inv g l g' b : io_step g l g' b -> group_inv g -> group_inv g'.
Proof.
  intros H [H1 H2 H3 H4 H5]. destruct H as [Ha|i n Hn Hc Ha|rid|q Hl|Hp g'|i n Hn Hp g'|i Hn|i Hn].
  - split; wsimp; try done; [apply u64_range|by rewrite Ha..].
  - split; wsimp; try done; [by apply counts_alter; [apply ni_inc_range|]|].
    intros Hs. specialize (H5 Hs). revert H5. unfold pause_done. wsimp. by rewrite (blocks_inc i _ n).
  - by apply (group_inv_ext g).
  - by apply (group_inv_ext g).
  - apply paused_inv; subst g'; wsimp; try done; [apply u64_range|]. intros Hs. rewrite (H3 Hs) in Hp. lia.
  - apply paused_inv; subst g'; wsimp; try done. by apply counts_alter; [apply ni_dec_range|].
  - by apply paused_inv.
  - by apply paused_inv.
Qed.

Lemma io_step_state g l g' b : io_step g l g' b ->
  sg_state g' = (if b then SPDK_NVMF_SUBSYSTEM_PAUSED else sg_state g) /\ (b = true -> sg_state g = SPDK_NVMF_SUBSYSTEM_PAUSING).
Proof.
  assert (Hp : forall g0, sg_state g0 = sg_state g -> sg_state (paused g0) = (if pause_done g0 then SPDK_NVMF_SUBSYSTEM_PAUSED else sg_state g) /\
    (pause_done g0 = true -> sg_state g = SPDK_NVMF_SUBSYSTEM_PAUSING)).
  { intros g0 E. split; [unfold paused; by destruct (pause_done g0)|]. unfold pause_done. rewrite E. case_bool_decide; done. }
  intros [Ha|i n Hn Hc Ha|rid|q Hl|Hp' g1|i n Hn Hp' g1|i Hn|i Hn]; try done; by apply Hp.
Qed.

(** The entries of a group before and after a step. *)
Lemma io_step_ns g l g' b i n' : io_step g l g' b -> sg_ns_info g' !! i = Some n' ->
  exists n, sg_ns_info g !! i = Some n /\ ni_state n' = ni_state n /\ ni_channel n' = ni_channel n /\
    (n' = n \/ (active n /\ ni_channel n = true) \/ 0 < ni_io_outstanding n).
Proof.
  intros H Hn. destruct H as [Ha|j m Hm Hc Ha|rid|q Hl|Hp g'|j m Hm Hp g'|j Hj|j Hj]; rewrite ?paused_ns in Hn; try (exists n'; by auto).
  - apply lookup_alter_Some in Hn as (y & Hy & ->). exists y. split; [done|]. case_decide; subst; [|by auto].
    rewrite Hm in Hy. injection Hy as <-. split; [done|]. split; [done|]. right. by left.
  - subst g'. apply lookup_alter_Some in Hn as (y & Hy & ->). exists y. split; [done|]. case_decide; subst; [|by auto].
    rewrite Hm in Hy. injection Hy as <-. split; [done|]. split; [done|]. right. by right.
Qed.

Lemma io_step_length g l g' b : io_step g l g' b -> length (sg_ns_info g') = length (sg_ns_info g).
Proof. intros []; rewrite ?paused_ns; try done; apply length_alter. Qed.

Lemma io_step_quiet nsid g l g' b : io_step g l g' b -> quiet nsid g -> quiet nsid g'.
Proof.
  intros H HQ i n' Hn' Hs. destruct (io_step_ns _ _ _ _ _ _ H Hn') as (n & Hn & Es & _ & Hc). destruct (HQ i n Hn Hs) as [Ha Ho].
  unfold active in *. rewrite Es. split; [done|]. destruct Hc as [->|[[? _]|?]]; [done|done|lia].
Qed.

Lemma io_step_marked nsid g l g' b : io_step g l g' b -> marked nsid g -> marked nsid g'.
Proof.
  intros H HM i n' Hn' Hs. destruct (io_step_ns _ _ _ _ _ _ H Hn') as (n & Hn & Es & _ & Hc). unfold active in *. rewrite Es.
  destruct (HM i n Hn Hs) as [?|[Ha Ho]]; [by left|right]. split; [done|]. destruct Hc as [->|[[? _]|?]]; [done|done|lia].
Qed.

(** A group that has paused has stopped the marked namespaces. *)
Lemma pause_done_quiet nsid g : Forall (fun n => 0 <= ni_io_outstanding n < 2 ^ 64) (sg_ns_info g) ->
  existsb ns_blocks_pause (sg_ns_info g) = false -> marked nsid g -> quiet nsid g.
Proof.
  intros HC HB HM i n Hn Hs. destruct (HM i n Hn Hs) as [E|]; [|done]. unfold active. rewrite E. split; [done|].
  eapply Forall_lookup_1 in HC; [|exact Hn]. cbv beta in HC.
  destruct (decide (0 < ni_io_outstanding n)) as [Hp|]; [|lia]. exfalso.
  assert (existsb ns_blocks_pause (sg_ns_info g) = true) as HT; [|congruence].
  apply existsb_exists. exists n. split; [by apply list_elem_of_In, list_elem_of_lookup_2 with i|].
  unfold ns_blocks_pause. rewrite E, bool_decide_true by done. cbn. lia.
Qed.

Lemma io_step_paused nsid g l g' : io_step g l g' true -> group_inv g -> marked nsid g -> quiet nsid g'.
Proof.
  intros H HI HM. pose proof (io_step_marked nsid _ _ _ _ H HM) as HM'. pose proof (io_step_inv _ _ _ _ H HI) as [HC _ _ _ _].
  apply pause_done_quiet; [done| |done].
  inversion H as [| | | |Hp g1 E0 E1 E2|i n Hn Hp g1 E0 E1 E2|i Hn E0 E1 E2|i Hn E0 E1 E2]; rewrite paused_ns; unfold pause_done in *;
    destruct (existsb _ _); by rewrite ?andb_false_r in *.
Qed.

Lemma io_step_pg nss p l g b : io_step (pg_sg p) l g b -> pg_inv nss p -> pg_inv nss (p <| pg_sg := g |>).
Proof.
  intros H [HI HV HL HA]. pose proof (io_step_length _ _ _ _ H) as El. split; gsimp.
  - by eapply io_step_inv.
  - by rewrite El.
  - rewrite El. destruct HL as [E|E]; [left|by right]. rewrite E in El. by apply length_zero_iff_nil.
  - intros i c n' v Hc Hn' Hv. destruct (io_step_ns _ _ _ _ _ _ H Hn') as (n & Hn & Es & Eh & Hcase).
    destruct (HA i c n v Hc Hn Hv) as [Ha|[Hi Ho]].
    + left. destruct c; [|done]. cbn in *. by rewrite Eh.
    + right. unfold idle, active in *. rewrite Es, Eh. split; [done|]. destruct Hcase as [->|[[Ha Hh]|?]]; [done| |lia].
      destruct Hi as [?|E]; [done|congruence].
Qed.

(** *** Pause *)

Lemma mark_pausing_lookup nsid l i n : Z.of_nat (length l) < 2 ^ 32 -> mark_pausing nsid l !! i = Some n ->
  exists m, l !! i = Some m /\ n = (if selects nsid i then set_ns_state SPDK_NVMF_SUBSYSTEM_PAUSING m else m).
Proof.
  intros Hl. unfold mark_pausing, selects. destruct (nsid =? SPDK_NVME_GLOBAL_NS_TAG); cbn [orb].
  - rewrite list_lookup_fmap. destruct (l !! i) as [m|]; [|done]. intros [= <-]. by exists m.
  - pose proof (u32_range (nsid - 1)). destruct (Z.ltb_spec (u32 (nsid - 1)) (Z.of_nat (length l))).
    + intros (m & Hm & ->)%lookup_alter_Some. exists m. split; [done|].
      destruct (decide _) as [E|E], (Z.eqb_spec (u32 (nsid - 1)) (Z.of_nat i)); done || lia.
    + intros Hn. exists n. split; [done|]. apply lookup_lt_Some in Hn. by destruct (Z.eqb_spec (u32 (nsid - 1)) (Z.of_nat i)); [lia|].
Qed.

Lemma length_mark_pausing nsid l : length (mark_pausing nsid l) = length l.
Proof. unfold mark_pausing. repeat case_match; rewrite ?length_fmap, ?length_alter; done. Qed.

(** A namespace the pause names that is not busy has nothing outstanding. *)
Lemma not_busy nsid l i n : Forall (fun n => 0 <= ni_io_outstanding n < 2 ^ 64) l -> ns_busy nsid l = false -> l !! i = Some n ->
  selects nsid i = true -> ni_io_outstanding n = 0.
Proof.
  intros HC HB Hn. unfold selects, ns_busy in *. pose proof HC as HC'. eapply Forall_lookup_1 in HC'; [|exact Hn]. cbv beta in HC'.
  destruct (nsid =? SPDK_NVME_GLOBAL_NS_TAG); cbn [orb].
  - intros _. destruct (decide (0 < ni_io_outstanding n)); [|lia]. exfalso.
    assert (existsb (fun n => 0 <? ni_io_outstanding n) l = true) as HT; [|congruence].
    apply existsb_exists. exists n. split; [by apply list_elem_of_In, list_elem_of_lookup_2 with i|lia].
  - intros E%Z.eqb_eq. rewrite E, Nat2Z.id, Hn in HB. lia.
Qed.

Lemma counts_mark nsid l : Forall (fun n => 0 <= ni_io_outstanding n < 2 ^ 64) l ->
  Forall (fun n => 0 <= ni_io_outstanding n < 2 ^ 64) (mark_pausing nsid l).
Proof.
  intros HC. unfold mark_pausing. repeat case_match; [| |done].
  - by apply Forall_fmap.
  - apply Forall_lookup. intros j x (y & Hy & ->)%lookup_alter_Some. eapply Forall_lookup_1 in HC; [|exact Hy]. by case_decide.
Qed.

(** What holds a pause back is busy: a management command, or a marked
    namespace. *)
Lemma busy_blocks nsid l : Z.of_nat (length l) < 2 ^ 32 -> ns_busy nsid (mark_pausing nsid l) = true ->
  existsb ns_blocks_pause (mark_pausing nsid l) = true.
Proof.
  intros Hl HB. assert (exists i n, mark_pausing nsid l !! i = Some n /\ selects nsid i = true /\ 0 < ni_io_outstanding n) as (i & n & Hn & Hs & Hp).
  { revert HB. unfold ns_busy, selects. destruct (nsid =? SPDK_NVME_GLOBAL_NS_TAG) eqn:E.
    - intros (n & Hn & Hp)%existsb_exists. apply list_elem_of_In, list_elem_of_lookup_1 in Hn as [i Hi]. exists i, n. cbn [orb]. split; [done|]. lia.
    - destruct (_ !! _) as [n|] eqn:En; [|done]. intros Hp. exists (Z.to_nat (u32 (nsid - 1))), n. split; [done|]. cbn [orb].
      pose proof (u32_range (nsid - 1)). split; [|lia]. rewrite Z2Nat.id by lia. apply Z.eqb_refl. }
  apply existsb_exists. exists n. split; [by apply list_elem_of_In, list_elem_of_lookup_2 with i|].
  apply mark_pausing_lookup in Hn as (m & _ & ->); [|done]. rewrite Hs in *. unfold ns_blocks_pause. rewrite bool_decide_true by done. cbn [andb]. by apply Z.ltb_lt.
Qed.

(** A pause: the group is paused and the namespaces it names have stopped, or it
    waits with those marked. *)
Lemma pause_spec nss nsid p : pg_inv nss p -> Z.of_nat (length nss) < 2 ^ 32 -> sg_state (pg_sg p) <> SPDK_NVMF_SUBSYSTEM_PAUSING ->
  exists p' o, nvmf_poll_group_pause_subsystem nsid p = Some (p', o) /\ pg_inv nss p' /\ pg_removing p' = pg_removing p /\
    match o with
    | Some rc => rc = 0 /\ sg_state (pg_sg p') = SPDK_NVMF_SUBSYSTEM_PAUSED /\
                 (sg_state (pg_sg p) = SPDK_NVMF_SUBSYSTEM_ACTIVE -> quiet nsid (pg_sg p'))
    | None => sg_state (pg_sg p') = SPDK_NVMF_SUBSYSTEM_PAUSING /\ marked nsid (pg_sg p')
    end.
Proof.
  intros [[HC Hm Hp Hb Hw] HV HL HA] Hn Hs. unfold nvmf_poll_group_pause_subsystem.
  case_bool_decide as Hps; [exists p, (Some 0); split; [done|]; split; [by split|]; by split_and!; [..|congruence]|]. gsimp.
  assert (Hcb : sg_cb_fn (pg_sg p) = false) by (apply not_true_is_false; rewrite Hb; done). rewrite Hcb.
  set (ns := mark_pausing nsid (sg_ns_info (pg_sg p))).
  assert (Hl : Z.of_nat (length (sg_ns_info (pg_sg p))) < 2 ^ 32) by (destruct HL as [E|E]; rewrite E; cbn; lia).
  assert (HC' : Forall (fun n => 0 <= ni_io_outstanding n < 2 ^ 64) ns) by (by apply counts_mark).
  assert (HE : length ns = length (sg_ns_info (pg_sg p))) by apply length_mark_pausing.
  assert (HL' : ns = [] \/ length ns = length nss).
  { rewrite HE. destruct HL as [E|E]; [left|by right]. apply length_zero_iff_nil. by rewrite HE, E. }
  assert (HA' : forall i c n v, nss !! i = Some c -> ns !! i = Some n -> pg_views p !! i = Some v -> agrees c n v \/ idle n).
  { intros i c n v Hc (m & Hm' & ->)%mark_pausing_lookup Hv; [|done]. destruct (HA i c m v Hc Hm' Hv) as [Ha|[Hi Ho]].
    - left. destruct c; [|done]. by destruct (selects nsid i).
    - right. destruct (selects nsid i); [|done]. split; [by left|done]. }
  assert (HM : forall i n, ns !! i = Some n -> selects nsid i = true -> ni_state n = SPDK_NVMF_SUBSYSTEM_PAUSING).
  { intros i n (m & _ & ->)%mark_pausing_lookup Hsel; [|done]. by rewrite Hsel. }
  destruct ((0 <? sg_mgmt_io_outstanding (pg_sg p)) || ns_busy nsid ns) eqn:EB; eexists _, _; (split; [reflexivity|]).
  - split; [|by repeat split; [..|left; by eapply HM]]. split; gsimp; [|by rewrite HE|done|done]. split; gsimp; try done. intros _. unfold pause_done. gsimp.
    apply orb_true_iff in EB as [EB|EB]; [|pose proof (busy_blocks nsid _ Hl EB) as E; fold ns in E; by rewrite E, andb_false_r].
    rewrite bool_decide_true by done. cbn [andb]. destruct (Z.eqb_spec (sg_mgmt_io_outstanding (pg_sg p)) 0); [lia|done].
  - apply orb_false_iff in EB as [EB1 EB2]. split; [|split; [done|]; split; [done|]; split; [done|]].
    + split; gsimp; [|by rewrite HE|done|done]. split; gsimp; try done; [lia|]. by rewrite Hcb.
    + intros _ i n Hi Hsel. split; [|by eapply not_busy]. unfold active. by rewrite (HM i n Hi Hsel).
Qed.

(** *** Update *)

(** What an update leaves of an entry: its state and counter, or nothing when
    nothing was outstanding. *)
Definition kept (n n' : spdk_nvmf_subsystem_pg_ns_info) : Prop :=
  (ni_state n' = ni_state n /\ ni_io_outstanding n' = ni_io_outstanding n) \/
  (ni_state n' = SPDK_NVMF_SUBSYSTEM_INACTIVE /\ ni_io_outstanding n' = 0 /\ ni_io_outstanding n = 0).
(** An entry that is up to date. *)
Definition settled (c : option ns_conf) (n : spdk_nvmf_subsystem_pg_ns_info) (v : ns_view) : Prop :=
  agrees c n v \/ (c = None /\ n = ni_zero).

Lemma update_ns_info_same c n n' rc : update_ns_info c n = Some (n', rc) ->
  ni_state n' = ni_state n /\ ni_io_outstanding n' = ni_io_outstanding n /\ ni_channel n' = ni_channel n.
Proof.
  unfold update_ns_info. destruct (rs_holder c) as [q|]; cbn [mbind option_bind].
  - destruct (host_of c q); cbn; [|done]. by intros [= <- _].
  - by intros [= <- _].
Qed.

Lemma update_ns_spec ch c n v n' v' rc b : update_ns ch c n v = Some (n', v', rc, b) -> agrees c n v \/ idle n ->
  kept n n' /\ (agrees c n' v' \/ idle n') /\ (rc = 0 -> settled c n' v').
Proof.
  intros H HA. unfold update_ns, update_channel in H. destruct c as [c|].
  2:{ destruct HA as [[]|[Hi Ho]]. cbn in H. injection H as <- <- <- _.
      split; [by right|]. split; [|intros _; by right]. right. by split; [left|]. }
  destruct (ni_channel n) eqn:Ec; cbn [negb] in H.
  - destruct (Z.eqb_spec (nv_uuid v) (nc_uuid c)) as [Eu|Eu]; cbn [negb] in H.
    + destruct (update_ns_info _ _) as [[m k]|] eqn:E; [|done]. cbn in H. injection H as <- <- <- _.
      apply update_ns_info_same in E as (Es & Eo & Ech).
      split; [by left|]. split; [left; cbn; by rewrite Ech|]. intros _. left. cbn. by rewrite Ech.
    + destruct HA as [[_ E]|[_ Ho]]; [done|]. destruct ch; cbn [negb] in H.
      * destruct (update_ns_info _ _) as [[m k]|] eqn:E; [|done]. cbn in H. injection H as <- <- <- _.
        apply update_ns_info_same in E as (Es & Eo & Ech). split; [right; by rewrite Es, Eo|].
        split; [left; cbn; by rewrite Ech|]. intros _. left. cbn. by rewrite Ech.
      * injection H as <- <- <- _. split; [by right|]. split; [|done]. right. by split; [left|].
  - destruct HA as [[E _]|HI]; [congruence|]. destruct ch; cbn [negb] in H.
    + destruct (update_ns_info _ _) as [[m k]|] eqn:E; [|done]. cbn in H. injection H as <- <- <- _.
      apply update_ns_info_same in E as (Es & Eo & Ech). cbn in Es, Eo, Ech. split; [by left|].
      split; [left; cbn; by rewrite Ech|]. intros _. left. cbn. by rewrite Ech.
    + injection H as <- <- <- _. split; [by left|]. split; [by right|done].
Qed.

Lemma update_loop_spec chans nss ns vs ns' vs' rc b : update_loop chans nss ns vs = Some (ns', vs', rc, b) ->
  length vs = length ns ->
  (forall i c n v, nss !! i = Some c -> ns !! i = Some n -> vs !! i = Some v -> agrees c n v \/ idle n) ->
  length ns' = length ns /\ length vs' = length vs /\ Forall2 kept ns ns' /\
  (forall i c n v, nss !! i = Some c -> ns' !! i = Some n -> vs' !! i = Some v -> agrees c n v \/ idle n) /\
  (rc = 0 -> forall i c n v, nss !! i = Some c -> ns' !! i = Some n -> vs' !! i = Some v -> settled c n v).
Proof.
  assert (HK : forall l, Forall2 kept l l) by (intros l; induction l; constructor; [by left|done]).
  revert chans nss vs ns' vs' rc b. induction ns as [|n ns IH]; intros chans nss vs ns' vs' rc b H Hl HA.
  { destruct vs; [|done]. cbn in H. injection H as <- <- <- _. by repeat split. }
  destruct vs as [|v vs]; [done|]. cbn [update_loop] in H. destruct nss as [|c nss]; [done|].
  destruct (update_ns _ c n v) as [[[[n1 v1] rc1] b1]|] eqn:E; [|done]. cbn [mbind option_bind] in H.
  destruct (update_ns_spec _ _ _ _ _ _ _ _ E (HA 0%nat c n v eq_refl eq_refl eq_refl)) as (Hk & Ha & Hs).
  assert (HA' : forall i c n v, nss !! i = Some c -> ns !! i = Some n -> vs !! i = Some v -> agrees c n v \/ idle n)
    by (intros i; apply (HA (S i))).
  destruct (Z.eqb_spec rc1 0) as [->|Hne]; cbn [negb] in H.
  - destruct (update_loop _ nss ns vs) as [[[[ns2 vs2] rc2] b2]|] eqn:E2; [|done]. cbn in H. injection H as <- <- <- _.
    destruct (IH _ _ _ _ _ _ _ E2 ltac:(by injection Hl) HA') as (L1 & L2 & F & G1 & G2).
    split; [cbn; lia|]. split; [cbn; lia|]. split; [by constructor|]. split.
    + intros [|i] c' n' v'; cbn; [by intros [= <-] [= <-] [= <-]|by apply G1].
    + intros Hr [|i] c' n' v'; cbn; [intros [= <-] [= <-] [= <-]; by apply Hs|by apply G2].
  - injection H as <- <- <- _. split; [done|]. split; [done|]. split; [by constructor|]. split; [|done].
    intros [|i] c' n' v'; cbn; [by intros [= <-] [= <-] [= <-]|by apply HA'].
Qed.

Lemma kept_lookup ns ns' i n' : Forall2 kept ns ns' -> ns' !! i = Some n' -> exists n, ns !! i = Some n /\ kept n n'.
Proof. intros HF Hn. by destruct (Forall2_lookup_r _ _ _ _ _ HF Hn) as (n & ? & ?); exists n. Qed.

Lemma kept_blocks ns ns' : Forall2 kept ns ns' -> existsb ns_blocks_pause ns' = existsb ns_blocks_pause ns.
Proof.
  induction 1 as [|n n' ns ns' HK _ IH]; [done|]. cbn. rewrite IH. f_equal. unfold ns_blocks_pause.
  destruct HK as [[E1 E2]|(E1 & E2 & E3)]; [by rewrite E1, E2|]. rewrite E2, E3. by rewrite !andb_false_r.
Qed.

(** The entries of a group replaced by what an update leaves of them. *)
Lemma group_kept g ns' : group_inv g -> Forall2 kept (sg_ns_info g) ns' ->
  group_inv (g <| sg_ns_info := ns' |>) /\
  (forall nsid, quiet nsid g -> quiet nsid (g <| sg_ns_info := ns' |>)) /\ (forall nsid, marked nsid g -> marked nsid (g <| sg_ns_info := ns' |>)).
Proof.
  intros [H1 H2 H3 H4 H5] HF. split; [|split].
  - split; gsimp; try done.
    + apply Forall_lookup. intros i n' Hn'. destruct (kept_lookup _ _ _ _ HF Hn') as (n & Hn & HK).
      eapply Forall_lookup_1 in H1; [|exact Hn]. cbv beta in H1. destruct HK as [[_ E]|(_ & E & _)]; rewrite E; lia.
    + intros Hs. specialize (H5 Hs). revert H5. unfold pause_done. gsimp. by rewrite (kept_blocks _ _ HF).
  - intros nsid HQ i n' Hn' Hsel. cbn in Hn'. destruct (kept_lookup _ _ _ _ HF Hn') as (n & Hn & HK). destruct (HQ i n Hn Hsel) as [Ha Ho].
    unfold active in *. destruct HK as [[E1 E2]|(E1 & E2 & _)]; rewrite E1, E2; done.
  - intros nsid HQ i n' Hn' Hsel. cbn in Hn'. destruct (kept_lookup _ _ _ _ HF Hn') as (n & Hn & HK). unfold active in *.
    destruct HK as [[E1 E2]|(E1 & E2 & _)]; rewrite E1, E2; [by apply (HQ i n)|by right].
Qed.

(** The first allocation of the entries. *)
Lemma zero_entries nss p : pg_inv nss p -> sg_ns_info (pg_sg p) = [] ->
  pg_inv nss (p <| pg_sg := (pg_sg p) <| sg_ns_info := replicate (length nss) ni_zero |> |> <| pg_views := replicate (length nss) nv_zero |>) /\
  (forall nsid, quiet nsid ((pg_sg p) <| sg_ns_info := replicate (length nss) ni_zero |>)).
Proof.
  intros [[H1 H2 H3 H4 H5] HV HL HA] E.
  assert (HZ : existsb ns_blocks_pause (replicate (length nss) ni_zero) = false) by (generalize (length nss); intros k; by induction k).
  split; [split; gsimp|].
  - split; gsimp; try done; [by apply Forall_replicate|]. intros Hs. specialize (H5 Hs). revert H5. unfold pause_done. gsimp. by rewrite HZ, E.
  - by rewrite !length_replicate.
  - right. apply length_replicate.
  - intros i c n v _ [-> _]%lookup_replicate_1 _. right. by split; [left|].
  - intros nsid i n [-> _]%lookup_replicate_1 _. done.
Qed.

(** What else an operation leaves alone. *)
Definition same_rest (p p' : poll_group) : Prop :=
  sg_state (pg_sg p') = sg_state (pg_sg p) /\ sg_cb_fn (pg_sg p') = sg_cb_fn (pg_sg p) /\ sg_queued (pg_sg p') = sg_queued (pg_sg p) /\
  pg_qpairs p' = pg_qpairs p /\ pg_removing p' = pg_removing p.

Lemma update_spec nss p mem chans p' rc b : poll_group_update_subsystem mem chans nss p = Some (p', rc, b) -> pg_inv nss p ->
  pg_inv nss p' /\ same_rest p p' /\
  (forall nsid, quiet nsid (pg_sg p) -> quiet nsid (pg_sg p')) /\ (forall nsid, marked nsid (pg_sg p) -> marked nsid (pg_sg p')) /\
  (rc = 0 -> length (sg_ns_info (pg_sg p')) = length nss /\
     forall i c n v, nss !! i = Some c -> sg_ns_info (pg_sg p') !! i = Some n -> pg_views p' !! i = Some v -> settled c n v).
Proof.
  intros H HI. unfold poll_group_update_subsystem in H.
  set (first := (length (sg_ns_info (pg_sg p)) =? 0)%nat && negb (length nss =? 0)%nat) in H.
  destruct (first && negb mem) eqn:Em; [injection H as <- <- _; split; [done|]; split; [by repeat split|]; split; [done|]; split; [done|]; discriminate|].
  set (p0 := if first then p <| pg_sg := (pg_sg p) <| sg_ns_info := replicate (length nss) ni_zero |> |> <| pg_views := replicate (length nss) nv_zero |> else p).
  assert (HI0 : pg_inv nss p0 /\ same_rest p p0 /\ (forall nsid, quiet nsid (pg_sg p) -> quiet nsid (pg_sg p0)) /\
    (forall nsid, marked nsid (pg_sg p) -> marked nsid (pg_sg p0)) /\ length (sg_ns_info (pg_sg p0)) = length nss).
  { subst p0. destruct first eqn:Ef; subst first.
    - assert (E : sg_ns_info (pg_sg p) = []) by (apply andb_true_iff in Ef as [Ef _]; by apply length_zero_iff_nil, Nat.eqb_eq). destruct (zero_entries nss p HI E) as [HI0 HQ].
      split; [done|]. split; [by repeat split|]. split; [intros nsid _; apply HQ|]. split; [|gsimp; apply length_replicate].
      intros nsid _ i n Hn Hs. right. by apply (HQ nsid i n).
    - split; [done|]. split; [by repeat split|]. split; [done|]. split; [done|]. destruct (pi_len _ _ HI) as [E|E]; [|done].
      rewrite E in *. cbn in Ef |- *. apply negb_false_iff, Nat.eqb_eq in Ef. by rewrite Ef. }
  destruct HI0 as ([HG HV HL HA] & HR & HQ & HM & Hlen).
  assert (H' : ('(ns, vs, rc, changed) ← update_loop chans nss (sg_ns_info (pg_sg p0)) (pg_views p0);
    Some (p0 <| pg_sg := (pg_sg p0) <| sg_ns_info := ns |> |> <| pg_views := vs |>, rc, if rc =? 0 then changed else false)) = Some (p', rc, b)).
  { rewrite <- H. subst p0. by destruct first. }
  clear H. destruct (update_loop _ _ _ _) as [[[[ns vs] rc0] b0]|] eqn:EL; [|done]. cbn in H'. injection H' as <- <- _.
  destruct (update_loop_spec _ _ _ _ _ _ _ _ EL HV HA) as (L1 & L2 & HF & HA' & HS).
  destruct (group_kept _ ns HG HF) as (HG' & HQ' & HM'). destruct HR as (R1 & R2 & R3 & R4 & R5). split; [|split; [|split; [|split]]].
  - split; gsimp; [done|lia|right; lia|done].
  - by repeat split.
  - intros nsid Hq. gsimp. apply HQ'. by apply HQ.
  - intros nsid Hq. gsimp. apply HM'. by apply HM.
  - intros Hr. split; [gsimp; lia|]. by apply HS.
Qed.

(** *** Activation and removal *)

Lemma activate_inv nss p : pg_inv nss p -> sg_state (pg_sg p) <> SPDK_NVMF_SUBSYSTEM_PAUSING ->
  (forall i c n v, nss !! i = Some c -> sg_ns_info (pg_sg p) !! i = Some n -> pg_views p !! i = Some v -> settled c n v) ->
  pg_inv nss (activate p).
Proof.
  intros [[H1 H2 H3 H4 H5] HV HL HA] Hs HS. unfold activate. split; gsimp.
  - split; gsimp; try done; [by apply Forall_fmap|]. split; [|done]. intros Hc. by apply H4 in Hc.
  - by rewrite length_fmap.
  - rewrite length_fmap. destruct HL as [E|E]; [left; by rewrite E|by right].
  - intros i c n v Hc. rewrite list_lookup_fmap. destruct (sg_ns_info (pg_sg p) !! i) as [m|] eqn:Em; [|done]. intros [= <-] Hv.
    destruct (HS i c m v Hc Em Hv) as [Ha|[-> ->]]; [left; by destruct c|]. right. split; [by right|done].
Qed.

Lemma resume_spec nss p mem chans p' o rel : nvmf_poll_group_resume_subsystem mem chans nss p = Some (p', o, rel) -> pg_inv nss p ->
  sg_state (pg_sg p) <> SPDK_NVMF_SUBSYSTEM_PAUSING -> pg_inv nss p' /\ pg_removing p' = pg_removing p /\
  exists rc, o = Some rc /\ sg_state (pg_sg p') <> SPDK_NVMF_SUBSYSTEM_PAUSING /\
    (rc = 0 -> sg_state (pg_sg p') = SPDK_NVMF_SUBSYSTEM_ACTIVE).
Proof.
  intros H HI Hs. unfold nvmf_poll_group_resume_subsystem in H.
  case_bool_decide as Ha; [injection H as <- <- _; split; [done|]; split; [done|]; by exists 0|].
  destruct (poll_group_update_subsystem mem chans nss p) as [[[p1 rc] b]|] eqn:E; cbn [mbind option_bind] in H; [|done].
  destruct (update_spec _ _ _ _ _ _ _ E HI) as (HI1 & (R1 & R2 & R3 & R4 & R5) & _ & _ & HS).
  destruct (Z.eqb_spec rc 0) as [->|Hne]; cbn [negb] in H; injection H as <- <- _.
  - destruct (HS eq_refl) as [_ HS']. pose proof (activate_inv _ _ HI1 ltac:(by rewrite R1) HS') as HI2. split; [|split; [done|by exists 0]].
    destruct HI2 as [HG HV HL HA]. split; gsimp; [by apply (group_inv_ext (pg_sg (activate p1)))|done..].
  - split; [done|]. split; [done|]. exists rc. by rewrite R1.
Qed.

Lemma remove_msg_spec nss p cb p' fin : nvmf_poll_group_remove_subsystem_msg cb p = (p', fin) -> pg_inv nss p ->
  sg_state (pg_sg p) = SPDK_NVMF_SUBSYSTEM_INACTIVE ->
  pg_inv nss p' /\ sg_state (pg_sg p') = SPDK_NVMF_SUBSYSTEM_INACTIVE /\ pg_qpairs p' = pg_qpairs p /\
  pg_removing p' = (if fin then pg_removing p else pg_removing p ++ [cb]) /\ (fin = true -> pg_qpairs p = []).
Proof.
  intros H HI Hs. unfold nvmf_poll_group_remove_subsystem_msg in H.
  destruct (pg_qpairs p) eqn:Eq; injection H as <- <-; (split; [|done]); destruct HI as [[H1 H2 H3 H4 H5] HV HL HA].
  - unfold _nvmf_poll_group_remove_subsystem_cb. split; gsimp; [|done|by left|done]. split; gsimp; try done. by rewrite Hs.
  - by split; gsimp.
Qed.

Lemma remove_spec nss p mem cb p' o : nvmf_poll_group_remove_subsystem mem cb p = (p', o) -> pg_inv nss p ->
  sg_state (pg_sg p) <> SPDK_NVMF_SUBSYSTEM_PAUSING ->
  pg_inv nss p' /\ pg_qpairs p' = pg_qpairs p /\
  match o with
  | Some rc => pg_removing p' = pg_removing p /\ sg_state (pg_sg p') <> SPDK_NVMF_SUBSYSTEM_PAUSING /\
      (rc = 0 -> sg_state (pg_sg p') = SPDK_NVMF_SUBSYSTEM_INACTIVE /\ pg_qpairs p' = []) /\ (mem = true -> rc = 0)
  | None => pg_removing p' = pg_removing p ++ [cb] /\ sg_state (pg_sg p') = SPDK_NVMF_SUBSYSTEM_INACTIVE
  end.
Proof.
  intros H HI Hs. unfold nvmf_poll_group_remove_subsystem in H. destruct mem; cbn [negb] in H; [|injection H as <- <-; split; [done|]; split; [done|]; by split_and!].
  destruct (nvmf_poll_group_remove_subsystem_msg _ _) as [p1 fin] eqn:E. injection H as <- <-.
  apply (remove_msg_spec nss) in E as (HI1 & S1 & Q1 & R1 & F1); [| |done].
  - split; [done|]. split; [done|]. destruct fin; [|done]. split; [done|]. rewrite S1. split; [done|]. split; [|done]. intros _. split; [done|].
    rewrite Q1. by apply F1.
  - destruct HI as [[H1 H2 H3 H4 H5] HV HL HA]. split; gsimp.
    + split; gsimp; try done; [by apply Forall_fmap|]. split; [|done]. intros Hc. by apply H4 in Hc.
    + by rewrite length_fmap.
    + rewrite length_fmap. destruct HL as [E1|E1]; [left; by rewrite E1|by right].
    + intros i c n v Hc. rewrite list_lookup_fmap. destruct (sg_ns_info (pg_sg p) !! i) as [m|] eqn:Em; [|done]. intros [= <-] Hv.
      destruct (HA i c m v Hc Em Hv) as [Ha|[_ Ho]]; [left; by destruct c|]. right. by split; [left|].
Qed.

Lemma add_spec nss p mem mem' chans p' o : nvmf_poll_group_add_subsystem mem mem' chans nss p = Some (p', o) -> pg_inv nss p ->
  sg_state (pg_sg p) = SPDK_NVMF_SUBSYSTEM_INACTIVE -> pg_qpairs p = [] ->
  pg_inv nss p' /\ pg_removing p' = pg_removing p /\ pg_qpairs p' = [] /\
  exists rc, o = Some rc /\ sg_state (pg_sg p') = (if rc =? 0 then SPDK_NVMF_SUBSYSTEM_ACTIVE else SPDK_NVMF_SUBSYSTEM_INACTIVE).
Proof.
  intros H HI Hs Hq. unfold nvmf_poll_group_add_subsystem in H. set (p0 := p <| pg_sg := _ |>) in H.
  assert (HI0 : pg_inv nss p0).
  { destruct HI as [HG HV HL HA]. split; subst p0; gsimp; [by apply (group_inv_ext (pg_sg p))|done..]. }
  destruct (poll_group_update_subsystem mem chans nss p0) as [[[p1 rc] b]|] eqn:E; cbn [mbind option_bind] in H; [|done].
  destruct (update_spec _ _ _ _ _ _ _ E HI0) as (HI1 & (R1 & R2 & R3 & R4 & R5) & _ & _ & HS).
  change (sg_state (pg_sg p0)) with (sg_state (pg_sg p)) in R1. change (pg_removing p0) with (pg_removing p) in R5.
  change (pg_qpairs p0) with (pg_qpairs p) in R4.
  destruct (Z.eqb_spec rc 0) as [->|Hne]; cbn [negb] in H; injection H as <- <-.
  - destruct (HS eq_refl) as [_ HS']. split; [by apply activate_inv; [|rewrite R1, Hs|]|]. split; [done|]. split; [by rewrite <- Hq|]. by exists 0.
  - destruct (nvmf_poll_group_remove_subsystem mem' false p1) as [p2 o] eqn:E2. pose proof E2 as E2'.
    apply (remove_spec nss) in E2 as (HI2 & Q2 & HO); [|done|by rewrite R1, Hs]. cbn [fst].
    split; [done|]. assert (Hq1 : pg_qpairs p1 = []) by (by rewrite R4). destruct o as [rc'|].
    + destruct HO as (Rm & _ & HO & _). split; [congruence|]. split; [congruence|]. exists rc. split; [done|].
      destruct (Z.eqb_spec rc 0); [done|]. revert E2'. unfold nvmf_poll_group_remove_subsystem, nvmf_poll_group_remove_subsystem_msg. gsimp.
      rewrite Hq1. destruct mem'; cbn [negb]; intros [= <- _]; [done|]. by rewrite R1.
    + revert E2'. unfold nvmf_poll_group_remove_subsystem, nvmf_poll_group_remove_subsystem_msg. gsimp. rewrite Hq1. by destruct mem'.
Qed.

(** *** Requests *)

(** What the end of a request is, and what its arrival is to a group. *)
Definition end_label (qp : spdk_nvmf_qpair) (cmd : spdk_nvme_cmd) : io_label :=
  if is_mgmt qp cmd then IoMgmtEnds else IoEnds (Z.to_nat (u32 (nsid cmd - 1))).
Definition arrival_label (g : spdk_nvmf_subsystem_poll_group) (qp : spdk_nvmf_qpair) (rid : nat) (cmd : spdk_nvme_cmd) : io_label :=
  if is_mgmt qp cmd then if bool_decide (sg_state g = SPDK_NVMF_SUBSYSTEM_ACTIVE) then IoMgmtStarts else IoWaits rid
  else
    let i := Z.to_nat (u32 (nsid cmd - 1)) in
    match sg_ns_info g !! i with
    | None => IoRefused i
    | Some n =>
        if negb (ni_channel n) then IoRefused i
        else if bool_decide (ni_state n = SPDK_NVMF_SUBSYSTEM_ACTIVE) then IoStarts i else IoWaits rid
    end.

(** A step of the group and the events of the request that makes it: the pause
    is reported exactly when the kept callback runs. *)
Definition group_step (l : io_label) (w w' : world) : Prop :=
  exists b evs, io_step (w_sgroup w) l (w_sgroup w') b /\ w_log w' = w_log w ++ evs /\ (b = true <-> EvSubsystemPaused ∈ evs).

Lemma paused_event rid rsp q (b d : bool) :
  b = true <-> EvSubsystemPaused ∈ EvReqComplete rid rsp :: (if b then [EvSubsystemPaused] else []) ++ (if d then [EvQpairDrained q] else []).
Proof. destruct b, d; set_solver. Qed.

Lemma live_outstanding w rid q r qp ct n : live_req w rid q r qp ct -> accounted w -> is_mgmt qp (req_cmd r) = false ->
  sg_ns_info (w_sgroup w) !! Z.to_nat (u32 (nsid (req_cmd r) - 1)) = Some n -> 0 < ni_io_outstanding n.
Proof.
  intros HL [_ HA] Em Hn. rewrite (HA _ _ Hn).
  assert (Hx : outstanding_io w (Z.to_nat (u32 (nsid (req_cmd r) - 1))) !! rid = Some r).
  { rewrite outstanding_io_lookup, (lr_req _ _ _ _ _ _ HL). cbn. by rewrite (counts_live _ _ _ _ _ _ _ HL), Em, Nat.eqb_refl. }
  assert (size (outstanding_io w (Z.to_nat (u32 (nsid (req_cmd r) - 1)))) <> 0%nat); [|lia].
  intros E%map_size_empty_inv. by rewrite E in Hx.
Qed.

(** The end of a request. *)
Lemma completed_step w rid q r qp ct : live_req w rid q r qp ct -> is_aer (req_cmd r) = false -> accounted w ->
  group_step (end_label qp (req_cmd r)) w (completed_world rid q r qp ct w).
Proof.
  intros HL Ha HA. unfold group_step, completed_world. cbv zeta. wsimp. rewrite Ha. cbn [negb andb]. unfold group_after. rewrite Ha.
  set (g := uncounted _ _ _ _). exists (pause_done g). eexists. split; [|split; [reflexivity|apply paused_event]].
  subst g. unfold uncounted, end_label. cbn [andb]. destruct (is_mgmt qp (req_cmd r)) eqn:Em; [apply io_mgmt_ends; by apply HL|].
  destruct (Z.ltb_spec (u32 (nsid (req_cmd r) - 1)) (sg_num_ns (w_sgroup w))) as [Hlt|Hge].
  2: { apply io_absent_ends, lookup_ge_None. unfold sg_num_ns in Hge. lia. }
  pose proof (u32_range (nsid (req_cmd r) - 1)).
  destruct (lookup_lt_is_Some_2 (sg_ns_info (w_sgroup w)) (Z.to_nat (u32 (nsid (req_cmd r) - 1)))) as [n Hn]; [unfold sg_num_ns in Hlt; lia|].
  eapply io_ends; [exact Hn|]. by eapply live_outstanding.
Qed.

(** Counted and uncounted again. *)
Lemma ni_inc_dec n : 0 <= ni_io_outstanding n < 2 ^ 64 -> ni_dec (ni_inc n) = n.
Proof.
  destruct n as [c t h rs o s]. unfold ni_dec, ni_inc. gsimp. intros Hr. unfold u64. rewrite Zminus_mod_idemp_l, Z.mod_small by lia.
  unfold set. cbn. f_equal. lia.
Qed.

Lemma inc_dec i l : Forall (fun n => 0 <= ni_io_outstanding n < 2 ^ 64) l -> alter ni_dec i (alter ni_inc i l) = l.
Proof.
  revert i. induction l as [|n l IH]; intros [|i] [Hn HF]%Forall_cons || intros i _; try done; cbn; f_equal; [by apply ni_inc_dec|by apply IH].
Qed.

Lemma accounted_counts w : accounted w -> Forall (fun n => 0 <= ni_io_outstanding n < 2 ^ 64) (sg_ns_info (w_sgroup w)).
Proof.
  intros [Hs HA]. apply Forall_lookup. intros i n Hn. rewrite (HA _ _ Hn). pose proof (size_outstanding_io w i). lia.
Qed.

(** A request refused for its namespace, whether counted or not. *)
Lemma refused_step w rid q r qp ct (cnt : bool) : is_aer (req_cmd r) = false -> is_mgmt qp (req_cmd r) = false -> accounted w ->
  cnt = (u32 (nsid (req_cmd r) - 1) <? sg_num_ns (w_sgroup w)) ->
  let i := Z.to_nat (u32 (nsid (req_cmd r) - 1)) in (forall n, sg_ns_info (w_sgroup w) !! i = Some n -> ni_channel n = false) ->
  group_step (IoRefused i) w (completed_world rid q r (qpair_with rid qp) ct (enqueued cnt rid q r qp w)).
Proof.
  intros Ha Em HA Ec i Hi. unfold group_step, completed_world, enqueued. cbv zeta. wsimp. rewrite Ha. cbn [negb andb]. unfold group_after. rewrite Ha.
  change (is_mgmt (qpair_with rid qp) (req_cmd r)) with (is_mgmt qp (req_cmd r)). rewrite Em.
  assert (E : uncounted false true (nsid (req_cmd r)) (if cnt then (w_sgroup w) <| sg_ns_info :=
      alter ni_inc (Z.to_nat (u32 (nsid (req_cmd r) - 1))) (sg_ns_info (w_sgroup w)) |> else w_sgroup w) = w_sgroup w).
  { unfold uncounted. cbn [andb]. destruct cnt.
    - unfold sg_num_ns in *. wsimp. rewrite length_alter, <- Ec, inc_dec by (by apply accounted_counts). by destruct (w_sgroup w).
    - by rewrite <- Ec. }
  rewrite E. exists (pause_done (w_sgroup w)). eexists. split; [by apply io_refused|]. split; [reflexivity|apply paused_event].
Qed.

Ltac refusal :=
  lazymatch goal with |- group_step _ ?w (completed_world ?rid ?q ?r _ ?ct (enqueued ?cnt _ _ _ ?qp _)) => apply (refused_step w rid q r qp ct cnt) end.

(** ** Theorems *)

(** C11. The steps of a group are what happens to its requests.  With the
    counters accurate: the completion of a request that has not the opcode of
    an asynchronous-event request is the end of a management command or of a
    command of its namespace; its admission is the start, the wait or the
    refusal that the states of the group and the namespace call for; and
    each makes the one step of [io_step] of that name, which is determined by
    the group, and reports that the subsystem has paused exactly when the step
    runs the kept callback.  The completion of a request with the opcode of an
    asynchronous-event request leaves the group as it is.  The theorems on all
    interleavings of steps are so about what the request handlers of [Request]
    do. *)
Theorem requests_step_the_group w rid q r qp ct (HA : accounted w) :
  (live_req w rid q r qp ct -> is_aer (req_cmd r) = false ->
     wp (_nvmf_request_complete rid) w (fun _ w' => group_step (end_label qp (req_cmd r)) w w')) /\
  (fresh_req w rid q r qp ct -> is_aer (req_cmd r) = false ->
     wp (admission rid q) w (fun _ w' => group_step (arrival_label (w_sgroup w) qp rid (req_cmd r)) w w')) /\
  (live_req w rid q r qp ct -> is_aer (req_cmd r) = true ->
     wp (_nvmf_request_complete rid) w (fun _ w' => w_sgroup w' = w_sgroup w)) /\
  (forall l g1 g2 b1 b2, io_step (w_sgroup w) l g1 b1 -> io_step (w_sgroup w) l g2 b2 -> g1 = g2 /\ b1 = b2).
Proof.
  split; [intros HL Ha; eapply request_complete_wp; [done|]; by apply completed_step|]. split; [|split].
  2: { intros HL Ha. eapply request_complete_wp; [done|]. unfold completed_world, group_after. wsimp. by rewrite Ha. }
  2: { intros l g1 g2 b1 b2. apply io_step_det. }
  intros HF Ha. pose proof HF as [Hr <- Hq Hc Hin Hz Hcb Hd]. destruct (qp_ctrlr qp) as [c|] eqn:Ec; cbn in Hc; [|done].
  unfold admission, nvmf_check_subsystem_active. wsteps. rewrite Ec. cbn [negb]. wsteps. fold (is_mgmt qp (req_cmd r)).
  assert (HG : forall l w', io_step (w_sgroup w) l (w_sgroup w') false -> w_log w' = w_log w -> group_step l w w').
  { intros l w' Hs El. exists false, []. split; [done|]. split; [by rewrite app_nil_r|]. split; [done|set_solver]. }
  unfold outstanding_insert, arrival_label. pose proof (u32_range (nsid (req_cmd r) - 1)). destruct (is_mgmt qp (req_cmd r)) eqn:Em.
  { rewrite bool_decide_not. case_bool_decide as Es; cbn [negb]; wsteps; apply HG; try done; [by apply io_mgmt_starts|apply io_waits]. }
  destruct (_ <=? _) eqn:Ele.
  { apply (refuse_wp w rid _ r qp ct false); [done..|]. wsteps.
    assert (En : sg_ns_info (w_sgroup w) !! Z.to_nat (u32 (nsid (req_cmd r) - 1)) = None) by (apply lookup_ge_None; unfold sg_num_ns in Ele; lia).
    rewrite En. refusal; try done; [cbn; lia|]. intros n. cbn. by rewrite En. }
  destruct (lookup_lt_is_Some_2 (sg_ns_info (w_sgroup w)) (Z.to_nat (u32 (nsid (req_cmd r) - 1)))) as [n Hn]; [unfold sg_num_ns in Ele; lia|].
  wsteps. rewrite Hn. destruct (ni_channel n) eqn:En; cbn [negb].
  - rewrite bool_decide_not. case_bool_decide as Es; cbn [negb]; wsteps; apply HG; try done; [by eapply io_starts|apply io_waits].
  - apply (refuse_wp w rid _ r qp ct true); [done..|]. wsteps. refusal; try done; [cbn; lia|]. intros m. cbn. rewrite Hn. by intros [= <-].
Qed.

Lemma requests_step_the_group_witness :
  wp (_nvmf_request_complete 0) (demo_world [demo_io] [0%nat] 1 SPDK_NVMF_SUBSYSTEM_PAUSING [])
    (fun _ w' => group_step (IoEnds 0) (demo_world [demo_io] [0%nat] 1 SPDK_NVMF_SUBSYSTEM_PAUSING []) w').
Proof.
  refine (proj1 (requests_step_the_group _ 0 0 demo_io (demo_qpair [0%nat]) demo_ctrlr (demo_accounted SPDK_NVMF_SUBSYSTEM_PAUSING)) _ eq_refl).
  by apply (demo_live SPDK_NVMF_SUBSYSTEM_PAUSING 0 SPDK_NVME_OPC_READ []).
Defined.
