(* ===== verification/SubsystemState.v ===== *)
(** * Start, stop, pause and resume of a subsystem: subsystem.c

    A change of state goes through an intermediate state while the poll groups
    are visited one after the other ([PollGroup]); a group answers at once or,
    when it has to wait for commands or queue pairs, later.  Changes are queued
    and carried out one at a time.  The theorems are about all interleavings of
    the visits with the commands of the groups. *)
From S2P Require Import Prelude NvmeSpec Iov World Request Ctrlr Reservation ReservationSync PollGroup.

(** ** States *)

(** [None] is [SPDK_NVMF_SUBSYSTEM_NUM_STATES], which the callers assert not
    to get. *)
Definition nvmf_subsystem_get_intermediate_state (current_state requested_state : spdk_nvmf_subsystem_state)
  : option spdk_nvmf_subsystem_state :=
  match requested_state with
  | SPDK_NVMF_SUBSYSTEM_INACTIVE => Some SPDK_NVMF_SUBSYSTEM_DEACTIVATING
  | SPDK_NVMF_SUBSYSTEM_ACTIVE =>
      Some (if bool_decide (current_state = SPDK_NVMF_SUBSYSTEM_PAUSED) then SPDK_NVMF_SUBSYSTEM_RESUMING
            else SPDK_NVMF_SUBSYSTEM_ACTIVATING)
  | SPDK_NVMF_SUBSYSTEM_PAUSED => Some SPDK_NVMF_SUBSYSTEM_PAUSING
  | _ => None
  end.

Definition expected_old_state (state : spdk_nvmf_subsystem_state) : spdk_nvmf_subsystem_state :=
  match state with
  | SPDK_NVMF_SUBSYSTEM_INACTIVE => SPDK_NVMF_SUBSYSTEM_DEACTIVATING
  | SPDK_NVMF_SUBSYSTEM_ACTIVATING => SPDK_NVMF_SUBSYSTEM_INACTIVE
  | SPDK_NVMF_SUBSYSTEM_ACTIVE => SPDK_NVMF_SUBSYSTEM_ACTIVATING
  | SPDK_NVMF_SUBSYSTEM_PAUSING => SPDK_NVMF_SUBSYSTEM_ACTIVE
  | SPDK_NVMF_SUBSYSTEM_PAUSED => SPDK_NVMF_SUBSYSTEM_PAUSING
  | SPDK_NVMF_SUBSYSTEM_RESUMING => SPDK_NVMF_SUBSYSTEM_PAUSED
  | SPDK_NVMF_SUBSYSTEM_DEACTIVATING => SPDK_NVMF_SUBSYSTEM_ACTIVE
  end.

(** The second attempt of the exchange, for the states from which a change
    fails or a paused subsystem stops. *)
Definition second_expected (actual_old_state state : spdk_nvmf_subsystem_state) : spdk_nvmf_subsystem_state :=
  match actual_old_state, state with
  | SPDK_NVMF_SUBSYSTEM_RESUMING, SPDK_NVMF_SUBSYSTEM_ACTIVE => SPDK_NVMF_SUBSYSTEM_RESUMING
  | SPDK_NVMF_SUBSYSTEM_ACTIVATING, SPDK_NVMF_SUBSYSTEM_DEACTIVATING => SPDK_NVMF_SUBSYSTEM_ACTIVATING
  | SPDK_NVMF_SUBSYSTEM_RESUMING, SPDK_NVMF_SUBSYSTEM_PAUSING => SPDK_NVMF_SUBSYSTEM_RESUMING
  | SPDK_NVMF_SUBSYSTEM_PAUSED, SPDK_NVMF_SUBSYSTEM_DEACTIVATING => SPDK_NVMF_SUBSYSTEM_PAUSED
  | _, _ => expected_old_state state
  end.

(** The state after the call and whether it returned 0.  A failed exchange also
    fails an assertion; the model is of the program without assertions. *)
Definition nvmf_subsystem_set_state (current state : spdk_nvmf_subsystem_state) : spdk_nvmf_subsystem_state * bool :=
  if bool_decide (current = expected_old_state state) then (state, true)
  else if bool_decide (current = second_expected current state) then (state, true)
  else (current, false).

(** ** Changes *)

(** [struct nvmf_subsystem_state_change_ctx]; [sc_id] stands for its address
    and callback. *)
Record state_change := StateChange {
  sc_id : nat; sc_nsid : Z; sc_requested : spdk_nvmf_subsystem_state; sc_original : spdk_nvmf_subsystem_state }.
#[global] Instance eta_sc : Eta state_change := fun c => StateChange (sc_id c) (sc_nsid c) (sc_requested c) (sc_original c).

(** A visit of the groups by [spdk_for_each_channel]: the group whose turn it
    is, whether its operation has been started and has not called back, and
    whether the visit reverts a change that failed. *)
Record visit := Visit { vi_pos : nat; vi_waiting : bool; vi_revert : bool }.
#[global] Instance eta_visit : Eta visit := fun v => Visit (vi_pos v) (vi_waiting v) (vi_revert v).

(** The subsystem, the groups, the changes in their order with the first one
    under way, and the calls of callbacks so far.  [ss_paused] is the
    namespace of the last pause that was carried out; the program has no such
    variable. *)
Record ssys := SSys {
  ss_state : spdk_nvmf_subsystem_state; ss_ns : list (option ns_conf); ss_pgs : list poll_group;
  ss_changes : list state_change; ss_visit : option visit; ss_answers : list (nat * Z); ss_paused : Z }.
#[global] Instance eta_ssys : Eta ssys := fun y =>
  SSys (ss_state y) (ss_ns y) (ss_pgs y) (ss_changes y) (ss_visit y) (ss_answers y) (ss_paused y).

(** [nvmf_subsystem_do_state_change]: the state, the context, and the status it
    completes with, [None] when the visit begins. *)
Definition nvmf_subsystem_do_state_change (st : spdk_nvmf_subsystem_state) (c : state_change)
  : option (spdk_nvmf_subsystem_state * state_change * option Z) :=
  if bool_decide (st = sc_requested c) then Some (st, c, Some 0)
  else
    im ← nvmf_subsystem_get_intermediate_state st (sc_requested c);
    let c := c <| sc_original := st |> in
    let '(st, ok) := nvmf_subsystem_set_state st im in
    Some (st, c, if ok then None else Some (-1)).

(** The first changes of the queue until one has to visit the groups. *)
Fixpoint start_changes (y : ssys) (l : list state_change) : option ssys :=
  match l with
  | [] => Some (y <| ss_changes := [] |> <| ss_visit := None |>)
  | c :: l =>
      '(st, c, o) ← nvmf_subsystem_do_state_change (ss_state y) c;
      let y := y <| ss_state := st |> in
      match o with
      | Some status => start_changes (y <| ss_answers := ss_answers y ++ [(sc_id c, status)] |>) l
      | None => Some (y <| ss_changes := c :: l |> <| ss_visit := Some (Visit 0 false false) |>
                        <| ss_paused := if bool_decide (sc_requested c = SPDK_NVMF_SUBSYSTEM_PAUSED) then sc_nsid c else ss_paused y |>)
      end
  end.

(** [_nvmf_subsystem_state_change_complete]: the callback of the first change,
    then the next one. *)
Definition nvmf_subsystem_state_change_complete (y : ssys) (c : state_change) (l : list state_change) (status : Z) : option ssys :=
  start_changes (y <| ss_answers := ss_answers y ++ [(sc_id c, status)] |>) l.

(** The identifier of the namespace is kept in 16 bits. *)
Definition nvmf_subsystem_state_change (y : ssys) (id : nat) (nsid : Z) (requested : spdk_nvmf_subsystem_state) : option ssys :=
  let c := StateChange id (u16 nsid) requested SPDK_NVMF_SUBSYSTEM_INACTIVE in
  match ss_changes y with
  | [] => start_changes y [c]
  | l => Some (y <| ss_changes := l ++ [c] |>)
  end.

Definition subsystem_state_change_revert_done (y : ssys) (c : state_change) (l : list state_change) : option ssys :=
  let '(st, _) := nvmf_subsystem_set_state (ss_state y) (sc_requested c) in
  nvmf_subsystem_state_change_complete (y <| ss_state := st |>) c l (-1).

Definition subsystem_state_change_done (y : ssys) (c : state_change) (l : list state_change) (status : Z) : option ssys :=
  let '(st, status) :=
    if status =? 0 then
      let '(st, ok) := nvmf_subsystem_set_state (ss_state y) (sc_requested c) in (st, if ok then 0 else -1)
    else (ss_state y, status) in
  let y := y <| ss_state := st |> in
  if status =? 0 then nvmf_subsystem_state_change_complete y c l status
  else
    im ← nvmf_subsystem_get_intermediate_state (sc_requested c) (sc_original c);
    let '(st, ok) := nvmf_subsystem_set_state (ss_state y) im in
    if negb ok then nvmf_subsystem_state_change_complete y c l status
    else
      let c := c <| sc_requested := sc_original c |> in
      Some (y <| ss_state := st |> <| ss_changes := c :: l |> <| ss_visit := Some (Visit 0 false true) |>
              <| ss_paused := if bool_decide (sc_requested c = SPDK_NVMF_SUBSYSTEM_PAUSED) then sc_nsid c else ss_paused y |>).

(** The callback a group makes: the next group, or the end of the visit. *)
Definition subsystem_state_change_continue (y : ssys) (v : visit) (status : Z) : option ssys :=
  match ss_changes y with
  | [] => None
  | c :: l =>
      if (status =? 0) && (S (vi_pos v) <? length (ss_pgs y))%nat
      then Some (y <| ss_visit := Some (Visit (S (vi_pos v)) false (vi_revert v)) |>)
      else if vi_revert v then subsystem_state_change_revert_done y c l
      else subsystem_state_change_done y c l status
  end.

(** The answers of allocators during one visit. *)
Record answers := Answers { an_mem : bool; an_mem' : bool; an_chans : list bool }.

(** [None] in the second component while the group has not called back; no
    operation is begun, and none will call back, when the state fits none. *)
Definition subsystem_state_change_on_pg (a : answers) (y : ssys) (c : state_change) (p : poll_group) : option (poll_group * option Z) :=
  match sc_requested c with
  | SPDK_NVMF_SUBSYSTEM_INACTIVE => Some (nvmf_poll_group_remove_subsystem (an_mem a) true p)
  | SPDK_NVMF_SUBSYSTEM_ACTIVE =>
      match ss_state y with
      | SPDK_NVMF_SUBSYSTEM_ACTIVATING => nvmf_poll_group_add_subsystem (an_mem a) (an_mem' a) (an_chans a) (ss_ns y) p
      | SPDK_NVMF_SUBSYSTEM_RESUMING =>
          '(p, o, _) ← nvmf_poll_group_resume_subsystem (an_mem a) (an_chans a) (ss_ns y) p; Some (p, o)
      | _ => Some (p, None)
      end
  | SPDK_NVMF_SUBSYSTEM_PAUSED => nvmf_poll_group_pause_subsystem (sc_nsid c) p
  | _ => None
  end.

(** A turn of the visit. *)
Definition visit_group (a : answers) (y : ssys) (v : visit) : option ssys :=
  match ss_changes y, ss_pgs y !! vi_pos v with
  | c :: l, Some p =>
      '(p, o) ← subsystem_state_change_on_pg a y c p;
      let y := y <| ss_pgs := <[vi_pos v := p]> (ss_pgs y) |> in
      match o with
      | None => Some (y <| ss_visit := Some (v <| vi_waiting := true |>) |>)
      | Some status => subsystem_state_change_continue y v status
      end
  | c :: l, None => if vi_revert v then subsystem_state_change_revert_done y c l else subsystem_state_change_done y c l 0
  | [], _ => None
  end.

(** ** The system *)

(** The requests of the interface: [spdk_nvmf_subsystem_start], [stop],
    [pause] and [resume]. *)
Definition api_request (nsid : Z) (requested : spdk_nvmf_subsystem_state) : Prop :=
  requested = SPDK_NVMF_SUBSYSTEM_PAUSED \/
  ((requested = SPDK_NVMF_SUBSYSTEM_ACTIVE \/ requested = SPDK_NVMF_SUBSYSTEM_INACTIVE) /\ nsid = 0).
Definition api_change (c : state_change) : Prop := api_request (sc_nsid c) (sc_requested c).

Definition same_ns (c c' : option ns_conf) : Prop := nc_uuid <$> c = nc_uuid <$> c'.

(** The changes to the namespaces: reservations and sizes at any time; a
    namespace is added to a paused subsystem, removed or replaced when the
    pause was for it; anything when no group has an entry.  Reservations are
    well formed, as [Reservation] proves. *)
Definition confs_ok (nss : list (option ns_conf)) : Prop := Forall (fun o => forall c, o = Some c -> resv_wf (nc_resv c)) nss.
Definition ns_change_ok (y : ssys) (nss : list (option ns_conf)) : Prop :=
  length nss = length (ss_ns y) /\ confs_ok nss /\
  forall i c c', ss_ns y !! i = Some c -> nss !! i = Some c' -> same_ns c c' \/
    (ss_state y = SPDK_NVMF_SUBSYSTEM_PAUSED /\ (c = None \/ selects (ss_paused y) i = true)) \/
    (ss_state y = SPDK_NVMF_SUBSYSTEM_INACTIVE /\ Forall (fun p => sg_ns_info (pg_sg p) = []) (ss_pgs y)).

Definition put_pg (y : ssys) (j : nat) (p : poll_group) : ssys := y <| ss_pgs := <[j := p]> (ss_pgs y) |>.

(** A callback the group has kept. *)
Definition call_back (y : ssys) (called : bool) : option ssys :=
  if called then v ← ss_visit y; subsystem_state_change_continue y v 0 else Some y.

Inductive sstep (y : ssys) : ssys -> Prop :=
| ss_request id nsid req y' : api_request nsid req -> nvmf_subsystem_state_change y id nsid req = Some y' -> sstep y y'
| ss_visits a v y' : ss_visit y = Some v -> vi_waiting v = false -> (vi_revert v = true -> an_mem a = true) ->
    visit_group a y v = Some y' -> sstep y y'
| ss_io j p l g b y' : ss_pgs y !! j = Some p -> io_step (pg_sg p) l g b ->
    call_back (put_pg y j (p <| pg_sg := g |>)) b = Some y' -> sstep y y'
| ss_removal j p k cb p' fin y' : ss_pgs y !! j = Some p -> pg_removing p !! k = Some cb ->
    nvmf_poll_group_remove_subsystem_msg cb (p <| pg_removing := delete k (pg_removing p) |>) = (p', fin) ->
    call_back (put_pg y j p') (fin && cb) = Some y' -> sstep y y'
| ss_join j p q : ss_pgs y !! j = Some p -> sg_state (pg_sg p) = SPDK_NVMF_SUBSYSTEM_ACTIVE ->
    sstep y (put_pg y j (p <| pg_qpairs := pg_qpairs p ++ [q] |>))
| ss_leave j p k : ss_pgs y !! j = Some p -> sstep y (put_pg y j (p <| pg_qpairs := delete k (pg_qpairs p) |>))
| ss_update j p a p' rc b : ss_pgs y !! j = Some p ->
    poll_group_update_subsystem (an_mem a) (an_chans a) (ss_ns y) p = Some (p', rc, b) -> sstep y (put_pg y j p')
| ss_namespaces nss : ns_change_ok y nss -> sstep y (y <| ss_ns := nss |>).

Definition pg_init : poll_group := PollGroup (SubsysPg [] SPDK_NVMF_SUBSYSTEM_INACTIVE 0 false []) [] [] [].

(** A new subsystem in a target with some poll groups. *)
Definition ss_init (nss : list (option ns_conf)) (groups : nat) : ssys :=
  SSys SPDK_NVMF_SUBSYSTEM_INACTIVE nss (replicate groups pg_init) [] None [] 0.

Definition ss_reachable (nss : list (option ns_conf)) (groups : nat) (y : ssys) : Prop := rtc sstep (ss_init nss groups) y.

(** ** Invariant *)

Definition down (p : poll_group) : Prop := sg_state (pg_sg p) = SPDK_NVMF_SUBSYSTEM_INACTIVE /\ pg_qpairs p = [].
Definition stopped (nsid : Z) (p : poll_group) : Prop :=
  sg_state (pg_sg p) = SPDK_NVMF_SUBSYSTEM_PAUSED /\ quiet nsid (pg_sg p).
Definition up (p : poll_group) : Prop := sg_state (pg_sg p) = SPDK_NVMF_SUBSYSTEM_ACTIVE.
Definition not_pausing (p : poll_group) : Prop := sg_state (pg_sg p) <> SPDK_NVMF_SUBSYSTEM_PAUSING.

(** A group of a subsystem at rest. *)
Definition rest_phase (st : spdk_nvmf_subsystem_state) (nsid : Z) (p : poll_group) : Prop :=
  match st with
  | SPDK_NVMF_SUBSYSTEM_PAUSED => stopped nsid p
  | SPDK_NVMF_SUBSYSTEM_ACTIVE => up p
  | SPDK_NVMF_SUBSYSTEM_INACTIVE => down p
  | _ => not_pausing p
  end.

(** Group [j] during a visit: behind, at, or ahead of its position. *)
Definition move_phase (st : spdk_nvmf_subsystem_state) (v : visit) (nsid : Z) (j : nat) (p : poll_group) : Prop :=
  let at_wait := (j =? vi_pos v)%nat && vi_waiting v in
  let behind := (j <? vi_pos v)%nat in
  match st with
  | SPDK_NVMF_SUBSYSTEM_PAUSING =>
      if behind then stopped nsid p
      else if at_wait then sg_state (pg_sg p) = SPDK_NVMF_SUBSYSTEM_PAUSING /\ marked nsid (pg_sg p)
      else if vi_revert v then not_pausing p else up p
  | SPDK_NVMF_SUBSYSTEM_ACTIVATING => if behind then up p else down p
  | SPDK_NVMF_SUBSYSTEM_RESUMING => if behind then up p else not_pausing p
  | SPDK_NVMF_SUBSYSTEM_DEACTIVATING =>
      if behind then down p
      else if at_wait then sg_state (pg_sg p) = SPDK_NVMF_SUBSYSTEM_INACTIVE else not_pausing p
  | _ => False
  end.

(** The pending message of a removal. *)
Definition removing (st : spdk_nvmf_subsystem_state) (v : visit) (j : nat) : list bool :=
  if (j =? vi_pos v)%nat && vi_waiting v && bool_decide (st = SPDK_NVMF_SUBSYSTEM_DEACTIVATING) then [true] else [].

(** The change under way fits the intermediate state. *)
Definition phase_ok (st : spdk_nvmf_subsystem_state) (v : visit) (c : state_change) (nsid : Z) : Prop :=
  match st with
  | SPDK_NVMF_SUBSYSTEM_ACTIVATING =>
      sc_requested c = SPDK_NVMF_SUBSYSTEM_ACTIVE /\ sc_original c = SPDK_NVMF_SUBSYSTEM_INACTIVE /\ vi_revert v = false /\ vi_waiting v = false
  | SPDK_NVMF_SUBSYSTEM_RESUMING =>
      sc_requested c = SPDK_NVMF_SUBSYSTEM_ACTIVE /\ sc_original c = SPDK_NVMF_SUBSYSTEM_PAUSED /\ vi_revert v = false /\ vi_waiting v = false
  | SPDK_NVMF_SUBSYSTEM_PAUSING =>
      sc_requested c = SPDK_NVMF_SUBSYSTEM_PAUSED /\ nsid = sc_nsid c /\
      (if vi_revert v then sc_original c = SPDK_NVMF_SUBSYSTEM_PAUSED /\ sc_nsid c = 0 else sc_original c = SPDK_NVMF_SUBSYSTEM_ACTIVE)
  | SPDK_NVMF_SUBSYSTEM_DEACTIVATING =>
      sc_requested c = SPDK_NVMF_SUBSYSTEM_INACTIVE /\
      (if vi_revert v then sc_original c = SPDK_NVMF_SUBSYSTEM_INACTIVE
       else sc_original c = SPDK_NVMF_SUBSYSTEM_ACTIVE \/ sc_original c = SPDK_NVMF_SUBSYSTEM_PAUSED)
  | _ => False
  end.

Definition resting (st : spdk_nvmf_subsystem_state) : Prop :=
  st ∈ [SPDK_NVMF_SUBSYSTEM_INACTIVE; SPDK_NVMF_SUBSYSTEM_ACTIVE; SPDK_NVMF_SUBSYSTEM_PAUSED; SPDK_NVMF_SUBSYSTEM_DEACTIVATING].

Definition group_phase (y : ssys) (j : nat) (p : poll_group) : Prop :=
  match ss_visit y with
  | Some v => move_phase (ss_state y) v (ss_paused y) j p /\ pg_removing p = removing (ss_state y) v j
  | None => rest_phase (ss_state y) (ss_paused y) p /\ pg_removing p = []
  end.

Record sys_inv (y : ssys) : Prop := {
  si_ns : Z.of_nat (length (ss_ns y)) < 2 ^ 32 - 1;
  si_pg : forall j p, ss_pgs y !! j = Some p -> pg_inv (ss_ns y) p /\ group_phase y j p;
  si_queue : Forall api_change (ss_changes y);
  si_visit : match ss_visit y with
    | Some v => exists c l, ss_changes y = c :: l /\ phase_ok (ss_state y) v c (ss_paused y) /\ ((vi_pos v < length (ss_pgs y))%nat \/ (vi_pos v = 0%nat /\ vi_waiting v = false))
    | None => ss_changes y = [] /\ resting (ss_state y)
    end }.

(** ** Lemmas *)

Ltac ysimp := cbn [set fst snd ss_state ss_ns ss_pgs ss_changes ss_visit ss_answers ss_paused vi_pos vi_waiting vi_revert
  sc_id sc_nsid sc_requested sc_original].

(** How a change begins. *)
Definition begins (st : spdk_nvmf_subsystem_state) (c : state_change) (st' : spdk_nvmf_subsystem_state) : Prop :=
  (st = SPDK_NVMF_SUBSYSTEM_ACTIVE /\ sc_requested c = SPDK_NVMF_SUBSYSTEM_PAUSED /\ st' = SPDK_NVMF_SUBSYSTEM_PAUSING) \/
  (st = SPDK_NVMF_SUBSYSTEM_INACTIVE /\ sc_requested c = SPDK_NVMF_SUBSYSTEM_ACTIVE /\ st' = SPDK_NVMF_SUBSYSTEM_ACTIVATING) \/
  (st = SPDK_NVMF_SUBSYSTEM_PAUSED /\ sc_requested c = SPDK_NVMF_SUBSYSTEM_ACTIVE /\ st' = SPDK_NVMF_SUBSYSTEM_RESUMING) \/
  ((st = SPDK_NVMF_SUBSYSTEM_ACTIVE \/ st = SPDK_NVMF_SUBSYSTEM_PAUSED) /\ sc_requested c = SPDK_NVMF_SUBSYSTEM_INACTIVE /\
   st' = SPDK_NVMF_SUBSYSTEM_DEACTIVATING).

Lemma do_change_cases st c st' c' o : nvmf_subsystem_do_state_change st c = Some (st', c', o) -> resting st -> api_change c ->
  sc_id c' = sc_id c /\
  match o with
  | Some _ => st' = st
  | None => c' = c <| sc_original := st |> /\ begins st c st'
  end.
Proof.
  intros H Hs Hc. destruct c as [id nsid req orig]. unfold begins, api_change, api_request, resting in *. cbn in Hc |- *.
  destruct st, req; try (exfalso; revert Hs; clear; set_solver); try (exfalso; intuition discriminate);
    vm_compute in H; injection H as <- <- <-; split; try done; split; try done; tauto.
Qed.

Lemma start_changes_inv y l y' : start_changes y l = Some y' -> resting (ss_state y) -> Z.of_nat (length (ss_ns y)) < 2 ^ 32 - 1 ->
  (forall j p, ss_pgs y !! j = Some p -> pg_inv (ss_ns y) p /\ rest_phase (ss_state y) (ss_paused y) p /\ pg_removing p = []) ->
  Forall api_change l -> sys_inv y'.
Proof.
  revert y. induction l as [|c l IH]; intros y H Hr Hn HP Hl.
  { injection H as <-. split; ysimp; [done| |done|done]. intros j p Hj. destruct (HP j p Hj) as (? & ? & ?). by split. }
  apply Forall_cons in Hl as [Hc Hl]. cbn [start_changes] in H.
  destruct (nvmf_subsystem_do_state_change _ c) as [[[st c'] o]|] eqn:E; cbn [mbind option_bind] in H; [|done].
  destruct (do_change_cases _ _ _ _ _ E Hr Hc) as [Eid HO]. destruct o as [status|].
  { subst st. apply (IH _ H); ysimp; try done. }
  destruct HO as [-> HB]. injection H as <-. split; ysimp; [done| |by constructor|].
  - intros j p Hj. destruct (HP j p Hj) as (HI & HR & HM). split; [done|]. unfold group_phase. ysimp. unfold removing. ysimp. rewrite andb_false_r. split; [|done].
    unfold move_phase. ysimp. rewrite andb_false_r. destruct HB as [(E1&_&->)|[(E1&_&->)|[(E1&_&->)|(E1&_&->)]]]; cbn.
    + by rewrite E1 in HR.
    + by rewrite E1 in HR.
    + rewrite E1 in HR. destruct HR as [HR _]. unfold not_pausing. by rewrite HR.
    + unfold not_pausing. destruct E1 as [E1|E1]; rewrite E1 in HR; [unfold up in HR|destruct HR as [HR _]]; by rewrite HR.
  - eexists _, _. split; [done|]. split; [|by right]. unfold phase_ok. ysimp.
    destruct HB as [(E1&E2&->)|[(E1&E2&->)|[(E1&E2&->)|(E1&E2&->)]]]; by rewrite E2.
Qed.

(** A group the visit has passed. *)
Definition passed (st : spdk_nvmf_subsystem_state) (nsid : Z) (p : poll_group) : Prop :=
  match st with
  | SPDK_NVMF_SUBSYSTEM_PAUSING => stopped nsid p
  | SPDK_NVMF_SUBSYSTEM_ACTIVATING | SPDK_NVMF_SUBSYSTEM_RESUMING => up p
  | SPDK_NVMF_SUBSYSTEM_DEACTIVATING => down p
  | _ => False
  end.

Lemma move_behind st v nsid j p : (j < vi_pos v)%nat -> move_phase st v nsid j p -> passed st nsid p.
Proof. intros Hj. unfold move_phase. rewrite (proj2 (Nat.ltb_lt _ _) Hj). by destruct st. Qed.
Lemma behind_move st v nsid j p : (j < vi_pos v)%nat -> passed st nsid p -> move_phase st v nsid j p.
Proof. intros Hj. unfold move_phase. rewrite (proj2 (Nat.ltb_lt _ _) Hj). by destruct st. Qed.

(** Ahead of its position only a pausing subsystem constrains a group further. *)
Lemma move_ahead st v v' nsid j p : (vi_pos v < j)%nat -> (vi_pos v' <= j)%nat -> vi_waiting v' = false -> vi_revert v' = vi_revert v ->
  move_phase st v nsid j p -> move_phase st v' nsid j p.
Proof.
  intros H1 H2 Ew Er. unfold move_phase. rewrite Ew, Er, andb_false_r.
  rewrite (proj2 (Nat.ltb_ge j (vi_pos v))), (proj2 (Nat.ltb_ge j (vi_pos v'))), (proj2 (Nat.eqb_neq j (vi_pos v))) by lia. done.
Qed.

Section Finish.
Context (y : ssys) (v : visit) (c : state_change) (l : list state_change).
Hypothesis Hns : Z.of_nat (length (ss_ns y)) < 2 ^ 32 - 1.
Hypothesis Hch : ss_changes y = c :: l.
Hypothesis Hapi : Forall api_change (c :: l).
Hypothesis Hph : phase_ok (ss_state y) v c (ss_paused y).
Hypothesis Hpg : forall j p, ss_pgs y !! j = Some p -> pg_inv (ss_ns y) p /\ pg_removing p = [].

(** Every group has been passed. *)
Lemma finish_inv y' : (forall j p, ss_pgs y !! j = Some p -> passed (ss_state y) (ss_paused y) p) ->
  (if vi_revert v then subsystem_state_change_revert_done y c l else subsystem_state_change_done y c l 0) = Some y' -> sys_inv y'.
Proof.
  intros HP H. apply Forall_cons in Hapi as [_ Hl].
  assert (HS : exists st, nvmf_subsystem_set_state (ss_state y) (sc_requested c) = (st, true) /\ resting st /\
    forall p, passed (ss_state y) (ss_paused y) p -> rest_phase st (ss_paused y) p).
  { unfold phase_ok in Hph. unfold resting. destruct (ss_state y); try done; destruct Hph as (-> & _); eexists; (split; [reflexivity|]); (split; [set_solver|done]). }
  destruct HS as (st & ES & Hr & HR).
  assert (HG : forall status, nvmf_subsystem_state_change_complete (y <| ss_state := st |>) c l status = Some y' -> sys_inv y').
  { intros status HC. apply (start_changes_inv _ _ _ HC); ysimp; try done. intros j p Hj. destruct (Hpg j p Hj).
    split; [done|]. split; [|done]. by eapply HR, HP. }
  destruct (vi_revert v).
  - unfold subsystem_state_change_revert_done in H. rewrite ES in H. by apply HG in H.
  - unfold subsystem_state_change_done in H. cbn [Z.eqb] in H. rewrite ES in H. cbn in H. by apply HG in H.
Qed.

(** A group has failed. *)
Lemma fail_inv status y' : status <> 0 -> vi_revert v = false -> ss_state y <> SPDK_NVMF_SUBSYSTEM_PAUSING ->
  (forall j p, ss_pgs y !! j = Some p -> not_pausing p) -> subsystem_state_change_done y c l status = Some y' -> sys_inv y'.
Proof.
  intros Hne Hv Hst HP H. unfold subsystem_state_change_done in H. rewrite (proj2 (Z.eqb_neq _ _) Hne) in H. cbv iota beta in H.
  rewrite (proj2 (Z.eqb_neq _ _) Hne) in H. unfold phase_ok in Hph. rewrite Hv in Hph. pose proof Hapi as [Ha Hl]%Forall_cons.
  destruct (ss_state y) eqn:Es; try done; ysimp.
  - destruct Hph as (Er & Eo & _). rewrite Er, Eo in H. cbn in H. injection H as <-. split; ysimp; [done| | |].
    + intros j p Hj. destruct (Hpg j p Hj). split; [done|]. unfold group_phase, removing. ysimp. rewrite andb_false_r. split; [|done].
      unfold move_phase. ysimp. rewrite andb_false_r. cbn. by eapply HP.
    + constructor; [|done]. right. split; [by right|]. destruct Ha as [Ha|[_ Ha]]; [congruence|done].
    + eexists _, _. split; [done|]. split; [by repeat split|]. by right.
  - destruct Hph as (Er & Eo & _). rewrite Er, Eo in H. cbn in H. injection H as <-.
    assert (E0 : sc_nsid c = 0) by (destruct Ha as [Ha|[_ Ha]]; [congruence|done]). split; ysimp; [done| | |].
    + intros j p Hj. destruct (Hpg j p Hj). split; [done|]. unfold group_phase, removing. ysimp. rewrite andb_false_r. split; [|done].
      unfold move_phase. ysimp. rewrite andb_false_r. cbn. by eapply HP.
    + constructor; [|done]. by left.
    + eexists _, _. split; [done|]. split; [by repeat split|]. by right.
  - destruct Hph as (Er & Eo).
    assert (HC : nvmf_subsystem_state_change_complete y c l status = Some y').
    { destruct Eo as [Eo|Eo]; rewrite Er, Eo in H; cbn in H; rewrite <- H; destruct y; cbn in *; by subst. }
    apply (start_changes_inv _ _ _ HC); ysimp; try done; rewrite ?Es; [unfold resting; set_solver|].
    intros j p Hj. destruct (Hpg j p Hj). split; [done|]. split; [|done]. by eapply HP.
Qed.

(** The group at the position has called back. *)
Lemma continue_inv status y' : (vi_pos v < length (ss_pgs y))%nat ->
  (forall j p, ss_pgs y !! j = Some p -> if decide (j = vi_pos v) then (status = 0 -> passed (ss_state y) (ss_paused y) p) /\ not_pausing p
     else move_phase (ss_state y) v (ss_paused y) j p) ->
  (status <> 0 -> vi_revert v = false /\ ss_state y <> SPDK_NVMF_SUBSYSTEM_PAUSING) ->
  subsystem_state_change_continue y v status = Some y' -> sys_inv y'.
Proof.
  intros Hpos HP Hfail H. unfold subsystem_state_change_continue in H. rewrite Hch in H.
  destruct (Z.eqb_spec status 0) as [->|Hne]; cbn [andb] in H.
  - assert (HM : forall j p, ss_pgs y !! j = Some p -> move_phase (ss_state y) (Visit (S (vi_pos v)) false (vi_revert v)) (ss_paused y) j p).
    { intros j p Hj. specialize (HP j p Hj). case_decide as E; [apply behind_move; [cbn; lia|]; by apply HP|].
      destruct (decide (j < vi_pos v)%nat); [apply behind_move; [cbn; lia|]; by eapply move_behind|].
      eapply move_ahead; [| | | |exact HP]; cbn; try done; lia. }
    destruct (Nat.ltb_spec (S (vi_pos v)) (length (ss_pgs y))) as [Hlt|Hge].
    + injection H as <-. split; ysimp; [done| |by rewrite Hch|].
      * intros j p Hj. destruct (Hpg j p Hj) as [HI HR]. split; [done|]. unfold group_phase. ysimp. split; [by apply HM|].
        unfold removing. ysimp. by rewrite andb_false_r.
      * exists c, l. split; [done|]. split; [|by left]. revert Hph. unfold phase_ok. ysimp. destruct (ss_state y); tauto.
    + eapply finish_inv; [|exact H]. intros j p Hj. eapply move_behind; [|by apply HM]. apply lookup_lt_Some in Hj. cbn. lia.
  - destruct (Hfail Hne) as [Hv Hst]. rewrite Hv in H. eapply fail_inv; [done|done|done| |exact H]. intros j p Hj. specialize (HP j p Hj).
    case_decide; [by apply HP|]. unfold move_phase in HP. unfold phase_ok in Hph.
    destruct (ss_state y); try done; repeat case_match; unfold not_pausing, up, down, stopped in *; naive_solver congruence.
Qed.
End Finish.

Lemma quiet_none g : Z.of_nat (length (sg_ns_info g)) < 2 ^ 32 - 1 -> quiet 0 g.
Proof.
  intros Hl i n Hn Hs. exfalso. apply lookup_lt_Some in Hn. unfold selects, SPDK_NVME_GLOBAL_NS_TAG in Hs.
  change (u32 (0 - 1)) with (2 ^ 32 - 1) in Hs. cbn [orb] in Hs. apply orb_true_iff in Hs as [Hs|Hs]; apply Z.eqb_eq in Hs; lia.
Qed.

Lemma pg_inv_length nss p : pg_inv nss p -> Z.of_nat (length nss) < 2 ^ 32 - 1 -> Z.of_nat (length (sg_ns_info (pg_sg p))) < 2 ^ 32 - 1.
Proof. intros [_ _ [E|E] _] H; rewrite E; cbn; lia. Qed.

(** The facts about the groups other than the one that changes. *)
Lemma put_pg_lookup (Q : nat -> poll_group -> Prop) (pgs : list poll_group) j p' i p : (forall i p, pgs !! i = Some p -> Q i p) -> Q j p' ->
  <[j := p']> pgs !! i = Some p -> Q i p.
Proof.
  intros HQ Hp Hi. destruct (decide (i = j)) as [->|Hne].
  - assert (Hlt : (j < length pgs)%nat) by (apply lookup_lt_Some in Hi; by rewrite length_insert in Hi).
    rewrite list_lookup_insert_eq in Hi by done. by injection Hi as <-.
  - rewrite list_lookup_insert_ne in Hi by done. by apply HQ.
Qed.

Lemma removing_other st v j : j <> vi_pos v -> removing st v j = [].
Proof. intros Hj. unfold removing. by rewrite (proj2 (Nat.eqb_neq _ _) Hj). Qed.
Lemma removing_idle st v j : vi_waiting v = false -> removing st v j = [].
Proof. intros E. unfold removing. by rewrite E, andb_false_r. Qed.

Section Turn.
Context (y : ssys) (v : visit) (c : state_change) (l : list state_change) (p : poll_group).
Hypothesis HI : sys_inv y.
Hypothesis Hv : ss_visit y = Some v.
Hypothesis Hch : ss_changes y = c :: l.
Hypothesis Hph : phase_ok (ss_state y) v c (ss_paused y).
Hypothesis Hp : ss_pgs y !! vi_pos v = Some p.

Lemma at_pos : pg_inv (ss_ns y) p /\ move_phase (ss_state y) v (ss_paused y) (vi_pos v) p /\ pg_removing p = removing (ss_state y) v (vi_pos v).
Proof. destruct (si_pg _ HI _ _ Hp) as [H1 H2]. unfold group_phase in H2. rewrite Hv in H2. tauto. Qed.

Lemma others j p' q : <[vi_pos v := p']> (ss_pgs y) !! j = Some q -> j <> vi_pos v ->
  pg_inv (ss_ns y) q /\ move_phase (ss_state y) v (ss_paused y) j q /\ pg_removing q = [].
Proof.
  intros Hj Hne. rewrite list_lookup_insert_ne in Hj by done. destruct (si_pg _ HI _ _ Hj) as [H1 H2]. unfold group_phase in H2.
  rewrite Hv, (removing_other _ _ j) in H2 by done. tauto.
Qed.

(** The group at the position calls back. *)
Lemma turn_calls p' status y' : pg_inv (ss_ns y) p' -> pg_removing p' = [] ->
  (status = 0 -> passed (ss_state y) (ss_paused y) p') -> not_pausing p' ->
  (status <> 0 -> vi_revert v = false /\ ss_state y <> SPDK_NVMF_SUBSYSTEM_PAUSING) ->
  subsystem_state_change_continue (put_pg y (vi_pos v) p') v status = Some y' -> sys_inv y'.
Proof.
  intros HI' HR' H0 Hnp Hf H. assert (Hlt : (vi_pos v < length (ss_pgs y))%nat) by (by eapply lookup_lt_Some).
  eapply (continue_inv (put_pg y (vi_pos v) p') v c l); [exact (si_ns _ HI)|exact Hch| |exact Hph| | | |exact Hf|exact H].
  - pose proof (si_queue _ HI) as HQ. by rewrite Hch in HQ.
  - intros j q Hj. destruct (decide (j = vi_pos v)) as [->|Hne].
    + cbn in Hj. rewrite list_lookup_insert_eq in Hj by done. by injection Hj as <-.
    + destruct (others j p' q Hj Hne) as (? & _ & ?). done.
  - cbn. by rewrite length_insert.
  - intros j q Hj. case_decide as E.
    + subst j. cbn in Hj. rewrite list_lookup_insert_eq in Hj by done. by injection Hj as <-.
    + by apply (others j p' q Hj E).
Qed.

(** The group at the position waits. *)
Lemma turn_waits p' : pg_inv (ss_ns y) p' -> let v' := v <| vi_waiting := true |> in
  pg_removing p' = removing (ss_state y) v' (vi_pos v) -> move_phase (ss_state y) v' (ss_paused y) (vi_pos v) p' ->
  (ss_state y = SPDK_NVMF_SUBSYSTEM_PAUSING \/ ss_state y = SPDK_NVMF_SUBSYSTEM_DEACTIVATING) ->
  sys_inv ((put_pg y (vi_pos v) p') <| ss_visit := Some v' |>).
Proof.
  intros HI' v' HR' HM Hst. assert (Hlt : (vi_pos v < length (ss_pgs y))%nat) by (by eapply lookup_lt_Some).
  split; ysimp; [exact (si_ns _ HI)| |exact (si_queue _ HI)|].
  - intros j q Hj. cbn in Hj. unfold group_phase. ysimp. change (ss_state (put_pg y _ _)) with (ss_state y). change (ss_paused (put_pg y _ _)) with (ss_paused y).
    change (ss_ns (put_pg y _ _)) with (ss_ns y). destruct (decide (j = vi_pos v)) as [->|Hne].
    + rewrite list_lookup_insert_eq in Hj by done. by injection Hj as <-.
    + destruct (others j p' q Hj Hne) as (? & HM' & E). split; [done|]. rewrite removing_other by done. split; [|done].
      revert HM'. unfold move_phase, v'. ysimp. by rewrite !(proj2 (Nat.eqb_neq _ _) Hne).
  - exists c, l. split; [exact Hch|]. split; [|left; cbn; by rewrite length_insert].
    revert Hph. unfold phase_ok. change (ss_state (put_pg y _ _)) with (ss_state y). change (ss_paused (put_pg y _ _)) with (ss_paused y). ysimp.
    destruct Hst as [E|E]; by rewrite E.
Qed.
End Turn.

Lemma visit_inv a y v y' : sys_inv y -> ss_visit y = Some v -> vi_waiting v = false -> (vi_revert v = true -> an_mem a = true) ->
  visit_group a y v = Some y' -> sys_inv y'.
Proof.
  intros HI Hv Hw Hmem H. pose proof (si_visit _ HI) as HV. rewrite Hv in HV. destruct HV as (c & l & Hch & Hph & Hpos).
  unfold visit_group in H. rewrite Hch in H. destruct (ss_pgs y !! vi_pos v) as [p|] eqn:Hp.
  2:{ apply lookup_ge_None in Hp. eapply (finish_inv y v c l); [exact (si_ns _ HI)|exact Hch| |exact Hph| | |exact H].
      - pose proof (si_queue _ HI) as HQ. by rewrite Hch in HQ.
      - intros j q Hj. apply lookup_lt_Some in Hj. lia.
      - intros j q Hj. apply lookup_lt_Some in Hj. lia. }
  destruct (at_pos y v p HI Hv Hp) as (HP & HM & HR). rewrite removing_idle in HR by done.
  destruct (subsystem_state_change_on_pg a y c p) as [[p' o]|] eqn:E; cbn [mbind option_bind] in H; [|done].
  unfold subsystem_state_change_on_pg in E. unfold move_phase in HM. rewrite Hw, andb_false_r, Nat.ltb_irrefl in HM.
  pose proof (si_ns _ HI) as Hns. destruct (ss_state y) eqn:Es; try done; cbn in Hph.
  - pose proof Hph as (Er & Eo & Hrv & _). rewrite Er in E. destruct HM as [HM1 HM2].
    apply add_spec in E as (HI' & R' & Q' & rc & -> & S'); [|done..].
    eapply (turn_calls y v c l p HI Hv Hch ltac:(by rewrite Es) Hp p' rc); rewrite ?Es; [done|congruence| | |done|exact H].
    + intros ->. exact S'.
    + unfold not_pausing. rewrite S'. by destruct (rc =? 0).
  - pose proof Hph as (Er & En & Ho). rewrite Er in E.
    assert (Hnp : not_pausing p) by (unfold not_pausing; destruct (vi_revert v); [done|]; unfold up in HM; by rewrite HM).
    destruct (pause_spec (ss_ns y) (sc_nsid c) p HP ltac:(lia) Hnp) as (p1 & o1 & E1 & HI' & R' & HO). rewrite E in E1. injection E1 as <- <-.
    destruct o as [rc|].
    + destruct HO as (-> & S' & HQ). eapply (turn_calls y v c l p HI Hv Hch ltac:(by rewrite Es) Hp p' 0); rewrite ?Es; [done|congruence| | |done|exact H].
      * intros _. split; [done|]. rewrite En. destruct (vi_revert v); [|by apply HQ]. destruct Ho as [_ ->].
        apply quiet_none. by eapply pg_inv_length.
      * unfold not_pausing. by rewrite S'.
    + destruct HO as [S' HM']. injection H as <-. apply (turn_waits y v c l p HI Hv Hch ltac:(by rewrite Es) Hp p'); rewrite ?Es; [done| | |by left].
      * rewrite R', HR. unfold removing. by rewrite andb_false_r.
      * unfold move_phase. ysimp. rewrite Nat.ltb_irrefl, Nat.eqb_refl. cbn [andb]. split; [done|]. by rewrite En.
  - pose proof Hph as (Er & Eo & Hrv & _). rewrite Er in E.
    destruct (nvmf_poll_group_resume_subsystem _ _ _ _) as [[[p1 o1] rel]|] eqn:E1; cbn in E; [|done]. injection E as <- <-.
    apply resume_spec in E1 as (HI' & R' & rc & -> & N' & S'); [|done|done].
    eapply (turn_calls y v c l p HI Hv Hch ltac:(by rewrite Es) Hp p1 rc); rewrite ?Es; [done|congruence|exact S'|exact N'|done|exact H].
  - pose proof Hph as (Er & Eo). rewrite Er in E. injection E as E. apply (remove_spec (ss_ns y)) in E as (HI' & Q' & HO); [|done|done].
    destruct o as [rc|].
    + destruct HO as (R' & N' & S' & M'). eapply (turn_calls y v c l p HI Hv Hch ltac:(by rewrite Es) Hp p' rc); rewrite ?Es; [done|congruence|exact S'|exact N'| |exact H].
      intros Hne. split; [|done]. destruct (vi_revert v); [|done]. by rewrite M' in Hne by (by apply Hmem).
    + destruct HO as [R' S']. injection H as <-. apply (turn_waits y v c l p HI Hv Hch ltac:(by rewrite Es) Hp p'); rewrite ?Es; [done| | |by right].
      * rewrite R', HR. unfold removing. ysimp. by rewrite Nat.eqb_refl.
      * unfold move_phase. ysimp. by rewrite Nat.ltb_irrefl, Nat.eqb_refl.
Qed.

(** A change of one group that keeps its phase. *)
Lemma put_inv y j p p' : sys_inv y -> ss_pgs y !! j = Some p -> pg_inv (ss_ns y) p' -> group_phase y j p' -> sys_inv (put_pg y j p').
Proof.
  intros [H1 H2 H3 H4] Hj HI HG. split; [done| |done|].
  - intros i q Hi. change (group_phase (put_pg y j p') i q) with (group_phase y i q). change (ss_ns (put_pg y j p')) with (ss_ns y).
    revert Hi. apply (put_pg_lookup (fun i q => pg_inv (ss_ns y) q /\ group_phase y i q)); [done|by split].
  - cbn. by rewrite length_insert.
Qed.

(** The phase depends on the state, the named namespaces and the queue pairs. *)
Lemma phase_same y j p p' : group_phase y j p -> sg_state (pg_sg p') = sg_state (pg_sg p) -> pg_removing p' = pg_removing p ->
  (forall n, quiet n (pg_sg p) -> quiet n (pg_sg p')) -> (forall n, marked n (pg_sg p) -> marked n (pg_sg p')) ->
  (down p -> down p') -> group_phase y j p'.
Proof.
  intros HG Es Er HQ HM HD. unfold group_phase in *. rewrite Er. destruct (ss_visit y) as [v|]; destruct HG as [HG ->]; (split; [|done]).
  - unfold move_phase, stopped, up, not_pausing in *. rewrite Es.
    destruct (ss_state y); try done; repeat case_match; first [done|by apply HD|destruct HG; split; by auto].
  - unfold rest_phase, stopped, up, not_pausing in *. rewrite Es. destruct (ss_state y); try done; first [by apply HD|destruct HG; split; by auto].
Qed.

(** Only the group a pause waits for is pausing. *)
Lemma pausing_waits y j p : sys_inv y -> ss_pgs y !! j = Some p -> sg_state (pg_sg p) = SPDK_NVMF_SUBSYSTEM_PAUSING ->
  exists v, ss_visit y = Some v /\ ss_state y = SPDK_NVMF_SUBSYSTEM_PAUSING /\ j = vi_pos v /\ vi_waiting v = true /\ marked (ss_paused y) (pg_sg p).
Proof.
  intros HI Hj Hs. destruct (si_pg _ HI _ _ Hj) as [_ HG]. unfold group_phase in HG. destruct (ss_visit y) as [v|] eqn:Hv; destruct HG as [HG _].
  - exists v. split; [done|]. unfold move_phase in HG.
    unfold stopped, up, down, not_pausing in HG. rewrite Hs in HG.
    destruct (j <? vi_pos v)%nat, ((j =? vi_pos v)%nat && vi_waiting v) eqn:Ew, (vi_revert v), (ss_state y); try done; try (by destruct HG).
    all: apply andb_true_iff in Ew as [E Hw]; apply Nat.eqb_eq in E; by destruct HG.
  - exfalso. unfold rest_phase, stopped, up, down, not_pausing in HG. rewrite Hs in HG. destruct (ss_state y); try done; by destruct HG.
Qed.

(** Only the group a removal waits for has a message, and it has one. *)
Lemma removing_waits y j p k cb : sys_inv y -> ss_pgs y !! j = Some p -> pg_removing p !! k = Some cb ->
  exists v, ss_visit y = Some v /\ ss_state y = SPDK_NVMF_SUBSYSTEM_DEACTIVATING /\ j = vi_pos v /\ vi_waiting v = true /\
    pg_removing p = [true] /\ k = 0%nat /\ cb = true /\ sg_state (pg_sg p) = SPDK_NVMF_SUBSYSTEM_INACTIVE.
Proof.
  intros HI Hj Hk. destruct (si_pg _ HI _ _ Hj) as [_ HG]. unfold group_phase in HG. destruct (ss_visit y) as [v|] eqn:Hv; destruct HG as [HG HR]; [|by rewrite HR in Hk].
  exists v. split; [done|]. rewrite HR in Hk. unfold removing in HR, Hk. destruct (_ && _) eqn:E; [|done]. rewrite HR.
  apply andb_true_iff in E as [E1 E2]. pose proof E1 as E0. apply andb_true_iff in E1 as [E1 Hw]. apply Nat.eqb_eq in E1. apply bool_decide_eq_true_1 in E2.
  destruct k as [|[|]]; [|done|done]. injection Hk as <-. unfold move_phase in HG. rewrite E2, E1, Nat.ltb_irrefl, Nat.eqb_refl, Hw in HG. by repeat split.
Qed.

Lemma io_inv y j p l g b y' : sys_inv y -> ss_pgs y !! j = Some p -> io_step (pg_sg p) l g b ->
  call_back (put_pg y j (p <| pg_sg := g |>)) b = Some y' -> sys_inv y'.
Proof.
  intros HI Hj Hs H. destruct (si_pg _ HI _ _ Hj) as [HP HG]. pose proof (io_step_pg _ _ _ _ _ Hs HP) as HP'.
  destruct (io_step_state _ _ _ _ Hs) as [Est Hpa]. destruct b.
  - destruct (pausing_waits y j p HI Hj (Hpa eq_refl)) as (v & Hv & Es & -> & Hw & HM). cbn in H. rewrite Hv in H. cbn in H.
    pose proof (si_visit _ HI) as HV. rewrite Hv in HV. destruct HV as (c & cs & Hch & Hph & _).
    assert (HR : pg_removing p = []) by (unfold group_phase, removing in HG; rewrite Hv, Es in HG; destruct HG as [_ ->]; by rewrite andb_false_r).
    eapply (turn_calls y v c cs p HI Hv Hch Hph Hj (p <| pg_sg := g |>) 0); rewrite ?Es; [done|done| | |done|exact H].
    + intros _. split; [done|]. eapply io_step_paused; [exact Hs|apply HP|done].
    + unfold not_pausing. cbn. by rewrite Est.
  - injection H as <-. apply (put_inv _ _ p); [done|done|done|]. apply (phase_same _ _ p); [done|done|done| | |].
    + intros n. by eapply io_step_quiet.
    + intros n. by eapply io_step_marked.
    + unfold down. cbn. by rewrite Est.
Qed.

Lemma removal_inv y j p k cb p' fin y' : sys_inv y -> ss_pgs y !! j = Some p -> pg_removing p !! k = Some cb ->
  nvmf_poll_group_remove_subsystem_msg cb (p <| pg_removing := delete k (pg_removing p) |>) = (p', fin) ->
  call_back (put_pg y j p') (fin && cb) = Some y' -> sys_inv y'.
Proof.
  intros HI Hj Hk Hm H. destruct (removing_waits y j p k cb HI Hj Hk) as (v & Hv & Es & -> & Hw & HR & -> & -> & Hs).
  rewrite HR in Hm. cbn [delete list_delete] in Hm. destruct (si_pg _ HI _ _ Hj) as [HP HG].
  pose proof (si_visit _ HI) as HV. rewrite Hv in HV. destruct HV as (c & l & Hch & Hph & _).
  apply (remove_msg_spec (ss_ns y)) in Hm as (HI' & S' & Q' & R' & F'); [|by destruct HP; split|done]. destruct fin; cbn [andb] in H.
  - cbn in H. rewrite Hv in H. cbn in H. eapply (turn_calls y v c l p HI Hv Hch Hph Hj p' 0); rewrite ?Es; [done|done| | |done|exact H].
    + intros _. split; [done|]. rewrite Q'. by apply F'.
    + unfold not_pausing. by rewrite S'.
  - injection H as <-. apply (put_inv _ _ p); [done|done|done|]. unfold group_phase in *. rewrite Hv, Es in *. destruct HG as [_ HG].
    split; [unfold move_phase; by rewrite Nat.ltb_irrefl, Nat.eqb_refl, Hw|]. by rewrite <- HG, R', HR.
Qed.

Lemma request_inv y id nsid req y' : sys_inv y -> api_request nsid req -> nvmf_subsystem_state_change y id nsid req = Some y' -> sys_inv y'.
Proof.
  intros HI Hq H. unfold nvmf_subsystem_state_change in H. set (c := StateChange _ _ _ _) in H.
  assert (Hc : api_change c) by (destruct Hq as [?|[? ->]]; [by left|by right]). pose proof HI as [H1 H2 H3 H4].
  destruct (ss_visit y) as [v|] eqn:Hv.
  - destruct H4 as (c0 & l & Hch & Hph & Hpos). rewrite Hch in H. injection H as <-. split; ysimp; [done| | |].
    + intros j p Hj. exact (H2 j p Hj).
    + apply (Forall_app_2 _ (c0 :: l) [c]); [by rewrite <- Hch|by constructor].
    + rewrite Hv. by exists c0, (l ++ [c]).
  - destruct H4 as [Hch Hr]. rewrite Hch in H. eapply start_changes_inv; [exact H|done|done| |by constructor].
    intros j p Hj. destruct (H2 j p Hj) as [? HG]. unfold group_phase in HG. by rewrite Hv in HG.
Qed.

Lemma namespaces_inv y nss : sys_inv y -> ns_change_ok y nss -> sys_inv (y <| ss_ns := nss |>).
Proof.
  intros HI (Hlen & _ & HC). pose proof HI as [H1 H2 H3 H4]. split; ysimp; [by rewrite Hlen| |done|done].
  intros j p Hj. destruct (H2 j p Hj) as [[PG PV PL PA] HG]. split; [|exact HG]. split; [done|done|by rewrite Hlen|].
  intros i c' n v Hc' Hn Hw. destruct (lookup_lt_is_Some_2 (ss_ns y) i) as [c Hi]; [apply lookup_lt_Some in Hc'; lia|].
  destruct (HC i c c' Hi Hc') as [HS|[[Es HS]|[Es HE]]].
  - destruct (PA i c n v Hi Hn Hw) as [Ha|Hd]; [|by right]. left. unfold same_ns in HS. destruct c as [c|]; [|done].
    destruct c' as [c'|]; [|done]. injection HS as HS. cbn in *. by rewrite <- HS.
  - right. destruct (PA i c n v Hi Hn Hw) as [Ha|Hd]; [|done]. destruct HS as [->|HS]; [done|].
    assert (HQ : quiet (ss_paused y) (pg_sg p)).
    { unfold group_phase in HG. rewrite Es in HG. destruct (ss_visit y); [by destruct HG|]. destruct HG as [[_ HQ] _]. exact HQ. }
    destruct (HQ i n Hn HS). split; [by left|done].
  - eapply Forall_lookup_1 in HE; [|exact Hj]. cbv beta in HE. by rewrite HE in Hn.
Qed.

Lemma sstep_inv y y' : sys_inv y -> sstep y y' -> sys_inv y'.
Proof.
  intros HI H. destruct H as [id nsid req y' Hc H|a v y' Hv Hw Hm H|j p l g b y' Hj Hs H|j p k cb p' fin y' Hj Hk Hm H|j p q Hj Hs|j p k Hj|j p a p' rc b Hj Hu|nss Hn].
  - by eapply request_inv.
  - by eapply visit_inv.
  - by eapply io_inv.
  - by eapply removal_inv.
  - destruct (si_pg _ HI _ _ Hj) as [HP HG]. apply (put_inv _ _ p); [done|done|by destruct HP; split|].
    apply (phase_same _ _ p); try done. intros [E _]. by rewrite Hs in E.
  - destruct (si_pg _ HI _ _ Hj) as [HP HG]. apply (put_inv _ _ p); [done|done|by destruct HP; split|].
    apply (phase_same _ _ p); try done. intros [E Eq]. split; [done|]. cbn. by rewrite Eq.
  - destruct (si_pg _ HI _ _ Hj) as [HP HG]. destruct (update_spec _ _ _ _ _ _ _ Hu HP) as (HP' & (S1 & S2 & S3 & S4 & S5) & HQ & HM & _).
    apply (put_inv _ _ p); [done|done|done|]. apply (phase_same _ _ p); try done. intros [E Eq]. by split; congruence.
  - by apply namespaces_inv.
Qed.

Lemma init_inv nss groups : Z.of_nat (length nss) < 2 ^ 32 - 1 -> sys_inv (ss_init nss groups).
Proof.
  intros Hn. split; cbn; [done| |done|split; [done|unfold resting; set_solver]].
  intros j p [-> _]%lookup_replicate_1. split; [|by repeat split]. split; [|done|by left|done]. split; cbn; try done; lia.
Qed.

Lemma reachable_inv nss groups y : Z.of_nat (length nss) < 2 ^ 32 - 1 -> ss_reachable nss groups y -> sys_inv y.
Proof.
  intros Hn H. unfold ss_reachable in H. pose proof (init_inv nss groups Hn) as HI. revert HI.
  induction H as [|a b c Hab _ IH]; [done|]. intros HI. apply IH. by eapply sstep_inv.
Qed.

(** ** Theorems *)

(** C4. A paused subsystem is quiescent, whatever changes of state, commands,
    updates and connections have interleaved: in every poll group no
    administrative command is outstanding and none can start, and no command of
    a namespace that the pause was for is outstanding or can start.  (What the
    pause was for is the identifier it was carried out with, kept in 16 bits; a
    pause that finds the subsystem paused is not carried out.)  And a
    group never holds, with commands outstanding, a channel to a namespace
    that the subsystem does not have any more. *)
Theorem paused_subsystem_quiescent nss groups y (Hn : Z.of_nat (length nss) < 2 ^ 32 - 1) (HR : ss_reachable nss groups y) :
  (ss_state y = SPDK_NVMF_SUBSYSTEM_PAUSED -> forall p, p ∈ ss_pgs y ->
     sg_mgmt_io_outstanding (pg_sg p) = 0 /\
     (forall i n, sg_ns_info (pg_sg p) !! i = Some n -> selects (ss_paused y) i = true -> ni_io_outstanding n = 0) /\
     (forall l g b, io_step (pg_sg p) l g b -> sg_mgmt_io_outstanding g = 0 /\
        forall i n, sg_ns_info g !! i = Some n -> selects (ss_paused y) i = true -> ni_io_outstanding n = 0)) /\
  (forall p i c n v, p ∈ ss_pgs y -> ss_ns y !! i = Some c -> sg_ns_info (pg_sg p) !! i = Some n -> pg_views p !! i = Some v ->
     0 < ni_io_outstanding n -> exists k, c = Some k /\ ni_channel n = true /\ nv_uuid v = nc_uuid k).
Proof.
  pose proof (reachable_inv _ _ _ Hn HR) as HI. split.
  - intros Es p [j Hj]%list_elem_of_lookup_1. destruct (si_pg _ HI _ _ Hj) as [HP HG].
    assert (HS : stopped (ss_paused y) p) by (unfold group_phase in HG; rewrite Es in HG; destruct (ss_visit y); by destruct HG).
    destruct HS as [Sp HQ]. split; [by apply (gi_paused _ (pi_group _ _ HP))|]. split; [intros i n Hi Hs; by apply (HQ i n)|].
    intros l g b H. pose proof (io_step_inv _ _ _ _ H (pi_group _ _ HP)) as HG'. destruct (io_step_state _ _ _ _ H) as [E1 E2].
    split; [apply (gi_paused _ HG'); rewrite E1; by destruct b|]. intros i n Hi Hs. by apply (io_step_quiet _ _ _ _ _ H HQ i n).
  - intros p i c n v [j Hj]%list_elem_of_lookup_1 Hc Hi Hw Ho. destruct (si_pg _ HI _ _ Hj) as [HP _].
    destruct (pi_agree _ _ HP i c n v Hc Hi Hw) as [Ha|[_ E]]; [|lia]. destruct c as [k|]; [|done]. by exists k.
Qed.

(** A subsystem with two namespaces and one group. *)
Definition demo_conf (id : Z) : ns_conf := NsConf id 8 resv_init.
Definition demo_nss : list (option ns_conf) := [Some (demo_conf 1); Some (demo_conf 2)].
Definition demo_change (id : nat) (nsid : Z) (st : spdk_nvmf_subsystem_state) : state_change :=
  StateChange id nsid st SPDK_NVMF_SUBSYSTEM_INACTIVE.

Ltac run_request id nsid req := eapply rtc_l; [apply (ss_request _ id nsid req); [first [by left | right; split; [by auto|reflexivity]]|vm_compute; reflexivity]|].
Ltac run_visit := eapply rtc_l; [eapply (ss_visits _ (Answers true true [])); [reflexivity|reflexivity|done|vm_compute; reflexivity]|].

(** The subsystem is started, a command of the second namespace begins, and
    pauses of the first and of the second namespace are requested; the groups
    have not been visited. *)
Lemma demo_pausing : exists y y' c p n, ss_reachable demo_nss 1 y /\ ss_changes y = [c; demo_change 2 2 SPDK_NVMF_SUBSYSTEM_PAUSED] /\
  sstep y y' /\ ss_state y' = SPDK_NVMF_SUBSYSTEM_PAUSED /\ ss_paused y' = 1 /\ ss_changes y' = [] /\ (2%nat, 0) ∈ ss_answers y' /\
  ss_pgs y' !! 0%nat = Some p /\ sg_ns_info (pg_sg p) !! 1%nat = Some n /\ active n /\ ni_io_outstanding n = 1.
Proof.
  eexists _, _, _, _, _. split.
  - run_request 0%nat 0 SPDK_NVMF_SUBSYSTEM_ACTIVE. run_visit.
    eapply rtc_l; [eapply (ss_io _ 0); [reflexivity|by eapply (io_starts _ 1)|reflexivity]|].
    run_request 1%nat 1 SPDK_NVMF_SUBSYSTEM_PAUSED. run_request 2%nat 2 SPDK_NVMF_SUBSYSTEM_PAUSED. apply rtc_refl.
  - split; [reflexivity|]. split; [eapply (ss_visits _ (Answers true true [])); [reflexivity|reflexivity|done|vm_compute; reflexivity]|].
    split; [reflexivity|]. split; [reflexivity|]. split; [reflexivity|]. split; [set_solver|]. by repeat split.
Qed.

Lemma paused_subsystem_quiescent_witness : exists y, ss_reachable demo_nss 1 y /\ ss_state y = SPDK_NVMF_SUBSYSTEM_PAUSED /\
  forall p, p ∈ ss_pgs y -> sg_mgmt_io_outstanding (pg_sg p) = 0 /\ forall n, sg_ns_info (pg_sg p) !! 0%nat = Some n -> ni_io_outstanding n = 0.
Proof.
  destruct demo_pausing as (y & y' & _ & _ & _ & HR & _ & Hs & Es & Ep & _). exists y'.
  assert (HR' : ss_reachable demo_nss 1 y') by (by eapply rtc_r). split; [done|]. split; [done|]. intros p Hp.
  destruct (proj1 (paused_subsystem_quiescent demo_nss 1 y' ltac:(done) HR') Es p Hp) as (H1 & H2 & _). split; [done|].
  intros n Hn. apply (H2 0%nat n Hn). by rewrite Ep.
Defined.

(** A pause that finds the subsystem paused is answered with success and
    does nothing, even when it is for another namespace than the pause before
    it: no group is touched.  So a reachable state exists in which the pause of
    a namespace has been answered with success while the namespace is active
    with a command outstanding. *)
Theorem second_pause_does_nothing :
  (forall y id nsid, ss_state y = SPDK_NVMF_SUBSYSTEM_PAUSED -> ss_changes y = [] ->
     nvmf_subsystem_state_change y id nsid SPDK_NVMF_SUBSYSTEM_PAUSED =
       Some (y <| ss_answers := ss_answers y ++ [(id, 0)] |> <| ss_changes := [] |> <| ss_visit := None |>)) /\
  exists y y' c p n, ss_reachable demo_nss 1 y /\ ss_changes y = [c; demo_change 2 2 SPDK_NVMF_SUBSYSTEM_PAUSED] /\ sstep y y' /\
    ss_state y' = SPDK_NVMF_SUBSYSTEM_PAUSED /\ ss_changes y' = [] /\ (2%nat, 0) ∈ ss_answers y' /\
    ss_pgs y' !! 0%nat = Some p /\ sg_ns_info (pg_sg p) !! 1%nat = Some n /\ active n /\ ni_io_outstanding n = 1.
Proof.
  split.
  - intros y id nsid Es Ec. unfold nvmf_subsystem_state_change. rewrite Ec. cbn [start_changes]. unfold nvmf_subsystem_do_state_change.
    rewrite Es, bool_decide_true by done. cbn. destruct y; cbn in *; by subst.
  - destruct demo_pausing as (y & y' & c & p & n & H). exists y, y', c, p, n. tauto.
Qed.

(** A pause for all namespaces pauses none of them: the global namespace
    tag is kept in 16 bits and then names the single namespace 65535.  So the
    pause of the whole subsystem is answered with success while a namespace is
    active with a command outstanding. *)
Theorem pause_of_all_pauses_none :
  (forall i, selects (u16 SPDK_NVME_GLOBAL_NS_TAG) i = true <-> Z.of_nat i = 65534) /\
  exists y y' y'' p n, ss_reachable demo_nss 1 y /\
    nvmf_subsystem_state_change y 1 SPDK_NVME_GLOBAL_NS_TAG SPDK_NVMF_SUBSYSTEM_PAUSED = Some y' /\ sstep y' y'' /\
    ss_state y'' = SPDK_NVMF_SUBSYSTEM_PAUSED /\ ss_changes y'' = [] /\ (1%nat, 0) ∈ ss_answers y'' /\
    ss_pgs y'' !! 0%nat = Some p /\ sg_ns_info (pg_sg p) !! 1%nat = Some n /\ active n /\ ni_io_outstanding n = 1.
Proof.
  split.
  - intros i. unfold selects. change (u16 SPDK_NVME_GLOBAL_NS_TAG) with 65535. cbn [Z.eqb SPDK_NVME_GLOBAL_NS_TAG Pos.eqb orb].
    change (u32 (65535 - 1)) with 65534. rewrite Z.eqb_eq. lia.
  - eexists _, _, _, _, _. split.
    + run_request 0%nat 0 SPDK_NVMF_SUBSYSTEM_ACTIVE. run_visit.
      eapply rtc_l; [eapply (ss_io _ 0); [reflexivity|by eapply (io_starts _ 1)|reflexivity]|]. apply rtc_refl.
    + split; [vm_compute; reflexivity|]. split; [eapply (ss_visits _ (Answers true true [])); [reflexivity|reflexivity|done|vm_compute; reflexivity]|].
      split; [reflexivity|]. split; [reflexivity|]. split; [set_solver|]. by repeat split.
Qed.

(** ** A stop that fails *)

Definition dead (y : ssys) : Prop := ss_state y = SPDK_NVMF_SUBSYSTEM_DEACTIVATING /\ ss_changes y = [] /\ ss_visit y = None.

Lemma dead_request y id nsid req y' : dead y -> api_request nsid req -> nvmf_subsystem_state_change y id nsid req = Some y' ->
  dead y' /\ ss_answers y' = ss_answers y ++ [(id, -1)].
Proof.
  intros (Es & Ec & Ev) Hc. unfold nvmf_subsystem_state_change. rewrite Ec. cbn [start_changes]. rewrite Es.
  unfold nvmf_subsystem_do_state_change. destruct Hc as [Hc|[[Hc|Hc] _]]; subst req; cbn; intros [= <-]; by repeat split.
Qed.

Lemma dead_step y y' : dead y -> sstep y y' -> dead y'.
Proof.
  intros HD H. pose proof HD as (Es & Ec & Ev).
  destruct H as [id nsid req y' Hc H|a v y' Hv Hw Hm H|j p l g b y' Hj Hs H|j p k cb p' fin y' Hj Hk Hm H|j p q Hj Hs|j p k Hj|j p a p' rc b Hj Hu|nss Hn]; try done.
  - by eapply dead_request.
  - congruence.
  - destruct b; cbn in H; [by rewrite Ev in H|]. by injection H as <-.
  - destruct (fin && cb); cbn in H; [by rewrite Ev in H|]. by injection H as <-.
Qed.

(** A stop of the subsystem that fails in one group, for want of memory for
    the context of the removal, leaves the subsystem deactivating, because
    there is no way back from that state; from then on it never leaves it, and
    every start, stop, pause or resume is answered with -1. *)
Theorem failed_stop_is_final :
  (exists y, ss_reachable demo_nss 1 y /\ dead y /\ ss_answers y = [(0%nat, 0); (1%nat, -1)]) /\
  forall y y', dead y -> rtc sstep y y' -> dead y' /\
    forall id nsid req y'', api_request nsid req -> nvmf_subsystem_state_change y' id nsid req = Some y'' -> ss_answers y'' = ss_answers y' ++ [(id, -1)].
Proof.
  split.
  - eexists. split.
    + run_request 0%nat 0 SPDK_NVMF_SUBSYSTEM_ACTIVE. run_visit. run_request 1%nat 0 SPDK_NVMF_SUBSYSTEM_INACTIVE.
      eapply rtc_l; [eapply (ss_visits _ (Answers false false [])); [reflexivity|reflexivity|done|vm_compute; reflexivity]|]. apply rtc_refl.
    + by repeat split.
  - intros y y' HD H. assert (HD' : dead y') by (induction H; [done|by eauto using dead_step]). split; [done|].
    intros id nsid req y'' Hc H'. by eapply dead_request.
Qed.
