(* ===== verification/SubsystemProgress.v ===== *)
(** * Every change of a subsystem's state is answered

    The changes requested of a subsystem are answered in the order of the
    requests, each once, and cannot be kept from their end by anything but the
    commands and queue pairs they wait for: the visits never get stuck, and
    no other step of the groups leads away from the end. *)
From S2P Require Import Prelude NvmeSpec Iov World Request Ctrlr Reservation ReservationSync PollGroup SubsystemState.

(** ** Order *)

(** The changes answered, then those still to be answered. *)
Definition ids (y : ssys) : list nat := (fst <$> ss_answers y) ++ (sc_id <$> ss_changes y).

Lemma do_change_id st c st' c' o : nvmf_subsystem_do_state_change st c = Some (st', c', o) -> sc_id c' = sc_id c.
Proof.
  unfold nvmf_subsystem_do_state_change. case_bool_decide; [by intros [= _ <- _]|].
  destruct (nvmf_subsystem_get_intermediate_state _ _); cbn; [|done]. destruct (nvmf_subsystem_set_state _ _). by intros [= _ <- _].
Qed.

Lemma start_changes_ids y l y' : start_changes y l = Some y' -> ids y' = (fst <$> ss_answers y) ++ (sc_id <$> l).
Proof.
  revert y. induction l as [|c l IH]; intros y H; cbn [start_changes] in H; [by injection H as <-|].
  destruct (nvmf_subsystem_do_state_change _ c) as [[[st c'] o]|] eqn:E; cbn [mbind option_bind] in H; [|done].
  pose proof (do_change_id _ _ _ _ _ E) as Eid.
  destruct o as [status|].
  - apply IH in H. ysimp. rewrite H. ysimp. rewrite fmap_app, <- app_assoc. cbn. by rewrite Eid.
  - injection H as <-. unfold ids. ysimp. cbn. by rewrite Eid.
Qed.

Lemma complete_ids y c l status y' : nvmf_subsystem_state_change_complete y c l status = Some y' ->
  ids y' = (fst <$> ss_answers y) ++ sc_id c :: (sc_id <$> l).
Proof. intros H%start_changes_ids. rewrite H. ysimp. by rewrite fmap_app, <- app_assoc. Qed.

Lemma done_ids y c l status y' : subsystem_state_change_done y c l status = Some y' -> ids y' = (fst <$> ss_answers y) ++ sc_id c :: (sc_id <$> l).
Proof.
  unfold subsystem_state_change_done. destruct (if status =? 0 then _ else _) as [st rc]. destruct (rc =? 0); [by intros H%complete_ids|].
  destruct (nvmf_subsystem_get_intermediate_state _ _); cbn [mbind option_bind]; [|done].
  destruct (nvmf_subsystem_set_state _ _) as [st' []]; cbn [negb]; [|by intros H%complete_ids]. by intros [= <-].
Qed.

Lemma revert_ids y c l y' : subsystem_state_change_revert_done y c l = Some y' -> ids y' = (fst <$> ss_answers y) ++ sc_id c :: (sc_id <$> l).
Proof. unfold subsystem_state_change_revert_done. destruct (nvmf_subsystem_set_state _ _). by intros H%complete_ids. Qed.

Lemma continue_ids y v status y' : subsystem_state_change_continue y v status = Some y' -> ids y' = ids y.
Proof.
  unfold subsystem_state_change_continue. destruct (ss_changes y) as [|c l] eqn:E; [done|].
  replace (ids y) with ((fst <$> ss_answers y) ++ sc_id c :: (sc_id <$> l)) by (unfold ids; by rewrite E).
  destruct (_ && _); [by intros [= <-]; unfold ids; ysimp; rewrite E|]. destruct (vi_revert v); [apply revert_ids|apply done_ids].
Qed.

Lemma call_back_ids y b y' : call_back y b = Some y' -> ids y' = ids y.
Proof.
  unfold call_back. destruct b; [|by intros [= <-]]. destruct (ss_visit y) as [v|]; cbn; [|done]. apply continue_ids.
Qed.

Lemma visit_ids a y v y' : visit_group a y v = Some y' -> ids y' = ids y.
Proof.
  unfold visit_group. destruct (ss_changes y) as [|c l] eqn:E; [done|].
  destruct (ss_pgs y !! vi_pos v) as [p|].
  - destruct (subsystem_state_change_on_pg _ _ _ _) as [[p' [status|]]|]; cbn [mbind option_bind]; [|by intros [= <-]|done].
    by intros H%continue_ids.
  - replace (ids y) with ((fst <$> ss_answers y) ++ sc_id c :: (sc_id <$> l)) by (unfold ids; by rewrite E).
    destruct (vi_revert v); [apply revert_ids|apply done_ids].
Qed.

(** A step that is not a request. *)
Lemma request_ids y id nsid req y' : nvmf_subsystem_state_change y id nsid req = Some y' -> ids y' = ids y ++ [id].
Proof.
  unfold nvmf_subsystem_state_change. destruct (ss_changes y) as [|c0 l] eqn:E.
  - intros H%start_changes_ids. rewrite H. unfold ids. by rewrite E, app_nil_r.
  - intros [= <-]. unfold ids. ysimp. rewrite E, <- app_assoc. cbn. by rewrite fmap_app.
Qed.

(** ** What the changes of state leave alone *)

Definition same_groups (y y' : ssys) : Prop := ss_ns y' = ss_ns y /\ ss_pgs y' = ss_pgs y.

Lemma start_changes_keeps y l y' : start_changes y l = Some y' -> same_groups y y'.
Proof.
  revert y. induction l as [|c l IH]; intros y H; cbn [start_changes] in H; [by injection H as <-|].
  destruct (nvmf_subsystem_do_state_change _ c) as [[[st c'] [status|]]|]; cbn [mbind option_bind] in H; [|by injection H as <-|done].
  by apply IH in H.
Qed.

Lemma revert_keeps y c l y' : subsystem_state_change_revert_done y c l = Some y' -> same_groups y y'.
Proof. unfold subsystem_state_change_revert_done. destruct (nvmf_subsystem_set_state _ _). by intros H%start_changes_keeps. Qed.

Lemma done_keeps y c l status y' : subsystem_state_change_done y c l status = Some y' -> same_groups y y'.
Proof.
  unfold subsystem_state_change_done. destruct (if status =? 0 then _ else _) as [st rc]. destruct (rc =? 0); [by intros H%start_changes_keeps|].
  destruct (nvmf_subsystem_get_intermediate_state _ _); cbn [mbind option_bind]; [|done].
  destruct (nvmf_subsystem_set_state _ _) as [st' []]; cbn [negb]; [|by intros H%start_changes_keeps]. by intros [= <-].
Qed.

Lemma continue_keeps y v status y' : subsystem_state_change_continue y v status = Some y' -> same_groups y y'.
Proof.
  unfold subsystem_state_change_continue. destruct (ss_changes y) as [|c l]; [done|].
  destruct (_ && _); [by intros [= <-]|]. destruct (vi_revert v); [apply revert_keeps|apply done_keeps].
Qed.

Lemma call_back_keeps y b y' : call_back y b = Some y' -> same_groups y y'.
Proof. unfold call_back. destruct b; [|by intros [= <-]]. destruct (ss_visit y) as [v|]; cbn; [|done]. apply continue_keeps. Qed.

Lemma visit_keeps a y v y' : visit_group a y v = Some y' -> ss_ns y' = ss_ns y.
Proof.
  unfold visit_group. destruct (ss_changes y) as [|c l]; [done|]. destruct (ss_pgs y !! vi_pos v) as [p|].
  - destruct (subsystem_state_change_on_pg _ _ _ _) as [[p' [status|]]|]; cbn [mbind option_bind]; [|by intros [= <-]|done].
    by intros [-> _]%continue_keeps.
  - destruct (vi_revert v); [by intros [-> _]%revert_keeps|by intros [-> _]%done_keeps].
Qed.

Lemma sstep_confs y y' : sstep y y' -> confs_ok (ss_ns y) -> confs_ok (ss_ns y').
Proof.
  intros H HC. destruct H as [id nsid req y' Hc H|a v y' Hv Hw Hm H|j p l g b y' Hj Hs H|j p k cb p' fin y' Hj Hk Hm H|j p q Hj Hs|j p k Hj|j p a p' rc b Hj Hu|nss Hn]; try done.
  - unfold nvmf_subsystem_state_change in H. destruct (ss_changes y); [by apply start_changes_keeps in H as [-> _]|by injection H as <-].
  - by rewrite (visit_keeps _ _ _ _ H).
  - by apply call_back_keeps in H as [-> _].
  - by apply call_back_keeps in H as [-> _].
  - apply Hn.
Qed.

(** ** Progress *)

(** The turns left: two visits for every change, one of them to revert it. *)
Definition rank (y : ssys) : nat :=
  match ss_visit y with
  | None => 0
  | Some v => (2 * length (ss_changes y) - (if vi_revert v then 1 else 0)) * S (length (ss_pgs y)) + (length (ss_pgs y) - vi_pos v) + 1
  end.

Lemma do_change_some st c : api_change c -> is_Some (nvmf_subsystem_do_state_change st c).
Proof.
  intros Hc. unfold nvmf_subsystem_do_state_change. case_bool_decide; [done|].
  assert (is_Some (nvmf_subsystem_get_intermediate_state st (sc_requested c))) as [im ->]
    by (destruct Hc as [->|[[->| ->] _]]; cbn; eauto). cbn. destruct (nvmf_subsystem_set_state _ _). done.
Qed.

Lemma start_changes_some y l : Forall api_change l -> exists y', start_changes y l = Some y' /\
  (rank y' <= 2 * length l * S (length (ss_pgs y)) + length (ss_pgs y) + 1)%nat.
Proof.
  revert y. induction l as [|c l IH]; intros y Hl; cbn [start_changes]; [eexists; split; [done|]; cbn; lia|].
  apply Forall_cons in Hl as [Hc Hl]. destruct (do_change_some (ss_state y) c Hc) as [[[st c'] o] ->]. cbn [mbind option_bind].
  destruct o as [status|].
  - destruct (IH (y <| ss_state := st |> <| ss_answers := ss_answers (y <| ss_state := st |>) ++ [(sc_id c', status)] |>) Hl) as (y' & -> & Hr).
    eexists. split; [done|]. revert Hr. ysimp. cbn [length]. nia.
  - eexists. split; [done|]. unfold rank. ysimp. cbn [length]. lia.
Qed.

Lemma complete_some y c l status : Forall api_change l -> exists y', nvmf_subsystem_state_change_complete y c l status = Some y' /\
  (rank y' <= 2 * length l * S (length (ss_pgs y)) + length (ss_pgs y) + 1)%nat.
Proof. intros Hl. exact (start_changes_some (y <| ss_answers := ss_answers y ++ [(sc_id c, status)] |>) l Hl). Qed.

(** The end of a turn, and of the visit. *)
Section Turns.
Context (y : ssys) (v : visit) (c : state_change) (l : list state_change).
Hypothesis Hch : ss_changes y = c :: l.
Hypothesis Hapi : Forall api_change (c :: l).
Hypothesis Hph : phase_ok (ss_state y) v c (ss_paused y).
Hypothesis Hpos : (vi_pos v <= length (ss_pgs y))%nat.
Hypothesis Hv : ss_visit y = Some v.

Let below (o : option ssys) : Prop := exists y', o = Some y' /\ (rank y' < rank y)%nat.

Lemma complete_below st status : below (nvmf_subsystem_state_change_complete (y <| ss_state := st |>) c l status).
Proof.
  pose proof Hapi as [_ Hl]%Forall_cons. destruct (complete_some (y <| ss_state := st |>) c l status Hl) as (y' & -> & Hr).
  exists y'. split; [done|]. revert Hr. ysimp. unfold rank at 3. rewrite Hv, Hch. cbn [length]. destruct (vi_revert v); nia.
Qed.

Lemma done_below status : vi_revert v = false -> below (subsystem_state_change_done y c l status).
Proof.
  intros Er. unfold subsystem_state_change_done. destruct (if status =? 0 then _ else _) as [st rc].
  destruct (rc =? 0); [apply complete_below|].
  assert (is_Some (nvmf_subsystem_get_intermediate_state (sc_requested c) (sc_original c))) as [im ->].
  { unfold phase_ok in Hph. rewrite Er in Hph. destruct (ss_state y); try done.
    - destruct Hph as (_ & -> & _). done.
    - destruct Hph as (_ & _ & ->). done.
    - destruct Hph as (_ & -> & _). done.
    - destruct Hph as (_ & [->| ->]); done. }
  cbn [mbind option_bind]. destruct (nvmf_subsystem_set_state _ im) as [st' []]; cbn [negb]; [|apply complete_below].
  eexists. split; [done|]. unfold rank. ysimp. rewrite Hv, Hch, Er. cbn [length]. nia.
Qed.

Lemma revert_below : below (subsystem_state_change_revert_done y c l).
Proof. unfold subsystem_state_change_revert_done. destruct (nvmf_subsystem_set_state _ _). apply complete_below. Qed.

Lemma end_below : below (if vi_revert v then subsystem_state_change_revert_done y c l else subsystem_state_change_done y c l 0).
Proof. destruct (vi_revert v) eqn:E; [apply revert_below|by apply done_below]. Qed.

Lemma continue_below status : below (subsystem_state_change_continue y v status).
Proof.
  unfold subsystem_state_change_continue. rewrite Hch. destruct ((status =? 0) && _) eqn:E.
  - apply andb_true_iff in E as [_ E%Nat.ltb_lt]. eexists. split; [done|]. unfold rank. ysimp. rewrite Hv. destruct (vi_revert v); nia.
  - destruct (vi_revert v) eqn:Er; [apply revert_below|by apply done_below].
Qed.
End Turns.

(** Steps of the groups, with no request. *)
Definition istep (y y' : ssys) : Prop := sstep y y' /\ ids y' = ids y.

Lemma update_loop_defined chans nss ns vs : confs_ok nss -> (length ns <= length nss)%nat -> is_Some (update_loop chans nss ns vs).
Proof.
  revert chans nss vs. induction ns as [|n ns IH]; intros chans nss vs HC Hl; [done|]. destruct vs as [|v vs]; [done|].
  destruct nss as [|o nss]; [cbn in Hl; lia|]. apply Forall_cons in HC as [Ho HC]. cbn [update_loop].
  assert (is_Some (update_ns (default true (head chans)) o n v)) as [[[[n' v'] rc] ch] ->].
  { unfold update_ns. destruct (update_channel _ _ _ _) as [[m b] ok]. destruct ok; [|done]. destruct o as [c|]; [|done].
    destruct (update_defined (nc_resv c) m (Ho c eq_refl)) as (? & ? & ->). done. }
  cbn [mbind option_bind]. destruct (rc !=? 0); [done|]. destruct (IH (tail chans) nss vs HC ltac:(cbn in Hl; lia)) as [[[[? ?] ?] ?] ->]. done.
Qed.

Lemma update_group_defined mem chans nss p : confs_ok nss -> pg_inv nss p -> is_Some (poll_group_update_subsystem mem chans nss p).
Proof.
  intros HC [_ _ HL _]. unfold poll_group_update_subsystem. set (first := (length (sg_ns_info (pg_sg p)) =? 0)%nat && negb (length nss =? 0)%nat). destruct (first && negb mem); [done|].
  assert (is_Some (update_loop chans nss (if first then replicate (length nss) ni_zero else sg_ns_info (pg_sg p))
    (if first then replicate (length nss) nv_zero else pg_views p))) as [[[[ns vs] rc] ch] ->]; [|done].
  apply update_loop_defined; [done|]. destruct first; [by rewrite length_replicate|]. destruct HL as [->| ->]; cbn; lia.
Qed.

(** A turn always has a result. *)
Lemma turn_defined a y c v p : phase_ok (ss_state y) v c (ss_paused y) -> confs_ok (ss_ns y) -> Z.of_nat (length (ss_ns y)) < 2 ^ 32 - 1 ->
  pg_inv (ss_ns y) p -> sg_state (pg_sg p) <> SPDK_NVMF_SUBSYSTEM_PAUSING -> is_Some (subsystem_state_change_on_pg a y c p).
Proof.
  intros Hph HC Hn HI Hs. unfold subsystem_state_change_on_pg. unfold phase_ok in Hph. destruct (ss_state y); try done.
  - destruct Hph as (-> & _). unfold nvmf_poll_group_add_subsystem.
    set (p0 := p <| pg_sg := _ |>).
    assert (HI0 : pg_inv (ss_ns y) p0).
    { destruct HI as [HG HV HL HA]. split; subst p0; gsimp; [by apply (group_inv_ext (pg_sg p))|done..]. }
    destruct (update_group_defined (an_mem a) (an_chans a) _ _ HC HI0) as [[[p1 rc] b] ->]. cbn. by destruct (rc =? 0).
  - destruct Hph as (-> & _). destruct (pause_spec _ (sc_nsid c) p HI ltac:(lia) Hs) as (p' & o & -> & _). done.
  - destruct Hph as (-> & _). unfold nvmf_poll_group_resume_subsystem. case_bool_decide; [done|].
    destruct (update_group_defined (an_mem a) (an_chans a) _ _ HC HI) as [[[p1 rc] b] ->]. cbn. by destruct (rc =? 0).
  - destruct Hph as (-> & _). done.
Qed.

Definition good (y : ssys) : Prop := sys_inv y /\ confs_ok (ss_ns y).

Lemma istep_good y y' : istep y y' -> good y -> good y'.
Proof. intros [H _] [HI HC]. split; [by eapply sstep_inv|by eapply sstep_confs]. Qed.

(** *** What a change waits for *)

Definition weight (n : spdk_nvmf_subsystem_pg_ns_info) : nat :=
  if bool_decide (ni_state n = SPDK_NVMF_SUBSYSTEM_PAUSING) then Z.to_nat (ni_io_outstanding n) else 0.
(** The commands a pausing group waits for. *)
Definition blocked (g : spdk_nvmf_subsystem_poll_group) : nat :=
  Z.to_nat (sg_mgmt_io_outstanding g) + sum_list (weight <$> sg_ns_info g).

(** The commands or queue pairs the change under way waits for. *)
Definition burden (y : ssys) : nat :=
  match ss_visit y with
  | Some v =>
      if vi_waiting v then
        match ss_pgs y !! vi_pos v, ss_state y with
        | Some p, SPDK_NVMF_SUBSYSTEM_PAUSING => blocked (pg_sg p)
        | Some p, SPDK_NVMF_SUBSYSTEM_DEACTIVATING => length (pg_qpairs p)
        | _, _ => 0
        end
      else 0
  | None => 0
  end.
Definition ahead (y : ssys) : nat :=
  2 * rank y + match ss_visit y with Some v => if vi_waiting v then 0 else 1 | None => 0 end.

(** What the target does by itself: a turn of the visit, whatever the
    allocators answer, and the message that finds no queue pair left. *)
Inductive turns (y : ssys) : ssys -> Prop :=
| turns_visit a v y' : ss_visit y = Some v -> vi_waiting v = false -> (vi_revert v = true -> an_mem a = true) ->
    visit_group a y v = Some y' -> turns y y'
| turns_removed j p k cb p' y' : ss_pgs y !! j = Some p -> pg_removing p !! k = Some cb ->
    nvmf_poll_group_remove_subsystem_msg cb (p <| pg_removing := delete k (pg_removing p) |>) = (p', true) ->
    call_back (put_pg y j p') cb = Some y' -> turns y y'.

(** What it waits for: the end of a command that holds back the pause of the
    group at the position, the departure of one of its queue pairs. *)
Definition holds_back (g : spdk_nvmf_subsystem_poll_group) (l : io_label) : Prop :=
  l = IoMgmtEnds \/ exists i n, l = IoEnds i /\ sg_ns_info g !! i = Some n /\ ni_state n = SPDK_NVMF_SUBSYSTEM_PAUSING.
Inductive awaited (y : ssys) : ssys -> Prop :=
| awaited_end v p l g b y' : ss_visit y = Some v -> vi_waiting v = true -> ss_state y = SPDK_NVMF_SUBSYSTEM_PAUSING ->
    ss_pgs y !! vi_pos v = Some p -> holds_back (pg_sg p) l -> io_step (pg_sg p) l g b ->
    call_back (put_pg y (vi_pos v) (p <| pg_sg := g |>)) b = Some y' -> awaited y y'
| awaited_leave v p k : ss_visit y = Some v -> vi_waiting v = true -> ss_state y = SPDK_NVMF_SUBSYSTEM_DEACTIVATING ->
    ss_pgs y !! vi_pos v = Some p -> (k < length (pg_qpairs p))%nat ->
    awaited y (put_pg y (vi_pos v) (p <| pg_qpairs := delete k (pg_qpairs p) |>)).

Definition helps (y y' : ssys) : Prop := turns y y' \/ awaited y y'.

(** The distance to the end. *)
Definition closer (y' y : ssys) : Prop := (ahead y' < ahead y)%nat \/ (ahead y' = ahead y /\ (burden y' < burden y)%nat).
Definition no_farther (y' y : ssys) : Prop := (ahead y' < ahead y)%nat \/ (ahead y' = ahead y /\ (burden y' <= burden y)%nat).

Lemma rank_closer y y' : (rank y' < rank y)%nat -> (ahead y' < ahead y)%nat.
Proof. unfold ahead. intros H. repeat case_match; lia. Qed.

Lemma sum_alter {A} (f : A -> nat) (h : A -> A) i (l : list A) n : l !! i = Some n ->
  (sum_list (f <$> alter h i l) + f n = sum_list (f <$> l) + f (h n))%nat.
Proof.
  revert i. induction l as [|x l IH]; intros [|i] Hi; try done; cbn; [injection Hi as ->; lia|].
  specialize (IH i Hi). cbn in IH. lia.
Qed.

Lemma blocked_paused g : blocked (paused g) = blocked g.
Proof. unfold blocked. by rewrite paused_ns, paused_mgmt. Qed.

(** No step of a pausing group adds to what it waits for; the end of a command
    that holds it back takes one away. *)
Lemma blocked_step g l g' b : io_step g l g' b -> group_inv g -> sg_state g = SPDK_NVMF_SUBSYSTEM_PAUSING ->
  (blocked g' <= blocked g)%nat /\ (holds_back g l -> (blocked g' < blocked g)%nat).
Proof.
  intros H [HC Hm _ _ _] Hs.
  destruct H as [Ha|i n Hn Hc Ha|rid|q Hl|Hp g'|i n Hn Hp g'|i Hn|i Hn]; rewrite ?blocked_paused.
  - congruence.
  - pose proof (sum_alter weight ni_inc i _ _ Hn) as E.
    assert (weight n = 0%nat /\ weight (ni_inc n) = 0%nat) as [E1 E2].
    { unfold weight. change (ni_state (ni_inc n)) with (ni_state n). by rewrite Ha. }
    unfold blocked. wsimp. split; [lia|]. intros [?|(?&?&?&_)]; done.
  - split; [done|]. intros [?|(?&?&?&_)]; done.
  - split; [done|]. intros [?|(?&?&?&_)]; done.
  - subst g'. unfold blocked. wsimp. rewrite u64_small by lia. lia.
  - subst g'. pose proof (sum_alter weight ni_dec i _ _ Hn) as E. unfold blocked. wsimp.
    eapply Forall_lookup_1 in HC; [|exact Hn]. cbv beta in HC.
    assert (HW : weight (ni_dec n) = if bool_decide (ni_state n = SPDK_NVMF_SUBSYSTEM_PAUSING) then (weight n - 1)%nat else weight n).
    { unfold weight. change (ni_state (ni_dec n)) with (ni_state n). change (ni_io_outstanding (ni_dec n)) with (u64 (ni_io_outstanding n - 1)).
      rewrite u64_small by lia. case_bool_decide; lia. }
    split; [revert HW; case_bool_decide; lia|]. intros [?|(j & m & [= <-] & Hm' & Hst)]; [done|]. assert (m = n) as -> by congruence.
    rewrite bool_decide_true in HW by done. assert (0 < weight n)%nat by (unfold weight; rewrite bool_decide_true by done; lia). lia.
  - split; [done|]. intros [?|(j & m & [= <-] & Hm' & Hst)]; [done|]. congruence.
  - split; [done|]. intros [?|(?&?&?&_)]; done.
Qed.

Lemma kept_weight ns ns' : Forall2 kept ns ns' -> sum_list (weight <$> ns') = sum_list (weight <$> ns).
Proof.
  induction 1 as [|n n' ns ns' HK _ IH]; [done|]. cbn. f_equal; [|exact IH]. unfold weight.
  destruct HK as [[E1 E2]|(E1 & E2 & E3)]; [by rewrite E1, E2|]. rewrite E2, E3. by repeat case_bool_decide.
Qed.

Lemma update_blocked nss p mem chans p' rc b : poll_group_update_subsystem mem chans nss p = Some (p', rc, b) -> pg_inv nss p ->
  blocked (pg_sg p') = blocked (pg_sg p).
Proof.
  intros H HI. unfold poll_group_update_subsystem in H.
  set (first := (length (sg_ns_info (pg_sg p)) =? 0)%nat && negb (length nss =? 0)%nat) in H.
  destruct (first && negb mem); [by injection H as <- _ _|]. destruct (update_loop _ _ _ _) as [[[[ns vs] rc0] b0]|] eqn:EL; [|done].
  cbn in H. injection H as <- _ _. unfold blocked. gsimp. f_equal. destruct first eqn:Ef; subst first.
  - apply andb_true_iff in Ef as [Ef%Nat.eqb_eq%length_zero_iff_nil _]. rewrite Ef.
    apply update_loop_spec in EL as (_ & _ & HF & _); [|by rewrite !length_replicate|].
    + rewrite (kept_weight _ _ HF). generalize (length nss). intros k. by induction k.
    + intros i c n v _ [-> _]%lookup_replicate_1 _. right. by split; [left|].
  - apply update_loop_spec in EL as (_ & _ & HF & _); [|apply HI|apply HI]. by apply kept_weight.
Qed.

(** The callback of the group at the position. *)
Lemma put_rank y j p : rank (put_pg y j p) = rank y.
Proof. unfold rank, put_pg. ysimp. by rewrite length_insert. Qed.

Lemma callback_below y v p p' status : good y -> ss_visit y = Some v -> ss_pgs y !! vi_pos v = Some p ->
  exists y', subsystem_state_change_continue (put_pg y (vi_pos v) p') v status = Some y' /\ (rank y' < rank y)%nat /\ ids y' = ids y.
Proof.
  intros [HI _] Hv Hp. pose proof (si_visit _ HI) as HV. rewrite Hv in HV. destruct HV as (c & l & Hch & Hph & _).
  destruct (continue_below (put_pg y (vi_pos v) p') v c l) with (status := status) as (y' & E & Hr); try done.
  - pose proof (si_queue _ HI) as HQ. by rewrite Hch in HQ.
  - unfold put_pg. ysimp. rewrite length_insert. apply lookup_lt_Some in Hp. lia.
  - exists y'. rewrite put_rank in Hr. split; [done|]. split; [done|]. by rewrite (continue_ids _ _ _ _ E).
Qed.

Lemma callback_closer y v p p' status y' : good y -> ss_visit y = Some v -> ss_pgs y !! vi_pos v = Some p ->
  subsystem_state_change_continue (put_pg y (vi_pos v) p') v status = Some y' -> (ahead y' < ahead y)%nat.
Proof. intros HG Hv Hp H. destruct (callback_below y v p p' status HG Hv Hp) as (y1 & E & Hr & _). simplify_eq. by apply rank_closer. Qed.

(** A turn of the visit. *)
Lemma visit_closer a y v y' : good y -> ss_visit y = Some v -> vi_waiting v = false -> visit_group a y v = Some y' -> (ahead y' < ahead y)%nat.
Proof.
  intros HG Hv Hw H. pose proof HG as [HI HC]. pose proof (si_visit _ HI) as HV. rewrite Hv in HV. destruct HV as (c & l & Hch & Hph & Hpos).
  unfold visit_group in H. rewrite Hch in H. destruct (ss_pgs y !! vi_pos v) as [p|] eqn:Hp.
  - destruct (subsystem_state_change_on_pg a y c p) as [[p' [status|]]|]; cbn [mbind option_bind] in H; [by eapply callback_closer| |done].
    injection H as <-. unfold ahead, rank. ysimp. rewrite Hv, Hw, length_insert. lia.
  - destruct (end_below y v c l) as (y1 & E & Hr); try done.
    + pose proof (si_queue _ HI) as HQ. by rewrite Hch in HQ.
    + apply lookup_ge_None in Hp. destruct Hpos as [?|[-> _]]; lia.
    + simplify_eq. by apply rank_closer.
Qed.

(** A change of one group. *)
Lemma put_ahead y j p : ahead (put_pg y j p) = ahead y.
Proof. unfold ahead. by rewrite put_rank. Qed.

Lemma put_burden y v j p p' : ss_visit y = Some v -> vi_waiting v = true -> ss_pgs y !! j = Some p -> j = vi_pos v ->
  burden y = (match ss_state y with SPDK_NVMF_SUBSYSTEM_PAUSING => blocked (pg_sg p) | SPDK_NVMF_SUBSYSTEM_DEACTIVATING => length (pg_qpairs p) | _ => 0%nat end) /\
  burden (put_pg y j p') = (match ss_state y with SPDK_NVMF_SUBSYSTEM_PAUSING => blocked (pg_sg p') | SPDK_NVMF_SUBSYSTEM_DEACTIVATING => length (pg_qpairs p') | _ => 0%nat end).
Proof.
  intros Hv Hw Hj ->. unfold burden, put_pg. ysimp. rewrite Hv, Hw, Hj. split; [done|].
  rewrite list_lookup_insert_eq by (by eapply lookup_lt_Some). done.
Qed.

Lemma put_no_farther y j p p' : ss_pgs y !! j = Some p ->
  (forall v, ss_visit y = Some v -> vi_waiting v = true -> j = vi_pos v ->
     (ss_state y = SPDK_NVMF_SUBSYSTEM_PAUSING -> (blocked (pg_sg p') <= blocked (pg_sg p))%nat) /\
     (ss_state y = SPDK_NVMF_SUBSYSTEM_DEACTIVATING -> (length (pg_qpairs p') <= length (pg_qpairs p))%nat)) -> no_farther (put_pg y j p') y.
Proof.
  intros Hj HB. right. split; [apply put_ahead|]. destruct (ss_visit y) as [v|] eqn:Hv; [|unfold burden, put_pg; ysimp; by rewrite Hv].
  destruct (vi_waiting v) eqn:Hw; [|unfold burden, put_pg; ysimp; by rewrite Hv, Hw].
  destruct (decide (j = vi_pos v)) as [E|Hne].
  - destruct (put_burden y v j p p' Hv Hw Hj E) as [-> ->]. destruct (HB v eq_refl Hw E) as [H1 H2]. destruct (ss_state y); auto with lia.
  - unfold burden, put_pg. ysimp. rewrite Hv, Hw, list_lookup_insert_ne by congruence. done.
Qed.

(** A step of the requests of a group. *)
Lemma io_no_farther y j p l g b y' : good y -> ss_pgs y !! j = Some p -> io_step (pg_sg p) l g b ->
  call_back (put_pg y j (p <| pg_sg := g |>)) b = Some y' -> no_farther y' y.
Proof.
  intros HG Hj Hs H. pose proof HG as [HI _]. destruct b.
  - destruct (pausing_waits y j p HI Hj (proj2 (io_step_state _ _ _ _ Hs) eq_refl)) as (v & Hv & _ & -> & _). cbn in H. rewrite Hv in H. cbn in H.
    left. by eapply callback_closer.
  - injection H as <-. apply (put_no_farther y j p); [done|]. intros v Hv Hw ->. split; [|done]. intros Es. gsimp.
    destruct (at_pos y v p HI Hv Hj) as (HP & HM & _). unfold move_phase in HM. rewrite Es, Nat.ltb_irrefl, Nat.eqb_refl, Hw in HM.
    apply (blocked_step _ _ _ _ Hs (pi_group _ _ HP)). apply HM.
Qed.

Lemma removal_no_farther y j p k cb p' fin y' : good y -> ss_pgs y !! j = Some p -> pg_removing p !! k = Some cb ->
  nvmf_poll_group_remove_subsystem_msg cb (p <| pg_removing := delete k (pg_removing p) |>) = (p', fin) ->
  call_back (put_pg y j p') (fin && cb) = Some y' -> no_farther y' y /\ (fin = true -> closer y' y).
Proof.
  intros HG Hj Hk Hm H. pose proof HG as [HI _]. destruct (removing_waits y j p k cb HI Hj Hk) as (v & Hv & Es & -> & Hw & HR & -> & -> & Hs).
  destruct fin; cbn [andb] in H.
  - cbn in H. rewrite Hv in H. cbn in H. assert (ahead y' < ahead y)%nat by (by eapply callback_closer). split; [by left|]. intros _. by left.
  - injection H as <-. split; [|done]. apply (put_no_farther y _ p); [done|]. intros v' Hv' _ _. rewrite Es. split; [done|]. intros _.
    revert Hm. unfold nvmf_poll_group_remove_subsystem_msg. gsimp. destruct (pg_qpairs p) eqn:Eq; intros [= <-]. gsimp. by rewrite Eq.
Qed.

Lemma length_delete_le {A} k (l : list A) : (length (delete k l) <= length l)%nat.
Proof. revert k. induction l as [|x l IH]; intros [|k]; cbn; [lia..|]. apply le_n_S, (IH k). Qed.

(** No step but a request leads away from the end. *)
Lemma istep_no_farther y y' : good y -> istep y y' -> no_farther y' y.
Proof.
  intros HG [H Hid]. pose proof HG as [HI _].
  destruct H as [id nsid req y' Hc H|a v y' Hv Hw Hm H|j p l g b y' Hj Hs H|j p k cb p' fin y' Hj Hk Hm H|j p q Hj Hs|j p k Hj|j p a p' rc b Hj Hu|nss Hn].
  - exfalso. apply request_ids in H. rewrite H in Hid. apply (f_equal length) in Hid. rewrite length_app in Hid. cbn in Hid. lia.
  - left. by eapply visit_closer.
  - by eapply io_no_farther.
  - by eapply removal_no_farther.
  - apply (put_no_farther y j p); [done|]. intros v Hv Hw ->. split; [done|]. intros Es. exfalso.
    destruct (at_pos y v p HI Hv Hj) as (_ & HM & _). unfold move_phase in HM. rewrite Es, Nat.ltb_irrefl, Nat.eqb_refl, Hw in HM. cbn in HM. congruence.
  - apply (put_no_farther y j p); [done|]. intros v Hv Hw ->. split; [done|]. intros _. gsimp. apply length_delete_le.
  - destruct (si_pg _ HI _ _ Hj) as [HP _]. apply (put_no_farther y j p); [done|]. intros v Hv Hw ->.
    rewrite (update_blocked _ _ _ _ _ _ _ Hu HP). destruct (update_spec _ _ _ _ _ _ _ Hu HP) as (_ & (_ & _ & _ & -> & _) & _). done.
  - right. done.
Qed.

Lemma helps_istep y y' : helps y y' -> istep y y'.
Proof.
  intros [[a v y1 Hv Hw Hm H|j p k cb p' y1 Hj Hk Hm H]|[v p l g b y1 Hv Hw Es Hp Hl Hs H|v p k Hv Hw Es Hp Hk]]; split.
  - by eapply ss_visits.
  - by eapply visit_ids.
  - by eapply ss_removal.
  - by rewrite (call_back_ids _ _ _ H).
  - by eapply ss_io.
  - by rewrite (call_back_ids _ _ _ H).
  - by apply ss_leave.
  - done.
Qed.

Lemma helps_closer y y' : good y -> helps y y' -> closer y' y.
Proof.
  intros HG. pose proof HG as [HI _].
  intros [[a v y1 Hv Hw Hm H|j p k cb p' y1 Hj Hk Hm H]|[v p l g b y1 Hv Hw Es Hp Hl Hs H|v p k Hv Hw Es Hp Hk]].
  - left. by eapply visit_closer.
  - by apply (removal_no_farther y j p k cb p' true y1).
  - destruct b; [cbn in H; rewrite Hv in H; left; by eapply callback_closer|]. injection H as <-. right. split; [apply put_ahead|].
    destruct (put_burden y v _ p (p <| pg_sg := g |>) Hv Hw Hp eq_refl) as [-> ->]. rewrite Es. gsimp.
    destruct (at_pos y v p HI Hv Hp) as (HP & HM & _). unfold move_phase in HM. rewrite Es, Nat.ltb_irrefl, Nat.eqb_refl, Hw in HM.
    by apply (blocked_step _ _ _ _ Hs (pi_group _ _ HP)); [apply HM|].
  - right. split; [apply put_ahead|]. destruct (put_burden y v _ p (p <| pg_qpairs := delete k (pg_qpairs p) |>) Hv Hw Hp eq_refl) as [-> ->].
    rewrite Es. gsimp. rewrite length_delete by (by apply lookup_lt_is_Some). lia.
Qed.

Lemma isteps_good y y' : rtc istep y y' -> good y -> good y' /\ ids y' = ids y /\ no_farther y' y.
Proof.
  induction 1 as [y|y y1 y2 H1 _ IH]; intros HG; [split; [done|]; split; [done|by right]|].
  destruct IH as (HG2 & Hi & HN); [by eapply istep_good|]. split; [done|]. split; [rewrite Hi; apply H1|].
  pose proof (istep_no_farther _ _ HG H1). unfold no_farther in *. lia.
Qed.

(** Steps that help, with any steps but requests between them. *)
Definition helped (y2 y1 : ssys) : Prop := exists y', rtc istep y1 y' /\ helps y' y2.

Lemma helped_acc y : good y -> Acc helped y.
Proof.
  remember (ahead y) as m eqn:Em. revert y Em. induction m as [m IHm] using (well_founded_induction lt_wf). intros y Em.
  remember (burden y) as k eqn:Ek. revert y Em Ek. induction k as [k IHk] using (well_founded_induction lt_wf). intros y Em Ek HG.
  constructor. intros y2 (y1 & H1 & H2). destruct (isteps_good _ _ H1 HG) as (HG1 & _ & HN). pose proof (helps_closer _ _ HG1 H2) as HC.
  assert (HG2 : good y2) by (eapply istep_good; [by apply helps_istep|done]). unfold no_farther, closer in *.
  destruct (decide (ahead y2 < ahead y)%nat) as [|]; [by apply (IHm (ahead y2)); [lia|..]|].
  apply (IHk (burden y2)); [lia|lia|done|done].
Qed.

(** A change that is pending moves on, or waits for something. *)
Lemma pending_moves y : good y -> ss_changes y <> [] -> (exists y', turns y y') \/ (0 < burden y)%nat.
Proof.
  intros HG Hne. pose proof HG as [HI HC]. pose proof (si_visit _ HI) as HV. destruct (ss_visit y) as [v|] eqn:Hv; [|by destruct HV].
  destruct HV as (c & l & Hch & Hph & Hpos). destruct (vi_waiting v) eqn:Hw.
  - destruct Hpos as [Hpos|[_ Hn]]; [|congruence]. apply lookup_lt_is_Some in Hpos as [p Hp].
    destruct (at_pos y v p HI Hv Hp) as (HP & HM & HR). destruct (put_burden y v _ p p Hv Hw Hp eq_refl) as [-> _].
    unfold phase_ok in Hph. unfold move_phase in HM. unfold removing in HR. rewrite Nat.ltb_irrefl, Nat.eqb_refl, Hw in *.
    destruct (ss_state y) eqn:Es; try done; try (exfalso; by destruct Hph as (_ & _ & _ & ?)).
    + right. destruct HM as [Sp _]. pose proof (gi_waits _ (pi_group _ _ HP) Sp) as Hd. destruct (pi_group _ _ HP) as [HCn Hmg _ _ _].
      unfold pause_done in Hd. rewrite bool_decide_true in Hd by done. cbn [andb] in Hd. unfold blocked.
      destruct (Z.eqb_spec (sg_mgmt_io_outstanding (pg_sg p)) 0) as [|]; [|lia]. cbn [andb] in Hd.
      apply negb_false_iff, existsb_exists in Hd as (n & Hn & HB). apply list_elem_of_In, list_elem_of_lookup_1 in Hn as [i Hi].
      unfold ns_blocks_pause in HB. apply andb_true_iff in HB as [HB1 HB2]. pose proof (sum_alter weight (fun _ => ni_zero) i _ _ Hi) as E.
      unfold weight at 2 in E. rewrite HB1 in E. change (weight ni_zero) with 0%nat in E. lia.
    + destruct (pg_qpairs p) as [|q qs] eqn:Eq; [left|right; cbn; lia]. cbn in HR.
      set (p' := _nvmf_poll_group_remove_subsystem_cb (p <| pg_removing := delete 0%nat (pg_removing p) |>)).
      destruct (callback_below y v p p' 0 HG Hv Hp) as (y' & E & _). exists y'. eapply (turns_removed _ _ p 0 true p'); [exact Hp|by rewrite HR| |cbn; by rewrite Hv].
      unfold nvmf_poll_group_remove_subsystem_msg. gsimp. by rewrite Eq.
  - left. set (a := Answers true true []).
    assert (HS : forall y', visit_group a y v = Some y' -> turns y y') by (intros y' H; by apply (turns_visit y a v)).
    unfold visit_group in HS. rewrite Hch in HS. destruct (ss_pgs y !! vi_pos v) as [p|] eqn:Hp.
    + assert (Hs : sg_state (pg_sg p) <> SPDK_NVMF_SUBSYSTEM_PAUSING).
      { intros E. destruct (pausing_waits _ _ _ HI Hp E) as (v' & Hv' & _ & _ & Hw' & _). simplify_eq. congruence. }
      destruct (si_pg _ HI _ _ Hp) as [HP _].
      destruct (turn_defined a y c v p Hph HC (si_ns _ HI) HP Hs) as [[p' o] E]. rewrite E in HS. cbn [mbind option_bind] in HS.
      destruct o as [status|]; [|by eexists; apply HS].
      destruct (callback_below y v p p' status HG Hv Hp) as (y' & E' & _). exists y'. by apply HS.
    + destruct (end_below y v c l) as (y' & E & _); try done; [|apply lookup_ge_None in Hp; destruct Hpos as [?|[-> _]]; lia|exists y'; by apply HS].
      pose proof (si_queue _ HI) as HQ. by rewrite Hch in HQ.
Qed.

Lemma reachable_confs nss groups y : confs_ok nss -> ss_reachable nss groups y -> confs_ok (ss_ns y).
Proof.
  intros Hn H. assert (H0 : confs_ok (ss_ns (ss_init nss groups))) by done. revert H0. unfold ss_reachable in H.
  induction H as [|y1 y2 y3 Hab _ IH]; [done|]. intros HC. apply IH. by eapply sstep_confs.
Qed.

(** ** Theorems *)

(** C8. Changes of the state of a subsystem are answered in the order in which
    they were requested, each exactly once: a step only answers the next ones
    or, as a request, adds one at the end.  And nothing but what it waits for
    keeps a change from its end, whatever has happened before, failed and
    reverted changes included, and whatever other steps interleave.  As long as
    a change is pending the target has a turn to take, or the group at its turn
    waits: for a command that is counted, as a management command or for a
    namespace that is pausing, or for a queue pair.  Turns and ends of what is
    waited for can not go on for ever, with any other steps but requests
    between them; so when the turns are taken and every counted command
    ends, and every queue pair leaves, all changes are answered.  (A command
    that is counted and never uncounted, as [Request] shows for an I/O command
    with the opcode of an asynchronous-event request, is waited for for ever.) *)
Theorem state_changes_answered nss groups y (Hn : Z.of_nat (length nss) < 2 ^ 32 - 1) (Hc : confs_ok nss) (HR : ss_reachable nss groups y) :
  (forall y', sstep y y' -> ids y' = ids y \/ exists id nsid req, nvmf_subsystem_state_change y id nsid req = Some y' /\ ids y' = ids y ++ [id]) /\
  (forall y', rtc istep y y' ->
     (ss_changes y' <> [] -> (exists y'', turns y' y'') \/ (0 < burden y')%nat) /\
     (ss_changes y' = [] -> fst <$> ss_answers y' = (fst <$> ss_answers y) ++ (sc_id <$> ss_changes y))) /\
  Acc helped y.
Proof.
  assert (HG : good y) by (split; [by eapply reachable_inv|by eapply reachable_confs]). split; [|split; [|by apply helped_acc]].
  - intros y' H. destruct H as [id nsid req y' Hc' H|a v y' Hv Hw Hm H|j p l g b y' Hj Hs H|j p k cb p' fin y' Hj Hk Hm H|j p q Hj Hs|j p k Hj|j p a p' rc b Hj Hu|nss' Hn'];
      try (by left); [right; exists id, nsid, req; split; [done|]; by eapply request_ids|left..].
    + by eapply visit_ids.
    + by rewrite (call_back_ids _ _ _ H).
    + by rewrite (call_back_ids _ _ _ H).
  - intros y' H. destruct (isteps_good _ _ H HG) as (HG' & Hi & _). split; [by apply pending_moves|].
    intros E. unfold ids in Hi. by rewrite E, app_nil_r in Hi.
Qed.

Lemma demo_confs : confs_ok demo_nss.
Proof.
  assert (W : resv_wf resv_init) by (split; cbn; try done; try set_solver; apply NoDup_nil_2).
  apply Forall_cons_2; [by intros c [= <-]|]. apply Forall_cons_2; [by intros c [= <-]|]. apply Forall_nil_2.
Qed.

Lemma state_changes_answered_witness : exists y, ss_reachable demo_nss 1 y /\ length (ss_changes y) = 2%nat /\
  ((exists y', turns y y') \/ (0 < burden y)%nat) /\ Acc helped y.
Proof.
  destruct demo_pausing as (y & y' & c & _ & _ & HR & Ec & _). exists y. split; [done|]. split; [by rewrite Ec|].
  destruct (state_changes_answered demo_nss 1 y ltac:(done) demo_confs HR) as (_ & H & HA). split; [|exact HA].
  apply (H y); [apply rtc_refl|by rewrite Ec].
Defined.
