(* ===== verification/CtrlrRegs.v ===== *)
(** * Controller registers, reset, shutdown and timers: ctrlr.c

    The properties a host reads and writes over fabrics (CAP, VS, CC, CSTS, AQA,
    ASQ, ACQ), the reset and shutdown that a write of CC starts and that ends
    when the I/O queue pairs have gone or time is up, the keep-alive timer and
    the association timer.  The theorems are about the properties as a block of
    register memory and about all interleavings of commands, timers and
    departures of queue pairs. *)
From S2P Require Import Prelude NvmeSpec.

(** ** Bit fields *)

(** Assignment to the bit field of [n] bits at [lo]. *)
Definition put_bits (lo n v x : Z) : Z :=
  Z.lor (Z.ldiff x (Z.shiftl (Z.ones n) lo)) (Z.shiftl (Z.land v (Z.ones n)) lo).

(** [union spdk_nvme_cc_register] *)
Definition cc_en (x : Z) : Z := bits 0 1 x.
Definition cc_css (x : Z) : Z := bits 4 3 x.
Definition cc_mps (x : Z) : Z := bits 7 4 x.
Definition cc_ams (x : Z) : Z := bits 11 3 x.
Definition cc_shn (x : Z) : Z := bits 14 2 x.
Definition cc_iosqes (x : Z) : Z := bits 16 4 x.
Definition cc_iocqes (x : Z) : Z := bits 20 4 x.

(** [union spdk_nvme_csts_register] *)
Definition csts_rdy (x : Z) : Z := bits 0 1 x.
Definition csts_cfs (x : Z) : Z := bits 1 1 x.
Definition csts_shst (x : Z) : Z := bits 2 2 x.

Definition SPDK_NVME_SHN_NORMAL : Z := 1.
Definition SPDK_NVME_SHN_ABRUPT : Z := 2.
Definition SPDK_NVME_SHST_COMPLETE : Z := 2.
Definition SPDK_NVME_CC_CSS_NVM : Z := 0.
Definition SPDK_NVME_CC_CSS_IOCS : Z := 6.
Definition SPDK_NVME_ADMIN_QUEUE_MIN_ENTRIES : Z := 2.
Definition SPDK_NVMF_PROP_SIZE_4 : Z := 0.
Definition SPDK_NVMF_PROP_SIZE_8 : Z := 1.

Definition MIN_KEEP_ALIVE_TIMEOUT_IN_MS : Z := 10000.
Definition KAS_TIME_UNIT_IN_MS : Z := 100.
Definition KAS_DEFAULT_VALUE : Z := MIN_KEEP_ALIVE_TIMEOUT_IN_MS / KAS_TIME_UNIT_IN_MS.
Definition NVMF_CC_RESET_SHN_TIMEOUT_IN_MS : Z := 10000.
Definition NVMF_CTRLR_RESET_SHN_TIMEOUT_IN_MS : Z := NVMF_CC_RESET_SHN_TIMEOUT_IN_MS + 5000.

(** ** State *)

(** [struct spdk_nvmf_registers] *)
Record spdk_nvmf_registers := NvmfRegs {
  vp_cap : Z; vp_vs : Z; vp_cc : Z; vp_csts : Z; vp_aqa : Z; vp_asq : Z; vp_acq : Z }.
#[global] Instance eta_nvmf_regs : Eta spdk_nvmf_registers := fun r =>
  NvmfRegs (vp_cap r) (vp_vs r) (vp_cc r) (vp_csts r) (vp_aqa r) (vp_asq r) (vp_acq r).

(** A visit of the poll groups that disconnects queue pairs: that of the
    keep-alive poller takes all of the controller's, that of a reset or
    shutdown leaves the admin queue and calls [nvmf_ctrlr_cc_reset_shn_done]. *)
Inductive disconnect_visit := VisitAll | VisitIo.
Definition is_io (v : disconnect_visit) : bool := match v with VisitIo => true | VisitAll => false end.

Inductive cc_event := EvBdevReset (nsid : Z) | EvDisconnectAdmin | EvDisconnect (qid : Z).

(** The part of [struct spdk_nvmf_ctrlr] that registers and timers are about.
    A timer is armed or not; the keep-alive poller has its period in
    microseconds.  [ck_mask] is [qpair_mask]; [ck_ns] the namespaces of the
    subsystem, with whether they have a block device; [ck_visits] the visits
    that have not finished; [ck_log] what has been asked of other parts. *)
Record cc_ctrlr := CcCtrlr {
  ck_regs : spdk_nvmf_registers; ck_disconnect_in_progress : bool; ck_disconnect_is_shn : bool;
  ck_cc_timer : bool; ck_cc_timeout_timer : bool; ck_cc_timeout_tsc : Z;
  ck_association_timer : bool; ck_association_timeout : Z;
  ck_keep_alive_poller : option Z; ck_last_keep_alive_tick : Z; ck_kato : Z;
  ck_in_destruct : bool; ck_admin_qpair : bool; ck_mask : gset Z; ck_ns : list (Z * bool);
  ck_visits : list disconnect_visit; ck_log : list cc_event }.
#[global] Instance eta_ck : Eta cc_ctrlr := fun c =>
  CcCtrlr (ck_regs c) (ck_disconnect_in_progress c) (ck_disconnect_is_shn c) (ck_cc_timer c) (ck_cc_timeout_timer c) (ck_cc_timeout_tsc c)
    (ck_association_timer c) (ck_association_timeout c) (ck_keep_alive_poller c) (ck_last_keep_alive_tick c) (ck_kato c)
    (ck_in_destruct c) (ck_admin_qpair c) (ck_mask c) (ck_ns c) (ck_visits c) (ck_log c).

Definition upd_regs (f : spdk_nvmf_registers -> spdk_nvmf_registers) (c : cc_ctrlr) : cc_ctrlr := c <| ck_regs := f (ck_regs c) |>.
Definition set_cc_bits (lo n v : Z) (c : cc_ctrlr) : cc_ctrlr := upd_regs (fun r => r <| vp_cc := put_bits lo n v (vp_cc r) |>) c.
Definition set_csts_bits (lo n v : Z) (c : cc_ctrlr) : cc_ctrlr := upd_regs (fun r => r <| vp_csts := put_bits lo n v (vp_csts r) |>) c.

Definition nvmf_ctrlr_stop_keep_alive_timer (c : cc_ctrlr) : cc_ctrlr := c <| ck_keep_alive_poller := None |>.
Definition nvmf_ctrlr_stop_association_timer (c : cc_ctrlr) : cc_ctrlr := c <| ck_association_timer := false |>.
Definition nvmf_ctrlr_set_fatal_status (c : cc_ctrlr) : cc_ctrlr := set_csts_bits 1 1 1 c.

(** The registers of a new controller. *)
Definition vcprop_init (max_queue_depth : Z) (multi_iocs : bool) : spdk_nvmf_registers :=
  let cap := put_bits 16 1 1 0 in
  let cap := put_bits 0 16 (max_queue_depth - 1) cap in
  let cap := put_bits 24 8 (NVMF_CTRLR_RESET_SHN_TIMEOUT_IN_MS / 500) cap in
  let cap := put_bits 37 8 (if multi_iocs then Z.shiftl 1 SPDK_NVME_CC_CSS_IOCS else Z.shiftl 1 SPDK_NVME_CC_CSS_NVM) cap in
  NvmfRegs cap (put_bits 8 8 3 (put_bits 16 16 1 0)) (if multi_iocs then put_bits 4 3 SPDK_NVME_CC_CSS_IOCS 0 else 0) 0 0 0 0.

(** ** Reset and shutdown *)

Section Ticks.
(** [spdk_get_ticks_hz], of the environment library. *)
Context (hz : Z).

(** Milliseconds in ticks, in 64-bit arithmetic. *)
Definition ms_ticks (ms : Z) : Z := u64 (ms * hz) / 1000.

(** The end of [_nvmf_ctrlr_cc_reset_shn_done]. *)
Definition restart_association_timer (c : cc_ctrlr) : cc_ctrlr :=
  let c := if ck_association_timer c then nvmf_ctrlr_stop_association_timer c else c in
  if ck_association_timeout c !=? 0 then c <| ck_association_timer := true |> else c.

(** [_nvmf_ctrlr_cc_reset_shn_done]; [true] when it returns [SPDK_POLLER_BUSY]. *)
Definition _nvmf_ctrlr_cc_reset_shn_done (now : Z) (c : cc_ctrlr) : cc_ctrlr * bool :=
  let c := c <| ck_cc_timer := false |> in
  let count := Z.of_nat (size (ck_mask c)) in
  if (1 <? count) && (now <? ck_cc_timeout_tsc c) then (c <| ck_cc_timer := true |>, false)
  else
    let c := if 1 <? count then nvmf_ctrlr_set_fatal_status c else c in
    let c := c <| ck_cc_timeout_timer := false |> in
    let c := if ck_disconnect_is_shn c
             then set_csts_bits 2 2 SPDK_NVME_SHST_COMPLETE c <| ck_disconnect_is_shn := false |>
             else upd_regs (fun r => r <| vp_cc := 0 |> <| vp_csts := 0 |>) c in
    let c := restart_association_timer c in
    (c <| ck_disconnect_in_progress := false |>, true).

(** [nvmf_ctrlr_cc_timeout]: every namespace with a block device is reset. *)
Definition nvmf_ctrlr_cc_timeout (c : cc_ctrlr) : cc_ctrlr :=
  let c := c <| ck_cc_timeout_timer := false |> in
  if negb (ck_admin_qpair c) then c
  else c <| ck_log := ck_log c ++ ((EvBdevReset ∘ fst) <$> List.filter snd (ck_ns c)) |>.

Definition nvmf_ctrlr_association_remove (c : cc_ctrlr) : cc_ctrlr :=
  let c := nvmf_ctrlr_stop_association_timer c in
  if ck_in_destruct c then c
  else if ck_admin_qpair c then c <| ck_log := ck_log c ++ [EvDisconnectAdmin] |> else c.

(** What the two branches of [nvmf_prop_set_cc] that disconnect have in
    common. *)
Definition start_disconnect (now : Z) (shn : bool) (c : cc_ctrlr) : cc_ctrlr :=
  let cc_timeout_ms := (NVMF_CC_RESET_SHN_TIMEOUT_IN_MS + NVMF_CTRLR_RESET_SHN_TIMEOUT_IN_MS) / 2 in
  c <| ck_cc_timeout_timer := true |> <| ck_cc_timeout_tsc := u64 (now + ms_ticks cc_timeout_ms) |>
    <| ck_disconnect_in_progress := true |> <| ck_disconnect_is_shn := shn |> <| ck_visits := ck_visits c ++ [VisitIo] |>.

(** The EN field: [inr] when the function returns at once. *)
Definition set_cc_en (now cc diff : Z) (c : cc_ctrlr) : (cc_ctrlr * Z) + (cc_ctrlr * bool) :=
  if cc_en diff =? 0 then inl (c, diff)
  else if cc_en cc !=? 0 then
    let c := nvmf_ctrlr_stop_association_timer c in
    inl (set_csts_bits 0 1 1 (set_cc_bits 0 1 1 c), put_bits 0 1 0 diff)
  else if ck_disconnect_in_progress c then inr (c, true)
  else inl (start_disconnect now false (set_cc_bits 0 1 0 c), put_bits 0 1 0 diff).

(** The SHN field. *)
Definition set_cc_shn (now cc diff : Z) (c : cc_ctrlr) : (cc_ctrlr * Z) + (cc_ctrlr * bool) :=
  if cc_shn diff =? 0 then inl (c, diff)
  else if (cc_shn cc =? SPDK_NVME_SHN_NORMAL) || (cc_shn cc =? SPDK_NVME_SHN_ABRUPT) then
    if ck_disconnect_in_progress c then inr (c, true)
    else inl (nvmf_ctrlr_stop_keep_alive_timer (start_disconnect now true (set_cc_bits 14 2 (cc_shn cc) c)), put_bits 14 2 0 diff)
  else if cc_shn cc =? 0 then inl (set_cc_bits 14 2 0 c, put_bits 14 2 0 diff)
  else inr (c, false).

(** [nvmf_prop_set_cc] *)
Definition nvmf_prop_set_cc (now value : Z) (c : cc_ctrlr) : cc_ctrlr * bool :=
  let cc := value in
  let diff := Z.lxor cc (vp_cc (ck_regs c)) in
  match set_cc_en now cc diff c with
  | inr r => r
  | inl (c, diff) =>
      match set_cc_shn now cc diff c with
      | inr r => r
      | inl (c, diff) =>
          let c := if cc_iosqes diff !=? 0 then set_cc_bits 16 4 (cc_iosqes cc) c else c in
          let c := if cc_iocqes diff !=? 0 then set_cc_bits 20 4 (cc_iocqes cc) c else c in
          if cc_ams diff !=? 0 then (c, false)
          else if cc_mps diff !=? 0 then (c, false)
          else if (cc_css diff !=? 0) && (SPDK_NVME_CC_CSS_IOCS <? cc_css cc) then (c, false)
          else (c, true)
      end
  end.

(** ** The other properties *)

Definition nvmf_prop_set_aqa (now value : Z) (c : cc_ctrlr) : cc_ctrlr * bool :=
  if (bits 0 12 value <? SPDK_NVME_ADMIN_QUEUE_MIN_ENTRIES - 1) || (bits 16 12 value <? SPDK_NVME_ADMIN_QUEUE_MIN_ENTRIES - 1)
     || (bits 12 4 value !=? 0) || (bits 28 4 value !=? 0)
  then (c, false) else (upd_regs (fun r => r <| vp_aqa := value |>) c, true).

Definition lower_half (old value : Z) : Z := Z.lor (Z.land old (Z.shiftl 0xFFFFFFFF 32)) value.
Definition upper_half (old value : Z) : Z := Z.lor (Z.land old 0xFFFFFFFF) (u64 (Z.shiftl value 32)).

Definition nvmf_prop_set_asq_lower (now value : Z) (c : cc_ctrlr) : cc_ctrlr * bool :=
  (upd_regs (fun r => r <| vp_asq := lower_half (vp_asq r) value |>) c, true).
Definition nvmf_prop_set_asq_upper (now value : Z) (c : cc_ctrlr) : cc_ctrlr * bool :=
  (upd_regs (fun r => r <| vp_asq := upper_half (vp_asq r) value |>) c, true).
Definition nvmf_prop_set_acq_lower (now value : Z) (c : cc_ctrlr) : cc_ctrlr * bool :=
  (upd_regs (fun r => r <| vp_acq := lower_half (vp_acq r) value |>) c, true).
Definition nvmf_prop_set_acq_upper (now value : Z) (c : cc_ctrlr) : cc_ctrlr * bool :=
  (upd_regs (fun r => r <| vp_acq := upper_half (vp_acq r) value |>) c, true).

(** [struct nvmf_prop]; a function pointer that is null is [None]. *)
Record nvmf_prop := NvmfProp {
  pr_ofst : Z; pr_size : Z; pr_get : spdk_nvmf_registers -> Z;
  pr_set : option (Z -> Z -> cc_ctrlr -> cc_ctrlr * bool); pr_set_upper : option (Z -> Z -> cc_ctrlr -> cc_ctrlr * bool) }.

Definition nvmf_props : list nvmf_prop :=
  [NvmfProp 0x00 8 vp_cap None None; NvmfProp 0x08 4 vp_vs None None; NvmfProp 0x14 4 vp_cc (Some nvmf_prop_set_cc) None;
   NvmfProp 0x1C 4 vp_csts None None; NvmfProp 0x24 4 vp_aqa (Some nvmf_prop_set_aqa) None;
   NvmfProp 0x28 8 vp_asq (Some nvmf_prop_set_asq_lower) (Some nvmf_prop_set_asq_upper);
   NvmfProp 0x30 8 vp_acq (Some nvmf_prop_set_acq_lower) (Some nvmf_prop_set_acq_upper)].

Definition find_prop (ofst size : Z) : option nvmf_prop :=
  List.find (fun p => (pr_ofst p <=? ofst) && (u32 (ofst + size) <=? pr_ofst p + pr_size p)) nvmf_props.

(** The size a command names; [None] is refused. *)
Definition prop_size (attrib : Z) : option Z :=
  if attrib =? SPDK_NVMF_PROP_SIZE_4 then Some 4 else if attrib =? SPDK_NVMF_PROP_SIZE_8 then Some 8 else None.

(** [nvmf_property_get]: the value, [None] for the status Invalid Parameter. *)
Definition nvmf_property_get (attrib ofst : Z) (c : cc_ctrlr) : option Z :=
  size ← prop_size attrib; p ← find_prop ofst size;
  let value := pr_get p (ck_regs c) in
  Some (if size =? pr_size p then value
        else if ofst =? pr_ofst p then Z.land value 0xFFFFFFFF else Z.shiftr value 32).

(** [nvmf_property_set]: [false] for the status Invalid Parameter; [None] is a
    call through a null pointer. *)
Definition nvmf_property_set (now attrib ofst value : Z) (c : cc_ctrlr) : option (cc_ctrlr * bool) :=
  match (size ← prop_size attrib; p ← find_prop ofst size; set_cb ← pr_set p; Some (size, p, set_cb)) with
  | None => Some (c, false)
  | Some (size, p, set_cb) =>
      if pr_size p =? 4 then Some (set_cb now (u32 value) c)
      else if negb (size =? pr_size p) then
        if ofst =? pr_ofst p then Some (set_cb now (u32 value) c)
        else up ← pr_set_upper p; Some (up now (u32 value) c)
      else
        let '(c, ret) := set_cb now (u32 value) c in
        if ret : bool then up ← pr_set_upper p; Some (up now (u32 (Z.shiftr value 32)) c) else Some (c, ret)
  end.

(** ** Keep alive *)

(** [spdk_divide_round_up], then the multiplications, truncated by the
    assignment to the 32-bit field. *)
Definition kato_rounded (kato : Z) : Z :=
  let unit := KAS_DEFAULT_VALUE * KAS_TIME_UNIT_IN_MS in
  u32 (u64 (u64 (kato + unit - 1) / unit * KAS_DEFAULT_VALUE * KAS_TIME_UNIT_IN_MS)).

(** The period a poller is registered with, a 32-bit product. *)
Definition keep_alive_period (kato : Z) : Z := u32 (kato * 1000).

(** [nvmf_ctrlr_keep_alive_poll]; [true] when it disconnects the host. *)
Definition nvmf_ctrlr_keep_alive_poll (now : Z) (c : cc_ctrlr) : cc_ctrlr * bool :=
  if ck_in_destruct c then (nvmf_ctrlr_stop_keep_alive_timer c, false)
  else
    let keep_alive_timeout_tick := u64 (ck_last_keep_alive_tick c + u64 (ck_kato c * hz) / 1000) in
    if (keep_alive_timeout_tick <? now) && (csts_cfs (vp_csts (ck_regs c)) =? 0) then
      let c := nvmf_ctrlr_set_fatal_status c in
      (c <| ck_visits := ck_visits c ++ [VisitAll] |>, true)
    else (c, false).

Definition nvmf_ctrlr_start_keep_alive_timer (now : Z) (c : cc_ctrlr) : cc_ctrlr :=
  if ck_kato c !=? 0 then
    c <| ck_last_keep_alive_tick := now |> <| ck_keep_alive_poller := Some (keep_alive_period (ck_kato c)) |>
  else c.

Definition nvmf_ctrlr_keep_alive (now : Z) (c : cc_ctrlr) : cc_ctrlr := c <| ck_last_keep_alive_tick := now |>.

(** [nvmf_ctrlr_set_features_keep_alive_timer]; [false] for the status Keep
    Alive Invalid. *)
Definition nvmf_ctrlr_set_features_keep_alive_timer (cdw11 : Z) (c : cc_ctrlr) : cc_ctrlr * bool :=
  if cdw11 =? 0 then (c, false)
  else
    let c := c <| ck_kato := if cdw11 <? MIN_KEEP_ALIVE_TIMEOUT_IN_MS then MIN_KEEP_ALIVE_TIMEOUT_IN_MS else kato_rounded cdw11 |> in
    (c <| ck_keep_alive_poller := Some (keep_alive_period (ck_kato c)) |>, true).

(** ** Queue pairs *)

(** [_nvmf_ctrlr_free_from_qpair], and before it the admin queue's pointer
    ([_nvmf_transport_qpair_fini_complete]). *)
Definition _nvmf_ctrlr_free_from_qpair (qid : Z) (c : cc_ctrlr) : cc_ctrlr :=
  let c := if qid =? 0 then c <| ck_admin_qpair := false |> else c in
  let c := c <| ck_mask := ck_mask c ∖ {[qid]} |> in
  if (size (ck_mask c) =? 0)%nat then c <| ck_in_destruct := true |> else c.

(** ** The controller as a machine *)

(** A controller at a time in ticks. *)
Record cc_sys := CcSys { cy_now : Z; cy_ctrlr : cc_ctrlr }.

(** The steps: time passes; a property command on the admin queue; the end of
    a visit; the timers; Keep Alive and Set Features; queue pairs that connect
    or go. *)
Inductive cc_step : cc_sys -> cc_sys -> Prop :=
| cs_tick now now' c : now <= now' < 2 ^ 64 -> cc_step (CcSys now c) (CcSys now' c)
| cs_set now c c' attrib ofst value ret : ck_admin_qpair c = true -> 0 <= ofst < 2 ^ 32 -> 0 <= value < 2 ^ 64 ->
    nvmf_property_set now attrib ofst value c = Some (c', ret) -> cc_step (CcSys now c) (CcSys now c')
| cs_visited now c l l' : ck_visits c = l ++ VisitIo :: l' ->
    cc_step (CcSys now c) (CcSys now (_nvmf_ctrlr_cc_reset_shn_done now (c <| ck_visits := l ++ l' |>)).1)
| cs_visited_all now c l l' : ck_visits c = l ++ VisitAll :: l' -> cc_step (CcSys now c) (CcSys now (c <| ck_visits := l ++ l' |>))
| cs_cc_timer now c : ck_cc_timer c = true -> cc_step (CcSys now c) (CcSys now (_nvmf_ctrlr_cc_reset_shn_done now c).1)
| cs_cc_timeout now c : ck_cc_timeout_timer c = true -> cc_step (CcSys now c) (CcSys now (nvmf_ctrlr_cc_timeout c))
| cs_association now c : ck_association_timer c = true -> cc_step (CcSys now c) (CcSys now (nvmf_ctrlr_association_remove c))
| cs_keep_alive_poll now c : ck_keep_alive_poller c <> None -> cc_step (CcSys now c) (CcSys now (nvmf_ctrlr_keep_alive_poll now c).1)
| cs_keep_alive now c : ck_admin_qpair c = true -> cc_step (CcSys now c) (CcSys now (nvmf_ctrlr_keep_alive now c))
| cs_set_kato now c cdw11 : ck_admin_qpair c = true -> 0 <= cdw11 < 2 ^ 32 ->
    cc_step (CcSys now c) (CcSys now (nvmf_ctrlr_set_features_keep_alive_timer cdw11 c).1)
| cs_join now c qid : ck_admin_qpair c = true -> qid ∉ ck_mask c -> cc_step (CcSys now c) (CcSys now (c <| ck_mask := ck_mask c ∪ {[qid]} |>))
| cs_leave now c qid : qid ∈ ck_mask c -> cc_step (CcSys now c) (CcSys now (_nvmf_ctrlr_free_from_qpair qid c)).

(** A controller when its admin queue has been added
    ([_nvmf_ctrlr_add_admin_qpair]). *)
Definition cc_init (now max_queue_depth kato association_timeout : Z) (multi_iocs : bool) (nss : list (Z * bool)) : cc_sys :=
  let c := CcCtrlr (vcprop_init max_queue_depth multi_iocs) false false false false 0 false association_timeout None 0 kato false true {[0]} nss [] [] in
  CcSys now (nvmf_ctrlr_start_keep_alive_timer now c).

Definition cc_reachable (now max_queue_depth kato association_timeout : Z) (multi_iocs : bool) (nss : list (Z * bool)) (y : cc_sys) : Prop :=
  rtc cc_step (cc_init now max_queue_depth kato association_timeout multi_iocs nss) y.
End Ticks.

(** ** Lemmas on bit fields *)

Lemma bits_testbit lo n x i : 0 <= lo -> 0 <= n -> 0 <= i -> Z.testbit (bits lo n x) i = (i <? n) && Z.testbit x (i + lo).
Proof.
  intros Hl Hn Hi. unfold bits. rewrite Z.land_spec, Z.shiftr_spec, Z.testbit_ones_nonneg by lia. apply andb_comm.
Qed.

Lemma put_bits_testbit lo n v x i : 0 <= lo -> 0 <= n -> 0 <= i ->
  Z.testbit (put_bits lo n v x) i = if (lo <=? i) && (i <? lo + n) then Z.testbit v (i - lo) else Z.testbit x i.
Proof.
  intros Hl Hn Hi. unfold put_bits. rewrite Z.lor_spec, Z.ldiff_spec, !Z.shiftl_spec, Z.land_spec by lia.
  destruct (Z.leb_spec lo i); cbn [andb].
  - rewrite Z.testbit_ones_nonneg by lia. destruct (Z.ltb_spec i (lo + n)), (Z.ltb_spec (i - lo) n); try lia; cbn [negb];
      rewrite ?andb_true_r, ?andb_false_r, ?orb_false_r; done.
  - rewrite !(Z.testbit_neg_r _ (i - lo)) by lia. cbn. by rewrite andb_true_r, orb_false_r.
Qed.

Lemma bits_put_same lo n v x : 0 <= lo -> 0 <= n -> bits lo n (put_bits lo n v x) = v mod 2 ^ n.
Proof.
  intros Hl Hn. apply Z.bits_inj'. intros i Hi. rewrite bits_testbit, put_bits_testbit by lia.
  destruct (Z.ltb_spec i n).
  - rewrite Z.mod_pow2_bits_low by lia. cbn [andb]. replace (_ && _) with true by lia. f_equal. lia.
  - by rewrite Z.mod_pow2_bits_high by lia.
Qed.

Lemma bits_put_other lo n v x lo' n' : 0 <= lo -> 0 <= n -> 0 <= lo' -> 0 <= n' -> lo' + n' <= lo \/ lo + n <= lo' ->
  bits lo' n' (put_bits lo n v x) = bits lo' n' x.
Proof.
  intros. apply Z.bits_inj'. intros i Hi. rewrite !bits_testbit, put_bits_testbit by lia.
  destruct (Z.ltb_spec i n'); [|done]. cbn [andb]. by replace (_ && _) with false by lia.
Qed.

Lemma bits_lxor lo n x y : 0 <= lo -> 0 <= n -> bits lo n (Z.lxor x y) = 0 <-> bits lo n x = bits lo n y.
Proof.
  intros Hl Hn. assert (E : bits lo n (Z.lxor x y) = Z.lxor (bits lo n x) (bits lo n y)).
  { apply Z.bits_inj'. intros i Hi. rewrite Z.lxor_spec, !bits_testbit, Z.lxor_spec by lia. by destruct (i <? n). }
  rewrite E. apply Z.lxor_eq_0_iff.
Qed.

Lemma put_bits_small lo n v : 0 <= lo -> 0 <= n -> 0 <= v < 2 ^ n -> v mod 2 ^ n = v.
Proof. intros. by apply Z.mod_small. Qed.

(** The fields of the registers do not overlap. *)
Lemma flag_cases lo x : 0 <= lo -> bits lo 1 x = 0 \/ bits lo 1 x = 1.
Proof. intros Hl. pose proof (bits_range lo 1 x Hl ltac:(lia)). change (2 ^ 1) with 2 in *. lia. Qed.

(** Reading a field after assignments to fields. *)
Ltac fields := unfold cc_en, cc_css, cc_mps, cc_ams, cc_shn, cc_iosqes, cc_iocqes, csts_rdy, csts_cfs, csts_shst in *;
  repeat first [rewrite bits_put_same by lia | rewrite bits_put_other by lia].

Ltac cksimp := unfold upd_regs, set_cc_bits, set_csts_bits, nvmf_ctrlr_stop_keep_alive_timer, nvmf_ctrlr_stop_association_timer,
    nvmf_ctrlr_set_fatal_status, start_disconnect in *;
  cbn [set fst snd ck_regs ck_disconnect_in_progress ck_disconnect_is_shn ck_cc_timer ck_cc_timeout_timer ck_cc_timeout_tsc
    ck_association_timer ck_association_timeout ck_keep_alive_poller ck_last_keep_alive_tick ck_kato ck_in_destruct ck_admin_qpair ck_mask ck_ns
    ck_visits ck_log vp_cap vp_vs vp_cc vp_csts vp_aqa vp_asq vp_acq upd_regs] in *.

(** ** Invariant *)

Definition io_visits (c : cc_ctrlr) : nat := length (List.filter is_io (ck_visits c)).

(** A disconnection under way is exactly one visit or one armed timer that will
    end it; the ready bit follows the enable bit, except while a reset is
    under way. *)
Record cc_inv (c : cc_ctrlr) : Prop := {
  ci_pending : (io_visits c + Nat.b2n (ck_cc_timer c) = Nat.b2n (ck_disconnect_in_progress c))%nat;
  ci_enabled : cc_en (vp_cc (ck_regs c)) = 1 -> csts_rdy (vp_csts (ck_regs c)) = 1;
  ci_reset : csts_rdy (vp_csts (ck_regs c)) = 1 -> cc_en (vp_cc (ck_regs c)) = 0 ->
             ck_disconnect_in_progress c = true /\ ck_disconnect_is_shn c = false;
  ci_timeout : ck_cc_timeout_timer c = true -> ck_disconnect_in_progress c = true;
  ci_shn : ck_disconnect_is_shn c = true -> ck_disconnect_in_progress c = true }.

(** The fields the invariant reads. *)
Lemma cc_inv_ext c c' : ck_visits c' = ck_visits c -> ck_cc_timer c' = ck_cc_timer c -> ck_disconnect_in_progress c' = ck_disconnect_in_progress c ->
  ck_disconnect_is_shn c' = ck_disconnect_is_shn c -> ck_cc_timeout_timer c' = ck_cc_timeout_timer c ->
  cc_en (vp_cc (ck_regs c')) = cc_en (vp_cc (ck_regs c)) -> csts_rdy (vp_csts (ck_regs c')) = csts_rdy (vp_csts (ck_regs c)) ->
  cc_inv c -> cc_inv c'.
Proof. intros E1 E2 E3 E4 E5 E6 E7 [H1 H2 H3 H4 H5]. split; unfold io_visits in *; rewrite ?E1, ?E2, ?E3, ?E4, ?E5, ?E6, ?E7; done. Qed.

Ltac ck_ext c := apply (cc_inv_ext c); cksimp; try done; try (fields; done).

Lemma io_visits_app l l' : length (List.filter is_io (l ++ l')) =
  (length (List.filter is_io l) + length (List.filter is_io l'))%nat.
Proof. by rewrite List.filter_app, length_app. Qed.

Lemma io_visits_add c c' : ck_visits c' = ck_visits c ++ [VisitIo] -> io_visits c' = S (io_visits c).
Proof. intros E. unfold io_visits. rewrite E, io_visits_app. cbn. lia. Qed.

(** A disconnection starts when none is under way. *)
Lemma start_inv hz now shn c c0 : cc_inv c -> ck_disconnect_in_progress c = false ->
  ck_visits c0 = ck_visits c -> ck_cc_timer c0 = ck_cc_timer c ->
  (cc_en (vp_cc (ck_regs c0)) = 1 -> csts_rdy (vp_csts (ck_regs c0)) = 1) ->
  (csts_rdy (vp_csts (ck_regs c0)) = 1 -> cc_en (vp_cc (ck_regs c0)) = 0 -> shn = false) ->
  cc_inv (start_disconnect hz now shn c0).
Proof.
  intros [H1 H2 H3 H4 H5] Hd Ev Et He Hr. rewrite Hd in H1. split; cksimp; try done.
  - rewrite (io_visits_add c0) by done. unfold io_visits in *. rewrite Ev, Et. cbn in *. lia.
  - intros Hx Hy. by rewrite Hr.
Qed.

Lemma set_cc_en_inv hz now cc diff c : cc_inv c ->
  match set_cc_en hz now cc diff c with inl (c', _) => cc_inv c' | inr (c', _) => cc_inv c' end.
Proof.
  intros HI. unfold set_cc_en. destruct (cc_en diff =? 0); [done|]. destruct (cc_en cc !=? 0).
  - destruct HI as [H1 H2 H3 H4 H5]. split; cksimp; try done; fields; done.
  - destruct (ck_disconnect_in_progress c) eqn:Ed; [done|]. apply (start_inv _ _ _ c); cksimp; try done; fields; done.
Qed.

Lemma set_cc_shn_inv hz now cc diff c : cc_inv c ->
  match set_cc_shn hz now cc diff c with inl (c', _) => cc_inv c' | inr (c', _) => cc_inv c' end.
Proof.
  intros HI. unfold set_cc_shn. destruct (cc_shn diff =? 0); [done|]. destruct (_ || _).
  - destruct (ck_disconnect_in_progress c) eqn:Ed; [done|].
    apply (cc_inv_ext (start_disconnect hz now true (set_cc_bits 14 2 (cc_shn cc) c))); try done.
    pose proof HI as [H1 H2 H3 H4 H5]. apply (start_inv _ _ _ c); cksimp; try done; fields; [done|].
    intros Hr He. destruct (H3 Hr He). congruence.
  - destruct (cc_shn cc =? 0); [|done]. ck_ext c.
Qed.

Lemma set_cc_inv hz now v c : cc_inv c -> cc_inv (nvmf_prop_set_cc hz now v c).1.
Proof.
  intros HI. unfold nvmf_prop_set_cc. set (diff := Z.lxor _ _). pose proof (set_cc_en_inv hz now v diff c HI) as H1.
  destruct (set_cc_en _ _ _ _ _) as [[c1 d1]|[c1 b1]]; [|done]. pose proof (set_cc_shn_inv hz now v d1 c1 H1) as H2.
  destruct (set_cc_shn _ _ _ _ _) as [[c2 d2]|[c2 b2]]; [|done].
  set (c3 := if cc_iosqes d2 !=? 0 then _ else _). assert (H3 : cc_inv c3) by (subst c3; destruct (cc_iosqes d2 !=? 0); [ck_ext c2|done]).
  set (c4 := if cc_iocqes d2 !=? 0 then _ else _). assert (H4 : cc_inv c4) by (subst c4; destruct (cc_iocqes d2 !=? 0); [ck_ext c3|done]).
  by repeat case_match.
Qed.


(** What a property command changes. *)
Definition same_status (r r' : spdk_nvmf_registers) : Prop :=
  vp_cc r' = vp_cc r /\ vp_csts r' = vp_csts r /\ vp_cap r' = vp_cap r /\ vp_vs r' = vp_vs r.

Lemma property_set_cases hz now attrib ofst value c c' ret : nvmf_property_set hz now attrib ofst value c = Some (c', ret) ->
  (exists v, 0 <= v < 2 ^ 32 /\ (c', ret) = nvmf_prop_set_cc hz now v c) \/
  exists r, c' = c <| ck_regs := r |> /\ same_status (ck_regs c) r.
Proof.
  assert (HS : exists r, c = c <| ck_regs := r |> /\ same_status (ck_regs c) r) by (exists (ck_regs c); by destruct c).
  unfold nvmf_property_set. destruct (prop_size attrib) as [size|]; cbn [mbind option_bind]; [|intros [= <- _]; by right].
  destruct (find_prop hz ofst size) as [p|] eqn:E; cbn [mbind option_bind]; [|intros [= <- _]; by right].
  apply List.find_some in E as [Hp _]. pose proof (u32_range value) as Hv. cbn in Hp.
  repeat (destruct Hp as [<-|Hp]); [..|done]; cbn [pr_set pr_size pr_ofst pr_set_upper mbind option_bind Z.eqb Pos.eqb negb];
    try (intros [= <- _]; by right).
  - intros [= H]. left. by exists (u32 value).
  - intros [= H]. right. unfold nvmf_prop_set_aqa in H. destruct (_ || _) in H; injection H as <- _; [done|]. by eexists.
  - unfold nvmf_prop_set_asq_lower, nvmf_prop_set_asq_upper. intros H. right.
    destruct (size =? 8), (ofst =? 40); cbn in H; injection H as <- _; eexists; (split; [reflexivity|done]).
  - unfold nvmf_prop_set_acq_lower, nvmf_prop_set_acq_upper. intros H. right.
    destruct (size =? 8), (ofst =? 48); cbn in H; injection H as <- _; eexists; (split; [reflexivity|done]).
Qed.

Lemma restart_association_eq c : restart_association_timer c = c <| ck_association_timer := ck_association_timeout c !=? 0 |>.
Proof.
  destruct c. unfold restart_association_timer, nvmf_ctrlr_stop_association_timer. cbn.
  destruct ck_association_timer0; cbn; destruct (ck_association_timeout0 =? 0); reflexivity.
Qed.

(** The end of a disconnection, or another turn of its timer. *)
Lemma reset_done_inv now c c0 : cc_inv c -> ck_disconnect_in_progress c = true -> io_visits c0 = 0%nat ->
  ck_regs c0 = ck_regs c -> ck_disconnect_in_progress c0 = true -> ck_disconnect_is_shn c0 = ck_disconnect_is_shn c ->
  cc_inv (_nvmf_ctrlr_cc_reset_shn_done now c0).1.
Proof.
  intros [H1 H2 H3 H4 H5] Hd Hv Er Ed Es. rewrite <- Er, <- Es in *. unfold _nvmf_ctrlr_cc_reset_shn_done. rewrite restart_association_eq. cksimp.
  destruct ((1 <? _) && (now <? _)); [split; cksimp; try done; rewrite ?Ed; [unfold io_visits in *; cksimp; by rewrite Hv|naive_solver..]|].
  destruct (1 <? _), (ck_disconnect_is_shn c0) eqn:Esh; split; cksimp; try done; fields; try done;
    try (unfold io_visits in *; cksimp; rewrite Esh; cksimp; by rewrite Hv); rewrite ?Esh; cksimp; fields; try done; try congruence; intros Hr He; by destruct (H3 Hr He).
Qed.

Lemma io_visits_mid c l l' v : ck_visits c = l ++ v :: l' ->
  io_visits c = (Nat.b2n (is_io v) + length (List.filter is_io (l ++ l')))%nat.
Proof. intros E. unfold io_visits. rewrite E, !io_visits_app. cbn. destruct v; cbn; lia. Qed.

Lemma cc_step_inv hz y y' : cc_step hz y y' -> cc_inv (cy_ctrlr y) -> cc_inv (cy_ctrlr y').
Proof.
  intros H HI. pose proof HI as [H1 H2 H3 H4 H5].
  destruct H as [now now' c Hn|now c c' attrib ofst value ret Ha Ho Hv H|now c l l' Hv|now c l l' Hv|now c Ht|now c Ht|now c Ht|now c Ht|now c Ha|now c k Ha Hk|now c q Ha Hq|now c q Hq];
    cbn [cy_ctrlr] in *.
  - done.
  - apply property_set_cases in H as [(v & Hv' & E)|(r & -> & S1 & S2 & _)].
    + change c' with (c', ret).1. rewrite E. by apply set_cc_inv.
    + apply (cc_inv_ext c); cksimp; try done; by rewrite ?S1, ?S2.
  - rewrite (io_visits_mid c l l' VisitIo Hv) in H1. cbn in H1. apply (reset_done_inv _ c); cksimp; try done.
    + destruct (ck_disconnect_in_progress c); [done|cbn in H1; lia].
    + unfold io_visits. cksimp. destruct (ck_disconnect_in_progress c); cbn in H1; lia.
    + destruct (ck_disconnect_in_progress c); [done|cbn in H1; lia].
  - rewrite (io_visits_mid c l l' VisitAll Hv) in H1. split; cksimp; done.
  - assert (Hd : ck_disconnect_in_progress c = true) by (rewrite Ht in H1; destruct (ck_disconnect_in_progress c); [done|cbn in H1; lia]).
    apply (reset_done_inv _ c); try done. rewrite Ht, Hd in H1. cbn in H1. lia.
  - unfold nvmf_ctrlr_cc_timeout. cksimp. destruct (ck_admin_qpair c); split; cksimp; done.
  - unfold nvmf_ctrlr_association_remove. cksimp. destruct (ck_in_destruct c), (ck_admin_qpair c); ck_ext c.
  - unfold nvmf_ctrlr_keep_alive_poll. destruct (ck_in_destruct c); [ck_ext c|]. destruct (_ && _); [|done]. cksimp. split; cksimp; try done; fields; try done.
    unfold io_visits in *. cksimp. rewrite io_visits_app. cbn. lia.
  - ck_ext c.
  - unfold nvmf_ctrlr_set_features_keep_alive_timer. destruct (k =? 0); [done|]. ck_ext c.
  - ck_ext c.
  - unfold _nvmf_ctrlr_free_from_qpair. destruct (q =? 0); cksimp; destruct (size _ =? 0)%nat; ck_ext c.
Qed.

(** ** The properties as register memory *)

(** The 32-bit words of [struct spdk_nvme_registers] up to ACQ; those of
    registers that are no properties are 0. *)
Definition reg_words (r : spdk_nvmf_registers) : list Z :=
  [bits 0 32 (vp_cap r); bits 32 32 (vp_cap r); vp_vs r; 0; 0; vp_cc r; 0; vp_csts r; 0; vp_aqa r;
   bits 0 32 (vp_asq r); bits 32 32 (vp_asq r); bits 0 32 (vp_acq r); bits 32 32 (vp_acq r)].

Definition regs_ok (r : spdk_nvmf_registers) : Prop :=
  0 <= vp_cap r < 2 ^ 64 /\ 0 <= vp_vs r < 2 ^ 32 /\ 0 <= vp_cc r < 2 ^ 32 /\ 0 <= vp_csts r < 2 ^ 32 /\ 0 <= vp_aqa r < 2 ^ 32 /\
  0 <= vp_asq r < 2 ^ 64 /\ 0 <= vp_acq r < 2 ^ 64.

(** A read of one or two words at word [k]. *)
Definition read_words (r : spdk_nvmf_registers) (k : nat) (attrib : Z) : option Z :=
  if attrib =? SPDK_NVMF_PROP_SIZE_4 then reg_words r !! k
  else lo ← reg_words r !! k; hi ← reg_words r !! S k; Some (lo + 2 ^ 32 * hi).

(** The accesses that a property admits: one word of a property, or both words
    of CAP, ASQ or ACQ. *)
Definition readable (k : nat) (attrib : Z) : bool :=
  if attrib =? SPDK_NVMF_PROP_SIZE_4
  then default false ([true; true; true; false; false; true; false; true; false; true; true; true; true; true] !! k)
  else (attrib =? SPDK_NVMF_PROP_SIZE_8) && ((k =? 0) || (k =? 10) || (k =? 12))%nat.

Lemma low_half x : Z.land x 0xFFFFFFFF = bits 0 32 x.
Proof. unfold bits. by rewrite Z.shiftr_0_r. Qed.
Lemma half_range x : 0 <= x < 2 ^ 64 -> 0 <= x / 2 ^ 32 < 2 ^ 32.
Proof. intros Hx. split; [apply Z.div_pos; lia|]. apply Z.div_lt_upper_bound; lia. Qed.
Lemma high_half x : 0 <= x < 2 ^ 64 -> Z.shiftr x 32 = bits 32 32 x.
Proof. intros Hx. rewrite bits_spec, Z.shiftr_div_pow2, Z.mod_small by (lia || by apply half_range). done. Qed.
Lemma both_halves x : 0 <= x < 2 ^ 64 -> bits 0 32 x + 2 ^ 32 * bits 32 32 x = x.
Proof.
  intros Hx. rewrite !bits_spec, (Z.mod_small (x / 2 ^ 32)) by (lia || by apply half_range). change (2 ^ 0) with 1. rewrite Z.div_1_r.
  pose proof (Z.div_mod x (2 ^ 32)). lia.
Qed.

(** A bit of a number of [n] bits. *)
Lemma testbit_above n v i : 0 <= v < 2 ^ n -> 0 <= n <= i -> Z.testbit v i = false.
Proof. intros Hv Hi. rewrite <- (Z.mod_small v (2 ^ n)) by lia. by apply Z.mod_pow2_bits_high. Qed.

(** The halves of ASQ and ACQ after a write of one of them. *)
Lemma lower_half_spec old v : 0 <= v < 2 ^ 32 -> bits 0 32 (lower_half old v) = v /\ bits 32 32 (lower_half old v) = bits 32 32 old.
Proof.
  intros Hv. unfold lower_half. change 0xFFFFFFFF with (Z.ones 32).
  split; apply Z.bits_inj'; intros i Hi; rewrite ?bits_testbit, Z.lor_spec, Z.land_spec, Z.shiftl_spec by lia; destruct (Z.ltb_spec i 32); cbn [andb].
  - rewrite (Z.testbit_neg_r _ (i + 0 - 32)), andb_false_r by lia. by rewrite Z.add_0_r.
  - by rewrite (testbit_above 32 v i) by lia.
  - rewrite (testbit_above 32 v), Z.testbit_ones_nonneg, orb_false_r by lia. rewrite (proj2 (Z.ltb_lt _ _)) by lia. by rewrite andb_true_r.
  - done.
Qed.

Lemma upper_half_spec old v : 0 <= v < 2 ^ 32 -> bits 0 32 (upper_half old v) = bits 0 32 old /\ bits 32 32 (upper_half old v) = v.
Proof.
  intros Hv. unfold upper_half, u64. change 0xFFFFFFFF with (Z.ones 32).
  split; apply Z.bits_inj'; intros i Hi; rewrite ?bits_testbit, Z.lor_spec, Z.land_spec by lia; destruct (Z.ltb_spec i 32); cbn [andb].
  - rewrite Z.mod_pow2_bits_low, Z.shiftl_spec, (Z.testbit_neg_r v), orb_false_r, Z.testbit_ones_nonneg by lia.
    rewrite (proj2 (Z.ltb_lt _ _)) by lia. by rewrite andb_true_r.
  - done.
  - rewrite Z.mod_pow2_bits_low, Z.shiftl_spec, Z.testbit_ones_nonneg by lia. rewrite (proj2 (Z.ltb_ge _ _)) by lia. rewrite andb_false_r. cbn. f_equal. lia.
  - by rewrite (testbit_above 32 v i) by lia.
Qed.

(** Beyond ACQ there is no property. *)
Lemma find_prop_beyond hz ofst size : 56 <= ofst < 2 ^ 32 - 8 -> 0 < size <= 8 -> find_prop hz ofst size = None.
Proof.
  intros Ho Hs. unfold find_prop. rewrite u32_small by lia. cbn [List.find nvmf_props pr_ofst pr_size].
  repeat match goal with |- context [?a && (?b <=? ?c)] => rewrite (proj2 (Z.leb_gt b c)), (andb_false_r a) by lia end. done.
Qed.

(** Evaluates the look-up of a property at a known offset. *)
Ltac find_concrete := match goal with |- context [find_prop ?h ?o ?s] =>
  let t := eval cbv -[nvmf_prop_set_cc nvmf_prop_set_aqa nvmf_prop_set_asq_lower nvmf_prop_set_asq_upper nvmf_prop_set_acq_lower
    nvmf_prop_set_acq_upper vp_cap vp_vs vp_cc vp_csts vp_aqa vp_asq vp_acq] in (find_prop h o s) in change (find_prop h o s) with t end.

Lemma property_get_words hz c attrib k : regs_ok (ck_regs c) -> Z.of_nat k < 2 ^ 30 - 2 ->
  nvmf_property_get hz attrib (4 * Z.of_nat k) c = (if readable k attrib then read_words (ck_regs c) k attrib else None).
Proof.
  intros (H1 & H2 & H3 & H4 & H5 & H6 & H7) Hk. unfold nvmf_property_get, prop_size, readable, read_words.
  destruct (Z.eqb_spec attrib SPDK_NVMF_PROP_SIZE_4) as [->|_].
  - cbn [mbind option_bind]. destruct (decide (k < 14)%nat) as [Hlt|Hge].
    + do 14 (destruct k as [|k]; [find_concrete; cbn -[bits Z.land Z.shiftr]; rewrite ?low_half, ?high_half by lia; reflexivity|]). lia.
    + rewrite find_prop_beyond by lia. rewrite lookup_ge_None_2; [done|cbn; lia].
  - destruct (Z.eqb_spec attrib SPDK_NVMF_PROP_SIZE_8) as [->|_]; cbn [andb mbind option_bind]; [|done].
    destruct (decide (k < 14)%nat) as [Hlt|Hge].
    + do 14 (destruct k as [|k]; [find_concrete; cbn -[bits Z.pow Z.mul]; rewrite ?both_halves by lia; reflexivity|]). lia.
    + rewrite find_prop_beyond by lia. do 14 (destruct k as [|k]; [lia|]). done.
Qed.

(** A write of one or two words. *)
Definition write_words (k : nat) (attrib value : Z) (l : list Z) : list Z :=
  if attrib =? SPDK_NVMF_PROP_SIZE_4 then <[k := u32 value]> l else <[S k := value / 2 ^ 32]> (<[k := u32 value]> l).

Lemma u32_high value : 0 <= value < 2 ^ 64 -> u32 (Z.shiftr value 32) = value / 2 ^ 32.
Proof. intros Hv. rewrite Z.shiftr_div_pow2 by lia. apply u32_small. by apply half_range. Qed.

(** Only the registers change, and these words of them. *)
Definition writes (c c' : cc_ctrlr) (f : list Z -> list Z) : Prop :=
  c' = c <| ck_regs := ck_regs c' |> /\ reg_words (ck_regs c') = f (reg_words (ck_regs c)).

Lemma asq_lower_writes now v c : 0 <= v < 2 ^ 32 -> writes c (nvmf_prop_set_asq_lower now v c).1 <[10%nat := v]>.
Proof.
  intros Hv. destruct (lower_half_spec (vp_asq (ck_regs c)) v Hv) as [E1 E2]. split; [done|]. unfold reg_words, nvmf_prop_set_asq_lower. cksimp. by rewrite E1, E2.
Qed.
Lemma asq_upper_writes now v c : 0 <= v < 2 ^ 32 -> writes c (nvmf_prop_set_asq_upper now v c).1 <[11%nat := v]>.
Proof.
  intros Hv. destruct (upper_half_spec (vp_asq (ck_regs c)) v Hv) as [E1 E2]. split; [done|]. unfold reg_words, nvmf_prop_set_asq_upper. cksimp. by rewrite E1, E2.
Qed.
Lemma acq_lower_writes now v c : 0 <= v < 2 ^ 32 -> writes c (nvmf_prop_set_acq_lower now v c).1 <[12%nat := v]>.
Proof.
  intros Hv. destruct (lower_half_spec (vp_acq (ck_regs c)) v Hv) as [E1 E2]. split; [done|]. unfold reg_words, nvmf_prop_set_acq_lower. cksimp. by rewrite E1, E2.
Qed.
Lemma acq_upper_writes now v c : 0 <= v < 2 ^ 32 -> writes c (nvmf_prop_set_acq_upper now v c).1 <[13%nat := v]>.
Proof.
  intros Hv. destruct (upper_half_spec (vp_acq (ck_regs c)) v Hv) as [E1 E2]. split; [done|]. unfold reg_words, nvmf_prop_set_acq_upper. cksimp. by rewrite E1, E2.
Qed.
Lemma writes_trans c c1 c2 f g : writes c c1 f -> writes c1 c2 g -> writes c c2 (fun l => g (f l)).
Proof. intros [E1 H1] [E2 H2]. split; [|by rewrite H2, H1]. rewrite E2, E1. by destruct c. Qed.

Lemma property_set_words hz now c c' attrib k value : Z.of_nat k < 2 ^ 30 - 2 -> 0 <= value < 2 ^ 64 -> k <> 5%nat ->
  nvmf_property_set hz now attrib (4 * Z.of_nat k) value c = Some (c', true) -> writes c c' (write_words k attrib value).
Proof.
  intros Hk Hv H5. unfold nvmf_property_set, prop_size, write_words. pose proof (u32_range value) as Hr.
  pose proof (half_range value Hv) as Hh. rewrite !u32_high by done.
  destruct (Z.eqb_spec attrib SPDK_NVMF_PROP_SIZE_4) as [->|_].
  - cbn [mbind option_bind]. destruct (decide (k < 14)%nat) as [Hlt|Hge]; [|rewrite find_prop_beyond by lia; done].
    do 14 try (destruct k as [|k]; [try done; find_concrete; cbn -[bits Z.land Z.shiftr nvmf_prop_set_cc nvmf_prop_set_aqa lower_half upper_half u32 upd_regs]; try done|]); try lia.
    + unfold nvmf_prop_set_aqa. destruct (_ || _); [done|]. intros [= <-]. split; [done|]. unfold reg_words. by cksimp.
    + intros [= <-]. by apply (asq_lower_writes now).
    + intros [= <-]. by apply (asq_upper_writes now).
    + intros [= <-]. by apply (acq_lower_writes now).
    + intros [= <-]. by apply (acq_upper_writes now).
  - destruct (Z.eqb_spec attrib SPDK_NVMF_PROP_SIZE_8) as [->|_]; cbn [mbind option_bind]; [|done].
    destruct (decide (k < 14)%nat) as [Hlt|Hge]; [|rewrite find_prop_beyond by lia; done].
    do 14 try (destruct k as [|k]; [try done; find_concrete; cbn -[bits Z.land Z.shiftr Z.div lower_half upper_half u32 upd_regs]; try done|]); try lia.
    + intros [= <-]. eapply writes_trans; [by apply (asq_lower_writes now)|by apply (asq_upper_writes now)].
    + intros [= <-]. eapply writes_trans; [by apply (acq_lower_writes now)|by apply (acq_upper_writes now)].
Qed.

(** ** A write of CC *)

(** The fields of [x'] outside of bits [lo] to [hi] are those of [x]. *)
Definition same_outside (lo hi x x' : Z) : Prop :=
  forall l n, 0 <= l -> 0 <= n -> l + n <= lo \/ hi <= l -> bits l n x' = bits l n x.

Lemma put_outside lo n v x : 0 <= lo -> 0 <= n -> same_outside lo (lo + n) x (put_bits lo n v x).
Proof. intros Hl Hn l m Hl' Hm Ho. by apply bits_put_other. Qed.
Lemma same_refl lo hi x : same_outside lo hi x x.
Proof. done. Qed.

Definition falls (v : Z) (c : cc_ctrlr) : bool := (cc_en (vp_cc (ck_regs c)) =? 1) && (cc_en v =? 0).
Definition shuts_down (v : Z) (c : cc_ctrlr) : bool :=
  negb (cc_shn v =? cc_shn (vp_cc (ck_regs c))) && ((cc_shn v =? SPDK_NVME_SHN_NORMAL) || (cc_shn v =? SPDK_NVME_SHN_ABRUPT)).

Lemma en_stage hz now v diff c : diff = Z.lxor v (vp_cc (ck_regs c)) -> ck_disconnect_in_progress c = false ->
  exists c1 d1, set_cc_en hz now v diff c = inl (c1, d1) /\ same_outside 0 1 diff d1 /\
    same_outside 0 1 (vp_cc (ck_regs c)) (vp_cc (ck_regs c1)) /\ cc_en (vp_cc (ck_regs c1)) = cc_en v /\
    ck_disconnect_in_progress c1 = falls v c /\ ck_disconnect_is_shn c1 = (if falls v c then false else ck_disconnect_is_shn c) /\
    vp_csts (ck_regs c1) = (if (cc_en v =? 1) && (cc_en (vp_cc (ck_regs c)) =? 0) then put_bits 0 1 1 (vp_csts (ck_regs c)) else vp_csts (ck_regs c)).
Proof.
  intros -> Hd. unfold set_cc_en, falls. destruct (Z.eqb_spec (cc_en (Z.lxor v (vp_cc (ck_regs c)))) 0) as [E|E].
  - apply bits_lxor in E; [|lia..]. exists c, (Z.lxor v (vp_cc (ck_regs c))). fields. rewrite E, Hd.
    destruct (flag_cases 0 (vp_cc (ck_regs c)) ltac:(lia)) as [-> | ->]; by repeat split.
  - assert (E' : bits 0 1 v <> bits 0 1 (vp_cc (ck_regs c))) by (intros E'; apply E, bits_lxor; [lia..|done]).
    fields. rewrite Hd. destruct (flag_cases 0 v ltac:(lia)) as [Ev|Ev], (flag_cases 0 (vp_cc (ck_regs c)) ltac:(lia)) as [Eo|Eo]; try congruence;
      rewrite Ev, Eo; cbn [Z.eqb negb andb Pos.eqb]; eexists _, _; (split; [reflexivity|]); cksimp; fields;
      (split; [apply (put_outside 0 1); lia|]); (split; [apply (put_outside 0 1); lia|]); done.
Qed.

Lemma shn_stage hz now v diff c : cc_shn diff = 0 <-> cc_shn v = cc_shn (vp_cc (ck_regs c)) ->
  (shuts_down v c = true -> ck_disconnect_in_progress c = false) ->
  match set_cc_shn hz now v diff c with
  | inl (c1, d1) => same_outside 14 16 diff d1 /\ same_outside 14 16 (vp_cc (ck_regs c)) (vp_cc (ck_regs c1)) /\
      cc_shn (vp_cc (ck_regs c1)) = cc_shn v /\ vp_csts (ck_regs c1) = vp_csts (ck_regs c) /\
      ck_disconnect_in_progress c1 = shuts_down v c || ck_disconnect_in_progress c /\
      ck_disconnect_is_shn c1 = shuts_down v c || ck_disconnect_is_shn c
  | inr (_, b) => b = false
  end.
Proof.
  intros Hdf Hd. unfold set_cc_shn. destruct (Z.eqb_spec (cc_shn diff) 0) as [E|E].
  - apply Hdf in E. unfold shuts_down. rewrite E, Z.eqb_refl. cbn. by repeat split.
  - assert (E' : cc_shn v <> cc_shn (vp_cc (ck_regs c))) by (by rewrite <- Hdf). unfold shuts_down in *. rewrite (proj2 (Z.eqb_neq _ _) E') in *. cbn [negb andb] in *.
    destruct (_ || _) eqn:Eo.
    + rewrite Hd by done. cksimp. split; [apply (put_outside 14 2); lia|]. split; [apply (put_outside 14 2); lia|].
      split; [|done]. unfold cc_shn at 1. rewrite bits_put_same by lia. apply Z.mod_small. apply bits_range; lia.
    + destruct (Z.eqb_spec (cc_shn v) 0) as [Ez|_]; [|done]. cksimp. split; [apply (put_outside 14 2); lia|]. split; [apply (put_outside 14 2); lia|].
      split; [|done]. unfold cc_shn at 1. rewrite bits_put_same by lia. by rewrite Ez.
Qed.

(** A field that is written when it differs. *)
Lemma field_stage lo n v d c : 0 <= lo -> 0 <= n -> (bits lo n d = 0 <-> bits lo n v = bits lo n (vp_cc (ck_regs c))) ->
  let c' := if bits lo n d !=? 0 then set_cc_bits lo n (bits lo n v) c else c in
  same_outside lo (lo + n) (vp_cc (ck_regs c)) (vp_cc (ck_regs c')) /\ bits lo n (vp_cc (ck_regs c')) = bits lo n v /\
  vp_csts (ck_regs c') = vp_csts (ck_regs c) /\ ck_disconnect_in_progress c' = ck_disconnect_in_progress c /\
  ck_disconnect_is_shn c' = ck_disconnect_is_shn c.
Proof.
  intros Hl Hn Hd. destruct (Z.eqb_spec (bits lo n d) 0) as [E|E]; cbn [negb].
  - apply Hd in E. by repeat split.
  - cksimp. split; [by apply put_outside|]. split; [|done]. rewrite bits_put_same by lia. apply Z.mod_small, bits_range; lia.
Qed.

Lemma lxor_field lo n v old d : 0 <= lo -> 0 <= n -> bits lo n d = bits lo n (Z.lxor v old) -> (bits lo n d = 0 <-> bits lo n v = bits lo n old).
Proof. intros Hl Hn ->. by apply bits_lxor. Qed.

(** C21. What a write of CC does when no reset or shutdown is under way.  If it is
    accepted, EN, SHN, IOSQES and IOCQES read back as written, and AMS and MPS
    were left as they were by the host; CSS keeps its old value whatever was
    written.  RDY is set when EN rises; a disconnection starts exactly when EN
    falls or SHN is set to a normal or abrupt shutdown, and is marked a
    shutdown in the second case.  (EN falling and a shutdown in one write are
    excluded: the shutdown is then dropped.) *)
Theorem set_cc_effect hz now v c c' (Hd : ck_disconnect_in_progress c = false) (Hs : ck_disconnect_is_shn c = false)
    (Hone : falls v c && shuts_down v c = false) (H : nvmf_prop_set_cc hz now v c = (c', true)) :
  let old := vp_cc (ck_regs c) in let new := vp_cc (ck_regs c') in
  cc_en new = cc_en v /\ cc_shn new = cc_shn v /\ cc_iosqes new = cc_iosqes v /\ cc_iocqes new = cc_iocqes v /\
  cc_ams v = cc_ams old /\ cc_ams new = cc_ams old /\ cc_mps v = cc_mps old /\ cc_mps new = cc_mps old /\ cc_css new = cc_css old /\
  vp_csts (ck_regs c') = (if (cc_en v =? 1) && (cc_en old =? 0) then put_bits 0 1 1 (vp_csts (ck_regs c)) else vp_csts (ck_regs c)) /\
  ck_disconnect_in_progress c' = falls v c || shuts_down v c /\ ck_disconnect_is_shn c' = shuts_down v c.
Proof.
  unfold nvmf_prop_set_cc in H. destruct (en_stage hz now v _ c eq_refl Hd) as (c1 & d1 & E1 & D1 & O1 & N1 & P1 & S1 & R1). rewrite E1 in H.
  assert (Esd : shuts_down v c1 = shuts_down v c) by (unfold shuts_down; fields; by rewrite (O1 14 2) by lia).
  pose proof (shn_stage hz now v d1 c1) as HS.
  assert (HP1 : cc_shn d1 = 0 <-> cc_shn v = cc_shn (vp_cc (ck_regs c1))).
  { unfold cc_shn. rewrite (O1 14 2) by lia. apply lxor_field; [lia..|]. apply D1; lia. }
  assert (HP2 : shuts_down v c1 = true -> ck_disconnect_in_progress c1 = false).
  { rewrite Esd, P1. intros E. by rewrite E, andb_true_r in Hone. }
  specialize (HS HP1 HP2). destruct (set_cc_shn hz now v d1 c1) as [[c2 d2]|[c2 b2]]; [|by injection H as -> ->].
  destruct HS as (D2 & O2 & N2 & R2 & P2 & S2).
  assert (HD : forall lo n, 0 < lo -> 0 <= n -> lo + n <= 14 \/ 16 <= lo -> bits lo n d2 = bits lo n (Z.lxor v (vp_cc (ck_regs c)))) by (intros; rewrite D2, D1 by lia; done).
  assert (HO : forall lo n, 0 < lo -> 0 <= n -> lo + n <= 14 \/ 16 <= lo -> bits lo n (vp_cc (ck_regs c2)) = bits lo n (vp_cc (ck_regs c))) by (intros; rewrite O2, O1 by lia; done).
  destruct (field_stage 16 4 v d2 c2) as (O3 & N3 & R3 & P3 & S3); [lia..|rewrite HO by lia; apply lxor_field; [lia..|apply HD; lia]|].
  unfold cc_iosqes, cc_iocqes in H. set (c3 := if bits 16 4 d2 !=? 0 then _ else _) in *.
  destruct (field_stage 20 4 v d2 c3) as (O4 & N4 & R4 & P4 & S4); [lia..|rewrite O3, HO by lia; apply lxor_field; [lia..|apply HD; lia]|].
  set (c4 := if bits 20 4 d2 !=? 0 then _ else _) in *. fields. rewrite Esd, P1 in P2. rewrite Esd, S1, Hs in S2.
  destruct (Z.eqb_spec (bits 11 3 d2) 0) as [Ea|]; cbn [negb] in H; [|done]. destruct (Z.eqb_spec (bits 7 4 d2) 0) as [Em|]; cbn [negb] in H; [|done].
  rewrite HD in Ea, Em by lia. apply bits_lxor in Ea, Em; [|lia..]. destruct (_ && _) in H; [done|]. injection H as <-.
  rewrite (O4 0 1), (O3 0 1), (O2 0 1), (O4 14 2), (O3 14 2), (O4 16 4), (O4 11 3), (O3 11 3), (HO 11 3), (O4 7 4), (O3 7 4), (HO 7 4),
    (O4 4 3), (O3 4 3), (HO 4 3) by lia. split_and!; try congruence; [by rewrite P4, P3, P2, orb_comm|].
  rewrite S4, S3, S2. destruct (falls v c), (shuts_down v c); done.
Qed.

(** ** The end of a reset or shutdown *)

(** The registers when a disconnection has ended. *)
Definition ended (c c' : cc_ctrlr) : Prop :=
  ck_disconnect_in_progress c' = false /\ ck_mask c' = ck_mask c /\
  if ck_disconnect_is_shn c then vp_cc (ck_regs c') = vp_cc (ck_regs c) /\ csts_shst (vp_csts (ck_regs c')) = SPDK_NVME_SHST_COMPLETE /\
    csts_rdy (vp_csts (ck_regs c')) = csts_rdy (vp_csts (ck_regs c)) /\
    (csts_cfs (vp_csts (ck_regs c')) = if 1 <? Z.of_nat (size (ck_mask c)) then 1 else csts_cfs (vp_csts (ck_regs c)))
  else vp_cc (ck_regs c') = 0 /\ vp_csts (ck_regs c') = 0.

Lemma reset_done_ends now c : (size (ck_mask c) <= 1)%nat \/ ck_cc_timeout_tsc c <= now -> ended c (_nvmf_ctrlr_cc_reset_shn_done now c).1.
Proof.
  intros Ht. unfold _nvmf_ctrlr_cc_reset_shn_done, ended. rewrite restart_association_eq. cksimp.
  replace ((1 <? Z.of_nat (size (ck_mask c))) && (now <? ck_cc_timeout_tsc c)) with false by lia. cbn [fst snd].
  destruct (1 <? Z.of_nat (size (ck_mask c))), (ck_disconnect_is_shn c) eqn:Es; cksimp; rewrite ?Es; cksimp; (split; [done|]); (split; [done|]); try done;
    fields; split_and!; done.
Qed.

Definition cy_range (y : cc_sys) : Prop := 0 <= cy_now y < 2 ^ 64 /\ 0 <= ck_cc_timeout_tsc (cy_ctrlr y) < 2 ^ 64.

Definition tsc_ok (c c' : cc_ctrlr) : Prop := ck_cc_timeout_tsc c' = ck_cc_timeout_tsc c \/ 0 <= ck_cc_timeout_tsc c' < 2 ^ 64.

Lemma set_cc_en_tsc hz now cc diff c : match set_cc_en hz now cc diff c with inl (c', _) => tsc_ok c c' | inr (c', _) => tsc_ok c c' end.
Proof. unfold set_cc_en, tsc_ok. repeat case_match; simplify_eq; cksimp; auto using u64_range. Qed.
Lemma set_cc_shn_tsc hz now cc diff c : match set_cc_shn hz now cc diff c with inl (c', _) => tsc_ok c c' | inr (c', _) => tsc_ok c c' end.
Proof. unfold set_cc_shn, tsc_ok. repeat case_match; simplify_eq; cksimp; auto using u64_range. Qed.

Lemma set_cc_tsc hz now v c : tsc_ok c (nvmf_prop_set_cc hz now v c).1.
Proof.
  unfold nvmf_prop_set_cc. set (diff := Z.lxor _ _). pose proof (set_cc_en_tsc hz now v diff c) as H1.
  destruct (set_cc_en _ _ _ _ _) as [[c1 d1]|[c1 b1]]; [|done]. pose proof (set_cc_shn_tsc hz now v d1 c1) as H2.
  destruct (set_cc_shn _ _ _ _ _) as [[c2 d2]|[c2 b2]]; unfold tsc_ok in *.
  - assert (E : forall c3, ck_cc_timeout_tsc c3 = ck_cc_timeout_tsc c2 -> ck_cc_timeout_tsc c3 = ck_cc_timeout_tsc c \/ 0 <= ck_cc_timeout_tsc c3 < 2 ^ 64)
      by (intros c3 ->; destruct H2 as [->|]; auto).
    destruct (cc_iosqes d2 =? 0), (cc_iocqes d2 =? 0), (cc_ams d2 =? 0), (cc_mps d2 =? 0), (_ && _); by apply E.
  - cbn. destruct H2 as [->|]; auto.
Qed.

Lemma cc_step_range hz y y' : cc_step hz y y' -> cy_range y -> cy_range y'.
Proof.
  intros H [HN HT].
  destruct H as [now now' c Hn|now c c' attrib ofst value ret Ha Ho Hv H|now c l l' Hv|now c l l' Hv|now c Ht|now c Ht|now c Ht|now c Ht|now c Ha|now c k Ha Hk|now c q Ha Hq|now c q Hq];
    unfold cy_range; cbn [cy_ctrlr cy_now] in *; try (split; [lia|]); try done.
  - apply property_set_cases in H as [(v & Hv' & E)|(r & -> & _)]; [|done]. change c' with (c', ret).1. rewrite E.
    destruct (set_cc_tsc hz now v c) as [->|]; done.
  - unfold _nvmf_ctrlr_cc_reset_shn_done. rewrite restart_association_eq. cksimp. repeat case_match; cksimp; done.
  - unfold _nvmf_ctrlr_cc_reset_shn_done. rewrite restart_association_eq. cksimp. repeat case_match; cksimp; done.
  - unfold nvmf_ctrlr_cc_timeout. cksimp. by destruct (ck_admin_qpair c).
  - unfold nvmf_ctrlr_association_remove. cksimp. by destruct (ck_in_destruct c), (ck_admin_qpair c).
  - unfold nvmf_ctrlr_keep_alive_poll. destruct (ck_in_destruct c); [done|]. by destruct (_ && _).
  - unfold nvmf_ctrlr_set_features_keep_alive_timer. by destruct (k =? 0).
  - unfold _nvmf_ctrlr_free_from_qpair. by destruct (q =? 0); cksimp; destruct (size _ =? 0)%nat.
Qed.

Section Reachable.
Context (hz now max_queue_depth kato association_timeout : Z) (multi_iocs : bool) (nss : list (Z * bool)).
Hypothesis Hnow : 0 <= now < 2 ^ 64.

Lemma cc_init_inv : cc_inv (cy_ctrlr (cc_init now max_queue_depth kato association_timeout multi_iocs nss)) /\
  cy_range (cc_init now max_queue_depth kato association_timeout multi_iocs nss).
Proof.
  unfold cc_init, nvmf_ctrlr_start_keep_alive_timer. cksimp. destruct (kato =? 0), multi_iocs; (split; [split|split]); try done.
Qed.

Lemma cc_reachable_inv y : cc_reachable hz now max_queue_depth kato association_timeout multi_iocs nss y -> cc_inv (cy_ctrlr y) /\ cy_range y.
Proof.
  intros H. unfold cc_reachable in H. pose proof cc_init_inv as HI. revert HI.
  induction H as [|a b c Hab _ IH]; [done|]. intros [HI HR]. apply IH. split; [by eapply cc_step_inv|by eapply cc_step_range].
Qed.
End Reachable.

(** C20. The ready bit follows the enable bit, over every interleaving of property
    writes, timers, keep-alives and queue pairs that come and go: CSTS.RDY is
    1 while CC.EN is 1, and while CC.EN is 0 it is 0 unless a reset is under
    way.  And a reset or shutdown under way has exactly one pending visit or
    armed timer that will end it. *)
Theorem ready_follows_enable hz now depth kato assoc iocs nss y (Hnow : 0 <= now < 2 ^ 64)
    (HR : cc_reachable hz now depth kato assoc iocs nss y) :
  let c := cy_ctrlr y in let r := ck_regs c in
  (cc_en (vp_cc r) = 1 -> csts_rdy (vp_csts r) = 1) /\
  (cc_en (vp_cc r) = 0 -> ck_disconnect_in_progress c && negb (ck_disconnect_is_shn c) = false -> csts_rdy (vp_csts r) = 0) /\
  (io_visits c + Nat.b2n (ck_cc_timer c) = Nat.b2n (ck_disconnect_in_progress c))%nat.
Proof.
  destruct (cc_reachable_inv _ _ _ _ _ _ _ Hnow y HR) as [[H1 H2 H3 H4 H5] _]. cbv zeta. split; [done|]. split; [|done].
  intros E Hp. destruct (flag_cases 0 (vp_csts (ck_regs (cy_ctrlr y))) ltac:(lia)) as [|E']; [done|].
  destruct (H3 E' E) as [Hd Hs]. by rewrite Hd, Hs in Hp.
Qed.

(** An enabled controller with an I/O queue pair, in which a reset is started. *)
Lemma demo_resetting : exists y, cc_reachable 1000 7 128 0 0 false [] y /\ ck_disconnect_in_progress (cy_ctrlr y) = true /\
  ck_disconnect_is_shn (cy_ctrlr y) = false /\ cc_en (vp_cc (ck_regs (cy_ctrlr y))) = 0 /\ size (ck_mask (cy_ctrlr y)) = 2%nat.
Proof.
  eexists. split.
  - eapply rtc_l; [eapply (cs_set _ 7 _ _ 0 0x14 1 true); [done|lia|lia|vm_compute; reflexivity]|].
    eapply rtc_l; [eapply (cs_join _ 7 _ 1); [done|by apply (bool_decide_unpack _); vm_compute]|].
    eapply rtc_l; [eapply (cs_set _ 7 _ _ 0 0x14 0 true); [done|lia|lia|vm_compute; reflexivity]|]. apply rtc_refl.
  - split; [reflexivity|]. split; [reflexivity|]. split; [reflexivity|]. vm_compute. reflexivity.
Qed.

Lemma ready_follows_enable_witness : exists y, cc_reachable 1000 7 128 0 0 false [] y /\ ck_disconnect_in_progress (cy_ctrlr y) = true /\
  (io_visits (cy_ctrlr y) + Nat.b2n (ck_cc_timer (cy_ctrlr y)) = 1)%nat.
Proof.
  destruct demo_resetting as (y & HR & Hd & _). exists y. split; [done|]. split; [done|].
  destruct (ready_follows_enable 1000 7 128 0 0 false [] y ltac:(lia) HR) as (_ & _ & H). by rewrite Hd in H.
Defined.

Lemma set_cc_effect_witness : exists c', nvmf_prop_set_cc 1000 7 0x460001 (cy_ctrlr (cc_init 7 128 0 0 false [])) = (c', true) /\
  cc_iosqes (vp_cc (ck_regs c')) = 6 /\ cc_iocqes (vp_cc (ck_regs c')) = 4 /\ ck_disconnect_in_progress c' = false.
Proof.
  destruct (nvmf_prop_set_cc 1000 7 0x460001 (cy_ctrlr (cc_init 7 128 0 0 false []))) as [c' b] eqn:E. exists c'.
  assert (b = true) as -> by (apply (f_equal snd) in E; vm_compute in E; congruence). split; [done|].
  destruct (set_cc_effect 1000 7 0x460001 (cy_ctrlr (cc_init 7 128 0 0 false [])) c' eq_refl eq_refl eq_refl E) as (_ & _ & E1 & E2 & _ & _ & _ & _ & _ & _ & E3 & _).
  rewrite E1, E2, E3. by repeat split.
Defined.

Lemma io_visit_pending c : io_visits c <> 0%nat -> exists l l', ck_visits c = l ++ VisitIo :: l'.
Proof.
  unfold io_visits. intros Hn. destruct (List.filter is_io (ck_visits c)) as [|v l0] eqn:E; [done|].
  assert (Hin : List.In v (List.filter is_io (ck_visits c))) by (rewrite E; by left).
  apply List.filter_In in Hin as [Hin Hv]. destruct v; [done|]. by apply List.in_split in Hin as (l & l' & ?); eauto.
Qed.

(** C19. A reset or shutdown always comes to its end, even when no queue pair
    goes away: from every reachable state in which one is under way, the end of
    its visit or its timer, at the latest when the time limit has passed, ends
    it.  A shutdown is then complete in CSTS with CC as the host wrote it, and
    fatal status shows whether queue pairs were left; a reset has cleared CC
    and CSTS altogether - the fatal status of a reset that ran out of time
    included. *)
Theorem disconnections_end hz now depth kato assoc iocs nss y (Hnow : 0 <= now < 2 ^ 64)
    (HR : cc_reachable hz now depth kato assoc iocs nss y) (Hd : ck_disconnect_in_progress (cy_ctrlr y) = true) :
  exists y', rtc (cc_step hz) y y' /\ ended (cy_ctrlr y) (cy_ctrlr y').
Proof.
  destruct (cc_reachable_inv _ _ _ _ _ _ _ Hnow y HR) as [[H1 _ _ _ _] [HN HT]]. destruct y as [t c]. cbn [cy_ctrlr cy_now] in *.
  set (t' := Z.max t (ck_cc_timeout_tsc c)). assert (Htick : cc_step hz (CcSys t c) (CcSys t' c)) by (apply cs_tick; lia).
  assert (Ht' : ck_cc_timeout_tsc c <= t') by lia. rewrite Hd in H1. cbn in H1. destruct (ck_cc_timer c) eqn:Et.
  - exists (CcSys t' (_nvmf_ctrlr_cc_reset_shn_done t' c).1). split; [|apply reset_done_ends; lia].
    eapply rtc_l; [exact Htick|]. apply rtc_once. by apply cs_cc_timer.
  - destruct (io_visit_pending c) as (l & l' & E); [cbn in H1; lia|].
    exists (CcSys t' (_nvmf_ctrlr_cc_reset_shn_done t' (c <| ck_visits := l ++ l' |>)).1). split.
    + eapply rtc_l; [exact Htick|]. apply rtc_once. by apply cs_visited.
    + pose proof (reset_done_ends t' (c <| ck_visits := l ++ l' |>)) as HE. apply HE. by right.
Qed.

Lemma disconnections_end_witness : exists y, cc_reachable 1000 7 128 0 0 false [] y /\ size (ck_mask (cy_ctrlr y)) = 2%nat /\
  exists y', rtc (cc_step 1000) y y' /\ ended (cy_ctrlr y) (cy_ctrlr y').
Proof.
  destruct demo_resetting as (y & HR & Hd & _ & _ & Hs). exists y. split; [done|]. split; [done|].
  exact (disconnections_end 1000 7 128 0 0 false [] y ltac:(lia) HR Hd).
Defined.

(** A controller that is enabled again while its reset is still under way
    loses the enabling: the write of CC is accepted and reads back, with RDY
    set, and when the reset ends CC and CSTS are 0, so that the host's CC.EN
    has been taken back and the controller never becomes ready. *)
Theorem enable_during_reset_lost hz now now' v c (Hd : ck_disconnect_in_progress c = true) (Hs : ck_disconnect_is_shn c = false)
    (He : cc_en (vp_cc (ck_regs c)) = 0) (Hv : cc_en v = 1) (Hsame : same_outside 0 1 (vp_cc (ck_regs c)) v)
    (Ht : (size (ck_mask c) <= 1)%nat) :
  exists c', nvmf_prop_set_cc hz now v c = (c', true) /\ cc_en (vp_cc (ck_regs c')) = 1 /\ csts_rdy (vp_csts (ck_regs c')) = 1 /\
    ck_regs (_nvmf_ctrlr_cc_reset_shn_done now' c').1 = (ck_regs c') <| vp_cc := 0 |> <| vp_csts := 0 |>.
Proof.
  unfold nvmf_prop_set_cc, set_cc_en. set (diff := Z.lxor _ _).
  assert (HD : forall l n, 1 <= l -> 0 <= n -> bits l n diff = 0) by (intros l n Hl Hn; apply bits_lxor; [lia..|]; apply Hsame; lia).
  destruct (Z.eqb_spec (cc_en diff) 0) as [E|_].
  { apply bits_lxor in E; [|lia..]. unfold cc_en in *. congruence. }
  rewrite Hv. cbn [Z.eqb Pos.eqb negb]. unfold set_cc_shn.
  assert (Z0 : forall l n, 1 <= l -> 0 <= n -> bits l n (put_bits 0 1 0 diff) = 0) by (intros; rewrite bits_put_other, HD by lia; done).
  unfold cc_shn, cc_iosqes, cc_iocqes, cc_ams, cc_mps, cc_css. rewrite !Z0 by lia. cbn [Z.eqb negb andb]. rewrite !Z0 by lia. cbn [Z.eqb negb andb].
  eexists. split; [reflexivity|]. cksimp. fields. split; [done|]. split; [done|].
  unfold _nvmf_ctrlr_cc_reset_shn_done. rewrite restart_association_eq. cksimp.
  replace (1 <? Z.of_nat (size (ck_mask c))) with false by lia. cbn [andb]. cksimp. rewrite Hs. cksimp. by destruct (ck_regs c).
Qed.

Lemma enable_during_reset_lost_witness : exists c c', nvmf_prop_set_cc 1000 7 1 c = (c', true) /\ csts_rdy (vp_csts (ck_regs c')) = 1 /\
  csts_rdy (vp_csts (ck_regs (_nvmf_ctrlr_cc_reset_shn_done 9 c').1)) = 0.
Proof.
  set (c := (nvmf_prop_set_cc 1000 7 0 (nvmf_prop_set_cc 1000 7 1 (cy_ctrlr (cc_init 7 128 0 0 false []))).1).1).
  destruct (enable_during_reset_lost 1000 7 9 1 c eq_refl eq_refl eq_refl eq_refl) as (c' & E & _ & R & E'); [| |exists c, c'].
  - assert (E0 : vp_cc (ck_regs c) = 0) by reflexivity. rewrite E0. intros l n Hl Hn Ho.
    apply Z.bits_inj'. intros i Hi. rewrite !bits_testbit by lia. rewrite Z.testbit_0_l. destruct (Z.ltb_spec i n); [|done].
    cbn [andb]. by rewrite (testbit_above 1 1) by lia.
  - vm_compute. lia.
  - split; [done|]. split; [done|]. rewrite E'. by destruct (ck_regs c').
Defined.

(** C22. The properties are register memory: an aligned Property Get of 4 or 8
    bytes succeeds exactly when the words belong to one property and returns
    their content; a Property Set of AQA, ASQ or ACQ that is accepted replaces
    exactly the words it names by the value written and changes nothing else
    of the controller, so that a later Get returns what was set. *)
Theorem properties_are_register_memory hz now c attrib k value (HR : regs_ok (ck_regs c)) (Hk : Z.of_nat k < 2 ^ 30 - 2) (Hv : 0 <= value < 2 ^ 64) :
  nvmf_property_get hz attrib (4 * Z.of_nat k) c = (if readable k attrib then read_words (ck_regs c) k attrib else None) /\
  (k <> 5%nat -> forall c', nvmf_property_set hz now attrib (4 * Z.of_nat k) value c = Some (c', true) ->
     c' = c <| ck_regs := ck_regs c' |> /\ reg_words (ck_regs c') = write_words k attrib value (reg_words (ck_regs c))).
Proof.
  split; [by apply property_get_words|]. intros Hk5 c' H. exact (property_set_words hz now c c' attrib k value Hk Hv Hk5 H).
Qed.

Lemma init_regs_ok : regs_ok (vcprop_init 128 false).
Proof. vm_compute. split_and!; done. Qed.

Lemma properties_are_register_memory_witness : let c := cy_ctrlr (cc_init 7 128 0 0 false []) in
  exists c', nvmf_property_set 1000 7 SPDK_NVMF_PROP_SIZE_8 0x28 0x123456789ABCDEF0 c = Some (c', true) /\
    reg_words (ck_regs c') = write_words 10 SPDK_NVMF_PROP_SIZE_8 0x123456789ABCDEF0 (reg_words (ck_regs c)).
Proof.
  intros c. eexists. split; [reflexivity|].
  exact (proj2 (proj2 (properties_are_register_memory 1000 7 c SPDK_NVMF_PROP_SIZE_8 10 0x123456789ABCDEF0 init_regs_ok ltac:(lia) ltac:(lia)) ltac:(lia) _ eq_refl)).
Defined.

(** The offset of a command is checked neither for alignment nor for the wrap
    of its end: a read at an odd offset inside ASQ returns the upper half, and
    so does one of CAP whose range starts at the top of the 32-bit offsets. *)
Lemma property_offset_unchecked hz c : nvmf_property_get hz SPDK_NVMF_PROP_SIZE_4 0x29 c = Some (Z.shiftr (vp_asq (ck_regs c)) 32) /\
  nvmf_property_get hz SPDK_NVMF_PROP_SIZE_4 0xFFFFFFFC c = Some (Z.shiftr (vp_cap (ck_regs c)) 32).
Proof. done. Qed.

(** The keep-alive timeout a host asks for is rounded up to the granularity
    of ten seconds and never shortened, as long as the rounded value fits into
    32 bits; beyond that the assignment truncates it, and a host that asks for
    the longest timeout gets 2.7 seconds.  A poll disconnects the host exactly
    when the time since the last keep-alive exceeds the timeout, the
    controller is not going away and fatal status was not set before. *)
Theorem keep_alive_timeout hz c k (Hk : MIN_KEEP_ALIVE_TIMEOUT_IN_MS <= k < 2 ^ 32) :
  let c' := (nvmf_ctrlr_set_features_keep_alive_timer k c).1 in
  (if k <=? 4294960000 then k <= ck_kato c' < k + 10000 /\ ck_kato c' mod 10000 = 0 else ck_kato c' = 2704) /\
  forall now, 0 < hz < 2 ^ 32 -> 0 <= ck_last_keep_alive_tick c < 2 ^ 63 -> 0 <= now < 2 ^ 64 ->
    ck_last_keep_alive_tick c + ck_kato c' * hz / 1000 < 2 ^ 64 ->
    ((nvmf_ctrlr_keep_alive_poll hz now c').2 = true <->
       ck_in_destruct c = false /\ csts_cfs (vp_csts (ck_regs c)) = 0 /\ ck_kato c' * hz / 1000 < now - ck_last_keep_alive_tick c).
Proof.
  unfold nvmf_ctrlr_set_features_keep_alive_timer, MIN_KEEP_ALIVE_TIMEOUT_IN_MS in *.
  rewrite (proj2 (Z.eqb_neq k 0)), (proj2 (Z.ltb_ge k 10000)) by lia. cksimp.
  pose proof (Z.div_mod (k + 9999) 10000 ltac:(lia)) as HQ. pose proof (Z.mod_pos_bound (k + 9999) 10000 ltac:(lia)) as HQ'.
  assert (E : kato_rounded k = (k + 9999) / 10000 * 10000 mod 2 ^ 32).
  { unfold kato_rounded, KAS_DEFAULT_VALUE, KAS_TIME_UNIT_IN_MS, MIN_KEEP_ALIVE_TIMEOUT_IN_MS. change (10000 / 100 * 100) with 10000.
    change (10000 / 100) with 100. replace (k + 10000 - 1) with (k + 9999) by lia. rewrite (u64_small (k + 9999)) by lia.
    rewrite u64_small by lia. unfold u32. f_equal. lia. }
  rewrite E. split.
  - destruct (Z.leb_spec k 4294960000) as [Hle|Hgt]; [rewrite Z.mod_small by lia; split; [lia|]; apply Z.mod_mul; lia|].
    assert ((k + 9999) / 10000 = 429497) as -> by lia. reflexivity.
  - intros now Hh Hl Hn Ho. set (kt := (k + 9999) / 10000 * 10000 mod 2 ^ 32) in *. assert (Hkt : 0 <= kt < 2 ^ 32) by (apply Z.mod_pos_bound; lia).
    unfold nvmf_ctrlr_keep_alive_poll. cksimp. destruct (ck_in_destruct c); [by split; [|intros [? _]]|].
    rewrite (u64_small (kt * hz)) by nia. assert (0 <= kt * hz / 1000) by (apply Z.div_pos; nia). rewrite u64_small by lia.
    destruct (Z.ltb_spec (ck_last_keep_alive_tick c + kt * hz / 1000) now), (Z.eqb_spec (csts_cfs (vp_csts (ck_regs c))) 0); cbn; split; try done; lia.
Qed.

Lemma keep_alive_timeout_witness :
  ck_kato (nvmf_ctrlr_set_features_keep_alive_timer 0xFFFFFFFF (cy_ctrlr (cc_init 7 128 10000 0 false []))).1 = 2704.
Proof. exact (proj1 (keep_alive_timeout 1000 (cy_ctrlr (cc_init 7 128 10000 0 false [])) 0xFFFFFFFF ltac:(unfold MIN_KEEP_ALIVE_TIMEOUT_IN_MS; lia))). Defined.
