(* ===== verification/AsyncEvents.v ===== *)
(** * Asynchronous events and the logs behind them: ctrlr.c

    A controller tells its host of changes by completing asynchronous event
    requests.  An event for which no request waits is queued; one whose kind
    has been reported and whose log page has not been read since is masked.
    Modelled are the requests, the five kinds of events, their masks, the list
    of changed namespaces and the reservation log. *)
From S2P Require Import Prelude NvmeSpec CtrlrRegs.

(** ** State *)

Definition SPDK_NVMF_MAX_ASYNC_EVENTS : nat := 4.

(** [enum spdk_nvme_async_event_mask_bit] *)
Definition SPDK_NVME_ASYNC_EVENT_NS_ATTR_CHANGE_MASK_BIT : Z := 0.
Definition SPDK_NVME_ASYNC_EVENT_ANA_CHANGE_MASK_BIT : Z := 1.
Definition SPDK_NVME_ASYNC_EVENT_DISCOVERY_LOG_CHANGE_MASK_BIT : Z := 2.
Definition SPDK_NVME_ASYNC_EVENT_RESERVATION_LOG_AVAIL_MASK_BIT : Z := 3.
Definition SPDK_NVME_ASYNC_EVENT_ERROR_MASK_BIT : Z := 4.

Definition SPDK_NVME_ASYNC_EVENT_TYPE_ERROR : Z := 0.
Definition SPDK_NVME_ASYNC_EVENT_TYPE_NOTICE : Z := 2.
Definition SPDK_NVME_ASYNC_EVENT_TYPE_IO : Z := 6.
Definition SPDK_NVME_ASYNC_EVENT_NS_ATTR_CHANGED : Z := 0.
Definition SPDK_NVME_ASYNC_EVENT_ANA_CHANGE : Z := 3.
Definition SPDK_NVME_ASYNC_EVENT_DISCOVERY_LOG_CHANGE : Z := 0xF0.
Definition SPDK_NVME_ASYNC_EVENT_RESERVATION_LOG_AVAIL : Z := 0.
Definition SPDK_NVME_ASYNC_EVENT_FW_IMAGE_LOAD : Z := 5.

Definition SPDK_NVME_LOG_ERROR : Z := 0x01.
Definition SPDK_NVME_LOG_HEALTH_INFORMATION : Z := 0x02.
Definition SPDK_NVME_LOG_FIRMWARE_SLOT : Z := 0x03.
Definition SPDK_NVME_LOG_CHANGED_NS_LIST : Z := 0x04.
Definition SPDK_NVME_LOG_COMMAND_EFFECTS_LOG : Z := 0x05.
Definition SPDK_NVME_LOG_ASYMMETRIC_NAMESPACE_ACCESS : Z := 0x0C.
Definition SPDK_NVME_LOG_DISCOVERY : Z := 0x70.
Definition SPDK_NVME_LOG_RESERVATION_NOTIFICATION : Z := 0x80.

(** [union spdk_nvme_async_event_completion] *)
Definition async_event (type info log : Z) : Z := put_bits 16 8 log (put_bits 8 8 info (put_bits 0 3 type 0)).

(** [union spdk_nvme_feat_async_event_configuration] *)
Definition ns_attr_notice (raw : Z) : Z := bits 8 1 raw.
Definition ana_change_notice (raw : Z) : Z := bits 11 1 raw.
Definition discovery_log_change_notice (raw : Z) : Z := bits 31 1 raw.

(** [struct spdk_nvme_reservation_notification_log] *)
Record resv_log := ResvLog { rl_log_page_count : Z; rl_type : Z; rl_num_avail_log_pages : Z; rl_nsid : Z }.
#[global] Instance eta_rl : Eta resv_log := fun l => ResvLog (rl_log_page_count l) (rl_type l) (rl_num_avail_log_pages l) (rl_nsid l).

(** What becomes of an asynchronous event request. *)
Inductive aer_out := AerEvent (rid : nat) (raw : Z) | AerLimit (rid : nat) | AerAborted (rid : nat) | AerFreed (rid : nat).

(** The controller.  [ev_aer_req] are the waiting requests with their command
    identifiers, the array up to [nr_aer_reqs]; [ev_changed_ns] the array of
    the changed namespaces. *)
Record ev_ctrlr := EvCtrlr {
  ev_aer_req : list (nat * Z); ev_async_events : list Z; ev_notice_aen_mask : Z; ev_config : Z;
  ev_changed_ns : list Z; ev_changed_ns_count : nat;
  ev_log_head : list resv_log; ev_num_avail : Z; ev_log_page_count : Z; ev_out : list aer_out }.
#[global] Instance eta_ev : Eta ev_ctrlr := fun c =>
  EvCtrlr (ev_aer_req c) (ev_async_events c) (ev_notice_aen_mask c) (ev_config c) (ev_changed_ns c) (ev_changed_ns_count c)
    (ev_log_head c) (ev_num_avail c) (ev_log_page_count c) (ev_out c).

Definition ev_emit (o : aer_out) (c : ev_ctrlr) : ev_ctrlr := c <| ev_out := ev_out c ++ [o] |>.

(** ** Masks *)

Definition nvmf_ctrlr_unmask_aen (mask : Z) (c : ev_ctrlr) : ev_ctrlr :=
  c <| ev_notice_aen_mask := Z.ldiff (ev_notice_aen_mask c) (Z.shiftl 1 mask) |>.

(** [false] when the kind is masked already. *)
Definition nvmf_ctrlr_mask_aen (mask : Z) (c : ev_ctrlr) : ev_ctrlr * bool :=
  if Z.land (ev_notice_aen_mask c) (Z.shiftl 1 mask) !=? 0 then (c, false)
  else (c <| ev_notice_aen_mask := Z.lor (ev_notice_aen_mask c) (Z.shiftl 1 mask) |>, true).

(** ** Requests and events *)

Definition nvmf_ctrlr_async_event_request (rid : nat) (cid : Z) (c : ev_ctrlr) : ev_ctrlr :=
  if (SPDK_NVMF_MAX_ASYNC_EVENTS <=? length (ev_aer_req c))%nat then ev_emit (AerLimit rid) c
  else match ev_async_events c with
       | e :: l => ev_emit (AerEvent rid e) (c <| ev_async_events := l |>)
       | [] => c <| ev_aer_req := ev_aer_req c ++ [(rid, cid)] |>
       end.

(** [mem] is the answer of [calloc]; without memory the event is lost. *)
Definition nvmf_ctrlr_queue_pending_async_event (mem : bool) (event : Z) (c : ev_ctrlr) : ev_ctrlr :=
  if mem then c <| ev_async_events := ev_async_events c ++ [event] |> else c.

(** The request that came last is completed first. *)
Definition nvmf_ctrlr_async_event_notification (mem : bool) (event : Z) (c : ev_ctrlr) : ev_ctrlr :=
  match last (ev_aer_req c) with
  | None => nvmf_ctrlr_queue_pending_async_event mem event c
  | Some (rid, _) => ev_emit (AerEvent rid event) (c <| ev_aer_req := take (pred (length (ev_aer_req c))) (ev_aer_req c) |>)
  end.

(** A notice that the host has enabled and that is not masked. *)
Definition masked_notification (mem enabled : bool) (mask event : Z) (c : ev_ctrlr) : ev_ctrlr :=
  if negb enabled then c
  else let '(c, ok) := nvmf_ctrlr_mask_aen mask c in
       if ok : bool then nvmf_ctrlr_async_event_notification mem event c else c.

Definition nvmf_ctrlr_async_event_ns_notice (mem : bool) (c : ev_ctrlr) : ev_ctrlr :=
  masked_notification mem (ns_attr_notice (ev_config c) !=? 0) SPDK_NVME_ASYNC_EVENT_NS_ATTR_CHANGE_MASK_BIT
    (async_event SPDK_NVME_ASYNC_EVENT_TYPE_NOTICE SPDK_NVME_ASYNC_EVENT_NS_ATTR_CHANGED SPDK_NVME_LOG_CHANGED_NS_LIST) c.
Definition nvmf_ctrlr_async_event_ana_change_notice (mem : bool) (c : ev_ctrlr) : ev_ctrlr :=
  masked_notification mem (ana_change_notice (ev_config c) !=? 0) SPDK_NVME_ASYNC_EVENT_ANA_CHANGE_MASK_BIT
    (async_event SPDK_NVME_ASYNC_EVENT_TYPE_NOTICE SPDK_NVME_ASYNC_EVENT_ANA_CHANGE SPDK_NVME_LOG_ASYMMETRIC_NAMESPACE_ACCESS) c.
Definition nvmf_ctrlr_async_event_reservation_notification (mem : bool) (c : ev_ctrlr) : ev_ctrlr :=
  masked_notification mem (ev_num_avail c !=? 0) SPDK_NVME_ASYNC_EVENT_RESERVATION_LOG_AVAIL_MASK_BIT
    (async_event SPDK_NVME_ASYNC_EVENT_TYPE_IO SPDK_NVME_ASYNC_EVENT_RESERVATION_LOG_AVAIL SPDK_NVME_LOG_RESERVATION_NOTIFICATION) c.
Definition nvmf_ctrlr_async_event_discovery_log_change_notice (mem : bool) (c : ev_ctrlr) : ev_ctrlr :=
  masked_notification mem (discovery_log_change_notice (ev_config c) !=? 0) SPDK_NVME_ASYNC_EVENT_DISCOVERY_LOG_CHANGE_MASK_BIT
    (async_event SPDK_NVME_ASYNC_EVENT_TYPE_NOTICE SPDK_NVME_ASYNC_EVENT_DISCOVERY_LOG_CHANGE SPDK_NVME_LOG_DISCOVERY) c.

(** The event is not cleared before its fields are set: [junk] is what the
    reserved bits hold. *)
Definition spdk_nvmf_ctrlr_async_event_error_event (mem : bool) (junk info : Z) (c : ev_ctrlr) : ev_ctrlr :=
  let '(c, ok) := nvmf_ctrlr_mask_aen SPDK_NVME_ASYNC_EVENT_ERROR_MASK_BIT c in
  if negb ok then c
  else if SPDK_NVME_ASYNC_EVENT_FW_IMAGE_LOAD <? info then c
  else nvmf_ctrlr_async_event_notification mem
         (put_bits 8 8 info (put_bits 16 8 SPDK_NVME_LOG_ERROR (put_bits 0 3 SPDK_NVME_ASYNC_EVENT_TYPE_ERROR junk))) c.

Definition nvmf_ctrlr_set_features_async_event_configuration (cdw11 : Z) (c : ev_ctrlr) : ev_ctrlr :=
  c <| ev_config := put_bits 16 15 0 (put_bits 12 4 0 cdw11) |>.

(** ** The end of requests *)

(** The last request is moved to the place of the aborted one. *)
Definition aer_remove (i : nat) (l : list (nat * Z)) : list (nat * Z) :=
  let n := pred (length l) in
  if (i <? n)%nat then match l !! n with Some x => take n (<[i := x]> l) | None => l end else take n l.

Fixpoint aer_find (cid : Z) (l : list (nat * Z)) (i : nat) : option (nat * nat) :=
  match l with
  | [] => None
  | (rid, cid') :: l => if cid' =? cid then Some (i, rid) else aer_find cid l (S i)
  end.

Definition nvmf_qpair_abort_aer (admin : bool) (cid : Z) (c : ev_ctrlr) : ev_ctrlr * bool :=
  if negb admin then (c, false)
  else match aer_find cid (ev_aer_req c) 0 with
       | Some (i, rid) => (ev_emit (AerAborted rid) (c <| ev_aer_req := aer_remove i (ev_aer_req c) |>), true)
       | None => (c, false)
       end.

Definition nvmf_qpair_free_aer (admin : bool) (c : ev_ctrlr) : ev_ctrlr :=
  if negb admin then c
  else c <| ev_out := ev_out c ++ ((fun r => AerFreed r.1) <$> ev_aer_req c) |> <| ev_aer_req := [] |>.

Definition spdk_nvmf_ctrlr_abort_aer (c : ev_ctrlr) : ev_ctrlr :=
  c <| ev_out := ev_out c ++ ((fun r => AerAborted r.1) <$> ev_aer_req c) |> <| ev_aer_req := [] |>.

(** ** Changed namespaces and the reservation log *)

Definition max_changes : nat := Z.to_nat 1024.

Definition nvmf_ctrlr_ns_changed (nsid : Z) (c : ev_ctrlr) : ev_ctrlr :=
  if existsb (Z.eqb nsid) (take (ev_changed_ns_count c) (ev_changed_ns c)) then c
  else if (ev_changed_ns_count c =? max_changes)%nat
  then c <| ev_changed_ns := 0xFFFFFFFF :: replicate (pred max_changes) 0 |>
  else c <| ev_changed_ns := <[ev_changed_ns_count c := nsid]> (ev_changed_ns c) |> <| ev_changed_ns_count := S (ev_changed_ns_count c) |>.

(** The entry added to the log, or the last one renumbered when there are 255. *)
Definition add_log_entry (type nsid : Z) (c : ev_ctrlr) : ev_ctrlr :=
  let c := c <| ev_log_page_count := u64 (ev_log_page_count c + 1) |> in
  if ev_num_avail c =? 0xff
  then c <| ev_log_head := alter (fun l => l <| rl_log_page_count := ev_log_page_count c |>) (pred (length (ev_log_head c))) (ev_log_head c) |>
  else c <| ev_log_head := ev_log_head c ++ [ResvLog (ev_log_page_count c) type (ev_num_avail c) nsid] |>
         <| ev_num_avail := u8 (ev_num_avail c + 1) |>.

Definition _nvmf_ctrlr_add_reservation_log (mem : bool) (type nsid : Z) (c : ev_ctrlr) : ev_ctrlr :=
  if ev_num_avail c =? 0xff then add_log_entry type nsid c
  else nvmf_ctrlr_async_event_reservation_notification mem (add_log_entry type nsid c).

(** ** The events as a machine *)

Inductive notice := NsNotice | AnaNotice | DiscoveryNotice | ResvNotice | ErrorNotice (junk info : Z).

Definition notify (mem : bool) (n : notice) (c : ev_ctrlr) : ev_ctrlr :=
  match n with
  | NsNotice => nvmf_ctrlr_async_event_ns_notice mem c
  | AnaNotice => nvmf_ctrlr_async_event_ana_change_notice mem c
  | DiscoveryNotice => nvmf_ctrlr_async_event_discovery_log_change_notice mem c
  | ResvNotice => nvmf_ctrlr_async_event_reservation_notification mem c
  | ErrorNotice junk info => spdk_nvmf_ctrlr_async_event_error_event mem junk info c
  end.

Definition notice_mask (n : notice) : Z :=
  match n with
  | NsNotice => SPDK_NVME_ASYNC_EVENT_NS_ATTR_CHANGE_MASK_BIT
  | AnaNotice => SPDK_NVME_ASYNC_EVENT_ANA_CHANGE_MASK_BIT
  | DiscoveryNotice => SPDK_NVME_ASYNC_EVENT_DISCOVERY_LOG_CHANGE_MASK_BIT
  | ResvNotice => SPDK_NVME_ASYNC_EVENT_RESERVATION_LOG_AVAIL_MASK_BIT
  | ErrorNotice _ _ => SPDK_NVME_ASYNC_EVENT_ERROR_MASK_BIT
  end.

Definition notice_event (n : notice) : Z :=
  match n with
  | NsNotice => async_event SPDK_NVME_ASYNC_EVENT_TYPE_NOTICE SPDK_NVME_ASYNC_EVENT_NS_ATTR_CHANGED SPDK_NVME_LOG_CHANGED_NS_LIST
  | AnaNotice => async_event SPDK_NVME_ASYNC_EVENT_TYPE_NOTICE SPDK_NVME_ASYNC_EVENT_ANA_CHANGE SPDK_NVME_LOG_ASYMMETRIC_NAMESPACE_ACCESS
  | DiscoveryNotice => async_event SPDK_NVME_ASYNC_EVENT_TYPE_NOTICE SPDK_NVME_ASYNC_EVENT_DISCOVERY_LOG_CHANGE SPDK_NVME_LOG_DISCOVERY
  | ResvNotice => async_event SPDK_NVME_ASYNC_EVENT_TYPE_IO SPDK_NVME_ASYNC_EVENT_RESERVATION_LOG_AVAIL SPDK_NVME_LOG_RESERVATION_NOTIFICATION
  | ErrorNotice junk info =>
      put_bits 8 8 info (put_bits 16 8 SPDK_NVME_LOG_ERROR (put_bits 0 3 SPDK_NVME_ASYNC_EVENT_TYPE_ERROR junk))
  end.

Definition notice_enabled (n : notice) (c : ev_ctrlr) : bool :=
  match n with
  | NsNotice => Z.testbit (ev_config c) 8
  | AnaNotice => Z.testbit (ev_config c) 11
  | DiscoveryNotice => Z.testbit (ev_config c) 31
  | ResvNotice => ev_num_avail c !=? 0
  | ErrorNotice _ info => info <=? SPDK_NVME_ASYNC_EVENT_FW_IMAGE_LOAD
  end.

(** The event a notice raises: its kind is enabled and not masked, and a request
    waits or there is memory to queue it. *)
Definition raised_by (mem : bool) (n : notice) (c : ev_ctrlr) : list Z :=
  if notice_enabled n c && negb (Z.testbit (ev_notice_aen_mask c) (notice_mask n)) && (negb (length (ev_aer_req c) =? 0)%nat || mem)
  then [notice_event n] else [].

(** The events that were raised since the controller exists, by kind, and the
    log pages that were read with the event not retained, by kind; the
    requests that have arrived. *)
Record ev_sys := EvSys { ey_ctrlr : ev_ctrlr; ey_raised : list (Z * Z); ey_reads : list Z; ey_reqs : list nat }.

(** The events delivered, then those queued; the request an outcome is about. *)
Definition out_event (o : aer_out) : option Z := match o with AerEvent _ e => Some e | _ => None end.
Definition out_rid (o : aer_out) : nat :=
  match o with AerEvent r _ | AerLimit r | AerAborted r | AerFreed r => r end.
Definition known_events (c : ev_ctrlr) : list Z := omap out_event (ev_out c) ++ ev_async_events c.

(** The fields of the events and requests alone. *)
Definition same_events (c c' : ev_ctrlr) : Prop :=
  ev_aer_req c' = ev_aer_req c /\ ev_async_events c' = ev_async_events c /\ ev_notice_aen_mask c' = ev_notice_aen_mask c /\ ev_out c' = ev_out c.

Inductive ev_step : ev_sys -> ev_sys -> Prop :=
| es_request c raised reads reqs rid cid : rid ∉ reqs ->
    ev_step (EvSys c raised reads reqs) (EvSys (nvmf_ctrlr_async_event_request rid cid c) raised reads (rid :: reqs))
| es_notice c raised reads reqs mem n :
    ev_step (EvSys c raised reads reqs) (EvSys (notify mem n c) (raised ++ ((fun e => (notice_mask n, e)) <$> raised_by mem n c)) reads reqs)
| es_read c raised reads reqs mask : 0 <= mask ->
    ev_step (EvSys c raised reads reqs) (EvSys (nvmf_ctrlr_unmask_aen mask c) raised (mask :: reads) reqs)
| es_abort c raised reads reqs admin cid :
    ev_step (EvSys c raised reads reqs) (EvSys (nvmf_qpair_abort_aer admin cid c).1 raised reads reqs)
| es_free c raised reads reqs admin : ev_step (EvSys c raised reads reqs) (EvSys (nvmf_qpair_free_aer admin c) raised reads reqs)
| es_abort_all c raised reads reqs : ev_step (EvSys c raised reads reqs) (EvSys (spdk_nvmf_ctrlr_abort_aer c) raised reads reqs)
| es_other c c' raised reads reqs : same_events c c' -> ev_step (EvSys c raised reads reqs) (EvSys c' raised reads reqs).

Definition ev_init (config : Z) : ev_sys := EvSys (EvCtrlr [] [] 0 config (replicate max_changes 0) 0 [] 0 0 []) [] [] [].
Definition ev_reachable (config : Z) (y : ev_sys) : Prop := rtc ev_step (ev_init config) y.

(** ** Lemmas *)

Ltac evsimp := cbn [set fst snd ev_aer_req ev_async_events ev_notice_aen_mask ev_config ev_changed_ns ev_changed_ns_count ev_log_head
  ev_num_avail ev_log_page_count ev_out ey_ctrlr ey_raised ey_reads ey_reqs].

Lemma testbit_one i : Z.testbit 1 i = (i =? 0).
Proof.
  destruct (Z.eqb_spec i 0) as [->|]; [done|]. destruct (decide (i < 0)); [by apply Z.testbit_neg_r|]. by apply (testbit_above 1 1); lia.
Qed.
Lemma testbit_one_shift k j : 0 <= j -> Z.testbit (Z.shiftl 1 k) j = (j =? k).
Proof. intros Hj. rewrite Z.shiftl_spec, testbit_one by lia. destruct (Z.eqb_spec j k), (Z.eqb_spec (j - k) 0); lia. Qed.

Lemma bit_set mask k : 0 <= k -> (Z.land mask (Z.shiftl 1 k) =? 0) = negb (Z.testbit mask k).
Proof.
  intros Hk. destruct (Z.testbit mask k) eqn:E; cbn [negb]; [apply Z.eqb_neq|apply Z.eqb_eq].
  - intros H. assert (HT : Z.testbit (Z.land mask (Z.shiftl 1 k)) k = true); [|by rewrite H, Z.testbit_0_l in HT].
    by rewrite Z.land_spec, E, testbit_one_shift, Z.eqb_refl by lia.
  - apply Z.bits_inj'. intros i Hi. rewrite Z.land_spec, testbit_one_shift, Z.testbit_0_l by lia.
    destruct (Z.eqb_spec i k) as [->|]; [by rewrite E|by rewrite andb_false_r].
Qed.

Lemma flag_testbit k x : 0 <= k -> (bits k 1 x !=? 0) = Z.testbit x k.
Proof.
  intros Hk. assert (E : bits k 1 x = Z.b2z (Z.testbit x k)).
  { apply Z.bits_inj'. intros i Hi. rewrite bits_testbit by lia. destruct (decide (i = 0)) as [->|].
    - rewrite Z.add_0_l, Z.b2z_bit0. done.
    - rewrite (proj2 (Z.ltb_ge i 1)) by lia. destruct (Z.testbit x k); cbn [Z.b2z]; rewrite ?testbit_one, ?Z.testbit_0_l; cbn [andb]; lia. }
  rewrite E. by destruct (Z.testbit x k).
Qed.

Lemma mask_after mask k j : 0 <= j -> Z.testbit (Z.lor mask (Z.shiftl 1 k)) j = Z.testbit mask j || (j =? k).
Proof. intros Hj. by rewrite Z.lor_spec, testbit_one_shift by lia. Qed.
Lemma unmask_after mask k j : 0 <= j -> Z.testbit (Z.ldiff mask (Z.shiftl 1 k)) j = Z.testbit mask j && negb (j =? k).
Proof. intros Hj. by rewrite Z.ldiff_spec, testbit_one_shift by lia. Qed.

(** Every kind of notice masks its kind and hands its event on. *)
Definition mask_kind (k : Z) (c : ev_ctrlr) : ev_ctrlr := c <| ev_notice_aen_mask := Z.lor (ev_notice_aen_mask c) (Z.shiftl 1 k) |>.

Lemma notify_cases mem n c : 
  (Z.testbit (ev_notice_aen_mask c) (notice_mask n) = true /\ notify mem n c = c) \/
  (Z.testbit (ev_notice_aen_mask c) (notice_mask n) = false /\ notice_enabled n c = false /\ (notify mem n c = c \/ notify mem n c = mask_kind (notice_mask n) c)) \/
  (Z.testbit (ev_notice_aen_mask c) (notice_mask n) = false /\ notice_enabled n c = true /\
   notify mem n c = nvmf_ctrlr_async_event_notification mem (notice_event n) (mask_kind (notice_mask n) c)).
Proof.
  destruct n as [| | | |junk info]; cbn [notify notice_mask notice_enabled notice_event];
    unfold nvmf_ctrlr_async_event_ns_notice, nvmf_ctrlr_async_event_ana_change_notice, nvmf_ctrlr_async_event_discovery_log_change_notice,
      nvmf_ctrlr_async_event_reservation_notification, spdk_nvmf_ctrlr_async_event_error_event, masked_notification, nvmf_ctrlr_mask_aen,
      ns_attr_notice, ana_change_notice, discovery_log_change_notice;
    rewrite ?flag_testbit, bit_set by (done || lia); rewrite ?negb_involutive.
  1: destruct (Z.testbit (ev_notice_aen_mask c) _), (Z.testbit (ev_config c) 8); cbn [negb]; auto 6.
  1: destruct (Z.testbit (ev_notice_aen_mask c) _), (Z.testbit (ev_config c) 11); cbn [negb]; auto 6.
  1: destruct (Z.testbit (ev_notice_aen_mask c) _), (Z.testbit (ev_config c) 31); cbn [negb]; auto 6.
  1: destruct (Z.testbit (ev_notice_aen_mask c) _), (ev_num_avail c =? 0); cbn [negb]; auto 6.
  destruct (Z.testbit (ev_notice_aen_mask c) _); cbn [negb]; [auto|]. destruct (Z.leb_spec info SPDK_NVME_ASYNC_EVENT_FW_IMAGE_LOAD).
  - rewrite (proj2 (Z.ltb_ge _ _)) by lia. auto 6.
  - rewrite (proj2 (Z.ltb_lt _ _)) by lia. auto 6.
Qed.

Definition count (k : Z) (l : list Z) : nat := length (List.filter (Z.eqb k) l).

Lemma count_app k l l' : count k (l ++ l') = (count k l + count k l')%nat.
Proof. unfold count. by rewrite List.filter_app, length_app. Qed.
Lemma count_cons k x l : count k (x :: l) = (Nat.b2n (k =? x)%Z + count k l)%nat.
Proof. unfold count. cbn. by destruct (k =? x)%Z. Qed.

(** Events delivered and queued are the ones raised, in their order; none is
    queued while a request waits; every request is answered once or waits;
    and of a kind there are no more events than reads of its log page and one. *)
Record ev_inv (y : ev_sys) : Prop := {
  vi_events : known_events (ey_ctrlr y) = snd <$> ey_raised y;
  vi_prompt : ev_aer_req (ey_ctrlr y) <> [] -> ev_async_events (ey_ctrlr y) = [];
  vi_limit : (length (ev_aer_req (ey_ctrlr y)) <= SPDK_NVMF_MAX_ASYNC_EVENTS)%nat;
  vi_once : (out_rid <$> ev_out (ey_ctrlr y)) ++ (fst <$> ev_aer_req (ey_ctrlr y)) ≡ₚ ey_reqs y; vi_nodup : NoDup (ey_reqs y);
  vi_mask : forall k, 0 <= k -> (count k (fst <$> ey_raised y) <= count k (ey_reads y) + Nat.b2n (Z.testbit (ev_notice_aen_mask (ey_ctrlr y)) k))%nat }.

Lemma last_split {A} (l : list A) x : last l = Some x -> l = take (pred (length l)) l ++ [x].
Proof.
  intros H. destruct l as [|a l _] using rev_ind; [done|]. rewrite last_snoc in H. injection H as ->.
  rewrite length_app. cbn. rewrite Nat.add_1_r. cbn. by rewrite take_app_length.
Qed.

(** A notification hands its event to a request or to the queue. *)
Lemma notification_spec mem e c : (ev_aer_req c <> [] -> ev_async_events c = []) ->
  let c' := nvmf_ctrlr_async_event_notification mem e c in
  known_events c' = known_events c ++ (if negb (length (ev_aer_req c) =? 0)%nat || mem then [e] else []) /\
  (ev_aer_req c' <> [] -> ev_async_events c' = []) /\ (length (ev_aer_req c') <= length (ev_aer_req c))%nat /\
  (out_rid <$> ev_out c') ++ (fst <$> ev_aer_req c') ≡ₚ (out_rid <$> ev_out c) ++ (fst <$> ev_aer_req c) /\
  ev_notice_aen_mask c' = ev_notice_aen_mask c.
Proof.
  intros Hp. unfold nvmf_ctrlr_async_event_notification. destruct (last (ev_aer_req c)) as [[rid cid]|] eqn:El.
  - pose proof (last_split _ _ El) as E. assert (Hne : ev_aer_req c <> []) by (intros E'; by rewrite E' in El). specialize (Hp Hne).
    unfold known_events, ev_emit. evsimp. rewrite Hp, !app_nil_r. split; [|split; [done|split; [rewrite length_take; lia|split; [|done]]]].
    + rewrite omap_app. f_equal. by destruct (ev_aer_req c).
    + apply (f_equal (fmap fst)) in E. rewrite fmap_app in E. rewrite E, fmap_app. cbn. rewrite <- !app_assoc. apply Permutation_app_head, Permutation_cons_append.
  - apply last_None in El. unfold nvmf_ctrlr_queue_pending_async_event, known_events. rewrite El. cbn [length Nat.eqb negb orb].
    destruct mem; evsimp; rewrite ?El; (split; [by rewrite ?app_assoc, ?app_nil_r|]); done.
Qed.

Lemma aer_find_lookup cid l k i rid : aer_find cid l k = Some (i, rid) -> (k <= i)%nat /\ exists cid', l !! (i - k)%nat = Some (rid, cid').
Proof.
  revert k. induction l as [|[r c] l IH]; intros k; [done|]. cbn. destruct (c =? cid).
  - intros [= <- <-]. split; [lia|]. rewrite Nat.sub_diag. by exists c.
  - intros H. apply IH in H as (Hk & c' & Hc). split; [lia|]. exists c'. replace (i - k)%nat with (S (i - S k)) by lia. done.
Qed.

Lemma aer_remove_perm i l x : l !! i = Some x -> x :: aer_remove i l ≡ₚ l.
Proof.
  intros Hi. destruct l as [|z l _] using rev_ind; [done|]. unfold aer_remove. rewrite length_app. cbn [length]. rewrite Nat.add_1_r. cbn [pred].
  destruct (Nat.ltb_spec i (length l)) as [Hlt|Hge].
  - rewrite lookup_app_r, Nat.sub_diag by lia. cbn. rewrite insert_app_l, take_app_length' by (rewrite ?length_insert; done || lia).
    rewrite lookup_app_l in Hi by lia. rewrite <- (take_drop_middle l i x) at 2 by done. rewrite insert_take_drop by done.
    rewrite <- app_assoc. cbn. rewrite (Permutation_middle (take i l)). apply Permutation_app_head. constructor. apply Permutation_cons_append.
  - apply lookup_lt_Some in Hi as Hl. rewrite length_app in Hl. cbn in Hl. assert (i = length l) as -> by lia.
    rewrite lookup_app_r, Nat.sub_diag in Hi by lia. injection Hi as ->. rewrite take_app_length. by rewrite (Permutation_app_comm l).
Qed.

Lemma fmap_pair_snd {A} (k : A) (l : list Z) : snd <$> ((fun e => (k, e)) <$> l) = l.
Proof. induction l as [|x l IH]; [done|]. cbn in *. by rewrite IH. Qed.
Lemma raised_none (l : list (Z * Z)) (k : Z) : l ++ ((fun e => (k, e)) <$> []) = l.
Proof. apply app_nil_r. Qed.

Lemma notice_mask_nonneg n : 0 <= notice_mask n.
Proof. by destruct n. Qed.

Lemma notice_inv c raised reads reqs mem n : ev_inv (EvSys c raised reads reqs) ->
  ev_inv (EvSys (notify mem n c) (raised ++ ((fun e => (notice_mask n, e)) <$> raised_by mem n c)) reads reqs).
Proof.
  intros HI. pose proof HI as [H1 H2 H3 H4 H5 H6]. revert H1 H2 H3 H4 H5 H6. evsimp. intros H1 H2 H3 H4 H5 H6. unfold raised_by.
  destruct (notify_cases mem n c) as [[Em ->]|[(Em & En & E)|(Em & En & E)]]; rewrite Em, ?En; cbn [negb andb]; rewrite ?andb_false_r; cbn [andb]; rewrite ?raised_none.
  - done.
  - destruct E as [->| ->]; [done|]. split; evsimp; try done. intros k Hk. unfold mask_kind. evsimp. rewrite mask_after by lia. specialize (H6 k Hk).
    destruct (Z.testbit _ k); cbn [orb Nat.b2n] in *; lia.
  - rewrite E. pose proof (notification_spec mem (notice_event n) (mask_kind (notice_mask n) c) H2) as (N1 & N2 & N3 & N4 & N5).
    change (known_events (mask_kind _ c)) with (known_events c) in N1. change (ev_aer_req (mask_kind _ c)) with (ev_aer_req c) in *.
    change (ev_out (mask_kind _ c)) with (ev_out c) in N4. split; evsimp; [|done|lia|by rewrite N4|done|].
    + rewrite N1, H1, fmap_app, fmap_pair_snd. done.
    + intros k Hk. rewrite N5. unfold mask_kind. evsimp. rewrite mask_after by lia. specialize (H6 k Hk). rewrite fmap_app, count_app.
      assert (HC : (count k (fst <$> ((fun e : Z => (notice_mask n, e)) <$> (if negb (length (ev_aer_req c) =? 0)%nat || mem then [notice_event n] else []))) <=
        Nat.b2n (k =? notice_mask n)%Z)%nat) by (unfold count; destruct (negb _ || mem); cbn; [destruct (k =? notice_mask n)|]; cbn; lia).
      destruct (Z.eqb_spec k (notice_mask n)) as [->|]; [rewrite Em in *; cbn [orb Nat.b2n] in *; lia|]. destruct (Z.testbit _ k); cbn [orb Nat.b2n] in *; lia.
Qed.

(** Requests that end without an event leave the events alone. *)
Lemma drop_requests_inv (f : nat * Z -> aer_out) c raised reads reqs : (forall r, out_event (f r) = None) -> (forall r, out_rid (f r) = r.1) ->
  ev_inv (EvSys c raised reads reqs) ->
  ev_inv (EvSys (c <| ev_out := ev_out c ++ (f <$> ev_aer_req c) |> <| ev_aer_req := [] |>) raised reads reqs).
Proof.
  intros Fe Fr [H1 H2 H3 H4 H5 H6]. revert H1 H2 H3 H4 H5 H6. evsimp. intros H1 H2 H3 H4 H5 H6.
  split; unfold known_events in *; evsimp; [|done|cbn; lia| |done|done].
  - assert (E : omap out_event (f <$> ev_aer_req c) = []).
    { clear -Fe. induction (ev_aer_req c) as [|r l IH]; [done|]. cbn in *. by rewrite Fe. }
    by rewrite omap_app, E, app_nil_r.
  - rewrite fmap_app, <- H4, app_nil_r. apply Permutation_app_head. rewrite <- list_fmap_compose.
    apply reflexive_eq, list_fmap_ext. intros ? r _. apply Fr.
Qed.

Lemma ev_step_inv y y' : ev_step y y' -> ev_inv y -> ev_inv y'.
Proof.
  intros H HI. destruct H as [c raised reads reqs rid cid Hr|c raised reads reqs mem n|c raised reads reqs mask Hm|c raised reads reqs admin cid|
    c raised reads reqs admin|c raised reads reqs|c c' raised reads reqs (S1 & S2 & S3 & S4)]; [|by apply notice_inv|..];
    destruct HI as [H1 H2 H3 H4 H5 H6]; revert H1 H2 H3 H4 H5 H6; evsimp; intros H1 H2 H3 H4 H5 H6.
  - unfold nvmf_ctrlr_async_event_request. destruct (Nat.leb_spec SPDK_NVMF_MAX_ASYNC_EVENTS (length (ev_aer_req c))).
    + split; unfold known_events, ev_emit in *; evsimp; try done; [by rewrite omap_app, app_nil_r| |by constructor].
      rewrite fmap_app. cbn. rewrite <- app_assoc. cbn. by rewrite <- Permutation_middle, H4.
    + destruct (ev_async_events c) as [|e l] eqn:Ee.
      * split; unfold known_events in *; evsimp; [by rewrite Ee in *|done|rewrite length_app; cbn; lia| |by constructor|done].
        rewrite fmap_app, app_assoc, H4. cbn. by rewrite <- Permutation_cons_append.
      * split; unfold known_events, ev_emit in *; evsimp; [| |done| |by constructor|done].
        -- rewrite <- H1, Ee, omap_app, <- app_assoc. done.
        -- intros Hne. by apply H2 in Hne.
        -- rewrite fmap_app. cbn. rewrite <- app_assoc. cbn. by rewrite <- Permutation_middle, H4.
  - split; evsimp; try done. intros k Hk. unfold nvmf_ctrlr_unmask_aen. evsimp. rewrite unmask_after, count_cons by lia. specialize (H6 k Hk).
    destruct (Z.testbit _ k), (k =? mask); cbn [andb negb Nat.b2n] in *; lia.
  - unfold nvmf_qpair_abort_aer. destruct admin; [|done]. cbn [negb]. destruct (aer_find cid (ev_aer_req c) 0) as [[i rid]|] eqn:Ef; [|done].
    apply aer_find_lookup in Ef as (_ & cid' & Hl). rewrite Nat.sub_0_r in Hl. pose proof (aer_remove_perm _ _ _ Hl) as HP.
    split; unfold known_events, ev_emit in *; evsimp; try done; [by rewrite omap_app, app_nil_r| | |].
    + intros _. apply H2. intros E. by rewrite E in Hl.
    + apply Permutation_length in HP. cbn in HP. lia.
    + rewrite fmap_app. cbn. rewrite <- app_assoc, <- H4. apply Permutation_app_head. by apply (fmap_Permutation fst) in HP.
  - unfold nvmf_qpair_free_aer. destruct admin; [|done]. cbn [negb]. by apply drop_requests_inv.
  - by apply drop_requests_inv.
  - split; unfold known_events in *; evsimp; rewrite ?S1, ?S2, ?S3, ?S4; done.
Qed.

Lemma ev_init_inv config : ev_inv (ev_init config).
Proof. split; cbn; (done || lia || (by constructor) || idtac). Qed.

Lemma ev_reachable_inv config y : ev_reachable config y -> ev_inv y.
Proof.
  intros H. unfold ev_reachable in H. remember (ev_init config) as y0 eqn:E. assert (HI : ev_inv y0) by (subst; apply ev_init_inv).
  clear E. induction H as [|y1 y2 y3 H12 _ IH]; [done|]. by eauto using ev_step_inv.
Qed.

(** ** Theorems *)

(** C16. Whatever requests, notices, log reads and aborts a controller sees,
    the events it delivered followed by the ones it holds are the events
    raised, each once and in their order; an event is raised when its kind is
    enabled and not masked, and a request waits or there is memory to hold it.
    None is held back while a request waits, at most four requests wait, and
    every request that arrived is answered exactly once or waits.  Of each kind,
    no more events are raised than the log page of the kind was read, and one. *)
Theorem events_delivered_in_order config y (H : ev_reachable config y) :
  known_events (ey_ctrlr y) = snd <$> ey_raised y /\
  (ev_aer_req (ey_ctrlr y) <> [] -> ev_async_events (ey_ctrlr y) = []) /\
  (length (ev_aer_req (ey_ctrlr y)) <= SPDK_NVMF_MAX_ASYNC_EVENTS)%nat /\
  (out_rid <$> ev_out (ey_ctrlr y)) ++ (fst <$> ev_aer_req (ey_ctrlr y)) ≡ₚ ey_reqs y /\ NoDup (ey_reqs y) /\
  forall k, 0 <= k -> (count k (fst <$> ey_raised y) <= S (count k (ey_reads y)))%nat.
Proof.
  destruct (ev_reachable_inv _ _ H) as [H1 H2 H3 H4 H5 H6]. repeat (split; [done|]).
  intros k Hk. specialize (H6 k Hk). destruct (Z.testbit _ k); cbn [Nat.b2n] in H6; lia.
Qed.

(** Two notices before the first request: the second is masked; the log is
    read, the third is queued, and the request that comes gets the first. *)
Definition demo_events : ev_sys :=
  let e := EvSys (notify true NsNotice (ey_ctrlr (ev_init 0x100))) [(0, notice_event NsNotice)] [] [] in
  let e := EvSys (notify true NsNotice (ey_ctrlr e)) [(0, notice_event NsNotice)] [] [] in
  let e := EvSys (nvmf_ctrlr_unmask_aen 0 (ey_ctrlr e)) [(0, notice_event NsNotice)] [0] [] in
  let e := EvSys (notify true NsNotice (ey_ctrlr e)) [(0, notice_event NsNotice); (0, notice_event NsNotice)] [0] [] in
  EvSys (nvmf_ctrlr_async_event_request 7 1 (ey_ctrlr e)) [(0, notice_event NsNotice); (0, notice_event NsNotice)] [0] [7%nat].

Lemma events_delivered_in_order_witness :
  ev_reachable 0x100 demo_events /\ known_events (ey_ctrlr demo_events) = snd <$> ey_raised demo_events.
Proof.
  assert (HR : ev_reachable 0x100 demo_events); [|exact (conj HR (proj1 (events_delivered_in_order _ _ HR)))].
  eapply rtc_l; [exact (es_notice (ey_ctrlr (ev_init 0x100)) [] [] [] true NsNotice)|].
  eapply rtc_l; [apply (es_notice _ _ _ _ true NsNotice)|]. eapply rtc_l; [by apply (es_read _ _ _ _ 0)|].
  eapply rtc_l; [apply (es_notice _ _ _ _ true NsNotice)|]. eapply rtc_l; [apply (es_request _ _ _ _ 7 1); set_solver|]. apply rtc_refl.
Defined.
