(* ===== verification/Discovery.v ===== *)
(** * The discovery log: [spdk/lib/nvmf/ctrlr_discovery.c]

    The log lists, for the host that asks, the listeners of the subsystems it
    may connect to, filtered by the address the command came from, and the
    referrals.  Modelled are the generation of the page, the window of it that
    is copied to the host, and the notice of a change. *)
From S2P Require Import Prelude NvmeSpec Iov World CtrlrRegs AsyncEvents.

(** ** Data *)

(** Strings are the bytes before the terminator. *)
Record spdk_nvme_transport_id := Trid {
  tr_trstring : bytes; tr_trtype : Z; tr_adrfam : Z; tr_traddr : bytes; tr_trsvcid : bytes }.

(** [struct spdk_nvmf_discovery_log_page_entry]; [de_sectype] is the TCP
    member of [tsas]. *)
Record disc_entry := DiscEntry {
  de_trtype : Z; de_adrfam : Z; de_subtype : Z; de_secure_channel : Z; de_portid : Z; de_cntlid : Z; de_asqsz : Z; de_eflags : Z;
  de_trsvcid : bytes; de_subnqn : bytes; de_traddr : bytes; de_sectype : Z }.
#[global] Instance eta_de : Eta disc_entry := fun e =>
  DiscEntry (de_trtype e) (de_adrfam e) (de_subtype e) (de_secure_channel e) (de_portid e) (de_cntlid e) (de_asqsz e) (de_eflags e)
    (de_trsvcid e) (de_subnqn e) (de_traddr e) (de_sectype e).

Definition entry_bytes (e : disc_entry) : bytes :=
  le_enc 1 (de_trtype e) ++ le_enc 1 (de_adrfam e) ++ le_enc 1 (de_subtype e) ++ le_enc 1 (bits 0 2 (de_secure_channel e)) ++
  le_enc 2 (de_portid e) ++ le_enc 2 (de_cntlid e) ++ le_enc 2 (de_asqsz e) ++ le_enc 2 (de_eflags e) ++ replicate 20 0 ++
  padded 32 (de_trsvcid e) ++ replicate 192 0 ++ padded 256 (de_subnqn e) ++ padded 256 (de_traddr e) ++
  le_enc 1 (de_sectype e) ++ replicate 255 0.

Definition zero_entry : disc_entry := DiscEntry 0 0 0 0 0 0 0 0 [] [] [] 0.

(** [struct spdk_nvmf_subsystem_listener]: [li_ssl] is whether the listening
    socket of the port is an SSL one. *)
Record listener := Listener { li_trid : spdk_nvme_transport_id; li_id : Z; li_max_aq_depth : Z; li_ssl : bool }.

Record disc_subsystem := DiscSubsystem {
  ds_state : spdk_nvmf_subsystem_state; ds_allow_any_host : bool; ds_hosts : list bytes; ds_listeners : list listener;
  ds_subtype : Z; ds_subnqn : bytes }.

(** [struct spdk_nvmf_tgt]: the subsystems in the order of the tree. *)
Record disc_tgt := DiscTgt {
  dt_genctr : Z; dt_filter : Z; dt_subsystems : list disc_subsystem; dt_referrals : list disc_entry }.
#[global] Instance eta_dt : Eta disc_tgt := fun t => DiscTgt (dt_genctr t) (dt_filter t) (dt_subsystems t) (dt_referrals t).

Definition SPDK_NVME_TRANSPORT_CUSTOM : Z := 4096.
Definition SPDK_NVMF_TRTYPE_TCP : Z := 3.
Definition SPDK_NVMF_SUBTYPE_DISCOVERY_CURRENT : Z := 3.
Definition SPDK_NVMF_DISCOVERY_LOG_EFLAGS_DUPRETINFO : Z := 1.
Definition SPDK_NVMF_DISCOVERY_LOG_EFLAGS_EPCSD : Z := 2.
Definition SPDK_NVMF_TREQ_SECURE_CHANNEL_REQUIRED : Z := 1.
Definition SPDK_NVMF_TREQ_SECURE_CHANNEL_NOT_REQUIRED : Z := 2.
Definition SPDK_NVME_TCP_SECURITY_NONE : Z := 0.
Definition SPDK_NVME_TCP_SECURITY_TLS_1_3 : Z := 2.

(** ** Strings *)

Definition tolower (c : Z) : Z := if (65 <=? c) && (c <=? 90) then c + 32 else c.
(** [strcasecmp (a, b) == 0] and [strcmp (a, b) == 0] *)
Definition strcaseeq (a b : bytes) : bool := bool_decide (tolower <$> a = tolower <$> b).
Definition streq (a b : bytes) : bool := bool_decide (a = b).

Definition spdk_strcpy_pad (src : bytes) (size : nat) (pad : Z) : bytes :=
  if (length src <? size)%nat then src ++ replicate (size - length src) pad else take size src.

(** ** Who is listed *)

Definition nvmf_discovery_compare_trtype (t1 t2 : spdk_nvme_transport_id) : bool :=
  if tr_trtype t1 =? SPDK_NVME_TRANSPORT_CUSTOM then strcaseeq (tr_trstring t1) (tr_trstring t2) else tr_trtype t1 =? tr_trtype t2.
Definition nvmf_discovery_compare_tr_addr (t1 t2 : spdk_nvme_transport_id) : bool :=
  (tr_adrfam t1 =? tr_adrfam t2) && strcaseeq (tr_traddr t1) (tr_traddr t2).
Definition nvmf_discovery_compare_tr_svcid (t1 t2 : spdk_nvme_transport_id) : bool := strcaseeq (tr_trsvcid t1) (tr_trsvcid t2).

(** Bit 0 of the filter matches the type, bit 1 the address, bit 2 the
    service. *)
Definition nvmf_discovery_compare_trid (filter : Z) (t1 t2 : spdk_nvme_transport_id) : bool :=
  if (Z.land filter 1 !=? 0) && negb (nvmf_discovery_compare_trtype t1 t2) then false
  else if (Z.land filter 2 !=? 0) && negb (nvmf_discovery_compare_tr_addr t1 t2) then false
  else if (Z.land filter 4 !=? 0) && negb (nvmf_discovery_compare_tr_svcid t1 t2) then false
  else true.

Definition nvmf_subsystem_find_host (s : disc_subsystem) (hostnqn : bytes) : bool := existsb (streq hostnqn) (ds_hosts s).
Definition spdk_nvmf_subsystem_host_allowed (s : disc_subsystem) (hostnqn : bytes) : bool :=
  if ds_allow_any_host s then true else nvmf_subsystem_find_host s hostnqn.

(** ** The page *)

(** The transport's part of an entry, for TCP. *)
Definition nvmf_tcp_discover (l : listener) (e : disc_entry) : disc_entry :=
  let e := e <| de_trtype := SPDK_NVMF_TRTYPE_TCP |> <| de_adrfam := tr_adrfam (li_trid l) |>
             <| de_trsvcid := spdk_strcpy_pad (tr_trsvcid (li_trid l)) 32 32 |> <| de_traddr := spdk_strcpy_pad (tr_traddr (li_trid l)) 256 32 |> in
  if li_ssl l
  then e <| de_secure_channel := SPDK_NVMF_TREQ_SECURE_CHANNEL_REQUIRED |> <| de_sectype := SPDK_NVME_TCP_SECURITY_TLS_1_3 |>
  else e <| de_secure_channel := SPDK_NVMF_TREQ_SECURE_CHANNEL_NOT_REQUIRED |> <| de_sectype := SPDK_NVME_TCP_SECURITY_NONE |>.

Section Generate.
(** [listener_discover] of the transport of a listener, and the answers of the
    allocations in their order. *)
Context (listener_discover : listener -> disc_entry -> disc_entry) (mem : nat -> bool).

Definition listener_entry (s : disc_subsystem) (l : listener) : disc_entry :=
  let e := zero_entry <| de_portid := li_id l |> <| de_cntlid := 0xffff |> <| de_asqsz := li_max_aq_depth l |> <| de_subtype := ds_subtype s |>
             <| de_subnqn := take 255 (ds_subnqn s) |> in
  let e := if ds_subtype s =? SPDK_NVMF_SUBTYPE_DISCOVERY_CURRENT
           then e <| de_eflags := Z.lor (Z.lor (de_eflags e) SPDK_NVMF_DISCOVERY_LOG_EFLAGS_DUPRETINFO) SPDK_NVMF_DISCOVERY_LOG_EFLAGS_EPCSD |> else e in
  listener_discover l e.

(** The entries so far and the number of allocations made. *)
Abbreviation growing := (list disc_entry * nat)%type.

(** Without memory the rest of the subsystem's listeners is left out. *)
Fixpoint add_listeners (filter : Z) (src : spdk_nvme_transport_id) (s : disc_subsystem) (ls : list listener) (g : growing) : growing :=
  match ls with
  | [] => g
  | l :: ls =>
      if negb (nvmf_discovery_compare_trid filter (li_trid l) src) then add_listeners filter src s ls g
      else if mem g.2 then add_listeners filter src s ls (g.1 ++ [listener_entry s l], S g.2) else (g.1, S g.2)
  end.

Definition hidden (s : disc_subsystem) (hostnqn : bytes) : bool :=
  bool_decide (ds_state s = SPDK_NVMF_SUBSYSTEM_INACTIVE) || bool_decide (ds_state s = SPDK_NVMF_SUBSYSTEM_DEACTIVATING)
  || negb (spdk_nvmf_subsystem_host_allowed s hostnqn).

Fixpoint add_subsystems (filter : Z) (src : spdk_nvme_transport_id) (hostnqn : bytes) (ss : list disc_subsystem) (g : growing) : growing :=
  match ss with
  | [] => g
  | s :: ss =>
      if hidden s hostnqn then add_subsystems filter src hostnqn ss g
      else add_subsystems filter src hostnqn ss (add_listeners filter src s (ds_listeners s) g)
  end.

Fixpoint add_referrals (rs : list disc_entry) (g : growing) : growing :=
  match rs with
  | [] => g
  | e :: rs => if mem g.2 then add_referrals rs (g.1 ++ [e], S g.2) else (g.1, S g.2)
  end.

Definition disc_page (genctr : Z) (entries : list disc_entry) : bytes :=
  le_enc 8 genctr ++ le_enc 8 (Z.of_nat (length entries)) ++ le_enc 2 0 ++ replicate (Z.to_nat 1006) 0 ++ concat (entry_bytes <$> entries).

Definition nvmf_generate_discovery_log (t : disc_tgt) (hostnqn : bytes) (src : spdk_nvme_transport_id) : option bytes :=
  if mem 0 then
    let g := add_subsystems (dt_filter t) src hostnqn (dt_subsystems t) ([], 1%nat) in
    let g := add_referrals (dt_referrals t) g in
    Some (disc_page (dt_genctr t) g.1)
  else None.

(** The copy into the vector from its element on: [zero_len] is what the last
    turn left.  [None] is a read outside the page or a write outside the
    vector. *)
Fixpoint disc_copy (page : bytes) (iovs : list iovec) (iovcnt : nat) (offset length zero_len : Z) : option (list iovec) :=
  match iovcnt, iovs with
  | O, _ => if zero_len =? 0 then Some iovs else None
  | S _, [] => None
  | S iovcnt, v :: iovs =>
      let copy_len := Z.min (u64 (blen page - offset)) (Z.min (Z.of_nat (iov_len v)) length) in
      if (0 <? copy_len) && (blen page <? offset + copy_len) then None
      else
        let v := iov_store 0 (slice (Z.to_nat offset) (Z.to_nat copy_len) page) v in
        let offset := u64 (offset + copy_len) in
        let length := u32 (length - copy_len) in
        let zero_len := Z.of_nat (iov_len v) - copy_len in
        if (blen page <=? offset) || (length =? 0)
        then Some (iov_store (Z.to_nat copy_len) (replicate (Z.to_nat zero_len) 0) v :: spdk_iov_memset iovs iovcnt 0)
        else iovs ← disc_copy page iovs iovcnt offset length zero_len; Some (v :: iovs)
  end.

Definition nvmf_get_discovery_log_page (t : disc_tgt) (hostnqn : bytes) (iovs : list iovec) (iovcnt : nat) (offset length : Z)
    (src : spdk_nvme_transport_id) : option (list iovec) :=
  match nvmf_generate_discovery_log t hostnqn src with
  | Some page => disc_copy page iovs iovcnt offset length 0
  | None => Some iovs
  end.
End Generate.

(** The controllers of the discovery subsystem, by their host; the ones whose
    log changed take the notice, [alloc] being the allocations they make. *)
Definition nvmf_update_discovery_log (alloc : nat -> bool) (hostnqn : option bytes) (t : disc_tgt) (ctrlrs : list (bytes * ev_ctrlr))
    : disc_tgt * list (bytes * ev_ctrlr) :=
  let concerned (nqn : bytes) := match hostnqn with None => true | Some h => streq h nqn end in
  (t <| dt_genctr := u64 (dt_genctr t + 1) |>,
   imap (fun i (c : bytes * ev_ctrlr) =>
     if concerned c.1 then (c.1, nvmf_ctrlr_async_event_discovery_log_change_notice (alloc i) c.2) else c) ctrlrs).

(** ** Lemmas *)

Lemma length_padded n b : length (padded n b) = n.
Proof. unfold padded. rewrite length_take, length_app, length_replicate. lia. Qed.

Lemma length_disc_entry e : length (entry_bytes e) = Z.to_nat 1024.
Proof. unfold entry_bytes. rewrite !length_app, !length_le_enc, !length_replicate, !length_padded. lia. Qed.

Lemma length_disc_page genctr es : blen (disc_page genctr es) = 1024 * (1 + Z.of_nat (length es)).
Proof.
  unfold disc_page, blen. rewrite !length_app, !length_le_enc, length_replicate.
  assert (E : length (concat (entry_bytes <$> es)) = (Z.to_nat 1024 * length es)%nat); [|lia].
  induction es as [|e es IH]; [cbn; lia|]. rewrite fmap_cons. cbn [concat]. rewrite length_app, IH, length_disc_entry. cbn [length]. lia.
Qed.

(** An element that is filled in part and zeroed after it. *)
Lemma store_padded v w : (length w <= iov_len v)%nat ->
  iov_mem (iov_store (length w) (replicate (iov_len v - length w) 0) (iov_store 0 w v)) = padded (iov_len v) w.
Proof.
  unfold iov_store, iov_len, iov_mem, padded. destruct v as [[b|]]; cbn; intros Hl.
  - unfold splice. rewrite take_0. cbn. rewrite length_replicate, take_app_length, drop_ge, app_nil_r, take_app_ge, take_replicate by (rewrite ?length_app, ?length_drop; lia).
    f_equal. f_equal. lia.
  - by destruct w; cbn in *; [|lia].
Qed.

Lemma store_full v w : length w = iov_len v -> iov_mem (iov_store 0 w v) = w.
Proof.
  unfold iov_store, iov_len, iov_mem. destruct v as [[b|]]; cbn; intros Hl; [by apply splice_all|]. by destruct w.
Qed.

Lemma padded_app n m w : (length w <= n)%nat -> padded n w ++ replicate m 0 = padded (n + m) w.
Proof.
  intros Hl. unfold padded. rewrite !take_app_ge, !take_replicate, <- app_assoc, <- replicate_add by lia. f_equal. f_equal. lia.
Qed.

Lemma padded_cut n m w : (n <= length w)%nat -> take n w ++ padded m (drop n w) = padded (n + m) w.
Proof.
  intros Hl. unfold padded. rewrite <- (take_drop n w) at 3. rewrite <- app_assoc, take_app_add' by (rewrite length_take; lia). f_equal.
  rewrite !take_app, !take_replicate. f_equal. f_equal. lia.
Qed.

Lemma slice_take o n m (b : bytes) : (n <= m)%nat -> take n (slice o m b) = slice o n b.
Proof. intros. unfold slice. rewrite take_take. f_equal. lia. Qed.
Lemma slice_drop o n m (b : bytes) : drop n (slice o m b) = slice (o + n) (m - n) b.
Proof. unfold slice. by rewrite drop_take_drop_comm || (rewrite skipn_firstn_comm, drop_drop). Qed.

(** The window of a page, with zeros after it. *)
Lemma disc_copy_spec page iovs : forall offset len, 0 <= offset <= blen page -> 0 <= len < 2 ^ 32 -> blen page < 2 ^ 64 ->
  exists iovs', disc_copy page iovs (length iovs) offset len 0 = Some iovs' /\
    flat iovs' = padded (length (flat iovs)) (slice (Z.to_nat offset) (Z.to_nat len) page) /\ iov_len <$> iovs' = iov_len <$> iovs.
Proof.
  induction iovs as [|v iovs IH]; intros offset len Ho Hl Hp.
  { exists []. split; [done|]. split; [|done]. cbn. unfold padded. by rewrite take_0. }
  cbn [disc_copy length]. assert (Eu : u64 (blen page - offset) = blen page - offset) by (apply Z.mod_small; lia). rewrite Eu. set (n := Z.min _ _).
  assert (Hn : 0 <= n <= blen page - offset /\ n <= len /\ n <= Z.of_nat (iov_len v) /\ (n = blen page - offset \/ n = len \/ n = Z.of_nat (iov_len v))) by (unfold n; lia).
  clearbody n. rewrite (proj2 (Z.ltb_ge (blen page) _)) by lia. rewrite andb_false_r. set (w := slice (Z.to_nat offset) (Z.to_nat n) page).
  assert (Hw : length w = Z.to_nat n) by (unfold w, slice, blen in *; rewrite length_take, length_drop; lia).
  assert (Hv : iov_len (iov_store 0 w v) = iov_len v) by (apply iov_store_len; lia). rewrite Hv.
  unfold u64, u32. rewrite !Z.mod_small by lia. destruct ((blen page <=? offset + n) || (len - n =? 0)) eqn:Ef.
  - eexists. split; [done|]. destruct (memset_flat iovs) as [M1 M2]. rewrite fmap_cons, M2. split.
    + unfold flat in *. rewrite !fmap_cons. cbn [concat]. rewrite M1, length_app.
      replace (Z.to_nat (Z.of_nat (iov_len v) - n)) with (iov_len v - length w)%nat by lia. rewrite <- Hw, store_padded, padded_app by lia.
      f_equal. unfold w, slice. destruct (Z.eqb_spec (len - n) 0); [f_equal; lia|]. rewrite orb_false_r in Ef.
      unfold blen in *. rewrite !take_ge by (rewrite length_drop; lia). done.
    + rewrite iov_store_len; [by rewrite Hv|]. rewrite Hv, length_replicate. lia.
  - apply orb_false_iff in Ef as [E1 E2]. assert (n = Z.of_nat (iov_len v)) as Ev by lia. assert (Z.of_nat (iov_len v) - n = 0) as -> by lia.
    destruct (IH (offset + n) (len - n)) as (iovs' & E & Hf & Hls); [lia..|]. rewrite E. cbn [mbind option_bind]. eexists. split; [done|].
    rewrite !fmap_cons, Hls, Hv. split; [|done]. unfold flat in *. rewrite !fmap_cons. cbn [concat]. rewrite Hf, length_app, store_full by lia.
    rewrite <- padded_cut; [|unfold slice, blen, iov_len in *; rewrite length_take, length_drop; lia].
    rewrite slice_take, slice_drop by (unfold iov_len in *; lia). f_equal; [unfold w; f_equal; unfold iov_len in *; lia|].
    f_equal. f_equal; unfold iov_len in *; lia.
Qed.

(** The log a host should see: the listeners that match the filter, of the
    subsystems it may connect to, then the referrals. *)
Definition visible (s : disc_subsystem) (hostnqn : bytes) : Prop :=
  ds_state s <> SPDK_NVMF_SUBSYSTEM_INACTIVE /\ ds_state s <> SPDK_NVMF_SUBSYSTEM_DEACTIVATING /\
  (ds_allow_any_host s = true \/ hostnqn ∈ ds_hosts s).
Definition listed (ld : listener -> disc_entry -> disc_entry) (t : disc_tgt) (hostnqn : bytes) (src : spdk_nvme_transport_id) : list disc_entry :=
  concat ((fun s => listener_entry ld s <$> List.filter (fun l => nvmf_discovery_compare_trid (dt_filter t) (li_trid l) src) (ds_listeners s)) <$>
    List.filter (fun s => negb (hidden s hostnqn)) (dt_subsystems t)) ++ dt_referrals t.

Lemma hidden_spec s hostnqn : hidden s hostnqn = false <-> visible s hostnqn.
Proof.
  unfold hidden, visible, spdk_nvmf_subsystem_host_allowed, nvmf_subsystem_find_host. rewrite !orb_false_iff, !bool_decide_eq_false, negb_false_iff.
  assert (E : existsb (streq hostnqn) (ds_hosts s) = true <-> hostnqn ∈ ds_hosts s).
  { rewrite existsb_exists. unfold streq. split.
    - intros (x & Hx & E). apply bool_decide_eq_true in E as ->. by apply list_elem_of_In.
    - intros H. exists hostnqn. split; [by apply list_elem_of_In|]. by apply bool_decide_eq_true. }
  destruct (ds_allow_any_host s); naive_solver.
Qed.

Section Entries.
Context (ld : listener -> disc_entry -> disc_entry) (mem : nat -> bool).

(** Entries are left out only for want of memory, and never made up. *)
Lemma add_listeners_spec filter src s ls g :
  let es := listener_entry ld s <$> List.filter (fun l => nvmf_discovery_compare_trid filter (li_trid l) src) ls in
  exists es', (add_listeners ld mem filter src s ls g).1 = g.1 ++ es' /\ es' `sublist_of` es /\ ((forall n, mem n = true) -> es' = es).
Proof.
  revert g. induction ls as [|l ls IH]; intros g; cbn [add_listeners List.filter].
  { exists []. by rewrite app_nil_r. }
  destruct (nvmf_discovery_compare_trid filter (li_trid l) src); cbn [negb]; [|apply IH]. rewrite fmap_cons. destruct (mem g.2) eqn:Em.
  - destruct (IH (g.1 ++ [listener_entry ld s l], S g.2)) as (es' & E & Hs & Ha). exists (listener_entry ld s l :: es'). cbn [fst] in E.
    rewrite E, <- app_assoc. split; [done|]. split; [by constructor|]. intros H. by rewrite Ha.
  - exists []. rewrite app_nil_r. split; [done|]. split; [apply sublist_nil_l|]. intros H. by rewrite H in Em.
Qed.

Lemma add_subsystems_spec filter src hostnqn ss g :
  let es := concat ((fun s => listener_entry ld s <$> List.filter (fun l => nvmf_discovery_compare_trid filter (li_trid l) src) (ds_listeners s)) <$>
    List.filter (fun s => negb (hidden s hostnqn)) ss) in
  exists es', (add_subsystems ld mem filter src hostnqn ss g).1 = g.1 ++ es' /\ es' `sublist_of` es /\ ((forall n, mem n = true) -> es' = es).
Proof.
  revert g. induction ss as [|s ss IH]; intros g; cbn [add_subsystems List.filter].
  { exists []. by rewrite app_nil_r. }
  destruct (hidden s hostnqn); cbn [negb]; [apply IH|]. rewrite fmap_cons. cbn [concat].
  destruct (add_listeners_spec filter src s (ds_listeners s) g) as (e1 & E1 & S1 & A1).
  destruct (IH (add_listeners ld mem filter src s (ds_listeners s) g)) as (e2 & E2 & S2 & A2). exists (e1 ++ e2). rewrite E2, E1, <- app_assoc.
  split; [done|]. split; [by apply sublist_app|]. intros H. by rewrite A1, A2.
Qed.

Lemma add_referrals_spec rs g :
  exists es', (add_referrals mem rs g).1 = g.1 ++ es' /\ es' `sublist_of` rs /\ ((forall n, mem n = true) -> es' = rs).
Proof.
  revert g. induction rs as [|e rs IH]; intros g; cbn [add_referrals].
  { exists []. by rewrite app_nil_r. }
  destruct (mem g.2) eqn:Em.
  - destruct (IH (g.1 ++ [e], S g.2)) as (es' & E & Hs & Ha). exists (e :: es'). cbn [fst] in E. rewrite E, <- app_assoc.
    split; [done|]. split; [by constructor|]. intros H. by rewrite Ha.
  - exists []. rewrite app_nil_r. split; [done|]. split; [apply sublist_nil_l|]. intros H. by rewrite H in Em.
Qed.

Lemma generate_spec t hostnqn src : mem 0%nat = true ->
  exists es, nvmf_generate_discovery_log ld mem t hostnqn src = Some (disc_page (dt_genctr t) es) /\
    es `sublist_of` listed ld t hostnqn src /\ ((forall n, mem n = true) -> es = listed ld t hostnqn src).
Proof.
  intros Hm. unfold nvmf_generate_discovery_log, listed. rewrite Hm.
  destruct (add_subsystems_spec (dt_filter t) src hostnqn (dt_subsystems t) ([], 1%nat)) as (e1 & E1 & S1 & A1).
  destruct (add_referrals_spec (dt_referrals t) (add_subsystems ld mem (dt_filter t) src hostnqn (dt_subsystems t) ([], 1%nat))) as (e2 & E2 & S2 & A2).
  exists (e1 ++ e2). rewrite E2, E1. split; [done|]. split; [by apply sublist_app|]. intros H. by rewrite A1, A2.
Qed.

Lemma listed_elem t hostnqn src e : e ∈ listed ld t hostnqn src <->
  e ∈ dt_referrals t \/ exists s l, s ∈ dt_subsystems t /\ visible s hostnqn /\ l ∈ ds_listeners s /\
    nvmf_discovery_compare_trid (dt_filter t) (li_trid l) src = true /\ e = listener_entry ld s l.
Proof.
  unfold listed. rewrite elem_of_app, !list_elem_of_In, in_concat. setoid_rewrite list_elem_of_In. split.
  - intros [(es & H & He)|H]; [|by left]. apply list_elem_of_In, list_elem_of_fmap in H as (s & -> & H).
    apply list_elem_of_In, list_elem_of_fmap in He as (l & -> & Hl). apply list_elem_of_In, filter_In in H as [Hs Hh], Hl as [Hl Hf].
    apply negb_true_iff, hidden_spec in Hh. right. eauto 10.
  - intros [H|(s & l & Hs & Hv & Hl & Hf & ->)]; [by right|left]. eexists. split.
    + apply list_elem_of_In, list_elem_of_fmap. exists s. split; [done|]. apply list_elem_of_In, filter_In. split; [done|].
      by apply negb_true_iff, hidden_spec.
    + apply list_elem_of_In, list_elem_of_fmap. exists l. split; [done|]. by apply list_elem_of_In, filter_In.
Qed.
End Entries.

(** ** Theorems *)

(** C15. A host that asks for a window of the discovery log inside the page
    gets exactly those bytes, and zeros in the rest of its buffer, however the
    buffer is split.  The entries are listeners that match the filter of
    subsystems that are up and that the host may connect to, and referrals;
    allocations that fail leave entries out and never add one, and when none
    fails the log is complete, in the order of subsystems and listeners. *)
Theorem discovery_log_window ld mem t hostnqn iovs src offset len (Hm : mem 0%nat = true) (Hl : 0 <= len < 2 ^ 32) :
  exists es, es `sublist_of` listed ld t hostnqn src /\ ((forall n, mem n = true) -> es = listed ld t hostnqn src) /\
    (forall e, e ∈ es -> e ∈ dt_referrals t \/ exists s l, s ∈ dt_subsystems t /\ visible s hostnqn /\ l ∈ ds_listeners s /\
       nvmf_discovery_compare_trid (dt_filter t) (li_trid l) src = true /\ e = listener_entry ld s l) /\
    (0 <= offset <= 1024 * (1 + Z.of_nat (length es)) -> 1024 * (1 + Z.of_nat (length es)) < 2 ^ 64 ->
     exists iovs', nvmf_get_discovery_log_page ld mem t hostnqn iovs (length iovs) offset len src = Some iovs' /\
       flat iovs' = padded (length (flat iovs)) (slice (Z.to_nat offset) (Z.to_nat len) (disc_page (dt_genctr t) es)) /\
       iov_len <$> iovs' = iov_len <$> iovs).
Proof.
  destruct (generate_spec ld mem t hostnqn src Hm) as (es & E & Hs & Ha). exists es. split; [done|]. split; [done|]. split.
  - intros e He. apply (listed_elem ld). apply sublist_submseteq in Hs. by eapply elem_of_submseteq.
  - intros Ho Hp. unfold nvmf_get_discovery_log_page. rewrite E. apply disc_copy_spec; rewrite ?length_disc_page; lia.
Qed.

(** An offset past the end of the discovery log is not refused: the number
    of bytes left is computed as an unsigned difference, so that the copy reads
    memory after the page, for every non-empty buffer. *)
Theorem discovery_offset_unchecked ld mem t hostnqn v iovs src offset len (Hm : forall n, mem n = true) (Hl : 0 < len < 2 ^ 32)
    (Hv : (0 < iov_len v)%nat) (Ho : 1024 * (1 + Z.of_nat (length (listed ld t hostnqn src))) < offset < 2 ^ 64) :
  nvmf_get_discovery_log_page ld mem t hostnqn (v :: iovs) (S (length iovs)) offset len src = None.
Proof.
  destruct (generate_spec ld mem t hostnqn src (Hm 0%nat)) as (es & E & _ & Ha). rewrite (Ha Hm) in E. unfold nvmf_get_discovery_log_page. rewrite E. cbn [disc_copy].
  rewrite length_disc_page. set (size := 1024 * _) in *. assert (Hs : 0 < size) by lia. clearbody size.
  assert (Eu : u64 (size - offset) = 2 ^ 64 + (size - offset)) by (symmetry; apply (Z.mod_unique_pos _ _ (-1)); lia).
  rewrite Eu. rewrite (proj2 (Z.ltb_lt 0 _)), (proj2 (Z.ltb_lt size _)) by lia. done.
Qed.

(** A subsystem with a listener the host may use and one it may not, and a
    referral. *)
Definition demo_trid : spdk_nvme_transport_id := Trid [84; 67; 80] SPDK_NVMF_TRTYPE_TCP 1 [49] [52].
Definition demo_tgt : disc_tgt := DiscTgt 5 1
  [DiscSubsystem SPDK_NVMF_SUBSYSTEM_ACTIVE false [[104]] [Listener demo_trid 1 32 false; Listener (Trid [] 1 1 [] []) 2 32 false] 2 [110];
   DiscSubsystem SPDK_NVMF_SUBSYSTEM_ACTIVE false [[105]] [Listener demo_trid 3 32 false] 2 [111]] [zero_entry].

Lemma discovery_log_window_witness :
  listed nvmf_tcp_discover demo_tgt [104] demo_trid = [listener_entry nvmf_tcp_discover
    (DiscSubsystem SPDK_NVMF_SUBSYSTEM_ACTIVE false [[104]] [Listener demo_trid 1 32 false; Listener (Trid [] 1 1 [] []) 2 32 false] 2 [110])
    (Listener demo_trid 1 32 false); zero_entry] /\
  exists iovs', nvmf_get_discovery_log_page nvmf_tcp_discover (fun _ => true) demo_tgt [104] [Iov (Some [7; 7; 7]); Iov (Some [7; 7])] 2 8 4 demo_trid = Some iovs' /\
    flat iovs' = [2; 0; 0; 0; 0].
Proof.
  split; [vm_compute; reflexivity|].
  destruct (discovery_log_window nvmf_tcp_discover (fun _ => true) demo_tgt [104] [Iov (Some [7; 7; 7]); Iov (Some [7; 7])] demo_trid 8 4) as (es & _ & Ha & _ & Hw);
    [done|lia|]. rewrite Ha in Hw by done. destruct Hw as (iovs' & E & Hf & _); [vm_compute; intuition congruence|done|].
  exists iovs'. split; [exact E|]. rewrite Hf. vm_compute. reflexivity.
Defined.

Lemma discovery_offset_unchecked_witness :
  nvmf_get_discovery_log_page nvmf_tcp_discover (fun _ => true) demo_tgt [104] [Iov (Some [7; 7; 7; 7])] 1 4096 4 demo_trid = None.
Proof. apply discovery_offset_unchecked; [done|lia|cbn; lia|vm_compute; intuition congruence]. Defined.
