(* ===== verification/LogPages.v ===== *)
(** * Log pages: [nvmf_ctrlr_get_log_page] of ctrlr.c

    A host reads a window of a log page, given by an offset and a length, into
    the scatter-gather list of its command.  Modelled are the pages of an I/O
    controller: firmware slot, asymmetric namespace access (ANA), commands
    supported and effects, changed namespaces and reservation notifications,
    with what reading them changes in the controller. *)
From S2P Require Import Prelude NvmeSpec Iov World CtrlrBdev Ctrlr CtrlrRegs AsyncEvents Discovery.

(** ** What the pages are made of *)

(** The controller's view of its subsystem.  [lt_ana_group] counts the
    namespaces of each group; [lt_zoned] tells of each namespace whether its
    device is zoned and supports zone append. *)
Record log_target := LogTarget {
  lt_subsys : spdk_nvmf_subsystem; lt_ctrlr : spdk_nvmf_ctrlr; lt_ana_group : list Z;
  lt_zoned : list (option (bool * bool)); lt_discovery : bool }.

Definition ana_code (st : spdk_nvme_ana_state) : Z :=
  match st with
  | SPDK_NVME_ANA_OPTIMIZED_STATE => 1 | SPDK_NVME_ANA_NON_OPTIMIZED_STATE => 2
  | SPDK_NVME_ANA_INACCESSIBLE_STATE => 3 | SPDK_NVME_ANA_PERSISTENT_LOSS_STATE => 4
  | SPDK_NVME_ANA_CHANGE_STATE => 15
  end.

(** [nvmf_ctrlr_get_ana_state]; [None] is a read outside the array. *)
Definition ana_state (t : log_target) (anagrpid : Z) : option spdk_nvme_ana_state :=
  if negb (subsys_ana_reporting (lt_subsys t)) then Some SPDK_NVME_ANA_OPTIMIZED_STATE
  else match ct_ana_state (lt_ctrlr t) with
       | None => Some SPDK_NVME_ANA_INACCESSIBLE_STATE
       | Some st => st !! Z.to_nat (u32 (anagrpid - 1))
       end.

(** [struct spdk_nvme_ana_page] and [struct spdk_nvme_ana_group_descriptor]. *)
Definition ana_hdr (num_anagrp : Z) : bytes := le_enc 8 0 ++ le_enc 2 num_anagrp ++ replicate 6 0.
Definition ana_desc (anagrpid num_of_nsid : Z) (st : spdk_nvme_ana_state) : bytes :=
  le_enc 4 anagrpid ++ le_enc 4 num_of_nsid ++ le_enc 8 0 ++ [ana_code st] ++ replicate 15 0.

Definition num_anagrp (t : log_target) : Z := Z.of_nat (length (List.filter (fun g => 0 <? g) (lt_ana_group t))).

(** [struct spdk_nvme_firmware_page]; [FW_VERSION] is 24.09. *)
Definition FW_VERSION : bytes := [50; 52; 46; 48; 57].
Definition fw_page : bytes := [1] ++ replicate 7 0 ++ spdk_strcpy_pad FW_VERSION 8 32 ++ replicate 48 0 ++ replicate 448 0.

Definition changed_ns_page (c : ev_ctrlr) : bytes := concat (le_enc 4 <$> ev_changed_ns c).

(** [struct spdk_nvme_reservation_notification_log] *)
Definition resv_log_bytes (l : resv_log) : bytes :=
  le_enc 8 (rl_log_page_count l) ++ [u8 (rl_type l); u8 (rl_num_avail_log_pages l)] ++ replicate 2 0 ++ le_enc 4 (rl_nsid l) ++ replicate 48 0.

(** ** Commands supported and effects *)

Definition SPDK_NVME_OPC_GET_LOG_PAGE : Z := 0x02.
Definition SPDK_NVME_OPC_IDENTIFY : Z := 0x06.
Definition SPDK_NVME_OPC_ABORT : Z := 0x08.
Definition SPDK_NVME_OPC_SET_FEATURES : Z := 0x09.
Definition SPDK_NVME_OPC_GET_FEATURES : Z := 0x0a.
Definition SPDK_NVME_OPC_KEEP_ALIVE : Z := 0x18.
Definition SPDK_NVME_OPC_ZONE_MGMT_SEND : Z := 0x79.
Definition SPDK_NVME_OPC_ZONE_MGMT_RECV : Z := 0x7a.
Definition SPDK_NVME_OPC_ZONE_APPEND : Z := 0x7d.
Definition SPDK_NVME_OPC_CUSTOM_HEAAN_SUB : Z := 0xe1.
Definition SPDK_NVME_OPC_CUSTOM_HEAAN_MUL : Z := 0xe2.
Definition SPDK_NVME_OPC_CUSTOM_HEAAN_DIV : Z := 0xe3.
Definition SPDK_NVME_OPC_CUSTOM_HEAAN_DEC : Z := 0xe4.
Definition SPDK_NVME_OPC_CUSTOM_HEAAN_BTSRP : Z := 0xe5.

(** An entry by its low bits: [csupp] is bit 0, [lbcc] bit 1. *)
Definition admin_effects (op : Z) : Z :=
  if existsb (Z.eqb op) [SPDK_NVME_OPC_GET_LOG_PAGE; SPDK_NVME_OPC_IDENTIFY; SPDK_NVME_OPC_ABORT; SPDK_NVME_OPC_SET_FEATURES;
    SPDK_NVME_OPC_GET_FEATURES; SPDK_NVME_OPC_ASYNC_EVENT_REQUEST; SPDK_NVME_OPC_KEEP_ALIVE] then 1 else 0.

(** The table as it is declared; [heaan_lib] as in Ctrlr.v. *)
Definition g_io_effects (heaan_lib : bool) (op : Z) : Z :=
  if existsb (Z.eqb op) [SPDK_NVME_OPC_READ; SPDK_NVME_OPC_COMPARE; SPDK_NVME_OPC_ZONE_MGMT_RECV] then 1
  else if existsb (Z.eqb op) [SPDK_NVME_OPC_FLUSH; SPDK_NVME_OPC_WRITE; SPDK_NVME_OPC_WRITE_ZEROES; SPDK_NVME_OPC_DATASET_MANAGEMENT;
    SPDK_NVME_OPC_ZONE_MGMT_SEND; SPDK_NVME_OPC_ZONE_APPEND; SPDK_NVME_OPC_COPY; SPDK_NVME_OPC_CUSTOM_ECHO; SPDK_NVME_OPC_CUSTOM_GREP] then 3
  else if heaan_lib && existsb (Z.eqb op) [SPDK_NVME_OPC_CUSTOM_HEAAN_ADD; SPDK_NVME_OPC_CUSTOM_HEAAN_SUB; SPDK_NVME_OPC_CUSTOM_HEAAN_MUL;
    SPDK_NVME_OPC_CUSTOM_HEAAN_DIV; SPDK_NVME_OPC_CUSTOM_HEAAN_DEC; SPDK_NVME_OPC_CUSTOM_HEAAN_BTSRP] then 3 else 0.

Definition nvmf_subsystem_has_zns_iocs (t : log_target) : bool := existsb (fun z => match z with Some (zoned, _) => zoned | None => false end) (lt_zoned t).
Definition nvmf_subsystem_zone_append_supported (t : log_target) : bool :=
  existsb (fun z => match z with Some (zoned, append) => zoned && append | None => false end) (lt_zoned t).

Definition io_effects (heaan_lib : bool) (t : log_target) (op : Z) : Z :=
  let ct := lt_ctrlr t in
  if (op =? SPDK_NVME_OPC_WRITE_ZEROES) && (negb (ct_oncs_write_zeroes ct) || negb (nvmf_ctrlr_write_zeroes_supported (lt_subsys t))) then 0
  else if (op =? SPDK_NVME_OPC_DATASET_MANAGEMENT) && (negb (ct_oncs_dsm ct) || negb (nvmf_ctrlr_dsm_supported (lt_subsys t))) then 0
  else if (op =? SPDK_NVME_OPC_COMPARE) && negb (ct_oncs_compare ct) then 0
  else if ((op =? SPDK_NVME_OPC_ZONE_MGMT_SEND) || (op =? SPDK_NVME_OPC_ZONE_MGMT_RECV)) && negb (nvmf_subsystem_has_zns_iocs t) then 0
  else if (op =? SPDK_NVME_OPC_ZONE_APPEND) && negb (nvmf_subsystem_zone_append_supported t) then 0
  else if (op =? SPDK_NVME_OPC_COPY) && negb (ct_oncs_copy ct) then 0
  else g_io_effects heaan_lib op.

Definition opcodes : list Z := Z.of_nat <$> seq 0 256.
Definition cmds_and_effect_log_page (heaan_lib : bool) (t : log_target) : bytes :=
  concat ((fun op => le_enc 4 (admin_effects op)) <$> opcodes) ++ concat ((fun op => le_enc 4 (io_effects heaan_lib t op)) <$> opcodes) ++ replicate (Z.to_nat 2048) 0.

(** ** Writing a window of a page *)

(** The state of a page being written: the cursor, the offset still to skip
    and the length still to write. *)
Abbreviation window := (spdk_iov_xfer * Z * Z)%type.

(** The bytes of a piece from the offset on, as far as the length allows. *)
Definition copy_piece (piece : bytes) (st : window) : option window :=
  let '(ix, offset, length) := st in
  let copy_len := Z.min (blen piece - offset) length in
  '(ix, _, copied_len) ← spdk_iov_xfer_from_buf ix (drop (Z.to_nat offset) piece) (Z.to_nat copy_len);
  Some (ix, 0, u32 (length - Z.of_nat copied_len)).

(** A page that is one object. *)
Definition copy_page (page : bytes) (iovs : list iovec) (iovcnt : nat) (offset length : Z) : option (list iovec) :=
  let ix := spdk_iov_xfer_init iovs iovcnt in
  if offset <? blen page then
    let copy_len := Z.min (blen page - offset) length in
    if 0 <? copy_len then '(ix, _, _) ← spdk_iov_xfer_from_buf ix (drop (Z.to_nat offset) page) (Z.to_nat copy_len); Some (ix_iovs ix)
    else Some iovs
  else Some iovs.

(** *** The ANA page *)

(** The namespaces of a group, by [nsid]; [true] when the length is used up. *)
Fixpoint ana_ns_loop (anagrpid : Z) (nss : list (option spdk_nvmf_ns)) (nsid : Z) (st : window) : option (window * bool) :=
  match nss with
  | [] => Some (st, false)
  | None :: nss => ana_ns_loop anagrpid nss (nsid + 1) st
  | Some ns :: nss =>
      if ns_anagrpid ns !=? anagrpid then ana_ns_loop anagrpid nss (nsid + 1) st
      else let '(ix, offset, length) := st in
           if 4 <=? offset then ana_ns_loop anagrpid nss (nsid + 1) (ix, offset - 4, length)
           else st ← copy_piece (le_enc 4 nsid) st;
                if st.2 =? 0 then Some (st, true) else ana_ns_loop anagrpid nss (nsid + 1) st
  end.

Definition ana_group_desc (t : log_target) (anagrpid count : Z) (st : window) : option (window * bool) :=
  let '(ix, offset, length) := st in
  if 32 <=? offset then Some ((ix, offset - 32, length), false)
  else s ← ana_state t anagrpid;
       st ← copy_piece (ana_desc anagrpid count s) st;
       Some (st, st.2 =? 0).

Fixpoint ana_group_loop (t : log_target) (groups : list Z) (anagrpid : Z) (st : window) : option window :=
  match groups with
  | [] => Some st
  | count :: groups =>
      if count =? 0 then ana_group_loop t groups (anagrpid + 1) st
      else '(st, full) ← ana_group_desc t anagrpid count st;
           if full : bool then Some st
           else '(st, full) ← ana_ns_loop anagrpid (subsys_ns (lt_subsys t)) 1 st;
                if full : bool then Some st else ana_group_loop t groups (anagrpid + 1) st
  end.

Definition unmask_read (rae mask : Z) (c : ev_ctrlr) : ev_ctrlr := if rae =? 0 then nvmf_ctrlr_unmask_aen mask c else c.

Definition nvmf_get_ana_log_page (t : log_target) (c : ev_ctrlr) (iovs : list iovec) (iovcnt : nat) (offset length rae : Z)
    : option (list iovec * ev_ctrlr) :=
  let ix := spdk_iov_xfer_init iovs iovcnt in
  let done (ix : spdk_iov_xfer) := Some (ix_iovs ix, unmask_read rae SPDK_NVME_ASYNC_EVENT_ANA_CHANGE_MASK_BIT c) in
  if length =? 0 then done ix
  else
    st ← (if 16 <=? offset then Some (ix, offset - 16, length) else copy_piece (ana_hdr (num_anagrp t)) (ix, offset, length));
    if st.2 =? 0 then done st.1.1
    else st ← ana_group_loop t (lt_ana_group t) 1 st; done st.1.1.

(** *** The other pages *)

Definition nvmf_get_error_log_page (c : ev_ctrlr) (rae : Z) : ev_ctrlr := unmask_read rae SPDK_NVME_ASYNC_EVENT_ERROR_MASK_BIT c.

Definition nvmf_get_firmware_slot_log_page (iovs : list iovec) (iovcnt : nat) (offset length : Z) : option (list iovec) :=
  copy_page fw_page iovs iovcnt offset length.

(** The list is cleared whatever part of it was read. *)
Definition nvmf_get_changed_ns_list_log_page (c : ev_ctrlr) (iovs : list iovec) (iovcnt : nat) (offset length rae : Z)
    : option (list iovec * ev_ctrlr) :=
  iovs ← copy_page (changed_ns_page c) iovs iovcnt offset length;
  let c := c <| ev_changed_ns_count := 0%nat |> <| ev_changed_ns := replicate max_changes 0 |> in
  Some (iovs, unmask_read rae SPDK_NVME_ASYNC_EVENT_NS_ATTR_CHANGE_MASK_BIT c).

Definition nvmf_get_cmds_and_effects_log_page (heaan_lib : bool) (t : log_target) (iovs : list iovec) (iovcnt : nat) (offset length : Z)
    : option (list iovec) :=
  copy_page (cmds_and_effect_log_page heaan_lib t) iovs iovcnt offset length.

(** An entry leaves the log whether it is copied, in part or not at all; what
    is copied is the start of the entry. *)
Fixpoint resv_log_loop (logs : list resv_log) (ix : spdk_iov_xfer) (offset length next_pos num : Z) : option (spdk_iov_xfer * list resv_log * Z) :=
  match logs with
  | [] => Some (ix, [], num)
  | log :: logs =>
      let num := u8 (num - 1) in
      let next_pos := u32 (next_pos + 64) in
      '(ix, offset, length) ←
        (if offset <? next_pos then
           let copy_len := Z.min (next_pos - offset) length in
           '(ix, _, _) ← spdk_iov_xfer_from_buf ix (resv_log_bytes log) (Z.to_nat copy_len);
           Some (ix, u64 (offset + copy_len), u32 (length - copy_len))
         else Some (ix, offset, length));
      if length =? 0 then Some (ix, logs, num) else resv_log_loop logs ix offset length next_pos num
  end.

Definition nvmf_get_reservation_notification_log_page (c : ev_ctrlr) (iovs : list iovec) (iovcnt : nat) (offset length rae : Z)
    : option (list iovec * ev_ctrlr) :=
  if ev_num_avail c =? 0 then Some (iovs, c)
  else if u32 (ev_num_avail c * 64) <=? offset then Some (iovs, c)
  else '(ix, logs, num) ← resv_log_loop (ev_log_head c) (spdk_iov_xfer_init iovs iovcnt) offset length 0 (ev_num_avail c);
       Some (ix_iovs ix, unmask_read rae SPDK_NVME_ASYNC_EVENT_RESERVATION_LOG_AVAIL_MASK_BIT (c <| ev_log_head := logs |> <| ev_num_avail := num |>)).

(** ** The command *)

Definition log_offset (cdw12 cdw13 : Z) : Z := Z.lor cdw12 (u64 (Z.shiftl cdw13 32)).
Definition log_len (cdw10 cdw11 : Z) : Z := u64 ((u32 (Z.shiftl (bits 0 16 cdw11) 16 + bits 16 16 cdw10) + 1) * 4).

Section GetLogPage.
(** The target, the host, the address the command came from when it is
    known, and the environment of the discovery log. *)
Context (ld : listener -> disc_entry -> disc_entry) (mem : nat -> bool) (tgt : disc_tgt) (hostnqn : bytes) (listen_trid : option spdk_nvme_transport_id).

(** The status and what became of the vector and the controller. *)
Definition nvmf_ctrlr_get_log_page (heaan_lib : bool) (t : log_target) (cdw10 cdw11 cdw12 cdw13 req_length : Z)
    (iovs : list iovec) (iovcnt : nat) (c : ev_ctrlr) : option (Z * list iovec * ev_ctrlr) :=
  let invalid := Some (SPDK_NVME_SC_INVALID_FIELD, iovs, c) in
  let ok (r : option (list iovec * ev_ctrlr)) := '(iovs, c) ← r; Some (SPDK_NVME_SC_SUCCESS, iovs, c) in
  let offset := log_offset cdw12 cdw13 in
  let rae := bits 15 1 cdw10 in
  let len := log_len cdw10 cdw11 in
  let lid := bits 0 8 cdw10 in
  if (iovcnt <? 1)%nat then invalid
  else if Z.land offset 3 !=? 0 then invalid
  else if req_length <? len then invalid
  else if lt_discovery t then
    if lid =? SPDK_NVME_LOG_DISCOVERY then
      match listen_trid with
      | None => Some (SPDK_NVME_SC_INTERNAL_DEVICE_ERROR, iovs, c)
      | Some src => ok (iovs ← nvmf_get_discovery_log_page ld mem tgt hostnqn iovs iovcnt offset (u32 len) src;
                        Some (iovs, unmask_read rae SPDK_NVME_ASYNC_EVENT_DISCOVERY_LOG_CHANGE_MASK_BIT c))
      end
    else invalid
  else if len <? offset then invalid
  else if lid =? SPDK_NVME_LOG_ERROR then ok (Some (iovs, nvmf_get_error_log_page c rae))
  else if lid =? SPDK_NVME_LOG_HEALTH_INFORMATION then ok (Some (iovs, c))
  else if lid =? SPDK_NVME_LOG_FIRMWARE_SLOT then ok (iovs ← nvmf_get_firmware_slot_log_page iovs iovcnt offset (u32 len); Some (iovs, c))
  else if lid =? SPDK_NVME_LOG_ASYMMETRIC_NAMESPACE_ACCESS then
    if subsys_ana_reporting (lt_subsys t) then ok (nvmf_get_ana_log_page t c iovs iovcnt offset (u32 len) rae) else invalid
  else if lid =? SPDK_NVME_LOG_COMMAND_EFFECTS_LOG then
    ok (iovs ← nvmf_get_cmds_and_effects_log_page heaan_lib t iovs iovcnt offset (u32 len); Some (iovs, c))
  else if lid =? SPDK_NVME_LOG_CHANGED_NS_LIST then ok (nvmf_get_changed_ns_list_log_page c iovs iovcnt offset (u32 len) rae)
  else if lid =? SPDK_NVME_LOG_RESERVATION_NOTIFICATION then
    ok (nvmf_get_reservation_notification_log_page c iovs iovcnt offset (u32 len) rae)
  else invalid.
End GetLogPage.

(** ** Lemmas *)

(** *** Windows *)

Lemma slice_of_app o n (p q : bytes) : slice o n (p ++ q) = slice o n p ++ slice (o - length p) (n - length (slice o n p)) q.
Proof. unfold slice. rewrite drop_app, take_app, length_take, length_drop. f_equal. f_equal. lia. Qed.

Lemma length_slice_min o n (p : bytes) : length (slice o n p) = (n `min` (length p - o))%nat.
Proof. unfold slice. by rewrite length_take, length_drop. Qed.

Definition w_ix (st : window) : spdk_iov_xfer := st.1.1.
Definition w_off (st : window) : nat := Z.to_nat st.1.2.
Definition w_len (st : window) : nat := Z.to_nat st.2.

(** A window that fits the vector, and the bytes of a piece that are in it. *)
Definition fits (st : window) : Prop :=
  ix_ok (w_ix st) /\ 0 <= st.1.2 /\ 0 < st.2 < 2 ^ 32 /\ (ix_pos (w_ix st) + w_len st <= ix_total (w_ix st))%nat.
Definition cut (st : window) (p : bytes) : bytes := slice (w_off st) (w_len st) p.

(** The part of a piece in the window was written and the window moved on. *)
Record wrote (p : bytes) (st st' : window) : Prop := {
  wr_ok : ix_ok (w_ix st'); wr_cnt : ix_iovcnt (w_ix st') = ix_iovcnt (w_ix st);
  wr_lens : iov_len <$> ix_iovs (w_ix st') = iov_len <$> ix_iovs (w_ix st);
  wr_off : st'.1.2 = Z.max 0 (st.1.2 - blen p);
  wr_len : st'.2 = st.2 - blen (cut st p);
  wr_pos : ix_pos (w_ix st') = (ix_pos (w_ix st) + length (cut st p))%nat;
  wr_flat : flat (ix_iovs (w_ix st')) = splice (ix_pos (w_ix st)) (cut st p) (flat (ix_iovs (w_ix st))) }.

Lemma cut_len st p : fits st -> blen (cut st p) <= st.2.
Proof. intros (_ & _ & H & _). unfold cut, blen. rewrite length_slice_min. unfold w_len. lia. Qed.

Lemma wrote_fits p st st' : fits st -> wrote p st st' -> st'.2 <> 0 -> fits st'.
Proof.
  intros HF HW Hn. pose proof (cut_len st p HF) as Hc. destruct HF as (H1 & H2 & H3 & H4), HW as [W1 W2 W3 W4 W5 W6 W7]. unfold fits, blen, w_len in *.
  split; [done|]. split; [lia|]. split; [lia|]. unfold ix_total in *. rewrite W2, (flat_take_len _ _ _ W3). lia.
Qed.

Lemma total_flat ix : (ix_total ix <= length (flat (ix_iovs ix)))%nat.
Proof. apply length_flat_take. Qed.

Lemma wrote_app p q st st1 st2 : fits st -> wrote p st st1 -> wrote q st1 st2 -> wrote (p ++ q) st st2.
Proof.
  intros HF HW HV. pose proof (cut_len st p HF) as Hc. destruct HF as (F1 & F2 & F3 & F4), HW as [W1 W2 W3 W4 W5 W6 W7], HV as [V1 V2 V3 V4 V5 V6 V7].
  assert (E : cut st (p ++ q) = cut st p ++ cut st1 q).
  { unfold cut at 1. rewrite slice_of_app. f_equal. fold (cut st p). unfold cut at 2, w_off, w_len. rewrite W4, W5. unfold blen. f_equal; lia. }
  split; rewrite ?E; [done|congruence|congruence| | | |].
  - unfold blen in *. rewrite length_app. lia.
  - unfold blen in *. rewrite length_app. lia.
  - rewrite length_app. lia.
  - rewrite V7, W6, W7. apply splice_splice. pose proof (total_flat (w_ix st)). assert (length (cut st1 q) <= w_len st1)%nat by (unfold cut; rewrite length_slice_min; lia).
    unfold blen, w_len in *. lia.
Qed.

(** Once the window is full the rest of the page does not matter. *)
Lemma wrote_full p q st st' : fits st -> wrote p st st' -> st'.2 = 0 -> wrote (p ++ q) st st'.
Proof.
  intros HF [W1 W2 W3 W4 W5 W6 W7] H0. destruct HF as (F1 & F2 & F3 & F4). rewrite H0 in W5.
  assert (Hl : length (cut st p) = w_len st) by (unfold blen, w_len in *; lia).
  assert (E : cut st (p ++ q) = cut st p).
  { unfold cut at 1. rewrite slice_of_app. fold (cut st p). rewrite Hl, Nat.sub_diag. unfold slice. by rewrite take_0, app_nil_r. }
  split; rewrite ?E; try done; [|lia]. unfold cut in Hl. rewrite length_slice_min in Hl. unfold blen, w_len, w_off in *. rewrite length_app. lia.
Qed.

Lemma wrote_skip p st : fits st -> blen p <= st.1.2 -> wrote p st (st.1.1, st.1.2 - blen p, st.2).
Proof.
  intros (F1 & F2 & F3 & F4) Hp. assert (E : cut st p = []).
  { apply nil_length_inv. unfold cut. rewrite length_slice_min. unfold blen, w_off in *. lia. }
  split; rewrite ?E; unfold w_ix; cbn [fst snd length]; try done; try lia; [unfold blen; cbn; lia|by rewrite splice_nil].
Qed.

Lemma wrote_nil st : fits st -> wrote [] st st.
Proof. intros HF. pose proof (wrote_skip [] st HF) as H. destruct st as [[ix o] n]. cbn in H. rewrite Z.sub_0_r in H. apply H. destruct HF as (_ & F2 & _). cbn in F2. unfold blen. cbn. lia. Qed.

Lemma copy_piece_spec p st : fits st -> st.1.2 < blen p -> exists st', copy_piece p st = Some st' /\ wrote p st st'.
Proof.
  destruct st as [[ix o] n]. intros (F1 & F2 & F3 & F4) Hp. unfold w_ix, w_len in *. cbn [fst snd] in *. unfold copy_piece, spdk_iov_xfer_from_buf.
  destruct (iov_xfer_post false ix (drop (Z.to_nat o) p) (Z.to_nat (Z.min (blen p - o) n))) as ([[ix' b] c] & E & P1 & P2 & P3 & P4 & P5 & P6 & P7);
    [done|rewrite length_drop; unfold blen in *; lia|].
  rewrite E. cbn [mbind option_bind]. eexists. split; [done|].
  assert (Ec : cut (ix, o, n) p = slice 0 (Z.to_nat (Z.min (blen p - o) n) `min` (ix_total ix - ix_pos ix)) (drop (Z.to_nat o) p)).
  { unfold cut, w_off, w_len, slice. cbn [fst snd]. rewrite drop_0. destruct (Z.le_ge_cases n (blen p - o)).
    - f_equal. lia.
    - rewrite !take_ge by (rewrite length_drop; unfold blen in *; lia). done. }
  assert (Hc : length (cut (ix, o, n) p) = c) by (rewrite Ec, length_slice_min, length_drop; unfold blen in *; lia).
  split; unfold w_ix; cbn [fst snd]; [done|done|done|lia| |lia|by rewrite P7, <- Ec].
  unfold blen at 1. rewrite Hc. apply Z.mod_small. lia.
Qed.

(** *** The ANA page as a whole *)

Fixpoint ana_nsids (anagrpid : Z) (nss : list (option spdk_nvmf_ns)) (nsid : Z) : bytes :=
  match nss with
  | [] => []
  | Some ns :: nss => (if ns_anagrpid ns =? anagrpid then le_enc 4 nsid else []) ++ ana_nsids anagrpid nss (nsid + 1)
  | None :: nss => ana_nsids anagrpid nss (nsid + 1)
  end.

(** [None] when the state of a group that has namespaces is out of range. *)
Fixpoint ana_groups (t : log_target) (groups : list Z) (anagrpid : Z) : option bytes :=
  match groups with
  | [] => Some []
  | count :: groups =>
      rest ← ana_groups t groups (anagrpid + 1);
      if count =? 0 then Some rest
      else s ← ana_state t anagrpid; Some (ana_desc anagrpid count s ++ ana_nsids anagrpid (subsys_ns (lt_subsys t)) 1 ++ rest)
  end.

Definition ana_page (t : log_target) : option bytes := rest ← ana_groups t (lt_ana_group t) 1; Some (ana_hdr (num_anagrp t) ++ rest).

Lemma blen_desc g n s : blen (ana_desc g n s) = 32.
Proof. unfold ana_desc, blen. rewrite !length_app, !length_le_enc. done. Qed.
Lemma blen_le n x : blen (le_enc n x) = Z.of_nat n.
Proof. unfold blen. by rewrite length_le_enc. Qed.

Lemma ana_ns_loop_spec g nss : forall nsid st, fits st ->
  exists st', ana_ns_loop g nss nsid st = Some (st', st'.2 =? 0) /\ wrote (ana_nsids g nss nsid) st st'.
Proof.
  induction nss as [|[ns|] nss IH]; intros nsid st HF; cbn [ana_ns_loop ana_nsids].
  - exists st. split; [|by apply wrote_nil]. destruct HF as (_ & _ & H & _). by rewrite (proj2 (Z.eqb_neq _ _)) by lia.
  - destruct (ns_anagrpid ns =? g); cbn [negb]; [|by apply IH]. destruct st as [[ix o] n]. destruct (Z.leb_spec 4 o) as [Ho|Ho].
    + pose proof (wrote_skip (le_enc 4 nsid) _ HF) as HW. rewrite blen_le in HW. specialize (HW Ho). cbn [fst snd] in HW.
      assert (HF' : fits (ix, o - 4, n)) by (apply (wrote_fits _ _ _ HF HW); destruct HF as (_ & _ & H & _); cbn in *; lia).
      destruct (IH (nsid + 1) _ HF') as (st' & E & HV). exists st'. split; [done|]. by eapply wrote_app.
    + destruct (copy_piece_spec (le_enc 4 nsid) _ HF) as (st1 & E & HW); [rewrite blen_le; cbn; lia|]. rewrite E. cbn [mbind option_bind].
      destruct (Z.eqb_spec st1.2 0) as [E0|E0]; [exists st1; rewrite E0; split; [done|by apply wrote_full]|].
      destruct (IH (nsid + 1) _ (wrote_fits _ _ _ HF HW E0)) as (st' & E' & HV). exists st'. split; [done|]. by eapply wrote_app.
  - by apply IH.
Qed.

Lemma ana_group_desc_spec t g n s st : fits st -> ana_state t g = Some s ->
  exists st', ana_group_desc t g n st = Some (st', st'.2 =? 0) /\ wrote (ana_desc g n s) st st'.
Proof.
  intros HF Hs. unfold ana_group_desc. destruct st as [[ix o] k]. destruct (Z.leb_spec 32 o) as [Ho|Ho].
  - pose proof (wrote_skip (ana_desc g n s) _ HF) as HW. rewrite blen_desc in HW. specialize (HW Ho). cbn [fst snd] in HW. eexists. split; [|done].
    destruct HF as (_ & _ & H & _). cbn [snd] in *. by rewrite (proj2 (Z.eqb_neq _ _)) by lia.
  - destruct (copy_piece_spec (ana_desc g n s) _ HF) as (st1 & E & HW); [rewrite blen_desc; cbn; lia|]. rewrite Hs. cbn [mbind option_bind]. rewrite E. eauto.
Qed.

Lemma ana_group_loop_spec t groups : forall g st rest, fits st -> ana_groups t groups g = Some rest ->
  exists st', ana_group_loop t groups g st = Some st' /\ wrote rest st st'.
Proof.
  induction groups as [|n groups IH]; intros g st rest HF; cbn [ana_group_loop ana_groups].
  { intros [= <-]. exists st. split; [done|by apply wrote_nil]. }
  destruct (ana_groups t groups (g + 1)) as [r|] eqn:Er; cbn [mbind option_bind]; [|done]. destruct (n =? 0).
  { intros [= <-]. by apply IH. }
  destruct (ana_state t g) as [s|] eqn:Es; cbn [mbind option_bind]; [|done]. intros Hr%(inj Some). subst rest.
  destruct (ana_group_desc_spec t g n s st HF Es) as (st1 & E1 & W1). rewrite E1. cbn [mbind option_bind]. destruct (Z.eqb_spec st1.2 0) as [E0|E0].
  { exists st1. split; [done|by apply wrote_full]. }
  pose proof (wrote_fits _ _ _ HF W1 E0) as HF1. destruct (ana_ns_loop_spec g (subsys_ns (lt_subsys t)) 1 st1 HF1) as (st2 & E2 & W2). rewrite E2. cbn [mbind option_bind].
  pose proof (wrote_app _ _ _ _ _ HF W1 W2) as W3. rewrite app_assoc. destruct (Z.eqb_spec st2.2 0) as [E0'|E0'].
  { exists st2. split; [done|by apply wrote_full]. }
  destruct (IH (g + 1) st2 r (wrote_fits _ _ _ HF1 W2 E0') Er) as (st' & E & HV). exists st'. split; [done|]. by eapply wrote_app.
Qed.

Lemma fits_start iovs offset len : 0 <= offset -> 0 < len < 2 ^ 32 -> len <= blen (flat iovs) ->
  fits (spdk_iov_xfer_init iovs (length iovs), offset, len).
Proof.
  intros Ho Hl Hf. unfold fits, w_ix, w_len. cbn [fst snd]. rewrite ix_pos_init. split; [by apply ix_ok_init|]. split; [done|]. split; [done|].
  unfold ix_total. cbn. rewrite take_ge by lia. unfold blen in Hf. lia.
Qed.

(** The window of a page, and the vector left alone after it. *)
Lemma ana_log_spec t c iovs offset len rae page : ana_page t = Some page -> 0 <= offset -> 0 <= len < 2 ^ 32 -> len <= blen (flat iovs) ->
  exists iovs', nvmf_get_ana_log_page t c iovs (length iovs) offset len rae = Some (iovs', unmask_read rae SPDK_NVME_ASYNC_EVENT_ANA_CHANGE_MASK_BIT c) /\
    flat iovs' = splice 0 (slice (Z.to_nat offset) (Z.to_nat len) page) (flat iovs) /\ iov_len <$> iovs' = iov_len <$> iovs.
Proof.
  intros Hp Ho Hl Hf. unfold ana_page in Hp. destruct (ana_groups t (lt_ana_group t) 1) as [rest|] eqn:Er; [|done]. cbn [mbind option_bind] in Hp. apply (inj Some) in Hp. subst page.
  unfold nvmf_get_ana_log_page. cbv zeta. destruct (Z.eqb_spec len 0) as [->|Hn].
  { eexists. split; [done|]. cbn. unfold slice. by rewrite take_0, splice_nil. }
  pose proof (fits_start iovs offset len Ho ltac:(lia) Hf) as HF. set (st := (spdk_iov_xfer_init iovs (length iovs), offset, len)) in *.
  assert (Eh : blen (ana_hdr (num_anagrp t)) = 16) by (unfold ana_hdr, blen; rewrite !length_app, !length_le_enc; done).
  assert (HH : exists st1, (if 16 <=? offset then Some (spdk_iov_xfer_init iovs (length iovs), offset - 16, len) else copy_piece (ana_hdr (num_anagrp t)) st)
    = Some st1 /\ wrote (ana_hdr (num_anagrp t)) st st1).
  { destruct (Z.leb_spec 16 offset); [|by apply copy_piece_spec; [|rewrite Eh]].
    pose proof (wrote_skip (ana_hdr (num_anagrp t)) st HF) as HW. rewrite Eh in HW. eexists. split; [done|]. by apply HW. }
  destruct HH as (st1 & E1 & W1). rewrite E1. cbn [mbind option_bind].
  assert (HD : exists st', (if st1.2 =? 0 then Some st1 else ana_group_loop t (lt_ana_group t) 1 st1) = Some st' /\ wrote (ana_hdr (num_anagrp t) ++ rest) st st').
  { destruct (Z.eqb_spec st1.2 0) as [E0|E0]; [exists st1; split; [done|by apply wrote_full]|].
    destruct (ana_group_loop_spec t (lt_ana_group t) 1 st1 rest (wrote_fits _ _ _ HF W1 E0) Er) as (st' & E & HV). exists st'. split; [done|]. by eapply wrote_app. }
  destruct HD as (st' & E & [_ _ V3 _ _ _ V7]). exists (ix_iovs st'.1.1). change (w_ix st) with (spdk_iov_xfer_init iovs (length iovs)) in V7. rewrite ix_pos_init in V7. split; [|done].
  destruct (st1.2 =? 0); [by injection E as ->|]. by rewrite E.
Qed.

Lemma copy_page_spec page iovs offset len : 0 <= offset -> 0 <= len < 2 ^ 32 -> len <= blen (flat iovs) ->
  exists iovs', copy_page page iovs (length iovs) offset len = Some iovs' /\
    flat iovs' = splice 0 (slice (Z.to_nat offset) (Z.to_nat len) page) (flat iovs) /\ iov_len <$> iovs' = iov_len <$> iovs.
Proof.
  intros Ho Hl Hf. unfold copy_page. assert (HN : (blen page <= offset \/ len = 0) -> slice (Z.to_nat offset) (Z.to_nat len) page = []).
  { intros H. apply nil_length_inv. rewrite length_slice_min. unfold blen in *. lia. }
  destruct (Z.ltb_spec offset (blen page)) as [Hlt|Hge]; [|exists iovs; by rewrite HN, splice_nil by lia].
  destruct (Z.ltb_spec 0 (Z.min (blen page - offset) len)) as [Hc|Hc]; [|exists iovs; by rewrite HN, splice_nil by lia].
  destruct (copy_piece_spec page _ (fits_start iovs offset len Ho ltac:(lia) Hf) Hlt) as (st' & E & [_ _ V3 _ _ _ V7]).
  unfold copy_piece in E. destruct (spdk_iov_xfer_from_buf _ _ _) as [[[ix b] k]|]; [|done]. injection E as <-. exists (ix_iovs ix).
  unfold w_ix in V7. cbn [fst] in V7. rewrite ix_pos_init in V7. done.
Qed.

(** *** The reservation log *)

(** The number of entries a length touches. *)
Definition entries_read (len : Z) : nat := Z.to_nat ((len + 63) / 64).

Lemma length_resv_log l : length (resv_log_bytes l) = 64%nat.
Proof. unfold resv_log_bytes. rewrite !length_app, !length_le_enc. done. Qed.

(** The window ends up on the entries from the current one on. *)
Lemma resv_copy_spec logs : forall i ix len, fits (ix, 0, len) -> 0 <= i -> i + Z.of_nat (length logs) <= 255 ->
  exists ix' len', resv_log_loop logs ix (64 * i) len (64 * i) (Z.of_nat (length logs))
    = Some (ix', drop (entries_read len) logs, Z.of_nat (length (drop (entries_read len) logs))) /\
  wrote (concat (resv_log_bytes <$> logs)) (ix, 0, len) (ix', 0, len').
Proof.
  induction logs as [|l logs IH]; intros i ix len HF Hi Hb; cbn [resv_log_loop].
  { exists ix, len. rewrite drop_nil. split; [done|by apply wrote_nil]. }
  cbn [length] in *. rewrite fmap_cons. cbn [concat]. assert (Eb : blen (resv_log_bytes l) = 64) by (unfold blen; by rewrite length_resv_log).
  assert (En : u8 (Z.of_nat (S (length logs)) - 1) = Z.of_nat (length logs)) by (unfold u8; rewrite Z.mod_small; lia).
  assert (Ep : u32 (64 * i + 64) = 64 * (i + 1)) by (unfold u32; rewrite Z.mod_small; lia). rewrite En, Ep, (proj2 (Z.ltb_lt _ _)) by lia.
  replace (64 * (i + 1) - 64 * i) with 64 by lia.
  destruct (copy_piece_spec (resv_log_bytes l) _ HF) as (st1 & E1 & W1); [rewrite Eb; cbn; lia|]. pose proof W1 as [_ _ _ W4 W5 _ _].
  pose proof HF as (_ & _ & HL & _). cbn [fst snd] in HL, W4, W5.
  assert (Hc : blen (cut (ix, 0, len) (resv_log_bytes l)) = Z.min 64 len).
  { unfold cut, blen, w_off, w_len in *. cbn [fst snd]. rewrite length_slice_min, length_resv_log. lia. }
  rewrite Hc in W5. unfold copy_piece in E1. rewrite Eb, drop_0, Z.sub_0_r in E1.
  destruct (spdk_iov_xfer_from_buf ix (resv_log_bytes l) (Z.to_nat (Z.min 64 len))) as [[[ix1 b] k]|]; [|done]. injection E1 as <-. cbn [fst snd] in *.
  cbn [mbind option_bind]. rewrite W5 in *. assert (El : u32 (len - Z.min 64 len) = len - Z.min 64 len) by (unfold u32; rewrite Z.mod_small; lia). rewrite El.
  assert (Eo : 64 < len -> u64 (64 * i + Z.min 64 len) = 64 * (i + 1)) by (intros; unfold u64; rewrite Z.mod_small; lia).
  destruct (Z.eqb_spec (len - Z.min 64 len) 0) as [E0|E0].
  - assert (entries_read len = 1%nat) as -> by (unfold entries_read; assert ((len + 63) / 64 = 1) as -> by (symmetry; apply (Z.div_unique_pos _ _ _ (len - 1)); lia); done).
    exists ix1, (len - Z.min 64 len). split; [done|]. by apply wrote_full.
  - rewrite Eo by lia. replace (len - Z.min 64 len) with (len - 64) in * by lia.
    pose proof (wrote_fits _ _ _ HF W1 E0) as HF1. destruct (IH (i + 1) ix1 (len - 64) HF1) as (ix' & len' & E & HV); [lia..|]. rewrite E.
    assert (entries_read len = S (entries_read (len - 64))) as ->.
    { unfold entries_read. replace (len + 63) with (len - 64 + 63 + 1 * 64) by lia. rewrite Z.div_add, Z2Nat.inj_add by (try apply Z.div_pos; lia). lia. }
    exists ix', len'. split; [done|]. by eapply wrote_app.
Qed.

(** Entries before the offset leave the log unread. *)
Lemma resv_skip_spec logs k : forall i ix len, 0 < len -> (k <= length logs)%nat -> 0 <= i -> i + Z.of_nat (length logs) <= 255 ->
  resv_log_loop logs ix (64 * (i + Z.of_nat k)) len (64 * i) (Z.of_nat (length logs))
  = resv_log_loop (drop k logs) ix (64 * (i + Z.of_nat k)) len (64 * (i + Z.of_nat k)) (Z.of_nat (length (drop k logs))).
Proof.
  revert logs. induction k as [|k IH]; intros logs i ix len Hl Hk Hi Hb. { by rewrite drop_0, Z.add_0_r. }
  destruct logs as [|l logs]; [cbn in Hk; lia|]. cbn [length] in *. cbn [resv_log_loop].
  assert (En : u8 (Z.of_nat (S (length logs)) - 1) = Z.of_nat (length logs)) by (unfold u8; rewrite Z.mod_small; lia).
  assert (Ep : u32 (64 * i + 64) = 64 * (i + 1)) by (unfold u32; rewrite Z.mod_small; lia). rewrite En, Ep, (proj2 (Z.ltb_ge _ _)) by lia.
  cbn [mbind option_bind]. rewrite (proj2 (Z.eqb_neq _ _)) by lia. replace (i + Z.of_nat (S k)) with (i + 1 + Z.of_nat k) by lia.
  rewrite IH by lia. done.
Qed.

(** The log and its count. *)
Definition log_ok (c : ev_ctrlr) : Prop := ev_num_avail c = Z.of_nat (length (ev_log_head c)) /\ (length (ev_log_head c) <= 255)%nat.

Lemma add_log_entry_ok type nsid c : log_ok c -> log_ok (add_log_entry type nsid c).
Proof.
  intros [H1 H2]. unfold add_log_entry, log_ok. cbv zeta. evsimp. destruct (Z.eqb_spec (ev_num_avail c) 0xff) as [E|E]; evsimp.
  - rewrite length_alter. split; [lia|done].
  - rewrite length_app. cbn [length]. unfold u8. rewrite Z.mod_small; lia.
Qed.

(** *** The list of changed namespaces *)

(** The namespaces reported, each at its first report. *)
Definition report (acc : list Z) (nsid : Z) : list Z := if existsb (Z.eqb nsid) acc then acc else acc ++ [nsid].
Definition reported (nsids : list Z) : list Z := fold_left report nsids [].

(** The list of a controller after these reports. *)
Definition changed_list (acc : list Z) : list Z :=
  if (length acc <=? max_changes)%nat then acc ++ replicate (max_changes - length acc) 0 else 0xFFFFFFFF :: replicate (pred max_changes) 0.
Definition changed_count (acc : list Z) : nat := (length acc `min` max_changes)%nat.

Lemma report_spec acc nsid : NoDup acc -> NoDup (report acc nsid) /\ forall n, n ∈ report acc nsid <-> n ∈ acc \/ n = nsid.
Proof.
  intros HN. unfold report. destruct (existsb (Z.eqb nsid) acc) eqn:E.
  - split; [done|]. apply existsb_exists in E as (x & Hx & E). apply Z.eqb_eq in E as <-. apply list_elem_of_In in Hx. intros n. naive_solver.
  - assert (Hn : nsid ∉ acc).
    { intros H. apply not_true_iff_false in E. apply E, existsb_exists. exists nsid. split; [by apply list_elem_of_In|apply Z.eqb_refl]. }
    split; [|intros n; rewrite elem_of_app, list_elem_of_singleton; done]. apply NoDup_app. split; [done|]. split; [set_solver|]. apply NoDup_singleton.
Qed.

Lemma reported_spec nsids : NoDup (reported nsids) /\ forall n, n ∈ reported nsids <-> n ∈ nsids.
Proof.
  unfold reported. assert (H : forall acc, NoDup acc -> NoDup (fold_left report nsids acc) /\ forall n, n ∈ fold_left report nsids acc <-> n ∈ acc \/ n ∈ nsids).
  { induction nsids as [|x l IH]; intros acc HN; cbn [fold_left]; [set_solver|]. destruct (report_spec acc x HN) as [H1 H2].
    destruct (IH (report acc x) H1) as [H3 H4]. split; [done|]. intros n. rewrite H4, H2, elem_of_cons. tauto. }
  destruct (H [] (NoDup_nil_2)) as [H1 H2]. split; [done|]. intros n. rewrite H2. set_solver.
Qed.

(** A report keeps the list in step. *)
Lemma ns_changed_step acc nsid c : ev_changed_ns c = changed_list acc -> ev_changed_ns_count c = changed_count acc ->
  ev_changed_ns (nvmf_ctrlr_ns_changed nsid c) = changed_list (report acc nsid) /\
  ev_changed_ns_count (nvmf_ctrlr_ns_changed nsid c) = changed_count (report acc nsid).
Proof.
  intros H1 H2. unfold nvmf_ctrlr_ns_changed. rewrite H1, H2. unfold changed_list, changed_count, report.
  assert (Hl : length (0xFFFFFFFF :: replicate (pred max_changes) 0) = max_changes) by (cbn [length]; rewrite length_replicate; done).
  destruct (Nat.leb_spec (length acc) max_changes) as [Hle|Hgt].
  - rewrite (Nat.min_l _ _ Hle), take_app_length. destruct (existsb (Z.eqb nsid) acc) eqn:E.
    { rewrite H1, H2. unfold changed_list, changed_count. rewrite (proj2 (Nat.leb_le _ _) Hle). split; [done|lia]. }
    rewrite length_app. cbn [length]. destruct (Nat.eqb_spec (length acc) max_changes) as [Em|Em]; evsimp.
    + rewrite (proj2 (Nat.leb_gt _ _)), H2 by lia. unfold changed_count. split; [done|lia].
    + rewrite (proj2 (Nat.leb_le _ _)) by lia. split; [|lia]. rewrite insert_app_r_alt, Nat.sub_diag by lia.
      replace (max_changes - length acc)%nat with (S (max_changes - (length acc + 1))) by lia. cbn. by rewrite <- app_assoc.
  - rewrite Nat.min_r, take_ge, Nat.eqb_refl by lia.
    assert (HR : forall b : bool, (if (length (if b then acc else acc ++ [nsid]) <=? max_changes)%nat then (if b then acc else acc ++ [nsid]) ++
      replicate (max_changes - length (if b then acc else acc ++ [nsid])) 0 else 0xFFFFFFFF :: replicate (pred max_changes) 0)
      = 0xFFFFFFFF :: replicate (pred max_changes) 0 /\ (length (if b then acc else acc ++ [nsid]) `min` max_changes = max_changes)%nat).
    { intros b. assert (max_changes < length (if b then acc else acc ++ [nsid]))%nat by (destruct b; rewrite ?length_app; lia).
      rewrite (proj2 (Nat.leb_gt _ _)) by lia. split; [done|lia]. }
    destruct (HR (existsb (Z.eqb nsid) acc)) as [-> ->]. destruct (existsb (Z.eqb nsid) (_ :: _)); evsimp; rewrite ?H1, ?H2; unfold changed_list, changed_count;
      rewrite ?(proj2 (Nat.leb_gt _ _)) by lia; split; (done || lia).
Qed.

Lemma ns_changed_list nsids c : ev_changed_ns c = changed_list [] -> ev_changed_ns_count c = 0%nat ->
  ev_changed_ns (fold_left (flip nvmf_ctrlr_ns_changed) nsids c) = changed_list (reported nsids).
Proof.
  intros H1 H2. unfold reported. assert (H : forall acc c, ev_changed_ns c = changed_list acc -> ev_changed_ns_count c = changed_count acc ->
    ev_changed_ns (fold_left (flip nvmf_ctrlr_ns_changed) nsids c) = changed_list (fold_left report nsids acc)); [|by apply H].
  clear. induction nsids as [|x l IH]; intros acc c H1 H2; [done|]. cbn [fold_left flip]. destruct (ns_changed_step acc x c H1 H2). by apply IH.
Qed.

(** *** The command *)

(** The pages that are a window of an object, and what reading them changes. *)
Definition page_of (heaan_lib : bool) (t : log_target) (c : ev_ctrlr) (lid : Z) : option bytes :=
  if lid =? SPDK_NVME_LOG_FIRMWARE_SLOT then Some fw_page
  else if lid =? SPDK_NVME_LOG_ASYMMETRIC_NAMESPACE_ACCESS then if subsys_ana_reporting (lt_subsys t) then ana_page t else None
  else if lid =? SPDK_NVME_LOG_COMMAND_EFFECTS_LOG then Some (cmds_and_effect_log_page heaan_lib t)
  else if lid =? SPDK_NVME_LOG_CHANGED_NS_LIST then Some (changed_ns_page c) else None.

Definition after_read (lid rae : Z) (c : ev_ctrlr) : ev_ctrlr :=
  if lid =? SPDK_NVME_LOG_ASYMMETRIC_NAMESPACE_ACCESS then unmask_read rae SPDK_NVME_ASYNC_EVENT_ANA_CHANGE_MASK_BIT c
  else if lid =? SPDK_NVME_LOG_CHANGED_NS_LIST then
    unmask_read rae SPDK_NVME_ASYNC_EVENT_NS_ATTR_CHANGE_MASK_BIT (c <| ev_changed_ns_count := 0%nat |> <| ev_changed_ns := replicate max_changes 0 |>)
  else c.

(** When a command is refused for a wrong field. *)
Definition io_page (t : log_target) (lid : Z) : bool :=
  existsb (Z.eqb lid) [SPDK_NVME_LOG_ERROR; SPDK_NVME_LOG_HEALTH_INFORMATION; SPDK_NVME_LOG_FIRMWARE_SLOT; SPDK_NVME_LOG_COMMAND_EFFECTS_LOG;
    SPDK_NVME_LOG_CHANGED_NS_LIST; SPDK_NVME_LOG_RESERVATION_NOTIFICATION] ||
  ((lid =? SPDK_NVME_LOG_ASYMMETRIC_NAMESPACE_ACCESS) && subsys_ana_reporting (lt_subsys t)).
Definition refused (t : log_target) (lid offset len req_length : Z) (iovcnt : nat) : bool :=
  (iovcnt =? 0)%nat || (offset mod 4 !=? 0) || (req_length <? len) ||
  (if lt_discovery t then lid !=? SPDK_NVME_LOG_DISCOVERY else (len <? offset) || negb (io_page t lid)).

Lemma aligned_spec x : (Z.land x 3 !=? 0) = (x mod 4 !=? 0).
Proof. change 3 with (Z.ones 2). by rewrite Z.land_ones by lia. Qed.

Lemma log_len_bound cdw10 cdw11 : 0 < log_len cdw10 cdw11 <= 2 ^ 34.
Proof. unfold log_len, u64, u32. pose proof (Z.mod_pos_bound (Z.shiftl (bits 0 16 cdw11) 16 + bits 16 16 cdw10) (2 ^ 32)). rewrite (Z.mod_small _ (2 ^ 64)); lia. Qed.

Lemma log_offset_nonneg cdw12 cdw13 : 0 <= cdw12 -> 0 <= log_offset cdw12 cdw13.
Proof. intros. unfold log_offset. apply Z.lor_nonneg. split; [done|]. unfold u64. apply Z.mod_pos_bound. lia. Qed.

(** The two ways a command ends. *)
Lemma invalid_answer (iovs : list iovec) (c : ev_ctrlr) (b : bool) r : b = true -> Some (SPDK_NVME_SC_INVALID_FIELD, iovs, c) = Some r ->
  (r.1.1 = SPDK_NVME_SC_INVALID_FIELD <-> b = true) /\ (r.1.1 = SPDK_NVME_SC_INVALID_FIELD -> r = (SPDK_NVME_SC_INVALID_FIELD, iovs, c)).
Proof. by intros -> [= <-]. Qed.
Lemma success_answer (iovs : list iovec) (c : ev_ctrlr) (b : bool) (o : option (list iovec * ev_ctrlr)) r : b = false ->
  ('(iovs', c') ← o; Some (SPDK_NVME_SC_SUCCESS, iovs', c')) = Some r ->
  (r.1.1 = SPDK_NVME_SC_INVALID_FIELD <-> b = true) /\ (r.1.1 = SPDK_NVME_SC_INVALID_FIELD -> r = (SPDK_NVME_SC_INVALID_FIELD, iovs, c)).
Proof. intros ->. destruct o as [[iovs' c']|]; [|done]. by intros [= <-]. Qed.

(** With the encryption library the page lists the subtraction,
    multiplication, division, decryption and bootstrapping of ciphertexts as
    supported commands that change content; they have no handler, and are
    passed to the device or refused like any unknown opcode. *)
Lemma advertised_offloads_missing t qp ct bdev desc rid op :
  op ∈ [SPDK_NVME_OPC_CUSTOM_HEAAN_SUB; SPDK_NVME_OPC_CUSTOM_HEAAN_MUL; SPDK_NVME_OPC_CUSTOM_HEAAN_DIV; SPDK_NVME_OPC_CUSTOM_HEAAN_DEC; SPDK_NVME_OPC_CUSTOM_HEAAN_BTSRP] ->
  io_effects true t op = 3 /\
  dispatch_opcode true qp ct bdev desc rid op = if qp_disable_command_passthru qp then invalid_opcode rid else nvmf_bdev_ctrlr_nvme_passthru_io bdev desc rid.
Proof.
  rewrite !elem_of_cons, elem_of_nil. unfold dispatch_opcode. intros [->|[->|[->|[->|[->|[]]]]]]; (split; [done|]); cbn [Z.eqb Pos.eqb andb orb]; by destruct (qp_disable_command_passthru qp).
Qed.

(** ** Theorems *)

Section Theorems.
Context (ld : listener -> disc_entry -> disc_entry) (mem : nat -> bool) (tgt : disc_tgt) (hostnqn : bytes) (listen_trid : option spdk_nvme_transport_id).
Abbreviation get_log_page := (nvmf_ctrlr_get_log_page ld mem tgt hostnqn listen_trid).

(** C14. Reading a log page of an I/O controller writes exactly the bytes of
    the page from the offset on, as many as were asked for and exist, and
    leaves the rest of the buffer alone, however the buffer is split: the ANA
    page, which is made piece by piece and never as a whole, is the header,
    and for each group with namespaces its descriptor and their identifiers. *)
Theorem get_log_page_window heaan_lib t cdw10 cdw11 cdw12 cdw13 iovs c page (Hd : lt_discovery t = false) (Hi : iovs <> []) (H12 : 0 <= cdw12)
    (Ha : log_offset cdw12 cdw13 mod 4 = 0) (Hl : log_len cdw10 cdw11 <= blen (flat iovs)) (Hm : blen (flat iovs) < 2 ^ 32)
    (Ho : log_offset cdw12 cdw13 <= log_len cdw10 cdw11) (Hp : page_of heaan_lib t c (bits 0 8 cdw10) = Some page) :
  exists iovs', get_log_page heaan_lib t cdw10 cdw11 cdw12 cdw13 (blen (flat iovs)) iovs (length iovs) c
      = Some (SPDK_NVME_SC_SUCCESS, iovs', after_read (bits 0 8 cdw10) (bits 15 1 cdw10) c) /\
    flat iovs' = splice 0 (slice (Z.to_nat (log_offset cdw12 cdw13)) (Z.to_nat (log_len cdw10 cdw11)) page) (flat iovs) /\
    iov_len <$> iovs' = iov_len <$> iovs.
Proof.
  pose proof (log_len_bound cdw10 cdw11). pose proof (log_offset_nonneg cdw12 cdw13 H12). unfold nvmf_ctrlr_get_log_page. cbv zeta.
  rewrite aligned_spec, Ha, Hd. set (offset := log_offset cdw12 cdw13) in *. set (len := log_len cdw10 cdw11) in *. set (lid := bits 0 8 cdw10) in *.
  assert (Eu : u32 len = len) by (unfold u32; rewrite Z.mod_small; lia). rewrite Eu.
  assert (length iovs <> 0)%nat by (by destruct iovs). rewrite (proj2 (Nat.ltb_ge _ _)), (proj2 (Z.ltb_ge _ _) Hl), (proj2 (Z.ltb_ge _ _) Ho) by lia. cbn [negb Z.eqb].
  assert (HL : 0 <= len < 2 ^ 32) by lia. clearbody offset len lid. unfold page_of in Hp. unfold after_read.
  destruct (Z.eqb_spec lid SPDK_NVME_LOG_FIRMWARE_SLOT); [|destruct (Z.eqb_spec lid SPDK_NVME_LOG_ASYMMETRIC_NAMESPACE_ACCESS);
    [|destruct (Z.eqb_spec lid SPDK_NVME_LOG_COMMAND_EFFECTS_LOG); [|destruct (Z.eqb_spec lid SPDK_NVME_LOG_CHANGED_NS_LIST); [|done]]]]; subst lid;
    cbn [Z.eqb Pos.eqb SPDK_NVME_LOG_ERROR SPDK_NVME_LOG_HEALTH_INFORMATION SPDK_NVME_LOG_FIRMWARE_SLOT SPDK_NVME_LOG_ASYMMETRIC_NAMESPACE_ACCESS SPDK_NVME_LOG_COMMAND_EFFECTS_LOG SPDK_NVME_LOG_CHANGED_NS_LIST].
  - apply (inj Some) in Hp. subst page. unfold nvmf_get_firmware_slot_log_page. destruct (copy_page_spec fw_page iovs offset len) as (iovs' & -> & HW); [done..|]. by eauto.
  - destruct (subsys_ana_reporting (lt_subsys t)); [|done]. destruct (ana_log_spec t c iovs offset len (bits 15 1 cdw10) page Hp) as (iovs' & -> & HW); [done..|]. by eauto.
  - apply (inj Some) in Hp. subst page. unfold nvmf_get_cmds_and_effects_log_page.
    destruct (copy_page_spec (cmds_and_effect_log_page heaan_lib t) iovs offset len) as (iovs' & -> & HW); [done..|]. by eauto.
  - apply (inj Some) in Hp. subst page. unfold nvmf_get_changed_ns_list_log_page.
    destruct (copy_page_spec (changed_ns_page c) iovs offset len) as (iovs' & -> & HW); [done..|]. by eauto.
Qed.

(** A Get Log Page command is refused for a wrong field exactly when it
    has no buffer, its offset is not a multiple of four, its length exceeds
    the buffer, the page is not one of the controller, or, on an I/O
    controller, its offset exceeds its length; it then changes nothing.  The
    last condition refuses the third and later pieces of a page that is read
    in pieces of one size. *)
Theorem get_log_page_refusals heaan_lib t cdw10 cdw11 cdw12 cdw13 req_length iovs iovcnt c r
    (H : get_log_page heaan_lib t cdw10 cdw11 cdw12 cdw13 req_length iovs iovcnt c = Some r) :
  (r.1.1 = SPDK_NVME_SC_INVALID_FIELD <-> refused t (bits 0 8 cdw10) (log_offset cdw12 cdw13) (log_len cdw10 cdw11) req_length iovcnt = true) /\
  (r.1.1 = SPDK_NVME_SC_INVALID_FIELD -> r = (SPDK_NVME_SC_INVALID_FIELD, iovs, c)) /\
  forall k, 2 <= k -> lt_discovery t = false -> log_offset cdw12 cdw13 = k * log_len cdw10 cdw11 -> r.1.1 = SPDK_NVME_SC_INVALID_FIELD.
Proof.
  assert (HR : (r.1.1 = SPDK_NVME_SC_INVALID_FIELD <-> refused t (bits 0 8 cdw10) (log_offset cdw12 cdw13) (log_len cdw10 cdw11) req_length iovcnt = true) /\
    (r.1.1 = SPDK_NVME_SC_INVALID_FIELD -> r = (SPDK_NVME_SC_INVALID_FIELD, iovs, c))).
  - revert H. unfold nvmf_ctrlr_get_log_page, refused, io_page. cbv zeta. rewrite aligned_spec. cbn [existsb].
    destruct iovcnt as [|iovcnt]; [by apply invalid_answer|]. cbn [Nat.eqb]. rewrite (proj2 (Nat.ltb_ge _ _)) by lia. cbn [orb].
    destruct (negb (log_offset cdw12 cdw13 mod 4 =? 0)); [by apply invalid_answer|]. destruct (req_length <? _); [by apply invalid_answer|]. cbn [orb].
    destruct (lt_discovery t); [destruct (bits 0 8 cdw10 =? SPDK_NVME_LOG_DISCOVERY); [destruct listen_trid|]|]; [by apply success_answer| |by apply invalid_answer|].
    { intros [= <-]. done. }
    destruct (_ <? log_offset _ _); [by apply invalid_answer|]. cbn [orb].
    generalize (bits 0 8 cdw10) as lid. intros lid.
    repeat match goal with |- context [lid =? ?k] => destruct (Z.eqb_spec lid k) as [->|]; cbn [orb andb negb];
      [first [by apply success_answer | by destruct (subsys_ana_reporting (lt_subsys t)); [apply success_answer|apply invalid_answer]]|] end.
    by apply invalid_answer.
  - destruct HR as [HR1 HR2]. split; [done|]. split; [done|]. intros k Hk Hd Ho. apply HR1. unfold refused. rewrite Hd.
    pose proof (log_len_bound cdw10 cdw11). rewrite (proj2 (Z.ltb_lt _ (log_offset _ _))) by nia. by rewrite orb_true_r.
Qed.
End Theorems.

(** Reading the reservation log from the start of one of its entries
    writes the entries from there on, as far as the length goes, and takes
    them off the log, the one read in part included.  The entries before the
    offset leave the log too, although no one has read them.  The count stays
    the number of entries. *)
Theorem reservation_log_read c iovs k len rae (Hc : log_ok c) (Hk : (k < length (ev_log_head c))%nat) (Hl : 0 < len < 2 ^ 32) (Hf : len <= blen (flat iovs)) :
  exists iovs' c', nvmf_get_reservation_notification_log_page c iovs (length iovs) (64 * Z.of_nat k) len rae = Some (iovs', c') /\
    flat iovs' = splice 0 (take (Z.to_nat len) (concat (resv_log_bytes <$> drop k (ev_log_head c)))) (flat iovs) /\
    ev_log_head c' = drop (k + entries_read len) (ev_log_head c) /\ log_ok c' /\
    Z.testbit (ev_notice_aen_mask c') SPDK_NVME_ASYNC_EVENT_RESERVATION_LOG_AVAIL_MASK_BIT
    = Z.testbit (ev_notice_aen_mask c) SPDK_NVME_ASYNC_EVENT_RESERVATION_LOG_AVAIL_MASK_BIT && (rae !=? 0).
Proof.
  destruct Hc as [Hn Hb]. unfold nvmf_get_reservation_notification_log_page. rewrite (proj2 (Z.eqb_neq _ _)) by lia.
  assert (Eu : u32 (ev_num_avail c * 64) = ev_num_avail c * 64) by (unfold u32; rewrite Z.mod_small; lia). rewrite Eu, (proj2 (Z.leb_gt _ _)) by lia. rewrite Hn.
  pose proof (resv_skip_spec (ev_log_head c) k 0 (spdk_iov_xfer_init iovs (length iovs)) len) as Hs. rewrite !Z.add_0_l, Z.mul_0_r in Hs. rewrite Hs by lia.
  destruct (resv_copy_spec (drop k (ev_log_head c)) (Z.of_nat k) (spdk_iov_xfer_init iovs (length iovs)) len) as (ix & len' & E & [_ _ _ _ _ _ W7]);
    [by apply fits_start|lia|rewrite length_drop; lia|]. rewrite E. cbn [mbind option_bind]. eexists _, _. split; [done|]. rewrite drop_drop.
  unfold w_ix in W7. cbn [fst] in W7. rewrite ix_pos_init in W7. unfold unmask_read, log_ok. split; [done|].
  destruct (Z.eqb_spec rae 0) as [->|Hr]; unfold nvmf_ctrlr_unmask_aen; evsimp; cbn [negb]; rewrite ?length_drop.
  - split; [done|]. split; [lia|]. by rewrite unmask_after by done.
  - split; [done|]. split; [lia|]. by rewrite andb_true_r.
Qed.

(** Whatever namespaces change between two reads of the changed
    namespace list, a host that reads the whole list gets each of them once,
    in the order of their first change, and zeros; when more than 1024
    changed it gets the entry that stands for all.  The list is empty again
    after the read, also when the host retains the event. *)
Theorem changed_namespaces_reported nsids c iovs rae (Hc : ev_changed_ns c = replicate max_changes 0) (H0 : ev_changed_ns_count c = 0%nat)
    (Hf : 4096 <= blen (flat iovs)) :
  exists iovs' c', nvmf_get_changed_ns_list_log_page (fold_left (flip nvmf_ctrlr_ns_changed) nsids c) iovs (length iovs) 0 4096 rae = Some (iovs', c') /\
    flat iovs' = splice 0 (concat (le_enc 4 <$> changed_list (reported nsids))) (flat iovs) /\
    NoDup (reported nsids) /\ (forall n, n ∈ reported nsids <-> n ∈ nsids) /\
    ev_changed_ns c' = replicate max_changes 0 /\ ev_changed_ns_count c' = 0%nat.
Proof.
  unfold nvmf_get_changed_ns_list_log_page, changed_ns_page. rewrite ns_changed_list by done.
  destruct (copy_page_spec (concat (le_enc 4 <$> changed_list (reported nsids))) iovs 0 4096) as (iovs' & -> & HW & _); [lia..|]. cbn [mbind option_bind].
  eexists _, _. split; [done|]. destruct (reported_spec nsids) as [H1 H2]. split; [|repeat (split; [done|]); unfold unmask_read; by destruct (rae =? 0)].
  rewrite HW. f_equal. unfold slice. change (Z.to_nat 0) with 0%nat. rewrite drop_0. apply take_ge.
  assert (Hl : length (changed_list (reported nsids)) = max_changes).
  { unfold changed_list. destruct (Nat.leb_spec (length (reported nsids)) max_changes); [rewrite length_app, length_replicate; lia|]. cbn [length]. by rewrite length_replicate. }
  assert (He : forall l, length (concat (le_enc 4 <$> l)) = (4 * length l)%nat); [|rewrite He, Hl; unfold max_changes; lia].
  intros l. induction l as [|x l IH]; [done|]. rewrite fmap_cons. cbn [concat]. rewrite length_app, IH, length_le_enc. cbn [length]. lia.
Qed.

(** ** Witnesses *)

(** Two namespaces of group 2 and none of the others. *)
Definition demo_log_ns : spdk_nvmf_ns := NvmfNs 2 (Some demo_bdev) demo_desc false.
Definition demo_target : log_target :=
  LogTarget (NvmfSubsys [Some demo_log_ns; None; Some demo_log_ns] true 0 0)
    (NvmfCtrlr 1 1 false [true; true; true] (Some [SPDK_NVME_ANA_OPTIMIZED_STATE; SPDK_NVME_ANA_NON_OPTIMIZED_STATE; SPDK_NVME_ANA_OPTIMIZED_STATE])
       true true true true true) [0; 2; 0] [None; None; None] false.
Definition demo_ev : ev_ctrlr := ey_ctrlr (ev_init 0).

(** 64 bytes from byte 8 of the ANA page, which has 56. *)
Lemma get_log_page_window_witness :
  exists iovs', nvmf_ctrlr_get_log_page nvmf_tcp_discover (fun _ => true) demo_tgt [] None false demo_target (0xF000C) 0 8 0 64
      [Iov (Some (replicate 30 9)); Iov (Some (replicate 34 9))] 2 demo_ev = Some (SPDK_NVME_SC_SUCCESS, iovs', demo_ev) /\
    flat iovs' = [1; 0; 0; 0; 0; 0; 0; 0; 2; 0; 0; 0; 2; 0; 0; 0] ++ replicate 8 0 ++ [2] ++ replicate 15 0 ++ [1; 0; 0; 0; 3; 0; 0; 0] ++ replicate 16 9.
Proof.
  destruct (get_log_page_window nvmf_tcp_discover (fun _ => true) demo_tgt [] None false demo_target (0xF000C) 0 8 0
    [Iov (Some (replicate 30 9)); Iov (Some (replicate 34 9))] demo_ev
    (default [] (ana_page demo_target))) as (iovs' & E & Hf & _); try (vm_compute; congruence); [vm_compute; reflexivity..|].
  exists iovs'. split; [exact E|]. rewrite Hf. vm_compute. reflexivity.
Defined.

(** The third KiB of the effects page. *)
Lemma get_log_page_refusals_witness :
  exists r, nvmf_ctrlr_get_log_page nvmf_tcp_discover (fun _ => true) demo_tgt [] None true demo_target (0xFF0005) 0 2048 0 1024
    [Iov (Some (replicate (Z.to_nat 1024) 9))] 1 demo_ev = Some r /\ r.1.1 = SPDK_NVME_SC_INVALID_FIELD.
Proof.
  eexists. assert (E : nvmf_ctrlr_get_log_page nvmf_tcp_discover (fun _ => true) demo_tgt [] None true demo_target (0xFF0005) 0 2048 0 1024
    [Iov (Some (replicate (Z.to_nat 1024) 9))] 1 demo_ev = Some _) by (vm_compute; reflexivity).
  split; [exact E|]. apply (get_log_page_refusals _ _ _ _ _ _ _ _ _ _ _ _ _ _ _ _ E) with (k := 2); [lia|reflexivity|vm_compute; reflexivity].
Defined.

Definition demo_logs : ev_ctrlr := add_log_entry 3 9 (add_log_entry 2 8 (add_log_entry 1 7 demo_ev)).

(** The second entry is read; the first one is lost. *)
Lemma reservation_log_read_witness :
  exists iovs' c', nvmf_get_reservation_notification_log_page demo_logs [Iov (Some (replicate 64 9))] 1 64 64 0 = Some (iovs', c') /\
    take 16 (flat iovs') = [2; 0; 0; 0; 0; 0; 0; 0; 2; 1; 0; 0; 8; 0; 0; 0] /\ rl_nsid <$> ev_log_head c' = [9].
Proof.
  destruct (reservation_log_read demo_logs [Iov (Some (replicate 64 9))] 1 64 0) as (iovs' & c' & E & Hf & Hh & _);
    [split; [vm_compute; reflexivity|vm_compute; lia]|vm_compute; lia|lia|vm_compute; congruence|].
  exists iovs', c'. split; [exact E|]. rewrite Hf, Hh. split; vm_compute; reflexivity.
Defined.

Lemma changed_namespaces_reported_witness :
  exists iovs' c', nvmf_get_changed_ns_list_log_page (fold_left (flip nvmf_ctrlr_ns_changed) [3; 1; 3] demo_ev) [Iov (Some (replicate (Z.to_nat 4096) 9))] 1 0 4096 1
    = Some (iovs', c') /\ take 12 (flat iovs') = [3; 0; 0; 0; 1; 0; 0; 0; 0; 0; 0; 0].
Proof.
  destruct (changed_namespaces_reported [3; 1; 3] demo_ev [Iov (Some (replicate (Z.to_nat 4096) 9))] 1) as (iovs' & c' & E & Hf & _);
    [reflexivity|reflexivity|vm_compute; congruence|].
  exists iovs', c'. split; [exact E|]. rewrite Hf. vm_compute. reflexivity.
Defined.
