(* ===== verification/Connect.v ===== *)
(** * Connect: controllers and queue pairs of the target, [spdk/lib/nvmf/ctrlr.c]

    A host opens a controller with a Connect command on a new queue pair and
    adds I/O queue pairs to it with further ones.  The work is spread over the
    thread of the queue pair, the thread of the subsystem and the thread of the
    controller, which send each other messages; queue pairs may be disconnected
    at any time, and the controller is destroyed when its last one has gone.
    Here is the whole exchange - [ctrlr.c] for the Connect command and the
    controller, [subsystem.c] for its identifier, [nvmf.c] for the end of a
    queue pair - as a machine that runs one event at a time. *)
From S2P Require Import Prelude NvmeSpec Iov World CtrlrRegs AsyncEvents Discovery.

(** ** Data *)

Definition SPDK_NVMF_FABRIC_SC_INCOMPATIBLE_FORMAT : Z := 0x80.
Definition SPDK_NVMF_FABRIC_SC_INVALID_PARAM : Z := 0x82.
Definition SPDK_NVMF_FABRIC_SC_INVALID_HOST : Z := 0x84.
Definition SPDK_NVME_SC_INVALID_QUEUE_IDENTIFIER : Z := 0x01.
Definition SPDK_NVMF_SUBTYPE_DISCOVERY : Z := 1.
Definition SPDK_NVMF_SUBTYPE_NVME : Z := 2.
Definition SPDK_NVMF_NQN_MAX_LEN : nat := 223.
Definition NVMF_MIN_CNTLID : Z := 1.
Definition NVMF_MAX_CNTLID : Z := 0xFFEF.
Definition NVMF_DISC_KATO_IN_MS : Z := 120000.
Definition EAGAIN : Z := 11.
Definition EBUSY : Z := 16.
Definition EEXIST : Z := 17.
(** "nqn.2014-08.org.nvmexpress.discovery" *)
Definition SPDK_NVMF_DISCOVERY_NQN : bytes :=
  [110; 113; 110; 46; 50; 48; 49; 52; 45; 48; 56; 46; 111; 114; 103; 46; 110; 118; 109; 101; 120; 112; 114; 101; 115; 115; 46;
   100; 105; 115; 99; 111; 118; 101; 114; 121].

(** [struct spdk_nvmf_fabric_connect_cmd], the fields that are read. *)
Record connect_cmd := ConnectCmd { cm_recfmt : Z; cm_qid : Z; cm_sqsize : Z; cm_kato : Z }.

(** [struct spdk_nvmf_fabric_connect_data]; the names are the bytes of their
    fields. *)
Record connect_data := ConnectData { cd_hostid : Z; cd_cntlid : Z; cd_subnqn : bytes; cd_hostnqn : bytes }.

(** Offsets of fields an invalid parameter is reported with. *)
Definition cmd_ofst_qid : Z := 42.
Definition cmd_ofst_sqsize : Z := 44.
Definition data_ofst_cntlid : Z := 16.
Definition data_ofst_subnqn : Z := 256.
Definition data_ofst_hostnqn : Z := 512.

(** [struct spdk_nvmf_fabric_connect_rsp]: the status, and the word specific
    to it by its two members - [success.cntlid] or [invalid.ipo], then
    [success.authreq] or [invalid.iattr]. *)
Record connect_rsp := ConnectRsp { cp_sct : Z; cp_sc : Z; cp_lo : Z; cp_hi : Z }.
#[global] Instance eta_cp : Eta connect_rsp := fun p => ConnectRsp (cp_sct p) (cp_sc p) (cp_lo p) (cp_hi p).

(** A Connect request with its one buffer. *)
Record conn_req := ConnReq {
  cr_qpair : nat; cr_cmd : connect_cmd; cr_data : connect_data; cr_length : Z; cr_iovcnt : Z; cr_rsp : connect_rsp }.
#[global] Instance eta_cr : Eta conn_req := fun r =>
  ConnReq (cr_qpair r) (cr_cmd r) (cr_data r) (cr_length r) (cr_iovcnt r) (cr_rsp r).

(** [struct spdk_nvmf_qpair]: [cq_thread] is the thread of its poll group, and
    [cq_group] whether it still is in the group; [cq_listen] is what its
    transport reports as the listening address. *)
Record conn_qpair := ConnQpair {
  cq_state : spdk_nvmf_qpair_state; cq_qid : Z; cq_sq_head_max : Z; cq_ctrlr : option nat; cq_thread : Z; cq_group : bool;
  cq_connect_req : option nat; cq_outstanding : list nat; cq_connect_received : bool; cq_listen : option spdk_nvme_transport_id }.
#[global] Instance eta_cq : Eta conn_qpair := fun q =>
  ConnQpair (cq_state q) (cq_qid q) (cq_sq_head_max q) (cq_ctrlr q) (cq_thread q) (cq_group q) (cq_connect_req q) (cq_outstanding q)
    (cq_connect_received q) (cq_listen q).

(** [struct spdk_nvmf_ns]: whom it is visible to. *)
Record conn_ns := ConnNs { cn_always_visible : bool; cn_hosts : list bytes; cn_zoned : bool; cn_bdev : bool }.

(** [struct spdk_nvmf_subsystem]: its state, hosts, listeners, type and name
    are those of [Discovery]; [cb_keyed] are the hosts with a key to
    authenticate with. *)
Record conn_subsys := ConnSubsys {
  cb_info : disc_subsystem; cb_keyed : list bytes; cb_thread : Z; cb_ana_reporting : bool; cb_ns : list (option conn_ns);
  cb_min_cntlid : Z; cb_max_cntlid : Z; cb_next_cntlid : Z; cb_ctrlrs : list nat }.
#[global] Instance eta_cb : Eta conn_subsys := fun s =>
  ConnSubsys (cb_info s) (cb_keyed s) (cb_thread s) (cb_ana_reporting s) (cb_ns s) (cb_min_cntlid s) (cb_max_cntlid s) (cb_next_cntlid s)
    (cb_ctrlrs s).

(** [struct spdk_nvmf_ctrlr]: [cl_cc] has the registers, the timers, the mask
    of its queue identifiers and whether it is being destroyed ([CtrlrRegs]);
    [cl_cap] is the capacity of the mask. *)
Record conn_ctrlr := ConnCtrlr {
  cl_cntlid : Z; cl_dynamic : bool; cl_subsys : nat; cl_thread : Z; cl_cap : Z; cl_admin_qpair : option nat; cl_cc : cc_ctrlr;
  cl_aec : Z; cl_nqueues : Z; cl_hostid : Z; cl_hostnqn : bytes; cl_visible_ns : list bool; cl_listener : option Z }.
#[global] Instance eta_cl : Eta conn_ctrlr := fun c =>
  ConnCtrlr (cl_cntlid c) (cl_dynamic c) (cl_subsys c) (cl_thread c) (cl_cap c) (cl_admin_qpair c) (cl_cc c) (cl_aec c) (cl_nqueues c)
    (cl_hostid c) (cl_hostnqn c) (cl_visible_ns c) (cl_listener c).

(** [struct spdk_nvmf_poll_group_stat] and [current_unassociated_qpairs]. *)
Record group_stat := GroupStat { gs_unassociated : Z; gs_admin : Z; gs_current_admin : Z; gs_io : Z; gs_current_io : Z }.
#[global] Instance eta_gs : Eta group_stat := fun g =>
  GroupStat (gs_unassociated g) (gs_admin g) (gs_current_admin g) (gs_io g) (gs_current_io g).

(** A poll group's view of a subsystem: whether it is active, and the Connect
    commands among its outstanding management commands. *)
Record conn_sgroup := ConnSgroup { cg_active : bool; cg_mgmt : Z }.
#[global] Instance eta_cg : Eta conn_sgroup := fun g => ConnSgroup (cg_active g) (cg_mgmt g).

(** The options of the transport; [to_fabrics] is [spdk_nvme_trtype_is_fabrics]
    of its type. *)
Record transport_opts := TransportOpts {
  to_max_aq_depth : Z; to_max_queue_depth : Z; to_max_qpairs_per_ctrlr : Z; to_association_timeout : Z; to_fabrics : bool }.

(** The messages, by the function they run.  The context of a queue pair that
    ends carries its address, its controller and its identifier. *)
Inductive conn_msg :=
| MsgAddCtrlr (rid : nat) | MsgAddAdminQpair (rid : nat) | MsgAddIoQpair (rid : nat) | MsgCtrlrAddIoQpair (rid : nat)
| MsgConnectRsp (rid : nat) | MsgComplete (rid : nat)
| MsgFreeFromQpair (q c : nat) (qid : Z) | MsgDestruct (c : nat) | MsgCtrlrDestruct (c : nat).

(** The state: [sy_msgs] in the order they were sent, with the thread they go
    to; [sy_queued] the requests that wait in a poll group for a subsystem;
    [sy_pollers] the pollers of [_retry_qid_check], by queue pair and thread; [sy_fini] the
    queue pairs their transport is taking down; [sy_answers] the responses. *)
Record conn_sys := ConnSys {
  sy_subs : list conn_subsys; sy_ctrlrs : gmap nat conn_ctrlr; sy_qpairs : gmap nat conn_qpair; sy_reqs : gmap nat conn_req;
  sy_next : nat; sy_msgs : list (Z * conn_msg); sy_queued : list (Z * nat * nat); sy_pollers : list (nat * Z); sy_fini : list (nat * option nat * Z);
  sy_sgroups : gmap (Z * nat) conn_sgroup; sy_stats : gmap Z group_stat; sy_answers : list (nat * connect_rsp) }.
#[global] Instance eta_sy : Eta conn_sys := fun y =>
  ConnSys (sy_subs y) (sy_ctrlrs y) (sy_qpairs y) (sy_reqs y) (sy_next y) (sy_msgs y) (sy_queued y) (sy_pollers y) (sy_fini y) (sy_sgroups y)
    (sy_stats y) (sy_answers y).

(** ** The monad of handlers: [None] is undefined behaviour *)

Definition CM (A : Type) : Type := conn_sys -> option (A * conn_sys).
#[global] Instance CM_ret : MRet CM := fun A a y => Some (a, y).
#[global] Instance CM_bind : MBind CM := fun A B k m y => match m y with Some (a, y) => k a y | None => None end.

Definition c_need {A} (f : conn_sys -> option A) : CM A := fun y => match f y with Some a => Some (a, y) | None => None end.
Definition c_get {A} (f : conn_sys -> A) : CM A := fun y => Some (f y, y).
Definition c_mod (f : conn_sys -> conn_sys) : CM unit := fun y => Some (tt, f y).
Definition c_assert (b : bool) : CM unit := fun y => if b then Some (tt, y) else None.

(** Reading through a pointer, and updating what it points to. *)
Definition c_req (rid : nat) : CM conn_req := c_need (fun y => sy_reqs y !! rid).
Definition c_qpair (q : nat) : CM conn_qpair := c_need (fun y => sy_qpairs y !! q).
Definition c_ctrlr (c : nat) : CM conn_ctrlr := c_need (fun y => sy_ctrlrs y !! c).
Definition c_sub (s : nat) : CM conn_subsys := c_need (fun y => sy_subs y !! s).
Definition mod_conn_req (rid : nat) (f : conn_req -> conn_req) : CM unit :=
  r ← c_req rid; c_mod (fun y => y <| sy_reqs := <[rid := f r]> (sy_reqs y) |>).
Definition mod_conn_qpair (q : nat) (f : conn_qpair -> conn_qpair) : CM unit :=
  qp ← c_qpair q; c_mod (fun y => y <| sy_qpairs := <[q := f qp]> (sy_qpairs y) |>).
Definition mod_conn_ctrlr (c : nat) (f : conn_ctrlr -> conn_ctrlr) : CM unit :=
  ct ← c_ctrlr c; c_mod (fun y => y <| sy_ctrlrs := <[c := f ct]> (sy_ctrlrs y) |>).
Definition mod_conn_sub (s : nat) (f : conn_subsys -> conn_subsys) : CM unit :=
  sub ← c_sub s; c_mod (fun y => y <| sy_subs := <[s := f sub]> (sy_subs y) |>).

Definition sgroup_of (y : conn_sys) (k : Z * nat) : conn_sgroup := default (ConnSgroup true 0) (sy_sgroups y !! k).
Definition mod_conn_sgroup (k : Z * nat) (f : conn_sgroup -> conn_sgroup) : CM unit :=
  c_mod (fun y => y <| sy_sgroups := <[k := f (sgroup_of y k)]> (sy_sgroups y) |>).
Definition stat_of (y : conn_sys) (t : Z) : group_stat := default (GroupStat 0 0 0 0 0) (sy_stats y !! t).
Definition mod_conn_stat (t : Z) (f : group_stat -> group_stat) : CM unit :=
  c_mod (fun y => y <| sy_stats := <[t := f (stat_of y t)]> (sy_stats y) |>).

(** [spdk_thread_send_msg] *)
Definition send_msg (thread : Z) (m : conn_msg) : CM unit := c_mod (fun y => y <| sy_msgs := sy_msgs y ++ [(thread, m)] |>).

(** Assignments to the response. *)
Definition set_connect_status (rid : nat) (sct sc : Z) : CM unit :=
  mod_conn_req rid (fun r => r <| cr_rsp := (cr_rsp r) <| cp_sct := sct |> <| cp_sc := sc |> |>).
Definition set_connect_sc (rid : nat) (sc : Z) : CM unit := mod_conn_req rid (fun r => r <| cr_rsp := (cr_rsp r) <| cp_sc := sc |> |>).
Definition nvmf_invalid_connect_response (rid : nat) (iattr ipo : Z) : CM unit :=
  mod_conn_req rid (fun r => r <| cr_rsp := ConnectRsp SPDK_NVME_SCT_COMMAND_SPECIFIC SPDK_NVMF_FABRIC_SC_INVALID_PARAM ipo iattr |>).
Definition SPDK_NVMF_INVALID_CONNECT_CMD (rid : nat) (field : Z) : CM unit := nvmf_invalid_connect_response rid 0 field.
Definition SPDK_NVMF_INVALID_CONNECT_DATA (rid : nat) (field : Z) : CM unit := nvmf_invalid_connect_response rid 1 field.

(** ** Names and addresses *)

(** The string in a field, and whether its first [n] bytes have a terminator. *)
Fixpoint cstr (b : bytes) : bytes :=
  match b with
  | [] => []
  | x :: b => if x =? 0 then [] else x :: cstr b
  end.
Definition memchr0 (n : nat) (b : bytes) : bool := existsb (Z.eqb 0) (take n b).

(** The subsystems of a target have different names. *)
Definition spdk_nvmf_tgt_find_subsystem (subs : list conn_subsys) (subnqn : bytes) : option nat :=
  if memchr0 (S SPDK_NVMF_NQN_MAX_LEN) subnqn
  then fst <$> list_find (fun s => ds_subnqn (cb_info s) = cstr subnqn) subs else None.

(** [spdk_nvme_transport_id_compare] is 0; the addresses of listeners are not
    PCIe ones and name no subsystem. *)
Definition spdk_nvme_transport_id_compare (t1 t2 : spdk_nvme_transport_id) : bool :=
  nvmf_discovery_compare_trtype t1 t2 && strcaseeq (tr_traddr t1) (tr_traddr t2) && (tr_adrfam t1 =? tr_adrfam t2)
  && strcaseeq (tr_trsvcid t1) (tr_trsvcid t2).

(** A listener is known by its identifier. *)
Definition nvmf_subsystem_find_listener (s : conn_subsys) (trid : spdk_nvme_transport_id) : option Z :=
  li_id <$> List.find (fun l => spdk_nvme_transport_id_compare (li_trid l) trid) (ds_listeners (cb_info s)).
Definition spdk_nvmf_subsystem_listener_allowed (s : conn_subsys) (trid : spdk_nvme_transport_id) : bool :=
  existsb (fun l => spdk_nvme_transport_id_compare (li_trid l) trid) (ds_listeners (cb_info s))
  || streq (ds_subnqn (cb_info s)) SPDK_NVMF_DISCOVERY_NQN.
Definition nvmf_subsystem_host_auth_required (s : conn_subsys) (hostnqn : bytes) : bool :=
  nvmf_subsystem_find_host (cb_info s) hostnqn && existsb (streq hostnqn) (cb_keyed s).
Definition spdk_nvmf_subsystem_is_discovery (s : conn_subsys) : bool :=
  (ds_subtype (cb_info s) =? SPDK_NVMF_SUBTYPE_DISCOVERY_CURRENT) || (ds_subtype (cb_info s) =? SPDK_NVMF_SUBTYPE_DISCOVERY).

(** [nvmf_qpair_access_allowed]; without a listening address access is
    refused. *)
Definition nvmf_qpair_access_allowed (qp : conn_qpair) (s : conn_subsys) (hostnqn : bytes) : bool :=
  if negb (spdk_nvmf_subsystem_host_allowed (cb_info s) hostnqn) then false
  else match cq_listen qp with
       | None => false
       | Some listen_trid => spdk_nvmf_subsystem_listener_allowed s listen_trid
       end.

Definition spdk_nvmf_qpair_is_active (qp : conn_qpair) : bool :=
  match cq_state qp with
  | SPDK_NVMF_QPAIR_CONNECTING | SPDK_NVMF_QPAIR_AUTHENTICATING | SPDK_NVMF_QPAIR_ENABLED => true
  | _ => false
  end.

(** ** Controller identifiers: [subsystem.c] *)

Definition spdk_nvmf_subsystem_set_cntlid_range (min_cntlid max_cntlid : Z) (s : conn_subsys) : conn_subsys * Z :=
  if bool_decide (ds_state (cb_info s) <> SPDK_NVMF_SUBSYSTEM_INACTIVE) then (s, - EAGAIN)
  else if max_cntlid <? min_cntlid then (s, - EINVAL)
  else if (min_cntlid <? NVMF_MIN_CNTLID) || (NVMF_MAX_CNTLID <? min_cntlid) || (max_cntlid <? NVMF_MIN_CNTLID) || (NVMF_MAX_CNTLID <? max_cntlid)
  then (s, - EINVAL)
  else
    let s := s <| cb_min_cntlid := min_cntlid |> <| cb_max_cntlid := max_cntlid |> in
    (if (cb_next_cntlid s <? min_cntlid) || (max_cntlid - 1 <? cb_next_cntlid s) then s <| cb_next_cntlid := min_cntlid - 1 |> else s, 0).

(** [nvmf_subsystem_get_ctrlr] on the list of controllers; [None] when it
    follows a pointer to a controller that is gone. *)
Fixpoint nvmf_subsystem_get_ctrlr (m : gmap nat conn_ctrlr) (l : list nat) (cntlid : Z) : option (option nat) :=
  match l with
  | [] => Some None
  | c :: l => ct ← m !! c; if cl_cntlid ct =? cntlid then Some (Some c) else nvmf_subsystem_get_ctrlr m l cntlid
  end.

(** The loop of [nvmf_subsystem_gen_cntlid] with [count] turns left. *)
Fixpoint gen_cntlid_loop (m : gmap nat conn_ctrlr) (count : nat) (s : conn_subsys) : option (conn_subsys * Z) :=
  match count with
  | O => Some (s, 0xFFFF)
  | S count =>
      let next := u16 (cb_next_cntlid s + 1) in
      let next := if cb_max_cntlid s <? next then cb_min_cntlid s else next in
      let s := s <| cb_next_cntlid := next |> in
      o ← nvmf_subsystem_get_ctrlr m (cb_ctrlrs s) next;
      match o with None => Some (s, next) | Some _ => gen_cntlid_loop m count s end
  end.
Definition nvmf_subsystem_gen_cntlid (m : gmap nat conn_ctrlr) (s : conn_subsys) : option (conn_subsys * Z) :=
  gen_cntlid_loop m (Z.to_nat (cb_max_cntlid s - cb_min_cntlid s + 1)) s.

(** [nvmf_subsystem_add_ctrlr]: 0 or an error number. *)
Definition nvmf_subsystem_add_ctrlr (s c : nat) : CM Z :=
  sub ← c_sub s; ct ← c_ctrlr c;
  let insert := mod_conn_sub s (fun sub => sub <| cb_ctrlrs := cb_ctrlrs sub ++ [c] |>) in
  if cl_dynamic ct then
    '(sub, cntlid) ← c_need (fun y => nvmf_subsystem_gen_cntlid (sy_ctrlrs y) sub);
    mod_conn_sub s (fun _ => sub);;
    mod_conn_ctrlr c (fun ct => ct <| cl_cntlid := cntlid |>);;
    if cntlid =? 0xFFFF then mret (- EBUSY) else insert;; mret 0
  else
    o ← c_need (fun y => nvmf_subsystem_get_ctrlr (sy_ctrlrs y) (cb_ctrlrs sub) (cl_cntlid ct));
    match o with Some _ => mret (- EEXIST) | None => insert;; mret 0 end.

(** [TAILQ_REMOVE] of a controller that must be on the list. *)
Definition nvmf_subsystem_remove_ctrlr (cur : Z) (s c : nat) : CM unit :=
  sub ← c_sub s; c_assert (cur =? cb_thread sub);;
  c_assert (bool_decide (c ∈ cb_ctrlrs sub));;
  mod_conn_sub s (fun sub => sub <| cb_ctrlrs := filter (fun x => x <> c) (cb_ctrlrs sub) |>).

(** ** Admission and completion of a Connect request *)

Definition nvmf_subsystem_pg_from_connect_cmd (rid : nat) : CM (option (Z * nat)) :=
  r ← c_req rid; qp ← c_qpair (cr_qpair r);
  c_assert (bool_decide (cq_ctrlr qp = None));; c_assert (cr_iovcnt r =? 1);; c_assert (cq_group qp);;
  subs ← c_get sy_subs;
  mret (pair (cq_thread qp) <$> spdk_nvmf_tgt_find_subsystem subs (cd_subnqn (cr_data r))).

(** The view of the subsystem a Connect request is counted in. *)
Definition connect_sgroup (rid : nat) : CM (option (Z * nat)) :=
  r ← c_req rid; qp ← c_qpair (cr_qpair r);
  match cq_ctrlr qp with
  | Some c => ct ← c_ctrlr c; c_assert (cq_group qp);; mret (Some (cq_thread qp, cl_subsys ct))
  | None => nvmf_subsystem_pg_from_connect_cmd rid
  end.

Definition connect_insert_outstanding (rid : nat) : CM unit :=
  r ← c_req rid; mod_conn_qpair (cr_qpair r) (fun qp => qp <| cq_outstanding := cq_outstanding qp ++ [rid] |>).
Definition connect_remove_outstanding (rid : nat) : CM unit :=
  r ← c_req rid; qp ← c_qpair (cr_qpair r);
  c_assert (bool_decide (rid ∈ cq_outstanding qp));;
  mod_conn_qpair (cr_qpair r) (fun qp => qp <| cq_outstanding := filter (fun x => x <> rid) (cq_outstanding qp) |>).

(** [_nvmf_request_complete] of a Connect request: the response leaves and the
    request object with it.  That a draining queue pair has nothing left to
    wait for is noticed by [EvDrained], and the pause of a view it may end is an
    [EvSgroup]. *)
Definition connect_complete (rid : nat) : CM unit :=
  sgroup ← connect_sgroup rid;
  connect_remove_outstanding rid;;
  r ← c_req rid;
  c_mod (fun y => y <| sy_answers := sy_answers y ++ [(rid, cr_rsp r)] |> <| sy_reqs := delete rid (sy_reqs y) |>);;
  match sgroup with
  | Some k =>
      y ← c_get (fun y => y);
      c_assert (0 <? cg_mgmt (sgroup_of y k));;
      mod_conn_sgroup k (fun g => g <| cg_mgmt := u64 (cg_mgmt g - 1) |>)
  | None => mret tt
  end.

(** [spdk_nvmf_request_complete] on thread [cur]. *)
Definition connect_request_complete (cur : Z) (rid : nat) : CM unit :=
  r ← c_req rid; qp ← c_qpair (cr_qpair r); c_assert (cq_group qp);;
  if cur =? cq_thread qp then connect_complete rid else send_msg (cq_thread qp) (MsgComplete rid).

(** [nvmf_check_subsystem_active] *)
Definition connect_check_subsystem (rid : nat) : CM bool :=
  sgroup ← connect_sgroup rid;
  match sgroup with
  | None => mret true
  | Some k =>
      y ← c_get (fun y => y);
      if negb (cg_active (sgroup_of y k)) then c_mod (fun y => y <| sy_queued := sy_queued y ++ [(k, rid)] |>);; mret false
      else mod_conn_sgroup k (fun g => g <| cg_mgmt := u64 (cg_mgmt g + 1) |>);; mret true
  end.

(** [nvmf_check_qpair_active] *)
Definition connect_check_qpair (rid : nat) : CM bool :=
  r ← c_req rid; qp ← c_qpair (cr_qpair r);
  let fail := fun sct sc => set_connect_status rid sct sc;; connect_insert_outstanding rid;; connect_complete rid;; mret false in
  match cq_state qp with
  | SPDK_NVMF_QPAIR_ENABLED | SPDK_NVMF_QPAIR_CONNECTING => mret true
  | SPDK_NVMF_QPAIR_AUTHENTICATING => fail SPDK_NVME_SCT_COMMAND_SPECIFIC SPDK_NVMF_FABRIC_SC_AUTH_REQUIRED
  | _ => fail SPDK_NVME_SCT_GENERIC SPDK_NVME_SC_COMMAND_SEQUENCE_ERROR
  end.

(** ** Queue pairs join a controller *)

Definition set_qpair_ctrlr (q : nat) (oc : option nat) : CM unit := mod_conn_qpair q (fun qp => qp <| cq_ctrlr := oc |>).

(** [nvmf_qpair_set_ctrlr]: a queue pair that has a controller keeps it. *)
Definition nvmf_qpair_set_ctrlr (q c : nat) : CM unit :=
  qp ← c_qpair q;
  match cq_ctrlr qp with
  | Some c' => c_assert (bool_decide (c' = c))
  | None => set_qpair_ctrlr q (Some c)
  end.

Definition upd_cc (f : cc_ctrlr -> cc_ctrlr) (ct : conn_ctrlr) : conn_ctrlr := ct <| cl_cc := f (cl_cc ct) |>.

(** The refusals of [nvmf_ctrlr_add_qpair]. *)
Definition refuse_qpair (cur : Z) (q rid : nat) (sc : Z) : CM unit :=
  set_connect_status rid SPDK_NVME_SCT_COMMAND_SPECIFIC sc;;
  mod_conn_qpair q (fun qp => qp <| cq_connect_req := None |> <| cq_ctrlr := None |>);;
  connect_request_complete cur rid.

(** [nvmf_ctrlr_add_qpair]: while another queue pair has the identifier the
    request waits once for the poller. *)
Definition nvmf_ctrlr_add_qpair (cur : Z) (q c rid : nat) : CM unit :=
  ct ← c_ctrlr c;
  match cl_admin_qpair ct with
  | None => refuse_qpair cur q rid SPDK_NVMF_FABRIC_SC_INVALID_PARAM
  | Some qa =>
      qpa ← c_qpair qa; c_assert (cq_group qpa && (cq_thread qpa =? cur));;
      qp ← c_qpair q;
      if bool_decide (cq_qid qp ∈ ck_mask (cl_cc ct)) then
        if bool_decide (cq_connect_req qp <> None) then refuse_qpair cur q rid SPDK_NVME_SC_INVALID_QUEUE_IDENTIFIER
        else
          mod_conn_qpair q (fun qp => qp <| cq_connect_req := Some rid |>);;
          nvmf_qpair_set_ctrlr q c;;
          c_mod (fun y => y <| sy_pollers := sy_pollers y ++ [(q, cur)] |>)
      else
        nvmf_qpair_set_ctrlr q c;;
        mod_conn_ctrlr c (upd_cc (fun cc => cc <| ck_mask := ck_mask cc ∪ {[cq_qid qp]} |>));;
        c_assert (cq_group qp);;
        send_msg (cq_thread qp) (MsgConnectRsp rid)
  end.

(** [_retry_qid_check], for the poller of queue pair [q]. *)
Definition _retry_qid_check (cur : Z) (q : nat) : CM unit :=
  qp ← c_qpair q; rid ← c_need (fun _ => cq_connect_req qp);
  r ← c_req rid; qp' ← c_qpair (cr_qpair r); c ← c_need (fun _ => cq_ctrlr qp');
  nvmf_ctrlr_add_qpair cur q c rid.

(** [_nvmf_ctrlr_add_admin_qpair] at time [now]. *)
Definition _nvmf_ctrlr_add_admin_qpair (opts : transport_opts) (cur now : Z) (rid : nat) : CM unit :=
  r ← c_req rid; let q := cr_qpair r in
  qp ← c_qpair q; c ← c_need (fun _ => cq_ctrlr qp);
  mod_conn_ctrlr c (fun ct => upd_cc (fun cc => nvmf_ctrlr_start_keep_alive_timer now
    (cc <| ck_admin_qpair := true |> <| ck_association_timeout := to_association_timeout opts |>)) (ct <| cl_admin_qpair := Some q |>));;
  nvmf_ctrlr_add_qpair cur q c rid.

(** [_nvmf_subsystem_add_ctrlr] *)
Definition _nvmf_subsystem_add_ctrlr (cur : Z) (rid : nat) : CM unit :=
  r ← c_req rid; let q := cr_qpair r in
  qp ← c_qpair q; c ← c_need (fun _ => cq_ctrlr qp); ct ← c_ctrlr c;
  rc ← nvmf_subsystem_add_ctrlr (cl_subsys ct) c;
  if rc !=? 0 then
    c_mod (fun y => y <| sy_ctrlrs := delete c (sy_ctrlrs y) |>);;
    set_qpair_ctrlr q None;;
    set_connect_sc rid SPDK_NVME_SC_INTERNAL_DEVICE_ERROR;;
    connect_request_complete cur rid
  else send_msg (cl_thread ct) (MsgAddAdminQpair rid).

(** [nvmf_ctrlr_init_visible_ns]: a bit for each namespace. *)
Definition ns_visible_to (hostnqn : bytes) (o : option conn_ns) : bool :=
  match o with Some ns => cn_always_visible ns || existsb (streq hostnqn) (cn_hosts ns) | None => false end.
Definition nvmf_ctrlr_init_visible_ns (s : conn_subsys) (hostnqn : bytes) : list bool := ns_visible_to hostnqn <$> cb_ns s.

(** [nvmf_subsystem_has_zns_iocs] *)
Definition has_zns_iocs (s : conn_subsys) : bool :=
  existsb (fun o => match o with Some ns => cn_bdev ns && cn_zoned ns | None => false end) (cb_ns s).

(** The namespaces a reset is about: their identifiers, and whether they have a
    block device. *)
Definition reset_ns (l : list (option conn_ns)) : list (Z * bool) :=
  omap (fun p => match p.2 with Some ns => Some (Z.of_nat p.1 + 1, cn_bdev ns) | None => None end) (imap pair l).

(** The controller as [nvmf_ctrlr_create] fills it in, but for the data it is
    identified with and the write cache, interrupt and protection settings; no
    transport clears the keep-alive support it reports. *)
Definition new_ctrlr (opts : transport_opts) (s : nat) (sub : conn_subsys) (thread : Z) (cmd : connect_cmd) (data : connect_data)
    (listener : option Z) : conn_ctrlr :=
  let kato := kato_rounded (cm_kato cmd) in
  let aec := put_bits 8 1 1 0 in
  let aec := if cb_ana_reporting sub then put_bits 11 1 1 aec else aec in
  let discovery := spdk_nvmf_subsystem_is_discovery sub in
  let aec := if discovery then put_bits 31 1 (if kato =? 0 then 0 else 1) aec else aec in
  let kato := if discovery && (kato =? 0) then NVMF_DISC_KATO_IN_MS else kato in
  let nq := u16 (to_max_qpairs_per_ctrlr opts - 1 - 1) in
  let hostnqn := cstr (take SPDK_NVMF_NQN_MAX_LEN (cd_hostnqn data)) in
  ConnCtrlr (if to_fabrics opts then 0 else cd_cntlid data) (to_fabrics opts) s thread (to_max_qpairs_per_ctrlr opts) None
    (CcCtrlr (vcprop_init (to_max_queue_depth opts) (has_zns_iocs sub)) false false false false 0 false 0 None 0 kato false false ∅
       (reset_ns (cb_ns sub)) [] [])
    aec (Z.lor nq (Z.shiftl nq 16)) (cd_hostid data) hostnqn (nvmf_ctrlr_init_visible_ns sub hostnqn) listener.

(** [nvmf_ctrlr_create]: [None] when it fails.  [mem] are the answers of the
    three allocations. *)
Definition nvmf_ctrlr_create (opts : transport_opts) (mem : bool * bool * bool) (s rid : nat) : CM (option nat) :=
  r ← c_req rid; let q := cr_qpair r in
  qp ← c_qpair q; sub ← c_sub s; c_assert (cq_group qp);;
  let '(m1, m2, m3) := mem in
  if negb (m1 && m2 && m3) then mret None
  else
    let listener := if ds_subtype (cb_info sub) =? SPDK_NVMF_SUBTYPE_NVME
      then trid ← cq_listen qp; id ← nvmf_subsystem_find_listener sub trid; Some (Some id) else Some None in
    match listener with
    | None => mret None
    | Some l =>
        c ← c_get sy_next;
        c_mod (fun y => y <| sy_ctrlrs := <[c := new_ctrlr opts s sub (cq_thread qp) (cr_cmd r) (cr_data r) l]> (sy_ctrlrs y) |> <| sy_next := S c |>);;
        nvmf_qpair_set_ctrlr q c;;
        send_msg (cb_thread sub) (MsgAddCtrlr rid);;
        mret (Some c)
    end.

(** The poll group's thread of an active admin queue pair. *)
Definition admin_thread (ct : conn_ctrlr) : CM (option Z) :=
  match cl_admin_qpair ct with
  | None => mret None
  | Some qa => qp ← c_qpair qa; mret (if spdk_nvmf_qpair_is_active qp && cq_group qp then Some (cq_thread qp) else None)
  end.

(** The [goto end] of [nvmf_ctrlr_add_io_qpair] and the early returns of
    [_nvmf_ctrlr_add_io_qpair]. *)
Definition refuse_io (cur : Z) (rid : nat) (respond : CM unit) : CM unit := respond;; connect_request_complete cur rid.
Definition refuse_io_qid (cur : Z) (rid : nat) : CM unit := refuse_io cur rid (SPDK_NVMF_INVALID_CONNECT_CMD rid cmd_ofst_qid).

(** [nvmf_ctrlr_add_io_qpair], on the thread of the controller. *)
Definition nvmf_ctrlr_add_io_qpair (cur : Z) (rid : nat) : CM unit :=
  r ← c_req rid; let q := cr_qpair r in
  qp ← c_qpair q; c ← c_need (fun _ => cq_ctrlr qp); ct ← c_ctrlr c;
  set_qpair_ctrlr q None;;
  sub ← c_sub (cl_subsys ct);
  let cc := vp_cc (ck_regs (cl_cc ct)) in
  if ck_in_destruct (cl_cc ct) then refuse_io_qid cur rid
  else if spdk_nvmf_subsystem_is_discovery sub then refuse_io_qid cur rid
  else if cc_en cc =? 0 then refuse_io_qid cur rid
  else if Z.shiftl 1 (cc_iosqes cc) !=? 64 then refuse_io_qid cur rid
  else if Z.shiftl 1 (cc_iocqes cc) !=? 16 then refuse_io_qid cur rid
  else
    t ← admin_thread ct;
    match t with
    | None => refuse_io_qid cur rid
    | Some _ =>
        if cl_cap ct <=? cq_qid qp
        then refuse_io cur rid (set_connect_status rid SPDK_NVME_SCT_COMMAND_SPECIFIC SPDK_NVME_SC_INVALID_QUEUE_IDENTIFIER)
        else nvmf_ctrlr_add_qpair cur q c rid
    end.

(** [_nvmf_ctrlr_add_io_qpair], on the thread of the subsystem. *)
Definition _nvmf_ctrlr_add_io_qpair (cur : Z) (rid : nat) : CM unit :=
  r ← c_req rid; let q := cr_qpair r in
  qp ← c_qpair q; c_assert (cr_iovcnt r =? 1);;
  s ← c_need (fun y => spdk_nvmf_tgt_find_subsystem (sy_subs y) (cd_subnqn (cr_data r))); sub ← c_sub s;
  o ← c_need (fun y => nvmf_subsystem_get_ctrlr (sy_ctrlrs y) (cb_ctrlrs sub) (cd_cntlid (cr_data r)));
  match o with
  | None => refuse_io cur rid (SPDK_NVMF_INVALID_CONNECT_DATA rid data_ofst_cntlid)
  | Some c =>
      ct ← c_ctrlr c;
      if ck_in_destruct (cl_cc ct) then refuse_io_qid cur rid
      else if cb_ana_reporting sub
              && match cq_listen qp with None => true | Some trid => bool_decide (nvmf_subsystem_find_listener sub trid <> cl_listener ct) end
      then refuse_io_qid cur rid
      else
        t ← admin_thread ct;
        match t with
        | None => refuse_io_qid cur rid
        | Some thread => set_qpair_ctrlr q (Some c);; send_msg thread (MsgCtrlrAddIoQpair rid)
        end
  end.

(** ** The Connect command *)

(** The end of [_nvmf_ctrlr_connect]'s checks: the queue pair takes the size
    and the identifier, and is counted. *)
Definition accept_qpair (q : nat) (cmd : connect_cmd) : CM unit :=
  mod_conn_qpair q (fun qp => qp <| cq_sq_head_max := cm_sqsize cmd |> <| cq_qid := cm_qid cmd |> <| cq_connect_received := true |>);;
  qp ← c_qpair q; c_assert (cq_group qp);;
  mod_conn_stat (cq_thread qp) (fun g => g <| gs_unassociated := u32 (gs_unassociated g - 1) |>);;
  mod_conn_stat (cq_thread qp) (fun g =>
    if cm_qid cmd =? 0 then g <| gs_admin := u32 (gs_admin g + 1) |> <| gs_current_admin := u32 (gs_current_admin g + 1) |>
    else g <| gs_io := u32 (gs_io g + 1) |> <| gs_current_io := u32 (gs_current_io g + 1) |>).

(** [_nvmf_ctrlr_connect] *)
Definition _nvmf_ctrlr_connect (opts : transport_opts) (mem : bool * bool * bool) (rid : nat) : CM exec_status :=
  r ← c_req rid; let q := cr_qpair r in let cmd := cr_cmd r in let data := cr_data r in
  subs ← c_get sy_subs;
  match spdk_nvmf_tgt_find_subsystem subs (cd_subnqn data) with
  | None => SPDK_NVMF_INVALID_CONNECT_DATA rid data_ofst_subnqn;; mret COMPLETE
  | Some s =>
      if cm_recfmt cmd !=? 0
      then set_connect_status rid SPDK_NVME_SCT_COMMAND_SPECIFIC SPDK_NVMF_FABRIC_SC_INCOMPATIBLE_FORMAT;; mret COMPLETE
      else if (cm_sqsize cmd =? 0) || ((if cm_qid cmd =? 0 then to_max_aq_depth opts else to_max_queue_depth opts) <=? cm_sqsize cmd)
      then SPDK_NVMF_INVALID_CONNECT_CMD rid cmd_ofst_sqsize;; mret COMPLETE
      else
        accept_qpair q cmd;;
        if cm_qid cmd =? 0 then
          if to_fabrics opts && (cd_cntlid data !=? 0xFFFF)
          then SPDK_NVMF_INVALID_CONNECT_DATA rid data_ofst_cntlid;; mret COMPLETE
          else
            c ← nvmf_ctrlr_create opts mem s rid;
            match c with
            | None => set_connect_sc rid SPDK_NVME_SC_INTERNAL_DEVICE_ERROR;; mret COMPLETE
            | Some _ => mret ASYNCHRONOUS
            end
        else sub ← c_sub s; send_msg (cb_thread sub) (MsgAddIoQpair rid);; mret ASYNCHRONOUS
  end.

(** States of a subsystem in which a Connect command has to wait. *)
Definition connect_waits (st : spdk_nvmf_subsystem_state) : bool :=
  match st with
  | SPDK_NVMF_SUBSYSTEM_INACTIVE | SPDK_NVMF_SUBSYSTEM_PAUSING | SPDK_NVMF_SUBSYSTEM_PAUSED | SPDK_NVMF_SUBSYSTEM_DEACTIVATING => true
  | _ => false
  end.

(** [nvmf_ctrlr_cmd_connect] *)
Definition nvmf_ctrlr_cmd_connect (opts : transport_opts) (mem : bool * bool * bool) (rid : nat) : CM exec_status :=
  r ← c_req rid; let q := cr_qpair r in let data := cr_data r in
  if cr_length r <? 1024 then set_connect_sc rid SPDK_NVME_SC_INVALID_FIELD;; mret COMPLETE
  else if 1 <? cr_iovcnt r then set_connect_sc rid SPDK_NVME_SC_INVALID_FIELD;; mret COMPLETE
  else
    subs ← c_get sy_subs;
    match spdk_nvmf_tgt_find_subsystem subs (cd_subnqn data) with
    | None => SPDK_NVMF_INVALID_CONNECT_DATA rid data_ofst_subnqn;; mret COMPLETE
    | Some s =>
        sub ← c_sub s;
        if connect_waits (ds_state (cb_info sub)) then
          sgroup ← nvmf_subsystem_pg_from_connect_cmd rid; k ← c_need (fun _ => sgroup);
          mod_conn_sgroup k (fun g => g <| cg_mgmt := u64 (cg_mgmt g - 1) |>);;
          connect_remove_outstanding rid;;
          c_mod (fun y => y <| sy_queued := sy_queued y ++ [(k, rid)] |>);;
          mret ASYNCHRONOUS
        else if negb (memchr0 (S SPDK_NVMF_NQN_MAX_LEN) (cd_hostnqn data))
        then SPDK_NVMF_INVALID_CONNECT_DATA rid data_ofst_hostnqn;; mret COMPLETE
        else
          qp ← c_qpair q;
          if negb (nvmf_qpair_access_allowed qp sub (cstr (cd_hostnqn data)))
          then set_connect_status rid SPDK_NVME_SCT_COMMAND_SPECIFIC SPDK_NVMF_FABRIC_SC_INVALID_HOST;; mret COMPLETE
          else _nvmf_ctrlr_connect opts mem rid
    end.

(** [nvmf_ctrlr_process_fabrics_cmd] of a Connect command: once the queue pair
    has a controller it is not a valid command. *)
Definition connect_process (opts : transport_opts) (mem : bool * bool * bool) (rid : nat) : CM exec_status :=
  r ← c_req rid; qp ← c_qpair (cr_qpair r);
  match cq_ctrlr qp with
  | None => nvmf_ctrlr_cmd_connect opts mem rid
  | Some _ => set_connect_status rid SPDK_NVME_SCT_GENERIC SPDK_NVME_SC_INVALID_OPCODE;; mret COMPLETE
  end.

(** [spdk_nvmf_request_exec] of a Connect command. *)
Definition connect_exec (opts : transport_opts) (mem : bool * bool * bool) (rid : nat) : CM unit :=
  ok ← connect_check_subsystem rid;
  if negb ok then mret tt
  else
    ok ← connect_check_qpair rid;
    if negb ok then mret tt
    else
      connect_insert_outstanding rid;;
      st ← connect_process opts mem rid;
      match st with COMPLETE => connect_complete rid | ASYNCHRONOUS => mret tt end.

(** [spdk_nvmf_qpair_disconnect] on the queue pair's own thread; the first call
    makes it deactivating.  When it has nothing outstanding any more - its other
    commands included - [EvDrained] calls [_nvmf_qpair_destroy]. *)
Definition spdk_nvmf_qpair_disconnect (q : nat) : CM unit :=
  qp ← c_qpair q;
  if spdk_nvmf_qpair_is_active qp then mod_conn_qpair q (fun qp => qp <| cq_state := SPDK_NVMF_QPAIR_DEACTIVATING |>) else mret tt.

(** [nvmf_ctrlr_send_connect_rsp]; [auth] is whether [nvmf_qpair_auth_init]
    succeeds. *)
Definition nvmf_ctrlr_send_connect_rsp (auth : bool) (cur : Z) (rid : nat) : CM unit :=
  r ← c_req rid; let q := cr_qpair r in
  qp ← c_qpair q; c ← c_need (fun _ => cq_ctrlr qp); ct ← c_ctrlr c;
  let finish :=
    c_assert (cq_group qp && (cur =? cq_thread qp));;
    mod_conn_req rid (fun r => r <| cr_rsp := (cr_rsp r) <| cp_sc := SPDK_NVME_SC_SUCCESS |> <| cp_lo := cl_cntlid ct |> |>);;
    connect_request_complete cur rid in
  match cq_state qp with
  | SPDK_NVMF_QPAIR_CONNECTING =>
      sub ← c_sub (cl_subsys ct);
      if nvmf_subsystem_host_auth_required sub (cl_hostnqn ct) then
        if negb auth then
          set_connect_status rid SPDK_NVME_SCT_GENERIC SPDK_NVME_SC_INTERNAL_DEVICE_ERROR;;
          connect_request_complete cur rid;;
          spdk_nvmf_qpair_disconnect q
        else
          mod_conn_req rid (fun r => r <| cr_rsp := (cr_rsp r) <| cp_hi := put_bits 1 1 1 (cp_hi (cr_rsp r)) |> |>);;
          mod_conn_qpair q (fun qp => qp <| cq_state := SPDK_NVMF_QPAIR_AUTHENTICATING |>);;
          finish
      else
        mod_conn_qpair q (fun qp => qp <| cq_state := SPDK_NVMF_QPAIR_ENABLED |>);;
        finish
  | SPDK_NVMF_QPAIR_DEACTIVATING => finish
  | _ => c_assert false
  end.

(** [spdk_nvmf_ctrlr_connect]: the entry of a transport that makes its own
    Connect commands. *)
Definition spdk_nvmf_ctrlr_connect (opts : transport_opts) (mem : bool * bool * bool) (rid : nat) : CM exec_status :=
  r ← c_req rid;
  status ← (if 1 <? cr_iovcnt r then set_connect_sc rid SPDK_NVME_SC_INVALID_FIELD;; mret COMPLETE
            else
              sgroup ← nvmf_subsystem_pg_from_connect_cmd rid;
              match sgroup with
              | None => SPDK_NVMF_INVALID_CONNECT_DATA rid data_ofst_subnqn;; mret COMPLETE
              | Some k =>
                  mod_conn_sgroup k (fun g => g <| cg_mgmt := u64 (cg_mgmt g + 1) |>);;
                  connect_insert_outstanding rid;;
                  _nvmf_ctrlr_connect opts mem rid
              end);
  match status with
  | COMPLETE => connect_complete rid;; mret COMPLETE
  | ASYNCHRONOUS => mret ASYNCHRONOUS
  end.

(** ** The end of a queue pair and of a controller: [nvmf.c] *)

(** [_nvmf_qpair_sgroup_req_clean] for the views of the poll group [t] whose
    subsystem satisfies [which]: the requests that wait there are freed. *)
Definition queued_of (y : conn_sys) (q : nat) (t : Z) (which : nat -> bool) (e : Z * nat * nat) : bool :=
  (e.1.1 =? t) && which e.1.2 && match sy_reqs y !! e.2 with Some r => bool_decide (cr_qpair r = q) | None => false end.
Definition _nvmf_qpair_sgroup_req_clean (q : nat) (t : Z) (which : nat -> bool) : CM unit :=
  c_mod (fun y =>
    y <| sy_queued := List.filter (fun e => negb (queued_of y q t which e)) (sy_queued y) |>
      <| sy_reqs := foldr (fun e m => delete (e.2 : nat) m) (sy_reqs y) (List.filter (queued_of y q t which) (sy_queued y)) |>).

(** [spdk_nvmf_poll_group_remove] *)
Definition spdk_nvmf_poll_group_remove (q : nat) : CM unit :=
  mod_conn_qpair q (fun qp => qp <| cq_state := SPDK_NVMF_QPAIR_ERROR |> <| cq_group := false |>).

(** The statistic a queue pair is counted in once it has its identifier. *)
Definition current_qpairs (qid : Z) (g : group_stat) : Z := if qid =? 0 then gs_current_admin g else gs_current_io g.

(** [_nvmf_qpair_destroy]; [nvmf_transport_qpair_fini] works on the queue pair
    until [_nvmf_transport_qpair_fini_complete]. *)
Definition _nvmf_qpair_destroy (q : nat) : CM unit :=
  qp ← c_qpair q;
  c_assert (bool_decide (cq_state qp = SPDK_NVMF_QPAIR_DEACTIVATING));; c_assert (cq_group qp);;
  y ← c_get (fun y => y);
  c_assert (negb (cq_connect_received qp) || (0 <? current_qpairs (cq_qid qp) (stat_of y (cq_thread qp))));;
  mod_conn_stat (cq_thread qp) (fun g =>
    if negb (cq_connect_received qp) then g <| gs_unassociated := u32 (gs_unassociated g - 1) |>
    else if cq_qid qp =? 0 then g <| gs_current_admin := u32 (gs_current_admin g - 1) |>
    else g <| gs_current_io := u32 (gs_current_io g - 1) |>);;
  match cq_ctrlr qp with
  | Some c => ct ← c_ctrlr c; _nvmf_qpair_sgroup_req_clean q (cq_thread qp) (fun s => bool_decide (s = cl_subsys ct))
  | None => _nvmf_qpair_sgroup_req_clean q (cq_thread qp) (fun _ => true)
  end;;
  spdk_nvmf_poll_group_remove q;;
  c_mod (fun y => y <| sy_fini := sy_fini y ++ [(q, cq_ctrlr qp, cq_qid qp)] |>).

(** [_nvmf_transport_qpair_fini_complete]: the queue pair's memory is gone. *)
Definition _nvmf_transport_qpair_fini_complete (q : nat) (oc : option nat) (qid : Z) : CM unit :=
  qp ← c_qpair q;
  c_mod (fun y => y <| sy_qpairs := delete q (sy_qpairs y) |>);;
  match oc with
  | None => mret tt
  | Some c =>
      (if qid =? 0 then
         ct ← c_ctrlr c; c_assert (cl_thread ct =? cq_thread qp);;
         mod_conn_ctrlr c (fun ct => upd_cc (fun cc => cc <| ck_admin_qpair := false |>) (ct <| cl_admin_qpair := None |>))
       else mret tt);;
      ct ← c_ctrlr c; send_msg (cl_thread ct) (MsgFreeFromQpair q c qid)
  end.

(** [_nvmf_ctrlr_free_from_qpair] with the message it sends. *)
Definition ctrlr_free_from_qpair (c : nat) (qid : Z) : CM unit :=
  ct ← c_ctrlr c;
  let cc := _nvmf_ctrlr_free_from_qpair qid (cl_cc ct) in
  mod_conn_ctrlr c (upd_cc (fun _ => cc));;
  if (size (ck_mask cc) =? 0)%nat then
    c_assert (negb (ck_in_destruct (cl_cc ct)));; sub ← c_sub (cl_subsys ct); send_msg (cb_thread sub) (MsgDestruct c)
  else mret tt.

(** [nvmf_ctrlr_destruct] *)
Definition nvmf_ctrlr_destruct (cur : Z) (c : nat) : CM unit :=
  ct ← c_ctrlr c; nvmf_subsystem_remove_ctrlr cur (cl_subsys ct) c;; send_msg (cl_thread ct) (MsgCtrlrDestruct c).

(** [_nvmf_ctrlr_destruct] of [ctrlr.c]: while a reset or shutdown is under way
    it is tried again. *)
Definition _nvmf_ctrlr_destruct (cur : Z) (c : nat) : CM unit :=
  ct ← c_ctrlr c; c_assert (cur =? cl_thread ct);; c_assert (ck_in_destruct (cl_cc ct));;
  if ck_disconnect_in_progress (cl_cc ct) then send_msg (cl_thread ct) (MsgCtrlrDestruct c)
  else c_mod (fun y => y <| sy_ctrlrs := delete c (sy_ctrlrs y) |>).

(** ** The machine *)

(** What happens: a queue pair is added to the poll group of a thread; a
    Connect command arrives, with as many buffers as its transport took for its
    data (none when its length is 0), the first of them holding [data]; the poll group's view of a subsystem becomes
    active or not, and a request that waits in an active one is executed again;
    a thread runs its oldest message; a poller expires; a queue pair is
    disconnected, has nothing outstanding any more, is taken down; the subsystem
    is configured anew; a property is set and a reset ends. *)
Inductive conn_event :=
| EvNewQpair (thread : Z) (listen : option spdk_nvme_transport_id)
| EvConnect (q : nat) (cmd : connect_cmd) (data : connect_data) (length iovcnt : Z) (mem : bool * bool * bool)
| EvSgroup (k : Z * nat) (active : bool)
| EvRelease (i : nat) (mem : bool * bool * bool)
| EvDeliver (thread now : Z) (auth : bool)
| EvRetry (i : nat)
| EvQpairDisconnect (q : nat)
| EvDrained (q : nat)
| EvFini (i : nat)
| EvConfigure (s : nat) (st : spdk_nvmf_subsystem_state) (any : bool) (hosts keyed : list bytes) (listeners : list listener)
| EvProperty (c : nat) (now attrib ofst value : Z)
| EvResetDone (c : nat) (now : Z).

(** The oldest message of a thread, and the others. *)
Fixpoint take_msg (t : Z) (l : list (Z * conn_msg)) : option (conn_msg * list (Z * conn_msg)) :=
  match l with
  | [] => None
  | (t', m) :: l => if t' =? t then Some (m, l) else '(m', l') ← take_msg t l; Some (m', (t', m) :: l')
  end.

Definition run_msg (opts : transport_opts) (cur now : Z) (auth : bool) (m : conn_msg) : CM unit :=
  match m with
  | MsgAddCtrlr rid => _nvmf_subsystem_add_ctrlr cur rid
  | MsgAddAdminQpair rid => _nvmf_ctrlr_add_admin_qpair opts cur now rid
  | MsgAddIoQpair rid => _nvmf_ctrlr_add_io_qpair cur rid
  | MsgCtrlrAddIoQpair rid => nvmf_ctrlr_add_io_qpair cur rid
  | MsgConnectRsp rid => nvmf_ctrlr_send_connect_rsp auth cur rid
  | MsgComplete rid => connect_complete rid
  | MsgFreeFromQpair _ c qid => ctrlr_free_from_qpair c qid
  | MsgDestruct c => nvmf_ctrlr_destruct cur c
  | MsgCtrlrDestruct c => _nvmf_ctrlr_destruct cur c
  end.

(** The registers of a live controller change ([CtrlrRegs]). *)
Definition on_registers (c : nat) (f : cc_ctrlr -> option cc_ctrlr) : CM unit :=
  fun y => match sy_ctrlrs y !! c with
           | Some ct => match f (cl_cc ct) with
                        | Some cc => Some (tt, y <| sy_ctrlrs := <[c := ct <| cl_cc := cc |>]> (sy_ctrlrs y) |>)
                        | None => None
                        end
           | None => Some (tt, y)
           end.

(** An event that cannot happen in a state changes nothing. *)
Definition conn_do (hz : Z) (opts : transport_opts) (e : conn_event) : CM unit :=
  match e with
  | EvNewQpair thread listen =>
      q ← c_get sy_next;
      c_mod (fun y => y <| sy_qpairs := <[q := ConnQpair SPDK_NVMF_QPAIR_CONNECTING 0 0 None thread true None [] false listen]> (sy_qpairs y) |>
                        <| sy_next := S q |>);;
      mod_conn_stat thread (fun g => g <| gs_unassociated := u32 (gs_unassociated g + 1) |>)
  | EvConnect q cmd data len iovcnt mem =>
      y ← c_get (fun y => y);
      match sy_qpairs y !! q with
      | Some qp =>
          if cq_group qp then
            rid ← c_get sy_next;
            c_mod (fun y => y <| sy_reqs := <[rid := ConnReq q cmd data len iovcnt (ConnectRsp 0 0 0 0)]> (sy_reqs y) |> <| sy_next := S rid |>);;
            connect_exec opts mem rid
          else mret tt
      | None => mret tt
      end
  | EvSgroup k active => mod_conn_sgroup k (fun g => g <| cg_active := active |>)
  | EvRelease i mem =>
      y ← c_get (fun y => y);
      match sy_queued y !! i with
      | Some (k, rid) =>
          if cg_active (sgroup_of y k) then c_mod (fun y => y <| sy_queued := delete i (sy_queued y) |>);; connect_exec opts mem rid else mret tt
      | None => mret tt
      end
  | EvDeliver thread now auth =>
      y ← c_get (fun y => y);
      match take_msg thread (sy_msgs y) with
      | Some (m, l) => c_mod (fun y => y <| sy_msgs := l |>);; run_msg opts thread now auth m
      | None => mret tt
      end
  | EvRetry i =>
      y ← c_get (fun y => y);
      match sy_pollers y !! i with
      | Some (q, thread) => c_mod (fun y => y <| sy_pollers := delete i (sy_pollers y) |>);; _retry_qid_check thread q
      | None => mret tt
      end
  | EvQpairDisconnect q => y ← c_get (fun y => y); match sy_qpairs y !! q with Some _ => spdk_nvmf_qpair_disconnect q | None => mret tt end
  | EvDrained q =>
      y ← c_get (fun y => y);
      match sy_qpairs y !! q with
      | Some qp => if bool_decide (cq_state qp = SPDK_NVMF_QPAIR_DEACTIVATING) && bool_decide (cq_outstanding qp = [])
                   then _nvmf_qpair_destroy q else mret tt
      | None => mret tt
      end
  | EvFini i =>
      y ← c_get (fun y => y);
      match sy_fini y !! i with
      | Some (q, oc, qid) => c_mod (fun y => y <| sy_fini := delete i (sy_fini y) |>);; _nvmf_transport_qpair_fini_complete q oc qid
      | None => mret tt
      end
  | EvConfigure s st any hosts keyed listeners =>
      y ← c_get (fun y => y);
      match sy_subs y !! s with
      | Some _ => mod_conn_sub s (fun sub => let i := cb_info sub in
          sub <| cb_info := DiscSubsystem st any hosts listeners (ds_subtype i) (ds_subnqn i) |> <| cb_keyed := keyed |>)
      | None => mret tt
      end
  | EvProperty c now attrib ofst value => on_registers c (fun cc => fst <$> nvmf_property_set hz now attrib ofst value cc)
  | EvResetDone c now => on_registers c (fun cc => Some (_nvmf_ctrlr_cc_reset_shn_done now cc).1)
  end.

Definition conn_step (hz : Z) (opts : transport_opts) (e : conn_event) (y : conn_sys) : option conn_sys := snd <$> conn_do hz opts e y.
Fixpoint conn_run (hz : Z) (opts : transport_opts) (es : list conn_event) (y : conn_sys) : option conn_sys :=
  match es with
  | [] => Some y
  | e :: es => y ← conn_step hz opts e y; conn_run hz opts es y
  end.

(** A target with its subsystems and nobody connected. *)
Definition conn_init (subs : list conn_subsys) : conn_sys := ConnSys subs ∅ ∅ ∅ 0 [] [] [] [] ∅ ∅ [].

(** ** Symbolic execution of the handlers *)

Definition cwp {A} (m : CM A) (y : conn_sys) (Q : A -> conn_sys -> Prop) : Prop := match m y with Some (a, y') => Q a y' | None => False end.

Section Cwp.
Context {A B : Type} (y : conn_sys).

Lemma cwp_some (m : CM A) Q : cwp m y Q <-> exists a y', m y = Some (a, y') /\ Q a y'.
Proof. unfold cwp. destruct (m y) as [[a y']|]; [|by split; [|intros (?&?&?&_)]]. split; [by exists a, y'|]. intros (? & ? & [= <- <-] & ?). done. Qed.
Lemma cwp_bind (m : CM B) (k : B -> CM A) Q : cwp m y (fun b y' => cwp (k b) y' Q) -> cwp (m ≫= k) y Q.
Proof. unfold cwp, mbind, CM_bind. by destruct (m y) as [[b y']|]. Qed.
Lemma cwp_mono (m : CM A) (Q Q' : A -> conn_sys -> Prop) : cwp m y Q -> (forall a y', Q a y' -> Q' a y') -> cwp m y Q'.
Proof. unfold cwp. destruct (m y) as [[b y']|]; [|done]. auto. Qed.
Lemma cwp_ret (a : A) (Q : A -> conn_sys -> Prop) : Q a y -> cwp (mret a) y Q.
Proof. done. Qed.
Lemma cwp_need (f : conn_sys -> option A) a (Q : A -> conn_sys -> Prop) : f y = Some a -> Q a y -> cwp (c_need f) y Q.
Proof. unfold cwp, c_need. by intros ->. Qed.
Lemma cwp_get (f : conn_sys -> A) (Q : A -> conn_sys -> Prop) : Q (f y) y -> cwp (c_get f) y Q.
Proof. done. Qed.
Lemma cwp_assert b (Q : unit -> conn_sys -> Prop) : b = true -> Q tt y -> cwp (c_assert b) y Q.
Proof. unfold cwp, c_assert. by intros ->. Qed.
Lemma cwp_mod f (Q : unit -> conn_sys -> Prop) : Q tt (f y) -> cwp (c_mod f) y Q.
Proof. done. Qed.
Lemma cwp_mod_req rid f r (Q : unit -> conn_sys -> Prop) : sy_reqs y !! rid = Some r ->
  Q tt (y <| sy_reqs := <[rid := f r]> (sy_reqs y) |>) -> cwp (mod_conn_req rid f) y Q.
Proof. intros H HQ. unfold cwp, mod_conn_req, c_req, c_need, mbind, CM_bind. by rewrite H. Qed.
Lemma cwp_mod_qpair q f qp (Q : unit -> conn_sys -> Prop) : sy_qpairs y !! q = Some qp ->
  Q tt (y <| sy_qpairs := <[q := f qp]> (sy_qpairs y) |>) -> cwp (mod_conn_qpair q f) y Q.
Proof. intros H HQ. unfold cwp, mod_conn_qpair, c_qpair, c_need, mbind, CM_bind. by rewrite H. Qed.
Lemma cwp_mod_ctrlr c f ct (Q : unit -> conn_sys -> Prop) : sy_ctrlrs y !! c = Some ct ->
  Q tt (y <| sy_ctrlrs := <[c := f ct]> (sy_ctrlrs y) |>) -> cwp (mod_conn_ctrlr c f) y Q.
Proof. intros H HQ. unfold cwp, mod_conn_ctrlr, c_ctrlr, c_need, mbind, CM_bind. by rewrite H. Qed.
Lemma cwp_mod_sub s f sub (Q : unit -> conn_sys -> Prop) : sy_subs y !! s = Some sub ->
  Q tt (y <| sy_subs := <[s := f sub]> (sy_subs y) |>) -> cwp (mod_conn_sub s f) y Q.
Proof. intros H HQ. unfold cwp, mod_conn_sub, c_sub, c_need, mbind, CM_bind. by rewrite H. Qed.
End Cwp.

(** Reduction of field accesses of updated records, and nothing else. *)
Ltac csimp := cbn [set fst snd
  sy_subs sy_ctrlrs sy_qpairs sy_reqs sy_next sy_msgs sy_queued sy_pollers sy_fini sy_sgroups sy_stats sy_answers
  cq_state cq_qid cq_sq_head_max cq_ctrlr cq_thread cq_group cq_connect_req cq_outstanding cq_connect_received cq_listen
  cr_qpair cr_cmd cr_data cr_length cr_iovcnt cr_rsp cp_sct cp_sc cp_lo cp_hi cg_active cg_mgmt
  cl_cntlid cl_dynamic cl_subsys cl_thread cl_cap cl_admin_qpair cl_cc cl_aec cl_nqueues cl_hostid cl_hostnqn cl_visible_ns cl_listener
  cb_info cb_keyed cb_thread cb_ana_reporting cb_ns cb_min_cntlid cb_max_cntlid cb_next_cntlid cb_ctrlrs
  ck_mask ck_in_destruct ck_admin_qpair ck_regs ck_disconnect_in_progress upd_cc].

Ltac clookup := csimp; first [eassumption | apply list_lookup_insert_eq; eapply lookup_lt_Some; eassumption | by simplify_map_eq
  | by rewrite ?lookup_insert_eq].

(** One step; assertions are left to the caller. *)
Ltac cstep :=
  lazymatch goal with
  | |- cwp (mbind _ _) _ _ => apply cwp_bind
  | |- cwp (mret _) _ _ => apply cwp_ret
  | |- cwp (c_get _) _ _ => apply cwp_get
  | |- cwp (c_mod _) _ _ => apply cwp_mod
  | |- cwp (send_msg _ _) _ _ => apply cwp_mod
  | |- cwp (mod_conn_sgroup _ _) _ _ => apply cwp_mod
  | |- cwp (mod_conn_stat _ _) _ _ => apply cwp_mod
  | |- cwp (c_req _) _ _ => eapply cwp_need; [clookup|]
  | |- cwp (c_qpair _) _ _ => eapply cwp_need; [clookup|]
  | |- cwp (c_ctrlr _) _ _ => eapply cwp_need; [clookup|]
  | |- cwp (c_sub _) _ _ => eapply cwp_need; [clookup|]
  | |- cwp (c_need _) _ _ => eapply cwp_need; [clookup|]
  | |- cwp (mod_conn_req _ _) _ _ => eapply cwp_mod_req; [clookup|]
  | |- cwp (set_connect_status _ _ _) _ _ => eapply cwp_mod_req; [clookup|]
  | |- cwp (set_connect_sc _ _) _ _ => eapply cwp_mod_req; [clookup|]
  | |- cwp (nvmf_invalid_connect_response _ _ _) _ _ => eapply cwp_mod_req; [clookup|]
  | |- cwp (SPDK_NVMF_INVALID_CONNECT_CMD _ _) _ _ => eapply cwp_mod_req; [clookup|]
  | |- cwp (SPDK_NVMF_INVALID_CONNECT_DATA _ _) _ _ => eapply cwp_mod_req; [clookup|]
  | |- cwp (mod_conn_qpair _ _) _ _ => eapply cwp_mod_qpair; [clookup|]
  | |- cwp (set_qpair_ctrlr _ _) _ _ => eapply cwp_mod_qpair; [clookup|]
  | |- cwp (mod_conn_ctrlr _ _) _ _ => eapply cwp_mod_ctrlr; [clookup|]
  | |- cwp (mod_conn_sub _ _) _ _ => eapply cwp_mod_sub; [clookup|]
  end; cbv beta iota; csimp.
Ltac csteps := repeat cstep.

(** ** The next controller identifier *)

(** The identifiers in the order they are given out. *)
Definition cntlid_after (min max x : Z) : Z := if max <? x + 1 then min else x + 1.
Definition cntlid_nth (min max next : Z) (i : nat) : Z := Nat.iter i (cntlid_after min max) next.

Definition cntlid_used (m : gmap nat conn_ctrlr) (l : list nat) (x : Z) : Prop := exists c ct, c ∈ l /\ m !! c = Some ct /\ cl_cntlid ct = x.

Lemma get_ctrlr_spec m l cntlid : (forall c, c ∈ l -> is_Some (m !! c)) -> exists o, nvmf_subsystem_get_ctrlr m l cntlid = Some o /\
  match o with
  | Some c => c ∈ l /\ exists ct, m !! c = Some ct /\ cl_cntlid ct = cntlid
  | None => ~ cntlid_used m l cntlid
  end.
Proof.
  induction l as [|c l IH]; intros Hl; cbn.
  - exists None. split; [done|]. intros (c & ct & Hc & _). by apply not_elem_of_nil in Hc.
  - destruct (Hl c) as [ct Hct]; [set_solver|]. rewrite Hct. cbn. destruct (Z.eqb_spec (cl_cntlid ct) cntlid) as [E|E].
    + exists (Some c). split; [done|]. split; [set_solver|]. by exists ct.
    + destruct IH as (o & -> & H); [set_solver|]. exists o. split; [done|]. destruct o as [c'|].
      * destruct H as [H1 H2]. split; [set_solver|done].
      * intros (c' & ct' & [->|Hc']%elem_of_cons & Hm & Hx); [congruence|]. apply H. by exists c', ct'.
Qed.

Lemma cntlid_after_range min max x : min <= max -> min - 1 <= x <= max -> min <= cntlid_after min max x <= max.
Proof. intros. unfold cntlid_after. destruct (Z.ltb_spec max (x + 1)); lia. Qed.
Lemma cntlid_nth_S min max next i : cntlid_nth min max next (S i) = cntlid_after min max (cntlid_nth min max next i).
Proof. done. Qed.
Lemma cntlid_nth_range min max next i : min <= max -> min - 1 <= next <= max -> min <= cntlid_nth min max next (S i) <= max.
Proof.
  intros H Hn. induction i as [|i IH]; [by apply cntlid_after_range|].
  change (cntlid_nth min max next (S (S i))) with (cntlid_after min max (cntlid_nth min max next (S i))). apply cntlid_after_range; lia.
Qed.

Section GenCntlid.
Context (m : gmap nat conn_ctrlr) (min max : Z) (l : list nat).
Hypotheses (Hlive : forall c, c ∈ l -> is_Some (m !! c)) (Hr : NVMF_MIN_CNTLID <= min <= max /\ max <= NVMF_MAX_CNTLID).

Lemma gen_cntlid_loop_spec count s : cb_min_cntlid s = min -> cb_max_cntlid s = max -> cb_ctrlrs s = l -> min - 1 <= cb_next_cntlid s <= max ->
  (exists j, (j < count)%nat /\ let x := cntlid_nth min max (cb_next_cntlid s) (S j) in
     gen_cntlid_loop m count s = Some (s <| cb_next_cntlid := x |>, x) /\ ~ cntlid_used m l x /\
     forall i, (i < j)%nat -> cntlid_used m l (cntlid_nth min max (cb_next_cntlid s) (S i))) \/
  (gen_cntlid_loop m count s = Some (s <| cb_next_cntlid := cntlid_nth min max (cb_next_cntlid s) count |>, 0xFFFF) /\
   forall i, (i < count)%nat -> cntlid_used m l (cntlid_nth min max (cb_next_cntlid s) (S i))).
Proof.
  revert s. induction count as [|count IH]; intros s H1 H2 H3 H4.
  - right. split; [|lia]. by destruct s.
  - cbn [gen_cntlid_loop]. unfold NVMF_MIN_CNTLID, NVMF_MAX_CNTLID in Hr. rewrite u16_small, H1, H2 by lia.
    change (if max <? _ then min else _) with (cntlid_after min max (cb_next_cntlid s)).
    pose proof (cntlid_nth_range min max (cb_next_cntlid s) 0 ltac:(lia) H4) as Hx. cbn in Hx. set (x := cntlid_after min max (cb_next_cntlid s)) in *.
    set (s1 := s <| cb_next_cntlid := x |>). destruct (get_ctrlr_spec m l x Hlive) as (o & Ho & Hspec).
    change (cb_ctrlrs s1) with (cb_ctrlrs s). rewrite H3, Ho. cbn [mbind option_bind]. destruct o as [c|].
    + assert (forall i, cntlid_nth min max (cb_next_cntlid s) (S i) = cntlid_nth min max x i) as Hsh.
      { intros i. unfold cntlid_nth, x. by rewrite Nat.iter_succ_r. }
      destruct Hspec as (Hin & ct & Hct & Hcx).
      destruct (IH s1 H1 H2 H3 ltac:(subst s1; cbn; lia)) as [(j & Hj & E & Hf & Hu)|[E Hu]]; cbn [cb_next_cntlid set s1] in E, Hu |- *.
      * left. exists (S j). split; [lia|]. cbv zeta. rewrite Hsh. split; [exact E|]. split; [exact Hf|]. intros [|i] Hi; [|rewrite Hsh; apply Hu; lia].
        rewrite Hsh. by exists c, ct.
      * right. rewrite Hsh. split; [exact E|]. intros [|i] Hi; [|rewrite Hsh; apply Hu; lia]. rewrite Hsh. by exists c, ct.
    + left. exists 0%nat. split; [lia|]. split; [done|]. split; [done|]. lia.
Qed.

(** Every identifier comes up in as many turns as there are identifiers. *)
Lemma cntlid_nth_onto next x : min - 1 <= next <= max -> min <= x <= max ->
  exists i, (i < Z.to_nat (max - min + 1))%nat /\ cntlid_nth min max next (S i) = x.
Proof.
  intros Hn Hx.
  assert (forall i, Z.of_nat i <= max - next -> cntlid_nth min max next i = next + Z.of_nat i) as Hup.
  { induction i as [|i IH]; intros Hi; [cbn; lia|]. rewrite cntlid_nth_S, IH by lia. unfold cntlid_after.
    destruct (Z.ltb_spec max (next + Z.of_nat i + 1)); lia. }
  assert (forall i, Z.of_nat i <= max - min -> cntlid_nth min max next (Z.to_nat (max - next) + S i) = min + Z.of_nat i) as Hdown.
  { induction i as [|i IH]; intros Hi.
    - replace (Z.to_nat (max - next) + 1)%nat with (S (Z.to_nat (max - next))) by lia. rewrite cntlid_nth_S, Hup by lia.
      unfold cntlid_after. destruct (Z.ltb_spec max (next + Z.of_nat (Z.to_nat (max - next)) + 1)); lia.
    - replace (Z.to_nat (max - next) + S (S i))%nat with (S (Z.to_nat (max - next) + S i)) by lia. rewrite cntlid_nth_S, IH by lia.
      unfold cntlid_after. destruct (Z.ltb_spec max (min + Z.of_nat i + 1)); lia. }
  destruct (Z.le_gt_cases x next) as [Hle|Hgt].
  - exists (Z.to_nat (max - next) + Z.to_nat (x - min))%nat. split; [lia|]. rewrite <- Nat.add_succ_r, Hdown by lia. lia.
  - exists (Z.to_nat (x - next - 1)). split; [lia|]. rewrite Hup by lia. lia.
Qed.
End GenCntlid.
