(* ===== verification/ConnectInv.v ===== *)
(** * What the Connect machine keeps: the life of queue pairs and controllers

    Every queue pair and every controller of the target goes through a life of
    a few stages, and each stage has at most one message, poller or list entry
    that will move it on.  [rep] relates a state of the machine of [Connect] to
    these stages; the lemmas show that the handlers keep the relation. *)
From S2P Require Import Prelude NvmeSpec Iov World CtrlrRegs AsyncEvents Discovery Connect.

(** ** Stages *)

(** What the Connect request of a queue pair waits for, or is being handled
    for: the controller it is given at that point is named, and the thread of its
    poller. *)
Inductive wait :=
| WHere | WAddCtrlr (c : nat) | WAddAdmin (c : nat) | WAddIo | WCtrlrAddIo (c : nat) | WRetry (c : nat) (t : Z) | WComplete.

(** The life of a queue pair.  [r] is its Connect request, [k] the poll group
    and subsystem the request is counted in, [n] the queue identifier it holds
    in the mask of controller [c]. *)
Inductive stage :=
| SIdle
| SHand (r : nat) (h : option (nat * Z))
| SQueued (r : nat) (k : Z * nat) (h : option (nat * Z))
| SRun (r : nat) (k : Z * nat) (w : wait)
| SWait (r : nat) (k : Z * nat) (w : wait)
| SRsp (r : nat) (k : Z * nat) (c : nat) (n : Z)
| SRunH (r : nat) (k : Z * nat) (c : nat) (n : Z)
| SAttached (c : nat) (n : Z)
| SFini (oc : option nat) (n : Z)
| SFree (c : nat) (n : Z).

(** The life of a controller: created by queue pair [q]; on the list, its admin
    queue to be added; in use; its destruction asked for; off the list. *)
Inductive cstage := CNew (q : nat) | CAdmin (q : nat) | CLive | CDestruct | CGone.

Definition wait_ctrlr (w : wait) : option nat :=
  match w with WAddCtrlr c | WAddAdmin c | WCtrlrAddIo c | WRetry c _ => Some c | _ => None end.
Definition stage_ctrlr (st : stage) : option nat :=
  match st with
  | SIdle => None
  | SHand _ h | SQueued _ _ h => fst <$> h
  | SRun _ _ w | SWait _ _ w => wait_ctrlr w
  | SRsp _ _ c _ | SRunH _ _ c _ | SAttached c _ | SFree c _ => Some c
  | SFini oc _ => oc
  end.
Definition stage_req (st : stage) : option nat :=
  match st with
  | SHand r _ | SQueued r _ _ | SRun r _ _ | SWait r _ _ | SRsp r _ _ _ | SRunH r _ _ _ => Some r
  | _ => None
  end.
(** Where the request is counted; [stage_group] also when it waits uncounted. *)
Definition stage_key (st : stage) : option (Z * nat) :=
  match st with SRun _ k _ | SWait _ k _ | SRsp _ k _ _ | SRunH _ k _ _ => Some k | _ => None end.
Definition stage_group (st : stage) : option (Z * nat) := match st with SQueued _ k _ => Some k | _ => stage_key st end.
Definition stage_out (st : stage) : list nat := match stage_key st with Some _ => option_list (stage_req st) | None => [] end.
(** The queue identifier held in a controller's mask. *)
Definition holding (st : stage) : option (nat * Z) :=
  match st with
  | SHand _ h | SQueued _ _ h => h
  | SRsp _ _ c n | SRunH _ _ c n | SAttached c n | SFini (Some c) n | SFree c n => Some (c, n)
  | _ => None
  end.
Definition stage_qid (st : stage) : option Z := match st with SFini _ n => Some n | _ => snd <$> holding st end.
Definition is_fini (st : stage) : bool := match st with SFini _ _ => true | _ => false end.
Definition is_free (st : stage) : bool := match st with SFree _ _ => true | _ => false end.
(** The states of the queue pair. *)
Definition connecting (x : spdk_nvmf_qpair_state) : bool :=
  match x with SPDK_NVMF_QPAIR_CONNECTING | SPDK_NVMF_QPAIR_DEACTIVATING => true | _ => false end.
Definition in_group (x : spdk_nvmf_qpair_state) : bool :=
  match x with
  | SPDK_NVMF_QPAIR_CONNECTING | SPDK_NVMF_QPAIR_AUTHENTICATING | SPDK_NVMF_QPAIR_ENABLED | SPDK_NVMF_QPAIR_DEACTIVATING => true
  | _ => false
  end.
Definition state_ok (st : stage) (x : spdk_nvmf_qpair_state) : bool :=
  match st with
  | SFini _ _ => bool_decide (x = SPDK_NVMF_QPAIR_ERROR)
  | SRsp _ _ _ _ => connecting x
  | _ => match holding st with None => connecting x | Some _ => in_group x end
  end.
(** Stages of admin and of I/O queue pairs. *)
Definition admin_wait (w : wait) : bool := match w with WAddCtrlr _ | WAddAdmin _ => true | _ => false end.
Definition io_wait (w : wait) : bool := match w with WAddIo | WCtrlrAddIo _ | WRetry _ _ => true | _ => false end.
Definition stage_wait (st : stage) : option wait := match st with SRun _ _ w | SWait _ _ w => Some w | _ => None end.
Definition is_admin (st : stage) : bool := match stage_wait st with Some w => admin_wait w | None => false end.
Definition is_io_stage (st : stage) : bool := match stage_wait st with Some w => io_wait w | None => false end.

(** ** What moves a stage on *)

Inductive token := TMsg (m : conn_msg) | TQueue (e : Z * nat * nat) | TPoll (e : nat * Z) | TFini (f : nat * option nat * Z).

Definition wait_token (q r : nat) (w : wait) : list token :=
  match w with
  | WHere => []
  | WAddCtrlr _ => [TMsg (MsgAddCtrlr r)] | WAddAdmin _ => [TMsg (MsgAddAdminQpair r)] | WAddIo => [TMsg (MsgAddIoQpair r)]
  | WCtrlrAddIo _ => [TMsg (MsgCtrlrAddIoQpair r)] | WRetry _ t => [TPoll (q, t)] | WComplete => [TMsg (MsgComplete r)]
  end.
Definition stage_tokens (q : nat) (st : stage) : list token :=
  match st with
  | SQueued r k _ => [TQueue (k, r)]
  | SWait r _ w => wait_token q r w
  | SRsp r _ _ _ => [TMsg (MsgConnectRsp r)]
  | SFini oc n => [TFini (q, oc, n)]
  | SFree c n => [TMsg (MsgFreeFromQpair q c n)]
  | _ => []
  end.
Definition cstage_tokens (c : nat) (cst : cstage) : list token :=
  match cst with CDestruct => [TMsg (MsgDestruct c)] | CGone => [TMsg (MsgCtrlrDestruct c)] | _ => [] end.

Definition tokens (msgs : list (Z * conn_msg)) (queued : list (Z * nat * nat)) (pollers : list (nat * Z))
    (fini : list (nat * option nat * Z)) : list token :=
  ((TMsg ∘ snd) <$> msgs) ++ (TQueue <$> queued) ++ (TPoll <$> pollers) ++ (TFini <$> fini).

Definition flat {A B} (f : nat -> A -> list B) (m : gmap nat A) : list B := concat ((fun p => f p.1 p.2) <$> map_to_list m).
Definition counted (qs : gmap nat stage) : list (Z * nat) := flat (fun _ st => option_list (stage_key st)) qs.
Definition count_key (k : Z * nat) (l : list (Z * nat)) : nat := length (filter (fun x => x = k) l).

(** ** The relation *)

Record q_facts (subs : list conn_subsys) (reqs : gmap nat conn_req) (q : nat) (st : stage) (qp : conn_qpair) : Prop := {
  qf_ctrlr : cq_ctrlr qp = stage_ctrlr st;
  qf_out : cq_outstanding qp = stage_out st;
  qf_group : cq_group qp = negb (is_fini st);
  qf_state : state_ok st (cq_state qp) = true;
  qf_qid n : stage_qid st = Some n -> cq_qid qp = n;
  qf_admin : is_admin st = true -> cq_qid qp = 0;
  qf_io : is_io_stage st = true -> cq_qid qp <> 0;
  qf_thread k : stage_group st = Some k -> k.1 = cq_thread qp;
  qf_retry r k c t : st = SWait r k (WRetry c t) -> cq_connect_req qp = Some r;
  qf_req r : stage_req st = Some r -> exists rq, reqs !! r = Some rq /\ cr_qpair rq = q /\ cr_iovcnt rq = 1 /\
    (forall k, stage_group st = Some k -> holding st = None -> spdk_nvmf_tgt_find_subsystem subs (cd_subnqn (cr_data rq)) = Some k.2) }.

(** What a queue pair's stage says of its controller. *)
Record link_facts (cs : gmap nat cstage) (q : nat) (st : stage) (t : Z) (c : nat) (ct : conn_ctrlr) : Prop := {
  lf_subsys k : stage_group st = Some k -> cl_subsys ct = k.2;
  lf_thread : is_admin st = true \/ (exists n, holding st = Some (c, n) /\ n = 0) -> cl_thread ct = t;
  lf_new : stage_wait st = Some (WAddCtrlr c) -> cs !! c = Some (CNew q);
  lf_admin : stage_wait st = Some (WAddAdmin c) -> cs !! c = Some (CAdmin q);
  lf_io q' : is_io_stage st = true -> cs !! c <> Some (CNew q');
  lf_retry t' : stage_wait st = Some (WRetry c t') -> t' = cl_thread ct }.

Definition listed (cst : cstage) : bool := match cst with CNew _ | CGone => false | _ => true end.
Definition destructing (cst : cstage) : bool := match cst with CDestruct | CGone => true | _ => false end.

Record c_facts (subs : list conn_subsys) (qs : gmap nat stage) (c : nat) (cst : cstage) (ct : conn_ctrlr) : Prop := {
  cf_sub : exists sub, subs !! cl_subsys ct = Some sub /\ (c ∈ cb_ctrlrs sub <-> listed cst = true);
  cf_destruct : ck_in_destruct (cl_cc ct) = destructing cst;
  cf_empty : cst <> CLive -> ck_mask (cl_cc ct) = ∅;
  cf_live : cst = CLive -> ck_mask (cl_cc ct) <> ∅;
  cf_adminq qa : cl_admin_qpair ct = Some qa -> exists st, qs !! qa = Some st /\ holding st = Some (c, 0) /\ is_free st = false;
  cf_new q : cst = CNew q -> exists st, qs !! q = Some st /\ stage_wait st = Some (WAddCtrlr c);
  cf_admin q : cst = CAdmin q -> exists st, qs !! q = Some st /\ stage_wait st = Some (WAddAdmin c) }.

(** Identifiers of the controllers of a subsystem. *)
Record sub_facts (ctrlrs : gmap nat conn_ctrlr) (s : nat) (sub : conn_subsys) : Prop := {
  sf_nodup : NoDup (cb_ctrlrs sub);
  sf_member c : c ∈ cb_ctrlrs sub -> exists ct, ctrlrs !! c = Some ct /\ cl_subsys ct = s /\
    (cl_dynamic ct = true -> cb_min_cntlid sub <= cl_cntlid ct <= cb_max_cntlid sub);
  sf_cntlid c c' ct ct' : c ∈ cb_ctrlrs sub -> c' ∈ cb_ctrlrs sub -> ctrlrs !! c = Some ct -> ctrlrs !! c' = Some ct' ->
    cl_cntlid ct = cl_cntlid ct' -> c = c';
  sf_range : NVMF_MIN_CNTLID <= cb_min_cntlid sub <= cb_max_cntlid sub /\ cb_max_cntlid sub <= NVMF_MAX_CNTLID;
  sf_next : cb_min_cntlid sub - 1 <= cb_next_cntlid sub <= cb_max_cntlid sub }.

(** [m] comes before every [m'] in the messages. *)
Definition before (m m' : conn_msg) (msgs : list (Z * conn_msg)) : Prop :=
  forall l1 t l2, msgs = l1 ++ (t, m) :: l2 -> m' ∉ snd <$> l1.

(** The messages a queue pair waits for that have to reach one thread: that of
    its controller, to be added to it, and then its own. *)
Definition due (st : stage) : option conn_msg :=
  match st with
  | SWait r _ (WCtrlrAddIo _) => Some (MsgCtrlrAddIoQpair r) | SWait r _ (WAddAdmin _) => Some (MsgAddAdminQpair r)
  | SRsp r _ _ _ => Some (MsgConnectRsp r)
  | _ => None
  end.
Definition due_at (ctrlrs : gmap nat conn_ctrlr) (st : stage) (t : Z) : Prop :=
  match st with
  | SWait _ _ (WCtrlrAddIo c | WAddAdmin c) => forall ct, ctrlrs !! c = Some ct -> t = cl_thread ct
  | SRsp _ k _ _ => t = k.1
  | _ => True
  end.

(** The messages to a controller's thread: those that add a queue pair come
    before the one that frees it. *)
Record fifo (ctrlrs : gmap nat conn_ctrlr) (qs : gmap nat stage) (msgs : list (Z * conn_msg)) : Prop := {
  ff_order q r k c : qs !! q = Some (SWait r k (WCtrlrAddIo c)) -> before (MsgCtrlrAddIoQpair r) (MsgCtrlrDestruct c) msgs;
  ff_due q st m t : qs !! q = Some st -> due st = Some m -> (t, m) ∈ msgs -> due_at ctrlrs st t;
  ff_free c ct t : ctrlrs !! c = Some ct -> (t, MsgCtrlrDestruct c) ∈ msgs -> t = cl_thread ct }.

Record rep (y : conn_sys) (qs : gmap nat stage) (cs : gmap nat cstage) : Prop := {
  r_tok : tokens (sy_msgs y) (sy_queued y) (sy_pollers y) (sy_fini y) ≡ₚ flat stage_tokens qs ++ flat cstage_tokens cs;
  r_q q st : qs !! q = Some st -> if is_free st then sy_qpairs y !! q = None
    else exists qp, sy_qpairs y !! q = Some qp /\ q_facts (sy_subs y) (sy_reqs y) q st qp;
  r_q' q : is_Some (sy_qpairs y !! q) -> is_Some (qs !! q);
  r_req r rq : sy_reqs y !! r = Some rq -> exists st, qs !! cr_qpair rq = Some st /\ stage_req st = Some r;
  r_link q st c : qs !! q = Some st -> stage_ctrlr st = Some c -> exists ct, sy_ctrlrs y !! c = Some ct /\
    forall qp, sy_qpairs y !! q = Some qp -> link_facts cs q st (cq_thread qp) c ct;
  r_c c cst : cs !! c = Some cst -> exists ct, sy_ctrlrs y !! c = Some ct /\ c_facts (sy_subs y) qs c cst ct;
  r_c' c : is_Some (sy_ctrlrs y !! c) -> is_Some (cs !! c);
  r_mask c ct n : sy_ctrlrs y !! c = Some ct -> n ∈ ck_mask (cl_cc ct) <-> exists q st, qs !! q = Some st /\ holding st = Some (c, n);
  r_uniq q q' st st' p : qs !! q = Some st -> qs !! q' = Some st' -> holding st = Some p -> holding st' = Some p -> q = q';
  r_subs s sub : sy_subs y !! s = Some sub -> sub_facts (sy_ctrlrs y) s sub;
  r_fifo : fifo (sy_ctrlrs y) qs (sy_msgs y);
  r_nextq q : is_Some (qs !! q) -> (q < sy_next y)%nat;
  r_nextc c : is_Some (cs !! c) -> (c < sy_next y)%nat;
  r_nextr r : is_Some (sy_reqs y !! r) -> (r < sy_next y)%nat;
  r_mgmt k : cg_mgmt (sgroup_of y k) = Z.of_nat (count_key k (counted qs));
  r_ans : NoDup (sy_answers y).*1 /\ forall r, r ∈ (sy_answers y).*1 -> sy_reqs y !! r = None /\ (r < sy_next y)%nat }.

(** ** Lists over a map *)

Section Flat.
Context {A B : Type} (f : nat -> A -> list B).
Implicit Types m : gmap nat A.

Lemma flat_insert m i x : m !! i = None -> flat f (<[i := x]> m) ≡ₚ f i x ++ flat f m.
Proof. intros H. unfold flat. rewrite (map_to_list_insert m i x H). done. Qed.

Lemma flat_delete m i x : m !! i = Some x -> flat f m ≡ₚ f i x ++ flat f (delete i m).
Proof. intros H. rewrite <- (insert_delete_id m i x H) at 1. apply flat_insert, lookup_delete_eq. Qed.

Lemma flat_update m i x : flat f (<[i := x]> m) ≡ₚ f i x ++ flat f (delete i m).
Proof. rewrite <- insert_delete_eq. apply flat_insert, lookup_delete_eq. Qed.

Lemma elem_of_flat m b : b ∈ flat f m <-> exists i x, m !! i = Some x /\ b ∈ f i x.
Proof.
  unfold flat. rewrite list_elem_of_In, in_concat. split.
  - intros (l & Hl & Hb). apply list_elem_of_In, list_elem_of_fmap in Hl as ([i x] & -> & Hix).
    exists i, x. split; [by apply elem_of_map_to_list|by apply list_elem_of_In].
  - intros (i & x & Hm & Hb). exists (f i x). split; [|by apply list_elem_of_In].
    apply list_elem_of_In, list_elem_of_fmap. exists (i, x). split; [done|by apply elem_of_map_to_list].
Qed.

(** One entry changes from [x] to [x'] while the rest of a list stays. *)
Lemma flat_change m i x x' (l l' F rest : list B) : m !! i = Some x -> l ≡ₚ flat f m ++ F -> l ≡ₚ f i x ++ rest -> l' ≡ₚ f i x' ++ rest ->
  l' ≡ₚ flat f (<[i := x']> m) ++ F.
Proof.
  intros Hm Hl Hr ->. rewrite (flat_delete m i x Hm), Hr, <- app_assoc in Hl. apply Permutation_app_inv_l in Hl.
  rewrite flat_update, <- app_assoc. by apply Permutation_app_head.
Qed.
End Flat.

(** ** Counting *)

Definition at_key (k : Z * nat) (st : stage) : nat := count_key k (option_list (stage_key st)).

Lemma count_key_app k l1 l2 : count_key k (l1 ++ l2) = (count_key k l1 + count_key k l2)%nat.
Proof. unfold count_key. by rewrite filter_app, length_app. Qed.
#[global] Instance count_key_perm k : Proper (Permutation ==> eq) (count_key k).
Proof. intros l l' H. unfold count_key. by rewrite H. Qed.

Lemma counted_update k qs q st st' : qs !! q = Some st ->
  (count_key k (counted (<[q := st']> qs)) + at_key k st = count_key k (counted qs) + at_key k st')%nat.
Proof. intros H. unfold counted. rewrite flat_update, (flat_delete _ qs q st H), !count_key_app. unfold at_key. lia. Qed.
Lemma counted_insert k qs q st : qs !! q = None -> count_key k (counted (<[q := st]> qs)) = (at_key k st + count_key k (counted qs))%nat.
Proof. intros H. unfold counted. by rewrite (flat_insert _ qs q st H), count_key_app. Qed.
Lemma counted_delete k qs q st : qs !! q = Some st -> count_key k (counted qs) = (at_key k st + count_key k (counted (delete q qs)))%nat.
Proof. intros H. unfold counted. by rewrite (flat_delete _ qs q st H), count_key_app. Qed.

Lemma at_key_none k st : stage_key st = None -> at_key k st = 0%nat.
Proof. unfold at_key. by intros ->. Qed.
Lemma at_key_some k k' st : stage_key st = Some k' -> at_key k st = if decide (k' = k) then 1%nat else 0%nat.
Proof. unfold at_key, count_key. intros ->. change (option_list (Some k')) with [k']. rewrite filter_cons. by destruct (decide (k' = k)). Qed.
Lemma at_key_le k st : (at_key k st <= 1)%nat.
Proof. destruct (stage_key st) as [k'|] eqn:E; [rewrite (at_key_some k k') by done; destruct (decide _); lia|rewrite at_key_none by done; lia]. Qed.

(** There are no more requests counted than queue pairs. *)
Lemma counted_bound k qs (n : nat) : (forall q, is_Some (qs !! q) -> (q < n)%nat) -> (count_key k (counted qs) <= n)%nat.
Proof.
  intros Hn. assert (count_key k (counted qs) <= size qs)%nat as H.
  - clear Hn. induction qs as [|q st qs Hq IH] using map_ind; [done|]. rewrite counted_insert, map_size_insert_None by done.
    pose proof (at_key_le k st). lia.
  - etransitivity; [exact H|]. rewrite <- (size_dom (D := gset nat)), <- (length_seq n 0), <- (size_list_to_set (C := gset nat) (seq 0 n)) by apply NoDup_seq.
    apply subseteq_size. intros q Hq. apply elem_of_dom in Hq. apply elem_of_list_to_set, elem_of_seq. specialize (Hn q Hq). lia.
Qed.

(** ** The order of messages *)

Lemma take_msg_spec t l m l' : take_msg t l = Some (m, l') ->
  exists l1 l2, l = l1 ++ (t, m) :: l2 /\ l' = l1 ++ l2 /\ forall x, (t, x) ∉ l1.
Proof.
  revert l'. induction l as [|[t' m'] l IH]; intros l' H; [done|]. cbn [take_msg] in H. destruct (Z.eqb_spec t' t) as [->|Ht].
  - injection H as -> ->. exists [], l'. split; [done|]. split; [done|]. intros x. apply not_elem_of_nil.
  - destruct (take_msg t l) as [[m1 l1]|] eqn:E; [|done]. cbn in H. injection H as -> <-.
    destruct (IH l1 eq_refl) as (a & b & -> & -> & Ha). exists ((t', m') :: a), b. split; [done|]. split; [done|].
    intros x [Hx|Hx]%elem_of_cons; [congruence|by apply (Ha x)].
Qed.

Lemma before_delete m m' l1 x l2 : before m m' (l1 ++ x :: l2) -> before m m' (l1 ++ l2).
Proof.
  intros H a t b E. apply app_eq_app in E as [d [[-> E]|[-> E]]].
  - destruct d as [|y d]; cbn in E.
    + subst l2. rewrite app_nil_r in H. specialize (H (a ++ [x]) t b). rewrite <- app_assoc in H. specialize (H eq_refl).
      rewrite fmap_app in H. set_solver.
    + injection E as <- ->. apply (H a t (d ++ x :: l2)). by rewrite <- app_assoc.
  - subst l2. specialize (H (l1 ++ x :: d) t b). rewrite <- app_assoc in H. specialize (H eq_refl). rewrite fmap_app, fmap_cons in H.
    rewrite fmap_app. set_solver.
Qed.

Lemma before_snoc m m' l x : before m m' l -> (x.2 = m -> m' ∉ snd <$> l) -> before m m' (l ++ [x]).
Proof.
  intros H Hx a t b E. apply app_eq_app in E as [d [[-> E]|[-> E]]].
  - destruct d as [|y d]; cbn in E.
    + simplify_eq. rewrite app_nil_r in Hx. by apply Hx.
    + simplify_eq. by apply (H a t d).
  - destruct d as [|y d]; cbn in E; [|destruct d; done]. simplify_eq. rewrite app_nil_r. by apply Hx.
Qed.

(** ** One queue pair moves on *)

Implicit Types (qs : gmap nat stage) (cs : gmap nat cstage).

(** The requests in [reqs'] are those in [reqs] but for the one of a queue pair
    that goes from [st] to [st']. *)
Record reqs_change (reqs reqs' : gmap nat conn_req) (st st' : stage) (next : nat) : Prop := {
  rq_same r : stage_req st <> Some r -> stage_req st' <> Some r -> reqs' !! r = reqs !! r;
  rq_gone r : stage_req st = Some r -> stage_req st' <> Some r -> reqs' !! r = None;
  rq_new r : stage_req st' = Some r -> (stage_req st = Some r \/ reqs !! r = None) /\ (r < next)%nat }.

Lemma q_facts_other subs reqs reqs' next st st' q q2 st2 qp qp' qp2 : q2 <> q ->
  q_facts subs reqs q st qp -> q_facts subs reqs' q st' qp' -> reqs_change reqs reqs' st st' next ->
  q_facts subs reqs q2 st2 qp2 -> q_facts subs reqs' q2 st2 qp2.
Proof.
  intros Hne F F' C F2. destruct F2 as [a1 a2 a3 a4 a5 a6 a7 a8 a9 a10]. constructor; try assumption.
  intros r Hr. destruct (a10 r Hr) as (rq & H1 & H2 & H3). exists rq. split; [|done]. rewrite (rq_same _ _ _ _ _ C); [done| |].
  - intros Hs. destruct (qf_req _ _ _ _ _ F r Hs) as (rq' & H1' & H2' & _). congruence.
  - intros Hs. destruct (rq_new _ _ _ _ _ C r Hs) as [[Ho|Hn] _]; [|congruence].
    destruct (qf_req _ _ _ _ _ F r Ho) as (rq' & H1' & H2' & _). congruence.
Qed.

Definition same_admin (st st' : stage) : Prop := forall w, admin_wait w = true -> stage_wait st = Some w <-> stage_wait st' = Some w.

Lemma c_facts_stage subs qs q st st' c cst ct : qs !! q = Some st -> holding st' = holding st -> is_free st' = is_free st -> same_admin st st' ->
  c_facts subs qs c cst ct -> c_facts subs (<[q := st']> qs) c cst ct.
Proof.
  intros Hq Hh Hf Ha F. destruct F as [a1 a2 a3 a4 a5 a6 a7]. constructor; try assumption.
  - intros qa H. destruct (a5 qa H) as (s & H1 & H2 & H3). destruct (decide (qa = q)) as [->|Hne].
    + exists st'. rewrite lookup_insert_eq. split; [done|]. replace s with st in * by congruence. by rewrite Hh, Hf.
    + exists s. by rewrite lookup_insert_ne.
  - intros q0 H. destruct (a6 q0 H) as (s & H1 & H2). destruct (decide (q0 = q)) as [->|Hne].
    + exists st'. rewrite lookup_insert_eq. split; [done|]. replace s with st in * by congruence. by apply Ha.
    + exists s. by rewrite lookup_insert_ne.
  - intros q0 H. destruct (a7 q0 H) as (s & H1 & H2). destruct (decide (q0 = q)) as [->|Hne].
    + exists st'. rewrite lookup_insert_eq. split; [done|]. replace s with st in * by congruence. by apply Ha.
    + exists s. by rewrite lookup_insert_ne.
Qed.

(** Nor does a queue pair matter to a controller it neither holds an identifier
    of nor has created. *)
Lemma c_facts_away subs qs q st st' c cst ct : qs !! q = Some st -> holding st = None ->
  (forall w, stage_wait st = Some w -> admin_wait w = true -> wait_ctrlr w <> Some c) ->
  c_facts subs qs c cst ct -> c_facts subs (<[q := st']> qs) c cst ct.
Proof.
  intros Hq Hh Hw [f1 f2 f3 f4 f5 f6 f7]. constructor; try assumption.
  - intros qa H. destruct (f5 qa H) as (s & H1 & H2 & H3). exists s. rewrite lookup_insert_ne; [done|]. intros ->. congruence.
  - intros q0 H. destruct (f6 q0 H) as (s & H1 & H2). exists s. rewrite lookup_insert_ne; [done|]. intros ->.
    replace s with st in * by congruence. by apply (Hw _ H2).
  - intros q0 H. destruct (f7 q0 H) as (s & H1 & H2). exists s. rewrite lookup_insert_ne; [done|]. intros ->.
    replace s with st in * by congruence. by apply (Hw _ H2).
Qed.

(** A holder keeps what it holds. *)
Lemma holders_stage qs q st st' p : qs !! q = Some st -> holding st' = holding st ->
  (exists q0 s, <[q := st']> qs !! q0 = Some s /\ holding s = Some p) <-> (exists q0 s, qs !! q0 = Some s /\ holding s = Some p).
Proof.
  intros Hq Hh. split; intros (q0 & s & H1 & H2).
  - apply lookup_insert_Some in H1 as [[<- <-]|[Hne H1]]; [exists q, st; by rewrite <- Hh|by exists q0, s].
  - destruct (decide (q0 = q)) as [->|Hne]; [exists q, st'|exists q0, s].
    + rewrite lookup_insert_eq. split; [done|]. rewrite Hh. congruence.
    + by rewrite lookup_insert_ne.
Qed.

Lemma uniq_stage qs q st st' : qs !! q = Some st -> holding st' = holding st ->
  (forall q1 q2 s1 s2 p, qs !! q1 = Some s1 -> qs !! q2 = Some s2 -> holding s1 = Some p -> holding s2 = Some p -> q1 = q2) ->
  forall q1 q2 s1 s2 p, <[q := st']> qs !! q1 = Some s1 -> <[q := st']> qs !! q2 = Some s2 -> holding s1 = Some p -> holding s2 = Some p -> q1 = q2.
Proof.
  intros Hq Hh U q1 q2 s1 s2 p H1 H2 P1 P2.
  apply lookup_insert_Some in H1 as [[<- <-]|[N1 H1]]; apply lookup_insert_Some in H2 as [[<- <-]|[N2 H2]]; [done| | |by eapply U].
  - rewrite Hh in P1. by eapply U.
  - rewrite Hh in P2. by eapply U.
Qed.

Abbreviation toks y := (tokens (sy_msgs y) (sy_queued y) (sy_pollers y) (sy_fini y)).

Lemma rep_q y y' qs cs q st st' qp qp' : rep y qs cs -> qs !! q = Some st -> is_free st = false -> is_free st' = false ->
  sy_qpairs y !! q = Some qp -> sy_subs y' = sy_subs y -> sy_ctrlrs y' = sy_ctrlrs y -> (sy_next y <= sy_next y')%nat ->
  sy_qpairs y' = <[q := qp']> (sy_qpairs y) -> cq_thread qp' = cq_thread qp -> holding st' = holding st -> same_admin st st' ->
  (exists rest, toks y ≡ₚ stage_tokens q st ++ rest /\ toks y' ≡ₚ stage_tokens q st' ++ rest) ->
  q_facts (sy_subs y) (sy_reqs y') q st' qp' -> reqs_change (sy_reqs y) (sy_reqs y') st st' (sy_next y') ->
  (forall c, stage_ctrlr st' = Some c -> exists ct, sy_ctrlrs y !! c = Some ct /\ link_facts cs q st' (cq_thread qp) c ct) ->
  (forall k, cg_mgmt (sgroup_of y' k) + Z.of_nat (at_key k st) = cg_mgmt (sgroup_of y k) + Z.of_nat (at_key k st')) ->
  fifo (sy_ctrlrs y) (<[q := st']> qs) (sy_msgs y') ->
  NoDup (sy_answers y').*1 /\ (forall r, r ∈ (sy_answers y').*1 -> sy_reqs y' !! r = None /\ (r < sy_next y')%nat) ->
  rep y' (<[q := st']> qs) cs.
Proof.
  intros R Hq Hf Hf' Hqp Es Ec En Eq Et Hh Ha (rest & T1 & T2) F' C L M FF An.
  pose proof (r_q _ _ _ R q st Hq) as Fq. rewrite Hf in Fq. destruct Fq as (qp0 & Hqp0 & F). replace qp0 with qp in * by congruence. clear qp0 Hqp0.
  constructor; rewrite ?Es, ?Ec; try assumption; try (eapply r_c'; eassumption); try (eapply r_subs; eassumption).
  - by eapply flat_change; [exact Hq|apply (r_tok _ _ _ R)|exact T1|exact T2].
  - intros q2 st2 H. rewrite Eq. apply lookup_insert_Some in H as [[<- <-]|[Hne H]].
    + rewrite Hf', lookup_insert_eq. by exists qp'.
    + pose proof (r_q _ _ _ R q2 st2 H) as F2. rewrite lookup_insert_ne by done. destruct (is_free st2); [done|].
      destruct F2 as (qp2 & H2 & F2). exists qp2. split; [done|]. by eapply q_facts_other.
  - intros q2. rewrite Eq. intros [x Hx]. apply lookup_insert_is_Some. destruct (decide (q = q2)) as [->|Hne]; [by left|right]. split; [done|].
    rewrite lookup_insert_ne in Hx by done. apply (r_q' _ _ _ R). by exists x.
  - intros r rq H. destruct (decide (stage_req st' = Some r)) as [Hr|Hr].
    + destruct (qf_req _ _ _ _ _ F' r Hr) as (rq' & H1 & H2 & _). replace rq' with rq in * by congruence. exists st'.
      by rewrite H2, lookup_insert_eq.
    + destruct (decide (stage_req st = Some r)) as [Ho|Ho]; [rewrite (rq_gone _ _ _ _ _ C r Ho Hr) in H; done|].
      rewrite (rq_same _ _ _ _ _ C r Ho Hr) in H. destruct (r_req _ _ _ R r rq H) as (s & H1 & H2). exists s. split; [|done].
      rewrite lookup_insert_ne; [done|]. intros ->. congruence.
  - intros q2 st2 c H Hc. rewrite Eq. apply lookup_insert_Some in H as [[<- <-]|[Hne H]].
    + destruct (L c Hc) as (ct & H1 & H2). exists ct. split; [done|]. intros x. rewrite lookup_insert_eq. intros [= <-]. by rewrite Et.
    + rewrite lookup_insert_ne by done. by apply (r_link _ _ _ R q2 st2 c).
  - intros c cst H. destruct (r_c _ _ _ R c cst H) as (ct & H1 & H2). exists ct. split; [done|]. eapply c_facts_stage; try done. by rewrite Hf, Hf'.
  - intros c ct n H. rewrite (holders_stage _ _ st st') by done. by apply (r_mask _ _ _ R).
  - eapply uniq_stage; [done|done|]. apply (r_uniq _ _ _ R).
  - intros q2 H. assert (q2 < sy_next y)%nat; [|lia]. apply (r_nextq _ _ _ R). apply lookup_insert_is_Some in H as [<-|[_ H]]; [by exists st|done].
  - intros c H. pose proof (r_nextc _ _ _ R c H). lia.
  - intros r [rq H]. destruct (decide (stage_req st' = Some r)) as [Hr|Hr]; [apply (rq_new _ _ _ _ _ C r Hr)|].
    destruct (decide (stage_req st = Some r)) as [Ho|Ho]; [rewrite (rq_gone _ _ _ _ _ C r Ho Hr) in H; done|].
    rewrite (rq_same _ _ _ _ _ C r Ho Hr) in H. assert (r < sy_next y)%nat; [|lia]. apply (r_nextr _ _ _ R). by exists rq.
  - intros k. specialize (M k). pose proof (counted_update k qs q st st' Hq). rewrite (r_mgmt _ _ _ R k) in M. lia.
Qed.

Lemma rep_qp y qs cs q st : rep y qs cs -> qs !! q = Some st -> is_free st = false ->
  exists qp, sy_qpairs y !! q = Some qp /\ q_facts (sy_subs y) (sy_reqs y) q st qp.
Proof. intros R Hq Hf. pose proof (r_q _ _ _ R q st Hq) as H. by rewrite Hf in H. Qed.

Definition ordered_msg (m : conn_msg) : bool :=
  match m with MsgCtrlrAddIoQpair _ | MsgAddAdminQpair _ | MsgConnectRsp _ | MsgCtrlrDestruct _ => true | _ => false end.
Lemma due_ordered st m : due st = Some m -> ordered_msg m = true.
Proof. by destruct st as [| | |? ? []|? ? []| | | | |]; intros [= <-]. Qed.

Lemma fifo_stage ctrlrs qs msgs q st' : fifo ctrlrs qs msgs -> due st' = None -> fifo ctrlrs (<[q := st']> qs) msgs.
Proof.
  intros F N. constructor; [| |apply (ff_free _ _ _ F)].
  - intros q2 r k c H. apply lookup_insert_Some in H as [[<- ->]|[_ H]]; [done|]. by apply (ff_order _ _ _ F q2 r k c).
  - intros q2 st m t H. apply lookup_insert_Some in H as [[<- ->]|[_ H]]; [by rewrite N|]. by apply (ff_due _ _ _ F q2).
Qed.

Lemma fifo_take ctrlrs qs l1 x l2 : fifo ctrlrs qs (l1 ++ x :: l2) -> fifo ctrlrs qs (l1 ++ l2).
Proof.
  intros F. assert (forall z, z ∈ l1 ++ l2 -> z ∈ l1 ++ x :: l2) as Hs by set_solver. constructor.
  - intros q r k c H. eapply before_delete, (ff_order _ _ _ F); exact H.
  - intros q st m t H Hd Ht. eapply (ff_due _ _ _ F); [exact H|exact Hd|by apply Hs].
  - intros c ct t Hc Ht. eapply (ff_free _ _ _ F); [exact Hc|by apply Hs].
Qed.

(** A message nobody waits for on one thread. *)
Lemma fifo_send ctrlrs qs msgs t m : fifo ctrlrs qs msgs -> ordered_msg m = false -> fifo ctrlrs qs (msgs ++ [(t, m)]).
Proof.
  intros F N. constructor.
  - intros q r k c H. apply before_snoc; [by apply (ff_order _ _ _ F q r k c)|]. cbn. by intros ->.
  - intros q st m' t' H Hd [Ht|[= _ ->]%list_elem_of_singleton]%elem_of_app; [by eapply (ff_due _ _ _ F)|]. apply due_ordered in Hd. congruence.
  - intros c ct t' Hc [Ht|[= _ <-]%list_elem_of_singleton]%elem_of_app; [by eapply (ff_free _ _ _ F)|done].
Qed.

Lemma q_facts_reqs subs reqs q st qp r rq rq' : q_facts subs reqs q st qp -> reqs !! r = Some rq -> cr_qpair rq' = cr_qpair rq ->
  cr_iovcnt rq' = cr_iovcnt rq -> cr_data rq' = cr_data rq -> q_facts subs (<[r := rq']> reqs) q st qp.
Proof.
  intros [a1 a2 a3 a4 a5 a6 a7 a8 a9 a10] Hr E1 E2 E3. constructor; try assumption.
  intros r0 H0. destruct (a10 r0 H0) as (x & H1 & H2). destruct (decide (r0 = r)) as [->|Hne].
  - exists rq'. rewrite lookup_insert_eq, E1, E2, E3. split; [done|]. by replace x with rq in * by congruence.
  - exists x. by rewrite lookup_insert_ne.
Qed.

(** The response of a request is written. *)
Lemma rep_rsp y qs cs r rq p : rep y qs cs -> sy_reqs y !! r = Some rq ->
  rep (y <| sy_reqs := <[r := rq <| cr_rsp := p |>]> (sy_reqs y) |>) qs cs.
Proof.
  intros R Hr. assert (forall r0, is_Some (<[r := rq <| cr_rsp := p |>]> (sy_reqs y) !! r0) <-> is_Some (sy_reqs y !! r0)) as Hd.
  { intros r0. rewrite lookup_insert_is_Some'. split; [intros [<-|?]; [by exists rq|done]|by right]. }
  destruct R. constructor; csimp; try assumption.
  - intros q st Hq. specialize (r_q0 q st Hq). destruct (is_free st); [done|]. destruct r_q0 as (qp & H1 & H2). exists qp. split; [done|].
    by eapply q_facts_reqs.
  - intros r0 rq0 [[<- <-]|[_ H]]%lookup_insert_Some; [by apply (r_req0 r rq)|by apply r_req0].
  - intros r0 H. by apply r_nextr0, Hd.
  - split; [apply r_ans0|]. intros r0 H. split; [|by apply r_ans0]. apply eq_None_not_Some. rewrite Hd. apply eq_None_not_Some, r_ans0, H.
Qed.

(** A request that is being handled is done with: what is left is a queue pair
    without a controller, or one that holds its identifier. *)
Inductive settled (r : nat) (k : Z * nat) : stage -> stage -> Prop :=
| settled_idle w : wait_ctrlr w = None -> settled r k (SRun r k w) SIdle
| settled_attached c n : settled r k (SRunH r k c n) (SAttached c n).

Lemma connect_sgroup_wp y qs cs q st st' r k Q : rep y qs cs -> qs !! q = Some st -> settled r k st st' ->
  Q (Some k) y -> cwp (connect_sgroup r) y Q.
Proof.
  intros R Hq S HQ. assert (is_free st = false /\ stage_req st = Some r /\ stage_group st = Some k) as (Hf & Hr & Hk) by (by destruct S).
  destruct (rep_qp _ _ _ _ _ R Hq Hf) as (qp & Hqp & F). destruct (qf_req _ _ _ _ _ F r Hr) as (rq & Hrq & <- & Hi & Hn).
  assert (cq_group qp = true) as Hg by (rewrite (qf_group _ _ _ _ _ F); by destruct S).
  pose proof (qf_thread _ _ _ _ _ F k Hk) as Ht. unfold connect_sgroup, nvmf_subsystem_pg_from_connect_cmd. do 4 cstep.
  rewrite (qf_ctrlr _ _ _ _ _ F). destruct S as [w Hw|c n]; cbn [stage_ctrlr].
  - rewrite Hw. do 4 cstep. rewrite (qf_ctrlr _ _ _ _ _ F). cbn [stage_ctrlr]. apply cwp_bind, cwp_assert; [by rewrite Hw|].
    apply cwp_bind, cwp_assert; [by apply Z.eqb_eq|]. apply cwp_bind, cwp_assert; [done|]. do 3 cstep.
    rewrite (Hn k Hk eq_refl). cbn. destruct k as [t s]. cbn in Ht |- *. by subst t.
  - destruct (r_link _ _ _ R _ _ c Hq eq_refl) as (ct & Hct & L). do 2 cstep. apply cwp_bind, cwp_assert; [done|]. apply cwp_ret.
    rewrite (lf_subsys _ _ _ _ _ _ (L qp Hqp) k eq_refl). destruct k as [t s]. cbn in Ht |- *. by subst t.
Qed.

Lemma facts_settled subs reqs reqs' q r k st st' qp : q_facts subs reqs q st qp -> settled r k st st' ->
  q_facts subs reqs' q st' (qp <| cq_outstanding := [] |>).
Proof.
  intros [a1 a2 a3 a4 a5 a6 a7 a8 a9 a10] S.
  destruct S as [w Hw|c n]; cbn [stage_ctrlr] in a1; [rewrite Hw in a1|]; constructor; csimp; try done; intros n'; by apply a5.
Qed.

Lemma mgmt_range y qs cs k : rep y qs cs -> Z.of_nat (sy_next y) < 2 ^ 63 -> 0 <= cg_mgmt (sgroup_of y k) < 2 ^ 63.
Proof. intros R H. rewrite (r_mgmt _ _ _ R). pose proof (counted_bound k qs (sy_next y) (r_nextq _ _ _ R)). lia. Qed.

(** A counted request makes the counter positive. *)
Lemma mgmt_positive y qs cs q st k : rep y qs cs -> qs !! q = Some st -> stage_key st = Some k -> 0 < cg_mgmt (sgroup_of y k).
Proof.
  intros R Hq Hk. rewrite (r_mgmt _ _ _ R), (counted_delete k qs q st Hq), (at_key_some k k) by done. rewrite decide_True by done. lia.
Qed.

Lemma sgroup_insert y k g k' : sgroup_of (y <| sy_sgroups := <[k := g]> (sy_sgroups y) |>) k' = if decide (k = k') then g else sgroup_of y k'.
Proof. unfold sgroup_of. csimp. destruct (decide (k = k')) as [->|H]; [by rewrite lookup_insert_eq|by rewrite lookup_insert_ne]. Qed.

(** The counter after one request more or less in [k]. *)
Lemma mgmt_change y qs cs k st st' x : rep y qs cs -> Z.of_nat (sy_next y) < 2 ^ 63 ->
  (forall k', Z.of_nat (at_key k' st') - Z.of_nat (at_key k' st) = if decide (k = k') then x else 0) -> x = 1 \/ x = -1 ->
  (x = -1 -> 0 < cg_mgmt (sgroup_of y k)) -> forall k', cg_mgmt (sgroup_of (y <| sy_sgroups := <[k := (sgroup_of y k) <| cg_mgmt := u64 (cg_mgmt (sgroup_of y k) + x) |>]> (sy_sgroups y) |>) k')
    + Z.of_nat (at_key k' st) = cg_mgmt (sgroup_of y k') + Z.of_nat (at_key k' st').
Proof.
  intros R Hn Hk Hx Hp k'. specialize (Hk k'). rewrite sgroup_insert. destruct (decide (k = k')) as [<-|_]; [|lia]. csimp.
  pose proof (mgmt_range y qs cs k R Hn). rewrite u64_small; lia.
Qed.

Lemma at_key_change r k st st' : settled r k st st' ->
  forall k', Z.of_nat (at_key k' st') - Z.of_nat (at_key k' st) = if decide (k = k') then -1 else 0.
Proof.
  intros S k'. destruct S; rewrite (at_key_none k' SIdle) || rewrite (at_key_none k' (SAttached _ _)); try done;
    rewrite (at_key_some k' k) by done; by destruct (decide (k = k')).
Qed.

Lemma complete_wp y qs cs q st st' r k : rep y qs cs -> Z.of_nat (sy_next y) < 2 ^ 63 -> qs !! q = Some st -> settled r k st st' ->
  cwp (connect_complete r) y (fun _ y' => rep y' (<[q := st']> qs) cs /\ sy_next y' = sy_next y).
Proof.
  intros R Hn Hq S. assert (is_free st = false /\ stage_req st = Some r /\ stage_key st = Some k /\ is_free st' = false /\ stage_req st' = None)
    as (Hf & Hr & Hk & Hf' & Hr') by (by destruct S).
  destruct (rep_qp _ _ _ _ _ R Hq Hf) as (qp & Hqp & F). destruct (qf_req _ _ _ _ _ F r Hr) as (rq & Hrq & Eq & Hi & Hnm). subst q.
  assert (cq_outstanding qp = [r]) as Ho. { rewrite (qf_out _ _ _ _ _ F). unfold stage_out. by rewrite Hk, Hr. }
  unfold connect_complete, connect_remove_outstanding. apply cwp_bind. eapply connect_sgroup_wp; [exact R|exact Hq|exact S|].
  do 5 cstep. rewrite Ho. apply cwp_bind, cwp_assert; [by apply bool_decide_eq_true, list_elem_of_singleton|]. do 7 cstep.
  change (sgroup_of _ k) with (sgroup_of y k). apply cwp_bind, cwp_assert.
  { apply Z.ltb_lt. by eapply mgmt_positive. }
  cstep. split; [|done]. rewrite Ho. rewrite filter_cons, decide_False by (intros H; by apply H). rewrite filter_nil.
  eapply rep_q with (st := st) (st' := st') (qp := qp); csimp; try done.
  - by destruct S.
  - intros w Hw. destruct S as [w' Hw'|c n]; [|done]. cbn. split; [|done]. intros [= ->]. by destruct w.
  - exists (toks y). replace (stage_tokens (cr_qpair rq) st) with (@nil token) by (by destruct S).
    replace (stage_tokens (cr_qpair rq) st') with (@nil token) by (by destruct S). done.
  - by eapply facts_settled.
  - constructor; csimp; [|by intros r0 [= <-]%(eq_trans (eq_sym Hr)) _; apply lookup_delete_eq|intros r0; by rewrite Hr'].
    intros r0 H _. apply lookup_delete_ne. congruence.
  - intros c Hc. destruct S as [w Hw|c' n]; [done|]. injection Hc as ->. destruct (r_link _ _ _ R _ _ c Hq eq_refl) as (ct & Hct & L).
    exists ct. split; [done|]. destruct (L qp Hqp) as [l1 l2 l3 l4 l5 l6]. by constructor.
  - apply (mgmt_change y qs cs k st st' (-1) R Hn); [by eapply at_key_change|by right|]. intros _. by eapply mgmt_positive.
  - apply fifo_stage; [apply (r_fifo _ _ _ R)|by destruct S].
  - destruct (r_ans _ _ _ R) as [A1 A2]. rewrite fmap_app. split.
    + apply NoDup_app. split; [done|]. split; [|apply NoDup_singleton]. intros x Hx ->%list_elem_of_singleton. destruct (A2 r Hx). congruence.
    + intros x [Hx|Hx]%elem_of_app.
      * destruct (A2 x Hx) as [A3 A4]. split; [|done]. by rewrite lookup_delete_None, A3; right.
      * cbn in Hx. apply list_elem_of_singleton in Hx as ->. split; [apply lookup_delete_eq|]. apply (r_nextr _ _ _ R). by exists rq.
Qed.

(** ** Messages are taken and sent *)

#[global] Instance tokens_proper : Proper (Permutation ==> Permutation ==> Permutation ==> Permutation ==> Permutation) tokens.
Proof. intros a a' Ha b b' Hb c c' Hc d d' Hd. unfold tokens. by rewrite Ha, Hb, Hc, Hd. Qed.
Lemma tokens_queue a e b c d : tokens a (e :: b) c d ≡ₚ TQueue e :: tokens a b c d.
Proof. unfold tokens. cbn. by rewrite <- Permutation_middle. Qed.
Lemma tokens_poll a b e c d : tokens a b (e :: c) d ≡ₚ TPoll e :: tokens a b c d.
Proof. unfold tokens. cbn. rewrite !app_assoc, <- !(app_assoc (_ ++ _)). symmetry. apply Permutation_middle. Qed.
Lemma tokens_fini a b c e d : tokens a b c (e :: d) ≡ₚ TFini e :: tokens a b c d.
Proof. unfold tokens. cbn. rewrite !app_assoc. symmetry. apply Permutation_middle. Qed.
Lemma tokens_take l1 x l2 b c d : tokens (l1 ++ x :: l2) b c d ≡ₚ TMsg x.2 :: tokens (l1 ++ l2) b c d.
Proof. by rewrite <- Permutation_middle. Qed.
Lemma tokens_send l x b c d : tokens (l ++ [x]) b c d ≡ₚ TMsg x.2 :: tokens l b c d.
Proof. rewrite tokens_take. by rewrite app_nil_r. Qed.

(** Whose message it is. *)
Lemma msg_owner y qs cs t m : rep y qs cs -> (t, m) ∈ sy_msgs y ->
  (exists q st, qs !! q = Some st /\ TMsg m ∈ stage_tokens q st) \/ (exists c cst, cs !! c = Some cst /\ TMsg m ∈ cstage_tokens c cst).
Proof.
  intros R Hm. assert (TMsg m ∈ toks y) as H.
  { apply elem_of_app. left. apply list_elem_of_fmap. by exists (t, m). }
  rewrite (r_tok _ _ _ R), elem_of_app, !elem_of_flat in H. done.
Qed.

(** The message of a stage is taken by the thread that handles it. *)
Inductive taken (q : nat) : conn_msg -> stage -> stage -> Prop :=
| taken_wait m r k w : wait_token q r w = [TMsg m] -> taken q m (SWait r k w) (SRun r k w)
| taken_rsp r k c n : taken q (MsgConnectRsp r) (SRsp r k c n) (SRunH r k c n).

Lemma rep_take y qs cs q st st' m t l1 l2 : rep y qs cs -> sy_msgs y = l1 ++ (t, m) :: l2 -> qs !! q = Some st -> taken q m st st' ->
  rep (y <| sy_msgs := l1 ++ l2 |>) (<[q := st']> qs) cs.
Proof.
  intros R Hm Hq T. assert (is_free st = false) as Hf by (by destruct T).
  destruct (rep_qp _ _ _ _ _ R Hq Hf) as (qp & Hqp & F).
  eapply rep_q with (st := st) (st' := st') (qp := qp) (qp' := qp); csimp; try done; try (by destruct T).
  - symmetry. by apply insert_id.
  - exists (tokens (l1 ++ l2) (sy_queued y) (sy_pollers y) (sy_fini y)). rewrite Hm, tokens_take.
    destruct T as [? ? ? ? E|]; cbn [stage_tokens]; [by rewrite E|done].
  - destruct F as [a1 a2 a3 a4 a5 a6 a7 a8 a9 a10]. destruct T; constructor; try done. cbn in a4 |- *. by destruct (cq_state qp).
  - destruct T; constructor; csimp; try done; intros x Hx; split; try (by left); injection Hx as <-;
      destruct (qf_req _ _ _ _ _ F _ eq_refl) as (rq & Hrq & _); apply (r_nextr _ _ _ R); by exists rq.
  - intros c Hc. assert (stage_ctrlr st = Some c) as Hc' by (by destruct T). destruct (r_link _ _ _ R q st c Hq Hc') as (ct & Hct & L).
    exists ct. split; [done|]. destruct (L qp Hqp) as [b1 b2 b3 b4 b5 b6]. by destruct T.
  - apply fifo_stage; [|by destruct T]. eapply (fifo_take _ _ _ (t, m)). rewrite <- Hm. apply (r_fifo _ _ _ R).
  - apply (r_ans _ _ _ R).
Qed.

(** The request that is being handled is sent on; its queue pair's controller
    stays as it is. *)
Lemma rep_send y qs cs q r k w w' t m : rep y qs cs -> qs !! q = Some (SRun r k w) -> wait_token q r w' = [TMsg m] ->
  wait_ctrlr w' = wait_ctrlr w -> admin_wait w = false -> admin_wait w' = false -> (io_wait w' = true -> forall qp, sy_qpairs y !! q = Some qp -> cq_qid qp <> 0) ->
  (forall c, w' <> WCtrlrAddIo c) -> rep (y <| sy_msgs := sy_msgs y ++ [(t, m)] |>) (<[q := SWait r k w']> qs) cs.
Proof.
  intros R Hq Hm Hc Ha Ha' Hio Hn. destruct (rep_qp _ _ _ _ _ R Hq eq_refl) as (qp & Hqp & F).
  eapply rep_q with (st := SRun r k w) (qp := qp) (qp' := qp); csimp; try done.
  - symmetry. by apply insert_id.
  - intros x Hx. cbn. split; intros [= ->]; congruence.
  - exists (toks y). cbn [stage_tokens]. by rewrite tokens_send, Hm.
  - destruct F as [a1 a2 a3 a4 a5 a6 a7 a8 a9 a10]. constructor; csimp; try done.
    + cbn in a1 |- *. congruence.
    + unfold is_admin. cbn. by rewrite Ha'.
    + unfold is_io_stage. cbn. intros H. by apply (Hio H).
    + intros r0 k0 c0 t0 [= _ _ ->]. by destruct m.
  - constructor; csimp; try done. intros x Hx. split; [by left|]. injection Hx as <-.
    destruct (qf_req _ _ _ _ _ F _ eq_refl) as (rq & Hrq & _). apply (r_nextr _ _ _ R). by exists rq.
  - intros c E. cbn [stage_ctrlr] in E. rewrite Hc in E. destruct (r_link _ _ _ R q _ c Hq E) as (ct & Hct & L). exists ct. split; [done|].
    destruct (L qp Hqp) as [b1 b2 b3 b4 b5 b6]. constructor; try done.
    + intros [H|(n & H & _)]; [|done]. unfold is_admin in H. cbn in H. congruence.
    + intros [= ->]. done.
    + intros [= ->]. done.
    + intros q' _. apply b5. unfold is_io_stage. cbn. by destruct w.
    + intros t' [= ->]. discriminate Hm.
  - assert (due (SWait r k w') = None /\ ordered_msg m = false) as [Hx1 Hx2]; [|apply fifo_send; [apply fifo_stage; [apply (r_fifo _ _ _ R)|done]|done]].
    destruct w' as [|c|c| |c|c t0|]; try done; try (by injection Hm as <-). by destruct (Hn c).
  - apply (r_ans _ _ _ R).
Qed.

(** Between two handlers no request is in anyone's hands. *)
Definition at_rest (st : stage) : bool := match st with SHand _ _ | SRun _ _ _ | SRunH _ _ _ _ | SWait _ _ WHere => false | _ => true end.
Definition others qs (q : nat) : Prop := forall q0 st, q0 <> q -> qs !! q0 = Some st -> at_rest st = true.
Definition rest qs : Prop := forall q st, qs !! q = Some st -> at_rest st = true.
Definition good (y : conn_sys) : Prop := exists qs cs, rep y qs cs /\ rest qs.

Lemma others_insert qs q st : others qs q -> others (<[q := st]> qs) q.
Proof. intros H q0 st0 Hne. rewrite lookup_insert_ne by done. by apply H. Qed.
Lemma others_rest qs q st : others qs q -> at_rest st = true -> rest (<[q := st]> qs).
Proof. intros H Hst q0 st0 [[<- <-]|[Hne H0]]%lookup_insert_Some; [done|]. by apply (H q0). Qed.
Lemma rest_others qs q : rest qs -> others qs q.
Proof. intros H q0 st _. apply H. Qed.
Lemma good_at y qs cs q st : rep y (<[q := st]> qs) cs -> others qs q -> at_rest st = true -> good y.
Proof. intros R H Hst. exists (<[q := st]> qs), cs. split; [done|]. by apply others_rest. Qed.

Lemma connect_request_complete_wp y qs cs q r k w cur : rep y qs cs -> Z.of_nat (sy_next y) < 2 ^ 63 -> others qs q -> qs !! q = Some (SRun r k w) -> wait_ctrlr w = None ->
  cwp (connect_request_complete cur r) y (fun _ y' => good y').
Proof.
  intros R Hn Ho Hq Hw. destruct (rep_qp _ _ _ _ _ R Hq eq_refl) as (qp & Hqp & F). destruct (qf_req _ _ _ _ _ F r eq_refl) as (rq & Hrq & <- & _).
  unfold connect_request_complete. do 4 cstep. apply cwp_bind, cwp_assert; [apply (qf_group _ _ _ _ _ F)|]. destruct (cur =? cq_thread qp).
  - eapply cwp_mono; [eapply complete_wp; [exact R|exact Hn|exact Hq|by apply settled_idle]|]. intros _ y' [R' _]. by eapply good_at.
  - cstep. apply (good_at _ qs cs (cr_qpair rq) (SWait r k WComplete)); [|exact Ho|done]. eapply (rep_send y qs cs _ r k w WComplete); try done; by destruct w.
Qed.

(** The queue pair being handled loses its controller. *)
Lemma rep_clear y qs cs q r k w qp qp' : rep y qs cs -> qs !! q = Some (SRun r k w) -> io_wait w = true -> sy_qpairs y !! q = Some qp ->
  qp' = qp <| cq_ctrlr := None |> \/ qp' = qp <| cq_connect_req := None |> <| cq_ctrlr := None |> ->
  rep (y <| sy_qpairs := <[q := qp']> (sy_qpairs y) |>) (<[q := SRun r k WAddIo]> qs) cs.
Proof.
  intros R Hq Hw Hqp Hqp'. destruct (rep_qp _ _ _ _ _ R Hq eq_refl) as (qp0 & Hqp0 & F). replace qp0 with qp in * by congruence.
  eapply rep_q with (st := SRun r k w) (qp := qp); csimp; try done.
  - by destruct Hqp' as [-> | ->].
  - intros x Hx. cbn. split; intros E; simplify_eq; by destruct x.
  - by exists (toks y).
  - destruct F as [a1 a2 a3 a4 a5 a6 a7 a8 a9 a10]. destruct Hqp' as [-> | ->]; constructor; csimp; try done; intros _; by apply a7.
  - constructor; csimp; try done. intros x Hx. split; [by left|]. injection Hx as <-.
    destruct (qf_req _ _ _ _ _ F _ eq_refl) as (rq & Hrq & _). apply (r_nextr _ _ _ R). by exists rq.
  - apply fifo_stage; [apply (r_fifo _ _ _ R)|done].
  - apply (r_ans _ _ _ R).
Qed.

(** ** Controllers change *)

(** What a controller is does not change. *)
Definition same_id (ct ct' : conn_ctrlr) : Prop :=
  cl_cntlid ct' = cl_cntlid ct /\ cl_dynamic ct' = cl_dynamic ct /\ cl_subsys ct' = cl_subsys ct /\ cl_thread ct' = cl_thread ct.

Lemma sub_facts_ctrlr ctrlrs s sub c ct ct' : sub_facts ctrlrs s sub -> ctrlrs !! c = Some ct -> same_id ct ct' -> sub_facts (<[c := ct']> ctrlrs) s sub.
Proof.
  intros [f1 f2 f3 f4 f5] Hc (E1 & E2 & E3 & E4). constructor; try assumption.
  - intros x Hx. destruct (f2 x Hx) as (z & H1 & H2). destruct (decide (x = c)) as [->|Hne].
    + exists ct'. rewrite lookup_insert_eq, E1, E2, E3. split; [done|]. by replace z with ct in * by congruence.
    + exists z. by rewrite lookup_insert_ne.
  - assert (forall x z, <[c := ct']> ctrlrs !! x = Some z -> exists z0, ctrlrs !! x = Some z0 /\ cl_cntlid z = cl_cntlid z0) as Hl.
    { intros x z [[<- <-]|[_ H]]%lookup_insert_Some; [by exists ct|by exists z]. }
    intros x x' z z' Hx Hx' (z0 & H0 & ->)%Hl (z0' & H0' & ->)%Hl. by apply f3.
Qed.

(** The request of a queue pair is its own. *)
Lemma req_own y qs cs q q' st st' r : rep y qs cs -> qs !! q = Some st -> qs !! q' = Some st' -> stage_req st = Some r -> stage_req st' = Some r -> q = q'.
Proof.
  intros R Hq Hq' Hr Hr'. assert (is_free st = false /\ is_free st' = false) as [Hf Hf'] by (by destruct st, st').
  destruct (rep_qp _ _ _ _ _ R Hq Hf) as (qp & _ & F). destruct (rep_qp _ _ _ _ _ R Hq' Hf') as (qp' & _ & F').
  destruct (qf_req _ _ _ _ _ F r Hr) as (rq & H1 & H2 & _). destruct (qf_req _ _ _ _ _ F' r Hr') as (rq' & H1' & H2' & _). congruence.
Qed.

Lemma due_inj st st' m : due st = Some m -> due st' = Some m -> stage_req st = stage_req st'.
Proof. destruct st as [| | |? ? []|? ? []| | | | |], st' as [| | |? ? []|? ? []| | | | |]; cbn; congruence. Qed.
Lemma due_token q st st' m : due st = Some m -> TMsg m ∈ stage_tokens q st' -> stage_req st' = stage_req st /\ stage_tokens q st' <> [].
Proof.
  intros Hd Ht. destruct st as [| | |? ? []|? ? []| | | | |]; try done; injection Hd as <-;
    destruct st' as [| | |? ? []|? ? []| | | | |]; cbn in Ht; try set_solver; apply list_elem_of_singleton in Ht; by injection Ht as <-.
Qed.
Lemma due_not_cstage c cst st m : due st = Some m -> TMsg m ∉ cstage_tokens c cst.
Proof. intros Hd Ht. destruct st as [| | |? ? []|? ? []| | | | |]; try done; injection Hd as <-; destruct cst; cbn in Ht; set_solver. Qed.

(** A queue pair that is being handled waits for a message again. *)
Lemma fifo_add y qs cs q r k w st' m t : rep y qs cs -> qs !! q = Some (SRun r k w) -> stage_req st' = Some r -> due st' = Some m ->
  due_at (sy_ctrlrs y) st' t -> (forall k' c, st' = SWait r k' (WCtrlrAddIo c) -> MsgCtrlrDestruct c ∉ snd <$> sy_msgs y) ->
  fifo (sy_ctrlrs y) (<[q := st']> qs) (sy_msgs y ++ [(t, m)]).
Proof.
  intros R Hq Hr Hd Ht Hno. pose proof (r_fifo _ _ _ R) as F.
  assert (forall q' st, q <> q' -> qs !! q' = Some st -> due st <> Some m) as Hother.
  { intros q' st Hne H Hd'. apply Hne, (req_own _ _ _ _ _ _ _ r R Hq H eq_refl). by rewrite (due_inj _ _ _ Hd' Hd). }
  assert (forall t, (t, m) ∉ sy_msgs y) as Hnew.
  { intros t' Hm. destruct (msg_owner _ _ _ _ _ R Hm) as [(q' & st & Hq' & Hto)|(c' & cst & _ & Hto)]; [|by apply (due_not_cstage _ _ _ _ Hd) in Hto].
    destruct (due_token _ _ _ _ Hd Hto) as [Hr' Hne]. pose proof (req_own _ _ _ _ _ _ _ r R Hq Hq' eq_refl ltac:(congruence)) as <-.
    by replace st with (SRun r k w) in Hne by congruence. }
  constructor.
  - intros q' r' k' c' [[<- ->]|[Hne H]]%lookup_insert_Some.
    + injection Hr as ->. injection Hd as <-. specialize (Hno _ _ eq_refl). intros l1 t' l2 E. assert (snd <$> l1 ⊆ snd <$> sy_msgs y) as Hsub; [|set_solver].
      apply app_eq_app in E as [d [[E1 E2]|[E1 E2]]]; [rewrite E1, fmap_app; set_solver|]. destruct d as [|z d]; [rewrite app_nil_r in E1; by subst l1|].
      exfalso. destruct d; cbn in E2; discriminate E2.
    + apply before_snoc; [by eapply (ff_order _ _ _ F)|]. cbn. intros ->. by destruct (Hother _ _ Hne H).
  - intros q' st m0 t' [[<- <-]|[Hne H]]%lookup_insert_Some Hd' [Ht'|[= -> ->]%list_elem_of_singleton]%elem_of_app; [|done|by eapply (ff_due _ _ _ F)|].
    + replace m0 with m in * by congruence. by apply Hnew in Ht'.
    + by destruct (Hother _ _ Hne H).
  - intros c' ct' t' Hc' [Ht'|[= _ <-]%list_elem_of_singleton]%elem_of_app; [by eapply (ff_free _ _ _ F)|]. by destruct st' as [| | |? ? []|? ? []| | | | |].
Qed.

Lemma fifo_ctrlr ctrlrs qs msgs c ct ct' : fifo ctrlrs qs msgs -> ctrlrs !! c = Some ct -> cl_thread ct' = cl_thread ct ->
  fifo (<[c := ct']> ctrlrs) qs msgs.
Proof.
  intros F Hc Et. constructor; [apply (ff_order _ _ _ F)| |].
  - intros q st m t Hq Hd Ht. pose proof (ff_due _ _ _ F q st m t Hq Hd Ht) as D. destruct st as [| | |? ? []|? ? []| | | | |]; try done;
      intros z [[<- <-]|[_ H]]%lookup_insert_Some; [rewrite Et| |rewrite Et|]; by apply D.
  - intros c0 z t [[<- <-]|[_ H]]%lookup_insert_Some Ht; [rewrite Et|]; by eapply (ff_free _ _ _ F).
Qed.

Lemma flat_same {A B} (f : nat -> A -> list B) (m : gmap nat A) i x x' : m !! i = Some x -> f i x = f i x' -> flat f (<[i := x']> m) ≡ₚ flat f m.
Proof. intros H E. by rewrite flat_update, (flat_delete f m i x H), E. Qed.

(** The stage of another controller does not matter. *)
Lemma link_facts_other cs q st t c c' cst ct : c <> c' -> link_facts cs q st t c ct -> link_facts (<[c' := cst]> cs) q st t c ct.
Proof. intros Hne [l1 l2 l3 l4 l5 l6]. constructor; try done; intros; rewrite lookup_insert_ne by done; auto. Qed.

Lemma link_facts_same cs q st t c ct ct' : link_facts cs q st t c ct -> cl_subsys ct' = cl_subsys ct -> cl_thread ct' = cl_thread ct ->
  link_facts cs q st t c ct'.
Proof. intros [l1 l2 l3 l4 l5 l6] E3 E4. constructor; try assumption; [rewrite E3|rewrite E4|rewrite E4]; assumption. Qed.

(** A queue pair joins a controller: an I/O queue pair one that is in use, the
    admin queue pair the one it has created. *)
Inductive joins (q : nat) (w : wait) (c : nat) (n : Z) (cst : cstage) (ct ct' : conn_ctrlr) (t : Z) : Prop :=
| joins_io : io_wait w = true -> cst = CLive -> n <> 0 -> cl_admin_qpair ct' = cl_admin_qpair ct -> joins q w c n cst ct ct' t
| joins_admin : w = WAddAdmin c -> cst = CAdmin q -> n = 0 -> cl_admin_qpair ct' = Some q -> cl_thread ct = t -> joins q w c n cst ct ct' t.

Section Join.
Context (y : conn_sys) (qs : gmap nat stage) (cs : gmap nat cstage) (q r : nat) (k : Z * nat) (w : wait) (c : nat) (n t : Z)
  (ct ct' : conn_ctrlr) (cst : cstage) (qp : conn_qpair).
Hypotheses (R : rep y qs cs) (Hq : qs !! q = Some (SRun r k w)) (Hqp : sy_qpairs y !! q = Some qp) (Hn : cq_qid qp = n)
  (Hc : sy_ctrlrs y !! c = Some ct) (Hcs : cs !! c = Some cst) (Hid : same_id ct ct') (Hk : cl_subsys ct = k.2)
  (Hd : ck_in_destruct (cl_cc ct') = ck_in_destruct (cl_cc ct)) (Hm : ck_mask (cl_cc ct') = ck_mask (cl_cc ct) ∪ {[n]})
  (Hf : n ∉ ck_mask (cl_cc ct)) (J : joins q w c n cst ct ct' (cq_thread qp)) (Hto : t = cq_thread qp).

Lemma join_c_facts c0 cst0 ct0 : c0 <> c -> c_facts (sy_subs y) qs c0 cst0 ct0 -> c_facts (sy_subs y) (<[q := SRsp r k c n]> qs) c0 cst0 ct0.
Proof.
  intros Hne. apply c_facts_away with (st := SRun r k w); [done|done|]. intros w' [= <-] Ha.
  destruct J as [Hw _ _ _|Hw _ _ _ _]; [by destruct w|]. subst w. cbn. congruence.
Qed.

Lemma join_c_facts_own : c_facts (sy_subs y) (<[q := SRsp r k c n]> qs) c CLive ct'.
Proof.
  destruct (r_c _ _ _ R c cst Hcs) as (x & Hx & [f1 f2 f3 f4 f5 f6 f7]). replace x with ct in * by congruence. clear x Hx.
  destruct Hid as (_ & _ & E3 & _). constructor; try done.
  - rewrite E3. destruct f1 as (sub & Hs & Hl). exists sub. split; [done|]. rewrite Hl. by destruct J as [_ -> _ _|_ -> _ _ _].
  - rewrite Hd, f2. by destruct J as [_ -> _ _|_ -> _ _ _].
  - intros _. rewrite Hm. set_solver.
  - intros qa Ha. destruct J as [_ _ _ E|_ _ E0 E _]; rewrite E in Ha.
    + destruct (f5 qa Ha) as (s & H1 & H2 & H3). exists s. rewrite lookup_insert_ne; [done|]. intros <-.
      replace s with (SRun r k w) in H2 by congruence. done.
    + injection Ha as <-. exists (SRsp r k c n). rewrite lookup_insert_eq. by rewrite E0.
Qed.

Lemma join_mask c0 ct0 n0 : <[c := ct']> (sy_ctrlrs y) !! c0 = Some ct0 ->
  n0 ∈ ck_mask (cl_cc ct0) <-> exists q0 s, <[q := SRsp r k c n]> qs !! q0 = Some s /\ holding s = Some (c0, n0).
Proof.
  intros H. assert ((exists q0 s, <[q := SRsp r k c n]> qs !! q0 = Some s /\ holding s = Some (c0, n0)) <->
    (c0 = c /\ n0 = n) \/ (exists q0 s, qs !! q0 = Some s /\ holding s = Some (c0, n0))) as ->.
  { split.
    - intros (q0 & s & [[<- <-]|[_ H1]]%lookup_insert_Some & H2); [left; by injection H2 as -> ->|right; by exists q0, s].
    - intros [[-> ->]|(q0 & s & H1 & H2)]; [exists q, (SRsp r k c n); by rewrite lookup_insert_eq|]. exists q0, s. rewrite lookup_insert_ne; [done|].
      intros <-. replace s with (SRun r k w) in H2 by congruence. done. }
  apply lookup_insert_Some in H as [[<- <-]|[Hne H]].
  - rewrite Hm, <- (r_mask _ _ _ R c ct n0 Hc). set_solver.
  - rewrite (r_mask _ _ _ R c0 ct0 n0 H). split; [by right|]. intros [[? _]|?]; [congruence|done].
Qed.

Lemma join_uniq q1 q2 s1 s2 p : <[q := SRsp r k c n]> qs !! q1 = Some s1 -> <[q := SRsp r k c n]> qs !! q2 = Some s2 ->
  holding s1 = Some p -> holding s2 = Some p -> q1 = q2.
Proof.
  assert (forall q0 s, qs !! q0 = Some s -> holding s <> Some (c, n)) as Hno.
  { intros q0 s H0 Hh. apply Hf. apply (r_mask _ _ _ R c ct n Hc). by exists q0, s. }
  intros H1 H2 P1 P2. apply lookup_insert_Some in H1 as [[<- <-]|[N1 H1]]; apply lookup_insert_Some in H2 as [[<- <-]|[N2 H2]]; [done| | |].
  - injection P1 as <-. by apply (Hno _ _ H2) in P2.
  - injection P2 as <-. by apply (Hno _ _ H1) in P1.
  - by eapply (r_uniq _ _ _ R).
Qed.

Lemma join_link q0 st0 c0 : <[q := SRsp r k c n]> qs !! q0 = Some st0 -> stage_ctrlr st0 = Some c0 ->
  exists ct0, <[c := ct']> (sy_ctrlrs y) !! c0 = Some ct0 /\ forall qp0, <[q := qp <| cq_ctrlr := Some c |>]> (sy_qpairs y) !! q0 = Some qp0 ->
    link_facts (<[c := CLive]> cs) q0 st0 (cq_thread qp0) c0 ct0.
Proof.
  intros H0 Hc0. apply lookup_insert_Some in H0 as [[<- <-]|[Hne H0]].
  - injection Hc0 as <-. exists ct'. rewrite lookup_insert_eq. split; [done|]. intros qp0. rewrite lookup_insert_eq. intros [= <-]. csimp.
    destruct Hid as (_ & _ & E3 & E4). constructor; try done.
    + intros k0 [= <-]. by rewrite E3.
    + intros [H|(n0 & [= <-] & Hz)]; [done|]. rewrite E4. by destruct J as [_ _ ? _|_ _ _ _ E].
  - destruct (r_link _ _ _ R q0 st0 c0 H0 Hc0) as (x & Hx & L).
    exists (if decide (c0 = c) then ct' else x). split.
    { destruct (decide (c0 = c)) as [->|]; [by rewrite lookup_insert_eq|by rewrite lookup_insert_ne]. }
    intros qp0. rewrite lookup_insert_ne by done. intros Hqp0. specialize (L qp0 Hqp0).
    destruct (decide (c0 = c)) as [->|Hcc].
    + replace x with ct in * by congruence. destruct Hid as (_ & _ & E3 & E4). pose proof (link_facts_same _ _ _ _ _ _ _ L E3 E4) as [l1 l2 l3 l4 l5 l6]. constructor; try done.
      * intros Hw. specialize (l3 Hw). destruct J as [_ E _ _|_ E _ _ _]; congruence.
      * intros Hw. specialize (l4 Hw). destruct J as [_ E _ _|_ E _ _ _]; congruence.
      * intros q' _. by rewrite lookup_insert_eq.
    + by apply link_facts_other.
Qed.

Lemma rep_join : rep (y <| sy_qpairs := <[q := qp <| cq_ctrlr := Some c |>]> (sy_qpairs y) |> <| sy_ctrlrs := <[c := ct']> (sy_ctrlrs y) |>
    <| sy_msgs := sy_msgs y ++ [(t, MsgConnectRsp r)] |>) (<[q := SRsp r k c n]> qs) (<[c := CLive]> cs).
Proof.
  destruct (rep_qp _ _ _ _ _ R Hq eq_refl) as (qp0 & Hqp0 & F). replace qp0 with qp in * by congruence. clear qp0 Hqp0.
  assert (cstage_tokens c cst = cstage_tokens c CLive) as Ht by (by destruct J as [_ -> _ _|_ -> _ _ _]).
  constructor; csimp; try apply (r_ans _ _ _ R); try apply (r_nextr _ _ _ R).
  - apply (flat_change stage_tokens qs q (SRun r k w) _ (toks y) _ _ (toks y) Hq); [|done|by rewrite tokens_send].
    rewrite (flat_same cstage_tokens cs c cst CLive Hcs Ht). apply (r_tok _ _ _ R).
  - intros q0 st0 [[<- <-]|[Hne H]]%lookup_insert_Some; cbn [is_free].
    + exists (qp <| cq_ctrlr := Some c |>). rewrite lookup_insert_eq. split; [done|]. destruct F as [a1 a2 a3 a4 a5 a6 a7 a8 a9 a10].
      constructor; csimp; try done; [by intros n0 [= <-]|]. intros r0 Hr0. destruct (a10 r0 Hr0) as (rq & b1 & b2 & b3 & b4). exists rq.
      split_and!; try done.
    + rewrite lookup_insert_ne by done. apply (r_q _ _ _ R q0 st0 H).
  - intros q0 [x Hx]. apply lookup_insert_is_Some. destruct (decide (q = q0)) as [->|Hne]; [by left|right]. split; [done|].
    rewrite lookup_insert_ne in Hx by done. apply (r_q' _ _ _ R). by exists x.
  - intros r0 rq H. destruct (r_req _ _ _ R r0 rq H) as (s & H1 & H2). destruct (decide (q = cr_qpair rq)) as [E|Hne].
    + exists (SRsp r k c n). rewrite <- E, lookup_insert_eq. split; [done|]. rewrite <- E in H1. by replace s with (SRun r k w) in * by congruence.
    + exists s. by rewrite lookup_insert_ne.
  - exact join_link.
  - intros c0 cst0 [[<- <-]|[Hne H]]%lookup_insert_Some.
    + exists ct'. rewrite lookup_insert_eq. split; [done|]. apply join_c_facts_own.
    + rewrite lookup_insert_ne by done. destruct (r_c _ _ _ R c0 cst0 H) as (x & Hx & Fx). exists x. split; [done|]. by apply join_c_facts.
  - intros c0 [x Hx]. apply lookup_insert_is_Some. destruct (decide (c = c0)) as [->|Hne]; [by left|right]. split; [done|].
    rewrite lookup_insert_ne in Hx by done. apply (r_c' _ _ _ R). by exists x.
  - exact join_mask.
  - exact join_uniq.
  - intros s sub Hs. by eapply sub_facts_ctrlr; [apply (r_subs _ _ _ R)|..].
  - eapply fifo_ctrlr; [|exact Hc|apply Hid]. eapply fifo_add; [exact R|exact Hq|done|done| |done]. cbn. rewrite Hto. symmetry. by apply (qf_thread _ _ _ _ _ F).
  - intros q0 H. apply (r_nextq _ _ _ R). apply lookup_insert_is_Some in H as [<-|[_ H]]; [by exists (SRun r k w)|done].
  - intros c0 H. apply (r_nextc _ _ _ R). apply lookup_insert_is_Some in H as [<-|[_ H]]; [by exists cst|done].
  - intros k0. pose proof (counted_update k0 qs q _ (SRsp r k c n) Hq) as E. pose proof (r_mgmt _ _ _ R k0) as M.
    change (sgroup_of _ k0) with (sgroup_of y k0). rewrite !(at_key_some k0 k) in E by done. lia.
Qed.
End Join.

(** ** The handlers: a queue pair joins *)

Lemma refuse_qpair_wp y qs cs q r k w cur sc : rep y qs cs -> Z.of_nat (sy_next y) < 2 ^ 63 -> others qs q -> qs !! q = Some (SRun r k w) -> io_wait w = true ->
  cwp (refuse_qpair cur q r sc) y (fun _ y' => good y').
Proof.
  intros R Hn Ho Hq Hw. destruct (rep_qp _ _ _ _ _ R Hq eq_refl) as (qp & Hqp & F). destruct (qf_req _ _ _ _ _ F r eq_refl) as (rq & Hrq & _).
  pose proof (rep_rsp _ _ _ _ _ ((cr_rsp rq) <| cp_sct := SPDK_NVME_SCT_COMMAND_SPECIFIC |> <| cp_sc := sc |>) R Hrq) as R1.
  pose proof (rep_clear _ _ _ _ _ _ _ _ _ R1 Hq Hw Hqp (or_intror eq_refl)) as R2.
  unfold refuse_qpair. do 4 cstep. eapply connect_request_complete_wp; [exact R2|done|by apply others_insert|apply lookup_insert_eq|done].
Qed.

Lemma set_ctrlr_wp y q c qp (Q : unit -> conn_sys -> Prop) : sy_qpairs y !! q = Some qp -> cq_ctrlr qp = None \/ cq_ctrlr qp = Some c ->
  Q tt (y <| sy_qpairs := <[q := qp <| cq_ctrlr := Some c |>]> (sy_qpairs y) |>) -> cwp (nvmf_qpair_set_ctrlr q c) y Q.
Proof.
  intros Hqp Hc HQ. unfold nvmf_qpair_set_ctrlr. do 2 cstep. destruct Hc as [-> |Hc]; [by cstep|]. rewrite Hc.
  apply cwp_assert; [by apply bool_decide_eq_true|]. replace (qp <| cq_ctrlr := Some c |>) with qp in HQ by (destruct qp; cbn in *; by subst).
  rewrite insert_id in HQ by done. by destruct y.
Qed.

(** The identifier is in use: the request waits for the poller. *)
Lemma rep_poll y qs cs q r k w c ct qp cur : rep y qs cs -> qs !! q = Some (SRun r k w) -> io_wait w = true -> sy_qpairs y !! q = Some qp ->
  sy_ctrlrs y !! c = Some ct -> cl_subsys ct = k.2 -> cs !! c = Some CLive ->
  cur = cl_thread ct -> rep (y <| sy_qpairs := <[q := qp <| cq_connect_req := Some r |> <| cq_ctrlr := Some c |>]> (sy_qpairs y) |>
    <| sy_pollers := sy_pollers y ++ [(q, cur)] |>) (<[q := SWait r k (WRetry c cur)]> qs) cs.
Proof.
  intros R Hq Hw Hqp Hc Hk Hl Hcur. destruct (rep_qp _ _ _ _ _ R Hq eq_refl) as (qp0 & Hqp0 & F). replace qp0 with qp in * by congruence.
  eapply rep_q with (st := SRun r k w) (qp := qp); csimp; try done.
  - intros x Hx. cbn. split; intros E; simplify_eq; by destruct x.
  - exists (toks y). split; [done|]. cbn [stage_tokens wait_token]. by rewrite <- Permutation_cons_append, tokens_poll.
  - destruct F as [a1 a2 a3 a4 a5 a6 a7 a8 a9 a10]. constructor; csimp; try done; [intros _; by apply a7|]. by intros r0 k0 c0 t0 [= -> _ _ _].
  - constructor; csimp; try done. intros x Hx. split; [by left|]. injection Hx as <-.
    destruct (qf_req _ _ _ _ _ F _ eq_refl) as (rq & Hrq & _). apply (r_nextr _ _ _ R). by exists rq.
  - intros c0 [= <-]. exists ct. split; [done|]. constructor; try done; [by intros k0 [= <-]|by intros [?|(? & ? & _)]|by intros q' _; rewrite Hl|by intros t' [= <-]].
  - apply fifo_stage; [apply (r_fifo _ _ _ R)|done].
  - apply (r_ans _ _ _ R).
Qed.

(** A controller with an admin queue pair is in use. *)
Lemma admin_live y qs cs c ct qa : rep y qs cs -> sy_ctrlrs y !! c = Some ct -> cl_admin_qpair ct = Some qa -> cs !! c = Some CLive.
Proof.
  intros R Hc Ha. destruct (r_c' _ _ _ R c) as [cst Hcs]; [by exists ct|]. destruct (r_c _ _ _ R c cst Hcs) as (x & Hx & F).
  replace x with ct in * by congruence. destruct (cf_adminq _ _ _ _ _ F qa Ha) as (st & H1 & H2 & _).
  assert (0 ∈ ck_mask (cl_cc ct)) as H0 by (apply (r_mask _ _ _ R c ct 0 Hc); by exists qa, st).
  pose proof (cf_empty _ _ _ _ _ F) as He. destruct cst; try (rewrite He in H0 by done; set_solver). done.
Qed.

(** The admin queue pair of a controller is there to look at, and is on the
    controller's thread. *)
Lemma admin_qpair_at y qs cs c ct qa : rep y qs cs -> sy_ctrlrs y !! c = Some ct -> cl_admin_qpair ct = Some qa ->
  exists qp, sy_qpairs y !! qa = Some qp /\ cq_thread qp = cl_thread ct.
Proof.
  intros R Hc Ha. destruct (r_c' _ _ _ R c) as [cst Hcs]; [by exists ct|]. destruct (r_c _ _ _ R c cst Hcs) as (x & Hx & F). replace x with ct in * by congruence.
  destruct (cf_adminq _ _ _ _ _ F qa Ha) as (st & H1 & H2 & H3). destruct (rep_qp _ _ _ _ _ R H1 H3) as (qp & Hqp & _). exists qp. split; [done|].
  assert (stage_ctrlr st = Some c) as Hs by (destruct st as [|? [[]|]|? ? [[]|]| | | | | |[]|]; cbn in *; congruence).
  destruct (r_link _ _ _ R qa st c H1 Hs) as (z & Hz & L). replace z with ct in * by congruence. symmetry.
  apply (lf_thread _ _ _ _ _ _ (L qp Hqp)). right. by exists 0.
Qed.

(** It has not been taken out of its poll group. *)
Definition admin_grouped (y : conn_sys) (ct : conn_ctrlr) : bool :=
  match cl_admin_qpair ct ≫= (sy_qpairs y !!.) with Some qpa => cq_group qpa | None => true end.

Lemma add_qpair_wp y qs cs q r k w c ct cur : rep y qs cs -> Z.of_nat (sy_next y) < 2 ^ 63 -> others qs q -> qs !! q = Some (SRun r k w) -> io_wait w = true ->
  wait_ctrlr w = None \/ wait_ctrlr w = Some c -> sy_ctrlrs y !! c = Some ct -> cl_subsys ct = k.2 -> cur = cl_thread ct -> admin_grouped y ct = true ->
  cwp (nvmf_ctrlr_add_qpair cur q c r) y (fun _ y' => good y').
Proof.
  intros R Hn Ho Hq Hw Hwc Hc Hk Hcur Hag. destruct (rep_qp _ _ _ _ _ R Hq eq_refl) as (qp & Hqp & F).
  assert (cq_ctrlr qp = None \/ cq_ctrlr qp = Some c) as Hqc by (by rewrite (qf_ctrlr _ _ _ _ _ F)).
  unfold nvmf_ctrlr_add_qpair. do 2 cstep. destruct (cl_admin_qpair ct) as [qa|] eqn:Ha; [|by eapply refuse_qpair_wp].
  pose proof (admin_live _ _ _ _ _ _ R Hc Ha) as Hl.
  destruct (admin_qpair_at _ _ _ _ _ _ R Hc Ha) as (qpa & Hqpa & Ht). unfold admin_grouped in Hag. rewrite Ha in Hag. cbn in Hag. rewrite Hqpa in Hag. cbn in Hag.
  do 2 cstep. apply cwp_bind, cwp_assert; [by rewrite Hag, Ht, Hcur, Z.eqb_refl|]. do 2 cstep. case_bool_decide as Hin.
  - case_bool_decide as Hr; [by eapply refuse_qpair_wp|]. do 2 cstep. apply cwp_bind. eapply set_ctrlr_wp; [apply lookup_insert_eq|done|]. csimp.
    rewrite insert_insert_eq. cstep. eapply good_at; [exact (rep_poll _ _ _ _ _ _ _ _ _ _ cur R Hq Hw Hqp Hc Hk Hl Hcur)|exact Ho|done].
  - apply cwp_bind. eapply set_ctrlr_wp; [exact Hqp|done|]. do 2 cstep. apply cwp_bind, cwp_assert; [apply (qf_group _ _ _ _ _ F)|]. cstep.
    eapply (good_at _ qs _ q (SRsp r k c (cq_qid qp))); [|exact Ho|done]. eapply (rep_join y qs cs q r k w c _ _ ct _ CLive qp); try done.
    left; try done. apply (qf_io _ _ _ _ _ F Hw).
Qed.

Lemma refuse_io_wp y qs cs q r k w cur respond (g : conn_req -> connect_rsp) : rep y qs cs -> Z.of_nat (sy_next y) < 2 ^ 63 -> others qs q ->
  qs !! q = Some (SRun r k w) -> wait_ctrlr w = None -> respond = mod_conn_req r (fun r => r <| cr_rsp := g r |>) ->
  cwp (refuse_io cur r respond) y (fun _ y' => good y').
Proof.
  intros R Hn Ho Hq Hw ->. destruct (rep_qp _ _ _ _ _ R Hq eq_refl) as (qp & Hqp & F). destruct (qf_req _ _ _ _ _ F r eq_refl) as (rq & Hrq & _).
  pose proof (rep_rsp _ _ _ _ _ (g rq) R Hrq) as R1. unfold refuse_io. do 2 cstep. by eapply connect_request_complete_wp; [exact R1|..].
Qed.

Lemma refuse_io_qid_wp y qs cs q r k w cur : rep y qs cs -> Z.of_nat (sy_next y) < 2 ^ 63 -> others qs q -> qs !! q = Some (SRun r k w) -> wait_ctrlr w = None ->
  cwp (refuse_io_qid cur r) y (fun _ y' => good y').
Proof. intros R Hn Ho Hq Hw. by eapply refuse_io_wp. Qed.

(** The thread of an active admin queue pair is the controller's. *)
Lemma admin_thread_wp y qs cs c ct (Q : option Z -> conn_sys -> Prop) : rep y qs cs -> sy_ctrlrs y !! c = Some ct ->
  (forall o, (forall t, o = Some t -> t = cl_thread ct /\ admin_grouped y ct = true) -> Q o y) -> cwp (admin_thread ct) y Q.
Proof.
  intros R Hc HQ. unfold admin_thread. unfold admin_grouped in HQ. destruct (cl_admin_qpair ct) as [qa|] eqn:Ha; [|cstep; by apply HQ].
  destruct (admin_qpair_at _ _ _ _ _ _ R Hc Ha) as (qp & Hqp & Ht). cbn in HQ. rewrite Hqp in HQ. do 3 cstep. apply HQ.
  intros t. destruct (_ && _) eqn:E; [|done]. intros [= <-]. by apply andb_true_iff in E as [_ ->].
Qed.

Lemma ctrlr_sub y qs cs c ct : rep y qs cs -> sy_ctrlrs y !! c = Some ct -> exists sub, sy_subs y !! cl_subsys ct = Some sub.
Proof.
  intros R Hc. destruct (r_c' _ _ _ R c) as [cst Hcs]; [by exists ct|]. destruct (r_c _ _ _ R c cst Hcs) as (x & Hx & F).
  replace x with ct in * by congruence. destruct (cf_sub _ _ _ _ _ F) as (sub & Hs & _). by exists sub.
Qed.

Lemma ctrlr_add_io_wp y qs cs q r k c cur : rep y qs cs -> Z.of_nat (sy_next y) < 2 ^ 63 -> others qs q -> qs !! q = Some (SRun r k (WCtrlrAddIo c)) ->
  (forall ct, sy_ctrlrs y !! c = Some ct -> cur = cl_thread ct) -> cwp (nvmf_ctrlr_add_io_qpair cur r) y (fun _ y' => good y').
Proof.
  intros R Hn Ho Hq Hcur. destruct (rep_qp _ _ _ _ _ R Hq eq_refl) as (qp & Hqp & F). destruct (qf_req _ _ _ _ _ F r eq_refl) as (rq & Hrq & <- & _).
  destruct (r_link _ _ _ R _ _ c Hq eq_refl) as (ct & Hc & L). pose proof (lf_subsys _ _ _ _ _ _ (L qp Hqp) k eq_refl) as Hk.
  destruct (ctrlr_sub _ _ _ _ _ R Hc) as (sub & Hs). pose proof (rep_clear _ _ _ _ _ _ _ _ _ R Hq eq_refl Hqp (or_introl eq_refl)) as R1.
  unfold nvmf_ctrlr_add_io_qpair. do 5 cstep. rewrite (qf_ctrlr _ _ _ _ _ F). do 7 cstep.
  assert (<[cr_qpair rq := SRun r k WAddIo]> qs !! cr_qpair rq = Some (SRun r k WAddIo)) as Hq1 by apply lookup_insert_eq.
  pose proof (others_insert _ _ (SRun r k WAddIo) Ho) as Ho1.
  repeat match goal with |- cwp (if ?b then refuse_io_qid _ _ else _) _ _ => destruct b; [by eapply refuse_io_qid_wp|] end.
  apply cwp_bind. eapply admin_thread_wp; [exact R1|exact Hc|]. intros o Ht. destruct o as [t|]; [|by eapply refuse_io_qid_wp].
  destruct (cl_cap ct <=? cq_qid qp); [by eapply refuse_io_wp|]. eapply add_qpair_wp; [exact R1|done|exact Ho1|exact Hq1|done|by left|exact Hc|exact Hk|by apply Hcur|by apply (Ht t)].
Qed.

(** ** Finding subsystems and controllers *)

Lemma find_subsystem_some subs nqn s : spdk_nvmf_tgt_find_subsystem subs nqn = Some s -> exists sub, subs !! s = Some sub.
Proof.
  unfold spdk_nvmf_tgt_find_subsystem. destruct (memchr0 _ _); [|done].
  destruct (list_find _ subs) as [[i x]|] eqn:E; [|done]. cbn. intros [= <-]. apply list_find_Some in E as (E & _). by exists x.
Qed.

Lemma members_live ctrlrs s sub : sub_facts ctrlrs s sub -> forall c, c ∈ cb_ctrlrs sub -> is_Some (ctrlrs !! c).
Proof. intros F c Hc. destruct (sf_member _ _ _ F c Hc) as (ct & H & _). by exists ct. Qed.

Lemma listed_stage y qs cs s sub c : rep y qs cs -> sy_subs y !! s = Some sub -> c ∈ cb_ctrlrs sub -> exists cst, cs !! c = Some cst /\ listed cst = true.
Proof.
  intros R Hs Hin. destruct (sf_member _ _ _ (r_subs _ _ _ R s sub Hs) c Hin) as (ct & Hct & Hss & _).
  destruct (r_c' _ _ _ R c) as [cst Hcs]; [by exists ct|]. exists cst. split; [done|]. destruct (r_c _ _ _ R c cst Hcs) as (z & Hz & F).
  replace z with ct in * by congruence. destruct (cf_sub _ _ _ _ _ F) as (sub' & Hs' & Hl). rewrite Hss in Hs'. replace sub' with sub in * by congruence. by apply Hl.
Qed.
Lemma listed_not_new y qs cs s sub c q : rep y qs cs -> sy_subs y !! s = Some sub -> c ∈ cb_ctrlrs sub -> cs !! c <> Some (CNew q).
Proof. intros R Hs Hin. destruct (listed_stage _ _ _ _ _ _ R Hs Hin) as (cst & -> & Hl). by intros [= ->]. Qed.

(** A controller on the list is not about to be freed. *)
Lemma listed_not_freed y qs cs s sub c : rep y qs cs -> sy_subs y !! s = Some sub -> c ∈ cb_ctrlrs sub -> MsgCtrlrDestruct c ∉ snd <$> sy_msgs y.
Proof.
  intros R Hs Hin H. apply list_elem_of_fmap in H as ([t m] & Em & Hm). cbn in Em. subst m.
  destruct (msg_owner _ _ _ _ _ R Hm) as [(q & st & Hq & Ht)|(c' & cst & Hc & Ht)].
  - destruct st as [| | |? ? []|? ? []| | | | |]; cbn in Ht; set_solver.
  - destruct cst; cbn in Ht; try set_solver. apply list_elem_of_singleton in Ht. injection Ht as <-.
    destruct (listed_stage _ _ _ _ _ _ R Hs Hin) as (cst & Hc' & Hl). by replace cst with CGone in Hl by congruence.
Qed.

Lemma rep_add_io y qs cs q r k c ct s sub qp : rep y qs cs -> qs !! q = Some (SRun r k WAddIo) -> sy_ctrlrs y !! c = Some ct ->
  sy_subs y !! s = Some sub -> c ∈ cb_ctrlrs sub -> s = k.2 -> sy_qpairs y !! q = Some qp ->
  rep (y <| sy_qpairs := <[q := qp <| cq_ctrlr := Some c |>]> (sy_qpairs y) |> <| sy_msgs := sy_msgs y ++ [(cl_thread ct, MsgCtrlrAddIoQpair r)] |>)
    (<[q := SWait r k (WCtrlrAddIo c)]> qs) cs.
Proof.
  intros R Hq Hc Hs Hin Hk Hqp. destruct (rep_qp _ _ _ _ _ R Hq eq_refl) as (qp0 & Hqp0 & F). replace qp0 with qp in * by congruence.
  eapply rep_q with (st := SRun r k WAddIo) (qp := qp); csimp; try done.
  - intros x Hx. cbn. split; intros E; simplify_eq; by destruct x.
  - exists (toks y). split; [done|]. by rewrite tokens_send.
  - destruct F as [a1 a2 a3 a4 a5 a6 a7 a8 a9 a10]. constructor; csimp; done.
  - constructor; csimp; try done. intros x Hx. split; [by left|]. injection Hx as <-.
    destruct (qf_req _ _ _ _ _ F _ eq_refl) as (rq & Hrq & _). apply (r_nextr _ _ _ R). by exists rq.
  - intros c0 [= <-]. exists ct. split; [done|]. destruct (sf_member _ _ _ (r_subs _ _ _ R s sub Hs) c Hin) as (ct' & Hct' & Hss & _).
    replace ct' with ct in * by congruence. constructor; try done; [intros k0 [= <-]; congruence|by intros [?|(? & ? & _)]|].
    intros q' _. by eapply listed_not_new.
  - eapply fifo_add; [exact R|exact Hq|done|done| |]; [intros ct0 Hct0; congruence|]. intros ? ? [= _ <-]. by eapply listed_not_freed.
  - apply (r_ans _ _ _ R).
Qed.

Lemma add_io_wp y qs cs q r k cur : rep y qs cs -> Z.of_nat (sy_next y) < 2 ^ 63 -> others qs q -> qs !! q = Some (SRun r k WAddIo) ->
  cwp (_nvmf_ctrlr_add_io_qpair cur r) y (fun _ y' => good y').
Proof.
  intros R Hn Ho Hq. destruct (rep_qp _ _ _ _ _ R Hq eq_refl) as (qp & Hqp & F). destruct (qf_req _ _ _ _ _ F r eq_refl) as (rq & Hrq & <- & Hi & Hs).
  specialize (Hs k eq_refl eq_refl). destruct (find_subsystem_some _ _ _ Hs) as (sub & Hsub). pose proof (r_subs _ _ _ R _ _ Hsub) as SF.
  destruct (get_ctrlr_spec (sy_ctrlrs y) (cb_ctrlrs sub) (cd_cntlid (cr_data rq)) (members_live _ _ _ SF)) as (o & Hget & Hspec).
  unfold _nvmf_ctrlr_add_io_qpair. do 4 cstep. apply cwp_bind, cwp_assert; [by apply Z.eqb_eq|]. do 6 cstep.
  destruct o as [c|]; [|by eapply refuse_io_wp]. destruct Hspec as (Hin & ct & Hc & _). do 2 cstep.
  repeat match goal with |- cwp (if ?b then refuse_io_qid _ _ else _) _ _ => destruct b; [by eapply refuse_io_qid_wp|] end.
  apply cwp_bind. eapply admin_thread_wp; [exact R|exact Hc|]. intros o Ht. destruct o as [t|]; [|by eapply refuse_io_qid_wp].
  rewrite (proj1 (Ht t eq_refl)). do 3 cstep. eapply good_at; [by eapply rep_add_io|exact Ho|done].
Qed.

(** ** The handlers: responses *)

(** A queue pair changes within its stage. *)
Lemma rep_touch y qs cs q st qp qp' : rep y qs cs -> qs !! q = Some st -> is_free st = false -> sy_qpairs y !! q = Some qp -> cq_thread qp' = cq_thread qp ->
  q_facts (sy_subs y) (sy_reqs y) q st qp' -> rep (y <| sy_qpairs := <[q := qp']> (sy_qpairs y) |>) qs cs.
Proof.
  intros R Hq Hf Hqp Ht F. rewrite <- (insert_id qs q st Hq). eapply rep_q with (st := st) (st' := st) (qp := qp); csimp; try done.
  - exists (flat stage_tokens (delete q qs) ++ flat cstage_tokens cs). rewrite app_assoc, <- (flat_delete _ _ _ _ Hq). split; apply (r_tok _ _ _ R).
  - constructor; csimp; try done. intros r Hr. split; [by left|]. destruct (qf_req _ _ _ _ _ F r Hr) as (rq & Hrq & _).
    apply (r_nextr _ _ _ R). by exists rq.
  - intros c Hc. destruct (r_link _ _ _ R q st c Hq Hc) as (ct & Hct & L). exists ct. split; [done|]. by apply L.
  - rewrite insert_id by done. apply (r_fifo _ _ _ R).
  - apply (r_ans _ _ _ R).
Qed.

Lemma rep_state y qs cs q st qp x : rep y qs cs -> qs !! q = Some st -> is_free st = false -> sy_qpairs y !! q = Some qp -> state_ok st x = true ->
  rep (y <| sy_qpairs := <[q := qp <| cq_state := x |>]> (sy_qpairs y) |>) qs cs.
Proof.
  intros R Hq Hf Hqp Hx. destruct (rep_qp _ _ _ _ _ R Hq Hf) as (qp0 & Hqp0 & F). replace qp0 with qp in * by congruence.
  eapply rep_touch; try done. destruct F as [a1 a2 a3 a4 a5 a6 a7 a8 a9 a10]. by constructor.
Qed.

(** The statistics do not matter. *)
Lemma rep_stats y qs cs g : rep y qs cs -> rep (y <| sy_stats := g |>) qs cs.
Proof. intros []. by constructor. Qed.

Lemma disconnect_wp y qs cs q qp : rep y qs cs -> rest qs -> sy_qpairs y !! q = Some qp -> cwp (spdk_nvmf_qpair_disconnect q) y (fun _ y' => good y').
Proof.
  intros R Hre Hqp. unfold spdk_nvmf_qpair_disconnect. do 2 cstep. destruct (spdk_nvmf_qpair_is_active qp) eqn:Ha; [|cstep; by exists qs, cs].
  destruct (r_q' _ _ _ R q) as [st Hq]; [by exists qp|]. cstep. exists qs, cs. split; [|done].
  pose proof (r_q _ _ _ R q st Hq) as F. destruct (is_free st) eqn:Hf; [congruence|]. destruct F as (qp0 & Hqp0 & F). replace qp0 with qp in * by congruence.
  eapply rep_state; try done. pose proof (qf_state _ _ _ _ _ F) as Hs. unfold spdk_nvmf_qpair_is_active in Ha.
  destruct st as [|? [[]|]|? ? [[]|]| | | | | |[]|]; cbn in *; try done; by destruct (cq_state qp).
Qed.

Lemma send_rsp_wp y qs cs q r k c n qp auth cur : rep y qs cs -> Z.of_nat (sy_next y) < 2 ^ 63 -> others qs q -> qs !! q = Some (SRunH r k c n) ->
  sy_qpairs y !! q = Some qp -> connecting (cq_state qp) = true -> cur = k.1 -> cwp (nvmf_ctrlr_send_connect_rsp auth cur r) y (fun _ y' => good y').
Proof.
  intros R Hn Ho Hq Hqp Hs Hcur. destruct (rep_qp _ _ _ _ _ R Hq eq_refl) as (qp0 & Hqp0 & F). replace qp0 with qp in * by congruence. clear qp0 Hqp0.
  destruct (qf_req _ _ _ _ _ F r eq_refl) as (rq & Hrq & Eq & _). subst q. pose proof (qf_thread _ _ _ _ _ F k eq_refl) as Ht.
  destruct (r_link _ _ _ R _ _ c Hq eq_refl) as (ct & Hc & L). destruct (ctrlr_sub _ _ _ _ _ R Hc) as (sub & Hsub).
  assert (forall y1, rep y1 qs cs -> sy_next y1 = sy_next y -> cwp (connect_request_complete cur r) y1
    (fun _ y' => exists cs, rep y' (<[cr_qpair rq := SAttached c n]> qs) cs)) as Hcomp.
  { intros y1 R1 En. destruct (rep_qp _ _ _ _ _ R1 Hq eq_refl) as (qp1 & Hqp1 & F1). destruct (qf_req _ _ _ _ _ F1 r eq_refl) as (rq1 & Hr1 & Eq1 & _).
    unfold connect_request_complete. do 2 cstep. rewrite Eq1. do 2 cstep. apply cwp_bind, cwp_assert; [by rewrite (qf_group _ _ _ _ _ F1)|].
    rewrite <- (qf_thread _ _ _ _ _ F1 k eq_refl), Hcur, Z.eqb_refl.
    eapply cwp_mono; [eapply complete_wp; [exact R1|by rewrite En|exact Hq|constructor]|]. intros _ y' [R' _]. by exists cs. }
  assert (forall y1 g, rep y1 qs cs -> sy_next y1 = sy_next y -> (exists rq1, sy_reqs y1 !! r = Some rq1) ->
    cwp (c_assert (cq_group qp && (cur =? cq_thread qp));; mod_conn_req r (fun r => r <| cr_rsp := g r |>);; connect_request_complete cur r) y1
      (fun _ y' => good y')) as Hfin.
  { intros y1 g R1 En (rq1 & Hr1). pose proof (rep_rsp _ _ _ _ _ (g rq1) R1 Hr1) as R2.
    apply cwp_bind, cwp_assert; [by rewrite (qf_group _ _ _ _ _ F), Hcur, Ht, Z.eqb_refl|]. do 2 cstep.
    eapply cwp_mono; [by apply Hcomp|]. intros _ y' [cs' R']. by eapply good_at. }
  unfold nvmf_ctrlr_send_connect_rsp. do 5 cstep. rewrite (qf_ctrlr _ _ _ _ _ F). cbn [stage_ctrlr]. do 3 cstep.
  destruct (cq_state qp) eqn:Es; try done; [|by eapply Hfin; [exact R|done|by exists rq]].
  do 2 cstep. destruct (nvmf_subsystem_host_auth_required sub (cl_hostnqn ct)); [destruct auth; cbn [negb]|].
  - do 2 cstep. do 2 cstep. pose proof (rep_rsp _ _ _ _ _ ((cr_rsp rq) <| cp_hi := put_bits 1 1 1 (cp_hi (cr_rsp rq)) |>) R Hrq) as R1.
    pose proof (rep_state _ _ _ _ _ _ SPDK_NVMF_QPAIR_AUTHENTICATING R1 Hq eq_refl Hqp eq_refl) as R2.
    eapply Hfin; [exact R2|done|]. csimp. rewrite lookup_insert_eq. by eexists.
  - do 2 cstep. pose proof (rep_rsp _ _ _ _ _ ((cr_rsp rq) <| cp_sct := SPDK_NVME_SCT_GENERIC |> <| cp_sc := SPDK_NVME_SC_INTERNAL_DEVICE_ERROR |>) R Hrq) as R1.
    apply cwp_bind. eapply cwp_mono; [by apply Hcomp|]. intros _ y' [cs' R']. cbv beta.
    destruct (rep_qp _ _ _ _ _ R' (lookup_insert_eq _ _ _) eq_refl) as (qp' & Hqp' & _). eapply disconnect_wp; [exact R'|by apply others_rest|done].
  - do 2 cstep. pose proof (rep_state _ _ _ _ _ _ SPDK_NVMF_QPAIR_ENABLED R Hq eq_refl Hqp eq_refl) as R2. eapply Hfin; [exact R2|done|by exists rq].
Qed.

(** ** The handlers: the poller *)

Lemma rep_expire y qs cs q r k c i t : rep y qs cs -> sy_pollers y !! i = Some (q, t) -> qs !! q = Some (SWait r k (WRetry c t)) ->
  rep (y <| sy_pollers := delete i (sy_pollers y) |>) (<[q := SRun r k (WRetry c t)]> qs) cs.
Proof.
  intros R Hi Hq. destruct (rep_qp _ _ _ _ _ R Hq eq_refl) as (qp & Hqp & F).
  eapply rep_q with (st := SWait r k (WRetry c t)) (qp := qp) (qp' := qp); csimp; try done.
  - symmetry. by apply insert_id.
  - exists (tokens (sy_msgs y) (sy_queued y) (delete i (sy_pollers y)) (sy_fini y)). split; [|done].
    rewrite (delete_Permutation (sy_pollers y) i _ Hi) at 1. by rewrite tokens_poll.
  - destruct F as [a1 a2 a3 a4 a5 a6 a7 a8 a9 a10]. by constructor.
  - constructor; csimp; try done. intros x Hx. split; [by left|]. destruct (qf_req _ _ _ _ _ F x Hx) as (rq & Hrq & _).
    apply (r_nextr _ _ _ R). by exists rq.
  - intros c0 Hc. destruct (r_link _ _ _ R q _ c0 Hq Hc) as (ct & Hct & L). exists ct. split; [done|]. destruct (L qp Hqp) as [l1 l2 l3 l4 l5 l6]. by constructor.
  - apply fifo_stage; [apply (r_fifo _ _ _ R)|done].
  - apply (r_ans _ _ _ R).
Qed.

Lemma retry_wp y qs cs q t i : rep y qs cs -> Z.of_nat (sy_next y) < 2 ^ 63 -> rest qs -> sy_pollers y !! i = Some (q, t) ->
  (forall qp c ct, sy_qpairs y !! q = Some qp -> cq_ctrlr qp = Some c -> sy_ctrlrs y !! c = Some ct -> admin_grouped y ct = true) ->
  cwp (c_mod (fun y => y <| sy_pollers := delete i (sy_pollers y) |>);; _retry_qid_check t q) y (fun _ y' => good y').
Proof.
  intros R Hn Hre Hi Hag. assert (TPoll (q, t) ∈ toks y) as Hin.
  { unfold tokens. rewrite !elem_of_app. right. right. left. apply list_elem_of_fmap. exists (q, t). split; [done|]. by eapply list_elem_of_lookup_2. }
  rewrite (r_tok _ _ _ R), elem_of_app, !elem_of_flat in Hin. destruct Hin as [(q' & st & Hq & Ht)|(c & cst & _ & Ht)]; [|destruct cst; cbn in Ht; set_solver].
  assert (q' = q /\ exists r k c, st = SWait r k (WRetry c t)) as (-> & r & k & c & ->).
  { destruct st as [| | |? ? []|? ? []| | | | |]; cbn in Ht; set_solver. }
  destruct (rep_qp _ _ _ _ _ R Hq eq_refl) as (qp & Hqp & F). pose proof (rep_expire _ _ _ _ _ _ _ _ _ R Hi Hq) as R1.
  destruct (qf_req _ _ _ _ _ F r eq_refl) as (rq & Hrq & Eq & _). destruct (r_link _ _ _ R _ _ c Hq eq_refl) as (ct & Hc & L).
  unfold _retry_qid_check. do 4 cstep. apply cwp_bind. eapply cwp_need; [by apply (qf_retry _ _ _ _ _ F r k c t)|]. do 2 cstep. rewrite Eq. do 2 cstep.
  apply cwp_bind. eapply cwp_need; [apply (qf_ctrlr _ _ _ _ _ F)|].
  eapply add_qpair_wp; [exact R1|done|by apply others_insert, rest_others|apply lookup_insert_eq|done|by right|exact Hc|by apply (lf_subsys _ _ _ _ _ _ (L qp Hqp))|by apply (lf_retry _ _ _ _ _ _ (L qp Hqp))|].
  apply (Hag qp c ct Hqp); [apply (qf_ctrlr _ _ _ _ _ F)|done].
Qed.

(** ** Subsystems change *)

Definition names (subs : list conn_subsys) : list bytes := (fun s => ds_subnqn (cb_info s)) <$> subs.

Lemma find_names subs subs' nqn : names subs' = names subs -> spdk_nvmf_tgt_find_subsystem subs' nqn = spdk_nvmf_tgt_find_subsystem subs nqn.
Proof.
  assert (forall l, spdk_nvmf_tgt_find_subsystem l nqn =
    if memchr0 (S SPDK_NVMF_NQN_MAX_LEN) nqn then fst <$> list_find (fun n => n = cstr nqn) (names l) else None) as H.
  { intros l. unfold spdk_nvmf_tgt_find_subsystem, names. destruct (memchr0 _ _); [|done]. rewrite list_find_fmap.
    change ((λ n, n = cstr nqn) ∘ _) with (fun s => ds_subnqn (cb_info s) = cstr nqn).
    by destruct (list_find _ l) as [[i x]|]. }
  intros E. by rewrite !H, E.
Qed.

Lemma names_insert subs s sub sub' : subs !! s = Some sub -> ds_subnqn (cb_info sub') = ds_subnqn (cb_info sub) -> names (<[s := sub']> subs) = names subs.
Proof. intros H E. unfold names. rewrite list_fmap_insert. apply list_insert_id. by rewrite list_lookup_fmap, H, E. Qed.

Lemma q_facts_subs subs subs' reqs q st qp : names subs' = names subs -> q_facts subs reqs q st qp -> q_facts subs' reqs q st qp.
Proof.
  intros E [a1 a2 a3 a4 a5 a6 a7 a8 a9 a10]. constructor; try assumption. intros r Hr. destruct (a10 r Hr) as (rq & b1 & b2 & b3 & b4).
  exists rq. split_and!; try done. intros k Hk Hh. rewrite (find_names subs subs') by done. by apply b4.
Qed.

(** A new controller gets its identifier and its place on the list. *)
Section Listed.
Context (y : conn_sys) (qs : gmap nat stage) (cs : gmap nat cstage) (q r : nat) (k : Z * nat) (c : nat) (ct ct' : conn_ctrlr) (sub sub' : conn_subsys).
Hypotheses (R : rep y qs cs) (Hq : qs !! q = Some (SRun r k (WAddCtrlr c))) (Hc : sy_ctrlrs y !! c = Some ct)
  (Hs : sy_subs y !! cl_subsys ct = Some sub) (Hct : ct' = ct <| cl_cntlid := cl_cntlid ct' |>)
  (Hinfo : cb_info sub' = cb_info sub) (Hmin : cb_min_cntlid sub' = cb_min_cntlid sub) (Hmax : cb_max_cntlid sub' = cb_max_cntlid sub)
  (Hl : cb_ctrlrs sub' = cb_ctrlrs sub ++ [c]) (Hnext : cb_min_cntlid sub - 1 <= cb_next_cntlid sub' <= cb_max_cntlid sub)
  (Hfresh : ~ cntlid_used (sy_ctrlrs y) (cb_ctrlrs sub) (cl_cntlid ct'))
  (Hrange : cl_dynamic ct = true -> cb_min_cntlid sub <= cl_cntlid ct' <= cb_max_cntlid sub).

Lemma listed_same : cl_subsys ct' = cl_subsys ct /\ cl_thread ct' = cl_thread ct /\ cl_dynamic ct' = cl_dynamic ct /\ cl_cc ct' = cl_cc ct /\
  cl_admin_qpair ct' = cl_admin_qpair ct.
Proof. by rewrite Hct. Qed.

Lemma listed_new : cs !! c = Some (CNew q) /\ c ∉ cb_ctrlrs sub.
Proof.
  destruct (rep_qp _ _ _ _ _ R Hq eq_refl) as (qp & Hqp & _). destruct (r_link _ _ _ R _ _ c Hq eq_refl) as (x & _ & L).
  pose proof (lf_new _ _ _ _ _ _ (L qp Hqp) eq_refl) as Hn. split; [done|]. destruct (r_c _ _ _ R c _ Hn) as (z & Hz & F).
  replace z with ct in * by congruence. destruct (cf_sub _ _ _ _ _ F) as (sub0 & Hs0 & Hl0). replace sub0 with sub in * by congruence. intros Hin. by apply Hl0 in Hin.
Qed.

Lemma listed_sub_facts s0 sub0 : <[cl_subsys ct := sub']> (sy_subs y) !! s0 = Some sub0 -> sub_facts (<[c := ct']> (sy_ctrlrs y)) s0 sub0.
Proof.
  destruct listed_same as (E1 & E2 & E3 & _). destruct listed_new as [_ Hnot].
  assert (forall z, z <> c -> <[c := ct']> (sy_ctrlrs y) !! z = sy_ctrlrs y !! z) as Hne by (intros; by rewrite lookup_insert_ne).
  intros [(<- & <- & _)|[Hs0 H]]%list_lookup_insert_Some.
  - destruct (r_subs _ _ _ R _ _ Hs) as [f1 f2 f3 f4 f5]. constructor; rewrite ?Hl, ?Hmin, ?Hmax; try done.
    + apply NoDup_app. split; [done|]. split; [|apply NoDup_singleton]. by intros x Hx ->%list_elem_of_singleton.
    + intros x [Hx| ->%list_elem_of_singleton]%elem_of_app; [rewrite Hne by (intros ->; done); by apply f2|].
      exists ct'. rewrite lookup_insert_eq, E1, E3. done.
    + assert (forall x, x ∈ cb_ctrlrs sub ++ [c] -> x = c \/ (x <> c /\ x ∈ cb_ctrlrs sub)) as Hcase by (intros x; destruct (decide (x = c)); set_solver).
      assert (forall x z, x ∈ cb_ctrlrs sub -> sy_ctrlrs y !! x = Some z -> cl_cntlid z <> cl_cntlid ct') as Hd.
      { intros x z Hx Hz Heq. apply Hfresh. by exists x, z. }
      intros x x' z z' [->|[Nx Hx]]%Hcase [->|[Nx' Hx']]%Hcase; rewrite ?lookup_insert_eq, ?Hne by done; [done| | |by apply f3].
      * intros [= <-] Hz' Heq. by apply eq_sym, (Hd x' z') in Heq.
      * intros Hz [= <-] Heq. by apply (Hd x z) in Heq.
  - destruct (r_subs _ _ _ R _ _ H) as [f1 f2 f3 f4 f5].
    assert (forall x, x ∈ cb_ctrlrs sub0 -> <[c := ct']> (sy_ctrlrs y) !! x = sy_ctrlrs y !! x) as Hx.
    { intros x Hx. apply Hne. intros ->. destruct (f2 c Hx) as (z & Hz & Hz' & _). congruence. }
    constructor; try done; [intros x H'; rewrite Hx by done; by apply f2|]. intros x x' z z' H1 H2. rewrite !Hx by done. by apply f3.
Qed.

Lemma listed_c_facts c0 cst0 ct0 : c0 <> c -> c_facts (sy_subs y) qs c0 cst0 ct0 ->
  c_facts (<[cl_subsys ct := sub']> (sy_subs y)) (<[q := SWait r k (WAddAdmin c)]> qs) c0 cst0 ct0.
Proof.
  intros Hne F. apply c_facts_away with (st := SRun r k (WAddCtrlr c)); [done|done|intros w [= <-] _; cbn; congruence|].
  destruct F as [f1 f2 f3 f4 f5 f6 f7]. constructor; try assumption.
  destruct f1 as (s0 & Hs0 & Hl0). destruct (decide (cl_subsys ct = cl_subsys ct0)) as [E|E].
  - exists sub'. rewrite <- E in *. rewrite list_lookup_insert_eq by (by eapply lookup_lt_Some). split; [done|].
    replace s0 with sub in * by congruence. rewrite Hl, <- Hl0, elem_of_app, list_elem_of_singleton. naive_solver.
  - exists s0. by rewrite list_lookup_insert_ne.
Qed.

Lemma listed_c_facts_own : c_facts (<[cl_subsys ct := sub']> (sy_subs y)) (<[q := SWait r k (WAddAdmin c)]> qs) c (CAdmin q) ct'.
Proof.
  destruct listed_new as [Hn _]. destruct (r_c _ _ _ R c _ Hn) as (z & Hz & [f1 f2 f3 f4 f5 f6 f7]). replace z with ct in * by congruence.
  destruct listed_same as (E1 & E2 & E3 & E4 & E5). constructor; rewrite ?E4, ?E5; try done.
  - rewrite E1. exists sub'. rewrite list_lookup_insert_eq by (by eapply lookup_lt_Some). split; [done|]. rewrite Hl. set_solver.
  - intros _. by apply f3.
  - intros qa H. destruct (f5 qa H) as (st & H1 & H2 & H3). exists st. rewrite lookup_insert_ne; [done|]. intros <-.
    replace st with (SRun r k (WAddCtrlr c)) in H2 by congruence. done.
  - intros q0 [= <-]. exists (SWait r k (WAddAdmin c)). by rewrite lookup_insert_eq.
Qed.

Lemma listed_link q0 st0 c0 : <[q := SWait r k (WAddAdmin c)]> qs !! q0 = Some st0 -> stage_ctrlr st0 = Some c0 ->
  exists ct0, <[c := ct']> (sy_ctrlrs y) !! c0 = Some ct0 /\ forall qp0, sy_qpairs y !! q0 = Some qp0 ->
    link_facts (<[c := CAdmin q]> cs) q0 st0 (cq_thread qp0) c0 ct0.
Proof.
  destruct listed_same as (E1 & E2 & _). destruct listed_new as [Hn _]. intros [[<- <-]|[Hne H]]%lookup_insert_Some Hc0.
  - injection Hc0 as <-. exists ct'. rewrite lookup_insert_eq. split; [done|]. intros qp0 Hqp0.
    destruct (r_link _ _ _ R _ _ c Hq eq_refl) as (z & Hz & L). replace z with ct in * by congruence. destruct (L qp0 Hqp0) as [l1 l2 l3 l4 l5 l6].
    constructor; rewrite ?E1, ?E2, ?lookup_insert_eq; done.
  - destruct (r_link _ _ _ R q0 st0 c0 H Hc0) as (z & Hz & L). exists (if decide (c0 = c) then ct' else z). split.
    { destruct (decide (c0 = c)) as [->|]; [by rewrite lookup_insert_eq|by rewrite lookup_insert_ne]. }
    intros qp0 Hqp0. specialize (L qp0 Hqp0). destruct (decide (c0 = c)) as [->|Hcc].
    + replace z with ct in * by congruence. destruct (link_facts_same _ _ _ _ _ _ _ L E1 E2) as [l1 l2 l3 l4 l5 l6].
      constructor; try done; [intros Hw; specialize (l3 Hw); congruence|intros Hw; specialize (l4 Hw); congruence|].
      intros q' _. by rewrite lookup_insert_eq.
    + by apply link_facts_other.
Qed.

Lemma rep_listed : rep (y <| sy_subs := <[cl_subsys ct := sub']> (sy_subs y) |> <| sy_ctrlrs := <[c := ct']> (sy_ctrlrs y) |>
    <| sy_msgs := sy_msgs y ++ [(cl_thread ct, MsgAddAdminQpair r)] |>) (<[q := SWait r k (WAddAdmin c)]> qs) (<[c := CAdmin q]> cs).
Proof.
  destruct listed_same as (E1 & E2 & E3 & E4 & E5). destruct listed_new as [Hn _].
  assert (names (<[cl_subsys ct := sub']> (sy_subs y)) = names (sy_subs y)) as Hnm by (eapply names_insert; [done|by rewrite Hinfo]).
  destruct (rep_qp _ _ _ _ _ R Hq eq_refl) as (qp & Hqp & F).
  constructor; csimp; try apply (r_ans _ _ _ R); try apply (r_nextr _ _ _ R).
  - apply (flat_change stage_tokens qs q (SRun r k (WAddCtrlr c)) _ (toks y) _ _ (toks y) Hq); [|done|by rewrite tokens_send].
    rewrite (flat_same cstage_tokens cs c (CNew q) (CAdmin q) Hn eq_refl). apply (r_tok _ _ _ R).
  - intros q0 st0 [[<- <-]|[Hne H]]%lookup_insert_Some.
    + exists qp. split; [done|]. apply (q_facts_subs (sy_subs y)); [done|]. destruct F as [a1 a2 a3 a4 a5 a6 a7 a8 a9 a10]. by constructor.
    + pose proof (r_q _ _ _ R q0 st0 H) as F0. destruct (is_free st0); [done|]. destruct F0 as (qp0 & H0 & F0). exists qp0. split; [done|].
      by apply (q_facts_subs (sy_subs y)).
  - intros q0 H. apply lookup_insert_is_Some'. right. by apply (r_q' _ _ _ R).
  - intros r0 rq H. destruct (r_req _ _ _ R r0 rq H) as (s & H1 & H2). destruct (decide (q = cr_qpair rq)) as [E|Hne].
    + exists (SWait r k (WAddAdmin c)). rewrite <- E, lookup_insert_eq. split; [done|]. rewrite <- E in H1.
      by replace s with (SRun r k (WAddCtrlr c)) in * by congruence.
    + exists s. by rewrite lookup_insert_ne.
  - exact listed_link.
  - intros c0 cst0 [[<- <-]|[Hne H]]%lookup_insert_Some.
    + exists ct'. rewrite lookup_insert_eq. split; [done|]. apply listed_c_facts_own.
    + rewrite lookup_insert_ne by done. destruct (r_c _ _ _ R c0 cst0 H) as (x & Hx & Fx). exists x. split; [done|]. by apply listed_c_facts.
  - intros c0 H. apply lookup_insert_is_Some'. destruct (decide (c = c0)) as [->|Hne]; [by left|right]. rewrite lookup_insert_ne in H by done.
    by apply (r_c' _ _ _ R).
  - intros c0 ct0 n H. rewrite (holders_stage qs q (SRun r k (WAddCtrlr c))) by done. apply lookup_insert_Some in H as [[<- <-]|[Hne H]].
    + rewrite E4. by apply (r_mask _ _ _ R).
    + by apply (r_mask _ _ _ R).
  - eapply uniq_stage; [exact Hq|done|]. apply (r_uniq _ _ _ R).
  - exact listed_sub_facts.
  - eapply fifo_ctrlr; [|exact Hc|done]. eapply fifo_add; [exact R|exact Hq|done|done| |done]. intros ct0 Hct0. congruence.
  - intros q0 H. apply (r_nextq _ _ _ R). apply lookup_insert_is_Some in H as [<-|[_ H]]; [by eexists|done].
  - intros c0 H. apply (r_nextc _ _ _ R). apply lookup_insert_is_Some in H as [<-|[_ H]]; [by eexists|done].
  - intros k0. pose proof (counted_update k0 qs q _ (SWait r k (WAddAdmin c)) Hq) as E. pose proof (r_mgmt _ _ _ R k0) as M.
    change (sgroup_of _ k0) with (sgroup_of y k0). rewrite !(at_key_some k0 k) in E by done. lia.
Qed.
End Listed.
