(* ===== verification/ConnectLife.v ===== *)
(** * Controllers come and go: the rest of the Connect machine

    The handlers that create a controller, give it an identifier and its admin
    queue pair, and take queue pairs and controllers down, keep the relation of
    [ConnectInv]; so does every event of the machine. *)
From S2P Require Import Prelude NvmeSpec Iov World CtrlrRegs AsyncEvents Discovery Connect ConnectInv.

Implicit Types (qs : gmap nat stage) (cs : gmap nat cstage).

(** ** Subsystems are configured *)

Lemma rep_sub y qs cs s sub sub' : rep y qs cs -> sy_subs y !! s = Some sub -> ds_subnqn (cb_info sub') = ds_subnqn (cb_info sub) ->
  cb_ctrlrs sub' = cb_ctrlrs sub -> cb_min_cntlid sub' = cb_min_cntlid sub -> cb_max_cntlid sub' = cb_max_cntlid sub ->
  cb_min_cntlid sub - 1 <= cb_next_cntlid sub' <= cb_max_cntlid sub -> rep (y <| sy_subs := <[s := sub']> (sy_subs y) |>) qs cs.
Proof.
  intros R Hs En El Emin Emax Hn. pose proof (names_insert _ _ _ _ Hs En) as Hnm.
  assert (forall i x, sy_subs y !! i = Some x -> exists x', <[s := sub']> (sy_subs y) !! i = Some x' /\ cb_ctrlrs x' = cb_ctrlrs x) as Hx.
  { intros i x Hi. destruct (decide (s = i)) as [<-|Hne].
    - exists sub'. rewrite list_lookup_insert_eq by (by eapply lookup_lt_Some). split; [done|]. congruence.
    - exists x. by rewrite list_lookup_insert_ne. }
  destruct R. constructor; csimp; try assumption.
  - intros q st Hq. specialize (r_q q st Hq). destruct (is_free st); [done|]. destruct r_q as (qp & Hqp & F). exists qp. split; [done|].
    by apply (q_facts_subs (sy_subs y)).
  - intros c cst Hc. destruct (r_c c cst Hc) as (ct & Hct & [f1 f2 f3 f4 f5 f6 f7]). exists ct. split; [done|]. constructor; try assumption.
    destruct f1 as (x & Hx1 & Hx2). destruct (Hx _ _ Hx1) as (x' & Hx' & E). exists x'. by rewrite E.
  - intros i x [(<- & <- & _)|[_ H]]%list_lookup_insert_Some; [|by apply r_subs].
    destruct (r_subs s sub Hs) as [f1 f2 f3 f4 f5]. constructor; rewrite ?El, ?Emin, ?Emax; done.
Qed.

(** ** A controller that got no identifier *)

(** Who knows a controller: the holders of its identifiers, and the queue pairs
    that wait with it. *)
Lemma stage_refs st c : stage_ctrlr st = Some c -> (exists n, holding st = Some (c, n)) \/ (exists w, stage_wait st = Some w /\ wait_ctrlr w = Some c).
Proof.
  destruct st as [|? [[]|]|? ? [[]|]|? ? w|? ? w| | | |[]|]; cbn; intros H; try done; try (left; injection H as <-; by eexists); right; by exists w.
Qed.

Lemma no_refs_new y qs cs c q q0 st0 : rep y qs cs -> cs !! c = Some (CNew q) -> qs !! q0 = Some st0 -> stage_ctrlr st0 = Some c -> q0 = q.
Proof.
  intros R Hc Hq0 Hr. destruct (r_c _ _ _ R c _ Hc) as (ct & Hct & F). destruct (stage_refs _ _ Hr) as [(n & Hh)|(w & Hw & Hwc)].
  - assert (n ∈ ck_mask (cl_cc ct)) as Hn by (apply (r_mask _ _ _ R c ct n Hct); by exists q0, st0).
    rewrite (cf_empty _ _ _ _ _ F) in Hn by done. set_solver.
  - assert (is_free st0 = false) as Hf by (by destruct st0). destruct (rep_qp _ _ _ _ _ R Hq0 Hf) as (qp & Hqp & _).
    destruct (r_link _ _ _ R q0 st0 c Hq0 Hr) as (x & _ & L). specialize (L qp Hqp). destruct w; cbn in Hwc; try done; injection Hwc as ->.
    + pose proof (lf_new _ _ _ _ _ _ L Hw). congruence.
    + pose proof (lf_admin _ _ _ _ _ _ L Hw). congruence.
    + apply (lf_io _ _ _ _ _ _ L q) in Hc as []. unfold is_io_stage. by rewrite Hw.
    + apply (lf_io _ _ _ _ _ _ L q) in Hc as []. unfold is_io_stage. by rewrite Hw.
Qed.

(** The facts about the others when controller [c] is gone and nobody knows it. *)
Lemma sub_facts_delete ctrlrs s sub c : sub_facts ctrlrs s sub -> c ∉ cb_ctrlrs sub -> sub_facts (delete c ctrlrs) s sub.
Proof.
  intros [f1 f2 f3 f4 f5] Hn. assert (forall x, x ∈ cb_ctrlrs sub -> delete c ctrlrs !! x = ctrlrs !! x) as Hx.
  { intros x Hx. apply lookup_delete_ne. congruence. }
  constructor; try done; [intros x H; rewrite Hx by done; by apply f2|]. intros x x' z z' H1 H2. rewrite !Hx by done. by apply f3.
Qed.

Lemma fifo_delete ctrlrs qs msgs c : fifo ctrlrs qs msgs -> fifo (delete c ctrlrs) qs msgs.
Proof.
  intros F. constructor; [apply (ff_order _ _ _ F)| |].
  - intros q st m t Hq Hd Ht. pose proof (ff_due _ _ _ F q st m t Hq Hd Ht) as D. destruct st as [| | |? ? []|? ? []| | | | |]; try done;
      intros z [_ H]%lookup_delete_Some; by apply D.
  - intros c0 z t [_ H]%lookup_delete_Some Ht. by eapply (ff_free _ _ _ F).
Qed.

Lemma unlisted y qs cs c cst s sub : rep y qs cs -> cs !! c = Some cst -> listed cst = false -> sy_subs y !! s = Some sub -> c ∉ cb_ctrlrs sub.
Proof. intros R Hc Hl Hs Hin. destruct (listed_stage _ _ _ _ _ _ R Hs Hin) as (x & Hx & Hxl). congruence. Qed.

(** Link facts do not mind a controller that is not named. *)
Lemma link_facts_delete cs q st t c c' ct : c <> c' -> link_facts cs q st t c ct -> link_facts (delete c' cs) q st t c ct.
Proof. intros Hne [l1 l2 l3 l4 l5 l6]. constructor; try done; intros; rewrite lookup_delete_ne by done; auto. Qed.

Lemma rep_drop y qs cs q r k c qp : rep y qs cs -> qs !! q = Some (SRun r k (WAddCtrlr c)) -> cs !! c = Some (CNew q) -> sy_qpairs y !! q = Some qp ->
  rep (y <| sy_ctrlrs := delete c (sy_ctrlrs y) |> <| sy_qpairs := <[q := qp <| cq_ctrlr := None |>]> (sy_qpairs y) |>)
    (<[q := SRun r k WHere]> qs) (delete c cs).
Proof.
  intros R Hq Hc Hqp. destruct (rep_qp _ _ _ _ _ R Hq eq_refl) as (qp0 & Hqp0 & F). replace qp0 with qp in * by congruence. clear qp0 Hqp0.
  constructor; csimp; try apply (r_ans _ _ _ R); try apply (r_nextr _ _ _ R).
  - apply (flat_change stage_tokens qs q (SRun r k (WAddCtrlr c)) _ (toks y) _ _ (toks y) Hq); [|done|done].
    rewrite (r_tok _ _ _ R), (flat_delete cstage_tokens cs c _ Hc). done.
  - intros q0 st0 [[<- <-]|[Hne H]]%lookup_insert_Some; cbn [is_free].
    + exists (qp <| cq_ctrlr := None |>). rewrite lookup_insert_eq. split; [done|]. destruct F as [a1 a2 a3 a4 a5 a6 a7 a8 a9 a10]. by constructor.
    + rewrite lookup_insert_ne by done. apply (r_q _ _ _ R q0 st0 H).
  - intros q0 H. apply lookup_insert_is_Some'. destruct (decide (q = q0)) as [->|Hne]; [by left|right]. rewrite lookup_insert_ne in H by done.
    by apply (r_q' _ _ _ R).
  - intros r0 rq H. destruct (r_req _ _ _ R r0 rq H) as (s & H1 & H2). destruct (decide (q = cr_qpair rq)) as [E|Hne].
    + exists (SRun r k WHere). rewrite <- E, lookup_insert_eq. split; [done|]. rewrite <- E in H1.
      by replace s with (SRun r k (WAddCtrlr c)) in * by congruence.
    + exists s. by rewrite lookup_insert_ne.
  - intros q0 st0 c0 [[<- <-]|[Hne H]]%lookup_insert_Some Hc0; [done|]. assert (c0 <> c) as Hcc.
    { intros ->. by apply Hne, eq_sym, (no_refs_new y qs cs c q q0 st0). }
    rewrite lookup_delete_ne by done. destruct (r_link _ _ _ R q0 st0 c0 H Hc0) as (ct & Hct & L). exists ct. split; [done|].
    intros qp0. rewrite lookup_insert_ne by done. intros H0. apply link_facts_delete; [done|by apply L].
  - intros c0 cst0 [Hne H]%lookup_delete_Some. rewrite lookup_delete_ne by done. destruct (r_c _ _ _ R c0 cst0 H) as (ct & Hct & Fc).
    exists ct. split; [done|]. apply c_facts_away with (st := SRun r k (WAddCtrlr c)); try done. intros w [= <-] _. cbn. congruence.
  - intros c0 [x [Hne Hx]%lookup_delete_Some]. rewrite lookup_delete_ne by done. apply (r_c' _ _ _ R). by exists x.
  - intros c0 ct0 n [Hne H]%lookup_delete_Some. rewrite (holders_stage qs q (SRun r k (WAddCtrlr c))) by done. by apply (r_mask _ _ _ R).
  - eapply uniq_stage; [exact Hq|done|]. apply (r_uniq _ _ _ R).
  - intros s sub Hs. apply sub_facts_delete; [by apply (r_subs _ _ _ R)|]. by eapply unlisted.
  - apply fifo_delete, fifo_stage; [apply (r_fifo _ _ _ R)|done].
  - intros q0 H. apply (r_nextq _ _ _ R). apply lookup_insert_is_Some in H as [<-|[_ H]]; [by eexists|done].
  - intros c0 [x [_ Hx]%lookup_delete_Some]. apply (r_nextc _ _ _ R). by exists x.
  - intros k0. pose proof (counted_update k0 qs q _ (SRun r k WHere) Hq) as E. pose proof (r_mgmt _ _ _ R k0) as M.
    change (sgroup_of _ k0) with (sgroup_of y k0). rewrite !(at_key_some k0 k) in E by done. lia.
Qed.

(** ** The handlers: a controller is added *)

Section AddCtrlr.
Context (y : conn_sys) (qs : gmap nat stage) (cs : gmap nat cstage) (q r : nat) (k : Z * nat) (c : nat) (ct : conn_ctrlr) (qp : conn_qpair) (rq : conn_req)
  (cur : Z).
Hypotheses (R : rep y qs cs) (Hn : Z.of_nat (sy_next y) < 2 ^ 63) (Ho : others qs q) (Hq : qs !! q = Some (SRun r k (WAddCtrlr c))) (Hqp : sy_qpairs y !! q = Some qp)
  (Hrq : sy_reqs y !! r = Some rq) (Hcs : cs !! c = Some (CNew q)).

Lemma add_failed_wp ctrlrs : delete c ctrlrs = delete c (sy_ctrlrs y) ->
  cwp (c_mod (fun y => y <| sy_ctrlrs := delete c (sy_ctrlrs y) |>);; set_qpair_ctrlr q None;;
       set_connect_sc r SPDK_NVME_SC_INTERNAL_DEVICE_ERROR;; connect_request_complete cur r) (y <| sy_ctrlrs := ctrlrs |>) (fun _ y' => good y').
Proof.
  intros E. pose proof (rep_drop _ _ _ _ _ _ _ _ R Hq Hcs Hqp) as R1. pose proof (rep_rsp _ _ _ _ _ ((cr_rsp rq) <| cp_sc := SPDK_NVME_SC_INTERNAL_DEVICE_ERROR |>) R1 Hrq) as R2.
  do 6 cstep. rewrite E. eapply connect_request_complete_wp; [exact R2|done|by apply others_insert|apply lookup_insert_eq|done].
Qed.
End AddCtrlr.

Lemma add_ctrlr_wp y qs cs q r k c cur : rep y qs cs -> Z.of_nat (sy_next y) < 2 ^ 63 -> others qs q -> qs !! q = Some (SRun r k (WAddCtrlr c)) ->
  cwp (_nvmf_subsystem_add_ctrlr cur r) y (fun _ y' => good y').
Proof.
  intros R Hn Ho Hq. destruct (rep_qp _ _ _ _ _ R Hq eq_refl) as (qp & Hqp & F). destruct (qf_req _ _ _ _ _ F r eq_refl) as (rq & Hrq & Eq & _).
  destruct (r_link _ _ _ R _ _ c Hq eq_refl) as (ct & Hc & L). pose proof (lf_new _ _ _ _ _ _ (L qp Hqp) eq_refl) as Hcs.
  destruct (ctrlr_sub _ _ _ _ _ R Hc) as (sub & Hs). pose proof (r_subs _ _ _ R _ _ Hs) as SF. pose proof (members_live _ _ _ SF) as Hlive.
  unfold _nvmf_subsystem_add_ctrlr, nvmf_subsystem_add_ctrlr. do 2 cstep. rewrite Eq. do 3 cstep. rewrite (qf_ctrlr _ _ _ _ _ F). do 8 cstep.
  destruct (cl_dynamic ct) eqn:Hd.
  - pose proof (sf_range _ _ _ SF) as Hr. pose proof (sf_next _ _ _ SF) as Hnx.
    destruct (gen_cntlid_loop_spec _ _ _ _ Hlive Hr (Z.to_nat (cb_max_cntlid sub - cb_min_cntlid sub + 1)) sub eq_refl eq_refl eq_refl Hnx)
      as [(j & _ & E & Hfree & _)|[E _]].
    + pose proof (cntlid_nth_range _ _ (cb_next_cntlid sub) j (proj2 (proj1 Hr)) Hnx) as Hx. set (x := cntlid_nth _ _ _ (S j)) in *.
      apply cwp_bind. eapply cwp_need; [exact E|]. cbv beta iota. do 4 cstep. unfold NVMF_MAX_CNTLID in Hr.
      destruct (Z.eqb_spec x 0xFFFF) as [Hx'|_]; [lia|]. do 3 cstep. change (0 !=? 0) with false. cbv iota. cstep. rewrite list_insert_insert_eq. apply (good_at _ qs (<[c := CAdmin q]> cs) q (SWait r k (WAddAdmin c))); [|exact Ho|done].
      apply (rep_listed y qs cs q r k c ct (ct <| cl_cntlid := x |>) sub (sub <| cb_next_cntlid := x |> <| cb_ctrlrs := cb_ctrlrs sub ++ [c] |>) R Hq Hc Hs);
        csimp; try done; lia.
    + apply cwp_bind. eapply cwp_need; [exact E|]. cbv beta iota. do 4 cstep. change (0xFFFF =? 0xFFFF) with true. cbv iota. cstep. change (- EBUSY !=? 0) with true. cbv iota.
      set (x := cntlid_nth _ _ _ _).
      assert (cb_min_cntlid sub - 1 <= x <= cb_max_cntlid sub) as Hx.
      { unfold x. replace (Z.to_nat _) with (S (Z.to_nat (cb_max_cntlid sub - cb_min_cntlid sub))) by lia.
        pose proof (cntlid_nth_range _ _ (cb_next_cntlid sub) (Z.to_nat (cb_max_cntlid sub - cb_min_cntlid sub)) (proj2 (proj1 Hr)) Hnx). lia. }
      assert (rep (y <| sy_subs := <[cl_subsys ct := sub <| cb_next_cntlid := x |>]> (sy_subs y) |>) qs cs) as R1 by (by eapply rep_sub).
      eapply (add_failed_wp _ qs cs q r k c qp rq cur R1 Hn Ho Hq Hqp Hrq Hcs). csimp. apply delete_insert_eq.
  - destruct (get_ctrlr_spec _ (cb_ctrlrs sub) (cl_cntlid ct) Hlive) as (o & Hget & Hspec). apply cwp_bind. eapply cwp_need; [exact Hget|]. cbv beta iota.
    destruct o as [c'|].
    + cstep. change (- EEXIST !=? 0) with true. cbv iota.
      by apply (add_failed_wp y qs cs q r k c qp rq cur R Hn Ho Hq Hqp Hrq Hcs (sy_ctrlrs y)).
    + do 3 cstep. change (0 !=? 0) with false. cbv iota. cstep. apply (good_at _ qs (<[c := CAdmin q]> cs) q (SWait r k (WAddAdmin c))); [|exact Ho|done].
      pose proof (rep_listed y qs cs q r k c ct ct sub (sub <| cb_ctrlrs := cb_ctrlrs sub ++ [c] |>) R Hq Hc Hs) as R1. rewrite insert_id in R1 by done.
      apply R1; csimp; try done; [by destruct ct|apply (sf_next _ _ _ SF)|congruence].
Qed.

(** The admin queue pair of a new controller. *)
Lemma keep_alive_same now cc : ck_mask (nvmf_ctrlr_start_keep_alive_timer now cc) = ck_mask cc /\
  ck_in_destruct (nvmf_ctrlr_start_keep_alive_timer now cc) = ck_in_destruct cc.
Proof. unfold nvmf_ctrlr_start_keep_alive_timer. by destruct (ck_kato cc !=? 0). Qed.

Lemma add_admin_wp opts y qs cs q r k c cur now : rep y qs cs -> Z.of_nat (sy_next y) < 2 ^ 63 -> others qs q -> qs !! q = Some (SRun r k (WAddAdmin c)) ->
  (forall ct, sy_ctrlrs y !! c = Some ct -> cur = cl_thread ct) -> cwp (_nvmf_ctrlr_add_admin_qpair opts cur now r) y (fun _ y' => good y').
Proof.
  intros R Hn Ho Hq Hcur. destruct (rep_qp _ _ _ _ _ R Hq eq_refl) as (qp & Hqp & F). destruct (qf_req _ _ _ _ _ F r eq_refl) as (rq & Hrq & Eq & _).
  destruct (r_link _ _ _ R _ _ c Hq eq_refl) as (ct & Hc & L). specialize (L qp Hqp). pose proof (lf_admin _ _ _ _ _ _ L eq_refl) as Hcs.
  destruct (r_c _ _ _ R c _ Hcs) as (z & Hz & Fc). replace z with ct in * by congruence. pose proof (cf_empty _ _ _ _ _ Fc ltac:(done)) as Hm.
  pose proof (qf_admin _ _ _ _ _ F eq_refl) as Hqid. pose proof (qf_ctrlr _ _ _ _ _ F) as Hqc. cbn in Hqc.
  unfold _nvmf_ctrlr_add_admin_qpair, nvmf_ctrlr_add_qpair. do 2 cstep. rewrite Eq. do 3 cstep. rewrite Hqc. do 7 cstep. apply cwp_bind, cwp_assert.
  { rewrite (qf_group _ _ _ _ _ F), (Hcur ct Hc), (lf_thread _ _ _ _ _ _ L) by (by left). apply Z.eqb_refl. }
  do 2 cstep.
  set (cc1 := nvmf_ctrlr_start_keep_alive_timer now _). destruct (keep_alive_same now ((cl_cc ct) <| ck_admin_qpair := true |> <| ck_association_timeout := to_association_timeout opts |>)) as [E1 E2].
  change (nvmf_ctrlr_start_keep_alive_timer now _) with cc1 in E1, E2. cbn in E1, E2.
  rewrite bool_decide_eq_false_2 by (rewrite E1, Hm; set_solver).
  apply cwp_bind. eapply set_ctrlr_wp; [exact Hqp|by right|]. do 2 cstep. apply cwp_bind, cwp_assert; [apply (qf_group _ _ _ _ _ F)|]. cstep.
  rewrite insert_insert_eq. eapply (good_at _ qs _ q (SRsp r k c 0)); [|exact Ho|done]. eapply (rep_join y qs cs q r k (WAddAdmin c) c _ _ ct _ (CAdmin q) qp); try done.
  - by apply (lf_subsys _ _ _ _ _ _ L).
  - csimp. change (nvmf_ctrlr_start_keep_alive_timer now _) with cc1. by rewrite E1, Hqid.
  - rewrite Hm. set_solver.
  - right; try done; [by rewrite Eq|]. apply (lf_thread _ _ _ _ _ _ L). by left.
Qed.

(** ** A controller is created *)

(** Nobody knows a controller that is not there. *)
Lemma fresh_ctrlr y qs cs c : rep y qs cs -> sy_ctrlrs y !! c = None ->
  cs !! c = None /\ (forall q st, qs !! q = Some st -> stage_ctrlr st <> Some c) /\ (forall s sub, sy_subs y !! s = Some sub -> c ∉ cb_ctrlrs sub).
Proof.
  intros R Hc. split_and!.
  - apply eq_None_not_Some. intros [cst H]. destruct (r_c _ _ _ R c cst H) as (ct & Hct & _). congruence.
  - intros q st Hq Hs. destruct (r_link _ _ _ R q st c Hq Hs) as (ct & Hct & _). congruence.
  - intros s sub Hs Hin. destruct (sf_member _ _ _ (r_subs _ _ _ R s sub Hs) c Hin) as (ct & Hct & _). congruence.
Qed.

Lemma next_fresh y qs cs : rep y qs cs -> sy_ctrlrs y !! sy_next y = None.
Proof. intros R. apply eq_None_not_Some. intros H%(r_c' _ _ _ R)%(r_nextc _ _ _ R). lia. Qed.

Lemma holding_ctrlr st c n : holding st = Some (c, n) -> stage_ctrlr st = Some c.
Proof. destruct st as [|? [[]|]|? ? [[]|]| | | | | |[]|]; cbn; intros [= -> ->] || intros H; done. Qed.

(** The order of messages does not mind a new controller. *)
Lemma fifo_new y qs cs c ct : rep y qs cs -> sy_ctrlrs y !! c = None -> fifo (<[c := ct]> (sy_ctrlrs y)) qs (sy_msgs y).
Proof.
  intros R Hc. destruct (fresh_ctrlr _ _ _ _ R Hc) as (Hcs & Hno & _). pose proof (r_fifo _ _ _ R) as F. constructor; [apply (ff_order _ _ _ F)| |].
  - intros q st m t Hq Hd Ht. pose proof (ff_due _ _ _ F q st m t Hq Hd Ht) as D. apply Hno in Hq. destruct st as [| | |? ? []|? ? []| | | | |]; try done;
      intros z [[<- <-]|[_ H]]%lookup_insert_Some; [done|by apply D|done|by apply D].
  - intros c0 z t [[<- <-]|[_ H]]%lookup_insert_Some Ht; [|by eapply (ff_free _ _ _ F)].
    destruct (msg_owner _ _ _ _ _ R Ht) as [(q & st & Hq & Hm)|(c' & cst & Hc' & Hm)].
    + destruct st as [| | |? ? []|? ? []| | | | |]; cbn in Hm; set_solver.
    + destruct cst; cbn in Hm; set_solver.
Qed.

Section Create.
Context (y : conn_sys) (qs : gmap nat stage) (cs : gmap nat cstage) (q r : nat) (k : Z * nat) (c : nat) (t : Z) (ct : conn_ctrlr) (sub : conn_subsys)
  (qp : conn_qpair).
Hypotheses (R : rep y qs cs) (Hq : qs !! q = Some (SRun r k WHere)) (Hqp : sy_qpairs y !! q = Some qp) (Hqid : cq_qid qp = 0)
  (Hc : c = sy_next y) (Hsub : sy_subs y !! k.2 = Some sub) (Hs : cl_subsys ct = k.2) (Ht : cl_thread ct = cq_thread qp)
  (Hd : ck_in_destruct (cl_cc ct) = false) (Hm : ck_mask (cl_cc ct) = ∅) (Ha : cl_admin_qpair ct = None).

Lemma create_fresh : sy_ctrlrs y !! c = None.
Proof. rewrite Hc. by eapply next_fresh. Qed.

Lemma create_c_facts : c_facts (sy_subs y) (<[q := SWait r k (WAddCtrlr c)]> qs) c (CNew q) ct.
Proof.
  destruct (fresh_ctrlr _ _ _ _ R create_fresh) as (_ & _ & Hl). constructor; try done.
  - exists sub. rewrite Hs. split; [done|]. cbn. split; [|done]. intros Hin. by apply (Hl _ _ Hsub) in Hin.
  - intros qa. by rewrite Ha.
  - intros q0 [= <-]. exists (SWait r k (WAddCtrlr c)). by rewrite lookup_insert_eq.
Qed.

Lemma create_link q0 st0 c0 : <[q := SWait r k (WAddCtrlr c)]> qs !! q0 = Some st0 -> stage_ctrlr st0 = Some c0 ->
  exists ct0, <[c := ct]> (sy_ctrlrs y) !! c0 = Some ct0 /\ forall qp0, <[q := qp <| cq_ctrlr := Some c |>]> (sy_qpairs y) !! q0 = Some qp0 ->
    link_facts (<[c := CNew q]> cs) q0 st0 (cq_thread qp0) c0 ct0.
Proof.
  destruct (fresh_ctrlr _ _ _ _ R create_fresh) as (_ & Hno & _). intros [[<- <-]|[Hne H]]%lookup_insert_Some Hc0.
  - injection Hc0 as <-. exists ct. rewrite lookup_insert_eq. split; [done|]. intros qp0. rewrite lookup_insert_eq. intros [= <-]. csimp.
    constructor; try done; [by intros k0 [= <-]|]. intros _. apply lookup_insert_eq.
  - assert (c0 <> c) as Hcc by (intros ->; by apply (Hno q0 st0)). destruct (r_link _ _ _ R q0 st0 c0 H Hc0) as (z & Hz & L).
    exists z. rewrite !lookup_insert_ne by done. split; [done|]. intros qp0 Hqp0. apply link_facts_other; [done|by apply L].
Qed.

Lemma rep_create : rep (y <| sy_ctrlrs := <[c := ct]> (sy_ctrlrs y) |> <| sy_next := S c |> <| sy_qpairs := <[q := qp <| cq_ctrlr := Some c |>]> (sy_qpairs y) |>
    <| sy_msgs := sy_msgs y ++ [(t, MsgAddCtrlr r)] |>) (<[q := SWait r k (WAddCtrlr c)]> qs) (<[c := CNew q]> cs).
Proof.
  destruct (fresh_ctrlr _ _ _ _ R create_fresh) as (Hcs & Hno & Hl).
  destruct (rep_qp _ _ _ _ _ R Hq eq_refl) as (qp0 & Hqp0 & F). replace qp0 with qp in * by congruence. clear qp0 Hqp0.
  constructor; csimp.
  - apply (flat_change stage_tokens qs q (SRun r k WHere) _ (toks y) _ _ (toks y) Hq); [|done|by rewrite tokens_send].
    rewrite (flat_insert cstage_tokens cs c (CNew q) Hcs). apply (r_tok _ _ _ R).
  - intros q0 st0 [[<- <-]|[Hne H]]%lookup_insert_Some; cbn [is_free].
    + exists (qp <| cq_ctrlr := Some c |>). rewrite lookup_insert_eq. split; [done|]. destruct F as [a1 a2 a3 a4 a5 a6 a7 a8 a9 a10]. by constructor.
    + rewrite lookup_insert_ne by done. apply (r_q _ _ _ R q0 st0 H).
  - intros q0 H. apply lookup_insert_is_Some'. destruct (decide (q = q0)) as [->|Hne]; [by left|right]. rewrite lookup_insert_ne in H by done.
    by apply (r_q' _ _ _ R).
  - intros r0 rq H. destruct (r_req _ _ _ R r0 rq H) as (s & H1 & H2). destruct (decide (q = cr_qpair rq)) as [E|Hne].
    + exists (SWait r k (WAddCtrlr c)). rewrite <- E, lookup_insert_eq. split; [done|]. rewrite <- E in H1. by replace s with (SRun r k WHere) in * by congruence.
    + exists s. by rewrite lookup_insert_ne.
  - exact create_link.
  - intros c0 cst0 [[<- <-]|[Hne H]]%lookup_insert_Some; [exists ct; rewrite lookup_insert_eq; split; [done|apply create_c_facts]|].
    rewrite lookup_insert_ne by done. destruct (r_c _ _ _ R c0 cst0 H) as (x & Hx & Fx). exists x. split; [done|].
    apply c_facts_away with (st := SRun r k WHere); try done. by intros w [= <-].
  - intros c0 H. apply lookup_insert_is_Some'. destruct (decide (c = c0)) as [->|Hne]; [by left|right]. rewrite lookup_insert_ne in H by done. by apply (r_c' _ _ _ R).
  - intros c0 ct0 n H. rewrite (holders_stage qs q (SRun r k WHere)) by done. apply lookup_insert_Some in H as [[<- <-]|[Hne H]]; [|by apply (r_mask _ _ _ R)].
    rewrite Hm. split; [set_solver|]. intros (q0 & st0 & H1 & H2%holding_ctrlr). by apply Hno in H1.
  - eapply uniq_stage; [exact Hq|done|]. apply (r_uniq _ _ _ R).
  - intros s sub0 Hs0. destruct (r_subs _ _ _ R s sub0 Hs0) as [f1 f2 f3 f4 f5]. specialize (Hl s sub0 Hs0).
    assert (forall x, x ∈ cb_ctrlrs sub0 -> <[c := ct]> (sy_ctrlrs y) !! x = sy_ctrlrs y !! x) as Hx by (intros x Hx; apply lookup_insert_ne; congruence).
    constructor; try done; [intros x H; rewrite Hx by done; by apply f2|]. intros x x' z z' H1 H2. rewrite !Hx by done. by apply f3.
  - apply fifo_send; [|done]. apply fifo_stage; [|done]. by eapply fifo_new, create_fresh.
  - intros q0 H. assert (q0 < sy_next y)%nat; [|lia]. apply (r_nextq _ _ _ R). apply lookup_insert_is_Some in H as [<-|[_ H]]; [by eexists|done].
  - intros c0 H. apply lookup_insert_is_Some in H as [<-|[_ H]]; [lia|]. pose proof (r_nextc _ _ _ R c0 H). lia.
  - intros r0 H. pose proof (r_nextr _ _ _ R r0 H). lia.
  - intros k0. pose proof (counted_update k0 qs q _ (SWait r k (WAddCtrlr c)) Hq) as E. pose proof (r_mgmt _ _ _ R k0) as M.
    change (sgroup_of _ k0) with (sgroup_of y k0). rewrite !(at_key_some k0 k) in E by done. lia.
  - destruct (r_ans _ _ _ R) as [A1 A2]. split; [done|]. intros r0 H. destruct (A2 r0 H). split; [done|lia].
Qed.
End Create.

(** ** The Connect command is executed *)

(** What a handler of the request leaves: the response is ready, or the request
    waits for something. *)
Definition conn_post (q r : nat) (k : Z * nat) (x : exec_status) (y : conn_sys) : Prop :=
  match x with
  | COMPLETE => exists qs cs st st', rep y qs cs /\ others qs q /\ Z.of_nat (sy_next y) < 2 ^ 63 /\ qs !! q = Some st /\ settled r k st st'
  | ASYNCHRONOUS => good y
  end.

Section Exec.
Context (opts : transport_opts) (mem : bool * bool * bool) (y : conn_sys) (qs : gmap nat stage) (cs : gmap nat cstage) (q r : nat) (k : Z * nat)
  (qp : conn_qpair) (rq : conn_req).
Hypotheses (R : rep y qs cs) (Hn : Z.of_nat (sy_next y) < 2 ^ 63) (Ho : others qs q) (Hq : qs !! q = Some (SRun r k WHere))
  (Hqp : sy_qpairs y !! q = Some qp) (Hrq : sy_reqs y !! r = Some rq).

Lemma here_facts : q_facts (sy_subs y) (sy_reqs y) q (SRun r k WHere) qp /\ cr_qpair rq = q /\
  spdk_nvmf_tgt_find_subsystem (sy_subs y) (cd_subnqn (cr_data rq)) = Some k.2.
Proof.
  destruct (rep_qp _ _ _ _ _ R Hq eq_refl) as (qp0 & Hqp0 & F). replace qp0 with qp in * by congruence. split; [done|].
  destruct (qf_req _ _ _ _ _ F r eq_refl) as (rq0 & Hrq0 & E & _ & Hf). replace rq0 with rq in * by congruence. split; [done|]. by apply Hf.
Qed.

(** The queue pair takes its identifier. *)
Lemma rep_accept x n b g : rep (y <| sy_qpairs := <[q := qp <| cq_sq_head_max := x |> <| cq_qid := n |> <| cq_connect_received := b |>]> (sy_qpairs y) |>
  <| sy_stats := g |>) qs cs.
Proof.
  apply rep_stats. destruct here_facts as [F _]. eapply rep_touch; try done. destruct F as [a1 a2 a3 a4 a5 a6 a7 a8 a9 a10]. by constructor.
Qed.

(** A response is written and the request is done. *)
Lemma refuse_connect_wp (g : conn_req -> connect_rsp) : cwp (mod_conn_req r (fun r => r <| cr_rsp := g r |>);; mret COMPLETE) y (conn_post q r k).
Proof.
  do 3 cstep. exists qs, cs, (SRun r k WHere), SIdle. split; [by apply (rep_rsp y qs cs r rq (g rq))|]. split_and!; try done. by constructor.
Qed.

Lemma create_wp : cq_qid qp = 0 -> cwp (c ← nvmf_ctrlr_create opts mem k.2 r;
  match c with
  | None => set_connect_sc r SPDK_NVME_SC_INTERNAL_DEVICE_ERROR;; mret COMPLETE
  | Some _ => mret ASYNCHRONOUS
  end) y (conn_post q r k).
Proof.
  intros Hqid. destruct here_facts as (F & Eq & Hf). destruct (find_subsystem_some _ _ _ Hf) as (sub & Hsub).
  apply cwp_bind. unfold nvmf_ctrlr_create. do 2 cstep. rewrite Eq. do 4 cstep. apply cwp_bind, cwp_assert; [apply (qf_group _ _ _ _ _ F)|].
  destruct mem as [[m1 m2] m3]. destruct (negb (m1 && m2 && m3)); [cstep; apply refuse_connect_wp|].
  match goal with |- cwp (match ?o with None => _ | Some _ => _ end) _ _ => destruct o as [l|] end; [|cstep; apply refuse_connect_wp].
  do 4 cstep. apply cwp_bind. eapply set_ctrlr_wp; [exact Hqp|left; apply (qf_ctrlr _ _ _ _ _ F)|]. do 4 cstep.
  apply (good_at _ qs (<[sy_next y := CNew q]> cs) q (SWait r k (WAddCtrlr (sy_next y)))); [|exact Ho|done].
  by apply (rep_create y qs cs q r k (sy_next y) (cb_thread sub) _ sub qp R Hq Hqp Hqid).
Qed.
End Exec.

Lemma ctrlr_connect_wp opts mem y qs cs q r k : rep y qs cs -> Z.of_nat (sy_next y) < 2 ^ 63 -> others qs q -> qs !! q = Some (SRun r k WHere) ->
  cwp (_nvmf_ctrlr_connect opts mem r) y (conn_post q r k).
Proof.
  intros R Hn Ho Hq. destruct (rep_qp _ _ _ _ _ R Hq eq_refl) as (qp & Hqp & F). destruct (qf_req _ _ _ _ _ F r eq_refl) as (rq & Hrq & Eq & _ & Hf).
  specialize (Hf k eq_refl eq_refl). destruct (find_subsystem_some _ _ _ Hf) as (sub & Hsub).
  unfold _nvmf_ctrlr_connect. do 4 cstep. rewrite Hf. destruct (cm_recfmt (cr_cmd rq) !=? 0); [by eapply refuse_connect_wp|].
  destruct (_ || _); [by eapply refuse_connect_wp|]. rewrite Eq. unfold accept_qpair. do 5 cstep.
  apply cwp_bind, cwp_assert; [apply (qf_group _ _ _ _ _ F)|]. do 3 cstep.
  match goal with |- cwp _ (_ <| sy_stats := ?g |>) _ => pose proof (rep_accept y qs cs q r k qp rq R Hq Hqp Hrq (cm_sqsize (cr_cmd rq)) (cm_qid (cr_cmd rq)) true g) as R1 end.
  destruct (Z.eqb_spec (cm_qid (cr_cmd rq)) 0) as [Hz|Hz].
  - destruct (_ && _); [by eapply refuse_connect_wp|]. eapply create_wp; [exact R1|done|exact Ho|exact Hq|apply lookup_insert_eq|exact Hrq|done].
  - do 4 cstep. apply (good_at _ qs cs q (SWait r k WAddIo)); [|exact Ho|done]. 
    apply (rep_send _ qs cs q r k WHere WAddIo (cb_thread sub) (MsgAddIoQpair r) R1 Hq eq_refl eq_refl eq_refl eq_refl); [|done].
    intros _ x. csimp. rewrite lookup_insert_eq. by intros [= <-].
Qed.

(** The subsystem is not ready: the request goes back to the queue. *)
Lemma rep_requeue y qs cs q r k qp : rep y qs cs -> Z.of_nat (sy_next y) < 2 ^ 63 -> qs !! q = Some (SRun r k WHere) -> sy_qpairs y !! q = Some qp ->
  rep (y <| sy_sgroups := <[k := (sgroup_of y k) <| cg_mgmt := u64 (cg_mgmt (sgroup_of y k) + -1) |>]> (sy_sgroups y) |>
    <| sy_qpairs := <[q := qp <| cq_outstanding := [] |>]> (sy_qpairs y) |> <| sy_queued := sy_queued y ++ [(k, r)] |>) (<[q := SQueued r k None]> qs) cs.
Proof.
  intros R Hn Hq Hqp. destruct (rep_qp _ _ _ _ _ R Hq eq_refl) as (qp0 & Hqp0 & F). replace qp0 with qp in * by congruence.
  eapply rep_q with (st := SRun r k WHere) (qp := qp); csimp; try done.
  - intros w Hw. cbn. split; [|done]. by intros [= <-].
  - exists (toks y). split; [done|]. cbn [stage_tokens]. by rewrite <- Permutation_cons_append, tokens_queue.
  - destruct F as [a1 a2 a3 a4 a5 a6 a7 a8 a9 a10]. by constructor.
  - constructor; csimp; try done. intros x Hx. split; [by left|]. destruct (qf_req _ _ _ _ _ F x Hx) as (rq & Hrq & _).
    apply (r_nextr _ _ _ R). by exists rq.
  - apply (mgmt_change y qs cs k _ _ (-1) R Hn); [|by right|by intros _; eapply mgmt_positive]. intros k'.
    rewrite (at_key_none k' (SQueued r k None)), (at_key_some k' k) by done. by destruct (decide (k = k')).
  - apply fifo_stage; [apply (r_fifo _ _ _ R)|done].
  - apply (r_ans _ _ _ R).
Qed.

Lemma filter_own (r : nat) : filter (fun x => x <> r) [r] = [].
Proof. rewrite filter_cons, decide_False by (intros H; by apply H). apply filter_nil. Qed.

Lemma cmd_connect_wp opts mem y qs cs q r k : rep y qs cs -> Z.of_nat (sy_next y) < 2 ^ 63 -> others qs q -> qs !! q = Some (SRun r k WHere) ->
  cwp (nvmf_ctrlr_cmd_connect opts mem r) y (conn_post q r k).
Proof.
  intros R Hn Ho Hq. destruct (rep_qp _ _ _ _ _ R Hq eq_refl) as (qp & Hqp & F). destruct (qf_req _ _ _ _ _ F r eq_refl) as (rq & Hrq & Eq & Hi & Hf).
  specialize (Hf k eq_refl eq_refl). destruct (find_subsystem_some _ _ _ Hf) as (sub & Hsub).
  unfold nvmf_ctrlr_cmd_connect. do 2 cstep. destruct (cr_length rq <? 1024); [by eapply refuse_connect_wp|]. destruct (1 <? cr_iovcnt rq); [by eapply refuse_connect_wp|].
  do 2 cstep. rewrite Hf. do 2 cstep. destruct (connect_waits _).
  - unfold nvmf_subsystem_pg_from_connect_cmd, connect_remove_outstanding. do 3 cstep. rewrite Eq. do 2 cstep. rewrite (qf_ctrlr _ _ _ _ _ F), Hi, (qf_group _ _ _ _ _ F).
    cbn [stage_ctrlr wait_ctrlr is_fini]. do 3 (apply cwp_bind, cwp_assert; [done|]). do 3 cstep. rewrite Hf. cbn [fmap option_fmap option_map].
    do 4 cstep. do 5 cstep. rewrite ?Eq. cstep. rewrite (qf_out _ _ _ _ _ F). apply cwp_assert; [by apply bool_decide_eq_true, list_elem_of_singleton|].
    cstep. do 3 cstep. rewrite (qf_out _ _ _ _ _ F). apply (good_at _ qs cs q (SQueued r k None)); [|exact Ho|done].
    change (stage_out (SRun r k WHere)) with [r]. rewrite filter_own. rewrite <- (qf_thread _ _ _ _ _ F k eq_refl), <- surjective_pairing. by apply rep_requeue.
  - destruct (memchr0 _ _); cbn [negb]; [|by eapply refuse_connect_wp]. rewrite Eq. do 2 cstep. destruct (nvmf_qpair_access_allowed _ _ _); cbn [negb]; [|by eapply refuse_connect_wp].
    by eapply ctrlr_connect_wp.
Qed.

(** ** A request arrives *)

(** The view it is counted in, if there is one; the stage of its queue pair
    while it is executed, and once it is answered. *)
Definition hand_key (y : conn_sys) (qp : conn_qpair) (rq : conn_req) (h : option (nat * Z)) : option (Z * nat) :=
  match h with
  | Some (c, _) => ct ← sy_ctrlrs y !! c; Some (cq_thread qp, cl_subsys ct)
  | None => pair (cq_thread qp) <$> spdk_nvmf_tgt_find_subsystem (sy_subs y) (cd_subnqn (cr_data rq))
  end.
Definition started (r : nat) (k : Z * nat) (h : option (nat * Z)) : stage := match h with Some (c, n) => SRunH r k c n | None => SRun r k WHere end.
Definition finished (h : option (nat * Z)) : stage := match h with Some (c, n) => SAttached c n | None => SIdle end.

Section Hand.
Context (y : conn_sys) (qs : gmap nat stage) (cs : gmap nat cstage) (q r : nat) (h : option (nat * Z)) (qp : conn_qpair) (rq : conn_req).
Hypotheses (R : rep y qs cs) (Hq : qs !! q = Some (SHand r h)) (Hqp : sy_qpairs y !! q = Some qp) (Hrq : sy_reqs y !! r = Some rq).

Lemma hand_facts : q_facts (sy_subs y) (sy_reqs y) q (SHand r h) qp /\ cr_qpair rq = q /\ cr_iovcnt rq = 1.
Proof.
  destruct (rep_qp _ _ _ _ _ R Hq eq_refl) as (qp0 & Hqp0 & F). replace qp0 with qp in * by congruence. split; [done|].
  destruct (qf_req _ _ _ _ _ F r eq_refl) as (rq0 & Hrq0 & E & Hi & _). by replace rq0 with rq in * by congruence.
Qed.

Lemma hand_sgroup_wp (Q : option (Z * nat) -> conn_sys -> Prop) : Q (hand_key y qp rq h) y -> cwp (connect_sgroup r) y Q.
Proof.
  intros HQ. destruct hand_facts as (F & Eq & Hi). unfold connect_sgroup, nvmf_subsystem_pg_from_connect_cmd. do 2 cstep. rewrite Eq. do 2 cstep.
  pose proof (qf_ctrlr _ _ _ _ _ F) as Hc. pose proof (qf_group _ _ _ _ _ F) as Hg. rewrite Hc. destruct h as [[c n]|]; cbn [stage_ctrlr fmap option_fmap option_map fst].
  - destruct (r_link _ _ _ R _ _ c Hq eq_refl) as (ct & Hct & _). do 2 cstep. apply cwp_bind, cwp_assert; [done|]. cstep.
    cbn in HQ. by rewrite Hct in HQ.
  - do 2 cstep. rewrite Eq. do 2 cstep. rewrite Hc, Hi, Hg. do 3 (apply cwp_bind, cwp_assert; [done|]). by do 3 cstep.
Qed.

Lemma hand_key_some k : hand_key y qp rq h = Some k -> k.1 = cq_thread qp /\
  match h with
  | Some (c, _) => exists ct, sy_ctrlrs y !! c = Some ct /\ cl_subsys ct = k.2
  | None => spdk_nvmf_tgt_find_subsystem (sy_subs y) (cd_subnqn (cr_data rq)) = Some k.2
  end.
Proof.
  unfold hand_key. destruct h as [[c n]|].
  - destruct (sy_ctrlrs y !! c) as [ct|]; [|done]. intros [= <-]. split; [done|]. by exists ct.
  - destruct (spdk_nvmf_tgt_find_subsystem _ _); [|done]. by intros [= <-].
Qed.

(** The links of a queue pair that keeps its controller. *)
Lemma hand_link k st' : hand_key y qp rq h = Some k -> holding st' = h -> stage_ctrlr st' = fst <$> h -> stage_group st' = Some k ->
  (forall w, stage_wait st' = Some w -> w = WHere) -> forall c, stage_ctrlr st' = Some c ->
  exists ct, sy_ctrlrs y !! c = Some ct /\ link_facts cs q st' (cq_thread qp) c ct.
Proof.
  intros [_ Hk]%hand_key_some Hh Hc Hg Hw c E. rewrite Hc in E. destruct h as [[c' n]|]; [|done]. injection E as ->. destruct Hk as (ct & Hct & Es).
  destruct (r_link _ _ _ R _ _ c Hq eq_refl) as (z & Hz & L). replace z with ct in * by congruence. destruct (L qp Hqp) as [l1 l2 l3 l4 l5 l6].
  exists ct. split; [done|]. constructor.
  - intros k0 Hk0. congruence.
  - intros [H|H]; [|apply l2; by right; rewrite Hh in H]. unfold is_admin in H. destruct (stage_wait st') as [w|]; [|done]. by rewrite (Hw w eq_refl) in H.
  - intros H. by apply Hw in H.
  - intros H. by apply Hw in H.
  - intros q' H. unfold is_io_stage in H. destruct (stage_wait st') as [w|]; [|done]. by rewrite (Hw w eq_refl) in H.
  - intros t' H. by apply Hw in H.
Qed.

Lemma hand_reqs reqs' st' next : sy_reqs y = reqs' -> stage_req st' = Some r -> next = sy_next y -> reqs_change (sy_reqs y) reqs' (SHand r h) st' next.
Proof.
  intros <- Hr ->. constructor; [done|intros r0 [= <-]; by rewrite Hr|]. intros r0. rewrite Hr. intros [= <-]. split; [by left|].
  apply (r_nextr _ _ _ R). by exists rq.
Qed.

Lemma rep_queue k : hand_key y qp rq h = Some k -> rep (y <| sy_queued := sy_queued y ++ [(k, r)] |>) (<[q := SQueued r k h]> qs) cs.
Proof.
  intros Hk. destruct hand_facts as (F & Eq & Hi). pose proof (hand_key_some _ Hk) as [Ht Hs].
  eapply rep_q with (st := SHand r h) (qp := qp) (qp' := qp); csimp; try done.
  - symmetry. by apply insert_id.
  - exists (toks y). split; [done|]. cbn [stage_tokens]. by rewrite <- Permutation_cons_append, tokens_queue.
  - destruct F as [a1 a2 a3 a4 a5 a6 a7 a8 a9 a10]. constructor; try done; [by intros k0 [= <-]|]. intros r0 [= <-]. exists rq. split_and!; try done.
    intros k0 [= <-] Hh. cbn in Hh. by rewrite Hh in Hs.
  - by apply hand_reqs.
  - by apply (hand_link k).
  - apply fifo_stage; [apply (r_fifo _ _ _ R)|done].
  - apply (r_ans _ _ _ R).
Qed.

Lemma rep_start k : hand_key y qp rq h = Some k -> Z.of_nat (sy_next y) < 2 ^ 63 ->
  rep (y <| sy_sgroups := <[k := (sgroup_of y k) <| cg_mgmt := u64 (cg_mgmt (sgroup_of y k) + 1) |>]> (sy_sgroups y) |>
    <| sy_qpairs := <[q := qp <| cq_outstanding := cq_outstanding qp ++ [r] |>]> (sy_qpairs y) |>) (<[q := started r k h]> qs) cs.
Proof.
  intros Hk Hn. destruct hand_facts as (F & Eq & Hi). pose proof (hand_key_some _ Hk) as [Ht Hs]. pose proof (qf_out _ _ _ _ _ F) as Hout.
  eapply rep_q with (st := SHand r h) (qp := qp); csimp; try done; try (by destruct h as [[]|]).
  - intros w Hw. destruct h as [[]|]; cbn; [done|]. split; [done|]. by intros [= <-].
  - exists (toks y). by destruct h as [[]|].
  - destruct F as [a1 a2 a3 a4 a5 a6 a7 a8 a9 a10]. rewrite Hout. destruct h as [[c n]|]; constructor; csimp; try done; try (by intros k0 [= <-]); intros r0 [= <-]; exists rq; split_and!; try done.
    by intros k0 [= <-].
  - apply hand_reqs; [done|by destruct h as [[]|]|done].
  - apply (hand_link k); [done|by destruct h as [[]|]..|]. destruct h as [[]|]; [done|]. by intros w [= <-].
  - apply (mgmt_change y qs cs k _ _ 1 R Hn); [|by left|done]. intros k'.
    rewrite (at_key_none k' (SHand r h)), (at_key_some k' k) by (by destruct h as [[]|]). by destruct (decide (k = k')).
  - apply fifo_stage; [apply (r_fifo _ _ _ R)|by destruct h as [[]|]].
  - apply (r_ans _ _ _ R).
Qed.
End Hand.

(** A request for a subsystem that does not exist is answered without being
    counted. *)
Lemma rep_answer y qs cs q r p qp : rep y qs cs -> qs !! q = Some (SHand r None) -> sy_qpairs y !! q = Some qp ->
  rep (y <| sy_answers := sy_answers y ++ [(r, p)] |> <| sy_reqs := delete r (sy_reqs y) |>) (<[q := SIdle]> qs) cs.
Proof.
  intros R Hq Hqp. destruct (rep_qp _ _ _ _ _ R Hq eq_refl) as (qp0 & Hqp0 & F). replace qp0 with qp in * by congruence.
  destruct (qf_req _ _ _ _ _ F r eq_refl) as (rq & Hrq & _).
  eapply rep_q with (st := SHand r None) (qp := qp) (qp' := qp); csimp; try done.
  - symmetry. by apply insert_id.
  - by exists (toks y).
  - destruct F as [a1 a2 a3 a4 a5 a6 a7 a8 a9 a10]. by constructor.
  - constructor; try done; [|by intros r0 [= <-] _; apply lookup_delete_eq]. intros r0 H _. apply lookup_delete_ne. cbn in H. congruence.
  - apply fifo_stage; [apply (r_fifo _ _ _ R)|done].
  - destruct (r_ans _ _ _ R) as [A1 A2]. rewrite fmap_app. split.
    + apply NoDup_app. split; [done|]. split; [|apply NoDup_singleton]. intros x Hx ->%list_elem_of_singleton. destruct (A2 r Hx). congruence.
    + intros x [Hx|Hx]%elem_of_app.
      * destruct (A2 x Hx) as [A3 A4]. split; [|done]. by rewrite lookup_delete_None, A3; right.
      * cbn in Hx. apply list_elem_of_singleton in Hx as ->. split; [apply lookup_delete_eq|]. apply (r_nextr _ _ _ R). by exists rq.
Qed.

(** It is put on the list of outstanding requests and completed. *)
Lemma bounce_wp y qs cs q r qp rq : rep y qs cs -> others qs q -> qs !! q = Some (SHand r None) -> sy_qpairs y !! q = Some qp -> sy_reqs y !! r = Some rq ->
  hand_key y qp rq None = None ->
  cwp (connect_complete r) (y <| sy_qpairs := <[q := qp <| cq_outstanding := cq_outstanding qp ++ [r] |>]> (sy_qpairs y) |>) (fun _ y' => good y').
Proof.
  intros R Ho Hq Hqp Hrq Hk. destruct (hand_facts _ _ _ _ _ _ _ _ R Hq Hqp Hrq) as (F & Eq & Hi). pose proof (qf_out _ _ _ _ _ F) as Hout.
  pose proof (qf_ctrlr _ _ _ _ _ F) as Hc. pose proof (qf_group _ _ _ _ _ F) as Hg.
  unfold connect_complete, connect_sgroup, connect_remove_outstanding, nvmf_subsystem_pg_from_connect_cmd. do 3 cstep. rewrite Eq. do 2 cstep. rewrite Hc. cbn [stage_ctrlr fmap option_fmap option_map].
  do 2 cstep. rewrite Eq. do 2 cstep. rewrite Hc, Hi, Hg. do 3 (apply cwp_bind, cwp_assert; [done|]). do 3 cstep. unfold hand_key in Hk. rewrite Hk.
  do 3 cstep. rewrite Eq. do 2 cstep. rewrite Hout. apply cwp_bind, cwp_assert; [by apply bool_decide_eq_true, list_elem_of_singleton|]. do 6 cstep.
  rewrite filter_own, insert_insert_eq. replace (qp <| cq_outstanding := [r] |> <| cq_outstanding := [] |>) with qp by (destruct qp; cbn in Hout |- *; by rewrite Hout).
  rewrite (insert_id _ _ _ Hqp).
  eapply good_at; [exact (rep_answer _ _ _ _ _ (cr_rsp rq) _ R Hq Hqp)|exact Ho|done].
Qed.

(** A counted one, with its response ready. *)
Lemma settle_wp y qs cs q r k st st' : rep y qs cs -> Z.of_nat (sy_next y) < 2 ^ 63 -> others qs q -> qs !! q = Some st -> settled r k st st' ->
  cwp (connect_complete r) y (fun _ y' => good y').
Proof.
  intros R Hn Ho Hq S. eapply cwp_mono; [by eapply complete_wp|]. intros _ y' [R' _]. eapply good_at; [exact R'|exact Ho|by destruct S].
Qed.

Lemma settled_started r k h : settled r k (started r k h) (finished h).
Proof. destruct h as [[c n]|]; by constructor. Qed.

Lemma process_wp opts mem y qs cs q r k h : rep y qs cs -> Z.of_nat (sy_next y) < 2 ^ 63 -> others qs q -> qs !! q = Some (started r k h) ->
  cwp (connect_process opts mem r) y (conn_post q r k).
Proof.
  intros R Hn Ho Hq. assert (is_free (started r k h) = false /\ stage_req (started r k h) = Some r /\ stage_ctrlr (started r k h) = fst <$> h) as (Hf & Hr & Hs) by (by destruct h as [[]|]).
  destruct (rep_qp _ _ _ _ _ R Hq Hf) as (qp & Hqp & F). destruct (qf_req _ _ _ _ _ F r Hr) as (rq & Hrq & Eq & _).
  unfold connect_process. do 2 cstep. rewrite Eq. do 2 cstep. rewrite (qf_ctrlr _ _ _ _ _ F), Hs. destruct h as [[c n]|]; [|by eapply cmd_connect_wp].
  cbn [fmap option_fmap option_map fst]. do 3 cstep. eexists qs, cs, _, _. split; [exact (rep_rsp _ _ _ _ _ _ R Hrq)|]. split_and!; try done. apply (settled_started r k (Some (c, n))).
Qed.

Lemma exec_end_wp q r k x y : conn_post q r k x y -> cwp (match x with COMPLETE => connect_complete r | ASYNCHRONOUS => mret tt end) y (fun _ y' => good y').
Proof.
  destruct x; [|intros H; by apply cwp_ret]. intros (qs & cs & st & st' & R & Ho & Hn & Hq & S). by eapply settle_wp.
Qed.

Section ExecWp.
Context (opts : transport_opts) (mem : bool * bool * bool) (y : conn_sys) (qs : gmap nat stage) (cs : gmap nat cstage) (q r : nat) (h : option (nat * Z))
  (qp : conn_qpair) (rq : conn_req).
Hypotheses (R : rep y qs cs) (Hn : Z.of_nat (sy_next y) < 2 ^ 63) (Ho : others qs q) (Hq : qs !! q = Some (SHand r h))
  (Hqp : sy_qpairs y !! q = Some qp) (Hrq : sy_reqs y !! r = Some rq).

(** The queue pair is not active: the request is refused at once. *)
Lemma refused_wp (y1 : conn_sys) (g : conn_req -> connect_rsp) : sy_qpairs y1 = sy_qpairs y -> sy_reqs y1 = sy_reqs y ->
  (forall p, cwp (connect_complete r) (y1 <| sy_reqs := <[r := rq <| cr_rsp := p |>]> (sy_reqs y) |>
     <| sy_qpairs := <[q := qp <| cq_outstanding := cq_outstanding qp ++ [r] |>]> (sy_qpairs y) |>) (fun _ y' => good y')) ->
  cwp (mod_conn_req r (fun r => r <| cr_rsp := g r |>);; connect_insert_outstanding r;; connect_complete r;; mret false) y1
    (fun ok y' => ok = false /\ good y').
Proof.
  intros E1 E2 H. destruct (hand_facts _ _ _ _ _ _ _ _ R Hq Hqp Hrq) as (F & Eq & Hi). unfold connect_insert_outstanding.
  apply cwp_bind. eapply cwp_mod_req; [by rewrite E2|]. do 3 cstep. rewrite ?E2, Eq. eapply cwp_mod_qpair; [csimp; by rewrite E1|]. csimp. cstep. rewrite E1.
  eapply cwp_mono; [apply H|]. intros u y' G. by cstep.
Qed.

Lemma check_qpair_wp (y1 : conn_sys) (Q : bool -> conn_sys -> Prop) : sy_qpairs y1 = sy_qpairs y -> sy_reqs y1 = sy_reqs y ->
  (forall p, cwp (connect_complete r) (y1 <| sy_reqs := <[r := rq <| cr_rsp := p |>]> (sy_reqs y) |>
     <| sy_qpairs := <[q := qp <| cq_outstanding := cq_outstanding qp ++ [r] |>]> (sy_qpairs y) |>) (fun _ y' => good y')) ->
  (forall y', good y' -> Q false y') -> Q true y1 -> cwp (connect_check_qpair r) y1 Q.
Proof.
  intros E1 E2 H HQ HQ'. destruct (hand_facts _ _ _ _ _ _ _ _ R Hq Hqp Hrq) as (F & Eq & Hi). unfold connect_check_qpair, set_connect_status.
  apply cwp_bind. eapply cwp_need; [by rewrite E2|]. apply cwp_bind. eapply cwp_need; [by rewrite E1, Eq|]. cbv beta zeta.
  destruct (cq_state qp); try (by apply cwp_ret); (eapply cwp_mono; [by apply refused_wp|]; intros ok y' [-> G]; by apply HQ).
Qed.

Lemma exec_wp : cwp (connect_exec opts mem r) y (fun _ y' => good y').
Proof.
  destruct (hand_facts _ _ _ _ _ _ _ _ R Hq Hqp Hrq) as (F & Eq & Hi). unfold connect_exec, connect_check_subsystem. do 2 cstep.
  eapply hand_sgroup_wp; [done..|]. destruct (hand_key y qp rq h) as [k|] eqn:Hk.
  - do 2 cstep. destruct (cg_active (sgroup_of y k)); cbn [negb].
    + do 3 cstep. pose proof (rep_start y qs cs q r h qp rq R Hq Hqp Hrq k Hk Hn) as R1. cbn [negb]. cstep.
      eapply check_qpair_wp; [done|done| |intros y' G; by apply cwp_ret|].
      * intros p. eapply settle_wp; [exact (rep_rsp _ _ _ _ _ p R1 Hrq)|done|by apply others_insert|apply lookup_insert_eq|apply settled_started].
      * cbn [negb]. unfold connect_insert_outstanding. do 3 cstep. rewrite Eq. do 2 cstep. eapply cwp_mono; [eapply process_wp; [exact R1|done|by apply others_insert|apply lookup_insert_eq]|].
        intros x y' H. by eapply exec_end_wp.
    + do 3 cstep. cbn [negb]. cstep. eapply good_at; [by eapply rep_queue|exact Ho|done].
  - cstep. cbn [negb]. cstep. assert (h = None) as Hh.
    { destruct h as [[c n]|]; [|done]. destruct (r_link _ _ _ R _ _ c Hq eq_refl) as (ct & Hct & _). cbn in Hk. by rewrite Hct in Hk. }
    pose proof (qf_ctrlr _ _ _ _ _ F) as Hqc. pose proof Hq as Hq1. rewrite Hh in Hk, Hq1, Hqc. pose proof Hk as Hnone. unfold hand_key in Hnone.
    assert (forall p, cwp (connect_complete r) (y <| sy_reqs := <[r := rq <| cr_rsp := p |>]> (sy_reqs y) |>
       <| sy_qpairs := <[q := qp <| cq_outstanding := cq_outstanding qp ++ [r] |>]> (sy_qpairs y) |>) (fun _ y' => good y')) as Hb.
    { intros p. pose proof (rep_rsp _ _ _ _ _ p R Hrq) as R1. by apply (bounce_wp _ qs cs q r qp _ R1 Ho Hq1 Hqp (lookup_insert_eq _ _ _)). }
    eapply check_qpair_wp; [done|done|exact Hb|intros y' G; by apply cwp_ret|].
    cbn [negb]. unfold connect_insert_outstanding, connect_process, nvmf_ctrlr_cmd_connect. do 3 cstep. rewrite Eq. do 4 cstep. rewrite Eq. do 2 cstep. rewrite Hqc.
    cbn [stage_ctrlr fmap option_fmap option_map]. do 2 cstep. destruct (cr_length rq <? 1024); [do 3 cstep; apply Hb|]. destruct (1 <? cr_iovcnt rq); [do 3 cstep; apply Hb|].
    do 2 cstep. destruct (spdk_nvmf_tgt_find_subsystem _ _); [done|]. do 3 cstep. apply Hb.
Qed.
End ExecWp.

(** ** Where requests come from *)

(** A command on a queue pair that has none. *)
Lemma rep_arrive y qs cs q h qp rq : rep y qs cs -> qs !! q = Some (finished h) -> sy_qpairs y !! q = Some qp -> cr_qpair rq = q -> cr_iovcnt rq = 1 ->
  rep (y <| sy_reqs := <[sy_next y := rq]> (sy_reqs y) |> <| sy_next := S (sy_next y) |>) (<[q := SHand (sy_next y) h]> qs) cs.
Proof.
  intros R Hq Hqp Eq Hi. assert (is_free (finished h) = false) as Hf by (by destruct h as [[]|]).
  destruct (rep_qp _ _ _ _ _ R Hq Hf) as (qp0 & Hqp0 & F). replace qp0 with qp in * by congruence.
  assert (sy_reqs y !! sy_next y = None) as Hnew by (apply eq_None_not_Some; intros H%(r_nextr _ _ _ R); lia).
  eapply rep_q with (st := finished h) (qp := qp) (qp' := qp); csimp; try done; try (by destruct h as [[]|]).
  - lia.
  - symmetry. by apply insert_id.
  - exists (toks y). by destruct h as [[]|].
  - destruct F as [a1 a2 a3 a4 a5 a6 a7 a8 a9 a10]. destruct h as [[c n]|]; constructor; try done; intros r0 [= <-]; exists rq; by rewrite lookup_insert_eq.
  - constructor; [|by destruct h as [[]|]|by intros r0 [= <-]; split; [right|lia]]. intros r0 _ H. apply lookup_insert_ne. cbn in H. congruence.
  - intros c Hc. destruct h as [[c' n]|]; [|done]. injection Hc as ->. destruct (r_link _ _ _ R _ _ c Hq eq_refl) as (ct & Hct & L). exists ct. split; [done|].
    destruct (L qp Hqp) as [l1 l2 l3 l4 l5 l6]. by constructor.
  - apply fifo_stage; [apply (r_fifo _ _ _ R)|done].
  - destruct (r_ans _ _ _ R) as [A1 A2]. split; [done|]. intros x Hx. destruct (A2 x Hx) as [A3 A4]. split; [|lia].
    rewrite lookup_insert_ne by lia. done.
Qed.

(** A request that has waited for its subsystem. *)
Lemma queue_owner y qs cs k r i : rep y qs cs -> sy_queued y !! i = Some (k, r) -> exists q h, qs !! q = Some (SQueued r k h).
Proof.
  intros R Hi. assert (TQueue (k, r) ∈ toks y) as H.
  { unfold tokens. rewrite !elem_of_app. right. left. apply list_elem_of_fmap. exists (k, r). split; [done|]. by eapply list_elem_of_lookup_2. }
  rewrite (r_tok _ _ _ R), elem_of_app, !elem_of_flat in H. destruct H as [(q & st & Hq & Ht)|(c & cst & _ & Ht)]; [|destruct cst; cbn in Ht; set_solver].
  exists q. destruct st as [| |? ? h|? ? []|? ? []| | | | |]; cbn in Ht; set_solver.
Qed.

Lemma rep_release y qs cs q r k h i : rep y qs cs -> sy_queued y !! i = Some (k, r) -> qs !! q = Some (SQueued r k h) ->
  rep (y <| sy_queued := delete i (sy_queued y) |>) (<[q := SHand r h]> qs) cs.
Proof.
  intros R Hi Hq. destruct (rep_qp _ _ _ _ _ R Hq eq_refl) as (qp & Hqp & F).
  eapply rep_q with (st := SQueued r k h) (qp := qp) (qp' := qp); csimp; try done.
  - symmetry. by apply insert_id.
  - exists (tokens (sy_msgs y) (delete i (sy_queued y)) (sy_pollers y) (sy_fini y)). split; [|done].
    rewrite (delete_Permutation (sy_queued y) i _ Hi) at 1. by rewrite tokens_queue.
  - destruct F as [a1 a2 a3 a4 a5 a6 a7 a8 a9 a10]. constructor; try done. intros r0 H. destruct (a10 r0 H) as (rq & b1 & b2 & b3 & _). by exists rq.
  - constructor; csimp; try done. intros x Hx. split; [by left|]. destruct (qf_req _ _ _ _ _ F x Hx) as (rq & Hrq & _).
    apply (r_nextr _ _ _ R). by exists rq.
  - intros c0 Hc. destruct (r_link _ _ _ R q _ c0 Hq Hc) as (ct & Hct & L). exists ct. split; [done|]. destruct (L qp Hqp) as [l1 l2 l3 l4 l5 l6]. by constructor.
  - apply fifo_stage; [apply (r_fifo _ _ _ R)|done].
  - apply (r_ans _ _ _ R).
Qed.
