(* ===== verification/ConnectEnd.v ===== *)
(** * Queue pairs and controllers end: the last handlers of the Connect machine

    The handlers that take queue pairs and controllers down keep the relation of
    [ConnectInv].  With them every event of the machine does: a target that its
    hosts treat politely never follows a dangling pointer. *)
From S2P Require Import Prelude NvmeSpec Iov World CtrlrRegs AsyncEvents Discovery Connect ConnectInv ConnectLife.

Implicit Types (qs : gmap nat stage) (cs : gmap nat cstage).

(** ** Registers change *)

(** What registers and timers are not about. *)
Definition same_mask (cc cc' : cc_ctrlr) : Prop := ck_mask cc' = ck_mask cc /\ ck_in_destruct cc' = ck_in_destruct cc.

Lemma set_cc_same hz now value cc : same_mask cc (nvmf_prop_set_cc hz now value cc).1.
Proof.
  unfold nvmf_prop_set_cc. cbv zeta. unfold set_cc_en.
  repeat match goal with |- context[if ?b then _ else _] => destruct b end; try done;
    unfold set_cc_shn; repeat match goal with |- context[if ?b then _ else _] => destruct b end; done.
Qed.

Lemma property_set_same hz now attrib ofst value cc : exists cc' b, nvmf_property_set hz now attrib ofst value cc = Some (cc', b) /\ same_mask cc cc'.
Proof.
  unfold nvmf_property_set. destruct (prop_size attrib) as [size|]; [|by eexists _, _]. cbn [mbind option_bind].
  destruct (find_prop hz ofst size) as [p|] eqn:Ep; [|by eexists _, _]. apply List.find_some in Ep as [Hp _]. cbn [mbind option_bind].
  assert (forall now v cc, same_mask cc (nvmf_prop_set_aqa now v cc).1) as Haqa.
  { intros. unfold nvmf_prop_set_aqa. by destruct (_ || _). }
  repeat (destruct Hp as [<-|Hp]; [cbn [pr_set pr_size pr_set_upper mbind option_bind]; change (4 =? 4) with true; change (8 =? 4) with false; cbv iota|]); [..|destruct Hp];
    repeat match goal with |- context[if ?b then _ else _] => destruct b end; try (by eexists _, _);
    try (eexists _, _; split; [apply f_equal, surjective_pairing|]; apply set_cc_same || apply Haqa).
Qed.

Lemma reset_done_same now cc : same_mask cc (_nvmf_ctrlr_cc_reset_shn_done now cc).1.
Proof.
  unfold _nvmf_ctrlr_cc_reset_shn_done, restart_association_timer. cbv zeta. by repeat match goal with |- context[if ?b then _ else _] => destruct b end.
Qed.

(** A controller changes without changing what others know of it. *)
Lemma rep_ctrlr y qs cs c ct ct' : rep y qs cs -> sy_ctrlrs y !! c = Some ct -> same_id ct ct' -> same_mask (cl_cc ct) (cl_cc ct') ->
  (forall qa, cl_admin_qpair ct' = Some qa -> cl_admin_qpair ct = Some qa) -> rep (y <| sy_ctrlrs := <[c := ct']> (sy_ctrlrs y) |>) qs cs.
Proof.
  intros R Hc Hid [Em Ed] Ha. assert (forall c0, is_Some (<[c := ct']> (sy_ctrlrs y) !! c0) <-> is_Some (sy_ctrlrs y !! c0)) as Hdom.
  { intros c0. rewrite lookup_insert_is_Some'. split; [intros [<-|?]; [by exists ct|done]|by right]. }
  destruct R. constructor; csimp; try assumption.
  - intros q st c0 Hq Hs. destruct (r_link q st c0 Hq Hs) as (z & Hz & L). destruct (decide (c0 = c)) as [->|Hne].
    + exists ct'. rewrite lookup_insert_eq. split; [done|]. intros qp Hqp. replace z with ct in * by congruence.
      apply (link_facts_same _ _ _ _ _ ct); [by apply L|apply Hid..].
    + exists z. by rewrite lookup_insert_ne.
  - intros c0 cst H. destruct (r_c c0 cst H) as (z & Hz & F). destruct (decide (c0 = c)) as [->|Hne].
    + exists ct'. rewrite lookup_insert_eq. split; [done|]. replace z with ct in * by congruence. destruct F as [f1 f2 f3 f4 f5 f6 f7].
      destruct Hid as (_ & _ & E3 & _). constructor; rewrite ?E3, ?Em, ?Ed; try done. intros qa H'. by apply f5, Ha.
    + exists z. by rewrite lookup_insert_ne.
  - intros c0 H. by apply r_c', Hdom.
  - intros c0 z n [[<- <-]|[_ H]]%lookup_insert_Some; [rewrite Em|]; by apply r_mask.
  - intros s sub Hs. eapply sub_facts_ctrlr; [by apply r_subs|done|done].
  - eapply fifo_ctrlr; [done|done|apply Hid].
Qed.

Lemma registers_wp y qs cs c f : rep y qs cs -> rest qs -> (forall cc, exists cc', f cc = Some cc' /\ same_mask cc cc') ->
  cwp (on_registers c f) y (fun _ y' => good y').
Proof.
  intros R Hre Hf. unfold cwp, on_registers. destruct (sy_ctrlrs y !! c) as [ct|] eqn:Hc; [|by exists qs, cs].
  destruct (Hf (cl_cc ct)) as (cc & -> & Hs). exists qs, cs. split; [|done]. by apply (rep_ctrlr y qs cs c ct).
Qed.

(** The view of a poll group becomes active or not. *)
Lemma rep_sgroup y qs cs k b : rep y qs cs -> rep (y <| sy_sgroups := <[k := (sgroup_of y k) <| cg_active := b |>]> (sy_sgroups y) |>) qs cs.
Proof.
  intros []. constructor; csimp; try assumption. intros k0. rewrite sgroup_insert. destruct (decide (k = k0)) as [<-|]; csimp; apply r_mgmt.
Qed.

(** A queue pair is new. *)
Lemma rep_new y qs cs t listen g : rep y qs cs ->
  rep (y <| sy_qpairs := <[sy_next y := ConnQpair SPDK_NVMF_QPAIR_CONNECTING 0 0 None t true None [] false listen]> (sy_qpairs y) |> <| sy_next := S (sy_next y) |>
    <| sy_stats := g |>) (<[sy_next y := SIdle]> qs) cs.
Proof.
  intros R. apply rep_stats. assert (qs !! sy_next y = None) as Hnew by (apply eq_None_not_Some; intros H%(r_nextq _ _ _ R); lia).
  assert (forall q st, qs !! q = Some st -> q <> sy_next y) as Hne by (intros q st H ->; congruence). destruct R. constructor; csimp.
  - rewrite (flat_insert stage_tokens qs _ SIdle Hnew). done.
  - intros q st [[<- <-]|[Hn H]]%lookup_insert_Some; [rewrite lookup_insert_eq; eexists; split; [done|by constructor]|].
    rewrite lookup_insert_ne by done. by apply r_q.
  - intros q. rewrite !lookup_insert_is_Some'. intros [?|H]; [by left|right; by apply r_q'].
  - intros r rq H. destruct (r_req r rq H) as (st & H1 & H2). exists st. rewrite lookup_insert_ne; [done|]. by eapply not_eq_sym, Hne.
  - intros q st c [[<- <-]|[Hn H]]%lookup_insert_Some Hc; [done|]. destruct (r_link q st c H Hc) as (ct & Hct & L). exists ct. split; [done|].
    intros qp. rewrite lookup_insert_ne by done. apply L.
  - intros c cst H. destruct (r_c c cst H) as (ct & Hct & [f1 f2 f3 f4 f5 f6 f7]). exists ct. split; [done|].
    assert (forall q st, qs !! q = Some st -> <[sy_next y := SIdle]> qs !! q = Some st) as Hk by (intros q st H0; rewrite lookup_insert_ne; [done|by eapply not_eq_sym, Hne]).
    constructor; try assumption; [intros qa H'; destruct (f5 qa H') as (st & ? & ?)|intros q H'; destruct (f6 q H') as (st & ? & ?)|intros q H'; destruct (f7 q H') as (st & ? & ?)]; exists st; auto.
  - done.
  - intros c ct n H. rewrite (r_mask c ct n H). split; intros (q & st & H1 & H2); exists q, st; (split; [|done]).
    + rewrite lookup_insert_ne; [done|]. by eapply not_eq_sym, Hne.
    + apply lookup_insert_Some in H1 as [[_ <-]|[_ H1]]; done.
  - intros q q' st st' p [[<- <-]|[Hn H]]%lookup_insert_Some; [done|]. intros [[<- <-]|[Hn' H']]%lookup_insert_Some; [done|]. by apply r_uniq.
  - done.
  - by apply fifo_stage.
  - intros q [<-|H%r_nextq]%lookup_insert_is_Some'; lia.
  - intros c H%r_nextc. lia.
  - intros r H%r_nextr. lia.
  - intros k. rewrite counted_insert, at_key_none by done. apply r_mgmt.
  - destruct r_ans as [A1 A2]. split; [done|]. intros r H. destruct (A2 r H). split; [done|lia].
Qed.

(** ** A queue pair is destroyed *)

#[global] Instance conn_msg_dec : EqDecision conn_msg.
Proof. solve_decision. Defined.
#[global] Instance token_dec : EqDecision token.
Proof. solve_decision. Defined.

(** A queue pair with nothing outstanding, and the request it has in a queue. *)
Inductive drained : stage -> option (nat * (Z * nat)) -> option (nat * Z) -> Prop :=
| drained_finished h : drained (finished h) None h
| drained_queued r k h : drained (SQueued r k h) (Some (r, k)) h.

Lemma drained_facts st o h : drained st o h -> is_free st = false /\ stage_req st = fst <$> o /\ stage_ctrlr st = fst <$> h /\ holding st = h /\ stage_key st = None /\
  stage_wait st = None /\ stage_group st = snd <$> o /\ stage_qid st = snd <$> h.
Proof. destruct 1; [by destruct h as [[]|]|done]. Qed.

Definition cleaned (o : option (nat * (Z * nat))) (e : Z * nat * nat) : Prop := match o with Some (r, k) => e = (k, r) | None => False end.
#[global] Instance cleaned_dec o e : Decision (cleaned o e).
Proof. unfold cleaned. destruct o as [[r k]|]; apply _. Defined.

Lemma filter_keep {A} (P : A -> Prop) `{!forall x, Decision (P x)} (l : list A) : (forall x, x ∈ l -> P x) -> filter P l = l.
Proof. induction l as [|x l IH]; intros Hl; [done|]. rewrite filter_cons, decide_True, IH by set_solver. done. Qed.

(** A queue without an entry has every token but that one. *)
Lemma tokens_clean a b c d e : filter (fun t => t <> TQueue e) (tokens a b c d) = tokens a (filter (fun x => x <> e) b) c d.
Proof.
  unfold tokens. rewrite !filter_app.
  rewrite (filter_keep _ ((TMsg ∘ snd) <$> a)), (filter_keep _ (TPoll <$> c)), (filter_keep _ (TFini <$> d)) by (intros x Hx; apply list_elem_of_fmap in Hx as (? & -> & _); done).
  do 2 f_equal. induction b as [|x b IH]; [done|]. rewrite fmap_cons, !filter_cons, IH. destruct (decide (x = e)) as [->|Hne].
  - rewrite !decide_False by (intros H; by apply H). done.
  - rewrite !decide_True by congruence. done.
Qed.

Section Destroy.
Context (y : conn_sys) (qs : gmap nat stage) (cs : gmap nat cstage) (q : nat) (st : stage) (o : option (nat * (Z * nat))) (h : option (nat * Z)) (qp : conn_qpair)
  (which : nat -> bool).
Hypotheses (R : rep y qs cs) (Hq : qs !! q = Some st) (D : drained st o h) (Hqp : sy_qpairs y !! q = Some qp)
  (Hw : forall r k, o = Some (r, k) -> which k.2 = true).

(** The entries of the queue that are cleaned are those of the queue pair. *)
Lemma clean_spec e : e ∈ sy_queued y -> queued_of y q (cq_thread qp) which e = true <-> exists r k, o = Some (r, k) /\ e = (k, r).
Proof.
  intros He. destruct (drained_facts _ _ _ D) as (Hf & Hr & _). destruct (rep_qp _ _ _ _ _ R Hq Hf) as (qp0 & Hqp0 & F). replace qp0 with qp in * by congruence.
  destruct e as [k r]. apply list_elem_of_lookup_1 in He as [i Hi]. destruct (queue_owner _ _ _ _ _ _ R Hi) as (q' & h' & Hq').
  destruct (rep_qp _ _ _ _ _ R Hq' eq_refl) as (qp' & _ & F'). destruct (qf_req _ _ _ _ _ F' r eq_refl) as (rq & Hrq & Eq & _).
  unfold queued_of. cbn [fst snd]. rewrite Hrq, !andb_true_iff, bool_decide_eq_true, Z.eqb_eq. split.
  - intros [_ E]. subst q'. rewrite E in Hq'. replace st with (SQueued r k h') in * by congruence. inversion D; subst; [by destruct h as [[]|]|]. by exists r, k.
  - intros (r0 & k0 & Ho & [= <- <-]). assert (stage_req st = Some r) as Hr0 by (by rewrite Hr, Ho).
    pose proof (req_own _ _ _ _ _ _ _ r R Hq Hq' Hr0 eq_refl) as <-. split_and!; [|by apply (Hw r)|done]. replace st with (SQueued r k h') in * by congruence.
    by apply (qf_thread _ _ _ _ _ F).
Qed.

Lemma clean_eq e : e ∈ sy_queued y -> queued_of y q (cq_thread qp) which e = bool_decide (cleaned o e).
Proof.
  intros He. apply eq_true_iff_eq. rewrite (clean_spec e He), bool_decide_eq_true. unfold cleaned. destruct o as [[r k]|]; split.
  - by intros (? & ? & [= <- <-] & ->).
  - intros ->. by exists r, k.
  - by intros (? & ? & ? & _).
  - done.
Qed.

Lemma filter_list (P : Z * nat * nat -> Prop) `{!forall e, Decision (P e)} (f : Z * nat * nat -> bool) (l : list (Z * nat * nat)) :
  (forall e, e ∈ l -> f e = bool_decide (P e)) -> List.filter f l = filter P l.
Proof.
  induction l as [|e l IH]; intros Hl; [done|]. cbn [List.filter]. rewrite filter_cons, Hl, IH by set_solver.
  case_bool_decide; [by rewrite decide_True|by rewrite decide_False].
Qed.

Lemma clean_queue : List.filter (fun e => negb (queued_of y q (cq_thread qp) which e)) (sy_queued y) = filter (fun e => ~ cleaned o e) (sy_queued y).
Proof. apply filter_list. intros e He. rewrite (clean_eq e He). by repeat case_bool_decide. Qed.

(** The request in the queue is freed and nothing else. *)
Lemma clean_reqs : foldr (fun (e : Z * nat * nat) m => delete (e.2 : nat) m) (sy_reqs y) (List.filter (queued_of y q (cq_thread qp) which) (sy_queued y)) =
  match o with Some (r, _) => delete r (sy_reqs y) | None => sy_reqs y end.
Proof.
  rewrite (filter_list (cleaned o)) by (intros e He; by apply clean_eq).
  assert (forall (l : list (Z * nat * nat)) r k (m : gmap nat conn_req), (forall e, e ∈ l -> e = (k, r)) ->
    foldr (fun (e : Z * nat * nat) m => delete (e.2 : nat) m) m l = match l with [] => m | _ => delete r m end) as Hd.
  { intros l r k m. induction l as [|e l IH]; intros H; [done|]. cbn [foldr]. rewrite IH by set_solver. rewrite (H e) by set_solver. cbn.
    destruct l; [done|apply delete_delete_eq]. }
  assert (o = None \/ exists r k, o = Some (r, k)) as [Eo|(r & k & Eo)] by (destruct o as [[]|]; eauto); rewrite Eo.
  - replace (filter (cleaned None) (sy_queued y)) with (@nil (Z * nat * nat)); [done|].
    induction (sy_queued y) as [|e l IH]; [done|]. by rewrite filter_cons, decide_False by (intros []).
  - rewrite (Hd _ r k) by (by intros e [He _]%list_elem_of_filter).
    destruct (filter (cleaned (Some (r, k))) (sy_queued y)) as [|x l] eqn:E; [|done]. exfalso.
    assert ((k, r) ∈ filter (cleaned (Some (r, k))) (sy_queued y)) as Hin; [|rewrite E in Hin; set_solver].
    apply list_elem_of_filter. split; [done|]. assert (TQueue (k, r) ∈ toks y) as Ht.
    { rewrite (r_tok _ _ _ R), elem_of_app, elem_of_flat. left. exists q, st. split; [done|]. rewrite Eo in D. inversion D. set_solver. }
    unfold tokens in Ht. rewrite !elem_of_app, !list_elem_of_fmap in Ht. naive_solver.
Qed.

Lemma clean_tokens : exists rest, toks y ≡ₚ stage_tokens q st ++ rest /\
  tokens (sy_msgs y) (filter (fun e => ~ cleaned o e) (sy_queued y)) (sy_pollers y) (sy_fini y) ≡ₚ rest.
Proof.
  exists (flat stage_tokens (delete q qs) ++ flat cstage_tokens cs). assert (toks y ≡ₚ stage_tokens q st ++ flat stage_tokens (delete q qs) ++ flat cstage_tokens cs) as Ht.
  { rewrite app_assoc, <- (flat_delete _ _ _ _ Hq). apply (r_tok _ _ _ R). }
  split; [done|]. assert (o = None \/ exists r k, o = Some (r, k)) as [Eo|(r & k & Eo)] by (destruct o as [[]|]; eauto); rewrite Eo in *.
  - rewrite filter_keep by (intros e _ []). replace (stage_tokens q st) with (@nil token) in Ht; [done|]. inversion D. by destruct h as [[]|].
  - assert (st = SQueued r k h) as Est by (by inversion D). rewrite Est in Ht. cbn [stage_tokens app] in Ht.
    change (filter (fun e => ~ cleaned (Some (r, k)) e) (sy_queued y)) with (filter (fun e => e <> (k, r)) (sy_queued y)).
    rewrite <- tokens_clean, Ht, filter_cons, decide_False by (intros H; by apply H). rewrite filter_keep; [done|].
    intros x [Hx|Hx]%elem_of_app ->; apply elem_of_flat in Hx as (q' & st' & Hq' & Hx).
    + apply lookup_delete_Some in Hq' as [Hne Hq']. assert (stage_req st' = Some r) as Hr by (destruct st' as [| | |? ? []|? ? []| | | | |]; cbn in Hx; set_solver).
      rewrite Est in Hq. by apply Hne, (req_own _ _ _ _ _ _ _ r R Hq Hq').
    + destruct st'; cbn in Hx; set_solver.
Qed.

Lemma rep_destroy g : cq_state qp = SPDK_NVMF_QPAIR_DEACTIVATING ->
  rep (y <| sy_stats := g |> <| sy_queued := List.filter (fun e => negb (queued_of y q (cq_thread qp) which e)) (sy_queued y) |>
    <| sy_reqs := foldr (fun (e : Z * nat * nat) m => delete (e.2 : nat) m) (sy_reqs y) (List.filter (queued_of y q (cq_thread qp) which) (sy_queued y)) |>
    <| sy_qpairs := <[q := qp <| cq_state := SPDK_NVMF_QPAIR_ERROR |> <| cq_group := false |>]> (sy_qpairs y) |>
    <| sy_fini := sy_fini y ++ [(q, cq_ctrlr qp, cq_qid qp)] |>) (<[q := SFini (fst <$> h) (cq_qid qp)]> qs) cs.
Proof.
  intros Hst. destruct (drained_facts _ _ _ D) as (Hf & Hr & Hc & Hh & Hk & Hwt & Hg & Hi). destruct (rep_qp _ _ _ _ _ R Hq Hf) as (qp0 & Hqp0 & F). replace qp0 with qp in * by congruence.
  rewrite clean_queue, clean_reqs. destruct clean_tokens as (rest & T1 & T2).
  assert (holding (SFini (fst <$> h) (cq_qid qp)) = h) as Hh'.
  { pose proof (qf_qid _ _ _ _ _ F) as E. rewrite Hi in E. destruct h as [[c n]|]; [|done]. cbn. by rewrite (E n). }
  eapply rep_q with (st := st) (qp := qp); csimp; try done.
  - by rewrite Hh.
  - intros w Hw'. cbn. rewrite Hwt. done.
  - exists rest. split; [done|]. cbn [stage_tokens]. rewrite (qf_ctrlr _ _ _ _ _ F), Hc, <- Permutation_cons_append, tokens_fini, T2. done.
  - destruct F as [a1 a2 a3 a4 a5 a6 a7 a8 a9 a10]. constructor; csimp; try done; [by rewrite a1|by rewrite a2; unfold stage_out; rewrite Hk|by intros n [= <-]].
  - constructor; [| |done].
    + intros r H _. rewrite Hr in H. destruct o as [[r0 k0]|]; [|done]. apply lookup_delete_ne. cbn in H. congruence.
    + intros r H _. rewrite Hr in H. destruct o as [[r0 k0]|]; [|done]. cbn in H. injection H as ->. apply lookup_delete_eq.
  - intros c Hc'. cbn [stage_ctrlr] in Hc'. rewrite <- Hc in Hc'. destruct (r_link _ _ _ R q st c Hq Hc') as (ct & Hct & L). exists ct. split; [done|].
    destruct (L qp Hqp) as [l1 l2 l3 l4 l5 l6]. constructor; try done. intros [H|(n & H & E)]; [done|]. apply l2. right. exists n. by rewrite Hh, <- Hh'.
  - intros k. by rewrite !at_key_none.
  - apply fifo_stage; [apply (r_fifo _ _ _ R)|done].
  - destruct (r_ans _ _ _ R) as [A1 A2]. split; [done|]. intros x Hx. destruct (A2 x Hx) as [A3 A4]. split; [|done].
    destruct o as [[r0 k0]|]; [|done]. by rewrite lookup_delete_None, A3; right.
Qed.
End Destroy.

Lemma destroy_wp y qs cs q qp : rep y qs cs -> rest qs -> sy_qpairs y !! q = Some qp -> cq_state qp = SPDK_NVMF_QPAIR_DEACTIVATING -> cq_outstanding qp = [] ->
  (cq_connect_received qp = true -> 0 < current_qpairs (cq_qid qp) (stat_of y (cq_thread qp))) -> cwp (_nvmf_qpair_destroy q) y (fun _ y' => good y').
Proof.
  intros R Hre Hqp Hst Hout Hcur. destruct (r_q' _ _ _ R q) as [st Hq]; [by exists qp|]. pose proof (r_q _ _ _ R q st Hq) as F. destruct (is_free st) eqn:Hf; [congruence|].
  destruct F as (qp0 & Hqp0 & F). replace qp0 with qp in * by congruence. clear qp0 Hqp0.
  assert (exists o h, drained st o h) as (o & h & D).
  { pose proof (Hre q st Hq) as Hr. pose proof (qf_out _ _ _ _ _ F) as Ho. pose proof (qf_state _ _ _ _ _ F) as Hs. rewrite Hst in Hs. rewrite Hout in Ho.
    destruct st as [| |r k h| | | | |c n| |]; try done; [exists None, None; exact (drained_finished None)|by eexists _, _; constructor|].
    exists None, (Some (c, n)). exact (drained_finished (Some (c, n))). }
  destruct (drained_facts _ _ _ D) as (_ & Hr & Hc & Hh & Hk & Hwt & Hg & Hi). pose proof (qf_group _ _ _ _ _ F) as Hgr.
  assert (forall which g, (forall r k, o = Some (r, k) -> which k.2 = true) -> good (y <| sy_stats := g |> <| sy_queued := List.filter (fun e => negb (queued_of y q (cq_thread qp) which e)) (sy_queued y) |>
    <| sy_reqs := foldr (fun (e : Z * nat * nat) m => delete (e.2 : nat) m) (sy_reqs y) (List.filter (queued_of y q (cq_thread qp) which) (sy_queued y)) |>
    <| sy_qpairs := <[q := qp <| cq_state := SPDK_NVMF_QPAIR_ERROR |> <| cq_group := false |>]> (sy_qpairs y) |>
    <| sy_fini := sy_fini y ++ [(q, cq_ctrlr qp, cq_qid qp)] |>)) as Hfin.
  { intros which g Hw. eapply good_at; [exact (rep_destroy y qs cs q st o h qp which R Hq D Hqp Hw g Hst)|by apply rest_others|done]. }
  unfold _nvmf_qpair_destroy, spdk_nvmf_poll_group_remove, _nvmf_qpair_sgroup_req_clean. do 2 cstep. apply cwp_bind, cwp_assert; [by apply bool_decide_eq_true|].
  apply cwp_bind, cwp_assert; [rewrite Hgr; by destruct D as [[[]|]|]|]. do 2 cstep.
  apply cwp_bind, cwp_assert; [destruct (cq_connect_received qp); [by apply Z.ltb_lt, Hcur|done]|]. do 3 cstep. destruct (cq_ctrlr qp) as [c|] eqn:Eqc.
  - rewrite (qf_ctrlr _ _ _ _ _ F) in Eqc. destruct (r_link _ _ _ R q st c Hq Eqc) as (ct & Hct & L). do 3 cstep. do 3 cstep.
    apply Hfin. intros r k ->. apply bool_decide_eq_true. symmetry. apply (lf_subsys _ _ _ _ _ _ (L qp Hqp)). by rewrite Hg.
  - do 4 cstep. by apply Hfin.
Qed.

(** ** The transport has taken a queue pair down *)

Lemma holders_delete qs q st p : qs !! q = Some st -> holding st <> Some p ->
  (exists q0 s, delete q qs !! q0 = Some s /\ holding s = Some p) <-> (exists q0 s, qs !! q0 = Some s /\ holding s = Some p).
Proof.
  intros Hq Hp. split; intros (q0 & s & H1 & H2).
  - apply lookup_delete_Some in H1 as [_ H1]. by exists q0, s.
  - exists q0, s. rewrite lookup_delete_ne; [done|]. intros <-. congruence.
Qed.

Lemma c_facts_delete subs qs q st c cst ct : qs !! q = Some st -> stage_wait st = None -> cl_admin_qpair ct <> Some q ->
  c_facts subs qs c cst ct -> c_facts subs (delete q qs) c cst ct.
Proof.
  intros Hq Hw Ha [f1 f2 f3 f4 f5 f6 f7]. constructor; try assumption.
  - intros qa H. destruct (f5 qa H) as (s & H1 & H2). exists s. rewrite lookup_delete_ne by congruence. done.
  - intros q0 H. destruct (f6 q0 H) as (s & H1 & H2). exists s. rewrite lookup_delete_ne; [done|]. intros <-. congruence.
  - intros q0 H. destruct (f7 q0 H) as (s & H1 & H2). exists s. rewrite lookup_delete_ne; [done|]. intros <-. congruence.
Qed.

(** The admin queue pair of a controller holds identifier 0. *)
Lemma admin_holds y qs cs c cst ct q st : rep y qs cs -> qs !! q = Some st -> c_facts (sy_subs y) qs c cst ct -> cl_admin_qpair ct = Some q ->
  holding st = Some (c, 0) /\ is_free st = false.
Proof. intros R Hq F Ha. destruct (cf_adminq _ _ _ _ _ F q Ha) as (s & H1 & H2 & H3). by replace s with st in * by congruence. Qed.

Lemma fifo_leave ctrlrs qs msgs q : fifo ctrlrs qs msgs -> fifo ctrlrs (delete q qs) msgs.
Proof.
  intros F. constructor; [| |apply (ff_free _ _ _ F)].
  - intros q0 r k c [_ H]%lookup_delete_Some. by eapply (ff_order _ _ _ F).
  - intros q0 st m t [_ H]%lookup_delete_Some. by eapply (ff_due _ _ _ F).
Qed.

Lemma fini_owner y qs cs q oc n i : rep y qs cs -> sy_fini y !! i = Some (q, oc, n) -> qs !! q = Some (SFini oc n).
Proof.
  intros R Hi. assert (TFini (q, oc, n) ∈ toks y) as H.
  { unfold tokens. rewrite !elem_of_app. do 3 right. apply list_elem_of_fmap. exists (q, oc, n). split; [done|]. by eapply list_elem_of_lookup_2. }
  rewrite (r_tok _ _ _ R), elem_of_app, !elem_of_flat in H. destruct H as [(q' & st & Hq & Ht)|(c & cst & _ & Ht)]; [|destruct cst; cbn in Ht; set_solver].
  destruct st as [| | |? ? []|? ? []| | | | |]; cbn in Ht; set_solver.
Qed.

Lemma fini_tokens y i f : sy_fini y !! i = Some f -> toks y ≡ₚ TFini f :: tokens (sy_msgs y) (sy_queued y) (sy_pollers y) (delete i (sy_fini y)).
Proof. intros H. rewrite (delete_Permutation (sy_fini y) i f H) at 1. by rewrite tokens_fini. Qed.

(** One that never had a controller is gone. *)
Lemma rep_gone y qs cs q n i : rep y qs cs -> sy_fini y !! i = Some (q, None, n) ->
  rep (y <| sy_fini := delete i (sy_fini y) |> <| sy_qpairs := delete q (sy_qpairs y) |>) (delete q qs) cs.
Proof.
  intros R Hi. pose proof (fini_owner _ _ _ _ _ _ _ R Hi) as Hq. constructor; csimp; try apply (r_c' _ _ _ R); try apply (r_nextr _ _ _ R); try apply (r_nextc _ _ _ R);
    try apply (r_ans _ _ _ R); try apply (r_subs _ _ _ R).
  - apply (Permutation_app_inv_l [TFini (q, None, n)]). rewrite app_assoc. cbn [app]. rewrite <- (fini_tokens y i _ Hi), (r_tok _ _ _ R), (flat_delete _ _ _ _ Hq). done.
  - intros q0 st [Hne H]%lookup_delete_Some. rewrite lookup_delete_ne by done. by apply (r_q _ _ _ R).
  - intros q0 [x [Hne Hx]%lookup_delete_Some]. rewrite lookup_delete_ne by done. apply (r_q' _ _ _ R). by exists x.
  - intros r rq H. destruct (r_req _ _ _ R r rq H) as (st & H1 & H2). exists st. rewrite lookup_delete_ne; [done|]. intros E. rewrite <- E in H1. by simplify_eq.
  - intros q0 st c [Hne H]%lookup_delete_Some Hc. destruct (r_link _ _ _ R q0 st c H Hc) as (ct & Hct & L). exists ct. split; [done|].
    intros qp. rewrite lookup_delete_ne by done. apply L.
  - intros c cst H. destruct (r_c _ _ _ R c cst H) as (ct & Hct & F). exists ct. split; [done|]. eapply c_facts_delete; [exact Hq|done| |done].
    intros Ha. by destruct (admin_holds _ _ _ _ _ _ _ _ R Hq F Ha).
  - intros c ct m H. rewrite (holders_delete qs q (SFini None n)) by done. by apply (r_mask _ _ _ R).
  - intros q1 q2 s1 s2 p [_ H1]%lookup_delete_Some [_ H2]%lookup_delete_Some. by apply (r_uniq _ _ _ R).
  - apply fifo_leave, (r_fifo _ _ _ R).
  - intros q0 [x [_ Hx]%lookup_delete_Some]. apply (r_nextq _ _ _ R). by exists x.
  - intros k. change (sgroup_of _ k) with (sgroup_of y k). rewrite (r_mgmt _ _ _ R k), (counted_delete k qs q _ Hq), at_key_none by done. done.
Qed.

(** One that has a controller still holds its identifier. *)
Lemma rep_leave y qs cs q c n i t : rep y qs cs -> sy_fini y !! i = Some (q, Some c, n) -> (forall ct, sy_ctrlrs y !! c = Some ct -> cl_admin_qpair ct <> Some q) ->
  rep (y <| sy_fini := delete i (sy_fini y) |> <| sy_qpairs := delete q (sy_qpairs y) |> <| sy_msgs := sy_msgs y ++ [(t, MsgFreeFromQpair q c n)] |>)
    (<[q := SFree c n]> qs) cs.
Proof.
  intros R Hi Ha. pose proof (fini_owner _ _ _ _ _ _ _ R Hi) as Hq. constructor; csimp; try apply (r_c' _ _ _ R); try apply (r_nextr _ _ _ R); try apply (r_nextc _ _ _ R);
    try apply (r_ans _ _ _ R); try apply (r_subs _ _ _ R).
  - eapply (flat_change stage_tokens qs q _ (SFree c n) (toks y) _ _ _ Hq); [apply (r_tok _ _ _ R)|exact (fini_tokens y i _ Hi)|]. by rewrite tokens_send.
  - intros q0 st [[<- <-]|[Hne H]]%lookup_insert_Some; [apply lookup_delete_eq|]. rewrite lookup_delete_ne by done. by apply (r_q _ _ _ R).
  - intros q0 [x [Hne Hx]%lookup_delete_Some]. rewrite lookup_insert_ne by done. apply (r_q' _ _ _ R). by exists x.
  - intros r rq H. destruct (r_req _ _ _ R r rq H) as (st & H1 & H2). exists st. rewrite lookup_insert_ne; [done|]. intros E. rewrite <- E in H1. by simplify_eq.
  - intros q0 st c0 [[<- <-]|[Hne H]]%lookup_insert_Some Hc.
    + injection Hc as <-. destruct (r_link _ _ _ R q _ c Hq eq_refl) as (ct & Hct & _). exists ct. split; [done|]. intros qp. by rewrite lookup_delete_eq.
    + destruct (r_link _ _ _ R q0 st c0 H Hc) as (ct & Hct & L). exists ct. split; [done|]. intros qp. rewrite lookup_delete_ne by done. apply L.
  - intros c0 cst H. destruct (r_c _ _ _ R c0 cst H) as (ct & Hct & F). exists ct. split; [done|]. destruct F as [f1 f2 f3 f4 f5 f6 f7]. constructor; try assumption.
    + intros qa H'. destruct (f5 qa H') as (s & H1 & H2 & H3). exists s. rewrite lookup_insert_ne; [done|]. intros <-.
      rewrite Hq in H1. injection H1 as <-. cbn in H2. injection H2 as <- ->. by apply (Ha ct).
    + intros q0 H'. destruct (f6 q0 H') as (s & H1 & H2). exists s. rewrite lookup_insert_ne; [done|]. intros <-. by simplify_eq.
    + intros q0 H'. destruct (f7 q0 H') as (s & H1 & H2). exists s. rewrite lookup_insert_ne; [done|]. intros <-. by simplify_eq.
  - intros c0 ct m H. rewrite (holders_stage qs q (SFini (Some c) n)) by done. by apply (r_mask _ _ _ R).
  - eapply uniq_stage; [exact Hq|done|]. apply (r_uniq _ _ _ R).
  - apply fifo_send; [|done]. apply fifo_stage; [apply (r_fifo _ _ _ R)|done].
  - intros q0 H. apply (r_nextq _ _ _ R). apply lookup_insert_is_Some in H as [<-|[_ H]]; [by eexists|done].
  - intros k. change (sgroup_of _ k) with (sgroup_of y k). pose proof (counted_update k qs q _ (SFree c n) Hq) as E. pose proof (r_mgmt _ _ _ R k).
    rewrite !at_key_none in E by done. lia.
Qed.

Lemma fini_wp y qs cs q oc n i : rep y qs cs -> rest qs -> sy_fini y !! i = Some (q, oc, n) ->
  cwp (c_mod (fun y => y <| sy_fini := delete i (sy_fini y) |>);; _nvmf_transport_qpair_fini_complete q oc n) y (fun _ y' => good y').
Proof.
  intros R Hre Hi. pose proof (fini_owner _ _ _ _ _ _ _ R Hi) as Hq. destruct (rep_qp _ _ _ _ _ R Hq eq_refl) as (qp & Hqp & F).
  unfold _nvmf_transport_qpair_fini_complete. do 6 cstep. destruct oc as [c|].
  2: { cstep. exists (delete q qs), cs. split; [by eapply rep_gone|]. intros q0 st [_ H]%lookup_delete_Some. by eapply Hre. }
  destruct (r_link _ _ _ R q _ c Hq eq_refl) as (ct & Hct & L). specialize (L qp Hqp). cstep. destruct (Z.eqb_spec n 0) as [->|Hn].
  - do 2 cstep. apply cwp_bind, cwp_assert; [apply Z.eqb_eq, (lf_thread _ _ _ _ _ _ L); right; by exists 0|]. do 4 cstep.
    set (ct' := upd_cc _ _). assert (rep (y <| sy_ctrlrs := <[c := ct']> (sy_ctrlrs y) |>) qs cs) as R1 by (by eapply rep_ctrlr).
    eapply good_at; [apply (rep_leave _ qs cs q c 0 i (cl_thread ct) R1 Hi)|by apply rest_others|done]. csimp. intros z. rewrite lookup_insert_eq. by intros [= <-].
  - do 4 cstep. eapply good_at; [apply (rep_leave y qs cs q c n i (cl_thread ct) R Hi)|by apply rest_others|done].
    intros z Hz Ha. destruct (r_c' _ _ _ R c) as [cst Hcs]; [by exists ct|]. destruct (r_c _ _ _ R c cst Hcs) as (x & Hx & Fc). replace x with z in * by congruence.
    destruct (admin_holds _ _ _ _ _ _ _ _ R Hq Fc Ha) as [[= ->] _]. done.
Qed.

(** ** An identifier is given back *)

#[global] Instance cstage_dec : EqDecision cstage.
Proof. solve_decision. Defined.

Lemma holder_live y qs cs q st c n : rep y qs cs -> qs !! q = Some st -> holding st = Some (c, n) -> cs !! c = Some CLive.
Proof.
  intros R Hq Hh. destruct (r_link _ _ _ R q st c Hq (holding_ctrlr _ _ _ Hh)) as (ct & Hct & _). destruct (r_c' _ _ _ R c) as [cst Hcs]; [by exists ct|].
  destruct (r_c _ _ _ R c cst Hcs) as (z & Hz & F). replace z with ct in * by congruence. assert (n ∈ ck_mask (cl_cc ct)) as Hn by (apply (r_mask _ _ _ R c ct n Hct); by exists q, st).
  destruct (decide (cst = CLive)) as [->|Hne]; [done|]. rewrite (cf_empty _ _ _ _ _ F Hne) in Hn. set_solver.
Qed.

Section Free.
Context (y : conn_sys) (qs : gmap nat stage) (cs : gmap nat cstage) (q c : nat) (n t t' : Z) (ct ct' : conn_ctrlr) (l1 l2 : list (Z * conn_msg)) (cst : cstage).
Hypotheses (R : rep y qs cs) (Hq : qs !! q = Some (SFree c n)) (Hm : sy_msgs y = l1 ++ (t, MsgFreeFromQpair q c n) :: l2) (Hc : sy_ctrlrs y !! c = Some ct)
  (Hid : same_id ct ct') (Ha : cl_admin_qpair ct' = cl_admin_qpair ct) (Hmask : ck_mask (cl_cc ct') = ck_mask (cl_cc ct) ∖ {[n]})
  (Hd : ck_in_destruct (cl_cc ct') = destructing cst)
  (Hcst : cst = CLive /\ ck_mask (cl_cc ct') <> ∅ \/ cst = CDestruct /\ ck_mask (cl_cc ct') = ∅).

Lemma free_c_facts : c_facts (sy_subs y) (delete q qs) c cst ct'.
Proof.
  pose proof (holder_live _ _ _ _ _ _ _ R Hq eq_refl) as Hcs. destruct (r_c _ _ _ R c _ Hcs) as (z & Hz & F). replace z with ct in * by congruence.
  assert (cl_admin_qpair ct <> Some q) as Hne by (intros H; by destruct (admin_holds _ _ _ _ _ _ _ _ R Hq F H)).
  destruct (c_facts_delete _ _ q _ _ _ _ Hq eq_refl Hne F) as [f1 f2 f3 f4 f5 f6 f7]. destruct Hid as (_ & _ & E3 & _). constructor; rewrite ?E3, ?Ha; try done.
  - destruct f1 as (sub & Hs & Hl). exists sub. split; [done|]. rewrite Hl. by destruct Hcst as [[-> _]|[-> _]].
  - destruct Hcst as [[-> _]|[-> E]]; done.
  - destruct Hcst as [[-> ?]|[-> E]]; done.
  - intros q0 ->. by destruct Hcst as [[? _]|[? _]].
  - intros q0 ->. by destruct Hcst as [[? _]|[? _]].
Qed.

Lemma free_mask c0 ct0 m : <[c := ct']> (sy_ctrlrs y) !! c0 = Some ct0 ->
  m ∈ ck_mask (cl_cc ct0) <-> exists q0 s, delete q qs !! q0 = Some s /\ holding s = Some (c0, m).
Proof.
  intros [[<- <-]|[Hne H]]%lookup_insert_Some.
  - rewrite Hmask, elem_of_difference, (r_mask _ _ _ R c ct m Hc), elem_of_singleton. split.
    + intros [(q0 & s & H1 & H2) Hmn]. exists q0, s. rewrite lookup_delete_ne; [done|]. intros <-. rewrite Hq in H1. injection H1 as <-. cbn in H2. congruence.
    + intros (q0 & s & [Hne H1]%lookup_delete_Some & H2). split; [by exists q0, s|]. intros ->. apply Hne. by eapply (r_uniq _ _ _ R); [exact Hq|exact H1|..].
  - rewrite (holders_delete qs q (SFree c n)) by (try done; cbn; congruence). by apply (r_mask _ _ _ R).
Qed.

Lemma free_link q0 st0 c0 : delete q qs !! q0 = Some st0 -> stage_ctrlr st0 = Some c0 ->
  exists ct0, <[c := ct']> (sy_ctrlrs y) !! c0 = Some ct0 /\ forall qp0, sy_qpairs y !! q0 = Some qp0 -> link_facts (<[c := cst]> cs) q0 st0 (cq_thread qp0) c0 ct0.
Proof.
  intros [Hne H]%lookup_delete_Some Hc0. pose proof (holder_live _ _ _ _ _ _ _ R Hq eq_refl) as Hcs. destruct (r_link _ _ _ R q0 st0 c0 H Hc0) as (z & Hz & L).
  exists (if decide (c0 = c) then ct' else z). split.
  { destruct (decide (c0 = c)) as [->|]; [by rewrite lookup_insert_eq|by rewrite lookup_insert_ne]. }
  intros qp0 Hqp0. specialize (L qp0 Hqp0). destruct (decide (c0 = c)) as [->|Hcc]; [|by apply link_facts_other].
  replace z with ct in * by congruence. destruct Hid as (_ & _ & E3 & E4). destruct (link_facts_same _ _ _ _ _ _ _ L E3 E4) as [b1 b2 b3 b4 b5 b6].
  constructor; try done; [intros Hw; specialize (b3 Hw); congruence|intros Hw; specialize (b4 Hw); congruence|].
  intros q' _. rewrite lookup_insert_eq. by destruct Hcst as [[-> _]|[-> _]].
Qed.

Lemma rep_free msgs : msgs = (l1 ++ l2) ++ (if decide (cst = CDestruct) then [(t', MsgDestruct c)] else []) ->
  rep (y <| sy_msgs := msgs |> <| sy_ctrlrs := <[c := ct']> (sy_ctrlrs y) |>) (delete q qs) (<[c := cst]> cs).
Proof.
  intros ->. pose proof (holder_live _ _ _ _ _ _ _ R Hq eq_refl) as Hcs.
  constructor; csimp; try apply (r_nextr _ _ _ R); try apply (r_ans _ _ _ R).
  - apply (Permutation_app_inv_l [TMsg (MsgFreeFromQpair q c n)]). rewrite app_assoc. change ([_] ++ flat stage_tokens (delete q qs)) with (stage_tokens q (SFree c n) ++ flat stage_tokens (delete q qs)).
    rewrite <- (flat_delete _ _ _ _ Hq), flat_update. pose proof (r_tok _ _ _ R) as T. rewrite Hm, tokens_take, (flat_delete cstage_tokens _ _ _ Hcs) in T. cbn [cstage_tokens app snd] in T.
    destruct Hcst as [[-> _]|[-> _]]; cbn [decide_rel decide cstage_tokens app].
    + rewrite decide_False by done. rewrite app_nil_r. exact T.
    + rewrite decide_True by done. rewrite tokens_send. cbn [snd]. rewrite Permutation_swap, T. by rewrite <- Permutation_middle.
  - intros q0 st [Hne H]%lookup_delete_Some. by apply (r_q _ _ _ R).
  - intros q0 H. destruct (decide (q0 = q)) as [->|Hne]; [|rewrite lookup_delete_ne by done; by apply (r_q' _ _ _ R)].
    destruct H as [x Hx]. pose proof (r_q _ _ _ R q _ Hq) as E. cbn in E. congruence.
  - intros r rq H. destruct (r_req _ _ _ R r rq H) as (s & H1 & H2). exists s. rewrite lookup_delete_ne; [done|]. intros E. rewrite <- E in H1. by simplify_eq.
  - exact free_link.
  - intros c0 cst0 [[<- <-]|[Hne H]]%lookup_insert_Some; [exists ct'; rewrite lookup_insert_eq; split; [done|apply free_c_facts]|].
    rewrite lookup_insert_ne by done. destruct (r_c _ _ _ R c0 cst0 H) as (x & Hx & Fx). exists x. split; [done|]. eapply c_facts_delete; [exact Hq|done| |done].
    intros H'. by destruct (admin_holds _ _ _ _ _ _ _ _ R Hq Fx H').
  - intros c0 H. apply lookup_insert_is_Some'. destruct (decide (c = c0)) as [->|Hne]; [by left|right]. rewrite lookup_insert_ne in H by done. by apply (r_c' _ _ _ R).
  - exact free_mask.
  - intros q1 q2 s1 s2 p [_ H1]%lookup_delete_Some [_ H2]%lookup_delete_Some. by apply (r_uniq _ _ _ R).
  - intros s sub Hs. by eapply sub_facts_ctrlr; [apply (r_subs _ _ _ R)|..].
  - assert (fifo (<[c := ct']> (sy_ctrlrs y)) (delete q qs) (l1 ++ l2)) as FF.
    { eapply fifo_ctrlr; [|exact Hc|apply Hid]. apply fifo_leave, (fifo_take _ _ _ (t, MsgFreeFromQpair q c n)). rewrite <- Hm. apply (r_fifo _ _ _ R). }
    destruct (decide (cst = CDestruct)); [by apply fifo_send|by rewrite app_nil_r].
  - intros q0 [x [_ Hx]%lookup_delete_Some]. apply (r_nextq _ _ _ R). by exists x.
  - intros c0 H. apply (r_nextc _ _ _ R). apply lookup_insert_is_Some in H as [<-|[_ H]]; [by eexists|done].
  - intros k. change (sgroup_of _ k) with (sgroup_of y k). rewrite (r_mgmt _ _ _ R k), (counted_delete k qs q _ Hq), at_key_none by done. done.
Qed.
End Free.

Lemma rest_delete qs q : rest qs -> rest (delete q qs).
Proof. intros H q0 st [_ H0]%lookup_delete_Some. by eapply H. Qed.

Lemma free_msg_owner y qs cs t q c n : rep y qs cs -> (t, MsgFreeFromQpair q c n) ∈ sy_msgs y -> qs !! q = Some (SFree c n).
Proof.
  intros R Hm. destruct (msg_owner _ _ _ _ _ R Hm) as [(q' & st & Hq & Ht)|(c' & cst & Hc & Ht)].
  - destruct st as [| | |? ? []|? ? []| | | | |]; cbn in Ht; set_solver.
  - destruct cst; cbn in Ht; set_solver.
Qed.

Lemma free_from_qpair_same n cc : let cc' := _nvmf_ctrlr_free_from_qpair n cc in
  ck_mask cc' = ck_mask cc ∖ {[n]} /\ ck_in_destruct cc' = (if (size (ck_mask cc') =? 0)%nat then true else ck_in_destruct cc).
Proof. unfold _nvmf_ctrlr_free_from_qpair. cbv zeta. destruct (n =? 0); csimp; destruct (size _ =? 0)%nat eqn:E; csimp; by rewrite ?E. Qed.

Lemma free_wp y qs cs q c n t l1 l2 : rep y qs cs -> rest qs -> sy_msgs y = l1 ++ (t, MsgFreeFromQpair q c n) :: l2 ->
  cwp (ctrlr_free_from_qpair c n) (y <| sy_msgs := l1 ++ l2 |>) (fun _ y' => good y').
Proof.
  intros R Hre Hm. assert (qs !! q = Some (SFree c n)) as Hq by (apply (free_msg_owner y qs cs t); [exact R|rewrite Hm; set_solver]).
  pose proof (holder_live _ _ _ _ _ _ _ R Hq eq_refl) as Hcs. destruct (r_c _ _ _ R c _ Hcs) as (ct & Hct & F). destruct (ctrlr_sub _ _ _ _ _ R Hct) as (sub & Hsub).
  unfold ctrlr_free_from_qpair. do 4 cstep. destruct (free_from_qpair_same n (cl_cc ct)) as [E1 E2]. set (cc := _nvmf_ctrlr_free_from_qpair n (cl_cc ct)) in *. cbv zeta in E1, E2.
  rewrite (cf_destruct _ _ _ _ _ F) in *. destruct (Nat.eqb_spec (size (ck_mask cc)) 0) as [Hz|Hz].
  - apply cwp_bind, cwp_assert; [done|]. do 3 cstep. exists (delete q qs), (<[c := CDestruct]> cs). split; [|by apply rest_delete].
    apply (rep_free y qs cs q c n t (cb_thread sub) ct (upd_cc (fun _ => cc) ct) l1 l2 CDestruct) with (msgs := (l1 ++ l2) ++ [(cb_thread sub, MsgDestruct c)]); try done.
    right. split; [done|]. by apply size_empty_iff, leibniz_equiv in Hz.
  - cstep. exists (delete q qs), (<[c := CLive]> cs). split; [|by apply rest_delete].
    apply (rep_free y qs cs q c n t 0 ct (upd_cc (fun _ => cc) ct) l1 l2 CLive) with (msgs := l1 ++ l2); try done; [|by rewrite app_nil_r].
    left. split; [done|]. csimp. intros E. apply Hz. rewrite E. apply size_empty.
Qed.

(** ** A controller leaves its subsystem *)

Lemma destruct_msg_owner y qs cs t c : rep y qs cs -> (t, MsgDestruct c) ∈ sy_msgs y -> cs !! c = Some CDestruct.
Proof.
  intros R Hm. destruct (msg_owner _ _ _ _ _ R Hm) as [(q' & st & Hq & Ht)|(c' & cst & Hc & Ht)].
  - destruct st as [| | |? ? []|? ? []| | | | |]; cbn in Ht; set_solver.
  - destruct cst; cbn in Ht; set_solver.
Qed.
Lemma ctrlr_destruct_msg_owner y qs cs t c : rep y qs cs -> (t, MsgCtrlrDestruct c) ∈ sy_msgs y -> cs !! c = Some CGone.
Proof.
  intros R Hm. destruct (msg_owner _ _ _ _ _ R Hm) as [(q' & st & Hq & Ht)|(c' & cst & Hc & Ht)].
  - destruct st as [| | |? ? []|? ? []| | | | |]; cbn in Ht; set_solver.
  - destruct cst; cbn in Ht; set_solver.
Qed.

(** The last message about a controller. *)
Lemma fifo_last ctrlrs qs msgs c ct : fifo ctrlrs qs msgs -> ctrlrs !! c = Some ct -> fifo ctrlrs qs (msgs ++ [(cl_thread ct, MsgCtrlrDestruct c)]).
Proof.
  intros F Hc. constructor.
  - intros q r k c0 H. apply before_snoc; [by eapply (ff_order _ _ _ F)|done].
  - intros q st m t H Hd [Ht|[= _ ->]%list_elem_of_singleton]%elem_of_app; [by eapply (ff_due _ _ _ F)|]. by destruct st as [| | |? ? []|? ? []| | | | |].
  - intros c0 ct0 t H0 [Ht|[= -> ->]%list_elem_of_singleton]%elem_of_app; [by eapply (ff_free _ _ _ F)|congruence].
Qed.

Lemma rep_unlist y qs cs c ct t sub l1 l2 : rep y qs cs -> sy_msgs y = l1 ++ (t, MsgDestruct c) :: l2 -> sy_ctrlrs y !! c = Some ct -> sy_subs y !! cl_subsys ct = Some sub ->
  rep (y <| sy_msgs := (l1 ++ l2) ++ [(cl_thread ct, MsgCtrlrDestruct c)] |>
    <| sy_subs := <[cl_subsys ct := sub <| cb_ctrlrs := filter (fun x => x <> c) (cb_ctrlrs sub) |>]> (sy_subs y) |>) qs (<[c := CGone]> cs).
Proof.
  intros R Hm Hc Hs. assert (cs !! c = Some CDestruct) as Hcs by (apply (destruct_msg_owner y qs cs t); [exact R|rewrite Hm; set_solver]). set (sub' := sub <| cb_ctrlrs := _ |>).
  assert (names (<[cl_subsys ct := sub']> (sy_subs y)) = names (sy_subs y)) as Hnm by (by eapply names_insert).
  constructor; csimp; try apply (r_nextr _ _ _ R); try apply (r_ans _ _ _ R); try apply (r_mask _ _ _ R); try apply (r_uniq _ _ _ R); try apply (r_nextq _ _ _ R);
    try apply (r_q' _ _ _ R); try apply (r_req _ _ _ R); try apply (r_mgmt _ _ _ R).
  - pose proof (r_tok _ _ _ R) as T. rewrite Hm, tokens_take, (flat_delete cstage_tokens _ _ _ Hcs) in T. cbn [cstage_tokens app snd] in T. rewrite <- Permutation_middle in T.
    apply Permutation_cons_inv in T. rewrite tokens_send, T, flat_update. cbn [cstage_tokens app snd]. by rewrite <- Permutation_middle.
  - intros q st Hq. pose proof (r_q _ _ _ R q st Hq) as Fq. destruct (is_free st); [done|]. destruct Fq as (qp & H1 & H2). exists qp. split; [done|]. by apply (q_facts_subs (sy_subs y)).
  - intros q st c0 Hq Hc0. destruct (r_link _ _ _ R q st c0 Hq Hc0) as (z & Hz & L). exists z. split; [done|]. intros qp Hqp. specialize (L qp Hqp).
    destruct (decide (c0 = c)) as [->|Hne]; [|by apply link_facts_other]. destruct L as [b1 b2 b3 b4 b5 b6].
    constructor; try done; [intros Hw; specialize (b3 Hw); congruence|intros Hw; specialize (b4 Hw); congruence|]. intros q' _. by rewrite lookup_insert_eq.
  - intros c0 cst0 [[<- <-]|[Hne H]]%lookup_insert_Some.
    + destruct (r_c _ _ _ R c _ Hcs) as (z & Hz & [f1 f2 f3 f4 f5 f6 f7]). replace z with ct in * by congruence. exists ct. split; [done|]. constructor; try done; [|by intros _; apply f3].
      exists sub'. rewrite list_lookup_insert_eq by (by eapply lookup_lt_Some). split; [done|]. cbn. rewrite list_elem_of_filter. naive_solver.
    + destruct (r_c _ _ _ R c0 cst0 H) as (z & Hz & [f1 f2 f3 f4 f5 f6 f7]). exists z. split; [done|]. constructor; try done.
      destruct f1 as (s0 & Hs0 & Hl0). destruct (decide (cl_subsys ct = cl_subsys z)) as [E|E].
      * exists sub'. rewrite <- E in *. rewrite list_lookup_insert_eq by (by eapply lookup_lt_Some). split; [done|]. replace s0 with sub in * by congruence.
        rewrite <- Hl0. cbn. rewrite list_elem_of_filter. naive_solver.
      * exists s0. by rewrite list_lookup_insert_ne.
  - intros c0 H. apply lookup_insert_is_Some'. right. by apply (r_c' _ _ _ R).
  - intros s0 sub0 [(<- & <- & _)|[Hs0 H]]%list_lookup_insert_Some; [|by apply (r_subs _ _ _ R)]. destruct (r_subs _ _ _ R _ _ Hs) as [f1 f2 f3 f4 f5]. constructor; csimp; try done.
    + by apply NoDup_filter.
    + intros x [_ Hx]%list_elem_of_filter. by apply f2.
    + intros x x' z z' [_ Hx]%list_elem_of_filter [_ Hx']%list_elem_of_filter. by apply f3.
  - apply fifo_last; [|done]. apply (fifo_take _ _ _ (t, MsgDestruct c)). rewrite <- Hm. apply (r_fifo _ _ _ R).
  - intros c0 H. apply (r_nextc _ _ _ R). apply lookup_insert_is_Some in H as [<-|[_ H]]; [by eexists|done].
Qed.

(** The destruction of a controller is asked for on its subsystem's thread. *)
Definition addressed (y : conn_sys) : Prop := forall t c ct sub, (t, MsgDestruct c) ∈ sy_msgs y -> sy_ctrlrs y !! c = Some ct ->
  sy_subs y !! cl_subsys ct = Some sub -> t = cb_thread sub.

Lemma destruct_wp y qs cs c t l1 l2 : rep y qs cs -> rest qs -> sy_msgs y = l1 ++ (t, MsgDestruct c) :: l2 -> addressed y ->
  cwp (nvmf_ctrlr_destruct t c) (y <| sy_msgs := l1 ++ l2 |>) (fun _ y' => good y').
Proof.
  intros R Hre Hm Ha. assert (cs !! c = Some CDestruct) as Hcs by (apply (destruct_msg_owner y qs cs t); [exact R|rewrite Hm; set_solver]).
  destruct (r_c _ _ _ R c _ Hcs) as (ct & Hct & F). destruct (cf_sub _ _ _ _ _ F) as (sub & Hsub & Hl). unfold nvmf_ctrlr_destruct, nvmf_subsystem_remove_ctrlr.
  do 5 cstep. apply cwp_bind, cwp_assert; [apply Z.eqb_eq, (Ha t c ct sub); [rewrite Hm; set_solver|done..]|].
  apply cwp_bind, cwp_assert; [by apply bool_decide_eq_true, Hl|]. do 2 cstep. exists qs, (<[c := CGone]> cs). split; [|done]. by eapply (rep_unlist y qs cs c ct t sub).
Qed.

(** ** A controller is freed *)

(** The message of a queue pair that is about to join. *)
Lemma add_msg y qs cs q r k c : rep y qs cs -> qs !! q = Some (SWait r k (WCtrlrAddIo c)) -> exists t, (t, MsgCtrlrAddIoQpair r) ∈ sy_msgs y.
Proof.
  intros R Hq. assert (TMsg (MsgCtrlrAddIoQpair r) ∈ toks y) as Ht.
  { rewrite (r_tok _ _ _ R), elem_of_app, elem_of_flat. left. exists q, (SWait r k (WCtrlrAddIo c)). split; [done|]. cbn. set_solver. }
  unfold tokens in Ht. rewrite !elem_of_app, !list_elem_of_fmap in Ht. destruct Ht as [([t m] & [= <-] & Hm)|[(? & ? & _)|[(? & ? & _)|(? & ? & _)]]]; try done. by exists t.
Qed.

Lemma poller_of y qs cs q r k c t : rep y qs cs -> qs !! q = Some (SWait r k (WRetry c t)) -> (q, t) ∈ sy_pollers y.
Proof.
  intros R Hq. assert (TPoll (q, t) ∈ toks y) as Ht.
  { rewrite (r_tok _ _ _ R), elem_of_app, elem_of_flat. left. exists q, (SWait r k (WRetry c t)). split; [done|]. cbn. set_solver. }
  unfold tokens in Ht. rewrite !elem_of_app, !list_elem_of_fmap in Ht. by destruct Ht as [(? & ? & _)|[(? & ? & _)|[(? & [= <-] & Hm)|(? & ? & _)]]].
Qed.

Section Last.
Context (y : conn_sys) (qs : gmap nat stage) (cs : gmap nat cstage) (c : nat) (t : Z) (ct : conn_ctrlr) (l1 l2 : list (Z * conn_msg)).
Hypotheses (R : rep y qs cs) (Hre : rest qs) (Hm : sy_msgs y = l1 ++ (t, MsgCtrlrDestruct c) :: l2) (Hl1 : forall m, (t, m) ∉ l1)
  (Hc : sy_ctrlrs y !! c = Some ct).

Lemma last_gone : cs !! c = Some CGone.
Proof. apply (ctrlr_destruct_msg_owner y qs cs t); [exact R|]. rewrite Hm. set_solver. Qed.

Lemma last_thread : t = cl_thread ct.
Proof. apply (ff_free _ _ _ (r_fifo _ _ _ R) c ct t Hc). rewrite Hm. set_solver. Qed.

(** The messages of queue pairs that are about to join have been handled. *)
Lemma last_no_refs : (forall q t' qp, (q, t') ∈ sy_pollers y -> sy_qpairs y !! q = Some qp -> cq_ctrlr qp <> Some c) ->
  forall q st, qs !! q = Some st -> stage_ctrlr st <> Some c.
Proof.
  intros Hp q st Hq Hs. destruct (stage_refs _ _ Hs) as [(n & Hh)|(w & Hw & Hwc)].
  { pose proof (holder_live _ _ _ _ _ _ _ R Hq Hh). pose proof last_gone. congruence. }
  assert (is_free st = false) as Hf by (by destruct st). destruct (rep_qp _ _ _ _ _ R Hq Hf) as (qp & Hqp & F).
  destruct (r_link _ _ _ R q st c Hq Hs) as (z & Hz & L). specialize (L qp Hqp). pose proof last_gone as Hg. pose proof (Hre q st Hq) as Hr.
  assert (exists r k, st = SWait r k w) as (r & k & ->) by (destruct st; try done; injection Hw as ->; by eexists _, _).
  destruct w as [|c'|c'| |c'|c' t0|]; cbn in Hwc; try done; injection Hwc as ->.
  - pose proof (lf_new _ _ _ _ _ _ L eq_refl). congruence.
  - pose proof (lf_admin _ _ _ _ _ _ L eq_refl). congruence.
  - destruct (add_msg _ _ _ _ _ _ _ R Hq) as [t0 Ht0]. pose proof (ff_due _ _ _ (r_fifo _ _ _ R) _ _ _ _ Hq eq_refl Ht0 ct Hc) as ->. rewrite <- last_thread in Ht0.
    pose proof (ff_order _ _ _ (r_fifo _ _ _ R) _ _ _ _ Hq) as Hb. rewrite Hm in Ht0. apply elem_of_app in Ht0 as [Ht0|[?|Ht0]%elem_of_cons]; [by apply Hl1 in Ht0|done|].
    apply list_elem_of_split in Ht0 as (a & b & ->). rewrite Hm in Hb. apply (Hb (l1 ++ (t, MsgCtrlrDestruct c) :: a) t b); [by rewrite <- app_assoc|].
    rewrite fmap_app, fmap_cons. set_solver.
  - apply (Hp q t0 qp (poller_of _ _ _ _ _ _ _ _ R Hq) Hqp). apply (qf_ctrlr _ _ _ _ _ F).
Qed.

Lemma rep_resend : rep (y <| sy_msgs := (l1 ++ l2) ++ [(t, MsgCtrlrDestruct c)] |>) qs cs.
Proof.
  pose proof last_thread as ->. destruct R. constructor; csimp; try assumption.
  - rewrite tokens_send. rewrite Hm, tokens_take in r_tok. exact r_tok.
  - apply fifo_last; [|done]. apply (fifo_take _ _ _ (cl_thread ct, MsgCtrlrDestruct c)). by rewrite <- Hm.
Qed.

Lemma rep_delete : (forall q st, qs !! q = Some st -> stage_ctrlr st <> Some c) ->
  rep (y <| sy_msgs := l1 ++ l2 |> <| sy_ctrlrs := delete c (sy_ctrlrs y) |>) qs (delete c cs).
Proof.
  intros Hno. pose proof last_gone as Hg. constructor; csimp; try apply (r_nextr _ _ _ R); try apply (r_ans _ _ _ R); try apply (r_uniq _ _ _ R); try apply (r_nextq _ _ _ R);
    try apply (r_q _ _ _ R); try apply (r_q' _ _ _ R); try apply (r_req _ _ _ R); try apply (r_mgmt _ _ _ R).
  - pose proof (r_tok _ _ _ R) as T. rewrite Hm, tokens_take, (flat_delete cstage_tokens _ _ _ Hg) in T. cbn [cstage_tokens app snd] in T. rewrite <- Permutation_middle in T.
    by apply Permutation_cons_inv in T.
  - intros q st c0 Hq Hc0. assert (c0 <> c) as Hne by (intros ->; by apply (Hno q st)). destruct (r_link _ _ _ R q st c0 Hq Hc0) as (z & Hz & L).
    exists z. rewrite lookup_delete_ne by done. split; [done|]. intros qp Hqp. apply link_facts_delete; [done|by apply L].
  - intros c0 cst [Hne H]%lookup_delete_Some. rewrite lookup_delete_ne by done. by apply (r_c _ _ _ R).
  - intros c0 [x [Hne Hx]%lookup_delete_Some]. rewrite lookup_delete_ne by done. apply (r_c' _ _ _ R). by exists x.
  - intros c0 ct0 n [Hne H]%lookup_delete_Some. by apply (r_mask _ _ _ R).
  - intros s sub Hs. apply sub_facts_delete; [by apply (r_subs _ _ _ R)|]. by eapply unlisted.
  - apply fifo_delete, (fifo_take _ _ _ (t, MsgCtrlrDestruct c)). rewrite <- Hm. apply (r_fifo _ _ _ R).
  - intros c0 [x [_ Hx]%lookup_delete_Some]. apply (r_nextc _ _ _ R). by exists x.
Qed.

Lemma ctrlr_destruct_wp : (ck_disconnect_in_progress (cl_cc ct) = false -> forall q t' qp, (q, t') ∈ sy_pollers y -> sy_qpairs y !! q = Some qp -> cq_ctrlr qp <> Some c) ->
  cwp (_nvmf_ctrlr_destruct t c) (y <| sy_msgs := l1 ++ l2 |>) (fun _ y' => good y').
Proof.
  intros Hp. destruct (r_c _ _ _ R c _ last_gone) as (z & Hz & F). replace z with ct in * by congruence. unfold _nvmf_ctrlr_destruct. do 2 cstep.
  apply cwp_bind, cwp_assert; [apply Z.eqb_eq, last_thread|]. apply cwp_bind, cwp_assert; [apply (cf_destruct _ _ _ _ _ F)|]. destruct (ck_disconnect_in_progress (cl_cc ct)).
  - cstep. exists qs, cs. split; [|done]. rewrite <- last_thread. apply rep_resend.
  - cstep. exists qs, (delete c cs). split; [|done]. by apply rep_delete, last_no_refs, Hp.
Qed.
End Last.
