(* ===== verification/ConnectFun.v ===== *)
(** * What a Connect command does

    A Connect command is refused without a trace, or opens a controller: the
    whole way of both, and the identifier a new controller gets. *)
From S2P Require Import Prelude NvmeSpec Iov World CtrlrRegs AsyncEvents Discovery Connect.

(** ** Identifiers *)

(** C17. The identifier of a new controller is the first in cyclic order after
    the last one given out that no controller of the subsystem has; it is the
    reserved 0xFFFF exactly when all identifiers of the range are in use, and the
    search ends after one turn. *)
Theorem cntlid_first_free (m : gmap nat conn_ctrlr) (s : conn_subsys) (Hlive : forall c, c ∈ cb_ctrlrs s -> is_Some (m !! c))
    (Hr : NVMF_MIN_CNTLID <= cb_min_cntlid s <= cb_max_cntlid s /\ cb_max_cntlid s <= NVMF_MAX_CNTLID)
    (Hn : cb_min_cntlid s - 1 <= cb_next_cntlid s <= cb_max_cntlid s) :
  let nth := cntlid_nth (cb_min_cntlid s) (cb_max_cntlid s) (cb_next_cntlid s) in let used := cntlid_used m (cb_ctrlrs s) in
  exists s' x, nvmf_subsystem_gen_cntlid m s = Some (s', x) /\ s' = s <| cb_next_cntlid := cb_next_cntlid s' |> /\
    cb_min_cntlid s <= cb_next_cntlid s' <= cb_max_cntlid s /\
    ((exists j, x = nth (S j) /\ cb_next_cntlid s' = x /\ ~ used x /\ forall i, (i < j)%nat -> used (nth (S i))) \/
     (x = 0xFFFF /\ forall z, cb_min_cntlid s <= z <= cb_max_cntlid s -> used z)).
Proof.
  cbv zeta. unfold nvmf_subsystem_gen_cntlid.
  destruct (gen_cntlid_loop_spec m _ _ _ Hlive Hr (Z.to_nat (cb_max_cntlid s - cb_min_cntlid s + 1)) s eq_refl eq_refl eq_refl Hn) as [(j & Hj & E & Hf & Hu)|[E Hu]].
  - eexists _, _. split; [exact E|]. split; [done|]. split; [csimp; apply cntlid_nth_range; lia|]. left. by exists j.
  - eexists _, _. split; [exact E|]. split; [done|]. split.
    { csimp. replace (Z.to_nat _) with (S (Z.to_nat (cb_max_cntlid s - cb_min_cntlid s))) by lia. apply cntlid_nth_range; lia. }
    right. split; [done|]. intros z Hz. destruct (cntlid_nth_onto _ _ Hr (cb_next_cntlid s) z Hn Hz) as (i & Hi & <-). by apply Hu.
Qed.

Definition one_ctrlr (cntlid : Z) : conn_ctrlr :=
  ConnCtrlr cntlid true 0 1 4 None (cy_ctrlr (cc_init 0 128 0 0 false [])) 0 0 77 [] [] None.
Definition two_ids (next : Z) : conn_subsys :=
  ConnSubsys (DiscSubsystem SPDK_NVMF_SUBSYSTEM_ACTIVE true [] [] SPDK_NVMF_SUBTYPE_NVME [115]) [] 9 false [] 1 2 next [0%nat].

Lemma cntlid_first_free_witness : exists s' x, nvmf_subsystem_gen_cntlid {[0%nat := one_ctrlr 1]} (two_ids 0) = Some (s', x) /\ x = 2.
Proof.
  destruct (cntlid_first_free {[0%nat := one_ctrlr 1]} (two_ids 0)) as (s' & x & E & _).
  - intros c ->%list_elem_of_singleton. rewrite lookup_singleton_eq. by eexists.
  - done.
  - done.
  - exists s', x. split; [exact E|]. vm_compute in E. by injection E as _ <-.
Defined.

(** ** A refused command *)

(** What is wrong with a command before its queue pair is accepted, in the order
    it is looked for. *)
Definition refusal (opts : transport_opts) (subs : list conn_subsys) (qp : conn_qpair) (cmd : connect_cmd) (data : connect_data) (len : Z) : option connect_rsp :=
  if len <? 1024 then Some (ConnectRsp SPDK_NVME_SCT_GENERIC SPDK_NVME_SC_INVALID_FIELD 0 0)
  else match spdk_nvmf_tgt_find_subsystem subs (cd_subnqn data) with
  | None => Some (ConnectRsp SPDK_NVME_SCT_COMMAND_SPECIFIC SPDK_NVMF_FABRIC_SC_INVALID_PARAM data_ofst_subnqn 1)
  | Some s =>
      sub ← subs !! s;
      if connect_waits (ds_state (cb_info sub)) then None
      else if negb (memchr0 (S SPDK_NVMF_NQN_MAX_LEN) (cd_hostnqn data))
      then Some (ConnectRsp SPDK_NVME_SCT_COMMAND_SPECIFIC SPDK_NVMF_FABRIC_SC_INVALID_PARAM data_ofst_hostnqn 1)
      else if negb (nvmf_qpair_access_allowed qp sub (cstr (cd_hostnqn data)))
      then Some (ConnectRsp SPDK_NVME_SCT_COMMAND_SPECIFIC SPDK_NVMF_FABRIC_SC_INVALID_HOST 0 0)
      else if cm_recfmt cmd !=? 0 then Some (ConnectRsp SPDK_NVME_SCT_COMMAND_SPECIFIC SPDK_NVMF_FABRIC_SC_INCOMPATIBLE_FORMAT 0 0)
      else if (cm_sqsize cmd =? 0) || ((if cm_qid cmd =? 0 then to_max_aq_depth opts else to_max_queue_depth opts) <=? cm_sqsize cmd)
      then Some (ConnectRsp SPDK_NVME_SCT_COMMAND_SPECIFIC SPDK_NVMF_FABRIC_SC_INVALID_PARAM cmd_ofst_sqsize 0)
      else None
  end.

(** A queue pair in its poll group, with nothing outstanding, that has no
    controller. *)
Definition fresh_qpair (qp : conn_qpair) : Prop :=
  cq_state qp = SPDK_NVMF_QPAIR_CONNECTING /\ cq_ctrlr qp = None /\ cq_group qp = true /\ cq_outstanding qp = [].

(** The poll group of the queue pair lets the command in. *)
Definition lets_in (y : conn_sys) (qp : conn_qpair) (data : connect_data) : Prop :=
  forall s, spdk_nvmf_tgt_find_subsystem (sy_subs y) (cd_subnqn data) = Some s -> let g := sgroup_of y (cq_thread qp, s) in cg_active g = true /\ 0 <= cg_mgmt g < 2 ^ 64 - 1.

(** Nothing but the answer is left. *)
Record only_answered (r : nat) (p : connect_rsp) (y y' : conn_sys) : Prop := {
  oa_subs : sy_subs y' = sy_subs y; oa_ctrlrs : sy_ctrlrs y' = sy_ctrlrs y; oa_qpairs : sy_qpairs y' = sy_qpairs y; oa_reqs : sy_reqs y' = sy_reqs y;
  oa_msgs : sy_msgs y' = sy_msgs y; oa_queued : sy_queued y' = sy_queued y; oa_pollers : sy_pollers y' = sy_pollers y; oa_fini : sy_fini y' = sy_fini y;
  oa_sgroups k : sgroup_of y' k = sgroup_of y k; oa_stats : sy_stats y' = sy_stats y; oa_answers : sy_answers y' = sy_answers y ++ [(r, p)] }.

Section Refused.
Context (opts : transport_opts) (mem : bool * bool * bool) (y : conn_sys) (q r : nat) (qp : conn_qpair) (rq : conn_req).
Hypotheses (Hqp : sy_qpairs y !! q = Some qp) (Hrq : sy_reqs y !! r = Some rq) (Hq : cr_qpair rq = q) (Hi : cr_iovcnt rq = 1) (Hrsp : cr_rsp rq = ConnectRsp 0 0 0 0)
  (Hst : cq_state qp = SPDK_NVMF_QPAIR_CONNECTING) (Hc : cq_ctrlr qp = None) (Hg : cq_group qp = true).

(** The view it is counted in. *)
Lemma fresh_sgroup_wp (Q : option (Z * nat) -> conn_sys -> Prop) :
  Q (pair (cq_thread qp) <$> spdk_nvmf_tgt_find_subsystem (sy_subs y) (cd_subnqn (cr_data rq))) y -> cwp (connect_sgroup r) y Q.
Proof.
  intros HQ. unfold connect_sgroup, nvmf_subsystem_pg_from_connect_cmd. do 2 cstep. rewrite Hq. do 2 cstep. rewrite Hc. do 2 cstep. rewrite Hq. do 2 cstep. rewrite Hc, Hi, Hg.
  do 3 (apply cwp_bind, cwp_assert; [done|]). by do 3 cstep.
Qed.

Lemma process_refused p (Q : exec_status -> conn_sys -> Prop) : refusal opts (sy_subs y) qp (cr_cmd rq) (cr_data rq) (cr_length rq) = Some p ->
  Q COMPLETE (y <| sy_reqs := <[r := rq <| cr_rsp := p |>]> (sy_reqs y) |>) -> cwp (connect_process opts mem r) y Q.
Proof.
  intros Hp HQ. unfold connect_process, nvmf_ctrlr_cmd_connect, _nvmf_ctrlr_connect. unfold refusal in Hp. do 2 cstep. rewrite Hq. do 2 cstep. rewrite Hc. do 2 cstep. rewrite Hi.
  destruct (cr_length rq <? 1024); [injection Hp as <-; do 3 cstep; by rewrite Hrsp|]. change (1 <? 1) with false. cbv iota. do 2 cstep.
  destruct (spdk_nvmf_tgt_find_subsystem _ _) as [s|] eqn:Ef; [|injection Hp as <-; by do 3 cstep].
  destruct (sy_subs y !! s) as [sub|] eqn:Hs; [|done]. cbn [mbind option_bind] in Hp. do 2 cstep.
  destruct (connect_waits _); [done|]. destruct (memchr0 _ _); cbn [negb] in Hp |- *; [|injection Hp as <-; by do 3 cstep].
  rewrite Hq. do 2 cstep. destruct (nvmf_qpair_access_allowed _ _ _); cbn [negb] in Hp |- *; [|injection Hp as <-; do 3 cstep; by rewrite Hrsp].
  do 4 cstep. rewrite Ef. destruct (cm_recfmt (cr_cmd rq) !=? 0); [injection Hp as <-; do 3 cstep; by rewrite Hrsp|].
  destruct (_ || _); [injection Hp as <-; by do 3 cstep|done].
Qed.
End Refused.

Lemma filter_self (r : nat) : filter (fun x => x <> r) [r] = [].
Proof. rewrite filter_cons, decide_False by (intros H; by apply H). apply filter_nil. Qed.

Lemma sgroup_update y k g k' : sgroup_of (y <| sy_sgroups := <[k := g]> (sy_sgroups y) |>) k' = if decide (k = k') then g else sgroup_of y k'.
Proof. unfold sgroup_of. csimp. destruct (decide (k = k')) as [->|H]; [by rewrite lookup_insert_eq|by rewrite lookup_insert_ne]. Qed.

(** C18. A Connect command with its data in one buffer, on a new queue pair whose
    poll group has an active view of the subsystem, if there is one, that is refused - too short, for an
    unknown subsystem, from a host or on a listener that is not allowed, in an
    unknown format, with a queue too small or too large - is answered at once
    with the status of the first thing wrong, and leaves nothing else behind:
    queue pairs, controllers, counters and statistics are as before.  (A command
    without data has no buffer and fails an assertion,
    [ConnectSafe.broken_rules_undefined].) *)
Theorem refused_connect_only_answered (hz : Z) (opts : transport_opts) (mem : bool * bool * bool) (y : conn_sys) (q : nat) (qp : conn_qpair) (cmd : connect_cmd)
    (data : connect_data) (len : Z) (p : connect_rsp) (Hqp : sy_qpairs y !! q = Some qp) (Hf : fresh_qpair qp) (Hin : lets_in y qp data)
    (Hnew : sy_reqs y !! sy_next y = None) (Hp : refusal opts (sy_subs y) qp cmd data len = Some p) :
  exists y', conn_step hz opts (EvConnect q cmd data len 1 mem) y = Some y' /\ only_answered (sy_next y) p y y'.
Proof.
  destruct Hf as (Hst & Hc & Hg & Ho). set (r := sy_next y) in *. set (rq := ConnReq q cmd data len 1 (ConnectRsp 0 0 0 0)).
  assert (forall rq', delete r (<[r := rq']> (<[r := rq]> (sy_reqs y))) = sy_reqs y) as Ereq by (intros; by rewrite insert_insert_eq, delete_insert_id).
  assert (<[q := qp <| cq_outstanding := [r] |> <| cq_outstanding := [] |>]> (<[q := qp <| cq_outstanding := [r] |>]> (sy_qpairs y)) = sy_qpairs y) as Eqp.
  { rewrite insert_insert_eq. replace (qp <| cq_outstanding := [r] |> <| cq_outstanding := [] |>) with qp by (destruct qp; cbn in Ho |- *; by rewrite Ho). by apply insert_id. }
  unfold conn_step. cut (cwp (conn_do hz opts (EvConnect q cmd data len 1 mem)) y (fun _ y' => only_answered r p y y')).
  { unfold cwp. destruct (conn_do _ _ _ _) as [[[] y']|]; [|done]. by exists y'. }
  unfold conn_do. do 2 cstep. rewrite Hqp, Hg. do 4 cstep. fold r rq. unfold connect_exec, connect_check_subsystem, connect_check_qpair, connect_insert_outstanding. do 2 cstep.
  eapply (fresh_sgroup_wp _ q r qp rq); csimp; try done; [apply lookup_insert_eq|]. change (cr_data rq) with data.
  destruct (spdk_nvmf_tgt_find_subsystem (sy_subs y) (cd_subnqn data)) as [s|] eqn:Ef; cbn [fmap option_fmap option_map].
  - destruct (Hin s Ef) as [Ha Hm]. do 2 cstep. change (sgroup_of _ _) with (sgroup_of y (cq_thread qp, s)). rewrite Ha. cbn [negb]. do 3 cstep. cbn [negb].
    do 5 cstep. rewrite Hst. cstep. cbn [negb]. do 4 cstep. cstep. rewrite Ho. cbn [app].
    eapply (process_refused opts mem _ q r (qp <| cq_outstanding := [r] |>) rq); csimp; try done; [apply lookup_insert_eq..|].
    unfold connect_complete, connect_remove_outstanding. cstep. eapply (fresh_sgroup_wp _ q r (qp <| cq_outstanding := [r] |>) (rq <| cr_rsp := p |>)); csimp; try done; [apply lookup_insert_eq..|].
    change (cr_data rq) with data. rewrite Ef. cbn [fmap option_fmap option_map]. do 5 cstep. apply cwp_bind, cwp_assert; [by apply bool_decide_eq_true, list_elem_of_singleton|].
    do 7 cstep. unfold lets_in, sgroup_of in Hm. apply cwp_bind, cwp_assert.
    { unfold sgroup_of. csimp. rewrite lookup_insert_eq. cbn [default from_option id]. csimp. apply Z.ltb_lt. rewrite u64_small; lia. }
    cstep. constructor; csimp; try done; [by rewrite filter_self|].
    intros k. unfold sgroup_of. csimp. rewrite lookup_insert_eq, insert_insert_eq. destruct (decide (k = (cq_thread qp, s))) as [->|Hne]; [|by rewrite lookup_insert_ne].
    rewrite lookup_insert_eq. cbn [default from_option id]. csimp. rewrite (u64_small (_ + 1)) by lia. rewrite u64_small by lia.
    rewrite Z.add_simpl_r. destruct (sy_sgroups y !! (cq_thread qp, s)) as [[a b]|]; done.
  - cstep. cbn [negb]. do 5 cstep. rewrite Hst. cstep. cbn [negb]. do 4 cstep. cstep. rewrite Ho. cbn [app].
    eapply (process_refused opts mem _ q r (qp <| cq_outstanding := [r] |>) rq); csimp; try done; [apply lookup_insert_eq..|].
    unfold connect_complete, connect_remove_outstanding. cstep. eapply (fresh_sgroup_wp _ q r (qp <| cq_outstanding := [r] |>) (rq <| cr_rsp := p |>)); csimp; try done; [apply lookup_insert_eq..|].
    change (cr_data rq) with data. rewrite Ef. cbn [fmap option_fmap option_map]. do 5 cstep. apply cwp_bind, cwp_assert; [by apply bool_decide_eq_true, list_elem_of_singleton|].
    do 6 cstep. constructor; csimp; try done. by rewrite filter_self.
Qed.

(** ** A target to look at *)

Definition demo_subsys : conn_subsys :=
  ConnSubsys (DiscSubsystem SPDK_NVMF_SUBSYSTEM_ACTIVE false [[104]] [Listener demo_trid 1 32 false] SPDK_NVMF_SUBTYPE_NVME [115]) [] 9 false
    [Some (ConnNs true [] false true); None; Some (ConnNs false [[103]] false true)] 1 0xFFEF 0 [].
Definition demo_opts : transport_opts := TransportOpts 32 128 4 0 true.
Definition pad (b : bytes) : bytes := b ++ replicate (256 - length b) 0.
Definition demo_connect (cntlid : Z) : connect_data := ConnectData 77 cntlid (pad [115]) (pad [104]).
Definition all_mem : bool * bool * bool := (true, true, true).
Definition demo_new : conn_event := EvNewQpair 1 (Some demo_trid).
Definition demo_admin (q : nat) : conn_event := EvConnect q (ConnectCmd 0 0 31 0) (demo_connect 0xFFFF) 1024 1 all_mem.
Definition demo_io (q : nat) (qid cntlid : Z) : conn_event := EvConnect q (ConnectCmd 0 qid 31 0) (demo_connect cntlid) 1024 1 all_mem.
(** One new queue pair. *)
Definition demo_qpair : conn_qpair := ConnQpair SPDK_NVMF_QPAIR_CONNECTING 0 0 None 1 true None [] false (Some demo_trid).
Definition demo_sys : conn_sys := ConnSys [demo_subsys] ∅ {[0%nat := demo_qpair]} ∅ 1 [] [] [] [] ∅ ∅ [].

Lemma demo_lets_in cntlid : lets_in demo_sys demo_qpair (demo_connect cntlid).
Proof. intros s Hs. vm_compute in Hs. injection Hs as <-. by vm_compute. Qed.

Lemma refused_connect_only_answered_witness : exists y',
  conn_step 1000 demo_opts (EvConnect 0 (ConnectCmd 0 0 32 0) (demo_connect 0xFFFF) 1024 1 all_mem) demo_sys = Some y' /\
  only_answered (sy_next demo_sys) (ConnectRsp SPDK_NVME_SCT_COMMAND_SPECIFIC SPDK_NVMF_FABRIC_SC_INVALID_PARAM 44 0) demo_sys y'.
Proof.
  apply (refused_connect_only_answered 1000 demo_opts all_mem demo_sys 0 demo_qpair (ConnectCmd 0 0 32 0) (demo_connect 0xFFFF) 1024).
  - vm_compute. reflexivity.
  - done.
  - apply demo_lets_in.
  - vm_compute. reflexivity.
  - vm_compute. reflexivity.
Defined.

(** ** A command that opens a controller *)

(** A controller that is not listed does not matter to the search. *)
Lemma get_ctrlr_insert m c ct l x : c ∉ l -> nvmf_subsystem_get_ctrlr (<[c := ct]> m) l x = nvmf_subsystem_get_ctrlr m l x.
Proof.
  induction l as [|c' l IH]; intros Hc; [done|]. cbn [nvmf_subsystem_get_ctrlr]. rewrite lookup_insert_ne by set_solver.
  destruct (m !! c') as [z|]; [|done]. cbn [mbind option_bind]. destruct (_ =? _); [done|]. apply IH. set_solver.
Qed.

Lemma gen_loop_insert m c ct count s : c ∉ cb_ctrlrs s -> gen_cntlid_loop (<[c := ct]> m) count s = gen_cntlid_loop m count s.
Proof.
  revert s. induction count as [|count IH]; intros s Hc; [done|]. cbn [gen_cntlid_loop]. cbv zeta. csimp. rewrite get_ctrlr_insert by done.
  destruct (nvmf_subsystem_get_ctrlr _ _ _) as [[c'|]|]; try done. cbn [mbind option_bind]. by apply IH.
Qed.

Lemma gen_loop_shape m count s s' x : gen_cntlid_loop m count s = Some (s', x) -> s' = s <| cb_next_cntlid := cb_next_cntlid s' |>.
Proof.
  revert s. induction count as [|count IH]; intros s; cbn [gen_cntlid_loop]; [intros [= <- _]; by destruct s|]. cbv zeta.
  destruct (nvmf_subsystem_get_ctrlr _ _ _) as [[c'|]|]; try done; cbn [mbind option_bind]; [|by intros [= <- _]]. intros H%IH. rewrite H. done.
Qed.

(** What a new controller listens to; a discovery controller to nothing. *)
Definition listener_of (sub : conn_subsys) (qp : conn_qpair) : option (option Z) :=
  if ds_subtype (cb_info sub) =? SPDK_NVMF_SUBTYPE_NVME then trid ← cq_listen qp; id ← nvmf_subsystem_find_listener sub trid; Some (Some id) else Some None.

(** A Connect command for a new controller with nothing wrong, on a new queue
    pair, and an identifier [x] to give. *)
Record admin_connect (opts : transport_opts) (y : conn_sys) (q : nat) (qp : conn_qpair) (cmd : connect_cmd) (data : connect_data) (len : Z) (s : nat)
    (sub sub1 : conn_subsys) (x : Z) (l : option Z) : Prop := {
  ac_qpair : sy_qpairs y !! q = Some qp; ac_fresh : fresh_qpair qp; ac_in : lets_in y qp data;
  ac_find : spdk_nvmf_tgt_find_subsystem (sy_subs y) (cd_subnqn data) = Some s; ac_sub : sy_subs y !! s = Some sub;
  ac_up : connect_waits (ds_state (cb_info sub)) = false; ac_fine : refusal opts (sy_subs y) qp cmd data len = None;
  ac_qid : cm_qid cmd = 0; ac_cntlid : cd_cntlid data = 0xFFFF; ac_fabrics : to_fabrics opts = true; ac_listener : listener_of sub qp = Some l;
  ac_gen : nvmf_subsystem_gen_cntlid (sy_ctrlrs y) sub = Some (sub1, x); ac_free : x <> 0xFFFF; ac_new : S (sy_next y) ∉ cb_ctrlrs sub;
  ac_req : sy_reqs y !! sy_next y = None; ac_msgs : sy_msgs y = [] }.

Lemma conn_sys_ext y y' : sy_subs y = sy_subs y' -> sy_ctrlrs y = sy_ctrlrs y' -> sy_qpairs y = sy_qpairs y' -> sy_reqs y = sy_reqs y' -> sy_next y = sy_next y' ->
  sy_msgs y = sy_msgs y' -> sy_queued y = sy_queued y' -> sy_pollers y = sy_pollers y' -> sy_fini y = sy_fini y' -> sy_sgroups y = sy_sgroups y' ->
  sy_stats y = sy_stats y' -> sy_answers y = sy_answers y' -> y = y'.
Proof. destruct y, y'. cbn. by intros -> -> -> -> -> -> -> -> -> -> -> ->. Qed.

Section Opened.
Context (hz : Z) (opts : transport_opts) (y : conn_sys) (q : nat) (qp : conn_qpair) (cmd : connect_cmd) (data : connect_data) (len : Z) (s : nat)
  (sub sub1 : conn_subsys) (x : Z) (l : option Z).
Hypothesis A : admin_connect opts y q qp cmd data len s sub sub1 x l.
Let r : nat := sy_next y.
Let c : nat := S (sy_next y).
Let k : Z * nat := (cq_thread qp, s).
Let g : conn_sgroup := sgroup_of y k.
Let rq : conn_req := ConnReq q cmd data len 1 (ConnectRsp 0 0 0 0).
Let ct : conn_ctrlr := new_ctrlr opts s sub (cq_thread qp) cmd data l.
Let qp1 : conn_qpair := qp <| cq_outstanding := [r] |> <| cq_sq_head_max := cm_sqsize cmd |> <| cq_qid := 0 |> <| cq_connect_received := true |> <| cq_ctrlr := Some c |>.

(** While the controller is being opened: its state, the queue pair's, the
    subsystem, the message and the statistics. *)
Definition opening (ct : conn_ctrlr) (sub : conn_subsys) (msgs : list (Z * conn_msg)) (st : gmap Z group_stat) : conn_sys :=
  ConnSys (<[s := sub]> (sy_subs y)) (<[c := ct]> (sy_ctrlrs y)) (<[q := qp1]> (sy_qpairs y)) (<[r := rq]> (sy_reqs y)) (S c) msgs (sy_queued y) (sy_pollers y)
    (sy_fini y) (<[k := g <| cg_mgmt := cg_mgmt g + 1 |>]> (sy_sgroups y)) st (sy_answers y).

Lemma fine_checks : (len <? 1024) = false /\ memchr0 (S SPDK_NVMF_NQN_MAX_LEN) (cd_hostnqn data) = true /\
  nvmf_qpair_access_allowed qp sub (cstr (cd_hostnqn data)) = true /\ (cm_recfmt cmd !=? 0) = false /\
  ((cm_sqsize cmd =? 0) || (to_max_aq_depth opts <=? cm_sqsize cmd)) = false.
Proof.
  pose proof (ac_fine _ _ _ _ _ _ _ _ _ _ _ _ A) as H. unfold refusal in H. destruct (len <? 1024); [done|]. rewrite (ac_find _ _ _ _ _ _ _ _ _ _ _ _ A) in H.
  rewrite (ac_sub _ _ _ _ _ _ _ _ _ _ _ _ A) in H. cbn [mbind option_bind] in H. rewrite (ac_up _ _ _ _ _ _ _ _ _ _ _ _ A), (ac_qid _ _ _ _ _ _ _ _ _ _ _ _ A) in H.
  destruct (memchr0 _ _); [|done]. destruct (nvmf_qpair_access_allowed _ _ _); [|done]. destruct (cm_recfmt cmd !=? 0); [done|]. change (0 =? 0) with true in H. cbv iota in H.
  destruct (_ || _); [done|]. done.
Qed.

Lemma open_connect (Q : unit -> conn_sys -> Prop) : (forall st, Q tt (opening ct sub [(cb_thread sub, MsgAddCtrlr r)] st)) ->
  cwp (conn_do hz opts (EvConnect q cmd data len 1 (true, true, true))) y Q.
Proof.
  intros HQ. destruct A as [Hqp (Hst & Hc & Hg & Ho) Hin Hf Hs Hup _ Hqid Hcn Hfab Hl _ _ _ Hr Hm]. destruct fine_checks as (F1 & F2 & F3 & F4 & F5). destruct (Hin s Hf) as [Ha Hmg].
  unfold conn_do. do 2 cstep. rewrite Hqp, Hg. do 4 cstep. fold r rq. unfold connect_exec, connect_check_subsystem, connect_check_qpair, connect_insert_outstanding. do 2 cstep.
  eapply (fresh_sgroup_wp _ q r qp rq); csimp; try done; [apply lookup_insert_eq|]. change (cr_data rq) with data. rewrite Hf. cbn [fmap option_fmap option_map].
  change (sgroup_of y (cq_thread qp, s)) with g in Ha, Hmg. do 2 cstep. change (sgroup_of _ _) with g. rewrite Ha. cbn [negb]. do 3 cstep. cbn [negb]. do 5 cstep. rewrite Hst. cstep. cbn [negb]. do 4 cstep. cstep. rewrite Ho. cbn [app].
  unfold connect_process, nvmf_ctrlr_cmd_connect, _nvmf_ctrlr_connect. do 4 cstep. rewrite Hc. do 2 cstep. change (cr_length rq) with len. rewrite F1. change (1 <? cr_iovcnt rq) with false. cbv iota. do 2 cstep.
  change (cr_data rq) with data. rewrite Hf. do 2 cstep. rewrite Hup, F2. cbn [negb]. do 2 cstep. change (nvmf_qpair_access_allowed _ _ _) with (nvmf_qpair_access_allowed qp sub (cstr (cd_hostnqn data))).
  rewrite F3. cbn [negb]. do 4 cstep. change (cr_data rq) with data. change (cr_cmd rq) with cmd. rewrite Hf, F4. rewrite Hqid. change (0 =? 0) with true. cbv iota. rewrite F5. change (cr_qpair rq) with q.
  unfold accept_qpair. do 5 cstep. apply cwp_bind, cwp_assert; [done|]. do 3 cstep. rewrite Hfab, Hcn. change (true && (0xFFFF !=? 0xFFFF)) with false. cbv iota.
  unfold nvmf_ctrlr_create. do 3 cstep. change (cr_qpair rq) with q. do 4 cstep. apply cwp_bind, cwp_assert; [done|]. cbn [andb negb]. fold (listener_of sub qp). rewrite Hl. do 5 cstep.
  unfold nvmf_qpair_set_ctrlr. do 2 cstep. rewrite Hc. cstep. do 5 cstep.
  match goal with |- Q tt ?Y => replace Y with (opening ct sub [(cb_thread sub, MsgAddCtrlr r)] (sy_stats Y)); [apply HQ|] end.
  apply conn_sys_ext; unfold opening; csimp; try done.
  - by apply list_insert_id.
  - by rewrite !insert_insert_eq, Hqid.
  - by rewrite Hm.
  - change (sgroup_of _ _) with g. by rewrite u64_small by lia.
Qed.

Lemma take_one t m : take_msg t [(t, m)] = Some (m, []).
Proof. cbn. by rewrite Z.eqb_refl. Qed.

(** The subsystem lists the controller under its identifier. *)
Let ct1 : conn_ctrlr := ct <| cl_cntlid := x |>.
Let sub2 : conn_subsys := sub1 <| cb_ctrlrs := cb_ctrlrs sub ++ [c] |>.

Lemma opening_lookups ct0 sub0 msgs st : sy_reqs (opening ct0 sub0 msgs st) !! r = Some rq /\ sy_qpairs (opening ct0 sub0 msgs st) !! q = Some qp1 /\
  sy_ctrlrs (opening ct0 sub0 msgs st) !! c = Some ct0 /\ sy_subs (opening ct0 sub0 msgs st) !! s = Some sub0.
Proof.
  split_and!; [apply lookup_insert_eq..|]. apply list_lookup_insert_eq. eapply lookup_lt_Some, (ac_sub _ _ _ _ _ _ _ _ _ _ _ _ A).
Qed.

Lemma open_list st now auth (Q : unit -> conn_sys -> Prop) : Q tt (opening ct1 sub2 [(cq_thread qp, MsgAddAdminQpair r)] st) ->
  cwp (conn_do hz opts (EvDeliver (cb_thread sub) now auth)) (opening ct sub [(cb_thread sub, MsgAddCtrlr r)] st) Q.
Proof.
  intros HQ. destruct (opening_lookups ct sub [] st) as (Hr & Hqp & Hc & Hs). destruct A as [_ _ _ _ Hs0 _ _ _ _ Hfab _ Hgen Hx Hnew _ _].
  assert (nvmf_subsystem_gen_cntlid (<[c := ct]> (sy_ctrlrs y)) sub = Some (sub1, x)) as Hgen' by (unfold nvmf_subsystem_gen_cntlid; by rewrite gen_loop_insert).
  unfold conn_do. do 2 cstep. cbn [opening sy_msgs]. rewrite take_one. do 2 cstep. change ((opening ct sub [(cb_thread sub, MsgAddCtrlr r)] st) <| sy_msgs := [] |>) with (opening ct sub [] st).
  cbn [run_msg]. unfold _nvmf_subsystem_add_ctrlr, nvmf_subsystem_add_ctrlr. do 2 cstep. change (cr_qpair rq) with q. do 6 cstep. change (cl_subsys ct) with s. do 5 cstep.
  change (cl_dynamic ct) with (to_fabrics opts). rewrite Hfab. apply cwp_bind. eapply cwp_need; [exact Hgen'|]. cbv beta iota.
  do 4 cstep. destruct (Z.eqb_spec x 0xFFFF) as [?|_]; [done|]. do 3 cstep. change (0 !=? 0) with false. cbv iota. cstep.
  match goal with |- Q tt ?Y => replace Y with (opening ct1 sub2 [(cq_thread qp, MsgAddAdminQpair r)] st); [done|] end.
  apply conn_sys_ext; unfold opening; csimp; try done.
  - rewrite !list_insert_insert_eq. pose proof (f_equal cb_ctrlrs (gen_loop_shape _ _ _ _ _ Hgen)) as E. cbn in E. unfold sub2. by rewrite <- E.
  - by rewrite insert_insert_eq.
Qed.

(** The admin queue pair joins: the controller is a new one of [CtrlrRegs]. *)
Definition opened_kato : Z :=
  let kato := kato_rounded (cm_kato cmd) in if spdk_nvmf_subsystem_is_discovery sub && (kato =? 0) then NVMF_DISC_KATO_IN_MS else kato.
Definition opened_cc (now : Z) : cc_ctrlr :=
  cy_ctrlr (cc_init now (to_max_queue_depth opts) opened_kato (to_association_timeout opts) (has_zns_iocs sub) (reset_ns (cb_ns sub))).
Let ct2 (now : Z) : conn_ctrlr := ct1 <| cl_admin_qpair := Some q |> <| cl_cc := opened_cc now |>.

Lemma opened_cc_eq now : (nvmf_ctrlr_start_keep_alive_timer now ((cl_cc ct) <| ck_admin_qpair := true |> <| ck_association_timeout := to_association_timeout opts |>))
  <| ck_mask := ck_mask (nvmf_ctrlr_start_keep_alive_timer now ((cl_cc ct) <| ck_admin_qpair := true |> <| ck_association_timeout := to_association_timeout opts |>)) ∪ {[0]} |> =
  opened_cc now.
Proof.
  unfold opened_cc, cc_init, opened_kato, ct, new_ctrlr, nvmf_ctrlr_start_keep_alive_timer. csimp. cbn [ck_kato cy_ctrlr].
  assert (∅ ∪ {[0]} = ({[0]} : gset Z)) as E by set_solver. destruct (_ !=? 0); csimp; by rewrite E.
Qed.

Lemma open_admin st now auth (Q : unit -> conn_sys -> Prop) : Q tt (opening (ct2 now) sub2 [(cq_thread qp, MsgConnectRsp r)] st) ->
  cwp (conn_do hz opts (EvDeliver (cq_thread qp) now auth)) (opening ct1 sub2 [(cq_thread qp, MsgAddAdminQpair r)] st) Q.
Proof.
  intros HQ. destruct (opening_lookups ct1 sub2 [] st) as (Hr & Hqp & Hc & Hs). destruct (ac_fresh _ _ _ _ _ _ _ _ _ _ _ _ A) as (_ & _ & Hg & _).
  unfold conn_do. do 2 cstep. cbn [opening sy_msgs]. rewrite take_one. do 2 cstep.
  change ((opening ct1 sub2 [(cq_thread qp, MsgAddAdminQpair r)] st) <| sy_msgs := [] |>) with (opening ct1 sub2 [] st).
  cbn [run_msg]. unfold _nvmf_ctrlr_add_admin_qpair, nvmf_ctrlr_add_qpair. do 2 cstep. change (cr_qpair rq) with q. do 6 cstep. do 4 cstep. apply cwp_bind, cwp_assert; [unfold qp1; csimp; by rewrite Hg, Z.eqb_refl|]. do 2 cstep.
  rewrite bool_decide_eq_false_2 by (unfold nvmf_ctrlr_start_keep_alive_timer; destruct (_ !=? 0); set_solver).
  unfold nvmf_qpair_set_ctrlr. do 3 cstep. apply cwp_assert; [by apply bool_decide_eq_true|]. do 2 cstep. apply cwp_bind, cwp_assert; [done|]. cstep.
  match goal with |- Q tt ?Y => replace Y with (opening (ct2 now) sub2 [(cq_thread qp, MsgConnectRsp r)] st); [done|] end.
  apply conn_sys_ext; unfold opening; csimp; try done. rewrite !insert_insert_eq. unfold ct2. by rewrite <- opened_cc_eq.
Qed.

(** The host is told, and the queue pair is enabled or has to authenticate. *)
Definition opened_auth : bool := nvmf_subsystem_host_auth_required sub (cstr (take SPDK_NVMF_NQN_MAX_LEN (cd_hostnqn data))).
Definition opened_state : spdk_nvmf_qpair_state := if opened_auth then SPDK_NVMF_QPAIR_AUTHENTICATING else SPDK_NVMF_QPAIR_ENABLED.
Definition opened_qpair : conn_qpair :=
  qp <| cq_state := opened_state |> <| cq_sq_head_max := cm_sqsize cmd |> <| cq_qid := 0 |> <| cq_ctrlr := Some c |> <| cq_connect_received := true |>.

Let answering (now : Z) (state : spdk_nvmf_qpair_state) (p : connect_rsp) (st : gmap Z group_stat) : conn_sys :=
  ConnSys (<[s := sub2]> (sy_subs y)) (<[c := ct2 now]> (sy_ctrlrs y)) (<[q := qp1 <| cq_state := state |>]> (sy_qpairs y)) (<[r := rq <| cr_rsp := p |>]> (sy_reqs y))
    (S c) [] (sy_queued y) (sy_pollers y) (sy_fini y) (<[k := g <| cg_mgmt := cg_mgmt g + 1 |>]> (sy_sgroups y)) st (sy_answers y).
Let opened (now : Z) (state : spdk_nvmf_qpair_state) (p : connect_rsp) (sg : gmap (Z * nat) conn_sgroup) (st : gmap Z group_stat) : conn_sys :=
  ConnSys (<[s := sub2]> (sy_subs y)) (<[c := ct2 now]> (sy_ctrlrs y)) (<[q := (opened_qpair <| cq_state := state |>)]> (sy_qpairs y)) (sy_reqs y) (S c) []
    (sy_queued y) (sy_pollers y) (sy_fini y) sg st (sy_answers y ++ [(r, p)]).

Lemma open_complete now state p st (Q : unit -> conn_sys -> Prop) :
  (forall sg, (forall k', default (ConnSgroup true 0) (sg !! k') = sgroup_of y k') -> Q tt (opened now state p sg st)) -> cwp (connect_request_complete (cq_thread qp) r) (answering now state p st) Q.
Proof.
  intros HQ. destruct A as [_ (_ & _ & Hg & Hout) Hin Hf _ _ _ _ _ _ _ _ _ _ Hr _]. destruct (Hin s Hf) as [_ Hm]. change (sgroup_of y (cq_thread qp, s)) with g in Hm.
  assert (sy_reqs (answering now state p st) !! r = Some (rq <| cr_rsp := p |>)) as Hrq by apply lookup_insert_eq.
  assert (sy_qpairs (answering now state p st) !! q = Some (qp1 <| cq_state := state |>)) as Hqp by apply lookup_insert_eq.
  assert (sy_ctrlrs (answering now state p st) !! c = Some (ct2 now)) as Hct by apply lookup_insert_eq.
  unfold connect_request_complete. do 2 cstep. change (cr_qpair rq) with q. do 2 cstep. apply cwp_bind, cwp_assert; [done|]. change (cq_thread qp1) with (cq_thread qp). rewrite Z.eqb_refl.
  unfold connect_complete, connect_sgroup, connect_remove_outstanding. do 3 cstep. change (cr_qpair rq) with q. do 2 cstep. change (cq_ctrlr qp1) with (Some c). cbv iota.
  do 2 cstep. apply cwp_bind, cwp_assert; [done|]. do 4 cstep. change (cr_qpair rq) with q. do 2 cstep. apply cwp_bind, cwp_assert; [by apply bool_decide_eq_true, list_elem_of_singleton|].
  do 7 cstep. change (cq_thread qp1, cl_subsys (ct2 now)) with k. apply cwp_bind, cwp_assert.
  { unfold sgroup_of, answering. csimp. rewrite lookup_insert_eq. cbn [default from_option id]. csimp. apply Z.ltb_lt. lia. }
  cstep. match goal with |- Q tt ?Y => replace Y with (opened now state p (sy_sgroups Y) st) end.
  - apply HQ. intros k'. unfold sgroup_of, answering. csimp. rewrite lookup_insert_eq, insert_insert_eq. destruct (decide (k = k')) as [<-|Hne]; [|by rewrite lookup_insert_ne].
    rewrite lookup_insert_eq. cbn [default from_option id]. csimp. rewrite u64_small, Z.add_simpl_r by lia. change (default _ _) with g. by destruct g.
  - apply conn_sys_ext; unfold opened, answering; csimp; try done.
    + rewrite insert_insert_eq. f_equal. change (cq_outstanding qp1) with [r]. rewrite filter_self. unfold opened_qpair, qp1. destruct qp. cbn in Hout. by subst.
    + by rewrite delete_insert_id.
Qed.

Lemma open_answer st now' now (Q : unit -> conn_sys -> Prop) :
  (forall sg, (forall k', default (ConnSgroup true 0) (sg !! k') = sgroup_of y k') ->
    Q tt (opened now opened_state (ConnectRsp SPDK_NVME_SCT_GENERIC SPDK_NVME_SC_SUCCESS x (if opened_auth then 2 else 0)) sg st)) ->
  cwp (conn_do hz opts (EvDeliver (cq_thread qp) now' true)) (opening (ct2 now) sub2 [(cq_thread qp, MsgConnectRsp r)] st) Q.
Proof.
  intros HQ. destruct (opening_lookups (ct2 now) sub2 [] st) as (Hr & Hqp & Hc & Hs). destruct (ac_fresh _ _ _ _ _ _ _ _ _ _ _ _ A) as (Hst & _ & Hg & _).
  unfold conn_do. do 2 cstep. cbn [opening sy_msgs]. rewrite take_one. do 2 cstep.
  change ((opening (ct2 now) sub2 [(cq_thread qp, MsgConnectRsp r)] st) <| sy_msgs := [] |>) with (opening (ct2 now) sub2 [] st).
  cbn [run_msg]. unfold nvmf_ctrlr_send_connect_rsp. do 2 cstep. change (cr_qpair rq) with q. do 6 cstep. change (cq_state qp1) with (cq_state qp). rewrite Hst.
  change (cl_subsys (ct2 now)) with s. do 2 cstep. assert (nvmf_subsystem_host_auth_required sub2 (cl_hostnqn (ct2 now)) = opened_auth) as ->.
  { unfold opened_auth. pose proof (gen_loop_shape _ _ _ _ _ (ac_gen _ _ _ _ _ _ _ _ _ _ _ _ A)) as E. unfold sub2. rewrite E. done. }
  unfold opened_state in HQ. destruct opened_auth; cbn [negb]; do 2 cstep; [do 2 cstep|]; (apply cwp_bind, cwp_assert; [unfold qp1; csimp; by rewrite Hg, Z.eqb_refl|]); do 2 cstep.
  - match goal with |- cwp _ ?Y _ => replace Y with (answering now SPDK_NVMF_QPAIR_AUTHENTICATING (ConnectRsp SPDK_NVME_SCT_GENERIC SPDK_NVME_SC_SUCCESS x 2) st); [by apply open_complete|] end.
    apply conn_sys_ext; unfold opening, answering; csimp; try done; by rewrite !insert_insert_eq.
  - match goal with |- cwp _ ?Y _ => replace Y with (answering now SPDK_NVMF_QPAIR_ENABLED (ConnectRsp SPDK_NVME_SCT_GENERIC SPDK_NVME_SC_SUCCESS x 0) st); [by apply open_complete|] end.
    apply conn_sys_ext; unfold opening, answering; csimp; try done; by rewrite !insert_insert_eq.
Qed.
End Opened.

Lemma run_ex hz opts e es y (P : conn_sys -> Prop) : cwp (conn_do hz opts e) y (fun _ y1 => exists y', conn_run hz opts es y1 = Some y' /\ P y') ->
  exists y', conn_run hz opts (e :: es) y = Some y' /\ P y'.
Proof. unfold cwp, conn_run, conn_step. destruct (conn_do hz opts e y) as [[[] y1]|]; done. Qed.

(** C10. A Connect command for a new controller with nothing wrong opens it: when
    the threads of the subsystem, of the controller and of the queue pair have
    run their messages, the host has one successful answer with the identifier
    given out (and the request to authenticate where the host has a key); the
    subsystem lists the controller last; the controller is exactly a new
    controller of the register machine, belongs to the host and shows it the
    namespaces that are visible to all or to it; the queue pair is enabled, or
    authenticating, with the queue size asked for; and nothing is left under
    way: requests, messages and counters are as before. *)
Theorem admin_connect_opens_controller (hz : Z) (opts : transport_opts) (y : conn_sys) (q : nat) (qp : conn_qpair) (cmd : connect_cmd) (data : connect_data) (len : Z)
    (s : nat) (sub sub1 : conn_subsys) (x : Z) (l : option Z) (now1 now now2 : Z) (auth1 auth2 : bool)
    (A : admin_connect opts y q qp cmd data len s sub sub1 x l) :
  let r := sy_next y in let c := S r in let hostnqn := cstr (take SPDK_NVMF_NQN_MAX_LEN (cd_hostnqn data)) in
  exists y', conn_run hz opts [EvConnect q cmd data len 1 (true, true, true); EvDeliver (cb_thread sub) now1 auth1; EvDeliver (cq_thread qp) now auth2;
      EvDeliver (cq_thread qp) now2 true] y = Some y' /\
    sy_answers y' = sy_answers y ++ [(r, ConnectRsp SPDK_NVME_SCT_GENERIC SPDK_NVME_SC_SUCCESS x (if opened_auth data sub then 2 else 0))] /\
    sy_qpairs y' = <[q := qp <| cq_state := opened_state data sub |> <| cq_sq_head_max := cm_sqsize cmd |> <| cq_qid := 0 |> <| cq_ctrlr := Some c |>
      <| cq_connect_received := true |>]> (sy_qpairs y) /\
    sy_subs y' = <[s := sub1 <| cb_ctrlrs := cb_ctrlrs sub ++ [c] |>]> (sy_subs y) /\
    (exists ct, sy_ctrlrs y' = <[c := ct]> (sy_ctrlrs y) /\ cl_cc ct = opened_cc opts cmd sub now /\ cl_cntlid ct = x /\ cl_subsys ct = s /\ cl_thread ct = cq_thread qp /\
      cl_admin_qpair ct = Some q /\ cl_hostid ct = cd_hostid data /\ cl_hostnqn ct = hostnqn /\ cl_listener ct = l /\
      forall i, cl_visible_ns ct !! i = ns_visible_to hostnqn <$> cb_ns sub !! i) /\
    sy_reqs y' = sy_reqs y /\ sy_msgs y' = [] /\ sy_queued y' = sy_queued y /\ sy_pollers y' = sy_pollers y /\ sy_fini y' = sy_fini y /\
    forall k, sgroup_of y' k = sgroup_of y k.
Proof.
  cbv zeta. apply run_ex. eapply open_connect; [exact A|]. intros st. apply run_ex. eapply open_list; [exact A|]. apply run_ex. eapply open_admin; [exact A|].
  apply run_ex. eapply open_answer; [exact A|]. intros sg Hsg. eexists. split; [done|]. csimp. split_and!; try done.
  eexists. split; [done|]. split_and!; try done. intros i. csimp. unfold new_ctrlr, nvmf_ctrlr_init_visible_ns. csimp. by rewrite list_lookup_fmap.
Qed.

Lemma admin_connect_opens_controller_witness : exists y', conn_run 1000 demo_opts [EvConnect 0 (ConnectCmd 0 0 31 0) (demo_connect 0xFFFF) 1024 1 all_mem;
    EvDeliver 9 0 true; EvDeliver 1 5 true; EvDeliver 1 7 true] demo_sys = Some y' /\ sy_answers y' = [(1%nat, ConnectRsp 0 0 1 0)].
Proof.
  assert (admin_connect demo_opts demo_sys 0 demo_qpair (ConnectCmd 0 0 31 0) (demo_connect 0xFFFF) 1024 0 demo_subsys (demo_subsys <| cb_next_cntlid := 1 |>) 1 (Some 1)) as A.
  { constructor; try (vm_compute; reflexivity); try apply demo_lets_in; try done. apply not_elem_of_nil. }
  destruct (admin_connect_opens_controller 1000 demo_opts demo_sys 0 demo_qpair (ConnectCmd 0 0 31 0) (demo_connect 0xFFFF) 1024 0 demo_subsys
    (demo_subsys <| cb_next_cntlid := 1 |>) 1 (Some 1) 0 5 7 true true A) as (y' & E & Ha & _).
  exists y'. split; [exact E|exact Ha].
Defined.
