(* ===== verification/ConnectTally.v ===== *)
(** * The statistics of a poll group, where controllers are destroyed, and
      what becomes of a request

    A poll group counts its admin and its I/O queue pairs, and asserts that the
    count is positive when one of them goes.  [tally] says that the counts
    suffice; [addressed] that the destruction of a controller is asked for on
    the thread of its subsystem; [minds] that no Connect request is lost.  All
    handlers but a few leave alone what these depend on. *)
From S2P Require Import Prelude NvmeSpec Iov World CtrlrRegs AsyncEvents Discovery Connect ConnectInv ConnectLife ConnectEnd ConnectFun.

(** ** The counts *)

(** The queue pairs of the group of thread [t] that are counted as admin queue
    pairs, or as I/O queue pairs. *)
Definition enrolled (t n : Z) (qp : conn_qpair) : Prop :=
  cq_group qp = true /\ cq_connect_received qp = true /\ cq_thread qp = t /\ (cq_qid qp =? 0) = (n =? 0).
#[global] Instance enrolled_dec t n qp : Decision (enrolled t n qp).
Proof. unfold enrolled. apply _. Defined.
Definition members (m : gmap nat conn_qpair) (t n : Z) : gset nat := dom (filter (fun p => enrolled t n p.2) m).
Definition tally (y : conn_sys) : Prop := forall t n, Z.of_nat (size (members (sy_qpairs y) t n)) <= current_qpairs n (stat_of y t).

(** The counts can be raised. *)
Definition low_stat (g : group_stat) : bool :=
  (0 <=? gs_current_admin g) && (gs_current_admin g <? 2 ^ 32 - 1) && (0 <=? gs_current_io g) && (gs_current_io g <? 2 ^ 32 - 1).
Definition low (y : conn_sys) : Prop := forall t, low_stat (stat_of y t) = true.

Lemma elem_of_members m t n q : q ∈ members m t n <-> exists qp, m !! q = Some qp /\ enrolled t n qp.
Proof. unfold members. rewrite elem_of_dom. unfold is_Some. by setoid_rewrite map_lookup_filter_Some. Qed.

(** What does not concern the counts and the destruction of controllers. *)
Definition badge (qp : conn_qpair) : bool * Z * bool * Z := (cq_group qp, cq_thread qp, cq_connect_received qp, cq_qid qp).
Lemma badge_enrolled t n qp qp' : badge qp' = badge qp -> enrolled t n qp' -> enrolled t n qp.
Proof. unfold badge, enrolled. by intros [= -> -> -> ->]. Qed.

Record steady (y y' : conn_sys) : Prop := {
  sd_next : (sy_next y <= sy_next y')%nat;
  sd_ctrlr c ct' : sy_ctrlrs y' !! c = Some ct' -> (exists ct, sy_ctrlrs y !! c = Some ct /\ cl_subsys ct' = cl_subsys ct) \/ (sy_next y <= c)%nat;
  sd_sub s sub' : sy_subs y' !! s = Some sub' -> exists sub, sy_subs y !! s = Some sub /\ cb_thread sub' = cb_thread sub;
  sd_msg t c : (t, MsgDestruct c) ∈ sy_msgs y' -> (t, MsgDestruct c) ∈ sy_msgs y }.
Record still (y y' : conn_sys) : Prop := {
  cm_steady : steady y y';
  cm_stats : sy_stats y' = sy_stats y;
  cm_qpair q qp' : sy_qpairs y' !! q = Some qp' -> exists qp, sy_qpairs y !! q = Some qp /\ badge qp' = badge qp }.

(** A queue pair that is gone, or has left its poll group; a request of queue
    pair [q] that is there, is answered, or has gone with the queue pair. *)
Definition left_group (y : conn_sys) (q : nat) : Prop := forall qp, sy_qpairs y !! q = Some qp -> cq_group qp = false.
Definition cared (y : conn_sys) (r q : nat) : Prop :=
  (exists rq, sy_reqs y !! r = Some rq /\ cr_qpair rq = q) \/ r ∈ (sy_answers y).*1 \/ left_group y q.
Definition minds (y y' : conn_sys) : Prop :=
  (sy_next y <= sy_next y')%nat /\ forall r q, (r < sy_next y)%nat -> (q < sy_next y)%nat -> cared y r q -> cared y' r q.

Record calm (y y' : conn_sys) : Prop := { cm_still : still y y'; cm_minds : minds y y' }.
Record fair (y y' : conn_sys) : Prop := {
  fr_steady : steady y y';
  fr_tally : tally y -> low y -> tally y';
  fr_minds : minds y y' }.

#[global] Instance steady_preorder : PreOrder steady.
Proof.
  split; [by intros y; constructor; eauto|]. intros y1 y2 y3 [a1 a2 a3 a4] [b1 b2 b3 b4]. constructor; [lia| | |auto].
  - intros c ct3 H. destruct (b2 c ct3 H) as [(ct2 & H2 & E2)|Hle]; [|right; lia]. destruct (a2 c ct2 H2) as [(ct1 & H1 & E1)|Hle]; [|by right].
    left. exists ct1. split; [done|congruence].
  - intros s sub3 H. destruct (b3 s sub3 H) as (sub2 & H2 & E2). destruct (a3 s sub2 H2) as (sub1 & H1 & E1). exists sub1. split; [done|congruence].
Qed.
#[global] Instance still_preorder : PreOrder still.
Proof.
  split; [by intros y; constructor; [done|done|eauto]|]. intros y1 y2 y3 [a1 a2 a3] [b1 b2 b3]. constructor; [by etrans|congruence|].
  intros q qp3 H. destruct (b3 q qp3 H) as (qp2 & H2 & E2). destruct (a3 q qp2 H2) as (qp1 & H1 & E1). exists qp1. split; [done|congruence].
Qed.

#[global] Instance minds_preorder : PreOrder minds.
Proof.
  split; [by split|]. intros y1 y2 y3 [a1 a2] [b1 b2]. split; [lia|]. intros r q Hr Hq H. apply b2; [lia..|]. by apply a2.
Qed.
#[global] Instance calm_preorder : PreOrder calm.
Proof. split; [by intros y; constructor|]. intros y1 y2 y3 [] []. constructor; by etrans. Qed.

Lemma still_tally y y' : still y y' -> tally y -> tally y'.
Proof.
  intros [_ Es Hq] T t n. unfold stat_of. rewrite Es. etrans; [|apply T]. apply inj_le, subseteq_size. intros q. rewrite !elem_of_members.
  intros (qp' & H & E). destruct (Hq q qp' H) as (qp & H0 & Eb). exists qp. split; [done|by eapply badge_enrolled].
Qed.
Lemma calm_steady y y' : calm y y' -> steady y y'.
Proof. intros [[S _ _] _]. exact S. Qed.
Lemma calm_tally y y' : calm y y' -> tally y -> tally y'.
Proof. intros [S _]. by apply still_tally. Qed.
Lemma calm_low y y' : calm y y' -> low y -> low y'.
Proof. intros [[_ Es _] _] L t. unfold stat_of. rewrite Es. apply L. Qed.
Lemma calm_fair y y' : calm y y' -> fair y y'.
Proof. intros C. constructor; [by apply calm_steady| |apply C]. intros T _. by eapply calm_tally. Qed.
Lemma calm_then_fair y1 y2 y3 : calm y1 y2 -> fair y2 y3 -> fair y1 y3.
Proof.
  intros C [S T M]. constructor; [etrans; [by apply calm_steady|done]| |etrans; [apply C|done]].
  intros T1 L1. apply T; [by eapply calm_tally|by eapply calm_low].
Qed.
Lemma fair_then_calm y1 y2 y3 : fair y1 y2 -> calm y2 y3 -> fair y1 y3.
Proof.
  intros [S T M] C. constructor; [etrans; [done|by apply calm_steady]| |etrans; [done|apply C]]. intros T1 L1. eapply calm_tally; [done|by apply T].
Qed.

(** ** Handlers that leave them alone *)

Definition calmly {A} (m : CM A) : Prop := forall y a y', m y = Some (a, y') -> calm y y'.
Definition fairly {A} (m : CM A) : Prop := forall y a y', m y = Some (a, y') -> fair y y'.

Lemma bind_some {A B} (m : CM B) (k : B -> CM A) y a y' : (m ≫= k) y = Some (a, y') -> exists b y1, m y = Some (b, y1) /\ k b y1 = Some (a, y').
Proof. unfold mbind, CM_bind. destruct (m y) as [[b y1]|]; [|done]. intros H. by exists b, y1. Qed.

Section Calmly.
Context {A B : Type}.
Lemma calmly_bind (m : CM B) (k : B -> CM A) : calmly m -> (forall b, calmly (k b)) -> calmly (m ≫= k).
Proof. intros Hm Hk y a y' (b & y1 & E1 & E2)%bind_some. etrans; [by eapply Hm|by eapply Hk]. Qed.
Lemma calmly_ret (a : A) : calmly (mret a : CM A).
Proof. by intros y a' y' [= <- <-]. Qed.
Lemma calmly_need (f : conn_sys -> option A) : calmly (c_need f).
Proof. intros y a y'. unfold c_need. destruct (f y); [|done]. by intros [= <- <-]. Qed.
Lemma calmly_get (f : conn_sys -> A) : calmly (c_get f).
Proof. by intros y a y' [= <- <-]. Qed.
Lemma calmly_assert b : calmly (c_assert b).
Proof. intros y a y'. unfold c_assert. destruct b; [|done]. by intros [= <- <-]. Qed.
Lemma calmly_mod f : (forall y, calm y (f y)) -> calmly (c_mod f).
Proof. intros H y a y' [= <- <-]. apply H. Qed.
Lemma fairly_calm (m : CM A) : calmly m -> fairly m.
Proof. intros H y a y' E. by eapply calm_fair, H. Qed.
Lemma fairly_after (m : CM B) (k : B -> CM A) : calmly m -> (forall b, fairly (k b)) -> fairly (m ≫= k).
Proof. intros Hm Hk y a y' (b & y1 & E1 & E2)%bind_some. eapply calm_then_fair; [by eapply Hm|by eapply Hk]. Qed.
Lemma fairly_before (m : CM B) (k : B -> CM A) : fairly m -> (forall b, calmly (k b)) -> fairly (m ≫= k).
Proof. intros Hm Hk y a y' (b & y1 & E1 & E2)%bind_some. eapply fair_then_calm; [by eapply Hm|by eapply Hk]. Qed.
End Calmly.

Lemma still_frame y y' : sy_next y' = sy_next y -> sy_ctrlrs y' = sy_ctrlrs y -> sy_subs y' = sy_subs y -> sy_stats y' = sy_stats y -> sy_qpairs y' = sy_qpairs y ->
  (forall t c, (t, MsgDestruct c) ∈ sy_msgs y' -> (t, MsgDestruct c) ∈ sy_msgs y) -> still y y'.
Proof. intros E1 E2 E3 E4 E5 H. constructor; [constructor|done|]; rewrite ?E1, ?E2, ?E3, ?E5; eauto. Qed.

(** Requests that stay or are answered, and queue pairs that stay in their
    group, leave it or go. *)
Lemma minds_frame y y' : (sy_next y <= sy_next y')%nat ->
  (forall r rq, (r < sy_next y)%nat -> sy_reqs y !! r = Some rq -> (exists rq', sy_reqs y' !! r = Some rq' /\ cr_qpair rq' = cr_qpair rq) \/ r ∈ (sy_answers y').*1) ->
  (forall r, r ∈ (sy_answers y).*1 -> r ∈ (sy_answers y').*1) ->
  (forall q qp', (q < sy_next y)%nat -> sy_qpairs y' !! q = Some qp' -> exists qp, sy_qpairs y !! q = Some qp /\ (cq_group qp = false -> cq_group qp' = false)) -> minds y y'.
Proof.
  intros Hn H1 H2 H3. split; [done|]. intros r q Hr Hq [(rq & E & <-)|[Ha|Hl]].
  - destruct (H1 r rq Hr E) as [?|?]; [by left|by right; left].
  - right. left. by apply H2.
  - right. right. intros qp' E'. destruct (H3 q qp' Hq E') as (qp & E & Hg). by apply Hg, Hl.
Qed.

Lemma minds_same y y' : sy_next y' = sy_next y -> sy_reqs y' = sy_reqs y -> sy_answers y' = sy_answers y -> sy_qpairs y' = sy_qpairs y -> minds y y'.
Proof. intros E1 E2 E3 E4. apply minds_frame; rewrite ?E1, ?E2, ?E3, ?E4; [done|eauto..]. Qed.

Lemma calm_frame y y' : sy_next y' = sy_next y -> sy_ctrlrs y' = sy_ctrlrs y -> sy_subs y' = sy_subs y -> sy_stats y' = sy_stats y -> sy_qpairs y' = sy_qpairs y ->
  (forall t c, (t, MsgDestruct c) ∈ sy_msgs y' -> (t, MsgDestruct c) ∈ sy_msgs y) -> sy_reqs y' = sy_reqs y -> sy_answers y' = sy_answers y -> calm y y'.
Proof. intros. constructor; [by apply still_frame|by apply minds_same]. Qed.

(** A request is answered. *)
Lemma calm_answer y rid rsp : calm y (y <| sy_answers := sy_answers y ++ [(rid, rsp)] |> <| sy_reqs := delete rid (sy_reqs y) |>).
Proof.
  constructor; [by apply still_frame|]. apply minds_frame; csimp; [done| | |eauto].
  - intros r rq _ E. destruct (decide (rid = r)) as [->|Hne]; [right; rewrite fmap_app; set_solver|left; exists rq; by rewrite lookup_delete_ne].
  - intros r Hr. rewrite fmap_app. set_solver.
Qed.

Lemma calm_drop_ctrlr y c : calm y (y <| sy_ctrlrs := delete c (sy_ctrlrs y) |>).
Proof. constructor; [|by apply minds_same]. constructor; csimp; [constructor; csimp; eauto|done|eauto]. intros c0 ct0 [_ H]%lookup_delete_Some; eauto. Qed.
Lemma calm_drop_qpair y q : calm y (y <| sy_qpairs := delete q (sy_qpairs y) |>).
Proof.
  constructor; [constructor; csimp; [constructor; csimp; eauto|done|]|apply minds_frame; csimp; [done|eauto|done|]].
  - intros q0 qp0 [_ H]%lookup_delete_Some; eauto.
  - intros q0 qp0 _ [_ H]%lookup_delete_Some; eauto.
Qed.

Lemma calmly_mod_req rid f : (forall rq, cr_qpair (f rq) = cr_qpair rq) -> calmly (mod_conn_req rid f).
Proof.
  intros Hf y a y' (rq & y1 & E1 & E2)%bind_some. unfold c_req, c_need in E1. destruct (sy_reqs y !! rid) as [x|] eqn:Hr; [|done]. injection E1 as <- <-. injection E2 as <- <-.
  constructor; [by apply still_frame|]. apply minds_frame; csimp; [done| |done|eauto]. intros r rq _ E. left.
  destruct (decide (rid = r)) as [->|Hne]; [rewrite lookup_insert_eq; simplify_eq; eauto|rewrite lookup_insert_ne by done; eauto].
Qed.
Lemma calmly_mod_sgroup k f : calmly (mod_conn_sgroup k f).
Proof. apply calmly_mod. intros y. by apply calm_frame. Qed.
Lemma calmly_send t m : (forall c, m <> MsgDestruct c) -> calmly (send_msg t m).
Proof. intros H. apply calmly_mod. intros y. apply calm_frame; try done. csimp. intros t' c [?|[= _ E]%list_elem_of_singleton]%elem_of_app; [done|by destruct (H c)]. Qed.
Lemma calmly_mod_qpair q f : (forall qp, badge (f qp) = badge qp) -> calmly (mod_conn_qpair q f).
Proof.
  intros Hf y a y' (qp & y1 & E1 & E2)%bind_some. unfold c_qpair, c_need in E1. destruct (sy_qpairs y !! q) as [x|] eqn:Hq; [|done]. injection E1 as <- <-. injection E2 as <- <-.
  constructor; [constructor; csimp; [constructor; csimp; eauto|done|]|apply minds_frame; csimp; [done|eauto|done|]].
  - intros q0 qp0 [[<- <-]|[_ H]]%lookup_insert_Some; eauto.
  - intros q0 qp0 _ [[<- <-]|[_ H]]%lookup_insert_Some; [|eauto]. exists x. split; [done|]. specialize (Hf x). unfold badge in Hf. congruence.
Qed.
Lemma calmly_mod_ctrlr c f : (forall ct, cl_subsys (f ct) = cl_subsys ct) -> calmly (mod_conn_ctrlr c f).
Proof.
  intros Hf y a y' (ct & y1 & E1 & E2)%bind_some. unfold c_ctrlr, c_need in E1. destruct (sy_ctrlrs y !! c) as [x|] eqn:Hc; [|done]. injection E1 as <- <-. injection E2 as <- <-.
  constructor; [|by apply minds_same]. constructor; csimp; [constructor; csimp; eauto|done|eauto]. intros c0 ct0 [[<- <-]|[_ H]]%lookup_insert_Some; eauto.
Qed.
(** The new value is that of a subsystem read before. *)
Lemma calm_sub y s sub sub' : sy_subs y !! s = Some sub -> cb_thread sub' = cb_thread sub -> calm y (y <| sy_subs := <[s := sub']> (sy_subs y) |>).
Proof.
  intros Hs E. constructor; [|by apply minds_same]. constructor; csimp; [constructor; csimp; eauto|done|eauto].
  intros s0 sub0 [(<- & <- & _)|[_ H]]%list_lookup_insert_Some; eauto.
Qed.
Lemma calmly_mod_sub s f : (forall sub, cb_thread (f sub) = cb_thread sub) -> calmly (mod_conn_sub s f).
Proof.
  intros Hf y a y' (sub & y1 & E1 & E2)%bind_some. unfold c_sub, c_need in E1. destruct (sy_subs y !! s) as [x|] eqn:Hs; [|done]. injection E1 as <- <-. injection E2 as <- <-.
  by eapply calm_sub.
Qed.

Create HintDb calm discriminated.
#[export] Hint Resolve calmly_ret calmly_need calmly_get calmly_assert calmly_mod_sgroup : calm.
#[export] Hint Extern 0 (calmly (mod_conn_req _ _)) => (by apply calmly_mod_req) : calm.
#[export] Hint Extern 0 (calmly (send_msg _ _)) => (by apply calmly_send) : calm.
#[export] Hint Extern 0 (calmly (mod_conn_qpair _ _)) => (by apply calmly_mod_qpair) : calm.
#[export] Hint Extern 0 (calmly (mod_conn_ctrlr _ _)) => (by apply calmly_mod_ctrlr) : calm.
#[export] Hint Extern 0 (calmly (mod_conn_sub _ _)) => (by apply calmly_mod_sub) : calm.
#[export] Hint Extern 0 (calmly (c_mod _)) => (apply calmly_mod; intros; first [by apply calm_frame | by apply calm_answer | by apply calm_drop_ctrlr | by apply calm_drop_qpair]) : calm.

(** Handlers are sequences of steps and choices between them. *)
Ltac calms :=
  repeat (cbv zeta;
    lazymatch goal with
    | |- calmly (mbind _ _) => apply calmly_bind; [|intros ?]
    | |- calmly (match ?x with _ => _ end) => destruct x
    | |- calmly _ => solve [auto 1 with calm nocore | unfold c_req, c_qpair, c_ctrlr, c_sub, set_qpair_ctrlr; auto 1 with calm nocore
                            | unfold set_connect_status, set_connect_sc, SPDK_NVMF_INVALID_CONNECT_CMD, SPDK_NVMF_INVALID_CONNECT_DATA, nvmf_invalid_connect_response;
                              by apply calmly_mod_req]
    end).

Implicit Types (cur : Z) (rid q c : nat).

Lemma calmly_connect_sgroup rid : calmly (connect_sgroup rid).
Proof. unfold connect_sgroup, nvmf_subsystem_pg_from_connect_cmd. calms. Qed.
Lemma calmly_remove_outstanding rid : calmly (connect_remove_outstanding rid).
Proof. unfold connect_remove_outstanding. calms. Qed.
Lemma calmly_insert_outstanding rid : calmly (connect_insert_outstanding rid).
Proof. unfold connect_insert_outstanding. calms. Qed.
#[export] Hint Resolve calmly_connect_sgroup calmly_remove_outstanding calmly_insert_outstanding : calm.
Lemma calmly_complete rid : calmly (connect_complete rid).
Proof. unfold connect_complete. calms. Qed.
#[export] Hint Resolve calmly_complete : calm.
Lemma calmly_request_complete cur rid : calmly (connect_request_complete cur rid).
Proof. unfold connect_request_complete. calms. Qed.
#[export] Hint Resolve calmly_request_complete : calm.
Lemma calmly_check_subsystem rid : calmly (connect_check_subsystem rid).
Proof. unfold connect_check_subsystem. calms. Qed.
Lemma calmly_check_qpair rid : calmly (connect_check_qpair rid).
Proof. unfold connect_check_qpair. calms. Qed.
Lemma calmly_set_ctrlr q c : calmly (nvmf_qpair_set_ctrlr q c).
Proof. unfold nvmf_qpair_set_ctrlr. calms. Qed.
Lemma calmly_refuse_qpair cur q rid sc : calmly (refuse_qpair cur q rid sc).
Proof. unfold refuse_qpair. calms. Qed.
#[export] Hint Resolve calmly_check_subsystem calmly_check_qpair calmly_set_ctrlr calmly_refuse_qpair : calm.
Lemma calmly_add_qpair cur q c rid : calmly (nvmf_ctrlr_add_qpair cur q c rid).
Proof. unfold nvmf_ctrlr_add_qpair. calms. Qed.
#[export] Hint Resolve calmly_add_qpair : calm.
Lemma calmly_retry cur q : calmly (_retry_qid_check cur q).
Proof. unfold _retry_qid_check. calms. Qed.
Lemma calmly_add_admin opts cur now rid : calmly (_nvmf_ctrlr_add_admin_qpair opts cur now rid).
Proof. unfold _nvmf_ctrlr_add_admin_qpair. calms. Qed.
Lemma calmly_admin_thread ct : calmly (admin_thread ct).
Proof. unfold admin_thread. calms. Qed.
#[export] Hint Resolve calmly_admin_thread : calm.
Lemma calmly_ctrlr_add_io cur rid : calmly (nvmf_ctrlr_add_io_qpair cur rid).
Proof. unfold nvmf_ctrlr_add_io_qpair, refuse_io_qid, refuse_io. calms. Qed.
Lemma calmly_add_io cur rid : calmly (_nvmf_ctrlr_add_io_qpair cur rid).
Proof. unfold _nvmf_ctrlr_add_io_qpair, refuse_io_qid, refuse_io. calms. Qed.
Lemma calmly_disconnect q : calmly (spdk_nvmf_qpair_disconnect q).
Proof. unfold spdk_nvmf_qpair_disconnect. calms. Qed.
#[export] Hint Resolve calmly_disconnect : calm.
Lemma calmly_send_rsp auth cur rid : calmly (nvmf_ctrlr_send_connect_rsp auth cur rid).
Proof. unfold nvmf_ctrlr_send_connect_rsp. calms. Qed.
Lemma calmly_remove_ctrlr cur s c : calmly (nvmf_subsystem_remove_ctrlr cur s c).
Proof. unfold nvmf_subsystem_remove_ctrlr. calms. Qed.
#[export] Hint Resolve calmly_remove_ctrlr : calm.
Lemma calmly_destruct cur c : calmly (nvmf_ctrlr_destruct cur c).
Proof. unfold nvmf_ctrlr_destruct. calms. Qed.
Lemma calmly_free cur c : calmly (_nvmf_ctrlr_destruct cur c).
Proof. unfold _nvmf_ctrlr_destruct. calms. Qed.
Lemma calmly_fini q oc qid : calmly (_nvmf_transport_qpair_fini_complete q oc qid).
Proof. unfold _nvmf_transport_qpair_fini_complete. calms. Qed.
Lemma calmly_registers c f : calmly (on_registers c f).
Proof.
  intros y a y'. unfold on_registers. destruct (sy_ctrlrs y !! c) as [ct|] eqn:Hc; [|by intros [= <- <-]]. destruct (f (cl_cc ct)) as [cc|]; [|done]. intros [= <- <-].
  constructor; [|by apply minds_same]. constructor; csimp; [constructor; csimp; eauto|done|eauto]. intros c0 ct0 [[<- <-]|[_ H]]%lookup_insert_Some; eauto.
Qed.

(** The subsystem is written back with the identifier it has found. *)
Lemma calmly_sub_add_ctrlr s c : calmly (nvmf_subsystem_add_ctrlr s c).
Proof.
  intros y a y' (sub & y1 & E1 & E)%bind_some. unfold c_sub, c_need in E1. destruct (sy_subs y !! s) as [x|] eqn:Hs; [|done]. injection E1 as <- <-.
  apply bind_some in E as (ct & y2 & E2 & E). unfold c_ctrlr, c_need in E2. destruct (sy_ctrlrs y !! c) as [z|] eqn:Hc; [|done]. injection E2 as <- <-. cbv zeta in E.
  destruct (cl_dynamic z).
  - apply bind_some in E as ([sub' cntlid] & y3 & E3 & E). unfold c_need in E3. destruct (nvmf_subsystem_gen_cntlid _ _) as [p|] eqn:Hg; [|done]. injection E3 as -> <-.
    apply gen_loop_shape, (f_equal cb_thread) in Hg. cbn in Hg. apply bind_some in E as ([] & y4 & E4 & E).
    unfold mod_conn_sub, c_sub, c_need, mbind, CM_bind in E4. rewrite Hs in E4. injection E4 as <-. etrans; [by eapply calm_sub|].
    match type of E with ?m _ = _ => assert (calmly m) as Hm by calms end. exact (Hm _ _ _ E).
  - match type of E with ?m _ = _ => assert (calmly m) as Hm by calms end. exact (Hm _ _ _ E).
Qed.
#[export] Hint Resolve calmly_sub_add_ctrlr : calm.
Lemma calmly_add_ctrlr cur rid : calmly (_nvmf_subsystem_add_ctrlr cur rid).
Proof. unfold _nvmf_subsystem_add_ctrlr. calms. Qed.

(** A controller gets an identifier of its own. *)
Lemma calm_new_ctrlr y ct : calm y (y <| sy_ctrlrs := <[sy_next y := ct]> (sy_ctrlrs y) |> <| sy_next := S (sy_next y) |>).
Proof.
  constructor; [|apply minds_frame; csimp; [lia|eauto..]]. constructor; csimp; [constructor; csimp; eauto|done|eauto].
  intros c0 ct0 [[<- <-]|[_ H]]%lookup_insert_Some; eauto.
Qed.
Lemma calmly_create opts mem s rid : calmly (nvmf_ctrlr_create opts mem s rid).
Proof.
  unfold nvmf_ctrlr_create. destruct mem as [[m1 m2] m3]. do 4 (apply calmly_bind; [calms|intros ?]; cbv zeta). destruct (negb _); [calms|].
  match goal with |- calmly (match ?x with _ => _ end) => destruct x as [l|] end; [|calms]. intros y a y' (c & y1 & [= <- <-] & E)%bind_some. apply bind_some in E as ([] & y2 & [= <-] & E).
  match type of E with ?m _ = _ => assert (calmly m) as Hm by calms end. etrans; [apply calm_new_ctrlr|exact (Hm _ _ _ E)].
Qed.
#[export] Hint Resolve calmly_create : calm.

(** ** The handlers that count *)

(** A queue pair takes its place among those of its poll group. *)
Lemma members_insert m q qp t n : members (<[q := qp]> m) t n ⊆ members m t n ∪ (if decide (enrolled t n qp) then {[q]} else ∅).
Proof.
  intros q0. rewrite elem_of_union, !elem_of_members. intros (qp0 & [[<- <-]|[_ H]]%lookup_insert_Some & E); [right|left; by exists qp0].
  destruct (decide _); [set_solver|done].
Qed.

Lemma stat_insert y t g t' : stat_of (y <| sy_stats := <[t := g]> (sy_stats y) |>) t' = if decide (t = t') then g else stat_of y t'.
Proof. unfold stat_of. csimp. destruct (decide (t = t')) as [<-|Hne]; [by rewrite lookup_insert_eq|by rewrite lookup_insert_ne]. Qed.

Lemma low_current y t n : low y -> 0 <= current_qpairs n (stat_of y t) < 2 ^ 32 - 1.
Proof. intros L. specialize (L t). unfold low_stat in L. rewrite !andb_true_iff, !Z.leb_le, !Z.ltb_lt in L. unfold current_qpairs. destruct (n =? 0); lia. Qed.

Lemma steady_frame y y' : sy_next y' = sy_next y -> sy_ctrlrs y' = sy_ctrlrs y -> sy_subs y' = sy_subs y -> sy_msgs y' = sy_msgs y -> steady y y'.
Proof. intros E1 E2 E3 E4. constructor; rewrite ?E1, ?E2, ?E3, ?E4; eauto. Qed.

Lemma tally_join y y' q qp : tally y -> sy_qpairs y' = <[q := qp]> (sy_qpairs y) -> (forall t, cq_thread qp <> t -> stat_of y' t = stat_of y t) ->
  (forall n, current_qpairs n (stat_of y' (cq_thread qp)) = current_qpairs n (stat_of y (cq_thread qp)) + (if cq_qid qp =? 0 then if n =? 0 then 1 else 0 else if n =? 0 then 0 else 1)) ->
  tally y'.
Proof.
  intros T Hq Hs He t n. rewrite Hq. pose proof (subseteq_size _ _ (members_insert (sy_qpairs y) q qp t n)) as Hm. pose proof (size_union_alt (members (sy_qpairs y) t n)
    (if decide (enrolled t n qp) then {[q]} else ∅)) as Hu. rewrite Hu in Hm. pose proof (subseteq_size ((if decide (enrolled t n qp) then {[q]} else ∅) ∖ members (sy_qpairs y) t n)
    (if decide (enrolled t n qp) then {[q]} else ∅) ltac:(set_solver)) as Hd. specialize (T t n).
  destruct (decide (cq_thread qp = t)) as [<-|Hne].
  - rewrite He. destruct (decide (enrolled _ n qp)) as [(_ & _ & _ & E)|_].
    + rewrite size_singleton in Hd. rewrite E. destruct (n =? 0); lia.
    + rewrite size_empty in Hd. destruct (cq_qid qp =? 0), (n =? 0); lia.
  - rewrite (Hs t Hne). destruct (decide _) as [(_ & _ & E & _)|_]; [done|]. rewrite size_empty in Hd. lia.
Qed.

Lemma fairly_accept q cmd : fairly (accept_qpair q cmd).
Proof.
  intros y a y' E. unfold accept_qpair in E. apply bind_some in E as ([] & y1 & E1 & E). unfold mod_conn_qpair in E1. apply bind_some in E1 as (qp & y0 & E0 & E1).
  unfold c_qpair, c_need in E0. destruct (sy_qpairs y !! q) as [x|] eqn:Hq; [|done]. injection E0 as <- <-. injection E1 as <-.
  apply bind_some in E as (qp & y0 & E0 & E). unfold c_qpair, c_need in E0. csimp. cbn in E0. rewrite lookup_insert_eq in E0. injection E0 as <- <-.
  apply bind_some in E as ([] & y0 & E0 & E). unfold c_assert in E0. csimp. cbn in E0. destruct (cq_group x) eqn:Hg; [|done]. injection E0 as <-.
  apply bind_some in E as ([] & y0 & [= <-] & E). injection E as <- <-. constructor; [by apply steady_frame| |].
  2: { apply minds_frame; csimp; [done|eauto|done|]. intros q0 qp0 _ [[<- <-]|[_ H]]%lookup_insert_Some; eauto. }
  intros T L. eapply (tally_join y _ q); [done|csimp; reflexivity| |]; csimp.
  - intros t Hne. unfold stat_of. csimp. by rewrite !lookup_insert_ne.
  - intros n. pose proof (low_current y (cq_thread x) n L) as Hl. unfold stat_of in *. csimp. rewrite !lookup_insert_eq. cbn [default from_option id].
    change (cq_thread (x <| cq_sq_head_max := cm_sqsize cmd |> <| cq_qid := cm_qid cmd |> <| cq_connect_received := true |>)) with (cq_thread x) in *.
    unfold current_qpairs in *. destruct (cm_qid cmd =? 0), (n =? 0); cbn [set gs_current_admin gs_current_io gs_unassociated gs_admin gs_io]; rewrite ?u32_small by lia; lia.
Qed.

(** Calm steps up to one that counts, and calm ones after it. *)
Ltac fairs :=
  repeat (cbv zeta;
    first [ solve [apply fairly_calm; calms]
          | lazymatch goal with
            | |- fairly (match ?x with _ => _ end) => destruct x
            | |- fairly (mbind _ _) => first [apply fairly_after; [solve [calms]|intros ?] | apply fairly_before; [solve [auto 1 with calm nocore]|intros ?; calms]]
            | |- fairly _ => solve [auto 1 with calm nocore]
            end ]).
#[export] Hint Resolve fairly_accept : calm.

Lemma fairly_connect opts mem rid : fairly (_nvmf_ctrlr_connect opts mem rid).
Proof. unfold _nvmf_ctrlr_connect. fairs. Qed.
#[export] Hint Resolve fairly_connect : calm.
Lemma fairly_cmd_connect opts mem rid : fairly (nvmf_ctrlr_cmd_connect opts mem rid).
Proof. unfold nvmf_ctrlr_cmd_connect, nvmf_subsystem_pg_from_connect_cmd. fairs. Qed.
#[export] Hint Resolve fairly_cmd_connect : calm.
Lemma fairly_process opts mem rid : fairly (connect_process opts mem rid).
Proof. unfold connect_process. fairs. Qed.
#[export] Hint Resolve fairly_process : calm.
Lemma fairly_exec opts mem rid : fairly (connect_exec opts mem rid).
Proof. unfold connect_exec. fairs. Qed.
#[export] Hint Resolve fairly_exec : calm.

(** A queue pair leaves its poll group. *)
Lemma tally_leave y y' q qp : tally y -> sy_qpairs y !! q = Some qp -> cq_group qp = true ->
  (forall q0 qp0, sy_qpairs y' !! q0 = Some qp0 -> cq_group qp0 = true -> q0 <> q /\ exists qp1, sy_qpairs y !! q0 = Some qp1 /\ badge qp0 = badge qp1) ->
  (forall t, cq_thread qp <> t -> stat_of y' t = stat_of y t) ->
  (forall n, current_qpairs n (stat_of y' (cq_thread qp)) = current_qpairs n (stat_of y (cq_thread qp)) -
    (if cq_connect_received qp && eqb (cq_qid qp =? 0) (n =? 0) then 1 else 0)) -> tally y'.
Proof.
  intros T Hq Hg Hm Hs He t n. assert (members (sy_qpairs y') t n ⊆ members (sy_qpairs y) t n ∖ {[q]}) as Hsub.
  { intros q0. rewrite elem_of_difference, !elem_of_members. intros (qp0 & H & E). destruct (Hm q0 qp0 H (proj1 E)) as (Hne & qp1 & H1 & Eb).
    split; [|set_solver]. exists qp1. split; [done|by eapply badge_enrolled]. }
  apply subseteq_size in Hsub. specialize (T t n). destruct (decide (cq_thread qp = t)) as [<-|Hne].
  - rewrite He. destruct (cq_connect_received qp && eqb (cq_qid qp =? 0) (n =? 0)) eqn:E.
    + apply andb_true_iff in E as [E1 E2%eqb_prop]. assert (q ∈ members (sy_qpairs y) (cq_thread qp) n) as Hin by (apply elem_of_members; by exists qp).
      rewrite size_difference, size_singleton in Hsub by set_solver. assert (size (members (sy_qpairs y) (cq_thread qp) n) <> 0)%nat; [|lia].
      intros Hz%size_empty_inv. set_solver.
    + pose proof (subseteq_size (members (sy_qpairs y) (cq_thread qp) n ∖ {[q]}) (members (sy_qpairs y) (cq_thread qp) n) ltac:(set_solver)). lia.
  - rewrite (Hs t Hne). pose proof (subseteq_size (members (sy_qpairs y) t n ∖ {[q]}) (members (sy_qpairs y) t n) ltac:(set_solver)). lia.
Qed.

(** The requests of the queue pair that wait are freed, and no others. *)
Lemma foldr_delete_lookup (l : list (Z * nat * nat)) (m : gmap nat conn_req) r :
  foldr (fun e m => delete (e.2 : nat) m) m l !! r = if bool_decide (r ∈ l.*2) then None else m !! r.
Proof.
  induction l as [|e l IH]; cbn; [by rewrite bool_decide_eq_false_2 by set_solver|]. destruct (decide (e.2 = r)) as [<-|Hne].
  - rewrite lookup_delete_eq, bool_decide_eq_true_2 by set_solver. done.
  - rewrite lookup_delete_ne, IH by done. by rewrite (bool_decide_ext (r ∈ e.2 :: l.*2) (r ∈ l.*2)) by set_solver.
Qed.

Lemma req_clean_still q t which y y' : _nvmf_qpair_sgroup_req_clean q t which y = Some (tt, y') ->
  still y y' /\ sy_next y' = sy_next y /\ sy_answers y' = sy_answers y /\ sy_qpairs y' = sy_qpairs y /\
  forall r rq, sy_reqs y !! r = Some rq -> cr_qpair rq <> q -> sy_reqs y' !! r = Some rq.
Proof.
  intros [= <-]. split; [by apply still_frame|]. csimp. split_and!; try done. intros r rq Hr Hne. rewrite foldr_delete_lookup, bool_decide_eq_false_2; [done|].
  intros (e & -> & [_ He]%list_elem_of_In%filter_In)%list_elem_of_fmap. unfold queued_of in He. rewrite Hr in He. by rewrite bool_decide_eq_false_2, andb_false_r in He by done.
Qed.

Lemma fairly_destroy q : fairly (_nvmf_qpair_destroy q).
Proof.
  intros y a y' E. unfold _nvmf_qpair_destroy in E. apply bind_some in E as (qp & y0 & E0 & E).
  unfold c_qpair, c_need in E0. destruct (sy_qpairs y !! q) as [x|] eqn:Hq; [|done]. injection E0 as <- <-.
  apply bind_some in E as ([] & y0 & E0 & E). unfold c_assert in E0. destruct (bool_decide _); [|done]. injection E0 as <-.
  apply bind_some in E as ([] & y0 & E0 & E). unfold c_assert in E0. destruct (cq_group x) eqn:Hg; [|done]. injection E0 as <-.
  apply bind_some in E as (y0 & ? & [= <- <-] & E). apply bind_some in E as ([] & y0 & E0 & E). unfold c_assert in E0.
  destruct (negb _ || _) eqn:Hb; [|done]. injection E0 as <-. apply bind_some in E as ([] & y1 & [= <-] & E).
  apply bind_some in E as ([] & y2 & E2 & E). match type of E2 with _ ?z = _ => set (y1 := z) in * end.
  assert (exists which, _nvmf_qpair_sgroup_req_clean q (cq_thread x) which y1 = Some (tt, y2)) as [which E2'].
  { destruct (cq_ctrlr x) as [c|]; [|by eexists]. apply bind_some in E2 as (ct & y0 & E0 & E2). unfold c_ctrlr, c_need in E0.
    destruct (sy_ctrlrs y1 !! c); [|done]. injection E0 as <- <-. by eexists. }
  clear E2. destruct (req_clean_still _ _ _ _ _ E2') as (C & N2 & A2 & Q2 & R2). clear E2'. apply bind_some in E as ([] & y3 & E3 & E).
  unfold spdk_nvmf_poll_group_remove, mod_conn_qpair in E3. apply bind_some in E3 as (qp2 & y4 & E4 & E3). unfold c_qpair, c_need in E4.
  destruct (sy_qpairs y2 !! q) as [x2|] eqn:Hq2; [|done]. injection E4 as <- <-. injection E3 as <-. injection E as <- <-.
  constructor; [etrans; [|etrans; [apply (cm_steady _ _ C)|]]; by apply steady_frame| |].
  2: { split; [csimp; by rewrite N2|]. intros r0 q0 _ _ Hcare. unfold cared, left_group in *. csimp. rewrite A2, Q2. destruct (decide (q = q0)) as [<-|Hne].
       - right. right. intros qp0. rewrite lookup_insert_eq. by intros [= <-].
       - destruct Hcare as [(rq & Hr & Eq)|[?|Hl]]; [left; exists rq; split; [|done]; apply R2; [done|congruence]|by right; left|right; right].
         intros qp0. rewrite lookup_insert_ne by done. apply Hl. }
  intros T L. assert (forall t, stat_of y2 t = stat_of y1 t) as Hst by (intros t; unfold stat_of; by rewrite (cm_stats _ _ C)).
  eapply (tally_leave y _ q x); try done.
  - intros q0 qp0. csimp. intros [[<- <-]|[Hne H]]%lookup_insert_Some; [done|]. intros _. split; [done|]. exact (cm_qpair _ _ C q0 qp0 H).
  - intros t Hne. trans (stat_of y2 t); [done|]. rewrite Hst. unfold y1. rewrite stat_insert. by destruct (decide _).
  - intros n. trans (current_qpairs n (stat_of y2 (cq_thread x))); [done|]. rewrite Hst. unfold y1. rewrite stat_insert. destruct (decide _) as [_|]; [|done].
    pose proof (low_current y (cq_thread x) (cq_qid x) L) as Hl. unfold current_qpairs in *. destruct (cq_connect_received x); [|destruct (n =? 0); cbn [andb]; rewrite Z.sub_0_r; done].
    cbn [negb orb] in Hb. apply Z.ltb_lt in Hb.
    destruct (cq_qid x =? 0), (n =? 0); cbn [set eqb andb negb gs_current_admin gs_current_io gs_unassociated gs_admin gs_io] in *; rewrite ?u32_small by lia; lia.
Qed.
#[export] Hint Resolve fairly_destroy : calm.

(** ** Every event *)

Definition ledger (y : conn_sys) : Prop := tally y /\ addressed y.

Lemma destruct_msg_old y t c : good y -> (t, MsgDestruct c) ∈ sy_msgs y -> (c < sy_next y)%nat.
Proof. intros (qs & cs & R & _) Hm. apply (r_nextc _ _ _ R). exists CDestruct. by eapply destruct_msg_owner. Qed.

Lemma steady_addressed y y' : good y -> addressed y -> steady y y' -> addressed y'.
Proof.
  intros G A [s1 s2 s3 s4] t c ct' sub' Hm Hc Hs. pose proof (s4 t c Hm) as Hm0. pose proof (destruct_msg_old y t c G Hm0).
  destruct (s2 c ct' Hc) as [(ct & Hc0 & Ec)|?]; [|lia]. destruct (s3 _ _ Hs) as (sub & Hs0 & Es). rewrite Es, Ec in *. by eapply A.
Qed.
Lemma fair_ledger y y' : good y -> low y -> ledger y -> fair y y' -> ledger y'.
Proof. intros G L [T A] [S F _]. split; [by apply F|by eapply steady_addressed]. Qed.

Lemma calm_take y t m l1 l2 : sy_msgs y = l1 ++ (t, m) :: l2 -> calm y (y <| sy_msgs := l1 ++ l2 |>).
Proof. intros E. apply calm_frame; try done. csimp. intros t' c H. rewrite E. set_solver. Qed.

(** A controller without queue pairs is to be destroyed. *)
Lemma free_ledger y c qid y1 y' : good y -> ledger y -> calm y y1 -> ctrlr_free_from_qpair c qid y1 = Some (tt, y') -> ledger y'.
Proof.
  intros G [T A] C E. unfold ctrlr_free_from_qpair in E. apply bind_some in E as (ct & y2 & E1 & E).
  unfold c_ctrlr, c_need in E1. destruct (sy_ctrlrs y1 !! c) as [x|] eqn:Hc; [|done]. injection E1 as <- <-. cbv zeta in E. set (cc := _nvmf_ctrlr_free_from_qpair _ _) in *.
  apply bind_some in E as ([] & y2 & E2 & E). assert (calm y y2) as C2 by (etrans; [exact C|by eapply (calmly_mod_ctrlr c (upd_cc (fun _ => cc)))]).
  assert (sy_ctrlrs y2 !! c = Some (x <| cl_cc := cc |>)) as Hc2.
  { unfold mod_conn_ctrlr, c_ctrlr, c_need, mbind, CM_bind in E2. rewrite Hc in E2. injection E2 as <-. csimp. by rewrite lookup_insert_eq. }
  clear E2. pose proof (calm_tally _ _ C2 T) as T2. pose proof (steady_addressed _ _ G A (calm_steady _ _ C2)) as A2.
  destruct (_ =? 0)%nat; [|by injection E as <-]. apply bind_some in E as ([] & y3 & E3 & E). unfold c_assert in E3. destruct (negb _); [|done]. injection E3 as <-.
  apply bind_some in E as (sub & y3 & E3 & E). unfold c_sub, c_need in E3. destruct (sy_subs y2 !! cl_subsys x) as [z|] eqn:Hs; [|done]. injection E3 as <- <-. injection E as <-.
  split; [exact T2|]. intros t c0 ct0 sub0. csimp. intros [Hm|[= -> ->]%list_elem_of_singleton]%elem_of_app H0 Hs0; [by eapply A2|].
  rewrite Hc2 in H0. injection H0 as <-. cbn in Hs0. congruence.
Qed.

Lemma calm_new_req y rq : calm y (y <| sy_reqs := <[sy_next y := rq]> (sy_reqs y) |> <| sy_next := S (sy_next y) |>).
Proof.
  constructor; [constructor; csimp; [constructor; csimp; eauto|done|eauto]|]. apply minds_frame; csimp; [lia| |done|eauto].
  intros r rq' Hr E. left. rewrite lookup_insert_ne by lia. eauto.
Qed.

Lemma fairly_new_qpair hz opts t listen : fairly (conn_do hz opts (EvNewQpair t listen)).
Proof.
  intros y a y' E. unfold conn_do in E. apply bind_some in E as (q & y1 & [= <- <-] & E). apply bind_some in E as ([] & y1 & [= <-] & E). injection E as <- <-.
  constructor; [constructor; csimp; eauto| |].
  2: { apply minds_frame; csimp; [lia|eauto|done|]. intros q0 qp0 Hq. rewrite lookup_insert_ne by lia. eauto. }
  intros T _ t' n. csimp. pose proof (subseteq_size _ _ (members_insert (sy_qpairs y) (sy_next y)
    (ConnQpair SPDK_NVMF_QPAIR_CONNECTING 0 0 None t true None [] false listen) t' n)) as Hm.
  destruct (decide _) as [(_ & ? & _)|_]; [done|]. rewrite union_empty_r_L in Hm. specialize (T t' n). unfold stat_of in *. csimp.
  destruct (decide (t = t')) as [<-|Hne]; [rewrite lookup_insert_eq; cbn [default from_option id]|rewrite lookup_insert_ne by done; lia].
  unfold current_qpairs in *. destruct (n =? 0); cbn [set gs_current_admin gs_current_io] in *; lia.
Qed.

Lemma fairly_arrive hz opts q cmd data len n mem : fairly (conn_do hz opts (EvConnect q cmd data len n mem)).
Proof.
  intros y a y' E. unfold conn_do in E. apply bind_some in E as (y0 & ? & [= <- <-] & E). destruct (sy_qpairs y !! q) as [qp|]; [|by injection E as <- <-; apply calm_fair].
  destruct (cq_group qp); [|by injection E as <- <-; apply calm_fair]. apply bind_some in E as (rid & ? & [= <- <-] & E). apply bind_some in E as ([] & ? & [= <-] & E).
  eapply calm_then_fair; [apply calm_new_req|]. exact (fairly_exec _ _ _ _ _ _ E).
Qed.

#[export] Hint Resolve calmly_retry calmly_add_admin calmly_ctrlr_add_io calmly_add_io calmly_send_rsp calmly_destruct calmly_free calmly_fini calmly_registers calmly_add_ctrlr : calm.

(** All but the arrival of a message. *)
Lemma fairly_event hz opts e : (forall t now auth, e <> EvDeliver t now auth) -> fairly (conn_do hz opts e).
Proof.
  intros H. destruct e as [| | | |t now auth| | | | | | |]; try apply fairly_new_qpair; try apply fairly_arrive; try (by destruct (H t now auth)); unfold conn_do; fairs.
Qed.

Lemma deliver_ledger hz opts y t now auth y' : good y -> low y -> ledger y -> conn_do hz opts (EvDeliver t now auth) y = Some (tt, y') -> ledger y'.
Proof.
  intros G L D E. unfold conn_do in E. apply bind_some in E as (y0 & ? & [= <- <-] & E). destruct (take_msg t (sy_msgs y)) as [[m l]|] eqn:Et; [|by injection E as <-].
  destruct (take_msg_spec _ _ _ _ Et) as (l1 & l2 & Hm & -> & _). apply bind_some in E as ([] & y1 & [= <-] & E). pose proof (calm_take _ _ _ _ _ Hm) as C.
  destruct m as [r|r|r|r|r|r|q c n|c|c]; cbn [run_msg] in E; try (by eapply free_ledger); (apply (fair_ledger y); [done..|apply calm_fair]);
    match type of E with ?m _ = _ => assert (calmly m) as Hc by (solve [auto 1 with calm nocore]); etrans; [exact C|exact (Hc _ _ _ E)] end.
Qed.

Lemma event_ledger hz opts e y y' : good y -> low y -> ledger y -> conn_do hz opts e y = Some (tt, y') -> ledger y'.
Proof. intros G L D E. destruct e; try (by eapply deliver_ledger); (eapply fair_ledger; [done..|]); (by eapply fairly_event; [|exact E]). Qed.

(** *** Requests are not lost *)

Lemma free_minds c qid y y' : ctrlr_free_from_qpair c qid y = Some (tt, y') -> minds y y'.
Proof.
  intros E. unfold ctrlr_free_from_qpair in E. apply bind_some in E as (ct & y2 & E1 & E).
  unfold c_ctrlr, c_need in E1. destruct (sy_ctrlrs y !! c) as [x|]; [|done]. injection E1 as <- <-. cbv zeta in E. set (cc := _nvmf_ctrlr_free_from_qpair _ _) in *.
  apply bind_some in E as ([] & y2 & E2 & E). assert (minds y y2) as M by (eapply cm_minds, (calmly_mod_ctrlr c (upd_cc (fun _ => cc))); [done|exact E2]).
  destruct (_ =? 0)%nat; [|by injection E as <-]. apply bind_some in E as ([] & y3 & E3 & E). unfold c_assert in E3. destruct (negb _); [|done]. injection E3 as <-.
  apply bind_some in E as (sub & y3 & E3 & E). unfold c_sub, c_need in E3. destruct (sy_subs y2 !! _); [|done]. injection E3 as <- <-. injection E as <-.
  etrans; [exact M|]. by apply minds_same.
Qed.

Lemma event_minds hz opts e y y' : conn_do hz opts e y = Some (tt, y') -> minds y y'.
Proof.
  intros E. destruct e as [| | | |t now auth| | | | | | |]; try (by eapply fr_minds, fairly_event; [|exact E]). unfold conn_do in E.
  apply bind_some in E as (y0 & ? & [= <- <-] & E). destruct (take_msg t (sy_msgs y)) as [[m l]|] eqn:Et; [|by injection E as <-].
  apply bind_some in E as ([] & y1 & [= <-] & E). assert (minds y (y <| sy_msgs := l |>)) as M by (by apply minds_same).
  etrans; [exact M|]. destruct m as [r|r|r|r|r|r|q c n|c|c]; cbn [run_msg] in E; try (by eapply free_minds);
    match type of E with ?m _ = _ => assert (calmly m) as Hc by (solve [auto 1 with calm nocore]); exact (cm_minds _ _ (Hc _ _ _ E)) end.
Qed.

(** A Connect command that arrives in its queue pair's group: its request, and
    the queue pair. *)
Definition arrived (y : conn_sys) (e : conn_event) : list (nat * nat) :=
  match e with
  | EvConnect q _ _ _ _ _ => match sy_qpairs y !! q with Some qp => if cq_group qp then [(sy_next y, q)] else [] | None => [] end
  | _ => []
  end.
Fixpoint arrivals (hz : Z) (opts : transport_opts) (es : list conn_event) (y : conn_sys) : list (nat * nat) :=
  match es with
  | [] => []
  | e :: es => arrived y e ++ match conn_step hz opts e y with Some y => arrivals hz opts es y | None => [] end
  end.

Lemma arrive_cared hz opts e y y' r q : good y -> conn_do hz opts e y = Some (tt, y') -> (r, q) ∈ arrived y e ->
  cared y' r q /\ (r < sy_next y')%nat /\ (q < sy_next y')%nat.
Proof.
  intros (qs & cs & R & _) E Hin. destruct e as [|q0 cmd data len n mem| | | | | | | | | |]; cbn in Hin; try by apply not_elem_of_nil in Hin.
  unfold conn_do in E. apply bind_some in E as (y0 & ? & [= <- <-] & E). destruct (sy_qpairs y !! q0) as [qp|] eqn:Hqp; [|by apply not_elem_of_nil in Hin].
  destruct (cq_group qp); [|by apply not_elem_of_nil in Hin]. apply list_elem_of_singleton in Hin. injection Hin as -> ->.
  apply bind_some in E as (rid & ? & [= <- <-] & E). apply bind_some in E as ([] & y1 & [= <-] & E).
  destruct (fr_minds _ _ (fairly_exec _ _ _ _ _ _ E)) as [Hn Hm]. csimp. cbn in Hn. assert (q0 < sy_next y)%nat as Hq by (apply (r_nextq _ _ _ R), (r_q' _ _ _ R); by exists qp).
  split; [|lia]. apply Hm; [csimp; lia..|]. left. eexists. split; [csimp; apply lookup_insert_eq|done].
Qed.

Lemma ledger_init subs : ledger (conn_init subs).
Proof.
  split; [|intros t c ct sub H; by apply not_elem_of_nil in H]. intros t n. unfold members. cbn [conn_init sy_qpairs]. rewrite map_filter_empty, dom_empty_L, size_empty.
  unfold current_qpairs. by destruct (n =? 0).
Qed.

(** The assertions of [_nvmf_qpair_destroy]. *)
Lemma tally_current y q qp : tally y -> sy_qpairs y !! q = Some qp -> cq_group qp = true -> cq_connect_received qp = true ->
  0 < current_qpairs (cq_qid qp) (stat_of y (cq_thread qp)).
Proof.
  intros T Hq Hg Hr. specialize (T (cq_thread qp) (cq_qid qp)). assert (q ∈ members (sy_qpairs y) (cq_thread qp) (cq_qid qp)) as Hin by (apply elem_of_members; by exists qp).
  assert (size (members (sy_qpairs y) (cq_thread qp) (cq_qid qp)) <> 0)%nat; [|lia]. intros Hz%size_empty_inv. set_solver.
Qed.
