(* ===== verification/ConnectSafe.v ===== *)
(** * Connections are safe

    A target whose hosts and timers keep a few rules never follows a dangling
    pointer while queue pairs and controllers come and go, gives every controller
    of a subsystem an identifier of its own and every queue pair of a controller
    a queue identifier of its own, and in the end has answered every Connect
    command whose queue pair is still there and released every controller nobody
    uses.  Where a rule is broken the next step is undefined. *)
From S2P Require Import Prelude NvmeSpec Iov World CtrlrRegs AsyncEvents Discovery Connect ConnectInv ConnectLife ConnectEnd ConnectFun ConnectTally.
From S2P Require Import Ctrlr.

(** ** The rules *)

(** The 32-bit counters of the poll groups, and of what has been made so far,
    are below their limit. *)
Definition low_counters (y : conn_sys) : bool := (Z.of_nat (sy_next y) <? 2 ^ 62) && forallb (fun p => low_stat p.2) (map_to_list (sy_stats y)).

(** A Connect command comes with its data, in one buffer; a host sends no second
    one on a queue pair before the first is answered; while a queue pair waits for an identifier of a controller to
    become free, the controller is not freed, and its admin queue pair is not
    between its poll group and its end when the wait is over; counters are below
    their limit. *)
Definition polite (y : conn_sys) (e : conn_event) : bool :=
  low_counters y &&
  match e with
  | EvConnect q _ _ _ iovcnt _ => (iovcnt =? 1) && forallb (fun p => negb (cr_qpair p.2 =? q)%nat) (map_to_list (sy_reqs y))
  | EvDeliver t _ _ =>
      match take_msg t (sy_msgs y) with
      | Some (MsgCtrlrDestruct c, _) => forallb (fun p => negb (bool_decide (sy_qpairs y !! p.1 ≫= cq_ctrlr = Some c))) (sy_pollers y)
      | _ => true
      end
  | EvRetry i =>
      match p ← sy_pollers y !! i; qp ← sy_qpairs y !! p.1; c ← cq_ctrlr qp; sy_ctrlrs y !! c with
      | Some ct => admin_grouped y ct
      | None => true
      end
  | _ => true
  end.
Fixpoint polite_run (hz : Z) (opts : transport_opts) (es : list conn_event) (y : conn_sys) : bool :=
  match es with
  | [] => true
  | e :: es => polite y e && match conn_step hz opts e y with Some y => polite_run hz opts es y | None => true end
  end.

(** A subsystem that has a range of identifiers and no controllers. *)
Definition fresh_subsys (s : conn_subsys) : bool :=
  bool_decide (cb_ctrlrs s = []) && (NVMF_MIN_CNTLID <=? cb_min_cntlid s) && (cb_min_cntlid s <=? cb_max_cntlid s) && (cb_max_cntlid s <=? NVMF_MAX_CNTLID)
  && (cb_min_cntlid s - 1 <=? cb_next_cntlid s) && (cb_next_cntlid s <=? cb_max_cntlid s).

(** ** Every event keeps the relation *)

Lemma rest_init : rest ∅.
Proof. intros q st. by rewrite lookup_empty. Qed.

Lemma good_init subs : forallb fresh_subsys subs = true -> good (conn_init subs).
Proof.
  intros H. exists ∅, ∅. split; [|apply rest_init]. constructor; cbn; try done; try (intros; by rewrite ?lookup_empty in *); try (intros ? [? ?]; by rewrite ?lookup_empty in *).
  - intros s sub Hs. rewrite forallb_forall in H. specialize (H sub). unfold fresh_subsys in H. rewrite !andb_true_iff, bool_decide_eq_true, !Z.leb_le in H.
    destruct H as (((((E & H1) & H2) & H3) & H4) & H5); [apply list_elem_of_In; by eapply list_elem_of_lookup_2|].
    constructor; rewrite ?E; try done; [apply NoDup_nil_2|]; intros; set_solver.
  - split; [apply NoDup_nil_2|]. intros r Hr. set_solver.
Qed.

(** The thread takes the message of a request that waits. *)
Lemma take_wait y qs cs q r k w m t l1 l2 : rep y qs cs -> rest qs -> sy_msgs y = l1 ++ (t, m) :: l2 -> qs !! q = Some (SWait r k w) -> wait_token q r w = [TMsg m] ->
  let qs' := <[q := SRun r k w]> qs in rep (y <| sy_msgs := l1 ++ l2 |>) qs' cs /\ others qs' q /\ qs' !! q = Some (SRun r k w).
Proof.
  intros R Hre Hm Hq Hw. split_and!; [|by apply others_insert, rest_others|apply lookup_insert_eq].
  exact (rep_take _ _ _ _ _ _ _ _ _ _ R Hm Hq (taken_wait q m r k w Hw)).
Qed.

Lemma polite_low y e : polite y e = true -> low y.
Proof.
  intros [[_ H]%andb_true_iff _]%andb_true_iff t. unfold stat_of. destruct (sy_stats y !! t) as [g|] eqn:E; [|done]. rewrite forallb_forall in H.
  apply (H (t, g)). by apply list_elem_of_In, elem_of_map_to_list.
Qed.

Lemma deliver_wp hz opts y t now auth : good y -> ledger y -> polite y (EvDeliver t now auth) = true -> cwp (conn_do hz opts (EvDeliver t now auth)) y (fun _ y' => good y').
Proof.
  intros (qs & cs & R & Hre) [_ Ha] [[Hn%Z.ltb_lt _]%andb_true_iff Hp]%andb_true_iff. assert (Z.of_nat (sy_next y) < 2 ^ 63) as Hn' by lia. unfold conn_do. do 2 cstep.
  destruct (take_msg t (sy_msgs y)) as [[m l]|] eqn:Et; [|cstep; by exists qs, cs]. destruct (take_msg_spec _ _ _ _ Et) as (l1 & l2 & Hm & -> & Hl1). do 2 cstep.
  assert ((t, m) ∈ sy_msgs y) as Hin by (rewrite Hm; set_solver).
  destruct m as [r|r|r|r|r|r|q c n|c|c]; cbn [run_msg]; try (by eapply free_wp); try (by eapply destruct_wp).
  7: { destruct (r_c _ _ _ R c CGone) as (ct & Hct & _); [by eapply ctrlr_destruct_msg_owner|]. eapply ctrlr_destruct_wp; try done.
       intros _ q t' qp Hq Hqp Hc. rewrite forallb_forall in Hp. specialize (Hp (q, t')). cbn in Hp. rewrite Hqp in Hp. cbn in Hp. rewrite Hc, bool_decide_eq_true_2 in Hp by done.
       by discriminate Hp; apply list_elem_of_In. }
  all: destruct (msg_owner _ _ _ _ _ R Hin) as [(q & st & Hq & Ht)|(c & cst & _ & Ht)]; [|destruct cst; cbn in Ht; set_solver].
  - assert (exists k c, st = SWait r k (WAddCtrlr c)) as (k & c & ->) by (destruct st as [| | |? ? []|? ? []| | | | |]; cbn in Ht; set_solver).
    destruct (take_wait _ _ _ _ _ _ _ _ _ _ _ R Hre Hm Hq eq_refl) as (R1 & Ho & Hq1). by eapply add_ctrlr_wp.
  - assert (exists k c, st = SWait r k (WAddAdmin c)) as (k & c & ->) by (destruct st as [| | |? ? []|? ? []| | | | |]; cbn in Ht; set_solver).
    destruct (take_wait _ _ _ _ _ _ _ _ _ _ _ R Hre Hm Hq eq_refl) as (R1 & Ho & Hq1). eapply add_admin_wp; try done.
    exact (ff_due _ _ _ (r_fifo _ _ _ R) q _ _ t Hq eq_refl Hin).
  - assert (exists k, st = SWait r k WAddIo) as (k & ->) by (destruct st as [| | |? ? []|? ? []| | | | |]; cbn in Ht; set_solver).
    destruct (take_wait _ _ _ _ _ _ _ _ _ _ _ R Hre Hm Hq eq_refl) as (R1 & Ho & Hq1). by eapply add_io_wp.
  - assert (exists k c, st = SWait r k (WCtrlrAddIo c)) as (k & c & ->) by (destruct st as [| | |? ? []|? ? []| | | | |]; cbn in Ht; set_solver).
    destruct (take_wait _ _ _ _ _ _ _ _ _ _ _ R Hre Hm Hq eq_refl) as (R1 & Ho & Hq1). eapply ctrlr_add_io_wp; try done.
    exact (ff_due _ _ _ (r_fifo _ _ _ R) q _ _ t Hq eq_refl Hin).
  - assert (exists k c n, st = SRsp r k c n) as (k & c & n & ->) by (destruct st as [| | |? ? []|? ? []| | | | |]; cbn in Ht; set_solver).
    destruct (rep_qp _ _ _ _ _ R Hq eq_refl) as (qp & Hqp & F). pose proof (rep_take _ _ _ _ _ _ _ _ _ _ R Hm Hq (taken_rsp q r k c n)) as R1.
    eapply send_rsp_wp; [exact R1|done|by apply others_insert, rest_others|apply lookup_insert_eq|exact Hqp|apply (qf_state _ _ _ _ _ F)|].
    exact (ff_due _ _ _ (r_fifo _ _ _ R) q _ _ t Hq eq_refl Hin).
  - assert (exists k, st = SWait r k WComplete) as (k & ->) by (destruct st as [| | |? ? []|? ? []| | | | |]; cbn in Ht; set_solver).
    destruct (take_wait _ _ _ _ _ _ _ _ _ _ _ R Hre Hm Hq eq_refl) as (R1 & Ho & Hq1). by eapply settle_wp; [..|apply settled_idle].
Qed.

(** A command arrives on a queue pair that has none. *)
Lemma connect_wp hz opts y q cmd data len n mem : good y -> polite y (EvConnect q cmd data len n mem) = true ->
  cwp (conn_do hz opts (EvConnect q cmd data len n mem)) y (fun _ y' => good y').
Proof.
  intros (qs & cs & R & Hre) [[Hn%Z.ltb_lt _]%andb_true_iff [->%Z.eqb_eq Hp]%andb_true_iff]%andb_true_iff. unfold conn_do. do 2 cstep. destruct (sy_qpairs y !! q) as [qp|] eqn:Hqp; [|cstep; by exists qs, cs].
  destruct (cq_group qp) eqn:Hg; [|cstep; by exists qs, cs]. destruct (r_q' _ _ _ R q) as [st Hq]; [by exists qp|].
  assert (exists h, st = finished h) as [h ->].
  { pose proof (r_q _ _ _ R q st Hq) as Fq. destruct (is_free st) eqn:Hf; [congruence|]. destruct Fq as (qp0 & Hqp0 & F). replace qp0 with qp in * by congruence.
    assert (stage_req st = None) as Hr.
    { destruct (stage_req st) as [r|] eqn:Er; [|done]. destruct (qf_req _ _ _ _ _ F r Er) as (rq & Hrq & Eq & _). rewrite forallb_forall in Hp.
      specialize (Hp (r, rq)). cbn in Hp. rewrite Eq, Nat.eqb_refl in Hp. by discriminate Hp; apply list_elem_of_In, elem_of_map_to_list. }
    pose proof (qf_group _ _ _ _ _ F) as Hgr. rewrite Hg in Hgr. destruct st as [| | | | | | |c n| |]; try done; [by exists None|by exists (Some (c, n))]. }
  pose proof (rep_arrive y qs cs q h qp (ConnReq q cmd data len 1 (ConnectRsp 0 0 0 0)) R Hq Hqp eq_refl eq_refl) as R1. do 4 cstep.
  eapply exec_wp; [exact R1|csimp; lia|by apply others_insert, rest_others|apply lookup_insert_eq|exact Hqp|apply lookup_insert_eq].
Qed.

Lemma event_wp hz opts y e : good y -> ledger y -> polite y e = true -> cwp (conn_do hz opts e) y (fun _ y' => good y').
Proof.
  intros G D Hp. destruct e as [t listen|q cmd data len n mem|k b|i mem|t now auth|i|q|q|i|s st any hosts keyed listeners|c now attrib ofst value|c now];
    try (by apply connect_wp); try (by apply deliver_wp); destruct G as (qs & cs & R & Hre); apply andb_true_iff in Hp as [[Hn%Z.ltb_lt _]%andb_true_iff Hp];
    assert (Z.of_nat (sy_next y) < 2 ^ 63) as Hn' by lia; unfold conn_do.
  - do 5 cstep. eapply good_at; [by apply rep_new|by apply rest_others|done].
  - cstep. exists qs, cs. split; [by apply rep_sgroup|done].
  - do 2 cstep. destruct (sy_queued y !! i) as [[k r]|] eqn:Hi; [|cstep; by exists qs, cs]. destruct (cg_active _); [|cstep; by exists qs, cs].
    destruct (queue_owner _ _ _ _ _ _ R Hi) as (q & h & Hq). destruct (rep_qp _ _ _ _ _ R Hq eq_refl) as (qp & Hqp & F).
    destruct (qf_req _ _ _ _ _ F r eq_refl) as (rq & Hrq & _). pose proof (rep_release _ _ _ _ _ _ _ _ R Hi Hq) as R1. do 2 cstep.
    eapply exec_wp; [exact R1|done|by apply others_insert, rest_others|apply lookup_insert_eq|exact Hqp|exact Hrq].
  - do 2 cstep. destruct (sy_pollers y !! i) as [[q t]|] eqn:Hi; [|cstep; by exists qs, cs]. eapply retry_wp; try done.
    intros qp c ct Hqp Hc Hct. cbn in Hp. by rewrite Hqp in Hp; cbn in Hp; rewrite Hc in Hp; cbn in Hp; rewrite Hct in Hp.
  - do 2 cstep. destruct (sy_qpairs y !! q) as [qp|] eqn:Hqp; [|cstep; by exists qs, cs]. by eapply disconnect_wp.
  - do 2 cstep. destruct (sy_qpairs y !! q) as [qp|] eqn:Hqp; [|cstep; by exists qs, cs]. destruct (_ && _) eqn:Hb; [|cstep; by exists qs, cs].
    apply andb_true_iff in Hb as [H1%bool_decide_eq_true H2%bool_decide_eq_true]. eapply destroy_wp; try done. intros Hr. apply (tally_current y q qp (proj1 D) Hqp); [|done].
    destruct (r_q' _ _ _ R q) as [st Hq]; [by exists qp|]. pose proof (r_q _ _ _ R q st Hq) as F. destruct (is_free st); [congruence|]. destruct F as (qp0 & Hqp0 & F).
    replace qp0 with qp in * by congruence. rewrite (qf_group _ _ _ _ _ F). pose proof (qf_state _ _ _ _ _ F) as Hs. rewrite H1 in Hs. by destruct st.
  - do 2 cstep. destruct (sy_fini y !! i) as [[[q oc] n]|] eqn:Hi; [|cstep; by exists qs, cs]. by eapply fini_wp.
  - do 2 cstep. destruct (sy_subs y !! s) as [sub|] eqn:Hs; [|cstep; by exists qs, cs]. cstep. exists qs, cs. split; [|done].
    eapply rep_sub; try done. apply (sf_next _ _ _ (r_subs _ _ _ R s sub Hs)).
  - eapply registers_wp; [done|done|]. intros cc. destruct (property_set_same hz now attrib ofst value cc) as (cc' & b & -> & H). by exists cc'.
  - eapply registers_wp; [done|done|]. intros cc. eexists. split; [done|]. apply reset_done_same.
Qed.

Lemma step_good hz opts y e : good y -> ledger y -> polite y e = true -> exists y', conn_step hz opts e y = Some y' /\ good y' /\ ledger y'.
Proof.
  intros G D Hp. pose proof (event_wp hz opts y e G D Hp) as H. unfold conn_step, cwp in *. destruct (conn_do hz opts e y) as [[[] y']|] eqn:E; [|done].
  exists y'. split; [done|]. split; [done|]. eapply event_ledger; [exact G|by eapply polite_low|exact D|exact E].
Qed.

Lemma run_good hz opts es y : good y -> ledger y -> polite_run hz opts es y = true -> exists y', conn_run hz opts es y = Some y' /\ good y' /\ ledger y'.
Proof.
  revert y. induction es as [|e es IH]; intros y G D; cbn; [by exists y|]. intros [Hp Hr]%andb_true_iff. destruct (step_good hz opts y e G D Hp) as (y1 & E & G1 & D1).
  rewrite E in Hr |- *. by apply IH.
Qed.

(** What has arrived is waiting, answered, or its queue pair has left. *)
Lemma run_cared hz opts es y y' : good y -> ledger y -> polite_run hz opts es y = true -> conn_run hz opts es y = Some y' ->
  minds y y' /\ forall r q, (r, q) ∈ arrivals hz opts es y -> cared y' r q.
Proof.
  revert y. induction es as [|e es IH]; intros y G D; cbn; [intros _ [= <-]; split; [done|]; intros r q H; by apply not_elem_of_nil in H|].
  intros [Hp Hr]%andb_true_iff. destruct (step_good hz opts y e G D Hp) as (y1 & E & G1 & D1). rewrite E in Hr |- *. cbn. intros Hrun.
  destruct (IH y1 G1 D1 Hr Hrun) as [M Ha]. unfold conn_step in E. destruct (conn_do hz opts e y) as [[[] y2]|] eqn:Ed; [|done]. injection E as ->.
  split; [etrans; [by eapply event_minds|done]|]. intros r q [Hin|Hin]%elem_of_app; [|by apply Ha].
  destruct (arrive_cared _ _ _ _ _ _ _ G Ed Hin) as (Hc & H1 & H2). destruct M as [_ M]. by apply M.
Qed.

(** ** What the relation says of a target *)

(** A queue pair with a controller and no Connect command under way. *)
Definition joined (y : conn_sys) (q : nat) (qp : conn_qpair) (c : nat) : Prop :=
  sy_qpairs y !! q = Some qp /\ cq_ctrlr qp = Some c /\ forall r rq, sy_reqs y !! r = Some rq -> cr_qpair rq <> q.

(** What a message works on is there. *)
Definition msg_live (y : conn_sys) (m : conn_msg) : Prop :=
  match m with
  | MsgAddCtrlr r | MsgAddAdminQpair r | MsgAddIoQpair r | MsgCtrlrAddIoQpair r | MsgConnectRsp r | MsgComplete r => is_Some (sy_reqs y !! r)
  | MsgFreeFromQpair _ c _ | MsgDestruct c | MsgCtrlrDestruct c => is_Some (sy_ctrlrs y !! c)
  end.

(** Pointers lead somewhere; identifiers are different; answers are given once.
    Nothing is said of the pointer to its Connect request that a queue pair keeps
    when it waits no more. *)
Record conn_ok (y : conn_sys) : Prop := {
  ok_message t m : (t, m) ∈ sy_msgs y -> msg_live y m;
  ok_queued k r : (k, r) ∈ sy_queued y -> is_Some (sy_reqs y !! r);
  ok_poller q t : (q, t) ∈ sy_pollers y -> exists qp r rq c, sy_qpairs y !! q = Some qp /\ cq_connect_req qp = Some r /\ sy_reqs y !! r = Some rq /\
    cr_qpair rq = q /\ cq_ctrlr qp = Some c /\ is_Some (sy_ctrlrs y !! c);
  ok_fini q oc n : (q, oc, n) ∈ sy_fini y -> is_Some (sy_qpairs y !! q) /\ forall c, oc = Some c -> is_Some (sy_ctrlrs y !! c);
  ok_pointer q qp c : sy_qpairs y !! q = Some qp -> cq_ctrlr qp = Some c -> is_Some (sy_ctrlrs y !! c);
  ok_admin c ct qa : sy_ctrlrs y !! c = Some ct -> cl_admin_qpair ct = Some qa -> exists qp, sy_qpairs y !! qa = Some qp /\ cq_ctrlr qp = Some c /\ cq_qid qp = 0;
  ok_request r rq : sy_reqs y !! r = Some rq -> is_Some (sy_qpairs y !! cr_qpair rq);
  ok_listed s sub c : sy_subs y !! s = Some sub -> c ∈ cb_ctrlrs sub -> exists ct, sy_ctrlrs y !! c = Some ct /\ cl_subsys ct = s /\
    (cl_dynamic ct = true -> cb_min_cntlid sub <= cl_cntlid ct <= cb_max_cntlid sub);
  ok_cntlid s sub c c' ct ct' : sy_subs y !! s = Some sub -> c ∈ cb_ctrlrs sub -> c' ∈ cb_ctrlrs sub -> sy_ctrlrs y !! c = Some ct -> sy_ctrlrs y !! c' = Some ct' ->
    cl_cntlid ct = cl_cntlid ct' -> c = c';
  ok_qid q q' qp qp' c : joined y q qp c -> joined y q' qp' c -> cq_qid qp = cq_qid qp' -> q = q';
  ok_mask q qp c ct : joined y q qp c -> sy_ctrlrs y !! c = Some ct -> cq_qid qp ∈ ck_mask (cl_cc ct) /\ ck_in_destruct (cl_cc ct) = false;
  ok_once : NoDup (sy_answers y).*1 /\ forall r, r ∈ (sy_answers y).*1 -> sy_reqs y !! r = None }.

Lemma joined_holding y qs cs q qp c : rep y qs cs -> rest qs -> joined y q qp c -> exists st, qs !! q = Some st /\ holding st = Some (c, cq_qid qp).
Proof.
  intros R Hre (Hqp & Hc & Hno). destruct (r_q' _ _ _ R q) as [st Hq]; [by exists qp|]. exists st. split; [done|]. pose proof (r_q _ _ _ R q st Hq) as F.
  destruct (is_free st) eqn:Hf; [congruence|]. destruct F as (qp0 & Hqp0 & F). replace qp0 with qp in * by congruence.
  assert (stage_req st = None) as Hr.
  { destruct (stage_req st) as [r|] eqn:Er; [|done]. destruct (qf_req _ _ _ _ _ F r Er) as (rq & Hrq & Eq & _). by destruct (Hno r rq). }
  rewrite (qf_ctrlr _ _ _ _ _ F) in Hc. pose proof (qf_qid _ _ _ _ _ F) as Hn. destruct st as [| | | | | | |c' n|oc n|]; try done.
  - injection Hc as ->. by rewrite (Hn n).
  - cbn in Hc. subst oc. by rewrite (Hn n).
Qed.

Lemma stage_req_live y qs cs q st r : rep y qs cs -> qs !! q = Some st -> stage_req st = Some r ->
  exists qp rq, sy_qpairs y !! q = Some qp /\ q_facts (sy_subs y) (sy_reqs y) q st qp /\ sy_reqs y !! r = Some rq /\ cr_qpair rq = q.
Proof.
  intros R Hq Hr. assert (is_free st = false) as Hf by (by destruct st). destruct (rep_qp _ _ _ _ _ R Hq Hf) as (qp & Hqp & F).
  destruct (qf_req _ _ _ _ _ F r Hr) as (rq & Hrq & E & _). by exists qp, rq.
Qed.
Lemma stage_ctrlr_live y qs cs q st c : rep y qs cs -> qs !! q = Some st -> stage_ctrlr st = Some c -> is_Some (sy_ctrlrs y !! c).
Proof. intros R Hq Hc. destruct (r_link _ _ _ R q st c Hq Hc) as (ct & Hct & _). by exists ct. Qed.

Lemma message_live y qs cs t m : rep y qs cs -> (t, m) ∈ sy_msgs y -> msg_live y m.
Proof.
  intros R Hm. destruct (msg_owner _ _ _ _ _ R Hm) as [(q & st & Hq & Hx)|(c & cst & Hc & Hx)].
  - assert (forall r, stage_req st = Some r -> is_Some (sy_reqs y !! r)) as Hreq.
    { intros r Hr. destruct (stage_req_live _ _ _ _ _ _ R Hq Hr) as (? & rq & _ & _ & ? & _). by exists rq. }
    destruct st as [| | | |r k w|r k c n| | | |c n]; cbn in Hx; try by apply not_elem_of_nil in Hx.
    + apply list_elem_of_singleton in Hx. done.
    + destruct w; cbn in Hx; try (by apply not_elem_of_nil in Hx); apply list_elem_of_singleton in Hx; simplify_eq; by apply Hreq.
    + apply list_elem_of_singleton in Hx. simplify_eq. by apply Hreq.
    + apply list_elem_of_singleton in Hx. done.
    + apply list_elem_of_singleton in Hx. simplify_eq. by eapply stage_ctrlr_live.
  - destruct (r_c _ _ _ R c cst Hc) as (ct & Hct & _). destruct cst; cbn in Hx; try (by apply not_elem_of_nil in Hx); apply list_elem_of_singleton in Hx; simplify_eq; by exists ct.
Qed.

Lemma poller_live y qs cs q t : rep y qs cs -> (q, t) ∈ sy_pollers y -> exists qp r rq c, sy_qpairs y !! q = Some qp /\ cq_connect_req qp = Some r /\
  sy_reqs y !! r = Some rq /\ cr_qpair rq = q /\ cq_ctrlr qp = Some c /\ is_Some (sy_ctrlrs y !! c).
Proof.
  intros R Hm. assert (TPoll (q, t) ∈ toks y) as Ht.
  { unfold tokens. rewrite !elem_of_app. do 2 right. left. by apply list_elem_of_fmap_2. }
  rewrite (r_tok _ _ _ R), elem_of_app, !elem_of_flat in Ht. destruct Ht as [(q0 & st & Hq & Hx)|(c & cst & Hc & Hx)]; [|destruct cst; cbn in Hx; set_solver].
  assert (exists r k c, st = SWait r k (WRetry c t) /\ q0 = q) as (r & k & c & -> & ->).
  { destruct st as [| | | |r k w|r k c n| | | |c n]; cbn in Hx; try set_solver.
    destruct w as [| | | | |c t'|]; cbn in Hx; set_solver. }
  destruct (stage_req_live _ _ _ _ _ r R Hq eq_refl) as (qp & rq & Hqp & F & Hrq & E). exists qp, r, rq, c. split_and!; try done.
  - by apply (qf_retry _ _ _ _ _ F r k c t).
  - by rewrite (qf_ctrlr _ _ _ _ _ F).
  - by eapply stage_ctrlr_live.
Qed.

Lemma queued_live y qs cs k r : rep y qs cs -> (k, r) ∈ sy_queued y -> is_Some (sy_reqs y !! r).
Proof.
  intros R [i Hi]%list_elem_of_lookup_1. destruct (queue_owner _ _ _ _ _ _ R Hi) as (q & h & Hq).
  destruct (stage_req_live _ _ _ _ _ r R Hq eq_refl) as (? & rq & _ & _ & ? & _). by exists rq.
Qed.

Lemma fini_live y qs cs q oc n : rep y qs cs -> (q, oc, n) ∈ sy_fini y -> is_Some (sy_qpairs y !! q) /\ forall c, oc = Some c -> is_Some (sy_ctrlrs y !! c).
Proof.
  intros R [i Hi]%list_elem_of_lookup_1. pose proof (fini_owner _ _ _ _ _ _ _ R Hi) as Hq.
  destruct (rep_qp _ _ _ _ _ R Hq eq_refl) as (qp & Hqp & _). split; [by exists qp|]. intros c ->. by eapply stage_ctrlr_live.
Qed.

Lemma good_ok y : good y -> conn_ok y.
Proof.
  intros (qs & cs & R & Hre). constructor.
  - intros t m. by eapply message_live.
  - intros k r. by eapply queued_live.
  - intros q t. by eapply poller_live.
  - intros q oc n. by eapply fini_live.
  - intros q qp c Hqp Hc. destruct (r_q' _ _ _ R q) as [st Hq]; [by exists qp|]. pose proof (r_q _ _ _ R q st Hq) as F. destruct (is_free st) eqn:Hf; [congruence|].
    destruct F as (qp0 & Hqp0 & F). replace qp0 with qp in * by congruence. rewrite (qf_ctrlr _ _ _ _ _ F) in Hc.
    destruct (r_link _ _ _ R q st c Hq Hc) as (ct & Hct & _). by exists ct.
  - intros c ct qa Hc Ha. destruct (r_c' _ _ _ R c) as [cst Hcs]; [by exists ct|]. destruct (r_c _ _ _ R c cst Hcs) as (x & Hx & F). replace x with ct in * by congruence.
    destruct (cf_adminq _ _ _ _ _ F qa Ha) as (st & Hq & Hh & Hf). destruct (rep_qp _ _ _ _ _ R Hq Hf) as (qp & Hqp & Fq). exists qp. split; [done|].
    rewrite (qf_ctrlr _ _ _ _ _ Fq). split; [by apply holding_ctrlr in Hh|]. apply (qf_qid _ _ _ _ _ Fq). destruct st as [|? [[]|]|? ? [[]|]| | | | | |[]|]; cbn in *; congruence.
  - intros r rq Hr. destruct (r_req _ _ _ R r rq Hr) as (st & Hq & Hs). assert (is_free st = false) as Hf by (by destruct st).
    destruct (rep_qp _ _ _ _ _ R Hq Hf) as (qp & Hqp & _). by exists qp.
  - intros s sub c Hs Hin. by apply (sf_member _ _ _ (r_subs _ _ _ R s sub Hs)).
  - intros s sub c c' ct ct' Hs. by apply (sf_cntlid _ _ _ (r_subs _ _ _ R s sub Hs)).
  - intros q q' qp qp' c J J' E. destruct (joined_holding _ _ _ _ _ _ R Hre J) as (st & Hq & Hh). destruct (joined_holding _ _ _ _ _ _ R Hre J') as (st' & Hq' & Hh').
    rewrite E in Hh. by eapply (r_uniq _ _ _ R).
  - intros q qp c ct J Hct. destruct (joined_holding _ _ _ _ _ _ R Hre J) as (st & Hq & Hh). split; [apply (r_mask _ _ _ R c ct _ Hct); by exists q, st|].
    destruct (r_c _ _ _ R c CLive (holder_live _ _ _ _ _ _ _ R Hq Hh)) as (x & Hx & F). replace x with ct in * by congruence. apply (cf_destruct _ _ _ _ _ F).
  - destruct (r_ans _ _ _ R) as [A1 A2]. split; [done|]. intros r Hr. by apply A2.
Qed.

(** Nothing is under way: no messages, no waiting requests, no pollers, no
    queue pairs being taken down. *)
Definition quiet (y : conn_sys) : bool :=
  bool_decide (sy_msgs y = []) && bool_decide (sy_queued y = []) && bool_decide (sy_pollers y = []) && bool_decide (sy_fini y = []).

(** Every Connect command is done with, and the controllers are those in use. *)
Record conn_settled (y : conn_sys) : Prop := {
  st_reqs : sy_reqs y = ∅;
  st_mgmt k : cg_mgmt (sgroup_of y k) = 0;
  st_outstanding q qp : sy_qpairs y !! q = Some qp -> cq_outstanding qp = [];
  st_mask c ct n : sy_ctrlrs y !! c = Some ct -> n ∈ ck_mask (cl_cc ct) <-> exists q qp, sy_qpairs y !! q = Some qp /\ cq_ctrlr qp = Some c /\ cq_qid qp = n;
  st_used c ct : sy_ctrlrs y !! c = Some ct -> ck_in_destruct (cl_cc ct) = false /\ (exists q qp, sy_qpairs y !! q = Some qp /\ cq_ctrlr qp = Some c) /\
    exists sub, sy_subs y !! cl_subsys ct = Some sub /\ c ∈ cb_ctrlrs sub }.

Lemma quiet_stages y qs cs : rep y qs cs -> rest qs -> quiet y = true ->
  (forall q st, qs !! q = Some st -> exists h, st = finished h) /\ (forall c cst, cs !! c = Some cst -> cst = CLive).
Proof.
  unfold quiet. rewrite !andb_true_iff, !bool_decide_eq_true. intros R Hre (((E1 & E2) & E3) & E4). pose proof (r_tok _ _ _ R) as T. rewrite E1, E2, E3, E4 in T.
  apply Permutation_nil_l, eq_sym, app_eq_nil in T as [T1 T2]. assert (forall q st, qs !! q = Some st -> exists h, st = finished h) as Hst.
  { intros q st Hq. assert (stage_tokens q st = []) as Ht.
    { destruct (stage_tokens q st) as [|x l] eqn:E; [done|]. assert (x ∈ flat stage_tokens qs) as Hx; [|rewrite T1 in Hx; set_solver].
      apply elem_of_flat. exists q, st. split; [done|]. rewrite E. set_solver. }
    pose proof (Hre q st Hq) as Hr. destruct st as [| | | |r k w| | |c n| |]; try done; [by exists None|by destruct w|by exists (Some (c, n))]. }
  split; [done|]. intros c cst Hc. destruct (r_c _ _ _ R c cst Hc) as (ct & _ & F).
  assert (cstage_tokens c cst = []) as Ht.
  { destruct (cstage_tokens c cst) as [|x l] eqn:E; [done|]. assert (x ∈ flat cstage_tokens cs) as Hx; [|rewrite T2 in Hx; set_solver].
    apply elem_of_flat. exists c, cst. split; [done|]. rewrite E. set_solver. }
  destruct cst as [q|q| | |]; try done.
  - destruct (cf_new _ _ _ _ _ F q eq_refl) as (st & Hq & Hw). destruct (Hst q st Hq) as [[[]|] ->]; done.
  - destruct (cf_admin _ _ _ _ _ F q eq_refl) as (st & Hq & Hw). destruct (Hst q st Hq) as [[[]|] ->]; done.
Qed.

Lemma finished_qpair y qs cs q h : rep y qs cs -> qs !! q = Some (finished h) -> exists qp, sy_qpairs y !! q = Some qp /\ cq_outstanding qp = [] /\
  cq_ctrlr qp = fst <$> h /\ forall c n, h = Some (c, n) -> cq_qid qp = n.
Proof.
  intros R Hq. assert (is_free (finished h) = false) as Hf by (by destruct h as [[]|]). destruct (rep_qp _ _ _ _ _ R Hq Hf) as (qp & Hqp & F). exists qp. split; [done|].
  rewrite (qf_out _ _ _ _ _ F), (qf_ctrlr _ _ _ _ _ F). destruct h as [[c n]|]; split_and!; try done. intros c' n' [= <- <-]. by apply (qf_qid _ _ _ _ _ F).
Qed.

Lemma good_settled y : good y -> quiet y = true -> conn_settled y.
Proof.
  intros (qs & cs & R & Hre) Hqt. destruct (quiet_stages _ _ _ R Hre Hqt) as [Hs Hcl].
  assert (forall q qp, sy_qpairs y !! q = Some qp -> exists h, qs !! q = Some (finished h) /\ cq_outstanding qp = [] /\ cq_ctrlr qp = fst <$> h /\
    forall c n, h = Some (c, n) -> cq_qid qp = n) as Hqp.
  { intros q qp H. destruct (r_q' _ _ _ R q) as [st Hq]; [by exists qp|]. destruct (Hs q st Hq) as [h ->]. exists h. split; [done|].
    destruct (finished_qpair _ _ _ _ _ R Hq) as (qp0 & H0 & F). by replace qp0 with qp in * by congruence. }
  assert (forall c ct n, sy_ctrlrs y !! c = Some ct -> n ∈ ck_mask (cl_cc ct) <-> exists q qp, sy_qpairs y !! q = Some qp /\ cq_ctrlr qp = Some c /\ cq_qid qp = n) as Hmask.
  { intros c ct n Hc. rewrite (r_mask _ _ _ R c ct n Hc). split.
    - intros (q & st & Hq & Hh). destruct (Hs q st Hq) as [h ->]. destruct (finished_qpair _ _ _ _ _ R Hq) as (qp & H & _ & Ec & En). exists q, qp. split; [done|].
      destruct h as [[c' n']|]; [|done]. injection Hh as -> ->. split; [done|by apply (En c)].
    - intros (q & qp & H & Ec & En). destruct (Hqp q qp H) as (h & Hq & _ & Ec' & En'). exists q, (finished h). split; [done|]. rewrite Ec in Ec'.
      destruct h as [[c' n']|]; [|done]. injection Ec' as ->. cbn. by rewrite <- En, (En' c' n'). }
  constructor; try done.
  - apply map_empty. intros r. destruct (sy_reqs y !! r) as [rq|] eqn:Hr; [|done]. destruct (r_req _ _ _ R r rq Hr) as (st & Hq & Hst).
    destruct (Hs _ _ Hq) as [[[]|] ->]; done.
  - intros k. rewrite (r_mgmt _ _ _ R k). assert (counted qs = []) as ->; [|done]. destruct (counted qs) as [|x l] eqn:E; [done|]. exfalso.
    assert (x ∈ counted qs) as Hx by (rewrite E; set_solver). apply elem_of_flat in Hx as (q & st & Hq & Hx). destruct (Hs q st Hq) as [[[]|] ->]; cbn in Hx; set_solver.
  - intros q qp H. by destruct (Hqp q qp H) as (h & _ & ? & _).
  - intros c ct Hc. destruct (r_c' _ _ _ R c) as [cst Hcs]; [by exists ct|]. rewrite (Hcl c cst Hcs) in Hcs. destruct (r_c _ _ _ R c _ Hcs) as (x & Hx & F).
    replace x with ct in * by congruence. split; [apply (cf_destruct _ _ _ _ _ F)|]. split.
    + destruct (set_choose_L (ck_mask (cl_cc ct)) (cf_live _ _ _ _ _ F eq_refl)) as [n Hn]. apply (Hmask c ct n Hc) in Hn as (q & qp & ? & ? & _). by exists q, qp.
    + destruct (cf_sub _ _ _ _ _ F) as (sub & Hsub & Hl). exists sub. split; [done|]. by apply Hl.
Qed.

Lemma good_quiet_answered y r q : good y -> quiet y = true -> cared y r q -> r ∈ (sy_answers y).*1 \/ sy_qpairs y !! q = None.
Proof.
  intros G Hqt Hc. pose proof (good_settled y G Hqt) as S. destruct G as (qs & cs & R & Hre). destruct (quiet_stages _ _ _ R Hre Hqt) as [Hs _].
  destruct Hc as [(rq & E & _)|[H|H]]; [by rewrite (st_reqs _ S) in E|by left|]. right. destruct (sy_qpairs y !! q) as [qp|] eqn:Hqp; [|done]. exfalso.
  destruct (r_q' _ _ _ R q) as [st Hq]; [by exists qp|]. destruct (Hs q st Hq) as [h ->].
  assert (is_free (finished h) = false) as Hf by (by destruct h as [[]|]). destruct (rep_qp _ _ _ _ _ R Hq Hf) as (qp0 & Hqp0 & F).
  specialize (H qp Hqp). replace qp0 with qp in * by congruence. rewrite (qf_group _ _ _ _ _ F) in H. by destruct h as [[]|].
Qed.

(** ** Connections are safe *)

(** C5. While hosts and timers keep the rules - a Connect comes with its data in
    one buffer, and no second one on the queue pair before the first is answered;
    a controller is not freed, nor its admin queue pair halfway gone, under a
    queue pair that waits for one of its queue identifiers; counters stay below
    their limit - no sequence of queue pairs, Connect commands, messages, retries,
    disconnections, property commands and changes of configuration makes the
    target follow a dangling pointer or fail an assertion of the code modelled.
    What messages, poll groups' queues, retry pollers and ends of queue pairs will
    work on is there; so are the queue pair of a request, the controller of a
    queue pair, the admin queue pair of a controller and the controllers a
    subsystem lists.  Listed controllers of a subsystem have different identifiers,
    the dynamic ones in its range; the queue pairs of a controller that have no
    Connect command under way have different queue identifiers, all in its mask;
    and every Connect is answered at most once. *)
Theorem connections_safe (hz : Z) (opts : transport_opts) (subs : list conn_subsys) (es : list conn_event) (Hs : forallb fresh_subsys subs = true)
    (Hp : polite_run hz opts es (conn_init subs) = true) :
  exists y, conn_run hz opts es (conn_init subs) = Some y /\ conn_ok y.
Proof. destruct (run_good hz opts es (conn_init subs) (good_init subs Hs) (ledger_init subs) Hp) as (y & E & G & _). exists y. split; [done|]. by apply good_ok. Qed.

(** C9. While the rules are kept and when nothing is under way any more - no
    message, no waiting request, no poller, no queue pair being taken down - every
    Connect command that arrived on a queue pair in its poll group has been
    answered, or the queue pair is gone; no Connect request is left and no poll
    group counts one as outstanding; the mask of every controller is exactly the
    identifiers of its queue pairs; and every controller is listed by its
    subsystem, has a queue pair and is not being destroyed: none is leaked. *)
Theorem connections_settle (hz : Z) (opts : transport_opts) (subs : list conn_subsys) (es : list conn_event) (Hs : forallb fresh_subsys subs = true)
    (Hp : polite_run hz opts es (conn_init subs) = true) :
  exists y, conn_run hz opts es (conn_init subs) = Some y /\
    (quiet y = true -> conn_settled y /\
      forall r q, (r, q) ∈ arrivals hz opts es (conn_init subs) -> r ∈ (sy_answers y).*1 \/ sy_qpairs y !! q = None).
Proof.
  pose proof (good_init subs Hs) as G0. pose proof (ledger_init subs) as D0. destruct (run_good hz opts es _ G0 D0 Hp) as (y & E & G & _).
  destruct (run_cared hz opts es _ y G0 D0 Hp E) as [_ Ha]. exists y. split; [done|]. intros Hq. split; [by apply good_settled|].
  intros r q Hin. apply good_quiet_answered; [done|done|by apply Ha].
Qed.

(** ** A target to look at *)

Definition demo_enable (c : nat) : conn_event := EvProperty c 0 0 0x14 0x460001.
Definition demo_msg (t : Z) : conn_event := EvDeliver t 0 true.
Definition demo_run (es : list conn_event) : option conn_sys := conn_run 1000 demo_opts es (conn_init [demo_subsys]).

(** A controller with its admin queue pair 0, enabled; I/O queue pair 3 joins. *)
Definition demo_open : list conn_event := [demo_new; demo_admin 0; demo_msg 9; demo_msg 1; demo_msg 1].
Definition demo_join : list conn_event := demo_open ++ [demo_enable 2; demo_new; demo_io 3 1 1; demo_msg 9; demo_msg 1; demo_msg 1].
(** Queue pair 5 wants the same identifier. *)
Definition demo_wait : list conn_event := demo_join ++ [demo_new; demo_io 5 1 1; demo_msg 9; demo_msg 1].
Definition demo_close (q : nat) : list conn_event := [EvQpairDisconnect q; EvDrained q; EvFini 0; demo_msg 1].

Lemma connections_safe_witness : exists y, demo_run (demo_wait ++ [EvRetry 0] ++ demo_close 3 ++ demo_close 0) = Some y /\ conn_ok y.
Proof. exact (connections_safe 1000 demo_opts [demo_subsys] (demo_wait ++ [EvRetry 0] ++ demo_close 3 ++ demo_close 0) eq_refl ltac:(vm_compute; reflexivity)). Defined.

Lemma connections_settle_witness : exists y, demo_run (demo_join ++ demo_close 3) = Some y /\ quiet y = true /\ conn_settled y /\
  arrivals 1000 demo_opts (demo_join ++ demo_close 3) (conn_init [demo_subsys]) = [(1%nat, 0%nat); (4%nat, 3%nat)] /\
  (4%nat ∈ (sy_answers y).*1 \/ sy_qpairs y !! 3%nat = None).
Proof.
  destruct (connections_settle 1000 demo_opts [demo_subsys] (demo_join ++ demo_close 3) eq_refl ltac:(vm_compute; reflexivity)) as (y & E & H).
  assert (match demo_run (demo_join ++ demo_close 3) with Some y => quiet y | None => false end = true) as Hq by (vm_compute; reflexivity).
  assert (arrivals 1000 demo_opts (demo_join ++ demo_close 3) (conn_init [demo_subsys]) = [(1%nat, 0%nat); (4%nat, 3%nat)]) as Ha by (vm_compute; reflexivity).
  unfold demo_run in Hq. rewrite E in Hq. exists y. split; [exact E|]. split; [exact Hq|]. destruct (H Hq) as [H1 H2]. split; [exact H1|]. split; [exact Ha|].
  apply H2. rewrite Ha. right. left.
Defined.

(** ** Where a rule is broken *)

(** A host that does not wait: its two Connect commands for one I/O queue pair
    pass the checks of a controller that is not enabled; the first is refused
    and takes the controller from the queue pair. *)
Definition second_connect : list conn_event := demo_open ++ [demo_new; demo_io 3 1 1; demo_io 3 1 1; demo_msg 9; demo_msg 9; demo_msg 1].
(** The controller goes while queue pair 5 waits for the identifier of 3. *)
Definition retry_freed : list conn_event := demo_wait ++ demo_close 3 ++ demo_close 0 ++ [demo_msg 9; demo_msg 1].
(** Its admin queue pair has left its poll group and is still being taken down. *)
Definition retry_leaving : list conn_event := demo_wait ++ [EvQpairDisconnect 0; EvDrained 0].

(** The first Connect command, whose data have no length. *)
Definition empty_connect (q : nat) : conn_event :=
  match demo_admin q with EvConnect q cmd data _ _ mem => EvConnect q cmd data 0 0 mem | e => e end.

(** The states in which an event is too much.  A Connect command whose data are
    not in one buffer, on a queue pair without a controller; the message of a
    Connect command to the controller's thread when the queue pair has no
    controller; a retry whose controller has been freed; a retry whose
    controller's admin queue pair has left its poll group. *)
Definition retrying (y : conn_sys) (i q c : nat) : Prop := exists t qp r rq, sy_pollers y !! i = Some (q, t) /\ sy_qpairs y !! q = Some qp /\
  cq_connect_req qp = Some r /\ sy_reqs y !! r = Some rq /\ cr_qpair rq = q /\ cq_ctrlr qp = Some c.
Inductive rule_broken (y : conn_sys) : conn_event -> Prop :=
| broken_buffer q cmd data len n mem qp : sy_qpairs y !! q = Some qp -> cq_group qp = true -> cq_ctrlr qp = None -> n <> 1 ->
    rule_broken y (EvConnect q cmd data len n mem)
| broken_second t now auth r l rq qp : take_msg t (sy_msgs y) = Some (MsgCtrlrAddIoQpair r, l) -> sy_reqs y !! r = Some rq ->
    sy_qpairs y !! cr_qpair rq = Some qp -> cq_ctrlr qp = None -> rule_broken y (EvDeliver t now auth)
| broken_freed i q c : retrying y i q c -> sy_ctrlrs y !! c = None -> rule_broken y (EvRetry i)
| broken_leaving i q c ct qa qpa : retrying y i q c -> sy_ctrlrs y !! c = Some ct -> cl_admin_qpair ct = Some qa ->
    sy_qpairs y !! qa = Some qpa -> cq_group qpa = false -> rule_broken y (EvRetry i).

Lemma retrying_step hz opts y i q c (P : option conn_sys -> Prop) : retrying y i q c ->
  (forall y1 t r, sy_ctrlrs y1 = sy_ctrlrs y -> sy_qpairs y1 = sy_qpairs y -> P (snd <$> nvmf_ctrlr_add_qpair t q c r y1)) -> P (conn_step hz opts (EvRetry i) y).
Proof.
  intros (t & qp & r & rq & Hi & Hq & Hr & Hrq & E & Hc) H.
  unfold conn_step, conn_do, _retry_qid_check, c_qpair, c_req, c_need, c_get, c_mod, mbind, CM_bind. rewrite Hi. cbn. rewrite Hq, Hr. cbn. rewrite Hrq. cbn.
  rewrite E, Hq, Hc. by apply H.
Qed.

Lemma rule_broken_undefined hz opts y e : rule_broken y e -> conn_step hz opts e y = None.
Proof.
  intros [q cmd data len n mem qp Hq Hg Hc Hn|t now auth r l rq qp Hm Hr Hq Hc|i q c Hi Hc|i q c ct qa qpa Hi Hc Ha Hqa Hg].
  - unfold conn_step, conn_do, connect_exec, connect_check_subsystem, connect_sgroup, nvmf_subsystem_pg_from_connect_cmd, c_qpair, c_req, c_need, c_get, c_mod, c_assert,
      mbind, CM_bind. rewrite Hq, Hg. cbn. rewrite lookup_insert_eq. cbn. rewrite Hq, Hc. cbn. rewrite lookup_insert_eq. cbn. rewrite Hq, Hc. cbn.
    destruct (Z.eqb_spec n 1); [done|]. done.
  - unfold conn_step, conn_do, c_get, c_mod, mbind, CM_bind. rewrite Hm. cbn. unfold nvmf_ctrlr_add_io_qpair, c_qpair, c_req, c_need, mbind, CM_bind. cbn. rewrite Hr. cbn. by rewrite Hq, Hc.
  - apply (retrying_step _ _ _ _ _ _ (fun o => o = None) Hi). intros y1 t r E _. unfold nvmf_ctrlr_add_qpair, c_ctrlr, c_need, mbind, CM_bind. by rewrite E, Hc.
  - apply (retrying_step _ _ _ _ _ _ (fun o => o = None) Hi). intros y1 t r E Eq. unfold nvmf_ctrlr_add_qpair, c_ctrlr, c_qpair, c_need, c_assert, mbind, CM_bind.
    by rewrite E, Hc, Ha, Eq, Hqa, Hg.
Qed.

(** In a target that has kept the rules nothing else can go wrong with a retry. *)
Lemma retry_exact hz opts y i : good y -> ledger y -> low_counters y = true -> conn_step hz opts (EvRetry i) y = None -> rule_broken y (EvRetry i).
Proof.
  intros G D Hl Hn. destruct (polite y (EvRetry i)) eqn:Hp; [by destruct (step_good hz opts y _ G D Hp) as (y1 & E & _); rewrite E in Hn|].
  unfold polite in Hp. rewrite Hl in Hp. cbn in Hp. destruct (sy_pollers y !! i) as [[q t]|] eqn:Hi; [|done]. cbn in Hp.
  destruct (ok_poller _ (good_ok y G) q t (list_elem_of_lookup_2 _ _ _ Hi)) as (qp & r & rq & c & Hq & Hr & Hrq & E & Hc & [ct Hct]).
  rewrite Hq in Hp. cbn in Hp. rewrite Hc in Hp. cbn in Hp. rewrite Hct in Hp. unfold admin_grouped in Hp.
  destruct (cl_admin_qpair ct) as [qa|] eqn:Ha; [|done]. destruct (ok_admin _ (good_ok y G) c ct qa Hct Ha) as (qpa & Hqa & _).
  apply not_true_iff_false in Hp. destruct (cq_group qpa) eqn:Hg; [|by eapply (broken_leaving y i q c ct qa qpa); [exists t, qp, r, rq|..]].
  exfalso. apply Hp. cbn. by rewrite Hqa.
Qed.

(** C40. The rules are needed.  Whatever the state: a Connect command on a queue
    pair without a controller whose data are not in one buffer fails an
    assertion; its message to the controller's thread reads a null pointer when
    the queue pair has no controller any more; a retry for a busy queue
    identifier uses the controller after it has been freed, or the poll group of
    an admin queue pair that has left it.  After a run that keeps the rules these
    are the only ways a retry goes wrong.  And hosts can bring all four about: by
    a first Connect of no length, by two Connect commands at once on one I/O
    queue pair, and by disconnecting while a queue pair waits. *)
Theorem broken_rules_undefined :
  (forall hz opts y e, rule_broken y e -> conn_step hz opts e y = None) /\
  (forall hz opts subs es y i, forallb fresh_subsys subs = true -> polite_run hz opts es (conn_init subs) = true -> conn_run hz opts es (conn_init subs) = Some y ->
    low_counters y = true -> conn_step hz opts (EvRetry i) y = None -> rule_broken y (EvRetry i)) /\
  (exists y, demo_run [demo_new] = Some y /\ rule_broken y (empty_connect 0)) /\
  (exists y, demo_run second_connect = Some y /\ rule_broken y (demo_msg 1)) /\
  (exists y, demo_run retry_freed = Some y /\ rule_broken y (EvRetry 0)) /\
  (exists y, demo_run retry_leaving = Some y /\ polite_run 1000 demo_opts retry_leaving (conn_init [demo_subsys]) = true /\ rule_broken y (EvRetry 0)).
Proof.
  split_and!.
  - apply rule_broken_undefined.
  - intros hz opts subs es y i Hs Hp E Hl Hn. destruct (run_good hz opts es _ (good_init subs Hs) (ledger_init subs) Hp) as (y' & E' & G & D).
    replace y' with y in * by congruence. by apply (retry_exact hz opts).
  - eexists. split; [vm_compute; reflexivity|]. eapply broken_buffer; [reflexivity..|done].
  - eexists. split; [vm_compute; reflexivity|]. eapply broken_second; reflexivity.
  - eexists. split; [vm_compute; reflexivity|]. eapply broken_freed; [repeat eexists; reflexivity|reflexivity].
  - eexists. split; [vm_compute; reflexivity|]. split; [vm_compute; reflexivity|]. eapply broken_leaving; [repeat eexists; reflexivity|reflexivity..].
Qed.

(** A retry that succeeds: queue pair 3 has gone in time. *)
Definition retry_joins : list conn_event := demo_wait ++ demo_close 3 ++ [EvRetry 0; demo_msg 1].

(** A retry that succeeds leaves the pointer to the Connect request in the
    queue pair, and the request is freed with its answer: in a run that keeps
    the rules a queue pair is in use with a dangling [connect_req].  That field
    shares its storage with [first_fused_req] of the queue pair, and on the first
    I/O command that is not fused a first half that is no live request is
    followed: undefined behaviour for every such state of the I/O path. *)
Theorem retry_leaves_dangling_first_half :
  (exists y qp r, demo_run retry_joins = Some y /\ polite_run 1000 demo_opts retry_joins (conn_init [demo_subsys]) = true /\ joined y 5 qp 2 /\
    cq_state qp = SPDK_NVMF_QPAIR_ENABLED /\ cq_connect_req qp = Some r /\ sy_reqs y !! r = None) /\
  (forall (w : world) (heaan_lib : bool) (q rid first : nat) (qp : spdk_nvmf_qpair) (ct : spdk_nvmf_ctrlr) (bdev : spdk_bdev) (desc : spdk_bdev_desc) (cmd : spdk_nvme_cmd),
    Z.land (fuse cmd) SPDK_NVME_CMD_FUSE_MASK = 0 -> qp_first_fused_req qp = Some first -> w_reqs w !! first = None ->
    run_io_cmd heaan_lib q qp ct bdev desc rid cmd w = Undef).
Proof.
  split.
  - destruct (demo_run retry_joins) as [y|] eqn:E; [|vm_compute in E; done]. exists y. vm_compute in E. injection E as <-. eexists _, _. split; [done|].
    split; [vm_compute; reflexivity|]. split; [split; [vm_compute; reflexivity|split; [vm_compute; reflexivity|]]|].
    + intros r rq. vm_compute. done.
    + split_and!; vm_compute; reflexivity.
  - intros w heaan_lib q rid first qp ct bdev desc cmd Hf Hq Hr. unfold run_io_cmd, drop_first_fused, abort_first_fused. rewrite Hf, Hq. change (0 !=? 0) with false. cbv iota.
    assert (set_sc first SPDK_NVME_SC_ABORTED_MISSING_FUSED w = Undef) as E by (unfold set_sc, mod_status, mod_req, get_req, gets, need, mbind, M_bind; cbn; by rewrite Hr).
    unfold mbind, M_bind. by rewrite E.
Qed.

(** ** Statistics, and the entry for transports *)

(** Two Connect commands for a controller that does not exist, one after the
    other, as the rules allow: each takes its queue pair from the unassociated
    ones and adds it to the I/O queue pairs. *)
Definition refused_twice : list conn_event :=
  [EvNewQpair 2 (Some demo_trid); demo_io 0 1 7; demo_msg 9; demo_msg 2; demo_io 0 1 7; demo_msg 9; demo_msg 2].

Lemma refused_connects_counted : polite_run 1000 demo_opts refused_twice (conn_init [demo_subsys]) = true /\
  exists y, demo_run refused_twice = Some y /\ length (sy_answers y) = 2%nat /\ stat_of y 2 = GroupStat 4294967295 0 0 2 2.
Proof.
  split; [vm_compute; reflexivity|]. destruct (demo_run refused_twice) as [y|] eqn:E; [|vm_compute in E; done]. exists y. split; [done|].
  vm_compute in E. injection E as <-. split; vm_compute; reflexivity.
Qed.

(** A transport that makes a Connect command itself for a subsystem that does
    not exist has it taken off a list it was never put on. *)
Lemma own_connect_unknown opts mem y r rq qp : sy_reqs y !! r = Some rq -> sy_qpairs y !! cr_qpair rq = Some qp -> cr_iovcnt rq = 1 ->
  cq_ctrlr qp = None -> cq_group qp = true -> r ∉ cq_outstanding qp -> spdk_nvmf_tgt_find_subsystem (sy_subs y) (cd_subnqn (cr_data rq)) = None ->
  spdk_nvmf_ctrlr_connect opts mem r y = None.
Proof.
  intros Hr Hq Hi Hc Hg Ho Hf.
  assert (forall y1 rq1, sy_reqs y1 !! r = Some rq1 -> cr_qpair rq1 = cr_qpair rq -> cr_iovcnt rq1 = 1 -> cr_data rq1 = cr_data rq -> sy_qpairs y1 = sy_qpairs y ->
    sy_subs y1 = sy_subs y -> nvmf_subsystem_pg_from_connect_cmd r y1 = Some (None, y1)) as Hpg.
  { intros y1 rq1 E1 E2 E3 E4 E5 E6. unfold nvmf_subsystem_pg_from_connect_cmd, c_req, c_qpair, c_need, c_get, c_assert, mbind, CM_bind.
    rewrite E1, E5, E2, Hq, Hc, E3, Hg. cbn. by rewrite E6, E4, Hf. }
  unfold spdk_nvmf_ctrlr_connect, connect_complete, connect_sgroup, connect_remove_outstanding,
    SPDK_NVMF_INVALID_CONNECT_DATA, nvmf_invalid_connect_response, mod_conn_req, c_req, c_qpair, c_need, c_get, c_mod, c_assert, mbind, CM_bind.
  rewrite Hr, Hi. change (1 <? 1) with false. cbv beta iota. rewrite (Hpg y rq) by done. cbn. rewrite Hr. cbn. rewrite lookup_insert_eq. cbn. rewrite Hq, Hc.
  rewrite (Hpg _ (rq <| cr_rsp := ConnectRsp SPDK_NVME_SCT_COMMAND_SPECIFIC SPDK_NVMF_FABRIC_SC_INVALID_PARAM data_ofst_subnqn 1 |>)) by (try apply lookup_insert_eq; done).
  cbn. rewrite lookup_insert_eq. cbn. rewrite Hq. by rewrite bool_decide_eq_false_2.
Qed.
